(* ===== verification/_CoqProject ===== *)
-Q . S2P
Prelude.v
PyString.v
PyDict.v
Scoreboard.v
Cocotb.v
Pulse.v
Alu.v
Mul.v
Div.v
LogicArray.v
Jtag.v
Dmi.v
Utils.v
Axi.v
Dma.v
DmaDrivers.v
DmaScoreboards.v
AhbAxi.v
Concurrent.v
AhbAxiDriver.v
Pmp.v
PmpCsr.v
TriggerLogic.v
Pic.v
PicTests.v
TraceLog.v
CodeFixup.v
Bin2Hex.v
Regex.v
CoreSetting.v
LogText.v
Compress.v
DecIb.v
Csrs.v
ClosedLoop.v
PicRegTests.v
PicClocks.v
PmpTests.v
DecTlu.v
Dec.v
Axi4ToAhb.v
Agents.v
MemBench.v
SmallBenches.v
Phase1Book.v
AddressUpdate.v
Generators.v
WrapText.v
Irq.v
Uvm.v
Duts.v
EnvUnits.v
EnvBuses.v
Environments.v
FileSystem.v
SimResults.v
IndexGen.v
Riscof.v
CiScripts.v
Options.v
ToolFiles.v
