(* ===== verification/Prelude.v ===== *)
(** * Verification development for the Python code of the repository

    The repository holds a RISC-V core (RISC-V-Veer-EL2), SoC projects around it,
    and the Python code that checks and builds them.  This development models
    that Python code: the test benches of the core's blocks, which decide whether
    a piece of hardware is accepted, and the tools that produce programs, traces,
    memory images, hardware text and the address map.  The hardware itself is the
    unit under test: an arbitrary function or state machine in the theorems.

    ** How the benches work

    A bench of src/RISC-V-Veer-EL2/verification/block/<name> has a sequence that
    makes items, a driver that turns items into signal writes, monitors that turn
    signals back into items, and a scoreboard that compares items when the
    simulation is over.  The coroutines are trees of effects ([proc] of Cocotb.v);
    a simulation is the list of the triggers that fired with the values sampled
    then.  ClosedLoop.v and Pulse.v run a driver against a unit, whose outputs may
    depend on all it has seen, and give the samples that the monitors observe.  The central theorems
    ([..._sound_complete]) say of a whole bench which units it accepts: those that
    compute the predicted answers, and no others.  Values that [random] returns
    are arguments, so that the theorems hold for every seed.

    ** Files, and the code they model (block/ stands for
       src/RISC-V-Veer-EL2/verification/block/)

    Shared:
    - Prelude.v: exceptions and [result], bit lemmas and their hint databases
      [zbits] and [zmask], tactics, random draws.
    - PyString.v, Regex.v, PyDict.v: the string methods, the regular expressions,
      the dictionaries and sets of Python.
    - FileSystem.v: a tree of files and directories, with the class [OS] of the
      calls of os, shutil and pathlib and a monad for programs that use them.
    - Scoreboard.v: the check loops of all scoreboards, with the class [PairSpec]
      that a comparison of two items must satisfy.
    - Cocotb.v, Pulse.v, ClosedLoop.v, Concurrent.v: coroutines, runs, closed
      loops, coroutines side by side (start_soon and Combine).
    - LogicArray.v: the interface of cocotb's bit vectors, with its laws and an
      implementation.
    - Utils.v (block/common/utils.py), Axi.v (block/common/axi.py), Csrs.v
      (block/common/csrs.py): helpers, AXI monitor, table of registers.

    Benches:
    - Alu.v, Mul.v, Div.v: block/exu_alu, exu_mul, exu_div.
    - Jtag.v, Dmi.v: block/dmi, the predictor of the TAP against the IEEE 1149.1
      machine ([tap_cycle]; the predictor keeps the instruction register in
      Test-Logic-Reset, where the machine loads IDCODE: [sticky_cycle] is what it
      computes), and the bus functional models with their memories.
    - Dma.v, DmaDrivers.v, DmaScoreboards.v: block/dma.
    - AhbAxi.v, AhbAxiDriver.v: block/lib_ahb_to_axi4.
    - Axi4ToAhb.v: block/lib_axi4_to_ahb.
    - Agents.v: the agents of block/dmi and block/lib_axi4_to_ahb, between the
      sequencers and the bus models: a step relation of agent, sequencer and
      queues ([step]), and the benches that arise from it ([eager_step], [bench]).
    - Pmp.v, PmpCsr.v, PmpTests.v: block/pmp, dec_pmp_ctl, pmp_random, and the
      three tests of block/pmp; [arch_matches] is the architecture's rule for the
      protected ranges.
    - TriggerLogic.v: block/dec_tl, block/lsu_tl.
    - DecTlu.v, Dec.v: block/dec_tlu_ctl, block/dec, over the table of Csrs.v.
    - Pic.v, PicTests.v, PicRegTests.v, PicClocks.v: block/pic, the bench, the
      scoreboards of test_prioritization.py and test_servicing.py, the other tests,
      the sequences, the register interface in closed loop, and the monitor of the
      gated clocks in time.
    - Compress.v, DecIb.v, MemBench.v (dccm, iccm), SmallBenches.v (ifu_mem_ctl,
      dcls): the block of the name.
    - Irq.v: src/RISC-V-Veer-EL2/verification/top/test_pyuvm, the interrupt test of
      the whole core.
    - SimResults.v: block/noxfile.py, the run of a test over the files and its
      verdict, the sessions of the tests and of the linters.
    - Options.v: the options and the command of a whole-core run
      (src/RISC-V-Veer-EL2/verification/top/test_pyuvm/conftest.py, test_pyuvm.py) and the
      generator src/RISC-V-Veer-EL2/configs/veer_config_gen.py.

    How the benches are put together:
    - Uvm.v: components of pyuvm, a store of objects with their attributes, the
      elaboration (constructors, build_phase top down, connect_phase bottom up).
    - Duts.v: the signals of each unit, as the component classes look them up.
    - EnvUnits.v, EnvBuses.v: the component classes of every bench as programs of
      Uvm.v.
    - Environments.v: the tests, what their elaboration gives, and the reset and
      run phases of the base tests.

    Tools:
    - TraceLog.v, LogText.v, CodeFixup.v, CoreSetting.v:
      src/RISC-V-Veer-EL2/tools/riscv-dv.
    - Bin2Hex.v, Generators.v: src/Honours-Project-Packet-Buffering, the memory
      image, the interconnect wrapper and the generator of UVM benches; WrapText.v:
      a reader of the wrapper's text, for its theorem.
    - ToolFiles.v: the log converter, the fix-up and the image converter as programs
      that open, read and write files.
    - Phase1Book.v, AddressUpdate.v: docs/phase1 of
      src/Reliable_Data_Transport_System, the address map workbook and the two
      scripts that move the map.
    - IndexGen.v: src/RISC-V-Veer-EL2/.github/scripts/indexgen/generate.py, the
      pages of the coverage dashboard.
    - Riscof.v: the two plugins of src/RISC-V-Veer-EL2/tools/riscof.
    - CiScripts.v: the scripts that choose the tests of the continuous integration.

    ** The theorems

    - Whole benches accept exactly the right units: [alu_testbench_sound_complete],
      [mul_testbench_sound_complete], [tlu_csrs_access_sound_complete],
      [dec_csr_access_sound_complete], [mem_bench_sound_complete],
      [lsu_tl_sound_complete], [dec_tl_sound_complete],
      [pic_prioritization_verdict], [pic_servicing_round],
      [pic_config_sound_complete], [pic_pending_verdict], [pic_clken_verdict],
      [pic_clken_in_time], [pmp_tests_sound_complete]; and what the tests of the PMP
      exercise: [pmp_tests_coverage].
    - Scoreboards and predictors against a reference: [pmp_scoreboard_tor],
      [pmp_na4_napot_decode], [axi4_to_ahb_check_phase], [pic_predict_optimal],
      [dmi_jtag_check], [alu_predict_reference].
    - Refinement of an abstract machine: [jtag_refines_tap] (the predictor agrees with
      the IEEE 1149.1 machine exactly as long as it does not enter
      Test-Logic-Reset with another instruction than IDCODE; [dmi_jtag_check] shows
      that a correct unit fails the check of the bench there), [dmi_memories_refine].
    - Agents, queues and bus models together: [agents_deliver] (an invariant of the
      step relation, for the five agents at once), [jtag_agent_sets_ir] (from the
      sequence to the register of the predictor), [axi_write_transfers] and
      [axi_read_request_cycle] (which handshakes a sequence makes).
    - Transport through drivers and monitors: [dma_axi_write_roundtrip],
      [ahb_monitor_roundtrip], [jtag_dmi_access], [tlu_monitors_complete] (five of
      the seven tests of the bench), [axi_monitor_conservation] (against the history
      of the handshakes), [dma_tid_exclusive], [irq_results_stale].
    - Termination, time-outs, coroutines side by side: [div_driver_handshake],
      [axi_w_driver_handshake], [axi_r_handshake_overflow],
      [axi4_to_ahb_coordinator], [Combine_spec], [axi_sub_driver_response],
      [debug_driver_answers].
    - Composition of the benches: every test elaborates to a well-formed tree
      ([testbenches_well_formed]), the code before the test drives what the unit
      needs, with the exceptions that [bring_ups_correct] lists, and every scoreboard has a port that a monitor feeds
      ([scoreboards_get_streams]).
    - Legal values and sequences: [csr_table_legal] (the expected value of each
      register is what el2_dec_tlu_ctl.sv reads back), [tlu_randomize_ranges],
      [pic_sequences_accepted], [servicing_sequence_order].
    - Tools: [trace_log_correct], [log_to_csv_program], [code_fixup_separates],
      [code_fixup_program], [settings_classify], [csrdecode_roundtrip],
      [bin2hex_program], [wrap_ports_connected], [verify_block_fails_iff],
      [index_pages_written], [riscof_targets], [parse_yaml_listed], and for the
      address map [address_map_moves], [table_pass],
      [apply_replacements_cascade], [phase1_sheets_agree].

    Several of them state a defect of the code as it is: a scoreboard that passes
    an empty run or does not compare some bits, a queue that overflows, a table
    in which a register shadows another, replacements that feed each other, a
    driver of two channels that acts on one, a monitored clock that nothing checks.

    ** Bounds and fuel

    A monitor's [while True] loop is run by [run_forever] with the length of the
    trace as fuel; [run_forever_fuel] shows that this is enough for a body that
    takes a sample in each round ([productive]), as the monitors of the theorems
    about runs do.  Loops with a time-out recurse on their number of cycles.
    [function_bisect] of Utils.v has fuel for the width of the interval.
    [run_on] of Agents.v has 20 steps: a turn of an agent has at most nine, and the
    queue of one item stops it in the second turn; [stuck] checks it.
    [dec_digits] of Generators.v has more fuel than the number has digits.  The
    runs of a class in Regex.v have the length of the text as fuel
    ([exec_star_step] shows that it never runs out), and a scan one step for each
    character and one for the end.  The depth of [parse_yaml] in CiScripts.v is
    the number of frames that the interpreter has left: a file that imports
    itself exhausts it, and the result is then the RecursionError of the program.
    Machine words are integers with the masks that the code writes; registers of
    the units are not truncated unless the code or the port does so.

    ** What is not modelled

    - cocotb, pyuvm, nox, openpyxl, jinja2, PyYAML and the writers of the csv
      module beyond the documented behaviour that the definitions use; they are
      arguments or classes of operations.  In a closed loop the writes of a driver
      take effect after the clock edge that woke it.  The generation of clocks,
      logging, objections, and the parsers of command lines have no definitions.
    - The bus functional models that are singletons (block/dmi, lib_axi4_to_ahb):
      the object is an argument of its operations, not a global; the widths that
      they read from the signals are arguments.
    - block/dec_tlu_ctl/common.py has no definitions of its own: it is identical to
      block/pmp/common.py, and the tests of its bench do not use it.
    - The programs that the tools and sessions start (make, the linters, the
      assembler, the configuration script): what they return, and what make does to
      the files, is an argument.  So is the reader of XML in SimResults.v.
    - What happens first of two events at the same moment: it is a parameter of the
      clock gate test ([Tie]); at an edge of the bridge bench the bus model polls
      before the agent goes on, which is the order that the event loop gives.
    - Concurrency is modelled where a property needs it: the interleaving of
      writes and responses of the DMA manager, the queues of the bridge benches,
      the coroutines of the interrupt test, the forked handlers of the drivers;
      elsewhere one coroutine runs against the observed signals.
    - Unknown and high-impedance values of signals; signals are integers.
    - The hardware, in SystemVerilog and Verilog. *)

From stdpp Require Import base gmap sets list strings.
From Stdlib Require Import ZArith Lia.

#[global] Open Scope Z_scope.

(** ** Python exceptions and fallible computations *)

Inductive exn :=
  | AssertionError
  | RuntimeError
  | TimeoutError
  | KeyError
  | IndexError
  | AttributeError
  | ValueError
  | TypeError
  | ZeroDivisionError
  | UnboundLocalError
  | NotImplementedError
  | StructError
  | QueueFull
  | FileNotFoundError
  | FileExistsError
  | NotADirectoryError
  | IsADirectoryError
  | SameFileError
  | RecursionError
  | SystemExit (code : Z)
  | PlainException.

#[global] Instance exn_eq_dec : EqDecision exn.
Proof. solve_decision. Defined.

(** A Python call either returns a value or raises. *)
Inductive result (A : Type) :=
  | Ok (a : A)
  | Raise (e : exn).
Arguments Ok {A} a.
Arguments Raise {A} e.

#[global] Instance result_eq_dec `{EqDecision A} : EqDecision (result A).
Proof. solve_decision. Defined.

Definition rbind {A B} (m : result A) (k : A -> result B) : result B :=
  match m with
  | Ok a => k a
  | Raise e => Raise e
  end.

Declare Scope py_scope.
Delimit Scope py_scope with py.
Notation "'let!' x ':=' m 'in' k" := (rbind m (fun x => k))
  (at level 10, x pattern, m at level 100, k at level 200) : py_scope.
#[global] Open Scope py_scope.

(** [assert c] *)
Definition py_assert (c : bool) : result unit :=
  if c then Ok tt else Raise AssertionError.

(** Python truth value of an [int]. *)
Definition truthy (z : Z) : bool := negb (z =? 0).

Definition is_ok {A} (r : result A) : bool :=
  match r with Ok _ => true | Raise _ => false end.

Lemma rbind_ok {A B} (m : result A) (k : A -> result B) b :
  rbind m k = Ok b <-> exists a, m = Ok a /\ k a = Ok b.
Proof.
  destruct m as [a|e]; simpl; split.
  - intros H. by exists a.
  - by intros (a' & [= <-] & H).
  - done.
  - by intros (a' & [=] & _).
Qed.

(** A fallible call on each element, in order. *)
Fixpoint map_result {X Y} (f : X -> result Y) (xs : list X) : result (list Y) :=
  match xs with
  | [] => Ok []
  | x :: xs => let! y := f x in let! ys := map_result f xs in Ok (y :: ys)
  end.

Lemma map_result_app {X Y} (f : X -> result Y) xs ys zs ws :
  map_result f xs = Ok zs -> map_result f ys = Ok ws -> map_result f (xs ++ ys) = Ok (zs ++ ws).
Proof.
  revert zs. induction xs as [|x xs IH]; intros zs; simpl.
  - by intros [= <-] ->.
  - intros H Hy. apply rbind_ok in H as (y & -> & H). apply rbind_ok in H as (zs' & Hz & [= <-]).
    cbn [rbind]. by rewrite (IH _ Hz Hy).
Qed.

Lemma map_result_length {X Y} (f : X -> result Y) xs ys :
  map_result f xs = Ok ys -> length ys = length xs.
Proof.
  revert ys. induction xs as [|x xs IH]; intros ys; simpl; [by intros [= <-]|].
  intros H. apply rbind_ok in H as (y & _ & H). apply rbind_ok in H as (ys' & H & [= <-]).
  simpl. f_equal. by apply IH.
Qed.

Lemma map_result_ok {X Y} (f : X -> result Y) g xs :
  (forall x, x ∈ xs -> f x = Ok (g x)) -> map_result f xs = Ok (g <$> xs).
Proof.
  induction xs as [|x xs IH]; intros H; [done|]. cbn [map_result]. rewrite H by by left.
  cbn [rbind]. rewrite IH by (intros y Hy; apply H; by right). done.
Qed.

Lemma rbind_assoc {A B C} (m : result A) (f : A -> result B) (g : B -> result C) :
  rbind (rbind m f) g = rbind m (fun a => rbind (f a) g).
Proof. by destruct m. Qed.

(** ** Tactics *)

(** Destruct the scrutinee of a [match] of the goal. *)
Ltac case_goal :=
  match goal with
  | |- context [match ?x with _ => _ end] => let E := fresh "E" in destruct x eqn:E
  end.

(** ** Bit-level lemmas *)

Create Rewrite HintDb zbits.
Create Rewrite HintDb zmask.

Lemma testbit_mod_pow2 a w i :
  0 <= w -> Z.testbit (a mod 2 ^ w) i = (i <? w) && Z.testbit a i.
Proof.
  intros Hw. destruct (Z.ltb_spec i w) as [Hi|Hi]; simpl.
  - destruct (Z.ltb_spec i 0).
    + by rewrite !Z.testbit_neg_r by lia.
    + by apply Z.mod_pow2_bits_low.
  - by apply Z.mod_pow2_bits_high.
Qed.

Lemma testbit_shiftl a n i :
  0 <= n -> Z.testbit (Z.shiftl a n) i = (n <=? i) && Z.testbit a (i - n).
Proof.
  intros Hn. destruct (Z.leb_spec n i) as [Hi|Hi]; simpl.
  - rewrite Z.shiftl_spec by lia. done.
  - destruct (Z.ltb_spec i 0).
    + by rewrite Z.testbit_neg_r by lia.
    + by rewrite Z.shiftl_spec_low.
Qed.

Lemma testbit_shiftr a n i :
  0 <= n -> Z.testbit (Z.shiftr a n) i = (0 <=? i) && Z.testbit a (i + n).
Proof.
  intros Hn. destruct (Z.leb_spec 0 i) as [Hi|Hi]; simpl.
  - by rewrite Z.shiftr_spec.
  - by rewrite Z.testbit_neg_r.
Qed.

Lemma testbit_lnot a i : Z.testbit (Z.lnot a) i = (0 <=? i) && negb (Z.testbit a i).
Proof.
  destruct (Z.leb_spec 0 i) as [Hi|Hi]; simpl.
  - by rewrite Z.lnot_spec.
  - by rewrite Z.testbit_neg_r.
Qed.

Lemma testbit_ones w i : 0 <= w -> Z.testbit (Z.ones w) i = (0 <=? i) && (i <? w).
Proof. intros Hw. by rewrite Z.testbit_ones. Qed.

Lemma testbit_one i : Z.testbit 1 i = (i =? 0).
Proof.
  destruct (Z.eqb_spec i 0) as [->|Hi]; [done|].
  destruct (Z.ltb_spec i 0).
  - by rewrite Z.testbit_neg_r.
  - change 1 with (2 ^ 0). apply Z.pow2_bits_false. lia.
Qed.

Lemma testbit_bounded a w i : 0 <= a < 2 ^ w -> w <= i -> Z.testbit a i = false.
Proof.
  intros [H0 H1] Hi. destruct (Z.ltb_spec w 0).
  - rewrite Z.pow_neg_r in H1 by lia. lia.
  - rewrite <- (Z.mod_small a (2 ^ w)) by lia. by apply Z.mod_pow2_bits_high.
Qed.

Lemma testbit_neg_index a i : i < 0 -> Z.testbit a i = false.
Proof. apply Z.testbit_neg_r. Qed.

(** A non-negative integer without bits from [w] up is below [2^w]. *)
Lemma bounded_by_bits a w :
  0 <= w -> 0 <= a -> (forall i, w <= i -> Z.testbit a i = false) -> a < 2 ^ w.
Proof.
  intros Hw Ha Hb.
  assert (a = a mod 2 ^ w) as ->.
  { apply Z.bits_inj'. intros i Hi. rewrite testbit_mod_pow2 by done.
    destruct (Z.ltb_spec i w); simpl; [done|]. by apply Hb. }
  apply Z.mod_pos_bound. lia.
Qed.

(** [a & (2^w - 1)] is [a mod 2^w]. *)
Lemma land_mask a w m : 0 <= w -> m = Z.ones w -> Z.land a m = a mod 2 ^ w.
Proof. intros Hw ->. by apply Z.land_ones. Qed.

Lemma land_mask32 a : Z.land a 0xFFFFFFFF = a mod 2 ^ 32.
Proof. by apply land_mask. Qed.
Lemma land_mask16 a : Z.land a 0xFFFF = a mod 2 ^ 16.
Proof. by apply land_mask. Qed.
Lemma land_mask8 a : Z.land a 0xFF = a mod 2 ^ 8.
Proof. by apply land_mask. Qed.
Lemma land_mask5 a : Z.land a 31 = a mod 2 ^ 5.
Proof. by apply land_mask. Qed.
Lemma land_1 a : Z.land a 1 = a mod 2 ^ 1.
Proof. by apply land_mask. Qed.

#[export] Hint Rewrite Z.land_spec Z.lor_spec Z.lxor_spec Z.ldiff_spec testbit_lnot
  testbit_one Z.bits_0 : zbits.
#[export] Hint Rewrite testbit_mod_pow2 testbit_shiftl testbit_shiftr testbit_ones
  using lia : zbits.
#[export] Hint Rewrite land_mask32 land_mask16 land_mask8 land_mask5 : zmask.

Ltac bool_simpl :=
  rewrite ?andb_true_r, ?andb_false_r, ?andb_true_l, ?andb_false_l,
    ?orb_true_r, ?orb_false_r, ?orb_true_l, ?orb_false_l,
    ?xorb_true_r, ?xorb_false_r, ?xorb_true_l, ?xorb_false_l, ?negb_involutive.

(** Decide the integer comparisons of a goal, with [lia] pruning the branches. *)
Ltac split_cmp :=
  repeat match goal with
  | |- context [?a <? ?b] => destruct (Z.ltb_spec a b); try lia
  | |- context [?a <=? ?b] => destruct (Z.leb_spec a b); try lia
  | |- context [?a =? ?b] => destruct (Z.eqb_spec a b); try lia
  end.

(** Bits outside of the known range of a bounded variable vanish. *)
Ltac kill_bits :=
  repeat match goal with
  | |- context [Z.testbit ?a ?i] =>
      first [ rewrite (testbit_neg_index a i) by lia
            | match goal with H : 0 <= a < 2 ^ ?w |- _ =>
                rewrite (testbit_bounded a w i H) by lia end ]
  end.

(** Equality of two integers, bit by bit. *)
Ltac bits_ext :=
  apply Z.bits_inj'; let i := fresh "i" in let Hi := fresh "Hi" in intros i Hi;
  autorewrite with zbits; split_cmp; simpl; kill_bits; bool_simpl;
  try reflexivity; try (f_equal; lia); try (repeat f_equal; lia).

Lemma lor_bound a b w :
  0 <= a < 2 ^ w -> 0 <= b < 2 ^ w -> 0 <= Z.lor a b < 2 ^ w.
Proof.
  intros Ha Hb. assert (0 <= w). { destruct (Z.ltb_spec w 0); [|lia]. rewrite Z.pow_neg_r in Ha; lia. }
  split; [apply Z.lor_nonneg; lia|].
  apply bounded_by_bits; [done|apply Z.lor_nonneg; lia|].
  intros i Hi. rewrite Z.lor_spec. by rewrite (testbit_bounded a w), (testbit_bounded b w).
Qed.

Lemma lxor_bound a b w :
  0 <= a < 2 ^ w -> 0 <= b < 2 ^ w -> 0 <= Z.lxor a b < 2 ^ w.
Proof.
  intros Ha Hb. assert (0 <= w). { destruct (Z.ltb_spec w 0); [|lia]. rewrite Z.pow_neg_r in Ha; lia. }
  assert (0 <= Z.lxor a b) by (apply Z.lxor_nonneg; lia).
  split; [done|]. apply bounded_by_bits; [done..|].
  intros i Hi. rewrite Z.lxor_spec. by rewrite (testbit_bounded a w), (testbit_bounded b w).
Qed.

(** [&] with a non-negative number can only clear bits. *)
Lemma land_bound a b w : 0 <= a < 2 ^ w -> 0 <= Z.land a b < 2 ^ w.
Proof.
  intros Ha. assert (0 <= w). { destruct (Z.ltb_spec w 0); [|lia]. rewrite Z.pow_neg_r in Ha; lia. }
  assert (0 <= Z.land a b) by (apply Z.land_nonneg; lia).
  split; [done|]. apply bounded_by_bits; [done..|].
  intros i Hi. rewrite Z.land_spec. by rewrite (testbit_bounded a w).
Qed.

Lemma pow2_bound n w : 0 <= n < w -> 0 <= 2 ^ n < 2 ^ w.
Proof. intros H. split; [apply Z.pow_nonneg; lia|]. apply Z.pow_lt_mono_r; lia. Qed.

Lemma shiftr_bound a n w : 0 <= n -> 0 <= a < 2 ^ w -> 0 <= Z.shiftr a n < 2 ^ w.
Proof.
  intros Hn Ha. rewrite Z.shiftr_div_pow2 by lia.
  assert (0 < 2 ^ n) by (apply Z.pow_pos_nonneg; lia). split; [apply Z.div_pos; lia|].
  apply Z.le_lt_trans with a; [|lia]. apply Z.div_le_upper_bound; nia.
Qed.

(** [int(v) & 1] as a bit. *)
Lemma bit_of a i : 0 <= i -> Z.land (Z.shiftr a i) 1 = Z.b2z (Z.testbit a i).
Proof. intros Hi. rewrite land_1. change (2 ^ 1) with 2. by rewrite Z.testbit_spec', Z.shiftr_div_pow2 by lia. Qed.

(** ** Counting set bits *)

Fixpoint pos_popcount (p : positive) : Z :=
  match p with
  | xH => 1
  | xO p => pos_popcount p
  | xI p => 1 + pos_popcount p
  end.

(** [bin(z).count("1")]: [bin] prints the sign and the digits of [|z|]. *)
Definition bin_count_ones (z : Z) : Z :=
  match z with
  | 0 => 0
  | Zpos p => pos_popcount p
  | Zneg p => pos_popcount p
  end.

(** ** Lists *)

(** [next((i for i in range(n) if p(i)), default)] *)
Definition next_in_range (n : nat) (p : Z -> bool) (default : Z) : Z :=
  match List.find p (List.map Z.of_nat (seq 0 n)) with
  | Some i => i
  | None => default
  end.

(** The first index satisfying [p], or the default when there is none. *)
Lemma next_in_range_spec n p d :
  (exists i, 0 <= i < Z.of_nat n /\ p i = true /\ (forall j, 0 <= j < i -> p j = false)
     /\ next_in_range n p d = i)
  \/ ((forall j, 0 <= j < Z.of_nat n -> p j = false) /\ next_in_range n p d = d).
Proof.
  unfold next_in_range. cut (forall k,
    (exists i, Z.of_nat k <= i < Z.of_nat (k + n) /\ p i = true
       /\ (forall j, Z.of_nat k <= j < i -> p j = false)
       /\ List.find p (List.map Z.of_nat (seq k n)) = Some i)
    \/ ((forall j, Z.of_nat k <= j < Z.of_nat (k + n) -> p j = false)
       /\ List.find p (List.map Z.of_nat (seq k n)) = None)).
  { intros H. destruct (H 0%nat) as [(i & ? & ? & ? & ->)|[? ->]]; [left|right].
    - exists i. repeat split; auto; lia.
    - split; [|done]. intros; apply H0; lia. }
  induction n as [|n IH]; intros k.
  - right. split; [intros; lia|done].
  - simpl. destruct (p (Z.of_nat k)) eqn:E.
    + left. exists (Z.of_nat k). repeat split; auto; lia.
    + destruct (IH (S k)) as [(i & ? & ? & Hj & ->)|[Hj ->]]; [left|right].
      * exists i. repeat split; auto; try lia. intros j Hk.
        destruct (decide (j = Z.of_nat k)) as [->|]; [done|]. apply Hj; lia.
      * split; [|done]. intros j Hk.
        destruct (decide (j = Z.of_nat k)) as [->|]; [done|]. apply Hj; lia.
Qed.

(** [x in xs] on strings. *)
Definition str_in (x : string) (xs : list string) : bool := existsb (String.eqb x) xs.

(** ** Random choices

    A call of the [random] module is a function of an arbitrary integer drawn
    by the generator: quantifying over the drawn integers ranges over every
    value the call can return. *)

(** [random.randrange(lo, hi)] *)
Definition randrange (lo hi : Z) (r : Z) : Z := lo + r mod (hi - lo).

Lemma randrange_bounds lo hi r : lo < hi -> lo <= randrange lo hi r < hi.
Proof. intros H. unfold randrange. pose proof (Z.mod_pos_bound r (hi - lo)). lia. Qed.

(** Every value of the interval is drawn by some integer. *)
Lemma randrange_onto lo hi v : lo <= v < hi -> exists r, randrange lo hi r = v.
Proof. intros H. exists (v - lo). unfold randrange. rewrite Z.mod_small by lia. lia. Qed.

(** [random.randint(lo, hi)] *)
Definition randint (lo hi : Z) (r : Z) : Z := randrange lo (hi + 1) r.

(** [random.choice(xs)], [IndexError] on an empty sequence. *)
Definition choice {A} (xs : list A) (r : Z) : result A :=
  match xs !! Z.to_nat (r mod Z.of_nat (length xs)) with
  | Some x => Ok x
  | None => Raise IndexError
  end.

Lemma choice_in {A} (xs : list A) r :
  xs <> [] -> exists x, choice xs r = Ok x /\ In x xs.
Proof.
  intros Hne. unfold choice. set (n := Z.of_nat (length xs)).
  assert (0 < n). { destruct xs; [done|]. subst n. simpl. lia. }
  pose proof (Z.mod_pos_bound r n). 
  destruct (lookup_lt_is_Some_2 xs (Z.to_nat (r mod n))) as [x Hx]; [lia|].
  rewrite Hx. exists x. split; [done|]. apply list_elem_of_In. by eapply list_elem_of_lookup_2.
Qed.

(** ** Splitting integers at a bit position *)

Lemma lor_disjoint a b : Z.land a b = 0 -> Z.lor a b = a + b.
Proof. intros H. pose proof (Z.add_lor_land a b). lia. Qed.

(** The low part and a shifted high part do not overlap. *)
Lemma lor_low_high a b k : 0 <= k -> 0 <= a < 2 ^ k -> Z.lor a (Z.shiftl b k) = a + b * 2 ^ k.
Proof.
  intros Hk Ha. rewrite lor_disjoint; [by rewrite Z.shiftl_mul_pow2|]. bits_ext.
Qed.

Lemma ldiff_pow2 a k : 0 <= k -> Z.testbit a k = true -> Z.land a (Z.lnot (2 ^ k)) = a - 2 ^ k.
Proof.
  intros Hk Hb. rewrite Z.sub_nocarry_ldiff.
  - bits_ext.
  - apply Z.bits_inj'. intros i Hi. rewrite Z.ldiff_spec, Z.pow2_bits_eqb, Z.bits_0 by lia.
    destruct (Z.eqb_spec k i) as [->|]; [by rewrite Hb|done].
Qed.

Lemma lor_pow2 a k :
  0 <= k -> Z.lor a (2 ^ k) = if Z.testbit a k then a else a + 2 ^ k.
Proof.
  intros Hk. destruct (Z.testbit a k) eqn:Hb.
  - apply Z.bits_inj'. intros i Hi. rewrite Z.lor_spec, Z.pow2_bits_eqb by lia.
    destruct (Z.eqb_spec k i) as [->|]; [by rewrite Hb|by rewrite orb_false_r].
  - apply lor_disjoint. apply Z.bits_inj'. intros i Hi.
    rewrite Z.land_spec, Z.pow2_bits_eqb, Z.bits_0 by lia.
    destruct (Z.eqb_spec k i) as [->|]; [by rewrite Hb|by rewrite andb_false_r].
Qed.

Lemma lxor_pow2 a k :
  0 <= k -> Z.lxor a (2 ^ k) = if Z.testbit a k then a - 2 ^ k else a + 2 ^ k.
Proof.
  intros Hk. destruct (Z.testbit a k) eqn:Hb.
  - rewrite <- ldiff_pow2 by done.
    apply Z.bits_inj'. intros i Hi.
    rewrite Z.lxor_spec, Z.land_spec, Z.lnot_spec, Z.pow2_bits_eqb by lia.
    destruct (Z.eqb_spec k i) as [->|]; [by rewrite Hb|by destruct (Z.testbit a i)].
  - rewrite <- lor_disjoint.
    + apply Z.bits_inj'. intros i Hi. rewrite Z.lor_spec, Z.lxor_spec, Z.pow2_bits_eqb by lia.
      destruct (Z.eqb_spec k i) as [->|]; [by rewrite Hb|by destruct (Z.testbit a i)].
    + apply Z.bits_inj'. intros i Hi. rewrite Z.land_spec, Z.pow2_bits_eqb, Z.bits_0 by lia.
      destruct (Z.eqb_spec k i) as [->|]; [by rewrite Hb|by rewrite andb_false_r].
Qed.

Lemma land_lnot_pow2 a k :
  0 <= k -> Z.land a (Z.lnot (2 ^ k)) = if Z.testbit a k then a - 2 ^ k else a.
Proof.
  intros Hk. destruct (Z.testbit a k) eqn:Hb; [by apply ldiff_pow2|].
  apply Z.bits_inj'. intros i Hi.
  rewrite Z.land_spec, Z.lnot_spec, Z.pow2_bits_eqb by lia.
  destruct (Z.eqb_spec k i) as [->|]; [by rewrite Hb|by rewrite andb_true_r].
Qed.

(** The leading one of a [w]-bit integer. *)
Lemma log2_first_bit a k :
  Z.testbit a k = true -> 0 <= k -> 0 <= a -> (forall j, k < j -> Z.testbit a j = false) ->
  Z.log2 a = k.
Proof.
  intros Hk Hk0 Ha Hj. apply Z.log2_bits_unique; [done|]. intros m Hm. apply Hj. lia.
Qed.

Fixpoint bits_sum (a : Z) (n : nat) : Z :=
  match n with
  | O => 0
  | S n => Z.b2z (Z.testbit a (Z.of_nat n)) + bits_sum a n
  end.

Lemma bits_sum_double a n : bits_sum (2 * a) (S n) = bits_sum a n.
Proof.
  induction n as [|n IH].
  - cbn [bits_sum]. change (Z.of_nat 0) with 0. by rewrite Z.testbit_even_0.
  - change (bits_sum (2 * a) (S (S n))) with
      (Z.b2z (Z.testbit (2 * a) (Z.of_nat (S n))) + bits_sum (2 * a) (S n)).
    rewrite IH. rewrite Nat2Z.inj_succ, Z.testbit_even_succ by lia. done.
Qed.

Lemma bits_sum_double_succ a n : bits_sum (2 * a + 1) (S n) = 1 + bits_sum a n.
Proof.
  induction n as [|n IH].
  - cbn [bits_sum]. change (Z.of_nat 0) with 0. by rewrite Z.testbit_odd_0.
  - change (bits_sum (2 * a + 1) (S (S n))) with
      (Z.b2z (Z.testbit (2 * a + 1) (Z.of_nat (S n))) + bits_sum (2 * a + 1) (S n)).
    rewrite IH. rewrite Nat2Z.inj_succ, Z.testbit_odd_succ by lia. cbn [bits_sum]. lia.
Qed.

Lemma bits_sum_0 n : bits_sum 0 n = 0.
Proof. induction n as [|n IH]; simpl; [done|]. by rewrite Z.bits_0, IH. Qed.

(** [bin(a).count("1")] of a [n]-bit integer is the sum of its bits. *)
Lemma bin_count_ones_bits a n :
  0 <= a < 2 ^ Z.of_nat n -> bin_count_ones a = bits_sum a n.
Proof.
  revert n. destruct a as [|p|p]; intros n Ha; [by rewrite bits_sum_0| |lia]. simpl.
  revert n Ha. induction p as [p IH|p IH|]; intros n Ha;
    (destruct n as [|n]; [simpl in Ha; lia|]); rewrite Nat2Z.inj_succ, Z.pow_succ_r in Ha by lia.
  - change (Z.pos p~1) with (2 * Z.pos p + 1) in *. rewrite bits_sum_double_succ. simpl.
    rewrite <- IH; lia.
  - change (Z.pos p~0) with (2 * Z.pos p) in *. rewrite bits_sum_double. apply IH. lia.
  - change 1 with (2 * 0 + 1). rewrite bits_sum_double_succ, bits_sum_0. done.
Qed.

Lemma bits_sum_bound a n : 0 <= bits_sum a n <= Z.of_nat n.
Proof. induction n as [|n IH]; [simpl; lia|]. simpl bits_sum. destruct (Z.testbit _ _); simpl Z.b2z; lia. Qed.

(** A two-digit number in mixed radix is bounded by the product of the radices. *)
Lemma mixed_radix_bound P Q x y : 0 <= x < P -> 0 <= y < Q -> 0 <= Q * x + y < P * Q.
Proof. intros Hx Hy. nia. Qed.

Lemma Forall2_diag_iff {A} (P : A -> A -> Prop) (l : list A) :
  Forall2 P l l <-> Forall (fun x => P x x) l.
Proof. induction l as [|x l IH]; [done|]. by rewrite Forall2_cons, Forall_cons, IH. Qed.

(** Predicates that agree on each element. *)
Lemma Forall_iff_each {A} (P Q : A -> Prop) (l : list A) :
  Forall (fun x => P x <-> Q x) l -> (Forall P l <-> Forall Q l).
Proof. induction 1 as [|x l Hx _ IH]; [done|]. by rewrite !Forall_cons, Hx, IH. Qed.
