(* ===== verification/PyString.v ===== *)
(** * The string methods of Python that the tools use

    Executable definitions on [string], whose characters are the code points
    below 256. *)

From S2P Require Import Prelude.
From stdpp Require Import base list sorting strings.
From Stdlib Require Import Ascii ZArith Lia.

#[local] Open Scope string_scope.
#[local] Open Scope list_scope.

(** [c.isspace()] *)
Definition is_space (c : ascii) : bool :=
  let n := N_of_ascii c in
  (((9 <=? n) && (n <=? 13)) || ((28 <=? n) && (n <=? 32)) || (n =? 133) || (n =? 160))%N.

(** [c.lower()], for the characters of ASCII. *)
Definition char_lower (c : ascii) : ascii :=
  let n := N_of_ascii c in
  if ((65 <=? n) && (n <=? 90))%N then ascii_of_N (n + 32) else c.

Fixpoint lower (s : string) : string :=
  match s with
  | EmptyString => EmptyString
  | String c s => String (char_lower c) (lower s)
  end.

(** [s.split(c)]: the pieces between the occurrences of [c]. *)
Fixpoint split_char (c : ascii) (s : string) : list string :=
  match s with
  | EmptyString => [EmptyString]
  | String a s =>
      if Ascii.eqb a c then EmptyString :: split_char c s
      else match split_char c s with
           | [] => [String a EmptyString]
           | p :: ps => String a p :: ps
           end
  end.

(** The part before the first [c] and the part after it, if [c] occurs. *)
Fixpoint cut (c : ascii) (s : string) : option (string * string) :=
  match s with
  | EmptyString => None
  | String a s =>
      if Ascii.eqb a c then Some (EmptyString, s)
      else match cut c s with
           | Some (p, q) => Some (String a p, q)
           | None => None
           end
  end.

(** The longest prefix without white space, and the rest. *)
Fixpoint span_nonspace (s : string) : string * string :=
  match s with
  | EmptyString => (EmptyString, EmptyString)
  | String a s' =>
      if is_space a then (EmptyString, s)
      else let '(p, q) := span_nonspace s' in (String a p, q)
  end.

Fixpoint lstrip (s : string) : string :=
  match s with
  | EmptyString => EmptyString
  | String a s' => if is_space a then lstrip s' else s
  end.

Fixpoint rstrip (s : string) : string :=
  match s with
  | EmptyString => EmptyString
  | String a s' =>
      match rstrip s' with
      | EmptyString => if is_space a then EmptyString else String a EmptyString
      | t => String a t
      end
  end.

(** [s.strip()] *)
Definition strip (s : string) : string := rstrip (lstrip s).

(** [s.split()]: the maximal runs without white space. *)
Fixpoint split_ws (s : string) : list string :=
  match s with
  | EmptyString => []
  | String a s' =>
      if is_space a then split_ws s'
      else match s' with
           | EmptyString => [String a EmptyString]
           | String b _ =>
               if is_space b then String a EmptyString :: split_ws s'
               else match split_ws s' with
                    | [] => [String a EmptyString]
                    | w :: ws => String a w :: ws
                    end
           end
  end.

(** [s * n] *)
Fixpoint repeat_str (s : string) (n : nat) : string :=
  match n with O => EmptyString | S n => s +:+ repeat_str s n end.

Example split_ws_example : split_ws "  lw   a0,0(sp) " = ["lw"; "a0,0(sp)"].
Proof. reflexivity. Qed.

Example split_char_example : split_char ","%char "a0,0(sp),," = ["a0"; "0(sp)"; ""; ""].
Proof. reflexivity. Qed.

(** ** Searching and replacing

    These definitions are also used on texts in UTF-8: no character of a text in
    UTF-8 contains the first byte of another one, so that an occurrence of the
    bytes of a valid text is an occurrence of its characters. *)

(** [s.startswith(p)] *)
Fixpoint starts_with (p s : string) : bool :=
  match p, s with
  | EmptyString, _ => true
  | String a p, String b s => if Ascii.eqb a b then starts_with p s else false
  | String _ _, EmptyString => false
  end.

(** [p in s] *)
Fixpoint contains (p s : string) : bool :=
  if starts_with p s then true else match s with EmptyString => false | String _ s => contains p s end.

(** [re.sub] of an alternation of literal texts, each with its replacement: at
    each position the first of them that matches is replaced, and the scan goes
    on after the match.  [skip] counts the characters of a match still to drop.
    No text of the table is empty. *)
Fixpoint sub_from (table : list (string * string)) (skip : nat) (s : string) : string :=
  match s with
  | EmptyString => EmptyString
  | String a s' =>
      match skip with
      | S skip => sub_from table skip s'
      | O =>
          match List.find (fun e => starts_with e.1 s) table with
          | Some e => e.2 +:+ sub_from table (String.length e.1 - 1) s'
          | None => String a (sub_from table 0 s')
          end
      end
  end.

Definition re_sub (table : list (string * string)) (s : string) : string := sub_from table 0 s.

(** [s.replace(old, new)] *)
Definition replace (old new s : string) : string := re_sub [(old, new)] s.

(** [s.replace(old, new, 1)] *)
Fixpoint drop_str (n : nat) (s : string) : string :=
  match n, s with
  | S n, String _ s => drop_str n s
  | _, _ => s
  end.

Fixpoint replace_first (old new s : string) : string :=
  if starts_with old s then new +:+ drop_str (String.length old) s
  else match s with
       | EmptyString => EmptyString
       | String a s => String a (replace_first old new s)
       end.

(** [f"{s:<n}"]: [s] padded with blanks to [n] characters. *)
Definition ljust (n : nat) (s : string) : string :=
  s +:+ repeat_str " " (n - String.length s).

(** [s[:-1]] *)
Fixpoint drop_last (s : string) : string :=
  match s with
  | EmptyString => EmptyString
  | String _ EmptyString => EmptyString
  | String c s => String c (drop_last s)
  end.

(** [sep.join(xs)] *)
Fixpoint join (sep : string) (xs : list string) : string :=
  match xs with
  | [] => EmptyString
  | [x] => x
  | x :: xs => x +:+ sep +:+ join sep xs
  end.

Definition newline : string := String "010"%char EmptyString.

Example replace_example : replace "aa" "b" "aaaxa" = "baxa".
Proof. reflexivity. Qed.

Example re_sub_example : re_sub [("a", "b"); ("b", "c")] "abc" = "bcc".
Proof. reflexivity. Qed.

Lemma append_cons a s t : String a s +:+ t = String a (s +:+ t).
Proof. reflexivity. Qed.

Lemma append_nil_l t : EmptyString +:+ t = t.
Proof. reflexivity. Qed.

Lemma append_assoc s t u : (s +:+ t) +:+ u = s +:+ (t +:+ u).
Proof. induction s as [|a s IH]; [done|]. exact (f_equal (String a) IH). Qed.

Lemma append_empty_r s : s +:+ EmptyString = s.
Proof. induction s as [|a s IH]; [done|]. exact (f_equal (String a) IH). Qed.

(** A prefix of the length of a first part is that part. *)
Lemma starts_with_same_length p s t :
  String.length p = String.length s -> starts_with p (s +:+ t) = String.eqb p s.
Proof.
  revert s. induction p as [|a p IH]; intros [|b s] H; cbn [String.length] in H; try done.
  rewrite append_cons. cbn [starts_with String.eqb]. rewrite (IH s) by lia.
  by destruct (Ascii.eqb a b).
Qed.

(** Without an occurrence nothing is replaced. *)
Lemma replace_absent old new s : contains old s = false -> replace old new s = s.
Proof.
  unfold replace, re_sub. induction s as [|a s IH]; [done|]. intros H.
  cbn [contains] in H. destruct (starts_with old (String a s)) eqn:Hp; [done|].
  cbn [sub_from List.find fst]. rewrite Hp. by rewrite IH.
Qed.

(** A match is dropped. *)
Lemma sub_from_skip table s t : sub_from table (String.length s) (s +:+ t) = sub_from table 0 t.
Proof. induction s as [|a s IH]; [by destruct t|]. exact IH. Qed.

(** ** The order of strings *)

Definition str_le (p q : string) : Prop := String.leb p q = true.

#[export] Instance str_le_dec : RelDecision str_le.
Proof. intros p q. unfold str_le. apply _. Defined.

#[export] Instance str_le_total : Total str_le.
Proof. intros p q. apply String.leb_total. Qed.

#[export] Instance str_le_antisym : AntiSymm (=) str_le.
Proof. intros p q. apply String.leb_antisym. Qed.

Lemma leb_cons a b s t :
  String.leb (String a s) (String b t) =
  match Ascii.compare a b with Eq => String.leb s t | Lt => true | Gt => false end.
Proof. unfold String.leb. simpl. by destruct (Ascii.compare a b). Qed.

#[export] Instance str_le_trans : Transitive str_le.
Proof.
  unfold str_le. intros p. induction p as [|a p IH]; intros [|b q] [|c r] H1 H2; try done.
  rewrite leb_cons in H1, H2 |- *. unfold Ascii.compare in *.
  destruct (N.compare_spec (N_of_ascii a) (N_of_ascii b)) as [Hab|Hab|Hab],
    (N.compare_spec (N_of_ascii b) (N_of_ascii c)) as [Hbc|Hbc|Hbc],
    (N.compare_spec (N_of_ascii a) (N_of_ascii c)) as [Hac|Hac|Hac]; try done; try lia.
  eauto.
Qed.

(** Sorting forgets the order of a list without duplicates of strings. *)
Lemma sort_unique (l l' : list string) : l ≡ₚ l' -> merge_sort str_le l = merge_sort str_le l'.
Proof.
  intros H. apply (Sorted_unique str_le).
  - apply Sorted_merge_sort, _.
  - apply Sorted_merge_sort, _.
  - by rewrite !merge_sort_Permutation.
Qed.
