(* ===== verification/PyDict.v ===== *)
(** * Dicts and sets of Python as lists

    A dict is the list of its items in insertion order: [d[k] = v] keeps the
    place of a key that is there and appends a new one.  A set whose order does
    not matter is the list of its elements in the order of their first
    addition. *)

From S2P Require Import Prelude.
From stdpp Require Import base list.

#[local] Open Scope list_scope.

Section Dict.
Context {K V : Type} `{EqDecision K}.

Fixpoint dict_set (k : K) (v : V) (d : list (K * V)) : list (K * V) :=
  match d with
  | [] => [(k, v)]
  | e :: d => if decide (e.1 = k) then (k, v) :: d else e :: dict_set k v d
  end.

Fixpoint dict_get (k : K) (d : list (K * V)) : option V :=
  match d with
  | [] => None
  | e :: d => if decide (e.1 = k) then Some e.2 else dict_get k d
  end.

Definition set_add (k : K) (s : list K) : list K := if decide (k ∈ s) then s else s ++ [k].
End Dict.

(** * Theorems *)

Section DictLemmas.
Context {K V : Type} `{EqDecision K}.
Implicit Types (k : K) (v : V) (d : list (K * V)).

Lemma dict_set_fresh k v d :
  k ∉ d.*1 -> dict_set k v d = d ++ [(k, v)].
Proof.
  induction d as [|[k' v'] d IH]; [done|]. cbn. intros H. apply not_elem_of_cons in H as [H1 H2].
  destruct (decide (k' = k)) as [E|_]; [by symmetry in E|]. by rewrite IH.
Qed.

Lemma dict_get_set k k' v d :
  dict_get k (dict_set k' v d) = if decide (k' = k) then Some v else dict_get k d.
Proof.
  induction d as [|[k0 v0] d IH]; cbn; [done|].
  destruct (decide (k0 = k')) as [->|Hn]; cbn.
  - by destruct (decide (k' = k)).
  - rewrite IH. destruct (decide (k0 = k)) as [->|]; [|done]. by destruct (decide (k' = k)) as [E|]; [destruct (Hn (eq_sym E))|].
Qed.

Lemma dict_set_keys k k' v d : k ∈ (dict_set k' v d).*1 <-> k = k' \/ k ∈ d.*1.
Proof.
  induction d as [|[k0 v0] d IH]; cbn; [by rewrite elem_of_cons|].
  destruct (decide (k0 = k')) as [->|Hn]; cbn; rewrite !elem_of_cons; [tauto|]. rewrite IH. tauto.
Qed.

Lemma dict_set_NoDup k v d : NoDup d.*1 -> NoDup (dict_set k v d).*1.
Proof.
  induction d as [|[k0 v0] d IH]; cbn; [intros _; apply NoDup_singleton|].
  intros [H1 H2]%NoDup_cons. destruct (decide (k0 = k)) as [->|Hn]; cbn; apply NoDup_cons; [done|].
  split; [|by apply IH]. by intros [->|]%dict_set_keys.
Qed.

Lemma dict_get_elem k v d : NoDup d.*1 -> (k, v) ∈ d <-> dict_get k d = Some v.
Proof.
  induction d as [|[k0 v0] d IH]; cbn; [intros _; split; [by intros ?%not_elem_of_nil|done]|].
  intros [H1 H2]%NoDup_cons. specialize (IH H2). rewrite elem_of_cons. destruct (decide (k0 = k)) as [->|Hn].
  - split; [|intros [= ->]; by left]. intros [[= ->]|Hin]; [done|].
    destruct H1. by apply (list_elem_of_fmap_2 fst) in Hin.
  - rewrite <- IH. split; [intros [[= -> ->]|]; done|by right].
Qed.

Lemma dict_get_None k d : dict_get k d = None <-> k ∉ d.*1.
Proof.
  induction d as [|[k0 v0] d IH]; cbn; [split; [intros _; apply not_elem_of_nil|done]|].
  rewrite not_elem_of_cons. destruct (decide (k0 = k)) as [->|Hn]; [split; [done|intros [? _]; done]|]. rewrite IH. split; [|tauto]. by intros H; split.
Qed.
End DictLemmas.
