(* ===== verification/Scoreboard.v ===== *)
(** * The scoreboard loops shared by the block testbenches

    Every scoreboard of verification/block keeps [self.passed] ([None], [True]
    or [False]), drains its analysis FIFOs in [check_phase] and asserts in
    [final_phase].  Two shapes of [check_phase] occur: a loop over two FIFOs
    that are read in lock step ([check_pairs]), and a loop over a single FIFO
    ([check_items]).  The class [PairSpec] is the contract between a per-item
    check and these loops. *)

From S2P Require Import Prelude.
From stdpp Require Import base list.
From Stdlib Require Import ZArith Lia.

(** [if self.passed is None: self.passed = True] *)
Definition set_initial (passed : option bool) : option bool :=
  match passed with
  | None => Some true
  | Some b => Some b
  end.

(** [final_phase]: [if not self.passed: ...; assert False]. *)
Definition final_phase (passed : option bool) : result unit :=
  match passed with
  | Some true => Ok tt
  | _ => Raise AssertionError
  end.

Section Pairs.
Context {I O : Type}.
(** The part of the loop body after both [try_get] calls succeeded. *)
Variable check_item : I -> O -> option bool -> result (option bool).

Fixpoint check_pairs (inp : list I) (out : list O) (passed : option bool)
  : result (option bool) :=
  match inp, out with
  | [], _ :: _ => Ok (Some false)     (* "No input item for output item" *)
  | _ :: _, [] => Ok (Some false)     (* "No output item for input item" *)
  | [], [] => Ok passed
  | item_inp :: inp, item_out :: out =>
      let! passed := check_item item_inp item_out (set_initial passed) in
      check_pairs inp out passed
  end.
End Pairs.

(** Checking wrapped output items. *)
Lemma check_pairs_out {I O O'} (check_item : I -> O' -> option bool -> result (option bool))
    (wrap : O -> O') inp outp passed :
  check_pairs check_item inp (wrap <$> outp) passed
  = check_pairs (fun i o => check_item i (wrap o)) inp outp passed.
Proof.
  revert outp passed. induction inp as [|i inp IH]; intros [|o outp] passed; try done.
  cbn [fmap list_fmap check_pairs]. destruct (check_item _ _ _); [apply IH|done].
Qed.

(** What a per-item check promises: on a well-formed input item it returns, and
    it clears [passed] exactly when the output item is not the expected one. *)
Class PairSpec {I O} (check_item : I -> O -> option bool -> result (option bool))
    (wf : I -> Prop) (matches : I -> O -> Prop) := {
  pair_matches_dec :: forall i o, Decision (matches i o);
  pair_spec i o b : wf i ->
    check_item i o (Some b) = Ok (Some (b && bool_decide (matches i o)));
}.

Section PairsFacts.
Context {I O : Type} {check_item : I -> O -> option bool -> result (option bool)}
  {wf : I -> Prop} {matches : I -> O -> Prop} `{PS : !PairSpec check_item wf matches}.

Lemma check_pairs_some inp out b :
  Forall wf inp ->
  exists b', check_pairs check_item inp out (Some b) = Ok (Some b')
    /\ (b' = true <-> b = true /\ Forall2 matches inp out).
Proof.
  intros Hwf. revert out b. induction Hwf as [|i inp Hi Hwf IH]; intros [|o out] b; simpl.
  - exists b. split; [done|]. split; [|tauto]. intros ->. split; constructor.
  - exists false. split; [done|]. split; [done|]. intros [_ H]. inversion H.
  - exists false. split; [done|]. split; [done|]. intros [_ H]. inversion H.
  - rewrite pair_spec by done. simpl.
    destruct (IH out (b && bool_decide (matches i o))) as (b' & -> & Hb).
    exists b'. split; [done|]. rewrite Hb, andb_true_iff, bool_decide_eq_true, Forall2_cons. tauto.
Qed.

(** The verdict of a run: no exception, and success exactly when at least one
    pair was seen, the queues have equal length and all pairs agree. *)
Lemma check_pairs_verdict inp out :
  Forall wf inp ->
  exists p, check_pairs check_item inp out None = Ok p
    /\ (final_phase p = Ok tt <-> inp <> [] /\ Forall2 matches inp out).
Proof.
  intros Hwf. destruct inp as [|i inp], out as [|o out]; simpl.
  - exists None. split; [done|]. split; [done|]. by intros [[] _].
  - exists (Some false). split; [done|]. split; [done|]. intros [_ H]. inversion H.
  - exists (Some false). split; [done|]. split; [done|]. intros [_ H]. inversion H.
  - inversion Hwf; subst. rewrite pair_spec by done. simpl.
    destruct (check_pairs_some inp out (bool_decide (matches i o))) as (b & -> & Hb); [done|].
    exists (Some b). split; [done|].
    rewrite bool_decide_eq_true in Hb. rewrite Forall2_cons.
    transitivity (b = true); [by destruct b|]. rewrite Hb.
    split; [intros [??]; by repeat split|by intros (_ & ? & ?)].
Qed.

Lemma check_pairs_iff inp out :
  Forall wf inp ->
  (rbind (check_pairs check_item inp out None) final_phase = Ok tt
   <-> inp <> [] /\ Forall2 matches inp out).
Proof.
  intros Hwf. by destruct (check_pairs_verdict inp out Hwf) as (p & -> & Hp).
Qed.

Lemma check_pairs_fail inp out :
  Forall wf inp -> ~ (inp <> [] /\ Forall2 matches inp out) ->
  rbind (check_pairs check_item inp out None) final_phase = Raise AssertionError.
Proof.
  intros Hwf Hn. destruct (check_pairs_verdict inp out Hwf) as (p & -> & Hp). simpl.
  destruct p as [[]|]; [|done..]. exfalso. by apply Hn, Hp.
Qed.

(** The verdict on what two monitors saw of the same items. *)
Lemma check_pairs_seen {X} (seen_in : X -> I) (seen_out : X -> O) (xs : list X) :
  Forall (fun x => wf (seen_in x)) xs ->
  (rbind (check_pairs check_item (seen_in <$> xs) (seen_out <$> xs) None) final_phase = Ok tt
   <-> xs <> [] /\ Forall (fun x => matches (seen_in x) (seen_out x)) xs).
Proof.
  intros Hwf. rewrite check_pairs_iff by (by apply Forall_fmap). 
  rewrite Forall2_fmap, Forall2_diag_iff. split; (intros [Hne H]; split; [|exact H]).
  - intros ->. by apply Hne.
  - intros E. apply Hne. by destruct xs.
Qed.
End PairsFacts.

Section Items.
Context {I : Type}.
(** The body of [while self.port.can_get()] after the [try_get]. *)
Variable check_item : I -> option bool -> result (option bool).

Fixpoint check_items (items : list I) (passed : option bool) : result (option bool) :=
  match items with
  | [] => Ok passed
  | item :: items =>
      let! passed := check_item item (set_initial passed) in
      check_items items passed
  end.
End Items.
