(* ===== verification/Cocotb.v ===== *)
(** * Coroutines of the testbenches

    The [async] methods of the drivers, monitors and bus functional models are
    values of [proc]: trees of the effects such a method performs.  Signals are
    named by the strings the source uses; a sampled state of the unit under
    test is an [env].  A simulation is seen by a coroutine as the list of the
    triggers that fired, each with the values sampled at that moment
    ([sample]); [await] skips the samples of other triggers.  A [while True]
    loop is run by [run_forever] over such a finite list and is suspended when
    the list ends, which is what the end of the simulation does to it.

    The simulator itself (cocotb, pyuvm) is not modelled beyond this: a write
    takes effect after the sampled moment, and [ClockCycles(clk, n)] is [n]
    rising edges. *)

From S2P Require Import Prelude.
From stdpp Require Import base list strings.
From Stdlib Require Import ZArith Lia.

Definition env := string -> Z.

Definition upd (s : string) (v : Z) (e : env) : env :=
  fun s' => if String.eqb s s' then v else e s'.

(** The sample that gives the listed signals their values, and 0 to the others. *)
Definition sig_env (l : list (string * Z)) : env :=
  foldr (fun p e => upd p.1 p.2 e) (fun _ => 0%Z) l.

Lemma upd_eq s v e : upd s v e s = v.
Proof. unfold upd. by rewrite String.eqb_refl. Qed.

Lemma upd_ne s s' v e : s <> s' -> upd s v e s' = e s'.
Proof. intros H. unfold upd. by destruct (String.eqb_spec s s'). Qed.

Inductive trigger :=
  | RisingEdge (s : string)
  | FallingEdge (s : string)
  | ReadOnly
  | Timer.

#[global] Instance trigger_eq_dec : EqDecision trigger.
Proof. solve_decision. Defined.

Record sample := Sample { fired : trigger; values : env }.

(** [I] is the type of the items written to analysis ports. *)
Inductive proc (I A : Type) :=
  | Ret (a : A)
  | Await (t : trigger) (k : env -> proc I A)
  | Now (k : env -> proc I A)
  | Drive (s : string) (v : Z) (k : proc I A)
  | Publish (i : I) (k : proc I A)
  | LogError (k : proc I A)
  | Throw (e : exn).
Arguments Ret {I A} a.
Arguments Await {I A} t k.
Arguments Now {I A} k.
Arguments Drive {I A} s v k.
Arguments Publish {I A} i k.
Arguments LogError {I A} k.
Arguments Throw {I A} e.

Fixpoint pbind {I A B} (m : proc I A) (f : A -> proc I B) : proc I B :=
  match m with
  | Ret a => f a
  | Await t k => Await t (fun e => pbind (k e) f)
  | Now k => Now (fun e => pbind (k e) f)
  | Drive s v k => Drive s v (pbind k f)
  | Publish i k => Publish i (pbind k f)
  | LogError k => LogError (pbind k f)
  | Throw e => Throw e
  end.

Declare Scope proc_scope.
Delimit Scope proc_scope with proc.
Bind Scope proc_scope with proc.
Notation "x <- m ;; k" := (pbind m (fun x => k))
  (at level 100, m at next level, k at level 200, right associativity) : proc_scope.
Notation "m ;;; k" := (pbind m (fun _ => k))
  (at level 100, k at level 200, right associativity) : proc_scope.
#[global] Open Scope proc_scope.

Section Effects.
Context {I : Type}.
Definition await (t : trigger) : proc I env := Await t (fun e => Ret e).
Definition now : proc I env := Now (fun e => Ret e).
Definition drive (s : string) (v : Z) : proc I unit := Drive s v (Ret tt).
Definition publish (i : I) : proc I unit := Publish i (Ret tt).
Definition log_error : proc I unit := LogError (Ret tt).
Definition throw {A} (e : exn) : proc I A := Throw e.

(** [await ClockCycles(clk, n)], returning the values sampled last. *)
Fixpoint clock_cycles (clk : string) (n : nat) : proc I unit :=
  match n with
  | O => Ret tt
  | S n => _ <- await (RisingEdge clk) ;; clock_cycles clk n
  end.

(** [for x in xs: body(x)] *)
Fixpoint for_each {X} (xs : list X) (body : X -> proc I unit) : proc I unit :=
  match xs with
  | [] => Ret tt
  | x :: xs => body x ;;; for_each xs body
  end.

(** A wait for [signal.value != 0] of at most [max_cycles] clock edges, the
    [for ... else: raise] loop of the [_wait] methods. *)
Fixpoint wait_for (err : exn) (clk : string) (test : env -> bool) (max_cycles : nat)
  : proc I unit :=
  match max_cycles with
  | O => throw err
  | S n => e <- await (RisingEdge clk) ;; if test e then Ret tt else wait_for err clk test n
  end.
End Effects.

(** A synchronous call that may raise. *)
Definition lift {I A} (r : result A) : proc I A :=
  match r with Ok a => Ret a | Raise e => throw e end.

(** ** Running a coroutine over the samples of a simulation *)

Inductive action (I : Type) :=
  | ADrive (s : string) (v : Z)
  | APublish (i : I)
  | AError.
Arguments ADrive {I} s v.
Arguments APublish {I} i.
Arguments AError {I}.

Inductive outcome (A : Type) :=
  | Done (a : A) (cur : env) (rest : list sample)
  | Suspended
  | Crashed (e : exn).
Arguments Done {A} a cur rest.
Arguments Suspended {A}.
Arguments Crashed {A} e.

(** Skip to the next firing of [t]. *)
Fixpoint next_firing (t : trigger) (tr : list sample) : option (env * list sample) :=
  match tr with
  | [] => None
  | s :: tr => if decide (fired s = t) then Some (values s, tr) else next_firing t tr
  end.

Lemma next_firing_shorter t tr e tr' :
  next_firing t tr = Some (e, tr') -> (length tr' < length tr)%nat.
Proof.
  induction tr as [|s tr IH]; simpl; [done|]. destruct (decide _).
  - intros [= _ <-]. lia.
  - intros H. apply IH in H. lia.
Qed.

Fixpoint run {I A} (p : proc I A) (cur : env) (tr : list sample) : list (action I) * outcome A :=
  match p with
  | Ret a => ([], Done a cur tr)
  | Await t k =>
      match next_firing t tr with
      | Some (e, tr) => run (k e) e tr
      | None => ([], Suspended)
      end
  | Now k => run (k cur) cur tr
  | Drive s v k => let '(acts, o) := run k cur tr in (ADrive s v :: acts, o)
  | Publish i k => let '(acts, o) := run k cur tr in (APublish i :: acts, o)
  | LogError k => let '(acts, o) := run k cur tr in (AError :: acts, o)
  | Throw e => ([], Crashed e)
  end.

(** [while True: st = body(st)], at most [fuel] iterations. *)
Fixpoint run_forever {I St} (fuel : nat) (body : St -> proc I St) (st : St) (cur : env)
    (tr : list sample) : list (action I) * outcome St :=
  match fuel with
  | O => ([], Suspended)
  | S fuel =>
      match run (body st) cur tr with
      | (acts, Done st cur tr) =>
          let '(acts', o) := run_forever fuel body st cur tr in (acts ++ acts', o)
      | (acts, o) => (acts, o)
      end
  end.

(** The items a monitor wrote to its analysis port. *)
Fixpoint published {I} (acts : list (action I)) : list I :=
  match acts with
  | [] => []
  | APublish i :: acts => i :: published acts
  | _ :: acts => published acts
  end.

Definition errors {I} (acts : list (action I)) : nat :=
  length (List.filter (fun a => match a with AError => true | _ => false end) acts).

(** A monitor's loop from the start of the simulation to its end. *)
Definition monitor_items {I St} (body : St -> proc I St) (st : St) (cur : env)
    (tr : list sample) : list I :=
  published (run_forever (S (length tr)) body st cur tr).1.

(** ** Facts *)

Lemma next_firing_hit t e tr : next_firing t (Sample t e :: tr) = Some (e, tr).
Proof. cbn [next_firing fired values]. by rewrite decide_True. Qed.

Lemma run_await_hit {I A} t (k : env -> proc I A) cur e tr :
  run (Await t k) cur (Sample t e :: tr) = run (k e) e tr.
Proof. cbn [run next_firing fired values]. by rewrite decide_True. Qed.

Lemma run_await_nil {I A} t (k : env -> proc I A) cur :
  run (Await t k) cur [] = ([], Suspended).
Proof. done. Qed.

Lemma published_app {I} (a b : list (action I)) : published (a ++ b) = published a ++ published b.
Proof. induction a as [|[] a IH]; simpl; by rewrite ?IH. Qed.

Lemma run_pbind {I A B} (m : proc I A) (f : A -> proc I B) cur tr :
  run (pbind m f) cur tr =
    match run m cur tr with
    | (acts, Done a cur tr) => let '(acts', o) := run (f a) cur tr in (acts ++ acts', o)
    | (acts, Suspended) => (acts, Suspended)
    | (acts, Crashed e) => (acts, Crashed e)
    end.
Proof.
  revert cur tr.
  induction m as [a|t k IH|k IH|s v m IH|i m IH|m IH|e]; intros cur tr; simpl.
  - by destruct (run (f a) cur tr).
  - destruct (next_firing t tr) as [[e tr']|]; [apply IH|done].
  - apply IH.
  - rewrite IH. destruct (run m cur tr) as [acts [a c r| |e]]; try done. by destruct (run (f a) c r).
  - rewrite IH. destruct (run m cur tr) as [acts [a c r| |e]]; try done. by destruct (run (f a) c r).
  - rewrite IH. destruct (run m cur tr) as [acts [a c r| |e]]; try done. by destruct (run (f a) c r).
  - done.
Qed.

Lemma run_length {I A} (p : proc I A) cur tr acts a cur' tr' :
  run p cur tr = (acts, Done a cur' tr') -> (length tr' <= length tr)%nat.
Proof.
  revert cur tr acts.
  induction p as [x|t k IH|k IH|s v p IH|i p IH|p IH|e]; intros cur tr acts; simpl.
  - intros [= _ _ _ ->]. done.
  - destruct (next_firing t tr) as [[e r]|] eqn:E; [|done]. intros H.
    apply next_firing_shorter in E. apply IH in H. lia.
  - apply IH.
  - destruct (run p cur tr) as [acts' o] eqn:E. intros [= _ ->]. by eapply IH.
  - destruct (run p cur tr) as [acts' o] eqn:E. intros [= _ ->]. by eapply IH.
  - destruct (run p cur tr) as [acts' o] eqn:E. intros [= _ ->]. by eapply IH.
  - done.
Qed.

(** A loop body is productive when each completed iteration consumes at least
    one sample: then the length of the trace is enough fuel. *)
Definition productive {I St} (body : St -> proc I St) : Prop :=
  forall st cur tr acts st' cur' tr',
    run (body st) cur tr = (acts, Done st' cur' tr') -> (length tr' < length tr)%nat.

Lemma run_forever_fuel {I St} (body : St -> proc I St) :
  productive body -> forall n m st cur tr,
  (length tr < n)%nat -> (length tr < m)%nat ->
  run_forever n body st cur tr = run_forever m body st cur tr.
Proof.
  intros Hp n. induction n as [|n IH]; intros m st cur tr Hn Hm; [lia|].
  destruct m as [|m]; [lia|]. simpl.
  destruct (run (body st) cur tr) as [acts [st' cur' tr'| |e]] eqn:E; try done.
  apply Hp in E. rewrite (IH m); [done|lia..].
Qed.

(** A body that starts by awaiting a trigger is productive. *)
Lemma productive_await {I St} (body : St -> proc I St) :
  (forall st, exists t k, body st = Await t k) -> productive body.
Proof.
  intros H st cur tr acts st' cur' tr' E. destruct (H st) as (t & k & Hb).
  rewrite Hb in E. simpl in E. destruct (next_firing t tr) as [[e r]|] eqn:F; [|done].
  apply next_firing_shorter in F. apply run_length in E. lia.
Qed.

(** One iteration of the loop of a monitor, over a trace it does not exhaust. *)
Lemma monitor_items_step {I St} (body : St -> proc I St) st cur tr acts st' cur' tr' :
  productive body ->
  run (body st) cur tr = (acts, Done st' cur' tr') ->
  monitor_items body st cur tr = published acts ++ monitor_items body st' cur' tr'.
Proof.
  intros Hp E. unfold monitor_items at 1. cbn [run_forever]. rewrite E. unfold monitor_items.
  pose proof (Hp _ _ _ _ _ _ _ E).
  rewrite (run_forever_fuel body Hp (length tr) (S (length tr'))) by lia.
  destruct (run_forever _ _ _ _ _) as [acts' o]. cbn. apply published_app.
Qed.

Lemma monitor_items_suspended {I St} (body : St -> proc I St) st cur tr acts :
  run (body st) cur tr = (acts, Suspended) -> monitor_items body st cur tr = published acts.
Proof. intros E. unfold monitor_items. cbn [run_forever]. by rewrite E. Qed.

Lemma monitor_items_nil {I St} (body : St -> proc I St) st cur :
  run (body st) cur [] = ([], Suspended) -> monitor_items body st cur [] = [].
Proof. intros E. by rewrite (monitor_items_suspended _ _ _ _ _ E). Qed.

(** ** Closing the loop between a driver and a clocked unit under test *)

Section Cosim.
Context {I A : Type}.
(** [assign s v]: the value port [s] holds after [port.value = v]. *)
Variable assign : string -> Z -> Z.
(** The unit under test at one clock edge. *)
Variable dut : env -> env.
Variable clk : string.

(** Run a coroutine up to its next [await], applying its writes to [e]. *)
Fixpoint settle (p : proc I A) (cur : env) (e : env) : env * proc I A :=
  match p with
  | Now k => settle (k cur) cur e
  | Drive s v k => settle k cur (upd s (assign s v) e)
  | Publish _ k => settle k cur e
  | LogError k => settle k cur e
  | p => (e, p)
  end.

(** One rising edge: the coroutine sees the values before the edge, the unit
    under test updates, then the writes of the coroutine take effect. *)
Definition cosim_edge (p : proc I A) (e : env) : env * proc I A :=
  match p with
  | Await t k =>
      if decide (t = RisingEdge clk) then settle (k e) e (dut e) else (dut e, p)
  | _ => (dut e, p)
  end.

Fixpoint cosim (n : nat) (p : proc I A) (e : env) : list sample :=
  match n with
  | O => []
  | S n =>
      let '(e', p') := cosim_edge p e in
      Sample (RisingEdge clk) e :: cosim n p' e'
  end.
End Cosim.

Arguments next_firing : simpl nomatch.
