(* ===== verification/Pulse.v ===== *)
(** * Benches with a one-cycle valid pulse

    The ALU and multiplier benches share a protocol: the driver raises a valid
    signal for one clock cycle together with the operands, the input monitor
    samples the operands when it sees valid, and the output monitor samples the
    result one cycle later.  This file proves, once, what the two monitors
    report when such a driver runs against a unit under test. *)

From S2P Require Import Prelude Cocotb.
From stdpp Require Import base list strings.
From Stdlib Require Import ZArith Lia.

#[local] Open Scope string_scope.
#[local] Open Scope list_scope.
#[local] Open Scope Z_scope.

Section Pulse.
Context {It Inp Out P : Type}.
Variables (clk valid : string).
(** The ports the driver writes for an item, in order. *)
Variable writes : It -> list (string * Z).
Variable sample_inp : env -> Inp.
Variable sample_out : env -> Out.

Definition pulse_item (it : It) : proc P unit :=
  _ <- await (RisingEdge clk) ;;
  drive valid 1 ;;;
  for_each (writes it) (fun w => drive w.1 w.2) ;;;
  _ <- await (RisingEdge clk) ;;
  drive valid 0.

Definition pulse_driver (items : list It) : proc P unit := for_each items pulse_item.

Definition pulse_inp_body (_ : unit) : proc Inp unit :=
  e <- await (RisingEdge clk) ;;
  if truthy (e valid) then publish (sample_inp e) else Ret tt.

Definition pulse_out_body (_ : unit) : proc Out unit :=
  e <- await (RisingEdge clk) ;;
  if truthy (e valid) then
    e <- await (RisingEdge clk) ;; publish (sample_out e)
  else Ret tt.

Variable assign : string -> Z -> Z.
Variable dut : env -> env.

(** The values after the first edge of an item, and after the second. *)
Definition driven (it : It) (e : env) : env :=
  foldl (fun e w => upd w.1 (assign w.1 w.2) e) (upd valid (assign valid 1) e) (writes it).

Definition idle (e : env) : env := upd valid (assign valid 0) e.

(** The samples of a run over a list of items. *)
Fixpoint item_samples (items : list It) (e : env) : list sample :=
  match items with
  | [] => [Sample (RisingEdge clk) e]
  | it :: items =>
      let e1 := driven it (dut e) in
      Sample (RisingEdge clk) e :: Sample (RisingEdge clk) e1
        :: item_samples items (idle (dut e1))
  end.

Lemma settle_drives {A B} ws (f : unit -> proc P A) (g : A -> proc P B) cur e :
  settle assign (pbind (pbind (for_each ws (fun w => drive w.1 w.2)) f) g) cur e
  = settle assign (pbind (f tt) g) cur (foldl (fun e w => upd w.1 (assign w.1 w.2) e) e ws).
Proof. revert e. induction ws as [|w ws IH]; intros e; [done|]. apply IH. Qed.

Lemma cosim_step {A} n (k : env -> proc P A) e e' p' :
  settle assign (k e) e (dut e) = (e', p') ->
  cosim assign dut clk (S n) (Await (RisingEdge clk) k) e
  = Sample (RisingEdge clk) e :: cosim assign dut clk n p' e'.
Proof. intros E. cbn [cosim cosim_edge]. by rewrite decide_True, E. Qed.

Lemma settle_driver items cur e :
  settle assign (pulse_driver items) cur e = (e, pulse_driver items).
Proof. by destruct items. Qed.

Lemma cosim_items items e :
  cosim assign dut clk (S (2 * length items)) (pulse_driver items) e = item_samples items e.
Proof.
  revert e. induction items as [|it items IH]; intros e; [done|].
  replace (S (2 * length (it :: items)))%nat with (S (S (S (2 * length items)))) by (simpl; lia).
  change (pulse_driver (it :: items)) with
    (pbind (pulse_item it) (fun _ => pulse_driver items)).
  cbn [item_samples]. unfold pulse_item. cbn [pbind await drive].
  erewrite cosim_step by (cbn [settle]; rewrite settle_drives; reflexivity).
  cbn [pbind await drive].
  erewrite cosim_step by (cbn [settle]; rewrite settle_driver; reflexivity).
  by rewrite IH.
Qed.

Context {wf : It -> Prop}.
Variable observed : It -> Inp.
Variable answer : It -> Out.
Hypothesis valid_bit : forall v : Z, v = 0 \/ v = 1 -> assign valid v = v.
(** Driving an item raises valid and presents the operands the monitor reads. *)
Hypothesis driven_observed : forall it e, wf it ->
  driven it e valid = 1 /\ sample_inp (driven it e) = observed it.
(** The unit answers an item one edge later. *)
Hypothesis dut_answers : forall it e, wf it ->
  sample_out (idle (dut (driven it e))) = answer it.

Lemma idle_not_valid e : idle e valid = 0.
Proof using valid_bit. unfold idle. rewrite upd_eq. apply valid_bit. tauto. Qed.

Lemma pulse_inp_productive : productive pulse_inp_body.
Proof. apply productive_await. intros []. by eexists _, _. Qed.

Lemma pulse_out_productive : productive pulse_out_body.
Proof. apply productive_await. intros []. by eexists _, _. Qed.

Lemma inp_step_idle cur e tr :
  e valid = 0 ->
  monitor_items pulse_inp_body tt cur (Sample (RisingEdge clk) e :: tr)
  = monitor_items pulse_inp_body tt e tr.
Proof.
  intros He. erewrite monitor_items_step; [|apply pulse_inp_productive|];
    [|cbn [pulse_inp_body pulse_out_body pbind await]; rewrite run_await_hit, He; reflexivity].
  done.
Qed.

Lemma out_step_idle cur e tr :
  e valid = 0 ->
  monitor_items pulse_out_body tt cur (Sample (RisingEdge clk) e :: tr)
  = monitor_items pulse_out_body tt e tr.
Proof.
  intros He. erewrite monitor_items_step; [|apply pulse_out_productive|];
    [|cbn [pulse_inp_body pulse_out_body pbind await]; rewrite run_await_hit, He; reflexivity].
  done.
Qed.

(** The input monitor reports every item once, in order. *)
Lemma inp_monitor_items items cur e :
  Forall wf items -> e valid = 0 ->
  monitor_items pulse_inp_body tt cur (item_samples items e) = observed <$> items.
Proof using valid_bit driven_observed.
  intros Hk. revert cur e. induction Hk as [|it items Hit Hk IH]; intros cur e He;
    cbn [item_samples]; rewrite inp_step_idle by done.
  - by rewrite monitor_items_nil.
  - destruct (driven_observed it (dut e) Hit) as (Hv & Ho).
    erewrite monitor_items_step; [|apply pulse_inp_productive|];
      [|cbn [pulse_inp_body pbind await]; rewrite run_await_hit, Hv; reflexivity].
    rewrite Ho, IH by apply idle_not_valid. done.
Qed.

Lemma item_samples_cons items e :
  item_samples items e = Sample (RisingEdge clk) e :: List.tl (item_samples items e).
Proof. by destruct items. Qed.

(** The output monitor after the idle sample that precedes an item. *)
Lemma out_monitor_tail items cur e :
  Forall wf items ->
  monitor_items pulse_out_body tt cur (List.tl (item_samples items e)) = answer <$> items.
Proof using valid_bit driven_observed dut_answers.
  intros Hk. revert cur e. induction Hk as [|it items Hit Hk IH]; intros cur e.
  - by rewrite monitor_items_nil.
  - destruct (driven_observed it (dut e) Hit) as (Hv & _). cbn [item_samples List.tl].
    rewrite item_samples_cons. erewrite monitor_items_step; [|apply pulse_out_productive|];
      [|cbn [pulse_out_body pbind await]; rewrite run_await_hit, Hv;
        cbn [truthy Z.eqb negb pbind await]; rewrite run_await_hit; reflexivity].
    by rewrite IH, dut_answers.
Qed.

(** The output monitor reports the answer to every item, in order. *)
Lemma out_monitor_items items cur e :
  Forall wf items -> e valid = 0 ->
  monitor_items pulse_out_body tt cur (item_samples items e) = answer <$> items.
Proof using valid_bit driven_observed dut_answers.
  intros Hk He. rewrite item_samples_cons, out_step_idle by done. by apply out_monitor_tail.
Qed.
End Pulse.
