(* ===== verification/Alu.v ===== *)
(** * ALU testbench: verification/block/exu_alu/testbench.py

    Items, driver, monitors, the prediction of the scoreboard, its check loop,
    the random sequence and the reset of the base test. *)

From S2P Require Import Prelude Scoreboard Cocotb Pulse.
From stdpp Require Import base list strings.
From Stdlib Require Import ZArith Lia.

#[local] Open Scope string_scope.
#[local] Open Scope list_scope.
#[local] Open Scope Z_scope.

Record AluInputItem := {
  op : option string;
  a : Z;
  b : Z;
  csr : Z;
  pc : Z;
}.

Record AluOutputItem := { out : Z }.

(** [AluInputItem(op, a, b)], with the default arguments. *)
Definition mkAluInputItem (op : option string) (a b : Z) : AluInputItem :=
  {| op := op; a := a; b := b; csr := 0; pc := 0 |}.

Definition op_in (o : option string) (ops : list string) : bool :=
  match o with Some s => str_in s ops | None => false end.

(** ** Driver *)

Definition AluDriver_controls : list (string * list string) := [
  ("ap_clz", ["clz"]); ("ap_ctz", ["ctz"]); ("ap_cpop", ["cpop"]);
  ("ap_sext_b", ["sext_b"]); ("ap_sext_h", ["sext_h"]);
  ("ap_rol", ["rol"]); ("ap_ror", ["ror"]);
  ("ap_bset", ["bset"]); ("ap_bclr", ["bclr"]); ("ap_binv", ["binv"]); ("ap_bext", ["bext"]);
  ("ap_pack", ["pack"]); ("ap_packh", ["packh"]);
  ("ap_sh1add", ["sh1add"]); ("ap_sh2add", ["sh2add"]); ("ap_sh3add", ["sh3add"]);
  ("ap_zba", ["sh1add"; "sh2add"; "sh3add"]);
  ("ap_add", ["add"]); ("ap_sub", ["sub"]); ("ap_land", ["and"]); ("ap_lor", ["or"]);
  ("ap_lxor", ["xor"]) ].

(** One iteration of [AluDriver.run_phase] on the item [it]. *)
Definition AluDriver_item (it : AluInputItem) : proc AluInputItem unit :=
  _ <- await (RisingEdge "clk") ;;
  drive "valid_in" 1 ;;;
  for_each AluDriver_controls (fun c => drive c.1 (Z.b2z (op_in (op it) c.2))) ;;;
  drive "a_in" (a it) ;;;
  drive "b_in" (b it) ;;;
  drive "csr_rddata_in" (csr it) ;;;
  drive "pc_in" (pc it) ;;;
  _ <- await (RisingEdge "clk") ;;
  drive "valid_in" 0.

(** The driver's loop over the items its sequencer delivers. *)
Definition AluDriver_run_phase (items : list AluInputItem) : proc AluInputItem unit :=
  for_each items AluDriver_item.

(** ** Monitors *)

Definition AluInputMonitor_decode_table : list (string * string) := [
  ("ap_add", "add"); ("ap_sub", "sub"); ("ap_land", "and"); ("ap_lor", "or"); ("ap_lxor", "xor");
  ("ap_clz", "clz"); ("ap_ctz", "ctz"); ("ap_cpop", "cpop"); ("ap_sext_b", "sext_b");
  ("ap_sext_h", "sext_h"); ("ap_rol", "rol"); ("ap_ror", "ror"); ("ap_bset", "bset");
  ("ap_bclr", "bclr"); ("ap_binv", "binv"); ("ap_bext", "bext"); ("ap_pack", "pack");
  ("ap_packh", "packh"); ("ap_sh1add", "sh1add"); ("ap_sh2add", "sh2add");
  ("ap_sh3add", "sh3add") ].

(** The [if]/[elif] chain over the control signals. *)
Definition AluInputMonitor_decode (e : env) : option string :=
  snd <$> List.find (fun c => truthy (e c.1)) AluInputMonitor_decode_table.

Definition AluInputMonitor_body (_ : unit) : proc AluInputItem unit :=
  e <- await (RisingEdge "clk") ;;
  if truthy (e "valid_in") then
    publish (mkAluInputItem (AluInputMonitor_decode e) (e "a_in") (e "b_in"))
  else Ret tt.

Definition AluOutputMonitor_body (_ : unit) : proc AluOutputItem unit :=
  e <- await (RisingEdge "clk") ;;
  if truthy (e "valid_in") then
    e <- await (RisingEdge "clk") ;;
    publish {| out := e "result_ff" |}
  else Ret tt.

(** ** Scoreboard *)

Definition INT_MASK : Z := 0xFFFFFFFF.

(** [int(op[2])] of ["sh1add"], ["sh2add"], ["sh3add"]. *)
Definition op_digit (o : string) : Z :=
  match String.get 2 o with
  | Some c => Z.of_N (Ascii.N_of_ascii c) - 48
  | None => 0
  end.

(** The predicted result, [None] for an operation the scoreboard does not know. *)
Definition AluScoreboard_predict (o : option string) (a b : Z) : option Z :=
  let isop s := op_in o [s] in
  if isop "add" then Some (Z.land (a + b) INT_MASK)
  else if isop "sub" then Some (Z.land (a - b) INT_MASK)
  else if isop "and" then Some (Z.land a b)
  else if isop "or" then Some (Z.lor a b)
  else if isop "xor" then Some (Z.lxor a b)
  else if isop "clz" then
    Some (next_in_range 32 (fun i => truthy (Z.shiftr (Z.land (Z.shiftl a i) INT_MASK) 31)) 32)
  else if isop "ctz" then
    Some (next_in_range 32 (fun i => truthy (Z.land (Z.shiftr a i) 1)) 32)
  else if isop "cpop" then Some (bin_count_ones a)
  else if isop "sext_b" then
    let last_byte := Z.land a 0xFF in
    let sign := Z.shiftr (Z.land a 0x00000080) 7 in
    Some (Z.lor (0xFFFFFF00 * sign) last_byte)
  else if isop "sext_h" then
    let last_2_bytes := Z.land a 0xFFFF in
    let sign := Z.shiftr (Z.land a 0x00008000) 15 in
    Some (Z.lor (0xFFFF0000 * sign) last_2_bytes)
  else if isop "rol" then
    let shamt := Z.land b 31 in
    Some (Z.lor (Z.land (Z.shiftl a shamt) INT_MASK) (Z.shiftr a (Z.land (32 - shamt) 31)))
  else if isop "ror" then
    let shamt := Z.land b 31 in
    Some (Z.lor (Z.shiftr a shamt) (Z.land (Z.shiftl a (Z.land (32 - shamt) 31)) INT_MASK))
  else if isop "bset" then Some (Z.lor a (Z.shiftl 1 (Z.land b 31)))
  else if isop "bclr" then Some (Z.land a (Z.lnot (Z.shiftl 1 (Z.land b 31))))
  else if isop "binv" then Some (Z.lxor a (Z.shiftl 1 (Z.land b 31)))
  else if isop "bext" then Some (Z.land 1 (Z.shiftr a (Z.land b 31)))
  else if isop "pack" then
    Some (Z.lor (Z.shiftr (Z.land (Z.shiftl a 16) INT_MASK) 16) (Z.land (Z.shiftl b 16) INT_MASK))
  else if isop "packh" then
    Some (Z.lor (Z.land a 0xFF) (Z.shiftl (Z.land b 0xFF) 8))
  else if op_in o ["sh1add"; "sh2add"; "sh3add"] then
    let shift := op_digit (default "" o) in
    Some (Z.land (Z.shiftl a shift + b) INT_MASK)
  else None.

(** The loop body of [AluScoreboard.check_phase]: an unknown operation leaves
    [result] unset and the [assert result is not None] raises. *)
Definition AluScoreboard_check_item (inp : AluInputItem) (o : AluOutputItem)
    (passed : option bool) : result (option bool) :=
  match AluScoreboard_predict (op inp) (a inp) (b inp) with
  | None => Raise AssertionError
  | Some r => Ok (if out o =? r then passed else Some false)
  end.

Definition AluScoreboard_check_phase (inp : list AluInputItem) (o : list AluOutputItem)
  : result (option bool) :=
  check_pairs AluScoreboard_check_item inp o None.

(** [check_phase] followed by [final_phase]. *)
Definition AluScoreboard_verdict inp o : result unit :=
  rbind (AluScoreboard_check_phase inp o) final_phase.

(** ** Sequence *)

Definition BaseSequence_default_ops : list string := ["add"; "sub"].

Definition BaseSequence_ops (ops : option (list string)) : list string :=
  default BaseSequence_default_ops ops.

(** [BaseSequence.body]; [rnd i] are the integers drawn in iteration [i]. *)
Fixpoint BaseSequence_body (ops : list string) (rnd : nat -> Z * Z * Z) (i count : nat)
  : result (list AluInputItem) :=
  match count with
  | O => Ok []
  | S count =>
      let '(ra, rb, ro) := rnd i in
      let a := randrange (- Z.shiftl 1 31) (Z.shiftl 1 31) ra in
      let b := randrange (- Z.shiftl 1 31) (Z.shiftl 1 31) rb in
      let! op := choice ops ro in
      let! items := BaseSequence_body ops rnd (S i) count in
      Ok (mkAluInputItem (Some op) a b :: items)
  end.

(** ** Base test *)

Definition do_reset_inputs : list string := [
  "scan_mode"; "flush_upper_x"; "flush_lower_r"; "enable"; "valid_in"; "ap_clz"; "ap_ctz";
  "ap_cpop"; "ap_sext_b"; "ap_sext_h"; "ap_min"; "ap_max"; "ap_pack"; "ap_packu"; "ap_packh";
  "ap_rol"; "ap_ror"; "ap_grev"; "ap_gorc"; "ap_zbb"; "ap_bset"; "ap_bclr"; "ap_binv"; "ap_bext";
  "ap_sh1add"; "ap_sh2add"; "ap_sh3add"; "ap_zba"; "ap_land"; "ap_lor"; "ap_lxor"; "ap_sll";
  "ap_srl"; "ap_sra"; "ap_beq"; "ap_bne"; "ap_blt"; "ap_bge"; "ap_add"; "ap_sub"; "ap_slt";
  "ap_unsignl"; "ap_jall"; "ap_predict_tl"; "ap_predict_nt"; "ap_csr_write"; "ap_csr_imm";
  "csr_ren_in"; "csr_rddata_in"; "a_in"; "b_in"; "pc_in"; "brimm_in" ].

Definition do_reset {I} : proc I unit :=
  for_each do_reset_inputs (fun s => drive s 0) ;;;
  drive "rst_l" 0 ;;;
  clock_cycles "clk" 2 ;;;
  _ <- await (FallingEdge "clk") ;;
  drive "rst_l" 1.

(** [BaseTest.run_phase] around the test's own [run]. *)
Definition run_phase {I} (run : proc I unit) : proc I unit :=
  do_reset ;;;
  drive "enable" 1 ;;;
  clock_cycles "clk" 2 ;;;
  run ;;;
  clock_cycles "clk" 10.

(** ** A reference for the predictions *)

Definition alu_ops : list string := [
  "add"; "sub"; "and"; "or"; "xor"; "clz"; "ctz"; "cpop"; "sext_b"; "sext_h"; "rol"; "ror";
  "bset"; "bclr"; "binv"; "bext"; "pack"; "packh"; "sh1add"; "sh2add"; "sh3add" ].

(** The two's complement value of the [w] low bits. *)
Definition signed (w : Z) (v : Z) : Z := (v + 2 ^ (w - 1)) mod 2 ^ w - 2 ^ (w - 1).

(** The lowest set bit of a non-zero integer: [a & -a]. *)
Definition lowest_bit (a : Z) : Z := Z.land a (- a).

(** What each operation computes, in arithmetic terms. *)
Definition alu_reference : list (string * (Z -> Z -> Z)) := [
  ("add", fun a b => (a + b) mod 2 ^ 32);
  ("sub", fun a b => (a - b) mod 2 ^ 32);
  ("and", Z.land);
  ("or", Z.lor);
  ("xor", Z.lxor);
  ("clz", fun a _ => if a =? 0 then 32 else 31 - Z.log2 a);
  ("ctz", fun a _ => if a =? 0 then 32 else Z.log2 (lowest_bit a));
  ("cpop", fun a _ => bits_sum a 32);
  ("sext_b", fun a _ => signed 8 a mod 2 ^ 32);
  ("sext_h", fun a _ => signed 16 a mod 2 ^ 32);
  ("rol", fun a b => (a * 2 ^ (b mod 32)) mod 2 ^ 32 + a / 2 ^ (32 - b mod 32));
  ("ror", fun a b => a / 2 ^ (b mod 32) + (a mod 2 ^ (b mod 32)) * 2 ^ (32 - b mod 32));
  ("bset", fun a b => if Z.testbit a (b mod 32) then a else a + 2 ^ (b mod 32));
  ("bclr", fun a b => if Z.testbit a (b mod 32) then a - 2 ^ (b mod 32) else a);
  ("binv", fun a b => if Z.testbit a (b mod 32) then a - 2 ^ (b mod 32) else a + 2 ^ (b mod 32));
  ("bext", fun a b => (a / 2 ^ (b mod 32)) mod 2);
  ("pack", fun a b => a mod 2 ^ 16 + (b mod 2 ^ 16) * 2 ^ 16);
  ("packh", fun a b => a mod 2 ^ 8 + (b mod 2 ^ 8) * 2 ^ 8);
  ("sh1add", fun a b => (2 * a + b) mod 2 ^ 32);
  ("sh2add", fun a b => (4 * a + b) mod 2 ^ 32);
  ("sh3add", fun a b => (8 * a + b) mod 2 ^ 32) ].

Definition word (v : Z) : Prop := 0 <= v < 2 ^ 32.

(** ** Lemmas on the individual predictions *)

Lemma predict_clz a : word a ->
  next_in_range 32 (fun i => truthy (Z.shiftr (Z.land (Z.shiftl a i) INT_MASK) 31)) 32
  = if a =? 0 then 32 else 31 - Z.log2 a.
Proof.
  intros Ha. unfold word in Ha.
  assert (Hp : forall i, 0 <= i < 32 ->
    truthy (Z.shiftr (Z.land (Z.shiftl a i) INT_MASK) 31) = Z.testbit a (31 - i)).
  { intros i Hi. unfold INT_MASK. rewrite land_mask32.
    assert (Z.shiftr (Z.shiftl a i mod 2 ^ 32) 31 = Z.b2z (Z.testbit a (31 - i))) as ->;
      [|by destruct (Z.testbit _ _)].
    rewrite <- (Z.mod_small (Z.shiftr _ _) (2 ^ 1)).
    - rewrite <- land_1, bit_of by lia. f_equal. autorewrite with zbits. split_cmp. done.
    - rewrite Z.shiftr_div_pow2 by lia.
      pose proof (Z.mod_pos_bound (Z.shiftl a i) (2 ^ 32)).
      split; [apply Z.div_pos; lia|]. apply Z.div_lt_upper_bound; lia. }
  match goal with |- next_in_range 32 ?p 32 = _ =>
    destruct (next_in_range_spec 32 p 32) as [(i & Hi & Ht & Hf & ->)|[Hf ->]] end.
  - simpl in Hi. rewrite Hp in Ht by lia.
    assert (Z.log2 a = 31 - i).
    { apply log2_first_bit; [done|lia..|]. intros j Hj.
      destruct (Z.ltb_spec j 32); [|apply (testbit_bounded a 32); lia].
      specialize (Hf (31 - j)). rewrite Hp in Hf by lia.
      replace (31 - (31 - j)) with j in Hf by lia. apply Hf. lia. }
    destruct (Z.eqb_spec a 0) as [->|]; [by rewrite Z.bits_0 in Ht|lia].
  - destruct (Z.eqb_spec a 0) as [|Hne]; [done|]. exfalso.
    assert (0 <= Z.log2 a < 32) by (split; [apply Z.log2_nonneg|apply Z.log2_lt_pow2; lia]).
    specialize (Hf (31 - Z.log2 a)). rewrite Hp in Hf by lia.
    replace (31 - (31 - Z.log2 a)) with (Z.log2 a) in Hf by lia.
    rewrite Z.bit_log2 in Hf by lia. discriminate Hf; lia.
Qed.

(** The bits of [-a] up to the lowest set bit of [a]. *)
Lemma lowest_bit_pow2 a i :
  0 <= i -> Z.testbit a i = true -> (forall j, 0 <= j < i -> Z.testbit a j = false) ->
  lowest_bit a = 2 ^ i.
Proof.
  intros Hi Ht Hf. unfold lowest_bit.
  assert (Ha : a = (2 * (a / 2 ^ (i + 1)) + 1) * 2 ^ i).
  { apply Z.bits_inj'. intros j Hj. rewrite <- Z.shiftl_mul_pow2 by lia. rewrite testbit_shiftl by lia.
    destruct (Z.leb_spec i j); simpl; [|apply Hf; lia].
    destruct (decide (j = i)) as [->|].
    - replace (i - i) with 0 by lia. by rewrite Z.testbit_odd_0.
    - replace (j - i) with (Z.succ (j - i - 1)) by lia. rewrite Z.testbit_odd_succ by lia.
      rewrite Z.div_pow2_bits by lia. f_equal. lia. }
  set (q := a / 2 ^ (i + 1)) in *. rewrite Ha.
  replace (- ((2 * q + 1) * 2 ^ i)) with ((2 * (- q - 1) + 1) * 2 ^ i) by lia.
  rewrite <- !Z.shiftl_mul_pow2, <- Z.shiftl_land by lia.
  rewrite <- (Z.shiftl_1_l i). f_equal.
  apply Z.bits_inj'. intros j Hj. rewrite Z.land_spec, testbit_one.
  destruct (Z.eqb_spec j 0) as [->|].
  - by rewrite !Z.testbit_odd_0.
  - replace j with (Z.succ (j - 1)) by lia. rewrite !Z.testbit_odd_succ by lia.
    replace (- q - 1) with (Z.lnot q) by (unfold Z.lnot; lia).
    rewrite Z.lnot_spec by lia. by destruct (Z.testbit q _).
Qed.

Lemma predict_ctz a : word a ->
  next_in_range 32 (fun i => truthy (Z.land (Z.shiftr a i) 1)) 32
  = if a =? 0 then 32 else Z.log2 (lowest_bit a).
Proof.
  intros Ha. unfold word in Ha.
  assert (Hp : forall i, 0 <= i -> truthy (Z.land (Z.shiftr a i) 1) = Z.testbit a i).
  { intros i Hi. rewrite bit_of by lia. by destruct (Z.testbit a i). }
  match goal with |- next_in_range 32 ?p 32 = _ =>
    destruct (next_in_range_spec 32 p 32) as [(i & Hi & Ht & Hf & ->)|[Hf ->]] end.
  - rewrite Hp in Ht by lia. destruct (Z.eqb_spec a 0) as [->|]; [by rewrite Z.bits_0 in Ht|].
    rewrite (lowest_bit_pow2 a i); [by rewrite Z.log2_pow2 by lia|lia|done|].
    intros j Hj. rewrite <- Hp by lia. apply Hf. lia.
  - destruct (Z.eqb_spec a 0) as [|Hne]; [done|]. exfalso. apply Hne.
    apply Z.bits_inj'. intros i Hi. rewrite Z.bits_0.
    destruct (Z.ltb_spec i 32); [|apply (testbit_bounded a 32); lia].
    rewrite <- Hp by lia. apply Hf. simpl. lia.
Qed.

(** Sign extension by multiplying the mask with the sign bit. *)
Lemma predict_sext a w k :
  w = 8 \/ w = 16 -> k = w - 1 ->
  Z.lor ((2 ^ 32 - 2 ^ w) * Z.shiftr (Z.land a (2 ^ k)) k) (Z.land a (Z.ones w))
  = signed w a mod 2 ^ 32.
Proof.
  intros Hw ->. unfold signed. rewrite Z.land_ones by lia.
  assert (Hs : Z.shiftr (Z.land a (2 ^ (w - 1))) (w - 1) = Z.b2z (Z.testbit a (w - 1))).
  { apply Z.bits_inj'. intros i Hi. rewrite testbit_shiftr by lia.
    rewrite Z.land_spec, Z.pow2_bits_eqb by lia.
    destruct (decide (i = 0)) as [->|].
    - rewrite Z.add_0_l, Z.eqb_refl, andb_true_r. by destruct (Z.testbit a (w - 1)).
    - destruct (Z.eqb_spec (w - 1) (i + (w - 1))); [lia|]. rewrite andb_false_r.
      destruct (Z.leb_spec 0 i); [|lia]. simpl.
      destruct (Z.testbit a (w - 1)); simpl; [|by rewrite Z.bits_0].
      rewrite testbit_one. destruct (Z.eqb_spec i 0); [lia|done]. }
  rewrite Hs. clear Hs.
  assert (Ht : Z.testbit a (w - 1) = (2 ^ (w - 1) <=? a mod 2 ^ w)).
  { replace (Z.testbit a (w - 1)) with (Z.testbit (a mod 2 ^ w) (w - 1))
      by (rewrite testbit_mod_pow2 by lia; split_cmp; done).
    pose proof (Z.mod_pos_bound a (2 ^ w) ltac:(lia)) as Hm.
    revert Hm. generalize (a mod 2 ^ w) as m. intros m Hm.
    rewrite Z.testbit_eqb by lia. assert (2 ^ w = 2 * 2 ^ (w - 1)) as Hp.
    { rewrite <- Z.pow_succ_r by lia. f_equal. lia. }
    assert (0 < 2 ^ (w - 1)) by (destruct Hw; subst; done).
    destruct (Z.leb_spec (2 ^ (w - 1)) m).
    - replace (m / 2 ^ (w - 1)) with 1; [done|]. apply Z.div_unique with (m - 2 ^ (w - 1)); lia.
    - by rewrite Z.div_small by lia. }
  rewrite Ht. pose proof (Z.mod_pos_bound a (2 ^ w) ltac:(lia)) as Hm.
  replace ((a + 2 ^ (w - 1)) mod 2 ^ w) with ((a mod 2 ^ w + 2 ^ (w - 1)) mod 2 ^ w)
    by (rewrite Z.add_mod_idemp_l; lia).
  revert Hm. generalize (a mod 2 ^ w) as m. intros m Hm.
  destruct (Z.leb_spec (2 ^ (w - 1)) m); simpl Z.b2z.
  - rewrite Z.mul_1_r. replace (2 ^ 32 - 2 ^ w) with (Z.shiftl (2 ^ (32 - w) - 1) w)
      by (destruct Hw; subst; done).
    rewrite Z.lor_comm, lor_low_high by lia.
    destruct Hw; subst; simpl in *; Z.to_euclidean_division_equations; lia.
  - rewrite Z.mul_0_r, Z.lor_0_l.
    destruct Hw; subst; simpl in *; Z.to_euclidean_division_equations; lia.
Qed.

Lemma shamt_comp s : 0 <= s < 32 -> Z.land (32 - s) 31 = if s =? 0 then 0 else 32 - s.
Proof.
  intros Hs. rewrite land_mask5. change (2 ^ 5) with 32.
  destruct (Z.eqb_spec s 0) as [->|]; [done|]. apply Z.mod_small. lia.
Qed.

Lemma predict_rol a s : word a -> 0 <= s < 32 ->
  Z.lor (Z.land (Z.shiftl a s) INT_MASK) (Z.shiftr a (Z.land (32 - s) 31))
  = (a * 2 ^ s) mod 2 ^ 32 + a / 2 ^ (32 - s).
Proof.
  intros Ha Hs. unfold word in Ha. unfold INT_MASK. rewrite land_mask32, shamt_comp by done.
  destruct (Z.eqb_spec s 0) as [->|].
  - rewrite Z.shiftl_0_r, Z.shiftr_0_r, Z.mod_small, Z.lor_diag, Z.mul_1_r, Z.mod_small by lia.
    rewrite Z.div_small by lia. lia.
  - rewrite lor_disjoint, Z.shiftl_mul_pow2, Z.shiftr_div_pow2 by (lia || bits_ext). done.
Qed.

Lemma predict_ror a s : word a -> 0 <= s < 32 ->
  Z.lor (Z.shiftr a s) (Z.land (Z.shiftl a (Z.land (32 - s) 31)) INT_MASK)
  = a / 2 ^ s + (a mod 2 ^ s) * 2 ^ (32 - s).
Proof.
  intros Ha Hs. unfold word in Ha. unfold INT_MASK. rewrite land_mask32, shamt_comp by done.
  destruct (Z.eqb_spec s 0) as [->|].
  - rewrite Z.shiftl_0_r, Z.shiftr_0_r, Z.mod_small, Z.lor_diag by lia.
    rewrite Z.pow_0_r, Z.div_1_r, Z.mod_1_r. lia.
  - assert (Z.shiftl a (32 - s) mod 2 ^ 32 = Z.shiftl (a mod 2 ^ s) (32 - s)) as -> by bits_ext.
    rewrite lor_disjoint, Z.shiftl_mul_pow2, Z.shiftr_div_pow2 by (lia || bits_ext). done.
Qed.

Lemma land_31 b : Z.land b 31 = b mod 32.
Proof. by rewrite land_mask5. Qed.

Lemma mod_32_bound b : 0 <= b mod 32 < 32.
Proof. apply Z.mod_pos_bound. lia. Qed.

(** Reduce the prediction of a literal operation to its branch. *)
Ltac predict_branch :=
  cbv [AluScoreboard_predict op_in str_in existsb String.eqb Ascii.eqb Bool.eqb orb default id];
  try change (op_digit "sh1add") with 1; try change (op_digit "sh2add") with 2;
  try change (op_digit "sh3add") with 3.

Lemma land_1_l a : Z.land 1 a = a mod 2.
Proof. by rewrite Z.land_comm, land_1. Qed.

(** On 32-bit operands the scoreboard's prediction for each of the 21
    operations equals the arithmetic reference of that operation. *)
Theorem alu_predict_reference o f a b :
  In (o, f) alu_reference -> word a -> word b ->
  AluScoreboard_predict (Some o) a b = Some (f a b).
Proof.
  intros Hin Ha Hb. pose proof (mod_32_bound b) as Hs.
  repeat (destruct Hin as [E%pair_equal_spec|Hin]; [destruct E as [<- <-]|]); [..|done];
    predict_branch; apply (f_equal Some); cbv beta; rewrite ?land_31, ?Z.shiftl_1_l.
  - apply land_mask32.
  - apply land_mask32.
  - done.
  - done.
  - done.
  - by apply predict_clz.
  - by apply predict_ctz.
  - apply (bin_count_ones_bits a 32), Ha.
  - apply (predict_sext a 8 7); lia.
  - apply (predict_sext a 16 15); lia.
  - rewrite <- (land_31 (32 - _)). by apply predict_rol.
  - rewrite <- (land_31 (32 - _)). by apply predict_ror.
  - apply lor_pow2; lia.
  - apply land_lnot_pow2; lia.
  - apply lxor_pow2; lia.
  - rewrite land_1_l. by rewrite Z.shiftr_div_pow2 by lia.
  - unfold INT_MASK. rewrite !land_mask32.
    assert (Z.shiftr (Z.shiftl a 16 mod 2 ^ 32) 16 = a mod 2 ^ 16) as -> by bits_ext.
    assert (Z.shiftl b 16 mod 2 ^ 32 = Z.shiftl (b mod 2 ^ 16) 16) as -> by bits_ext.
    apply lor_low_high; [lia|]. apply Z.mod_pos_bound. lia.
  - rewrite !land_mask8. apply lor_low_high; [lia|]. apply Z.mod_pos_bound. lia.
  - rewrite Z.shiftl_mul_pow2 by lia. unfold INT_MASK. rewrite land_mask32. f_equal. lia.
  - rewrite Z.shiftl_mul_pow2 by lia. unfold INT_MASK. rewrite land_mask32. f_equal. lia.
  - rewrite Z.shiftl_mul_pow2 by lia. unfold INT_MASK. rewrite land_mask32. f_equal. lia.
Qed.

Lemma alu_predict_reference_witness :
  AluScoreboard_predict (Some "rol") 0x80000001 4 = Some 0x18
  /\ word 0x80000001 /\ word 4.
Proof.
  assert (H1 : word 0x80000001) by (unfold word; lia).
  assert (H2 : word 4) by (unfold word; lia).
  split; [|by split].
  rewrite (alu_predict_reference "rol"
    (fun a b => (a * 2 ^ (b mod 32)) mod 2 ^ 32 + a / 2 ^ (32 - b mod 32)) _ _ ltac:(simpl; tauto) H1 H2).
  reflexivity.
Defined.

Lemma next_in_range_bound p : 0 <= next_in_range 32 p 32 <= 32.
Proof. destruct (next_in_range_spec 32 p 32) as [(i & ? & _ & _ & ->)|[_ ->]]; simpl in *; lia. Qed.

(** The scoreboard predicts a result exactly for the 21 operations it
    knows, and a prediction on 32-bit operands is a 32-bit word. *)
Theorem alu_predict_total o a b :
  (In o alu_ops -> exists r, AluScoreboard_predict (Some o) a b = Some r
     /\ (word a -> word b -> word r))
  /\ (~ In o alu_ops -> AluScoreboard_predict (Some o) a b = None).
Proof.
  split.
  - intros Hin. pose proof (mod_32_bound b) as Hs.
    repeat (destruct Hin as [<-|Hin]); [..|done]; eexists; (split; [reflexivity|]);
      intros Ha Hb; unfold word in *; rewrite ?land_31, ?Z.shiftl_1_l; unfold INT_MASK;
      rewrite ?land_mask32; cbv beta.
    all: try (apply Z.mod_pos_bound; lia).
    + by apply land_bound.
    + by apply lor_bound.
    + by apply lxor_bound.
    + pose proof (next_in_range_bound
        (fun i => truthy (Z.shiftr (Z.land (Z.shiftl a i) 0xFFFFFFFF) 31))). lia.
    + pose proof (next_in_range_bound (fun i => truthy (Z.land (Z.shiftr a i) 1))). lia.
    + rewrite (bin_count_ones_bits a 32) by done. pose proof (bits_sum_bound a 32). lia.
    + refine (eq_ind_r (fun x => 0 <= x < 2 ^ 32) _ (predict_sext a 8 7 _ _)); [apply Z.mod_pos_bound|..]; lia.
    + refine (eq_ind_r (fun x => 0 <= x < 2 ^ 32) _ (predict_sext a 16 15 _ _)); [apply Z.mod_pos_bound|..]; lia.
    + apply lor_bound; [apply Z.mod_pos_bound; lia|]. apply shiftr_bound; [pose proof (mod_32_bound (32 - b mod 32)); lia|done].
    + apply lor_bound; [|apply Z.mod_pos_bound; lia]. apply shiftr_bound; [lia|done].
    + apply lor_bound; [done|]. by apply pow2_bound.
    + by apply land_bound.
    + apply lxor_bound; [done|]. by apply pow2_bound.
    + rewrite land_1_l. pose proof (Z.mod_pos_bound (Z.shiftr a (b mod 32)) 2). lia.
    + apply lor_bound; [|apply Z.mod_pos_bound; lia].
      apply shiftr_bound; [done|]. apply Z.mod_pos_bound; lia.
    + apply lor_bound; [rewrite land_mask8; pose proof (Z.mod_pos_bound a (2 ^ 8)); lia|].
      rewrite land_mask8, Z.shiftl_mul_pow2 by lia. pose proof (Z.mod_pos_bound b (2 ^ 8)). lia.
  - intros Hni. cbv [AluScoreboard_predict op_in str_in existsb].
    repeat match goal with
    | |- context [String.eqb o ?s] =>
        destruct (String.eqb_spec o s) as [->|]; [destruct Hni; simpl; tauto|]
    end. done.
Qed.

Lemma alu_predict_total_witness :
  exists r, AluScoreboard_predict (Some "clz") 1 0 = Some r
    /\ AluScoreboard_predict (Some "div") 1 0 = None.
Proof.
  destruct (proj1 (alu_predict_total "clz" 1 0) ltac:(simpl; tauto)) as (r & Hr & _).
  exists r. split; [done|].
  apply (proj2 (alu_predict_total "div" 1 0)). simpl. intuition discriminate.
Defined.

(** Rotating right undoes rotating left by the same amount. *)
Theorem alu_rotate_roundtrip a b r :
  word a -> word b ->
  AluScoreboard_predict (Some "rol") a b = Some r ->
  AluScoreboard_predict (Some "ror") r b = Some a.
Proof.
  intros Ha Hb. predict_branch. rewrite (land_31 b), predict_rol by (done || apply mod_32_bound).
  intros [= <-]. predict_branch. pose proof (mod_32_bound b) as Hs.
  revert Hs. generalize (b mod 32) as s. intros s Hs. unfold word in Ha.
  assert (Hp : 2 ^ 32 = 2 ^ (32 - s) * 2 ^ s) by (rewrite <- Z.pow_add_r by lia; f_equal; lia).
  assert (0 < 2 ^ s) by (apply Z.pow_pos_nonneg; lia).
  assert (0 < 2 ^ (32 - s)) by (apply Z.pow_pos_nonneg; lia).
  assert (Hlo : a / 2 ^ (32 - s) < 2 ^ s) by (apply Z.div_lt_upper_bound; lia).
  assert (0 <= a / 2 ^ (32 - s)) by (apply Z.div_pos; lia).
  rewrite (Z.mul_comm a), Hp, (Z.mul_comm (2 ^ (32 - s))), Z.mul_mod_distr_l by lia.
  pose proof (Z.mod_pos_bound a (2 ^ (32 - s)) ltac:(lia)).
  rewrite predict_ror; [|unfold word; rewrite Hp; by apply mixed_radix_bound|done].
  rewrite (Z.add_comm (_ * _)), (Z.mul_comm (2 ^ s)), Z.div_add, Z.mod_add by lia.
  rewrite (Z.div_small (a / _)), (Z.mod_small (a / _)) by done. f_equal.
  pose proof (Z.div_mod a (2 ^ (32 - s)) ltac:(lia)). lia.
Qed.

Lemma alu_rotate_roundtrip_witness : AluScoreboard_predict (Some "ror") 0x18 4 = Some 0x80000001.
Proof.
  apply (alu_rotate_roundtrip 0x80000001 4 0x18); [unfold word; lia|unfold word; lia|reflexivity].
Defined.

(** ** Scoreboard verdict *)

Definition alu_known (it : AluInputItem) : Prop :=
  exists o, op it = Some o /\ In o alu_ops.

Definition alu_matches (it : AluInputItem) (o : AluOutputItem) : Prop :=
  AluScoreboard_predict (op it) (a it) (b it) = Some (out o).

#[export] Instance alu_pair_spec : PairSpec AluScoreboard_check_item alu_known alu_matches.
Proof.
  refine {| pair_matches_dec := fun i o => decide (_ = _) |}.
  intros it o p (s & Hop & Hin). unfold AluScoreboard_check_item, alu_matches.
  rewrite Hop. destruct (proj1 (alu_predict_total s (a it) (b it)) Hin) as (r & -> & _).
  do 2 f_equal. destruct (Z.eqb_spec (out o) r) as [->|Hne].
  - by rewrite bool_decide_eq_true_2, andb_true_r.
  - rewrite bool_decide_eq_false_2, andb_false_r by congruence. done.
Defined.

(** On items of known operations the run of the scoreboard succeeds exactly
    when it saw at least one item, as many outputs as inputs, and every output
    is the predicted one; otherwise [final_phase] raises. *)
Theorem alu_scoreboard_verdict inp o :
  Forall alu_known inp ->
  (AluScoreboard_verdict inp o = Ok tt <-> inp <> [] /\ Forall2 alu_matches inp o)
  /\ (AluScoreboard_verdict inp o = Ok tt \/ AluScoreboard_verdict inp o = Raise AssertionError).
Proof.
  intros Hk. split; [by apply check_pairs_iff|].
  destruct (check_pairs_verdict inp o Hk) as (p & E & _).
  unfold AluScoreboard_verdict, AluScoreboard_check_phase. rewrite E.
  destruct p as [[]|]; simpl; tauto.
Qed.

Lemma alu_scoreboard_verdict_witness :
  AluScoreboard_verdict [mkAluInputItem (Some "add") 2 3] [{| out := 5 |}] = Ok tt.
Proof.
  apply alu_scoreboard_verdict.
  - repeat constructor. exists "add". split; [done|]. simpl. tauto.
  - split; [done|]. repeat constructor.
Defined.

(** ** The testbench in a closed loop with a unit under test *)

(** The ports [AluDriver_item] writes besides [valid_in]. *)
Definition alu_writes (it : AluInputItem) : list (string * Z) :=
  ((fun c => (c.1, Z.b2z (op_in (op it) c.2))) <$> AluDriver_controls)
  ++ [("a_in", a it); ("b_in", b it); ("csr_rddata_in", csr it); ("pc_in", pc it)].

Definition alu_sample_inp (e : env) : AluInputItem :=
  mkAluInputItem (AluInputMonitor_decode e) (e "a_in") (e "b_in").

Definition alu_sample_out (e : env) : AluOutputItem := {| out := e "result_ff" |}.

Lemma AluDriver_is_pulse items :
  AluDriver_run_phase items = pulse_driver "clk" "valid_in" alu_writes items.
Proof. reflexivity. Qed.

Lemma AluInputMonitor_is_pulse :
  AluInputMonitor_body = pulse_inp_body "clk" "valid_in" alu_sample_inp.
Proof. reflexivity. Qed.

Lemma AluOutputMonitor_is_pulse :
  AluOutputMonitor_body = pulse_out_body "clk" "valid_in" alu_sample_out.
Proof. reflexivity. Qed.

Section ClosedLoop.
Variable assign : string -> Z -> Z.
Variable dut : env -> env.
(** The result the unit registers for an operation on two operands. *)
Variable res : option string -> Z -> Z -> Z.

(** A one-bit port keeps the bit it is assigned, the operand ports keep 32 bits. *)
Hypothesis assign_bit : forall (s : string) (v : Z), v = 0 \/ v = 1 -> assign s v = v.
Hypothesis assign_a : forall v, assign "a_in" v = v mod 2 ^ 32.
Hypothesis assign_b : forall v, assign "b_in" v = v mod 2 ^ 32.
(** One clock edge after a valid input the result port holds [res]. *)
Hypothesis dut_result : forall e : env, e "valid_in" = 1 ->
  dut e "result_ff" = res (AluInputMonitor_decode e) (e "a_in") (e "b_in").

Definition applied (it : AluInputItem) : AluInputItem :=
  mkAluInputItem (op it) (a it mod 2 ^ 32) (b it mod 2 ^ 32).

Definition answer (it : AluInputItem) : AluOutputItem :=
  {| out := res (op it) (a it mod 2 ^ 32) (b it mod 2 ^ 32) |}.

(** The monitor decodes back the operation the driver encoded on the control
    signals, and reads the operands as 32-bit words. *)
Lemma alu_driven it e :
  alu_known it ->
  driven "valid_in" alu_writes assign it e "valid_in" = 1
  /\ alu_sample_inp (driven "valid_in" alu_writes assign it e) = applied it.
Proof using assign_bit assign_a assign_b.
  intros (o & Ho & Hin).
  assert (assign0 : forall s, assign s 0 = 0) by (intros; apply assign_bit; tauto).
  assert (assign1 : forall s, assign s 1 = 1) by (intros; apply assign_bit; tauto).
  split; [change (assign "valid_in" 1 = 1); done|].
  unfold alu_sample_inp, applied. f_equal.
  - unfold driven, alu_writes. rewrite Ho. clear Ho.
    repeat (destruct Hin as [<-|Hin]); [..|done];
      cbv -[truthy]; rewrite ?assign0, ?assign1; reflexivity.
  - apply (assign_a (a it)).
  - apply (assign_b (b it)).
Qed.

Lemma alu_answers it e :
  alu_known it ->
  alu_sample_out (idle "valid_in" assign (dut (driven "valid_in" alu_writes assign it e)))
  = answer it.
Proof using assign_bit assign_a assign_b dut_result.
  intros Hk. destruct (alu_driven it e Hk) as [Hv Hs].
  unfold alu_sample_out, idle. rewrite upd_ne by done. rewrite dut_result by done.
  unfold alu_sample_inp, applied in Hs. injection Hs as -> -> ->. done.
Qed.

(** C7: running the driver on a list of items of known operations against a
    unit under test that answers [res], the two monitors and the scoreboard
    together succeed exactly when [res] is the predicted result for every
    item: the testbench accepts no wrong unit and rejects no right one. *)
Theorem alu_testbench_sound_complete items e :
  items <> [] -> Forall alu_known items -> e "valid_in" = 0 ->
  let tr := cosim assign dut "clk" (S (2 * length items)) (AluDriver_run_phase items) e in
  AluScoreboard_verdict (monitor_items AluInputMonitor_body tt e tr)
    (monitor_items AluOutputMonitor_body tt e tr) = Ok tt
  <-> Forall (fun it => AluScoreboard_predict (op it) (a it mod 2 ^ 32) (b it mod 2 ^ 32)
                = Some (res (op it) (a it mod 2 ^ 32) (b it mod 2 ^ 32))) items.
Proof using assign_bit assign_a assign_b dut_result.
  intros Hne Hk He tr. subst tr. pose proof (assign_bit "valid_in") as Hvb.
  rewrite AluDriver_is_pulse, AluInputMonitor_is_pulse, AluOutputMonitor_is_pulse, cosim_items.
  rewrite (inp_monitor_items _ _ _ _ _ _ applied Hvb alu_driven) by done.
  rewrite (out_monitor_items _ _ _ _ _ _ _ applied answer Hvb alu_driven alu_answers) by done.
  unfold AluScoreboard_verdict, AluScoreboard_check_phase. rewrite check_pairs_iff.
  - rewrite Forall2_fmap, Forall2_diag_iff. split; [by intros [_ H]|]. intros H.
    split; [by destruct items|done].
  - rewrite Forall_fmap. eapply Forall_impl; [exact Hk|]. done.
Qed.
End ClosedLoop.

(** A unit under test computing the reference, over ports of the given widths. *)
Definition example_assign (s : string) (v : Z) : Z :=
  if str_in s ["a_in"; "b_in"] then v mod 2 ^ 32 else v.

Definition example_res (o : option string) (a b : Z) : Z :=
  default 0 (AluScoreboard_predict o a b).

Definition example_dut (e : env) : env :=
  upd "result_ff" (example_res (AluInputMonitor_decode e) (e "a_in") (e "b_in")) e.

Lemma alu_testbench_sound_complete_witness :
  let items := [mkAluInputItem (Some "sub") 3 (-5); mkAluInputItem (Some "cpop") (-1) 0] in
  let e := fun _ => 0 in
  let tr := cosim example_assign example_dut "clk" 5 (AluDriver_run_phase items) e in
  AluScoreboard_verdict (monitor_items AluInputMonitor_body tt e tr)
    (monitor_items AluOutputMonitor_body tt e tr) = Ok tt.
Proof.
  apply (alu_testbench_sound_complete example_assign example_dut example_res).
  - intros s v Hv. unfold example_assign. destruct (str_in s _); [|done].
    apply Z.mod_small. lia.
  - done.
  - done.
  - done.
  - done.
  - repeat constructor; eexists; (split; [reflexivity|]); simpl; tauto.
  - done.
  - repeat constructor.
Defined.

(** The random sequence over a non-empty choice of operations delivers
    [count] items whose operations are taken from the choice and whose operands
    are signed 32-bit integers. *)
Theorem alu_sequence_items ops rnd i count :
  ops <> [] ->
  exists items, BaseSequence_body ops rnd i count = Ok items /\ length items = count
    /\ Forall (fun it => (exists o, op it = Some o /\ In o ops)
         /\ - 2 ^ 31 <= a it < 2 ^ 31 /\ - 2 ^ 31 <= b it < 2 ^ 31) items.
Proof.
  intros Hne. revert i. induction count as [|count IH]; intros i; [by exists []|].
  cbn [BaseSequence_body]. destruct (rnd i) as [[ra rb] ro].
  destruct (choice_in ops ro Hne) as (o & -> & Hin). destruct (IH (S i)) as (items & -> & Hl & Hf).
  eexists. split; [reflexivity|]. split; [simpl; lia|]. constructor; [|done]. cbn [op a b mkAluInputItem].
  split; [by exists o|].
  change (Z.shiftl 1 31) with (2 ^ 31).
  pose proof (randrange_bounds (- 2 ^ 31) (2 ^ 31) ra). pose proof (randrange_bounds (- 2 ^ 31) (2 ^ 31) rb).
  lia.
Qed.

Lemma alu_sequence_items_witness :
  exists items, BaseSequence_body (BaseSequence_ops None) (fun _ => (5, -7, 1)) 0 2 = Ok items
    /\ length items = 2%nat.
Proof.
  destruct (alu_sequence_items (BaseSequence_ops None) (fun _ => (5, -7, 1)) 0 2 ltac:(done))
    as (items & H & Hl & _).
  by exists items.
Defined.
