(* ===== verification/Mul.v ===== *)
(** * Multiplier testbench: verification/block/exu_mul/testbench.py *)

From S2P Require Import Prelude Scoreboard Cocotb Pulse.
From stdpp Require Import base list strings.
From Stdlib Require Import ZArith Lia.

#[local] Open Scope string_scope.
#[local] Open Scope list_scope.
#[local] Open Scope Z_scope.

Record MulInputItem := {
  op : option string;
  a : Z;
  b : Z;
  low : Z;
}.

Record MulOutputItem := { out : Z }.

(** ** Driver and monitors *)

(** One iteration of [MulDriver.run_phase]. *)
Definition MulDriver_item (it : MulInputItem) : proc MulInputItem unit :=
  _ <- await (RisingEdge "clk") ;;
  drive "mul_p_valid" 1 ;;;
  drive "rs1_in" (Z.abs (a it)) ;;;
  drive "rs2_in" (Z.abs (b it)) ;;;
  drive "mul_p_rs1_sign" 0 ;;;
  drive "mul_p_rs2_sign" 0 ;;;
  drive "mul_p_low" (low it) ;;;
  _ <- await (RisingEdge "clk") ;;
  drive "mul_p_valid" 0.

Definition MulDriver_run_phase (items : list MulInputItem) : proc MulInputItem unit :=
  for_each items MulDriver_item.

Definition MulInputMonitor_body (_ : unit) : proc MulInputItem unit :=
  e <- await (RisingEdge "clk") ;;
  if truthy (e "mul_p_valid") then
    publish {| op := None; a := e "rs1_in"; b := e "rs2_in"; low := e "mul_p_low" |}
  else Ret tt.

Definition MulOutputMonitor_body (_ : unit) : proc MulOutputItem unit :=
  e <- await (RisingEdge "clk") ;;
  if truthy (e "mul_p_valid") then
    e <- await (RisingEdge "clk") ;;
    publish {| out := e "result_x" |}
  else Ret tt.

(** ** Scoreboard *)

Definition MulScoreboard_predict (a b low : Z) : Z :=
  let res := a * b in
  let res := if truthy low then res else Z.shiftr res 32 in
  Z.land res 0xFFFFFFFF.

Definition MulScoreboard_check_item (inp : MulInputItem) (o : MulOutputItem)
    (passed : option bool) : result (option bool) :=
  let res := MulScoreboard_predict (a inp) (b inp) (low inp) in
  Ok (if out o =? res then passed else Some false).

Definition MulScoreboard_check_phase (inp : list MulInputItem) (o : list MulOutputItem)
  : result (option bool) :=
  check_pairs MulScoreboard_check_item inp o None.

Definition MulScoreboard_verdict inp o : result unit :=
  rbind (MulScoreboard_check_phase inp o) final_phase.

(** ** Sequence and base test *)

(** [BaseSequence.body]; [low] is bound only by the ["mul"] branch, so another
    operation finds it unbound in the first iteration and stale in later ones. *)
Fixpoint BaseSequence_body (ops : list string) (rnd : nat -> Z * Z * Z * Z) (low : option Z)
    (i count : nat) : result (list MulInputItem) :=
  match count with
  | O => Ok []
  | S count =>
      let '(ra, rb, ro, rl) := rnd i in
      let a := randrange 1 (Z.shiftl 1 32) ra in
      let b := randrange 1 (Z.shiftl 1 32) rb in
      let! op := choice ops ro in
      let! low :=
        (if String.eqb op "mul" then let! l := choice [0; 1] rl in Ok (Some l) else Ok low) in
      match low with
      | None => Raise UnboundLocalError
      | Some l =>
          let! items := BaseSequence_body ops rnd low (S i) count in
          Ok ({| op := Some op; a := a; b := b; low := l |} :: items)
      end
  end.

Definition do_reset_inputs : list string := [
  "scan_mode"; "mul_p_valid"; "mul_p_rs1_sign"; "mul_p_rs2_sign"; "mul_p_low";
  "mul_p_bcompress"; "mul_p_bdecompress"; "mul_p_clmul"; "mul_p_clmulh"; "mul_p_clmulr";
  "mul_p_grev"; "mul_p_gorc"; "mul_p_shfl"; "mul_p_unshfl"; "mul_p_crc32_b"; "mul_p_crc32_h";
  "mul_p_crc32_w"; "mul_p_crc32c_b"; "mul_p_crc32c_h"; "mul_p_crc32c_w"; "mul_p_bfp";
  "mul_p_xperm_n"; "mul_p_xperm_b"; "mul_p_xperm_h"; "rs1_in"; "rs2_in" ].

(** Unlike the other benches, this [do_reset] never drives [rst_l] low. *)
Definition do_reset {I} : proc I unit :=
  for_each do_reset_inputs (fun s => drive s 0) ;;;
  clock_cycles "clk" 2 ;;;
  _ <- await (FallingEdge "clk") ;;
  drive "rst_l" 1.

Definition run_phase {I} (run : proc I unit) : proc I unit :=
  do_reset ;;;
  clock_cycles "clk" 2 ;;;
  run ;;;
  clock_cycles "clk" 10.

(** ** Correctness of the prediction *)

(** On 32-bit operands the two predicted halves are the halves of the
    64-bit product. *)
Theorem mul_predict_halves a b :
  0 <= a < 2 ^ 32 -> 0 <= b < 2 ^ 32 ->
  let hi := MulScoreboard_predict a b 0 in
  let lo := MulScoreboard_predict a b 1 in
  a * b = hi * 2 ^ 32 + lo /\ 0 <= lo < 2 ^ 32 /\ 0 <= hi < 2 ^ 32.
Proof.
  intros Ha Hb hi lo. subst hi lo. unfold MulScoreboard_predict.
  change (truthy 1) with true. change (truthy 0) with false. cbv iota.
  rewrite !land_mask32, Z.shiftr_div_pow2 by lia.
  assert (Hp : 0 <= a * b < 2 ^ 32 * 2 ^ 32)
    by (split; [apply Z.mul_nonneg_nonneg; lia|apply Z.mul_lt_mono_nonneg; lia]).
  set (p := a * b) in *. clearbody p.
  assert (0 <= p / 2 ^ 32 < 2 ^ 32)
    by (split; [apply Z.div_pos|apply Z.div_lt_upper_bound]; lia).
  rewrite (Z.mod_small (p / 2 ^ 32)) by done.
  pose proof (Z.mod_pos_bound p (2 ^ 32)). pose proof (Z.div_mod p (2 ^ 32)). lia.
Qed.

Lemma mul_predict_halves_witness :
  0xFFFFFFFF * 3 = MulScoreboard_predict 0xFFFFFFFF 3 0 * 2 ^ 32 + MulScoreboard_predict 0xFFFFFFFF 3 1.
Proof. apply (mul_predict_halves 0xFFFFFFFF 3); lia. Defined.

Definition mul_matches (it : MulInputItem) (o : MulOutputItem) : Prop :=
  out o = MulScoreboard_predict (a it) (b it) (low it).

#[export] Instance mul_pair_spec :
  PairSpec MulScoreboard_check_item (fun _ => True) mul_matches.
Proof.
  refine {| pair_matches_dec := fun i o => decide (_ = _) |}.
  intros it o p _. unfold MulScoreboard_check_item, mul_matches. do 2 f_equal.
  destruct (Z.eqb_spec (out o) (MulScoreboard_predict (a it) (b it) (low it))) as [->|Hne].
  - by rewrite bool_decide_eq_true_2, andb_true_r.
  - by rewrite bool_decide_eq_false_2, andb_false_r.
Defined.

(** ** Closed loop *)

Definition mul_writes (it : MulInputItem) : list (string * Z) :=
  [("rs1_in", Z.abs (a it)); ("rs2_in", Z.abs (b it)); ("mul_p_rs1_sign", 0);
   ("mul_p_rs2_sign", 0); ("mul_p_low", low it)].

Definition mul_sample_inp (e : env) : MulInputItem :=
  {| op := None; a := e "rs1_in"; b := e "rs2_in"; low := e "mul_p_low" |}.

Definition mul_sample_out (e : env) : MulOutputItem := {| out := e "result_x" |}.

(** An item of the sequence: non-negative 32-bit operands and a one-bit selector. *)
Definition mul_wf (it : MulInputItem) : Prop :=
  0 <= a it < 2 ^ 32 /\ 0 <= b it < 2 ^ 32 /\ (low it = 0 \/ low it = 1).

Section ClosedLoop.
Variable assign : string -> Z -> Z.
Variable dut : env -> env.
(** The result the unit registers for two operands and the low/high selector. *)
Variable res : Z -> Z -> Z -> Z.
Hypothesis assign_bit : forall (s : string) (v : Z), v = 0 \/ v = 1 -> assign s v = v.
Hypothesis assign_rs1 : forall v, assign "rs1_in" v = v mod 2 ^ 32.
Hypothesis assign_rs2 : forall v, assign "rs2_in" v = v mod 2 ^ 32.
Hypothesis dut_result : forall e : env, e "mul_p_valid" = 1 ->
  dut e "result_x" = res (e "rs1_in") (e "rs2_in") (e "mul_p_low").

Definition applied (it : MulInputItem) : MulInputItem :=
  {| op := None; a := a it; b := b it; low := low it |}.

Definition answer (it : MulInputItem) : MulOutputItem := {| out := res (a it) (b it) (low it) |}.

Lemma mul_driven it e :
  mul_wf it ->
  driven "mul_p_valid" mul_writes assign it e "mul_p_valid" = 1
  /\ mul_sample_inp (driven "mul_p_valid" mul_writes assign it e) = applied it.
Proof using assign_bit assign_rs1 assign_rs2.
  intros (Ha & Hb & Hl). split; [change (assign "mul_p_valid" 1 = 1); auto|].
  unfold applied. unfold mul_sample_inp. f_equal.
  - transitivity (assign "rs1_in" (Z.abs (a it))); [done|].
    rewrite assign_rs1, Z.abs_eq by lia. by apply Z.mod_small.
  - transitivity (assign "rs2_in" (Z.abs (b it))); [done|].
    rewrite assign_rs2, Z.abs_eq by lia. by apply Z.mod_small.
  - transitivity (assign "mul_p_low" (low it)); [done|]. by apply assign_bit.
Qed.

Lemma mul_answers it e :
  mul_wf it ->
  mul_sample_out (idle "mul_p_valid" assign (dut (driven "mul_p_valid" mul_writes assign it e)))
  = answer it.
Proof using assign_bit assign_rs1 assign_rs2 dut_result.
  intros Hk. destruct (mul_driven it e Hk) as [Hv Hs].
  unfold mul_sample_out, idle. rewrite upd_ne by done. rewrite dut_result by done.
  unfold mul_sample_inp, applied in Hs. injection Hs as -> -> ->. done.
Qed.

(** The multiplier bench accepts a unit under test on a list of driven
    items exactly when the unit returns the selected half of each product. *)
Theorem mul_testbench_sound_complete items e :
  items <> [] -> Forall mul_wf items -> e "mul_p_valid" = 0 ->
  let tr := cosim assign dut "clk" (S (2 * length items)) (MulDriver_run_phase items) e in
  MulScoreboard_verdict (monitor_items MulInputMonitor_body tt e tr)
    (monitor_items MulOutputMonitor_body tt e tr) = Ok tt
  <-> Forall (fun it => res (a it) (b it) (low it)
        = MulScoreboard_predict (a it) (b it) (low it)) items.
Proof using assign_bit assign_rs1 assign_rs2 dut_result.
  intros Hne Hk He tr. subst tr. pose proof (assign_bit "mul_p_valid") as Hvb.
  change (MulDriver_run_phase items) with
    (pulse_driver (P := MulInputItem) "clk" "mul_p_valid" mul_writes items).
  rewrite cosim_items.
  change MulInputMonitor_body with (pulse_inp_body "clk" "mul_p_valid" mul_sample_inp).
  change MulOutputMonitor_body with (pulse_out_body "clk" "mul_p_valid" mul_sample_out).
  rewrite (inp_monitor_items _ _ _ _ _ _ applied Hvb mul_driven) by done.
  rewrite (out_monitor_items _ _ _ _ _ _ _ applied answer Hvb mul_driven mul_answers) by done.
  unfold MulScoreboard_verdict, MulScoreboard_check_phase. rewrite check_pairs_iff.
  - rewrite Forall2_fmap, Forall2_diag_iff. split; [by intros [_ H]|]. intros H.
    split; [by destruct items|done].
  - by apply Forall_true.
Qed.
End ClosedLoop.

Definition example_assign (s : string) (v : Z) : Z :=
  if str_in s ["rs1_in"; "rs2_in"] then v mod 2 ^ 32 else v.

Definition example_dut (e : env) : env :=
  upd "result_x" (MulScoreboard_predict (e "rs1_in") (e "rs2_in") (e "mul_p_low")) e.

Lemma mul_testbench_sound_complete_witness :
  let items := [{| op := Some "mul"; a := 7; b := 9; low := 1 |};
                {| op := Some "mul"; a := 0xFFFFFFFF; b := 0xFFFFFFFF; low := 0 |}] in
  let e := fun _ => 0 in
  let tr := cosim example_assign example_dut "clk" 5 (MulDriver_run_phase items) e in
  MulScoreboard_verdict (monitor_items MulInputMonitor_body tt e tr)
    (monitor_items MulOutputMonitor_body tt e tr) = Ok tt.
Proof.
  apply (mul_testbench_sound_complete example_assign example_dut MulScoreboard_predict).
  - intros s v Hv. unfold example_assign. destruct (str_in s _); [|done].
    apply Z.mod_small. lia.
  - done.
  - done.
  - done.
  - done.
  - repeat constructor; unfold mul_wf; simpl; lia.
  - done.
  - repeat constructor.
Defined.
