(* ===== verification/Div.v ===== *)
(** * Divider testbench: verification/block/exu_div/testbench.py *)

From S2P Require Import Prelude Scoreboard Cocotb.
From stdpp Require Import base list strings.
From Stdlib Require Import ZArith Lia.

#[local] Open Scope string_scope.
#[local] Open Scope list_scope.
#[local] Open Scope Z_scope.

Record DivInputItem := {
  op : string;
  num : Z;
  den : Z;
  unsign : Z;
}.

(** [DivInputItem.__init__] with its default [unsign=1]. *)
Definition mkDivInputItem (op : string) (num den : Z) : DivInputItem :=
  {| op := op; num := num; den := den; unsign := 1 |}.

Record DivOutputItem := { out : Z }.

(** ** Driver and monitors *)

(** [for i in range(n): ... else: raise RuntimeError("Timeout")] *)
Fixpoint DivDriver_finish (n : nat) : proc DivInputItem unit :=
  match n with
  | O => throw RuntimeError
  | S n =>
      e <- await (RisingEdge "clk") ;;
      drive "dp_valid" 0 ;;;
      if truthy (e "finish_dly") then Ret tt else DivDriver_finish n
  end.

Definition DivDriver_item (it : DivInputItem) : proc DivInputItem unit :=
  _ <- await (RisingEdge "clk") ;;
  drive "dp_valid" 1 ;;;
  drive "dp_unsign" (unsign it) ;;;
  drive "dp_rem" (Z.b2z (String.eqb (op it) "rem")) ;;;
  drive "dividend" (num it) ;;;
  drive "divisor" (den it) ;;;
  DivDriver_finish 100.

Definition DivDriver_run_phase (items : list DivInputItem) : proc DivInputItem unit :=
  for_each items DivDriver_item.

Definition DivInputMonitor_body (_ : unit) : proc DivInputItem unit :=
  e <- await (RisingEdge "clk") ;;
  if truthy (e "dp_valid") then
    let op := if truthy (e "dp_rem") then "rem" else "div" in
    publish {| op := op; num := e "dividend"; den := e "divisor"; unsign := e "dp_unsign" |}
  else Ret tt.

Definition DivOutputMonitor_body (_ : unit) : proc DivOutputItem unit :=
  e <- await (RisingEdge "clk") ;;
  if truthy (e "finish_dly") then publish {| out := e "out" |} else Ret tt.

(** ** Scoreboard *)

(** [num // den] *)
Definition floordiv (num den : Z) : result Z :=
  if den =? 0 then Raise ZeroDivisionError else Ok (num / den).

Definition DivScoreboard_check_item (inp : DivInputItem) (o : DivOutputItem)
    (passed : option bool) : result (option bool) :=
  let! div := floordiv (num inp) (den inp) in
  let rem := num inp - div * den inp in
  if (String.eqb (op inp) "div" && negb (out o =? div))
     || (String.eqb (op inp) "rem" && negb (out o =? rem))
  then Ok (Some false)
  else Ok passed.

Definition DivScoreboard_check_phase (inp : list DivInputItem) (o : list DivOutputItem)
  : result (option bool) :=
  check_pairs DivScoreboard_check_item inp o None.

Definition DivScoreboard_verdict inp o : result unit :=
  rbind (DivScoreboard_check_phase inp o) final_phase.

(** ** Sequence and base test *)

Definition BaseSequence_ops (ops : option (list string)) : list string :=
  default ["div"; "rem"] ops.

Fixpoint BaseSequence_body (ops : list string) (rnd : nat -> Z * Z * Z) (i count : nat)
  : result (list DivInputItem) :=
  match count with
  | O => Ok []
  | S count =>
      let '(rn, rd, ro) := rnd i in
      let num := randrange 1 (Z.shiftl 1 32) rn in
      let den := randrange 1 (Z.shiftl 1 16) rd in
      let! op := choice ops ro in
      let! items := BaseSequence_body ops rnd (S i) count in
      Ok (mkDivInputItem op num den :: items)
  end.

Definition do_reset_inputs : list string :=
  [ "scan_mode"; "dp_valid"; "dp_unsign"; "dp_rem"; "dividend"; "divisor"; "cancel" ].

Definition do_reset {I} : proc I unit :=
  for_each do_reset_inputs (fun s => drive s 0) ;;;
  drive "rst_l" 0 ;;;
  clock_cycles "clk" 2 ;;;
  _ <- await (FallingEdge "clk") ;;
  drive "rst_l" 1.

Definition run_phase {I} (run : proc I unit) : proc I unit :=
  do_reset ;;;
  clock_cycles "clk" 2 ;;;
  run ;;;
  clock_cycles "clk" 10.

(** ** The sequence *)

Lemma BaseSequence_items ops rnd i count :
  ops <> [] -> exists items, BaseSequence_body ops rnd i count = Ok items
    /\ length items = count
    /\ Forall (fun it => In (op it) ops /\ 1 <= num it < 2 ^ 32 /\ 1 <= den it < 2 ^ 16) items.
Proof.
  intros Hne. revert i. induction count as [|count IH]; intros i.
  - by exists [].
  - cbn [BaseSequence_body]. destruct (rnd i) as [[rn rd] ro].
    destruct (choice_in ops ro Hne) as (o & -> & Ho). cbn [rbind].
    destruct (IH (S i)) as (items & -> & Hl & Hf).
    eexists. split; [done|]. simpl. split; [by rewrite Hl|].
    constructor; [|done]. simpl. split; [done|].
    change (Z.shiftl 1 32) with (2 ^ 32). change (Z.shiftl 1 16) with (2 ^ 16).
    split; apply randrange_bounds; lia.
Qed.

(** ** The prediction *)

Definition div_wf (it : DivInputItem) : Prop := den it <> 0.

(** The output expected for an item; any output is accepted for an operation
    other than the two. *)
Definition div_matches (it : DivInputItem) (o : DivOutputItem) : Prop :=
  (op it = "div" -> out o = num it / den it) /\ (op it = "rem" -> out o = num it mod den it).

#[export] Instance div_matches_dec i o : Decision (div_matches i o).
Proof. unfold div_matches. apply _. Defined.

#[export] Instance div_pair_spec : PairSpec DivScoreboard_check_item div_wf div_matches.
Proof.
  refine {| pair_matches_dec := div_matches_dec |}.
  intros it o p Hd. unfold DivScoreboard_check_item, floordiv.
  destruct (Z.eqb_spec (den it) 0) as [|_]; [done|]. cbn [rbind].
  assert (num it - num it / den it * den it = num it mod den it) as ->.
  { pose proof (Z.div_mod (num it) (den it) Hd). lia. }
  match goal with |- (if ?c then _ else _) = _ =>
    assert (Hc : c = negb (bool_decide (div_matches it o))) end.
  { apply eq_true_iff_eq. rewrite negb_true_iff, bool_decide_eq_false.
    rewrite orb_true_iff, !andb_true_iff, !negb_true_iff, !String.eqb_eq, !Z.eqb_neq.
    unfold div_matches. destruct (decide (op it = "div")), (decide (op it = "rem")),
      (decide (out o = num it / den it)), (decide (out o = num it mod den it)); tauto. }
  rewrite Hc. destruct (bool_decide (div_matches it o)); simpl.
  - by rewrite andb_true_r.
  - by rewrite andb_false_r.
Defined.

Lemma div_matches_out it q :
  In (op it) ["div"; "rem"] ->
  div_matches it {| out := q |} <-> q = if String.eqb (op it) "div" then num it / den it else num it mod den it.
Proof.
  intros [E|[E|[]]]; unfold div_matches; rewrite <- E; simpl; split; intuition congruence.
Qed.

Lemma check_pairs_zero_den inp1 it inp2 o1 o2 p :
  Forall div_wf inp1 -> length o1 = length inp1 -> den it = 0 -> o2 <> [] ->
  check_pairs DivScoreboard_check_item (inp1 ++ it :: inp2) (o1 ++ o2) p = Raise ZeroDivisionError.
Proof.
  intros Hwf. revert o1 p. induction Hwf as [|i inp1 Hi Hwf IH]; intros [|o o1] p Hl Hz Ho; try done.
  - destruct o2 as [|o o2]; [done|]. simpl. unfold DivScoreboard_check_item at 1, floordiv.
    by rewrite Hz.
  - cbn [app check_pairs]. destruct p as [b|]; cbn [set_initial].
    + rewrite (pair_spec i o b Hi). cbn [rbind]. apply IH; [by injection Hl|done..].
    + rewrite (pair_spec i o true Hi). cbn [rbind]. apply IH; [by injection Hl|done..].
Qed.

(** On a run of the default sequence (operations ["div"] and ["rem"],
    non-zero divisors) the check succeeds exactly when every result is the
    quotient or remainder of its item, and raises [AssertionError] otherwise;
    a zero divisor that is reached with a result raises [ZeroDivisionError]
    whatever was checked before it. *)
Theorem div_scoreboard_verdict rnd count items q :
  BaseSequence_body (BaseSequence_ops None) rnd 0 (S count) = Ok items ->
  (DivScoreboard_verdict items (Build_DivOutputItem <$> q) = Ok tt
   <-> q = (fun it => if String.eqb (op it) "div" then num it / den it else num it mod den it) <$> items)
  /\ (DivScoreboard_verdict items (Build_DivOutputItem <$> q) <> Ok tt ->
      DivScoreboard_verdict items (Build_DivOutputItem <$> q) = Raise AssertionError)
  /\ (forall it rest o, den it = 0 -> length q = length items ->
      DivScoreboard_verdict (items ++ it :: rest) ((Build_DivOutputItem <$> q) ++ o :: [])
      = Raise ZeroDivisionError).
Proof.
  intros E. destruct (BaseSequence_items (BaseSequence_ops None) rnd 0 (S count))
    as (items' & E' & Hl & Hf); [done|]. rewrite E in E'. injection E' as <-.
  assert (Hwf : Forall div_wf items).
  { eapply Forall_impl; [exact Hf|]. unfold div_wf. simpl. intros x (_ & _ & H). lia. }
  unfold DivScoreboard_verdict, DivScoreboard_check_phase. split; [|split].
  - rewrite check_pairs_iff by done. split.
    + intros [_ H]. rewrite Forall2_fmap_r in H. clear E Hl Hwf.
      induction H as [|it q' items q Hm H IH]; [done|]. inversion_clear Hf as [|?? (Ho & _) Hf'].
      apply div_matches_out in Hm; [|done]. rewrite fmap_cons, Hm. f_equal. by apply IH.
    + intros ->. split; [by destruct items|]. rewrite <- list_fmap_compose, Forall2_fmap_r.
      clear E Hl Hwf. induction Hf as [|it items (Ho & _) Hf IH]; constructor; [|done].
      by apply div_matches_out.
  - intros Hn. apply check_pairs_fail; [done|]. intros Hm. apply Hn. by apply check_pairs_iff.
  - intros it rest o Hz Hq. rewrite check_pairs_zero_den; try done. by rewrite length_fmap.
Qed.

Lemma div_scoreboard_verdict_witness :
  let items := [mkDivInputItem "div" 8 2; mkDivInputItem "rem" 9 3] in
  let rnd := fun i : nat => (7 + Z.of_nat i, 1 + Z.of_nat i, Z.of_nat i) in
  BaseSequence_body (BaseSequence_ops None) rnd 0 2 = Ok items
  /\ DivScoreboard_verdict items (Build_DivOutputItem <$> [4; 0]) = Ok tt.
Proof.
  split; [vm_compute; reflexivity|].
  refine (proj2 (proj1 (div_scoreboard_verdict
    (fun i : nat => (7 + Z.of_nat i, 1 + Z.of_nat i, Z.of_nat i)) 1
    [mkDivInputItem "div" 8 2; mkDivInputItem "rem" 9 3] [4; 0] _)) _);
    vm_compute; reflexivity.
Defined.

(** ** The handshake of the driver *)

(** The clock edges of a run, as seen by the driver. *)
Definition edges (es : list env) : list sample := Sample (RisingEdge "clk") <$> es.

Definition start_actions (it : DivInputItem) : list (action DivInputItem) :=
  [ADrive "dp_valid" 1; ADrive "dp_unsign" (unsign it);
   ADrive "dp_rem" (if String.eqb (op it) "rem" then 1 else 0);
   ADrive "dividend" (num it); ADrive "divisor" (den it)].

Definition finished (e : env) : bool := negb (e "finish_dly" =? 0).

(** What a driver that waits for at most [n] edges does on a run with the edges
    [es]: it lowers [dp_valid] at every edge up to the first that shows
    [finish_dly], where it completes; it raises at the [n]-th edge if there is
    none among the first [n], and waits on when the run ends before. *)
Fixpoint waits (n : nat) (es : list env) : nat * outcome unit :=
  match n, es with
  | O, _ => (O, Crashed RuntimeError)
  | S _, [] => (O, Suspended)
  | S n, e :: es =>
      if finished e then (1%nat, Done tt e (edges es))
      else let '(k, o) := waits n es in (S k, o)
  end.

Lemma finish_waits n cur es :
  run (DivDriver_finish n) cur (edges es)
  = (replicate (waits n es).1 (ADrive "dp_valid" 0), (waits n es).2).
Proof.
  revert cur es. induction n as [|n IH]; intros cur [|e es]; try done.
  cbn [DivDriver_finish]. change (edges (e :: es)) with (Sample (RisingEdge "clk") e :: edges es).
  cbn [pbind await drive]. rewrite run_await_hit. cbn [waits run].
  unfold finished, truthy. destruct (e "finish_dly" =? 0); cbn [negb]; [|done].
  rewrite IH. by destruct (waits n es).
Qed.

Lemma waits_quiet busy n es :
  Forall (fun e => finished e = false) busy -> (length busy <= n)%nat ->
  waits n (busy ++ es)
  = ((length busy + (waits (n - length busy) es).1)%nat, (waits (n - length busy) es).2).
Proof.
  intros Hb. revert n. induction Hb as [|b busy Hb _ IH]; intros n Hn.
  - cbn [app length plus]. rewrite Nat.sub_0_r. by destruct (waits n es).
  - destruct n as [|n]; [cbn in Hn; lia|]. cbn [app waits length] in *. rewrite Hb.
    rewrite IH by lia. done.
Qed.

(** The edges before the first that shows [finish_dly], and the rest. *)
Lemma split_finish es :
  exists busy rest, es = busy ++ rest /\ Forall (fun e => finished e = false) busy
    /\ match rest with [] => True | e1 :: _ => finished e1 = true end.
Proof.
  induction es as [|e es (busy & rest & -> & Hb & Hr)].
  - by exists [], [].
  - destruct (finished e) eqn:E.
    + by exists [], (e :: busy ++ rest).
    + exists (e :: busy), rest. by split_and!; [|constructor|].
Qed.

Lemma item_waits it cur e0 es :
  run (DivDriver_item it) cur (edges (e0 :: es))
  = (start_actions it ++ replicate (waits 100 es).1 (ADrive "dp_valid" 0), (waits 100 es).2).
Proof.
  unfold DivDriver_item. change (edges (e0 :: es)) with (Sample (RisingEdge "clk") e0 :: edges es).
  cbn [pbind await drive]. rewrite run_await_hit.
  cbn -[DivDriver_finish replicate edges waits]. rewrite finish_waits.
  by destruct (String.eqb _ _).
Qed.

(** C28: what the driver makes of an item, on every run.  The edges of a run after
    the one at which the item is presented are [busy], none of which shows
    [finish_dly], and then either nothing or an edge that does; every run has
    this form.  The item is presented for exactly one cycle ([dp_valid] is
    lowered at each later edge).  With fewer than 100 edges in [busy] the driver
    completes at the edge that shows [finish_dly], or still waits at the end of
    the run if there is none; with 100 or more it raises [RuntimeError] at the
    hundredth, whatever follows, and does not wait for a further one.  Without any
    edge nothing is driven. *)
Theorem div_driver_handshake it cur :
  run (DivDriver_item it) cur (edges []) = ([], Suspended)
  /\ forall e0 es, exists busy rest, es = busy ++ rest
    /\ Forall (fun e : env => e "finish_dly" = 0) busy
    /\ match rest with [] => True | e1 :: _ => e1 "finish_dly" <> 0 end
    /\ run (DivDriver_item it) cur (edges (e0 :: es))
       = if (length busy <? 100)%nat
         then match rest with
              | [] => (start_actions it ++ replicate (length busy) (ADrive "dp_valid" 0), Suspended)
              | e1 :: rest =>
                  (start_actions it ++ replicate (S (length busy)) (ADrive "dp_valid" 0),
                   Done tt e1 (edges rest))
              end
         else (start_actions it ++ replicate 100 (ADrive "dp_valid" 0), Crashed RuntimeError).
Proof.
  split; [done|]. intros e0 es. destruct (split_finish es) as (busy & rest & -> & Hb & Hr).
  exists busy, rest. split; [done|]. split.
  { eapply Forall_impl; [exact Hb|]. intros e. unfold finished. rewrite negb_false_iff. apply Z.eqb_eq. }
  split.
  { destruct rest as [|e1 rest]; [done|]. unfold finished in Hr. by rewrite negb_true_iff, Z.eqb_neq in Hr. }
  rewrite item_waits. destruct (Nat.ltb_spec (length busy) 100) as [Hn|Hn].
  - rewrite waits_quiet by (done || lia).
    destruct (100 - length busy)%nat as [|m] eqn:E; [lia|].
    destruct rest as [|e1 rest]; cbn [waits fst snd]; [by rewrite Nat.add_0_r|].
    rewrite Hr. cbn [fst snd]. by rewrite Nat.add_1_r.
  - rewrite <- (take_drop 100 busy), <- app_assoc, waits_quiet.
    + rewrite length_take_le by done. by rewrite Nat.sub_diag.
    + by apply Forall_take.
    + rewrite length_take. lia.
Qed.
