(* ===== verification/LogicArray.v ===== *)
(** * The interface of cocotb's [LogicArray]

    [cocotb.types.LogicArray] is third-party code.  The development uses it
    through the class [LogicArray]; the documented behaviour of each operation,
    in terms of the unsigned value ([integer]) and the length of an array, is
    the class [LogicArraySpec].  [bits] is an implementation, used by the
    witnesses. *)

From S2P Require Import Prelude.
From stdpp Require Import base list.
From Stdlib Require Import ZArith Lia.

#[local] Open Scope list_scope.
#[local] Open Scope Z_scope.

Class LogicArray (LA : Type) := {
  la_make : Z -> Z -> LA;          (** [LogicArray(v, r)], [r] of length [n]: [la_make n v] *)
  la_of : Z -> LA;                 (** [LogicArray(v)] *)
  la_len : LA -> Z;                (** [len(a)] *)
  integer : LA -> Z;               (** [a.integer] *)
  la_slice : LA -> Z -> Z -> LA;   (** [a[h:l]], for a [downto] range *)
  la_bit : LA -> Z -> Z;           (** [int(a[i])], for a [downto] range *)
  la_clear_bit : LA -> Z -> LA;    (** the array after [a[i] = 0] *)
  la_concat : LA -> LA -> LA;      (** [concat(a, b)] *)
  la_eqb : LA -> LA -> bool;       (** [a == b] *)
  la_list : LA -> list Z;          (** [list(a)]: the elements from left to right *)
}.

Class LogicArraySpec (LA : Type) `{!LogicArray LA} := {
  la_bound a : 0 <= integer a < 2 ^ la_len a;
  la_len_nonneg a : 0 <= la_len a;
  la_make_len n v : 0 <= n -> la_len (la_make n v) = n;
  la_make_int n v : 0 <= n -> 0 <= v < 2 ^ n -> integer (la_make n v) = v;
  la_of_int v : 0 <= v -> integer (la_of v) = v;
  la_of_bit v : v = 0 \/ v = 1 -> la_len (la_of v) = 1;
  la_slice_len a h l : 0 <= l <= h -> h < la_len a -> la_len (la_slice a h l) = h - l + 1;
  la_slice_int a h l : 0 <= l <= h -> h < la_len a ->
    integer (la_slice a h l) = integer a / 2 ^ l mod 2 ^ (h - l + 1);
  la_bit_int a i : 0 <= i < la_len a -> la_bit a i = integer a / 2 ^ i mod 2;
  la_clear_len a i : la_len (la_clear_bit a i) = la_len a;
  la_clear_int a i : 0 <= i < la_len a -> integer (la_clear_bit a i) = Z.clearbit (integer a) i;
  la_concat_len a b : la_len (la_concat a b) = la_len a + la_len b;
  la_concat_int a b : integer (la_concat a b) = integer a * 2 ^ la_len b + integer b;
  la_eqb_spec a b : la_len a = la_len b -> la_eqb a b = (integer a =? integer b);
  la_list_spec a :
    rev (la_list a)
    = (fun i => integer a / 2 ^ Z.of_nat i mod 2) <$> seq 0 (Z.to_nat (la_len a));
}.

(** ** An implementation *)

Record bits := { bits_len : nat; bits_val : Z }.

Definition bits_int (a : bits) : Z := bits_val a mod 2 ^ Z.of_nat (bits_len a).

#[export] Instance bits_logic_array : LogicArray bits := {
  la_make n v := {| bits_len := Z.to_nat n; bits_val := v |};
  la_of v := {| bits_len := Z.to_nat (1 + Z.log2 v); bits_val := v |};
  la_len a := Z.of_nat (bits_len a);
  integer := bits_int;
  la_slice a h l := {| bits_len := Z.to_nat (h - l + 1); bits_val := bits_int a / 2 ^ l |};
  la_bit a i := bits_int a / 2 ^ i mod 2;
  la_clear_bit a i := {| bits_len := bits_len a; bits_val := Z.clearbit (bits_int a) i |};
  la_concat a b := {| bits_len := bits_len a + bits_len b;
                      bits_val := bits_int a * 2 ^ Z.of_nat (bits_len b) + bits_int b |};
  la_eqb a b := bits_int a =? bits_int b;
  la_list a := rev ((fun i => bits_int a / 2 ^ Z.of_nat i mod 2) <$> seq 0 (bits_len a));
}.

Lemma bits_int_bound a : 0 <= bits_int a < 2 ^ Z.of_nat (bits_len a).
Proof. apply Z.mod_pos_bound. lia. Qed.

Lemma clearbit_le a i : 0 <= a -> 0 <= i -> 0 <= Z.clearbit a i <= a.
Proof.
  intros Ha Hi. rewrite Z.clearbit_spec', Z.ldiff_land by lia.
  rewrite land_lnot_pow2 by done. destruct (Z.testbit a i) eqn:E; [|lia].
  pose proof (Z.pow_nonneg 2 i). split; [|lia].
  rewrite <- ldiff_pow2 by done. apply Z.land_nonneg. lia.
Qed.

#[export] Instance bits_logic_array_spec : LogicArraySpec bits.
Proof.
  constructor; simpl.
  - apply bits_int_bound.
  - lia.
  - lia.
  - intros n v Hn Hv. unfold bits_int; simpl. rewrite Z2Nat.id by done. by apply Z.mod_small.
  - intros v Hv. unfold bits_int; simpl. pose proof (Z.log2_nonneg v).
    rewrite Z2Nat.id by lia. apply Z.mod_small. split; [done|].
    destruct (decide (v = 0)) as [->|]; [done|].
    replace (1 + Z.log2 v) with (Z.succ (Z.log2 v)) by lia. apply Z.log2_spec. lia.
  - by intros v [->| ->].
  - intros a h l H1 H2. lia.
  - intros a h l H1 H2. unfold bits_int at 1; simpl. by rewrite Z2Nat.id by lia.
  - done.
  - done.
  - intros a i Hi. unfold bits_int at 1; simpl. apply Z.mod_small.
    pose proof (bits_int_bound a). pose proof (clearbit_le (bits_int a) i). lia.
  - intros a b. lia.
  - intros a b. unfold bits_int at 1; simpl. apply Z.mod_small.
    pose proof (bits_int_bound a) as Ha. pose proof (bits_int_bound b) as Hb.
    rewrite Nat2Z.inj_add, Z.pow_add_r by lia. nia.
  - done.
  - intros a. by rewrite rev_involutive, Nat2Z.id.
Qed.
