(* ===== verification/Jtag.v ===== *)
(** * JTAG TAP predictor: verification/block/dmi/jtag_predictor.py

    [JTAGPredictor] computes, edge by edge, the state machine, the registers and
    the output ports of the TAP, over cocotb's [LogicArray] (here the class of
    LogicArray.v).  [Tap] is the abstract machine it is meant to implement: one
    step per TCK cycle, over integers; [tap_cycle] is the step of IEEE 1149.1,
    [sticky_cycle] the one the predictor computes, which keeps its instruction in
    Test-Logic-Reset.  [jtag_refines_tap] says when the two coincide;
    the theorems on the sequences of jtag_seq.py and dmi_seq.py follow from it. *)

From S2P Require Import Prelude LogicArray.
From stdpp Require Import base list strings.
From Stdlib Require Import ZArith Lia.

#[local] Open Scope string_scope.
#[local] Open Scope list_scope.
#[local] Open Scope Z_scope.

Inductive JTAGStates :=
  | TEST_LOGIC_RESET_STATE
  | RUN_TEST_IDLE_STATE
  | SELECT_DR_SCAN_STATE
  | CAPTURE_DR_STATE
  | SHIFT_DR_STATE
  | EXIT1_DR_STATE
  | PAUSE_DR_STATE
  | EXIT2_DR_STATE
  | UPDATE_DR_STATE
  | SELECT_IR_SCAN_STATE
  | CAPTURE_IR_STATE
  | SHIFT_IR_STATE
  | EXIT1_IR_STATE
  | PAUSE_IR_STATE
  | EXIT2_IR_STATE
  | UPDATE_IR_STATE.

#[export] Instance JTAGStates_eq_dec : EqDecision JTAGStates.
Proof. solve_decision. Defined.

(** The ports of the unit under test that the predictor reads.  An unresolved
    value is [None]. *)
Record Inputs := {
  trst_n : Z;
  tms : option Z;
  tdi : option Z;
  rd_data : Z;
}.

(** [get_int] on a signal: 0 when [int(signal)] raises [ValueError]. *)
Definition get_int_signal (s : option Z) : Z := default 0 s.

(** ** The state of the predictor *)

(** "Predicted output ports" *)
Record Ports {LA : Type} := {
  tdo : Z;
  tdo_next : Z;
  tdoEnable : Z;
  wr_data : LA;
  wr_addr : LA;
  wr_en : Z;
  rd_en : Z;
  dmi_hard_reset : Z;
}.
Arguments Ports : clear implicits.

(** "Internal JTAG state and registers" *)
Record Fsm := {
  nstate : JTAGStates;
  state : JTAGStates;
  prev_nstate : JTAGStates;
}.

Record Regs {LA : Type} := {
  ir : LA;
  dr : LA;
  ndr : LA;
  sr : LA;
  nsr : LA;
}.
Arguments Regs : clear implicits.

Record JTAGPredictor {LA : Type} := {
  ports : Ports LA;
  fsm : Fsm;
  regs : Regs LA;
}.
Arguments JTAGPredictor : clear implicits.

Section Predictor.
Context {LA : Type} `{LOps : LogicArray LA}.
Variable AWIDTH : Z.

(** The length of [reg_range]. *)
Definition reg_len : Z := AWIDTH + 34.

(** ** Constants of jtag_pkg.py and common.py *)

Definition JTAGDefaults_IDLE : LA := la_make 2 0.
Definition JTAGDefaults_DMI_STAT : LA := la_make 2 0.
Definition JTAGDefaults_VERSION : LA := la_make 4 1.
Definition JTAGDefaults_RD_STATUS : LA := la_make 2 0.

Definition DEVICE_ID_SEL : LA := la_make 5 1.
Definition DR_EN_0 : LA := la_make 5 16.
Definition DR_EN_1 : LA := la_make 5 17.

Definition Defaults_DMI_STAT : LA := la_make 2 0.
Definition Defaults_ABITS : LA := la_make 6 7.
Definition Defaults_VERSION : LA := la_make 4 1.
Definition Defaults_DTMCS : LA :=
  la_concat (la_concat Defaults_DMI_STAT Defaults_ABITS) Defaults_VERSION.
Definition Defaults_REVISION_CODE : LA := la_make 4 0.
Definition Defaults_MANUFACTURERS_ID_CODE : LA := la_make 11 0.
Definition Defaults_DEVICE_ID_CODE : LA := la_make 16 0.
Definition Defaults_JTAG_ID : LA :=
  la_concat (la_concat Defaults_REVISION_CODE Defaults_DEVICE_ID_CODE)
    Defaults_MANUFACTURERS_ID_CODE.

(** [get_int] on a [LogicArray]. *)
Definition get_int (a : LA) : Z := integer a.

Definition JTAGPredictor_init : JTAGPredictor LA := {|
  ports := {| tdo := 0; tdo_next := 0; tdoEnable := 0; wr_data := la_make 32 0;
              wr_addr := la_make AWIDTH 0; wr_en := 0; rd_en := 0; dmi_hard_reset := 0 |};
  fsm := {| nstate := TEST_LOGIC_RESET_STATE; state := TEST_LOGIC_RESET_STATE;
            prev_nstate := TEST_LOGIC_RESET_STATE |};
  regs := {| ir := la_make 5 1; dr := la_make reg_len 0; ndr := la_make reg_len 0;
             sr := la_make reg_len 0; nsr := la_make reg_len 0 |};
|}.

(** ** The state machine *)

Definition update_state (f : Fsm) : Fsm :=
  {| nstate := nstate f; state := nstate f; prev_nstate := prev_nstate f |}.

(** The branches on [self.state], which follow the [trst_n] test without an
    [else] and so overwrite what it assigned. *)
Definition update_nstate (i : Inputs) (f : Fsm) : Fsm :=
  let prev := nstate f in
  let n0 := if trst_n i =? 0 then TEST_LOGIC_RESET_STATE else nstate f in
  let tms1 := get_int_signal (tms i) =? 1 in
  let n :=
    match state f with
    | TEST_LOGIC_RESET_STATE => if tms1 then TEST_LOGIC_RESET_STATE else RUN_TEST_IDLE_STATE
    | RUN_TEST_IDLE_STATE => if tms1 then SELECT_DR_SCAN_STATE else RUN_TEST_IDLE_STATE
    | SELECT_DR_SCAN_STATE => if tms1 then SELECT_IR_SCAN_STATE else CAPTURE_DR_STATE
    | CAPTURE_DR_STATE => if tms1 then EXIT1_DR_STATE else SHIFT_DR_STATE
    | SHIFT_DR_STATE => if tms1 then EXIT1_DR_STATE else SHIFT_DR_STATE
    | EXIT1_DR_STATE => if tms1 then UPDATE_DR_STATE else PAUSE_DR_STATE
    | PAUSE_DR_STATE => if tms1 then EXIT2_DR_STATE else PAUSE_DR_STATE
    | EXIT2_DR_STATE => if tms1 then UPDATE_DR_STATE else SHIFT_DR_STATE
    | UPDATE_DR_STATE => if tms1 then SELECT_DR_SCAN_STATE else RUN_TEST_IDLE_STATE
    | SELECT_IR_SCAN_STATE => if tms1 then TEST_LOGIC_RESET_STATE else CAPTURE_IR_STATE
    | CAPTURE_IR_STATE => if tms1 then EXIT1_IR_STATE else SHIFT_IR_STATE
    | SHIFT_IR_STATE => if tms1 then EXIT1_IR_STATE else SHIFT_IR_STATE
    | EXIT1_IR_STATE => if tms1 then UPDATE_IR_STATE else PAUSE_IR_STATE
    | PAUSE_IR_STATE => if tms1 then EXIT2_IR_STATE else PAUSE_IR_STATE
    | EXIT2_IR_STATE => if tms1 then UPDATE_IR_STATE else SHIFT_IR_STATE
    | UPDATE_IR_STATE => if tms1 then SELECT_DR_SCAN_STATE else RUN_TEST_IDLE_STATE
    end in
  let f := {| nstate := n0; state := state f; prev_nstate := prev |} in
  {| nstate := n; state := state f; prev_nstate := prev_nstate f |}.

(** ** The registers *)

Definition predict_nsr_reg (i : Inputs) (f : Fsm) (r : Regs LA) : Regs LA :=
  let tdi_lr := la_of (get_int_signal (tdi i)) in
  let nsr0 := la_make reg_len (get_int (sr r)) in
  let nsr1 :=
    match state f with
    | SHIFT_DR_STATE =>
        if la_eqb (ir r) DR_EN_1 then la_concat tdi_lr (la_slice (sr r) (AWIDTH + 33) 1)
        else if la_eqb (ir r) DR_EN_0 || la_eqb (ir r) DEVICE_ID_SEL then
          la_concat (la_make (AWIDTH + 2) 0) (la_concat tdi_lr (la_slice (sr r) 31 1))
        else la_make reg_len (get_int_signal (tdi i))
    | CAPTURE_DR_STATE =>
        if la_eqb (ir r) DR_EN_0 then
          la_concat (la_make (AWIDTH + 19) 0)
            (la_concat
              (la_concat (la_concat JTAGDefaults_IDLE JTAGDefaults_DMI_STAT) Defaults_ABITS)
              JTAGDefaults_VERSION)
        else if la_eqb (ir r) DR_EN_1 then
          la_concat (la_concat (la_make AWIDTH 0) (la_make 32 (rd_data i))) JTAGDefaults_RD_STATUS
        else if la_eqb (ir r) DEVICE_ID_SEL then
          la_concat (la_make (AWIDTH + 2) 0) (la_concat Defaults_JTAG_ID (la_of 1))
        else la_clear_bit nsr0 0
    | SHIFT_IR_STATE =>
        la_concat (la_make (AWIDTH + 29) 0) (la_concat tdi_lr (la_slice (sr r) 4 1))
    | CAPTURE_IR_STATE => la_make reg_len 1
    | _ => nsr0
    end in
  {| ir := ir r; dr := dr r; ndr := ndr r; sr := sr r; nsr := nsr1 |}.

Definition predict_regs_posedge (i : Inputs) (f : Fsm) (r : Regs LA) : Regs LA :=
  let reset := trst_n i =? 0 in
  let dr := ndr r in
  let sr := if reset then la_make reg_len 0 else la_make reg_len (get_int (nsr r)) in
  let nsr := if reset then la_make (la_len (nsr r)) 0 else nsr r in
  let ir1 := if reset then la_make (la_len (ir r)) 1 else ir r in
  let ir2 :=
    if decide (state f = UPDATE_IR_STATE) then
      if integer (la_slice sr 4 0) =? 0 then la_make (la_len ir1) 0x1F else la_slice sr 4 0
    else ir1 in
  let ndr :=
    if bool_decide (state f = UPDATE_DR_STATE) && la_eqb ir2 DR_EN_1
    then la_make reg_len (get_int sr)
    else la_concat (la_slice dr (AWIDTH + 33) 2) (la_make 2 0) in
  predict_nsr_reg i f {| ir := ir2; dr := dr; ndr := ndr; sr := sr; nsr := nsr |}.

Definition shifting (s : JTAGStates) : Z :=
  match s with SHIFT_DR_STATE | SHIFT_IR_STATE => 1 | _ => 0 end.

Definition predict_regs_negedge (i : Inputs) (p : JTAGPredictor LA) : JTAGPredictor LA :=
  let o := ports p in
  {| ports := {| tdo := la_bit (sr (regs p)) 0; tdo_next := tdo_next o;
                 tdoEnable := shifting (state (fsm p)); wr_data := wr_data o; wr_addr := wr_addr o;
                 wr_en := wr_en o; rd_en := rd_en o; dmi_hard_reset := dmi_hard_reset o |};
     fsm := fsm p;
     regs := predict_nsr_reg i (fsm p) (regs p) |}.

(** ** The output ports *)

Definition predict_ports (i : Inputs) (p : JTAGPredictor LA) : JTAGPredictor LA :=
  let o := ports p in
  let f := fsm p in
  let r := regs p in
  {| ports := {|
       tdo := tdo o;
       tdo_next := tdo_next o;
       tdoEnable := shifting (state f);
       wr_data := la_of (get_int (la_slice (dr r) 33 2));
       wr_addr := la_of (get_int (la_slice (dr r) (AWIDTH + 34 - 1) 34));
       wr_en := la_bit (dr r) 1;
       rd_en := la_bit (dr r) 0;
       dmi_hard_reset :=
         if bool_decide (state f = UPDATE_DR_STATE) && la_eqb (ir r) DR_EN_0
         then la_bit (sr r) 17 else 0 |};
     fsm := f; regs := r |}.

Definition predict_jtag_outputs (edge : string) (i : Inputs) (p : JTAGPredictor LA)
  : result (JTAGPredictor LA) :=
  let! _ := py_assert (str_in edge ["pos"; "neg"]) in
  let f := update_nstate i (fsm p) in
  let p :=
    if String.eqb edge "pos" then
      let f := update_state f in
      {| ports := ports p; fsm := f; regs := predict_regs_posedge i f (regs p) |}
    else predict_regs_negedge i {| ports := ports p; fsm := f; regs := regs p |} in
  Ok (predict_ports i p).

(** One TCK cycle of the response monitor: the predictor is run after the
    falling edge and then after the rising edge. *)
Definition predict_edges (i j : Inputs) (p : JTAGPredictor LA) : result (JTAGPredictor LA) :=
  let! p := predict_jtag_outputs "neg" i p in
  predict_jtag_outputs "pos" j p.

(** The same with inputs that do not change between the two edges. *)
Definition predict_cycle (i : Inputs) (p : JTAGPredictor LA) : result (JTAGPredictor LA) :=
  predict_edges i i p.

Fixpoint predict_cycles (ins : list Inputs) (p : JTAGPredictor LA) : result (JTAGPredictor LA) :=
  match ins with
  | [] => Ok p
  | i :: ins => let! p := predict_cycle i p in predict_cycles ins p
  end.
End Predictor.

(** ** The abstract TAP *)

(** The transitions of IEEE 1149.1, as tabulated in test_dmi_tap_fsm.py. *)
Definition TAP_TRANSITIONS : list (JTAGStates * JTAGStates * Z) := [
  (TEST_LOGIC_RESET_STATE, TEST_LOGIC_RESET_STATE, 1);
  (TEST_LOGIC_RESET_STATE, RUN_TEST_IDLE_STATE, 0);
  (RUN_TEST_IDLE_STATE, SELECT_DR_SCAN_STATE, 1);
  (RUN_TEST_IDLE_STATE, RUN_TEST_IDLE_STATE, 0);
  (SELECT_DR_SCAN_STATE, SELECT_IR_SCAN_STATE, 1);
  (SELECT_DR_SCAN_STATE, CAPTURE_DR_STATE, 0);
  (CAPTURE_DR_STATE, EXIT1_DR_STATE, 1);
  (CAPTURE_DR_STATE, SHIFT_DR_STATE, 0);
  (SHIFT_DR_STATE, EXIT1_DR_STATE, 1);
  (SHIFT_DR_STATE, SHIFT_DR_STATE, 0);
  (EXIT1_DR_STATE, UPDATE_DR_STATE, 1);
  (EXIT1_DR_STATE, PAUSE_DR_STATE, 0);
  (PAUSE_DR_STATE, EXIT2_DR_STATE, 1);
  (PAUSE_DR_STATE, PAUSE_DR_STATE, 0);
  (EXIT2_DR_STATE, UPDATE_DR_STATE, 1);
  (EXIT2_DR_STATE, SHIFT_DR_STATE, 0);
  (UPDATE_DR_STATE, SELECT_DR_SCAN_STATE, 1);
  (UPDATE_DR_STATE, RUN_TEST_IDLE_STATE, 0);
  (SELECT_IR_SCAN_STATE, TEST_LOGIC_RESET_STATE, 1);
  (SELECT_IR_SCAN_STATE, CAPTURE_IR_STATE, 0);
  (CAPTURE_IR_STATE, EXIT1_IR_STATE, 1);
  (CAPTURE_IR_STATE, SHIFT_IR_STATE, 0);
  (SHIFT_IR_STATE, EXIT1_IR_STATE, 1);
  (SHIFT_IR_STATE, SHIFT_IR_STATE, 0);
  (EXIT1_IR_STATE, UPDATE_IR_STATE, 1);
  (EXIT1_IR_STATE, PAUSE_IR_STATE, 0);
  (PAUSE_IR_STATE, EXIT2_IR_STATE, 1);
  (PAUSE_IR_STATE, PAUSE_IR_STATE, 0);
  (EXIT2_IR_STATE, UPDATE_IR_STATE, 1);
  (EXIT2_IR_STATE, SHIFT_IR_STATE, 0);
  (UPDATE_IR_STATE, SELECT_DR_SCAN_STATE, 1);
  (UPDATE_IR_STATE, RUN_TEST_IDLE_STATE, 0) ].

Definition tap_next (s : JTAGStates) (tms : Z) : JTAGStates :=
  match List.find (fun '(a, b, t) => bool_decide (a = s) && (t =? tms)) TAP_TRANSITIONS with
  | Some (_, b, _) => b
  | None => s
  end.

Record Tap := { t_state : JTAGStates; t_ir : Z; t_sr : Z; t_dr : Z; t_ndr : Z }.

(** The shift register after a cycle that starts in state [s]: bits move
    towards bit 0, [tdi] enters at the top of the selected register. *)
Definition tap_shift (aw : Z) (s : JTAGStates) (ir sr tdi rd : Z) : Z :=
  match s with
  | SHIFT_DR_STATE =>
      if ir =? 17 then tdi * 2 ^ (aw + 33) + sr / 2
      else if (ir =? 16) || (ir =? 1) then tdi * 2 ^ 31 + (sr / 2) mod 2 ^ 31
      else tdi
  | CAPTURE_DR_STATE =>
      if ir =? 16 then 7 * 2 ^ 4 + 1      (* dtmcs: abits 7, version 1 *)
      else if ir =? 17 then rd * 4        (* dmi: data read, status 0 *)
      else if ir =? 1 then 1              (* idcode *)
      else 2 * (sr / 2)
  | SHIFT_IR_STATE => tdi * 2 ^ 4 + (sr / 2) mod 2 ^ 4
  | CAPTURE_IR_STATE => 1
  | _ => sr
  end.

(** One TCK cycle of IEEE 1149.1: a cycle that enters (or stays in)
    Test-Logic-Reset loads the IDCODE instruction, as rvjtag_tap.v does; a cycle
    that enters Update-IR loads the instruction shifted in, 0 being BYPASS. *)
Definition tap_cycle (aw : Z) (i : Inputs) (t : Tap) : Tap :=
  let s := tap_next (t_state t) (get_int_signal (tms i)) in
  let sr := tap_shift aw (t_state t) (t_ir t) (t_sr t) (get_int_signal (tdi i)) (rd_data i) in
  let ir :=
    match s with
    | TEST_LOGIC_RESET_STATE => 1
    | UPDATE_IR_STATE => if sr mod 2 ^ 5 =? 0 then 31 else sr mod 2 ^ 5
    | _ => t_ir t
    end in
  {| t_state := s; t_ir := ir; t_sr := sr; t_dr := t_ndr t;
     t_ndr := if bool_decide (s = UPDATE_DR_STATE) && (ir =? 17) then sr
              else t_ndr t / 2 ^ 2 * 2 ^ 2 |}.

Fixpoint tap_cycles (aw : Z) (ins : list Inputs) (t : Tap) : Tap :=
  match ins with
  | [] => t
  | i :: ins => tap_cycles aw ins (tap_cycle aw i t)
  end.

(** The run never resets an instruction other than IDCODE: whenever a cycle
    enters Test-Logic-Reset, IDCODE is the instruction already. *)
Fixpoint idcode_at_reset (aw : Z) (ins : list Inputs) (t : Tap) : Prop :=
  match ins with
  | [] => True
  | i :: ins =>
      (t_state (tap_cycle aw i t) = TEST_LOGIC_RESET_STATE -> t_ir t = 1)
      /\ idcode_at_reset aw ins (tap_cycle aw i t)
  end.

(** The step of a TAP that differs from IEEE 1149.1 in one point: it keeps its
    instruction in Test-Logic-Reset.  This is what the predictor computes. *)
Definition sticky_cycle (aw : Z) (i : Inputs) (t : Tap) : Tap :=
  let s := tap_next (t_state t) (get_int_signal (tms i)) in
  let sr := tap_shift aw (t_state t) (t_ir t) (t_sr t) (get_int_signal (tdi i)) (rd_data i) in
  let ir :=
    if decide (s = UPDATE_IR_STATE) then if sr mod 2 ^ 5 =? 0 then 31 else sr mod 2 ^ 5
    else t_ir t in
  {| t_state := s; t_ir := ir; t_sr := sr; t_dr := t_ndr t;
     t_ndr := if bool_decide (s = UPDATE_DR_STATE) && (ir =? 17) then sr
              else t_ndr t / 2 ^ 2 * 2 ^ 2 |}.

Definition tap_init : Tap :=
  {| t_state := TEST_LOGIC_RESET_STATE; t_ir := 1; t_sr := 0; t_dr := 0; t_ndr := 0 |}.

(** Inputs outside of reset, with resolved one-bit [tms] and [tdi]. *)
Definition good_inputs (i : Inputs) : Prop :=
  trst_n i <> 0 /\ (tms i = Some 0 \/ tms i = Some 1) /\ (tdi i = Some 0 \/ tdi i = Some 1)
  /\ 0 <= rd_data i < 2 ^ 32.

Lemma sticky_cycle_tap aw i t :
  (t_state (tap_cycle aw i t) = TEST_LOGIC_RESET_STATE -> t_ir t = 1) ->
  sticky_cycle aw i t = tap_cycle aw i t.
Proof.
  unfold sticky_cycle, tap_cycle. cbn [t_state]. intros H.
  destruct (tap_next (t_state t) (get_int_signal (tms i))); cbn; try done. by rewrite H.
Qed.

(** Entering Test-Logic-Reset the sticky step keeps the instruction. *)
Lemma sticky_cycle_reset aw i t :
  t_state (tap_cycle aw i t) = TEST_LOGIC_RESET_STATE ->
  t_state (sticky_cycle aw i t) = TEST_LOGIC_RESET_STATE /\ t_ir (sticky_cycle aw i t) = t_ir t
  /\ t_ir (tap_cycle aw i t) = 1.
Proof. unfold sticky_cycle, tap_cycle. cbn [t_state]. by intros ->. Qed.

(** ** The simulation *)

Section Refinement.
Context {LA : Type} `{LOps : LogicArray LA} {LSpec : LogicArraySpec LA}.
Variable AWIDTH : Z.
Hypothesis AWIDTH_nonneg : 0 <= AWIDTH.

Lemma tap_next_bit s m :
  m = 0 \/ m = 1 ->
  forall i f, state f = s -> get_int_signal (tms i) = m -> nstate (update_nstate i f) = tap_next s m.
Proof. intros [-> | ->] i f Hs Hm; unfold update_nstate; rewrite Hs, Hm; by destruct s. Qed.

Lemma reg_len_pos : 0 <= reg_len AWIDTH.
Proof using AWIDTH_nonneg. unfold reg_len. lia. Qed.

Lemma mod_pow2_bound v k : 0 <= k -> 0 <= v mod 2 ^ k < 2 ^ k.
Proof. intros Hk. apply Z.mod_pos_bound. lia. Qed.

Lemma div2_bound v k : 0 <= k -> 0 <= v < 2 ^ (k + 1) -> 0 <= v / 2 < 2 ^ k.
Proof.
  intros Hk Hv. rewrite Z.pow_add_r in Hv by lia.
  split; [apply Z.div_pos; lia|apply Z.div_lt_upper_bound; lia].
Qed.

Lemma tap_shift_bound s irv srv tdiv rd :
  tdiv = 0 \/ tdiv = 1 -> 0 <= rd < 2 ^ 32 -> 0 <= srv < 2 ^ reg_len AWIDTH ->
  0 <= tap_shift AWIDTH s irv srv tdiv rd < 2 ^ reg_len AWIDTH.
Proof using AWIDTH_nonneg.
  intros Ht Hr Hs. unfold reg_len in *. pose proof (div2_bound srv (AWIDTH + 33) ltac:(lia)) as H2.
  replace (AWIDTH + 33 + 1) with (AWIDTH + 34) in H2 by lia. specialize (H2 Hs).
  pose proof (mod_pow2_bound (srv / 2) 31 ltac:(lia)).
  pose proof (mod_pow2_bound (srv / 2) 4 ltac:(lia)).
  assert (2 ^ (AWIDTH + 34) = 2 * 2 ^ (AWIDTH + 33)) as Hp.
  { rewrite <- Z.pow_succ_r by lia. f_equal. lia. }
  assert (2 ^ 34 <= 2 ^ (AWIDTH + 34)) by (apply Z.pow_le_mono_r; lia).
  pose proof (Z.mul_div_le srv 2).
  destruct s; simpl tap_shift; try lia.
  - destruct (irv =? 16); [lia|]. destruct (irv =? 17); [lia|]. destruct (irv =? 1); lia.
  - destruct (irv =? 17); [destruct Ht as [-> | ->]; lia|].
    destruct ((irv =? 16) || (irv =? 1)); destruct Ht as [-> | ->]; lia.
Qed.

Lemma clearbit_0 v : Z.clearbit v 0 = 2 * (v / 2).
Proof.
  rewrite Z.clearbit_spec', Z.ldiff_land, (land_lnot_pow2 v 0), Z.bit0_odd by lia.
  pose proof (Z.div_mod v 2 ltac:(lia)) as E. rewrite Zmod_odd in E.
  change (2 ^ 0) with 1. destruct (Z.odd v); lia.
Qed.

(** The values and lengths of the registers. *)
Record regs_rel (r : Regs LA) (irv srv drv ndrv : Z) : Prop := {
  ir_len : la_len (ir r) = 5;
  ir_val : integer (ir r) = irv;
  sr_len : la_len (sr r) = reg_len AWIDTH;
  sr_val : integer (sr r) = srv;
  dr_len : la_len (dr r) = reg_len AWIDTH;
  dr_val : integer (dr r) = drv;
  ndr_len : la_len (ndr r) = reg_len AWIDTH;
  ndr_val : integer (ndr r) = ndrv;
}.

Lemma eqb_const a n v :
  0 <= n -> 0 <= v < 2 ^ n -> la_len a = n -> la_eqb a (la_make n v) = (integer a =? v).
Proof using LSpec.
  intros Hn Hv Ha. rewrite la_eqb_spec, la_make_int by (rewrite ?la_make_len; done). done.
Qed.

Lemma zero_array n : 0 <= n -> integer (la_make n 0) = 0.
Proof using LSpec. intros Hn. apply la_make_int; [done|]. split; [done|]. lia. Qed.

Lemma predict_nsr_value i f r irv srv drv ndrv :
  regs_rel r irv srv drv ndrv -> good_inputs i ->
  integer (nsr (predict_nsr_reg AWIDTH i f r))
  = tap_shift AWIDTH (state f) irv srv (get_int_signal (tdi i)) (rd_data i).
Proof using LSpec AWIDTH_nonneg.
  intros [Hil Hiv Hsl Hsv _ _ _ _] (_ & _ & Htdi & Hrd).
  assert (Ht : get_int_signal (tdi i) = 0 \/ get_int_signal (tdi i) = 1)
    by (destruct Htdi as [-> | ->]; simpl; auto).
  unfold predict_nsr_reg, get_int; cbn [nsr].
  set (t := get_int_signal (tdi i)) in *. clearbody t.
  assert (Hb : 0 <= srv < 2 ^ reg_len AWIDTH) by (rewrite <- Hsv, <- Hsl; apply la_bound).
  assert (Htl : integer (la_of t) = t) by (apply la_of_int; lia).
  pose proof reg_len_pos as Hrp.
  assert (Hkeep : integer (la_make (reg_len AWIDTH) (integer (sr r))) = srv)
    by (rewrite la_make_int; rewrite ?Hsv; done).
  assert (2 ^ 34 <= 2 ^ reg_len AWIDTH) by (apply Z.pow_le_mono_r; unfold reg_len; lia).
  destruct (state f); simpl tap_shift; try exact Hkeep.
  - unfold DR_EN_0, DR_EN_1, DEVICE_ID_SEL. rewrite !eqb_const, Hiv by (done || lia).
    destruct (irv =? 16); [|destruct (irv =? 17); [|destruct (irv =? 1)]].
    + rewrite !la_concat_int, !la_concat_len, zero_array by lia.
      unfold JTAGDefaults_IDLE, JTAGDefaults_DMI_STAT, Defaults_ABITS, JTAGDefaults_VERSION.
      rewrite !zero_array, !la_make_int, !la_make_len by lia. done.
    + unfold JTAGDefaults_RD_STATUS.
      rewrite !la_concat_int, !zero_array, !la_make_int, !la_make_len by lia. lia.
    + unfold Defaults_JTAG_ID, Defaults_REVISION_CODE, Defaults_DEVICE_ID_CODE,
        Defaults_MANUFACTURERS_ID_CODE.
      rewrite !la_concat_int, !zero_array, la_of_int by lia. lia.
    + rewrite la_clear_int, Hkeep by (rewrite la_make_len; unfold reg_len; lia).
      apply clearbit_0.
  - unfold DR_EN_0, DR_EN_1, DEVICE_ID_SEL. rewrite !eqb_const, Hiv by (done || lia).
    destruct (irv =? 17); [|destruct ((irv =? 16) || (irv =? 1))].
    + rewrite la_concat_int, la_slice_len, la_slice_int, Htl, Hsv
        by (rewrite ?Hsl; unfold reg_len; lia).
      replace (AWIDTH + 33 - 1 + 1) with (AWIDTH + 33) by lia. f_equal. apply Z.mod_small.
      apply div2_bound; [lia|]. unfold reg_len in Hb. by replace (AWIDTH + 33 + 1) with (AWIDTH + 34) by lia.
    + rewrite !la_concat_int, la_slice_len, la_slice_int, zero_array, Htl, Hsv
        by (rewrite ?Hsl; unfold reg_len; lia). done.
    + apply la_make_int; [done|]. lia.
  - apply la_make_int; lia.
  - rewrite !la_concat_int, la_slice_len, la_slice_int, zero_array, Htl, Hsv
      by (rewrite ?Hsl; unfold reg_len; lia). done.
Qed.

(** The predictor [p] represents the state [t] of the TAP. *)
Record refines (p : JTAGPredictor LA) (t : Tap) : Prop := {
  rel_state : state (fsm p) = t_state t;
  rel_regs : regs_rel (regs p) (t_ir t) (t_sr t) (t_dr t) (t_ndr t);
}.

(** The predicted ports, in terms of the TAP before and after a cycle. *)
Record ports_of (o : Ports LA) (t t' : Tap) : Prop := {
  port_tdo : tdo o = t_sr t mod 2;
  port_tdoEnable : tdoEnable o = shifting (t_state t');
  port_wr_data : integer (wr_data o) = t_dr t' / 2 ^ 2 mod 2 ^ 32;
  port_wr_addr : integer (wr_addr o) = t_dr t' / 2 ^ 34 mod 2 ^ AWIDTH;
  port_wr_en : wr_en o = t_dr t' / 2 mod 2;
  port_rd_en : rd_en o = t_dr t' mod 2;
  port_hard_reset : dmi_hard_reset o =
    if bool_decide (t_state t' = UPDATE_DR_STATE) && (t_ir t' =? 16)
    then t_sr t' / 2 ^ 17 mod 2 else 0;
}.

Lemma posedge_regs i f r irv srv ndrv :
  trst_n i <> 0 -> la_len (ir r) = 5 -> integer (ir r) = irv -> integer (nsr r) = srv ->
  0 <= srv < 2 ^ reg_len AWIDTH ->
  la_len (ndr r) = reg_len AWIDTH -> integer (ndr r) = ndrv ->
  let ir' := if decide (state f = UPDATE_IR_STATE)
             then if srv mod 2 ^ 5 =? 0 then 31 else srv mod 2 ^ 5 else irv in
  regs_rel (predict_regs_posedge AWIDTH i f r) ir' srv ndrv
    (if bool_decide (state f = UPDATE_DR_STATE) && (ir' =? 17) then srv else ndrv / 2 ^ 2 * 2 ^ 2).
Proof using LSpec AWIDTH_nonneg.
  intros Ht Hil Hiv Hnv Hsb Hndl Hndv ir'. pose proof reg_len_pos as Hrp.
  assert (Hnb : 0 <= ndrv < 2 ^ reg_len AWIDTH) by (rewrite <- Hndv, <- Hndl; apply la_bound).
  unfold predict_regs_posedge. apply Z.eqb_neq in Ht as ->.
  unfold get_int. rewrite Hnv.
  assert (Hsl : la_len (la_make (reg_len AWIDTH) srv) = reg_len AWIDTH) by (by apply la_make_len).
  assert (Hsv : integer (la_make (reg_len AWIDTH) srv) = srv) by (by apply la_make_int).
  assert (Hsl5 : la_len (la_slice (la_make (reg_len AWIDTH) srv) 4 0) = 5)
    by (rewrite la_slice_len; rewrite ?Hsl; unfold reg_len; lia).
  assert (Hs5 : integer (la_slice (la_make (reg_len AWIDTH) srv) 4 0) = srv mod 2 ^ 5).
  { rewrite la_slice_int, Hsv by (rewrite ?Hsl; unfold reg_len; lia).
    by rewrite Z.pow_0_r, Z.div_1_r. }
  match goal with |- context [la_eqb ?x DR_EN_1] => set (irx := x) end.
  assert (Hirl : la_len irx = 5).
  { subst irx. destruct (decide _); [|done]. rewrite Hil.
    destruct (integer _ =? 0); [by apply la_make_len|done]. }
  assert (Hirv : integer irx = ir').
  { subst irx ir'. destruct (decide _); [|done]. rewrite Hil, Hs5.
    destruct (srv mod 2 ^ 5 =? 0); [by apply la_make_int|done]. }
  unfold DR_EN_1. rewrite eqb_const, Hirv by done.
  clearbody ir' irx.
  unfold predict_nsr_reg. split; cbn [ir sr dr ndr]; try done;
    destruct (bool_decide _ && (ir' =? 17)); try done.
  - by apply la_make_len.
  - rewrite la_concat_len, la_slice_len, la_make_len
      by (rewrite ?Hndl; unfold reg_len; lia). unfold reg_len. lia.
  - by rewrite !Hsv.
  - rewrite la_concat_int, la_slice_int, la_make_len, la_make_int, Hndv
      by (rewrite ?Hndl; unfold reg_len; lia).
    rewrite Z.add_0_r. f_equal. apply Z.mod_small. unfold reg_len in Hnb.
    replace (AWIDTH + 34) with (AWIDTH + 33 - 2 + 1 + 2) in Hnb by lia.
    rewrite Z.pow_add_r in Hnb by lia.
    split; [apply Z.div_pos; lia|apply Z.div_lt_upper_bound; lia].
Qed.

Hypothesis AWIDTH_pos : 0 < AWIDTH.

Lemma predict_ports_values i p irv srv drv ndrv :
  regs_rel (regs p) irv srv drv ndrv ->
  let o := ports (predict_ports AWIDTH i p) in
  tdoEnable o = shifting (state (fsm p))
  /\ integer (wr_data o) = drv / 2 ^ 2 mod 2 ^ 32
  /\ integer (wr_addr o) = drv / 2 ^ 34 mod 2 ^ AWIDTH
  /\ wr_en o = drv / 2 mod 2 /\ rd_en o = drv mod 2
  /\ dmi_hard_reset o = if bool_decide (state (fsm p) = UPDATE_DR_STATE) && (irv =? 16)
                        then srv / 2 ^ 17 mod 2 else 0.
Proof using LSpec AWIDTH_pos AWIDTH_nonneg.
  intros [Hil Hiv Hsl Hsv Hdl Hdv _ _] o. subst o. unfold predict_ports, get_int; cbn [ports].
  cbn [tdoEnable wr_data wr_addr wr_en rd_en dmi_hard_reset].
  assert (Hsi : forall h l, 0 <= l <= h -> h < reg_len AWIDTH ->
    integer (la_of (integer (la_slice (dr (regs p)) h l))) = drv / 2 ^ l mod 2 ^ (h - l + 1)).
  { intros h l H1 H2. rewrite la_of_int by apply la_bound.
    rewrite la_slice_int, Hdv by (rewrite ?Hdl; lia). done. }
  assert (Hbi : forall k, 0 <= k < 34 -> la_bit (dr (regs p)) k = drv / 2 ^ k mod 2).
  { intros k Hk. rewrite la_bit_int, Hdv by (rewrite ?Hdl; unfold reg_len; lia). done. }
  split; [done|]. split; [|split; [|split; [|split]]].
  - rewrite Hsi by (unfold reg_len; lia). done.
  - rewrite Hsi by (unfold reg_len; lia). do 2 f_equal. lia.
  - by rewrite Hbi.
  - rewrite Hbi by lia. by rewrite Z.pow_0_r, Z.div_1_r.
  - unfold DR_EN_0. rewrite eqb_const, Hiv by done. rewrite la_bit_int, Hsv; [done|].
    rewrite Hsl. unfold reg_len. lia.
Qed.

(** One cycle of the predictor is one step of the TAP. *)
Lemma predict_edges_refines i j p t :
  good_inputs i -> trst_n j <> 0 -> tms j = tms i -> refines p t ->
  exists p', predict_edges AWIDTH i j p = Ok p'
    /\ refines p' (sticky_cycle AWIDTH i t) /\ ports_of (ports p') t (sticky_cycle AWIDTH i t).
Proof using LSpec AWIDTH_pos AWIDTH_nonneg.
  intros Hi Htj Hmj [Hs Hr]. pose proof Hi as (Htrst & Htms & Htdi & Hrd).
  assert (Hm : get_int_signal (tms i) = 0 \/ get_int_signal (tms i) = 1)
    by (destruct Htms as [-> | ->]; simpl; auto).
  assert (Hd : get_int_signal (tdi i) = 0 \/ get_int_signal (tdi i) = 1)
    by (destruct Htdi as [-> | ->]; simpl; auto).
  pose proof Hr as [Hil Hiv Hsl Hsv Hdl Hdv Hndl Hndv].
  assert (Hsb : 0 <= t_sr t < 2 ^ reg_len AWIDTH) by (rewrite <- Hsv, <- Hsl; apply la_bound).
  set (fn := update_nstate i (fsm p)).
  assert (Hfn : state fn = t_state t) by exact Hs.
  set (fp := update_state (update_nstate j fn)).
  assert (Hfp : state fp = tap_next (t_state t) (get_int_signal (tms i))).
  { subst fp. cbn [update_state state]. apply tap_next_bit; [done|done|by rewrite Hmj]. }
  set (rn := predict_nsr_reg AWIDTH i fn (regs p)).
  assert (Hn : integer (nsr rn) = tap_shift AWIDTH (t_state t) (t_ir t) (t_sr t)
    (get_int_signal (tdi i)) (rd_data i)).
  { subst rn. rewrite <- Hfn. by eapply predict_nsr_value. }
  pose proof (posedge_regs j fp rn (t_ir t) _ (t_ndr t) Htj Hil Hiv Hn
    (tap_shift_bound _ _ _ _ _ Hd Hrd Hsb) Hndl Hndv) as Hpos.
  cbn zeta in Hpos. rewrite Hfp in Hpos.
  set (neg := predict_ports AWIDTH i
    (predict_regs_negedge AWIDTH i {| ports := ports p; fsm := fn; regs := regs p |})).
  set (q := {| ports := ports neg; fsm := fp; regs := predict_regs_posedge AWIDTH j fp rn |}).
  exists (predict_ports AWIDTH j q). split; [reflexivity|].
  change (regs_rel (regs q) (t_ir (sticky_cycle AWIDTH i t)) (t_sr (sticky_cycle AWIDTH i t))
    (t_dr (sticky_cycle AWIDTH i t)) (t_ndr (sticky_cycle AWIDTH i t))) in Hpos.
  destruct (predict_ports_values j q _ _ _ _ Hpos) as (H1 & H2 & H3 & H4 & H5 & H6).
  split; [by split|]. split; try done.
  - subst q. cbn. rewrite la_bit_int, Hsv by (rewrite ?Hsl; unfold reg_len; lia).
    by rewrite Z.pow_0_r, Z.div_1_r.
  - rewrite H1. subst q. cbn [fsm]. by rewrite Hfp.
  - rewrite H6. subst q. cbn [fsm]. by rewrite Hfp.
Qed.

Lemma predict_cycle_refines i p t :
  good_inputs i -> refines p t ->
  exists p', predict_cycle AWIDTH i p = Ok p'
    /\ refines p' (sticky_cycle AWIDTH i t) /\ ports_of (ports p') t (sticky_cycle AWIDTH i t).
Proof using LSpec AWIDTH_pos AWIDTH_nonneg.
  intros Hi Hr. apply predict_edges_refines; [done|apply Hi|done|done].
Qed.

Lemma init_refines : refines (JTAGPredictor_init AWIDTH) tap_init.
Proof using LSpec AWIDTH_nonneg.
  pose proof reg_len_pos. split; [done|]. split; simpl;
    rewrite ?la_make_len, ?zero_array; try done; try lia. by apply la_make_int.
Qed.

Fixpoint sticky_cycles (ins : list Inputs) (t : Tap) : Tap :=
  match ins with
  | [] => t
  | i :: ins => sticky_cycles ins (sticky_cycle AWIDTH i t)
  end.

Lemma sticky_cycles_tap ins t :
  idcode_at_reset AWIDTH ins t -> sticky_cycles ins t = tap_cycles AWIDTH ins t.
Proof using.
  revert t. induction ins as [|i ins IH]; intros t H; [done|]. destruct H as [H Hr].
  cbn [sticky_cycles tap_cycles]. rewrite sticky_cycle_tap by done. by apply IH.
Qed.

Lemma predict_cycles_refines ins p t :
  Forall good_inputs ins -> refines p t ->
  exists p', predict_cycles AWIDTH ins p = Ok p' /\ refines p' (sticky_cycles ins t).
Proof using LSpec AWIDTH_pos AWIDTH_nonneg.
  intros Hg. revert p t. induction Hg as [|i ins Hi Hg IH]; intros p t Hr; [by exists p|].
  destruct (predict_cycle_refines i p t Hi Hr) as (p1 & E & Hr1 & _).
  destruct (IH _ _ Hr1) as (p' & E' & Hr'). exists p'. split; [|done].
  cbn [predict_cycles]. by rewrite E.
Qed.

(** The ports after a non-empty run. *)
Lemma predict_cycles_ports ins p t :
  Forall good_inputs ins -> ins <> [] -> refines p t ->
  exists p' t0, predict_cycles AWIDTH ins p = Ok p' /\ refines p' (sticky_cycles ins t)
    /\ ports_of (ports p') t0 (sticky_cycles ins t).
Proof using LSpec AWIDTH_pos AWIDTH_nonneg.
  intros Hg Hne. revert p t. induction Hg as [|i ins Hi Hg IH]; intros p t Hr; [done|].
  destruct (predict_cycle_refines i p t Hi Hr) as (p1 & E & Hr1 & Ho).
  cbn [predict_cycles]. rewrite E. cbn [rbind sticky_cycles].
  destruct ins as [|i' ins]; [by exists p1, t|]. by apply IH.
Qed.
End Refinement.

(** ** Sequences: jtag_seq.py and dmi_seq.py *)

Record JTAGBaseSeqItem := { item_name : string; item_tms : Z; item_tdi : Z }.

Definition mkItem (name : string) (tms tdi : Z) : JTAGBaseSeqItem :=
  {| item_name := name; item_tms := tms; item_tdi := tdi |}.

Definition SetIRSequence_body (instr : Z) : list JTAGBaseSeqItem := [
  mkItem "switch_to_select_dr_scan" 1 0;
  mkItem "switch_to_select_ir_scan" 1 0;
  mkItem "switch_to_capture_ir" 0 0;
  mkItem "switch_to_shift_ir" 0 0;
  mkItem "shift_ir_bit_0" 0 (Z.land (Z.shiftr instr 0) 1);
  mkItem "shift_ir_bit_1" 0 (Z.land (Z.shiftr instr 1) 1);
  mkItem "shift_ir_bit_2" 0 (Z.land (Z.shiftr instr 2) 1);
  mkItem "shift_ir_bit_3" 0 (Z.land (Z.shiftr instr 3) 1);
  mkItem "switch_to_exit1_ir" 1 (Z.land (Z.shiftr instr 4) 1);
  mkItem "switch_to_update_ir" 1 0;
  mkItem "switch_to_idle" 0 0;
  mkItem "idle0" 0 0;
  mkItem "idle1" 0 0 ].

Definition ReadIDCODESequence_body : list JTAGBaseSeqItem := SetIRSequence_body 1.

Definition CaptureDRSequence_body : list JTAGBaseSeqItem :=
  [ mkItem "switch_to_select_dr_scan" 1 0;
    mkItem "switch_to_capture_dr" 0 0;
    mkItem "switch_to_shift_dr" 0 0 ]
  ++ replicate 40 (mkItem "shift_dr_bit" 0 0)
  ++ [ mkItem "switch_to_exit1_dr" 1 0;
       mkItem "switch_to_update_dr" 1 0;
       mkItem "switch_to_idle" 0 0;
       mkItem "idle0" 0 0;
       mkItem "idle1" 0 0 ].

Section Access.
Context {LA : Type} `{LOps : LogicArray LA}.

(** [AccessDMIRegSequence.body]; [self.addr] and [self.data] are the arrays made
    in [__init__].  The number in an item's name is not kept. *)
Definition AccessDMIRegSequence_body (addr data : Z) (is_write : bool) : list JTAGBaseSeqItem :=
  let addr : LA := la_make 7 addr in
  let data : LA := la_make 32 data in
  let data_bits_items := mkItem "write_data_bit" 0 <$> rev (la_list data) in
  let addr_bits_items :=
    imap (fun i val =>
      mkItem "write_addr_bit" (if (i =? length (la_list addr) - 1)%nat then 1 else 0) val)
      (rev (la_list addr)) in
  [ mkItem "switch_to_select_dr_scan" 1 0;
    mkItem "switch_to_capture_dr" 0 0;
    mkItem "switch_to_shift_dr" 0 0;
    mkItem "write_rd_en_bit" 0 1;
    mkItem "write_wr_en_bit" 0 (if is_write then 1 else 0) ]
  ++ data_bits_items ++ addr_bits_items
  ++ [ mkItem "switch_to_update_dr" 1 0;
       mkItem "switch_to_idle" 0 0;
       mkItem "idle0" 0 0;
       mkItem "idle1" 0 0 ].
End Access.

(** The inputs of a cycle in which the driver presents an item. *)
Definition presents (it : JTAGBaseSeqItem) (i : Inputs) : Prop :=
  trst_n i <> 0 /\ tms i = Some (item_tms it) /\ tdi i = Some (item_tdi it)
  /\ 0 <= rd_data i < 2 ^ 32.

Definition item_bits (it : JTAGBaseSeqItem) : Prop :=
  (item_tms it = 0 \/ item_tms it = 1) /\ (item_tdi it = 0 \/ item_tdi it = 1).

Lemma presents_good items ins :
  Forall item_bits items -> Forall2 presents items ins -> Forall good_inputs ins.
Proof.
  intros Hb Hp. induction Hp as [|it i items ins (H1 & H2 & H3 & H4) Hp IH]; constructor.
  - inversion_clear Hb as [|?? [Hm Hd] _]. split; [done|]. rewrite H2, H3.
    split; [destruct Hm as [-> | ->]; auto|]. split; [destruct Hd as [-> | ->]; auto|done].
  - inversion_clear Hb. auto.
Qed.

(** ** Scans of the abstract TAP *)

Definition tap_step (aw m d rd : Z) (t : Tap) : Tap :=
  sticky_cycle aw {| trst_n := 1; tms := Some m; tdi := Some d; rd_data := rd |} t.

(** The TAP over a list of [tms], [tdi] pairs and of read data. *)
Fixpoint tap_run (aw : Z) (items : list (Z * Z)) (rds : list Z) (t : Tap) : Tap :=
  match items, rds with
  | (m, d) :: items, rd :: rds => tap_run aw items rds (tap_step aw m d rd t)
  | _, _ => t
  end.

Definition item_pair (it : JTAGBaseSeqItem) : Z * Z := (item_tms it, item_tdi it).

Lemma tap_cycles_run aw items ins t :
  Forall2 presents items ins ->
  sticky_cycles aw ins t = tap_run aw (item_pair <$> items) (rd_data <$> ins) t.
Proof.
  intros Hp. revert t. induction Hp as [|it i items ins (H1 & H2 & H3 & H4) Hp IH]; intros t; [done|].
  cbn [sticky_cycles tap_run fmap list_fmap item_pair]. rewrite IH. f_equal.
  unfold tap_step, sticky_cycle. by rewrite H2, H3.
Qed.

Lemma tap_run_app aw items1 items2 rds1 rds2 t :
  length rds1 = length items1 ->
  tap_run aw (items1 ++ items2) (rds1 ++ rds2) t = tap_run aw items2 rds2 (tap_run aw items1 rds1 t).
Proof.
  revert rds1 t. induction items1 as [|[m d] items1 IH]; intros [|rd rds1] t Hl; try done.
  cbn [app tap_run]. apply IH. by injection Hl.
Qed.

(** The value of a list of bits, the least significant one first. *)
Fixpoint bits_value (bs : list Z) : Z :=
  match bs with
  | [] => 0
  | b :: bs => b + 2 * bits_value bs
  end.

Lemma bits_value_app a b :
  bits_value (a ++ b) = bits_value a + bits_value b * 2 ^ Z.of_nat (length a).
Proof.
  induction a as [|x a IH]; [simpl; lia|]. cbn [app bits_value length].
  rewrite IH, Nat2Z.inj_succ, Z.pow_succ_r by lia. lia.
Qed.

Lemma bits_value_seq v n : forall k,
  bits_value ((fun i => v / 2 ^ Z.of_nat i mod 2) <$> seq k n) = v / 2 ^ Z.of_nat k mod 2 ^ Z.of_nat n.
Proof.
  induction n as [|n IH]; intros k.
  - simpl. by rewrite Z.mod_1_r.
  - cbn [seq fmap list_fmap bits_value]. setoid_rewrite IH.
    rewrite !Nat2Z.inj_succ, !Z.pow_succ_r by lia.
    rewrite (Z.mul_comm 2 (2 ^ Z.of_nat k)), <- Z.div_div by lia.
    set (q := v / 2 ^ Z.of_nat k). by rewrite Z.rem_mul_r by lia.
Qed.

Lemma la_bits_value {LA} `{LOps : LogicArray LA} `{!LogicArraySpec LA} n v :
  0 <= n -> 0 <= v < 2 ^ n -> bits_value (rev (la_list (la_make n v))) = v.
Proof.
  intros Hn Hv. rewrite la_list_spec, la_make_len, la_make_int, bits_value_seq by done.
  rewrite Z2Nat.id, Z.pow_0_r, Z.div_1_r by lia. by apply Z.mod_small.
Qed.

Lemma la_list_length {LA} `{LOps : LogicArray LA} `{!LogicArraySpec LA} n v :
  0 <= n -> length (la_list (la_make n v)) = Z.to_nat n.
Proof.
  intros Hn. rewrite <- length_rev, la_list_spec, length_fmap, length_seq, la_make_len by done. done.
Qed.

Lemma la_list_bits {LA} `{LOps : LogicArray LA} `{!LogicArraySpec LA} (a : LA) :
  Forall (fun b => b = 0 \/ b = 1) (rev (la_list a)).
Proof.
  rewrite la_list_spec. apply Forall_fmap, Forall_true. intros i. unfold compose.
  pose proof (Z.mod_pos_bound (integer a / 2 ^ Z.of_nat i) 2). lia.
Qed.

(** Shifting a list of bits through the data register selected by [DR_EN_1]. *)
Lemma tap_shift_dr aw bs rds t :
  0 <= aw -> Z.of_nat (length bs) <= aw + 34 -> length rds = length bs ->
  t_state t = SHIFT_DR_STATE -> t_ir t = 17 ->
  let t' := tap_run aw (pair 0 <$> bs) rds t in
  t_state t' = SHIFT_DR_STATE /\ t_ir t' = 17
  /\ t_sr t' = t_sr t / 2 ^ Z.of_nat (length bs)
               + bits_value bs * 2 ^ (aw + 34 - Z.of_nat (length bs)).
Proof.
  intros Haw. revert rds t. induction bs as [|b bs IH]; intros [|rd rds] t Hn Hl Hs Hi; try done.
  - split; [done|]. split; [done|]. simpl. rewrite Z.div_1_r. lia.
  - cbn [fmap list_fmap tap_run].
    set (t1 := tap_step aw 0 b rd t).
    assert (Hs1 : t_state t1 = SHIFT_DR_STATE) by (subst t1; cbn; by rewrite Hs).
    assert (Hi1 : t_ir t1 = 17) by (subst t1; cbn; by rewrite Hs).
    assert (Hr1 : t_sr t1 = b * 2 ^ (aw + 33) + t_sr t / 2) by (subst t1; cbn; by rewrite Hs, Hi).
    cbn [length] in *. rewrite Nat2Z.inj_succ in *.
    destruct (IH rds t1) as (H1 & H2 & H3); [lia|congruence|done..|].
    split; [exact H1|]. split; [exact H2|]. refine (eq_trans H3 _). rewrite Hr1.
    set (n := Z.of_nat (length bs)) in *. assert (0 <= n) by lia. clearbody n.
    replace (b * 2 ^ (aw + 33)) with (b * 2 ^ (aw + 34 - Z.succ n) * 2 ^ n)
      by (rewrite <- Z.mul_assoc, <- Z.pow_add_r by lia; do 2 f_equal; lia).
    rewrite Z.div_add_l by lia. rewrite Z.pow_succ_r, Z.div_div by lia.
    replace (aw + 34 - n) with (Z.succ (aw + 34 - Z.succ n)) by lia.
    rewrite Z.pow_succ_r by lia. cbn [bits_value]. lia.
Qed.

Lemma tap_run_set_ir aw t b0 b1 b2 b3 b4 rds :
  t_state t = RUN_TEST_IDLE_STATE -> length rds = 13%nat ->
  (b0 = 0 \/ b0 = 1) -> (b1 = 0 \/ b1 = 1) -> (b2 = 0 \/ b2 = 1) -> (b3 = 0 \/ b3 = 1) ->
  (b4 = 0 \/ b4 = 1) ->
  let t' := tap_run aw [(1, 0); (1, 0); (0, 0); (0, 0); (0, b0); (0, b1); (0, b2); (0, b3);
                        (1, b4); (1, 0); (0, 0); (0, 0); (0, 0)] rds t in
  let v := b0 + 2 * (b1 + 2 * (b2 + 2 * (b3 + 2 * b4))) in
  t_state t' = RUN_TEST_IDLE_STATE /\ t_ir t' = if v =? 0 then 31 else v.
Proof.
  intros Hs Hl H0 H1 H2 H3 H4. destruct t as [s irv srv drv ndrv]. simpl in Hs. subst s.
  do 13 (destruct rds as [|? rds]; [done|]).
  destruct H0 as [-> | ->], H1 as [-> | ->], H2 as [-> | ->], H3 as [-> | ->], H4 as [-> | ->];
    vm_compute; split; reflexivity.
Qed.

Lemma low_bits v k :
  0 <= k -> Z.land (Z.shiftr v k) 1 = v / 2 ^ k mod 2
  /\ (Z.land (Z.shiftr v k) 1 = 0 \/ Z.land (Z.shiftr v k) 1 = 1).
Proof.
  intros Hk. rewrite land_1, Z.shiftr_div_pow2 by done. split; [done|].
  pose proof (Z.mod_pos_bound (v / 2 ^ k) (2 ^ 1)). lia.
Qed.

Lemma set_ir_items_bits instr : Forall item_bits (SetIRSequence_body instr).
Proof. repeat (constructor; [split; simpl; auto; by apply low_bits|]). constructor. Qed.

Lemma tap_set_ir aw t instr rds :
  t_state t = RUN_TEST_IDLE_STATE -> length rds = 13%nat ->
  let t' := tap_run aw (item_pair <$> SetIRSequence_body instr) rds t in
  t_state t' = RUN_TEST_IDLE_STATE
  /\ t_ir t' = if instr mod 2 ^ 5 =? 0 then 31 else instr mod 2 ^ 5.
Proof.
  intros Hs Hl.
  assert (Hv : instr mod 2 ^ 5 = instr / 2 ^ Z.of_nat 0 mod 2 ^ 5) by by rewrite Z.div_1_r.
  rewrite Hv. change 5 with (Z.of_nat 5). rewrite <- (bits_value_seq instr 5 0).
  cbn [seq fmap list_fmap bits_value]. clear Hv.
  pose proof (fun k => low_bits instr (Z.of_nat k) ltac:(lia)) as Hb.
  rewrite <- (proj1 (Hb 0%nat)), <- (proj1 (Hb 1%nat)), <- (proj1 (Hb 2%nat)),
    <- (proj1 (Hb 3%nat)), <- (proj1 (Hb 4%nat)), Z.mul_0_r, Z.add_0_r.
  exact (tap_run_set_ir aw t _ _ _ _ _ rds Hs Hl (proj2 (Hb 0%nat)) (proj2 (Hb 1%nat))
    (proj2 (Hb 2%nat)) (proj2 (Hb 3%nat)) (proj2 (Hb 4%nat))).
Qed.

Lemma tap_run_dmi_access t bs bl rd1 rd2 rd3 rds rds' :
  t_state t = RUN_TEST_IDLE_STATE -> t_ir t = 17 -> 0 <= rd3 < 2 ^ 32 ->
  length bs = 40%nat -> length rds = 40%nat -> length rds' = 3%nat ->
  let t' := tap_run 7 ([(1, 0); (0, 0); (0, 0)] ++ (pair 0 <$> bs) ++ [(1, bl); (1, 0); (0, 0)])
              ([rd1; rd2; rd3] ++ rds ++ rds') t in
  t_state t' = RUN_TEST_IDLE_STATE /\ t_ir t' = 17 /\ t_dr t' = bits_value (bs ++ [bl])
  /\ t_ndr t' = bits_value (bs ++ [bl]) / 2 ^ 2 * 2 ^ 2.
Proof.
  intros Hs Hi Hrd Hb Hr Hr'. rewrite tap_run_app by done.
  set (t1 := tap_run 7 [(1, 0); (0, 0); (0, 0)] [rd1; rd2; rd3] t).
  assert (H1 : t_state t1 = SHIFT_DR_STATE /\ t_ir t1 = 17 /\ t_sr t1 = rd3 * 4).
  { destruct t as [s irv srv drv ndrv]. simpl in Hs, Hi. subst. subst t1. repeat split. }
  clearbody t1. destruct H1 as (Hs1 & Hi1 & Hr1).
  rewrite tap_run_app by (by rewrite length_fmap, Hb, Hr).
  destruct (tap_shift_dr 7 bs rds t1) as (Hs2 & Hi2 & Hr2); [lia|rewrite Hb; simpl; lia|by rewrite Hb|done..|].
  set (t2 := tap_run 7 (pair 0 <$> bs) rds t1) in *. clearbody t2.
  rewrite Hb, Hr1 in Hr2. rewrite (Z.div_small (rd3 * 4)) in Hr2 by (simpl; lia).
  do 3 (destruct rds' as [|? rds']; [done|]).
  assert (Hv : bl * 2 ^ (7 + 33) + t_sr t2 / 2 = bits_value (bs ++ [bl])).
  { rewrite Hr2, bits_value_app, Hb. change (2 ^ (7 + 34 - Z.of_nat 40)) with 2.
    rewrite Z.add_0_l, Z.div_mul by lia. simpl. lia. }
  rewrite <- Hv. destruct t2 as [s irv srv drv ndrv]. simpl in Hs2, Hi2. subst.
  repeat split.
Qed.

Lemma tap_dmi_access t bs bl rds :
  t_state t = RUN_TEST_IDLE_STATE -> t_ir t = 17 -> Forall (fun rd => 0 <= rd < 2 ^ 32) rds ->
  length bs = 40%nat -> length rds = 46%nat ->
  let t' := tap_run 7 ([(1, 0); (0, 0); (0, 0)] ++ (pair 0 <$> bs) ++ [(1, bl); (1, 0); (0, 0)])
              rds t in
  t_state t' = RUN_TEST_IDLE_STATE /\ t_ir t' = 17 /\ t_dr t' = bits_value (bs ++ [bl])
  /\ t_ndr t' = bits_value (bs ++ [bl]) / 2 ^ 2 * 2 ^ 2.
Proof.
  intros Hs Hi Hf Hb Hl. do 3 (destruct rds as [|? rds]; [done|]).
  inversion_clear Hf as [|?? _ Hf1]. inversion_clear Hf1 as [|?? _ Hf2].
  inversion_clear Hf2 as [|?? Hrd _]. simpl in Hl.
  rewrite <- (take_drop 40 rds). 
  apply (tap_run_dmi_access t bs bl _ _ _ (take 40 rds) (drop 40 rds)); try done.
  - rewrite length_take. lia.
  - rewrite length_drop. lia.
Qed.

Lemma tap_run_idle2 aw t rd1 rd2 :
  t_state t = RUN_TEST_IDLE_STATE ->
  let t' := tap_run aw [(0, 0); (0, 0)] [rd1; rd2] t in
  t_state t' = RUN_TEST_IDLE_STATE /\ t_ir t' = t_ir t /\ t_dr t' = t_ndr t / 2 ^ 2 * 2 ^ 2.
Proof. intros Hs. destruct t as [s irv srv drv ndrv]. simpl in Hs. subst. repeat split. Qed.

(** ** Theorems *)

Section Theorems.
Context {LA : Type} `{LOps : LogicArray LA} {LSpec : LogicArraySpec LA}.

(** The predictor after some cycles from its initial state, with the 7-bit
    address of the bench. *)
Definition predicted (ins : list Inputs) (p : JTAGPredictor LA) : Prop :=
  predict_cycles 7 ins (JTAGPredictor_init 7) = Ok p.

Lemma predicted_refines ins p :
  Forall good_inputs ins -> predicted ins p -> refines 7 p (sticky_cycles 7 ins tap_init).
Proof using LSpec.
  intros Hg Hp. destruct (predict_cycles_refines 7 ltac:(lia) ltac:(lia) ins _ _ Hg
    (init_refines 7 ltac:(lia))) as (p' & E & Hr).
  unfold predicted in Hp. rewrite Hp in E. by injection E as ->.
Qed.

(** Running a sequence's items from a represented state. *)
Lemma items_refine items ins p t :
  Forall item_bits items -> Forall2 presents items ins -> refines 7 p t ->
  exists p', predict_cycles 7 ins p = Ok p'
    /\ refines 7 p' (tap_run 7 (item_pair <$> items) (rd_data <$> ins) t).
Proof using LSpec.
  intros Hb Hp Hr. rewrite <- tap_cycles_run by done.
  apply predict_cycles_refines; [lia|lia|by eapply presents_good|done].
Qed.

(** C1: over any run out of reset that never resets an instruction other than
    IDCODE, the predictor's state machine and registers are those of the IEEE
    1149.1 TAP ([tap_cycle]); the next cycle keeps them so exactly when it does
    not enter Test-Logic-Reset with another instruction selected, and then the
    predicted ports are the functions [ports_of] of that TAP.  In the excepted
    case the predictor is in Test-Logic-Reset with the instruction it had, where
    the standard (and rvjtag_tap.v) selects IDCODE. *)
Theorem jtag_refines_tap aw ins i :
  0 < aw -> Forall good_inputs (ins ++ [i]) -> idcode_at_reset aw ins tap_init ->
  let t := tap_cycles aw ins tap_init in
  let t' := tap_cycle aw i t in
  exists p p', predict_cycles aw ins (JTAGPredictor_init aw) = Ok p
    /\ predict_cycle aw i p = Ok p' /\ refines aw p t
    /\ (refines aw p' t' <-> (t_state t' = TEST_LOGIC_RESET_STATE -> t_ir t = 1))
    /\ (refines aw p' t' -> ports_of aw (ports p') t t')
    /\ (t_state t' = TEST_LOGIC_RESET_STATE ->
        state (fsm p') = TEST_LOGIC_RESET_STATE /\ integer (ir (regs p')) = t_ir t /\ t_ir t' = 1).
Proof using LSpec.
  intros Haw Hg Hid t t'. apply Forall_app in Hg as [Hg Hi].
  destruct (predict_cycles_refines aw ltac:(lia) Haw ins _ _ Hg (init_refines aw ltac:(lia)))
    as (p & E & Hr). inversion_clear Hi. rewrite sticky_cycles_tap in Hr by done. fold t in Hr.
  destruct (predict_cycle_refines aw ltac:(lia) Haw i p t) as (p' & E' & Hr' & Ho); [done..|].
  assert (Hf : refines aw p' t' -> t_state t' = TEST_LOGIC_RESET_STATE -> t_ir t = 1).
  { intros Hp' Hs. destruct (sticky_cycle_reset aw i t Hs) as (_ & Hk & H1).
    rewrite <- Hk, <- (ir_val _ _ _ _ _ _ (rel_regs _ _ _ Hr')),
      (ir_val _ _ _ _ _ _ (rel_regs _ _ _ Hp')). exact H1. }
  exists p, p'. split; [done|]. split; [done|]. split; [done|]. split; [|split].
  - split; [exact Hf|]. intros H'. unfold t'. by rewrite <- (sticky_cycle_tap aw i t H').
  - intros Hp'. unfold t'. by rewrite <- (sticky_cycle_tap aw i t (Hf Hp')).
  - intros Hs. destruct (sticky_cycle_reset aw i t Hs) as (H1 & H2 & H3).
    rewrite (rel_state _ _ _ Hr'), (ir_val _ _ _ _ _ _ (rel_regs _ _ _ Hr')). done.
Qed.

(** From the idle state, the items of [SetIRSequence] leave the predictor
    idle with the five low bits of the instruction in [ir], 0 being replaced by
    the bypass instruction 0x1F. *)
Theorem jtag_set_ir_roundtrip pre p instr ins :
  Forall good_inputs pre -> predicted pre p -> state (fsm p) = RUN_TEST_IDLE_STATE ->
  Forall2 presents (SetIRSequence_body instr) ins ->
  exists p', predict_cycles 7 ins p = Ok p' /\ state (fsm p') = RUN_TEST_IDLE_STATE
    /\ integer (ir (regs p')) = if instr mod 32 =? 0 then 0x1F else instr mod 32.
Proof using LSpec.
  intros Hg Hp Hs Hins. pose proof (predicted_refines _ _ Hg Hp) as Hr.
  destruct (items_refine _ _ _ _ (set_ir_items_bits instr) Hins Hr) as (p' & E & [Hs' Hr']).
  exists p'. split; [done|]. rewrite Hs', (ir_val _ _ _ _ _ _ Hr').
  apply tap_set_ir; [by rewrite <- (rel_state _ _ _ Hr)|].
  rewrite length_fmap. symmetry. by apply Forall2_length in Hins.
Qed.

Lemma write_bits_items (bs : list Z) :
  Forall (fun b => b = 0 \/ b = 1) bs ->
  Forall item_bits (mkItem "write_data_bit" 0 <$> bs).
Proof. intros H. apply Forall_fmap. eapply Forall_impl; [exact H|]. split; simpl; auto. Qed.

Lemma list_7 {A} (l : list A) :
  length l = 7%nat -> exists a b c d e f g, l = [a; b; c; d; e; f; g].
Proof. intros H. do 7 (destruct l as [|? l]; [done|]). destruct l; [|done]. by repeat eexists. Qed.

(** The items of an access, as [tms], [tdi] pairs. *)
Lemma access_items addr data (w : bool) :
  0 <= addr < 2 ^ 7 -> 0 <= data < 2 ^ 32 ->
  exists bs bl,
    item_pair <$> AccessDMIRegSequence_body addr data w
    = [(1, 0); (0, 0); (0, 0)] ++ (pair 0 <$> bs) ++ [(1, bl); (1, 0); (0, 0)] ++ [(0, 0); (0, 0)]
    /\ length bs = 40%nat
    /\ bits_value (bs ++ [bl]) = 1 + 2 * ((if w then 1 else 0) + 2 * (data + addr * 2 ^ 32))
    /\ Forall item_bits (AccessDMIRegSequence_body addr data w).
Proof using LSpec.
  intros Ha Hd. unfold AccessDMIRegSequence_body.
  pose proof (la_bits_value (LA := LA) 7 addr ltac:(lia) Ha) as Hav.
  pose proof (la_bits_value (LA := LA) 32 data ltac:(lia) Hd) as Hdv.
  pose proof (la_list_bits (LA := LA) (la_make 7 addr)) as Hab.
  pose proof (la_list_bits (LA := LA) (la_make 32 data)) as Hdb.
  pose proof (la_list_length (LA := LA) 7 addr ltac:(lia)) as Hal.
  pose proof (la_list_length (LA := LA) 32 data ltac:(lia)) as Hdl.
  rewrite Hal. rewrite <- length_rev in Hal, Hdl.
  destruct (list_7 _ Hal) as (a0 & a1 & a2 & a3 & a4 & a5 & a6 & E). rewrite E in *. clear Hal E.
  set (ds := rev (la_list (la_make 32 data))) in *. clearbody ds.
  exists ([1; if w then 1 else 0] ++ ds ++ [a0; a1; a2; a3; a4; a5]), a6.
  split; [|split; [|split]].
  - rewrite !fmap_app, <- list_fmap_compose. cbn [app fmap list_fmap item_pair item_tms item_tdi].
    rewrite <- app_assoc. done.
  - rewrite !length_app, Hdl. done.
  - rewrite <- !app_assoc. cbn [app bits_value]. rewrite bits_value_app, Hdv, Hdl.
    change ([a0; a1; a2; a3; a4; a5] ++ [a6]) with [a0; a1; a2; a3; a4; a5; a6]. by rewrite Hav.
  - rewrite !Forall_app. split; [|split; [by apply write_bits_items|split]].
    + repeat (constructor; [split; simpl; auto; destruct w; auto|]). constructor.
    + repeat (inversion_clear Hab as [|?? ? Hab']; rename Hab' into Hab).
      repeat (constructor; [split; simpl; auto|]). constructor.
    + repeat (constructor; [split; simpl; auto|]). constructor.
Qed.

(** The written address, data and enables of a data register value. *)
Definition dmi_ports (o : Ports LA) (addr data en_w en_r : Z) : Prop :=
  integer (wr_addr o) = addr /\ integer (wr_data o) = data /\ wr_en o = en_w /\ rd_en o = en_r.

Lemma dmi_ports_of o t0 t addr data en_w en_r :
  ports_of 7 o t0 t -> t_dr t = en_r + 2 * (en_w + 2 * (data + addr * 2 ^ 32)) ->
  0 <= addr < 2 ^ 7 -> 0 <= data < 2 ^ 32 -> (en_w = 0 \/ en_w = 1) -> (en_r = 0 \/ en_r = 1) ->
  dmi_ports o addr data en_w en_r.
Proof.
  intros [_ _ Hd Ha Hw Hr _] Hv Hab Hdb Hwb Hrb. unfold dmi_ports.
  rewrite Hd, Ha, Hw, Hr, Hv. clear - Hab Hdb Hwb Hrb.
  destruct Hwb as [-> | ->], Hrb as [-> | ->]; Z.to_euclidean_division_equations; lia.
Qed.

(** With the instruction [DR_EN_1] selected, the items of
    [AccessDMIRegSequence] make the predictor show the address and the data,
    with [rd_en] set and [wr_en] as asked, for the cycle after the update; the
    enables are lowered afterwards while address and data stay. *)
Theorem jtag_dmi_access pre p addr data (w : bool) ins1 ins2 :
  Forall good_inputs pre -> predicted pre p ->
  state (fsm p) = RUN_TEST_IDLE_STATE -> integer (ir (regs p)) = 17 ->
  0 <= addr < 2 ^ 7 -> 0 <= data < 2 ^ 32 ->
  Forall2 presents (AccessDMIRegSequence_body addr data w) (ins1 ++ ins2) ->
  length ins2 = 2%nat ->
  exists p1 p2, predict_cycles 7 ins1 p = Ok p1 /\ predict_cycles 7 ins2 p1 = Ok p2
    /\ dmi_ports (ports p1) addr data (if w then 1 else 0) 1
    /\ dmi_ports (ports p2) addr data 0 0
    /\ state (fsm p2) = RUN_TEST_IDLE_STATE /\ integer (ir (regs p2)) = 17.
Proof using LSpec.
  intros Hg Hp Hs Hi Ha Hd Hins Hl.
  pose proof (predicted_refines _ _ Hg Hp) as Hr. set (t := sticky_cycles 7 pre tap_init) in *.
  destruct (access_items addr data w Ha Hd) as (bs & bl & Hit & Hbs & Hv & Hbits).
  pose proof (presents_good _ _ Hbits Hins) as Hgood. apply Forall_app in Hgood as [Hg1 Hg2].
  apply Forall2_app_inv_r in Hins as (l1 & l2 & Hp1 & Hp2 & El).
  rewrite El, fmap_app, !app_assoc in Hit. apply app_inj_2 in Hit as [E1 E2];
    [|rewrite length_fmap; pose proof (Forall2_length _ _ _ Hp2); simpl; lia].
  rewrite <- app_assoc in E1.
  pose proof (f_equal length E1) as L1. rewrite !length_app, !length_fmap, Hbs in L1.
  rewrite (Forall2_length _ _ _ Hp1) in L1. simpl in L1.
  destruct (predict_cycles_ports 7 ltac:(lia) ltac:(lia) ins1 p t) as (p1 & t0 & X1 & Hr1 & Ho1);
    [done|by destruct ins1|done|].
  destruct (predict_cycles_ports 7 ltac:(lia) ltac:(lia) ins2 p1 (sticky_cycles 7 ins1 t))
    as (p2 & t2 & X2 & Hr2 & Ho2); [done|by destruct ins2|done|].
  destruct (tap_dmi_access t bs bl (rd_data <$> ins1)) as (S1 & I1 & D1 & N1).
  { by rewrite <- (rel_state _ _ _ Hr). }
  { by rewrite <- (ir_val _ _ _ _ _ _ (rel_regs _ _ _ Hr)). }
  { apply Forall_fmap. eapply Forall_impl; [exact Hg1|]. by intros i (_ & _ & _ & H). }
  { done. }
  { by rewrite length_fmap. }
  rewrite <- E1, <- tap_cycles_run in S1, I1, D1, N1 by done.
  do 2 (destruct ins2 as [|? ins2]; [done|]). destruct ins2; [|done].
  destruct (tap_run_idle2 7 (sticky_cycles 7 ins1 t) (rd_data i) (rd_data i0) S1) as (S2 & I2 & D2).
  rewrite (tap_cycles_run 7 l2) in Ho2, Hr2 by done. rewrite E2 in Ho2, Hr2.
  rewrite I1 in I2. rewrite N1 in D2. rewrite Hv in D1, D2.
  exists p1, p2. split; [done|]. split; [done|]. split; [|split; [|split]].
  - eapply dmi_ports_of; [exact Ho1|by rewrite D1|done..|by destruct w; auto|by auto].
  - eapply dmi_ports_of; [exact Ho2| |done..|by auto|by auto].
    refine (eq_trans D2 _). clear. destruct w; Z.to_euclidean_division_equations; lia.
  - rewrite (rel_state _ _ _ Hr2). exact S2.
  - rewrite (ir_val _ _ _ _ _ _ (rel_regs _ _ _ Hr2)). exact I2.
Qed.
End Theorems.

(** ** Concrete runs *)

(** A cycle presenting an item with the read data [rd]. *)
Definition present (rd : Z) (it : JTAGBaseSeqItem) : Inputs :=
  {| trst_n := 1; tms := Some (item_tms it); tdi := Some (item_tdi it); rd_data := rd |}.

Lemma present_items rd items :
  0 <= rd < 2 ^ 32 -> Forall2 presents items (present rd <$> items).
Proof.
  intros H. induction items as [|it items IH]; cbn [fmap list_fmap]; [constructor|].
  constructor; [|exact IH]. split; [discriminate|]. split; [done|]. by split.
Qed.

Definition example_run (ins : list Inputs) : JTAGPredictor bits :=
  match predict_cycles 7 ins (JTAGPredictor_init 7) with
  | Ok p => p
  | Raise _ => JTAGPredictor_init 7
  end.

Definition example_idle : list Inputs := [present 0 (mkItem "idle" 0 0)].

Definition example_dr1 : list Inputs :=
  example_idle ++ (present 0 <$> SetIRSequence_body 17).

Lemma good_present items :
  Forall item_bits items -> Forall good_inputs (present 0 <$> items).
Proof. intros H. eapply presents_good; [done|]. apply present_items. lia. Qed.

Lemma good_example_dr1 : Forall good_inputs example_dr1.
Proof.
  apply Forall_app. split; [|apply good_present, set_ir_items_bits].
  apply (good_present [_]). repeat constructor.
Qed.

Lemma jtag_refines_tap_witness :
  let t := tap_cycles 7 example_dr1 tap_init in
  let i := present 0 (mkItem "go" 1 0) in
  exists p p' : JTAGPredictor bits, predict_cycles 7 example_dr1 (JTAGPredictor_init 7) = Ok p
    /\ predict_cycle 7 i p = Ok p' /\ refines 7 p t
    /\ (refines 7 p' (tap_cycle 7 i t) <->
         (t_state (tap_cycle 7 i t) = TEST_LOGIC_RESET_STATE -> t_ir t = 1))
    /\ (refines 7 p' (tap_cycle 7 i t) -> ports_of 7 (ports p') t (tap_cycle 7 i t))
    /\ (t_state (tap_cycle 7 i t) = TEST_LOGIC_RESET_STATE ->
        state (fsm p') = TEST_LOGIC_RESET_STATE /\ integer (ir (regs p')) = t_ir t
        /\ t_ir (tap_cycle 7 i t) = 1).
Proof.
  apply (jtag_refines_tap (LA := bits) 7 example_dr1 (present 0 (mkItem "go" 1 0))); [lia| |].
  - apply Forall_app. split; [apply good_example_dr1|].
    apply (good_present [_]). constructor; [split; simpl; auto|constructor].
  - vm_compute. repeat split; discriminate.
Defined.

Lemma jtag_set_ir_roundtrip_witness :
  exists p', predict_cycles 7 (present 0 <$> SetIRSequence_body 0) (example_run example_idle) = Ok p'
    /\ state (fsm p') = RUN_TEST_IDLE_STATE /\ integer (ir (regs p')) = 0x1F.
Proof.
  apply (jtag_set_ir_roundtrip (LA := bits) example_idle (example_run example_idle) 0).
  - apply (good_present [_]). repeat constructor.
  - vm_compute. reflexivity.
  - vm_compute. reflexivity.
  - apply present_items. lia.
Defined.

Lemma jtag_dmi_access_witness :
  let ins := present 7 <$> AccessDMIRegSequence_body (LA := bits) 0x11 0xDEADBEEF true in
  exists p1 p2, predict_cycles 7 (take 46 ins) (example_run example_dr1) = Ok p1
    /\ predict_cycles 7 (drop 46 ins) p1 = Ok p2
    /\ dmi_ports (ports p1) 0x11 0xDEADBEEF 1 1
    /\ dmi_ports (ports p2) 0x11 0xDEADBEEF 0 0
    /\ state (fsm p2) = RUN_TEST_IDLE_STATE /\ integer (ir (regs p2)) = 17.
Proof.
  apply (jtag_dmi_access (LA := bits) example_dr1 (example_run example_dr1) 0x11 0xDEADBEEF true).
  - apply good_example_dr1.
  - vm_compute. reflexivity.
  - vm_compute. reflexivity.
  - vm_compute. reflexivity.
  - lia.
  - lia.
  - rewrite take_drop. apply present_items. lia.
  - vm_compute. reflexivity.
Defined.

(** ** Reset *)

Lemma predict_cycle_fsm {LA} `{LOps : LogicArray LA} aw i (p : JTAGPredictor LA) :
  exists p', predict_cycle aw i p = Ok p'
    /\ fsm p' = update_state (update_nstate i (update_nstate i (fsm p))).
Proof. by eexists. Qed.

Lemma next_tms1 i f :
  tms i = Some 1 -> state (update_state (update_nstate i (update_nstate i f))) = tap_next (state f) 1.
Proof. intros H. cbn [update_state state]. apply tap_next_bit; [auto|done|by rewrite H]. Qed.

(** Five cycles with [tms] high bring the predictor to the reset state from
    any state; [trst_n] has no influence on its state machine. *)
Theorem jtag_reset {LA} `{LOps : LogicArray LA} aw (p : JTAGPredictor LA) :
  (forall ins, length ins = 5%nat -> Forall (fun i => tms i = Some 1) ins ->
    exists p', predict_cycles aw ins p = Ok p' /\ state (fsm p') = TEST_LOGIC_RESET_STATE)
  /\ (forall i r, exists p1 p2, predict_cycle aw i p = Ok p1
        /\ predict_cycle aw {| trst_n := r; tms := tms i; tdi := tdi i; rd_data := rd_data i |} p = Ok p2
        /\ state (fsm p1) = state (fsm p2)).
Proof.
  split.
  - intros ins Hl Hf.
    cut (forall n ins p, length ins = n -> Forall (fun i => tms i = Some 1) ins ->
      exists p' : JTAGPredictor LA, predict_cycles aw ins p = Ok p'
        /\ state (fsm p') = Nat.iter n (fun s => tap_next s 1) (state (fsm p))).
    { intros H. destruct (H 5%nat ins p Hl Hf) as (p' & E & Hs). exists p'. split; [done|].
      rewrite Hs. by destruct (state (fsm p)). }
    clear. intros n. induction n as [|n IH]; intros [|i ins] p Hl Hf; try done; [by exists p|].
    inversion_clear Hf as [|?? Hi Hf']. cbn [predict_cycles].
    destruct (predict_cycle_fsm aw i p) as (p1 & -> & Hp1). cbn [rbind].
    destruct (IH ins p1) as (p' & E & Hs); [by injection Hl|done|].
    exists p'. split; [done|]. rewrite Hs, Hp1, next_tms1 by done.
    symmetry. apply (Nat.iter_succ_r n _ (fun s => tap_next s 1)).
  - intros i r. destruct (predict_cycle_fsm aw i p) as (p1 & -> & Hp1).
    destruct (predict_cycle_fsm aw {| trst_n := r; tms := tms i; tdi := tdi i; rd_data := rd_data i |} p)
      as (p2 & -> & Hp2). exists p1, p2. split; [done|]. split; [done|]. by rewrite Hp1, Hp2.
Qed.
