(* ===== verification/Dmi.v ===== *)
(** * DMI testbench: verification/block/dmi (jtag_bfm.py, dmi_bfm.py, testbench.py)

    The bus functional models that run the predictor of Jtag.v against the
    unit under test and emulate the core and uncore memories, and the two
    checks of the scoreboard. *)

From S2P Require Import Prelude Cocotb LogicArray Jtag.
From stdpp Require Import base gmap list strings.
From Stdlib Require Import ZArith Lia.

#[local] Open Scope string_scope.
#[local] Open Scope list_scope.
#[local] Open Scope Z_scope.

(** ** jtag_bfm.py *)

Module JtagMemoryModel.
(** The [MemoryModel] of jtag_bfm.py: each operation returns its outcome and
    the memory it leaves. *)
Definition write (memory : gmap Z Z) (addr data : Z) : result unit * gmap Z Z :=
  (Raise TypeError, memory).   (* dict.update of a set of integers *)

Definition read (memory : gmap Z Z) (addr : Z) : result Z * gmap Z Z :=
  let memory := match memory !! addr with Some _ => memory | None => <[addr := 0]> memory end in
  (Raise TypeError, memory).   (* a method is not subscriptable *)

Definition reset : gmap Z Z := ∅.
End JtagMemoryModel.

Section JtagBfm.
Context {LA : Type} `{LOps : LogicArray LA}.
Variable AWIDTH : Z.

Definition JTAGBfm_reset {I} : proc I unit :=
  _ <- await (FallingEdge "tck") ;;
  drive "trst_n" 0 ;;;
  drive "tms" 1 ;;;
  drive "tdi" 0 ;;;
  clock_cycles "tck" 10 ;;;
  _ <- await (FallingEdge "tck") ;;
  drive "trst_n" 1 ;;;
  _ <- await (FallingEdge "tck") ;;
  Ret tt.

(** [driver_bfm]; the slots are what [req_driver_q.get_nowait()] finds at each
    falling edge: an item, or nothing. *)
Definition JTAGBfm_driver_step (slot : option (Z * Z)) : proc (Z * Z) unit :=
  _ <- await (FallingEdge "tck") ;;
  match slot with
  | Some (tms, tdi) => drive "tms" tms ;;; drive "tdi" tdi
  | None => Ret tt
  end.

Definition JTAGBfm_driver_bfm (slots : list (option (Z * Z))) : proc (Z * Z) unit :=
  drive "tms" 0 ;;; drive "tdi" 0 ;;; for_each slots JTAGBfm_driver_step.

Definition JTAGBfm_req_monitor_body (_ : unit) : proc (Z * Z) unit :=
  e <- now ;;
  (if e "trst_n" =? 0 then _ <- await (RisingEdge "trst_n") ;; Ret tt else Ret tt) ;;;
  e <- await (RisingEdge "tck") ;;
  publish (e "tms", e "tdi").

(** The predictor's view of the ports. *)
Definition inputs_of (e : env) : Inputs :=
  {| trst_n := e "trst_n"; tms := Some (e "tms"); tdi := Some (e "tdi"); rd_data := e "rd_data" |}.

(** One iteration of [rsp_monitor_q_bfm]; the items are the current and the
    predicted values of [tdo] and [tdoEnable]. *)
Definition JTAGBfm_rsp_monitor_body (p : JTAGPredictor LA)
  : proc (list Z * list Z) (JTAGPredictor LA) :=
  e <- now ;;
  (if e "trst_n" =? 0 then _ <- await (RisingEdge "trst_n") ;; Ret tt else Ret tt) ;;;
  _ <- await (FallingEdge "tck") ;;
  e <- await ReadOnly ;;
  p <- lift (predict_jtag_outputs AWIDTH "neg" (inputs_of e) p) ;;
  _ <- await (RisingEdge "tck") ;;
  e <- await ReadOnly ;;
  p <- lift (predict_jtag_outputs AWIDTH "pos" (inputs_of e) p) ;;
  publish ([e "tdo"; e "tdoEnable"], [tdo (ports p); tdoEnable (ports p)]) ;;;
  Ret p.
End JtagBfm.

(** ** dmi_bfm.py *)

(** A stored value: an array of the defaults, or an integer written since. *)
Inductive MemVal (LA : Type) :=
  | MArray (a : LA)
  | MInt (v : Z).
Arguments MArray {LA} a.
Arguments MInt {LA} v.

Abbreviation Memory LA := (gmap Z (MemVal LA)).

Section DmiBfm.
Context {LA : Type} `{LOps : LogicArray LA}.

Definition MemVal_int (v : MemVal LA) : Z :=
  match v with MArray a => get_int a | MInt v => v end.

Definition MemoryModel_write (addr data : Z) (m : Memory LA) : Memory LA := <[addr := MInt data]> m.

(** [get_int(self.memory.setdefault(addr, 0))] *)
Definition MemoryModel_read (addr : Z) (m : Memory LA) : Z * Memory LA :=
  match m !! addr with
  | Some v => (MemVal_int v, m)
  | None => (0, <[addr := MInt 0]> m)
  end.

Definition MemoryModel_reset : Memory LA :=
  <[0x01 := MArray Defaults_JTAG_ID]> (<[0x10 := MArray Defaults_DTMCS]> (<[0x11 := MInt 0]> ∅)).

(** [driver_bfm]; a slot is what the queue holds at a falling edge: an item
    ([Some]), and its value when it is a [SetUncoreEnableSeqItem]. *)
Definition DMITestBfm_driver_step (slot : option (option Z)) : proc unit unit :=
  _ <- await (FallingEdge "core_clk") ;;
  match slot with
  | Some (Some v) => drive "uncore_enable" v
  | _ => Ret tt
  end.

Definition DMITestBfm_driver_bfm (slots : list (option (option Z))) : proc unit unit :=
  drive "dmi_core_rdata" 0 ;;;
  drive "dmi_uncore_rdata" 0 ;;;
  drive "uncore_enable" 0 ;;;
  drive "jtag_id" (get_int (Defaults_JTAG_ID (LA := LA))) ;;;
  for_each slots DMITestBfm_driver_step.

(** The values and the type passed to the scoreboard. *)
Record DmiRsp := {
  rsp_rd_data : Z;
  rsp_dmi_rdata : Z;
  rsp_dmi_addr : Z;
  rsp_dmi_en : Z;
  rsp_pred_en : Z;
  rsp_type : string;
}.

Definition DMI_CORE_BOUNDARY : Z := 0x4F.

(** The truth value of the handle [self.uncore_enable] itself, whose [value] the
    condition does not read; it is decided by cocotb. *)
Variable uncore_enable_handle : bool.

(** The memory management of [rsp_monitor_q_bfm] for one of the two memories:
    a read answers with the content before a write of the same cycle. *)
Definition DMITestBfm_access (rdata : string) (en wr_en : bool) (addr wdata : Z) (m : Memory LA)
  : proc DmiRsp (Memory LA) :=
  m <- (if en then
          let '(v, m) := MemoryModel_read addr m in drive rdata v ;;; Ret m
        else Ret m) ;;
  Ret (if wr_en then MemoryModel_write addr wdata m else m).

(** The predictor is the object the JTAG monitor updates; its [wr_addr] and
    [rd_en] are sampled like signals. *)
Definition DMITestBfm_rsp (e : env) : DmiRsp :=
  if (DMI_CORE_BOUNDARY <? e "predictor.wr_addr") && uncore_enable_handle then
    {| rsp_rd_data := e "rd_data"; rsp_dmi_rdata := e "dmi_uncore_rdata";
       rsp_dmi_addr := e "dmi_uncore_addr"; rsp_dmi_en := e "dmi_uncore_en";
       rsp_pred_en := e "predictor.rd_en"; rsp_type := "uncore" |}
  else
    {| rsp_rd_data := e "rd_data"; rsp_dmi_rdata := e "dmi_core_rdata";
       rsp_dmi_addr := e "dmi_core_addr"; rsp_dmi_en := e "dmi_core_en";
       rsp_pred_en := e "predictor.rd_en"; rsp_type := "core" |}.

(** One iteration of the loop of [rsp_monitor_q_bfm], over the core and the
    uncore memory; the [RisingEdge(rst_n)] before the loop is [DMITestBfm_start]. *)
Definition DMITestBfm_rsp_monitor_body (ms : Memory LA * Memory LA)
  : proc DmiRsp (Memory LA * Memory LA) :=
  let '(core_mem, uncore_mem) := ms in
  e <- now ;;
  (if e "core_rst_n" =? 0 then _ <- await (RisingEdge "core_rst_n") ;; Ret tt else Ret tt) ;;;
  e <- await (RisingEdge "core_clk") ;;
  let reset := truthy (e "dmi_hard_reset") in
  let core_mem := if reset then MemoryModel_reset else core_mem in
  let uncore_mem := if reset then MemoryModel_reset else uncore_mem in
  core_mem <- DMITestBfm_access "dmi_core_rdata" (truthy (e "dmi_core_en"))
    (truthy (e "dmi_core_wr_en")) (e "dmi_core_addr") (e "dmi_core_wdata") core_mem ;;
  uncore_mem <- DMITestBfm_access "dmi_uncore_rdata" (truthy (e "dmi_uncore_en"))
    (truthy (e "dmi_uncore_wr_en")) (e "dmi_uncore_addr") (e "dmi_uncore_wdata") uncore_mem ;;
  (if truthy (e "dmi_uncore_en") || truthy (e "dmi_core_en")
   then publish (DMITestBfm_rsp e) else Ret tt) ;;;
  Ret (core_mem, uncore_mem).

Definition DMITestBfm_start : proc DmiRsp (Memory LA * Memory LA) :=
  _ <- await (RisingEdge "core_rst_n") ;; Ret (MemoryModel_reset, MemoryModel_reset).
End DmiBfm.

(** ** Scoreboard: testbench.py *)

(** The loops keep a local [passed] and assert it at the end. *)
Fixpoint Scoreboard_check_dmi_loop (items : list DmiRsp) (passed : bool) : bool :=
  match items with
  | [] => passed
  | it :: items =>
      let passed := if negb (rsp_pred_en it =? rsp_dmi_en it) then false else passed in
      let passed :=
        if truthy (rsp_dmi_en it) && negb (rsp_rd_data it =? rsp_dmi_rdata it) then false
        else passed in
      Scoreboard_check_dmi_loop items passed
  end.

Definition Scoreboard_check_dmi (items : list DmiRsp) : result unit :=
  py_assert (Scoreboard_check_dmi_loop items true).

(** [for i, s in enumerate(["tdo", "tdoEnable"])]; an index out of range raises. *)
Fixpoint Scoreboard_check_ports (idx : list nat) (out predicted : list Z) (passed : bool)
  : result bool :=
  match idx with
  | [] => Ok passed
  | i :: idx =>
      match out !! i, predicted !! i with
      | Some o, Some p => Scoreboard_check_ports idx out predicted (if o =? p then passed else false)
      | _, _ => Raise IndexError
      end
  end.

Fixpoint Scoreboard_check_jtag_loop (items : list (list Z * list Z)) (passed : bool) : result bool :=
  match items with
  | [] => Ok passed
  | (out, predicted) :: items =>
      let! passed := Scoreboard_check_ports [0; 1]%nat out predicted passed in
      Scoreboard_check_jtag_loop items passed
  end.

Definition Scoreboard_check_jtag (items : list (list Z * list Z)) : result unit :=
  let! passed := Scoreboard_check_jtag_loop items true in py_assert passed.

Definition Scoreboard_check_phase jtag_items dmi_items : result unit :=
  let! _ := Scoreboard_check_jtag jtag_items in Scoreboard_check_dmi dmi_items.

(** ** Base test *)

Definition do_reset {I} (signals : list string) (isActiveHigh : bool) : proc I unit :=
  for_each signals (fun s => drive s (Z.b2z isActiveHigh)) ;;;
  _ <- await Timer ;;
  for_each signals (fun s => drive s (Z.b2z (negb isActiveHigh))).

Definition run_phase {I} (run : proc I unit) : proc I unit :=
  do_reset ["trst_n"; "core_rst_n"] false ;;;
  clock_cycles "core_clk" 2 ;;;
  run ;;;
  clock_cycles "core_clk" 10.

(** ** The JTAG check *)

(** The four samples of a TCK cycle the response monitor looks at. *)
Record TckCycle := { at_fall : env; after_fall : env; at_rise : env; after_rise : env }.

Definition tck_samples (c : TckCycle) : list sample :=
  [Sample (FallingEdge "tck") (at_fall c); Sample ReadOnly (after_fall c);
   Sample (RisingEdge "tck") (at_rise c); Sample ReadOnly (after_rise c)].

(** Outside of reset; the driver changes [tms] and [tdi] at falling edges only. *)
Definition tck_good (c : TckCycle) : Prop :=
  good_inputs (inputs_of (after_fall c)) /\ after_rise c "trst_n" <> 0
  /\ after_rise c "tms" = after_fall c "tms".

(** The ports of the unit under test follow a TAP, given by its step, over a
    list of cycles. *)
Fixpoint tap_agrees (step : Inputs -> Tap -> Tap) (cs : list TckCycle) (t : Tap) : Prop :=
  match cs with
  | [] => True
  | c :: cs =>
      let t' := step (inputs_of (after_fall c)) t in
      after_rise c "tdo" = t_sr t mod 2 /\ after_rise c "tdoEnable" = shifting (t_state t')
      /\ tap_agrees step cs t'
  end.

Definition tck_inputs (cs : list TckCycle) : list Inputs :=
  (fun c => inputs_of (after_fall c)) <$> cs.

Lemma tap_agrees_sticky aw cs t :
  idcode_at_reset aw (tck_inputs cs) t ->
  tap_agrees (sticky_cycle aw) cs t <-> tap_agrees (tap_cycle aw) cs t.
Proof.
  revert t. induction cs as [|c cs IH]; intros t H; [done|]. destruct H as [H Hr].
  cbn [tap_agrees]. rewrite sticky_cycle_tap by done. by rewrite IH.
Qed.

Lemma check_ports_two a b c d passed :
  Scoreboard_check_ports [0; 1]%nat [a; b] [c; d] passed
  = Ok (passed && bool_decide (a = c /\ b = d)).
Proof.
  simpl. f_equal. destruct (Z.eqb_spec a c), (Z.eqb_spec b d), passed; simpl;
    rewrite ?bool_decide_eq_true_2, ?bool_decide_eq_false_2 by tauto; done.
Qed.

Section JtagCheck.
Context {LA : Type} `{LOps : LogicArray LA} {LSpec : LogicArraySpec LA}.
Variable aw : Z.
Hypothesis aw_pos : 0 < aw.

Lemma rsp_monitor_productive : productive (JTAGBfm_rsp_monitor_body (LA := LA) aw).
Proof.
  intros p cur tr acts p' cur' tr' E. unfold JTAGBfm_rsp_monitor_body in E.
  cbn [pbind now] in E. cbn [run] in E.
  assert (Hb : productive (fun p => _ <- await (FallingEdge "tck") ;;
    e <- await ReadOnly ;;
    p <- lift (predict_jtag_outputs aw "neg" (inputs_of e) p) ;;
    _ <- await (RisingEdge "tck") ;;
    e <- await ReadOnly ;;
    p <- lift (predict_jtag_outputs aw "pos" (inputs_of e) p) ;;
    publish ([e "tdo"; e "tdoEnable"], [tdo (ports (LA := LA) p); tdoEnable (ports p)]) ;;;
    Ret p)) by (apply productive_await; intros; by eexists _, _).
  destruct (cur "trst_n" =? 0).
  - cbn [pbind await run] in E. destruct (next_firing _ tr) as [[e r]|] eqn:F; [|done].
    apply next_firing_shorter in F. pose proof (Hb p e r acts p' cur' tr' E). lia.
  - exact (Hb p cur tr acts p' cur' tr' E).
Qed.

Lemma rsp_monitor_cycle p t c cur tr :
  refines aw p t -> cur "trst_n" <> 0 -> tck_good c ->
  exists p', refines aw p' (sticky_cycle aw (inputs_of (after_fall c)) t)
    /\ monitor_items (JTAGBfm_rsp_monitor_body aw) p cur (tck_samples c ++ tr)
       = ([after_rise c "tdo"; after_rise c "tdoEnable"],
          [t_sr t mod 2; shifting (t_state (sticky_cycle aw (inputs_of (after_fall c)) t))])
         :: monitor_items (JTAGBfm_rsp_monitor_body aw) p' (after_rise c) tr.
Proof using LSpec aw_pos.
  intros Hr Hcur (Hg & Hrst & Htms).
  destruct (predict_edges_refines aw ltac:(lia) aw_pos (inputs_of (after_fall c))
    (inputs_of (after_rise c)) p t Hg Hrst) as (p' & E & Hr' & Ho).
  { simpl. by rewrite Htms. }
  { done. }
  exists p'. split; [done|]. rewrite <- (port_tdo _ _ _ _ Ho), <- (port_tdoEnable _ _ _ _ Ho).
  unfold predict_edges in E. apply rbind_ok in E as (p1 & E1 & E2).
  erewrite monitor_items_step; [|apply rsp_monitor_productive|].
  2:{ unfold JTAGBfm_rsp_monitor_body, tck_samples. cbn [pbind now run app].
      apply Z.eqb_neq in Hcur as ->. cbn [pbind await]. rewrite run_await_hit.
      rewrite run_await_hit, E1. cbn [lift pbind await]. rewrite run_await_hit, run_await_hit, E2.
      reflexivity. }
  done.
Qed.

(** The check passes exactly when the unit under test follows the TAP that
    keeps its instruction in Test-Logic-Reset; otherwise its assertion fails. *)
Lemma check_jtag_sticky cs cur :
  cur "trst_n" <> 0 -> Forall tck_good cs ->
  let items := monitor_items (JTAGBfm_rsp_monitor_body (LA := LA) aw) (JTAGPredictor_init aw) cur
                 (concat (tck_samples <$> cs)) in
  (Scoreboard_check_jtag items = Ok tt <-> tap_agrees (sticky_cycle aw) cs tap_init)
  /\ (Scoreboard_check_jtag items = Ok tt \/ Scoreboard_check_jtag items = Raise AssertionError).
Proof using LSpec aw_pos.
  intros Hcur Hg items. subst items.
  pose proof (init_refines (LA := LA) aw ltac:(lia)) as Hr.
  revert Hr Hcur. generalize (JTAGPredictor_init (LA := LA) aw), tap_init. intros p t Hr Hcur.
  unfold Scoreboard_check_jtag.
  enough (forall b, exists b',
    Scoreboard_check_jtag_loop (monitor_items (JTAGBfm_rsp_monitor_body (LA := LA) aw) p cur
      (concat (tck_samples <$> cs))) b = Ok b' /\ (b' = true <-> b = true /\ tap_agrees (sticky_cycle aw) cs t)) as H.
  { destruct (H true) as (b' & -> & Hb). simpl.
    destruct b'; simpl; (split; [|by auto]); [|split; [done|intros X]].
    - split; [intros _|done]. by apply Hb.
    - exfalso. assert (false = true); [|done]. by apply Hb. }
  revert p t cur Hr Hcur. induction Hg as [|c cs Hc Hg IH]; intros p t cur Hr Hcur b.
  - exists b. split; [|simpl; tauto]. cbn [fmap list_fmap concat].
    rewrite monitor_items_nil; [done|]. unfold JTAGBfm_rsp_monitor_body. cbn [pbind now run].
    by destruct (cur "trst_n" =? 0).
  - destruct (rsp_monitor_cycle p t c cur (concat (tck_samples <$> cs)) Hr Hcur Hc) as (p' & Hr' & E).
    cbn [fmap list_fmap concat]. rewrite E. cbn [Scoreboard_check_jtag_loop].
    rewrite check_ports_two. cbn [rbind].
    destruct (IH p' _ (after_rise c) Hr' (proj1 (proj2 Hc))
      (b && bool_decide (after_rise c "tdo" = t_sr t mod 2 /\ after_rise c "tdoEnable"
        = shifting (t_state (sticky_cycle aw (inputs_of (after_fall c)) t))))) as (b' & E' & Hb').
    exists b'. split; [exact E'|]. rewrite Hb', andb_true_iff, bool_decide_eq_true.
    cbn [tap_agrees]. tauto.
Qed.
End JtagCheck.

(** The cycles of a correct unit given [tms], [tdi] pairs: [tdo] is bit 0 of the
    shift register of the IEEE 1149.1 TAP, [tdoEnable] is set while it shifts. *)
Definition unit_env (tms tdi tdo tdo_en : Z) (s : string) : Z :=
  if String.eqb s "trst_n" then 1 else if String.eqb s "tms" then tms
  else if String.eqb s "tdi" then tdi else if String.eqb s "tdo" then tdo
  else if String.eqb s "tdoEnable" then tdo_en else 0.

Fixpoint tap_unit (aw : Z) (items : list (Z * Z)) (t : Tap) : list TckCycle :=
  match items with
  | [] => []
  | (m, d) :: items =>
      let t' := tap_cycle aw (inputs_of (unit_env m d 0 0)) t in
      let e := unit_env m d (t_sr t mod 2) (shifting (t_state t')) in
      {| at_fall := e; after_fall := e; at_rise := e; after_rise := e |} :: tap_unit aw items t'
  end.

Lemma tap_unit_agrees aw items t : tap_agrees (tap_cycle aw) (tap_unit aw items t) t.
Proof.
  revert t. induction items as [|[m d] items IH]; intros t; [done|].
  cbn [tap_unit tap_agrees after_fall after_rise]. split; [done|]. split; [done|]. apply IH.
Qed.

Lemma tap_unit_good aw items t :
  Forall (fun it : Z * Z => (it.1 = 0 \/ it.1 = 1) /\ (it.2 = 0 \/ it.2 = 1)) items ->
  Forall tck_good (tap_unit aw items t).
Proof.
  revert t. induction items as [|[m d] items IH]; intros t H; [constructor|].
  inversion_clear H as [|?? [Hm Hd] Hr]. cbn [tap_unit]. constructor; [|by apply IH].
  assert (Hb : forall x, x = 0 \/ x = 1 -> Some x = Some 0 \/ Some x = Some 1) by
    (intros ? [-> | ->]; auto).
  split; [split; [discriminate|]|split; [discriminate|done]].
  split; [exact (Hb m Hm)|]. split; [exact (Hb d Hd)|]. by vm_compute.
Qed.

(** The instruction 17 is loaded, the TAP goes from Run-Test/Idle through
    Test-Logic-Reset and the data register is scanned. *)
Definition reset_scan : list (Z * Z) :=
  [(0, 0)] ++ (item_pair <$> SetIRSequence_body 17)
  ++ [(1, 0); (1, 0); (1, 0); (0, 0); (1, 0); (0, 0); (0, 0); (0, 0)].

(** C24: over a run out of reset that never resets an instruction other than
    IDCODE, the JTAG check passes on what the response monitor reports exactly
    when [tdo] and [tdoEnable] of the unit under test are those of the IEEE
    1149.1 TAP in every cycle.  Over any run out of reset it passes exactly when
    they are those of the TAP that keeps its instruction in Test-Logic-Reset,
    and fails with an [AssertionError] otherwise; so a correct unit fails it on
    the cycles of [reset_scan]. *)
Theorem dmi_jtag_check {LA : Type} `{LOps : LogicArray LA} {LSpec : LogicArraySpec LA} aw cs cur :
  0 < aw -> cur "trst_n" <> 0 -> Forall tck_good cs ->
  let verdict cs := Scoreboard_check_jtag (monitor_items (JTAGBfm_rsp_monitor_body (LA := LA) aw)
                      (JTAGPredictor_init aw) cur (concat (tck_samples <$> cs))) in
  (idcode_at_reset aw (tck_inputs cs) tap_init ->
   verdict cs = Ok tt <-> tap_agrees (tap_cycle aw) cs tap_init)
  /\ (verdict cs = Ok tt <-> tap_agrees (sticky_cycle aw) cs tap_init)
  /\ (verdict cs = Ok tt \/ verdict cs = Raise AssertionError)
  /\ (aw = 7 -> tap_agrees (tap_cycle aw) (tap_unit aw reset_scan tap_init) tap_init
      /\ verdict (tap_unit aw reset_scan tap_init) = Raise AssertionError).
Proof.
  intros Haw Hcur Hg verdict. destruct (check_jtag_sticky (LA := LA) aw Haw cs cur Hcur Hg) as [H1 H2].
  fold (verdict cs) in H1, H2. split; [|split; [exact H1|split; [exact H2|]]].
  - intros Hid. rewrite <- tap_agrees_sticky by done. exact H1.
  - intros ->. split; [apply tap_unit_agrees|].
    assert (Hu : Forall tck_good (tap_unit 7 reset_scan tap_init)).
    { apply tap_unit_good. unfold reset_scan. rewrite !Forall_app.
      split; [|split]; [repeat (constructor; [simpl; auto|]); constructor|apply Forall_fmap, (set_ir_items_bits 17)|].
      repeat (constructor; [simpl; auto|]). constructor. }
    destruct (check_jtag_sticky (LA := LA) 7 ltac:(lia) _ cur Hcur Hu) as [H3 [H4|H4]]; [|exact H4].
    apply H3 in H4. exfalso. revert H4. vm_compute. intuition discriminate.
Qed.

Definition example_env (tms : Z) : env := unit_env tms 0 0 0.

Lemma dmi_jtag_check_witness :
  let c m := {| at_fall := example_env m; after_fall := example_env m;
                at_rise := example_env m; after_rise := example_env m |} in
  let verdict cs := Scoreboard_check_jtag
    (monitor_items (JTAGBfm_rsp_monitor_body (LA := bits) 7) (JTAGPredictor_init 7) (example_env 1)
      (concat (tck_samples <$> cs))) in
  verdict [c 1; c 0; c 1] = Ok tt /\ verdict (tap_unit 7 reset_scan tap_init) = Raise AssertionError.
Proof.
  intros c verdict.
  destruct (dmi_jtag_check (LA := bits) 7 [c 1; c 0; c 1] (example_env 1)) as (H1 & _ & _ & H2).
  - lia.
  - discriminate.
  - repeat (constructor; [repeat split; simpl; first [done | by auto | discriminate]|]). constructor.
  - split; [|by apply H2]. apply H1; vm_compute; repeat split; discriminate.
Defined.

(** ** The memories *)

(** The values a coroutine drove on a port, in order. *)
Fixpoint driven_on {I} (port : string) (acts : list (action I)) : list Z :=
  match acts with
  | [] => []
  | ADrive s v :: acts => if String.eqb s port then v :: driven_on port acts else driven_on port acts
  | _ :: acts => driven_on port acts
  end.

Lemma driven_on_app {I} port (a b : list (action I)) :
  driven_on port (a ++ b) = driven_on port a ++ driven_on port b.
Proof. induction a as [|[] a IH]; simpl; [done|..]; rewrite ?IH; [|done..]. by destruct (String.eqb _ _). Qed.

(** The abstract memory: a total function, 0 where nothing was stored; the
    defaults are the DTMCS value 0x71 at 0x10 and 0 elsewhere. *)
Definition amem := Z -> Z.

Definition amem_reset : amem := fun a => if a =? 0x10 then 0x71 else 0.

Definition amem_write (addr data : Z) (m : amem) : amem := fun a => if a =? addr then data else m a.

(** The values answered over a list of clock edges, for the ports of one of the
    two memories. *)
Fixpoint amem_answers (en wr_en addr wdata : string) (es : list env) (m : amem) : list Z :=
  match es with
  | [] => []
  | e :: es =>
      let m := if truthy (e "dmi_hard_reset") then amem_reset else m in
      let m' := if truthy (e wr_en) then amem_write (e addr) (e wdata) m else m in
      (if truthy (e en) then [m (e addr)] else []) ++ amem_answers en wr_en addr wdata es m'
  end.

Section Memories.
Context {LA : Type} `{LOps : LogicArray LA} {LSpec : LogicArraySpec LA}.

Definition content (m : Memory LA) : amem :=
  fun a => match m !! a with Some v => MemVal_int v | None => 0 end.

Lemma reset_content a : content MemoryModel_reset a = amem_reset a.
Proof using LSpec.
  unfold content, MemoryModel_reset, amem_reset.
  destruct (decide (a = 0x01)) as [->|]; [|destruct (decide (a = 0x10)) as [->|];
    [|destruct (decide (a = 0x11)) as [->|]]].
  - rewrite lookup_insert_eq. simpl. unfold get_int, Defaults_JTAG_ID, Defaults_REVISION_CODE,
      Defaults_DEVICE_ID_CODE, Defaults_MANUFACTURERS_ID_CODE.
    rewrite !la_concat_int, !la_make_int by lia. done.
  - rewrite lookup_insert_ne, lookup_insert_eq by done. simpl. unfold get_int, Defaults_DTMCS,
      Defaults_DMI_STAT, Defaults_ABITS, Defaults_VERSION.
    rewrite !la_concat_int, !la_make_len, !la_make_int by lia. done.
  - rewrite !lookup_insert_ne, lookup_insert_eq by done. done.
  - rewrite !lookup_insert_ne by done. rewrite lookup_empty.
    destruct (Z.eqb_spec a 0x10); [done|reflexivity].
Qed.

Lemma read_content addr m v m' :
  MemoryModel_read addr m = (v, m') -> v = content m addr /\ forall a, content m' a = content m a.
Proof.
  unfold MemoryModel_read, content. destruct (m !! addr) as [x|] eqn:E; intros [= <- <-]; [done|].
  split; [done|]. intros a. destruct (decide (a = addr)) as [->|].
  - by rewrite lookup_insert_eq, E.
  - by rewrite lookup_insert_ne.
Qed.

Lemma write_content addr data m a :
  content (MemoryModel_write addr data m) a = amem_write addr data (content m) a.
Proof.
  unfold content, MemoryModel_write, amem_write. destruct (Z.eqb_spec a addr) as [->|].
  - by rewrite lookup_insert_eq.
  - by rewrite lookup_insert_ne.
Qed.

(** One access: the value driven and the content left. *)
Lemma access_run rdata (en wr_en : bool) addr wdata (m : Memory LA) cur tr :
  exists m', run (DMITestBfm_access rdata en wr_en addr wdata m) cur tr
    = (if en then [ADrive rdata (content m addr)] else [], Done m' cur tr)
    /\ forall a, content m' a = if wr_en then amem_write addr wdata (content m) a else content m a.
Proof.
  unfold DMITestBfm_access. destruct en; cbn [pbind].
  - destruct (MemoryModel_read addr m) as [v m'] eqn:E. apply read_content in E as [-> Hm].
    cbn [pbind drive run]. eexists. split; [done|]. intros a. destruct wr_en; [|apply Hm].
    rewrite write_content. unfold amem_write. by destruct (a =? addr).
  - cbn [run]. eexists. split; [done|]. intros a. destruct wr_en; [|done]. apply write_content.
Qed.

Lemma amem_answers_ext en wr_en addr wdata es m1 m2 :
  (forall a, m1 a = m2 a) ->
  amem_answers en wr_en addr wdata es m1 = amem_answers en wr_en addr wdata es m2.
Proof.
  revert m1 m2. induction es as [|e es IH]; intros m1 m2 H; [done|]. cbn [amem_answers].
  f_equal; [destruct (truthy (e "dmi_hard_reset")); [done|by rewrite H]|].
  destruct (truthy (e "dmi_hard_reset")); [done|].
  destruct (truthy (e wr_en)); apply IH; [|done]. intros a. unfold amem_write. by rewrite H.
Qed.

Definition core_edges (es : list env) : list sample := Sample (RisingEdge "core_clk") <$> es.

(** One iteration of the monitor: the drives and the memories it leaves. *)
Lemma rsp_monitor_run h (cm um : Memory LA) cur e tr :
  cur "core_rst_n" <> 0 ->
  let cm0 := if truthy (e "dmi_hard_reset") then MemoryModel_reset else cm in
  let um0 := if truthy (e "dmi_hard_reset") then MemoryModel_reset else um in
  exists cm' um' pub,
    run (DMITestBfm_rsp_monitor_body h (cm, um)) cur (Sample (RisingEdge "core_clk") e :: tr)
    = ((if truthy (e "dmi_core_en")
        then [ADrive "dmi_core_rdata" (content cm0 (e "dmi_core_addr"))] else [])
       ++ (if truthy (e "dmi_uncore_en")
           then [ADrive "dmi_uncore_rdata" (content um0 (e "dmi_uncore_addr"))] else [])
       ++ (APublish <$> pub), Done (cm', um') e tr)
    /\ (forall a, content cm' a = if truthy (e "dmi_core_wr_en")
        then amem_write (e "dmi_core_addr") (e "dmi_core_wdata") (content cm0) a else content cm0 a)
    /\ (forall a, content um' a = if truthy (e "dmi_uncore_wr_en")
        then amem_write (e "dmi_uncore_addr") (e "dmi_uncore_wdata") (content um0) a
        else content um0 a).
Proof.
  intros Hcur cm0 um0. unfold DMITestBfm_rsp_monitor_body. cbn [pbind now run].
  apply Z.eqb_neq in Hcur as ->. cbn [pbind await]. rewrite run_await_hit. cbn zeta.
  fold cm0 um0.
  destruct (access_run "dmi_core_rdata" (truthy (e "dmi_core_en")) (truthy (e "dmi_core_wr_en"))
    (e "dmi_core_addr") (e "dmi_core_wdata") cm0 e tr) as (cm' & Ec & Hc).
  destruct (access_run "dmi_uncore_rdata" (truthy (e "dmi_uncore_en"))
    (truthy (e "dmi_uncore_wr_en")) (e "dmi_uncore_addr") (e "dmi_uncore_wdata") um0 e tr)
    as (um' & Eu & Hu).
  exists cm', um', (if truthy (e "dmi_uncore_en") || truthy (e "dmi_core_en")
                    then [DMITestBfm_rsp h e] else []).
  split; [|done]. rewrite run_pbind, Ec, run_pbind, Eu.
  by destruct (truthy (e "dmi_uncore_en") || truthy (e "dmi_core_en")).
Qed.

Lemma driven_on_publish port pub : driven_on port (APublish (I := DmiRsp) <$> pub) = [].
Proof. by induction pub. Qed.

(** A step of the abstract answers, for a store that is reset and written. *)
Lemma answers_step en wr_en addr wdata es (m : Memory LA) (m' : Memory LA) (e : env) (r : bool) :
  (forall a, content m' a =
    if truthy (e wr_en)
    then amem_write (e addr) (e wdata) (content (if r then MemoryModel_reset else m)) a
    else content (if r then MemoryModel_reset else m) a) ->
  amem_answers en wr_en addr wdata es (content m')
  = amem_answers en wr_en addr wdata es
      (if truthy (e wr_en) then amem_write (e addr) (e wdata) (if r then amem_reset else content m)
       else if r then amem_reset else content m).
Proof using LSpec.
  intros H. apply amem_answers_ext. intros a. rewrite H.
  destruct (truthy (e wr_en)), r; unfold amem_write; rewrite ?reset_content; done.
Qed.

(** C11: over any run out of reset the bus functional model answers every core
    and uncore read with the last value written to the address, or the default
    of the address: the two stores behave as independent total memories that a
    hard reset restores to their defaults. *)
Theorem dmi_memories_refine (h : bool) es cur :
  cur "core_rst_n" <> 0 -> Forall (fun e : env => e "core_rst_n" <> 0) es ->
  let acts := (run_forever (S (length es)) (DMITestBfm_rsp_monitor_body (LA := LA) h)
                 (MemoryModel_reset, MemoryModel_reset) cur (core_edges es)).1 in
  driven_on "dmi_core_rdata" acts
    = amem_answers "dmi_core_en" "dmi_core_wr_en" "dmi_core_addr" "dmi_core_wdata" es amem_reset
  /\ driven_on "dmi_uncore_rdata" acts
    = amem_answers "dmi_uncore_en" "dmi_uncore_wr_en" "dmi_uncore_addr" "dmi_uncore_wdata"
        es amem_reset.
Proof using LSpec.
  intros Hcur Hes acts. subst acts.
  rewrite <- !(amem_answers_ext _ _ _ _ es _ _ reset_content).
  enough (forall cm um : Memory LA, driven_on "dmi_core_rdata" (run_forever (S (length es))
    (DMITestBfm_rsp_monitor_body h) (cm, um) cur (core_edges es)).1
      = amem_answers "dmi_core_en" "dmi_core_wr_en" "dmi_core_addr" "dmi_core_wdata" es (content cm)
    /\ driven_on "dmi_uncore_rdata" (run_forever (S (length es))
    (DMITestBfm_rsp_monitor_body h) (cm, um) cur (core_edges es)).1
      = amem_answers "dmi_uncore_en" "dmi_uncore_wr_en" "dmi_uncore_addr" "dmi_uncore_wdata" es
          (content um)) as H by apply H.
  revert cur Hcur. induction Hes as [|e es He Hes IH]; intros cur Hcur cm um.
  - simpl. apply Z.eqb_neq in Hcur as ->. done.
  - change (core_edges (e :: es)) with (Sample (RisingEdge "core_clk") e :: core_edges es).
    set (f := S (length es)) in *. change (S (length (e :: es))) with (S f).
    cbn [run_forever].
    destruct (rsp_monitor_run h cm um cur e (core_edges es) Hcur) as (cm' & um' & pub & -> & Hc & Hu).
    destruct (IH e He cm' um') as [IHc IHu].
    destruct (run_forever f _ _ _ _) as [acts o]. cbn [fst] in *.
    rewrite !driven_on_app, IHc, IHu, !driven_on_publish. cbn [amem_answers]. clear IHc IHu IH.
    split.
    + rewrite (answers_step _ _ _ _ _ _ _ _ _ Hc). cbv zeta.
      destruct (truthy (e "dmi_core_en")), (truthy (e "dmi_uncore_en")),
        (truthy (e "dmi_hard_reset")); simpl; rewrite ?reset_content; done.
    + rewrite (answers_step _ _ _ _ _ _ _ _ _ Hu). cbv zeta.
      destruct (truthy (e "dmi_core_en")), (truthy (e "dmi_uncore_en")),
        (truthy (e "dmi_hard_reset")); simpl; rewrite ?reset_content; done.
Qed.
End Memories.

Definition example_access (wr : Z) (s : string) : Z :=
  if str_in s ["core_rst_n"; "dmi_core_en"] then 1
  else if String.eqb s "dmi_core_addr" then 0x10
  else if String.eqb s "dmi_core_wdata" then 5
  else if String.eqb s "dmi_core_wr_en" then wr else 0.

Lemma dmi_memories_refine_witness :
  let es := [example_access 1; example_access 0] in
  let acts := (run_forever 3 (DMITestBfm_rsp_monitor_body (LA := bits) true)
                 (MemoryModel_reset, MemoryModel_reset) (example_access 0) (core_edges es)).1 in
  driven_on "dmi_core_rdata" acts = [0x71; 5] /\ driven_on "dmi_uncore_rdata" acts = [].
Proof.
  apply (dmi_memories_refine (LA := bits) true [example_access 1; example_access 0] (example_access 0)).
  - discriminate.
  - repeat constructor; discriminate.
Defined.

(** ** The DMI check *)

Lemma check_dmi_loop items b :
  Scoreboard_check_dmi_loop items b = true <->
  b = true /\ Forall (fun it => rsp_pred_en it = rsp_dmi_en it
                      /\ (rsp_dmi_en it <> 0 -> rsp_rd_data it = rsp_dmi_rdata it)) items.
Proof.
  revert b. induction items as [|it items IH]; intros b; [simpl; intuition|].
  cbn [Scoreboard_check_dmi_loop]. rewrite IH, Forall_cons. unfold truthy.
  destruct (Z.eqb_spec (rsp_pred_en it) (rsp_dmi_en it)), (Z.eqb_spec (rsp_dmi_en it) 0),
    (Z.eqb_spec (rsp_rd_data it) (rsp_dmi_rdata it)); simpl; intuition congruence.
Qed.

(** The DMI check passes exactly when in every reported cycle the enable of
    the accessed side is the predicted one and, where it is set, the data read
    is the data of the memory; otherwise it raises [AssertionError]. *)
Theorem dmi_check_verdict items :
  (Scoreboard_check_dmi items = Ok tt <->
   Forall (fun it => rsp_pred_en it = rsp_dmi_en it
             /\ (rsp_dmi_en it <> 0 -> rsp_rd_data it = rsp_dmi_rdata it)) items)
  /\ (Scoreboard_check_dmi items <> Ok tt -> Scoreboard_check_dmi items = Raise AssertionError).
Proof.
  pose proof (check_dmi_loop items true) as H. unfold Scoreboard_check_dmi, py_assert.
  destruct (Scoreboard_check_dmi_loop items true); split; try done.
  - split; [intros _; by apply H|done].
  - split; [done|]. intros X. exfalso. assert (false = true); [|done]. by apply H.
Qed.
