(* ===== verification/Utils.v ===== *)
(** * Shared helpers: verification/block/common/utils.py, and Python's [struct]

    Byte strings are lists of integers below 256.  [collect_bytes] reads the
    octets of a bus, [function_bisect] searches for the least argument at which
    an increasing function reaches a target. *)

From S2P Require Import Prelude.
From stdpp Require Import base list strings.
From Stdlib Require Import ZArith Lia.

#[local] Open Scope list_scope.
#[local] Open Scope Z_scope.

(** ** [struct] with the little-endian formats ["<I"] and ["<Q"] *)

Fixpoint le_bytes (n : nat) (v : Z) : list Z :=
  match n with
  | O => []
  | S n => v mod 256 :: le_bytes n (v / 256)
  end.

Fixpoint le_value (bs : list Z) : Z :=
  match bs with
  | [] => 0
  | b :: bs => b + 256 * le_value bs
  end.

Definition is_byte (b : Z) : Prop := 0 <= b < 256.

(** [struct.pack(fmt, v)] for an unsigned format of [n] bytes. *)
Definition struct_pack (n : nat) (v : Z) : result (list Z) :=
  if (0 <=? v) && (v <? 2 ^ (8 * Z.of_nat n)) then Ok (le_bytes n v) else Raise StructError.

(** [struct.unpack(fmt, data)[0]] *)
Definition struct_unpack (n : nat) (data : list Z) : result Z :=
  if (length data =? n)%nat then Ok (le_value data) else Raise StructError.

Lemma le_bytes_length n v : length (le_bytes n v) = n.
Proof. revert v. induction n as [|n IH]; intros v; [done|]. simpl. by rewrite IH. Qed.

Lemma le_bytes_bytes n v : Forall is_byte (le_bytes n v).
Proof.
  revert v. induction n as [|n IH]; intros v; constructor; [|apply IH].
  apply Z.mod_pos_bound. lia.
Qed.

Lemma le_value_bound bs : Forall is_byte bs -> 0 <= le_value bs < 2 ^ (8 * Z.of_nat (length bs)).
Proof.
  induction 1 as [|b bs Hb _ IH]; [simpl; lia|]. unfold is_byte in Hb.
  cbn [le_value length]. rewrite Nat2Z.inj_succ.
  replace (8 * Z.succ (Z.of_nat (length bs))) with (8 + 8 * Z.of_nat (length bs)) by lia.
  rewrite Z.pow_add_r by lia. lia.
Qed.

Lemma le_value_bytes n v : 0 <= v < 2 ^ (8 * Z.of_nat n) -> le_value (le_bytes n v) = v.
Proof.
  revert v. induction n as [|n IH]; intros v Hv; [simpl in *; lia|].
  cbn [le_bytes le_value]. rewrite IH; [pose proof (Z.div_mod v 256); lia|].
  rewrite Nat2Z.inj_succ in Hv.
  replace (8 * Z.succ (Z.of_nat n)) with (8 + 8 * Z.of_nat n) in Hv by lia.
  rewrite Z.pow_add_r in Hv by lia.
  split; [apply Z.div_pos; lia|apply Z.div_lt_upper_bound; lia].
Qed.

Lemma le_bytes_value bs : Forall is_byte bs -> le_bytes (length bs) (le_value bs) = bs.
Proof.
  induction 1 as [|b bs Hb _ IH]; [done|]. cbn [length le_bytes le_value]. unfold is_byte in Hb.
  rewrite (Z.mul_comm 256), Z.mod_add, Z.div_add, Z.mod_small, Z.div_small by lia.
  by rewrite Z.add_0_l, IH.
Qed.

Lemma struct_roundtrip n v :
  0 <= v < 2 ^ (8 * Z.of_nat n) ->
  exists bs, struct_pack n v = Ok bs /\ Forall is_byte bs /\ length bs = n
    /\ struct_unpack n bs = Ok v.
Proof.
  intros Hv. exists (le_bytes n v). unfold struct_pack, struct_unpack.
  destruct (Z.leb_spec 0 v), (Z.ltb_spec v (2 ^ (8 * Z.of_nat n))); try lia.
  rewrite le_bytes_length, Nat.eqb_refl, le_value_bytes by done.
  repeat split; [apply le_bytes_bytes].
Qed.

(** ** [collect_bytes] *)

(** A bus value with its length in bits. *)
Record Bus := { bus_len : Z; bus_val : Z }.

Definition byte_at (v i : Z) : Z := Z.land (Z.shiftr v (8 * i)) 0xFF.

Definition collect_bytes_loop (data : Bus) (strb : option Bus) : list Z :=
  List.map (byte_at (bus_val data))
    (List.filter
      (fun i => match strb with
                | None => true
                | Some s => truthy (Z.land (bus_val s) (Z.shiftl 1 i))
                end)
      (List.map Z.of_nat (seq 0 (Z.to_nat (bus_len data / 8))))).

Definition collect_bytes (data : Bus) (strb : option Bus) : result (list Z) :=
  let! _ := match strb with
            | Some s => py_assert (bus_len data =? 8 * bus_len s)
            | None => Ok tt
            end in
  Ok (collect_bytes_loop data strb).

Lemma byte_at_succ v i : 0 <= i -> byte_at v (Z.succ i) = byte_at (v / 256) i.
Proof.
  intros Hi. unfold byte_at. rewrite !Z.shiftr_div_pow2 by lia. f_equal.
  replace (8 * Z.succ i) with (8 + 8 * i) by lia. by rewrite Z.pow_add_r, Z.div_div by lia.
Qed.

Lemma byte_at_0 v : byte_at v 0 = v mod 256.
Proof. unfold byte_at. by rewrite land_mask8, Z.shiftr_0_r. Qed.

Lemma bytes_at_le n v :
  List.map (byte_at v) (List.map Z.of_nat (seq 0 n)) = le_bytes n v.
Proof.
  revert v. induction n as [|n IH]; intros v; [done|].
  cbn [seq List.map le_bytes]. rewrite byte_at_0. f_equal.
  rewrite <- IH, <- seq_shift, !map_map. apply map_ext. intros i.
  rewrite Nat2Z.inj_succ. apply byte_at_succ. lia.
Qed.

(** The strobe test of byte [i]. *)
Lemma strobe_bit s i : 0 <= i -> truthy (Z.land s (Z.shiftl 1 i)) = Z.testbit s i.
Proof.
  intros Hi. rewrite Z.shiftl_1_l. unfold truthy.
  destruct (Z.eqb_spec (Z.land s (2 ^ i)) 0) as [E|E].
  - assert (Hb : Z.testbit (Z.land s (2 ^ i)) i = false) by (by rewrite E, Z.bits_0).
    rewrite Z.land_spec, Z.pow2_bits_true, andb_true_r in Hb by done. by rewrite Hb.
  - destruct (Z.testbit s i) eqn:Hb; [done|]. exfalso. apply E.
    apply Z.bits_inj'. intros j Hj. rewrite Z.land_spec, Z.bits_0, Z.pow2_bits_eqb by done.
    destruct (Z.eqb_spec i j) as [->|]; [by rewrite Hb|apply andb_false_r].
Qed.

Lemma filter_none {A} (f : A -> bool) l : (forall x, In x l -> f x = false) -> List.filter f l = [].
Proof.
  induction l as [|x l IH]; intros H; [done|]. cbn [List.filter]. rewrite (H x) by (by left).
  apply IH. intros y Hy. apply H. by right.
Qed.

(** With the strobe of the [k] low bytes, the [k] low bytes are collected. *)
Lemma collect_low_bytes n k v :
  (k <= n)%nat ->
  collect_bytes {| bus_len := 8 * Z.of_nat n; bus_val := v |}
    (Some {| bus_len := Z.of_nat n; bus_val := Z.ones (Z.of_nat k) |}) = Ok (le_bytes k v).
Proof.
  intros Hk. unfold collect_bytes. cbn [bus_len]. rewrite Z.eqb_refl. cbn [py_assert rbind].
  f_equal. unfold collect_bytes_loop. cbn [bus_len bus_val].
  rewrite Z.mul_comm, Z.div_mul, Nat2Z.id by lia. rewrite <- bytes_at_le. f_equal.
  replace n with (k + (n - k))%nat by lia. rewrite seq_app, List.map_app, List.filter_app.
  rewrite (List.forallb_filter_id _ (List.map Z.of_nat (seq 0 k))), filter_none.
  - by rewrite app_nil_r.
  - intros i Hi. apply in_map_iff in Hi as (j & <- & Hj). apply in_seq in Hj.
    rewrite strobe_bit, Z.testbit_ones by lia. split_cmp; done.
  - apply forallb_forall. intros i Hi. apply in_map_iff in Hi as (j & <- & Hj). apply in_seq in Hj.
    rewrite strobe_bit, Z.testbit_ones by lia. split_cmp; done.
Qed.

Lemma collect_all_bytes n v :
  collect_bytes {| bus_len := 8 * Z.of_nat n; bus_val := v |} None = Ok (le_bytes n v).
Proof.
  unfold collect_bytes. cbn [rbind]. f_equal. unfold collect_bytes_loop. cbn [bus_len bus_val].
  rewrite Z.mul_comm, Z.div_mul, Nat2Z.id by lia. rewrite <- bytes_at_le. f_equal.
  apply List.forallb_filter_id. by apply forallb_forall.
Qed.

(** ** [collect_signals]

    The attributes set on the object: a signal of the unit under test, named by
    its attribute there, or [None] with an error logged. *)

Definition collect_signals (signals : list string) (uut : list string)
    (uut_prefix obj_prefix : string) (signal_map : option (string -> option string))
  : list (string * option string) :=
  List.map (fun sig =>
    let uut_sig :=
      match signal_map with
      | Some m => default (String.append uut_prefix sig) (m sig)
      | None => String.append uut_prefix sig
      end in
    (String.append obj_prefix sig, if str_in uut_sig uut then Some uut_sig else None)) signals.

(** ** [function_bisect]

    [ge x] and [lt x] are the comparisons of [f(x)] with the target; on floats
    they need not be complementary.  The loops run on fuel; [None] means that
    it was exhausted. *)

Section Bisect.
Variables (ge lt : Z -> bool).

(** [while f(upper_lim) < target: upper_lim *= 2] *)
Fixpoint bisect_double (fuel : nat) (upper_lim : Z) : option Z :=
  match fuel with
  | O => None
  | S fuel => if lt upper_lim then bisect_double fuel (upper_lim * 2) else Some upper_lim
  end.

(** [while upper_lim - lower_lim >= 2: ...] *)
Fixpoint bisect_halve (fuel : nat) (lower_lim upper_lim : Z) : option Z :=
  match fuel with
  | O => None
  | S fuel =>
      if 2 <=? upper_lim - lower_lim then
        let mid := (lower_lim + upper_lim) / 2 in
        if ge mid then bisect_halve fuel lower_lim mid
        else if lt mid then bisect_halve fuel mid upper_lim
        else bisect_halve fuel lower_lim upper_lim
      else Some upper_lim
  end.

Definition function_bisect (fuel : nat) : option Z :=
  let lower_lim := 0 in
  if ge lower_lim then Some lower_lim
  else
    match bisect_double fuel 2 with
    | Some upper_lim => bisect_halve fuel lower_lim upper_lim
    | None => None
    end.
End Bisect.

(** [smallest_number_of_trials(p, k, j)]: [cdf] is [scipy.stats.binom.cdf], and
    the floating-point operations are those of the parameter [float]. *)
Section Trials.
Variable float : Type.
Variables (fsub fdiv : float -> float -> float) (fge flt : float -> float -> bool).
Variable of_int : Z -> float.
Variable cdf : Z -> Z -> float -> float.

Definition prob_X_ge_k (k : Z) (p : float) (n : Z) : float := fsub (of_int 1) (cdf (k - 1) n p).

Definition smallest_number_of_trials (fuel : nat) (p : float) (k : Z) (j : float) : option Z :=
  let target := fdiv j (of_int 100) in
  function_bisect (fun n => fge (prob_X_ge_k k p n) target)
    (fun n => flt (prob_X_ge_k k p n) target) fuel.
End Trials.

Section BisectFacts.
Variables (ge lt : Z -> bool).
Hypothesis compl : forall x, lt x = negb (ge x).
Hypothesis mono : forall x y, 0 <= x <= y -> ge x = true -> ge y = true.

Lemma bisect_double_step fuel u :
  bisect_double lt (S fuel) u = if lt u then bisect_double lt fuel (u * 2) else Some u.
Proof. done. Qed.

Lemma bisect_halve_step fuel l u :
  bisect_halve ge lt (S fuel) l u =
    if 2 <=? u - l then
      if ge ((l + u) / 2) then bisect_halve ge lt fuel l ((l + u) / 2)
      else if lt ((l + u) / 2) then bisect_halve ge lt fuel ((l + u) / 2) u
      else bisect_halve ge lt fuel l u
    else Some u.
Proof. done. Qed.

Lemma bisect_double_spec fuel : forall u n,
  0 < u -> 0 < n -> ge n = true -> n <= u * 2 ^ Z.of_nat fuel -> 
  exists u', bisect_double lt (S fuel) u = Some u' /\ ge u' = true /\ u <= u' /\ u' <= Z.max u (2 * n).
Proof using compl mono.
  induction fuel as [|fuel IH]; intros u n Hu Hn Hg Hle.
  - exists u. cbn [bisect_double]. rewrite compl. rewrite (mono n u) by (simpl in Hle; try lia; done).
    simpl. repeat split; lia.
  - rewrite bisect_double_step, compl. destruct (ge u) eqn:E; simpl negb.
    + exists u. repeat split; try done; lia.
    + assert (u < n). { destruct (Z.ltb_spec u n); [done|]. rewrite (mono n u) in E; [done|lia|done]. }
      destruct (IH (u * 2) n) as (u' & -> & H1 & H2 & H3); [lia|lia|done| |].
      * rewrite Nat2Z.inj_succ, Z.pow_succ_r in Hle by lia. lia.
      * exists u'. repeat split; try done; lia.
Qed.

Lemma bisect_halve_spec fuel : forall l u,
  0 <= l < u -> ge l = false -> ge u = true -> u - l <= 2 ^ Z.of_nat fuel ->
  exists x, bisect_halve ge lt (S fuel) l u = Some x /\ l < x <= u
    /\ ge x = true /\ ge (x - 1) = false.
Proof using compl mono.
  induction fuel as [|fuel IH]; intros l u Hlu Hl Hu Hle.
  - cbn [bisect_halve]. simpl in Hle. destruct (Z.leb_spec 2 (u - l)); [lia|].
    exists u. replace (u - 1) with l by lia. repeat split; try done; lia.
  - rewrite bisect_halve_step. destruct (Z.leb_spec 2 (u - l)).
    + rewrite Nat2Z.inj_succ, Z.pow_succ_r in Hle by lia.
      set (mid := (l + u) / 2). rewrite compl.
      assert (Hm : l < mid < u /\ mid - l <= 2 ^ Z.of_nat fuel /\ u - mid <= 2 ^ Z.of_nat fuel).
      { subst mid. destruct (Z.eqb_spec (2 ^ Z.of_nat fuel) 0); Z.to_euclidean_division_equations; lia. }
      destruct (ge mid) eqn:E; simpl negb.
      * destruct (IH l mid) as (x & -> & ? & ? & ?); [lia|done|done|lia|].
        exists x. repeat split; try done; lia.
      * destruct (IH mid u) as (x & -> & ? & ? & ?); [lia|done|done|lia|].
        exists x. repeat split; try done; lia.
    + exists u. replace (u - 1) with l by lia. repeat split; try done; lia.
Qed.

(** For an increasing function that reaches the target at some [n], the
    bisection terminates, within a number of iterations logarithmic in [n], and
    returns the smallest argument at which the target is reached. *)
Theorem bisect_smallest n fuel :
  0 <= n -> ge n = true -> n <= 2 ^ Z.of_nat fuel ->
  exists x, function_bisect ge lt (S (S fuel)) = Some x /\ 0 <= x <= n /\ ge x = true
    /\ forall y, 0 <= y < x -> ge y = false.
Proof using compl mono.
  intros Hn Hg Hf. unfold function_bisect. destruct (ge 0) eqn:E0.
  - exists 0. repeat split; try done; lia.
  - assert (0 < n). { destruct (Z.eqb_spec n 0) as [->|]; [congruence|lia]. }
    destruct (bisect_double_spec (S fuel) 2 n) as (u & -> & Hu1 & Hu2 & Hu3); [lia|lia|done| |].
    { rewrite Nat2Z.inj_succ, Z.pow_succ_r by lia. lia. }
    destruct (bisect_halve_spec (S fuel) 0 u) as (x & -> & Hx1 & Hx2 & Hx3); [lia|done|done| |].
    { rewrite Nat2Z.inj_succ, Z.pow_succ_r by lia. lia. }
    exists x. assert (Hleast : forall y, 0 <= y < x -> ge y = false).
    { intros y Hy. destruct (ge y) eqn:Ey; [|done]. rewrite <- Hx3. symmetry.
      apply (mono y); [lia|done]. }
    split; [done|]. split; [|done]. split; [lia|].
    destruct (Z.leb_spec x n); [done|]. rewrite Hleast in Hg; [done|lia].
Qed.
End BisectFacts.

Lemma bisect_smallest_witness :
  exists x, function_bisect (fun n => 90 <=? n * n) (fun n => n * n <? 90) 9 = Some x
    /\ 0 <= x <= 100 /\ (90 <=? x * x) = true /\ forall y, 0 <= y < x -> (90 <=? y * y) = false.
Proof.
  apply (bisect_smallest (fun n => 90 <=? n * n) (fun n => n * n <? 90)).
  - intros x. apply Z.ltb_antisym.
  - intros x y H E. apply Z.leb_le. apply Z.leb_le in E. nia.
  - lia.
  - reflexivity.
  - lia.
Defined.
