(* ===== verification/Axi.v ===== *)
(** * AXI4-Lite bus monitor: verification/block/common/axi.py

    The two watchers with their tables of pending transfers, and what they have
    to report, stated over the handshakes of a run ([outstanding], [written]). *)

From S2P Require Import Prelude Cocotb Utils.
From stdpp Require Import base gmap list strings.
From Stdlib Require Import ZArith Lia.

#[local] Open Scope string_scope.
#[local] Open Scope list_scope.
#[local] Open Scope Z_scope.

(** The data and response of an item are [None] in a request. *)
Record BusWriteItem := { w_addr : Z; w_data : list Z; w_resp : option Z }.
Record BusReadItem := { r_addr : Z; r_data : option (list Z); r_resp : option Z }.

Record Transfer := { tid : Z; t_addr : Z; t_data : list Z }.

Definition mkTransfer (tid addr : Z) : Transfer := {| tid := tid; t_addr := addr; t_data := [] |}.

Abbreviation Xfers := (gmap Z Transfer).

Section Monitor.
(** The lengths of [axi_wdata], [axi_rdata] and [axi_wstrb]. *)
Variables (wdata_len wstrb_len rdata_len : Z).

Definition nz (v : Z) : bool := negb (v =? 0).

Definition _aw_active (e : env) : bool := nz (e "axi_awready") && nz (e "axi_awvalid").
Definition _w_active (e : env) : bool := nz (e "axi_wready") && nz (e "axi_wvalid").
Definition _ar_active (e : env) : bool := nz (e "axi_arready") && nz (e "axi_arvalid").
Definition _r_active (e : env) : bool := nz (e "axi_rready") && nz (e "axi_rvalid").
Definition _b_active (e : env) : bool := nz (e "axi_bready") && nz (e "axi_bvalid").

Definition _sample_w (e : env) : result (list Z) :=
  collect_bytes {| bus_len := wdata_len; bus_val := e "axi_wdata" |}
    (Some {| bus_len := wstrb_len; bus_val := e "axi_wstrb" |}).

Definition _sample_r (e : env) : result (list Z) :=
  collect_bytes {| bus_len := rdata_len; bus_val := e "axi_rdata" |} None.

(** ** [watch_write]: the pending transfers and the last seen [awid] *)

(** "A new write request" *)
Definition write_request (e : env) (st : Xfers * option Z) : proc BusWriteItem (Xfers * option Z) :=
  let '(xfers, awid) := st in
  if _aw_active e then
    let addr := e "axi_awaddr" in
    let awid := e "axi_awid" in
    match xfers !! awid with
    | Some _ => log_error ;;; Ret (xfers, Some awid)
    | None => Ret (<[awid := mkTransfer awid addr]> xfers, Some awid)
    end
  else Ret (xfers, awid).

(** "Data (for the last seen awid)" *)
Definition write_data (e : env) (st : Xfers * option Z) : proc BusWriteItem (Xfers * option Z) :=
  let '(xfers, awid) := st in
  if _w_active e then
    match awid with
    | None => log_error ;;; Ret (xfers, awid)
    | Some id =>
        match xfers !! id with
        | None => log_error ;;; Ret (xfers, awid)
        | Some xfer =>
            data <- lift (_sample_w e) ;;
            Ret (<[id := {| tid := tid xfer; t_addr := t_addr xfer; t_data := data |}]> xfers, awid)
        end
    end
  else Ret (xfers, awid).

(** "Write completion" *)
Definition write_response (e : env) (st : Xfers * option Z) : proc BusWriteItem (Xfers * option Z) :=
  let '(xfers, awid) := st in
  if _b_active e then
    let bresp := e "axi_bresp" in
    let bid := e "axi_bid" in
    match xfers !! bid with
    | None => log_error ;;; Ret (xfers, awid)
    | Some xfer =>
        publish {| w_addr := t_addr xfer; w_data := t_data xfer; w_resp := Some bresp |} ;;;
        Ret (delete bid xfers, awid)
    end
  else Ret (xfers, awid).

Definition watch_write_body (st : Xfers * option Z) : proc BusWriteItem (Xfers * option Z) :=
  e <- await (RisingEdge "axi_clk") ;;
  st <- write_request e st ;;
  st <- write_data e st ;;
  write_response e st.

(** ** [watch_read] *)

Definition read_request (e : env) (xfers : Xfers) : proc BusReadItem Xfers :=
  if _ar_active e then
    let addr := e "axi_araddr" in
    let arid := e "axi_arid" in
    match xfers !! arid with
    | Some _ => log_error ;;; Ret xfers
    | None => Ret (<[arid := mkTransfer arid addr]> xfers)
    end
  else Ret xfers.

Definition read_response (e : env) (xfers : Xfers) : proc BusReadItem Xfers :=
  if _r_active e then
    let rresp := e "axi_rresp" in
    let rid := e "axi_rid" in
    match xfers !! rid with
    | None => log_error ;;; Ret xfers
    | Some xfer =>
        data <- lift (_sample_r e) ;;
        publish {| r_addr := t_addr xfer; r_data := Some data; r_resp := Some rresp |} ;;;
        Ret (delete rid xfers)
    end
  else Ret xfers.

Definition watch_read_body (xfers : Xfers) : proc BusReadItem Xfers :=
  e <- await (RisingEdge "axi_clk") ;;
  xfers <- read_request e xfers ;;
  read_response e xfers.
End Monitor.

(** ** What the monitor has to report

    The specification reads the handshakes of the edges seen so far, the latest
    first; it keeps no table. *)

Section Spec.
Variables (wdata_len wstrb_len rdata_len : Z).

(** A channel pair: the handshake that opens a transaction, with its identifier
    and address, and the one that closes it. *)
Record Channels := {
  opens : env -> bool; open_id : string; open_addr : string;
  closes : env -> bool; close_id : string }.

Definition write_channels : Channels := {|
  opens := _aw_active; open_id := "axi_awid"; open_addr := "axi_awaddr";
  closes := _b_active; close_id := "axi_bid" |}.

Definition read_channels : Channels := {|
  opens := _ar_active; open_id := "axi_arid"; open_addr := "axi_araddr";
  closes := _r_active; close_id := "axi_rid" |}.

(** The address of the latest request with the identifier, unless a response
    with the identifier came since (or in the same edge). *)
Fixpoint outstanding (c : Channels) (past : list env) (id : Z) : option Z :=
  match past with
  | [] => None
  | e :: past =>
      if closes c e && (e (close_id c) =? id) then None
      else if opens c e && (e (open_id c) =? id) then Some (e (open_addr c))
      else outstanding c past id
  end.

(** The same in the edge [e], whose response may answer its own request. *)
Definition outstanding_at (c : Channels) (past : list env) (e : env) (id : Z) : option Z :=
  if opens c e && (e (open_id c) =? id) then Some (e (open_addr c)) else outstanding c past id.

(** A request uses a free identifier, a response answers an open request. *)
Definition legal_edge (c : Channels) (past : list env) (e : env) : Prop :=
  (opens c e = true -> outstanding c past (e (open_id c)) = None)
  /\ (closes c e = true -> is_Some (outstanding_at c past e (e (close_id c)))).

(** The identifier of the latest write request. *)
Fixpoint last_awid (past : list env) : option Z :=
  match past with
  | [] => None
  | e :: past => if _aw_active e then Some (e "axi_awid") else last_awid past
  end.

(** The octets under the strobes. *)
Definition octets (e : env) : list Z :=
  collect_bytes_loop {| bus_len := wdata_len; bus_val := e "axi_wdata" |}
    (Some {| bus_len := wstrb_len; bus_val := e "axi_wstrb" |}).

(** The octets of the latest data accepted for the identifier since its latest
    request; data belongs to the latest request. *)
Fixpoint written (past : list env) (id : Z) : list Z :=
  match past with
  | [] => []
  | e :: past' =>
      if _w_active e && bool_decide (last_awid past = Some id) then octets e
      else if _aw_active e && (e "axi_awid" =? id) then []
      else written past' id
  end.

(** Moreover the transaction data belongs to is open. *)
Definition legal_write (past : list env) (e : env) : Prop :=
  legal_edge write_channels past e
  /\ (_w_active e = true -> exists id, last_awid (e :: past) = Some id
        /\ is_Some (outstanding_at write_channels past e id)).

(** The report of a response: address of the request it answers, octets of the
    data, response code. *)
Definition expected_write (past : list env) (e : env) : list BusWriteItem :=
  if _b_active e then
    match outstanding_at write_channels past e (e "axi_bid") with
    | Some addr => [{| w_addr := addr; w_data := written (e :: past) (e "axi_bid");
                       w_resp := Some (e "axi_bresp") |}]
    | None => []
    end
  else [].

Definition expected_read (past : list env) (e : env) : list BusReadItem :=
  if _r_active e then
    match outstanding_at read_channels past e (e "axi_rid") with
    | Some addr =>
        [{| r_addr := addr; r_resp := Some (e "axi_rresp");
            r_data := Some (collect_bytes_loop {| bus_len := rdata_len; bus_val := e "axi_rdata" |} None) |}]
    | None => []
    end
  else [].
End Spec.

(** A condition on each edge of a run, and the reports over a run. *)
Fixpoint every_edge (legal : list env -> env -> Prop) (past es : list env) : Prop :=
  match es with
  | [] => True
  | e :: es => legal past e /\ every_edge legal (e :: past) es
  end.

Fixpoint reports {I} (expected : list env -> env -> list I) (past es : list env) : list I :=
  match es with
  | [] => []
  | e :: es => expected past e ++ reports expected (e :: past) es
  end.

(** ** The monitor keeps to it *)

Definition clk_edges (es : list env) : list sample := Sample (RisingEdge "axi_clk") <$> es.

Lemma errors_app {I} (a b : list (action I)) : errors (a ++ b) = (errors a + errors b)%nat.
Proof. unfold errors. by rewrite List.filter_app, length_app. Qed.

(** A loop each iteration of which logs no error exactly on a legal edge, and
    then publishes what is expected and represents the history again. *)
Lemma loop_reports {I St} (body : St -> proc I St) (Inv : list env -> St -> Prop)
    (legal : list env -> env -> Prop) (expected : list env -> env -> list I) :
  (forall st cur, run (body st) cur [] = ([], Suspended)) ->
  (forall st e cur tr, exists acts st',
     run (body st) cur (Sample (RisingEdge "axi_clk") e :: tr) = (acts, Done st' e tr)
     /\ forall past, Inv past st ->
        (errors acts = 0%nat <-> legal past e)
        /\ (legal past e -> published acts = expected past e /\ Inv (e :: past) st')) ->
  forall es past st cur, Inv past st ->
  exists acts, run_forever (S (length es)) body st cur (clk_edges es) = (acts, Suspended)
    /\ (errors acts = 0%nat <-> every_edge legal past es)
    /\ (every_edge legal past es -> published acts = reports expected past es).
Proof.
  intros Hnil Hstep es past st cur Hi.
  enough (exists acts, run_forever (S (length es)) body st cur (clk_edges es) = (acts, Suspended)
    /\ (Inv past st -> (errors acts = 0%nat <-> every_edge legal past es)
        /\ (every_edge legal past es -> published acts = reports expected past es)))
    as (acts & E & H) by (exists acts; split; [done|by apply H]). clear Hi.
  revert past st cur. induction es as [|e es IH]; intros past st cur.
  - exists []. simpl. rewrite Hnil. done.
  - destruct (Hstep st e cur (clk_edges es)) as (acts & st' & E & H).
    destruct (IH (e :: past) st' e) as (acts' & E' & H').
    exists (acts ++ acts'). split.
    { change (clk_edges (e :: es)) with (Sample (RisingEdge "axi_clk") e :: clk_edges es).
      cbn [length]. remember (S (length es)) as f. cbn [run_forever]. by rewrite E, E'. }
    intros Hi. specialize (H past Hi) as [H1 H2]. cbn [every_edge reports].
    rewrite errors_app, published_app. split.
    + split; intros X.
      * assert (Hl : legal past e) by (apply H1; lia). split; [done|]. apply H'; [by apply H2|lia].
      * destruct X as [Hl Hr]. pose proof (proj2 H1 Hl) as ->. simpl.
        apply H'; [by apply H2|done].
    + intros [Hl Hr]. apply H2 in Hl as [-> Hi']. f_equal. by apply H'.
Qed.

(** The addresses and data of a table of pending transfers. *)
Definition table_is (x : Xfers) (f : Z -> option (Z * list Z)) : Prop :=
  forall id, (fun t => (t_addr t, t_data t)) <$> x !! id = f id.

Lemma table_some x f id t : table_is x f -> x !! id = Some t -> f id = Some (t_addr t, t_data t).
Proof. intros H E. by rewrite <- H, E. Qed.

Lemma table_none x f id : table_is x f -> x !! id = None -> f id = None.
Proof. intros H E. by rewrite <- H, E. Qed.

Lemma table_insert x f id t :
  table_is x f ->
  table_is (<[id := t]> x) (fun i => if id =? i then Some (t_addr t, t_data t) else f i).
Proof.
  intros H i. destruct (Z.eqb_spec id i) as [->|]; [by rewrite lookup_insert_eq|].
  by rewrite lookup_insert_ne.
Qed.

Lemma table_delete x f id :
  table_is x f -> table_is (delete id x) (fun i => if id =? i then None else f i).
Proof.
  intros H i. destruct (Z.eqb_spec id i) as [->|]; [by rewrite lookup_delete_eq|].
  by rewrite lookup_delete_ne.
Qed.

Lemma table_ext x f g : (forall id, f id = g id) -> table_is x f -> table_is x g.
Proof. intros H Hf id. by rewrite Hf. Qed.

Lemma is_Some_fmap {A B} (f : A -> B) o : is_Some (f <$> o) <-> is_Some o.
Proof. apply fmap_is_Some. Qed.

Section Reports.
Variables (wdata_len wstrb_len rdata_len : Z).
Hypothesis widths : wdata_len = 8 * wstrb_len.

(** What the stages of an iteration do to a table, with and without errors. *)
Lemma write_request_run e x a tr :
  exists acts x', run (write_request e (x, a)) e tr
      = (acts, Done (x', if _aw_active e then Some (e "axi_awid") else a) e tr)
    /\ published acts = []
    /\ forall f, table_is x f ->
      (errors acts = 0%nat <-> (_aw_active e = true -> f (e "axi_awid") = None))
      /\ (errors acts = 0%nat -> table_is x' (fun id =>
            if _aw_active e && (e "axi_awid" =? id) then Some (e "axi_awaddr", []) else f id)).
Proof.
  unfold write_request. destruct (_aw_active e).
  - destruct (x !! e "axi_awid") as [t|] eqn:E; simpl; eexists _, _; (split; [done|]); (split; [done|]);
      intros f Hf.
    + rewrite (table_some _ _ _ _ Hf E). split; [|done]. split; [done|]. intros X. by specialize (X eq_refl).
    + rewrite (table_none _ _ _ Hf E). split; [done|]. intros _. by apply table_insert.
  - simpl. eexists _, _. split; [done|]. split; [done|]. done.
Qed.

Lemma write_data_run e x a tr :
  exists acts x', run (write_data wdata_len wstrb_len e (x, a)) e tr = (acts, Done (x', a) e tr)
    /\ published acts = []
    /\ forall f, table_is x f ->
      (errors acts = 0%nat <-> (_w_active e = true -> exists id, a = Some id /\ is_Some (f id)))
      /\ (errors acts = 0%nat -> table_is x' (fun id =>
            if _w_active e && bool_decide (a = Some id)
            then (fun v => (v.1, octets wdata_len wstrb_len e)) <$> f id else f id)).
Proof using widths.
  unfold write_data. destruct (_w_active e); [|by eexists _, _].
  assert (Hno : forall f : Z -> option (Z * list Z), (forall id, a = Some id -> f id = None) ->
    ~ (exists id, a = Some id /\ is_Some (f id))).
  { intros f Hf (id & -> & v & Hv). by rewrite Hf in Hv. }
  destruct a as [id|]; [destruct (x !! id) as [t|] eqn:E|]; simpl.
  - unfold _sample_w, collect_bytes. cbn [bus_len]. rewrite widths, Z.eqb_refl. cbn.
    eexists _, _. split; [done|]. split; [done|]. intros f Hf.
    pose proof (table_some _ _ _ _ Hf E) as Hv. split.
    + split; [|done]. intros _ _. exists id. split; [done|]. by eexists.
    + intros _. eapply table_ext; [|apply table_insert, Hf]. intros i. cbn [t_addr t_data].
      destruct (Z.eqb_spec id i) as [->|]; [rewrite bool_decide_eq_true_2 by done; by rewrite Hv|].
      rewrite bool_decide_eq_false_2 by congruence. done.
  - eexists _, _. split; [done|]. split; [done|]. intros f Hf. split; [|done]. split; [done|].
    intros X. specialize (X eq_refl). exfalso. revert X. apply Hno. intros ? [= <-].
    by apply (table_none x).
  - eexists _, _. split; [done|]. split; [done|]. intros f Hf. split; [|done]. split; [done|].
    intros X. specialize (X eq_refl). exfalso. revert X. by apply Hno.
Qed.

Lemma write_response_run e x a tr :
  exists acts x', run (write_response e (x, a)) e tr = (acts, Done (x', a) e tr)
    /\ forall f, table_is x f ->
      (errors acts = 0%nat <-> (_b_active e = true -> is_Some (f (e "axi_bid"))))
      /\ (errors acts = 0%nat ->
           published acts = (if _b_active e then
             match f (e "axi_bid") with
             | Some (addr, d) => [{| w_addr := addr; w_data := d; w_resp := Some (e "axi_bresp") |}]
             | None => []
             end else [])
           /\ table_is x' (fun id => if _b_active e && (e "axi_bid" =? id) then None else f id)).
Proof.
  unfold write_response. destruct (_b_active e); [|by eexists _, _].
  destruct (x !! e "axi_bid") as [t|] eqn:E; simpl; eexists _, _; (split; [done|]); intros f Hf.
  - rewrite (table_some _ _ _ _ Hf E). split; [by split|]. intros _. split; [done|].
    by apply table_delete.
  - rewrite (table_none _ _ _ Hf E). split; [|done]. split; [done|]. intros X.
    by destruct (X eq_refl).
Qed.

Lemma read_request_run e x tr :
  exists acts x', run (read_request e x) e tr = (acts, Done x' e tr) /\ published acts = []
    /\ forall f, table_is x f ->
      (errors acts = 0%nat <-> (_ar_active e = true -> f (e "axi_arid") = None))
      /\ (errors acts = 0%nat -> table_is x' (fun id =>
            if _ar_active e && (e "axi_arid" =? id) then Some (e "axi_araddr", []) else f id)).
Proof.
  unfold read_request. destruct (_ar_active e).
  - destruct (x !! e "axi_arid") as [t|] eqn:E; simpl; eexists _, _; (split; [done|]); (split; [done|]);
      intros f Hf.
    + rewrite (table_some _ _ _ _ Hf E). split; [|done]. split; [done|]. intros X. by specialize (X eq_refl).
    + rewrite (table_none _ _ _ Hf E). split; [done|]. intros _. by apply table_insert.
  - simpl. eexists _, _. split; [done|]. split; [done|]. done.
Qed.

Lemma read_response_run e x tr :
  exists acts x', run (read_response rdata_len e x) e tr = (acts, Done x' e tr)
    /\ forall f, table_is x f ->
      (errors acts = 0%nat <-> (_r_active e = true -> is_Some (f (e "axi_rid"))))
      /\ (errors acts = 0%nat ->
           published acts = (if _r_active e then
             match f (e "axi_rid") with
             | Some (addr, _) => [{| r_addr := addr; r_resp := Some (e "axi_rresp");
                 r_data := Some (collect_bytes_loop
                   {| bus_len := rdata_len; bus_val := e "axi_rdata" |} None) |}]
             | None => []
             end else [])
           /\ table_is x' (fun id => if _r_active e && (e "axi_rid" =? id) then None else f id)).
Proof.
  unfold read_response. destruct (_r_active e); [|by eexists _, _].
  destruct (x !! e "axi_rid") as [t|] eqn:E; simpl; eexists _, _; (split; [done|]); intros f Hf.
  - rewrite (table_some _ _ _ _ Hf E). split; [by split|]. intros _. split; [done|].
    by apply table_delete.
  - rewrite (table_none _ _ _ Hf E). split; [|done]. split; [done|]. intros X.
    by destruct (X eq_refl).
Qed.

(** The histories the states of the two loops stand for. *)
Definition write_spec (past : list env) (id : Z) : option (Z * list Z) :=
  (fun addr => (addr, written wdata_len wstrb_len past id)) <$> outstanding write_channels past id.

Definition write_inv (past : list env) (st : Xfers * option Z) : Prop :=
  table_is st.1 (write_spec past) /\ st.2 = last_awid past.

Definition read_inv (past : list env) (x : Xfers) : Prop :=
  table_is x (fun id => (fun addr => (addr, [])) <$> outstanding read_channels past id).

Lemma write_spec_request past e id :
  (if _aw_active e && (e "axi_awid" =? id) then Some (e "axi_awaddr", []) else write_spec past id)
  = (fun addr => (addr, if _aw_active e && (e "axi_awid" =? id) then []
                        else written wdata_len wstrb_len past id))
    <$> outstanding_at write_channels past e id.
Proof. unfold outstanding_at, write_spec. simpl. by destruct (_aw_active e && (e "axi_awid" =? id)). Qed.

Lemma write_spec_data past e id :
  let g := (fun addr => (addr, if _aw_active e && (e "axi_awid" =? id) then []
                               else written wdata_len wstrb_len past id))
           <$> outstanding_at write_channels past e id in
  (if _w_active e && bool_decide (last_awid (e :: past) = Some id)
   then (fun v => (v.1, octets wdata_len wstrb_len e)) <$> g else g)
  = (fun addr => (addr, written wdata_len wstrb_len (e :: past) id))
    <$> outstanding_at write_channels past e id.
Proof.
  cbn [written]. destruct (_w_active e && bool_decide (last_awid (e :: past) = Some id));
    by destruct (outstanding_at _ _ _ _).
Qed.

Lemma write_spec_response past e id :
  (if _b_active e && (e "axi_bid" =? id) then None
   else (fun addr => (addr, written wdata_len wstrb_len (e :: past) id))
        <$> outstanding_at write_channels past e id)
  = write_spec (e :: past) id.
Proof.
  unfold write_spec, outstanding_at. cbn [outstanding closes close_id opens open_id open_addr write_channels].
  by destruct (_b_active e && (e "axi_bid" =? id)).
Qed.

Lemma watch_write_step st e cur tr :
  exists acts st', run (watch_write_body wdata_len wstrb_len st) cur (Sample (RisingEdge "axi_clk") e :: tr)
      = (acts, Done st' e tr)
    /\ forall past, write_inv past st ->
      (errors acts = 0%nat <-> legal_write past e)
      /\ (legal_write past e ->
           published acts = expected_write wdata_len wstrb_len past e /\ write_inv (e :: past) st').
Proof using widths.
  destruct st as [x a]. unfold watch_write_body. cbn [pbind await]. rewrite run_await_hit.
  destruct (write_request_run e x a tr) as (acts1 & x1 & E1 & P1 & H1).
  set (a1 := if _aw_active e then Some (e "axi_awid") else a) in *.
  destruct (write_data_run e x1 a1 tr) as (acts2 & x2 & E2 & P2 & H2).
  destruct (write_response_run e x2 a1 tr) as (acts3 & x3 & E3 & H3).
  exists (acts1 ++ acts2 ++ acts3), (x3, a1). rewrite run_pbind, E1, run_pbind, E2, E3.
  split; [done|]. intros past [Hx Ha]. cbn [fst snd] in Hx, Ha.
  assert (Ha1 : a1 = last_awid (e :: past)) by (subst a1; simpl; by destruct (_aw_active e)).
  rewrite Ha1 in H2. clear E1 E2 E3.
  destruct (H1 _ Hx) as [L1 T1]. unfold write_spec in L1. rewrite fmap_None in L1.
  rewrite !errors_app, !published_app, P1, P2. cbn [app]. unfold legal_write, legal_edge.
  cbn [opens open_id closes close_id write_channels].
  destruct (errors acts1) as [|n1]; [|by split; [split; [lia|intros [[X _] _]; by apply L1 in X]
                                              |intros [[X _] _]; by apply L1 in X]].
  pose proof (table_ext _ _ _ (write_spec_request past e) (T1 eq_refl)) as T1'.
  destruct (H2 _ T1') as [L2 T2]. setoid_rewrite is_Some_fmap in L2.
  destruct (errors acts2) as [|n2]; [|by split; [split; [lia|intros [_ X]; by apply L2 in X]
                                              |intros [_ X]; by apply L2 in X]].
  pose proof (table_ext _ _ _ (write_spec_data past e) (T2 eq_refl)) as T2'.
  destruct (H3 _ T2') as [L3 T3]. rewrite is_Some_fmap in L3.
  split; [cbn [Nat.add]; tauto|]. intros [[_ X3] _]. apply L3 in X3. destruct (T3 X3) as [P3 T3'].
  split; [|split; [exact (table_ext _ _ _ (write_spec_response past e) T3')|exact Ha1]].
  rewrite P3. unfold expected_write. destruct (_b_active e); [|done].
  by destruct (outstanding_at _ _ _ _).
Qed.

Lemma watch_read_step x e cur tr :
  exists acts x', run (watch_read_body rdata_len x) cur (Sample (RisingEdge "axi_clk") e :: tr)
      = (acts, Done x' e tr)
    /\ forall past, read_inv past x ->
      (errors acts = 0%nat <-> legal_edge read_channels past e)
      /\ (legal_edge read_channels past e ->
           published acts = expected_read rdata_len past e /\ read_inv (e :: past) x').
Proof.
  unfold watch_read_body. cbn [pbind await]. rewrite run_await_hit.
  destruct (read_request_run e x tr) as (acts1 & x1 & E1 & P1 & H1).
  destruct (read_response_run e x1 tr) as (acts2 & x2 & E2 & H2).
  exists (acts1 ++ acts2), x2. rewrite run_pbind, E1, E2. split; [done|]. intros past Hx.
  destruct (H1 _ Hx) as [L1 T1]. rewrite fmap_None in L1.
  rewrite errors_app, published_app, P1. cbn [app]. unfold legal_edge.
  cbn [opens open_id closes close_id read_channels].
  destruct (errors acts1) as [|n1]; [|by split; [split; [lia|intros [X _]; by apply L1 in X]
                                              |intros [X _]; by apply L1 in X]].
  assert (T1' : table_is x1 (fun id => (fun addr => (addr, [])) <$> outstanding_at read_channels past e id)).
  { eapply table_ext; [|exact (T1 eq_refl)]. intros id. unfold outstanding_at. simpl.
    by destruct (_ar_active e && (e "axi_arid" =? id)). }
  destruct (H2 _ T1') as [L2 T2]. rewrite is_Some_fmap in L2.
  split; [cbn [Nat.add]; tauto|]. intros [_ X2]. apply L2 in X2. destruct (T2 X2) as [P3 T3].
  split.
  - rewrite P3. unfold expected_read. destruct (_r_active e); [|done]. by destruct (outstanding_at _ _ _ _).
  - eapply table_ext; [|exact T3]. intros id. unfold outstanding_at. simpl.
    by destruct (_r_active e && (e "axi_rid" =? id)).
Qed.
End Reports.

(** C6: over any run, the monitor logs no error exactly when each request uses
    an identifier with no transaction outstanding, data comes with a transaction
    outstanding for the latest write request, and each response answers an
    outstanding transaction; it then reports, for each response in order, the
    address of the request it answers, the octets written (of the latest data
    accepted for that request) or read, and the response code.  So no accepted
    transaction is lost or invented. *)
Theorem axi_monitor_conservation wstrb_len rdata_len es cur :
  let wdata_len := 8 * wstrb_len in
  (exists acts, run_forever (S (length es)) (watch_write_body wdata_len wstrb_len) (∅, None) cur
                  (clk_edges es) = (acts, Suspended)
     /\ (errors acts = 0%nat <-> every_edge legal_write [] es)
     /\ (every_edge legal_write [] es ->
         published acts = reports (expected_write wdata_len wstrb_len) [] es))
  /\ (exists acts, run_forever (S (length es)) (watch_read_body rdata_len) ∅ cur
                     (clk_edges es) = (acts, Suspended)
     /\ (errors acts = 0%nat <-> every_edge (legal_edge read_channels) [] es)
     /\ (every_edge (legal_edge read_channels) [] es ->
         published acts = reports (expected_read rdata_len) [] es)).
Proof.
  intros wdata_len. split.
  - apply (loop_reports _ (write_inv wdata_len wstrb_len) legal_write).
    + by intros [x a] c.
    + intros st e c tr. by apply watch_write_step.
    + split; [|done]. intros id. unfold write_spec. simpl. by rewrite lookup_empty.
  - apply (loop_reports _ read_inv (legal_edge read_channels)).
    + done.
    + intros st e c tr. by apply watch_read_step.
    + intros id. simpl. by rewrite lookup_empty.
Qed.

Definition example_bus : list env := [
  sig_env [("axi_awready", 1); ("axi_awvalid", 1); ("axi_awid", 3); ("axi_awaddr", 0x100);
           ("axi_arready", 1); ("axi_arvalid", 1); ("axi_arid", 1); ("axi_araddr", 0x40)];
  sig_env [("axi_wready", 1); ("axi_wvalid", 1); ("axi_wdata", 0xBEEF); ("axi_wstrb", 3);
           ("axi_rready", 1); ("axi_rvalid", 1); ("axi_rid", 1); ("axi_rdata", 0x1234)];
  sig_env [("axi_bready", 1); ("axi_bvalid", 1); ("axi_bid", 3); ("axi_bresp", 0)] ].

(** A second request for an identifier that is in use. *)
Definition example_reuse : list env := [
  sig_env [("axi_awready", 1); ("axi_awvalid", 1); ("axi_awid", 3); ("axi_awaddr", 0x100)];
  sig_env [("axi_awready", 1); ("axi_awvalid", 1); ("axi_awid", 3); ("axi_awaddr", 0x200)] ].

Lemma axi_monitor_examples :
  let wacts es := (run_forever 4 (watch_write_body 16 2) (∅, None) (sig_env []) (clk_edges es)).1 in
  let racts := (run_forever 4 (watch_read_body 16) ∅ (sig_env []) (clk_edges example_bus)).1 in
  published (wacts example_bus) = [{| w_addr := 0x100; w_data := [0xEF; 0xBE]; w_resp := Some 0 |}]
  /\ reports (expected_write 16 2) [] example_bus = published (wacts example_bus)
  /\ published racts = [{| r_addr := 0x40; r_data := Some [0x34; 0x12]; r_resp := Some 0 |}]
  /\ reports (expected_read 16) [] example_bus = published racts
  /\ errors (wacts example_reuse) = 1%nat.
Proof. vm_compute. repeat split. Qed.

Lemma axi_monitor_conservation_witness :
  published (run_forever 4 (watch_write_body 16 2) (∅, None) (sig_env []) (clk_edges example_bus)).1
    = [{| w_addr := 0x100; w_data := [0xEF; 0xBE]; w_resp := Some 0 |}]
  /\ ~ every_edge legal_write [] example_reuse.
Proof.
  destruct (axi_monitor_conservation 2 16 example_bus (sig_env [])) as [(acts & E & _ & H) _].
  destruct (axi_monitor_conservation 2 16 example_reuse (sig_env [])) as [(acts' & E' & H' & _) _].
  split.
  - change (published (run_forever (S (length example_bus)) (watch_write_body (8 * 2) 2) (∅, None)
      (sig_env []) (clk_edges example_bus)).1 = [{| w_addr := 0x100; w_data := [0xEF; 0xBE]; w_resp := Some 0 |}]).
    rewrite E. cbn [fst]. rewrite H; [by vm_compute|].
    unfold example_bus. cbn [every_edge]. unfold legal_write, legal_edge.
    repeat split; try discriminate; intros _;
      first [by exists 0x100 | by exists 3; split; [|exists 0x100]].
  - intros X. apply H' in X. revert E'. vm_compute. intros [= <-]. vm_compute in X. discriminate.
Defined.
