(* ===== verification/Dma.v ===== *)
(** * DMA testbench: verification/block/dma/testbench.py

    The emulated ICCM and DCCM memories and their monitor, the AXI4-Lite manager
    and the debug interface with its monitor. *)

From S2P Require Import Prelude Cocotb Utils Axi.
From stdpp Require Import base gmap list strings.
From Stdlib Require Import ZArith Lia.

#[local] Open Scope string_scope.
#[local] Open Scope list_scope.
#[local] Open Scope Z_scope.

(** ** Items *)

Record MemItem := { mem : string; m_addr : Z; m_data : Z; m_size : Z; m_resp : option Z }.

Record DebugItem := { d_addr : Z; d_data : Z; d_size : Z; d_fail : Z }.

(** The transactions the scoreboards receive. *)
Inductive Item :=
  | MemWrite (it : MemItem)
  | MemRead (it : MemItem)
  | DebugWrite (it : DebugItem)
  | DebugRead (it : DebugItem)
  | BusWrite (it : BusWriteItem)
  | BusRead (it : BusReadItem).

(** ** CoreMemoryBFM *)

Section CoreMemory.
Variables (iccm_base iccm_size dccm_base dccm_size : Z).

(** One iteration of [iccm_busy_task] ([ready] is ["iccm_ready"]) or of
    [dccm_busy_task]; [busy] is the outcome of [random.random() < prob]. *)
Definition busy_task_body (ready : string) (busy_range : Z * Z) (busy : bool) (r : Z) : proc Item unit :=
  _ <- await (RisingEdge "clk") ;;
  if busy then
    drive ready 0 ;;;
    clock_cycles "clk" (Z.to_nat (randrange busy_range.1 busy_range.2 r)) ;;;
    drive ready 1
  else Ret tt.

(** The contents [iccm_data] and [dccm_data]. *)
Record CoreMem := { iccm_data : gmap Z Z; dccm_data : gmap Z Z }.

(** A write, or a read with its response; [r] and [ecc_err] are the draws for an
    address read for the first time and for the error flag. *)
Definition mem_access (pfx : string) (e : env) (addr tag r : Z) (ecc_err : bool) (m : gmap Z Z)
  : proc Item (gmap Z Z) :=
  if truthy (e "dma_mem_write") then Ret (<[addr := e "dma_mem_wdata"]> m)
  else
    let m := match m !! addr with
             | Some _ => m
             | None => <[addr := randrange 0 (Z.shiftl 1 64 - 1) r]> m
             end in
    drive (pfx ++ "_rdata") (default 0 (m !! addr)) ;;;
    drive (pfx ++ "_rtag") tag ;;;
    drive (pfx ++ "_rvalid") 1 ;;;
    drive (pfx ++ "_ecc_error") (Z.b2z ecc_err) ;;;
    Ret m.

(** One iteration of [responder]; the state counts the iterations. *)
Definition responder_body (rnd : nat -> Z * bool) (st : nat * CoreMem) : proc Item (nat * CoreMem) :=
  let '(i, m) := st in
  e <- await (RisingEdge "clk") ;;
  let tag := e "dma_mem_tag" in
  if truthy (e "dma_dccm_req") then
    let addr := e "dma_mem_addr" - dccm_base in
    _ <- lift (py_assert ((0 <=? addr) && (addr <? dccm_size))) ;;
    d <- mem_access "dccm_dma" e addr tag (rnd i).1 (rnd i).2 (dccm_data m) ;;
    _ <- await (RisingEdge "clk") ;;
    drive "dccm_dma_rvalid" 0 ;;;
    Ret (S i, {| iccm_data := iccm_data m; dccm_data := d |})
  else if truthy (e "dma_iccm_req") then
    let addr := e "dma_mem_addr" - iccm_base in
    _ <- lift (py_assert ((0 <=? addr) && (addr <? iccm_size))) ;;
    d <- mem_access "iccm_dma" e addr tag (rnd i).1 (rnd i).2 (iccm_data m) ;;
    _ <- await (RisingEdge "clk") ;;
    drive "iccm_dma_rvalid" 0 ;;;
    Ret (S i, {| iccm_data := d; dccm_data := dccm_data m |})
  else Ret (S i, m).

(** ** CoreMemoryMonitor *)

Record MonState := {
  req_pending : bool;
  is_iccm : bool;
  is_dccm : bool;
  req_wr : Z;
  req_addr : Z;
  req_data : Z;
  req_size : Z;
}.

Definition MonState_init : MonState :=
  {| req_pending := false; is_iccm := false; is_dccm := false; req_wr := 0; req_addr := 0;
     req_data := 0; req_size := 0 |}.

Definition mkMemItem (mem : string) (addr data size : Z) (resp : option Z) : MemItem :=
  {| mem := mem; m_addr := addr; m_data := data; m_size := size; m_resp := resp |}.

Definition when {I} (b : bool) (p : proc I unit) : proc I unit := if b then p else Ret tt.

Definition CoreMemoryMonitor_body (st : MonState) : proc Item MonState :=
  _ <- await (RisingEdge "clk") ;;
  e <- await ReadOnly ;;
  when (req_pending st && negb (truthy (req_wr st))) (
    when (is_iccm st) (publish (MemRead (mkMemItem "ICCM" (req_addr st - iccm_base)
      (e "iccm_dma_rdata") (req_size st) (Some (e "iccm_dma_ecc_error"))))) ;;;
    when (is_dccm st) (publish (MemRead (mkMemItem "DCCM" (req_addr st - dccm_base)
      (e "dccm_dma_rdata") (req_size st) (Some (e "dccm_dma_ecc_error")))))) ;;;
  let is_iccm := truthy (e "dma_iccm_req") in
  let is_dccm := truthy (e "dma_dccm_req") in
  if is_iccm || is_dccm then
    let st := {| req_pending := true; is_iccm := is_iccm; is_dccm := is_dccm;
                 req_wr := e "dma_mem_write"; req_addr := e "dma_mem_addr";
                 req_data := e "dma_mem_wdata"; req_size := e "dma_mem_sz" |} in
    when (truthy (req_wr st) && is_iccm)
      (publish (MemWrite (mkMemItem "ICCM" (req_addr st - iccm_base) (req_data st) (req_size st) None))) ;;;
    when (truthy (req_wr st) && is_dccm)
      (publish (MemWrite (mkMemItem "DCCM" (req_addr st - dccm_base) (req_data st) (req_size st) None))) ;;;
    Ret st
  else
    Ret {| req_pending := false; is_iccm := is_iccm; is_dccm := is_dccm; req_wr := req_wr st;
           req_addr := req_addr st; req_data := req_data st; req_size := req_size st |}.
End CoreMemory.

(** ** Axi4LiteBFM *)

(** A pending AXI transfer; [addr] and [data] are [None] until the first use. *)
Record WrTransfer := { x_addr : option Z; x_data : option (list Z); x_pending : bool }.

(** [wr_xfers]: the transfers of the identifiers 0, 1, ..., in this order. *)
Abbreviation WrXfers := (list WrTransfer).

Definition wr_xfers_init (awid_len : Z) : WrXfers :=
  replicate (Z.to_nat (Z.shiftl 1 awid_len)) {| x_addr := None; x_data := None; x_pending := false |}.

(** The identifier loop of [write], under the lock: the first free identifier,
    or [None] when all are pending. *)
Fixpoint free_tid (xs : WrXfers) (tid : nat) : option nat :=
  match xs with
  | [] => None
  | x :: xs => if x_pending x then free_tid xs (S tid) else Some tid
  end.

Definition alloc_tid (addr : Z) (data : list Z) (xs : WrXfers) : option (nat * WrXfers) :=
  match free_tid xs 0 with
  | Some tid => Some (tid, <[tid := {| x_addr := Some addr; x_data := Some data; x_pending := true |}]> xs)
  | None => None
  end.

(** The critical section of [write_handler] and the message that follows it,
    which formats the recorded address; [false] means that an unknown identifier
    was logged. *)
Definition complete_tid (bid : Z) (xs : WrXfers) : result (bool * WrXfers) :=
  if bid <? 0 then Ok (false, xs)
  else
    match xs !! Z.to_nat bid with
    | None => Ok (false, xs)
    | Some x =>
        let xs := <[Z.to_nat bid := {| x_addr := x_addr x; x_data := x_data x; x_pending := false |}]> xs in
        match x_addr x with
        | None => Raise TypeError   (* "0x{:08X}".format(None) *)
        | Some _ => Ok (true, xs)
        end
    end.

(** [wdata] and [wstrb] of a beat: octets are shifted in from the last to the first. *)
Definition beat_word (xfer_data : list Z) : Z * Z :=
  fold_left (fun '(wdata, wstrb) b => (Z.lor (Z.shiftl wdata 8) b, Z.lor (Z.shiftl wstrb 1) 1))
    (rev xfer_data) (0, 0).

(** [while data_len > 0]: the beats of a transfer, with fuel for [data_len]. *)
Fixpoint write_beats (fuel : nat) (swidth : nat) (data : list Z) : list (Z * Z) :=
  match fuel with
  | O => []
  | S fuel =>
      match data with
      | [] => []
      | _ => let xfer_len := Nat.min swidth (length data) in
             beat_word (take xfer_len data) :: write_beats fuel swidth (drop xfer_len data)
      end
  end.

Section Axi4LiteBFM.
Variables (dwidth swidth : Z) (busy_timeout : nat).

Definition axi_wait (signal : string) (max_cycles : nat) : proc Item unit :=
  wait_for RuntimeError "axi_clk" (fun e => negb (e signal =? 0)) max_cycles.

(** [int(math.ceil(math.log2(self.dwidth)))] *)
Definition axsize : Z := Z.log2_up dwidth.

(** "Assert data" and the wait that follows. *)
Definition write_beat (beat : Z * Z) : proc Item unit :=
  let '(wdata, wstrb) := beat in
  drive "axi_wdata" wdata ;;;
  drive "axi_wstrb" wstrb ;;;
  axi_wait "axi_wready" busy_timeout.

(** [write] after an identifier was allocated. *)
Definition Axi4LiteBFM_write (awid addr : Z) (data : list Z) : proc Item unit :=
  drive "axi_awvalid" 1 ;;;
  drive "axi_awaddr" addr ;;;
  drive "axi_awid" awid ;;;
  drive "axi_awsize" axsize ;;;
  axi_wait "axi_awready" busy_timeout ;;;
  drive "axi_awvalid" 0 ;;;
  drive "axi_wvalid" 1 ;;;
  for_each (write_beats (length data) (Z.to_nat swidth) data) write_beat ;;;
  drive "axi_wvalid" 0.

(** One iteration of [write_handler], after [axi_bready] was set. *)
Definition write_handler_body (xs : WrXfers) : proc Item WrXfers :=
  e <- await (RisingEdge "axi_clk") ;;
  if negb (truthy (e "axi_bvalid")) then Ret xs
  else
    r <- lift (complete_tid (e "axi_bid") xs) ;;
    let '(ok, xs) := r in
    if (ok : bool) then Ret xs else (log_error ;;; Ret xs).

(** The reception loop of [read]; [None] when the fuel is exhausted. *)
Fixpoint read_beats (fuel : nat) (data : list Z) : proc Item (option (list Z)) :=
  match fuel with
  | O => Ret None
  | S fuel =>
      axi_wait "axi_rvalid" busy_timeout ;;;
      e <- now ;;
      bs <- lift (collect_bytes {| bus_len := dwidth; bus_val := e "axi_rdata" |} None) ;;
      let data := data ++ bs in
      if truthy (e "axi_rlast") then Ret (Some data) else read_beats fuel data
  end.

Definition Axi4LiteBFM_read (fuel : nat) (addr : Z) : proc Item (option (list Z * Z)) :=
  drive "axi_araddr" addr ;;;
  drive "axi_arid" 1 ;;;
  drive "axi_arsize" axsize ;;;
  drive "axi_arvalid" 1 ;;;
  axi_wait "axi_arready" busy_timeout ;;;
  drive "axi_arvalid" 0 ;;;
  drive "axi_rready" 1 ;;;
  r <- read_beats fuel [] ;;
  match r with
  | None => Ret None
  | Some data =>
      e <- now ;;
      let rresp := e "axi_rresp" in
      drive "axi_rready" 0 ;;;
      Ret (Some (data, rresp))
  end.
End Axi4LiteBFM.

(** ** Debug interface *)

Section Debug.
Variable busy_timeout : nat.

Definition dbg_wait (signal : string) (max_cycles : nat) : proc Item unit :=
  wait_for RuntimeError "clk" (fun e => negb (e signal =? 0)) max_cycles.

(** The default of [_wait]. *)
Definition dbg_wait_default : nat := 150.

Definition dbg_wait_done (e : env) : proc Item unit :=
  if negb (truthy (e "dma_dbg_ready")) then dbg_wait "dma_dbg_cmd_done" busy_timeout
  else dbg_wait "dma_dbg_cmd_done" dbg_wait_default.

Definition DebugInterfaceBFM_write (addr : Z) (data : list Z) : proc Item Z :=
  dbg_wait "dma_dbg_ready" busy_timeout ;;;
  drive "dbg_cmd_valid" 1 ;;;
  drive "dbg_cmd_write" 1 ;;;
  drive "dbg_cmd_size" 2 ;;;
  drive "dbg_cmd_addr" addr ;;;
  v <- lift (struct_unpack 4 data) ;;
  drive "dbg_cmd_wrdata" v ;;;
  e <- await (RisingEdge "clk") ;;
  drive "dbg_cmd_valid" 0 ;;;
  dbg_wait_done e ;;;
  e <- now ;;
  Ret (e "dma_dbg_cmd_fail").

Definition DebugInterfaceBFM_read (addr : Z) : proc Item (list Z * Z) :=
  dbg_wait "dma_dbg_ready" busy_timeout ;;;
  drive "dbg_cmd_valid" 1 ;;;
  drive "dbg_cmd_write" 0 ;;;
  drive "dbg_cmd_size" 2 ;;;
  drive "dbg_cmd_addr" addr ;;;
  e <- await (RisingEdge "clk") ;;
  drive "dbg_cmd_valid" 0 ;;;
  dbg_wait_done e ;;;
  e <- now ;;
  data <- lift (struct_pack 4 (e "dma_dbg_rddata")) ;;
  Ret (data, e "dma_dbg_cmd_fail").

(** The loop of [DebugInterfaceBFM.run_phase]. *)
Definition DebugInterfaceBFM_bubble_body (busy_range : Z * Z) (busy : bool) (r : Z) : proc Item unit :=
  _ <- await (RisingEdge "clk") ;;
  if busy then
    drive "dbg_dma_bubble" 0 ;;;
    clock_cycles "clk" (Z.to_nat (randrange busy_range.1 busy_range.2 r)) ;;;
    drive "dbg_dma_bubble" 1
  else Ret tt.
End Debug.

(** The last accepted command. *)
Record DebugCmd := { cmd_addr : Z; cmd_write : Z; cmd_type : Z; cmd_size : Z; cmd_wrdata : Z }.

Record DebugMon := { pending : Z; curr_rdy : Z; cmd : option DebugCmd }.

(** One iteration of [DebugInterfaceMonitor.run_phase].  The command variables
    are bound once a command was accepted, so that [pending] counts imply them. *)
Definition DebugInterfaceMonitor_body (st : DebugMon) : proc Item DebugMon :=
  e <- await (RisingEdge "clk") ;;
  let prev_rdy := curr_rdy st in
  let rdy := e "dma_dbg_ready" in
  let is_rdy := if truthy prev_rdy then prev_rdy else rdy in
  let accepted := truthy is_rdy && truthy (e "dbg_cmd_valid") in
  let cmd := if accepted then
               Some {| cmd_addr := e "dbg_cmd_addr"; cmd_write := e "dbg_cmd_write";
                       cmd_type := e "dbg_cmd_type";
                       cmd_size := 8 * Z.shiftl 1 (e "dbg_cmd_size");
                       cmd_wrdata := e "dbg_cmd_wrdata" |}
             else cmd st in
  let n := if accepted then pending st + 1 else pending st in
  if truthy (e "dma_dbg_cmd_done") then
    let rddata := e "dma_dbg_rddata" in
    let fail := e "dma_dbg_cmd_fail" in
    if n =? 0 then log_error ;;; Ret {| pending := n; curr_rdy := rdy; cmd := cmd |}
    else
      let st := {| pending := n - 1; curr_rdy := rdy; cmd := cmd |} in
      match cmd with
      | None => throw UnboundLocalError
      | Some c =>
          if negb (cmd_type c =? 2) then log_error ;;; Ret st
          else if truthy (cmd_write c) then
            publish (DebugWrite {| d_addr := cmd_addr c; d_data := cmd_wrdata c;
                                   d_size := cmd_size c; d_fail := fail |}) ;;; Ret st
          else
            publish (DebugRead {| d_addr := cmd_addr c; d_data := rddata;
                                  d_size := cmd_size c; d_fail := fail |}) ;;; Ret st
      end
  else Ret {| pending := n; curr_rdy := rdy; cmd := cmd |}.

Definition DebugMon_init : DebugMon := {| pending := 0; curr_rdy := 0; cmd := None |}.

(** ** The octets on the write data bus *)

Lemma beat_word_cons b bs :
  beat_word (b :: bs)
  = (Z.lor (Z.shiftl (beat_word bs).1 8) b, Z.lor (Z.shiftl (beat_word bs).2 1) 1).
Proof.
  unfold beat_word. cbn [rev]. rewrite fold_left_app. cbn [fold_left].
  by destruct (fold_left _ (rev bs) (0, 0)).
Qed.

Lemma beat_word_value bs :
  Forall is_byte bs -> beat_word bs = (le_value bs, Z.ones (Z.of_nat (length bs))).
Proof.
  induction 1 as [|b bs Hb _ IH]; [done|]. rewrite beat_word_cons, IH. unfold is_byte in Hb. simpl fst.
  simpl snd. f_equal.
  - rewrite Z.lor_comm, lor_low_high by lia. cbn [le_value]. lia.
  - rewrite Z.lor_comm, lor_low_high by lia. cbn [length].
    rewrite !Z.ones_equiv, Nat2Z.inj_succ, Z.pow_succ_r by lia. lia.
Qed.

Lemma write_beats_cons fuel swidth data :
  data <> [] -> write_beats (S fuel) swidth data
  = beat_word (take (Nat.min swidth (length data)) data)
    :: write_beats fuel swidth (drop (Nat.min swidth (length data)) data).
Proof. by destruct data. Qed.

(** What the monitor collects from a beat on a bus of [swidth] octets. *)
Definition beat_bytes (swidth : nat) (beat : Z * Z) : result (list Z) :=
  collect_bytes {| bus_len := 8 * Z.of_nat swidth; bus_val := beat.1 |}
    (Some {| bus_len := Z.of_nat swidth; bus_val := beat.2 |}).

Lemma take_min n (l : list Z) : take (n `min` length l) l = take n l.
Proof.
  destruct (Nat.le_ge_cases n (length l)).
  - by rewrite Nat.min_l.
  - rewrite Nat.min_r by done. by rewrite !take_ge.
Qed.

Lemma drop_min n (l : list Z) : drop (n `min` length l) l = drop n l.
Proof.
  destruct (Nat.le_ge_cases n (length l)).
  - by rewrite Nat.min_l.
  - rewrite Nat.min_r by done. by rewrite !drop_ge.
Qed.

Lemma beat_bytes_word swidth chunk :
  Forall is_byte chunk -> (length chunk <= swidth)%nat ->
  beat_bytes swidth (beat_word chunk) = Ok chunk.
Proof.
  intros Hb Hl. unfold beat_bytes. rewrite beat_word_value by done. cbn [fst snd].
  rewrite collect_low_bytes by done. by rewrite le_bytes_value.
Qed.

Lemma write_beats_collect swidth fuel : forall data,
  (0 < swidth)%nat -> (length data <= fuel)%nat -> Forall is_byte data ->
  exists chunks, Forall2 (fun beat c => beat_bytes swidth beat = Ok c) (write_beats fuel swidth data) chunks
    /\ concat chunks = data /\ Forall (fun c => (0 < length c <= swidth)%nat) chunks.
Proof.
  induction fuel as [|fuel IH]; intros data Hs Hl Hb.
  - exists []. destruct data; [|simpl in Hl; lia]. repeat constructor.
  - destruct (decide (data = [])) as [->|Hne]; [exists []; repeat constructor|].
    rewrite write_beats_cons, take_min, drop_min by done.
    assert (0 < length data)%nat by (destruct data; [done|simpl; lia]).
    destruct (IH (drop swidth data)) as (chunks & H1 & H2 & H3); [done| |by apply Forall_drop|].
    { rewrite length_drop. lia. }
    exists (take swidth data :: chunks). split; [|split].
    + constructor; [|done]. apply beat_bytes_word; [by apply Forall_take|]. rewrite length_take. lia.
    + cbn [concat]. by rewrite H2, take_drop.
    + constructor; [|done]. rewrite length_take. lia.
Qed.

(** ** A write transfer *)

Definition axi_edges (es : list env) : list sample := Sample (RisingEdge "axi_clk") <$> es.

(** A wait ends at the first edge that shows the signal, if there is one among
    the allowed ones. *)
Lemma axi_wait_hit sig idle e rest n cur :
  Forall (fun e : env => e sig = 0) idle -> e sig <> 0 -> (length idle < n)%nat ->
  run (axi_wait sig n) cur (axi_edges (idle ++ e :: rest)) = ([], Done tt e (axi_edges rest)).
Proof.
  intros Hi He. revert n cur. induction Hi as [|e0 idle H0 Hi IH]; intros [|n] cur Hn;
    try (simpl in Hn; lia); unfold axi_wait; cbn [wait_for pbind await app].
  - change (axi_edges (e :: rest)) with (Sample (RisingEdge "axi_clk") e :: axi_edges rest).
    rewrite run_await_hit. by apply Z.eqb_neq in He as ->.
  - change (axi_edges (e0 :: idle ++ e :: rest))
      with (Sample (RisingEdge "axi_clk") e0 :: axi_edges (idle ++ e :: rest)).
    rewrite run_await_hit, H0. cbn [Z.eqb negb]. apply IH. simpl in Hn. lia.
Qed.

Lemma axi_wait_timeout sig idle rest cur :
  Forall (fun e : env => e sig = 0) idle ->
  run (axi_wait sig (length idle)) cur (axi_edges (idle ++ rest)) = ([], Crashed RuntimeError).
Proof.
  intros Hi. revert cur. induction Hi as [|e0 idle H0 Hi IH]; intros cur; [done|].
  unfold axi_wait. cbn [length wait_for pbind await app].
  change (axi_edges (e0 :: idle ++ rest))
    with (Sample (RisingEdge "axi_clk") e0 :: axi_edges (idle ++ rest)).
  rewrite run_await_hit, H0. cbn [Z.eqb negb]. apply IH.
Qed.

(** The edges until a ready signal: idle ones, and the one that shows it. *)
Definition ready_after (sig : string) (n : nat) (w : list env * env) : Prop :=
  Forall (fun e : env => e sig = 0) w.1 /\ w.2 sig <> 0 /\ (length w.1 < n)%nat.

Definition wait_edges (w : list env * env) : list env := w.1 ++ [w.2].

Definition beat_drives (beat : Z * Z) : list (action Item) :=
  [ADrive "axi_wdata" beat.1; ADrive "axi_wstrb" beat.2].

Lemma send_beats timeout beats ws rest cur :
  Forall2 (fun _ w => ready_after "axi_wready" timeout w) beats ws ->
  exists cur',
  run (for_each beats (write_beat timeout)) cur
    (axi_edges (concat (wait_edges <$> ws) ++ rest))
  = (concat (beat_drives <$> beats), Done tt cur' (axi_edges rest)).
Proof.
  intros H. revert cur. induction H as [|[d s] w beats ws (Hi & He & Hl) H IH]; intros cur.
  - by exists cur.
  - destruct (IH w.2) as (cur' & E). exists cur'.
    rewrite !fmap_cons. cbn [concat for_each]. unfold wait_edges at 1. rewrite <- !app_assoc. cbn [app].
    rewrite run_pbind. cbn [write_beat pbind drive run].
    rewrite (axi_wait_hit _ _ _ _ _ _ Hi He Hl). cbn [app]. by rewrite E.
Qed.

(** C2: a write to a subordinate that raises its ready signals within the
    timeout drives the request once and one beat per group of octets, and the
    octets the monitor collects from the beats are, concatenated, exactly the
    data; if the subordinate does not accept the request within the timeout,
    the write raises [RuntimeError]. *)
Theorem dma_axi_write_roundtrip dwidth swidth timeout awid addr data cur :
  (0 < swidth)%nat -> Forall is_byte data ->
  let w := Axi4LiteBFM_write dwidth (Z.of_nat swidth) timeout awid addr data in
  let beats := write_beats (length data) swidth data in
  (forall aw ws rest,
     ready_after "axi_awready" timeout aw ->
     Forall2 (fun _ x => ready_after "axi_wready" timeout x) beats ws ->
     exists cur' chunks,
       run w cur (axi_edges (wait_edges aw ++ concat (wait_edges <$> ws) ++ rest))
       = ([ADrive "axi_awvalid" 1; ADrive "axi_awaddr" addr; ADrive "axi_awid" awid;
           ADrive "axi_awsize" (axsize dwidth); ADrive "axi_awvalid" 0; ADrive "axi_wvalid" 1]
          ++ concat (beat_drives <$> beats) ++ [ADrive "axi_wvalid" 0], Done tt cur' (axi_edges rest))
       /\ Forall2 (fun beat c => beat_bytes swidth beat = Ok c) beats chunks
       /\ concat chunks = data)
  /\ (forall idle rest, Forall (fun e : env => e "axi_awready" = 0) idle -> length idle = timeout ->
       (run w cur (axi_edges (idle ++ rest))).2 = Crashed RuntimeError).
Proof.
  intros Hs Hb w beats. split.
  - intros aw ws rest (Hi & He & Hl) Hws.
    destruct (send_beats timeout beats ws rest aw.2 Hws) as (cur' & E).
    destruct (write_beats_collect swidth (length data) data Hs ltac:(done) Hb) as (chunks & H1 & H2 & _).
    exists cur', chunks. split; [|done].
    subst w. unfold Axi4LiteBFM_write. cbn [pbind drive run]. rewrite run_pbind.
    unfold wait_edges at 1. rewrite <- app_assoc. cbn [app].
    rewrite (axi_wait_hit _ _ _ _ _ _ Hi He Hl). cbn [pbind drive run]. rewrite run_pbind.
    rewrite Nat2Z.id. fold beats. rewrite E. cbn [run drive app]. done.
  - intros idle rest Hi Hl. subst w timeout. unfold Axi4LiteBFM_write.
    cbn [pbind drive run]. rewrite run_pbind. by rewrite axi_wait_timeout.
Qed.

Lemma dma_axi_write_roundtrip_witness :
  let ready := sig_env [("axi_awready", 1); ("axi_wready", 1)] in
  let idle := sig_env [] in
  let data := [1; 2; 3; 4; 5] in
  exists cur' chunks,
    run (Axi4LiteBFM_write 32 4 10 7 0x40 data) idle
      (axi_edges ([idle; ready] ++ [ready] ++ [idle; ready] ++ []))
    = ([ADrive "axi_awvalid" 1; ADrive "axi_awaddr" 0x40; ADrive "axi_awid" 7;
        ADrive "axi_awsize" 5; ADrive "axi_awvalid" 0; ADrive "axi_wvalid" 1;
        ADrive "axi_wdata" 0x04030201; ADrive "axi_wstrb" 0xF;
        ADrive "axi_wdata" 5; ADrive "axi_wstrb" 1; ADrive "axi_wvalid" 0],
       Done tt cur' (axi_edges []))
    /\ Forall2 (fun beat c => beat_bytes 4 beat = Ok c) (write_beats 5 4 data) chunks
    /\ concat chunks = data.
Proof.
  pose proof (dma_axi_write_roundtrip 32 4 10 7 0x40 [1; 2; 3; 4; 5] (sig_env [])) as H.
  destruct H as [H _]; [lia|repeat constructor; discriminate|].
  set (ready := sig_env [("axi_awready", 1); ("axi_wready", 1)]).
  refine (H ([sig_env []], ready) [([], ready); ([sig_env []], ready)] [] _ _).
  - repeat split; [repeat constructor|discriminate|simpl; lia].
  - repeat constructor; simpl; first [discriminate|lia].
Defined.

(** ** Write identifiers *)

(** What the coroutines do to the transfer table, in the order of the lock. *)
Inductive xfer_event :=
  | Request (addr : Z) (data : list Z)   (* an attempt of [write] *)
  | Response (bid : Z).                  (* an accepted response *)

Definition xfer_step (xs : WrXfers) (ev : xfer_event) : result WrXfers :=
  match ev with
  | Request addr data =>
      Ok match alloc_tid addr data xs with Some (_, xs) => xs | None => xs end
  | Response bid => let! r := complete_tid bid xs in Ok r.2
  end.

Fixpoint xfer_run (evs : list xfer_event) (xs : WrXfers) : result WrXfers :=
  match evs with
  | [] => Ok xs
  | ev :: evs => let! xs := xfer_step xs ev in xfer_run evs xs
  end.

Lemma free_tid_spec xs k :
  match free_tid xs k with
  | Some t => exists x, (k <= t)%nat /\ xs !! (t - k)%nat = Some x /\ x_pending x = false
  | None => forall i x, xs !! i = Some x -> x_pending x = true
  end.
Proof.
  revert k. induction xs as [|x xs IH]; intros k; [done|]. cbn [free_tid].
  destruct (x_pending x) eqn:E.
  - specialize (IH (S k)). destruct (free_tid xs (S k)) as [t|].
    + destruct IH as (y & Hk & Hy & Hp). exists y. split; [lia|].
      replace (t - k)%nat with (S (t - S k)) by lia. done.
    + intros [|i] y Hy; [by injection Hy as <-|]. by eapply IH.
  - exists x. split; [lia|]. by rewrite Nat.sub_diag.
Qed.

Lemma alloc_tid_spec addr data xs t xs' :
  alloc_tid addr data xs = Some (t, xs') ->
  exists x, xs !! t = Some x /\ x_pending x = false
    /\ xs' = <[t := {| x_addr := Some addr; x_data := Some data; x_pending := true |}]> xs.
Proof.
  unfold alloc_tid. pose proof (free_tid_spec xs 0) as H. destruct (free_tid xs 0) as [t'|]; [|done].
  intros [= <- <-]. destruct H as (x & _ & Hx & Hp). rewrite Nat.sub_0_r in Hx. by exists x.
Qed.

Lemma xfer_step_length xs ev xs' : xfer_step xs ev = Ok xs' -> length xs' = length xs.
Proof.
  destruct ev as [a d|bid]; simpl.
  - intros [= <-]. destruct (alloc_tid a d xs) as [[t ys]|] eqn:E; [|done].
    apply alloc_tid_spec in E as (x & _ & _ & ->). by rewrite length_insert.
  - unfold complete_tid. destruct (bid <? 0); [by intros [= <-]|].
    destruct (xs !! Z.to_nat bid) as [x|]; [|by intros [= <-]].
    destruct (x_addr x); [|done]. intros [= <-]. by rewrite length_insert.
Qed.

(** A pending transfer is untouched until its response. *)
Lemma xfer_step_pending xs ev xs' t x :
  xfer_step xs ev = Ok xs' -> xs !! t = Some x -> x_pending x = true ->
  ev <> Response (Z.of_nat t) -> xs' !! t = Some x.
Proof.
  intros E Hx Hp Hne. destruct ev as [a d|bid]; simpl in E.
  - injection E as <-. destruct (alloc_tid a d xs) as [[t' ys]|] eqn:E; [|done].
    apply alloc_tid_spec in E as (y & Hy & Hyp & ->).
    rewrite list_lookup_insert_ne; [done|]. intros ->. congruence.
  - unfold complete_tid in E. destruct (Z.ltb_spec bid 0); [by injection E as <-|].
    destruct (xs !! Z.to_nat bid) as [y|]; [|by injection E as <-].
    destruct (x_addr y); [|done]. injection E as <-. simpl.
    rewrite list_lookup_insert_ne; [done|]. intros Ht. apply Hne. f_equal. lia.
Qed.

Lemma xfer_run_pending evs xs xs' t x :
  xfer_run evs xs = Ok xs' -> xs !! t = Some x -> x_pending x = true ->
  ~ In (Response (Z.of_nat t)) evs -> xs' !! t = Some x /\ length xs' = length xs.
Proof.
  revert xs. induction evs as [|ev evs IH]; intros xs E Hx Hp Hn; simpl in E.
  - by injection E as <-.
  - apply rbind_ok in E as (xs1 & E1 & E). simpl in Hn.
    destruct (IH xs1 E) as [H1 H2]; [|done|tauto|].
    + eapply xfer_step_pending; [done..|]. intros ->. tauto.
    + split; [done|]. by rewrite H2, (xfer_step_length _ _ _ E1).
Qed.

Lemma xfer_run_length evs xs xs' : xfer_run evs xs = Ok xs' -> length xs' = length xs.
Proof.
  revert xs. induction evs as [|ev evs IH]; intros xs E; simpl in E; [by injection E as <-|].
  apply rbind_ok in E as (xs1 & E1 & E). by rewrite (IH _ E), (xfer_step_length _ _ _ E1).
Qed.

(** C25: whatever the interleaving of write requests and responses, an
    identifier that was handed out is not handed out again before a response
    for it was accepted, the identifiers fit in [awid], the recorded address
    and data stay those of the request until then, and a request is refused
    only when every identifier is pending. *)
Theorem dma_tid_exclusive awid_len pre xs a d t xs1 mid xs2 :
  0 <= awid_len ->
  xfer_run pre (wr_xfers_init awid_len) = Ok xs -> alloc_tid a d xs = Some (t, xs1) ->
  xfer_run mid xs1 = Ok xs2 -> ~ In (Response (Z.of_nat t)) mid ->
  xs2 !! t = Some {| x_addr := Some a; x_data := Some d; x_pending := true |}
  /\ 0 <= Z.of_nat t < 2 ^ awid_len
  /\ forall a' d', match alloc_tid a' d' xs2 with
     | Some (t', _) => t' <> t
     | None => forall i x, xs2 !! i = Some x -> x_pending x = true
     end.
Proof.
  intros Hk Hpre Ha Hmid Hn. pose proof (alloc_tid_spec _ _ _ _ _ Ha) as (x & Hx & Hp & ->).
  pose proof (lookup_lt_Some _ _ _ Hx) as Hlt.
  destruct (xfer_run_pending mid _ xs2 t {| x_addr := Some a; x_data := Some d; x_pending := true |} Hmid)
    as [H1 H2]; [by apply list_lookup_insert_eq|done|done|].
  split; [done|]. split.
  - rewrite (xfer_run_length _ _ _ Hpre) in Hlt. unfold wr_xfers_init in Hlt.
    rewrite length_replicate, Z.shiftl_1_l in Hlt. lia.
  - intros a' d'. destruct (alloc_tid a' d' xs2) as [[t' xs3]|] eqn:E.
    + apply alloc_tid_spec in E as (y & Hy & Hyp & _). intros ->. rewrite H1 in Hy.
      by injection Hy as <-.
    + unfold alloc_tid in E. pose proof (free_tid_spec xs2 0) as Hf.
      by destruct (free_tid xs2 0).
Qed.

Lemma dma_tid_exclusive_witness :
  let x a p := {| x_addr := Some a; x_data := Some [1]; x_pending := p |} in
  [x 16 true; x 32 true] !! 0%nat = Some (x 16 true) /\ 0 <= 0 < 2 ^ 1
  /\ forall a' d', match alloc_tid a' d' [x 16 true; x 32 true] with
     | Some (t', _) => t' <> 0%nat
     | None => forall i y, [x 16 true; x 32 true] !! i = Some y -> x_pending y = true
     end.
Proof.
  refine (dma_tid_exclusive 1 [Request 8 [1]; Response 0] _ 16 [1] 0 _ [Request 32 [1]] _ _ _ _ _ _).
  - lia.
  - vm_compute. reflexivity.
  - vm_compute. reflexivity.
  - vm_compute. reflexivity.
  - simpl. intros [H|[]]. discriminate.
Defined.

(** ** The emulated memories *)

(** The read data the responder drove, with the port. *)
Fixpoint read_answers (acts : list (action Item)) : list (string * Z) :=
  match acts with
  | [] => []
  | ADrive s v :: acts =>
      if str_in s ["dccm_dma_rdata"; "iccm_dma_rdata"] then (s, v) :: read_answers acts
      else read_answers acts
  | _ :: acts => read_answers acts
  end.

Lemma read_answers_app a b : read_answers (a ++ b) = read_answers a ++ read_answers b.
Proof. induction a as [|[s v| |] a IH]; simpl; [done| |done..]. rewrite IH. by destruct (_ || _). Qed.

Definition ram_upd (a v : Z) (m : Z -> Z) : Z -> Z := fun x => if x =? a then v else m x.

Section Ram.
Variables (iccm_base iccm_size dccm_base dccm_size : Z).

(** Two total memories, each answering reads with the last value written; a
    request occupies its clock edge and the next one. *)
Fixpoint ram_answers (skip : bool) (es : list env) (ic dc : Z -> Z) : list (string * Z) :=
  match es with
  | [] => []
  | e :: es =>
      if skip then ram_answers false es ic dc
      else if truthy (e "dma_dccm_req") then
        let a := e "dma_mem_addr" - dccm_base in
        if truthy (e "dma_mem_write") then ram_answers true es ic (ram_upd a (e "dma_mem_wdata") dc)
        else ("dccm_dma_rdata", dc a) :: ram_answers true es ic dc
      else if truthy (e "dma_iccm_req") then
        let a := e "dma_mem_addr" - iccm_base in
        if truthy (e "dma_mem_write") then ram_answers true es (ram_upd a (e "dma_mem_wdata") ic) dc
        else ("iccm_dma_rdata", ic a) :: ram_answers true es ic dc
      else ram_answers false es ic dc
  end.

(** Requests stay within the memory they address. *)
Definition request_in_range (e : env) : Prop :=
  if truthy (e "dma_dccm_req") then 0 <= e "dma_mem_addr" - dccm_base < dccm_size
  else if truthy (e "dma_iccm_req") then 0 <= e "dma_mem_addr" - iccm_base < iccm_size
  else True.

Lemma ram_answers_ext skip es ic ic' dc dc' :
  (forall a, ic a = ic' a) -> (forall a, dc a = dc' a) ->
  ram_answers skip es ic dc = ram_answers skip es ic' dc'.
Proof.
  revert skip ic ic' dc dc'. induction es as [|e es IH]; intros skip ic ic' dc dc' Hi Hd; [done|].
  cbn [ram_answers]. destruct skip; [by apply IH|].
  destruct (truthy (e "dma_dccm_req")); [|destruct (truthy (e "dma_iccm_req")); [|by apply IH]];
    destruct (truthy (e "dma_mem_write")); rewrite ?Hi, ?Hd;
    try apply (f_equal (cons _)); apply IH; try done;
    intros a; unfold ram_upd; by destruct (a =? _).
Qed.

(** A total memory that agrees with the stored values. *)
Definition agrees (m : gmap Z Z) (f : Z -> Z) : Prop := forall a v, m !! a = Some v -> f a = v.

(** The part of a total memory not stored yet. *)
Definition overlay (m : gmap Z Z) (f : Z -> Z) : Z -> Z :=
  fun a => match m !! a with Some v => v | None => f a end.

Lemma agrees_overlay m f : agrees m (overlay m f).
Proof. intros a v H. unfold overlay. by rewrite H. Qed.

Lemma overlay_write m f a v :
  agrees (<[a := v]> m) f -> forall x, ram_upd a v (overlay m f) x = f x.
Proof.
  intros H x. unfold ram_upd, overlay. destruct (Z.eqb_spec x a) as [->|Hne].
  - symmetry. apply H, lookup_insert_eq.
  - destruct (m !! x) as [w|] eqn:E; [|done]. symmetry. apply H. by rewrite lookup_insert_ne.
Qed.

Lemma mem_access_run pfx e addr tag r ecc m cur tr :
  exists m' acts, run (mem_access pfx e addr tag r ecc m) cur tr = (acts, Done m' cur tr)
    /\ (if truthy (e "dma_mem_write") then acts = [] /\ m' = <[addr := e "dma_mem_wdata"]> m
        else exists v, m' !! addr = Some v /\ m ⊆ m'
             /\ acts = [ADrive (pfx ++ "_rdata") v; ADrive (pfx ++ "_rtag") tag;
                        ADrive (pfx ++ "_rvalid") 1; ADrive (pfx ++ "_ecc_error") (Z.b2z ecc)]).
Proof.
  unfold mem_access. destruct (truthy (e "dma_mem_write")); [by eexists _, _|].
  cbn [pbind drive run]. eexists _, _. split; [reflexivity|].
  destruct (m !! addr) as [v|] eqn:E.
  - exists v. by rewrite E.
  - eexists. rewrite lookup_insert_eq. split; [done|]. split; [by apply insert_subseteq|done].
Qed.

(** The end of an access: one more edge lowers [rvalid]. *)
Lemma access_end (pfx valid : string) e addr tag r ecc m (K : gmap Z Z -> nat * CoreMem) cur es :
  let p := d <- mem_access pfx e addr tag r ecc m ;;
           _ <- await (RisingEdge "clk") ;; drive valid 0 ;;; Ret (K d) in
  exists m' acts, (if truthy (e "dma_mem_write") then acts = [] /\ m' = <[addr := e "dma_mem_wdata"]> m
        else exists v, m' !! addr = Some v /\ m ⊆ m'
             /\ acts = [ADrive (pfx ++ "_rdata") v; ADrive (pfx ++ "_rtag") tag;
                        ADrive (pfx ++ "_rvalid") 1; ADrive (pfx ++ "_ecc_error") (Z.b2z ecc)])
    /\ run p cur (Sample (RisingEdge "clk") <$> es) =
       match es with
       | [] => (acts, Suspended)
       | e' :: es => (acts ++ [ADrive valid 0], Done (K m') e' (Sample (RisingEdge "clk") <$> es))
       end.
Proof.
  intros p. destruct (mem_access_run pfx e addr tag r ecc m cur (Sample (RisingEdge "clk") <$> es))
    as (m' & acts & E & H). exists m', acts. split; [done|]. subst p. rewrite run_pbind, E.
  destruct es as [|e' es]; [cbn; by rewrite app_nil_r|]. rewrite fmap_cons. cbn [pbind await].
  by rewrite run_await_hit.
Qed.

Lemma agrees_read (m m' : gmap Z Z) f addr v :
  m' !! addr = Some v -> m ⊆ m' -> agrees m' f -> agrees m f /\ f addr = v.
Proof.
  intros Hv Hs Ha. split; [|by apply Ha]. intros a w H. apply Ha. by eapply lookup_weaken.
Qed.

Lemma responder_run rnd i m cur e tr :
  request_in_range e ->
  run (responder_body iccm_base iccm_size dccm_base dccm_size rnd (i, m)) cur
    (Sample (RisingEdge "clk") e :: tr)
  = if truthy (e "dma_dccm_req") then
      run (d <- mem_access "dccm_dma" e (e "dma_mem_addr" - dccm_base) (e "dma_mem_tag")
             (rnd i).1 (rnd i).2 (dccm_data m) ;;
           _ <- await (RisingEdge "clk") ;; drive "dccm_dma_rvalid" 0 ;;;
           Ret (S i, {| iccm_data := iccm_data m; dccm_data := d |})) e tr
    else if truthy (e "dma_iccm_req") then
      run (d <- mem_access "iccm_dma" e (e "dma_mem_addr" - iccm_base) (e "dma_mem_tag")
             (rnd i).1 (rnd i).2 (iccm_data m) ;;
           _ <- await (RisingEdge "clk") ;; drive "iccm_dma_rvalid" 0 ;;;
           Ret (S i, {| iccm_data := d; dccm_data := dccm_data m |})) e tr
    else ([], Done (S i, m) e tr).
Proof.
  intros He. unfold request_in_range in He. unfold responder_body. cbn [pbind await].
  rewrite run_await_hit. cbn [pbind].
  destruct (truthy (e "dma_dccm_req")); [|destruct (truthy (e "dma_iccm_req")); [|done]];
    rewrite (proj2 (andb_true_iff _ _)) by (split; [apply Z.leb_le|apply Z.ltb_lt]; lia); done.
Qed.

(** The responder answers [es] like memories that agree with its state. *)
Definition ram_like (n : nat) (rnd : nat -> Z * bool) : Prop :=
  forall es i m cur, (length es < n)%nat -> Forall request_in_range es ->
  exists ic dc, agrees (iccm_data m) ic /\ agrees (dccm_data m) dc /\
    read_answers (run_forever n (responder_body iccm_base iccm_size dccm_base dccm_size rnd)
      (i, m) cur (Sample (RisingEdge "clk") <$> es)).1 = ram_answers false es ic dc.

Lemma some_agree m : exists ic dc, agrees (iccm_data m) ic /\ agrees (dccm_data m) dc.
Proof.
  exists (overlay (iccm_data m) (fun _ => 0)), (overlay (dccm_data m) (fun _ => 0)).
  split; apply agrees_overlay.
Qed.

(** The answers after the first edge of an access. *)
Lemma rest_answers n rnd valid acts j mm es :
  str_in valid ["dccm_dma_rdata"; "iccm_dma_rdata"] = false ->
  ram_like n rnd -> Forall request_in_range es -> (length es <= n)%nat ->
  exists ic dc, agrees (iccm_data mm) ic /\ agrees (dccm_data mm) dc /\
  read_answers
    (match
       match es with
       | [] => (acts, Suspended)
       | e' :: es => (acts ++ [ADrive valid 0], Done (j, mm) e' (Sample (RisingEdge "clk") <$> es))
       end
     with
     | (acts, Done st cur tr) =>
         let '(acts', o) := run_forever n (responder_body iccm_base iccm_size dccm_base dccm_size rnd)
                              st cur tr in (acts ++ acts', o)
     | (acts, o) => (acts, o)
     end).1
  = read_answers acts ++ ram_answers true es ic dc.
Proof.
  intros Hv IH Hr Hl. destruct es as [|e' es].
  - destruct (some_agree mm) as (ic & dc & H1 & H2). exists ic, dc. by rewrite app_nil_r.
  - inversion_clear Hr as [|?? _ Hr']. simpl in Hl.
    destruct (IH es j mm e') as (ic & dc & H1 & H2 & E); [lia|done|].
    exists ic, dc. split; [done|]. split; [done|].
    destruct (run_forever _ _ _ _ _) as [acts' o]. cbn [fst] in *.
    rewrite !read_answers_app, E. cbn [read_answers ram_answers]. rewrite Hv.
    by rewrite app_nil_r.
Qed.

(** Over any run of requests in range, the responder is a pair of
    random-access memories: there is an initial content of ICCM and DCCM such
    that every read is answered with the last value written to its address, or
    the initial one. *)
Theorem dma_memories_ram rnd es i cur :
  Forall request_in_range es ->
  exists ic dc,
    read_answers (run_forever (S (length es)) (responder_body iccm_base iccm_size dccm_base dccm_size rnd)
      (i, {| iccm_data := ∅; dccm_data := ∅ |}) cur (Sample (RisingEdge "clk") <$> es)).1
    = ram_answers false es ic dc.
Proof.
  intros Hr.
  enough (forall n, ram_like n rnd) as H.
  { destruct (H (S (length es)) es i {| iccm_data := ∅; dccm_data := ∅ |} cur) as (ic & dc & _ & _ & E);
      [lia|done|by exists ic, dc]. }
  clear. intros n. induction n as [|n IH]; intros es i m cur Hn Hr; [lia|].
  destruct es as [|e es].
  { destruct (some_agree m) as (ic & dc & H1 & H2). by exists ic, dc. }
  inversion_clear Hr as [|?? He Hr']. rewrite fmap_cons. cbn [run_forever].
  rewrite responder_run by done. cbn [ram_answers]. simpl in Hn. clear He.
  destruct (truthy (e "dma_dccm_req")); [|destruct (truthy (e "dma_iccm_req"))].
  - destruct (access_end "dccm_dma" "dccm_dma_rvalid" e (e "dma_mem_addr" - dccm_base)
      (e "dma_mem_tag") (rnd i).1 (rnd i).2 (dccm_data m)
      (fun d => (S i, {| iccm_data := iccm_data m; dccm_data := d |})) e es) as (m' & acts & Ha & Erun).
    cbv zeta in Erun. rewrite Erun. clear Erun.
    destruct (rest_answers n rnd "dccm_dma_rvalid" acts (S i)
      {| iccm_data := iccm_data m; dccm_data := m' |} es) as (ic & dc & H1 & H2 & ->); [done..|lia|].
    cbn [iccm_data dccm_data] in *. destruct (truthy (e "dma_mem_write")).
    + destruct Ha as [-> ->]. exists ic, (overlay (dccm_data m) dc). split; [done|].
      split; [apply agrees_overlay|]. cbn [read_answers app]. apply ram_answers_ext; [done|].
      intros a. symmetry. by apply overlay_write.
    + destruct Ha as (v & Hv & Hs & ->). destruct (agrees_read _ _ dc _ _ Hv Hs H2) as [H3 H4].
      exists ic, dc. split; [done|]. split; [done|]. by rewrite H4.
  - destruct (access_end "iccm_dma" "iccm_dma_rvalid" e (e "dma_mem_addr" - iccm_base)
      (e "dma_mem_tag") (rnd i).1 (rnd i).2 (iccm_data m)
      (fun d => (S i, {| iccm_data := d; dccm_data := dccm_data m |})) e es) as (m' & acts & Ha & Erun).
    cbv zeta in Erun. rewrite Erun. clear Erun.
    destruct (rest_answers n rnd "iccm_dma_rvalid" acts (S i)
      {| iccm_data := m'; dccm_data := dccm_data m |} es) as (ic & dc & H1 & H2 & ->); [done..|lia|].
    cbn [iccm_data dccm_data] in *. destruct (truthy (e "dma_mem_write")).
    + destruct Ha as [-> ->]. exists (overlay (iccm_data m) ic), dc. split; [apply agrees_overlay|].
      split; [done|]. cbn [read_answers app]. apply ram_answers_ext; [|done].
      intros a. symmetry. by apply overlay_write.
    + destruct Ha as (v & Hv & Hs & ->). destruct (agrees_read _ _ ic _ _ Hv Hs H1) as [H3 H4].
      exists ic, dc. split; [done|]. split; [done|]. by rewrite H4.
  - destruct (IH es (S i) m e) as (ic & dc & H1 & H2 & E); [lia|done|].
    exists ic, dc. split; [done|]. split; [done|].
    by destruct (run_forever _ _ _ _ _).
Qed.
End Ram.

Lemma dma_memories_ram_witness :
  let wr := sig_env [("dma_dccm_req", 1); ("dma_mem_addr", 0x2004); ("dma_mem_write", 1);
                     ("dma_mem_wdata", 9)] in
  let rd := sig_env [("dma_dccm_req", 1); ("dma_mem_addr", 0x2004)] in
  exists ic dc,
    read_answers (run_forever 5 (responder_body 0x1000 0x100 0x2000 0x100 (fun _ => (0, false)))
      (0%nat, {| iccm_data := ∅; dccm_data := ∅ |}) (sig_env [])
      (Sample (RisingEdge "clk") <$> [wr; sig_env []; rd; sig_env []])).1
    = ram_answers 0x1000 0x2000 false [wr; sig_env []; rd; sig_env []] ic dc.
Proof.
  apply (dma_memories_ram 0x1000 0x100 0x2000 0x100 (fun _ => (0, false))).
  do 4 (constructor; [unfold request_in_range, truthy; cbn -[Z.le Z.lt Z.sub]; first [exact I|lia]|]). constructor.
Defined.
