(* ===== verification/DmaDrivers.v ===== *)
(** * The drivers of the DMA bench: verification/block/dma/testbench.py

    The two drivers take items from their sequencers and call the bus functional
    models of Dma.v; the debug driver writes the answers into the items.  The
    run phases of the functional models start the tasks of Dma.v. *)

From S2P Require Import Prelude Utils Cocotb Axi Dma.
From stdpp Require Import base list strings.
From Stdlib Require Import ZArith Lia.

#[local] Open Scope string_scope.
#[local] Open Scope list_scope.
#[local] Open Scope Z_scope.

(** What a sequencer hands out; [OtherItem] is an item of any other class. *)
Inductive Request := WriteRequest (it : BusWriteItem) | ReadRequest (it : BusReadItem) | OtherItem.

(** One item of [Axi4LiteSubordinateDriver.run_phase], with the identifier that
    the manager allocates for a write. *)
Definition Axi4LiteSubordinateDriver_item (dwidth swidth : Z) (busy_timeout fuel : nat) (awid : Z)
    (it : Request) : proc Item unit :=
  match it with
  | WriteRequest it => Axi4LiteBFM_write dwidth swidth busy_timeout awid (w_addr it) (w_data it)
  | ReadRequest it => _ <- Axi4LiteBFM_read dwidth busy_timeout fuel (r_addr it) ;; Ret tt
  | OtherItem => throw RuntimeError
  end.

(** One item of [DebugInterfaceDriver.run_phase]: the item with its answer. *)
Definition DebugInterfaceDriver_item (busy_timeout : nat) (it : Request) : proc Item Request :=
  match it with
  | WriteRequest it =>
      resp <- DebugInterfaceBFM_write busy_timeout (w_addr it) (w_data it) ;;
      Ret (WriteRequest {| w_addr := w_addr it; w_data := w_data it; w_resp := Some resp |})
  | ReadRequest it =>
      r <- DebugInterfaceBFM_read busy_timeout (r_addr it) ;;
      Ret (ReadRequest {| r_addr := r_addr it; r_data := Some r.1; r_resp := Some r.2 |})
  | OtherItem => throw RuntimeError
  end.

Fixpoint DebugInterfaceDriver_run_phase (busy_timeout : nat) (items : list Request) :
    proc Item (list Request) :=
  match items with
  | [] => Ret []
  | it :: items =>
      it <- DebugInterfaceDriver_item busy_timeout it ;;
      its <- DebugInterfaceDriver_run_phase busy_timeout items ;;
      Ret (it :: its)
  end.

(** [DebugInterfaceBFM.run_phase], before its loop and one round of it. *)
Definition DebugInterfaceBFM_start : proc Item unit :=
  drive "dbg_cmd_type" 2 ;;; drive "dbg_dma_bubble" 1.

(** [CoreMemoryBFM.run_phase], before its tasks are started. *)
Definition CoreMemoryBFM_start : proc Item unit :=
  drive "iccm_ready" 1 ;;; drive "dccm_ready" 1.

(** * Theorems *)

Definition clk_edges (es : list env) : list sample := Sample (RisingEdge "clk") <$> es.

(** A wait over edges without, and then one with the signal. *)
Lemma dbg_wait_run sig n (idle : list env) e cur tr :
  Forall (fun e => e sig = 0) idle -> e sig <> 0 -> (length idle < n)%nat ->
  run (dbg_wait sig n) cur (clk_edges (idle ++ [e]) ++ tr) = ([], Done tt e tr).
Proof.
  intros Hidle He. unfold dbg_wait. revert n cur.
  induction Hidle as [|d idle Hd _ IH]; intros [|n] cur Hn; simpl in Hn; try lia.
  - change (clk_edges ([] ++ [e]) ++ tr) with (Sample (RisingEdge "clk") e :: tr).
    cbn [wait_for await pbind]. rewrite run_await_hit.
    by rewrite (proj2 (Z.eqb_neq _ _) He).
  - change (clk_edges ((d :: idle) ++ [e]) ++ tr)
      with (Sample (RisingEdge "clk") d :: (clk_edges (idle ++ [e]) ++ tr)).
    cbn [wait_for await pbind]. rewrite run_await_hit, Hd. apply IH. lia.
Qed.

(** The edges of one access: the unit becomes ready, takes the command, and is
    done. *)
Record access := { a_idle : list env; a_ready : env; a_cmd : env; a_busy : list env; a_done : env }.

Definition access_ok (busy_timeout : nat) (a : access) : Prop :=
  Forall (fun e => e "dma_dbg_ready" = 0) (a_idle a) /\ a_ready a "dma_dbg_ready" <> 0 /\
  (length (a_idle a) < busy_timeout)%nat /\
  Forall (fun e => e "dma_dbg_cmd_done" = 0) (a_busy a) /\ a_done a "dma_dbg_cmd_done" <> 0 /\
  (length (a_busy a) < if truthy (a_cmd a "dma_dbg_ready") then dbg_wait_default else busy_timeout)%nat.

Definition access_edges (a : access) : list env :=
  a_idle a ++ [a_ready a] ++ [a_cmd a] ++ a_busy a ++ [a_done a].

(** The item as the driver completes it. *)
Definition answered (it : Request) (a : access) : result Request :=
  match it with
  | WriteRequest it =>
      let! _ := struct_unpack 4 (w_data it) in
      Ok (WriteRequest {| w_addr := w_addr it; w_data := w_data it;
                          w_resp := Some (a_done a "dma_dbg_cmd_fail") |})
  | ReadRequest it =>
      let! data := struct_pack 4 (a_done a "dma_dbg_rddata") in
      Ok (ReadRequest {| r_addr := r_addr it; r_data := Some data;
                         r_resp := Some (a_done a "dma_dbg_cmd_fail") |})
  | OtherItem => Raise RuntimeError
  end.

(** What the driver puts on the port for an item. *)
Definition command (it : Request) : list (string * Z) :=
  match it with
  | WriteRequest it =>
      [("dbg_cmd_valid", 1); ("dbg_cmd_write", 1); ("dbg_cmd_size", 2); ("dbg_cmd_addr", w_addr it);
       ("dbg_cmd_wrdata", match struct_unpack 4 (w_data it) with Ok v => v | _ => 0 end);
       ("dbg_cmd_valid", 0)]
  | ReadRequest it =>
      [("dbg_cmd_valid", 1); ("dbg_cmd_write", 0); ("dbg_cmd_size", 2); ("dbg_cmd_addr", r_addr it);
       ("dbg_cmd_valid", 0)]
  | OtherItem => []
  end.

Definition drives (l : list (string * Z)) : list (action Item) := map (fun p => ADrive p.1 p.2) l.

Lemma clk_edges_app es es' : clk_edges (es ++ es') = clk_edges es ++ clk_edges es'.
Proof. apply fmap_app. Qed.

Lemma run_drive {A} s v (k : proc Item A) cur tr :
  run (drive s v ;;; k) cur tr = (ADrive s v :: (run k cur tr).1, (run k cur tr).2).
Proof. cbn [drive pbind run]. by destruct (run k cur tr). Qed.

Lemma run_edge {A} (k : env -> proc Item A) cur e tr :
  run (x <- await (RisingEdge "clk") ;; k x) cur (Sample (RisingEdge "clk") e :: tr) = run (k e) e tr.
Proof. cbn [await pbind]. apply run_await_hit. Qed.

Lemma run_after {A B} (m : proc Item A) (k : A -> proc Item B) cur tr a e tr' :
  run m cur tr = ([], Done a e tr') -> run (x <- m ;; k x) cur tr = run (k a) e tr'.
Proof. intros Hm. rewrite run_pbind, Hm. by destruct (run (k a) e tr'). Qed.

(** The wait for the end of a command. *)
Lemma dbg_done_run bt a cur tr :
  access_ok bt a ->
  run (dbg_wait_done bt (a_cmd a)) cur (clk_edges (a_busy a ++ [a_done a]) ++ tr)
  = ([], Done tt (a_done a) tr).
Proof.
  intros (_ & _ & _ & Hbusy & Hdone & Hlen). unfold dbg_wait_done.
  destruct (truthy (a_cmd a "dma_dbg_ready")); by apply dbg_wait_run.
Qed.

Lemma debug_item_run bt it a it' cur tr :
  access_ok bt a -> answered it a = Ok it' ->
  run (DebugInterfaceDriver_item bt it) cur (clk_edges (access_edges a) ++ tr)
  = (drives (command it), Done it' (a_done a) tr).
Proof.
  intros Ha Hit. pose proof Ha as (Hidle & Hrdy & Hlen & _).
  unfold access_edges. rewrite (app_assoc (a_idle a)), clk_edges_app, <- app_assoc.
  rewrite (clk_edges_app [a_cmd a]), <- app_assoc.
  change (clk_edges [a_cmd a]) with [Sample (RisingEdge "clk") (a_cmd a)].
  pose proof (fun s => dbg_wait_run "dma_dbg_ready" bt (a_idle a) (a_ready a) cur s Hidle Hrdy Hlen) as Hwait.
  destruct it as [it|it|]; cbn [DebugInterfaceDriver_item answered command] in *; [| |done].
  - destruct (struct_unpack 4 (w_data it)) as [v|] eqn:Ev; [|done]. injection Hit as <-.
    unfold DebugInterfaceBFM_write. rewrite run_pbind, (run_after _ _ _ _ _ _ _ (Hwait _)).
    rewrite !run_drive, Ev. cbn [lift pbind]. rewrite run_drive.
    cbn [app]. rewrite run_edge, run_drive, (run_after _ _ _ _ _ _ _ (dbg_done_run bt a _ tr Ha)).
    done.
  - destruct (struct_pack 4 (a_done a "dma_dbg_rddata")) as [data|] eqn:Ed; [|done].
    injection Hit as <-.
    unfold DebugInterfaceBFM_read. rewrite run_pbind, (run_after _ _ _ _ _ _ _ (Hwait _)).
    rewrite !run_drive. cbn [app].
    rewrite run_edge, run_drive, (run_after _ _ _ _ _ _ _ (dbg_done_run bt a _ tr Ha)).
    cbn [now pbind run]. rewrite Ed. done.
Qed.

(** Over a unit that accepts each command and finishes it within the
    time-outs, the debug driver drives exactly the commands of the items, one
    after the other, and completes every item with the data and the status that
    the unit shows at the edge at which it is done. *)
Theorem debug_driver_answers bt items accs items' cur :
  Forall (access_ok bt) accs ->
  Forall2 (fun ia it' => answered ia.1 ia.2 = Ok it') (zip items accs) items' ->
  length items = length accs ->
  exists e, run (DebugInterfaceDriver_run_phase bt items) cur (clk_edges (concat (map access_edges accs)))
    = (drives (concat (map command items)), Done items' e []).
Proof.
  intros Ha. revert items items' cur.
  induction Ha as [|a accs Ha _ IH]; intros [|it items] items' cur Hans Hlen; try done.
  { simpl in Hans. apply Forall2_nil_inv_l in Hans as ->. by exists cur. }
  simpl in Hans. apply Forall2_cons_inv_l in Hans as (it' & its' & Hit & Hans & ->).
  destruct (IH items its' (a_done a) Hans) as (e & He); [simpl in Hlen; lia|]. exists e.
  cbn [map concat DebugInterfaceDriver_run_phase]. rewrite clk_edges_app, run_pbind.
  rewrite (debug_item_run bt it a it') by done. rewrite run_pbind, He. simpl.
  unfold drives. by rewrite map_app, app_nil_r.
Qed.

Lemma debug_driver_answers_witness :
  let edge ready done := sig_env [("dma_dbg_ready", ready); ("dma_dbg_cmd_done", done); ("dma_dbg_rddata", 258)] in
  exists e, run (DebugInterfaceDriver_run_phase 10 [ReadRequest {| r_addr := 64; r_data := None; r_resp := None |}])
      (edge 0 0) (clk_edges [edge 0 0; edge 1 0; edge 0 0; edge 0 0; edge 1 1])
    = (drives [("dbg_cmd_valid", 1); ("dbg_cmd_write", 0); ("dbg_cmd_size", 2); ("dbg_cmd_addr", 64);
               ("dbg_cmd_valid", 0)],
       Done [ReadRequest {| r_addr := 64; r_data := Some [2; 1; 0; 0]; r_resp := Some 0 |}] e []).
Proof.
  intros edge.
  refine (debug_driver_answers 10 [ReadRequest {| r_addr := 64; r_data := None; r_resp := None |}]
    [{| a_idle := [edge 0 0]; a_ready := edge 1 0; a_cmd := edge 0 0; a_busy := [edge 0 0]; a_done := edge 1 1 |}]
    _ (edge 0 0) _ _ eq_refl).
  - repeat constructor; vm_compute; congruence.
  - repeat constructor.
Defined.
