(* ===== verification/DmaScoreboards.v ===== *)
(** * DMA scoreboards and sequences: verification/block/dma/scoreboards.py and sequences.py *)

From S2P Require Import Prelude Scoreboard Cocotb Utils Axi Dma.
From stdpp Require Import base gmap list strings.
From Stdlib Require Import ZArith Lia.

#[local] Open Scope string_scope.
#[local] Open Scope list_scope.
#[local] Open Scope Z_scope.

(** The memory map of the configuration. *)
Record Config := {
  iccm_base : Z;
  iccm_size : Z;
  dccm_base : Z;
  dccm_size : Z;
}.

Definition is_iccm (c : Config) (addr : Z) : bool :=
  (iccm_base c <=? addr) && (addr <? iccm_base c + iccm_size c).

Definition is_dccm (c : Config) (addr : Z) : bool :=
  (dccm_base c <=? addr) && (addr <? dccm_base c + dccm_size c).

(** A [defaultdict(lambda: 0)] keyed by address and data. *)
Abbreviation Counts := (gmap (Z * Z) Z).

Definition bump (key : Z * Z) (d : Counts) : Counts := <[key := default 0 (d !! key) + 1]> d.

(** The state of [check_phase]; [data] is the local variable, unbound at first. *)
Record SbState := {
  passed : option bool;
  data : option Z;
  iccm : Counts;
  dccm : Counts;
}.

Definition SbState_init (passed : option bool) : SbState :=
  {| passed := passed; data := None; iccm := ∅; dccm := ∅ |}.

Definition set_passed (p : option bool) (st : SbState) : SbState :=
  {| passed := p; data := data st; iccm := iccm st; dccm := dccm st |}.

Definition set_data (d : Z) (st : SbState) : SbState :=
  {| passed := passed st; data := Some d; iccm := iccm st; dccm := dccm st |}.

Definition bump_iccm (key : Z * Z) (st : SbState) : SbState :=
  {| passed := passed st; data := data st; iccm := bump key (iccm st); dccm := dccm st |}.

Definition bump_dccm (key : Z * Z) (st : SbState) : SbState :=
  {| passed := passed st; data := data st; iccm := iccm st; dccm := bump key (dccm st) |}.

(** Reading the local [data]. *)
Definition get_data (st : SbState) : result Z :=
  match data st with Some d => Ok d | None => Raise UnboundLocalError end.

(** "Check and decode its address" *)
Definition count_access (c : Config) (addr data : Z) (st : SbState) : SbState :=
  if is_iccm c addr then bump_iccm (addr - iccm_base c, data) st
  else if is_dccm c addr then bump_dccm (addr - dccm_base c, data) st
  else set_passed (Some false) st.

(** "Mask out unused bits" *)
Definition mask_size (size data : Z) (st : SbState) : SbState :=
  if size =? 0 then set_data (Z.land data 0xFF) st
  else if size =? 1 then set_data (Z.land data 0xFFFF) st
  else if size =? 2 then set_data (Z.land data 0xFFFFFFFF) st
  else if 3 <=? size then set_data data st
  else set_passed (Some false) st.

(** [struct.unpack("<Q", item.data)[0]]; [None] is not a byte string. *)
Definition unpack_Q (data : option (list Z)) : result Z :=
  match data with Some bs => struct_unpack 8 bs | None => Raise TypeError end.

(** ** ReadScoreboard *)

Definition ReadScoreboard_item (c : Config) (st : SbState) (item : Item) : result SbState :=
  let st := set_passed (set_initial (passed st)) st in
  match item with
  | BusRead it =>
      let! d := unpack_Q (r_data it) in
      Ok (count_access c (r_addr it) d (set_data d st))
  | DebugRead it => Ok (count_access c (d_addr it) (d_data it) (set_data (d_data it) st))
  | MemRead it =>
      let st := mask_size (m_size it) (m_data it) st in
      if String.eqb (mem it) "ICCM" then
        let! d := get_data st in Ok (bump_iccm (m_addr it, d) st)
      else if String.eqb (mem it) "DCCM" then
        let! d := get_data st in Ok (bump_dccm (m_addr it, d) st)
      else Ok (set_passed (Some false) st)
  | _ => Ok st
  end.

Fixpoint sb_loop (step : SbState -> Item -> result SbState) (items : list Item) (st : SbState)
  : result SbState :=
  match items with
  | [] => Ok st
  | it :: items => let! st := step st it in sb_loop step items st
  end.

(** "Check if there is an even number": [count & 1] for each entry. *)
Definition has_odd (d : Counts) : bool :=
  existsb (fun '(_, count) => truthy (Z.land count 1)) (map_to_list d).

Definition parity_check (st : SbState) : option bool :=
  if has_odd (iccm st) || has_odd (dccm st) then Some false else passed st.

Definition ReadScoreboard_check_phase (c : Config) (items : list Item) : result (option bool) :=
  let! st := sb_loop (ReadScoreboard_item c) items (SbState_init None) in Ok (parity_check st).

Definition ReadScoreboard_verdict c items : result unit :=
  rbind (ReadScoreboard_check_phase c items) final_phase.

(** ** WriteScoreboard *)

Definition WriteScoreboard_item (c : Config) (st : SbState) (item : Item) : result SbState :=
  let st := set_passed (set_initial (passed st)) st in
  match item with
  | BusWrite it =>
      let! d := unpack_Q (Some (w_data it)) in
      Ok (count_access c (w_addr it) d (set_data d st))
  | DebugWrite it =>
      let st := if truthy (d_fail it) then set_passed (Some false) st else st in
      Ok (if is_iccm c (d_addr it) || is_dccm c (d_addr it)
          then count_access c (d_addr it) (d_data it) (set_data (d_data it) st)
          else count_access c (d_addr it) (d_data it) st)
  | MemWrite it =>
      let st := mask_size (m_size it) (m_data it) st in
      if String.eqb (mem it) "ICCM" then
        let! _ := py_assert ((0 <=? m_addr it) && (m_addr it <? iccm_size c)) in
        let! d := get_data st in Ok (bump_iccm (m_addr it, d) st)
      else if String.eqb (mem it) "DCCM" then
        let! _ := py_assert ((0 <=? m_addr it) && (m_addr it <? dccm_size c)) in
        let! d := get_data st in Ok (bump_dccm (m_addr it, d) st)
      else Ok (set_passed (Some false) st)
  | _ => Ok st
  end.

Definition WriteScoreboard_check_phase (c : Config) (items : list Item) : result (option bool) :=
  let! st := sb_loop (WriteScoreboard_item c) items (SbState_init None) in Ok (parity_check st).

Definition WriteScoreboard_verdict c items : result unit :=
  rbind (WriteScoreboard_check_phase c items) final_phase.

(** ** AccessScoreboard *)

(** The messages of the failing branches read [item.address], which no item
    has: they raise before [self.passed = False] is reached. *)
Definition AccessScoreboard_item (item : Item) (passed : option bool) : result (option bool) :=
  let resp_ok r := match r with Some v => v =? 3 | None => false end in
  match item with
  | MemRead _ | MemWrite _ => Raise AttributeError
  | BusRead it => if resp_ok (r_resp it) then Ok passed else Raise AttributeError
  | BusWrite it => if resp_ok (w_resp it) then Ok passed else Raise AttributeError
  | DebugRead it | DebugWrite it => if truthy (d_fail it) then Ok passed else Raise AttributeError
  end.

Definition AccessScoreboard_check_phase (items : list Item) : result (option bool) :=
  check_items AccessScoreboard_item items None.

Definition AccessScoreboard_verdict items : result unit :=
  rbind (AccessScoreboard_check_phase items) final_phase.

(** ** Sequences *)

(** A request of a sequence, before the driver completes it. *)
Inductive SeqItem :=
  | SeqWrite (addr : Z) (data : list Z)
  | SeqRead (addr : Z).

(** [addr = mem_base + randrange(0, mem_size); addr = (addr // align) * align] *)
Definition random_addr (mem_base mem_size align r : Z) : Z :=
  let addr := mem_base + randrange 0 mem_size r in (addr / align) * align.

(** The packed data of a write of [dwidth] bits. *)
Definition random_data (dwidth r : Z) : result (list Z) :=
  let! n := if dwidth =? 32 then Ok 4%nat else if dwidth =? 64 then Ok 8%nat
            else Raise AssertionError in
  struct_pack n (randrange 0 (Z.shiftl 1 dwidth - 1) r).

(** The draws of one item: choice of memory, address, data, kind. *)
Record Draws := { r_mem : Z; r_addr_draw : Z; r_data_draw : Z; r_read : bool }.

Section Sequences.
Variables (c : Config) (align dwidth : Z).

Definition MemWriteSequence_item (base size : Z) (r : Draws) : result SeqItem :=
  let addr := random_addr base size align (r_addr_draw r) in
  let! bs := random_data dwidth (r_data_draw r) in Ok (SeqWrite addr bs).

Definition AnyMem (r : Draws) : result (Z * Z) :=
  Prelude.choice [(iccm_base c, iccm_size c); (dccm_base c, dccm_size c)] (r_mem r).

Definition AnyMemWriteSequence_item (r : Draws) : result SeqItem :=
  let! m := AnyMem r in MemWriteSequence_item m.1 m.2 r.

Definition MemReadSequence_item (base size : Z) (r : Draws) : result SeqItem :=
  Ok (SeqRead (random_addr base size align (r_addr_draw r))).

Definition AnyMemReadSequence_item (r : Draws) : result SeqItem :=
  let! m := AnyMem r in MemReadSequence_item m.1 m.2 r.

(** "Crude address randomizer": the draws are tried in turn. *)
Fixpoint invalid_addr (pic_base pic_size : Z) (draws : list Z) : option Z :=
  match draws with
  | [] => None
  | r :: draws =>
      let addr := (randrange 0 (Z.shiftl 1 32 - 1) r / align) * align in
      if is_iccm c addr then invalid_addr pic_base pic_size draws
      else if is_dccm c addr then invalid_addr pic_base pic_size draws
      else if (pic_base <=? addr) && (addr <? pic_base + pic_size)
      then invalid_addr pic_base pic_size draws
      else Some addr
  end.

Definition InvalidAddressSequence_item (pic_base pic_size : Z) (draws : list Z) (r : Draws)
  : option (result SeqItem) :=
  match invalid_addr pic_base pic_size draws with
  | None => None
  | Some addr =>
      Some (if r_read r then Ok (SeqRead addr)
            else let! bs := random_data dwidth (r_data_draw r) in Ok (SeqWrite addr bs))
  end.

(** [count] bursts of [burst] items; the gaps do not produce items. *)
Fixpoint sequence_items (item : Draws -> result SeqItem) (rnd : nat -> Draws) (i n : nat)
  : result (list SeqItem) :=
  match n with
  | O => Ok []
  | S n =>
      let! it := item (rnd i) in
      let! items := sequence_items item rnd (S i) n in
      Ok (it :: items)
  end.

Definition sequence_body (item : Draws -> result SeqItem) (rnd : nat -> Draws) (count burst : nat)
  : result (list SeqItem) := sequence_items item rnd 0 (count * burst).
End Sequences.

(** ** The parity check *)

Lemma has_odd_spec d : has_odd d = false <-> forall k, Z.even (default 0 (d !! k)) = true.
Proof.
  unfold has_odd. rewrite <- not_true_iff_false, existsb_exists.
  assert (Hodd : forall n, truthy (Z.land n 1) = negb (Z.even n)).
  { intros n. rewrite land_1. change (2 ^ 1) with 2. rewrite Zmod_even. by destruct (Z.even n). }
  split.
  - intros H k. destruct (d !! k) as [n|] eqn:E; [|done]. simpl.
    destruct (Z.even n) eqn:En; [done|]. exfalso. apply H. exists (k, n). split.
    + by apply list_elem_of_In, elem_of_map_to_list.
    + by rewrite Hodd, En.
  - intros H ([k n] & Hin & Hn). apply list_elem_of_In, elem_of_map_to_list in Hin.
    specialize (H k). rewrite Hin in H. simpl in H. by rewrite Hodd, H in Hn.
Qed.

Definition counts (b : bool) (st : SbState) : Counts := if b then iccm st else dccm st.

(** The number of items counted under a key of ICCM ([true]) or DCCM. *)
Definition occ (key : Item -> option (bool * (Z * Z))) (bk : bool * (Z * Z)) (items : list Item) : Z :=
  Z.of_nat (length (List.filter (fun it => bool_decide (key it = Some bk)) items)).

(** What a step does with a well-formed item: it keeps [passed] for a good item
    and clears it for another, and counts the item under its key. *)
Class StepSpec (step : SbState -> Item -> result SbState) (wf : Item -> Prop)
    (good : Item -> bool) (key : Item -> option (bool * (Z * Z))) := {
  step_spec st it : wf it -> exists st', step st it = Ok st'
    /\ passed st' = Some (default true (passed st) && good it)
    /\ forall b k, default 0 (counts b st' !! k)
         = default 0 (counts b st !! k) + Z.b2z (bool_decide (key it = Some (b, k)));
}.

Section Verdict.
Context {step wf good key} {SS : StepSpec step wf good key}.

Lemma sb_loop_spec items st :
  Forall wf items ->
  exists st', sb_loop step items st = Ok st'
    /\ (items = [] -> passed st' = passed st)
    /\ (items <> [] -> passed st' = Some (default true (passed st) && forallb good items))
    /\ forall b k, default 0 (counts b st' !! k) = default 0 (counts b st !! k) + occ key (b, k) items.
Proof.
  intros Hwf. revert st. induction Hwf as [|it items Hit Hwf IH]; intros st.
  - exists st. repeat split; try done. intros b k. unfold occ. simpl. lia.
  - destruct (step_spec st it Hit) as (st1 & E1 & Hp1 & Hc1). cbn [sb_loop]. rewrite E1. cbn [rbind].
    destruct (IH st1) as (st' & E & Hp0 & Hp & Hc). exists st'. split; [done|]. split; [done|].
    split.
    + intros _. destruct items as [|it' items].
      * rewrite Hp0, Hp1 by done. cbn [forallb]. by rewrite andb_true_r.
      * rewrite Hp, Hp1 by done. cbn [default]. f_equal. cbn [forallb]. symmetry. apply andb_assoc.
    + intros b k. rewrite Hc, Hc1. unfold occ. cbn [List.filter].
      destruct (bool_decide (key it = Some (b, k))); cbn [length Z.b2z]; lia.
Qed.

(** The verdict: some item was seen, all are good, and every count is even. *)
Lemma parity_verdict items :
  Forall wf items ->
  (rbind (let! st := sb_loop step items (SbState_init None) in Ok (parity_check st)) final_phase = Ok tt
   <-> items <> [] /\ forallb good items = true /\ forall bk, Z.even (occ key bk items) = true)
  /\ (~ (items <> [] /\ forallb good items = true /\ forall bk, Z.even (occ key bk items) = true) ->
      rbind (let! st := sb_loop step items (SbState_init None) in Ok (parity_check st)) final_phase
      = Raise AssertionError).
Proof.
  intros Hwf. destruct (sb_loop_spec items (SbState_init None) Hwf) as (st & E & Hp0 & Hp & Hc).
  rewrite E. cbn [rbind].
  assert (Hodd : has_odd (iccm st) || has_odd (dccm st) = false
                 <-> forall bk, Z.even (occ key bk items) = true).
  { rewrite orb_false_iff, !has_odd_spec. split.
    - intros [Hi Hd] [[] k]; [specialize (Hi k)|specialize (Hd k)].
      + pose proof (Hc true k) as X. simpl in X. rewrite lookup_empty, Z.add_0_l in X.
        by rewrite <- X.
      + pose proof (Hc false k) as X. simpl in X. rewrite lookup_empty, Z.add_0_l in X.
        by rewrite <- X.
    - intros H. split; intros k; [pose proof (Hc true k) as X|pose proof (Hc false k) as X];
        simpl in X; rewrite lookup_empty, Z.add_0_l in X; rewrite X; apply H. }
  assert (Hv : final_phase (parity_check st) = Ok tt
    <-> items <> [] /\ forallb good items = true /\ forall bk, Z.even (occ key bk items) = true).
  { unfold parity_check. rewrite <- Hodd. destruct (has_odd (iccm st) || has_odd (dccm st)).
    - split; [done|]. by intros (_ & _ & ?).
    - destruct items as [|it items]; [rewrite Hp0 by done; split; [done|by intros ([] & _)]|].
      rewrite Hp by done. simpl default. destruct (forallb good (it :: items)); simpl; split; try done.
      by intros (_ & ? & _). }
  split; [exact Hv|]. intros Hn. rewrite <- Hv in Hn.
  destruct (final_phase (parity_check st)) as [[]|e] eqn:F; [done|].
  unfold final_phase in F. destruct (parity_check st) as [[]|]; congruence.
Qed.
End Verdict.

(** ** What the items are counted under *)

Definition masked (size data : Z) : Z :=
  if size =? 0 then data mod 2 ^ 8 else if size =? 1 then data mod 2 ^ 16
  else if size =? 2 then data mod 2 ^ 32 else data.

Definition region_key (c : Config) (addr d : Z) : option (bool * (Z * Z)) :=
  if is_iccm c addr then Some (true, (addr - iccm_base c, d))
  else if is_dccm c addr then Some (false, (addr - dccm_base c, d)) else None.

Definition mem_key (it : MemItem) : option (bool * (Z * Z)) :=
  Some (String.eqb (mem it) "ICCM", (m_addr it, masked (m_size it) (m_data it))).

Definition in_memory (c : Config) (addr : Z) : bool := is_iccm c addr || is_dccm c addr.

Definition read_key (c : Config) (it : Item) : option (bool * (Z * Z)) :=
  match it with
  | BusRead it => region_key c (r_addr it) (le_value (default [] (r_data it)))
  | DebugRead it => region_key c (d_addr it) (d_data it)
  | MemRead it => mem_key it
  | _ => None
  end.

Definition read_good (c : Config) (it : Item) : bool :=
  match it with
  | BusRead it => in_memory c (r_addr it)
  | DebugRead it => in_memory c (d_addr it)
  | _ => true
  end.

Definition mem_wf (it : MemItem) : Prop := (mem it = "ICCM" \/ mem it = "DCCM") /\ 0 <= m_size it.

(** 64-bit bus reads with data, memory reads as the monitor reports them. *)
Definition read_wf (it : Item) : Prop :=
  match it with
  | BusRead it => exists bs, r_data it = Some bs /\ length bs = 8%nat
  | MemRead it => mem_wf it
  | _ => True
  end.

Lemma bump_lookup key d k :
  default 0 (bump key d !! k) = default 0 (d !! k) + Z.b2z (bool_decide (key = k)).
Proof.
  unfold bump. destruct (decide (key = k)) as [->|Hne].
  - by rewrite lookup_insert_eq, bool_decide_eq_true_2.
  - rewrite lookup_insert_ne, bool_decide_eq_false_2 by done. simpl. lia.
Qed.

(** The effect of counting an access, on the three parts of the state. *)
Lemma count_access_spec c addr d st p :
  passed st = Some p ->
  passed (count_access c addr d st) = Some (p && in_memory c addr)
  /\ forall b k, default 0 (counts b (count_access c addr d st) !! k)
     = default 0 (counts b st !! k) + Z.b2z (bool_decide (region_key c addr d = Some (b, k))).
Proof.
  intros Hp. unfold count_access, region_key, in_memory.
  destruct (is_iccm c addr); [|destruct (is_dccm c addr)]; cbn [orb].
  - rewrite andb_true_r. split; [done|]. intros [] k; cbn [counts iccm dccm bump_iccm bump_dccm set_passed]; rewrite ?bump_lookup.
    + do 2 f_equal. apply bool_decide_ext. naive_solver.
    + rewrite bool_decide_eq_false_2 by congruence. cbn [Z.b2z]. lia.
  - rewrite andb_true_r. split; [done|]. intros [] k; cbn [counts iccm dccm bump_iccm bump_dccm set_passed]; rewrite ?bump_lookup.
    + rewrite bool_decide_eq_false_2 by congruence. cbn [Z.b2z]. lia.
    + do 2 f_equal. apply bool_decide_ext. naive_solver.
  - rewrite andb_false_r. split; [done|]. intros b k. rewrite bool_decide_eq_false_2 by congruence.
    destruct b; cbn [counts iccm dccm bump_iccm bump_dccm set_passed]; cbn [Z.b2z]; lia.
Qed.

Lemma mask_size_spec size d st :
  0 <= size ->
  mask_size size d st = set_data (masked size d) st.
Proof.
  intros Hs. unfold mask_size, masked.
  rewrite land_mask8, land_mask16, land_mask32.
  destruct (Z.eqb_spec size 0); [done|]. destruct (Z.eqb_spec size 1); [done|].
  destruct (Z.eqb_spec size 2); [done|]. destruct (Z.leb_spec 3 size); [done|lia].
Qed.

(** Counting a memory access. *)
Lemma mem_count_spec it st b k :
  mem_wf it ->
  default 0 (counts b (if String.eqb (mem it) "ICCM"
    then bump_iccm (m_addr it, masked (m_size it) (m_data it)) st
    else bump_dccm (m_addr it, masked (m_size it) (m_data it)) st) !! k)
  = default 0 (counts b st !! k) + Z.b2z (bool_decide (mem_key it = Some (b, k))).
Proof.
  intros [Hm _]. unfold mem_key. destruct (String.eqb (mem it) "ICCM"), b;
    cbn [counts iccm dccm bump_iccm bump_dccm set_passed]; rewrite ?bump_lookup.
  - do 2 f_equal. apply bool_decide_ext. naive_solver.
  - rewrite bool_decide_eq_false_2 by congruence. cbn [Z.b2z]. lia.
  - rewrite bool_decide_eq_false_2 by congruence. cbn [Z.b2z]. lia.
  - do 2 f_equal. apply bool_decide_ext. naive_solver.
Qed.

(** The state a step starts from: only [passed] is initialised. *)
Lemma initial_state st :
  let st0 := set_passed (set_initial (passed st)) st in
  passed st0 = Some (default true (passed st)) /\ forall b, counts b st0 = counts b st.
Proof. simpl. split; [by destruct (passed st)|by intros []]. Qed.

(** An access that is not counted. *)
Lemma uncounted st st0 p :
  passed st0 = Some p -> (forall b, counts b st0 = counts b st) ->
  passed st0 = Some (p && true)
  /\ forall b k, default 0 (counts b st0 !! k)
     = default 0 (counts b st !! k) + Z.b2z (bool_decide (@None (bool * (Z * Z)) = Some (b, k))).
Proof.
  intros Hp Hc. rewrite andb_true_r. split; [done|]. intros b k.
  rewrite Hc, bool_decide_eq_false_2 by done. cbn [Z.b2z]. lia.
Qed.

Lemma bus_data d : length d = 8%nat -> struct_unpack 8 d = Ok (le_value d).
Proof. intros H. unfold struct_unpack. by rewrite H. Qed.

#[export] Instance read_step_spec c :
  StepSpec (ReadScoreboard_item c) read_wf (read_good c) (read_key c).
Proof.
  constructor. intros st it Hwf. unfold ReadScoreboard_item.
  destruct (initial_state st) as [Hp0 Hc0]. set (st0 := set_passed (set_initial (passed st)) st) in *.
  cbv zeta. destruct it as [it|it|it|it|it|it]; cbn [read_good read_key];
    try (eexists; split; [reflexivity|]; by apply uncounted).
  - destruct Hwf as [Hm Hs]. rewrite mask_size_spec by done. cbn [get_data set_data data rbind].
    exists (if String.eqb (mem it) "ICCM"
      then bump_iccm (m_addr it, masked (m_size it) (m_data it)) (set_data (masked (m_size it) (m_data it)) st0)
      else bump_dccm (m_addr it, masked (m_size it) (m_data it)) (set_data (masked (m_size it) (m_data it)) st0)).
    split; [|split].
    + destruct Hm as [-> | ->]; done.
    + rewrite andb_true_r. by destruct (String.eqb (mem it) "ICCM").
    + intros b k. rewrite mem_count_spec by done. rewrite <- Hc0. by destruct b.
  - eexists. split; [reflexivity|].
    destruct (count_access_spec c (d_addr it) (d_data it) (set_data (d_data it) st0) _ Hp0) as [H1 H2].
    split; [exact H1|]. intros b k. rewrite H2, <- Hc0. by destruct b.
  - destruct Hwf as (bs & Hd & Hl). rewrite Hd. cbn [unpack_Q]. rewrite bus_data by done. cbn [rbind].
    eexists. split; [reflexivity|].
    destruct (count_access_spec c (r_addr it) (le_value bs) (set_data (le_value bs) st0) _ Hp0) as [H1 H2].
    split; [exact H1|]. intros b k. rewrite H2, <- Hc0. by destruct b.
Qed.

Definition write_key (c : Config) (it : Item) : option (bool * (Z * Z)) :=
  match it with
  | BusWrite it => region_key c (w_addr it) (le_value (w_data it))
  | DebugWrite it => region_key c (d_addr it) (d_data it)
  | MemWrite it => mem_key it
  | _ => None
  end.

Definition write_good (c : Config) (it : Item) : bool :=
  match it with
  | BusWrite it => in_memory c (w_addr it)
  | DebugWrite it => negb (truthy (d_fail it)) && in_memory c (d_addr it)
  | _ => true
  end.

(** 64-bit bus writes, and memory writes inside the memory. *)
Definition write_wf (c : Config) (it : Item) : Prop :=
  match it with
  | BusWrite it => length (w_data it) = 8%nat
  | MemWrite it => mem_wf it
      /\ 0 <= m_addr it < (if String.eqb (mem it) "ICCM" then iccm_size c else dccm_size c)
  | _ => True
  end.

#[export] Instance write_step_spec c :
  StepSpec (WriteScoreboard_item c) (write_wf c) (write_good c) (write_key c).
Proof.
  constructor. intros st it Hwf. unfold WriteScoreboard_item.
  destruct (initial_state st) as [Hp0 Hc0]. set (st0 := set_passed (set_initial (passed st)) st) in *.
  cbv zeta. destruct it as [it|it|it|it|it|it]; cbn [write_good write_key];
    try (eexists; split; [reflexivity|]; by apply uncounted).
  - destruct Hwf as [[Hm Hs] Hr]. rewrite mask_size_spec by done.
    exists (if String.eqb (mem it) "ICCM"
      then bump_iccm (m_addr it, masked (m_size it) (m_data it)) (set_data (masked (m_size it) (m_data it)) st0)
      else bump_dccm (m_addr it, masked (m_size it) (m_data it)) (set_data (masked (m_size it) (m_data it)) st0)).
    split; [|split].
    + destruct Hm as [E|E]; rewrite E in Hr |- *; simpl in Hr |- *;
        rewrite (proj2 (andb_true_iff _ _)) by (split; [apply Z.leb_le|apply Z.ltb_lt]; lia); done.
    + rewrite andb_true_r. by destruct (String.eqb (mem it) "ICCM").
    + intros b k. rewrite mem_count_spec by done. rewrite <- Hc0. by destruct b.
  - set (st1 := if truthy (d_fail it) then set_passed (Some false) st0 else st0).
    assert (Hp1 : passed st1 = Some (default true (passed st) && negb (truthy (d_fail it)))).
    { subst st1. destruct (truthy (d_fail it)); simpl; [by rewrite andb_false_r|].
      rewrite andb_true_r. exact Hp0. }
    assert (Hc1 : forall b, counts b st1 = counts b st).
    { intros b. rewrite <- Hc0. subst st1. by destruct (truthy (d_fail it)), b. }
    eexists. split; [reflexivity|]. rewrite andb_assoc.
    destruct (is_iccm c (d_addr it) || is_dccm c (d_addr it)).
    + destruct (count_access_spec c (d_addr it) (d_data it) (set_data (d_data it) st1) _ Hp1) as [H1 H2].
      split; [exact H1|]. intros b k. rewrite H2, <- Hc1. by destruct b.
    + destruct (count_access_spec c (d_addr it) (d_data it) st1 _ Hp1) as [H1 H2].
      split; [exact H1|]. intros b k. by rewrite H2, <- Hc1.
  - cbn [unpack_Q]. rewrite bus_data by done. cbn [rbind]. eexists. split; [reflexivity|].
    destruct (count_access_spec c (w_addr it) (le_value (w_data it))
      (set_data (le_value (w_data it)) st0) _ Hp0) as [H1 H2].
    split; [exact H1|]. intros b k. rewrite H2, <- Hc0. by destruct b.
Qed.

(** On well-formed accesses the read and the write scoreboard succeed
    exactly when they saw an access, every bus and debug access is inside one of
    the memories (and no debug write failed), and each combination of memory,
    offset and data occurs an even number of times; otherwise they raise
    [AssertionError]. *)
Theorem dma_scoreboard_parity c items :
  (Forall read_wf items ->
   let ok := items <> [] /\ forallb (read_good c) items = true
             /\ forall bk, Z.even (occ (read_key c) bk items) = true in
   (ReadScoreboard_verdict c items = Ok tt <-> ok)
   /\ (~ ok -> ReadScoreboard_verdict c items = Raise AssertionError))
  /\ (Forall (write_wf c) items ->
   let ok := items <> [] /\ forallb (write_good c) items = true
             /\ forall bk, Z.even (occ (write_key c) bk items) = true in
   (WriteScoreboard_verdict c items = Ok tt <-> ok)
   /\ (~ ok -> WriteScoreboard_verdict c items = Raise AssertionError)).
Proof.
  split; intros Hwf ok; exact (parity_verdict items Hwf).
Qed.

Definition example_config : Config :=
  {| iccm_base := 0x1000; iccm_size := 0x100; dccm_base := 0x2000; dccm_size := 0x100 |}.

(** Two identical memory reads without any bus access satisfy the check. *)
Lemma dma_scoreboard_parity_witness :
  let rd := MemRead {| mem := "ICCM"; m_addr := 4; m_data := 7; m_size := 3; m_resp := Some 0 |} in
  ReadScoreboard_verdict example_config [rd; rd] = Ok tt.
Proof.
  refine (proj2 (proj1 (proj1 (dma_scoreboard_parity example_config
    [MemRead {| mem := "ICCM"; m_addr := 4; m_data := 7; m_size := 3; m_resp := Some 0 |};
     MemRead {| mem := "ICCM"; m_addr := 4; m_data := 7; m_size := 3; m_resp := Some 0 |}]) _)) _).
  - repeat constructor; simpl; lia.
  - split; [discriminate|]. split; [reflexivity|]. intros bk. unfold occ. cbn [List.filter].
    destruct (bool_decide _); reflexivity.
Defined.

(** ** The access scoreboard *)

Definition access_ok (item : Item) : bool :=
  match item with
  | MemRead _ | MemWrite _ => false
  | BusRead it => bool_decide (r_resp it = Some 3)
  | BusWrite it => bool_decide (w_resp it = Some 3)
  | DebugRead it | DebugWrite it => truthy (d_fail it)
  end.

Lemma access_item item p :
  AccessScoreboard_item item p = if access_ok item then Ok p else Raise AttributeError.
Proof.
  assert (Hr : forall r, (match r with Some v => v =? 3 | None => false end) = bool_decide (r = Some 3)).
  { intros [v|]; [|done]. destruct (Z.eqb_spec v 3) as [->|];
      [by rewrite bool_decide_eq_true_2|rewrite bool_decide_eq_false_2; congruence]. }
  destruct item; simpl; rewrite ?Hr; done.
Qed.

(** The access scoreboard never records a failure: it succeeds exactly on a
    non-empty run in which every access was rejected as it should be, and on any
    other access its [check_phase] raises [AttributeError] from the formatting
    of the message. *)
Theorem dma_access_scoreboard items :
  (AccessScoreboard_verdict items = Ok tt <-> items <> [] /\ forallb access_ok items = true)
  /\ (forallb access_ok items = false -> AccessScoreboard_check_phase items = Raise AttributeError)
  /\ AccessScoreboard_check_phase items <> Ok (Some false).
Proof.
  assert (H : forall items p, check_items AccessScoreboard_item items p =
    if forallb access_ok items
    then Ok (match items with [] => p | _ => set_initial p end) else Raise AttributeError).
  { clear. intros items. induction items as [|it items IH]; intros p; [done|].
    cbn [check_items forallb]. rewrite access_item. destruct (access_ok it); [|done].
    cbn [rbind andb]. rewrite IH. destruct (forallb access_ok items); [|done].
    destruct items; [done|]. by destruct p. }
  unfold AccessScoreboard_verdict, AccessScoreboard_check_phase. rewrite H.
  destruct (forallb access_ok items) eqn:E.
  - destruct items as [|it items]; simpl; (split; [|split; [done|discriminate]]).
    + split; [discriminate|]. by intros [[] _].
    + by split.
  - split; [|done]. split; [discriminate|]. by intros [_ ?].
Qed.

Lemma dma_access_scoreboard_witness :
  AccessScoreboard_check_phase
    [MemRead {| mem := "ICCM"; m_addr := 4; m_data := 7; m_size := 3; m_resp := Some 0 |}]
  = Raise AttributeError.
Proof.
  apply (dma_access_scoreboard
    [MemRead {| mem := "ICCM"; m_addr := 4; m_data := 7; m_size := 3; m_resp := Some 0 |}]).
  reflexivity.
Defined.

(** ** The sequences *)

Lemma align_down a n : 0 < n -> a / n * n <= a /\ a - n < a / n * n /\ a / n * n mod n = 0.
Proof.
  intros Hn. pose proof (Z.div_mod a n ltac:(lia)). pose proof (Z.mod_pos_bound a n Hn).
  split; [lia|]. split; [lia|]. apply Z.mod_mul. lia.
Qed.

Lemma random_addr_spec base size align r :
  0 < align -> base mod align = 0 -> 0 < size ->
  base <= random_addr base size align r < base + size
  /\ random_addr base size align r mod align = 0.
Proof.
  intros Ha Hb Hs. unfold random_addr.
  pose proof (randrange_bounds 0 size r Hs) as Hr. set (k := randrange 0 size r) in *.
  destruct (align_down (base + k) align Ha) as (H1 & H2 & H3). split; [|done].
  split; [|lia]. rewrite <- (Z.add_0_l base), <- Hb at 1 2.
  assert (E : base = base / align * align) by (pose proof (Z.div_mod base align); lia).
  rewrite Hb, Z.add_0_l. rewrite E at 1. apply Z.mul_le_mono_nonneg_r; [lia|].
  apply Z.div_le_mono; lia.
Qed.

Lemma random_data_spec dwidth r :
  dwidth = 32 \/ dwidth = 64 ->
  exists bs, random_data dwidth r = Ok bs /\ Forall is_byte bs /\ Z.of_nat (length bs) * 8 = dwidth.
Proof.
  intros Hd. unfold random_data.
  assert (Hb : 0 <= randrange 0 (Z.shiftl 1 dwidth - 1) r < 2 ^ dwidth).
  { assert (0 < Z.shiftl 1 dwidth - 1) by (destruct Hd as [-> | ->]; done).
    pose proof (randrange_bounds 0 (Z.shiftl 1 dwidth - 1) r H) as Hr.
    rewrite Z.shiftl_1_l in *. lia. }
  destruct Hd as [-> | ->]; simpl Z.eqb; cbv iota; cbn [rbind].
  - destruct (struct_roundtrip 4 (randrange 0 (Z.shiftl 1 32 - 1) r)) as (bs & E & H1 & H2 & _); [exact Hb|].
    exists bs. by rewrite E, H2.
  - destruct (struct_roundtrip 8 (randrange 0 (Z.shiftl 1 64 - 1) r)) as (bs & E & H1 & H2 & _); [exact Hb|].
    exists bs. by rewrite E, H2.
Qed.

Definition seq_addr (it : SeqItem) : Z := match it with SeqWrite a _ => a | SeqRead a => a end.

(** The payload of a write has the width of the bus. *)
Definition payload_ok (dwidth : Z) (it : SeqItem) : Prop :=
  match it with
  | SeqWrite _ bs => Forall is_byte bs /\ Z.of_nat (length bs) * 8 = dwidth
  | SeqRead _ => True
  end.

Lemma invalid_addr_spec c align pic_base pic_size draws addr :
  0 < align -> invalid_addr c align pic_base pic_size draws = Some addr ->
  in_memory c addr = false /\ ~ (pic_base <= addr < pic_base + pic_size)
  /\ addr mod align = 0 /\ - align < addr < 2 ^ 32.
Proof.
  intros Ha. induction draws as [|r draws IH]; [done|]. cbn [invalid_addr]. unfold in_memory.
  set (a := randrange 0 (Z.shiftl 1 32 - 1) r / align * align).
  destruct (is_iccm c a) eqn:Ei; [exact IH|]. destruct (is_dccm c a) eqn:Ed; [exact IH|].
  destruct (_ && _) eqn:Ep; [exact IH|]. intros [= <-]. rewrite Ei, Ed. split; [done|].
  rewrite andb_false_iff, Z.leb_gt, Z.ltb_ge in Ep.
  destruct (align_down (randrange 0 (Z.shiftl 1 32 - 1) r) align Ha) as (H1 & H2 & H3).
  pose proof (randrange_bounds 0 (Z.shiftl 1 32 - 1) r ltac:(done)) as Hr.
  change (Z.shiftl 1 32) with (2 ^ 32) in *. fold a in H1, H2, H3. lia.
Qed.

(** With a memory map aligned to the access size, every item of the
    sequences for both memories is aligned and inside ICCM or DCCM with a
    payload of the width of the bus, and every item of the invalid-address
    sequence is aligned and outside of ICCM, DCCM and PIC. *)
Theorem dma_sequence_addresses c align dwidth r :
  0 < align -> dwidth = 32 \/ dwidth = 64 ->
  iccm_base c mod align = 0 -> dccm_base c mod align = 0 -> 0 < iccm_size c -> 0 < dccm_size c ->
  (exists it, AnyMemWriteSequence_item c align dwidth r = Ok it
     /\ in_memory c (seq_addr it) = true /\ seq_addr it mod align = 0 /\ payload_ok dwidth it)
  /\ (exists it, AnyMemReadSequence_item c align r = Ok it
     /\ in_memory c (seq_addr it) = true /\ seq_addr it mod align = 0)
  /\ (forall pic_base pic_size draws res,
        InvalidAddressSequence_item c align dwidth pic_base pic_size draws r = Some res ->
        exists it, res = Ok it /\ in_memory c (seq_addr it) = false
          /\ ~ (pic_base <= seq_addr it < pic_base + pic_size)
          /\ seq_addr it mod align = 0 /\ payload_ok dwidth it).
Proof.
  intros Ha Hd Hib Hdb His Hds.
  destruct (random_data_spec dwidth (r_data_draw r) Hd) as (bs & Hbs & Hby & Hbl).
  assert (Hm : exists base size, AnyMem c r = Ok (base, size)
    /\ in_memory c (random_addr base size align (r_addr_draw r)) = true
    /\ random_addr base size align (r_addr_draw r) mod align = 0).
  { unfold AnyMem. destruct (choice_in [(iccm_base c, iccm_size c); (dccm_base c, dccm_size c)] (r_mem r))
      as ([b s] & E & Hin); [done|]. exists b, s. split; [done|].
    unfold in_memory, is_iccm, is_dccm. rewrite orb_true_iff, !andb_true_iff, !Z.leb_le, !Z.ltb_lt.
    destruct Hin as [[= <- <-]|[[= <- <-]|[]]].
    - destruct (random_addr_spec (iccm_base c) (iccm_size c) align (r_addr_draw r)) as [? ?]; [done..|].
      split; [by left|done].
    - destruct (random_addr_spec (dccm_base c) (dccm_size c) align (r_addr_draw r)) as [? ?]; [done..|].
      split; [by right|done]. }
  destruct Hm as (base & size & Em & Hin & Hal). split; [|split].
  - unfold AnyMemWriteSequence_item, MemWriteSequence_item. rewrite Em. cbn [rbind fst snd].
    rewrite Hbs. by eexists.
  - unfold AnyMemReadSequence_item, MemReadSequence_item. rewrite Em. by eexists.
  - intros pb ps draws res. unfold InvalidAddressSequence_item.
    destruct (invalid_addr c align pb ps draws) as [addr|] eqn:E; [|done]. intros [= <-].
    destruct (invalid_addr_spec _ _ _ _ _ _ Ha E) as (H1 & H2 & H3 & _).
    destruct (r_read r); [by exists (SeqRead addr)|]. rewrite Hbs. by exists (SeqWrite addr bs).
Qed.

Lemma dma_sequence_addresses_witness :
  let r := {| r_mem := 1; r_addr_draw := 0x23; r_data_draw := 5; r_read := false |} in
  exists it, AnyMemWriteSequence_item example_config 8 64 r = Ok it
    /\ in_memory example_config (seq_addr it) = true /\ seq_addr it mod 8 = 0 /\ payload_ok 64 it.
Proof.
  refine (proj1 (dma_sequence_addresses example_config 8 64
    {| r_mem := 1; r_addr_draw := 0x23; r_data_draw := 5; r_read := false |} _ _ _ _ _ _)).
  - lia.
  - right; reflexivity.
  - reflexivity.
  - reflexivity.
  - reflexivity.
  - reflexivity.
Defined.
