(* ===== verification/AhbAxi.v ===== *)
(** * AHB-Lite to AXI4 bridge testbench: verification/block/lib_ahb_to_axi4/testbench.py *)

From S2P Require Import Prelude Scoreboard Cocotb Pulse Utils Axi.
From stdpp Require Import base list strings.
From Stdlib Require Import ZArith Lia.

#[local] Open Scope string_scope.
#[local] Open Scope list_scope.
#[local] Open Scope Z_scope.

(** The transactions of the two buses. *)
Inductive BusItem :=
  | Write (it : BusWriteItem)
  | Read (it : BusReadItem).

Definition item_addr (it : BusItem) : Z :=
  match it with Write it => w_addr it | Read it => r_addr it end.

Definition item_data (it : BusItem) : option (list Z) :=
  match it with Write it => Some (w_data it) | Read it => r_data it end.

(** ** AHBLiteManagerBFM *)

Inductive HTRANS := IDLE | BUSY | NONSEQ | SEQ.

#[export] Instance HTRANS_eq_dec : EqDecision HTRANS.
Proof. solve_decision. Defined.

Definition HTRANS_value (h : HTRANS) : Z :=
  match h with IDLE => 0 | BUSY => 1 | NONSEQ => 2 | SEQ => 3 end.

(** [HTRANS(value)] *)
Definition HTRANS_of (v : Z) : result HTRANS :=
  if v =? 0 then Ok IDLE else if v =? 1 then Ok BUSY
  else if v =? 2 then Ok NONSEQ else if v =? 3 then Ok SEQ else Raise ValueError.

Definition HBURST_SINGLE : Z := 0.

Section Manager.
Variable dwidth : Z.

(** The HSIZE encoding by word count, in the order of the dict display. *)
Definition hsize_entries : list (Z * Z) :=
  [(64 / dwidth, 3); (128 / dwidth, 4); (256 / dwidth, 5); (512 / dwidth, 6); (1024 / dwidth, 7)].

(** [self.hsize[n]]; a later entry replaces an earlier one. *)
Definition hsize (n : Z) : option Z :=
  option_map snd (List.find (fun p => p.1 =? n) (rev hsize_entries)).

Definition ahb_wait (signal : string) : proc BusItem unit :=
  wait_for TimeoutError "ahb_hclk" (fun e => e signal =? 1) 200.

Definition wait_reset : proc BusItem unit :=
  e <- now ;;
  if e "ahb_hreset" =? 0 then _ <- await (RisingEdge "ahb_hreset") ;; Ret tt else Ret tt.

(** "Address phase" *)
Definition address_phase (size addr hwrite : Z) : proc BusItem unit :=
  _ <- await (RisingEdge "ahb_hclk") ;;
  drive "ahb_hsel" 1 ;;;
  drive "ahb_hprot" 1 ;;;
  drive "ahb_hsize" size ;;;
  drive "ahb_haddr" addr ;;;
  drive "ahb_hwrite" hwrite ;;;
  drive "ahb_htrans" (HTRANS_value NONSEQ) ;;;
  drive "ahb_hburst" HBURST_SINGLE ;;;
  ahb_wait "ahb_hreadyout".

(** The address and transfer type of the beat after which [rest] beats follow. *)
Definition next_beat (addr : Z) (rest : nat) : proc BusItem Z :=
  match rest with
  | O => drive "ahb_htrans" (HTRANS_value IDLE) ;;; Ret addr
  | S _ =>
      let addr := addr + dwidth / 8 in
      drive "ahb_haddr" addr ;;; drive "ahb_htrans" (HTRANS_value SEQ) ;;; Ret addr
  end.

Fixpoint write_phase (addr : Z) (data : list Z) : proc BusItem unit :=
  match data with
  | [] => Ret tt
  | word :: data =>
      addr <- next_beat addr (length data) ;;
      drive "ahb_hwdata" word ;;;
      ahb_wait "ahb_hreadyout" ;;;
      write_phase addr data
  end.

Definition AHBLiteManagerBFM_write (addr : Z) (data : list Z) : proc BusItem unit :=
  match hsize (Z.of_nat (length data)) with
  | None => throw AssertionError
  | Some size => wait_reset ;;; address_phase size addr 1 ;;; write_phase addr data
  end.

Fixpoint read_phase (addr : Z) (n : nat) : proc BusItem unit :=
  match n with
  | O => Ret tt
  | S n => addr <- next_beat addr n ;; ahb_wait "ahb_hreadyout" ;;; read_phase addr n
  end.

Definition AHBLiteManagerBFM_read (addr : Z) (n : nat) : proc BusItem unit :=
  match hsize (Z.of_nat n) with
  | None => throw AssertionError
  | Some size => wait_reset ;;; address_phase size addr 0 ;;; read_phase addr n
  end.

(** A request of a sequence: write of words, or read of a word. *)
Inductive Request :=
  | WriteReq (addr : Z) (data : list Z)
  | ReadReq (addr : Z).

Definition AHBLiteManagerDriver_item (r : Request) : proc BusItem unit :=
  match r with
  | WriteReq addr data => AHBLiteManagerBFM_write addr data
  | ReadReq addr => AHBLiteManagerBFM_read addr 1
  end.

Definition AHBLiteManagerDriver_run_phase (rs : list Request) : proc BusItem unit :=
  for_each rs AHBLiteManagerDriver_item.

(** ** AHBLiteMonitor *)

Record Watch := {
  data_stage : bool;
  hdata : list Z;
  haddr : Z;
  htrans : option HTRANS;
  hwrite : Z;
}.

(** [haddr] and [hwrite] are only read once they were sampled. *)
Definition Watch_init : Watch :=
  {| data_stage := false; hdata := []; haddr := 0; htrans := None; hwrite := 0 |}.

Definition is_transfer (h : option HTRANS) : bool :=
  match h with Some SEQ | Some NONSEQ => true | _ => false end.

Definition bus_octets (v : Z) : result (list Z) :=
  collect_bytes {| bus_len := dwidth; bus_val := v |} None.

(** "Sample data" *)
Definition sample_data (e : env) (w : Watch) : proc BusItem Watch :=
  if data_stage w then
    if is_transfer (htrans w) then
      data <- lift (bus_octets (e (if truthy (hwrite w) then "ahb_hwdata" else "ahb_hrdata"))) ;;
      Ret {| data_stage := true; hdata := hdata w ++ data; haddr := haddr w; htrans := htrans w;
             hwrite := hwrite w |}
    else if decide (htrans w = Some IDLE) then
      publish (if truthy (hwrite w)
               then Write {| w_addr := haddr w; w_data := hdata w; w_resp := None |}
               else Read {| r_addr := haddr w; r_data := Some (hdata w); r_resp := None |}) ;;;
      Ret {| data_stage := false; hdata := hdata w; haddr := haddr w; htrans := htrans w;
             hwrite := hwrite w |}
    else Ret w
  else Ret w.

(** "Sample bus signals" *)
Definition sample_bus (e : env) (w : Watch) : proc BusItem Watch :=
  h <- lift (HTRANS_of (e "ahb_htrans")) ;;
  Ret (if negb (data_stage w) && is_transfer (Some h)
       then {| data_stage := true; hdata := []; haddr := e "ahb_haddr"; htrans := Some h;
               hwrite := e "ahb_hwrite" |}
       else {| data_stage := data_stage w; hdata := hdata w; haddr := haddr w; htrans := Some h;
               hwrite := hwrite w |}).

(** One iteration of [watch], after the initial wait for [ahb_hreset]. *)
Definition watch_body (w : Watch) : proc BusItem Watch :=
  wait_reset ;;;
  e <- await (RisingEdge "ahb_hclk") ;;
  if truthy (e "ahb_hreadyout") then w <- sample_data e w ;; sample_bus e w else Ret w.

(** ** AXI4LiteSubordinateBFM *)

Definition sub_wait (signal : string) : proc BusItem unit :=
  wait_for TimeoutError "axi_clk" (fun e => negb (e signal =? 0)) 200.

Definition set_ready (channel : string) (ready : bool) : proc BusItem unit :=
  _ <- lift (py_assert (str_in channel ["aw"; "w"; "ar"; "r"])) ;;
  _ <- await (RisingEdge "axi_clk") ;;
  drive (String.append (String.append "axi_" channel) "ready") (Z.b2z ready).

Definition respond_aw : proc BusItem unit :=
  drive "axi_awready" 1 ;;; sub_wait "axi_awvalid" ;;; drive "axi_awready" 0.

Definition respond_w : proc BusItem unit :=
  drive "axi_wready" 1 ;;; sub_wait "axi_wvalid" ;;; drive "axi_wready" 0.

Definition respond_b : proc BusItem unit :=
  sub_wait "axi_bready" ;;;
  drive "axi_bvalid" 1 ;;;
  drive "axi_bid" 0 ;;;
  drive "axi_bresp" 0 ;;;
  _ <- await (RisingEdge "axi_clk") ;;
  drive "axi_bvalid" 0.

Definition respond_ar : proc BusItem unit :=
  drive "axi_arready" 1 ;;; sub_wait "axi_arvalid" ;;; drive "axi_arready" 0.

Definition respond_r (r : Z) : proc BusItem unit :=
  sub_wait "axi_rready" ;;;
  drive "axi_rvalid" 1 ;;;
  drive "axi_rdata" (randrange 0 (Z.shiftl 1 dwidth - 1) r) ;;;
  _ <- await (RisingEdge "axi_clk") ;;
  drive "axi_rvalid" 0.

(** [func_map[c]] of the driver. *)
Definition respond (channel : string) (r : Z) : result (proc BusItem unit) :=
  if String.eqb channel "aw" then Ok respond_aw
  else if String.eqb channel "w" then Ok respond_w
  else if String.eqb channel "b" then Ok respond_b
  else if String.eqb channel "ar" then Ok respond_ar
  else if String.eqb channel "r" then Ok (respond_r r)
  else Raise KeyError.
End Manager.

(** ** Scoreboard *)

(** The messages are formatted for each pair before the comparison; an item
    without data cannot be formatted. *)
Definition Scoreboard_pair (ahb axi : BusItem) : result bool :=
  match item_data ahb, item_data axi with
  | Some d1, Some d2 => Ok (bool_decide (item_addr ahb = item_addr axi /\ d1 = d2))
  | _, _ => Raise TypeError
  end.

(** [passed] is set to [True] again for each pair. *)
Fixpoint Scoreboard_check_phase (ahb axi : list BusItem) (passed : option bool)
  : result (option bool) :=
  match ahb, axi with
  | ahb_item :: ahb, axi_item :: axi =>
      let passed := Some true in
      let! same := Scoreboard_pair ahb_item axi_item in
      Scoreboard_check_phase ahb axi (if same then passed else Some false)
  | [], [] => Ok passed
  | _, _ => Ok (Some false)
  end.

Definition Scoreboard_verdict ahb axi : result unit :=
  rbind (Scoreboard_check_phase ahb axi None) final_phase.

Definition has_data (it : BusItem) : Prop := item_data it <> None.

(** Same address and same data. *)
Definition same_transfer (a b : BusItem) : Prop :=
  item_addr a = item_addr b /\ item_data a = item_data b.

Lemma scoreboard_pair a b :
  has_data a -> has_data b ->
  exists r, Scoreboard_pair a b = Ok r /\ (r = true <-> same_transfer a b).
Proof.
  unfold has_data, Scoreboard_pair, same_transfer. intros Ha Hb.
  destruct (item_data a) as [d1|]; [|done]. destruct (item_data b) as [d2|]; [|done].
  eexists. split; [done|]. rewrite bool_decide_eq_true. split; intros [? E]; split; congruence.
Qed.

Lemma and_iff_compat_l_dep (A B C : Prop) : (A -> (B <-> C)) -> (A /\ B <-> A /\ C).
Proof. tauto. Qed.

Lemma scoreboard_loop ahb axi p :
  Forall has_data ahb -> Forall has_data axi ->
  exists r, Scoreboard_check_phase ahb axi p = Ok r
    /\ (r = Some true <-> length ahb = length axi
        /\ match last ahb, last axi with
           | Some a, Some b => same_transfer a b
           | _, _ => p = Some true
           end).
Proof.
  intros H1. revert axi p. induction H1 as [|a ahb Ha H1 IH]; intros [|b axi] p H2.
  - exists p. simpl. tauto.
  - exists (Some false). simpl. split; [done|]. split; [done|]. by intros [? _].
  - exists (Some false). simpl. split; [done|]. split; [done|]. by intros [? _].
  - inversion_clear H2 as [|?? Hb H2']. destruct (scoreboard_pair a b Ha Hb) as (r & E & Hr).
    cbn [Scoreboard_check_phase]. rewrite E. cbn [rbind].
    destruct (IH axi (if r then Some true else Some false) H2') as (r' & E' & Hr').
    exists r'. split; [done|]. rewrite Hr', !last_cons. cbn [length]. rewrite Nat.succ_inj_wd.
    apply and_iff_compat_l_dep. intros Hl. destruct ahb as [|a' ahb], axi as [|b' axi]; try done.
    + simpl. rewrite <- Hr. destruct r; split; congruence.
    + destruct (last (a' :: ahb)) eqn:Ex; [|by apply last_None in Ex].
      destruct (last (b' :: axi)) eqn:Ey; [done|by apply last_None in Ey].
Qed.

(** The verdict of the scoreboard depends only on the numbers of transfers
    and on the last pair: a run passes exactly when both buses saw the same
    non-zero number of transfers and the last two agree in address and data,
    whatever the earlier pairs were; otherwise [AssertionError] is raised. *)
Theorem ahb_scoreboard_last_pair ahb axi :
  Forall has_data ahb -> Forall has_data axi ->
  let ok := length ahb = length axi
            /\ exists a b, last ahb = Some a /\ last axi = Some b /\ same_transfer a b in
  (Scoreboard_verdict ahb axi = Ok tt <-> ok)
  /\ (~ ok -> Scoreboard_verdict ahb axi = Raise AssertionError).
Proof.
  intros H1 H2 ok. destruct (scoreboard_loop ahb axi None H1 H2) as (r & E & Hr).
  unfold Scoreboard_verdict. rewrite E. cbn [rbind].
  assert (Hok : r = Some true <-> ok).
  { rewrite Hr. subst ok. apply and_iff_compat_l. destruct (last ahb) as [a|], (last axi) as [b|].
    - split; [by exists a, b|]. by intros (? & ? & [= <-] & [= <-] & ?).
    - split; [done|]. by intros (? & ? & _ & ? & _).
    - split; [done|]. by intros (? & ? & ? & _ & _).
    - split; [done|]. by intros (? & ? & ? & _ & _). }
  split.
  - rewrite <- Hok. destruct r as [[]|]; simpl; split; congruence.
  - intros Hn. rewrite <- Hok in Hn. destruct r as [[]|]; simpl; congruence.
Qed.

Lemma ahb_scoreboard_last_pair_witness :
  let wr a d := Write {| w_addr := a; w_data := [d]; w_resp := None |} in
  Scoreboard_verdict [wr 0 1; wr 8 2] [wr 4 9; wr 8 2] = Ok tt.
Proof.
  refine (proj2 (proj1 (ahb_scoreboard_last_pair
    [Write {| w_addr := 0; w_data := [1]; w_resp := None |};
     Write {| w_addr := 8; w_data := [2]; w_resp := None |}]
    [Write {| w_addr := 4; w_data := [9]; w_resp := None |};
     Write {| w_addr := 8; w_data := [2]; w_resp := None |}] _ _)) _).
  - repeat constructor; discriminate.
  - repeat constructor; discriminate.
  - split; [reflexivity|]. eexists _, _. repeat split; reflexivity.
Defined.

(** ** The manager against its monitor *)

Section ClosedLoop.
(** The data width in octets, and the width of each port. *)
Variable n : nat.
Variable width : string -> Z.
Variable assign : string -> Z -> Z.
Variable dut : env -> env.
(** The data the unit under test returns for an address. *)
Variable rdf : Z -> Z.

Definition dw : Z := 8 * Z.of_nat n.

Hypothesis assign_fits : forall s v, 0 <= v < 2 ^ width s -> assign s v = v.
Hypothesis width_ports :
  2 <= width "ahb_htrans" /\ 1 <= width "ahb_hwrite" /\ width "ahb_hwdata" = dw.
(** Single words are among the transfer sizes. *)
Hypothesis hsize_1 : hsize dw 1 <> None.
(** The unit under test is always ready, out of reset, keeps its inputs and
    answers an address phase of a read. *)
Hypothesis dut_ready : forall e, dut e "ahb_hreadyout" = 1 /\ dut e "ahb_hreset" <> 0.
Hypothesis dut_inputs : forall e s,
  In s ["ahb_haddr"; "ahb_htrans"; "ahb_hwrite"; "ahb_hwdata"] -> dut e s = e s.
Hypothesis dut_reads : forall e, e "ahb_htrans" = 2 -> e "ahb_hwrite" = 0 ->
  dut e "ahb_hrdata" = rdf (e "ahb_haddr").

(** The requests of the sequences: single words that fit the ports. *)
Inductive req_ok : Request -> Prop :=
  | write_ok addr word : 0 <= addr < 2 ^ width "ahb_haddr" -> 0 <= word < 2 ^ dw ->
      req_ok (WriteReq addr [word])
  | read_ok addr : 0 <= addr < 2 ^ width "ahb_haddr" -> req_ok (ReadReq addr).

Definition req_addr (r : Request) : Z := match r with WriteReq a _ => a | ReadReq a => a end.
Definition req_write (r : Request) : Z := match r with WriteReq _ _ => 1 | ReadReq _ => 0 end.

(** What the monitor should report. *)
Definition observed (r : Request) : BusItem :=
  match r with
  | WriteReq addr data => Write {| w_addr := addr; w_data := le_bytes n (default 0 (head data)); w_resp := None |}
  | ReadReq addr => Read {| r_addr := addr; r_data := Some (le_bytes n (rdf addr)); r_resp := None |}
  end.

Definition set_port (p : string * Z) (e : env) : env := upd p.1 (assign p.1 p.2) e.

Definition after_address (r : Request) (e : env) : env :=
  foldl (fun e p => set_port p e) (dut e)
    [("ahb_hsel", 1); ("ahb_hprot", 1); ("ahb_hsize", default 0 (hsize dw 1));
     ("ahb_haddr", req_addr r); ("ahb_hwrite", req_write r); ("ahb_htrans", 2); ("ahb_hburst", 0)].

Definition after_data (r : Request) (e : env) : env :=
  let e := set_port ("ahb_htrans", 0) (dut e) in
  match r with WriteReq _ data => set_port ("ahb_hwdata", default 0 (head data)) e | ReadReq _ => e end.

(** The samples of a run over a list of requests. *)
Fixpoint req_samples (rs : list Request) (e : env) : list sample :=
  match rs with
  | [] => [Sample (RisingEdge "ahb_hclk") e]
  | r :: rs =>
      let e1 := after_address r e in
      let e2 := after_data r e1 in
      Sample (RisingEdge "ahb_hclk") e :: Sample (RisingEdge "ahb_hclk") e1
        :: Sample (RisingEdge "ahb_hclk") e2 :: req_samples rs (dut e2)
  end.

(** The coroutine of a request once it is out of reset, followed by [k]. *)
Definition started (r : Request) (k : proc BusItem unit) : proc BusItem unit :=
  (address_phase (default 0 (hsize dw 1)) (req_addr r) (req_write r) ;;;
   match r with
   | WriteReq addr data => write_phase dw addr data
   | ReadReq addr => read_phase dw addr 1
   end) ;;; k.

Definition settled (rs : list Request) : proc BusItem unit :=
  match rs with
  | [] => Ret tt
  | r :: rs => started r (AHBLiteManagerDriver_run_phase dw rs)
  end.

Lemma ahb_settle_driver rs cur e :
  Forall req_ok rs -> cur "ahb_hreset" <> 0 ->
  settle assign (AHBLiteManagerDriver_run_phase dw rs) cur e = (e, settled rs).
Proof using hsize_1.
  intros Hr Hc. apply Z.eqb_neq in Hc. destruct Hr as [|r rs Hr _]; [done|].
  destruct (hsize dw 1) as [sz|] eqn:E; [|done].
  destruct Hr; cbn [AHBLiteManagerDriver_run_phase for_each AHBLiteManagerDriver_item
    AHBLiteManagerBFM_write AHBLiteManagerBFM_read length]; unfold AHBLiteManagerBFM_write,
    AHBLiteManagerBFM_read; cbn [length]; change (Z.of_nat 1) with 1; rewrite E;
    unfold settled, started; rewrite E; cbn [default pbind wait_reset now settle]; rewrite Hc; reflexivity.
Qed.

Lemma fits_small s v w : 0 <= v < 2 ^ w -> 0 <= w <= width s -> assign s v = v.
Proof using assign_fits.
  intros Hv Hw. apply assign_fits. split; [lia|].
  apply Z.lt_le_trans with (2 ^ w); [lia|]. apply Z.pow_le_mono_r; lia.
Qed.

(** The ports after the address phase and after the data phase. *)
Lemma after_address_ports r e :
  req_ok r ->
  let e1 := after_address r e in
  e1 "ahb_htrans" = 2 /\ e1 "ahb_hwrite" = req_write r /\ e1 "ahb_haddr" = req_addr r
  /\ e1 "ahb_hreadyout" = 1 /\ e1 "ahb_hreset" <> 0.
Proof using assign_fits width_ports dut_ready.
  intros Hr e1. subst e1. destruct width_ports as (H1 & H2 & H3). destruct (dut_ready e) as [H4 H5].
  repeat split.
  - transitivity (assign "ahb_htrans" 2); [done|]. apply (fits_small _ _ 2); lia.
  - transitivity (assign "ahb_hwrite" (req_write r)); [done|].
    apply (fits_small _ _ 1); [|lia]. destruct r; simpl; lia.
  - transitivity (assign "ahb_haddr" (req_addr r)); [done|]. apply assign_fits. by destruct Hr.
  - exact H4.
  - exact H5.
Qed.

Lemma after_data_ports r e :
  req_ok r -> e "ahb_htrans" = 2 -> e "ahb_hwrite" = req_write r -> e "ahb_haddr" = req_addr r ->
  let e2 := after_data r e in
  e2 "ahb_htrans" = 0 /\ e2 "ahb_hreadyout" = 1 /\ e2 "ahb_hreset" <> 0
  /\ e2 (if truthy (req_write r) then "ahb_hwdata" else "ahb_hrdata")
     = match r with WriteReq _ data => default 0 (head data) | ReadReq addr => rdf addr end.
Proof using assign_fits width_ports dut_ready dut_reads.
  intros Hr Ht Hw Ha e2. subst e2. destruct width_ports as (H1 & H2 & H3).
  destruct (dut_ready e) as [H4 H5].
  destruct Hr as [addr word Hwa Hwd|addr Hra]; simpl in Hw, Ha.
  - repeat split; try done.
    + transitivity (assign "ahb_htrans" 0); [done|]. apply (fits_small _ _ 2); lia.
    + transitivity (assign "ahb_hwdata" word); [done|]. apply assign_fits. by rewrite H3.
  - repeat split; try done.
    + transitivity (assign "ahb_htrans" 0); [done|]. apply (fits_small _ _ 2); lia.
    + transitivity (dut e "ahb_hrdata"); [done|]. by rewrite dut_reads, Ha.
Qed.

(** A wait that ends at once. *)
Lemma cosim_wait m (A : proc BusItem unit) (k : proc BusItem unit) e e' p' :
  e "ahb_hreadyout" = 1 ->
  settle assign (A ;;; k) e (dut e) = (e', p') ->
  cosim assign dut "ahb_hclk" (S m) ((ahb_wait "ahb_hreadyout" ;;; A) ;;; k) e
  = Sample (RisingEdge "ahb_hclk") e :: cosim assign dut "ahb_hclk" m p' e'.
Proof.
  intros He Hs. apply (cosim_step "ahb_hclk" assign dut m
    (fun e => ((if e "ahb_hreadyout" =? 1 then Ret tt
       else wait_for TimeoutError "ahb_hclk" (fun e => e "ahb_hreadyout" =? 1) 199) ;;; A) ;;; k)).
  rewrite He. exact Hs.
Qed.

(** The three edges of a request. *)
Lemma cosim_request m r rs e :
  req_ok r -> Forall req_ok rs ->
  let e1 := after_address r e in
  let e2 := after_data r e1 in
  cosim assign dut "ahb_hclk" (S (S (S m))) (started r (AHBLiteManagerDriver_run_phase dw rs)) e
  = Sample (RisingEdge "ahb_hclk") e :: Sample (RisingEdge "ahb_hclk") e1
    :: Sample (RisingEdge "ahb_hclk") e2 :: cosim assign dut "ahb_hclk" m (settled rs) (dut e2).
Proof using assign_fits width_ports hsize_1 dut_ready dut_reads.
  intros Hr Hrs e1 e2. destruct (after_address_ports r e Hr) as (P1 & P2 & P3 & P4 & P5).
  fold e1 in P1, P2, P3, P4, P5.
  destruct (after_data_ports r e1 Hr P1 P2 P3) as (Q1 & Q2 & Q3 & _). fold e2 in Q1, Q2, Q3.
  set (k := AHBLiteManagerDriver_run_phase dw rs).
  set (phase := match r with
                | WriteReq addr data => write_phase dw addr data
                | ReadReq addr => read_phase dw addr 1
                end).
  transitivity (Sample (RisingEdge "ahb_hclk") e :: cosim assign dut "ahb_hclk" (S (S m))
    ((ahb_wait "ahb_hreadyout" ;;; phase) ;;; k) e1).
  { apply (cosim_step "ahb_hclk" assign dut _ (fun _ => _)). reflexivity. }
  f_equal. rewrite (cosim_wait _ _ _ e1 e2 ((ahb_wait "ahb_hreadyout" ;;; Ret tt) ;;; k));
    [|done|subst phase e2; destruct Hr; reflexivity].
  f_equal. apply cosim_wait; [done|]. cbn [pbind]. subst k. by apply ahb_settle_driver.
Qed.

Lemma cosim_requests rs e :
  Forall req_ok rs ->
  cosim assign dut "ahb_hclk" (S (3 * length rs)) (settled rs) e = req_samples rs e.
Proof using assign_fits width_ports hsize_1 dut_ready dut_reads.
  intros Hr. revert e. induction Hr as [|r rs Hr Hrs IH]; intros e; [done|].
  replace (S (3 * length (r :: rs)))%nat with (S (S (S (S (3 * length rs))))) by (simpl; lia).
  cbn [settled]. rewrite cosim_request by done. cbn [req_samples]. by rewrite IH.
Qed.

Lemma watch_productive : productive (watch_body dw).
Proof.
  intros w cur tr acts w' cur' tr' E. unfold watch_body, wait_reset in E. cbn [pbind now run] in E.
  set (rest := fun w => e <- await (RisingEdge "ahb_hclk") ;;
    if truthy (e "ahb_hreadyout") then w <- sample_data dw e w ;; sample_bus e w else Ret w) in E.
  assert (Hp : productive rest) by (apply productive_await; intros; by eexists _, _).
  destruct (cur "ahb_hreset" =? 0).
  - cbn [pbind await run] in E. destruct (next_firing _ tr) as [[e r]|] eqn:F; [|done].
    apply next_firing_shorter in F. pose proof (Hp w e r acts w' cur' tr' E). lia.
  - exact (Hp w cur tr acts w' cur' tr' E).
Qed.

Lemma watch_step w cur e tr acts w' :
  cur "ahb_hreset" <> 0 -> e "ahb_hreadyout" = 1 ->
  run (w <- sample_data dw e w ;; sample_bus e w) e tr = (acts, Done w' e tr) ->
  monitor_items (watch_body dw) w cur (Sample (RisingEdge "ahb_hclk") e :: tr)
  = published acts ++ monitor_items (watch_body dw) w' e tr.
Proof.
  intros Hc He Hr. apply monitor_items_step; [apply watch_productive|].
  unfold watch_body, wait_reset. cbn [pbind now run]. apply Z.eqb_neq in Hc as ->.
  cbn [pbind await]. rewrite run_await_hit, He. exact Hr.
Qed.

Lemma octets v : bus_octets dw v = Ok (le_bytes n v).
Proof. apply collect_all_bytes. Qed.

(** The monitor between two requests: nothing, or a transfer to report at the
    next idle cycle. *)
Definition watch_idle (w : Watch) (last : list BusItem) : Prop :=
  (data_stage w = false /\ last = [])
  \/ (data_stage w = true /\ htrans w = Some IDLE
      /\ last = [if truthy (hwrite w)
                 then Write {| w_addr := haddr w; w_data := hdata w; w_resp := None |}
                 else Read {| r_addr := haddr w; r_data := Some (hdata w); r_resp := None |}]).

Lemma watch_idle_step w last cur e tr :
  watch_idle w last -> cur "ahb_hreset" <> 0 -> e "ahb_hreadyout" = 1 -> e "ahb_htrans" = 0 ->
  exists w', data_stage w' = false
    /\ monitor_items (watch_body dw) w cur (Sample (RisingEdge "ahb_hclk") e :: tr)
       = last ++ monitor_items (watch_body dw) w' e tr.
Proof.
  intros Hw Hc He Ht. destruct w as [ds hd ha ht hw]. unfold watch_idle in Hw. cbn in Hw.
  exists {| data_stage := false; hdata := hd; haddr := ha; htrans := Some IDLE; hwrite := hw |}.
  split; [done|]. destruct Hw as [[-> ->]|(-> & -> & ->)];
    (etransitivity; [apply watch_step; [done|done|]; unfold sample_bus; cbn; rewrite Ht; reflexivity|done]).
Qed.

(** A request, from the idle cycle before it. *)
Lemma watch_request w last cur r e rs :
  watch_idle w last -> cur "ahb_hreset" <> 0 -> e "ahb_hreadyout" = 1 -> e "ahb_hreset" <> 0 ->
  e "ahb_htrans" = 0 -> req_ok r ->
  let e1 := after_address r e in
  let e2 := after_data r e1 in
  exists w', watch_idle w' [observed r]
    /\ monitor_items (watch_body dw) w cur (req_samples (r :: rs) e)
       = last ++ monitor_items (watch_body dw) w' e2 (req_samples rs (dut e2)).
Proof using assign_fits width_ports dut_ready dut_reads.
  intros Hw Hc He Hrst Ht Hr e1 e2.
  destruct (after_address_ports r e Hr) as (P1 & P2 & P3 & P4 & P5). fold e1 in P1, P2, P3, P4, P5.
  destruct (after_data_ports r e1 Hr P1 P2 P3) as (Q1 & Q2 & Q3 & Q4). fold e2 in Q1, Q2, Q3, Q4.
  cbn [req_samples]. fold e1 e2. clearbody e2. clearbody e1.
  destruct (watch_idle_step w last cur e (Sample (RisingEdge "ahb_hclk") e1
    :: Sample (RisingEdge "ahb_hclk") e2 :: req_samples rs (dut e2)) Hw Hc He Ht) as (w0 & Hw0 & ->).
  destruct w0 as [ds hd ha ht hw]. cbn in Hw0. subst ds.
  rewrite (watch_step _ _ _ _ [] {| data_stage := true; hdata := []; haddr := req_addr r;
    htrans := Some NONSEQ; hwrite := req_write r |}); [|done|done|];
    [|unfold sample_bus; cbn; rewrite P1; cbn; by rewrite P2, P3].
  eexists. split; [|rewrite (watch_step _ _ _ _ [] {| data_stage := true;
    hdata := le_bytes n (match r with WriteReq _ data => default 0 (head data) | ReadReq addr => rdf addr end);
    haddr := req_addr r; htrans := Some IDLE; hwrite := req_write r |}); [reflexivity|done|done|]].
  - right. split; [done|]. split; [done|]. by destruct r.
  - unfold sample_data. cbn [data_stage htrans is_transfer hwrite hdata haddr]. rewrite Q4, octets.
    unfold sample_bus. cbn. rewrite Q1. reflexivity.
Qed.

(** C10: with an always-ready unit under test, the monitor reports exactly the
    single-word transfers the manager issues, in order: each write with the
    address and the octets of its word, each read with the address and the
    octets the unit under test returned for it. *)
Theorem ahb_monitor_roundtrip rs e :
  Forall req_ok rs -> e "ahb_hreadyout" = 1 -> e "ahb_hreset" <> 0 -> e "ahb_htrans" = 0 ->
  let '(e0, p0) := settle assign (AHBLiteManagerDriver_run_phase dw rs) e e in
  monitor_items (watch_body dw) Watch_init e
    (cosim assign dut "ahb_hclk" (S (3 * length rs)) p0 e0) = observed <$> rs.
Proof using assign_fits width_ports hsize_1 dut_ready dut_inputs dut_reads.
  intros Hr He Hrst Ht. rewrite ahb_settle_driver, cosim_requests by done.
  enough (forall w last cur e, watch_idle w last -> cur "ahb_hreset" <> 0 -> e "ahb_hreadyout" = 1 ->
    e "ahb_hreset" <> 0 -> e "ahb_htrans" = 0 ->
    monitor_items (watch_body dw) w cur (req_samples rs e) = last ++ (observed <$> rs)) as H.
  { apply (H Watch_init [] e e); try done. by left. }
  clear e He Hrst Ht.
  induction Hr as [|r rs Hr Hrs IH]; intros w last cur e Hw Hc He Hrst Ht.
  - cbn [req_samples]. destruct (watch_idle_step w last cur e [] Hw Hc He Ht) as (w' & _ & ->).
    rewrite monitor_items_nil; [done|]. unfold watch_body, wait_reset. cbn [pbind now run].
    by apply Z.eqb_neq in Hrst as ->.
  - destruct (watch_request w last cur r e rs Hw Hc He Hrst Ht Hr) as (w' & Hw' & ->).
    rewrite fmap_cons. f_equal. change (observed r :: (observed <$> rs)) with ([observed r] ++ (observed <$> rs)).
    destruct (after_address_ports r e Hr) as (P1 & P2 & P3 & P4 & P5).
    destruct (after_data_ports r _ Hr P1 P2 P3) as (Q1 & Q2 & Q3 & _).
    destruct (dut_ready (after_data r (after_address r e))) as [D1 D2].
    apply IH; try done. by rewrite dut_inputs by (simpl; tauto).
Qed.
End ClosedLoop.

Definition example_width (s : string) : Z :=
  if String.eqb s "ahb_htrans" then 2 else if String.eqb s "ahb_hwrite" then 1
  else if String.eqb s "ahb_hwdata" then 64 else 32.

Definition example_dut (e : env) : env :=
  upd "ahb_hreadyout" 1 (upd "ahb_hreset" 1 (upd "ahb_hrdata" (e "ahb_haddr" + 5) e)).

Lemma ahb_monitor_roundtrip_witness :
  let rs := [WriteReq 0x100 [0x1122]; ReadReq 0x40] in
  let e := sig_env [("ahb_hreadyout", 1); ("ahb_hreset", 1)] in
  let '(e0, p0) := settle (fun _ v => v) (AHBLiteManagerDriver_run_phase (dw 8) rs) e e in
  monitor_items (watch_body (dw 8)) Watch_init e
    (cosim (fun _ v => v) example_dut "ahb_hclk" 7 p0 e0)
  = [Write {| w_addr := 0x100; w_data := [0x22; 0x11; 0; 0; 0; 0; 0; 0]; w_resp := None |};
     Read {| r_addr := 0x40; r_data := Some [0x45; 0; 0; 0; 0; 0; 0; 0]; r_resp := None |}].
Proof.
  apply (ahb_monitor_roundtrip 8 example_width (fun _ v => v) example_dut (fun a => a + 5)
    (fun s v _ => eq_refl)) with (rs := [WriteReq 0x100 [0x1122]; ReadReq 0x40])
    (e := sig_env [("ahb_hreadyout", 1); ("ahb_hreset", 1)]).
  - repeat split; discriminate.
  - discriminate.
  - split; [reflexivity|discriminate].
  - intros e s [<-|[<-|[<-|[<-|[]]]]]; reflexivity.
  - reflexivity.
  - repeat constructor; simpl; lia.
  - reflexivity.
  - discriminate.
  - reflexivity.
Defined.
