(* ===== verification/Concurrent.v ===== *)
(** * Tasks that run side by side: [cocotb.start_soon] and [Combine]

    A task that was started runs up to its first [await]; at each trigger that
    fires the tasks that wait for it go on, in the order of their start, each
    up to its next [await].  [Combine] runs a list of tasks over the samples of
    a simulation until all have returned or one has raised.  The actions are
    tagged with the number of the task.

    [combine_actions] and [combine_outcome] reduce this to the runs of the tasks
    by themselves: tasks that share no state do not disturb each other. *)

From S2P Require Import Prelude Cocotb.
From stdpp Require Import base list strings.
From Stdlib Require Import ZArith Lia.

#[local] Open Scope list_scope.

Section Tasks.
Context {I A : Type}.
Implicit Types (p : proc I A) (ps : list (proc I A)).

(** Runs a task up to its next [await]. *)
Fixpoint flush (p : proc I A) (cur : env) : list (action I) * proc I A :=
  match p with
  | Now k => flush (k cur) cur
  | Drive s v k => let '(acts, p') := flush k cur in (ADrive s v :: acts, p')
  | Publish i k => let '(acts, p') := flush k cur in (APublish i :: acts, p')
  | LogError k => let '(acts, p') := flush k cur in (AError :: acts, p')
  | p => ([], p)
  end.

(** A trigger fires. *)
Definition resume (s : sample) (p : proc I A) : list (action I) * proc I A :=
  match p with
  | Await t k => if decide (fired s = t) then flush (k (values s)) (values s) else ([], p)
  | p => ([], p)
  end.

(** What is known of a task: it returned, raised, or still waits. *)
Inductive status := Returned (a : A) | Raised (e : exn) | Waiting.

Definition status_of (p : proc I A) : status :=
  match p with Ret a => Returned a | Throw e => Raised e | _ => Waiting end.

(** The first exception among the tasks. *)
Fixpoint first_raised (ps : list (proc I A)) : option exn :=
  match ps with
  | [] => None
  | p :: ps => match status_of p with Raised e => Some e | _ => first_raised ps end
  end.

Fixpoint results (ps : list (proc I A)) : option (list A) :=
  match ps with
  | [] => Some []
  | p :: ps =>
      match status_of p, results ps with Returned a, Some l => Some (a :: l) | _, _ => None end
  end.

(** All tasks at one sample; [i] is the number of the first of them. *)
Fixpoint resume_all (i : nat) (step : proc I A -> list (action I) * proc I A)
    (ps : list (proc I A)) : list (nat * action I) * list (proc I A) :=
  match ps with
  | [] => ([], [])
  | p :: ps =>
      let '(acts, p') := step p in
      let '(acts', ps') := resume_all (S i) step ps in
      (map (fun a => (i, a)) acts ++ acts', p' :: ps')
  end.

(** [await Combine(...)], from the tasks after their start. *)
Fixpoint combine_from (ps : list (proc I A)) (cur : env) (tr : list sample) :
    list (nat * action I) * outcome (list A) :=
  match first_raised ps, results ps with
  | Some e, _ => ([], Crashed e)
  | None, Some l => ([], Done l cur tr)
  | None, None =>
      match tr with
      | [] => ([], Suspended)
      | s :: tr =>
          let '(acts, ps') := resume_all 0 (resume s) ps in
          let '(acts', o) := combine_from ps' (values s) tr in (acts ++ acts', o)
      end
  end.

(** [await Combine(start_soon(p) for p in ps)] *)
Definition Combine (ps : list (proc I A)) (cur : env) (tr : list sample) :
    list (nat * action I) * outcome (list A) :=
  let '(acts, ps') := resume_all 0 (fun p => flush p cur) ps in
  let '(acts', o) := combine_from ps' cur tr in (acts ++ acts', o).

(** The actions of one task. *)
Definition of_task (i : nat) (acts : list (nat * action I)) : list (action I) :=
  omap (fun a => if decide (a.1 = i) then Some a.2 else None) acts.

(** A task by itself: its actions and what became of it. *)
Definition alone (p : proc I A) (cur : env) (tr : list sample) : list (action I) * status :=
  match run p cur tr with
  | (acts, Done a _ _) => (acts, Returned a)
  | (acts, Crashed e) => (acts, Raised e)
  | (acts, Suspended) => (acts, Waiting)
  end.

(** ** Facts *)

Lemma alone_flush p cur tr :
  alone p cur tr = let '(acts, p') := flush p cur in
                   let '(acts', st) := alone p' cur tr in (acts ++ acts', st).
Proof.
  unfold alone. induction p as [a|t k IH|k IH|s v p IH|i p IH|p IH|e]; simpl; try done.
  - by destruct (next_firing t tr) as [[e r]|]; [destruct (run (k e) e r) as [acts [?| |]]|].
  - destruct (flush p cur) as [acts p'], (run p cur tr) as [a1 o1], (run p' cur tr) as [a2 o2].
    destruct o1, o2; simpl in *; congruence.
  - destruct (flush p cur) as [acts p'], (run p cur tr) as [a1 o1], (run p' cur tr) as [a2 o2].
    destruct o1, o2; simpl in *; congruence.
  - destruct (flush p cur) as [acts p'], (run p cur tr) as [a1 o1], (run p' cur tr) as [a2 o2].
    destruct o1, o2; simpl in *; congruence.
Qed.

(** A task that has run up to an [await], a return or an exception. *)
Definition settled (p : proc I A) : Prop :=
  match p with Ret _ | Await _ _ | Throw _ => True | _ => False end.

Lemma flush_settled p cur : settled (flush p cur).2.
Proof. induction p; simpl; try done; by destruct (flush p cur). Qed.

Lemma resume_settled s p : settled p -> settled (resume s p).2.
Proof. destruct p; simpl; try done. intros _. case_decide; [apply flush_settled|done]. Qed.

Lemma alone_finished p cur tr : status_of p <> Waiting -> alone p cur tr = ([], status_of p).
Proof. by destruct p. Qed.

Lemma alone_sample p cur s tr :
  settled p ->
  alone p cur (s :: tr) = let '(acts, p') := resume s p in
                          let '(acts', st) := alone p' (values s) tr in (acts ++ acts', st).
Proof.
  intros Hp. destruct p as [a|t k|k|? ? ?|? ?|?|e]; try done. cbn [resume].
  case_decide as Ht; [rewrite <- alone_flush|]; unfold alone; cbn [run];
    change (next_firing t (s :: tr)) with (if decide (fired s = t) then Some (values s, tr) else next_firing t tr).
  - by destruct (decide (fired s = t)).
  - destruct (decide (fired s = t)); [done|]. destruct (next_firing t tr) as [[e r]|]; [|done].
    by destruct (run (k e) e r) as [? [?| |]].
Qed.

Lemma alone_end p cur : settled p -> alone p cur [] = ([], status_of p).
Proof. by destruct p. Qed.

Lemma of_task_low i k step ps : (k < i)%nat -> of_task k (resume_all i step ps).1 = [].
Proof.
  revert i. induction ps as [|q ps IH]; intros i Hk; [done|]. cbn [resume_all].
  specialize (IH (S i) ltac:(lia)).
  destruct (step q) as [acts q'], (resume_all (S i) step ps) as [acts' ps']. cbn [fst] in *.
  unfold of_task. rewrite omap_app. fold (of_task k acts'). rewrite IH, app_nil_r.
  clear -Hk. induction acts as [|a acts IHa]; [done|]. csimpl. rewrite IHa.
  by rewrite decide_False by lia.
Qed.

Lemma resume_all_of i step ps j p :
  ps !! j = Some p ->
  (resume_all i step ps).2 !! j = Some (step p).2 /\
  of_task (i + j) (resume_all i step ps).1 = (step p).1.
Proof.
  revert i j. induction ps as [|q ps IH]; intros i j Hj; [done|]. cbn [resume_all].
  assert (forall (k : nat) (l : list (action I)), of_task k (map (fun a => (i, a)) l) = if decide (i = k) then l else [])
    as Htag.
  { intros k l. unfold of_task. induction l as [|a l IHl]; [by destruct (decide (i = k))|].
    csimpl. rewrite IHl. by destruct (decide (i = k)). }
  pose proof (fun k => of_task_low (S i) k step ps) as Hlow.
  specialize (IH (S i)). destruct (step q) as [acts q'] eqn:Eq.
  destruct (resume_all (S i) step ps) as [acts' ps'] eqn:E. cbn [fst snd] in *.
  unfold of_task. rewrite omap_app. fold (of_task (i + j) (map (fun a => (i, a)) acts)).
  fold (of_task (i + j) acts'). rewrite Htag. destruct j as [|j].
  - injection Hj as ->. rewrite Eq, Nat.add_0_r, decide_True, Hlow by (done || lia).
    by rewrite app_nil_r.
  - rewrite decide_False by lia. destruct (IH j Hj) as [H1 H2].
    rewrite <- Nat.add_succ_comm. done.
Qed.

Lemma resume_all_length i step ps : length (resume_all i step ps).2 = length ps.
Proof.
  revert i. induction ps as [|p ps IH]; intros i; [done|]. cbn [resume_all]. specialize (IH (S i)).
  destruct (step p), (resume_all (S i) step ps). simpl in *. by rewrite IH.
Qed.

Lemma resume_all_settled i s ps : Forall settled ps -> Forall settled (resume_all i (resume s) ps).2.
Proof.
  intros Hps. revert i. induction Hps as [|p ps Hp _ IH]; intros i; [constructor|]. cbn [resume_all].
  pose proof (resume_settled s p Hp). specialize (IH (S i)).
  destruct (resume s p), (resume_all (S i) (resume s) ps). by constructor.
Qed.

Lemma first_raised_some ps e : first_raised ps = Some e -> exists i p, ps !! i = Some p /\ status_of p = Raised e.
Proof.
  induction ps as [|p ps IH]; [done|]. cbn [first_raised]. destruct (status_of p) eqn:E.
  - intros (i & q & ? & ?)%IH. by exists (S i), q.
  - intros [= ->]. by exists 0%nat, p.
  - intros (i & q & ? & ?)%IH. by exists (S i), q.
Qed.

Lemma first_raised_none ps i p e :
  first_raised ps = None -> ps !! i = Some p -> status_of p <> Raised e.
Proof.
  revert i. induction ps as [|q ps IH]; intros i; [done|]. cbn [first_raised].
  destruct i as [|i]; simpl.
  - intros Hf [= ->] He. by rewrite He in Hf.
  - destruct (status_of q); [apply IH|done|apply IH].
Qed.

Lemma results_some ps l :
  results ps = Some l <-> Forall2 (fun p a => status_of p = Returned a) ps l.
Proof.
  revert l. induction ps as [|p ps IH]; intros l; cbn [results].
  - split; [intros [= <-]; constructor|]. by intros ->%Forall2_nil_inv_l.
  - split.
    + destruct (status_of p) eqn:E; try done. destruct (results ps); [|done].
      intros [= <-]. constructor; [done|by apply IH].
    + intros (a & l' & Ha & Hl & ->)%Forall2_cons_inv_l. rewrite Ha.
      by apply IH in Hl as ->.
Qed.

(** What [Combine] makes of its tasks, in terms of the tasks by themselves. *)
Definition combine_ok ps cur tr (r : list (nat * action I) * outcome (list A)) : Prop :=
  match r.2 with
  | Done l _ rest =>
      Forall2 (fun p a => (alone p cur tr).2 = Returned a) ps l /\
      (forall i p, ps !! i = Some p -> of_task i r.1 = (alone p cur tr).1)
  | Suspended =>
      (exists p, p ∈ ps /\ (alone p cur tr).2 = Waiting) /\
      (forall p e, p ∈ ps -> (alone p cur tr).2 <> Raised e) /\
      (forall i p, ps !! i = Some p -> of_task i r.1 = (alone p cur tr).1)
  | Crashed e =>
      (exists p, p ∈ ps /\ (alone p cur tr).2 = Raised e) /\
      (forall i p, ps !! i = Some p -> of_task i r.1 `prefix_of` (alone p cur tr).1)
  end.

Lemma results_waiting ps :
  first_raised ps = None -> results ps = None -> exists p, p ∈ ps /\ status_of p = Waiting.
Proof.
  induction ps as [|p ps IH]; [done|]. cbn [first_raised results].
  destruct (status_of p) eqn:E; [|done|].
  - intros Hf Hr. destruct (results ps) eqn:Er; [done|].
    destruct (IH Hf eq_refl) as (q & Hq & Hw). exists q. split; [by right|done].
  - intros _ _. exists p. split; [left|done].
Qed.

(** A step that is the same for every task, before the rest of the samples. *)
Lemma combine_ok_step ps ps' acts cur cur' tr tr' step r :
  (forall p, p ∈ ps -> alone p cur tr = let '(a, p') := step p in
                                       let '(a', st) := alone p' cur' tr' in (a ++ a', st)) ->
  resume_all 0 step ps = (acts, ps') ->
  combine_ok ps' cur' tr' r -> combine_ok ps cur tr (acts ++ r.1, r.2).
Proof.
  intros Halone Hstep Hok.
  assert (forall i p, ps !! i = Some p ->
    ps' !! i = Some (step p).2 /\ of_task i acts = (step p).1) as Hget.
  { intros i p Hi. pose proof (resume_all_of 0 step ps i p Hi) as Hr. by rewrite Hstep in Hr. }
  assert (length ps' = length ps) as Hlen.
  { pose proof (resume_all_length 0 step ps) as Hl. by rewrite Hstep in Hl. }
  assert (forall i p, ps !! i = Some p -> exists p', ps' !! i = Some p' /\
    (alone p cur tr).1 = of_task i acts ++ (alone p' cur' tr').1 /\
    (alone p cur tr).2 = (alone p' cur' tr').2) as Hboth.
  { intros i p Hi. destruct (Hget i p Hi) as [Hp' Ha]. exists (step p).2. split; [done|].
    rewrite Ha, (Halone p) by by eapply list_elem_of_lookup_2.
    destruct (step p) as [a q]. simpl. by destruct (alone q cur' tr'). }
  assert (forall p', p' ∈ ps' -> exists p, p ∈ ps /\ (alone p cur tr).2 = (alone p' cur' tr').2) as Hback.
  { intros p' (i & Hi)%list_elem_of_lookup_1. destruct (ps !! i) as [p|] eqn:Ep.
    - destruct (Hboth i p Ep) as (q & Hq & _ & Hst). exists p.
      split; [by eapply list_elem_of_lookup_2|]. congruence.
    - apply lookup_ge_None in Ep. apply lookup_lt_Some in Hi. lia. }
  assert (forall i, of_task i (acts ++ r.1) = of_task i acts ++ of_task i r.1) as Happ.
  { intros i. unfold of_task. by rewrite omap_app. }
  unfold combine_ok in *. destruct r as [acts' o]. cbn [fst snd] in *. destruct o as [l c rest| |e].
  - destruct Hok as (Hl & Hacts). split.
    + apply Forall2_same_length_lookup. apply Forall2_same_length_lookup in Hl as [Hll Hl].
      split; [congruence|]. intros i p a Hi Ha. destruct (Hboth i p Hi) as (p' & Hp' & _ & ->).
      by eapply Hl.
    + intros i p Hi. destruct (Hboth i p Hi) as (p' & Hp' & -> & _). by rewrite Happ, (Hacts i p').
  - destruct Hok as ((p' & Hp' & Hw) & Hnot & Hacts). split; [|split].
    + destruct (Hback p' Hp') as (p & Hp & Hst). exists p. by rewrite Hst.
    + intros p e (i & Hi)%list_elem_of_lookup_1. destruct (Hboth i p Hi) as (q & Hq & _ & ->).
      by eapply Hnot, list_elem_of_lookup_2.
    + intros i p Hi. destruct (Hboth i p Hi) as (q & Hq & -> & _). by rewrite Happ, (Hacts i q).
  - destruct Hok as ((p' & Hp' & Hw) & Hacts). split.
    + destruct (Hback p' Hp') as (p & Hp & Hst). exists p. by rewrite Hst.
    + intros i p Hi. destruct (Hboth i p Hi) as (q & Hq & -> & _). rewrite Happ.
      by apply prefix_app, (Hacts i q).
Qed.

Lemma combine_from_ok ps cur tr :
  Forall settled ps -> combine_ok ps cur tr (combine_from ps cur tr).
Proof.
  revert ps cur. induction tr as [|s tr IH]; intros ps cur Hps; cbn [combine_from].
  all: destruct (first_raised ps) as [e|] eqn:Ef;
    [apply first_raised_some in Ef as (i & p & Hi & Hp); split;
      [exists p; split; [by eapply list_elem_of_lookup_2|];
       rewrite alone_finished by congruence; done
      |intros; apply prefix_nil]|].
  all: destruct (results ps) as [l|] eqn:Er.
  1, 3: apply results_some in Er; split;
    [eapply Forall2_impl; [exact Er|]; intros p a Hp; by rewrite alone_finished by congruence
    |].
  1, 2: intros i p Hi; destruct (Forall2_lookup_l _ _ _ _ _ Er Hi) as (a & _ & Ha);
    by rewrite alone_finished by congruence.
  - rewrite Forall_forall in Hps. split; [|split].
    + destruct (results_waiting ps Ef Er) as (p & Hp & Hw). exists p. split; [done|].
      by rewrite alone_end by by apply Hps.
    + intros p e (i & Hi)%list_elem_of_lookup_1.
      rewrite alone_end by (by eapply Hps, list_elem_of_lookup_2). by eapply first_raised_none.
    + intros i p Hi. by rewrite alone_end by (by eapply Hps, list_elem_of_lookup_2).
  - destruct (resume_all 0 (resume s) ps) as [acts ps'] eqn:Estep.
    assert (Forall settled ps') as Hps'.
    { replace ps' with (resume_all 0 (resume s) ps).2 by by rewrite Estep. by apply resume_all_settled. }
    specialize (IH ps' (values s) Hps').
    pose proof (combine_ok_step ps ps' acts cur (values s) (s :: tr) tr (resume s)
      (combine_from ps' (values s) tr)) as Hstep.
    destruct (combine_from ps' (values s) tr) as [acts' o]. apply Hstep; try done.
    intros p Hp. apply alone_sample. by apply (proj1 (Forall_forall _ _) Hps).
Qed.

(** [Combine] returns at the first sample at which every task has returned. *)
Lemma combine_from_time ps cur tr acts l c rest :
  Forall settled ps -> combine_from ps cur tr = (acts, Done l c rest) ->
  exists used, tr = used ++ rest /\ (forall p, p ∈ ps -> exists a, (alone p cur used).2 = Returned a) /\
    forall n, (n < length used)%nat -> exists p, p ∈ ps /\ (alone p cur (take n tr)).2 = Waiting.
Proof.
  revert ps cur acts. induction tr as [|s tr IH]; intros ps cur acts Hps; cbn [combine_from].
  all: destruct (first_raised ps) as [e|] eqn:Ef; [done|].
  all: destruct (results ps) as [l'|] eqn:Er; try done.
  1, 2: intros [= _ _ _ <-]; exists []; split; [done|split; [|intros n Hn; simpl in Hn; lia]].
  1, 2: apply results_some in Er; intros p (i & Hi)%list_elem_of_lookup_1;
    destruct (Forall2_lookup_l _ _ _ _ _ Er Hi) as (a & _ & Ha); exists a;
    by rewrite alone_finished by congruence.
  destruct (resume_all 0 (resume s) ps) as [a ps'] eqn:Estep.
  destruct (combine_from ps' (values s) tr) as [a' o] eqn:Ec. intros [= _ ->].
  destruct (IH ps' (values s) a') as (used & -> & Hret & Hused); [|done|].
  { replace ps' with (resume_all 0 (resume s) ps).2 by by rewrite Estep. by apply resume_all_settled. }
  exists (s :: used). split; [done|]. split.
  { intros p Hp. rewrite alone_sample by by apply (proj1 (Forall_forall _ _) Hps).
    apply list_elem_of_lookup_1 in Hp as (i & Hi).
    pose proof (resume_all_of 0 (resume s) ps i p Hi) as [Hr _]. rewrite Estep in Hr.
    apply list_elem_of_lookup_2 in Hr. destruct (Hret _ Hr) as (b & Hb). exists b.
    cbn [snd] in Hb. destruct (resume s p) as [c1 q]. cbn [snd] in Hb. by destruct (alone q (values s) used). }
  intros [|n] Hn.
  - destruct (results_waiting ps Ef Er) as (p & Hp & Hw). exists p. split; [done|].
    cbn [take]. rewrite alone_end; [done|]. by apply (proj1 (Forall_forall _ _) Hps).
  - simpl in Hn. destruct (Hused n ltac:(lia)) as (q & (i & Hq)%list_elem_of_lookup_1 & Hw).
    destruct (ps !! i) as [p|] eqn:Ep.
    + exists p. split; [by eapply list_elem_of_lookup_2|].
      pose proof (resume_all_of 0 (resume s) ps i p Ep) as [Hr _]. rewrite Estep in Hr. cbn [snd] in Hr.
      rewrite Hq in Hr. injection Hr as ->. cbn [take app].
      rewrite alone_sample by by eapply Forall_lookup_1.
      destruct (resume s p) as [b q]. cbn [snd] in Hw. by destruct (alone q (values s) _).
    + pose proof (resume_all_length 0 (resume s) ps) as Hl. rewrite Estep in Hl. cbn [snd] in Hl.
      apply lookup_ge_None in Ep. apply lookup_lt_Some in Hq. lia.
Qed.

Lemma flush_all_settled i ps cur : Forall settled (resume_all i (fun p => flush p cur) ps).2.
Proof.
  revert i. induction ps as [|p ps IH]; intros i; [constructor|]. cbn [resume_all].
  pose proof (flush_settled p cur). specialize (IH (S i)).
  destruct (flush p cur), (resume_all (S i) _ ps). by constructor.
Qed.

(** The theorem for tasks at their start. *)
Lemma Combine_spec ps cur tr : combine_ok ps cur tr (Combine ps cur tr).
Proof.
  unfold Combine. destruct (resume_all 0 (fun p => flush p cur) ps) as [acts ps'] eqn:E.
  assert (Forall settled ps') as Hps'.
  { replace ps' with (resume_all 0 (fun p => flush p cur) ps).2 by by rewrite E. apply flush_all_settled. }
  pose proof (combine_from_ok ps' cur tr Hps') as Hok.
  pose proof (combine_ok_step ps ps' acts cur cur tr tr (fun p => flush p cur)
    (combine_from ps' cur tr)) as Hstep.
  destruct (combine_from ps' cur tr) as [acts' o]. apply Hstep; try done.
  intros p _. apply alone_flush.
Qed.

Lemma Combine_time ps cur tr acts l c rest :
  Combine ps cur tr = (acts, Done l c rest) ->
  exists used, tr = used ++ rest /\ (forall p, p ∈ ps -> exists a, (alone p cur used).2 = Returned a) /\
    forall n, (n < length used)%nat -> exists p, p ∈ ps /\ (alone p cur (take n tr)).2 = Waiting.
Proof.
  unfold Combine. destruct (resume_all 0 (fun p => flush p cur) ps) as [a ps'] eqn:E.
  destruct (combine_from ps' cur tr) as [a' o] eqn:Ec. intros [= _ ->].
  assert (Forall settled ps') as Hps'.
  { replace ps' with (resume_all 0 (fun p => flush p cur) ps).2 by by rewrite E. apply flush_all_settled. }
  destruct (combine_from_time ps' cur tr a' l c rest Hps' Ec) as (used & -> & Hret & Hused).
  exists used. split; [done|]. split.
  { intros p Hp. rewrite alone_flush. apply list_elem_of_lookup_1 in Hp as (i & Hi).
    pose proof (resume_all_of 0 (fun p => flush p cur) ps i p Hi) as [Hr _]. rewrite E in Hr.
    apply list_elem_of_lookup_2 in Hr. destruct (Hret _ Hr) as (b & Hb). exists b.
    cbn [snd] in Hb. destruct (flush p cur) as [c1 q]. cbn [snd] in Hb. by destruct (alone q cur used). }
  intros n Hn.
  destruct (Hused n Hn) as (q & (i & Hq)%list_elem_of_lookup_1 & Hw).
  destruct (ps !! i) as [p|] eqn:Ep.
  - exists p. split; [by eapply list_elem_of_lookup_2|].
    pose proof (resume_all_of 0 (fun p => flush p cur) ps i p Ep) as [Hr _].
    rewrite E in Hr. cbn [snd] in Hr. rewrite Hq in Hr. injection Hr as ->.
    rewrite alone_flush. destruct (flush p cur) as [b q]. cbn [snd] in Hw. by destruct (alone q cur _).
  - pose proof (resume_all_length 0 (fun p => flush p cur) ps) as Hl. rewrite E in Hl. cbn [snd] in Hl.
    apply lookup_ge_None in Ep. apply lookup_lt_Some in Hq. lia.
Qed.

(** The three ways in which [Combine] ends. *)
Lemma Combine_returned ps cur tr :
  (forall p, p ∈ ps -> exists a, (alone p cur tr).2 = Returned a) ->
  (exists l c rest, (Combine ps cur tr).2 = Done l c rest) /\
  forall i p, ps !! i = Some p -> of_task i (Combine ps cur tr).1 = (alone p cur tr).1.
Proof.
  intros Hret. pose proof (Combine_spec ps cur tr) as Hok. unfold combine_ok in Hok.
  destruct (Combine ps cur tr) as [acts o]. cbn [fst snd] in *. destruct o as [l c rest| |e].
  - destruct Hok as [_ Hacts]. split; [by exists l, c, rest|done].
  - destruct Hok as ((p & Hp & Hw) & _). destruct (Hret p Hp). congruence.
  - destruct Hok as ((p & Hp & Hw) & _). destruct (Hret p Hp). congruence.
Qed.

Lemma Combine_raised ps cur tr e p :
  p ∈ ps -> (alone p cur tr).2 = Raised e ->
  (forall p e', p ∈ ps -> (alone p cur tr).2 = Raised e' -> e' = e) ->
  (Combine ps cur tr).2 = Crashed e.
Proof.
  intros Hp He Hall. pose proof (Combine_spec ps cur tr) as Hok. unfold combine_ok in Hok.
  destruct (Combine ps cur tr) as [acts o]. cbn [fst snd] in *. destruct o as [l c rest| |e'].
  - destruct Hok as [Hl _]. apply list_elem_of_lookup_1 in Hp as (i & Hi).
    destruct (Forall2_lookup_l _ _ _ _ _ Hl Hi) as (a & _ & Ha). congruence.
  - destruct Hok as (_ & Hnr & _). by apply Hnr in He.
  - destruct Hok as ((q & Hq & He') & _). f_equal. by eapply Hall.
Qed.

Lemma Combine_waiting ps cur tr p :
  p ∈ ps -> (alone p cur tr).2 = Waiting ->
  (forall p e, p ∈ ps -> (alone p cur tr).2 <> Raised e) -> (Combine ps cur tr).2 = Suspended.
Proof.
  intros Hp Hw Hall. pose proof (Combine_spec ps cur tr) as Hok. unfold combine_ok in Hok.
  destruct (Combine ps cur tr) as [acts o]. cbn [fst snd] in *. destruct o as [l c rest| |e].
  - destruct Hok as [Hl _]. apply list_elem_of_lookup_1 in Hp as (i & Hi).
    destruct (Forall2_lookup_l _ _ _ _ _ Hl Hi) as (a & _ & Ha). congruence.
  - done.
  - destruct Hok as ((q & Hq & He) & _). by apply Hall in He.
Qed.
End Tasks.
