(* ===== verification/AhbAxiDriver.v ===== *)
(** * The driver of the AXI subordinate: AXI4LiteSubordinateDriver of
    verification/block/lib_ahb_to_axi4/testbench.py

    An item names channels; the driver starts a responder of AhbAxi.v, or an
    assignment of the ready signal, for each of them and waits until all have
    finished.  Concurrent.v gives the meaning of that. *)

From S2P Require Import Prelude Cocotb Concurrent AhbAxi.
From stdpp Require Import base list strings.
From Stdlib Require Import ZArith Lia.

#[local] Open Scope Z_scope.
#[local] Open Scope string_scope.
#[local] Open Scope list_scope.

(** The items of the sequences, with a random value for each response; any
    other item is [OtherItem]. *)
Inductive SubItem :=
  | AXI4LiteResponseItem (channels : list (string * Z))
  | AXI4LiteReadyItem (channels : list string) (ready : bool)
  | OtherItem.

Section Driver.
Variable dwidth : Z.

(** [[func_map[c]() for c in it.channels]] *)
Fixpoint response_tasks (channels : list (string * Z)) : result (list (proc BusItem unit)) :=
  match channels with
  | [] => Ok []
  | (c, r) :: channels =>
      let! p := respond dwidth c r in
      let! ps := response_tasks channels in Ok (p :: ps)
  end.

Definition item_tasks (it : SubItem) : result (list (proc BusItem unit)) :=
  match it with
  | AXI4LiteResponseItem channels => response_tasks channels
  | AXI4LiteReadyItem channels ready => Ok (map (fun c => set_ready c ready) channels)
  | OtherItem => Raise RuntimeError
  end.

(** One item of [run_phase], up to [item_done]. *)
Definition AXI4LiteSubordinateDriver_item (it : SubItem) (cur : env) (tr : list sample) :
    list (nat * action BusItem) * outcome (list unit) :=
  match item_tasks it with
  | Ok tasks => Combine tasks cur tr
  | Raise e => ([], Crashed e)
  end.

(** [run_phase]: the items one after the other. *)
Fixpoint AXI4LiteSubordinateDriver_run_phase (items : list SubItem) (cur : env) (tr : list sample) :
    list (nat * action BusItem) * outcome unit :=
  match items with
  | [] => ([], Done tt cur tr)
  | it :: items =>
      match AXI4LiteSubordinateDriver_item it cur tr with
      | (acts, Done _ cur tr) =>
          let '(acts', o) := AXI4LiteSubordinateDriver_run_phase items cur tr in (acts ++ acts', o)
      | (acts, Suspended) => (acts, Suspended)
      | (acts, Crashed e) => (acts, Crashed e)
      end
  end.
End Driver.

(** * Theorems *)

(** The samples are edges of the clock. *)
Definition clocked (tr : list sample) : Prop := Forall (fun s => fired s = RisingEdge "axi_clk") tr.

(** What the subordinate does on a channel: it drives some signals, waits for at
    most 200 edges until the signal of the other side is high, answers at this
    edge, and on the channels of the responses takes the answer back one edge
    later. *)
Record responder := Responder {
  before : list (string * Z); watched : string; answer : list (string * Z);
  back : option (list (string * Z)) }.

Definition channel_responder (dwidth : Z) (ch : string * Z) : option responder :=
  match List.find (fun e => String.eqb e.1 ch.1)
    [("aw", Responder [("axi_awready", 1)] "axi_awvalid" [("axi_awready", 0)] None);
     ("w", Responder [("axi_wready", 1)] "axi_wvalid" [("axi_wready", 0)] None);
     ("b", Responder [] "axi_bready" [("axi_bvalid", 1); ("axi_bid", 0); ("axi_bresp", 0)]
             (Some [("axi_bvalid", 0)]));
     ("ar", Responder [("axi_arready", 1)] "axi_arvalid" [("axi_arready", 0)] None);
     ("r", Responder [] "axi_rready"
             [("axi_rvalid", 1); ("axi_rdata", randrange 0 (2 ^ dwidth - 1) ch.2)]
             (Some [("axi_rvalid", 0)]))] with
  | Some e => Some e.2
  | None => None
  end%Z.

(** Within 200 edges the other side asserts the signal. *)
Definition answered (s : responder) (tr : list sample) : bool :=
  existsb (fun x => negb (values x (watched s) =? 0)%Z) (take 200 tr).

(** The channel is done: answered, and an edge later if the answer is taken back. *)
Definition completed (s : responder) (tr : list sample) : bool :=
  answered s (match back s with None => tr | Some _ => removelast tr end).

Definition timed_out (s : responder) (tr : list sample) : bool :=
  (200 <=? length tr)%nat && negb (answered s tr).

(** The signals that a channel which is done has driven, in order. *)
Definition driven (s : responder) : list (action BusItem) :=
  (fun d => ADrive d.1 d.2) <$> before s ++ answer s ++ default [] (back s).

Section Task.
Context (cur : env).

Definition drives (ds : list (string * Z)) : proc BusItem unit := for_each ds (fun d => drive d.1 d.2).

Definition task (s : responder) : proc BusItem unit :=
  drives (before s) ;;;
  sub_wait (watched s) ;;;
  match back s with
  | None => drives (answer s)
  | Some ds => drives (answer s) ;;; _ <- await (RisingEdge "axi_clk") ;; drives ds
  end.

(** The first edge, of at most [n], that shows the signal. *)
Fixpoint first_high (v : string) (n : nat) (tr : list sample) : option (env * list sample) :=
  match n, tr with
  | S n, x :: tr => if negb (values x v =? 0)%Z then Some (values x, tr) else first_high v n tr
  | _, _ => None
  end.

Lemma run_wait v n c tr :
  clocked tr ->
  run (I := BusItem) (wait_for TimeoutError "axi_clk" (fun e => negb (e v =? 0)%Z) n) c tr
  = ([], match first_high v n tr with
         | Some (e, rest) => Done tt e rest
         | None => if (n <=? length tr)%nat then Crashed TimeoutError else Suspended
         end).
Proof.
  intros Hc. revert n c. induction Hc as [|[t e] tr Hs Hc IH]; intros n c; [by destruct n|].
  destruct n as [|n]; [done|]. cbn [fired] in Hs. subst t.
  cbn [wait_for await pbind]. rewrite run_await_hit. cbn [first_high values length].
  destruct (negb (e v =? 0)%Z); [done|]. rewrite IH. done.
Qed.

Lemma first_high_answered v n tr :
  existsb (fun x => negb (values x v =? 0)%Z) (take n tr)
  = match first_high v n tr with Some _ => true | None => false end.
Proof.
  revert n. induction tr as [|x tr IH]; intros [|n]; try done.
  cbn [take existsb first_high]. rewrite IH. by destruct (negb _).
Qed.

Lemma first_high_removelast v n tr :
  existsb (fun x => negb (values x v =? 0)%Z) (take n (removelast tr))
  = match first_high v n tr with Some (_, _ :: _) => true | _ => false end.
Proof.
  revert n. induction tr as [|x tr IH]; intros [|n]; try done.
  destruct tr as [|y tr]; [cbn; destruct (negb _); by destruct n|].
  change (removelast (x :: y :: tr)) with (x :: removelast (y :: tr)).
  cbn [take existsb]. rewrite IH. change (first_high v (S n) (x :: y :: tr)) with
    (if negb (values x v =? 0)%Z then Some (values x, y :: tr) else first_high v n (y :: tr)).
  by destruct (negb _).
Qed.

Lemma first_high_clocked v n tr e rest : clocked tr -> first_high v n tr = Some (e, rest) -> clocked rest.
Proof.
  intros Hc. revert n. induction Hc as [|x tr Hx Hc IH]; intros [|n]; try done.
  cbn [first_high]. destruct (negb _); [by intros [= _ <-]|apply IH].
Qed.

Definition acts_of (ds : list (string * Z)) : list (action BusItem) := (fun d => ADrive d.1 d.2) <$> ds.

Lemma run_drives ds c tr : run (drives ds) c tr = (acts_of ds, Done tt c tr).
Proof.
  induction ds as [|d ds IH]; [done|]. unfold drives in *. cbn [for_each pbind drive run]. by rewrite IH.
Qed.

(** A channel by itself. *)
Lemma alone_task s tr :
  clocked tr ->
  if completed s tr then alone (task s) cur tr = (driven s, Returned tt)
  else (alone (task s) cur tr).2 = if timed_out s tr then Raised TimeoutError else Waiting.
Proof.
  intros Hc. unfold alone, task. rewrite !run_pbind, run_drives, run_pbind.
  unfold sub_wait. rewrite run_wait by done.
  unfold completed, timed_out, answered, driven.
  destruct (back s) as [ds|]; rewrite ?first_high_removelast, !first_high_answered.
  - destruct (first_high (watched s) 200 tr) as [[e [|x rest]]|] eqn:E.
    + rewrite andb_false_r. by rewrite run_pbind, run_drives.
    + rewrite run_pbind, run_drives. apply first_high_clocked in E; [|done].
      inversion E as [|? ? Hx _]; subst. destruct x as [t v]. cbn [fired] in Hx. subst t.
      cbn [await pbind]. rewrite run_await_hit, run_drives.
      unfold acts_of. by rewrite !fmap_app, app_nil_l.
    + rewrite andb_true_r. by destruct (200 <=? length tr)%nat.
  - destruct (first_high (watched s) 200 tr) as [[e rest]|].
    + rewrite run_drives. unfold acts_of. by rewrite !fmap_app, app_nil_r, app_nil_l.
    + rewrite andb_true_r. by destruct (200 <=? length tr)%nat.
Qed.
End Task.

Lemma forallb_false {A} (g : A -> bool) l : forallb g l = false -> exists x, x ∈ l /\ g x = false.
Proof.
  induction l as [|x l IH]; [done|]. simpl. destruct (g x) eqn:E.
  - intros (y & ? & ?)%IH. exists y. split; [by right|done].
  - intros _. exists x. split; [left|done].
Qed.

Section Response.
Context (sigs : list responder) (cur : env).

Lemma tasks_elem p : p ∈ map task sigs -> exists s, s ∈ sigs /\ p = task s.
Proof. intros (s & -> & Hs)%list_elem_of_fmap. by exists s. Qed.

Lemma all_completed tr :
  forallb (fun s => completed s tr) sigs = true <-> forall s, s ∈ sigs -> completed s tr = true.
Proof. rewrite forallb_forall. split; intros H s Hs; apply H; by apply list_elem_of_In. Qed.

Lemma task_returned s tr a : clocked tr -> (alone (task s) cur tr).2 = Returned a -> completed s tr = true.
Proof.
  intros Hc Ha. pose proof (alone_task cur s tr Hc) as H. destruct (completed s tr); [done|].
  rewrite H in Ha. by destruct (timed_out s tr).
Qed.

Lemma responses_done tr :
  clocked tr -> forallb (fun s => completed s tr) sigs = true ->
  (exists l c rest used, (Combine (map task sigs) cur tr).2 = Done l c rest /\ tr = used ++ rest /\
     forallb (fun s => completed s used) sigs = true /\
     forall n, (n < length used)%nat -> forallb (fun s => completed s (take n tr)) sigs = false) /\
  forall i s, sigs !! i = Some s -> of_task i (Combine (map task sigs) cur tr).1 = driven s.
Proof.
  intros Hc Hall. rewrite all_completed in Hall.
  assert (forall s, s ∈ sigs -> alone (task s) cur tr = (driven s, Returned tt)) as Halone.
  { intros s Hs. pose proof (alone_task cur s tr Hc) as H. by rewrite Hall in H. }
  destruct (Combine_returned (map task sigs) cur tr) as [(l & c & rest & Hdone) Hacts].
  { intros p (s & Hs & ->)%tasks_elem. exists tt. by rewrite Halone. }
  split.
  - destruct (Combine (map task sigs) cur tr) as [acts o] eqn:Er. cbn [snd] in Hdone. subst o.
    destruct (Combine_time _ _ _ _ _ _ _ Er) as (used & Hused & Hret & Hmin).
    exists l, c, rest, used. split; [done|]. split; [done|].
    assert (clocked used) as Hcu by (rewrite Hused in Hc; by apply Forall_app in Hc as [? _]).
    split.
    + apply all_completed. intros s Hs.
      destruct (Hret (task s)) as (a & Ha); [by apply list_elem_of_fmap_2|]. by eapply task_returned.
    + intros n Hn. destruct (Hmin n Hn) as (p & (s & Hs & ->)%tasks_elem & Hw).
      apply not_true_iff_false. rewrite all_completed. intros Hf.
      pose proof (alone_task cur s (take n tr) ltac:(by apply Forall_take)) as H.
      rewrite Hf in H by done. by rewrite H in Hw.
  - intros i s Hi. rewrite (Hacts i (task s)) by (by apply list_lookup_fmap_Some; exists s).
    by rewrite Halone by (by eapply list_elem_of_lookup_2).
Qed.

Lemma task_raised tr p e :
  clocked tr -> p ∈ map task sigs -> (alone p cur tr).2 = Raised e ->
  e = TimeoutError /\ existsb (fun s => timed_out s tr) sigs = true.
Proof.
  intros Hc (s & Hs & ->)%tasks_elem He. pose proof (alone_task cur s tr Hc) as H.
  destruct (completed s tr); [by rewrite H in He|]. rewrite He in H.
  destruct (timed_out s tr) eqn:Et; [|done]. injection H as ->. split; [done|].
  apply existsb_exists. exists s. split; [by apply list_elem_of_In|done].
Qed.

(** A channel that has timed out is not done. *)
Lemma timed_out_completed s tr : timed_out s tr = true -> completed s tr = false.
Proof.
  unfold timed_out, completed, answered. intros [_ H%negb_true_iff]%andb_true_iff.
  destruct (back s); [|done]. rewrite first_high_removelast. rewrite first_high_answered in H.
  by destruct (first_high _ _ _).
Qed.

Lemma responses_missing tr :
  clocked tr -> forallb (fun s => completed s tr) sigs = false ->
  (Combine (map task sigs) cur tr).2 =
    if existsb (fun s => timed_out s tr) sigs then Crashed TimeoutError else Suspended.
Proof.
  intros Hc Hsome. destruct (existsb _ sigs) eqn:Et.
  - apply existsb_exists in Et as (s & Hs%list_elem_of_In & Ht).
    apply (Combine_raised _ _ _ _ (task s)).
    + by apply list_elem_of_fmap_2.
    + pose proof (alone_task cur s tr Hc) as H. by rewrite timed_out_completed, Ht in H.
    + intros p e Hp He. by eapply task_raised.
  - apply forallb_false in Hsome as (s & Hs & Hno).
    apply (Combine_waiting _ _ _ (task s)).
    + by apply list_elem_of_fmap_2.
    + pose proof (alone_task cur s tr Hc) as H. rewrite Hno in H.
      destruct (timed_out s tr) eqn:E; [|done]. exfalso. apply not_true_iff_false in Et. apply Et.
      apply existsb_exists. exists s. split; [by apply list_elem_of_In|done].
    + intros p e Hp He. apply task_raised in He as [_ ?]; [congruence|done..].
Qed.
End Response.

(** The driver starts exactly the responders of the channels. *)
Lemma respond_channel dwidth ch :
  respond dwidth ch.1 ch.2
  = match channel_responder dwidth ch with Some s => Ok (task s) | None => Raise KeyError end.
Proof.
  destruct ch as [c v]. unfold respond, channel_responder. cbn [List.find fst snd].
  rewrite !(String.eqb_sym c). repeat (destruct (String.eqb _ c); [|]).
  all: try reflexivity.
  unfold respond_r. rewrite Z.shiftl_1_l. reflexivity.
Qed.

Lemma response_tasks_responders dwidth channels :
  response_tasks dwidth channels
  = match mapM (channel_responder dwidth) channels with
    | Some sigs => Ok (map task sigs)
    | None => Raise KeyError
    end.
Proof.
  induction channels as [|[c v] channels IH]; [done|]. cbn [response_tasks mapM].
  rewrite IH. change (respond dwidth c v) with (respond dwidth (c, v).1 (c, v).2).
  rewrite respond_channel. destruct (channel_responder dwidth (c, v)) as [s|]; [|done].
  cbn [mbind option_bind rbind]. by destruct (mapM _ channels).
Qed.

(** C30: the subordinate's driver on a response item for any list of the five
    channels aw, w, b, ar and r, over the edges of the clock.  A channel is done
    when its signal was high within 200 edges; b and r, which take their answer
    back at the next edge, one edge after that.  The item is done at the first
    edge at which every channel is, and then each channel has driven exactly its
    own signals, whatever the others did; otherwise the driver raises
    TimeoutError if 200 edges passed without the signal of some channel, and
    still waits if not.  A name that is no channel raises KeyError. *)
Theorem axi_sub_driver_response dwidth channels cur tr :
  clocked tr ->
  let r := AXI4LiteSubordinateDriver_item dwidth (AXI4LiteResponseItem channels) cur tr in
  match mapM (channel_responder dwidth) channels with
  | None => r.2 = Crashed KeyError
  | Some sigs =>
      (forallb (fun s => completed s tr) sigs = true ->
         (exists l c rest used, r.2 = Done l c rest /\ tr = used ++ rest /\
            forallb (fun s => completed s used) sigs = true /\
            forall n, (n < length used)%nat -> forallb (fun s => completed s (take n tr)) sigs = false) /\
         forall i s, sigs !! i = Some s -> of_task i r.1 = driven s) /\
      (forallb (fun s => completed s tr) sigs = false ->
         r.2 = if existsb (fun s => timed_out s tr) sigs then Crashed TimeoutError else Suspended)
  end.
Proof.
  intros Hc r. unfold r, AXI4LiteSubordinateDriver_item. cbn [item_tasks].
  rewrite response_tasks_responders. destruct (mapM _ channels) as [sigs|]; [|done].
  split; [by apply responses_done|by apply responses_missing].
Qed.

(** Address and data arrive at different edges, and the response after them. *)
Lemma axi_sub_driver_response_witness :
  let edge aw b := Sample (RisingEdge "axi_clk") (sig_env [("axi_awvalid", aw); ("axi_bready", b)]) in
  let r := AXI4LiteSubordinateDriver_item 32 (AXI4LiteResponseItem [("aw", 0%Z); ("b", 0%Z)])
             (sig_env []) [edge 0%Z 0%Z; edge 1%Z 0%Z; edge 0%Z 1%Z; edge 0%Z 1%Z; edge 0%Z 0%Z] in
  (exists l c rest, r.2 = Done l c rest) /\
  of_task 1 r.1 = [ADrive "axi_bvalid" 1%Z; ADrive "axi_bid" 0%Z; ADrive "axi_bresp" 0%Z;
                   ADrive "axi_bvalid" 0%Z].
Proof.
  intros edge r.
  destruct (axi_sub_driver_response 32 [("aw", 0%Z); ("b", 0%Z)] (sig_env [])
    [edge 0%Z 0%Z; edge 1%Z 0%Z; edge 0%Z 1%Z; edge 0%Z 1%Z; edge 0%Z 0%Z]
    ltac:(repeat constructor)) as [H _].
  destruct (H ltac:(vm_compute; reflexivity)) as [(l & c & rest & used & Hd & _) Hacts].
  split; [by exists l, c, rest|]. exact (Hacts 1%nat _ eq_refl).
Defined.
