(* ===== verification/Pmp.v ===== *)
(** * PMP testbench: verification/block/pmp/testbench.py and common.py

    The register map shared by the driver and the scoreboard, the decoding of
    the PMP entries, the driver, the monitor, the scoreboard and the access
    sequences.  [cocotb.binary.BinaryValue] is third-party code and is used
    through the class [BinaryValue]; [simple_bv] is an implementation of it.
    The architecture's address matching ([arch_matches]) is the specification
    the scoreboard is compared with. *)

From S2P Require Import Prelude Cocotb Pulse.
From stdpp Require Import base gmap list strings pretty.
From Stdlib Require Import ZArith Lia.

#[local] Open Scope string_scope.
#[local] Open Scope list_scope.
#[local] Open Scope Z_scope.

(** ** The interface of [BinaryValue(n_bits=.., bigEndian=False)] *)

Class BinaryValue (BV : Type) := {
  bv_make : Z -> Z -> BV;            (** [BinaryValue(value=v, n_bits=n)]: [bv_make n v] *)
  bv_integer : BV -> Z;              (** [b.integer], [int(b)] *)
  bv_len : BV -> nat;                (** [len(b)] *)
  bv_set_integer : BV -> Z -> BV;    (** the object after [b.integer = v] *)
  bv_index : BV -> nat -> BV;        (** [b[i]] *)
  bv_slice : BV -> nat -> nat -> BV; (** [b[h:l]] *)
  bv_set_index : BV -> nat -> Z -> BV;  (** the object [b] after [b[i].value = v] *)
}.

(** Indexing returns a new object: assigning to its [value] leaves [b] as it was. *)
Class BinaryValueSpec (BV : Type) `{!BinaryValue BV} := {
  bv_bound b : 0 <= bv_integer b < 2 ^ Z.of_nat (bv_len b);
  bv_make_len n v : 0 <= n -> bv_len (bv_make n v) = Z.to_nat n;
  bv_make_int n v : 0 <= n -> 0 <= v < 2 ^ n -> bv_integer (bv_make n v) = v;
  bv_set_len b v : bv_len (bv_set_integer b v) = bv_len b;
  bv_set_int b v : 0 <= v < 2 ^ Z.of_nat (bv_len b) -> bv_integer (bv_set_integer b v) = v;
  bv_index_int b i : (i < bv_len b)%nat ->
    bv_integer (bv_index b i) = Z.b2z (Z.testbit (bv_integer b) (Z.of_nat i));
  bv_slice_int b h l : (l <= h < bv_len b)%nat ->
    bv_integer (bv_slice b h l)
    = bv_integer b / 2 ^ Z.of_nat l mod 2 ^ (Z.of_nat h - Z.of_nat l + 1);
  bv_set_index_fresh b i v : bv_set_index b i v = b;
}.

Record simple_bv := { sbv_len : nat; sbv_val : Z }.

Definition sbv_int (b : simple_bv) : Z := sbv_val b mod 2 ^ Z.of_nat (sbv_len b).

#[export] Instance simple_bv_binary_value : BinaryValue simple_bv := {
  bv_make n v := {| sbv_len := Z.to_nat n; sbv_val := v |};
  bv_integer := sbv_int;
  bv_len := sbv_len;
  bv_set_integer b v := {| sbv_len := sbv_len b; sbv_val := v |};
  bv_index b i := {| sbv_len := 1; sbv_val := Z.b2z (Z.testbit (sbv_int b) (Z.of_nat i)) |};
  bv_slice b h l := {| sbv_len := h - l + 1; sbv_val := sbv_int b / 2 ^ Z.of_nat l |};
  bv_set_index b _ _ := b;
}.

#[export] Instance simple_bv_spec : BinaryValueSpec simple_bv.
Proof.
  constructor; simpl; try done.
  - intros b. apply Z.mod_pos_bound. lia.
  - intros n v Hn Hv. unfold sbv_int; simpl. rewrite Z2Nat.id by done. by apply Z.mod_small.
  - intros b v Hv. by apply Z.mod_small.
  - intros b i Hi. unfold sbv_int at 1; simpl. by destruct (Z.testbit _ _).
  - intros b h l Hl. unfold sbv_int at 1; simpl.
    by replace (Z.of_nat (h - l + 1)) with (Z.of_nat h - Z.of_nat l + 1) by lia.
Qed.

(** ** Items *)

Inductive PmpItem :=
  | PMPWriteCfgCSRItem (index : nat) (pmpcfg : Z)
  | PMPWriteAddrCSRItem (index : nat) (pmpaddr : Z)
  | PMPCheckItem (channel : nat) (addr type : Z) (err : option Z).

(** The values of the dict [ACCESS_TYPE]. *)
Inductive access := R | W | X.

#[export] Instance access_eq_dec : EqDecision access.
Proof. solve_decision. Defined.

Definition ACCESS_TYPE : list (Z * access) := [(1, R); (2, W); (4, X)].

(** [ACCESS_TYPE.get(type)] *)
Definition access_of (type : Z) : option access :=
  option_map snd (List.find (fun p => p.1 =? type) ACCESS_TYPE).

(** The keys ["pmpcfg{}".format(i)] and ["pmpaddr{}".format(i)]. *)
Inductive reg_name := pmpcfg (i : nat) | pmpaddr (i : nat).

#[export] Instance reg_name_eq_dec : EqDecision reg_name.
Proof. solve_decision. Defined.
#[export] Instance reg_name_countable : Countable reg_name.
Proof.
  refine (inj_countable' (fun r => match r with pmpcfg i => inl i | pmpaddr i => inr i end)
    (fun s => match s with inl i => pmpcfg i | inr i => pmpaddr i end) _).
  by intros [].
Defined.

Section Pmp.
Context {BV : Type} `{!BinaryValue BV}.

Abbreviation RegMap := (gmap reg_name BV).

(** [RegisterMap.__init__] *)
Definition RegisterMap (pmp_entries : nat) : RegMap :=
  foldl (fun reg i => <[pmpaddr i := bv_make 32 0]> (<[pmpcfg i := bv_make 8 0]> reg)) ∅
    (seq 0 pmp_entries).

(** [regs.reg[name]] *)
Definition reg_get (regs : RegMap) (name : reg_name) : result BV :=
  match regs !! name with Some b => Ok b | None => Raise KeyError end.

Record permissions := { perm_R : Z; perm_W : Z; perm_X : Z }.

Definition perm_get (p : permissions) (op : access) : Z :=
  match op with R => perm_R p | W => perm_W p | X => perm_X p end.

(** What [getDecodedEntryCfg] returns: [None], a pair or a quadruple. *)
Inductive decoded :=
  | NoEntry
  | RangeOnly (start_address end_address : Z)
  | Entry (start_address end_address : Z) (perms : permissions) (locked : Z).

(** The NAPOT loop.  [start_address] is the same object as [pmpaddr], which is
    the object stored in the register map: its state is threaded. *)
Fixpoint napot_loop (indices : list nat) (b : BV) (napot : Z) : BV * Z :=
  match indices with
  | [] => (b, napot)
  | i :: indices =>
      if bv_integer (bv_index b i) =? 1
      then napot_loop indices (bv_set_index b i 0) (napot + 1)
      else napot_loop indices b napot
  end.

(** [getDecodedEntryCfg(regs, index, range_only)], with the register map after the call. *)
Definition getDecodedEntryCfg (regs : RegMap) (index : nat) (range_only : bool)
  : result (RegMap * decoded) :=
  let! cfg := reg_get regs (pmpcfg index) in
  let! addr := reg_get regs (pmpaddr index) in
  let perms := {| perm_R := bv_integer (bv_index cfg 0); perm_W := bv_integer (bv_index cfg 1);
                  perm_X := bv_integer (bv_index cfg 2) |} in
  let address_matching := bv_integer (bv_slice cfg 4 3) in
  let locked := bv_integer (bv_index cfg 7) in
  let! start_address :=
    match index with
    | O => Ok 0
    | S i => let! prev := reg_get regs (pmpaddr i) in Ok (Z.shiftl (bv_integer prev) 2)
    end in
  let finish (regs : RegMap) (start_address end_address : Z) :=
    let end_address := end_address - 1 in
    Ok (regs, if range_only then RangeOnly start_address end_address
              else Entry start_address end_address perms locked) in
  if address_matching =? 0 then
    Ok (regs, if range_only then RangeOnly start_address (Z.shiftl (bv_integer addr) 2)
              else NoEntry)
  else if address_matching =? 1 then
    let end_address := Z.shiftl (bv_integer addr) 2 in
    if end_address <? start_address
    then Ok (regs, if range_only then RangeOnly start_address end_address else NoEntry)
    else finish regs start_address end_address
  else if address_matching =? 2 then
    finish regs start_address (Z.shiftl (bv_integer addr) 2 + 4)
  else if address_matching =? 3 then
    let '(b, napot) := napot_loop (seq 0 (bv_len addr)) addr 3 in
    let start_address := Z.shiftl (bv_integer b) 2 in
    finish (<[pmpaddr index := b]> regs) start_address (start_address + 2 ^ napot)
  else Raise UnboundLocalError.

(** ** PMPDriver and PMPMonitor *)

(** [self.name[i]] *)
Definition port (name : string) (i : nat) : string := name +:+ pretty i.

Definition PMPDriver_item (regs : RegMap) (it : PmpItem) : proc PmpItem RegMap :=
  regs <- match it with
    | PMPWriteAddrCSRItem index v =>
        drive (port "pmp_pmpaddr" index) v ;;;
        b <- lift (reg_get regs (pmpaddr index)) ;;
        Ret (<[pmpaddr index := bv_set_integer b v]> regs)
    | PMPWriteCfgCSRItem index v =>
        drive (port "pmp_pmpcfg" index) v ;;;
        b <- lift (reg_get regs (pmpcfg index)) ;;
        Ret (<[pmpcfg index := bv_set_integer b v]> regs)
    | PMPCheckItem channel addr type _ =>
        drive (port "pmp_chan_addr" channel) addr ;;;
        drive (port "pmp_chan_type" channel) type ;;; Ret regs
    end ;;
  clock_cycles "clk" 1 ;;; Ret regs.

Fixpoint PMPDriver_run_phase (regs : RegMap) (items : list PmpItem) : proc PmpItem RegMap :=
  match items with
  | [] => Ret regs
  | it :: items => regs <- PMPDriver_item regs it ;; PMPDriver_run_phase regs items
  end.

(** [chan_err v i] is [int(self.pmp_chan_err.value[i])], the indexing of the simulator's value. *)
Definition PMPMonitor_run_phase (chan_err : Z -> nat -> Z) (pmp_channels : nat)
  (_ : unit) : proc PmpItem unit :=
  e <- await (RisingEdge "clk") ;;
  for_each (seq 0 pmp_channels) (fun i =>
    publish (PMPCheckItem i (e (port "pmp_chan_addr" i)) (e (port "pmp_chan_type" i))
                          (Some (chan_err (e "pmp_chan_err") i)))).

(** ** Scoreboard *)

(** [addr in range(lo, hi)] *)
Definition in_range (addr lo hi : Z) : bool := (lo <=? addr) && (addr <? hi).

(** The loop over the entries; the result is [entry_permissions]. *)
Fixpoint find_entry (regs : RegMap) (addr : Z) (indices : list nat)
  : result (RegMap * option permissions) :=
  match indices with
  | [] => Ok (regs, None)
  | i :: indices =>
      let! (regs, entry) := getDecodedEntryCfg regs i false in
      match entry with
      | NoEntry => find_entry regs addr indices
      | RangeOnly _ _ => Raise ValueError
      | Entry pmp_start_addr pmp_end_addr perms locked =>
          if in_range addr pmp_start_addr pmp_end_addr
          then Ok (regs, if truthy locked then Some perms else None)
          else find_entry regs addr indices
      end
  end.

(** [for op in ACCESS_TYPE.values(): ...] *)
Fixpoint check_permissions (ops : list access) (type_str : access) (p : permissions)
    (err : option Z) (passed : bool) : result bool :=
  match ops with
  | [] => Ok passed
  | op :: ops =>
      if decide (type_str = op) then
        match err with
        | None => Raise TypeError
        | Some err =>
            check_permissions ops type_str p (Some err)
              (if truthy (Z.lxor (perm_get p op) err) then passed else false)
        end
      else check_permissions ops type_str p err passed
  end.

Definition Scoreboard_item (regs : RegMap) (it : PmpItem) (passed : bool)
  : result (RegMap * bool) :=
  match it with
  | PMPCheckItem _ addr type err =>
      match access_of type with
      | None => Ok (regs, passed)
      | Some type_str =>
          let! (regs, entry_permissions) := find_entry regs addr (seq 0 (size regs / 2)) in
          match entry_permissions with
          | None =>
              Ok (regs, match err with Some e => if truthy e then false else passed
                                    | None => passed end)
          | Some p =>
              let! passed := check_permissions (map snd ACCESS_TYPE) type_str p err passed in
              Ok (regs, passed)
          end
      end
  | _ => Ok (regs, passed)
  end.

Fixpoint Scoreboard_check_phase (regs : RegMap) (items : list PmpItem) (passed : bool)
  : result bool :=
  match items with
  | [] => Ok passed
  | it :: items =>
      let! (regs, passed) := Scoreboard_item regs it passed in
      Scoreboard_check_phase regs items passed
  end.

(** [build_phase], [check_phase] and [final_phase]. *)
Definition Scoreboard_verdict (regs : RegMap) (items : list PmpItem) : result unit :=
  let! passed := Scoreboard_check_phase regs items true in py_assert passed.
End Pmp.

(** ** The sequences of common.py *)

Definition MAX_ADDR : Z := 2 ^ 32 - 4.

Definition accessAtAddr (pmp_channels : nat) (addr : Z) : list PmpItem :=
  flat_map (fun t => map (fun c => PMPCheckItem c addr (Z.shiftl 1 (Z.of_nat t)) None)
                       (seq 0 pmp_channels)) (seq 0 3).

(** [randrange] is the value [randrange(start_addr, end_addr, 4)] returns. *)
Definition randomAccessInAddrRange (randrange : Z -> Z -> Z -> Z) (pmp_channels : nat)
    (start_addr end_addr : Z) : list PmpItem :=
  accessAtAddr pmp_channels (randrange start_addr end_addr 4).

Definition checkRangeBoundary (pmp_channels : nat) (addr : Z) : list PmpItem :=
  let addr := Z.min MAX_ADDR (Z.land (addr + 1) 0xFFFFFFFC) in
  (if 4 <=? addr then accessAtAddr pmp_channels (addr - 4) else [])
  ++ accessAtAddr pmp_channels addr
  ++ (if addr <? MAX_ADDR then accessAtAddr pmp_channels (addr + 4) else []).

(** ** Specification: address matching and permission checks of the architecture *)

(** An entry is a pair of a configuration octet and an address register. *)
Definition cfg_mode (cfg : Z) : Z := cfg / 2 ^ 3 mod 2 ^ 2.

Definition cfg_locked (cfg : Z) : bool := Z.testbit cfg 7.

Definition cfg_allows (cfg : Z) (op : access) : bool :=
  Z.testbit cfg (match op with R => 0 | W => 1 | X => 2 end).

(** Does the entry match [addr]?  [prev] is the preceding address register. *)
Definition arch_matches (prev cfg a addr : Z) : bool :=
  if cfg_mode cfg =? 1 then (4 * prev <=? addr) && (addr <? 4 * a)
  else if cfg_mode cfg =? 2 then addr / 4 =? a
  else if cfg_mode cfg =? 3 then
    let dont_care := Z.lnot (Z.lxor a (a + 1)) in
    Z.land (addr / 4) dont_care =? Z.land a dont_care
  else false.

(** The range that [getDecodedEntryCfg] returns for an entry. *)
Definition decoded_range (prev cfg a : Z) : option (Z * Z) :=
  if cfg_mode cfg =? 0 then None
  else if cfg_mode cfg =? 1 then
    if 4 * a <? 4 * prev then None else Some (4 * prev, 4 * a - 1)
  else if cfg_mode cfg =? 2 then Some (4 * prev, 4 * a + 3)
  else Some (4 * a, 4 * a + 2 ^ (3 + bits_sum a 32) - 1).

(** The range with [range_only], which the disabled entries have as well. *)
Definition range_of (prev cfg a : Z) : Z * Z :=
  match decoded_range prev cfg a with Some r => r | None => (4 * prev, 4 * a) end.

Definition decoded_matches (prev cfg a addr : Z) : bool :=
  match decoded_range prev cfg a with
  | Some (lo, hi) => in_range addr lo hi
  | None => false
  end.

(** The configuration of the first entry that matches. *)
Fixpoint first_match (m : Z -> Z -> Z -> Z -> bool) (prev : Z) (es : list (Z * Z)) (addr : Z)
  : option Z :=
  match es with
  | [] => None
  | (cfg, a) :: es => if m prev cfg a addr then Some cfg else first_match m a es addr
  end.

(** Machine mode: only a locked entry restricts an access. *)
Definition denied (cfg : option Z) (op : access) : bool :=
  match cfg with Some cfg => cfg_locked cfg && negb (cfg_allows cfg op) | None => false end.

Definition arch_error (es : list (Z * Z)) (addr : Z) (op : access) : bool :=
  denied (first_match arch_matches 0 es addr) op.

(** The entries after the CSR writes of [items]. *)
Definition write_entry (es : list (Z * Z)) (it : PmpItem) : list (Z * Z) :=
  match it with
  | PMPWriteCfgCSRItem i v => alter (fun p => (v, p.2)) i es
  | PMPWriteAddrCSRItem i v => alter (fun p => (p.1, v)) i es
  | PMPCheckItem _ _ _ _ => es
  end.

Definition configured (n : nat) (items : list PmpItem) : list (Z * Z) :=
  foldl write_entry (replicate n (0, 0)) items.

Definition valid_write (n : nat) (it : PmpItem) : Prop :=
  match it with
  | PMPWriteCfgCSRItem i v => (i < n)%nat /\ 0 <= v < 2 ^ 8
  | PMPWriteAddrCSRItem i v => (i < n)%nat /\ 0 <= v < 2 ^ 32
  | PMPCheckItem _ _ _ _ => True
  end.

(** Only disabled and top-of-range entries are configured. *)
Definition tor_write (it : PmpItem) : Prop :=
  match it with PMPWriteCfgCSRItem _ v => cfg_mode v <= 1 | _ => True end.

(** An access the monitor reports: word aligned, with a one-bit error flag. *)
Definition observed (it : PmpItem) : Prop :=
  match it with
  | PMPCheckItem _ addr _ (Some err) => addr mod 4 = 0 /\ (err = 0 \/ err = 1)
  | _ => False
  end.

Definition error_expected (es : list (Z * Z)) (it : PmpItem) : Prop :=
  match it with
  | PMPCheckItem _ addr type (Some err) =>
      forall op, access_of type = Some op -> err = Z.b2z (arch_error es addr op)
  | _ => True
  end.

(** ** Decoding *)

Section Facts.
Context {BV : Type} `{BS : BinaryValueSpec BV}.

(** The register map holds the entries [es]. *)
Definition holds_reg (regs : gmap reg_name BV) (name : reg_name) (n : nat) (v : Z) : Prop :=
  exists b, regs !! name = Some b /\ bv_len b = n /\ bv_integer b = v.

Definition holds (regs : gmap reg_name BV) (es : list (Z * Z)) : Prop :=
  size regs = (2 * length es)%nat /\
  forall i cfg a, es !! i = Some (cfg, a) ->
    holds_reg regs (pmpcfg i) 8 cfg /\ holds_reg regs (pmpaddr i) 32 a.

Lemma napot_loop_app xs ys (b : BV) n :
  napot_loop (xs ++ ys) b n = let '(b, n) := napot_loop xs b n in napot_loop ys b n.
Proof. revert b n. induction xs as [|x xs IH]; intros b n; simpl; [done|]. by case_match. Qed.

Lemma napot_loop_ones (b : BV) n k :
  (k <= bv_len b)%nat ->
  napot_loop (seq 0 k) b n = (b, n + bits_sum (bv_integer b) k).
Proof.
  intros Hk. induction k as [|k IH]; [simpl; by rewrite Z.add_0_r|].
  rewrite seq_S, napot_loop_app, IH by lia. simpl.
  rewrite bv_index_int, bv_set_index_fresh by lia.
  destruct (Z.testbit _ _); simpl; f_equal; lia.
Qed.

Lemma cfg_mode_range cfg : 0 <= cfg_mode cfg < 4.
Proof. apply Z.mod_pos_bound. lia. Qed.

Lemma decode_any range_only regs es i cfg a prev :
  holds regs es -> es !! i = Some (cfg, a) ->
  prev = match i with O => 0 | S j => default 0 (snd <$> es !! j) end ->
  exists p, getDecodedEntryCfg regs i range_only
    = Ok (regs, if range_only then RangeOnly (range_of prev cfg a).1 (range_of prev cfg a).2
                else match decoded_range prev cfg a with
                     | Some (lo, hi) => Entry lo hi p (Z.b2z (cfg_locked cfg))
                     | None => NoEntry end)
    /\ forall op, perm_get p op = Z.b2z (cfg_allows cfg op).
Proof.
  intros [_ H] Hi ->. destruct (H i cfg a Hi) as [(c & Hc & Hcl & Hci) (b & Hb & Hbl & Hbi)].
  unfold getDecodedEntryCfg, reg_get. rewrite Hc, Hb. cbn [rbind].
  rewrite (bv_slice_int c) by lia. rewrite !(bv_index_int c) by lia. rewrite Hci, Hbi.
  change (Z.of_nat 4 - Z.of_nat 3 + 1) with 2. change (Z.of_nat 3) with 3. fold (cfg_mode cfg).
  set (start := match i with O => Ok 0 | S _ => _ end).
  assert (start = Ok (4 * match i with O => 0 | S j => default 0 (snd <$> es !! j) end)) as ->.
  { subst start. destruct i as [|j]; [done|].
    destruct (lookup_lt_is_Some_2 es j) as [[cj aj] Hj]; [apply lookup_lt_Some in Hi; lia|].
    destruct (H j cj aj Hj) as [_ (bj & -> & _ & Hbj)]. rewrite Hj. simpl.
    by rewrite Hbj, Z.shiftl_mul_pow2, Z.mul_comm by lia. }
  cbn [rbind]. set (prev := match i with O => 0 | S _ => _ end). clearbody prev.
  exists {| perm_R := Z.b2z (Z.testbit cfg 0); perm_W := Z.b2z (Z.testbit cfg 1);
            perm_X := Z.b2z (Z.testbit cfg 2) |}. split; [|by intros []].
  rewrite Hbl, napot_loop_ones, Hbi, Z.shiftl_mul_pow2 by lia.
  rewrite (Z.mul_comm a (2 ^ 2)). change (2 ^ 2) with 4. rewrite insert_id by done.
  unfold range_of, decoded_range. pose proof (cfg_mode_range cfg).
  destruct (Z.eqb_spec (cfg_mode cfg) 0); [by destruct range_only|].
  destruct (Z.eqb_spec (cfg_mode cfg) 1); [by destruct (4 * a <? 4 * prev), range_only|].
  destruct (Z.eqb_spec (cfg_mode cfg) 2);
    [replace (4 * a + 3) with (4 * a + 4 - 1) by lia; by destruct range_only|].
  destruct (Z.eqb_spec (cfg_mode cfg) 3); [by destruct range_only|lia].
Qed.

Lemma decode_entry regs es i cfg a prev :
  holds regs es -> es !! i = Some (cfg, a) ->
  prev = match i with O => 0 | S j => default 0 (snd <$> es !! j) end ->
  exists p, getDecodedEntryCfg regs i false
    = Ok (regs, match decoded_range prev cfg a with
                | Some (lo, hi) => Entry lo hi p (Z.b2z (cfg_locked cfg))
                | None => NoEntry end)
    /\ forall op, perm_get p op = Z.b2z (cfg_allows cfg op).
Proof. apply decode_any. Qed.

Lemma decode_range_only regs es i cfg a prev :
  holds regs es -> es !! i = Some (cfg, a) ->
  prev = match i with O => 0 | S j => default 0 (snd <$> es !! j) end ->
  getDecodedEntryCfg regs i true
  = Ok (regs, RangeOnly (range_of prev cfg a).1 (range_of prev cfg a).2).
Proof. intros Hr Hi Hp. by destruct (decode_any true regs es i cfg a prev Hr Hi Hp) as (p & H & _). Qed.

Lemma find_entry_first regs es addr :
  holds regs es -> forall k i, (i + k)%nat = length es ->
  exists o, find_entry regs addr (seq i k) = Ok (regs, o) /\
    let prev := match i with O => 0 | S j => default 0 (snd <$> es !! j) end in
    match first_match decoded_matches prev (drop i es) addr with
    | Some cfg =>
        if cfg_locked cfg
        then exists p, o = Some p /\ forall op, perm_get p op = Z.b2z (cfg_allows cfg op)
        else o = None
    | None => o = None
    end.
Proof.
  intros Hr k. induction k as [|k IH]; intros i Hk.
  { exists None. split; [done|]. by rewrite drop_ge by lia. }
  destruct (lookup_lt_is_Some_2 es i) as [[cfg a] Hi]; [lia|].
  destruct (decode_entry regs es i cfg a _ Hr Hi eq_refl) as (p & Hd & Hp).
  rewrite (drop_S _ _ _ Hi). cbn [seq find_entry first_match]. rewrite Hd. cbn [rbind].
  destruct (IH (S i)) as (o & Ho & Hm); [lia|]. cbn zeta in Hm. rewrite Hi in Hm. cbn in Hm.
  cbn zeta. set (prev := match i with O => 0 | S _ => _ end) in *. clearbody prev.
  unfold decoded_matches at 1. destruct (decoded_range prev cfg a) as [[lo hi]|].
  - destruct (in_range addr lo hi).
    + destruct (cfg_locked cfg); simpl; eexists; (split; [done|]); [by exists p|done].
    + by exists o.
  - by exists o.
Qed.

(** ** The scoreboard on one access *)

Lemma forall_Some {A} (a : A) (P : A -> Prop) : (forall x, Some a = Some x -> P x) <-> P a.
Proof. split; [intros H; by apply H|by intros H x [= <-]]. Qed.

Lemma Scoreboard_item_spec regs es c addr type err passed :
  holds regs es -> err = 0 \/ err = 1 ->
  exists b, Scoreboard_item regs (PMPCheckItem c addr type (Some err)) passed = Ok (regs, b) /\
    (b = true <-> passed = true /\ forall op, access_of type = Some op ->
       err = Z.b2z (denied (first_match decoded_matches 0 es addr) op)).
Proof.
  intros Hr Herr. cbn [Scoreboard_item].
  destruct (access_of type) as [op|]; [|exists passed; split; [done|]; by split; [|intros []]].
  pose proof (proj1 Hr) as Hsz. rewrite Hsz, Nat.mul_comm, Nat.div_mul by lia.
  destruct (find_entry_first regs es addr Hr (length es) 0 eq_refl) as (o & -> & Hm).
  cbn [rbind]. cbn zeta in Hm. rewrite drop_0 in Hm.
  setoid_rewrite (forall_Some op).
  destruct (first_match decoded_matches 0 es addr) as [cfg|]; cbn [denied];
    [destruct (cfg_locked cfg)|].
  - destruct Hm as (p & -> & Hp). specialize (Hp op).
    assert (check_permissions (map snd ACCESS_TYPE) op p (Some err) passed
            = Ok (if truthy (Z.lxor (perm_get p op) err) then passed else false)) as ->
      by (by destruct op).
    cbn [rbind]. rewrite Hp. eexists. split; [done|].
    destruct (cfg_allows cfg op), passed, Herr as [-> | ->]; cbn; intuition (done || lia).
  - subst o. eexists. split; [done|].
    destruct passed, Herr as [-> | ->]; cbn; intuition (done || lia).
  - subst o. eexists. split; [done|].
    destruct passed, Herr as [-> | ->]; cbn; intuition (done || lia).
Qed.
Lemma check_phase_spec m regs es items passed :
  holds regs es ->
  (forall prev cfg a addr, addr mod 4 = 0 -> (cfg, a) ∈ es ->
     decoded_matches prev cfg a addr = m prev cfg a addr) ->
  Forall observed items ->
  exists b, Scoreboard_check_phase regs items passed = Ok b /\
    (b = true <-> passed = true /\ Forall (fun it => match it with
       | PMPCheckItem _ addr type (Some err) => forall op, access_of type = Some op ->
           err = Z.b2z (denied (first_match m 0 es addr) op)
       | _ => True end) items).
Proof.
  intros Hr Hm Hobs. revert passed.
  induction Hobs as [|it items Hit _ IH]; intros passed.
  { exists passed. split; [done|]. by split; [|intros []]. }
  destruct it as [| |c addr type [err|]]; try done. destruct Hit as [Ha Herr].
  destruct (Scoreboard_item_spec regs es c addr type err passed Hr Herr) as (b & Hb & Hbt).
  cbn [Scoreboard_check_phase]. rewrite Hb. cbn [rbind].
  destruct (IH b) as (b' & -> & Hb'). exists b'. split; [done|].
  rewrite Hb', Hbt, Forall_cons.
  assert (forall prev es', es' ⊆ es ->
    first_match decoded_matches prev es' addr = first_match m prev es' addr) as Hf.
  { intros prev es'. revert prev. induction es' as [|[cfg a] es' IHe]; intros prev Hs; simpl; [done|].
    rewrite (Hm prev cfg a addr), IHe; [done|..|by apply Hs; left]; [|done].
    intros x Hx. apply Hs. by right. }
  rewrite Hf by done. tauto.
Qed.

(** ** The register map follows the writes of the driver *)

Lemma RegisterMap_holds n : holds (RegisterMap n : gmap reg_name BV) (replicate n (0, 0)).
Proof.
  assert (size (RegisterMap n : gmap reg_name BV) = (2 * n)%nat /\
    (forall i, (n <= i)%nat -> (RegisterMap n : gmap reg_name BV) !! pmpcfg i = None
                            /\ (RegisterMap n : gmap reg_name BV) !! pmpaddr i = None) /\
    (forall i, (i < n)%nat -> holds_reg (RegisterMap n) (pmpcfg i) 8 0
                           /\ holds_reg (RegisterMap n) (pmpaddr i) 32 0)) as (Hs & _ & Hi).
  { unfold RegisterMap. induction n as [|n (Hs & Hn & Hi)]; [by split_and!; intros; try lia|].
    rewrite seq_S, foldl_app. cbn [foldl]. cbn [Nat.add].
    destruct (Hn n) as [Hnc Hna]; [done|]. set (f := foldl _ _ _) in *. clearbody f.
    split_and!.
    - rewrite !map_size_insert_None; [lia|done|by rewrite lookup_insert_ne].
    - intros i Hni. rewrite !lookup_insert_ne by (intros [=]; lia). apply Hn. lia.
    - intros i Hin. unfold holds_reg. destruct (decide (i = n)) as [->|].
      + rewrite lookup_insert_ne, !lookup_insert_eq by done.
        split; eexists; (split; [done|]); by rewrite bv_make_len, bv_make_int by lia.
      + rewrite !lookup_insert_ne by congruence. apply Hi. lia. }
  split; [by rewrite length_replicate|].
  intros i cfg a H. apply lookup_replicate in H as [[= -> ->] H]. by apply Hi.
Qed.

Lemma holds_reg_insert_ne regs name name' b n v :
  name <> name' -> holds_reg regs name n v -> holds_reg (<[name' := b]> regs) name n v.
Proof. intros Hn (b' & H & Hb). exists b'. by rewrite lookup_insert_ne. Qed.

Lemma holds_reg_set regs name n v w :
  holds_reg regs name n v -> 0 <= w < 2 ^ Z.of_nat n ->
  exists b, regs !! name = Some b
    /\ holds_reg (<[name := bv_set_integer b w]> regs) name n w
    /\ size (<[name := bv_set_integer b w]> regs) = size regs.
Proof.
  intros (b & Hb & Hl & Hi) Hw. exists b. split; [done|]. split.
  - exists (bv_set_integer b w). by rewrite lookup_insert_eq, bv_set_len, bv_set_int by by rewrite Hl.
  - apply map_size_insert_Some. by exists b.
Qed.

Lemma driver_item regs es it cur e tr :
  holds regs es -> valid_write (length es) it ->
  exists acts regs', run (PMPDriver_item regs it) cur (Sample (RisingEdge "clk") e :: tr)
    = (acts, Done regs' e tr) /\ holds regs' (write_entry es it).
Proof.
  intros [Hs H] Hv.
  destruct it as [i v|i v|c addr type err];
    [destruct Hv as [Hi Hv]; destruct (lookup_lt_is_Some_2 es i Hi) as [[cfg a] He];
     destruct (H i cfg a He) as [Hc Ha]..|].
  - destruct (holds_reg_set regs (pmpcfg i) 8 cfg v Hc Hv) as (b & Hb & Hr & Hsz).
    cbn. unfold reg_get. rewrite Hb. cbn. rewrite next_firing_hit.
    eexists _, _. split; [done|]. split; [by rewrite Hsz, length_alter|].
    intros j cfg' a' Hj. destruct (decide (j = i)) as [->|Hji].
    + rewrite list_lookup_alter_eq, He in Hj. injection Hj as <- <-.
      split; [done|by apply holds_reg_insert_ne].
    + rewrite list_lookup_alter_ne in Hj by done. destruct (H j cfg' a' Hj).
      split; apply holds_reg_insert_ne; congruence.
  - destruct (holds_reg_set regs (pmpaddr i) 32 a v Ha Hv) as (b & Hb & Hr & Hsz).
    cbn. unfold reg_get. rewrite Hb. cbn. rewrite next_firing_hit.
    eexists _, _. split; [done|]. split; [by rewrite Hsz, length_alter|].
    intros j cfg' a' Hj. destruct (decide (j = i)) as [->|Hji].
    + rewrite list_lookup_alter_eq, He in Hj. injection Hj as <- <-.
      split; [by apply holds_reg_insert_ne|done].
    + rewrite list_lookup_alter_ne in Hj by done. destruct (H j cfg' a' Hj).
      split; apply holds_reg_insert_ne; congruence.
  - cbn. rewrite next_firing_hit. by eexists _, _.
Qed.

Lemma write_entry_length es it : length (write_entry es it) = length es.
Proof. destruct it; simpl; [apply length_alter..|done]. Qed.

Lemma driver_run regs es items cur envs :
  holds regs es -> Forall (valid_write (length es)) items -> length envs = length items ->
  exists acts regs' cur', run (PMPDriver_run_phase regs items) cur (Sample (RisingEdge "clk") <$> envs)
    = (acts, Done regs' cur' []) /\ holds regs' (foldl write_entry es items).
Proof.
  intros Hr Hv. revert regs es cur envs Hr Hv.
  induction items as [|it items IH]; intros regs es cur [|e envs] Hr Hv Hl; try done.
  - by eexists _, _, _.
  - inversion_clear Hv as [|?? Hit Hrest]. cbn [PMPDriver_run_phase]. rewrite fmap_cons, run_pbind.
    destruct (driver_item regs es it cur e (Sample (RisingEdge "clk") <$> envs) Hr Hit)
      as (acts & regs1 & -> & Hr1).
    destruct (IH regs1 (write_entry es it) e envs Hr1) as (acts' & regs' & cur' & -> & Hr').
    { by rewrite write_entry_length. }
    { by injection Hl. }
    by eexists _, _, _.
Qed.
End Facts.

(** ** Top-of-range entries decode to the architecture's ranges *)

Lemma tor_decoded_matches prev cfg a addr :
  cfg_mode cfg <= 1 -> addr mod 4 = 0 ->
  decoded_matches prev cfg a addr = arch_matches prev cfg a addr.
Proof.
  intros Hc Ha. unfold decoded_matches, decoded_range, arch_matches, in_range.
  pose proof (cfg_mode_range cfg).
  pose proof (Z.div_mod addr 4 ltac:(lia)) as Hd. rewrite Ha in Hd.
  destruct (Z.eqb_spec (cfg_mode cfg) 0) as [->|]; [done|].
  assert (cfg_mode cfg = 1) as -> by lia. cbn [Z.eqb Pos.eqb].
  split_cmp; done.
Qed.

Lemma configured_modes n items :
  Forall tor_write items -> forall cfg a, (cfg, a) ∈ configured n items -> cfg_mode cfg <= 1.
Proof.
  intros Hi. unfold configured.
  assert (forall es, (forall cfg a, (cfg, a) ∈ es -> cfg_mode cfg <= 1) ->
    forall cfg a, (cfg, a) ∈ foldl write_entry es items -> cfg_mode cfg <= 1) as H.
  { induction Hi as [|it items Hit _ IH]; intros es He; simpl; [done|]. apply IH.
    intros cfg a Hin. apply list_elem_of_lookup in Hin as [j Hj].
    assert (forall (f : Z * Z -> Z * Z) k, alter f k es !! j = Some (cfg, a) ->
      (exists p, p ∈ es /\ (f p = (cfg, a) \/ p = (cfg, a)))) as Halt.
    { intros f k Hk. destruct (decide (k = j)) as [->|Hkj].
      - rewrite list_lookup_alter_eq in Hk. destruct (es !! j) as [p|] eqn:E; [|done].
        injection Hk as Hk. exists p. split; [by eapply list_elem_of_lookup_2|by left].
      - rewrite list_lookup_alter_ne in Hk by done. exists (cfg, a).
        split; [by eapply list_elem_of_lookup_2|by right]. }
    destruct it as [i v|i v|]; simpl in *.
    - apply Halt in Hj as ([c b] & Hp & [[= -> _]|[= -> ->]]); [done|by eapply He].
    - apply Halt in Hj as ([c b] & Hp & [[= -> _]|[= -> ->]]); by eapply He.
    - by eapply He, list_elem_of_lookup_2. }
  apply H. intros cfg a Hin. by apply elem_of_replicate in Hin as [[= -> ->] _].
Qed.

(** ** NA4 and NAPOT entries *)

Lemma bits_sum_pos a n : 0 < a < 2 ^ Z.of_nat n -> 0 < bits_sum a n.
Proof.
  intros Ha. rewrite <- bin_count_ones_bits by lia. destruct a as [|p|p]; [lia| |lia]. simpl.
  clear Ha. induction p; simpl; lia.
Qed.

(** The mask of the architecture's NAPOT match clears the lowest bit. *)
Lemma dont_care_testbit_0 a : Z.testbit (Z.lnot (Z.lxor a (a + 1))) 0 = false.
Proof.
  rewrite Z.lnot_spec, Z.lxor_spec by lia. change (a + 1) with (Z.succ a).
  rewrite !Z.bit0_odd, Z.odd_succ, <- Z.negb_odd. by destruct (Z.odd a).
Qed.

Lemma land_dont_care a b m :
  Z.testbit m 0 = false -> a / 2 = b / 2 -> Z.land a m = Z.land b m.
Proof.
  intros Hm H. apply Z.bits_inj'. intros i Hi. rewrite !Z.land_spec.
  destruct (Z.eqb_spec i 0) as [->|Hi0]; [by rewrite Hm, !andb_false_r|].
  f_equal. replace i with (Z.succ (Z.pred i)) by lia.
  rewrite <- !Z.div2_bits by lia. by rewrite H.
Qed.

Lemma dont_care_even a : Z.even a = true -> Z.lxor a (a + 1) = 1.
Proof.
  intros [k ->]%Z.even_spec. apply Z.bits_inj'. intros i Hi. rewrite Z.lxor_spec, testbit_one.
  destruct (Z.eqb_spec i 0) as [->|Hi0]; [by rewrite Z.testbit_even_0, Z.testbit_odd_0|].
  replace i with (Z.succ (Z.pred i)) by lia.
  rewrite Z.testbit_even_succ, Z.testbit_odd_succ by lia. apply xorb_nilpotent.
Qed.

Lemma land_even a : Z.land a (Z.lnot 1) = 2 * (a / 2).
Proof.
  rewrite <- Z.ldiff_land. change 1 with (Z.ones 1).
  rewrite Z.ldiff_ones_r, Z.shiftl_mul_pow2, Z.shiftr_div_pow2 by lia. change (2 ^ 1) with 2. apply Z.mul_comm.
Qed.

Definition napot_matches (a addr : Z) : bool :=
  let dont_care := Z.lnot (Z.lxor a (a + 1)) in
  Z.land (addr / 4) dont_care =? Z.land a dont_care.

Lemma napot_agrees a :
  0 <= a < 2 ^ 32 ->
  (forall addr, 0 <= addr -> addr mod 4 = 0 ->
     in_range addr (4 * a) (4 * a + 2 ^ (3 + bits_sum a 32) - 1) = napot_matches a addr)
  <-> a = 0.
Proof.
  intros Ha. split.
  - intros H. destruct (decide (a = 0)) as [|Hn]; [done|]. exfalso.
    destruct (Z.even a) eqn:Hev.
    + specialize (H (4 * (a + 2)) ltac:(lia)). rewrite Z.mul_comm, Z.mod_mul in H by lia.
      specialize (H eq_refl). unfold napot_matches in H.
      rewrite Z.div_mul, dont_care_even, !land_even in H by done.
      pose proof (bits_sum_pos a 32 ltac:(lia)).
      assert (2 ^ 4 <= 2 ^ (3 + bits_sum a 32)) by (apply Z.pow_le_mono_r; lia).
      set (size := 2 ^ (3 + bits_sum a 32)) in *. clearbody size. change (2 ^ 4) with 16 in *.
      replace ((a + 2) / 2) with (a / 2 + 1) in H
        by (change (a + 2) with (a + 1 * 2); by rewrite Z.div_add).
      revert H. unfold in_range. split_cmp; done.
    + assert (Z.odd a = true) as Hodd by by rewrite <- Z.negb_even, Hev.
      apply Z.odd_spec in Hodd as [k ->].
      specialize (H (2 * k * 4) ltac:(lia) ltac:(apply Z.mod_mul; lia)).
      unfold napot_matches in H. rewrite Z.div_mul in H by lia.
      rewrite (land_dont_care (2 * k) (2 * k + 1)), Z.eqb_refl in H.
      * unfold in_range in H. destruct (Z.leb_spec (4 * (2 * k + 1)) (2 * k * 4)); [lia|done].
      * apply dont_care_testbit_0.
      * rewrite (Z.mul_comm 2 k), Z.div_mul, Z.div_add_l by lia. change (1 / 2) with 0. lia.
  - intros -> addr H0 H4. unfold napot_matches. change (Z.lxor 0 (0 + 1)) with 1.
    rewrite !land_even. rewrite bits_sum_0. change (2 * (0 / 2)) with 0.
    change (2 ^ (3 + 0)) with 8. unfold in_range.
    pose proof (Z.div_mod addr 4 ltac:(lia)) as Hd. rewrite H4 in Hd.
    pose proof (Z.div_mod (addr / 4) 2 ltac:(lia)). pose proof (Z.mod_pos_bound (addr / 4) 2 ltac:(lia)).
    split_cmp; done.
Qed.

Lemma na4_agrees prev a :
  0 <= prev -> 0 <= a ->
  (forall addr, 0 <= addr -> addr mod 4 = 0 ->
     in_range addr (4 * prev) (4 * a + 3) = (addr / 4 =? a)) <-> prev = a.
Proof.
  intros Hp Ha. unfold in_range. split.
  - intros H.
    pose proof (H (a * 4) ltac:(lia) ltac:(apply Z.mod_mul; lia)) as H1.
    pose proof (H (prev * 4) ltac:(lia) ltac:(apply Z.mod_mul; lia)) as H2.
    rewrite Z.div_mul in H1, H2 by lia. revert H1 H2. split_cmp; done.
  - intros -> addr H0 H4. pose proof (Z.div_mod addr 4 ltac:(lia)) as Hd. rewrite H4 in Hd.
    split_cmp; done.
Qed.

(** ** Properties *)

(** The PMP testbench implements the architecture's permission rules for
    disabled and top-of-range entries: after the driver has configured the
    entries by any sequence of CSR writes, the scoreboard accepts a list of
    observed word-aligned accesses exactly when every access of a known type
    has the error flag that the first matching entry prescribes. *)
Theorem pmp_scoreboard_tor {BV} `{BinaryValueSpec BV} (n : nat) (cfgs obs : list PmpItem) cur envs :
  Forall (valid_write n) cfgs -> Forall tor_write cfgs -> length envs = length cfgs ->
  Forall observed obs ->
  exists acts (regs : gmap reg_name BV) cur',
    run (PMPDriver_run_phase (RegisterMap n) cfgs) cur (Sample (RisingEdge "clk") <$> envs)
      = (acts, Done regs cur' []) /\
    (Scoreboard_verdict regs obs = Ok tt <-> Forall (error_expected (configured n cfgs)) obs).
Proof.
  intros Hv Ht Hl Ho.
  destruct (driver_run (RegisterMap n) (replicate n (0, 0)) cfgs cur envs) as (acts & regs & cur' & Hrun & Hr).
  { apply RegisterMap_holds. }
  { by rewrite length_replicate. }
  { done. }
  exists acts, regs, cur'. split; [done|].
  destruct (check_phase_spec arch_matches regs _ obs true Hr) as (b & Hb & Hbt).
  { intros prev cfg a addr Ha Hin. apply tor_decoded_matches; [|done].
    by eapply (configured_modes n cfgs). }
  { done. }
  unfold Scoreboard_verdict. rewrite Hb. cbn. transitivity (b = true); [by destruct b|].
  rewrite Hbt. split; [by intros [_ H1]|done].
Qed.

Lemma pmp_scoreboard_tor_witness :
  exists acts (regs : gmap reg_name simple_bv) cur',
    run (PMPDriver_run_phase (RegisterMap 2)
           [PMPWriteAddrCSRItem 0 0x400; PMPWriteAddrCSRItem 1 0x800; PMPWriteCfgCSRItem 1 0x89])
        (sig_env []) (Sample (RisingEdge "clk") <$> [sig_env []; sig_env []; sig_env []])
      = (acts, Done regs cur' []) /\
    (Scoreboard_verdict regs [PMPCheckItem 0 0x1000 1 (Some 0); PMPCheckItem 1 0x1FFC 2 (Some 1)]
       = Ok tt
     <-> Forall (error_expected (configured 2
           [PMPWriteAddrCSRItem 0 0x400; PMPWriteAddrCSRItem 1 0x800; PMPWriteCfgCSRItem 1 0x89]))
           [PMPCheckItem 0 0x1000 1 (Some 0); PMPCheckItem 1 0x1FFC 2 (Some 1)]).
Proof.
  apply pmp_scoreboard_tor; [repeat constructor; simpl; lia|repeat constructor; done|done|].
  constructor; [|constructor; [|constructor]]; (split; [done|]); [by left|by right].
Defined.

(** For NA4 and NAPOT entries the decoding returns a range that agrees
    with the architecture on aligned addresses only in corner cases: for NA4
    exactly when the preceding address register equals the entry's own (the
    range starts at the preceding register), for NAPOT exactly when the address
    register is 0 (its set bits are all counted and never cleared). *)
Theorem pmp_na4_napot_decode {BV} `{BinaryValueSpec BV} (regs : gmap reg_name BV) es i cfg a prev :
  holds regs es -> es !! i = Some (cfg, a) ->
  prev = match i with O => 0 | S j => default 0 (snd <$> es !! j) end ->
  2 <= cfg_mode cfg ->
  exists lo hi p l, getDecodedEntryCfg regs i false = Ok (regs, Entry lo hi p l) /\
    ((forall addr, 0 <= addr -> addr mod 4 = 0 ->
        in_range addr lo hi = arch_matches prev cfg a addr)
     <-> if cfg_mode cfg =? 2 then prev = a else a = 0).
Proof.
  intros Hr Hi Hp Hm. destruct (decode_entry regs es i cfg a prev Hr Hi Hp) as (p & Hd & _).
  assert (forall j c b, es !! j = Some (c, b) -> 0 <= b < 2 ^ 32) as Hb.
  { intros j c b Hj. apply Hr in Hj as [_ (bv & _ & Hl & <-)].
    pose proof (bv_bound bv) as Hbv. by rewrite Hl in Hbv. }
  pose proof (Hb _ _ _ Hi) as Ha.
  assert (0 <= prev) as Hprev.
  { subst prev. destruct i as [|j]; [done|]. destruct (es !! j) as [[c b]|] eqn:E; [|done].
    apply Hb in E. simpl. lia. }
  clear Hp. revert Hd. unfold decoded_range, arch_matches. pose proof (cfg_mode_range cfg).
  destruct (Z.eqb_spec (cfg_mode cfg) 0); [lia|]. destruct (Z.eqb_spec (cfg_mode cfg) 1); [lia|].
  destruct (Z.eqb_spec (cfg_mode cfg) 2); intros Hd.
  - eexists _, _, _, _. split; [exact Hd|]. apply na4_agrees; lia.
  - destruct (Z.eqb_spec (cfg_mode cfg) 3); [|lia].
    eexists _, _, _, _. split; [exact Hd|]. by apply napot_agrees.
Qed.

Lemma pmp_na4_napot_decode_witness :
  exists lo hi p l,
    getDecodedEntryCfg
      (<[pmpcfg 0 := bv_make 8 0x98]> (<[pmpaddr 0 := bv_make 32 0x7FF]> (RegisterMap 1))
         : gmap reg_name simple_bv) 0 false
      = Ok (<[pmpcfg 0 := bv_make 8 0x98]> (<[pmpaddr 0 := bv_make 32 0x7FF]> (RegisterMap 1)),
            Entry lo hi p l) /\
    ((forall addr, 0 <= addr -> addr mod 4 = 0 ->
        in_range addr lo hi = arch_matches 0 0x98 0x7FF addr)
     <-> if cfg_mode 0x98 =? 2 then 0 = 0x7FF else 0x7FF = 0).
Proof.
  apply (pmp_na4_napot_decode _ [(0x98, 0x7FF)]); [|done|done|by vm_compute].
  split; [done|]. intros i cfg a Hi. destruct i as [|i]; [|done]. injection Hi as <- <-.
  split; eexists; (split; [reflexivity|done]).
Defined.
