(* ===== verification/PmpCsr.v ===== *)
(** * PMP register benches: verification/block/dec_pmp_ctl/testbench.py and
    verification/block/pmp_random/testbench.py, with the sequences of their
    tests.

    [DecPmpCtl] accesses the PMP registers through the CSR port, [PmpRandom]
    drives random configurations and accesses.  The values that the [random]
    module returns are arguments. *)

From S2P Require Import Prelude Scoreboard Cocotb Pmp.
From stdpp Require Import base gmap list strings pretty.
From Stdlib Require Import ZArith Lia.

#[local] Open Scope string_scope.
#[local] Open Scope list_scope.
#[local] Open Scope Z_scope.

Module DecPmpCtl.

Definition PMPCFG : Z := 0x3A0.
Definition PMPADDR0 : Z := 0x3B0.
Definition PMPADDR16 : Z := 0x3C0.
Definition PMPADDR32 : Z := 0x3D0.
Definition PMPADDR48 : Z := 0x3E0.

Record InputItem := { addr : Z; data : Z }.

#[export] Instance InputItem_eq_dec : EqDecision InputItem.
Proof. solve_decision. Defined.

(** [randomize]: [off] and [rnd] are the results of the two [randint] calls. *)
Definition randomize (it : InputItem) (off rnd : Z) : InputItem :=
  {| addr := addr it + off; data := rnd |}.

Definition CsrWriteDriver_item (it : InputItem) : proc InputItem unit :=
  _ <- await (RisingEdge "clk") ;;
  drive "dec_csr_wen_r" 1 ;;;
  drive "dec_csr_wraddr_r" (addr it) ;;;
  drive "dec_csr_wrdata_r" (data it) ;;;
  _ <- await (RisingEdge "clk") ;;
  drive "dec_csr_wen_r" 0.

Definition CsrReadDriver_item (it : InputItem) : proc InputItem unit :=
  _ <- await (RisingEdge "clk") ;;
  drive "dec_csr_rdaddr_d" (addr it) ;;;
  _ <- await (RisingEdge "clk") ;;
  drive "dec_csr_rdaddr_d" 0.

Definition WriteMonitor_run_phase (_ : unit) : proc InputItem unit :=
  e <- await (RisingEdge "clk") ;;
  if truthy (e "dec_csr_wen_r")
  then publish {| addr := e "dec_csr_wraddr_r"; data := e "dec_csr_wrdata_r" |}
  else Ret tt.

(** [addr & 0x3F0] selects the block of registers. *)
Definition is_pmp_block (a : Z) : bool :=
  existsb (Z.eqb (Z.land a 0x3F0)) [PMPCFG; PMPADDR0; PMPADDR16; PMPADDR32; PMPADDR48].

Definition ReadMonitor_run_phase (_ : unit) : proc InputItem unit :=
  e <- await (RisingEdge "clk") ;;
  if is_pmp_block (e "dec_csr_rdaddr_d")
  then publish {| addr := e "dec_csr_rdaddr_d"; data := e "dec_csr_rddata_d" |}
  else Ret tt.

(** "Compare addresses and data" *)
Definition check_item (item_inp item_out : InputItem) (passed : option bool)
  : result (option bool) :=
  Ok (if negb (addr item_inp =? addr item_out) || negb (data item_inp =? data item_out)
      then Some false else passed).

Definition Scoreboard_verdict (inp out : list InputItem) : result unit :=
  let! passed := check_pairs check_item inp out None in final_phase passed.

(** *** The sequences of test_dec_pmp_ctl.py *)

Definition octets4 (mask : Z) : Z :=
  Z.lor (Z.lor (Z.lor (Z.shiftl mask 24) (Z.shiftl mask 16)) (Z.shiftl mask 8)) mask.

Definition legalize_pmpcfg (it : InputItem) : InputItem :=
  {| addr := addr it; data := Z.land (data it) (octets4 0x1D) |}.

(** The mask of [PmpCfgLockSequence], which keeps the lock bits. *)
Definition legalize_pmpcfg_lock (it : InputItem) : InputItem :=
  {| addr := addr it; data := Z.land (data it) (octets4 0x9D) |}.

Definition legalize_pmpaddr (it : InputItem) : InputItem :=
  {| addr := addr it; data := Z.land (data it) 0x3FFFFFFF |}.

(** [while True: item = InputItem(base); item.randomize(); if item.addr not in
    addrs: break]; [rnds] are the random pairs still to come. *)
Fixpoint draw (base : Z) (addrs : list Z) (rnds : list (Z * Z))
  : option (InputItem * list (Z * Z)) :=
  match rnds with
  | [] => None
  | (off, rnd) :: rnds =>
      let item := randomize {| addr := base; data := 0 |} off rnd in
      if existsb (Z.eqb (addr item)) addrs then draw base addrs rnds else Some (item, rnds)
  end.

Definition draw_all (specs : list (Z * (InputItem -> InputItem))) (items : list InputItem)
    (rnds : list (Z * Z)) : option (list InputItem * list (Z * Z)) :=
  foldl (fun st '(base, legalize) =>
    match st with
    | None => None
    | Some (items, rnds) =>
        match draw base (map addr items) rnds with
        | None => None
        | Some (item, rnds) => Some (items ++ [legalize item], rnds)
        end
    end) (Some (items, rnds)) specs.

Definition CsrSequence_specs : list (Z * (InputItem -> InputItem)) :=
  concat (replicate 5 ((PMPCFG, legalize_pmpcfg)
    :: map (fun base => (base, legalize_pmpaddr)) [PMPADDR0; PMPADDR16; PMPADDR32; PMPADDR48])).

Definition CsrSequence (rnds : list (Z * Z)) : option (list InputItem * list (Z * Z)) :=
  draw_all CsrSequence_specs [] rnds.

Definition PmpCfgLockSequence (rnds : list (Z * Z)) : option (list InputItem * list (Z * Z)) :=
  draw_all (replicate 10 (PMPCFG, legalize_pmpcfg_lock)) [] rnds.

(** *** [BaseTest.do_reset] *)

Definition reset_inputs : list string :=
  ["rst_l"; "dec_csr_rdaddr_d"; "i_cpu_halt_req"; "i_cpu_run_req"; "lsu_fastint_stall_any";
   "ifu_pmu_instr_aligned"; "ifu_pmu_fetch_stall"; "ifu_pmu_ic_miss"; "ifu_pmu_ic_hit";
   "ifu_pmu_bus_error"; "ifu_pmu_bus_busy"; "ifu_pmu_bus_trxn"; "dec_pmu_instr_decoded";
   "dec_pmu_decode_stall"; "dec_pmu_presync_stall"; "dec_pmu_postsync_stall";
   "lsu_store_stall_any"; "dma_dccm_stall_any"; "dma_iccm_stall_any"; "exu_pmu_i0_br_misp";
   "exu_pmu_i0_br_ataken"; "exu_pmu_i0_pc4"; "lsu_pmu_bus_trxn"; "lsu_pmu_bus_misaligned";
   "lsu_pmu_bus_error"; "lsu_pmu_bus_busy"; "lsu_pmu_load_external_m";
   "lsu_pmu_store_external_m"; "dma_pmu_dccm_read"; "dma_pmu_dccm_write"; "dma_pmu_any_read";
   "dma_pmu_any_write"; "lsu_fir_addr"; "lsu_fir_error"; "iccm_dma_sb_error";
   "lsu_single_ecc_error_incr"; "dec_pause_state"; "lsu_imprecise_error_store_any";
   "lsu_imprecise_error_load_any"; "lsu_imprecise_error_addr_any"; "dec_csr_wen_unq_d";
   "dec_csr_any_unq_d"; "dec_csr_rdaddr_d"; "dec_csr_wen_r"; "dec_csr_rdaddr_r";
   "dec_csr_wraddr_r"; "dec_csr_wrdata_r"; "dec_csr_stall_int_ff"; "dec_tlu_i0_valid_r";
   "exu_npc_r"; "dec_tlu_i0_pc_r"; "dec_illegal_inst"; "dec_i0_decode_d"; "exu_i0_br_hist_r";
   "exu_i0_br_error_r"; "exu_i0_br_start_error_r"; "exu_i0_br_valid_r"; "exu_i0_br_mp_r";
   "exu_i0_br_middle_r"; "exu_i0_br_way_r"; "dec_csr_stall_int_ff"; "dbg_halt_req";
   "dbg_resume_req"; "lsu_idle_any"; "dec_div_active"; "ifu_ic_error_start";
   "ifu_iccm_rd_ecc_single_err"; "ifu_ic_debug_rd_data"; "ifu_ic_debug_rd_data_valid";
   "core_id"].

Definition do_reset : proc InputItem unit :=
  for_each reset_inputs (fun s => drive s 0) ;;;
  clock_cycles "clk" 10 ;;;
  (_ <- await (FallingEdge "clk") ;; drive "rst_l" 1).

(** [run_phase], with the body [run] of the test. *)
Definition run_phase (run : proc InputItem unit) : proc InputItem unit :=
  do_reset ;;; clock_cycles "clk" 2 ;;; run ;;; clock_cycles "clk" 10.

(** [TestCsrAccess.run]: each sequence is written, then read back. *)
Definition TestCsrAccess_run (seqs : list (list InputItem)) : proc InputItem unit :=
  for_each seqs (fun items =>
    for_each items CsrWriteDriver_item ;;; for_each items CsrReadDriver_item).

Definition TestPmpCfgLock_run (seqs : list (list InputItem)) : proc InputItem unit :=
  for_each seqs (fun items =>
    for_each items CsrWriteDriver_item ;;; for_each items CsrReadDriver_item ;;; do_reset).

End DecPmpCtl.

Module PmpRandom.

(** What an attribute of an item holds: a number, the values of an array
    port, or the handle of a port. *)
Inductive field :=
  | FInt (v : Z)
  | FArray (vs : list Z)
  | FHandle (name : string).

Record InputItem := {
  cfg : field; entry : nat; pmp_addr : field; chan_addr : field; chan_type : field;
  chan : nat; chan_err : field;
}.

(** [InputItem()] *)
Definition default_item : InputItem :=
  {| cfg := FInt 0; entry := 0; pmp_addr := FInt 0; chan_addr := FInt 0; chan_type := FInt 0;
     chan := 0; chan_err := FInt 0 |}.

(** The arguments are the results of the [randint] calls. *)
Definition randomize (it : InputItem) (r_cfg : Z) (r_entry : nat) (r_addr : Z) (r_chan : nat)
    (r_chan_addr r_type : Z) : InputItem :=
  {| cfg := FInt r_cfg; entry := r_entry; pmp_addr := FInt r_addr; chan := r_chan;
     chan_addr := FInt r_chan_addr; chan_type := FInt r_type; chan_err := chan_err it |}.

Definition field_int (f : field) : result Z :=
  match f with FInt v => Ok v | _ => Raise TypeError end.

Definition PMPWriteDriver_item (it : InputItem) : proc InputItem unit :=
  _ <- await (RisingEdge "clk") ;;
  (c <- lift (field_int (cfg it)) ;; drive (port "pmp_pmpcfg" (entry it)) c) ;;;
  (a <- lift (field_int (pmp_addr it)) ;; drive (port "pmp_pmpaddr" (entry it)) a) ;;;
  (ca <- lift (field_int (chan_addr it)) ;; drive (port "pmp_chan_addr" (chan it)) ca) ;;;
  (t <- lift (field_int (chan_type it)) ;; drive (port "pmp_chan_type" (chan it)) t).

Section Monitors.
Variables (entries channels : nat).

Definition array (e : env) (name : string) (n : nat) : field :=
  FArray ((fun i => e (port name i)) <$> seq 0 n).

Definition WriteMonitor_run_phase (_ : unit) : proc InputItem unit :=
  e <- await (RisingEdge "clk") ;;
  publish {| cfg := array e "pmp_pmpcfg" entries; entry := 0;
             pmp_addr := array e "pmp_pmpaddr" entries;
             chan_addr := array e "pmp_chan_addr" channels;
             chan_type := FHandle "pmp_chan_type"; chan := 0; chan_err := FInt 0 |}.

Definition ReadMonitor_run_phase (_ : unit) : proc InputItem unit :=
  _ <- await (RisingEdge "clk") ;;
  publish {| cfg := FInt 0; entry := 0; pmp_addr := FInt 0; chan_addr := FInt 0;
             chan_type := FInt 0; chan := 0; chan_err := FHandle "pmp_chan_err" |}.
End Monitors.

(** [int(f)]; [last] are the values of the ports when [check_phase] runs. *)
Definition field_to_int (last : env) (f : field) : result Z :=
  match f with
  | FInt v => Ok v
  | FHandle name => Ok (last name)
  | FArray _ => Raise TypeError
  end.

(** "we should never hit PMP error in this test" *)
Definition check_item (last : env) (item_inp item_out : InputItem) (passed : option bool)
  : result (option bool) :=
  let! err := field_to_int last (chan_err item_inp) in
  Ok (if negb (err =? 0) then Some false else passed).

Definition Scoreboard_verdict (last : env) (inp out : list InputItem) : result unit :=
  let! passed := check_pairs (check_item last) inp out None in final_phase passed.

(** *** The sequence of test_pmp_random.py *)

Definition map_field (f : Z -> Z) (x : field) : field :=
  match x with FInt v => FInt (f v) | x => x end.

Definition legalize_pmpcfg (it : InputItem) : InputItem :=
  {| cfg := map_field (fun v => Z.land v (DecPmpCtl.octets4 0x1D)) (cfg it); entry := entry it;
     pmp_addr := pmp_addr it; chan_addr := chan_addr it; chan_type := chan_type it;
     chan := chan it; chan_err := chan_err it |}.

Definition legalize_pmpaddr (it : InputItem) : InputItem :=
  {| cfg := cfg it; entry := entry it; pmp_addr := map_field (fun v => Z.land v 0x3FFFFFFF) (pmp_addr it);
     chan_addr := chan_addr it; chan_type := chan_type it; chan := chan it;
     chan_err := chan_err it |}.

Definition do_reset : proc InputItem unit :=
  drive "rst_l" 0 ;;; clock_cycles "clk" 2 ;;; (_ <- await (FallingEdge "clk") ;; drive "rst_l" 1).

Definition run_phase (run : proc InputItem unit) : proc InputItem unit :=
  do_reset ;;; clock_cycles "clk" 2 ;;; run ;;; clock_cycles "clk" 10.

End PmpRandom.

(** ** Facts *)

Section Facts.
Import DecPmpCtl.

#[export] Instance csr_pair_spec : PairSpec check_item (fun _ => True) (fun i o => i = o).
Proof.
  refine {| pair_matches_dec := fun i o => InputItem_eq_dec i o |}.
  intros [a d] [a' d'] b _. unfold check_item. simpl. f_equal. f_equal.
  case_bool_decide as H; [injection H as -> ->; by rewrite !Z.eqb_refl, andb_true_r|].
  destruct (Z.eqb_spec a a') as [->|], (Z.eqb_spec d d') as [->|]; simpl;
    by rewrite ?andb_false_r.
Qed.

(** Addresses of a drawn sequence. *)
Lemma draw_spec base addrs rnds item rnds' :
  draw base addrs rnds = Some (item, rnds') -> Forall (fun r => 0 <= r.1 < 16) rnds ->
  (addr item ∉ addrs) /\ base <= addr item < base + 16 /\ Forall (fun r => 0 <= r.1 < 16) rnds'.
Proof.
  induction rnds as [|[off rnd] rnds IH]; intros H Hr; [done|]. cbn [draw] in H.
  inversion_clear Hr as [|?? H0 H1]. cbn [fst] in H0.
  destruct (existsb _ addrs) eqn:E; [by apply IH|]. injection H as <- <-.
  split; [|split; [simpl; lia|done]]. intros Hin.
  rewrite <- not_true_iff_false, existsb_exists in E. apply E.
  exists (addr (randomize {| addr := base; data := 0 |} off rnd)).
  split; [by apply list_elem_of_In|apply Z.eqb_refl].
Qed.

Lemma forall_fst_wf : Forall (fun b : Z => is_pmp_block b = true)
  (concat (map (fun b => map (fun k => b + Z.of_nat k) (seq 0 16))
     [PMPCFG; PMPADDR0; PMPADDR16; PMPADDR32; PMPADDR48])).
Proof. repeat constructor. Qed.

Definition pmp_bases : list Z := [PMPCFG; PMPADDR0; PMPADDR16; PMPADDR32; PMPADDR48].

Lemma in_block_is_pmp base a :
  base ∈ pmp_bases -> base <= a < base + 16 -> is_pmp_block a = true.
Proof.
  intros Hb Ha. pose proof forall_fst_wf as H. rewrite Forall_forall in H. apply H.
  apply list_elem_of_In, in_concat. eexists. split.
  - apply in_map. by apply list_elem_of_In.
  - apply in_map_iff. exists (Z.to_nat (a - base)). split; [lia|]. apply in_seq. lia.
Qed.

Lemma draw_all_spec (Q : InputItem -> Prop) specs items rnds items' rnds' :
  draw_all specs items rnds = Some (items', rnds') ->
  Forall (fun r => 0 <= r.1 < 16) rnds ->
  Forall (fun sp => forall it, addr (sp.2 it) = addr it /\
    (sp.1 <= addr it < sp.1 + 16 -> Q (sp.2 it))) specs ->
  NoDup (map addr items) -> Forall Q items ->
  NoDup (map addr items') /\ Forall Q items'
  /\ length items' = (length items + length specs)%nat.
Proof.
  unfold draw_all. revert items rnds.
  induction specs as [|[base leg] specs IH]; intros items rnds H Hr Hs Hn Hf.
  { injection H as <- <-. simpl. split_and!; [done..|lia]. }
  inversion_clear Hs as [|?? Hleg Hs']. cbn [foldl] in H. cbn [fst snd] in Hleg.
  destruct (draw base (map addr items) rnds) as [[item rnds1]|] eqn:E.
  2: { exfalso. clear -H. induction specs as [|[b l] specs IH]; [done|by apply IH]. }
  destruct (draw_spec _ _ _ _ _ E Hr) as (Hnew & Hrange & Hr1).
  destruct (Hleg item) as [Haddr HQ].
  apply IH in H as (Hn' & Hf' & Hl); try done.
  - rewrite length_app in Hl. simpl in *. split_and!; [done..|lia].
  - rewrite map_app. apply NoDup_app. split; [done|]. split; [|apply NoDup_singleton].
    intros z Hz Hz'. apply list_elem_of_singleton in Hz' as ->. by rewrite Haddr in Hz.
  - apply Forall_app. split; [done|]. constructor; [by apply HQ|done].
Qed.

(** No lock bit is set in the configuration octets of [v]. *)
Definition lock_free (v : Z) : Prop := forall k, Z.testbit v (8 * k + 7) = false.

Lemma octets4_lock_free v : lock_free (Z.land v (octets4 0x1D)).
Proof.
  intros k. rewrite Z.land_spec.
  replace (Z.testbit (octets4 0x1D) (8 * k + 7)) with false; [apply andb_false_r|].
  destruct (decide (k < 0)); [by rewrite Z.testbit_neg_r by lia|].
  destruct (decide (k < 4)) as [Hk|Hk].
  - assert (k = 0 \/ k = 1 \/ k = 2 \/ k = 3) as [->|[->|[->| ->]]] by lia; done.
  - symmetry. apply (testbit_bounded _ 32); [done|lia].
Qed.

(** What the sequences promise of each item. *)
Definition csr_item_ok (it : InputItem) : Prop :=
  is_pmp_block (addr it) = true /\ (addr it < PMPADDR0 -> lock_free (data it)).

Lemma CsrSequence_specs_ok :
  Forall (fun sp => forall it, addr (sp.2 it) = addr it /\
    (sp.1 <= addr it < sp.1 + 16 -> csr_item_ok (sp.2 it))) CsrSequence_specs.
Proof.
  assert (forall base, base ∈ [PMPADDR0; PMPADDR16; PMPADDR32; PMPADDR48] ->
    forall it, base <= addr it < base + 16 -> csr_item_ok (legalize_pmpaddr it)) as Ha.
  { intros base Hb it Hit. split; [apply (in_block_is_pmp base); [unfold pmp_bases; by right|done]|].
    intros Hlt. exfalso. simpl in Hlt. unfold PMPADDR0 in *.
    unfold PMPADDR16, PMPADDR32, PMPADDR48 in *.
    repeat (apply elem_of_cons in Hb as [->|Hb]; [lia|]). by inversion Hb. }
  apply Forall_concat, Forall_replicate. constructor; [|rewrite Forall_map].
  - intros it. split; [done|]. simpl. intros Hit. split; [apply (in_block_is_pmp PMPCFG); [unfold pmp_bases; by left|done]|].
    intros _. apply octets4_lock_free.
  - apply Forall_forall. intros base Hb it. split; [done|]. by apply Ha.
Qed.
End Facts.

(** ** Properties *)

(** Whatever the random generator returns, the CSR sequence that is
    written and then read back has 25 accesses to pairwise distinct registers,
    all of them in the blocks that the read monitor reports, and never sets a
    lock bit of a PMPCFG register, so that no write disables a later one. *)
Theorem pmp_csr_sequence_legal rnds items rnds' :
  Forall (fun r => 0 <= r.1 < 16) rnds ->
  DecPmpCtl.CsrSequence rnds = Some (items, rnds') ->
  length items = 25%nat /\ NoDup (map DecPmpCtl.addr items) /\ Forall csr_item_ok items.
Proof.
  intros Hr H. destruct (draw_all_spec csr_item_ok _ _ _ _ _ H Hr) as (Hn & Hf & Hl).
  - apply CsrSequence_specs_ok.
  - constructor.
  - constructor.
  - done.
Qed.

Lemma pmp_csr_sequence_legal_witness :
  let rnds := map (fun k => (Z.of_nat (k / 5), 0xFFFFFFFF)) (seq 0 25) in
  length (from_option fst [] (DecPmpCtl.CsrSequence rnds)) = 25%nat
  /\ NoDup (map DecPmpCtl.addr (from_option fst [] (DecPmpCtl.CsrSequence rnds)))
  /\ Forall csr_item_ok (from_option fst [] (DecPmpCtl.CsrSequence rnds)).
Proof.
  apply (pmp_csr_sequence_legal (map (fun k => (Z.of_nat (k / 5), 0xFFFFFFFF)) (seq 0 25)) _ []).
  - repeat constructor; simpl; lia.
  - vm_compute. reflexivity.
Defined.

(** The random PMP bench cannot fail on a PMP error: whatever the unit
    under test does during a simulation with at least one clock edge, and
    whatever error flags it raises, the scoreboard reports success on the items
    of its two monitors. *)
Theorem pmp_random_scoreboard_blind entries channels cur last (envs : list env) :
  envs <> [] ->
  let tr := Sample (RisingEdge "clk") <$> envs in
  PmpRandom.Scoreboard_verdict last
    (monitor_items (PmpRandom.WriteMonitor_run_phase entries channels) tt cur tr)
    (monitor_items PmpRandom.ReadMonitor_run_phase tt cur tr) = Ok tt.
Proof.
  intros Hne tr.
  assert (forall (body : unit -> proc PmpRandom.InputItem unit) (f : env -> PmpRandom.InputItem)
    cur envs, (forall u, body u = Await (RisingEdge "clk") (fun e => Publish (f e) (Ret tt))) ->
    monitor_items body tt cur (Sample (RisingEdge "clk") <$> envs) = f <$> envs)
    as Hmon.
  { intros body f cur0 es Hb. revert cur0. induction es as [|e es IH]; intros cur0.
    - apply monitor_items_nil. by rewrite Hb.
    - rewrite !fmap_cons.
      rewrite (monitor_items_step body tt cur0 _ [APublish (f e)] tt e (Sample (RisingEdge "clk") <$> es)).
      + by rewrite IH.
      + apply productive_await. intros u. rewrite Hb. by eexists _, _.
      + by rewrite Hb, run_await_hit. }
  subst tr. erewrite !Hmon by done.
  assert (forall (fi fo : env -> PmpRandom.InputItem) es p,
    (forall e, PmpRandom.chan_err (fi e) = PmpRandom.FInt 0) ->
    check_pairs (PmpRandom.check_item last) (fi <$> es) (fo <$> es) p
    = Ok (match es with [] => p | _ => set_initial p end)) as Hck.
  { intros fi fo es p Hfi. revert p. induction es as [|e es IH]; intros p; [done|].
    rewrite !fmap_cons. cbn [check_pairs]. unfold PmpRandom.check_item at 1. rewrite Hfi.
    cbn [PmpRandom.field_to_int rbind negb Z.eqb]. rewrite IH. by destruct es, p. }
  unfold PmpRandom.Scoreboard_verdict. rewrite Hck by done. by destruct envs.
Qed.

Lemma pmp_random_scoreboard_blind_witness :
  let tr := Sample (RisingEdge "clk") <$> [sig_env [("pmp_chan_err", 7)]] in
  PmpRandom.Scoreboard_verdict (sig_env [("pmp_chan_err", 7)])
    (monitor_items (PmpRandom.WriteMonitor_run_phase 16 3) tt (sig_env []) tr)
    (monitor_items PmpRandom.ReadMonitor_run_phase tt (sig_env []) tr) = Ok tt.
Proof. by apply pmp_random_scoreboard_blind. Defined.
