(* ===== verification/TriggerLogic.v ===== *)
(** * Trigger logic benches: verification/block/dec_tl/testbench.py and
    verification/block/lsu_tl/testbench.py

    The two benches differ in the ports and in the bits they compare: the
    decode unit compares the 31 bits of a program counter, the load/store unit
    32 bits of data.  [shift] and [width] stand for that difference in the
    shared code.  Bit strings are lists of booleans, most significant first;
    the values the [random] module returns are arguments ([choice]). *)

From S2P Require Import Prelude Scoreboard Cocotb Pmp.
From stdpp Require Import base list strings pretty.
From Stdlib Require Import ZArith Lia.

#[local] Open Scope string_scope.
#[local] Open Scope list_scope.
#[local] Open Scope Z_scope.

(** ** Bit strings *)

Fixpoint bits_msb (n : nat) (z : Z) : list bool :=
  match n with
  | O => []
  | S n => bits_msb n (z / 2) ++ [Z.odd z]
  end.

(** [f"{z:0wb}"] of a non-negative [z]: at least [w] digits. *)
Definition format_bin (w : nat) (z : Z) : list bool :=
  bits_msb (Nat.max w (Z.to_nat (1 + Z.log2 z))) z.

(** [int(s, 2)] *)
Definition int_base2 (s : list bool) : result Z :=
  match s with
  | [] => Raise ValueError
  | _ => Ok (foldl (fun a b => 2 * a + Z.b2z b) 0 s)
  end.

(** [s.rindex("0")] *)
Fixpoint rindex_zero_aux (s : list bool) (i : nat) (found : option nat) : result nat :=
  match s with
  | [] => match found with Some i => Ok i | None => Raise ValueError end
  | b :: s => rindex_zero_aux s (S i) (if b then found else Some i)
  end.

Definition rindex_zero (s : list bool) : result nat := rindex_zero_aux s 0 None.

(** ** Items *)

Record TlInputItem := { data : Z; tdata : list (option Z); tmatch : Z }.

(** [TlInputItem(data, tdata, match)] *)
Definition mkTlInputItem (d : Z) (td : option (list Z)) (m : Z) : TlInputItem :=
  {| data := d; tmatch := m;
     tdata := match td with Some l => Some <$> take 4 l | None => replicate 4 None end |}.

(** The random values of one trigger: whether it is to match, the length drawn,
    the random digits, and the position that assures a mismatch. *)
Record choice := { matching : bool; drawn : nat; digits : list bool; position : nat }.

Definition random_trigger (d : list bool) (c : choice) : result (Z * Z) :=
  let prefix :=
    if matching c then take (drawn c) d
    else take (position c) (digits c)
         ++ [negb (nth (position c) d false)]
         ++ drop (S (position c)) (digits c) in
  let length := (32 - drawn c)%nat in
  let m := match length with O => [false] | _ => [true] end in
  let td := match length with
            | O => prefix
            | S n => prefix ++ false :: replicate n true
            end in
  let! m := int_base2 m in
  let! td := int_base2 td in
  Ok (m, td).

Fixpoint random_triggers (d : list bool) (cs : list choice) (i : Z) (m : Z) (td : list (option Z))
  : result (Z * list (option Z)) :=
  match cs with
  | [] => Ok (m, td)
  | c :: cs =>
      let! (m', t) := random_trigger d c in
      random_triggers d cs (i + 1) (Z.lor m (Z.shiftl m' i)) (<[Z.to_nat i := Some t]> td)
  end.

(** [randomize]: 31 random digits of data, then four triggers. *)
Definition randomize (ds : list bool) (cs : list choice) (it : TlInputItem) : result TlInputItem :=
  let d := ds ++ [false] in
  let! v := int_base2 d in
  let! (m, td) := random_triggers d cs 0 0 (tdata it) in
  Ok {| data := v; tdata := td; tmatch := m |}.

(** ** The scoreboards *)

Section Check.
Variables (shift : Z) (width : nat).

(** One trigger: [res |= (...) << i]. *)
Definition trigger_matches (m : Z) (i : Z) (t d : list bool) : result bool :=
  if truthy (Z.land m (Z.shiftl 1 i)) then
    let! length := rindex_zero t in
    Ok (bool_decide (take length t = take length d))
  else Ok (bool_decide (t = d)).

Definition tdata_bits (it : TlInputItem) (i : nat) : result (list bool) :=
  match tdata it !! i with
  | None => Raise IndexError
  | Some None => Raise TypeError
  | Some (Some t) => Ok (format_bin width (Z.shiftr t shift))
  end.

Fixpoint expected_matches (it : TlInputItem) (idx : list nat) (res : Z) : result Z :=
  match idx with
  | [] => Ok res
  | i :: idx =>
      let! t := tdata_bits it i in
      let! b := trigger_matches (tmatch it) (Z.of_nat i) t (format_bin width (data it)) in
      expected_matches it idx (Z.lor res (Z.shiftl (Z.b2z b) (Z.of_nat i)))
  end.

Definition check_item (item_inp : TlInputItem) (matches : Z) (passed : option bool)
  : result (option bool) :=
  let! res := expected_matches item_inp (seq 0 4) 0 in
  Ok (if negb (matches =? res) then Some false else passed).

Definition Scoreboard_verdict (inp : list TlInputItem) (out : list Z) : result unit :=
  let! passed := check_pairs check_item inp out None in final_phase passed.
End Check.

(** [self.dut.tdata[i].value = it.tdata[i]] *)
Definition drive_tdata {I} (it : TlInputItem) (i : nat) : proc I unit :=
  match tdata it !! i with
  | None => throw IndexError
  | Some None => throw TypeError
  | Some (Some t) => drive (port "tdata" i) t
  end.

(** The configuration bits common to the two drivers. *)
Definition drive_trigger_bits {I} (it : TlInputItem) : proc I unit :=
  for_each (seq 0 4) (drive_tdata it) ;;;
  drive "match" (tmatch it) ;;;
  drive "select" 0 ;;; drive "store" 0xF ;;; drive "load" 0xF ;;; drive "execute" 0xF ;;;
  drive "m" 0xF.

Definition sample_tdata (e : env) : list Z := (fun i => e (port "tdata" i)) <$> seq 0 4.

Module DecTl.

Definition TlDriver_item (it : TlInputItem) : proc Z unit :=
  drive "dec_i0_pc_d" (Z.shiftr (data it) 1) ;;;
  drive_trigger_bits it ;;;
  (_ <- await Timer ;; Ret tt).

Definition TlInputMonitor_run_phase (_ : unit) : proc TlInputItem unit :=
  e <- await Timer ;;
  publish (mkTlInputItem (e "dec_i0_pc_d") (Some (sample_tdata e)) (e "match")).

Definition TlOutputMonitor_run_phase (_ : unit) : proc Z unit :=
  e <- await Timer ;; publish (e "dec_i0_trigger_match_d").

Definition TlScoreboard_verdict : list TlInputItem -> list Z -> result unit :=
  Scoreboard_verdict 1 31.

End DecTl.

(** The items of lsu_tl/testbench.py are generated by the same code. *)
Module LsuTl.

Definition random_trigger : list bool -> choice -> result (Z * Z) := random_trigger.

Definition randomize : list bool -> list choice -> TlInputItem -> result TlInputItem := randomize.

Definition TlDriver_item (it : TlInputItem) : proc Z unit :=
  drive "lsu_addr_m" (data it) ;;;
  drive "store_data_m" (data it) ;;;
  drive_trigger_bits it ;;;
  (_ <- await Timer ;; Ret tt).

Definition TlInputMonitor_run_phase (_ : unit) : proc TlInputItem unit :=
  e <- await Timer ;;
  publish (mkTlInputItem (e "store_data_m") (Some (sample_tdata e)) (e "match")).

Definition TlOutputMonitor_run_phase (_ : unit) : proc Z unit :=
  e <- await Timer ;; publish (e "lsu_trigger_match_m").

Definition TlScoreboard_verdict : list TlInputItem -> list Z -> result unit :=
  Scoreboard_verdict 0 32.

End LsuTl.

(** ** Facts on bit strings *)

Definition val (s : list bool) : Z := foldl (fun a b => 2 * a + Z.b2z b) 0 s.

Lemma val_snoc s b : val (s ++ [b]) = 2 * val s + Z.b2z b.
Proof. unfold val. by rewrite foldl_app. Qed.

Lemma val_app s t : val (s ++ t) = val s * 2 ^ Z.of_nat (length t) + val t.
Proof.
  induction t as [|b t IH] using rev_ind; [simpl; rewrite app_nil_r; unfold val; simpl; lia|].
  rewrite app_assoc, !val_snoc, IH, length_app, Nat.add_comm. cbn [length Nat.add].
  rewrite Nat2Z.inj_succ, Z.pow_succ_r by lia. lia.
Qed.

Lemma int_base2_val s : s <> [] -> int_base2 s = Ok (val s).
Proof. by destruct s. Qed.

Lemma val_div2 s b : val (s ++ [b]) / 2 = val s.
Proof.
  rewrite val_snoc. symmetry. apply (Z.div_unique _ _ _ (Z.b2z b)); [|done].
  destruct b; cbn [Z.b2z]; lia.
Qed.

Lemma bits_msb_val s : bits_msb (length s) (val s) = s.
Proof.
  induction s as [|b s IH] using rev_ind; [done|].
  rewrite length_app, Nat.add_comm. cbn [length Nat.add bits_msb]. rewrite val_div2, IH. f_equal.
  f_equal. rewrite val_snoc, Z.add_comm, Z.odd_add_mul_2. by destruct b.
Qed.

Lemma val_bound s : 0 <= val s < 2 ^ Z.of_nat (length s).
Proof.
  induction s as [|b s IH] using rev_ind; [done|].
  rewrite val_snoc, length_app, Nat.add_comm. cbn [length Nat.add].
  rewrite Nat2Z.inj_succ, Z.pow_succ_r by lia. destruct b; cbn [Z.b2z]; lia.
Qed.

Lemma format_bin_val s w :
  length s = w -> w <> O -> format_bin w (val s) = s.
Proof.
  intros <- Hw. unfold format_bin. pose proof (val_bound s).
  rewrite Nat.max_l; [apply bits_msb_val|].
  destruct (decide (val s = 0)) as [->|]; [simpl; lia|].
  assert (Z.log2 (val s) < Z.of_nat (length s)) by (apply Z.log2_lt_pow2; lia). lia.
Qed.

Lemma shiftr_val s n :
  (n <= length s)%nat -> Z.shiftr (val s) (Z.of_nat n) = val (take (length s - n) s).
Proof.
  revert n. induction s as [|b s IH] using rev_ind; intros n Hn.
  - simpl in Hn. by replace n with O by lia.
  - destruct n as [|n]; [by rewrite Nat.sub_0_r, firstn_all, Z.shiftr_0_r|].
    rewrite length_app in Hn |- *. cbn [length] in *.
    replace (length s + 1 - S n)%nat with (length s - n)%nat by lia.
    rewrite take_app_le by lia. rewrite <- IH by lia.
    replace (Z.of_nat (S n)) with (1 + Z.of_nat n) by lia.
    rewrite <- Z.shiftr_shiftr by lia. f_equal. rewrite Z.shiftr_div_pow2 by lia. apply val_div2.
Qed.

Lemma rindex_zero_aux_app s t i o :
  rindex_zero_aux (s ++ false :: t) i o = rindex_zero_aux t (S (i + length s)) (Some (i + length s)%nat).
Proof.
  revert i o. induction s as [|b s IH]; intros i o; simpl; [by rewrite Nat.add_0_r|].
  rewrite IH. by rewrite Nat.add_succ_r.
Qed.

Lemma rindex_zero_aux_ones n i o :
  rindex_zero_aux (replicate n true) i o = match o with Some i => Ok i | None => Raise ValueError end.
Proof. revert i. induction n as [|n IH]; intros i; [done|]. apply IH. Qed.

Lemma rindex_zero_mask s n : rindex_zero (s ++ false :: replicate n true) = Ok (length s).
Proof. unfold rindex_zero. by rewrite rindex_zero_aux_app, rindex_zero_aux_ones. Qed.

(** ** One trigger: what is generated and what the scoreboard computes *)

(** The ranges of the [random] calls. *)
Definition valid_choice (c : choice) : Prop :=
  (drawn c <= 32)%nat /\
  (matching c = false ->
     (1 <= drawn c < 32)%nat /\ length (digits c) = drawn c /\ (position c < drawn c)%nat).

Lemma trigger_string d c :
  length d = 32%nat -> valid_choice c ->
  exists p, length p = drawn c /\
    random_trigger d c = Ok (Z.b2z (negb (drawn c =? 32)%nat),
      val (p ++ match (32 - drawn c)%nat with O => [] | S n => false :: replicate n true end)) /\
    (p = take (drawn c) d <-> matching c = true).
Proof.
  intros Hd [Hle Hmis]. unfold random_trigger.
  set (p := if matching c then _ else _). exists p.
  assert (length p = drawn c /\ (p = take (drawn c) d <-> matching c = true)) as [Hl Hp].
  { subst p. destruct (matching c).
    - split; [rewrite length_take; lia|done].
    - destruct (Hmis eq_refl) as (Hr & Hdl & Hpos). split.
      + rewrite !length_app, length_take, length_drop. cbn [length]. lia.
      + split; [|done]. intros H. exfalso.
        apply (f_equal (fun l => nth (position c) l false)) in H.
        rewrite app_nth2 in H by (rewrite length_take; lia).
        rewrite length_take, Nat.min_l, Nat.sub_diag in H by lia. cbn [nth app] in H.
        rewrite <- (firstn_skipn (drawn c) d) in H at 1.
        rewrite app_nth1 in H by (rewrite length_take; lia).
        by destruct (nth (position c) (take (drawn c) d) false). }
  split; [done|]. split; [|done]. clearbody p.
  destruct (32 - drawn c)%nat as [|n] eqn:E.
  - replace (drawn c) with 32%nat by lia. rewrite app_nil_r. cbn [rbind int_base2].
    by rewrite int_base2_val by (intros ->; simpl in Hl; lia).
  - destruct (Nat.eqb_spec (drawn c) 32) as [|_]; [lia|].
    rewrite (int_base2_val (p ++ _)) by (by destruct p). done.
Qed.

Section OneBench.
(** [s] bits are dropped: 0 or 1. *)
Variable s : nat.
Hypothesis Hs : (s <= 1)%nat.

(** The lengths for which the dropped bits do not touch the mask. *)
Definition usable (c : choice) : Prop := (drawn c + s <= 31)%nat \/ drawn c = 32%nat.

Lemma take_format d :
  length d = 32%nat ->
  format_bin (32 - s) (Z.shiftr (val d) (Z.of_nat s)) = take (32 - s) d.
Proof using Hs.
  intros Hd. rewrite shiftr_val, Hd by lia.
  apply format_bin_val; [rewrite length_take|]; lia.
Qed.

Lemma trigger_expected d c m i :
  length d = 32%nat -> valid_choice c -> usable c ->
  truthy (Z.land m (Z.shiftl 1 i)) = negb (drawn c =? 32)%nat ->
  exists t, random_trigger d c = Ok (Z.b2z (negb (drawn c =? 32)%nat), val t)
    /\ length t = 32%nat
    /\ trigger_matches m i (take (32 - s) t) (take (32 - s) d) = Ok (matching c).
Proof using Hs.
  intros Hd Hv Hu Hm. destruct (trigger_string d c Hd Hv) as (p & Hl & Hr & Hp).
  eexists. split; [exact Hr|]. unfold trigger_matches. rewrite Hm.
  destruct (Nat.eqb_spec (drawn c) 32) as [E|E]; cbn [negb].
  - rewrite E in *. cbn [Nat.sub]. rewrite app_nil_r. split; [done|].
    rewrite <- Hd, firstn_all in Hp. f_equal.
    assert (matching c = true) as Hmt.
    { destruct (matching c) eqn:Em; [done|]. destruct Hv as [_ Hv]. destruct (Hv Em). lia. }
    rewrite Hmt. apply bool_decide_eq_true. f_equal. by apply Hp.
  - destruct Hu as [Hu|]; [|done].
    assert ((32 - drawn c)%nat = S (31 - drawn c)) as -> by (destruct Hv; lia).
    split; [rewrite length_app; cbn [length]; rewrite length_replicate; lia|].
    rewrite take_app_ge by lia. rewrite Hl.
    assert ((32 - s - drawn c)%nat = S (31 - s - drawn c)) as -> by lia.
    cbn [firstn]. rewrite take_replicate.
    rewrite rindex_zero_mask. cbn [rbind]. f_equal. rewrite Hl.
    rewrite take_app_le, take_ge by lia.
    rewrite take_take, Nat.min_l by lia.
    destruct (matching c) eqn:Em.
    + apply bool_decide_eq_true. by apply Hp.
    + apply bool_decide_eq_false. intros H. by apply Hp in H.
Qed.
End OneBench.

(** ** Items: generation, driving, monitoring and checking *)

(** The random values of one item: the data digits and the four triggers. *)
Abbreviation gen := (list bool * list choice)%type.

Definition valid_gen (s : nat) (g : gen) : Prop :=
  length g.1 = 31%nat /\ length g.2 = 4%nat /\ Forall valid_choice g.2 /\ Forall (usable s) g.2.

(** The outcomes that the generator intends, trigger 0 in the lowest bit. *)
Definition intended (g : gen) : Z := val (rev (map matching g.2)).

Definition generated (g : gen) (it : TlInputItem) : Prop :=
  randomize g.1 g.2 (mkTlInputItem 0 None 0) = Ok it.

Definition full_item (it : TlInputItem) : Prop := exists ts, length ts = 4%nat /\ tdata it = Some <$> ts.

Definition lsu_generated (g : gen) (it : TlInputItem) : Prop :=
  LsuTl.randomize g.1 g.2 (mkTlInputItem 0 None 0) = Ok it.

Lemma match_bits b0 b1 b2 b3 i :
  (i < 4)%nat ->
  truthy (Z.land (Z.lor (Z.lor (Z.lor (Z.lor 0 (Z.shiftl (Z.b2z b0) 0)) (Z.shiftl (Z.b2z b1) 1))
    (Z.shiftl (Z.b2z b2) 2)) (Z.shiftl (Z.b2z b3) 3)) (Z.shiftl 1 (Z.of_nat i)))
  = nth i [b0; b1; b2; b3] false.
Proof. intros Hi. destruct i as [|[|[|[|i]]]]; [..|lia]; by destruct b0, b1, b2, b3. Qed.

Lemma randomize_expected s g :
  (s <= 1)%nat -> valid_gen s g ->
  exists it, generated g it /\ full_item it /\
    expected_matches (Z.of_nat s) (32 - s)
      {| data := Z.shiftr (data it) (Z.of_nat s); tdata := tdata it; tmatch := tmatch it |}
      (seq 0 4) 0 = Ok (intended g).
Proof.
  intros Hs (Hd & Hc & Hv & Hu). destruct g as [ds cs]. cbn [fst snd] in *.
  assert (length (ds ++ [false]) = 32%nat) as Hd' by (rewrite length_app, Hd; done).
  destruct cs as [|c0 [|c1 [|c2 [|c3 [|??]]]]]; try done. clear Hc.
  rewrite !Forall_cons in Hv, Hu. destruct Hv as (V0 & V1 & V2 & V3 & _).
  destruct Hu as (U0 & U1 & U2 & U3 & _).
  set (b c := negb (drawn c =? 32)%nat).
  pose proof (match_bits (b c0) (b c1) (b c2) (b c3)) as Hm.
  set (m := Z.lor _ (Z.shiftl (Z.b2z (b c3)) 3)) in Hm.
  pose proof (fun c i H V U => trigger_expected s Hs (ds ++ [false]) c m i Hd' V U H) as T.
  destruct (T c0 0 (Hm 0%nat ltac:(lia)) V0 U0) as (t0 & R0 & L0 & E0).
  destruct (T c1 1 (Hm 1%nat ltac:(lia)) V1 U1) as (t1 & R1 & L1 & E1).
  destruct (T c2 2 (Hm 2%nat ltac:(lia)) V2 U2) as (t2 & R2 & L2 & E2).
  destruct (T c3 3 (Hm 3%nat ltac:(lia)) V3 U3) as (t3 & R3 & L3 & E3).
  exists {| data := val (ds ++ [false]); tmatch := m;
            tdata := Some <$> [val t0; val t1; val t2; val t3] |}.
  split; [|split; [by exists [val t0; val t1; val t2; val t3]|]].
  - unfold generated, randomize. rewrite int_base2_val by (by destruct ds).
    cbn [rbind random_triggers fst snd]. rewrite R0. cbn [rbind]. rewrite R1. cbn [rbind].
    rewrite R2. cbn [rbind]. rewrite R3. done.
  - unfold expected_matches, tdata_bits. cbn [seq tdata data tmatch fmap list_fmap lookup list_lookup].
    rewrite !take_format by done. cbn [rbind].
    change (Z.of_nat 0) with 0. change (Z.of_nat 1) with 1. change (Z.of_nat 2) with 2.
    change (Z.of_nat 3) with 3. rewrite E0. cbn [rbind]. rewrite E1. cbn [rbind].
    rewrite E2. cbn [rbind]. rewrite E3. cbn [rbind]. unfold intended. cbn [snd map rev app].
    by destruct (matching c0), (matching c1), (matching c2), (matching c3).
Qed.

(** *** From the driver to the scoreboard *)

Section Run.
Variable driver : TlInputItem -> proc Z unit.
Variable monitor : unit -> proc TlInputItem unit.

(** The port values after the driver has presented an item. *)
Definition presented (it : TlInputItem) (e : env) : env :=
  (settle (fun _ v => v) (driver it) e e).1.

(** The samples at the timer expiries of a run. *)
Fixpoint timer_samples (its : list TlInputItem) (e : env) : list sample :=
  match its with
  | [] => []
  | it :: its => let e := presented it e in Sample Timer e :: timer_samples its e
  end.

Definition observed_items (its : list TlInputItem) (e : env) : list TlInputItem :=
  monitor_items monitor tt e (timer_samples its e).

Variable observe : TlInputItem -> TlInputItem.
Variable sampled : env -> TlInputItem.
Hypothesis monitor_eq : forall u, monitor u = Await Timer (fun e => Publish (sampled e) (Ret tt)).
Hypothesis presented_sampled : forall it e, full_item it -> sampled (presented it e) = observe it.

Lemma observed_items_eq its e :
  Forall full_item its -> observed_items its e = observe <$> its.
Proof using monitor_eq presented_sampled.
  unfold observed_items. generalize e at 1 as cur.
  intros cur Hits. revert cur e. induction Hits as [|it its Hit _ IH]; intros cur e.
  - apply monitor_items_nil. by rewrite monitor_eq.
  - rewrite fmap_cons. cbn [timer_samples].
    rewrite (monitor_items_step monitor tt cur _ [APublish (observe it)] tt (presented it e)
               (timer_samples its (presented it e))).
    + by rewrite IH.
    + apply productive_await. intros u. rewrite monitor_eq. by eexists _, _.
    + rewrite monitor_eq, run_await_hit. simpl. by rewrite presented_sampled.
Qed.
End Run.

Lemma check_pairs_expected sh w (its : list TlInputItem) (ms outs : list Z) :
  Forall2 (fun it m => expected_matches sh w it (seq 0 4) 0 = Ok m) its ms ->
  Scoreboard_verdict sh w its outs = Ok tt <-> its <> [] /\ outs = ms.
Proof.
  intros H.
  assert (forall o p, exists b,
    check_pairs (check_item sh w) its o (Some p) = Ok (Some b) /\ (b = true <-> p = true /\ o = ms)) as Hb.
  { induction H as [|it m its ms Hit _ IH]; intros [|o' o] p; simpl.
    - exists p. intuition congruence.
    - exists false. intuition congruence.
    - exists false. intuition congruence.
    - unfold check_item at 1. rewrite Hit. cbn [rbind].
      destruct (Z.eqb_spec o' m) as [->|Hne]; cbn [negb];
        [destruct (IH o p) as (b & -> & Hb)|destruct (IH o false) as (b & -> & Hb)];
        exists b; (split; [done|]); rewrite Hb; intuition congruence. }
  unfold Scoreboard_verdict. destruct H as [|it m its ms Hit H].
  - destruct outs; (split; [done|]); intros [Hn _]; by destruct Hn.
  - specialize (Hb outs true). destruct Hb as (b & Hb & Hbt).
    destruct outs as [|o outs]; [split; [done|]; by intros [_ Ho]|].
    change (check_pairs (check_item sh w) (it :: its) (o :: outs) None)
      with (check_pairs (check_item sh w) (it :: its) (o :: outs) (Some true)).
    rewrite Hb. cbn [rbind]. transitivity (b = true); [by destruct b|]. rewrite Hbt. intuition congruence.
Qed.

(** ** Properties *)

Lemma full_item_inv it : full_item it ->
  exists t0 t1 t2 t3, tdata it = [Some t0; Some t1; Some t2; Some t3].
Proof.
  intros (ts & Hl & Ht). destruct ts as [|t0 [|t1 [|t2 [|t3 [|??]]]]]; try done.
  by exists t0, t1, t2, t3.
Qed.

Lemma dec_sampled it e : full_item it ->
  mkTlInputItem (presented DecTl.TlDriver_item it e "dec_i0_pc_d")
    (Some (sample_tdata (presented DecTl.TlDriver_item it e)))
    (presented DecTl.TlDriver_item it e "match")
  = {| data := Z.shiftr (data it) 1; tdata := tdata it; tmatch := tmatch it |}.
Proof.
  intros H. destruct (full_item_inv it H) as (t0 & t1 & t2 & t3 & Ht).
  destruct it as [d td m]. cbn [data tdata tmatch] in *. subst td. done.
Qed.

Lemma lsu_sampled it e : full_item it ->
  mkTlInputItem (presented LsuTl.TlDriver_item it e "store_data_m")
    (Some (sample_tdata (presented LsuTl.TlDriver_item it e)))
    (presented LsuTl.TlDriver_item it e "match")
  = {| data := Z.shiftr (data it) 0; tdata := tdata it; tmatch := tmatch it |}.
Proof.
  intros H. destruct (full_item_inv it H) as (t0 & t1 & t2 & t3 & Ht).
  destruct it as [d td m]. cbn [data tdata tmatch] in *. subst td. by destruct d.
Qed.

Lemma generated_list s gens :
  (s <= 1)%nat -> Forall (valid_gen s) gens ->
  exists its, Forall2 generated gens its /\ Forall full_item its /\
    Forall2 (fun it m => expected_matches (Z.of_nat s) (32 - s)
      {| data := Z.shiftr (data it) (Z.of_nat s); tdata := tdata it; tmatch := tmatch it |}
      (seq 0 4) 0 = Ok m) its (map intended gens).
Proof.
  intros Hs. induction 1 as [|g gens Hg _ (its & H1 & H2 & H3)].
  - exists []. repeat constructor.
  - destruct (randomize_expected s g Hs Hg) as (it & Hg1 & Hg2 & Hg3).
    exists (it :: its). repeat split; by constructor.
Qed.

Lemma bench_sound_complete s gens e outs driver monitor sampled :
  (s <= 1)%nat -> Forall (valid_gen s) gens ->
  (forall u, monitor u = Await Timer (fun e => Publish (sampled e) (Ret tt))) ->
  (forall it e, full_item it -> sampled (presented driver it e)
     = {| data := Z.shiftr (data it) (Z.of_nat s); tdata := tdata it; tmatch := tmatch it |}) ->
  exists its, Forall2 generated gens its /\
    (Scoreboard_verdict (Z.of_nat s) (32 - s) (observed_items driver monitor its e) outs = Ok tt
     <-> gens <> [] /\ outs = map intended gens).
Proof.
  intros Hs Hg Hm Hp. destruct (generated_list s gens Hs Hg) as (its & H1 & H2 & H3).
  exists its. split; [done|]. rewrite (observed_items_eq _ _ _ _ Hm Hp) by done.
  rewrite (check_pairs_expected _ _ _ (map intended gens)) by (by apply Forall2_fmap_l).
  destruct H1; cbn [fmap list_fmap]; intuition congruence.
Qed.

(** C12: The load/store trigger bench is sound and complete: for all random
    data and triggers the generator can draw, what the driver presents and the
    input monitor samples makes the scoreboard expect exactly the matches that
    the generator intended, so the run passes if and only if there is an item
    and the unit reported these matches for every item. *)
Theorem lsu_tl_sound_complete gens e outs :
  Forall (valid_gen 0) gens ->
  exists its, Forall2 lsu_generated gens its /\
    (LsuTl.TlScoreboard_verdict
       (observed_items LsuTl.TlDriver_item LsuTl.TlInputMonitor_run_phase its e) outs = Ok tt
     <-> gens <> [] /\ outs = map intended gens).
Proof.
  intros Hg. apply (bench_sound_complete 0 gens e outs _ _
    (fun e => mkTlInputItem (e "store_data_m") (Some (sample_tdata e)) (e "match"))); [lia|done|done|].
  intros it e' Hit. by apply lsu_sampled.
Qed.

(** A trigger that matches the first [n] digits, and one that does not. *)
Definition example_choice (b : bool) (n : nat) : choice :=
  {| matching := b; drawn := n; digits := replicate n false; position := 0 |}.

Definition example_gen : gen :=
  (replicate 31 true, [example_choice true 32; example_choice false 5; example_choice true 0;
                       example_choice true 30]).

Lemma lsu_tl_sound_complete_witness :
  exists its, Forall2 lsu_generated [example_gen] its /\
    (LsuTl.TlScoreboard_verdict
       (observed_items LsuTl.TlDriver_item LsuTl.TlInputMonitor_run_phase its (sig_env [])) [0xD]
       = Ok tt
     <-> [example_gen] <> [] /\ [0xD] = map intended [example_gen]).
Proof.
  apply lsu_tl_sound_complete. constructor; [|constructor].
  split; [done|split; [done|split]].
  - repeat constructor; simpl; intros; try done; lia.
  - repeat constructor; unfold usable; simpl; lia.
Defined.

(** The decode trigger bench is sound and complete in the same sense when
    no trigger is drawn with a prefix of 31 digits, whose mask lies in the bit
    the scoreboard drops. *)
Theorem dec_tl_sound_complete gens e outs :
  Forall (valid_gen 1) gens ->
  exists its, Forall2 generated gens its /\
    (DecTl.TlScoreboard_verdict
       (observed_items DecTl.TlDriver_item DecTl.TlInputMonitor_run_phase its e) outs = Ok tt
     <-> gens <> [] /\ outs = map intended gens).
Proof.
  intros Hg. apply (bench_sound_complete 1 gens e outs _ _
    (fun e => mkTlInputItem (e "dec_i0_pc_d") (Some (sample_tdata e)) (e "match"))); [lia|done|done|].
  intros it e' Hit. by apply dec_sampled.
Qed.

Lemma dec_tl_sound_complete_witness :
  exists its, Forall2 generated [example_gen] its /\
    (DecTl.TlScoreboard_verdict
       (observed_items DecTl.TlDriver_item DecTl.TlInputMonitor_run_phase its (sig_env [])) [0xD]
       = Ok tt
     <-> [example_gen] <> [] /\ [0xD] = map intended [example_gen]).
Proof.
  apply dec_tl_sound_complete. constructor; [|constructor].
  split; [done|split; [done|split]].
  - repeat constructor; simpl; intros; try done; lia.
  - repeat constructor; unfold usable; simpl; lia.
Defined.

(** With a prefix of 31 ones the scoreboard of the decode bench does not reach
    a verdict: [rindex] finds no zero and raises. *)
Example dec_tl_all_ones_raises :
  exists it, generated (replicate 31 true, replicate 4 (example_choice true 31)) it /\
    forall o outs, DecTl.TlScoreboard_verdict
      (observed_items DecTl.TlDriver_item DecTl.TlInputMonitor_run_phase [it] (sig_env []))
      (o :: outs) = Raise ValueError.
Proof.
  eexists. split; [reflexivity|]. intros o outs.
  rewrite (observed_items_eq _ _
    (fun it => {| data := Z.shiftr (data it) 1; tdata := tdata it; tmatch := tmatch it |})
    (fun e => mkTlInputItem (e "dec_i0_pc_d") (Some (sample_tdata e)) (e "match"))).
  - done.
  - done.
  - intros it e. apply dec_sampled.
  - constructor; [|constructor]. by eexists [_; _; _; _].
Qed.
