(* ===== verification/Pic.v ===== *)
(** * Interrupt controller testbench: verification/block/pic/testbench.py

    The register map, the register BFM with its driver and monitor, the
    priority and interrupt drivers and monitors, the claim monitor, the
    priority predictor and the reset. *)

From S2P Require Import Prelude Cocotb.
From stdpp Require Import base gmap list strings.
From Stdlib Require Import ZArith Lia.

#[local] Open Scope string_scope.
#[local] Open Scope list_scope.
#[local] Open Scope Z_scope.

(** ** RegisterMap *)

(** The register names, ["meipl{}".format(s)] and so on. *)
Inductive reg_name :=
  | mpiccfg | meipl (s : nat) | meip (x : nat) | meie (s : nat) | meigwctrl (s : nat)
  | meigwclr (s : nat).

#[export] Instance reg_name_eq_dec : EqDecision reg_name.
Proof. solve_decision. Defined.

#[export] Instance reg_name_countable : Countable reg_name.
Proof.
  refine (inj_countable' (fun r => match r with
      | mpiccfg => (0, O) | meipl s => (1, s) | meip s => (2, s) | meie s => (3, s)
      | meigwctrl s => (4, s) | meigwclr s => (5, s) end)
    (fun p => match p with
      | (0, _) => mpiccfg | (1, s) => meipl s | (2, s) => meip s | (3, s) => meie s
      | (4, s) => meigwctrl s | (_, s) => meigwclr s end) _).
  by intros [].
Defined.

Record RegisterMap := { reg : gmap reg_name Z; adr : gmap Z reg_name }.

Definition add_reg (m : RegisterMap) (r : reg_name * Z) : RegisterMap :=
  {| reg := <[r.1 := r.2]> (reg m); adr := <[r.2 := r.1]> (adr m) |}.

(** [range(lo, hi)] *)
Definition py_range (lo hi : nat) : list nat := seq lo (hi - lo).

(** The calls of [add_reg], in order. *)
Definition register_list (max_irqs : nat) (base_addr : Z) : list (reg_name * Z) :=
  [(mpiccfg, base_addr + 0x3000)]
  ++ map (fun s => (meipl s, base_addr + 4 * Z.of_nat s)) (py_range 1 max_irqs)
  ++ map (fun x => (meip x, base_addr + 0x1000 + 4 * Z.of_nat x)) (py_range 0 (max_irqs / 32))
  ++ map (fun s => (meie s, base_addr + 0x2000 + 4 * Z.of_nat s)) (py_range 1 max_irqs)
  ++ map (fun s => (meigwctrl s, base_addr + 0x4000 + 4 * Z.of_nat s)) (py_range 1 max_irqs)
  ++ map (fun s => (meigwclr s, base_addr + 0x5000 + 4 * Z.of_nat s)) (py_range 1 max_irqs).

Definition mkRegisterMap (max_irqs : nat) (base_addr : Z) : RegisterMap :=
  foldl add_reg {| reg := ∅; adr := ∅ |} (register_list max_irqs base_addr).

(** ** Items *)

Inductive PicItem :=
  | BusWriteItem (addr data : Z)
  | BusReadItem (addr : Z) (data : option Z)
  | PrioLvlItem (prio : Z)
  | PrioThrItem (prio : Z)
  | IrqItem (irqs : Z)
  | ClaimItem (claimid claimpl mexintpend mhwakeup : Z)
  | WaitItem (cycles : nat).

(** ** RegisterBfm, RegisterDriver, RegisterMonitor *)

Definition RegisterBfm_read (addr : Z) : proc PicItem Z :=
  _ <- await (RisingEdge "picm_clk") ;;
  drive "picm_rdaddr" addr ;;;
  drive "picm_rden" 1 ;;;
  drive "picm_mken" 0 ;;;
  _ <- await (RisingEdge "picm_clk") ;;
  drive "picm_rden" 0 ;;;
  (e <- await (FallingEdge "picm_clk") ;; Ret (e "picm_rd_data")).

Definition RegisterBfm_write (addr data : Z) : proc PicItem unit :=
  _ <- await (RisingEdge "picm_clk") ;;
  drive "picm_wraddr" addr ;;;
  drive "picm_wr_data" data ;;;
  drive "picm_wren" 1 ;;;
  drive "picm_mken" 0 ;;;
  _ <- await (RisingEdge "picm_clk") ;;
  drive "picm_wren" 0.

(** The item after it was processed.  [ClockCycles(self.bfm.picm_clk)] lacks the
    number of cycles, which the call requires. *)
Definition RegisterDriver_item (it : PicItem) : proc PicItem PicItem :=
  match it with
  | BusWriteItem addr data => RegisterBfm_write addr data ;;; Ret it
  | BusReadItem addr _ => d <- RegisterBfm_read addr ;; Ret (BusReadItem addr (Some d))
  | WaitItem _ => throw TypeError
  | _ => throw RuntimeError
  end.

Fixpoint RegisterDriver_run_phase (items : list PicItem) : proc PicItem (list PicItem) :=
  match items with
  | [] => Ret []
  | it :: items =>
      it <- RegisterDriver_item it ;;
      its <- RegisterDriver_run_phase items ;; Ret (it :: its)
  end.

Definition monitor_write (e : env) : proc PicItem unit :=
  if truthy (e "picm_wren") then publish (BusWriteItem (e "picm_wraddr") (e "picm_wr_data"))
  else Ret tt.

Definition RegisterMonitor_run_phase (_ : unit) : proc PicItem unit :=
  e <- await (RisingEdge "picm_clk") ;;
  if truthy (e "picm_rden") then
    e' <- await (FallingEdge "picm_clk") ;;
    publish (BusReadItem (e "picm_rdaddr") (Some (e' "picm_rd_data"))) ;;;
    monitor_write e'
  else monitor_write e.

(** ** Priority, interrupt and claim components *)

Definition PrioDriver_item (it : PicItem) : proc PicItem unit :=
  match it with
  | PrioLvlItem prio => drive "meicurpl" prio
  | PrioThrItem prio => drive "meipt" prio
  | _ => throw RuntimeError
  end.

(** The state is [(prev_meicurpl, prev_meipt)]. *)
Definition PrioMonitor_run_phase (st : option Z * option Z) : proc PicItem (option Z * option Z) :=
  e <- await (RisingEdge "clk") ;;
  let curr_meicurpl := e "meicurpl" in
  let curr_meipt := e "meipt" in
  (if bool_decide (st.1 <> Some curr_meicurpl) then publish (PrioLvlItem curr_meicurpl) else Ret tt) ;;;
  (if bool_decide (st.2 <> Some curr_meipt) then publish (PrioThrItem curr_meipt) else Ret tt) ;;;
  Ret (Some curr_meicurpl, Some curr_meipt).

Definition IrqDriver_item (it : PicItem) : proc PicItem unit :=
  match it with
  | IrqItem irqs => drive "extintsrc_req" irqs
  | _ => throw RuntimeError
  end.

Definition IrqMonitor_run_phase (prev_irqs : option Z) : proc PicItem (option Z) :=
  e <- await (RisingEdge "clk") ;;
  let curr_irqs := e "extintsrc_req" in
  (if bool_decide (prev_irqs <> Some curr_irqs) then publish (IrqItem curr_irqs) else Ret tt) ;;;
  Ret (Some curr_irqs).

(** [await ClockCycles(clk, n)], then the values sampled last. *)
Definition cycles_then_now (clk : string) (n : nat) : proc PicItem env :=
  clock_cycles clk n ;;; now.

(** The state is [(prev_irqs, prev_wren)]. *)
Definition ClaimMonitor_run_phase (st : Z * Z) : proc PicItem (Z * Z) :=
  e <- await (RisingEdge "clk") ;;
  let irqs := e "extintsrc_req" in
  let wren := e "picm_wren" in
  let is_wren := truthy wren && negb (truthy st.2) in
  let is_irqs := truthy (Z.land irqs (Z.lnot st.1)) in
  (if is_wren || is_irqs then
     e <- cycles_then_now "clk" 3 ;;
     publish (ClaimItem (e "claimid") (e "pl") (e "mexintpend") (e "mhwakeup"))
   else Ret tt) ;;;
  Ret (irqs, wren).

(** ** PriorityPredictor *)

Record Irq := { id : Z; priority : Z; enabled : bool; triggered : bool }.

(** [Irq(n)] *)
Definition mkIrq (n : Z) : Irq := {| id := n; priority := 0; enabled := false; triggered := false |}.

Record PriorityPredictor := { inv_order : bool; irqs : list Irq }.

(** The values of the dict [irqs], in the order of its keys. *)
Definition mkPriorityPredictor : PriorityPredictor :=
  {| inv_order := false; irqs := (fun i => mkIrq (Z.of_nat i)) <$> py_range 1 32 |}.

(** The body of the loop over the filtered interrupts. *)
Definition predict_step (inv : bool) (pred : option Irq) (irq : Irq) : option Irq :=
  if (if inv then priority irq =? 15 else priority irq =? 0) then pred
  else match pred with
       | None => Some irq
       | Some p =>
           let p := if inv then (if priority irq <? priority p then irq else p)
                    else (if priority p <? priority irq then irq else p) in
           let p := if priority irq =? priority p
                    then (if id irq <? id p then irq else p) else p in
           Some p
       end.

Definition predict (pp : PriorityPredictor) : Irq :=
  let irqs := List.filter (fun v => enabled v && triggered v) (irqs pp) in
  match foldl (predict_step (inv_order pp)) None irqs with
  | None => mkIrq 0
  | Some pred => pred
  end.

(** ** BaseTest.do_reset *)

Definition reset_ports : list string :=
  ["free_clk"; "clk_override"; "io_clk_override"; "extintsrc_req"; "picm_rdaddr"; "picm_wraddr";
   "picm_wr_data"; "picm_wren"; "picm_rden"; "picm_mken"; "meicurpl"; "meipt"; "scan_mode"].

Definition do_reset : proc PicItem unit :=
  for_each reset_ports (fun s => drive s 0) ;;;
  drive "rst_l" 0 ;;;
  clock_cycles "clk" 2 ;;;
  (_ <- await (FallingEdge "clk") ;; drive "rst_l" 1).

Definition run_phase (test : proc PicItem unit) : proc PicItem unit :=
  do_reset ;;; clock_cycles "clk" 2 ;;; test ;;; clock_cycles "clk" 10.

(** ** Facts *)

(** *** The register map *)

Lemma foldl_add_reg l :
  (forall r r', r ∈ l -> r' ∈ l -> r.1 = r'.1 \/ r.2 = r'.2 -> r = r') ->
  let m := foldl add_reg {| reg := ∅; adr := ∅ |} l in
  forall n a, (reg m !! n = Some a <-> (n, a) ∈ l) /\ (adr m !! a = Some n <-> (n, a) ∈ l).
Proof.
  induction l as [|[n0 a0] l IH] using rev_ind; intros Hinj m n a; subst m.
  { simpl. split; (split; [done|by intros ?%not_elem_of_nil]). }
  rewrite foldl_app. cbn [foldl add_reg reg adr fst snd].
  destruct (IH) with (n := n) (a := a) as [IH1 IH2].
  { intros r r' Hr Hr'. apply Hinj; apply elem_of_app; by left. }
  assert (forall n' a', (n', a') ∈ l -> n' = n0 \/ a' = a0 -> n' = n0 /\ a' = a0) as Hl.
  { intros n' a' Hin H. assert ((n', a') = (n0, a0)) as [= -> ->]; [|done].
    apply Hinj; [apply elem_of_app; by left|apply elem_of_app; right; by left|done]. }
  rewrite !lookup_insert_Some, IH1, IH2, elem_of_app, list_elem_of_singleton.
  split; split.
  - intros [[-> ->]|[_ H]]; [by right|by left].
  - intros [H|[= -> ->]]; [|by left]. destruct (decide (n0 = n)) as [<-|]; [|by right].
    left. split; [done|]. symmetry. apply (Hl n0 a H). by left.
  - intros [[-> ->]|[_ H]]; [by right|by left].
  - intros [H|[= -> ->]]; [|by left]. destruct (decide (a0 = a)) as [<-|]; [|by right].
    left. split; [done|]. symmetry. apply (Hl n a0 H). by right.
Qed.

(** The offset of a register, and the register at an offset. *)
Definition reg_offset (n : reg_name) : Z :=
  match n with
  | mpiccfg => 0x3000
  | meipl s => 4 * Z.of_nat s
  | meip x => 0x1000 + 4 * Z.of_nat x
  | meie s => 0x2000 + 4 * Z.of_nat s
  | meigwctrl s => 0x4000 + 4 * Z.of_nat s
  | meigwclr s => 0x5000 + 4 * Z.of_nat s
  end.

Definition reg_exists (max_irqs : nat) (n : reg_name) : Prop :=
  match n with
  | mpiccfg => True
  | meip x => (x < max_irqs / 32)%nat
  | meipl s | meie s | meigwctrl s | meigwclr s => (1 <= s < max_irqs)%nat
  end.

Lemma elem_of_py_range s lo hi : s ∈ py_range lo hi <-> (lo <= s < hi)%nat.
Proof. unfold py_range. rewrite elem_of_seq. lia. Qed.

Lemma register_list_spec max_irqs base n a :
  (n, a) ∈ register_list max_irqs base <-> reg_exists max_irqs n /\ a = base + reg_offset n.
Proof.
  unfold register_list. rewrite !elem_of_app, list_elem_of_singleton.
  assert (forall (f : nat -> reg_name) g lo hi,
    (n, a) ∈ map (fun s => (f s, g s)) (py_range lo hi)
    <-> exists s, n = f s /\ a = g s /\ (lo <= s < hi)%nat) as Hm.
  { intros f g lo hi. rewrite list_elem_of_fmap. setoid_rewrite elem_of_py_range.
    split; [intros (s & [= -> ->] & Hs); by exists s|intros (s & -> & -> & Hs); by exists s]. }
  rewrite !Hm. clear Hm. split.
  - intros [[= -> ->]|[(s & -> & -> & Hs)|[(s & -> & -> & Hs)|[(s & -> & -> & Hs)|
      [(s & -> & -> & Hs)|(s & -> & -> & Hs)]]]]];
      cbn [reg_exists reg_offset]; (split; [done || lia|lia]).
  - intros [He ->]. destruct n as [|s|s|s|s|s]; cbn [reg_exists reg_offset] in He |- *.
    + by left.
    + right; left. exists s. split_and!; [done|lia..].
    + right; right; left. exists s. split_and!; [done|lia..].
    + do 3 right; left. exists s. split_and!; [done|lia..].
    + do 4 right; left. exists s. split_and!; [done|lia..].
    + do 5 right. exists s. split_and!; [done|lia..].
Qed.

Lemma reg_offset_inj max_irqs n n' :
  (max_irqs <= 1024)%nat -> reg_exists max_irqs n -> reg_exists max_irqs n' ->
  reg_offset n = reg_offset n' -> n = n'.
Proof.
  intros Hm. pose proof (Nat.Div0.div_le_upper_bound max_irqs 32 32 ltac:(lia)).
  destruct n, n'; cbn [reg_exists reg_offset]; intros; first [done | f_equal; lia | lia].
Qed.

(** *** The predictor *)

Definition skipped (inv : bool) (i : Irq) : bool :=
  if inv then priority i =? 15 else priority i =? 0.

(** Interrupts the predictor considers. *)
Definition candidate (pp : PriorityPredictor) (i : Irq) : Prop :=
  i ∈ irqs pp /\ enabled i = true /\ triggered i = true /\ skipped (inv_order pp) i = false.

(** [i] goes before [j]: a more urgent priority, or the same and a lower number. *)
Definition precedes (inv : bool) (i j : Irq) : Prop :=
  (if inv then priority i < priority j else priority j < priority i)
  \/ (priority i = priority j /\ id i < id j).

Lemma predict_fold inv l :
  match foldl (predict_step inv) None l with
  | None => forall i, i ∈ l -> skipped inv i = true
  | Some p => p ∈ l /\ skipped inv p = false /\
      forall i, i ∈ l -> skipped inv i = false -> ~ precedes inv i p
  end.
Proof.
  induction l as [|q l IH] using rev_ind; [by intros i ?%not_elem_of_nil|].
  rewrite foldl_app. cbn [foldl]. unfold predict_step at 1. fold (skipped inv q).
  destruct (skipped inv q) eqn:Eq.
  { destruct (foldl _ _ _) as [p|]; setoid_rewrite elem_of_app; setoid_rewrite list_elem_of_singleton.
    - destruct IH as (H1 & H2 & H3). split_and!; [by left|done|].
      intros i [Hi| ->] Hs; [by apply H3|congruence].
    - intros i [Hi| ->]; [by apply IH|done]. }
  destruct (foldl _ _ _) as [p|]; setoid_rewrite elem_of_app; setoid_rewrite list_elem_of_singleton.
  - destruct IH as (H1 & H2 & H3).
    set (b := if inv then _ else _). set (r := if _ =? _ then _ else _).
    assert ((r = p /\ ~ precedes inv q p) \/ (r = q /\ precedes inv q p)) as Hr.
    { subst r b. unfold precedes. destruct inv; split_cmp; cbn; auto; split_cmp; auto;
        first [left; split; [done|lia]|right; split; [done|lia]]. }
    destruct Hr as [[-> Hr]|[-> Hr]]; (split_and!; [auto|done|]).
    + intros i [Hi| ->] Hs; [by apply H3|done].
    + intros i [Hi| ->] Hs; [|unfold precedes; destruct inv; lia].
      specialize (H3 i Hi Hs). unfold precedes in *. destruct inv; lia.
  - split_and!; [by right|done|]. intros i [Hi| ->] Hs; [by rewrite IH in Hs|].
    unfold precedes. destruct inv; lia.
Qed.

Lemma precedes_total inv i j : i = j \/ id i <> id j -> i = j \/ precedes inv i j \/ precedes inv j i.
Proof. intros [->|H]; [by left|]. unfold precedes. right. destruct inv; lia. Qed.

Lemma candidate_filter pp i :
  candidate pp i <->
  i ∈ List.filter (fun v => enabled v && triggered v) (irqs pp) /\ skipped (inv_order pp) i = false.
Proof.
  unfold candidate. rewrite !list_elem_of_In, filter_In, andb_true_iff. tauto.
Qed.

Lemma predict_optimal (pp : PriorityPredictor) :
  NoDup (id <$> irqs pp) ->
  (forall i, candidate pp i ->
     (predict pp = i <-> forall j, candidate pp j -> j = i \/ precedes (inv_order pp) i j)) /\
  ((forall i, ~ candidate pp i) -> predict pp = mkIrq 0).
Proof.
  intros Hnd. pose proof (predict_fold (inv_order pp)
    (List.filter (fun v => enabled v && triggered v) (irqs pp))) as H.
  assert (forall i j, candidate pp i -> candidate pp j -> i = j \/ id i <> id j) as Hid.
  { intros i j (Hi & _) (Hj & _). destruct (decide (id i = id j)) as [E|]; [left|by right].
    apply list_elem_of_lookup in Hi as [a Ha]. apply list_elem_of_lookup in Hj as [b Hb].
    assert (a = b) as ->.
    { eapply (NoDup_lookup _ _ _ (id i) Hnd); rewrite list_lookup_fmap, ?Ha, ?Hb; [done|].
      cbn. by rewrite E. }
    congruence. }
  unfold predict. destruct (foldl _ _ _) as [p|].
  - destruct H as (H1 & H2 & H3). assert (candidate pp p) as Hp by by apply candidate_filter.
    split; [|intros Hn; by destruct (Hn p)].
    intros i Hi. split.
    + intros <- j Hj. destruct (precedes_total (inv_order pp) p j) as [->|[|Hpr]]; [by apply Hid|by left|by right|].
      apply candidate_filter in Hj as [Hj1 Hj2]. by destruct (H3 j Hj1 Hj2).
    + intros Hall. destruct (Hall p Hp) as [|Hpr]; [done|].
      apply candidate_filter in Hi as [Hi1 Hi2]. by destruct (H3 i Hi1 Hi2).
  - split; [|done]. intros i Hi. apply candidate_filter in Hi as [Hi1 Hi2].
    by rewrite (H i Hi1) in Hi2.
Qed.

(** ** Properties *)

(** C23: The priority predictor selects the interrupt the controller must
    claim: among the enabled and triggered interrupts whose priority is not the
    one that disables them, it returns the interrupt that precedes all others
    (most urgent priority, then lowest number) in either priority order, and
    the interrupt 0 when there is none. *)
Theorem pic_predict_optimal (pp : PriorityPredictor) :
  NoDup (id <$> irqs pp) ->
  (forall i, candidate pp i ->
     (predict pp = i <-> forall j, candidate pp j -> j = i \/ precedes (inv_order pp) i j)) /\
  ((forall i, ~ candidate pp i) -> predict pp = mkIrq 0).
Proof. exact (predict_optimal pp). Qed.

Definition example_predictor : PriorityPredictor :=
  {| inv_order := true;
     irqs := [{| id := 1; priority := 3; enabled := true; triggered := true |};
              {| id := 2; priority := 1; enabled := true; triggered := false |};
              {| id := 3; priority := 3; enabled := true; triggered := true |};
              {| id := 4; priority := 15; enabled := true; triggered := true |}] |}.

Lemma pic_predict_optimal_witness :
  (forall i, candidate example_predictor i ->
     (predict example_predictor = i <->
      forall j, candidate example_predictor j -> j = i \/ precedes (inv_order example_predictor) i j)) /\
  ((forall i, ~ candidate example_predictor i) -> predict example_predictor = mkIrq 0).
Proof.
  apply pic_predict_optimal. apply (bool_decide_eq_true_1 (NoDup [1; 2; 3; 4])). vm_compute. reflexivity.
Defined.

(** For at most 1024 interrupts the register map is a bijection: [reg] and
    [adr] are inverse to each other, and they hold exactly the registers of the
    configured interrupts, each at its own offset from the base address. *)
Theorem pic_register_map_bijective (max_irqs : nat) (base_addr : Z) :
  (max_irqs <= 1024)%nat ->
  let m := mkRegisterMap max_irqs base_addr in
  forall n a, (reg m !! n = Some a <-> adr m !! a = Some n) /\
    (reg m !! n = Some a <-> reg_exists max_irqs n /\ a = base_addr + reg_offset n).
Proof.
  intros Hm m n a. destruct (foldl_add_reg (register_list max_irqs base_addr)) with (n := n) (a := a)
    as [H1 H2].
  - intros [n1 a1] [n2 a2] [E1 ->]%register_list_spec [E2 ->]%register_list_spec H. cbn [fst snd] in H.
    assert (n1 = n2) as ->; [|done]. destruct H as [|H]; [done|].
    apply (reg_offset_inj max_irqs); [done..|lia].
  - unfold m, mkRegisterMap. by rewrite H1, H2, register_list_spec.
Qed.

Lemma pic_register_map_bijective_witness :
  let m := mkRegisterMap 32 0xF00C0000 in
  (reg m !! meipl 3 = Some 0xF00C000C <-> adr m !! 0xF00C000C = Some (meipl 3)) /\
  (reg m !! meipl 3 = Some 0xF00C000C
   <-> reg_exists 32 (meipl 3) /\ 0xF00C000C = 0xF00C0000 + reg_offset (meipl 3)).
Proof. apply pic_register_map_bijective. apply Nat.leb_le. reflexivity. Defined.
