(* ===== verification/PicTests.v ===== *)
(** * Tests of the interrupt controller: verification/block/pic/test_*.py

    The scoreboards of the tests of the interrupt controller, over the items that
    the monitors of Pic.v publish, and what the tests accept. *)

From S2P Require Import Prelude Scoreboard Cocotb Pic.
From stdpp Require Import base gmap list strings.
From Stdlib Require Import ZArith Lia Sorted.

#[local] Open Scope string_scope.
#[local] Open Scope list_scope.
#[local] Open Scope Z_scope.

(** [RegisterMap()], and the limits that [BaseEnv.build_phase] sets. *)
Definition regs : RegisterMap := mkRegisterMap 32 0xF00C0000.
Definition PIC_NUM_INTERRUPTS : nat := 32.
Definition PIC_NUM_PRIORITIES : Z := 15.

(** ** Changing the predictor

    The keys of its dictionary are the numbers of the registers that [regs]
    knows, so that no access of the scoreboards fails. *)

Definition set_irq (s : Z) (f : Irq -> Irq) (pp : PriorityPredictor) : PriorityPredictor :=
  {| inv_order := inv_order pp; irqs := (fun i => if id i =? s then f i else i) <$> irqs pp |}.

Definition set_priority (v : Z) (i : Irq) : Irq :=
  {| id := id i; priority := v; enabled := enabled i; triggered := triggered i |}.
Definition set_enabled (v : bool) (i : Irq) : Irq :=
  {| id := id i; priority := priority i; enabled := v; triggered := triggered i |}.
Definition set_triggered (v : bool) (i : Irq) : Irq :=
  {| id := id i; priority := priority i; enabled := enabled i; triggered := v |}.

(** The effect of a register write. *)
Definition write_reg (r : reg_name) (data : Z) (pp : PriorityPredictor) : PriorityPredictor :=
  match r with
  | meipl s => set_irq (Z.of_nat s) (set_priority data) pp
  | meie s => set_irq (Z.of_nat s) (set_enabled (truthy data)) pp
  | mpiccfg => {| inv_order := truthy data; irqs := irqs pp |}
  | _ => pp
  end.

(** "Mark triggered interrupts" *)
Definition mark_triggered (v : Z) (pp : PriorityPredictor) : PriorityPredictor :=
  {| inv_order := inv_order pp;
     irqs := (fun i => if truthy (Z.land v (Z.shiftl 1 (id i))) then set_triggered true i else i) <$> irqs pp |}.

(** "Clear triggers" *)
Definition clear_triggers (pp : PriorityPredictor) : PriorityPredictor :=
  {| inv_order := inv_order pp; irqs := set_triggered false <$> irqs pp |}.

(** ** test_prioritization.py *)

Module Prioritization.

(** The fields of the scoreboard and the variables of [check_phase]. *)
Record state := {
  passed : option bool; predictor : PriorityPredictor; pri_lvl : Z; pri_thr : Z; requested : Z }.

Definition start : state :=
  {| passed := None; predictor := mkPriorityPredictor; pri_lvl := 0; pri_thr := 0; requested := 0 |}.

Definition with_predictor (f : PriorityPredictor -> PriorityPredictor) (s : state) : state :=
  {| passed := passed s; predictor := f (predictor s); pri_lvl := pri_lvl s; pri_thr := pri_thr s;
     requested := requested s |}.

(** Does the claim agree with the prediction? *)
Definition claim_agrees (s : state) (claimid mexintpend mhwakeup : Z) : bool :=
  let pp := predictor s in
  let pred := predict pp in
  if negb (claimid =? id pred) then false
  else
    let pred_mexintpend :=
      if inv_order pp then
        negb (id pred =? 0) && negb (priority pred =? PIC_NUM_PRIORITIES)
        && (priority pred <? pri_thr s) && (priority pred <? pri_lvl s)
      else
        negb (id pred =? 0) && negb (priority pred =? 0)
        && (pri_thr s <? priority pred) && (pri_lvl s <? priority pred) in
    let pred_mhwakeup :=
      if inv_order pp then negb (id pred =? 0) && (priority pred =? 0)
      else negb (id pred =? 0) && (priority pred =? PIC_NUM_PRIORITIES) in
    (Z.b2z pred_mexintpend =? mexintpend) && (Z.b2z pred_mhwakeup =? mhwakeup).

(** The body of the loop of [check_phase]. *)
Definition check_item (s : state) (item : PicItem) : state :=
  match item with
  | BusWriteItem addr data =>
      match adr regs !! addr with
      | None => {| passed := Some false; predictor := predictor s; pri_lvl := pri_lvl s;
                   pri_thr := pri_thr s; requested := requested s |}
      | Some r => with_predictor (write_reg r data) s
      end
  | PrioLvlItem prio =>
      {| passed := passed s; predictor := predictor s; pri_lvl := prio; pri_thr := pri_thr s;
         requested := requested s |}
  | PrioThrItem prio =>
      {| passed := passed s; predictor := predictor s; pri_lvl := pri_lvl s; pri_thr := prio;
         requested := requested s |}
  | IrqItem v =>
      {| passed := passed s; predictor := mark_triggered v (predictor s); pri_lvl := pri_lvl s;
         pri_thr := pri_thr s; requested := if truthy v then v else requested s |}
  | ClaimItem claimid _ mexintpend mhwakeup =>
      if negb (truthy (requested s)) then s
      else {| passed := if claim_agrees s claimid mexintpend mhwakeup then set_initial (passed s)
                        else Some false;
              predictor := clear_triggers (predictor s); pri_lvl := pri_lvl s; pri_thr := pri_thr s;
              requested := 0 |}
  | BusReadItem _ _ | WaitItem _ => s
  end.

Definition check_phase (items : list PicItem) : state := foldl check_item start items.

Definition verdict (items : list PicItem) : result unit := final_phase (passed (check_phase items)).

End Prioritization.

(** ** test_servicing.py *)

Module Servicing.

(** "Predict the order of interrupt servicing": the numbers, and the predictor that
    is left. *)
Fixpoint serve (n : nat) (pp : PriorityPredictor) : list Z * PriorityPredictor :=
  match n with
  | O => ([], pp)
  | S n =>
      let irq := predict pp in
      if id irq =? 0 then ([], pp)
      else let '(order, pp) := serve n (set_irq (id irq) (set_triggered false) pp) in
           (id irq :: order, pp)
  end.

Record state := {
  passed : option bool; predictor : PriorityPredictor; pri_thr : Z; irq_order : list Z }.

Definition start : state :=
  {| passed := None; predictor := mkPriorityPredictor; pri_thr := 0; irq_order := [] |}.

Definition check_item (s : state) (item : PicItem) : state :=
  match item with
  | BusWriteItem addr data =>
      match adr regs !! addr with
      | None => {| passed := Some false; predictor := predictor s; pri_thr := pri_thr s;
                   irq_order := irq_order s |}
      | Some mpiccfg => s
      | Some r => {| passed := passed s; predictor := write_reg r data (predictor s); pri_thr := pri_thr s;
                     irq_order := irq_order s |}
      end
  | PrioThrItem prio =>
      {| passed := passed s; predictor := predictor s; pri_thr := prio; irq_order := irq_order s |}
  | IrqItem v =>
      if negb (truthy v) then s
      else let '(order, pp) := serve 50 (mark_triggered v (predictor s)) in
           {| passed := passed s; predictor := pp; pri_thr := pri_thr s; irq_order := irq_order s ++ order |}
  | ClaimItem claimid claimpl mexintpend _ =>
      match irq_order s with
      | [] => s
      | first :: others =>
          let p := set_initial (passed s) in
          let p := if claimid =? first then p else Some false in
          let p := if negb (truthy mexintpend) && (pri_thr s <? claimpl) then Some false else p in
          {| passed := p; predictor := predictor s; pri_thr := pri_thr s; irq_order := others |}
      end
  | BusReadItem _ _ | PrioLvlItem _ | WaitItem _ => s
  end.

(** The loop, and the check that all interrupts were serviced. *)
Definition finish (s : state) : option bool :=
  match irq_order s with [] => passed s | _ => Some false end.

Definition verdict (items : list PicItem) : result unit :=
  final_phase (finish (foldl check_item start items)).

End Servicing.

(** ** The predictor under the changes *)

Lemma set_irq_ids s f pp : (forall i, id (f i) = id i) -> id <$> irqs (set_irq s f pp) = id <$> irqs pp.
Proof.
  intros Hf. cbn. rewrite <- list_fmap_compose. apply list_fmap_ext. intros _ i _. cbn.
  by destruct (_ =? _).
Qed.

Lemma mark_ids v pp : id <$> irqs (mark_triggered v pp) = id <$> irqs pp.
Proof.
  cbn. rewrite <- list_fmap_compose. apply list_fmap_ext. intros _ i _. cbn. by destruct (truthy _).
Qed.

Lemma clear_ids pp : id <$> irqs (clear_triggers pp) = id <$> irqs pp.
Proof. cbn. by rewrite <- list_fmap_compose. Qed.

(** What the controller must answer. *)
Definition optimal (pp : PriorityPredictor) (i : Irq) : Prop :=
  candidate pp i /\ forall j, candidate pp j -> j = i \/ precedes (inv_order pp) i j.

Lemma predict_cases pp : NoDup (id <$> irqs pp) ->
  (optimal pp (predict pp)) \/ ((forall i, ~ candidate pp i) /\ predict pp = mkIrq 0).
Proof.
  intros Hnd. destruct (predict_optimal pp Hnd) as [H1 H2].
  pose proof (predict_fold (inv_order pp) (List.filter (fun v => enabled v && triggered v) (irqs pp))) as H.
  unfold predict in *. destruct (foldl _ _ _) as [p|].
  - left. destruct H as (Hp & Hs & _). assert (candidate pp p) as Hc by by apply candidate_filter.
    split; [done|]. by apply (H1 p Hc).
  - right. split; [|done]. intros i Hi. apply candidate_filter in Hi as [Hi1 Hi2].
    by rewrite (H i Hi1) in Hi2.
Qed.

Lemma optimal_predict pp i : NoDup (id <$> irqs pp) -> optimal pp i -> predict pp = i.
Proof. intros Hnd [Hc Ho]. by apply (predict_optimal pp Hnd). Qed.

(** ** Statements about the places of a list *)

(** [P] holds of each element and the elements before it. *)
Definition all_at {A} (P : list A -> A -> Prop) (items : list A) : Prop :=
  forall pre it post, items = pre ++ it :: post -> P pre it.
Definition some_at {A} (P : list A -> A -> Prop) (items : list A) : Prop :=
  exists pre it post, items = pre ++ it :: post /\ P pre it.

Lemma app_cons_snoc {A} (l pre post : list A) (x y : A) :
  l ++ [x] = pre ++ y :: post -> (post = [] /\ l = pre /\ x = y) \/ exists post', post = post' ++ [x] /\ l = pre ++ y :: post'.
Proof.
  destruct (nil_or_length_pos post) as [->|Hp].
  - intros H. left. apply app_inj_tail in H as [-> ->]. done.
  - destruct post as [|z post] using rev_ind; [done|]. intros H. right. exists post.
    rewrite app_comm_cons, app_assoc in H. by apply app_inj_tail in H as [-> ->].
Qed.

Lemma all_at_snoc {A} (P : list A -> A -> Prop) items it :
  all_at P (items ++ [it]) <-> all_at P items /\ P items it.
Proof.
  split.
  - intros H. split; [|by apply (H items it [])]. intros pre x post ->. apply (H pre x (post ++ [it])).
    by rewrite <- app_assoc.
  - intros [H1 H2] pre x post E. apply app_cons_snoc in E as [(-> & <- & <-)|(post' & -> & ->)]; [done|].
    by apply (H1 pre x post').
Qed.

Lemma some_at_snoc {A} (P : list A -> A -> Prop) items it :
  some_at P (items ++ [it]) <-> some_at P items \/ P items it.
Proof.
  split.
  - intros (pre & x & post & E & H). apply app_cons_snoc in E as [(-> & <- & <-)|(post' & -> & ->)]; [by right|].
    left. by exists pre, x, post'.
  - intros [(pre & x & post & -> & H)|H].
    + exists pre, x, (post ++ [it]). by rewrite <- app_assoc.
    + by exists items, it, [].
Qed.

Lemma all_at_nil {A} (P : list A -> A -> Prop) : all_at P [].
Proof. by intros [|] ? ? [=]. Qed.

Lemma some_at_nil {A} (P : list A -> A -> Prop) : ~ some_at P [].
Proof. by intros ([|] & ? & ? & [=] & _). Qed.

(** What the flag [passed] says of the items so far, when each item must be [ok] and
    the [seen] ones set it. *)
Definition flag_at {A} (ok seen : list A -> A -> Prop) (items : list A) (p : option bool) : Prop :=
  match p with
  | Some true => all_at ok items /\ some_at seen items
  | Some false => ~ all_at ok items
  | None => all_at ok items /\ ~ some_at seen items
  end.

Section Flag.
Context {A : Type} (ok seen : list A -> A -> Prop).

Lemma flag_start : flag_at ok seen [] None.
Proof. split; [apply all_at_nil|apply some_at_nil]. Qed.

Lemma flag_quiet items it p : ok items it -> ~ seen items it ->
  flag_at ok seen items p -> flag_at ok seen (items ++ [it]) p.
Proof. intros Hi Hc. destruct p as [[]|]; cbn; rewrite all_at_snoc, ?some_at_snoc; tauto. Qed.

Lemma flag_bad items it : ~ ok items it -> flag_at ok seen (items ++ [it]) (Some false).
Proof. intros Hi. cbn. rewrite all_at_snoc. tauto. Qed.

Lemma flag_good items it p : ok items it -> seen items it ->
  flag_at ok seen items p -> flag_at ok seen (items ++ [it]) (set_initial p).
Proof. intros Hi Hc. destruct p as [[]|]; cbn; rewrite all_at_snoc, ?some_at_snoc; tauto. Qed.

Lemma flag_final items p : flag_at ok seen items p ->
  final_phase p = Ok tt <-> all_at ok items /\ some_at seen items.
Proof. destruct p as [[]|]; cbn; intros H; split; intros H'; try done; tauto. Qed.
End Flag.

(** ** The prioritization test *)

Section Prioritization.
Import Prioritization.

(** What a list of items says, the last one last. *)
Definition last_write (r : reg_name) (items : list PicItem) : option Z :=
  foldl (fun acc it => match it with
                       | BusWriteItem a d => if decide (adr regs !! a = Some r) then Some d else acc
                       | _ => acc end) None items.
Definition level (items : list PicItem) : Z :=
  foldl (fun acc it => match it with PrioLvlItem p => p | _ => acc end) 0 items.
Definition threshold (items : list PicItem) : Z :=
  foldl (fun acc it => match it with PrioThrItem p => p | _ => acc end) 0 items.
(** The requests since the last claim. *)
Definition requests (items : list PicItem) : Z :=
  foldl (fun acc it => match it with IrqItem v => Z.lor acc v | ClaimItem _ _ _ _ => 0 | _ => acc end) 0 items.

Definition interrupt (items : list PicItem) (n : nat) : Irq :=
  {| id := Z.of_nat n; priority := default 0 (last_write (meipl n) items);
     enabled := truthy (default 0 (last_write (meie n) items));
     triggered := Z.testbit (requests items) (Z.of_nat n) |}.

Definition configured (items : list PicItem) : PriorityPredictor :=
  {| inv_order := truthy (default 0 (last_write mpiccfg items));
     irqs := interrupt items <$> py_range 1 PIC_NUM_INTERRUPTS |}.

Definition more_urgent (pp : PriorityPredictor) (p q : Z) : Prop := if inv_order pp then p < q else q < p.

(** The answer that the controller owes to a claim. *)
Definition answer_ok (items : list PicItem) (claimid mexintpend mhwakeup : Z) : Prop :=
  let pp := configured items in
  (exists i, optimal pp i /\ claimid = id i /\
     (mexintpend = 1 /\ more_urgent pp (priority i) (threshold items) /\ more_urgent pp (priority i) (level items) \/
      mexintpend = 0 /\ ~ (more_urgent pp (priority i) (threshold items) /\ more_urgent pp (priority i) (level items))) /\
     mhwakeup = Z.b2z (priority i =? if inv_order pp then 0 else PIC_NUM_PRIORITIES))
  \/ (forall i, ~ candidate pp i) /\ claimid = 0 /\ mexintpend = 0 /\ mhwakeup = 0.

Definition item_ok (pre : list PicItem) (it : PicItem) : Prop :=
  match it with
  | BusWriteItem a _ => is_Some (adr regs !! a)
  | ClaimItem c _ m w => requests pre <> 0 -> answer_ok pre c m w
  | _ => True
  end.
Definition claims_at (pre : list PicItem) (it : PicItem) : Prop :=
  match it with ClaimItem _ _ _ _ => requests pre <> 0 | _ => False end.

Definition all_ok : list PicItem -> Prop := all_at item_ok.
Definition some_claim : list PicItem -> Prop := some_at claims_at.

Lemma last_write_snoc r items it : last_write r (items ++ [it])
  = match it with BusWriteItem a d => if decide (adr regs !! a = Some r) then Some d else last_write r items
    | _ => last_write r items end.
Proof. unfold last_write. by rewrite foldl_snoc. Qed.

Lemma requests_snoc items it : requests (items ++ [it])
  = match it with IrqItem v => Z.lor (requests items) v | ClaimItem _ _ _ _ => 0 | _ => requests items end.
Proof. unfold requests. by rewrite foldl_snoc. Qed.

Lemma configured_nodup items : NoDup (id <$> irqs (configured items)).
Proof.
  unfold configured. cbn [irqs]. rewrite <- list_fmap_compose.
  apply NoDup_fmap_2_strong; [|apply NoDup_ListNoDup, seq_NoDup].
  intros x y _ _. cbn. lia.
Qed.

(** The relation between the scoreboard and the items it has seen. *)
Record follows (items : list PicItem) (s : state) : Prop := {
  f_predictor : predictor s = configured items;
  f_level : pri_lvl s = level items;
  f_threshold : pri_thr s = threshold items;
  f_requested : requested s = 0 <-> requests items = 0;
  f_passed : flag_at item_ok claims_at items (passed s) }.

Lemma claim_agrees_ok items s c m w : follows items s ->
  claim_agrees s c m w = true <-> answer_ok items c m w.
Proof.
  intros [Hp Hl Ht _ _]. unfold claim_agrees. rewrite Hp, Hl, Ht. unfold answer_ok.
  set (pp := configured items). pose proof (configured_nodup items) as Hnd. fold pp in Hnd.
  destruct (predict_cases pp Hnd) as [Ho|[Hno Hpred]].
  - set (i := predict pp) in *.
    assert (forall j, optimal pp j -> j = i) as Hu by (intros j Hj; symmetry; by apply optimal_predict).
    assert (0 < id i) as Hid.
    { destruct Ho as [(Hin & _) _]. subst pp. unfold configured in Hin. cbn [irqs] in Hin.
      apply list_elem_of_fmap in Hin as (n & -> & Hn). apply elem_of_py_range in Hn. cbn. lia. }
    assert (priority i <> if inv_order pp then PIC_NUM_PRIORITIES else 0) as Hs.
    { destruct Ho as [(_ & _ & _ & Hs) _]. unfold skipped, PIC_NUM_PRIORITIES in *. by destruct (inv_order pp), (Z.eqb_spec (priority i) 15), (Z.eqb_spec (priority i) 0). }
    transitivity (c = id i /\
      (m = 1 /\ more_urgent pp (priority i) (threshold items) /\ more_urgent pp (priority i) (level items) \/
       m = 0 /\ ~ (more_urgent pp (priority i) (threshold items) /\ more_urgent pp (priority i) (level items))) /\
      w = Z.b2z (priority i =? if inv_order pp then 0 else PIC_NUM_PRIORITIES)).
    + unfold more_urgent, PIC_NUM_PRIORITIES in *. destruct (Z.eqb_spec c (id i)); cbn [negb]; [|split; [done|by intros [? _]]].
      destruct (Z.eqb_spec (id i) 0); [lia|]. cbn [negb andb].
      destruct (inv_order pp); rewrite andb_true_iff, !Z.eqb_eq.
      * destruct (Z.eqb_spec (priority i) 15); [lia|]. cbn [negb andb].
        destruct (Z.ltb_spec (priority i) (threshold items)), (Z.ltb_spec (priority i) (level items)); cbn; intuition lia.
      * destruct (Z.eqb_spec (priority i) 0); [lia|]. cbn [negb andb].
        destruct (Z.ltb_spec (threshold items) (priority i)), (Z.ltb_spec (level items) (priority i)); cbn; intuition lia.
    + split.
      * intros H. left. exists i. tauto.
      * intros [(j & Hj & H)|(Hn & _)]; [by rewrite (Hu j Hj) in H|]. destruct Ho as [Hc _]. by apply Hn in Hc.
  - rewrite Hpred. cbn [id mkIrq]. rewrite Z.eqb_refl. cbn [negb andb].
    transitivity (c = 0 /\ m = 0 /\ w = 0).
    + destruct (Z.eqb_spec c 0); cbn [negb]; [|split; [done|by intros [? _]]].
      destruct (inv_order pp); cbn [Z.b2z]; rewrite andb_true_iff, !Z.eqb_eq; intuition lia.
    + split; [right; tauto|]. intros [(i & [Hi _] & _)|(_ & H)]; [by apply Hno in Hi|done].
Qed.

(** *** One item *)

Lemma regs_inj r r' a : adr regs !! a = Some r -> adr regs !! a = Some r' -> r = r'.
Proof. intros -> [= ->]. done. Qed.

Lemma regs_exists a r : adr regs !! a = Some r -> reg_exists 32 r.
Proof.
  intros H. destruct (foldl_add_reg (register_list 32 0xF00C0000)) with (n := r) (a := a) as [_ H2].
  - intros [n1 a1] [n2 a2] [E1 ->]%register_list_spec [E2 ->]%register_list_spec Hr. cbn [fst snd] in Hr.
    assert (n1 = n2) as ->; [|done]. destruct Hr as [|Hr]; [done|].
    apply (reg_offset_inj 32); [lia|done..|lia].
  - apply H2 in H. by apply register_list_spec in H as [H _].
Qed.

(** The interrupt [n] of the configuration changes, and no other. *)
Lemma configured_set items it r f n :
  (forall m, interrupt (items ++ [it]) m = if decide (m = n) then f (interrupt items m) else interrupt items m) ->
  last_write mpiccfg (items ++ [it]) = last_write mpiccfg items ->
  r = Z.of_nat n ->
  configured (items ++ [it]) = set_irq r f (configured items).
Proof.
  intros H Hm ->. unfold configured, set_irq. cbn [inv_order irqs]. rewrite Hm. f_equal.
  rewrite <- list_fmap_compose. apply list_fmap_ext. intros _ m _. cbn [compose id interrupt]. rewrite H.
  unfold compose. cbn [id interrupt]. destruct (Z.eqb_spec (Z.of_nat m) (Z.of_nat n)), (decide (m = n)); (done || lia).
Qed.

Lemma configured_write items a d r : adr regs !! a = Some r ->
  configured (items ++ [BusWriteItem a d]) = write_reg r d (configured items).
Proof.
  intros Ha.
  assert (forall r', last_write r' (items ++ [BusWriteItem a d]) = if decide (r = r') then Some d else last_write r' items) as Hw.
  { intros r'. rewrite last_write_snoc, Ha. destruct (decide (r = r')) as [->|]; [by rewrite decide_True|].
    rewrite decide_False; [done|]. congruence. }
  assert (requests (items ++ [BusWriteItem a d]) = requests items) as Hr by apply requests_snoc.
  destruct r as [|s|x|s|s|s]; cbn [write_reg].
  - unfold configured. cbn [irqs]. rewrite Hw, decide_True by done. f_equal.
    apply list_fmap_ext. intros _ m _. unfold interrupt. by rewrite !Hw, Hr.
  - apply (configured_set _ _ _ _ s); [|by rewrite Hw|done]. intros m. unfold interrupt, set_priority.
    rewrite !Hw, Hr. cbn [id enabled triggered]. rewrite (decide_False (P := meipl s = meie m)) by done.
    by destruct (decide (m = s)), (decide (meipl s = meipl m)); try congruence.
  - unfold configured. rewrite Hw. f_equal. apply list_fmap_ext. intros _ m _. unfold interrupt. by rewrite !Hw, Hr.
  - apply (configured_set _ _ _ _ s); [|by rewrite Hw|done]. intros m. unfold interrupt, set_enabled.
    rewrite !Hw, Hr. cbn [id priority triggered]. rewrite (decide_False (P := meie s = meipl m)) by done.
    by destruct (decide (m = s)), (decide (meie s = meie m)); try congruence.
  - unfold configured. rewrite Hw. f_equal. apply list_fmap_ext. intros _ m _. unfold interrupt. by rewrite !Hw, Hr.
  - unfold configured. rewrite Hw. f_equal. apply list_fmap_ext. intros _ m _. unfold interrupt. by rewrite !Hw, Hr.
Qed.

Lemma land_bit v n : truthy (Z.land v (Z.shiftl 1 (Z.of_nat n))) = Z.testbit v (Z.of_nat n).
Proof.
  rewrite Z.shiftl_1_l, Z.land_comm. destruct (Z.testbit v (Z.of_nat n)) eqn:E.
  - unfold truthy. apply negb_true_iff, Z.eqb_neq. intros H.
    assert (Z.testbit (Z.land (2 ^ Z.of_nat n) v) (Z.of_nat n) = true) as Hb.
    { by rewrite Z.land_spec, E, Z.pow2_bits_true by lia. }
    by rewrite H, Z.bits_0 in Hb.
  - unfold truthy. apply negb_false_iff, Z.eqb_eq. apply Z.bits_inj'. intros i Hi.
    rewrite Z.land_spec, Z.bits_0. destruct (decide (i = Z.of_nat n)) as [->|Hn]; [by rewrite E, andb_false_r|].
    by rewrite Z.pow2_bits_false by lia.
Qed.

Lemma configured_irq items v :
  configured (items ++ [IrqItem v]) = mark_triggered v (configured items).
Proof.
  unfold configured, mark_triggered. cbn [inv_order irqs]. rewrite last_write_snoc. f_equal.
  rewrite <- list_fmap_compose. apply list_fmap_ext. intros _ m _. unfold compose, interrupt. cbn [id].
  rewrite !last_write_snoc, requests_snoc, land_bit, Z.lor_spec. unfold set_triggered. cbn [id priority enabled].
  destruct (Z.testbit v _); [by rewrite orb_true_r|by rewrite orb_false_r].
Qed.

Lemma configured_claim items c p m w :
  configured (items ++ [ClaimItem c p m w]) = clear_triggers (configured items).
Proof.
  unfold configured, clear_triggers. cbn [inv_order irqs]. rewrite last_write_snoc. f_equal.
  rewrite <- list_fmap_compose. apply list_fmap_ext. intros _ n _. unfold compose, interrupt. cbn [id].
  rewrite !last_write_snoc, requests_snoc, Z.bits_0. done.
Qed.

Lemma configured_other items it :
  (match it with BusWriteItem _ _ | IrqItem _ | ClaimItem _ _ _ _ => False | _ => True end) ->
  configured (items ++ [it]) = configured items.
Proof.
  intros H. unfold configured. rewrite last_write_snoc.
  assert (forall n, interrupt (items ++ [it]) n = interrupt items n) as Hi.
  { intros n. unfold interrupt. rewrite !last_write_snoc, requests_snoc. by destruct it. }
  f_equal; [by destruct it|]. apply list_fmap_ext. intros _ n _. apply Hi.
Qed.

Lemma configured_unknown items a d : adr regs !! a = None ->
  configured (items ++ [BusWriteItem a d]) = configured items.
Proof.
  intros Ha. assert (forall r, last_write r (items ++ [BusWriteItem a d]) = last_write r items) as Hw.
  { intros r. rewrite last_write_snoc, Ha. by rewrite decide_False. }
  unfold configured. rewrite Hw. f_equal. apply list_fmap_ext. intros _ n _. unfold interrupt.
  by rewrite !Hw, requests_snoc.
Qed.

Lemma start_follows : follows [] start.
Proof. split; try done. apply flag_start. Qed.

Lemma truthy_false z : truthy z = false <-> z = 0.
Proof. unfold truthy. by rewrite negb_false_iff, Z.eqb_eq. Qed.

Lemma clear_idle items : requests items = 0 -> clear_triggers (configured items) = configured items.
Proof.
  intros H. unfold clear_triggers, configured. cbn [inv_order irqs]. f_equal.
  rewrite <- list_fmap_compose. apply list_fmap_ext. intros _ n _. unfold compose, interrupt, set_triggered. cbn [id priority enabled].
  by rewrite H, Z.bits_0.
Qed.

Lemma follows_write items s a d : follows items s -> follows (items ++ [BusWriteItem a d]) (check_item s (BusWriteItem a d)).
Proof.
  intros [Hp Hl Ht Hr Hv]. cbn [check_item]. destruct (adr regs !! a) as [r|] eqn:Ha.
  - split; cbn [predictor pri_lvl pri_thr requested passed with_predictor].
    + by rewrite (configured_write _ _ _ r), Hp.
    + unfold level. by rewrite foldl_snoc.
    + unfold threshold. by rewrite foldl_snoc.
    + by rewrite requests_snoc.
    + apply flag_quiet; [by exists r|by intros []|done].
  - split; cbn [predictor pri_lvl pri_thr requested passed].
    + by rewrite configured_unknown, Hp.
    + unfold level. by rewrite foldl_snoc.
    + unfold threshold. by rewrite foldl_snoc.
    + by rewrite requests_snoc.
    + apply flag_bad. unfold item_ok. rewrite Ha. by intros [].
Qed.

Lemma follows_claim items s c p m w :
  follows items s -> follows (items ++ [ClaimItem c p m w]) (check_item s (ClaimItem c p m w)).
Proof.
  intros Hf. pose proof Hf as [Hp Hl Ht Hr Hv]. cbn [check_item].
  destruct (truthy (requested s)) eqn:E; cbn [negb].
  - assert (requests items <> 0) as Hq by (rewrite <- Hr, <- truthy_false, E; done).
    split; cbn [predictor pri_lvl pri_thr requested passed].
    + by rewrite configured_claim, Hp.
    + unfold level. by rewrite foldl_snoc.
    + unfold threshold. by rewrite foldl_snoc.
    + by rewrite requests_snoc.
    + pose proof (claim_agrees_ok items s c m w Hf) as Ha. destruct (claim_agrees s c m w).
      * apply flag_good; [|done|done]. cbn. tauto.
      * apply flag_bad. cbn. intros H. by destruct Ha as [_ Ha]; apply Ha in H.
  - apply truthy_false, Hr in E as E'. split.
    + by rewrite configured_claim, clear_idle.
    + unfold level. by rewrite foldl_snoc.
    + unfold threshold. by rewrite foldl_snoc.
    + rewrite requests_snoc. apply truthy_false in E. tauto.
    + apply flag_quiet; [cbn; tauto|cbn; tauto|done].
Qed.

Lemma follows_irq items s v : follows items s -> follows (items ++ [IrqItem v]) (check_item s (IrqItem v)).
Proof.
  intros [Hp Hl Ht Hr Hv]. cbn [check_item]. split; cbn [predictor pri_lvl pri_thr requested passed].
  - by rewrite configured_irq, Hp.
  - unfold level. by rewrite foldl_snoc.
  - unfold threshold. by rewrite foldl_snoc.
  - rewrite requests_snoc, Z.lor_eq_0_iff, <- Hr. destruct (truthy v) eqn:E.
    + assert (v <> 0) by (rewrite <- truthy_false, E; done). tauto.
    + apply truthy_false in E. tauto.
  - apply flag_quiet; [done|by intros []|done].
Qed.

(** The items that change neither the predictor nor the verdict. *)
Lemma follows_quiet items s it :
  match it with BusReadItem _ _ | PrioLvlItem _ | PrioThrItem _ | WaitItem _ => True | _ => False end ->
  follows items s -> follows (items ++ [it]) (check_item s it).
Proof.
  intros Hit [Hp Hl Ht Hr Hv].
  destruct it; try done; (split; cbn [check_item predictor pri_lvl pri_thr requested passed];
    [by rewrite configured_other|unfold level; by rewrite foldl_snoc|unfold threshold; by rewrite foldl_snoc
    |by rewrite requests_snoc|apply flag_quiet; [done|by intros []|done]]).
Qed.

Lemma follows_step items s it : follows items s -> follows (items ++ [it]) (check_item s it).
Proof.
  intros Hf. destruct it; try (by apply follows_quiet).
  - by apply follows_write.
  - by apply follows_irq.
  - by apply follows_claim.
Qed.

Lemma follows_phase items : follows items (check_phase items).
Proof.
  induction items as [|it items IH] using rev_ind; [apply start_follows|].
  unfold check_phase. rewrite foldl_snoc. by apply follows_step.
Qed.

(** Test_prioritization passes exactly when every register write addressed a
    register of the map, every claim made while requests were outstanding was
    answered with the enabled and requested interrupt that precedes all the others
    in the configured order (or with 0 when there is none), signalled to the core
    exactly when it is more urgent than the current level and the threshold, and
    woke it up exactly at the most urgent priority; and at least one such claim was
    made. The configuration is read off the items: each register has the data of
    the last write, the requests are those since the last claim. *)
Theorem pic_prioritization_verdict items :
  Prioritization.verdict items = Ok tt <-> all_ok items /\ some_claim items.
Proof.
  unfold verdict. destruct (follows_phase items) as [_ _ _ _ H]. exact (flag_final _ _ _ _ H).
Qed.

End Prioritization.

(** ** The servicing test *)

Section Servicing.
Import Servicing.

Definition candidates (pp : PriorityPredictor) : list Irq :=
  List.filter (fun i => enabled i && triggered i && negb (skipped (inv_order pp) i)) (irqs pp).

Lemma elem_of_candidates pp i : i ∈ candidates pp <-> candidate pp i.
Proof.
  unfold candidates, candidate. rewrite !list_elem_of_In, filter_In, !andb_true_iff, negb_true_iff. tauto.
Qed.

Lemma set_irq_others s f (l : list Irq) : s ∉ id <$> l -> (fun i => if id i =? s then f i else i) <$> l = l.
Proof.
  intros Hs. rewrite <- (list_fmap_id l) at 2. apply list_fmap_ext. intros k i Hi.
  destruct (Z.eqb_spec (id i) s) as [<-|]; [|done]. destruct Hs.
  apply list_elem_of_fmap. exists i. split; [done|]. by eapply list_elem_of_lookup_2.
Qed.

(** Servicing an interrupt takes it out of the candidates. *)
Lemma candidates_serve pp i : NoDup (id <$> irqs pp) -> candidate pp i ->
  candidates pp ≡ₚ i :: candidates (set_irq (id i) (set_triggered false) pp).
Proof.
  intros Hnd Hc. pose proof Hc as (Hin & He & Ht & Hs).
  unfold candidates. cbn [inv_order irqs set_irq].
  apply list_elem_of_split in Hin as (l1 & l2 & E). rewrite E in *.
  rewrite fmap_app, fmap_cons, NoDup_app, NoDup_cons in Hnd. destruct Hnd as (_ & Hd & Hn2 & _).
  rewrite fmap_app, fmap_cons, Z.eqb_refl.
  rewrite (set_irq_others _ _ l1) by (intros H; apply (Hd _ H); by left).
  rewrite (set_irq_others _ _ l2) by done.
  rewrite !List.filter_app. cbn [List.filter set_triggered enabled triggered skipped priority].
  rewrite He, Ht, Hs, andb_false_r. cbn [andb negb]. by rewrite <- Permutation_middle.
Qed.

Lemma candidates_nodup pp : NoDup (id <$> irqs pp) -> NoDup (id <$> candidates pp).
Proof.
  unfold candidates. generalize (irqs pp) as l. induction l as [|i l IH]; cbn [List.filter fmap list_fmap]; [done|].
  rewrite NoDup_cons. intros [Hi Hl]. destruct (_ && _); [|by apply IH]. cbn [fmap list_fmap].
  rewrite NoDup_cons. split; [|by apply IH]. intros H. apply Hi.
  apply list_elem_of_fmap in H as (j & -> & Hj). apply list_elem_of_fmap. exists j. split; [done|].
  apply list_elem_of_In, filter_In in Hj as [Hj _]. by apply list_elem_of_In.
Qed.

Lemma serve_spec n pp :
  NoDup (id <$> irqs pp) -> Forall (fun i => id i <> 0) (irqs pp) -> (length (candidates pp) <= n)%nat ->
  exists l, (serve n pp).1 = id <$> l /\ l ≡ₚ candidates pp /\ StronglySorted (precedes (inv_order pp)) l /\
    candidates (serve n pp).2 = [] /\ inv_order (serve n pp).2 = inv_order pp /\
    id <$> irqs (serve n pp).2 = id <$> irqs pp.
Proof.
  revert pp. induction n as [|n IH]; intros pp Hnd Hpos Hlen.
  { destruct (candidates pp) eqn:E; [|cbn in Hlen; lia]. exists []. cbn. rewrite E. split_and!; try done. constructor. }
  cbn [serve]. destruct (predict_cases pp Hnd) as [Ho|[Hno ->]].
  - set (i := predict pp) in *. destruct Ho as [Hc Hbest]. pose proof Hc as [Hin _].
    rewrite Forall_forall in Hpos. pose proof (Hpos i Hin) as Hi0.
    destruct (Z.eqb_spec (id i) 0); [done|].
    set (pp' := set_irq _ _ pp). pose proof (candidates_serve pp i Hnd Hc) as Hp. fold pp' in Hp.
    assert (id <$> irqs pp' = id <$> irqs pp) as Hids by by apply set_irq_ids.
    destruct (IH pp') as (l & E & Hl & Hs & Hend & Hinv & Hids').
    { by rewrite Hids. }
    { rewrite Forall_forall. intros j Hj. assert (id j ∈ id <$> irqs pp) as Hj'.
      { rewrite <- Hids. apply list_elem_of_fmap. by exists j. }
      apply list_elem_of_fmap in Hj' as (j' & -> & Hj'). by apply Hpos. }
    { apply Permutation_length in Hp. rewrite length_cons in Hp. lia. }
    destruct (serve n pp') as [order pp'']. cbn [fst snd] in *. exists (i :: l). split_and!.
    + by rewrite E.
    + by rewrite Hl, Hp.
    + constructor; [done|]. rewrite List.Forall_forall. intros j Hj. apply list_elem_of_In in Hj. rewrite Hl in Hj.
      assert (candidate pp j) as Hcj. { apply elem_of_candidates. rewrite Hp. by right. }
      destruct (Hbest j Hcj) as [->|]; [|done].
      pose proof (candidates_nodup pp Hnd) as Hnd'. rewrite Hp in Hnd'. cbn [fmap list_fmap] in Hnd'.
      apply NoDup_cons in Hnd' as [Hn _]. destruct Hn. apply list_elem_of_fmap. by exists i.
    + done.
    + done.
    + by rewrite Hids'.
  - exists []. cbn. assert (candidates pp = []) as ->.
    { destruct (candidates pp) as [|i l] eqn:E; [done|]. destruct (Hno i). apply elem_of_candidates. rewrite E. by left. }
    split_and!; try done. constructor.
Qed.

(** One answer to a claim. *)
Definition served_ok (thr : Z) (i : Irq) (c : Z * Z * Z * Z) : Prop :=
  let '(claimid, claimpl, mexintpend, _) := c in claimid = id i /\ (mexintpend <> 0 \/ claimpl <= thr).

Definition claim (c : Z * Z * Z * Z) : PicItem := let '(a, b, m, w) := c in ClaimItem a b m w.

(** The claims after a request, against the queue of the scoreboard. *)
Lemma claims_spec l claims s : irq_order s = id <$> l -> passed s <> Some false ->
  finish (foldl check_item s (claim <$> claims)) = Some true <->
  (passed s = Some true \/ l <> []) /\
  exists served others, claims = served ++ others /\ Forall2 (served_ok (pri_thr s)) l served.
Proof.
  revert s l. induction claims as [|[[[c p] m] w] claims IH]; intros s l Hq Hp; cbn [fmap list_fmap foldl].
  - unfold finish. rewrite Hq. destruct l as [|i l]; cbn [fmap list_fmap].
    + split; [intros H; split; [by left|by exists [], []]|]. by intros [[|] _].
    + split; [done|]. intros (_ & served & others & E & H). symmetry in E. apply app_eq_nil in E as [-> ->]. inversion H.
  - cbn [claim check_item]. rewrite Hq. destruct l as [|i l]; cbn [fmap list_fmap].
    + rewrite (IH s []) by done. split; (intros [[H|H] _]; [|done]); (split; [by left|]).
      * by exists [], ((c, p, m, w) :: claims).
      * by exists [], claims.
    + set (ok := (c =? id i) && negb (negb (truthy m) && (pri_thr s <? p))).
      assert (ok = true <-> served_ok (pri_thr s) i (c, p, m, w)) as Hok.
      { subst ok. cbn [served_ok]. unfold truthy. destruct (Z.eqb_spec c (id i)), (Z.eqb_spec m 0), (Z.ltb_spec (pri_thr s) p); cbn; intuition (done || lia). }
      assert (forall q x, (if negb (truthy m) && (pri_thr s <? p) then Some false else if c =? id i then q else Some x)
        = if ok then q else if c =? id i then Some false else if negb (truthy m) && (pri_thr s <? p) then Some false else Some x) as Hif.
      { intros q x. subst ok. by destruct (c =? id i), (negb (truthy m) && (pri_thr s <? p)). }
      rewrite Hif. destruct ok.
      * rewrite (IH _ l) by (cbn; first [done | by destruct (passed s) as [[]|]]). cbn [passed pri_thr].
        assert (set_initial (passed s) = Some true) as -> by by destruct (passed s) as [[]|].
        split.
        -- intros [_ (served & others & -> & H)]. split; [by right|]. exists ((c, p, m, w) :: served), others.
           split; [done|]. constructor; [by apply Hok|done].
        -- intros [_ (served & others & E & H)]. split; [by left|]. inversion H as [|? ? ? served' Ha Hb]; subst.
           injection E as <- ->. by exists served', others.
      * assert (forall s', passed s' = Some false -> finish (foldl check_item s' (claim <$> claims)) <> Some true) as Hbad.
        { clear. induction claims as [|[[[c p] m] w] claims IH]; intros s' Hs'; cbn [fmap list_fmap foldl].
          - unfold finish. rewrite Hs'. by destruct (irq_order s').
          - apply IH. cbn [claim check_item]. destruct (irq_order s'); [done|]. cbn [passed]. rewrite Hs'. cbn.
            by destruct (c =? z), (negb (truthy m) && (pri_thr s' <? p)). }
        split.
        -- intros H. exfalso. revert H. apply Hbad. cbn [passed]. by destruct (c =? id i), (negb (truthy m) && (pri_thr s <? p)).
        -- intros [_ (served & others & E & H)]. inversion H as [|? ? ? served' Ha Hb]; subst. injection E as <- ->.
           by apply Hok in Ha.
Qed.

(** One round of test_servicing, from any state of the scoreboard that waits
    for no interrupt and has not failed: the queue that the request fills holds the
    candidates, each once and the most urgent first (the limit of 50 iterations
    does not cut it, as there are no more interrupts than that), none is left to
    service; and after the round the test would pass exactly when the first claims
    are for the interrupts of the queue, in order, each signalled to the core unless its level
    is not above the threshold. *)
Theorem pic_servicing_round s v claims :
  NoDup (id <$> irqs (predictor s)) -> Forall (fun i => id i <> 0) (irqs (predictor s)) ->
  (length (irqs (predictor s)) <= 50)%nat -> irq_order s = [] -> passed s <> Some false -> v <> 0 ->
  let pp := mark_triggered v (predictor s) in
  exists l, l ≡ₚ candidates pp /\ StronglySorted (precedes (inv_order pp)) l /\
    irq_order (check_item s (IrqItem v)) = id <$> l /\
    candidates (predictor (check_item s (IrqItem v))) = [] /\
    (finish (foldl check_item s (IrqItem v :: (claim <$> claims))) = Some true <->
     (passed s = Some true \/ l <> []) /\
     exists served others, claims = served ++ others /\ Forall2 (served_ok (pri_thr s)) l served).
Proof.
  intros Hnd Hpos Hlen Hq Hp Hv pp. assert (id <$> irqs pp = id <$> irqs (predictor s)) as Hids by apply mark_ids.
  destruct (serve_spec 50 pp) as (l & E & Hl & Hs & Hend & _).
  { by rewrite Hids. }
  { assert (Forall (fun z => z <> 0) (id <$> irqs pp)) as H by (rewrite Hids, Forall_fmap; exact Hpos).
    by rewrite Forall_fmap in H. }
  { etrans; [|exact Hlen]. etrans; [apply List.filter_length_le|]. unfold pp, mark_triggered. cbn [irqs]. by rewrite length_fmap. }
  exists l. split_and!; [done|done| | |]; cbn [foldl]; cbn [check_item];
    (rewrite (proj2 (negb_false_iff _)) by (by apply negb_true_iff, Z.eqb_neq)); fold pp;
    destruct (serve 50 pp) as [order pp'] eqn:Es; cbn [fst snd] in *.
  - cbn. by rewrite Hq, E.
  - done.
  - rewrite (claims_spec l); cbn [passed irq_order pri_thr]; [done|by rewrite Hq, E|done].
Qed.

End Servicing.

(** ** At work *)

(** Interrupts 1 and 2 enabled with priorities 5 and 7, threshold 3. *)
Definition example_setup : list PicItem :=
  [BusWriteItem 0xF00C0004 5; BusWriteItem 0xF00C2004 1; BusWriteItem 0xF00C0008 7;
   BusWriteItem 0xF00C2008 1; PrioThrItem 3].

Example prioritization_example :
  (Prioritization.verdict (example_setup ++ [IrqItem 6; IrqItem 0; ClaimItem 2 7 1 0]),
   Prioritization.verdict (example_setup ++ [IrqItem 6; IrqItem 0; ClaimItem 1 5 1 0]),
   Prioritization.verdict (example_setup ++ [PrioLvlItem 7; IrqItem 6; ClaimItem 2 7 1 0]),
   Prioritization.verdict (example_setup ++ [ClaimItem 0 0 0 0]))
  = (Ok tt, Raise AssertionError, Raise AssertionError, Raise AssertionError).
Proof. vm_compute. reflexivity. Qed.

Example servicing_example :
  (Servicing.verdict (example_setup ++ [IrqItem 6; ClaimItem 2 7 1 0; ClaimItem 1 5 1 0]),
   Servicing.verdict (example_setup ++ [IrqItem 6; ClaimItem 2 7 1 0]),
   Servicing.verdict (example_setup ++ [IrqItem 6; ClaimItem 2 7 1 0; ClaimItem 1 5 0 0]))
  = (Ok tt, Raise AssertionError, Raise AssertionError).
Proof. vm_compute. reflexivity. Qed.

Definition example_waiting : Servicing.state := foldl Servicing.check_item Servicing.start example_setup.

Lemma pic_servicing_round_witness :
  exists l, l ≡ₚ candidates (mark_triggered 6 (Servicing.predictor example_waiting)) /\
    Servicing.irq_order (Servicing.check_item example_waiting (IrqItem 6)) = id <$> l /\ l <> [].
Proof.
  destruct (pic_servicing_round example_waiting 6 []) as (l & Hl & _ & Hq & _).
  - apply (bool_decide_eq_true_1 (NoDup _)). vm_compute. reflexivity.
  - apply (bool_decide_eq_true_1 (Forall _ _)). vm_compute. reflexivity.
  - apply Nat.leb_le. vm_compute. reflexivity.
  - vm_compute. reflexivity.
  - vm_compute. discriminate.
  - discriminate.
  - exists l. split; [exact Hl|]. split; [exact Hq|]. intros ->. apply Permutation_nil in Hl.
    revert Hl. vm_compute. discriminate.
Defined.
