(* ===== verification/TraceLog.v ===== *)
(** * Execution log to instruction trace: tools/riscv-dv/veer_log_to_trace_csv.py

    [parse_log] over the lines of a log.  A line is given by what the two
    regular expressions of the file extract from it ([line]); LogText.v has the
    expressions and the text.  [RiscvInstructionTraceEntry] is a class of the
    riscv-dv submodule: [fresh] is the object its constructor returns. *)

From S2P Require Import Prelude PyString.
From stdpp Require Import base list strings.
From Stdlib Require Import Ascii ZArith Lia.

#[local] Open Scope string_scope.
#[local] Open Scope list_scope.

(** The named groups of [INSTR_RE]; an optional group that did not match is [None]. *)
Record instr_groups := {
  pc : string; opc : string; reg : option string; val : option string;
  csr : option string; csr_val : option string; text : string  (** [mnemonic] *)
}.

(** The named groups of [NB_RE]; its mnemonic is ["nbL"] or ["nbD"]. *)
Record nb_groups := { nb_reg : string; nb_val : string; nb_mnemonic : string }.

Record line := { instr_match : option instr_groups; nb_match : option nb_groups }.

(** The attributes of a trace entry that the code uses. *)
Record entry := {
  e_pc : string; e_binary : string; e_operand : string; e_mode : string;
  e_gpr : list string; e_csr : list string
}.

Definition LD_MNEMONICS : list string := ["lb"; "lbu"; "lh"; "lhu"; "lw"; "c.lw"; "c.lwsp"].

Definition DIV_MNEMONICS : list string := ["div"; "divu"; "rem"; "remu"].

Definition is_delayed (mnemonic : string) : bool :=
  str_in mnemonic (LD_MNEMONICS ++ DIV_MNEMONICS).

(** The test that correlates an ["nbL"] or ["nbD"] with a mnemonic. *)
Definition correlates (nb mnemonic : string) : bool :=
  (String.eqb nb "nbL" && str_in mnemonic LD_MNEMONICS)
  || (String.eqb nb "nbD" && str_in mnemonic DIV_MNEMONICS).

(** ["{}:{}".format(reg, val)] *)
Definition pair_string (r v : string) : string := r +:+ ":" +:+ v.

(** [if groups["reg"] and groups["val"]: ...] *)
Definition optional_pair (r v : option string) : option string :=
  match r, v with
  | Some r, Some v => if String.eqb r "" || String.eqb v "" then None else Some (pair_string r v)
  | _, _ => None
  end.

(** [fields[0]] and the operands of [mnemonic.split()]. *)
Definition fields_of (s : string) : result (string * list string) :=
  match split_ws s with
  | [] => Raise IndexError
  | [m] => Ok (m, [])
  | m :: ops :: _ => Ok (m, split_char ","%char ops)
  end.

(** What follows the processing of a part of the loop body. *)
Inductive flow (A : Type) := Break | Continue (a : A) | Proceed (a : A).
Arguments Break {A}.
Arguments Continue {A} a.
Arguments Proceed {A} a.

(** [for ent in reversed(queue)]: the index of the entry at which [test] holds. *)
Fixpoint search_reversed (test : entry -> result bool) (rqueue : list entry)
  : result (option nat) :=
  match rqueue with
  | [] => Ok None
  | ent :: rest =>
      let! b := test ent in
      if b then Ok (Some (length rest)) else search_reversed test rest
  end.

(** The test of the search for a pending "nbL" or "nbD" entry. *)
Definition nb_entry_for (mnemonic : string) (operands : list string) (ent : entry) : result bool :=
  if correlates (e_operand ent) mnemonic then
    let! _ := py_assert (negb (Nat.eqb (length operands) 0)) in
    let! _ := py_assert (negb (Nat.eqb (length (e_gpr ent)) 0)) in
    match e_gpr ent, operands with
    | g :: _, op :: _ =>
        match split_char ":"%char g with
        | [r; _] => Ok (String.eqb r op)
        | _ => Raise ValueError
        end
    | _, _ => Raise IndexError
    end
  else Ok false.

(** The test of the search for the instruction of an "nbL" or "nbD" line. *)
Definition instr_entry_for (g : nb_groups) (ent : entry) : result bool :=
  let! (mnemonic, operands) := fields_of (e_operand ent) in
  if correlates (nb_mnemonic g) mnemonic then
    let! _ := py_assert (negb (Nat.eqb (length operands) 0)) in
    match operands with
    | op :: _ => Ok (String.eqb (nb_reg g) op)
    | [] => Raise IndexError
    end
  else Ok false.

Section Parse.
Variable fresh : entry.

(** "Fill data" and "Append GPR if any". *)
Definition fill (g : instr_groups) (gpr csr : option string) (ent : entry) : entry :=
  {| e_pc := pc g; e_binary := opc g; e_operand := text g; e_mode := "0";
     e_gpr := e_gpr ent ++ match gpr with Some x => [x] | None => [] end;
     e_csr := e_csr ent ++ match csr with Some x => [x] | None => [] end |}.

Definition append_gpr (x : string) (ent : entry) : entry :=
  {| e_pc := e_pc ent; e_binary := e_binary ent; e_operand := e_operand ent;
     e_mode := e_mode ent; e_gpr := e_gpr ent ++ [x]; e_csr := e_csr ent |}.

Definition set_operand (x : string) (ent : entry) : entry :=
  {| e_pc := e_pc ent; e_binary := e_binary ent; e_operand := x;
     e_mode := e_mode ent; e_gpr := e_gpr ent; e_csr := e_csr ent |}.

(** An instruction line. *)
Definition process_instr (queue : list entry) (g : instr_groups) : result (flow (list entry)) :=
  let gpr := optional_pair (reg g) (val g) in
  let csr := optional_pair (csr g) (csr_val g) in
  let! (mnemonic, operands) := fields_of (text g) in
  if String.eqb mnemonic "ecall" then Ok Break
  else
    let delayed_effect := match gpr with None => is_delayed mnemonic | Some _ => false end in
    let! skip :=
      if delayed_effect then
        match operands with op :: _ => Ok (String.eqb op "zero") | [] => Raise IndexError end
      else Ok false in
    if skip then Ok (Continue queue)
    else
      let! found :=
        if delayed_effect then search_reversed (nb_entry_for mnemonic operands) (rev queue)
        else Ok None in
      match found with
      | Some i => Ok (Proceed (alter (fill g gpr csr) i queue))
      | None =>
          let enqueue := match gpr with Some _ => true | None => is_delayed mnemonic end in
          Ok (Proceed (if enqueue then queue ++ [fill g gpr csr fresh] else queue))
      end.

(** An "nbL" or "nbD" line. *)
Definition process_nb (queue : list entry) (g : nb_groups) : result (flow (list entry)) :=
  let! _ := py_assert (negb (String.eqb (nb_reg g) "") && negb (String.eqb (nb_val g) "")) in
  let gpr := pair_string (nb_reg g) (nb_val g) in
  if String.eqb (nb_reg g) "zero" then Ok (Continue queue)
  else
    let! found := search_reversed (instr_entry_for g) (rev queue) in
    match found with
    | Some i => Ok (Proceed (alter (append_gpr gpr) i queue))
    | None => Ok (Proceed (queue ++ [append_gpr gpr (set_operand (nb_mnemonic g) fresh)]))
    end.

(** Is the entry missing its instruction or its register value? *)
Definition incomplete (ent : entry) : bool :=
  String.eqb (e_pc ent) "" || match e_gpr ent with [] => true | _ => false end.

(** The dequeued entries and the queue that remains. *)
Fixpoint dequeue (queue : list entry) : list entry * list entry :=
  match queue with
  | [] => ([], [])
  | ent :: queue' =>
      if incomplete ent then ([], queue)
      else let '(popped, rest) := dequeue queue' in (ent :: popped, rest)
  end.

(** The loop over the lines. *)
Fixpoint parse_lines (lines : list line) (data queue : list entry) : result (list entry) :=
  match lines with
  | [] => Ok data
  | l :: lines =>
      let! r := match instr_match l with
                | Some g => process_instr queue g
                | None => Ok (Proceed queue)
                end in
      match r with
      | Break => Ok data
      | Continue queue => parse_lines lines data queue
      | Proceed queue =>
          let! r := match nb_match l with
                    | Some g => process_nb queue g
                    | None => Ok (Proceed queue)
                    end in
          match r with
          | Break => Ok data
          | Continue queue => parse_lines lines data queue
          | Proceed queue =>
              let '(popped, queue) := dequeue queue in
              let! _ := py_assert (Nat.ltb (length queue) 1000) in
              parse_lines lines (data ++ popped) queue
          end
      end
  end.

Definition parse_log (lines : list line) : result (list entry) := parse_lines lines [] [].
End Parse.

(** ** Specification *)

Inductive kind := Load | Divide.

#[export] Instance kind_eq_dec : EqDecision kind.
Proof. solve_decision. Defined.

Definition nb_name (k : kind) : string := match k with Load => "nbL" | Divide => "nbD" end.

Definition kind_of (mnemonic : string) : option kind :=
  if str_in mnemonic LD_MNEMONICS then Some Load
  else if str_in mnemonic DIV_MNEMONICS then Some Divide else None.

(** The lines that matter: an instruction with its register write, if any, or
    the late register write of a load or a division. *)
Inductive instr_line (g : instr_groups) (m : string) (ops : list string) : line -> Prop :=
  InstrLine : fields_of (text g) = Ok (m, ops) -> pc g <> "" ->
    text g <> "nbL" -> text g <> "nbD" ->
    instr_line g m ops {| instr_match := Some g; nb_match := None |}.

Inductive nb_line (k : kind) (r v : string) : line -> Prop :=
  NbLine : r <> "" -> v <> "" ->
    nb_line k r v {| instr_match := None;
                     nb_match := Some {| nb_reg := r; nb_val := v; nb_mnemonic := nb_name k |} |}.

Definition gpr_of (g : instr_groups) : option string := optional_pair (reg g) (val g).

(** [wf_log pend lines]: with the writes [pend] outstanding, every load and
    division without a value is followed by its late write before another load
    or division of the same register, and every late write belongs to one. *)
Inductive wf_log : list (kind * string) -> list line -> Prop :=
  | wf_nil : wf_log [] []
  | wf_other pend l lines :
      instr_match l = None -> nb_match l = None -> wf_log pend lines -> wf_log pend (l :: lines)
  | wf_ecall g ops l lines : instr_line g "ecall" ops l -> wf_log [] (l :: lines)
  | wf_plain pend g m ops l lines :
      instr_line g m ops l -> m <> "ecall" -> kind_of m = None ->
      wf_log pend lines -> wf_log pend (l :: lines)
  | wf_inline pend g m r ops l lines k :
      instr_line g m (r :: ops) l -> kind_of m = Some k -> gpr_of g <> None ->
      (k, r) ∉ pend -> wf_log pend lines -> wf_log pend (l :: lines)
  | wf_zero pend g m ops l lines k :
      instr_line g m ("zero" :: ops) l -> kind_of m = Some k -> gpr_of g = None ->
      wf_log pend lines -> wf_log pend (l :: lines)
  | wf_delayed pend g m r ops l lines k :
      instr_line g m (r :: ops) l -> kind_of m = Some k -> gpr_of g = None -> r <> "zero" ->
      (k, r) ∉ pend -> wf_log ((k, r) :: pend) lines -> wf_log pend (l :: lines)
  | wf_nb_zero pend v l lines k :
      nb_line k "zero" v l -> wf_log pend lines -> wf_log pend (l :: lines)
  | wf_nb pend pend' r v l lines k :
      nb_line k r v l -> r <> "zero" -> pend ≡ₚ (k, r) :: pend' ->
      wf_log pend' lines -> wf_log pend (l :: lines).

(** The value of the first late write to [r]. *)
Fixpoint first_nb (k : kind) (r : string) (lines : list line) : option string :=
  match lines with
  | [] => None
  | l :: lines =>
      match nb_match l with
      | Some g => if String.eqb (nb_mnemonic g) (nb_name k) && String.eqb (nb_reg g) r
                  then Some (pair_string (nb_reg g) (nb_val g)) else first_nb k r lines
      | None => first_nb k r lines
      end
  end.

Definition fields (s : string) : string * list string :=
  match fields_of s with Ok p => p | Raise _ => ("", []) end.

(** The instruction of an entry without a value gets that value. *)
Definition resolve (lines : list line) (ent : entry) : entry :=
  match e_gpr ent with
  | [] =>
      let '(m, ops) := fields (e_operand ent) in
      match kind_of m, ops with
      | Some k, r :: _ => match first_nb k r lines with
                          | Some x => append_gpr x ent
                          | None => ent
                          end
      | _, _ => ent
      end
  | _ => ent
  end.

Section Expected.
Variable fresh : entry.

(** The trace of a log: in program order, the instructions that write a
    register other than [zero], each with the value that is written. *)
Fixpoint expected (lines : list line) : list entry :=
  match lines with
  | [] => []
  | l :: lines =>
      match instr_match l with
      | None => expected lines
      | Some g =>
          let '(m, ops) := fields (text g) in
          let ent := fill g (gpr_of g) (optional_pair (csr g) (csr_val g)) fresh in
          if String.eqb m "ecall" then []
          else match gpr_of g, kind_of m with
               | Some _, _ => ent :: expected lines
               | None, None => expected lines
               | None, Some _ =>
                   if String.eqb (nth 0 ops "") "zero" then expected lines
                   else resolve lines ent :: expected lines
               end
      end
  end.
End Expected.

(** ** The queue *)

(** The queue entry's instruction, and whether it waits for a value. *)
Definition targets (k : kind) (r : string) (ent : entry) : Prop :=
  exists m ops, fields_of (e_operand ent) = Ok (m, r :: ops) /\ kind_of m = Some k.

Definition queued (ent : entry) : Prop :=
  e_pc ent <> "" /\ e_operand ent <> "nbL" /\ e_operand ent <> "nbD" /\
  exists m ops, fields_of (e_operand ent) = Ok (m, ops) /\ (kind_of m <> None -> ops <> []).

(** Exactly the writes [pend] are outstanding, and no entry after an
    outstanding one has the same target. *)
Inductive queue_ok : list (kind * string) -> list entry -> Prop :=
  | qok_nil : queue_ok [] []
  | qok_done pend ent q :
      queued ent -> e_gpr ent <> [] -> queue_ok pend q -> queue_ok pend (ent :: q)
  | qok_pending pend pend' k r ent q :
      queued ent -> e_gpr ent = [] -> targets k r ent -> r <> "zero" ->
      (forall ent', ent' ∈ q -> ~ targets k r ent') ->
      pend ≡ₚ (k, r) :: pend' -> queue_ok pend' q -> queue_ok pend (ent :: q).

Lemma is_delayed_kind m : is_delayed m = match kind_of m with Some _ => true | None => false end.
Proof.
  unfold is_delayed, kind_of, str_in. rewrite existsb_app.
  by destruct (existsb _ LD_MNEMONICS), (existsb _ DIV_MNEMONICS).
Qed.

Lemma correlates_kind k m :
  correlates (nb_name k) m = match kind_of m with Some k' => bool_decide (k' = k) | None => false end.
Proof.
  unfold correlates, kind_of, str_in.
  assert (existsb (String.eqb m) LD_MNEMONICS = true -> existsb (String.eqb m) DIV_MNEMONICS = false) as Hx.
  { intros (x & Hx & ->%String.eqb_eq)%existsb_exists.
    repeat (destruct Hx as [<-|Hx]; [done|]). done. }
  destruct (existsb _ LD_MNEMONICS) eqn:E1; [rewrite (Hx eq_refl); by destruct k|].
  by destruct (existsb _ DIV_MNEMONICS), k.
Qed.

Lemma targets_inj k r k' r' ent : targets k r ent -> targets k' r' ent -> k = k' /\ r = r'.
Proof. intros (m & ops & H & Hk) (m' & ops' & H' & Hk'). rewrite H in H'. injection H' as <- <- <-. by rewrite Hk in Hk'; injection Hk' as <-. Qed.

Lemma targets_append k r x ent : targets k r (append_gpr x ent) <-> targets k r ent.
Proof. done. Qed.

(** Queued entries are never "nbL" or "nbD" entries. *)
Lemma nb_entry_for_queued m ops ent : queued ent -> nb_entry_for m ops ent = Ok false.
Proof.
  intros (_ & H1 & H2 & _). unfold nb_entry_for, correlates.
  destruct (String.eqb_spec (e_operand ent) "nbL"); [done|].
  by destruct (String.eqb_spec (e_operand ent) "nbD").
Qed.

Lemma instr_entry_for_queued k r v ent :
  queued ent ->
  let g := {| nb_reg := r; nb_val := v; nb_mnemonic := nb_name k |} in
  (targets k r ent -> instr_entry_for g ent = Ok true) /\
  (~ targets k r ent -> instr_entry_for g ent = Ok false).
Proof.
  intros (_ & _ & _ & m & ops & Hf & Hops) g. unfold instr_entry_for. rewrite Hf. cbn [rbind].
  cbn [g nb_mnemonic nb_reg]. rewrite correlates_kind. split.
  - intros (m' & ops' & Hf' & Hk). rewrite Hf in Hf'. injection Hf' as -> ->.
    rewrite Hk, bool_decide_true by done. cbn. by rewrite String.eqb_refl.
  - intros Hn. destruct (kind_of m) as [k'|] eqn:Hk; [|done].
    case_bool_decide as E; [subst k'|done].
    destruct ops as [|op ops]; [by destruct Hops|]. cbn.
    destruct (String.eqb_spec r op) as [<-|]; [|done]. destruct Hn. by exists m, ops.
Qed.

Lemma search_none test q : (forall ent, ent ∈ q -> test ent = Ok false) -> search_reversed test q = Ok None.
Proof.
  induction q as [|e q IH]; intros H; [done|]. cbn. rewrite H by by left. cbn.
  apply IH. intros ent Hent. apply H. by right.
Qed.

Lemma search_hit test a e b :
  test e = Ok true -> (forall ent, ent ∈ b -> test ent = Ok false) ->
  search_reversed test (rev (a ++ e :: b)) = Ok (Some (length a)).
Proof.
  intros He Hb. rewrite rev_app_distr. cbn [rev]. rewrite <- app_assoc.
  assert (forall ent, ent ∈ rev b -> test ent = Ok false) as Hb'.
  { intros ent Hent. apply Hb. apply list_elem_of_In, in_rev. by apply list_elem_of_In. }
  induction (rev b) as [|x rb IH]; cbn.
  - rewrite He. cbn. by rewrite length_rev.
  - rewrite Hb' by by left. cbn. apply IH. intros ent Hent. apply Hb'. by right.
Qed.

(** *** Operations on the queue *)

Lemma queue_ok_perm p p' q : p ≡ₚ p' -> queue_ok p q -> queue_ok p' q.
Proof.
  intros Hp Hq. revert p' Hp.
  induction Hq as [|p e q Hqe Hg Hq IH|p p1 k0 r0 e q Hqe Hg Ht Hz Hlast Hp1 Hq IH]; intros p' Hp.
  - apply Permutation_nil in Hp as ->. constructor.
  - constructor; auto.
  - eapply qok_pending; [done..| |done]. etrans; [by symmetry|done].
Qed.

Lemma queue_ok_queued p q ent : queue_ok p q -> ent ∈ q -> queued ent.
Proof.
  induction 1; intros Hin; [by apply not_elem_of_nil in Hin|..];
    apply elem_of_cons in Hin as [->|Hin]; auto.
Qed.

Lemma queue_ok_app p q ent :
  queue_ok p q -> queued ent -> (forall k r, targets k r ent -> (k, r) ∉ p) ->
  (e_gpr ent <> [] -> queue_ok p (q ++ [ent])) /\
  (forall k r, e_gpr ent = [] -> targets k r ent -> r <> "zero" -> queue_ok ((k, r) :: p) (q ++ [ent])).
Proof.
  intros Hq He. induction Hq as [|p e q Hqe Hg Hq IH|p p' k0 r0 e q Hqe Hg Ht Hz Hlast Hp Hq IH];
    intros Hnot; cbn [app].
  - split; intros; [apply qok_done|eapply qok_pending]; try done; try constructor.
    by intros ? ?%not_elem_of_nil.
  - destruct (IH Hnot) as [IH1 IH2]. split; intros; (apply qok_done; auto).
  - destruct IH as [IH1 IH2].
    { intros k r Hk Hin. apply (Hnot k r Hk). rewrite Hp. by right. }
    assert (forall ent', ent' ∈ q ++ [ent] -> ~ targets k0 r0 ent') as Hl.
    { intros ent' [Hin|Hin]%elem_of_app; [by apply Hlast|].
      apply list_elem_of_singleton in Hin as ->. intros Hk. apply (Hnot _ _ Hk). rewrite Hp. by left. }
    split; intros.
    + eapply qok_pending; eauto.
    + eapply qok_pending; eauto. rewrite Hp. constructor.
Qed.

Lemma queue_ok_resolve p p' k r q x :
  queue_ok p q -> p ≡ₚ (k, r) :: p' ->
  exists a e b, q = a ++ e :: b /\ e_gpr e = [] /\ targets k r e /\
    (forall ent, ent ∈ b -> ~ targets k r ent) /\
    (forall ent, ent ∈ a -> e_gpr ent = [] -> ~ targets k r ent) /\
    queue_ok p' (a ++ append_gpr x e :: b).
Proof.
  intros Hq. revert p'. induction Hq as [|p e q Hqe Hg Hq IH|p p1 k0 r0 e q Hqe Hg Ht Hz Hlast Hp Hq IH];
    intros p' Hp'.
  - by apply Permutation_nil_cons in Hp'.
  - destruct (IH p' Hp') as (a & e' & b & -> & H1 & H2 & H3 & H4 & H5).
    exists (e :: a), e', b. split_and!; try done; [|by constructor].
    intros ent [->|Hin]%elem_of_cons Hg'; [done|by apply H4].
  - destruct (decide ((k0, r0) = (k, r))) as [[= -> ->]|Hne].
    + exists [], e, q. split_and!; try done; [by intros ? ?%not_elem_of_nil|].
      cbn [app]. apply qok_done; [done|cbn; by rewrite Hg|].
      apply (queue_ok_perm p1); [|done]. apply (Permutation_cons_inv (a := (k, r))).
      by rewrite <- Hp, Hp'.
    + assert (exists p2, p1 ≡ₚ (k, r) :: p2 /\ p' ≡ₚ (k0, r0) :: p2) as (p2 & Hp1 & Hp2).
      { assert ((k, r) ∈ p1) as Hin.
        { assert ((k, r) ∈ (k0, r0) :: p1) as [E|]%elem_of_cons; [rewrite <- Hp, Hp'; by left|congruence|done]. }
        apply elem_of_Permutation in Hin as [p2 Hp2]. exists p2. split; [done|].
        apply (Permutation_cons_inv (a := (k, r))). rewrite <- Hp', Hp, Hp2. constructor. }
      destruct (IH p2 Hp1) as (a & e' & b & -> & H1 & H2 & H3 & H4 & H5).
      exists (e :: a), e', b. split_and!; try done.
      * intros ent [->|Hin]%elem_of_cons Hg' Hk; [|by apply (H4 ent)].
        destruct (targets_inj _ _ _ _ _ Ht Hk). congruence.
      * cbn [app]. eapply qok_pending; [done|done|done|done| |done|done].
        intros ent' Hin. apply elem_of_app in Hin as [Hin|[->|Hin]%elem_of_cons].
        -- apply Hlast, elem_of_app. by left.
        -- rewrite targets_append. apply Hlast, elem_of_app. right. by left.
        -- apply Hlast, elem_of_app. right. by right.
Qed.

Lemma dequeue_spec p q popped q' :
  queue_ok p q -> dequeue q = (popped, q') ->
  q = popped ++ q' /\ (forall ent, ent ∈ popped -> e_gpr ent <> []) /\ queue_ok p q' /\ (p = [] -> q' = []).
Proof.
  intros Hq. revert popped q'.
  induction Hq as [|p e q Hqe Hg Hq IH|p p1 k0 r0 e q Hqe Hg Ht Hz Hlast Hp Hq IH];
    intros popped q' H; cbn [dequeue] in H.
  - injection H as <- <-. split_and!; try done; [by intros ? ?%not_elem_of_nil|constructor].
  - unfold incomplete in H. destruct (String.eqb_spec (e_pc e) "") as [E|]; [by destruct Hqe|].
    cbn [orb] in H. destruct (e_gpr e) eqn:Eg; [done|]. destruct (dequeue q) as [pp qq].
    injection H as <- <-. destruct (IH pp qq eq_refl) as (-> & H1 & H2 & H3).
    split_and!; try done. intros ent [->|Hin]%elem_of_cons; [by rewrite Eg|by apply H1].
  - unfold incomplete in H. rewrite Hg, orb_true_r in H. injection H as <- <-.
    split_and!; [done|by intros ? ?%not_elem_of_nil|by eapply qok_pending|].
    intros ->. by apply Permutation_nil_cons in Hp.
Qed.

(** ** [resolve] over one more line *)

Lemma resolve_done lines ent : e_gpr ent <> [] -> resolve lines ent = ent.
Proof. unfold resolve. by destruct (e_gpr ent). Qed.

Lemma resolve_target lines k r ent :
  e_gpr ent = [] -> targets k r ent ->
  resolve lines ent = match first_nb k r lines with Some x => append_gpr x ent | None => ent end.
Proof.
  intros Hg (m & ops & Hf & Hk). unfold resolve, fields. by rewrite Hg, Hf, Hk.
Qed.

Lemma resolve_skip l lines ent : nb_match l = None -> resolve (l :: lines) ent = resolve lines ent.
Proof.
  intros Hl. unfold resolve. destruct (e_gpr ent); [|done]. destruct (fields _) as [m ops].
  destruct (kind_of m); [|done]. destruct ops; [done|]. cbn [first_nb]. by rewrite Hl.
Qed.

Lemma first_nb_nb k r v l lines k' r' :
  nb_line k r v l ->
  first_nb k' r' (l :: lines)
  = if decide (k' = k /\ r' = r) then Some (pair_string r v) else first_nb k' r' lines.
Proof.
  intros []. cbn. destruct (decide _) as [[-> ->]|Hn].
  - by rewrite !String.eqb_refl.
  - destruct (String.eqb_spec (nb_name k) (nb_name k')) as [E|]; [|done].
    destruct (String.eqb_spec r r') as [->|]; [|done].
    destruct Hn. split; [by destruct k, k'|done].
Qed.

Lemma pending_target p q ent :
  queue_ok p q -> ent ∈ q -> e_gpr ent = [] -> exists k r, targets k r ent /\ r <> "zero".
Proof.
  intros Hq Hin Hg. induction Hq as [|p e q Hqe Hge Hq IH|p p1 k0 r0 e q Hqe Hge Ht Hz Hlast Hp1 Hq IH].
  - by apply not_elem_of_nil in Hin.
  - apply elem_of_cons in Hin as [->|Hin]; [done|by apply IH].
  - apply elem_of_cons in Hin as [->|Hin]; [by exists k0, r0|by apply IH].
Qed.

Lemma resolve_other_nb k r v l lines ent p q :
  nb_line k r v l -> queue_ok p q -> ent ∈ q -> (e_gpr ent = [] -> ~ targets k r ent) ->
  resolve (l :: lines) ent = resolve lines ent.
Proof.
  intros Hl Hq Hin Hn. destruct (e_gpr ent) eqn:Hg; [|by rewrite !resolve_done by by rewrite Hg].
  destruct (pending_target p q ent Hq Hin Hg) as (k' & r' & Ht & _).
  rewrite !(resolve_target _ k' r') by done. rewrite (first_nb_nb k r v) by done.
  destruct (decide _) as [[-> ->]|]; [|done]. by destruct Hn.
Qed.

Lemma map_ext_elem {A B} (f g : A -> B) l : (forall x, x ∈ l -> f x = g x) -> map f l = map g l.
Proof. intros H. apply map_ext_in. intros x Hx. apply H. by apply list_elem_of_In. Qed.

(** ** Correctness of the loop *)

Section Correct.
Variable fresh : entry.
Hypothesis fresh_gpr : e_gpr fresh = [].

(** The result of the loop from a state: the trace, or the safeguard's
    assertion, which needs a thousand entries. *)
Definition loop_result (lines : list line) (data q : list entry) (tr : list entry)
    (r : result (list entry)) : Prop :=
  r = Ok (data ++ tr) \/ (1000 <= length q + length lines)%nat /\ r = Raise AssertionError.

Definition correct (lines : list line) (pend : list (kind * string)) : Prop :=
  forall q data, queue_ok pend q -> (pend = [] -> q = []) ->
  loop_result lines data q (map (resolve lines) q ++ expected fresh lines)
    (parse_lines fresh lines data q).

Lemma proceed lines pend q1 data :
  correct lines pend -> queue_ok pend q1 ->
  loop_result lines data q1 (map (resolve lines) q1 ++ expected fresh lines)
    (let '(popped, queue) := dequeue q1 in
     let! _ := py_assert (Nat.ltb (length queue) 1000) in
     parse_lines fresh lines (data ++ popped) queue).
Proof.
  intros IH Hq. destruct (dequeue q1) as [popped q2] eqn:E.
  destruct (dequeue_spec _ _ _ _ Hq E) as (-> & Hdone & Hq2 & Hnil).
  unfold py_assert. destruct (Nat.ltb_spec (length q2) 1000) as [|Hlen]; cbn [rbind].
  - destruct (IH q2 (data ++ popped) Hq2 Hnil) as [->|[Hl ->]]; [left|right].
    + rewrite map_app, <- !app_assoc. do 3 f_equal.
      transitivity (map id popped); [by rewrite map_id|]. apply map_ext_elem.
      intros ent Hin. symmetry. apply resolve_done. by apply Hdone.
    + split; [rewrite length_app; lia|done].
  - right. split; [rewrite length_app; lia|done].
Qed.

(** The line is processed to the queue [q'], and the trace is the same. *)
Lemma loop_result_step l lines data q q' tr tr' r :
  tr = tr' -> (length q' <= S (length q))%nat ->
  loop_result lines data q' tr r -> loop_result (l :: lines) data q tr' r.
Proof.
  intros <- Hl [->|[Hlen ->]]; [by left|right]. split; [cbn [length]; lia|done].
Qed.

Lemma fill_gpr g gpr c : e_gpr (fill g gpr c fresh) = match gpr with Some x => [x] | None => [] end.
Proof using fresh_gpr. cbn. by rewrite fresh_gpr. Qed.

Lemma fill_queued g m ops l gpr c :
  instr_line g m ops l -> (kind_of m <> None -> ops <> []) -> queued (fill g gpr c fresh).
Proof. intros [] Ho. repeat split; [done..|]. by exists m, ops. Qed.

Lemma parse_cons l lines data q :
  parse_lines fresh (l :: lines) data q =
  let! r := match instr_match l with
            | Some g => process_instr fresh q g | None => Ok (Proceed q) end in
  match r with
  | Break => Ok data
  | Continue queue => parse_lines fresh lines data queue
  | Proceed queue =>
      let! r := match nb_match l with
                | Some g => process_nb fresh queue g | None => Ok (Proceed queue) end in
      match r with
      | Break => Ok data
      | Continue queue => parse_lines fresh lines data queue
      | Proceed queue =>
          let '(popped, queue) := dequeue queue in
          let! _ := py_assert (Nat.ltb (length queue) 1000) in
          parse_lines fresh lines (data ++ popped) queue
      end
  end.
Proof. done. Qed.

Lemma map_resolve_skip l lines q :
  nb_match l = None -> map (resolve (l :: lines)) q = map (resolve lines) q.
Proof. intros Hl. apply map_ext. intros ent. by apply resolve_skip. Qed.

(** An instruction that is not delayed. *)
Lemma step_direct pend q g m ops l lines data :
  instr_line g m ops l -> m <> "ecall" -> (kind_of m <> None -> ops <> [] /\ gpr_of g <> None) ->
  (forall k r ops', kind_of m = Some k -> ops = r :: ops' -> (k, r) ∉ pend) ->
  correct lines pend -> queue_ok pend q -> (pend = [] -> q = []) ->
  loop_result (l :: lines) data q (map (resolve (l :: lines)) q ++ expected fresh (l :: lines))
    (parse_lines fresh (l :: lines) data q).
Proof using fresh_gpr.
  intros Hl Hm Hk Hpend IH Hq Hnil. rewrite parse_cons. cbn [expected].
  pose proof (fill_queued g m ops l (gpr_of g) (optional_pair (csr g) (csr_val g)) Hl) as Hqueued.
  inversion Hl as [Hf Hpc _ _ El]. cbn [instr_match nb_match]. rewrite map_resolve_skip by done.
  unfold process_instr, fields. fold (gpr_of g). rewrite Hf. cbn [rbind].
  destruct (String.eqb_spec m "ecall"); [done|]. rewrite is_delayed_kind.
  destruct (gpr_of g) as [v|] eqn:Hg; cbn [rbind].
  - eapply loop_result_step; [| |apply (proceed lines pend)].
    + rewrite map_app, <- app_assoc. cbn [map app]. f_equal. f_equal.
      apply resolve_done. by rewrite fill_gpr.
    + rewrite length_app. cbn. lia.
    + done.
    + apply queue_ok_app; [done|apply Hqueued; intros; by apply Hk| |by rewrite fill_gpr].
      intros k r (m' & ops' & Hf' & Hk'). cbn [e_operand fill] in Hf'. rewrite Hf in Hf'.
      injection Hf' as <- ->. by eapply Hpend.
  - destruct (kind_of m) eqn:Hkm; [by destruct Hk|]. cbn [rbind].
    eapply loop_result_step; [| |apply (proceed lines pend)]; [done|lia|done|done].
Qed.

(** A load or division to [zero]. *)
Lemma step_zero pend q g m ops l lines k data :
  instr_line g m ("zero" :: ops) l -> kind_of m = Some k -> gpr_of g = None ->
  correct lines pend -> queue_ok pend q -> (pend = [] -> q = []) ->
  loop_result (l :: lines) data q (map (resolve (l :: lines)) q ++ expected fresh (l :: lines))
    (parse_lines fresh (l :: lines) data q).
Proof using fresh_gpr.
  intros Hl Hk Hg IH Hq Hnil. rewrite parse_cons. cbn [expected]. inversion Hl as [Hf Hpc _ _ El].
  cbn [instr_match nb_match]. rewrite map_resolve_skip by done.
  unfold process_instr, fields. fold (gpr_of g). rewrite Hf, Hg. cbn [rbind].
  destruct (String.eqb_spec m "ecall") as [->|]; [done|].
  rewrite is_delayed_kind, Hk. cbn [rbind nth].
  eapply loop_result_step; [done| |by apply IH]. lia.
Qed.

(** A load or division whose value comes later. *)
Lemma step_delayed pend q g m r ops l lines k data :
  instr_line g m (r :: ops) l -> kind_of m = Some k -> gpr_of g = None -> r <> "zero" ->
  (k, r) ∉ pend -> correct lines ((k, r) :: pend) -> queue_ok pend q ->
  loop_result (l :: lines) data q (map (resolve (l :: lines)) q ++ expected fresh (l :: lines))
    (parse_lines fresh (l :: lines) data q).
Proof using fresh_gpr.
  intros Hl Hk Hg Hz Hp IH Hq. rewrite parse_cons. cbn [expected].
  pose proof (fill_queued g m (r :: ops) l None (optional_pair (csr g) (csr_val g)) Hl) as Hqueued.
  inversion Hl as [Hf Hpc _ _ El]. cbn [instr_match nb_match]. rewrite map_resolve_skip by done.
  unfold process_instr, fields. fold (gpr_of g). rewrite Hf, Hg. cbn [rbind].
  destruct (String.eqb_spec m "ecall") as [->|]; [done|].
  rewrite is_delayed_kind, Hk. cbn [rbind nth].
  destruct (String.eqb_spec r "zero"); [done|]. cbn [rbind].
  rewrite search_none.
  2: { intros ent Hin. eapply nb_entry_for_queued, queue_ok_queued; [done|].
       apply list_elem_of_In, in_rev. by apply list_elem_of_In. }
  cbn [rbind].
  assert (targets k r (fill g None (optional_pair (csr g) (csr_val g)) fresh)) as Ht by by exists m, ops.
  eapply loop_result_step; [| |apply (proceed lines ((k, r) :: pend))].
  - by rewrite map_app, <- app_assoc.
  - rewrite length_app. cbn. lia.
  - done.
  - apply queue_ok_app; [done|by apply Hqueued| |by rewrite fill_gpr|done|done].
    intros k' r' Ht'. by destruct (targets_inj _ _ _ _ _ Ht Ht') as [<- <-].
Qed.

(** A late write to [zero]. *)
Lemma step_nb_zero pend q k v l lines data :
  nb_line k "zero" v l -> correct lines pend -> queue_ok pend q -> (pend = [] -> q = []) ->
  loop_result (l :: lines) data q (map (resolve (l :: lines)) q ++ expected fresh (l :: lines))
    (parse_lines fresh (l :: lines) data q).
Proof.
  intros Hl IH Hq Hnil.
  assert (map (resolve (l :: lines)) q = map (resolve lines) q) as ->.
  { apply map_ext_elem. intros ent Hin. eapply resolve_other_nb; [done..|]. intros Hg Ht.
    destruct (pending_target _ _ _ Hq Hin Hg) as (k' & r' & Ht' & Hz).
    by destruct (targets_inj _ _ _ _ _ Ht Ht') as [_ <-]. }
  inversion Hl as [Hr Hv El]. rewrite parse_cons. cbn [expected instr_match nb_match rbind].
  unfold process_nb. cbn [nb_reg nb_val nb_mnemonic].
  destruct (String.eqb_spec v "") as [|]; [done|]. cbn.
  eapply loop_result_step; [done| |by apply IH]. lia.
Qed.

(** A late write. *)
Lemma step_nb pend pend' q k r v l lines data :
  nb_line k r v l -> r <> "zero" -> pend ≡ₚ (k, r) :: pend' -> correct lines pend' ->
  queue_ok pend q ->
  loop_result (l :: lines) data q (map (resolve (l :: lines)) q ++ expected fresh (l :: lines))
    (parse_lines fresh (l :: lines) data q).
Proof.
  intros Hl Hz Hp IH Hq.
  destruct (queue_ok_resolve pend pend' k r q (pair_string r v) Hq Hp)
    as (a & e & b & -> & Hg & Ht & Hb & Ha & Hq').
  assert (map (resolve (l :: lines)) (a ++ e :: b)
          = map (resolve lines) (a ++ append_gpr (pair_string r v) e :: b)) as ->.
  { rewrite !map_app. cbn [map]. f_equal; [|f_equal].
    - apply map_ext_elem. intros ent Hin. eapply resolve_other_nb; [done..| |by apply Ha].
      apply elem_of_app. by left.
    - rewrite (resolve_target _ k r) by done. rewrite (first_nb_nb k r v) by done.
      rewrite decide_True by done. symmetry. apply resolve_done. cbn. by rewrite Hg.
    - apply map_ext_elem. intros ent Hin. eapply resolve_other_nb; [done..| |by intros _; apply Hb].
      apply elem_of_app. right. by right. }
  pose proof (fun ent Hin => instr_entry_for_queued k r v ent (queue_ok_queued _ _ ent Hq Hin)) as Htest.
  inversion Hl as [Hr Hv El]. rewrite parse_cons. cbn [expected instr_match nb_match rbind].
  unfold process_nb. cbn [nb_reg nb_val nb_mnemonic].
  destruct (String.eqb_spec r "") as [|]; [done|]. destruct (String.eqb_spec v "") as [|]; [done|].
  cbn [negb andb py_assert rbind]. destruct (String.eqb_spec r "zero"); [done|].
  rewrite (search_hit _ a e b).
  - cbn [rbind]. rewrite alter_app_r_alt, Nat.sub_diag by lia. cbn [alter list_alter].
    eapply loop_result_step; [done| |by apply (proceed lines pend')].
    rewrite !length_app. cbn. lia.
  - apply Htest; [|done]. apply elem_of_app. right. by left.
  - intros ent Hin. apply Htest; [|by apply Hb]. apply elem_of_app. right. by right.
Qed.

Lemma wf_log_correct pend lines : wf_log pend lines -> correct lines pend.
Proof using fresh_gpr.
  induction 1 as [|pend l lines Hi Hn _ IH|g ops l lines Hl|pend g m ops l lines Hl Hm Hk _ IH
    |pend g m r ops l lines k Hl Hk Hg Hp _ IH|pend g m ops l lines k Hl Hk Hg _ IH
    |pend g m r ops l lines k Hl Hk Hg Hz Hp _ IH|pend v l lines k Hl _ IH
    |pend pend' r v l lines k Hl Hz Hp _ IH]; intros q data Hq Hnil.
  - left. rewrite Hnil by done. cbn. by rewrite app_nil_r.
  - rewrite parse_cons. cbn [expected]. rewrite Hi, Hn. cbn [rbind]. rewrite map_resolve_skip by done.
    eapply loop_result_step; [done| |by apply (proceed lines pend)]. lia.
  - left. rewrite Hnil by done. inversion Hl as [Hf Hpc _ _ El]. rewrite parse_cons.
    cbn [instr_match expected]. unfold process_instr, fields. rewrite Hf. cbn. by rewrite app_nil_r.
  - eapply step_direct; try done; by rewrite Hk.
  - eapply step_direct; try done; [by intros ->|].
    intros k' r' ops'. rewrite Hk. by intros [= <-] [= <- <-].
  - by eapply step_zero.
  - by eapply step_delayed.
  - by eapply step_nb_zero.
  - by eapply step_nb.
Qed.
End Correct.

(** ** Properties *)

(** C3: On a well-formed log (every load or division without an inline value
    is followed by its late register write before another load or division of
    the same register) of fewer than 1000 lines, the parser returns the trace in
    program order: exactly the register-writing instructions up to the first
    [ecall], each with the value its register receives, however the late writes
    interleave with other instructions.  On a longer log the only other outcome
    is the assertion that bounds the queue. *)
Theorem trace_log_correct (fresh : entry) (lines : list line) :
  e_gpr fresh = [] -> wf_log [] lines ->
  parse_log fresh lines = Ok (expected fresh lines) \/
  (1000 <= length lines)%nat /\ parse_log fresh lines = Raise AssertionError.
Proof.
  intros Hf Hw. destruct (wf_log_correct fresh Hf [] lines Hw [] []) as [H|[Hl H]].
  - constructor.
  - done.
  - by left.
  - by right.
Qed.

Definition example_fresh : entry :=
  {| e_pc := ""; e_binary := ""; e_operand := ""; e_mode := ""; e_gpr := []; e_csr := [] |}.

Definition example_instr (p : string) (rv : option (string * string)) (t : string) : line :=
  {| instr_match := Some {| pc := p; opc := "00000013"; reg := fst <$> rv; val := snd <$> rv;
                            csr := None; csr_val := None; text := t |};
     nb_match := None |}.

Definition example_nb (r v m : string) : line :=
  {| instr_match := None; nb_match := Some {| nb_reg := r; nb_val := v; nb_mnemonic := m |} |}.

Definition example_log : list line :=
  [example_instr "80000000" None "lw a0,0(sp)";
   example_instr "80000004" None "div a1,a2,a3";
   example_instr "80000008" (Some ("a4", "00000001")) "addi a4,zero,1";
   example_nb "a1" "00000007" "nbD";
   example_nb "a0" "0000002a" "nbL";
   example_instr "8000000c" None "ecall"].

Lemma trace_log_correct_witness :
  parse_log example_fresh example_log = Ok (expected example_fresh example_log) \/
  (1000 <= length example_log)%nat /\ parse_log example_fresh example_log = Raise AssertionError.
Proof.
  apply trace_log_correct; [reflexivity|].
  eapply (wf_delayed _ _ "lw" "a0" _ _ _ Load); [by constructor|done..|by intros ?%elem_of_nil|].
  eapply (wf_delayed _ _ "div" "a1" _ _ _ Divide); [by constructor|done..|by intros [=]%list_elem_of_singleton|].
  eapply (wf_plain _ _ "addi"); [by constructor|done..|].
  eapply (wf_nb _ [(Load, "a0")] "a1" "00000007" _ _ Divide); [by constructor|done..|].
  eapply (wf_nb _ [] "a0" "0000002a" _ _ Load); [by constructor|done..|].
  eapply wf_ecall. by constructor.
Defined.
