(* ===== verification/CodeFixup.v ===== *)
(** * NOP insertion after delayed writes: tools/riscv-dv/code_fixup.py

    Parsing of the lines of an assembly file and the insertion of NOPs between
    a delayed write and an instruction that writes the same register.  The file
    is the list of its lines; ToolFiles.v has the program that reads and writes
    it. *)

From S2P Require Import Prelude PyString.
From stdpp Require Import base list strings pretty.
From Stdlib Require Import Ascii ZArith Lia.

#[local] Open Scope string_scope.
#[local] Open Scope list_scope.

Record AssemblyLine := {
  text : string; mnemonic : option string; operands : option (list string)
}.

(** [RE_INSTR.match(text)] of a stripped line: the groups. *)
Definition RE_INSTR_match (t : string) : option (string * string) :=
  match span_nonspace t with
  | (EmptyString, _) => None
  | (_, EmptyString) => None
  | (m, rest) => Some (m, lstrip rest)
  end.

(** [AssemblyLine(text)] *)
Definition mkAssemblyLine (t : string) : AssemblyLine :=
  let none := {| text := t; mnemonic := None; operands := None |} in
  let s := match cut ":"%char t with Some (_, q) => q | None => t end in
  let s := match cut "#"%char s with Some (p, _) => p | None => s end in
  match RE_INSTR_match (strip s) with
  | None => none
  | Some (m, ops) =>
      match m with
      | String "."%char _ => none
      | _ => {| text := t; mnemonic := Some (lower m);
                operands := Some (map strip (split_char ","%char ops)) |}
      end
  end.

Definition MNEMONICS : list string :=
  ["div"; "divu"; "rem"; "remu"; "lb"; "lbu"; "lh"; "lhu"; "lw"; "c.lw"; "c.lwsp"].

Definition max_nops : nat := 10.

(** An element of [out_lines]. *)
Inductive out_line :=
  | Line (l : AssemblyLine)
  | Str (s : string).

(** [str(l)] *)
Definition out_str (o : out_line) : string :=
  match o with Line l => text l | Str s => s end.

Definition newline : string := String "010"%char "".

Definition pad : string := repeat_str " " 18.

Definition nop_str : string := pad +:+ "nop" +:+ newline.

Definition has_mnemonic (l : AssemblyLine) : bool :=
  match mnemonic l with Some _ => true | None => false end.

(** [line.mnemonic] is a delayed write. *)
Definition is_delayed (l : AssemblyLine) : bool :=
  match mnemonic l with
  | Some m => negb (String.eqb m "") && str_in m MNEMONICS
  | None => false
  end.

(** "Get next 2 instructions" *)
Definition following (rest : list AssemblyLine) : list AssemblyLine :=
  take 2 (List.filter has_mnemonic rest).

(** [line.operands[0]] *)
Definition first_operand (l : AssemblyLine) : result string :=
  match operands l with
  | None => Raise TypeError
  | Some [] => Raise IndexError
  | Some (op :: _) => Ok op
  end.

(** [l.operands and l.operands[0] == dst] *)
Definition writes (dst : string) (l : AssemblyLine) : bool :=
  match operands l with Some (op :: _) => String.eqb op dst | _ => false end.

Definition nop_lines (nops : nat) : list out_line :=
  [Str (pad +:+ "# FIXME: Inserting " +:+ pretty nops
        +:+ " NOPs to prevent VeeR from cancelling a delayed write #" +:+ newline)]
  ++ replicate nops (Str nop_str)
  ++ [Str (pad +:+ "# end of nop insertion #" +:+ newline)].

(** [for j, l in enumerate(following)] *)
Fixpoint insert_nops (dst : string) (ls : list AssemblyLine) (j : nat) : list out_line :=
  match ls with
  | [] => []
  | l :: ls => if writes dst l then nop_lines (max_nops - j) else insert_nops dst ls (S j)
  end.

(** The loop over the lines; the lines that follow line [i] are the rest of the list. *)
Fixpoint fixup (lines : list AssemblyLine) : result (list out_line) :=
  match lines with
  | [] => Ok []
  | line :: rest =>
      let! nops :=
        if is_delayed line then
          let! dst := first_operand line in Ok (insert_nops dst (following rest) 0)
        else Ok [] in
      let! out := fixup rest in
      Ok (Line line :: nops ++ out)
  end.

(** [main], from the lines of the input file to the text of the output file. *)
Definition main (inp : list string) : result string :=
  let! out := fixup (map mkAssemblyLine inp) in
  Ok (String.concat "" (map out_str out)).

(** ** Facts *)

(** The input lines of an output, and its instructions. *)
Definition input_lines (out : list out_line) : list AssemblyLine :=
  flat_map (fun o => match o with Line l => [l] | Str _ => [] end) out.

Definition is_instruction (o : out_line) : bool :=
  match o with Line l => has_mnemonic l | Str s => String.eqb s nop_str end.

Definition instructions (out : list out_line) : nat := length (List.filter is_instruction out).

Definition parsed (l : AssemblyLine) : Prop :=
  mnemonic l <> None -> exists op ops, operands l = Some (op :: ops).

Lemma split_char_cons c s : split_char c s <> [].
Proof.
  induction s as [|a s IH]; simpl; [done|]. destruct (Ascii.eqb a c); [done|].
  by destruct (split_char c s).
Qed.

Lemma mkAssemblyLine_parsed t : parsed (mkAssemblyLine t).
Proof.
  unfold parsed, mkAssemblyLine. destruct (RE_INSTR_match _) as [[m ops]|]; [|done].
  assert (exists op ops', map strip (split_char ","%char ops) = op :: ops') as (op & ops' & E).
  { pose proof (split_char_cons ","%char ops). destruct (split_char _ ops); [done|]. by eexists _, _. }
  rewrite E. intros H. destruct m as [|[[] [] [] [] [] [] [] []] m]; try done; by exists op, ops'.
Qed.

Lemma instructions_app a b : instructions (a ++ b) = (instructions a + instructions b)%nat.
Proof. unfold instructions. by rewrite List.filter_app, length_app. Qed.

Lemma input_lines_app a b : input_lines (a ++ b) = input_lines a ++ input_lines b.
Proof. apply flat_map_app. Qed.

Lemma instructions_nops n : (n <= instructions (nop_lines n))%nat.
Proof.
  unfold nop_lines. rewrite !instructions_app.
  assert (instructions (replicate n (Str nop_str)) = n) as ->; [|lia].
  unfold instructions. induction n as [|n IH]; [done|].
  cbn [replicate List.filter is_instruction]. rewrite String.eqb_refl. cbn [length]. by rewrite IH.
Qed.

Lemma input_lines_nops n : input_lines (nop_lines n) = [].
Proof.
  unfold nop_lines. rewrite !input_lines_app. cbn.
  assert (input_lines (replicate n (Str nop_str)) = []) as ->; [|done].
  by induction n.
Qed.

Lemma input_lines_insert dst ls j : input_lines (insert_nops dst ls j) = [].
Proof.
  revert j. induction ls as [|l ls IH]; intros j; simpl; [done|].
  destruct (writes dst l); [apply input_lines_nops|apply IH].
Qed.

(** If the instruction at position [k] writes [dst], enough NOPs are inserted. *)
Lemma insert_nops_count dst ls j k l :
  ls !! k = Some l -> writes dst l = true ->
  (max_nops - (j + k) <= instructions (insert_nops dst ls j))%nat.
Proof.
  revert j k. induction ls as [|l' ls IH]; intros j k Hk Hw; [done|]. cbn [insert_nops].
  destruct (writes dst l') eqn:E.
  - etrans; [|apply instructions_nops]. lia.
  - destruct k as [|k]; [injection Hk as ->; congruence|].
    specialize (IH (S j) k Hk Hw). lia.
Qed.

(** No NOP is inserted when none of the instructions writes [dst]. *)
Lemma insert_nops_none dst ls j :
  Forall (fun l => writes dst l = false) ls -> insert_nops dst ls j = [].
Proof. intros H. revert j. induction H as [|l ls Hl _ IH]; intros j; simpl; [done|]. by rewrite Hl. Qed.

Lemma first_operand_parsed l : parsed l -> has_mnemonic l = true ->
  exists dst, first_operand l = Ok dst /\ writes dst l = true.
Proof.
  intros Hp Hm. destruct Hp as (op & ops & E).
  { unfold has_mnemonic in Hm. by destruct (mnemonic l). }
  exists op. unfold first_operand, writes. by rewrite E, String.eqb_refl.
Qed.

Lemma is_delayed_mnemonic l : is_delayed l = true -> has_mnemonic l = true.
Proof. unfold is_delayed, has_mnemonic. by destruct (mnemonic l). Qed.

Lemma fixup_cons l rest out :
  parsed l -> fixup rest = Ok out ->
  exists ns, fixup (l :: rest) = Ok (Line l :: ns ++ out) /\ input_lines ns = [] /\
    (is_delayed l = true -> forall dst k l', first_operand l = Ok dst ->
       following rest !! k = Some l' -> writes dst l' = true ->
       (max_nops - k <= instructions ns)%nat) /\
    (is_delayed l = true -> forall dst, first_operand l = Ok dst ->
       Forall (fun l' => writes dst l' = false) (following rest) -> ns = []) /\
    (is_delayed l = false -> ns = []).
Proof.
  intros Hl Hr. cbn [fixup]. rewrite Hr. destruct (is_delayed l) eqn:Hd.
  - destruct (first_operand_parsed l Hl (is_delayed_mnemonic l Hd)) as (dst & Hdst & _).
    rewrite Hdst. cbn [rbind]. eexists. split; [done|]. split; [apply input_lines_insert|].
    split; [|split; [|done]].
    + intros _ dst' k l' [= <-]. apply (insert_nops_count _ _ 0).
    + intros _ dst' [= <-]. apply insert_nops_none.
  - exists []. by split_and!.
Qed.

(** The output for a suffix of the lines is a suffix of the output. *)
Lemma fixup_app pre rest :
  Forall parsed pre -> forall out, fixup rest = Ok out ->
  exists out', fixup (pre ++ rest) = Ok (out' ++ out) /\ input_lines out' = pre /\
    (instructions (Line <$> pre) <= instructions out')%nat /\
    (Forall (fun l => is_delayed l = false) pre -> out' = Line <$> pre).
Proof.
  intros Hp out Hr. induction Hp as [|l pre Hl _ IH]; [by exists []|].
  destruct IH as (out' & Ho & Hi & Hc & Hd). cbn [app].
  destruct (fixup_cons l _ _ Hl Ho) as (ns & -> & Hns & _ & _ & Hn).
  exists (Line l :: ns ++ out'). split_and!.
  - cbn [app]. by rewrite <- app_assoc.
  - cbn [input_lines flat_map app]. fold (input_lines (ns ++ out')).
    by rewrite input_lines_app, Hns, Hi.
  - rewrite fmap_cons. change (Line l :: ?x) with ([Line l] ++ x).
    rewrite !instructions_app. lia.
  - intros H. inversion_clear H. rewrite Hn, fmap_cons by done. cbn [app]. f_equal. by apply Hd.
Qed.

Lemma instructions_lines ls :
  instructions (Line <$> ls) = length (List.filter has_mnemonic ls).
Proof.
  unfold instructions. induction ls as [|x ls IH]; [done|]. rewrite fmap_cons.
  cbn [List.filter is_instruction]. destruct (has_mnemonic x); cbn [length]; by rewrite IH.
Qed.

(** With two instructions in between, only these are looked at. *)
Lemma following_within mid rest :
  (2 <= instructions (Line <$> mid))%nat ->
  following (mid ++ rest) = take 2 (List.filter has_mnemonic mid).
Proof.
  rewrite instructions_lines. intros H. unfold following. rewrite List.filter_app.
  by rewrite take_app_le.
Qed.

Lemma following_at mid l post :
  has_mnemonic l = true -> (instructions (Line <$> mid) <= 1)%nat ->
  following (mid ++ l :: post) !! instructions (Line <$> mid) = Some l.
Proof.
  intros Hl Hm. unfold following. rewrite instructions_lines in Hm |- *.
  rewrite lookup_take_lt, List.filter_app by lia.
  cbn [List.filter]. rewrite Hl. by rewrite lookup_app_r, Nat.sub_diag by lia.
Qed.

Lemma Forall_parsed ts : Forall parsed (map mkAssemblyLine ts).
Proof. apply Forall_map, Forall_forall. intros t _. apply mkAssemblyLine_parsed. Qed.

(** ** Properties *)

(** C14: for every file with a delayed write and a later instruction with the
    same first operand, the script returns and keeps all lines in order.  When
    at most one other instruction stands between the two it puts at least ten
    instructions between them.  It looks no further than the next two
    instructions: when neither of these writes the register, and no other
    delayed write stands in between, nothing is inserted, however close the two
    are. *)
Theorem code_fixup_separates (pre mid post : list string) (t1 t2 dst : string) :
  is_delayed (mkAssemblyLine t1) = true ->
  has_mnemonic (mkAssemblyLine t2) = true ->
  first_operand (mkAssemblyLine t1) = Ok dst ->
  first_operand (mkAssemblyLine t2) = Ok dst ->
  let between := map mkAssemblyLine mid in
  exists o1 o2 o3,
    fixup (map mkAssemblyLine (pre ++ t1 :: mid ++ t2 :: post))
      = Ok (o1 ++ Line (mkAssemblyLine t1) :: o2 ++ Line (mkAssemblyLine t2) :: o3) /\
    input_lines o1 = map mkAssemblyLine pre /\
    input_lines o2 = between /\
    input_lines o3 = map mkAssemblyLine post /\
    ((instructions (Line <$> between) <= 1)%nat -> (10 <= instructions o2)%nat) /\
    ((2 <= instructions (Line <$> between))%nat ->
     Forall (fun l => writes dst l = false) (take 2 (List.filter has_mnemonic between)) ->
     Forall (fun l => is_delayed l = false) between ->
     o2 = Line <$> between).
Proof.
  intros Hd Hm Ho1 Ho2 between. rewrite map_app. cbn [map]. rewrite map_app. cbn [map].
  pose proof (mkAssemblyLine_parsed t1) as P1. pose proof (mkAssemblyLine_parsed t2) as P2.
  set (l1 := mkAssemblyLine t1) in *. set (l2 := mkAssemblyLine t2) in *.
  destruct (fixup_app _ [] (Forall_parsed post) [] eq_refl) as (out3 & E3 & I3 & _).
  rewrite !app_nil_r in E3.
  destruct (fixup_cons l2 _ _ P2 E3) as (n2 & E2 & N2 & _).
  destruct (fixup_app _ _ (Forall_parsed mid) _ E2) as (om & Em & Im & Cm & Dm).
  destruct (fixup_cons l1 _ _ P1 Em) as (n1 & E1 & N1 & C1 & D1 & _).
  destruct (fixup_app _ _ (Forall_parsed pre) _ E1) as (o1 & E0 & I0 & _).
  exists o1, (n1 ++ om), (n2 ++ out3). rewrite E0, <- app_assoc. split_and!.
  - done.
  - done.
  - by rewrite input_lines_app, N1, Im.
  - by rewrite input_lines_app, N2, I3.
  - intros Hmid. destruct (first_operand_parsed l2 P2 Hm) as (dst' & Hdst & Hw).
    assert (dst' = dst) as -> by congruence.
    specialize (C1 Hd dst _ l2 Ho1 (following_at _ l2 _ Hm Hmid) Hw).
    rewrite instructions_app. unfold max_nops in C1. fold between in Cm, C1. lia.
  - intros H2 Hw Hnd. rewrite (D1 Hd dst Ho1), Dm by (done || by rewrite following_within). done.
Qed.

Lemma code_fixup_separates_witness :
  (exists o1 o2 o3,
    fixup (map mkAssemblyLine (["main:"] ++ "  lw   a0, 0(sp)  # load" :: ["  addi a1, a2, 1"] ++ "l1: mv a0, a1" :: ["  ret"]))
      = Ok (o1 ++ Line (mkAssemblyLine "  lw   a0, 0(sp)  # load") :: o2 ++ Line (mkAssemblyLine "l1: mv a0, a1") :: o3) /\
    (10 <= instructions o2)%nat) /\
  (let mid := ["  nop a1"; "  nop a2"] in
   exists o1 o2 o3,
    fixup (map mkAssemblyLine ([] ++ "  lw a0, 0(sp)" :: mid ++ "  mv a0, a1" :: []))
      = Ok (o1 ++ Line (mkAssemblyLine "  lw a0, 0(sp)") :: o2 ++ Line (mkAssemblyLine "  mv a0, a1") :: o3) /\
    instructions o2 = 2%nat).
Proof.
  split.
  - destruct (code_fixup_separates ["main:"] ["  addi a1, a2, 1"] ["  ret"] "  lw   a0, 0(sp)  # load"
      "l1: mv a0, a1" "a0" eq_refl eq_refl eq_refl eq_refl) as (o1 & o2 & o3 & H & _ & _ & _ & Hn & _).
    exists o1, o2, o3. split; [exact H|]. apply Hn. vm_compute. apply le_n.
  - destruct (code_fixup_separates [] ["  nop a1"; "  nop a2"] [] "  lw a0, 0(sp)" "  mv a0, a1" "a0"
      eq_refl eq_refl eq_refl eq_refl) as (o1 & o2 & o3 & H & _ & _ & _ & _ & Hn).
    exists o1, o2, o3. split; [exact H|]. rewrite Hn; [reflexivity|vm_compute; apply le_n|..];
      vm_compute; repeat constructor.
Defined.

(** The label is removed before the comment, so a colon in a comment hides the
    instruction: the delayed write is not seen and no NOP is inserted. *)
Example code_fixup_comment_colon :
  mnemonic (mkAssemblyLine "  lw a0, 0(sp) # note: reload") = None /\
  fixup (map mkAssemblyLine ["  lw a0, 0(sp) # note: reload"; "  mv a0, a1"])
  = Ok [Line (mkAssemblyLine "  lw a0, 0(sp) # note: reload"); Line (mkAssemblyLine "  mv a0, a1")].
Proof. split; reflexivity. Qed.
