(* ===== verification/Bin2Hex.v ===== *)
(** * Binary to $readmemh text: sw/bin2hex.py of Honours-Project-Packet-Buffering

    [bin_to_hex] from the bytes of the input file to the lines of the output
    file.  [readmemh] is the specification: what Verilog's [$readmemh] loads
    from such a file.  ToolFiles.v has the program with its files. *)

From S2P Require Import Prelude Utils.
From stdpp Require Import base list strings.
From Stdlib Require Import Ascii ZArith Lia.

#[local] Open Scope string_scope.
#[local] Open Scope list_scope.
#[local] Open Scope Z_scope.

(** One hexadecimal digit of ["%X"]. *)
Definition hex_digit (d : Z) : ascii :=
  if d <? 10 then ascii_of_nat (48 + Z.to_nat d) else ascii_of_nat (55 + Z.to_nat d).

(** The digits of [w], at least [n] of them. *)
Fixpoint hex_digits (n : nat) (w : Z) (acc : string) : string :=
  match n with
  | O => acc
  | S n => hex_digits n (w / 16) (String (hex_digit (w mod 16)) acc)
  end.

(** ["%08X" % w], for [0 <= w]. *)
Definition format_08X (w : Z) : string :=
  hex_digits (Nat.max 8 (Z.to_nat (Z.log2 w / 4 + 1))) w "".

(** "Pad to 4-byte boundary" *)
Definition pad4 (data : list Z) : list Z :=
  let remainder := Nat.modulo (length data) 4 in
  match remainder with
  | O => data
  | _ => data ++ replicate (4 - remainder) 0
  end.

(** [struct.unpack('<' + 'I' * num_words, data)] *)
Fixpoint unpack_words (num_words : nat) (data : list Z) : result (list Z) :=
  match num_words with
  | O => match data with [] => Ok [] | _ => Raise StructError end
  | S n =>
      let! w := struct_unpack 4 (take 4 data) in
      let! ws := unpack_words n (drop 4 data) in
      Ok (w :: ws)
  end.

(** The lines written to the output file, without their newlines. *)
Definition bin_to_hex (data : list Z) : result (list string) :=
  let data := pad4 data in
  let num_words := Nat.div (length data) 4 in
  let! words := unpack_words num_words data in
  Ok ("@00000000" :: map format_08X words).

(** ** Specification: loading the file *)

Definition digit_value (c : ascii) : option Z :=
  let n := Z.of_nat (nat_of_ascii c) in
  if (48 <=? n) && (n <? 58) then Some (n - 48)
  else if (65 <=? n) && (n <? 71) then Some (n - 55)
  else if (97 <=? n) && (n <? 103) then Some (n - 87)
  else None.

Fixpoint hex_value (s : string) (acc : Z) : option Z :=
  match s with
  | EmptyString => Some acc
  | String c s => match digit_value c with Some d => hex_value s (16 * acc + d) | None => None end
  end.

(** Load the lines into a memory of words, from address [addr] on: a line
    ["@hhh"] sets the address, another non-empty line is the word at the address. *)
Fixpoint readmemh (lines : list string) (addr : Z) (mem : Z -> option Z) : option (Z -> option Z) :=
  match lines with
  | [] => Some mem
  | EmptyString :: lines => readmemh lines addr mem
  | String "@"%char s :: lines =>
      match hex_value s 0 with Some a => readmemh lines a mem | None => None end
  | s :: lines =>
      match hex_value s 0 with
      | Some w => readmemh lines (addr + 1) (fun a => if a =? addr then Some w else mem a)
      | None => None
      end
  end.

(** The byte of a binary at [i], zero after its end. *)
Definition byte_of (data : list Z) (i : nat) : Z := nth i data 0.

(** Word [k] of a little-endian memory image. *)
Definition word_of (data : list Z) (k : nat) : Z :=
  le_value (map (fun j => byte_of data (4 * k + j)) (seq 0 4)).

(** ** Facts *)

Lemma digit_value_hex d : 0 <= d < 16 -> digit_value (hex_digit d) = Some d.
Proof.
  intros Hd. assert (Forall (fun d => digit_value (hex_digit d) = Some d) (map Z.of_nat (seq 0 16))) as H
    by (repeat constructor).
  rewrite Forall_forall in H. apply H. apply list_elem_of_In, in_map_iff.
  exists (Z.to_nat d). split; [lia|]. apply in_seq. lia.
Qed.

Lemma hex_value_digits n w acc v :
  0 <= w < 16 ^ Z.of_nat n ->
  hex_value (hex_digits n w acc) v = hex_value acc (v * 16 ^ Z.of_nat n + w).
Proof.
  revert w acc. induction n as [|n IH]; intros w acc Hw; [cbn; f_equal; simpl in Hw; lia|].
  rewrite Nat2Z.inj_succ, Z.pow_succ_r in * by lia. cbn [hex_digits].
  rewrite IH by (split; [apply Z.div_pos; lia|apply Z.div_lt_upper_bound; lia]).
  cbn [hex_value]. rewrite digit_value_hex by (apply Z.mod_pos_bound; lia). f_equal.
  pose proof (Z.div_mod w 16). lia.
Qed.

Lemma hex_digits_cons n w acc : n <> O \/ acc <> "" -> hex_digits n w acc <> "".
Proof.
  revert w acc. induction n as [|n IH]; intros w acc H; cbn [hex_digits]; [by destruct H|].
  apply IH. by right.
Qed.

Lemma hex_value_format w : 0 <= w < 2 ^ 32 -> hex_value (format_08X w) 0 = Some w.
Proof.
  intros Hw. unfold format_08X.
  assert (Z.log2 w < 32).
  { destruct (decide (w = 0)) as [->|]; [done|]. apply Z.log2_lt_pow2; lia. }
  assert (Z.log2 w / 4 < 8) by (apply Z.div_lt_upper_bound; lia).
  rewrite Nat.max_l by lia. rewrite hex_value_digits; [done|]. done.
Qed.

Lemma format_nonempty w : format_08X w <> "".
Proof. apply hex_digits_cons. left. lia. Qed.

Lemma readmemh_word s w lines addr mem :
  hex_value s 0 = Some w -> s <> "" ->
  readmemh (s :: lines) addr mem
  = readmemh lines (addr + 1) (fun a => if a =? addr then Some w else mem a).
Proof.
  intros H Hs. destruct s as [|c s]; [done|].
  cbn [readmemh]. rewrite H. by destruct c as [[] [] [] [] [] [] [] []].
Qed.

Lemma readmemh_words ws : forall addr mem, Forall (fun w => 0 <= w < 2 ^ 32) ws ->
  exists mem', readmemh (map format_08X ws) addr mem = Some mem' /\
    forall a, mem' a = if (addr <=? a) && (a <? addr + Z.of_nat (length ws))
                       then ws !! Z.to_nat (a - addr) else mem a.
Proof.
  induction ws as [|w ws IH]; intros addr mem Hw.
  { exists mem. split; [done|]. intros a. cbn [length]. split_cmp; done. }
  inversion_clear Hw as [|?? H0 H1]. cbn [map].
  rewrite (readmemh_word _ w) by (apply hex_value_format || apply format_nonempty; done).
  destruct (IH (addr + 1) (fun a => if a =? addr then Some w else mem a) H1) as (mem' & -> & Hm).
  exists mem'. split; [done|]. intros a. rewrite Hm. cbn [length].
  destruct (Z.eqb_spec a addr) as [->|Hne].
  - rewrite Z.sub_diag. split_cmp; done.
  - split_cmp; try done. cbn [andb].
    replace (Z.to_nat (a - addr)) with (S (Z.to_nat (a - (addr + 1)))) by lia. done.
Qed.

Lemma byte_of_drop n data i : byte_of (drop n data) i = byte_of data (n + i).
Proof. unfold byte_of. apply nth_skipn. Qed.

Lemma word_of_drop data k : word_of data (S k) = word_of (drop 4 data) k.
Proof.
  unfold word_of. f_equal. apply map_ext. intros j. rewrite byte_of_drop. f_equal. lia.
Qed.

Lemma unpack_words_spec n : forall data, length data = (4 * n)%nat ->
  unpack_words n data = Ok (map (word_of data) (seq 0 n)).
Proof.
  induction n as [|n IH]; intros data Hl; [by destruct data|].
  cbn [unpack_words]. unfold struct_unpack. rewrite length_take, Nat.min_l by lia. cbn [Nat.eqb rbind].
  rewrite IH by (rewrite length_drop; lia). cbn [rbind seq map]. f_equal. f_equal.
  - destruct data as [|b0 [|b1 [|b2 [|b3 data]]]]; try (simpl in Hl; lia). done.
  - rewrite <- seq_shift, map_map. apply map_ext. intros k. symmetry. apply word_of_drop.
Qed.

Lemma byte_of_pad4 data i : byte_of (pad4 data) i = byte_of data i.
Proof.
  unfold pad4, byte_of. destruct (Nat.modulo _ _) as [|m]; [done|].
  destruct (Nat.lt_ge_cases i (length data)) as [H|H]; [by rewrite app_nth1|].
  rewrite app_nth2, (nth_overflow data) by done.
  generalize (i - length data)%nat (4 - S m)%nat. clear.
  intros i n. revert i. induction n as [|n IH]; intros [|i]; cbn; auto.
Qed.

Lemma pad4_length data : length (pad4 data) = (4 * ((length data + 3) / 4))%nat.
Proof.
  unfold pad4. pose proof (Nat.div_mod (length data) 4 ltac:(lia)) as Hd.
  pose proof (Nat.mod_upper_bound (length data) 4 ltac:(lia)) as Hm.
  set (q := Nat.div (length data) 4) in *. set (r := Nat.modulo (length data) 4) in *. clearbody q r.
  destruct r as [|r].
  - rewrite <- (Nat.div_unique (length data + 3) 4 q 3); lia.
  - rewrite length_app, length_replicate.
    rewrite <- (Nat.div_unique (length data + 3) 4 (S q) r); lia.
Qed.

Lemma word_of_bound data k : Forall is_byte data -> 0 <= word_of data k < 2 ^ 32.
Proof.
  intros Hd. unfold word_of.
  apply (le_value_bound (map (fun j => byte_of data (4 * k + j)) (seq 0 4))).
  apply Forall_map, Forall_forall. intros j _. unfold byte_of.
  destruct (nth_in_or_default (4 * k + j) data 0) as [Hin| ->]; [|done].
  rewrite Forall_forall in Hd. apply Hd. by apply list_elem_of_In.
Qed.

(** ** Property *)

(** The script converts every binary, and loading its output with
    [$readmemh] gives the little-endian words of the binary, padded with zero
    bytes to a whole word, at the addresses from 0 on, and changes no other
    word. *)
Theorem bin_to_hex_loads (data : list Z) (addr : Z) (mem : Z -> option Z) :
  Forall is_byte data ->
  exists lines mem', bin_to_hex data = Ok lines /\ readmemh lines addr mem = Some mem' /\
    forall a, mem' a = if (0 <=? a) && (a <? Z.of_nat ((length data + 3) / 4))
                       then Some (word_of data (Z.to_nat a)) else mem a.
Proof.
  intros Hd. unfold bin_to_hex. set (n := ((length data + 3) / 4)%nat).
  rewrite pad4_length. fold n. rewrite Nat.mul_comm, Nat.div_mul by lia.
  rewrite unpack_words_spec by apply pad4_length. cbn [rbind].
  assert (map (word_of (pad4 data)) (seq 0 n) = map (word_of data) (seq 0 n)) as ->.
  { apply map_ext. intros k. unfold word_of. f_equal. apply map_ext. intros j. apply byte_of_pad4. }
  destruct (readmemh_words (map (word_of data) (seq 0 n)) 0 mem) as (mem' & Hr & Hm).
  { apply Forall_map, Forall_forall. intros k _. by apply word_of_bound. }
  eexists _, mem'. split; [done|]. split; [exact Hr|]. intros a. rewrite Hm, length_map, length_seq.
  change (0 + Z.of_nat n) with (Z.of_nat n). rewrite Z.sub_0_r.
  destruct (Z.leb_spec 0 a), (Z.ltb_spec a (Z.of_nat n)); try done. cbn [andb].
  change (map (word_of data) (seq 0 n)) with (word_of data <$> seq 0 n).
  rewrite list_lookup_fmap, lookup_seq_lt by lia. done.
Qed.

Lemma bin_to_hex_loads_witness :
  exists lines mem', bin_to_hex [0x13; 0x05; 0xA0; 0x02; 0xFF] = Ok lines /\
    readmemh lines 7 (fun _ => None) = Some mem' /\
    forall a, mem' a = if (0 <=? a) && (a <? Z.of_nat ((length [0x13; 0x05; 0xA0; 0x02; 0xFF] + 3) / 4))
                       then Some (word_of [0x13; 0x05; 0xA0; 0x02; 0xFF] (Z.to_nat a)) else None.
Proof. apply bin_to_hex_loads. repeat constructor; vm_compute; congruence. Defined.
