(* ===== verification/Regex.v ===== *)
(** * Regular expressions as the tools use them

    The constructs of Python's [re] that occur in the sources, with its greedy
    backtracking: the first way to match, in the order in which the engine tries
    them, decides the groups.  Characters are those of ASCII. *)

From S2P Require Import Prelude PyString.
From stdpp Require Import base list strings.
From Stdlib Require Import Ascii ZArith Lia.

#[local] Open Scope string_scope.
#[local] Open Scope list_scope.
#[local] Open Scope nat_scope.

Inductive re :=
  | Eps
  | Chr (p : ascii -> bool)
  | Seq (r s : re)
  | Alt (r s : re)                (** [r|s] *)
  | Opt (r : re)                  (** [r?] *)
  | Star (r : re)
  | Group (n : nat) (r : re)
  | Bol                          (** [^] *)
  | Eol                          (** [$] *)
  | WordB                        (** [\b] *)
  | NotBehind (s : string).      (** [(?<!s)] *)

Definition Plus (r : re) : re := Seq r (Star r).
Fixpoint Lit (s : string) : re :=
  match s with EmptyString => Eps | String c s => Seq (Chr (Ascii.eqb c)) (Lit s) end.

(** Classes of characters. *)
Definition in_range (lo hi c : ascii) : bool :=
  (N_of_ascii lo <=? N_of_ascii c)%N && (N_of_ascii c <=? N_of_ascii hi)%N.
Definition digit : ascii -> bool := in_range "0" "9".
Definition lower_case : ascii -> bool := in_range "a" "z".
Definition upper_case : ascii -> bool := in_range "A" "Z".
Definition word (c : ascii) : bool := digit c || lower_case c || upper_case c || Ascii.eqb c "_".
Definition any (c : ascii) : bool := negb (Ascii.eqb c "010").
Definition nonspace (c : ascii) : bool := negb (is_space c).

(** ** The engine

    A state is what was read, the last character first, the rest of the text, and
    the groups, the last one set first. *)
Record mstate := MState { seen : string; rest : string; groups : list (nat * string) }.

Fixpoint take_str (n : nat) (s : string) : string :=
  match n, s with
  | S n, String c s => String c (take_str n s)
  | _, _ => EmptyString
  end.

Definition word_at (s : string) : bool := match s with String c _ => word c | EmptyString => false end.

Fixpoint rev_str (s acc : string) : string :=
  match s with EmptyString => acc | String c s => rev_str s (String c acc) end.

(** The text between two states. *)
Definition between (st st' : mstate) : string :=
  take_str (String.length (rest st) - String.length (rest st')) (rest st).

Fixpoint exec (r : re) (st : mstate) (k : mstate -> option mstate) {struct r} : option mstate :=
  match r with
  | Eps => k st
  | Chr p =>
      match rest st with
      | String c s => if p c then k (MState (String c (seen st)) s (groups st)) else None
      | EmptyString => None
      end
  | Seq r s => exec r st (fun st => exec s st k)
  | Alt r s => match exec r st k with Some res => Some res | None => exec s st k end
  | Opt r => match exec r st k with Some res => Some res | None => k st end
  | Star r =>
      (fix loop (fuel : nat) (st : mstate) : option mstate :=
         match fuel with
         | O => k st
         | S fuel =>
             match exec r st (fun st' =>
               if String.length (rest st') <? String.length (rest st) then loop fuel st' else None)
             with
             | Some res => Some res
             | None => k st
             end
         end) (String.length (rest st)) st
  | Group n r => exec r st (fun st' => k (MState (seen st') (rest st') ((n, between st st') :: groups st')))
  | Bol => match seen st with EmptyString => k st | _ => None end
  | Eol => if String.eqb (rest st) EmptyString || String.eqb (rest st) newline then k st else None
  | WordB => if xorb (word_at (seen st)) (word_at (rest st)) then k st else None
  | NotBehind s => if starts_with (rev_str s EmptyString) (seen st) then None else k st
  end.

Definition match_at (r : re) (st : mstate) : option mstate :=
  exec r (MState (seen st) (rest st) []) Some.

(** The text of a group, which may have taken no part in the match. *)
Definition group_opt (n : nat) (st : mstate) : option string :=
  match List.find (fun g => Nat.eqb g.1 n) (groups st) with Some g => Some g.2 | None => None end.

Definition group (n : nat) (st : mstate) : string :=
  match group_opt n st with Some s => s | None => EmptyString end.

(** [r.match(s)]: a match at the start of [s]. *)
Definition re_match (r : re) (s : string) : option mstate := match_at r (MState EmptyString s []).

(** The successive matches: after an empty match the scan moves on by one
    character. *)
Fixpoint scan (fuel : nat) (r : re) (st : mstate) : list mstate :=
  match fuel with
  | O => []
  | S fuel =>
      let next st :=
        match rest st with
        | String c s => scan fuel r (MState (String c (seen st)) s [])
        | EmptyString => []
        end in
      match match_at r st with
      | Some st' =>
          st' :: (if Nat.eqb (String.length (rest st')) (String.length (rest st)) then next st'
                  else scan fuel r st')
      | None => next st
      end
  end.

Definition matches (r : re) (s : string) : list mstate :=
  scan (S (String.length s)) r (MState EmptyString s []).

(** [re.findall], for an expression with one group and with two. *)
Definition findall1 (r : re) (s : string) : list string := group 1 <$> matches r s.
Definition findall2 (r : re) (s : string) : list (string * string) :=
  (fun st => (group 1 st, group 2 st)) <$> matches r s.

(** [re.sub] with a literal replacement. *)
Fixpoint sub_scan (fuel : nat) (r : re) (repl : string) (st : mstate) : string :=
  match fuel with
  | O => rest st
  | S fuel =>
      let copy st :=
        match rest st with
        | String c s => String c (sub_scan fuel r repl (MState (String c (seen st)) s []))
        | EmptyString => EmptyString
        end in
      match match_at r st with
      | Some st' =>
          repl +:+ (if Nat.eqb (String.length (rest st')) (String.length (rest st)) then copy st'
                    else sub_scan fuel r repl st')
      | None => copy st
      end
  end.

Definition re_replace (r : re) (repl s : string) : string :=
  sub_scan (S (String.length s)) r repl (MState EmptyString s []).

(** ** Facts *)

Fixpoint all_in (p : ascii -> bool) (s : string) : bool :=
  match s with EmptyString => true | String c s => p c && all_in p s end.

(** The next character is not in the class. *)
Definition stops (p : ascii -> bool) (s : string) : bool :=
  match s with EmptyString => true | String c _ => negb (p c) end.

(** The state after [w] was read. *)
Definition read (w : string) (st : mstate) (s : string) : mstate :=
  MState (rev_str w (seen st)) s (groups st).

Lemma exec_seq r s st k : exec (Seq r s) st k = exec r st (fun st => exec s st k).
Proof. reflexivity. Qed.

Lemma exec_chr p k st c s :
  rest st = String c s -> p c = true ->
  exec (Chr p) st k = k (MState (String c (seen st)) s (groups st)).
Proof. intros E H. cbn [exec]. by rewrite E, H. Qed.

Lemma exec_chr_no p k st : stops p (rest st) = true -> exec (Chr p) st k = None.
Proof. cbn [exec]. destruct (rest st) as [|c s]; [done|]. cbn [stops]. by destruct (p c). Qed.

(** A run of a class: one more character if the rest of the expression then
    matches, and else none. *)
Lemma exec_star_step p st k :
  exec (Star (Chr p)) st k =
  match rest st with
  | String c s =>
      if p c then
        match exec (Star (Chr p)) (MState (String c (seen st)) s (groups st)) k with
        | Some res => Some res
        | None => k st
        end
      else k st
  | EmptyString => k st
  end.
Proof.
  cbn [exec]. destruct (rest st) as [|c s] eqn:E; [done|]. cbn [String.length rest].
  rewrite E. destruct (p c); [|done]. cbn [rest String.length].
  assert ((String.length s <? S (String.length s)) = true) as -> by (apply Nat.ltb_lt; lia). done.
Qed.

(** A greedy run of a class reads all of it when the rest of the expression then
    matches; otherwise it gives back characters from the end. *)
Lemma exec_star_back p k v s res : stops p s = true -> all_in p v = true ->
  forall w st,
  rest st = w +:+ v +:+ s -> all_in p w = true ->
  (forall v1 c v2, v = v1 +:+ String c v2 -> k (read (w +:+ v1 +:+ String c EmptyString) st (v2 +:+ s)) = None) ->
  k (read w st (v +:+ s)) = Some res ->
  exec (Star (Chr p)) st k = Some res.
Proof.
  intros Hs Hv. induction w as [|c w IH]; intros [sn rs gs] E Hw Hno Hk; cbn [rest] in E; subst rs.
  - assert (forall v sn, all_in p v = true ->
      (forall v1 c v2, v = v1 +:+ String c v2 ->
         k (read (v1 +:+ String c EmptyString) (MState sn (v +:+ s) gs) (v2 +:+ s)) = None) ->
      exec (Star (Chr p)) (MState sn (v +:+ s) gs) k = k (MState sn (v +:+ s) gs)) as Hnone.
    { clear -Hs. induction v as [|c v IH]; intros sn Hv Hno.
      - rewrite exec_star_step. cbn [rest]. rewrite append_nil_l. destruct s as [|a s]; [done|].
        cbn in Hs. apply negb_true_iff in Hs. by rewrite Hs.
      - cbn in Hv. apply andb_true_iff in Hv as [Hc Hv].
        rewrite exec_star_step. cbn [rest]. rewrite append_cons, Hc. cbn [seen groups].
        rewrite IH; [|done|].
        + assert (k (MState (String c sn) (v +:+ s) gs) = None) as -> by exact (Hno EmptyString c v eq_refl). done.
        + intros v1 d v2 ->. pose proof (Hno (String c v1) d v2 eq_refl) as H. exact H. }
    rewrite append_nil_l. rewrite Hnone; [exact Hk|done|]. intros v1 c v2 Hv12. by apply Hno.
  - cbn in Hw. apply andb_true_iff in Hw as [Hc Hw]. rewrite exec_star_step. cbn [rest]. rewrite append_cons, Hc.
    rewrite IH; [done|done|done|exact Hno|exact Hk].
Qed.

Lemma exec_star p k w st s res :
  rest st = w +:+ s -> all_in p w = true -> stops p s = true ->
  k (read w st s) = Some res ->
  exec (Star (Chr p)) st k = Some res.
Proof.
  intros E Hw Hs Hk. apply (exec_star_back p k EmptyString s res Hs eq_refl w); [done..| |done].
  by intros [|? ?].
Qed.

(** The run has at least one character. *)
Lemma exec_plus p k c w st s res :
  rest st = (String c w) +:+ s -> all_in p (String c w) = true -> stops p s = true ->
  k (read (String c w) st s) = Some res ->
  exec (Plus (Chr p)) st k = Some res.
Proof.
  intros E Hw Hs Hk. cbn [all_in] in Hw. apply andb_true_iff in Hw as [Hc Hw].
  unfold Plus. cbn [exec]. rewrite append_cons in E. rewrite E, Hc.
  by apply (exec_star p k w _ s).
Qed.

Lemma exec_lit k w : forall st s res,
  rest st = w +:+ s -> k (read w st s) = Some res -> exec (Lit w) st k = Some res.
Proof.
  induction w as [|c w IH]; intros st s res E Hk.
  - rewrite append_nil_l in E. unfold read in Hk. cbn in Hk. rewrite <- E in Hk. by destruct st.
  - rewrite append_cons in E. cbn [Lit exec]. rewrite E, Ascii.eqb_refl.
    by apply (IH _ s).
Qed.

Lemma take_str_app w s : take_str (String.length w) (w +:+ s) = w.
Proof. induction w as [|c w IH]; [by destruct s|]. rewrite append_cons. cbn. by rewrite IH. Qed.

Lemma length_append w s : String.length (w +:+ s) = String.length w + String.length s.
Proof. induction w as [|c w IH]; [done|]. rewrite append_cons. cbn. by rewrite IH. Qed.

Lemma between_read w st s : rest st = w +:+ s -> between st (read w st s) = w.
Proof.
  intros E. unfold between. cbn [rest read]. rewrite E, length_append, Nat.add_sub. apply take_str_app.
Qed.

(** A group of a greedy run of a class. *)
Lemma exec_group_plus n p k c w st s res :
  rest st = (String c w) +:+ s -> all_in p (String c w) = true -> stops p s = true ->
  k (MState (rev_str (String c w) (seen st)) s ((n, String c w) :: groups st)) = Some res ->
  exec (Group n (Plus (Chr p))) st k = Some res.
Proof.
  intros E Hw Hs Hk. cbn [exec].
  apply (exec_plus p _ c w st s); [done..|]. cbv beta. rewrite (between_read _ _ _ E). exact Hk.
Qed.

Lemma stops_app p w s :
  all_in (fun c => negb (p c)) w = true -> stops p s = true -> stops p (w +:+ s) = true.
Proof. destruct w as [|c w]; [by rewrite append_nil_l|]. rewrite append_cons. cbn. by intros [? _]%andb_true_iff. Qed.

Lemma all_in_impl (p q : ascii -> bool) w :
  (forall c, p c = true -> q c = true) -> all_in p w = true -> all_in q w = true.
Proof.
  intros H. induction w as [|c w IH]; [done|]. cbn. intros [Hc Hw]%andb_true_iff.
  by rewrite (H c Hc), IH.
Qed.

(** A text that starts with a match, after which no match begins. *)
Lemma matches_first r s st' :
  match_at r (MState EmptyString s []) = Some st' ->
  String.length (rest st') < String.length s ->
  (forall fuel, scan fuel r st' = []) ->
  matches r s = [st'].
Proof.
  intros Hm Hl Hs. unfold matches. cbn [scan]. rewrite Hm.
  replace (String.length (rest st') =? _)%nat with false by (symmetry; apply Nat.eqb_neq; cbn; lia).
  by rewrite Hs.
Qed.

(** A match goes on after a part of the text. *)
Lemma exec_sound r : forall st k res, exec r st k = Some res ->
  exists w st', rest st = w +:+ rest st' /\ k st' = Some res.
Proof.
  induction r as [|p|r IHr s IHs|r IHr s IHs|r IH|r IH|n r IH| | | |b]; intros st k res H.
  - by exists EmptyString, st.
  - cbn in H. destruct (rest st) as [|c t] eqn:E; [done|]. destruct (p c); [|done].
    by exists (String c EmptyString), (MState (String c (seen st)) t (groups st)).
  - apply IHr in H as (w & st' & E & H). apply IHs in H as (w' & st'' & E' & H).
    exists (w +:+ w'), st''. by rewrite E, E', append_assoc.
  - cbn [exec] in H. destruct (exec r st k) eqn:E; [injection H as ->; by apply IHr|by apply IHs].
  - cbn [exec] in H. destruct (exec r st k) eqn:E; [injection H as ->; by apply IH|by exists EmptyString, st].
  - cbn [exec] in H. set (loop := fix loop (fuel : nat) (st : mstate) : option mstate := _) in H.
    assert (forall fuel st, loop fuel st = Some res ->
              exists w st', rest st = w +:+ rest st' /\ k st' = Some res) as Hl; [|exact (Hl _ _ H)]. clear st H.
    induction fuel as [|fuel IHf]; intros st H; [by exists EmptyString, st|].
    cbn in H. destruct (exec r st _) as [x|] eqn:E; [|by exists EmptyString, st].
    injection H as ->. apply IH in E as (w & st' & E & H).
    cbv beta in H. case_match; [|done]. apply IHf in H as (w' & st'' & E' & H).
    exists (w +:+ w'), st''. by rewrite E, E', append_assoc.
  - cbn [exec] in H. apply IH in H as (w & st' & E & H). by exists w, (MState (seen st') (rest st') ((n, between st st') :: groups st')).
  - cbn in H. destruct (seen st); [by exists EmptyString, st|done].
  - cbn in H. destruct (_ || _); [by exists EmptyString, st|done].
  - cbn in H. destruct (xorb _ _); [by exists EmptyString, st|done].
  - cbn in H. destruct (starts_with _ _); [done|by exists EmptyString, st].
Qed.

Lemma all_in_app p w s : all_in p (w +:+ s) = all_in p w && all_in p s.
Proof. induction w as [|c w IH]; [done|]. rewrite append_cons. cbn. by rewrite IH, andb_assoc. Qed.

(** No match where every match needs a character that the text lacks. *)
Lemma scan_none r p :
  (forall st, all_in p (rest st) = true -> match_at r st = None) ->
  forall fuel st, all_in p (rest st) = true -> scan fuel r st = [].
Proof.
  intros H. induction fuel as [|fuel IH]; intros st Hp; [done|]. cbn [scan]. rewrite (H st Hp).
  destruct (rest st) as [|c s] eqn:E; [done|]. apply IH. by apply andb_true_iff in Hp as [_ Hp].
Qed.

(** ** Backtracking

    What a part of an expression has read when the whole matches. *)
Lemma exec_lit_inv k w : forall st res, exec (Lit w) st k = Some res ->
  exists s, rest st = w +:+ s /\ k (read w st s) = Some res.
Proof.
  induction w as [|c w IH]; intros st res H.
  - exists (rest st). split; [done|]. by destruct st.
  - cbn [Lit exec] in H. destruct (rest st) as [|a t] eqn:E; [done|].
    destruct (Ascii.eqb_spec c a) as [<-|]; [|done].
    apply IH in H as (s & Hs & H). exists s. cbn in Hs. by rewrite append_cons, Hs.
Qed.

Lemma exec_star_inv p k res : forall t sn gs, exec (Star (Chr p)) (MState sn t gs) k = Some res ->
  exists w s, t = w +:+ s /\ all_in p w = true /\ k (read w (MState sn t gs) s) = Some res.
Proof.
  induction t as [|c t IH]; intros sn gs H; rewrite exec_star_step in H; cbn [rest seen groups] in H.
  - by exists EmptyString, EmptyString.
  - destruct (p c) eqn:Hc; [|by exists EmptyString, (String c t)].
    destruct (exec _ _ k) eqn:E; [|by exists EmptyString, (String c t)]. injection H as ->.
    apply IH in E as (w & s & -> & Hw & Hk). exists (String c w), s. cbn. by rewrite Hc.
Qed.

Lemma exec_plus_inv p k st res : exec (Plus (Chr p)) st k = Some res ->
  exists c w s, rest st = String c w +:+ s /\ all_in p (String c w) = true /\ k (read (String c w) st s) = Some res.
Proof.
  unfold Plus. rewrite exec_seq. intros H. cbn [exec] in H. destruct (rest st) as [|c t] eqn:E; [done|].
  destruct (p c) eqn:Hc; [|done]. apply exec_star_inv in H as (w & s & Hs & Hw & Hk).
  subst t. exists c, w, s. cbn [all_in]. by rewrite Hc.
Qed.


Lemma exec_plus_back p k v s res c w st :
  stops p s = true -> all_in p v = true -> rest st = String c w +:+ v +:+ s -> all_in p (String c w) = true ->
  (forall v1 d v2, v = v1 +:+ String d v2 ->
     k (read (String c w +:+ v1 +:+ String d EmptyString) st (v2 +:+ s)) = None) ->
  k (read (String c w) st (v +:+ s)) = Some res ->
  exec (Plus (Chr p)) st k = Some res.
Proof.
  intros Hs Hv E Hw Hno Hk. cbn [all_in] in Hw. apply andb_true_iff in Hw as [Hc Hw].
  unfold Plus. rewrite exec_seq. cbn [exec]. rewrite E, append_cons, Hc.
  apply (exec_star_back p k v s res Hs Hv w); [done|done|exact Hno|exact Hk].
Qed.

Lemma exec_plus_no p k st : stops p (rest st) = true -> exec (Plus (Chr p)) st k = None.
Proof. intros H. unfold Plus. rewrite exec_seq. by apply exec_chr_no. Qed.

Lemma exec_group_star n p k w st s res :
  rest st = w +:+ s -> all_in p w = true -> stops p s = true ->
  k (MState (rev_str w (seen st)) s ((n, w) :: groups st)) = Some res ->
  exec (Group n (Star (Chr p))) st k = Some res.
Proof.
  intros E Hw Hs Hk. cbn [exec]. fold (exec (Star (Chr p))).
  apply (exec_star p _ w st s); [done..|]. cbv beta. rewrite (between_read _ _ _ E). exact Hk.
Qed.

Lemma exec_eps st k : exec Eps st k = k st.
Proof. reflexivity. Qed.

Lemma exec_bol s gs k : exec Bol (MState EmptyString s gs) k = k (MState EmptyString s gs).
Proof. reflexivity. Qed.

Lemma exec_opt_some r st k res : exec r st k = Some res -> exec (Opt r) st k = Some res.
Proof. intros H. cbn [exec]. by rewrite H. Qed.

Lemma exec_opt_none r st k : exec r st k = None -> exec (Opt r) st k = k st.
Proof. intros H. cbn [exec]. by rewrite H. Qed.

Lemma exec_group n r st k :
  exec (Group n r) st k = exec r st (fun st' => k (MState (seen st') (rest st') ((n, between st st') :: groups st'))).
Proof. reflexivity. Qed.

(** The runs of a class that end at a character outside it. *)
Lemma split_unique p w : forall w' a s b s',
  all_in p w = true -> all_in p w' = true -> p a = false -> p b = false ->
  w +:+ String a s = w' +:+ String b s' -> w = w' /\ String a s = String b s'.
Proof.
  induction w as [|c w IH]; intros [|c' w'] a s b s' Hw Hw' Ha Hb E;
    rewrite ?append_nil_l, ?append_cons in E; cbn [all_in] in *.
  - done.
  - injection E as -> _. by rewrite Ha in Hw'.
  - injection E as -> _. by rewrite Hb in Hw.
  - injection E as -> E. apply andb_true_iff in Hw as [_ Hw], Hw' as [_ Hw'].
    by destruct (IH _ _ _ _ _ Hw Hw' Ha Hb E) as [-> ->].
Qed.

(** What a run of a class cannot reach. *)
Lemma stops_split p w w' s a s' :
  all_in p w = true -> all_in p w' = true -> p a = false ->
  w +:+ s = w' +:+ String a s' -> exists v, w' = w +:+ v /\ s = v +:+ String a s'.
Proof.
  intros Hw. revert w'. induction w as [|c w IH]; intros [|c' w'] Hw' Ha E;
    rewrite ?append_nil_l, ?append_cons in E; cbn [all_in] in *.
  - by exists EmptyString.
  - subst s. by exists (String c' w').
  - injection E as -> _. by rewrite Ha in Hw.
  - injection E as -> E. apply andb_true_iff in Hw as [_ Hw], Hw' as [_ Hw'].
    destruct (IH Hw _ Hw' Ha E) as (v & -> & ->). by exists v.
Qed.

Lemma run_split p v : forall w u s,
  all_in p v = true -> all_in p w = true -> stops p u = true -> v +:+ u = w +:+ s ->
  exists x, all_in p x = true /\ s = x +:+ u.
Proof.
  induction v as [|c v IH]; intros w u s Hv Hw Hu E.
  - destruct w as [|d w]; rewrite append_nil_l in E; [by exists EmptyString|]. subst u.
    rewrite append_cons in Hu. cbn in Hu, Hw. by destruct (p d).
  - destruct w as [|d w]; [exists (String c v); by rewrite append_nil_l in E|].
    rewrite !append_cons in E. injection E as <- E. cbn in Hv, Hw.
    apply andb_true_iff in Hv as [_ Hv], Hw as [_ Hw]. by apply (IH w).
Qed.
