(* ===== verification/CoreSetting.v ===== *)
(** * Settings of the instruction generator: tools/riscv-dv/riscv_core_setting.py

    The parsers of the decode tables of the core and of riscv-dv's package, the
    comparison of the two, and the settings file that is printed.  Files are the
    lists of their lines; the comparison of their checksums only warns and is left
    out.  A dictionary is the list of its items in insertion order; a set is a
    list of its elements in some order, as Python may iterate it in any order. *)

From S2P Require Import Prelude PyString Bin2Hex Regex PyDict.
From stdpp Require Import base list strings.
From Stdlib Require Import Ascii ZArith Lia.

#[local] Open Scope string_scope.
#[local] Open Scope list_scope.
#[local] Open Scope nat_scope.

(** [content[lower:upper]] *)
Definition slice {A} (l : list A) (lower upper : nat) : list A := take (upper - lower) (drop lower l).

(** ** The parsers *)

Definition sp : re := Star (Chr is_space).

(** [(\S+)\s*=\s*'h([0-9a-zA-Z]+)], and the same with [4'h]. *)
Definition alnum (c : ascii) : bool := digit c || lower_case c || upper_case c.
Definition hex_re (base : string) : re :=
  Seq (Group 1 (Plus (Chr nonspace))) (Seq sp (Seq (Lit "=") (Seq sp
    (Seq (Lit base) (Group 2 (Plus (Chr alnum))))))).

(** The value of a digit of [int(s, 16)]. *)
Definition hex_digit_value (c : ascii) : option Z :=
  let n := Z.of_N (N_of_ascii c) in
  if digit c then Some (n - 48)%Z
  else if in_range "a" "f" c then Some (n - 87)%Z
  else if in_range "A" "F" c then Some (n - 55)%Z else None.

Fixpoint hex_acc (s : string) (acc : Z) : result Z :=
  match s with
  | EmptyString => Ok acc
  | String c s =>
      match hex_digit_value c with
      | Some d => hex_acc s (16 * acc + d)%Z
      | None => Raise ValueError
      end
  end.

(** [int(s, 16)] of letters and digits; the prefix [0x] is allowed. *)
Definition int16 (s : string) : result Z :=
  match s with
  | String z (String x (String _ _ as s')) =>
      if Ascii.eqb z "0" && (Ascii.eqb x "x" || Ascii.eqb x "X") then hex_acc s' 0 else hex_acc s 0
  | EmptyString => Raise ValueError
  | _ => hex_acc s 0
  end.

Fixpoint parse_enum (r : re) (lines : list string) (res : list (Z * string))
  : result (list (Z * string)) :=
  match lines with
  | [] => Ok res
  | line :: lines =>
      match findall2 r line with
      | [] => parse_enum r lines res
      | [(name, str_val)] =>
          let! val := int16 str_val in parse_enum r lines (dict_set val name res)
      | _ => Raise PlainException
      end
  end.

Definition parse_enum_with_one_hex (content : list string) (r : re) (lower upper : nat)
  : result (list (Z * string)) :=
  parse_enum r (slice content lower upper) [].

Definition ident (c : ascii) : bool := upper_case c || digit c || Ascii.eqb c "_".

(** [^\s*(?<!//)(\b[A-Z0-9_]+\b)] and [//\s*(\bRV[36][24][A-Z0-9]+\b)] *)
Definition insn_re : re :=
  Seq Bol (Seq sp (Seq (NotBehind "//") (Group 1 (Seq WordB (Seq (Plus (Chr ident)) WordB))))).
Definition category_re : re :=
  Seq (Lit "//") (Seq sp (Group 1 (Seq WordB (Seq (Lit "RV")
    (Seq (Chr (fun c => Ascii.eqb c "3" || Ascii.eqb c "6"))
      (Seq (Chr (fun c => Ascii.eqb c "2" || Ascii.eqb c "4"))
        (Seq (Plus (Chr (fun c => upper_case c || digit c))) WordB))))))).

Fixpoint parse_insn (lines : list string) (category : string) (res : list (string * string))
  : result (list (string * string)) :=
  match lines with
  | [] => Ok res
  | line :: lines =>
      match findall1 insn_re line, findall1 category_re line with
      | [], [] => parse_insn lines category res
      | [], [c] => parse_insn lines c res
      | [insn_name], [] =>
          if String.eqb category EmptyString then Raise PlainException
          else parse_insn lines category (dict_set insn_name category res)
      | _, _ => Raise PlainException
      end
  end.

Definition parse_enum_with_insn (content : list string) (lower upper : nat)
  : result (list (string * string)) :=
  parse_insn (slice content lower upper) EmptyString [].

(** The enumerations of riscv-dv: registers, interrupts, exceptions, and the
    instructions with their categories. *)
Record rdv := {
  rdv_csrs : list (Z * string); rdv_ints : list (Z * string); rdv_excs : list (Z * string);
  rdv_insn_to_cat : list (string * string) }.

Definition parse_riscv_instr_pkg (content : list string) : result rdv :=
  let! csrs := parse_enum_with_one_hex content (hex_re "'h") 749 1101 in
  let! intr := parse_enum_with_one_hex content (hex_re "4'h") 1146 1156 in
  let! excp := parse_enum_with_one_hex content (hex_re "4'h") 1158 1173 in
  let! insn := parse_enum_with_insn content 115 649 in
  Ok {| rdv_csrs := csrs; rdv_ints := intr; rdv_excs := excp; rdv_insn_to_cat := insn |}.

(** [^\s*(?<!\#)\b([a-z0-9_\.]+)[0-9]*\b\s*=\s*\[.*\]] *)
Definition insn_char (c : ascii) : bool :=
  lower_case c || digit c || Ascii.eqb c "_" || Ascii.eqb c ".".
Definition decode_re : re :=
  Seq Bol (Seq sp (Seq (NotBehind "#") (Seq WordB
    (Seq (Group 1 (Plus (Chr insn_char))) (Seq (Star (Chr digit)) (Seq WordB (Seq sp (Seq (Lit "=")
      (Seq sp (Seq (Lit "[") (Seq (Star (Chr any)) (Lit "]")))))))))))).

Fixpoint parse_decode (lines : list string) (res : list string) : result (list string) :=
  match lines with
  | [] => Ok res
  | line :: lines =>
      match findall1 decode_re line with
      | [] => parse_decode lines res
      | [insn] => parse_decode lines (set_add insn res)
      | _ => Raise PlainException
      end
  end.

Definition parse_veer_decode (content : list string) : result (list string) :=
  parse_decode (slice content 4 290) [].

(** [([0-9a-z_]+)\s*=\s*\[([01\.]+)\]] *)
Definition csr_char (c : ascii) : bool := digit c || lower_case c || Ascii.eqb c "_".
Definition bit_char (c : ascii) : bool := Ascii.eqb c "0" || Ascii.eqb c "1" || Ascii.eqb c ".".
Definition csrdecode_re : re :=
  Seq (Group 1 (Plus (Chr csr_char))) (Seq sp (Seq (Lit "=") (Seq sp
    (Seq (Lit "[") (Seq (Group 2 (Plus (Chr bit_char))) (Lit "]")))))).

Fixpoint parse_csrdecode (lines : list string) (res : list (string * string))
  : result (list (string * string)) :=
  match lines with
  | [] => Ok res
  | line :: lines =>
      match findall2 csrdecode_re line with
      | [] => parse_csrdecode lines res
      | [(name, str_val)] => parse_csrdecode lines (dict_set name str_val res)
      | _ => Raise PlainException
      end
  end.

Definition parse_veer_csrdecode (content : list string) : result (list (string * string)) :=
  parse_csrdecode (slice content 4 82) [].

(** [\{5\{.*\}\}\s*&\s*5'h([a-zA-Z0-9]+)] *)
Definition cause_re : re :=
  Seq (Lit "{5{") (Seq (Star (Chr any)) (Seq (Lit "}}") (Seq sp (Seq (Lit "&") (Seq sp
    (Seq (Lit "5'h") (Group 1 (Plus (Chr alnum))))))))).

Fixpoint parse_causes (lines : list string) (res : list Z) : result (list Z) :=
  match lines with
  | [] => Ok res
  | line :: lines =>
      match findall1 cause_re line with
      | [] => parse_causes lines res
      | [str_val] => let! v := int16 str_val in parse_causes lines (set_add v res)
      | _ => Raise PlainException
      end
  end.

(** The causes of interrupts and of exceptions. *)
Definition parse_veer_dec_tlu_ctl (content : list string) : result (list Z * list Z) :=
  let! irqs := parse_causes (slice content 983 988) [] in
  let! excp := parse_causes (slice content 989 996) [] in
  Ok (irqs, excp).

(** ** Preparing the data *)

Definition inv_dict {K V} `{EqDecision V} (d : list (K * V)) : list (V * list K) :=
  foldl (fun res kv => dict_set kv.2 (default [] (dict_get kv.2 res) ++ [kv.1]) res) [] d.

Definition remove_suffix_number (s : string) : string :=
  re_replace (Seq (Plus (Chr digit)) Eol) EmptyString s.

Definition char_upper (c : ascii) : ascii :=
  if lower_case c then ascii_of_N (N_of_ascii c - 32) else c.
Fixpoint upper (s : string) : string :=
  match s with EmptyString => EmptyString | String c s => String (char_upper c) (upper s) end.

Definition numbered : list string :=
  ["pack"; "grevi"; "gorci"; "csrw"; "csrrwi"; "csrrs"; "csrrc"; "csrrci"; "csrrw"].

(** The name in riscv-dv's spelling. *)
Definition adjust_insn (insn : string) : string :=
  let insn := if String.eqb insn "rev" then "REV8" else insn in
  let insn := foldl (fun insn x => if contains x insn then remove_suffix_number insn else insn)
                insn numbered in
  upper (foldl (fun insn e => replace e.1 e.2 insn) insn
           [(".", "_"); ("_rw", EmptyString); ("_ro", EmptyString)]).

(** [int(s, 2)] of zeros and ones. *)
Fixpoint int2 (s : string) (acc : Z) : Z :=
  match s with
  | EmptyString => acc
  | String c s => int2 s (2 * acc + (if Ascii.eqb c "1" then 1 else 0))%Z
  end.

Definition csr_address (bits : string) : Z := int2 (replace "." "0" bits) 0.

(** What the settings are made of. *)
Record settings := {
  unsupp_cat_to_insn : list (string * list string);
  isas : list string;
  found_csrs : list (Z * string); not_found_csrs : list (Z * string);
  found_ints : list (Z * string); not_found_ints : list Z;
  found_excs : list (Z * string); not_found_excs : list Z }.

Definition has {V} (d : list (Z * V)) (k : Z) : bool :=
  match dict_get k d with Some _ => true | None => false end.

(** [{k: d[k] for k in ks if k in d}] *)
Definition select (ks : list Z) (d : list (Z * string)) : list (Z * string) :=
  omap (fun k => (fun v => (k, v)) <$> dict_get k d) ks.

(** The dictionary of the registers by address; one entry for each address. *)
Definition adj_csrs (veer_csrs : list (string * string)) : list (Z * string) :=
  foldl (fun d kv => dict_set (csr_address kv.2) kv.1 d) [] veer_csrs.

Definition adj_insn_to_cat (r : rdv) : list (string * string) :=
  dict_set "MRET" "RV32I" (dict_set "WFI" "RV32I" (rdv_insn_to_cat r)).

Definition adj_insns (veer_insn : list string) : list string :=
  foldl (fun s i => set_add (adjust_insn i) s) [] veer_insn.

(** The instructions of the core that riscv-dv knows, with their categories. *)
Definition found_insn_to_cat (r : rdv) (veer_insn : list string) : list (string * string) :=
  omap (fun i => (fun c => (i, c)) <$> dict_get i (adj_insn_to_cat r)) (adj_insns veer_insn).

Definition set_minus (a b : list string) : list string := List.filter (fun x => negb (str_in x b)) a.

Definition prepare (r : rdv) (veer_insn : list string) (veer_csrs : list (string * string))
    (veer_ints veer_excs : list Z) : settings :=
  let found := found_insn_to_cat r veer_insn in
  let found_cats := inv_dict found in
  let adj := adj_csrs veer_csrs in
  {| unsupp_cat_to_insn :=
       omap (fun ci => (fun f => (ci.1, set_minus ci.2 f)) <$> dict_get ci.1 found_cats)
         (inv_dict (adj_insn_to_cat r));
     isas := foldl (fun s kv => set_add kv.2 s) [] found;
     found_csrs := select adj.*1 (rdv_csrs r);
     not_found_csrs :=
       (fun kv => (kv.1, upper kv.2)) <$> List.filter (fun kv => negb (has (rdv_csrs r) kv.1)) adj;
     found_ints := select veer_ints (rdv_ints r);
     not_found_ints := List.filter (fun k => negb (has (rdv_ints r) k)) veer_ints;
     found_excs := select veer_excs (rdv_excs r);
     not_found_excs := List.filter (fun k => negb (has (rdv_excs r) k)) veer_excs |}.

(** ** The settings file *)

Definition header_lines : list string :=
  ["//-----------------------------------------------------------------------------";
   "// Processor feature configuration";
   "//-----------------------------------------------------------------------------";
   "//";
   "parameter int XLEN = 32;";
   "parameter satp_mode_t SATP_MODE = BARE;";
   "privileged_mode_t supported_privileged_mode[] = {MACHINE_MODE, USER_MODE};";
   EmptyString;
   "// NOTE: To get supported and unsupported instructions compare";
   "// riscv-dv/src/riscv_instr_pkg.sv and Cores-VeeR-EL2/design/dec/decode files";
   EmptyString;
   "// Unsupported instructions";
   "riscv_instr_name_t unsupported_instr[] = {"].

Definition isa_lines : list string :=
  ["};";
   EmptyString;
   "// ISA supported by the processor";
   "riscv_instr_group_t supported_isa[$] = {"].

Definition fixed_lines : list string :=
  ["};";
   EmptyString;
   "// Interrupt mode support";
   "mtvec_mode_t supported_interrupt_mode[$] = {DIRECT, VECTORED};";
   EmptyString;
   "// The number of interrupt vectors to be generated, only used if VECTORED interrupt mode is supported";
   "int max_interrupt_vector_num = 16;";
   EmptyString;
   "// Physical memory protection support";
   "bit support_pmp = 1;";
   EmptyString;
   "// Enhanced physical memory protection support";
   "// NOTE: Not supported by VeeR, described in:";
   "// https://raw.githubusercontent.com/riscv/riscv-tee/main/Smepmp/Smepmp.pdf";
   "bit support_epmp = 0;";
   EmptyString;
   "// Debug mode support";
   "bit support_debug_mode = 0;";
   EmptyString;
   "// Support delegate trap to user mode";
   "// When implementing UCAUSE, UTVEC, UTVAL, UEPC, USCRATCH, USTATUS, UIE, UIP";
   "bit support_umode_trap = 0;";
   EmptyString;
   "// Support sfence.vma instruction";
   "bit support_sfence = 0;";
   EmptyString;
   "// Support unaligned load/store";
   "bit support_unaligned_load_store = 1'b1;";
   EmptyString;
   "// GPR setting";
   "parameter int NUM_FLOAT_GPR = 32;";
   "parameter int NUM_GPR = 32;";
   "parameter int NUM_VEC_GPR = 32;";
   EmptyString;
   "// ----------------------------------------------------------------------------";
   "// Vector extension configuration";
   "// ----------------------------------------------------------------------------";
   "// Parameter for vector extension";
   "parameter int VECTOR_EXTENSION_ENABLE = 0;";
   EmptyString;
   "parameter int VLEN = 512;";
   EmptyString;
   "// Maximum size of a single vector element";
   "parameter int ELEN = 32;";
   EmptyString;
   "// Minimum size of a sub-element, which must be at most 8-bits.";
   "parameter int SELEN = 8;";
   EmptyString;
   "// Maximum size of a single vector element (encoded in vsew format)";
   "parameter int VELEN = int'($ln(ELEN)/$ln(2)) - 3;";
   EmptyString;
   "// Maxium LMUL supported by the core";
   "parameter int MAX_LMUL = 8;";
   "// ----------------------------------------------------------------------------";
   "// Multi-harts configuration";
   "// ----------------------------------------------------------------------------";
   EmptyString;
   "// Number of harts";
   "parameter int NUM_HARTS = 1;";
   EmptyString;
   "// ----------------------------------------------------------------------------";
   "// Previleged CSR implementation";
   "// ----------------------------------------------------------------------------";
   EmptyString;
   "// Implemented previlieged CSR list";
   "`ifdef DSIM";
   "privileged_reg_t implemented_csr[] = {";
   "`else";
   "const privileged_reg_t implemented_csr[] = {";
   "`endif"].

Definition custom_lines : list string :=
  ["};";
   EmptyString;
   "// Implementation-specific custom CSRs";
   "// By default all not found registers are put to custom csrs";
   "bit [11:0] custom_csr[] = {"].

Definition interrupt_lines : list string :=
  ["};";
   EmptyString;
   "// ----------------------------------------------------------------------------";
   "// Supported interrupt/exception setting, used for functional coverage";
   "// ----------------------------------------------------------------------------";
   EmptyString;
   "`ifdef DSIM";
   "interrupt_cause_t implemented_interrupt[] = {";
   "`else";
   "const interrupt_cause_t implemented_interrupt[] = {";
   "`endif"].

Definition exception_lines : list string :=
  ["};";
   EmptyString;
   "`ifdef DSIM";
   "exception_cause_t implemented_exception[] = {";
   "`else";
   "const exception_cause_t implemented_exception[] = {"].

Definition last_lines : list string :=
  ["};";
   "`endif"].

(** [sep]: a comma after each item but the last. *)
Fixpoint with_commas {A} (f : A -> string -> string) (l : list A) : list string :=
  match l with
  | [] => []
  | [x] => [f x EmptyString]
  | x :: l => f x "," :: with_commas f l
  end.

(** The digits of [hex] and of the format [X]. *)
Definition hex_upper (z : Z) : string := hex_digits (Z.to_nat (Z.log2 z / 4 + 1)) z EmptyString.
Definition hex_lower (z : Z) : string := "0x" +:+ lower (hex_upper z).

(** [count_nonempty] *)
Definition count_nonempty (d : list (string * list string)) : nat :=
  length (List.filter (fun e => match e.2 with [] => false | _ => true end) d).

Fixpoint unsupported_lines (count : nat) (d : list (string * list string)) (cnt : nat) : list string :=
  match d with
  | [] => []
  | (cat, insns) :: d =>
      match insns with
      | [] => unsupported_lines count d cnt
      | _ =>
          let sep := if (Z.of_nat cnt =? Z.of_nat count - 1)%Z then EmptyString else "," in
          ("    " +:+ PyString.join ", " insns +:+ sep +:+ " // " +:+ cat)
          :: unsupported_lines count d (S cnt)
      end
  end.

Definition in_ranges (i : Z) (rs : list (Z * Z)) : bool :=
  existsb (fun r => (r.1 <=? i)%Z && (i <? r.2)%Z) rs.

Definition interrupt_note (intr : Z) : string :=
  "    //" +:+ hex_lower intr +:+
  (if in_ranges intr [(24, 32); (48, 64)]%Z then " custom interrupt used"
   else if in_ranges intr [(14, 15); (16, 20); (32, 48)]%Z then " reserved interrupt used"
   else " not supported").

Definition print_settings (s : settings) : list string :=
  header_lines
  ++ unsupported_lines (count_nonempty (unsupp_cat_to_insn s)) (unsupp_cat_to_insn s) 0
  ++ isa_lines
  ++ with_commas (fun isa sep => "    " +:+ isa +:+ sep) (isas s)
  ++ fixed_lines
  ++ with_commas (fun c sep => "    " +:+ c.2 +:+ sep) (found_csrs s)
  ++ custom_lines
  ++ with_commas (fun c sep => "    12'h" +:+ hex_upper c.1 +:+ sep +:+ " // " +:+ c.2) (not_found_csrs s)
  ++ interrupt_lines
  ++ with_commas (fun c sep => "    " +:+ c.2 +:+ sep) (found_ints s)
  ++ (interrupt_note <$> not_found_ints s)
  ++ exception_lines
  ++ with_commas (fun c sep => "    " +:+ c.2 +:+ sep) (found_excs s)
  ++ ((fun e => "    //" +:+ hex_lower e +:+ " not supported") <$> not_found_excs s)
  ++ last_lines.

(** A file that does not exist. *)
Definition exists_or_raise (file : option (list string)) : result (list string) :=
  match file with Some content => Ok content | None => Raise FileNotFoundError end.

(** The script, from the lines of the four files; all must exist before any of
    them is parsed. *)
Definition core_setting (pkg decode csrdecode tlu : option (list string)) : result (list string) :=
  let! pkg := exists_or_raise pkg in
  let! decode := exists_or_raise decode in
  let! csrdecode := exists_or_raise csrdecode in
  let! tlu := exists_or_raise tlu in
  let! r := parse_riscv_instr_pkg pkg in
  let! veer_insn := parse_veer_decode decode in
  let! veer_csrs := parse_veer_csrdecode csrdecode in
  let! (ints, excs) := parse_veer_dec_tlu_ctl tlu in
  Ok (print_settings (prepare r veer_insn veer_csrs ints excs)).

(** ** The table of registers is read back *)

Definition csr_line (name ws1 ws2 bits : string) : string :=
  name +:+ ws1 +:+ "=" +:+ ws2 +:+ "[" +:+ bits +:+ "]" +:+ newline.

Record csr_entry := CsrEntry { e_name : string; e_ws1 : string; e_ws2 : string; e_bits : string }.
Definition entry_line (e : csr_entry) : string := csr_line (e_name e) (e_ws1 e) (e_ws2 e) (e_bits e).
Definition entry_item (e : csr_entry) : string * string := (e_name e, e_bits e).

Definition nonempty (s : string) : bool := match s with EmptyString => false | _ => true end.

(** An entry as the file has them. *)
Definition entry_ok (e : csr_entry) : bool :=
  (nonempty (e_name e) && all_in csr_char (e_name e))
  && all_in is_space (e_ws1 e) && all_in is_space (e_ws2 e)
  && (nonempty (e_bits e) && all_in bit_char (e_bits e)).

Lemma space_not_csr_char c : is_space c = true -> negb (csr_char c) = true.
Proof. destruct c as [[] [] [] [] [] [] [] []]; (reflexivity || discriminate). Qed.

Lemma csrdecode_match e : entry_ok e = true ->
  findall2 csrdecode_re (entry_line e) = [entry_item e].
Proof.
  destruct e as [name ws1 ws2 bits]. unfold entry_ok, entry_line, entry_item. cbn [e_name e_ws1 e_ws2 e_bits].
  intros [[[[Hn0 Hn]%andb_true_iff H1]%andb_true_iff H2]%andb_true_iff [Hb0 Hb]%andb_true_iff]%andb_true_iff.
  destruct name as [|a name]; [done|]. destruct bits as [|b bits]; [done|].
  set (line := csr_line _ _ _ _).
  assert (exists sn, match_at csrdecode_re (MState EmptyString line []) =
            Some (MState sn newline [(2, String b bits); (1, String a name)])) as [sn Hm].
  { eexists. unfold match_at, csrdecode_re. cbn [seen rest groups].
    rewrite exec_seq. eapply exec_group_plus; [reflexivity|done| |].
    { apply stops_app; [|reflexivity]. exact (all_in_impl _ _ _ space_not_csr_char H1). }
    rewrite exec_seq. eapply exec_star; [reflexivity|done|reflexivity|].
    rewrite exec_seq. eapply exec_lit; [reflexivity|].
    rewrite exec_seq. eapply exec_star; [reflexivity|done|reflexivity|].
    rewrite exec_seq. eapply exec_lit; [reflexivity|].
    rewrite exec_seq. eapply exec_group_plus; [reflexivity|done|reflexivity|].
    eapply exec_lit; reflexivity. }
  unfold findall2. rewrite (matches_first _ _ _ Hm); [reflexivity| |].
  - subst line. unfold csr_line. rewrite !length_append. cbn. lia.
  - by intros [|[|fuel]].
Qed.
(** A line without an opening bracket is skipped. *)
Definition no_bracket (c : ascii) : bool := negb (Ascii.eqb "[" c).

Lemma csrdecode_no_match s : all_in no_bracket s = true -> findall2 csrdecode_re s = [].
Proof.
  intros H. unfold findall2, matches. rewrite (scan_none _ no_bracket); [done| |exact H].
  clear. intros st H. unfold match_at. destruct (exec _ _ _) as [res|] eqn:E; [|done].
  unfold csrdecode_re in E. rewrite exec_seq in E.
  do 4 (apply exec_sound in E as (? & ? & Hr & E); cbn [rest] in Hr;
        rewrite Hr, all_in_app in H; apply andb_true_iff in H as [_ H]; clear Hr; rewrite exec_seq in E).
  cbn [exec Lit] in E. destruct (rest _) as [|c s]; [done|]. cbn [all_in] in H. unfold no_bracket in H at 1.
  by destruct (Ascii.eqb "[" c).
Qed.

(** A line of the file: an entry, or another text. *)
Inductive csr_file_line := Entry (e : csr_entry) | OtherLine (s : string).

Definition line_ok (l : csr_file_line) : bool :=
  match l with Entry e => entry_ok e | OtherLine s => all_in no_bracket s end.
Definition line_text (l : csr_file_line) : string :=
  match l with Entry e => entry_line e | OtherLine s => s end.
Definition line_items (ls : list csr_file_line) : list (string * string) :=
  omap (fun l => match l with Entry e => Some (entry_item e) | OtherLine _ => None end) ls.

Lemma parse_csrdecode_lines ls : forall res,
  forallb line_ok ls = true -> NoDup (res ++ line_items ls).*1 ->
  parse_csrdecode (line_text <$> ls) res = Ok (res ++ line_items ls).
Proof.
  induction ls as [|l ls IH]; intros res Hok Hnd; [cbn; by rewrite app_nil_r|].
  cbn [forallb] in Hok. apply andb_true_iff in Hok as [Hl Hok]. cbn [parse_csrdecode fmap list_fmap].
  destruct l as [e|s]; cbn [line_text].
  - rewrite (csrdecode_match e Hl). unfold line_items in Hnd |- *. cbn [omap list_omap] in Hnd |- *.
    fold (line_items ls) in Hnd |- *. cbv beta iota delta [entry_item].
    rewrite dict_set_fresh.
    + rewrite IH; [by rewrite <- app_assoc|done|by rewrite <- app_assoc].
    + rewrite fmap_app in Hnd. apply NoDup_app in Hnd as (_ & Hd & _).
      intros Hin. apply (Hd _ Hin). cbn. apply list_elem_of_here.
  - rewrite (csrdecode_no_match s Hl). by apply IH.
Qed.

(** The table of the core's registers is read back: from a file with four
    header lines, whatever blanks surround the equal signs and whatever lines
    without brackets stand between, the parser returns the names and bit patterns
    of the next 78 lines in their order; what follows is not read. *)
Theorem csrdecode_roundtrip (hdr : list string) (ls : list csr_file_line)
  (Hhdr : length hdr = 4) (Hok : forallb line_ok (take 78 ls) = true)
  (Hnd : NoDup (line_items (take 78 ls)).*1) :
  parse_veer_csrdecode (hdr ++ (line_text <$> ls)) = Ok (line_items (take 78 ls)).
Proof.
  unfold parse_veer_csrdecode, slice. rewrite drop_app_length' by done.
  change (82 - 4) with 78. rewrite <- fmap_take. exact (parse_csrdecode_lines _ [] Hok Hnd).
Qed.

Lemma csrdecode_roundtrip_witness :
  parse_veer_csrdecode
    ([newline; ".definition"; newline; newline] ++
     (line_text <$>
       [Entry (CsrEntry "csr_misa" " " "          " "001100000001"); OtherLine newline;
        Entry (CsrEntry "csr_pmpcfg" " " "        " "00111010....")]))
  = Ok [("csr_misa", "001100000001"); ("csr_pmpcfg", "00111010....")].
Proof.
  apply (csrdecode_roundtrip [newline; ".definition"; newline; newline]
    [Entry (CsrEntry "csr_misa" " " "          " "001100000001"); OtherLine newline;
     Entry (CsrEntry "csr_pmpcfg" " " "        " "00111010....")]);
    [reflexivity|vm_compute; reflexivity|].
  cbn. apply NoDup_cons. split; [|apply NoDup_singleton]. intros H. by apply list_elem_of_singleton in H.
Defined.
(** ** What goes into the settings *)

(** The keys with a value. *)
Definition keys_of {K V} `{EqDecision V} (v : V) (d : list (K * V)) : list K :=
  omap (fun kv => if decide (kv.2 = v) then Some kv.1 else None) d.

Section Inverse.
Context {K V : Type} `{EqDecision K, EqDecision V}.
Implicit Types (k : K) (v : V) (d : list (K * V)).

Lemma inv_fold_get v d : forall acc,
  dict_get v (foldl (fun res kv => dict_set kv.2 (default [] (dict_get kv.2 res) ++ [kv.1]) res) acc d)
  = match keys_of v d with [] => dict_get v acc | ks => Some (default [] (dict_get v acc) ++ ks) end.
Proof.
  induction d as [|[k w] d IH]; intros acc; [done|]. cbn [foldl]. rewrite IH. unfold keys_of.
  cbn [omap list_omap fst snd]. rewrite dict_get_set.
  destruct (decide (w = v)) as [->|Hn]; [|done].
  fold (keys_of v d). destruct (keys_of v d); cbn [default]; [done|]. cbn. by rewrite <- app_assoc.
Qed.

(** The inverse gives the keys of a value, in their order. *)
Lemma inv_dict_get v d :
  dict_get v (inv_dict d) = match keys_of v d with [] => None | ks => Some ks end.
Proof. unfold inv_dict. rewrite inv_fold_get. by destruct (keys_of v d). Qed.

Lemma inv_dict_NoDup d : NoDup (inv_dict d).*1.
Proof.
  unfold inv_dict. assert (NoDup ([] : list (V * list K)).*1) as H by apply NoDup_nil_2. revert H.
  generalize ([] : list (V * list K)). induction d as [|e d IH]; intros acc H; [done|].
  cbn. by apply IH, dict_set_NoDup.
Qed.

Lemma elem_of_keys_of k v d : k ∈ keys_of v d <-> (k, v) ∈ d.
Proof.
  unfold keys_of. rewrite list_elem_of_omap. split.
  - intros ([k' v'] & Hin & E). cbn in E. destruct (decide (v' = v)) as [->|]; [|done]. by injection E as ->.
  - intros Hin. exists (k, v). split; [done|]. cbn. by rewrite decide_True.
Qed.
End Inverse.

Lemma elem_of_set_minus a b x : x ∈ set_minus a b <-> x ∈ a /\ x ∉ b.
Proof.
  unfold set_minus. rewrite list_elem_of_In, filter_In, <- list_elem_of_In, negb_true_iff.
  assert (str_in x b = true <-> x ∈ b) as <-; [|by rewrite not_true_iff_false].
  unfold str_in. rewrite existsb_exists. split.
  - intros (y & Hy & ->%String.eqb_eq). by apply list_elem_of_In.
  - intros Hx. exists x. split; [by apply list_elem_of_In|apply String.eqb_refl].
Qed.

Lemma elem_of_set_add {K} `{EqDecision K} (x k : K) s : x ∈ set_add k s <-> x = k \/ x ∈ s.
Proof.
  unfold set_add. case_decide; [|rewrite elem_of_app, list_elem_of_singleton; tauto].
  split; [by right|]. by intros [->|].
Qed.

Lemma elem_of_set_add_fold {A K} `{EqDecision K} (f : A -> K) (x : K) l : forall s,
  x ∈ foldl (fun s a => set_add (f a) s) s l <-> x ∈ s \/ exists a, a ∈ l /\ x = f a.
Proof.
  induction l as [|a l IH]; intros s; cbn.
  - split; [by left|]. by intros [|(a & ?%not_elem_of_nil & _)].
  - rewrite IH, elem_of_set_add. split.
    + intros [[->|]|(b & Hb & ->)]; [|by left|]; right; [exists a|exists b]; rewrite elem_of_cons; tauto.
    + intros [|(b & [->|Hb]%elem_of_cons & ->)]; [tauto..|]. right. by exists b.
Qed.

(** The selected keys and the others are all keys. *)
Lemma select_partition ks d :
  (select ks d).*1 ++ List.filter (fun k => negb (has d k)) ks ≡ₚ ks.
Proof.
  unfold select, has. induction ks as [|k ks IH]; [done|]. cbn.
  destruct (dict_get k d) as [v|]; cbn; [by rewrite IH|]. by rewrite <- Permutation_middle, IH.
Qed.

Lemma elem_of_select k v ks d : (k, v) ∈ select ks d <-> k ∈ ks /\ dict_get k d = Some v.
Proof.
  unfold select. rewrite list_elem_of_omap. split.
  - intros (k' & Hin & E). destruct (dict_get k' d) eqn:Ed; [|done]. by injection E as -> ->.
  - intros [Hin E]. exists k. by rewrite E.
Qed.

Lemma filter_fst {V} (p : Z -> bool) (d : list (Z * V)) (f : Z * V -> V) :
  ((fun kv => (kv.1, f kv)) <$> List.filter (fun kv => p kv.1) d).*1 = List.filter p d.*1.
Proof. induction d as [|[k v] d IH]; [done|]. cbn. destruct (p k); cbn; by rewrite IH. Qed.

Lemma has_false {V} (d : list (Z * V)) k : negb (has d k) = true <-> dict_get k d = None.
Proof. unfold has. by destruct (dict_get k d). Qed.

Lemma elem_of_found r vi i c :
  (i, c) ∈ found_insn_to_cat r vi <-> i ∈ adj_insns vi /\ dict_get i (adj_insn_to_cat r) = Some c.
Proof.
  unfold found_insn_to_cat. rewrite list_elem_of_omap. split.
  - intros (i' & Hin & E). destruct (dict_get i' _) eqn:Ed; [|done]. by injection E as -> ->.
  - intros [Hin E]. exists i. by rewrite E.
Qed.

Lemma elem_of_isas r vi vc ints excs c :
  c ∈ isas (prepare r vi vc ints excs) <->
  exists i, i ∈ adj_insns vi /\ dict_get i (adj_insn_to_cat r) = Some c.
Proof.
  cbn. rewrite elem_of_set_add_fold. split.
  - intros [?%not_elem_of_nil|([i c'] & Hin%elem_of_found & ->)]; [done|]. by exists i.
  - intros (i & H%elem_of_found). right. by exists (i, c).
Qed.

Lemma adj_insn_NoDup r : NoDup (rdv_insn_to_cat r).*1 -> NoDup (adj_insn_to_cat r).*1.
Proof. intros H. by apply dict_set_NoDup, dict_set_NoDup. Qed.

Lemma inv_dict_Some {K V} `{EqDecision K, EqDecision V} (v : V) ks (d : list (K * V)) :
  dict_get v (inv_dict d) = Some ks <-> ks = keys_of v d /\ ks <> [].
Proof. rewrite inv_dict_get. destruct (keys_of v d); split; [done|by intros [-> ?]|by intros [= <-]|by intros [-> _]]. Qed.

Lemma unsupported_spec r vi vc ints excs c insns :
  NoDup (rdv_insn_to_cat r).*1 ->
  (c, insns) ∈ unsupp_cat_to_insn (prepare r vi vc ints excs) <->
  c ∈ isas (prepare r vi vc ints excs) /\
  insns = set_minus (keys_of c (adj_insn_to_cat r)) (keys_of c (found_insn_to_cat r vi)).
Proof.
  intros Hnd%adj_insn_NoDup. rewrite elem_of_isas. cbn [unsupp_cat_to_insn prepare].
  rewrite list_elem_of_omap. split.
  - intros ([c' all] & Hin & E). cbn [fst snd] in E.
    destruct (dict_get c' (inv_dict (found_insn_to_cat r vi))) as [f|] eqn:Ef; [|done]. injection E as -> <-.
    apply (dict_get_elem _ _ _ (inv_dict_NoDup _)), inv_dict_Some in Hin as [-> _].
    apply inv_dict_Some in Ef as [-> Hne]. split; [|done].
    destruct (keys_of c (found_insn_to_cat r vi)) as [|i l] eqn:Ek; [done|]. exists i.
    apply elem_of_found, elem_of_keys_of. rewrite Ek. apply list_elem_of_here.
  - intros [(i & Hi & Hg) ->]. exists (c, keys_of c (adj_insn_to_cat r)). split.
    + apply (dict_get_elem _ _ _ (inv_dict_NoDup _)), inv_dict_Some. split; [done|]. intros E.
      apply (not_elem_of_nil i). rewrite <- E. by apply elem_of_keys_of, dict_get_elem.
    + cbn [fst snd].
      replace (dict_get c (inv_dict (found_insn_to_cat r vi)))
        with (Some (keys_of c (found_insn_to_cat r vi))); [done|].
      symmetry. apply inv_dict_Some. split; [done|]. intros E.
      apply (not_elem_of_nil i). rewrite <- E. by apply elem_of_keys_of, elem_of_found.
Qed.

(** The settings classify everything that was parsed.  The supported groups are
    those of the instructions that the core decodes; for each of them there is one
    list of unsupported instructions, which holds the instructions that riscv-dv
    puts into the group (with wfi and mret) and the core does not decode; each
    register address of the core is either implemented, under riscv-dv's name, or
    custom because riscv-dv has no name for it, and never both; interrupts and
    exceptions are split in the same way. *)
Theorem settings_classify (r : rdv) (vi : list string) (vc : list (string * string)) (ints excs : list Z)
  (Hdict : NoDup (rdv_insn_to_cat r).*1) :
  let s := prepare r vi vc ints excs in
  (forall c, c ∈ isas s <-> exists i, i ∈ adj_insns vi /\ dict_get i (adj_insn_to_cat r) = Some c)
  /\ (forall c, c ∈ isas s <-> exists insns, (c, insns) ∈ unsupp_cat_to_insn s)
  /\ (forall c insns i, (c, insns) ∈ unsupp_cat_to_insn s ->
        i ∈ insns <-> dict_get i (adj_insn_to_cat r) = Some c /\ i ∉ adj_insns vi)
  /\ (found_csrs s).*1 ++ (not_found_csrs s).*1 ≡ₚ (adj_csrs vc).*1
  /\ (forall a n, (a, n) ∈ found_csrs s -> dict_get a (rdv_csrs r) = Some n)
  /\ (forall a, a ∈ (not_found_csrs s).*1 -> dict_get a (rdv_csrs r) = None)
  /\ (found_ints s).*1 ++ not_found_ints s ≡ₚ ints
  /\ (found_excs s).*1 ++ not_found_excs s ≡ₚ excs.
Proof.
  intros s. subst s. repeat apply conj.
  - intros c. apply elem_of_isas.
  - intros c. split.
    + intros Hc. eexists. apply unsupported_spec; [done|]. by split.
    + by intros (insns & [? _]%unsupported_spec).
  - intros c insns i [_ ->]%unsupported_spec; [|done].
    rewrite elem_of_set_minus, !elem_of_keys_of, elem_of_found, dict_get_elem by by apply adj_insn_NoDup.
    tauto.
  - cbn [found_csrs not_found_csrs prepare]. rewrite (filter_fst (fun k => negb (has (rdv_csrs r) k)) _ (fun kv => upper kv.2)).
    apply select_partition.
  - intros a n H. by apply elem_of_select in H as [_ H].
  - intros a. cbn [not_found_csrs prepare].
    rewrite (filter_fst (fun k => negb (has (rdv_csrs r) k)) _ (fun kv => upper kv.2)).
    rewrite list_elem_of_In, filter_In. intros [_ H]. by apply has_false.
  - apply select_partition.
  - apply select_partition.
Qed.

Definition example_rdv : rdv :=
  {| rdv_csrs := [(768%Z, "MSTATUS"); (769%Z, "MISA")];
     rdv_ints := [(7%Z, "M_TIMER_INTR")]; rdv_excs := [(2%Z, "ILLEGAL_INSTRUCTION")];
     rdv_insn_to_cat := [("ADD", "RV32I"); ("MUL", "RV32M"); ("DIV", "RV32M"); ("FADD_S", "RV32F")] |}.

Definition example_settings : settings :=
  prepare example_rdv ["add"; "mul"; "csrrwi4"] [("csr_misa", "001100000001"); ("csr_mrac", "011111000000")]
    [7; 29]%Z [2]%Z.

Example example_settings_value :
  example_settings =
    {| unsupp_cat_to_insn := [("RV32I", ["WFI"; "MRET"]); ("RV32M", ["DIV"])];
       isas := ["RV32I"; "RV32M"];
       found_csrs := [(769%Z, "MISA")]; not_found_csrs := [(1984%Z, "CSR_MRAC")];
       found_ints := [(7%Z, "M_TIMER_INTR")]; not_found_ints := [29%Z];
       found_excs := [(2%Z, "ILLEGAL_INSTRUCTION")]; not_found_excs := [] |}.
Proof. vm_compute. reflexivity. Qed.

(** The digits are part of the name that is found, and cut off afterwards. *)
Example decode_example :
  parse_decode ["csrrwi4 =     [.................1011....1110011]" +:+ newline; "# mul = [0]" +:+ newline;
                "mulh =       [0000001..........001.....0110011]" +:+ newline] []
  = Ok ["csrrwi4"; "mulh"] /\ adjust_insn "csrrwi4" = "CSRRWI".
Proof. vm_compute. done. Qed.

Example cause_example :
  parse_causes ["   assign exc_cause_r[4:0] =  ( ({5{take_ext_int}}         & 5'h0b) |" +:+ newline;
                "                                ({5{take_int_timer0_int}}  & 5'h1d) |" +:+ newline] []
  = Ok [11; 29]%Z.
Proof. vm_compute. done. Qed.

Example insn_example :
  parse_insn ["    // RV32I instructions" +:+ newline; "    LUI," +:+ newline; "    //AUIPC," +:+ newline;
              "    // RV32M" +:+ newline; "    MUL," +:+ newline] EmptyString []
  = Ok [("LUI", "RV32I"); ("MUL", "RV32M")].
Proof. vm_compute. done. Qed.

Lemma settings_classify_witness :
  NoDup (rdv_insn_to_cat example_rdv).*1 /\
  (found_csrs example_settings).*1 ++ (not_found_csrs example_settings).*1 ≡ₚ [769; 1984]%Z.
Proof.
  assert (NoDup (rdv_insn_to_cat example_rdv).*1) as H.
  { cbn. repeat (apply NoDup_cons; split;
      [rewrite ?not_elem_of_cons; repeat split; try (intros [=]); apply not_elem_of_nil|]). apply NoDup_nil_2. }
  split; [exact H|].
  exact (proj1 (proj2 (proj2 (proj2 (settings_classify example_rdv ["add"; "mul"; "csrrwi4"]
    [("csr_misa", "001100000001"); ("csr_mrac", "011111000000")] [7; 29]%Z [2]%Z H))))).
Defined.
