(* ===== verification/LogText.v ===== *)
(** * The text of the execution log: tools/riscv-dv/veer_log_to_trace_csv.py

    [INSTR_RE] and [NB_RE], the lines that the bench of the core
    (src/RISC-V-Veer-EL2/testbench/tb_top.sv, the trace monitor) prints, and the
    parser on the text of a log. *)

From S2P Require Import Prelude PyString Regex TraceLog.
From stdpp Require Import base list strings.
From Stdlib Require Import Ascii ZArith Lia.

#[local] Open Scope string_scope.
#[local] Open Scope list_scope.
#[local] Open Scope nat_scope.

(** ** The regular expressions *)

(** [\s*], [\s+], [[0-9]], [[0-9a-f]], [[^=;]] *)
Definition sp0 : re := Star (Chr is_space).
Definition sp1 : re := Plus (Chr is_space).
Definition hex (c : ascii) : bool := digit c || in_range "a" "f" c.
Definition not_sep (c : ascii) : bool := negb (Ascii.eqb c "=") && negb (Ascii.eqb c ";").

(** [(?P<name>[^=;]+)=(?P<value>[0-9a-f]+)] *)
Definition assignment (name value : nat) (r : re) : re :=
  Seq (Group name (Plus (Chr not_sep))) (Seq (Lit "=") (Seq (Group value (Plus (Chr hex))) r)).

(** From the CSR on. *)
Definition INSTR_RE_csr : re :=
  Seq (Opt (assignment 7 8 Eps)) (Seq sp1 (Seq (Lit ";") (Seq sp1 (Group 9 (Star (Chr any)))))).
(** From the register on. *)
Definition INSTR_RE_reg : re := Seq sp1 (Seq (Opt (assignment 5 6 Eps)) (Seq sp1 INSTR_RE_csr)).
Definition INSTR_RE : re :=
  Seq Bol (Seq sp0 (Seq (Group 1 (Plus (Chr digit))) (Seq sp1 (Seq (Lit ":") (Seq sp1
    (Seq (Lit "#") (Seq (Group 2 (Plus (Chr digit))) (Seq sp1 (Seq (Lit "0") (Seq sp1
      (Seq (Group 3 (Plus (Chr hex))) (Seq sp1 (Seq (Group 4 (Plus (Chr hex))) INSTR_RE_reg))))))))))))).

Definition NB_RE : re :=
  Seq Bol (Seq sp0 (Seq (Group 1 (Plus (Chr digit))) (Seq sp1 (Seq (Lit ":") (Seq sp1
    (assignment 2 3 (Seq sp1 (Seq (Lit ";") (Seq sp1 (Group 4 (Alt (Lit "nbL") (Lit "nbD")))))))))))).

(** [match.groupdict()] *)
Definition instr_groupdict (st : mstate) : instr_groups :=
  {| pc := group 3 st; opc := group 4 st; reg := group_opt 5 st; val := group_opt 6 st;
     csr := group_opt 7 st; csr_val := group_opt 8 st; text := group 9 st |}.
Definition nb_groupdict (st : mstate) : nb_groups :=
  {| nb_reg := group 2 st; nb_val := group 3 st; nb_mnemonic := group 4 st |}.

(** What the two expressions find in a line. *)
Definition match_line (s : string) : line :=
  let s := strip s in
  {| instr_match := instr_groupdict <$> re_match INSTR_RE s;
     nb_match := nb_groupdict <$> re_match NB_RE s |}.

(** [parse_log] on the lines of the file. *)
Definition parse_log_text (fresh : entry) (lines : list string) : result (list entry) :=
  parse_log fresh (match_line <$> lines).

(** ** The lines that are printed *)

(** [%<n>s] *)
Definition rjust (n : nat) (s : string) : string := repeat_str " " (n - String.length s) +:+ s.

Definition assigned (a : option (string * string)) (blanks : nat) : string :=
  match a with Some (n, v) => n +:+ "=" +:+ v | None => repeat_str " " blanks end.

Record instr_item := {
  i_cycle : string; i_count : string; i_pc : string; i_opc : string;
  i_gpr : option (string * string); i_csr : option (string * string); i_text : string }.

(** [$fwrite (el, "%10d : %8s 0 %h %h%13s %14s ; %s\n", ...)] *)
Definition instr_body (i : instr_item) : string :=
  i_cycle i +:+ " : " +:+ rjust 8 ("#" +:+ i_count i) +:+ " 0 " +:+ i_pc i +:+ " " +:+ i_opc i
  +:+ rjust 13 (assigned (i_gpr i) 12) +:+ " " +:+ rjust 14 (assigned (i_csr i) 13)
  +:+ " ; " +:+ i_text i.
Definition instr_text (i : instr_item) : string :=
  repeat_str " " (10 - String.length (i_cycle i)) +:+ instr_body i +:+ newline.

Record nb_item := { n_cycle : string; n_kind : kind; n_reg : string; n_val : string }.

(** [$fwrite (el, "%10d : %32s=%h                ; nbL\n", ...)] *)
Definition nb_body (n : nb_item) : string :=
  n_cycle n +:+ " : " +:+ rjust 32 (n_reg n) +:+ "=" +:+ n_val n +:+ repeat_str " " 16 +:+ "; "
  +:+ nb_name (n_kind n).
Definition nb_text (n : nb_item) : string :=
  repeat_str " " (10 - String.length (n_cycle n)) +:+ nb_body n +:+ newline.

Example instr_text_example :
  instr_text {| i_cycle := "523"; i_count := "2"; i_pc := "80000004"; i_opc := "30529073"; i_gpr := None;
                i_csr := Some ("c305", "ee000000"); i_text := "csrrw  zero,mtvec,t0" |}
  = "       523 :       #2 0 80000004 30529073               c305=ee000000 ; csrrw  zero,mtvec,t0" +:+ newline.
Proof. reflexivity. Qed.

Example match_line_example :
  match_line (instr_text
    {| i_cycle := "523"; i_count := "2"; i_pc := "80000004"; i_opc := "30529073"; i_gpr := None;
       i_csr := Some ("c305", "ee000000"); i_text := "csrrw  zero,mtvec,t0" |})
  = {| instr_match := Some {| pc := "80000004"; opc := "30529073"; reg := None; val := None;
                              csr := Some "c305"; csr_val := Some "ee000000"; text := "csrrw  zero,mtvec,t0" |};
       nb_match := None |}.
Proof. vm_compute. reflexivity. Qed.

(** ** The lines are read back *)

Definition number (p : ascii -> bool) (s : string) : bool :=
  match s with EmptyString => false | _ => all_in p s end.
Definition name_char (c : ascii) : bool := not_sep c && negb (is_space c).
Definition assigned_ok (a : option (string * string)) : bool :=
  match a with Some (n, v) => number name_char n && number hex v | None => true end.

Definition text_ok (t : string) : bool :=
  match t with EmptyString => false | String c _ => negb (is_space c) end
  && all_in any t && String.eqb (rstrip t) t.

Lemma all_in_blanks n : all_in is_space (repeat_str " " n) = true.
Proof. by induction n. Qed.

Lemma not_sep_blanks n : all_in not_sep (repeat_str " " n) = true.
Proof. by induction n. Qed.

Lemma blanks_add n m : repeat_str " " n +:+ repeat_str " " m = repeat_str " " (n + m).
Proof. induction n as [|n IH]; [done|]. cbn [repeat_str Nat.add]. by rewrite <- IH. Qed.

Lemma hex_not_space c : hex c = true -> negb (is_space c) = true.
Proof. destruct c as [[] [] [] [] [] [] [] []]; (reflexivity || discriminate). Qed.

(** [exec] on an explicit state. *)
#[local] Notation "'run' r sn s gs k" := (exec r (MState sn s gs) k)
  (at level 10, r at level 9, sn at level 9, s at level 9, gs at level 9, k at level 9, only parsing).

(** A single blank. *)
Lemma sp1_one sn c s gs k :
  is_space c = false -> run sp1 sn (String " " (String c s)) gs k = k (MState (String " " sn) (String c s) gs).
Proof.
  intros H. unfold sp1, Plus. rewrite exec_seq, (exec_chr _ _ _ " " (String c s)) by done.
  rewrite exec_star_step. cbn [rest]. by rewrite H.
Qed.

Lemma no_assignment n v w t sn gs k r :
  all_in not_sep w = true -> run (assignment n v r) sn (w +:+ String ";" t) gs k = None.
Proof.
  intros Hw. destruct (run _ _ _ _ _) as [res|] eqn:E; [|done].
  unfold assignment in E. rewrite exec_seq, exec_group in E.
  apply exec_plus_inv in E as (c & w' & s & Hr & Hw' & E). cbn [rest] in Hr.
  rewrite exec_seq in E. apply exec_lit_inv in E as (s' & Hs & _). cbn in Hs. subst s.
  by destruct (split_unique not_sep _ _ ";" t "=" s' Hw Hw' eq_refl eq_refl Hr) as [_ [=]].
Qed.

Lemma assignment_ok n v x y t sn gs k sn' res :
  number name_char x = true -> number hex y = true ->
  sn' = rev_str y (String "=" (rev_str x sn)) ->
  k (MState sn' (String " " t) ((v, y) :: (n, x) :: gs)) = Some res ->
  run (assignment n v Eps) sn (x +:+ "=" +:+ y +:+ String " " t) gs k = Some res.
Proof.
  intros Hx Hy -> Hk. destruct x as [|a x]; [done|]. destruct y as [|b y]; [done|].
  unfold assignment. rewrite exec_seq. eapply exec_group_plus; [reflexivity| |reflexivity|].
  { apply (all_in_impl _ _ _ (fun c H => proj1 (andb_prop _ _ H)) Hx). }
  rewrite exec_seq. eapply exec_lit; [reflexivity|].
  rewrite exec_seq. eapply exec_group_plus; [reflexivity|exact Hy|reflexivity|]. exact Hk.
Qed.

(** *** The end of an instruction line *)

Section Line.
Variable t : string.
Hypothesis Ht : text_ok t = true.

Lemma text_first : exists c t', t = String c t' /\ is_space c = false.
Proof using Ht.
  unfold text_ok in Ht. apply andb_true_iff in Ht as [[H _]%andb_true_iff _].
  destruct t as [|c t']; [done|]. exists c, t'. split; [done|by apply negb_true_iff].
Qed.

Lemma tail_ok sn gs : exists sn',
  run (Seq (Lit ";") (Seq sp1 (Group 9 (Star (Chr any))))) sn (String ";" (String " " t)) gs Some
  = Some (MState sn' EmptyString ((9, t) :: gs)).
Proof using Ht.
  eexists. destruct text_first as (c & t' & E & Hc). rewrite exec_seq.
  eapply exec_lit; [reflexivity|]. unfold read. cbn [seen rest groups]. rewrite exec_seq. rewrite E.
  rewrite sp1_one by done. rewrite <- E. eapply exec_group_star; [symmetry; apply append_empty_r| |reflexivity|reflexivity].
  unfold text_ok in Ht. by apply andb_true_iff in Ht as [[_ H]%andb_true_iff _].
Qed.

Lemma csr_none sn gs : run INSTR_RE_csr sn (String ";" (String " " t)) gs Some = None.
Proof.
  unfold INSTR_RE_csr. rewrite exec_seq, exec_opt_none; [|apply (no_assignment 7 8 EmptyString); done].
  rewrite exec_seq. by apply exec_plus_no.
Qed.

(** No CSR: the blanks are divided between the two runs around it. *)
Lemma blanks_csr m sn gs : exists sn',
  run (Seq sp1 INSTR_RE_csr) sn (repeat_str " " (S (S m)) +:+ String ";" (String " " t)) gs Some
  = Some (MState sn' EmptyString ((9, t) :: gs)).
Proof using Ht.
  destruct (tail_ok (String " " (rev_str (repeat_str " " (S m)) sn)) gs) as [sn' H]. exists sn'.
  rewrite exec_seq. eapply (exec_plus_back _ _ " " (String ";" (String " " t)) _ " " (repeat_str " " m)).
  - done.
  - done.
  - cbn [rest]. replace (S (S m)) with (S m + 1) by lia. by rewrite <- blanks_add, append_assoc.
  - exact (all_in_blanks (S m)).
  - intros v1 d v2 E. assert (v2 = EmptyString) as ->.
    { destruct v1 as [|? [|? v1]]; [by injection E as <- <-|done..]. }
    apply csr_none.
  - unfold read. cbn [seen groups]. unfold INSTR_RE_csr. rewrite exec_seq.
    rewrite exec_opt_none; [|apply (no_assignment 7 8 " "); done].
    rewrite exec_seq, append_cons, append_nil_l, sp1_one by done. exact H.
Qed.

Lemma assigned_csr x y sn gs : number name_char x = true -> number hex y = true -> exists sn',
  run INSTR_RE_csr sn (x +:+ "=" +:+ y +:+ " ; " +:+ t) gs Some
  = Some (MState sn' EmptyString ((9, t) :: (8, y) :: (7, x) :: gs)).
Proof using Ht.
  intros Hx Hy. destruct (tail_ok (String " " (rev_str y (String "=" (rev_str x sn)))) ((8, y) :: (7, x) :: gs)) as [sn' H].
  exists sn'. unfold INSTR_RE_csr. rewrite exec_seq. apply exec_opt_some.
  eapply assignment_ok; [done|done|reflexivity|]. rewrite exec_seq, sp1_one by done. exact H.
Qed.

(** The register's group cannot take the CSR: there is only one blank after it. *)
Lemma no_reg w y sn gs :
  all_in not_sep w = true -> number hex y = true ->
  run (assignment 5 6 Eps) sn (w +:+ "=" +:+ y +:+ " ; " +:+ t) gs
    (fun st => exec (Seq sp1 INSTR_RE_csr) st Some) = None.
Proof.
  intros Hw Hy. destruct (run _ _ _ _ _) as [res|] eqn:E; [|done].
  unfold assignment in E. rewrite exec_seq, exec_group in E.
  apply exec_plus_inv in E as (c & w' & s & Hr & Hw' & E). cbn [rest] in Hr.
  rewrite exec_seq in E. apply exec_lit_inv in E as (s' & Hs & E). cbn [read rest] in Hs. subst s.
  destruct (split_unique not_sep _ _ "=" (y +:+ " ; " +:+ t) "=" s' Hw Hw' eq_refl eq_refl Hr) as [_ [= <-]].
  rewrite exec_seq, exec_group in E. apply exec_plus_inv in E as (d & y' & s & Hr' & Hy' & E).
  cbn [read rest] in Hr'. rewrite exec_eps, exec_seq in E.
  assert (all_in hex y = true) as Hy2 by by destruct y.
  destruct (stops_split hex _ y s " " ("; " +:+ t) Hy' Hy2 eq_refl) as (v & -> & ->); [by symmetry|].
  destruct v as [|a v].
  - unfold read in E. cbn [rest seen groups] in E. rewrite append_nil_l in E.
    change ("; " +:+ t) with (String ";" (String " " t)) in E.
    rewrite sp1_one in E by done. by rewrite csr_none in E.
  - unfold sp1 in E. rewrite exec_plus_no in E; [done|]. cbn [read rest]. rewrite append_cons. cbn [stops].
    rewrite all_in_app in Hy2. apply andb_true_iff in Hy2 as [_ Hy2]. cbn in Hy2.
    apply andb_true_iff in Hy2 as [Ha _]. by apply hex_not_space.
Qed.

Definition csr_groups (a : option (string * string)) : list (nat * string) :=
  match a with Some (x, y) => [(8, y); (7, x)] | None => [] end.
Definition reg_groups (a : option (string * string)) : list (nat * string) :=
  match a with Some (x, y) => [(6, y); (5, x)] | None => [] end.

(** The blanks and the CSR, if any, after the register. *)
Lemma csr_field a sn gs : assigned_ok a = true -> exists sn',
  run (Seq sp1 INSTR_RE_csr) sn (" " +:+ rjust 14 (assigned a 13) +:+ " ; " +:+ t) gs Some
  = Some (MState sn' EmptyString ((9, t) :: csr_groups a ++ gs)).
Proof using Ht.
  intros Ha. destruct a as [[x y]|]; cbn [assigned assigned_ok csr_groups app] in *.
  - apply andb_true_iff in Ha as [Hx Hy]. unfold rjust. set (b := 14 - _). clearbody b.
    destruct (assigned_csr x y (rev_str (repeat_str " " (S b)) sn) gs Hx Hy) as [sn' H]. exists sn'.
    rewrite exec_seq. eapply (exec_plus _ _ " " (repeat_str " " b)); [| | |exact H].
    + cbn [rest]. rewrite append_cons, append_nil_l, append_cons. by rewrite !append_assoc.
    + exact (all_in_blanks (S b)).
    + destruct x as [|c x]; [done|]. rewrite append_cons. cbn [stops]. cbn in Hx.
      unfold name_char in Hx. by destruct (not_sep c), (is_space c).
  - exact (blanks_csr 14 sn gs).
Qed.

(** A register leaves a blank before it. *)
Definition fits (a : option (string * string)) : bool :=
  match a with Some (x, y) => String.length x + String.length y <=? 11 | None => true end.

Lemma name_not_space x s : number name_char x = true -> stops is_space (x +:+ s) = true.
Proof.
  destruct x as [|c x]; [done|]. rewrite append_cons. cbn. unfold name_char.
  by destruct (not_sep c), (is_space c).
Qed.

(** No register and no CSR. *)
Lemma blanks_reg m sn gs : exists sn',
  run INSTR_RE_reg sn (repeat_str " " (S (S (S m))) +:+ String ";" (String " " t)) gs Some
  = Some (MState sn' EmptyString ((9, t) :: gs)).
Proof using Ht.
  destruct (blanks_csr 0 (rev_str (repeat_str " " (S m)) sn) gs) as [sn' H]. exists sn'.
  unfold INSTR_RE_reg. rewrite exec_seq.
  eapply (exec_plus_back _ _ "  " (String ";" (String " " t)) _ " " (repeat_str " " m)).
  - done.
  - done.
  - cbn [rest]. replace (S (S (S m))) with (S m + 2) by lia. by rewrite <- blanks_add, append_assoc.
  - exact (all_in_blanks (S m)).
  - intros v1 d v2 E. unfold read. cbn [seen groups].
    assert (v2 = EmptyString \/ v2 = " ") as Hv2.
    { destruct v1 as [|? [|? [|? v1]]]; [injection E as <- <-; by right|injection E as _ _ <-; by left|done..]. }
    rewrite exec_seq, exec_opt_none; [|apply no_assignment; by destruct Hv2 as [-> | ->]].
    rewrite exec_seq. destruct Hv2 as [-> | ->].
    + by apply exec_plus_no.
    + change (" " +:+ String ";" (String " " t)) with (String " " (String ";" (String " " t))).
      rewrite sp1_one by done. by rewrite csr_none.
  - unfold read. cbn [seen groups]. rewrite exec_seq.
    rewrite exec_opt_none; [|by apply (no_assignment 5 6 "  ")]. exact H.
Qed.

(** A CSR and no register. *)
Lemma csr_reg x y b sn gs : number name_char x = true -> number hex y = true -> exists sn',
  run INSTR_RE_reg sn (repeat_str " " (S (S b)) +:+ x +:+ "=" +:+ y +:+ " ; " +:+ t) gs Some
  = Some (MState sn' EmptyString ((9, t) :: (8, y) :: (7, x) :: gs)).
Proof using Ht.
  intros Hx Hy.
  destruct (assigned_csr x y (String " " (rev_str (repeat_str " " (S b)) sn)) gs Hx Hy) as [sn' H]. exists sn'.
  assert (all_in not_sep x = true) as Hx'.
  { destruct x; [done|]. apply (all_in_impl _ _ _ (fun c H => proj1 (andb_prop _ _ H)) Hx). }
  unfold INSTR_RE_reg. rewrite exec_seq.
  eapply (exec_plus_back _ _ " " (x +:+ "=" +:+ y +:+ " ; " +:+ t) _ " " (repeat_str " " b)).
  - by apply name_not_space.
  - done.
  - cbn [rest]. replace (S (S b)) with (S b + 1) by lia. by rewrite <- blanks_add, append_assoc.
  - exact (all_in_blanks (S b)).
  - intros v1 d v2 E. unfold read. cbn [seen groups].
    assert (v2 = EmptyString) as ->.
    { destruct v1 as [|? [|? v1]]; [by injection E as <- <-|done..]. }
    rewrite append_nil_l, exec_seq, exec_opt_none; [|by apply no_reg].
    rewrite exec_seq. apply exec_plus_no. by apply name_not_space.
  - unfold read. cbn [seen groups]. rewrite exec_seq.
    rewrite exec_opt_none; [|apply (no_reg (" " +:+ x)); done].
    rewrite exec_seq. destruct x as [|c x]; [done|].
    change (" " +:+ String c x +:+ ?u) with (String " " (String c (x +:+ u))).
    rewrite sp1_one; [exact H|].
    cbn in Hx. unfold name_char in Hx. by destruct (not_sep c), (is_space c).
Qed.

(** The two fields of an instruction line. *)
Lemma reg_field a c sn gs : assigned_ok a = true -> fits a = true -> assigned_ok c = true -> exists sn',
  run INSTR_RE_reg sn (rjust 13 (assigned a 12) +:+ " " +:+ rjust 14 (assigned c 13) +:+ " ; " +:+ t) gs Some
  = Some (MState sn' EmptyString ((9, t) :: csr_groups c ++ reg_groups a ++ gs)).
Proof using Ht.
  intros Ha Hf Hc. destruct a as [[x y]|]; cbn [assigned assigned_ok fits reg_groups app] in *.
  - apply andb_true_iff in Ha as [Hx Hy]. apply Nat.leb_le in Hf.
    unfold rjust at 1. rewrite !length_append. cbn [String.length].
    destruct (13 - _) as [|b] eqn:Eb; [lia|]. clear Eb Hf.
    destruct (csr_field c (rev_str y (String "=" (rev_str x (rev_str (repeat_str " " (S b)) sn))))
                ((6, y) :: (5, x) :: gs) Hc) as [sn' H].
    exists sn'. unfold INSTR_RE_reg. rewrite exec_seq.
    eapply (exec_plus _ _ " " (repeat_str " " b)); [| |by apply name_not_space|].
    + cbn [rest]. by rewrite !append_assoc.
    + exact (all_in_blanks (S b)).
    + rewrite exec_seq. apply exec_opt_some. eapply assignment_ok; [done|done|reflexivity|]. exact H.
  - destruct c as [[x y]|]; cbn [assigned assigned_ok csr_groups app] in *.
    + apply andb_true_iff in Hc as [Hx Hy]. unfold rjust at 2. set (b := 14 - _). clearbody b.
      destruct (csr_reg x y (12 + b) sn gs Hx Hy) as [sn' H]. exists sn'. rewrite <- H. f_equal. f_equal.
      rewrite !append_assoc. change (S (S (12 + b))) with (13 + (1 + b)).
      rewrite <- (blanks_add 13), <- (blanks_add 1), !append_assoc. done.
    + exact (blanks_reg 26 sn gs).
Qed.
End Line.

(** *** The beginning of a line *)

Definition cycle_re (r : re) : re :=
  Seq Bol (Seq sp0 (Seq (Group 1 (Plus (Chr digit))) (Seq sp1 (Seq (Lit ":") (Seq sp1 r))))).

Lemma digit_not_space c : digit c = true -> negb (is_space c) = true.
Proof. destruct c as [[] [] [] [] [] [] [] []]; (reflexivity || discriminate). Qed.

Lemma cycle_ok r cyc n u g : number digit cyc = true -> stops is_space u = true ->
  (forall sn, exists sn', exec r (MState sn u [(1, cyc)]) Some = Some (MState sn' EmptyString g)) ->
  exists sn', re_match (cycle_re r) (cyc +:+ " : " +:+ repeat_str " " n +:+ u) = Some (MState sn' EmptyString g).
Proof.
  intros Hc Hu H. destruct cyc as [|c cyc]; [done|].
  destruct (H (rev_str (" " +:+ repeat_str " " n) (rev_str ":" (rev_str " " (rev_str (String c cyc) EmptyString)))))
    as [sn' E]. exists sn'.
  unfold re_match, match_at, cycle_re. cbn [seen rest groups]. rewrite exec_seq, exec_bol.
  rewrite exec_seq. eapply (exec_star _ _ EmptyString); [reflexivity|done| |].
  { rewrite append_cons. cbn [stops]. apply digit_not_space. cbn in Hc. by apply andb_true_iff in Hc as [Hc _]. }
  rewrite exec_seq. eapply exec_group_plus; [reflexivity|exact Hc|reflexivity|].
  rewrite exec_seq. eapply (exec_plus _ _ " " EmptyString); [reflexivity|done|reflexivity|].
  rewrite exec_seq. eapply exec_lit; [reflexivity|].
  rewrite exec_seq. eapply (exec_plus _ _ " " (repeat_str " " n)); [reflexivity|apply (all_in_blanks (S n))|exact Hu|].
  exact E.
Qed.

(** Blanks and then a character that is none. *)
Lemma sp1_lit_inv w a l b z r sn gs k res :
  all_in is_space w = true -> is_space a = false -> is_space b = false ->
  run (Seq sp1 (Seq (Lit (String a l)) r)) sn (w +:+ String b z) gs k = Some res ->
  exists s sn', String b z = String a l +:+ s /\ exec r (MState sn' s gs) k = Some res.
Proof.
  intros Hw Ha Hb H. rewrite exec_seq in H. apply exec_plus_inv in H as (c & w' & s & E & Hw' & H). cbn [rest] in E.
  rewrite exec_seq in H. apply exec_lit_inv in H as (s' & Hs & H). cbn [read rest] in Hs. subst s.
  destruct (split_unique is_space _ _ b z a (l +:+ s') Hw Hw' Hb Ha E) as [_ E']. 
  exists s', (rev_str (String a l) (rev_str (String c w') sn)). split; [exact E'|exact H].
Qed.

Lemma cycle_inv r cyc n u res :
  number digit cyc = true -> stops is_space u = true ->
  re_match (cycle_re r) (cyc +:+ " : " +:+ repeat_str " " n +:+ u) = Some res ->
  exists w sn gs, all_in is_space w = true /\ exec r (MState sn (w +:+ u) gs) Some = Some res.
Proof.
  intros Hc Hu H. destruct cyc as [|c cyc]; [done|].
  unfold re_match, match_at, cycle_re in H. cbn [seen rest groups] in H. rewrite exec_seq, exec_bol in H.
  rewrite exec_seq in H. apply exec_star_inv in H as (w0 & s0 & E0 & Hw0 & H).
  assert (w0 = EmptyString) as ->.
  { destruct w0 as [|d w0]; [done|]. rewrite !append_cons in E0. injection E0 as <- _.
    cbn in Hw0, Hc. apply andb_true_iff in Hw0 as [Hw0 _], Hc as [Hc _].
    apply digit_not_space in Hc. by rewrite Hw0 in Hc. }
  rewrite append_nil_l in E0. subst s0. unfold read in H. cbn [seen groups rev_str] in H.
  rewrite exec_seq, exec_group in H. apply exec_plus_inv in H as (d & cyc' & s & E & Hd & H). cbn [rest] in E.
  rewrite exec_seq in H. apply exec_plus_inv in H as (b & w1 & s1 & E1 & Hw1 & H). cbn [read rest] in E1. subst s.
  rewrite exec_seq in H. apply exec_lit_inv in H as (s2 & E2 & H). cbn [read rest] in E2. subst s1.
  assert (is_space b = true) as Hb by (cbn in Hw1; by apply andb_true_iff in Hw1 as [Hb _]).
  assert (digit b = false) as Hb'.
  { destruct (digit b) eqn:Eb; [|done]. apply digit_not_space in Eb. by rewrite Hb in Eb. }
  destruct (split_unique digit _ _ " " (": " +:+ repeat_str " " n +:+ u) b (w1 +:+ ":" +:+ s2) Hc Hd eq_refl Hb' E)
    as [_ E3].
  destruct (split_unique is_space " " (String b w1) ":" (" " +:+ repeat_str " " n +:+ u) ":" s2 eq_refl Hw1 eq_refl eq_refl E3)
    as [_ [= E4]].
  rewrite exec_seq in H. apply exec_plus_inv in H as (e & w2 & s3 & E5 & Hw2 & H). cbn [read rest] in E5.
  rewrite <- E4 in E5.
  destruct (run_split is_space (" " +:+ repeat_str " " n) (String e w2) u s3) as (w & Hw & ->);
    [apply (all_in_blanks (S n))|done|done|exact E5|].
  exists w. do 2 eexists. split; [exact Hw|exact H].
Qed.

(** *** Instruction lines *)

Definition instr_ok (i : instr_item) : bool :=
  number digit (i_cycle i) && number digit (i_count i) && number hex (i_pc i) && number hex (i_opc i)
  && assigned_ok (i_gpr i) && fits (i_gpr i) && assigned_ok (i_csr i) && text_ok (i_text i)
  && negb (starts_with "nbL" (i_text i)) && negb (starts_with "nbD" (i_text i)).

Lemma instr_ok_and i : instr_ok i = true ->
  number digit (i_cycle i) = true /\ number digit (i_count i) = true /\ number hex (i_pc i) = true /\
  number hex (i_opc i) = true /\ assigned_ok (i_gpr i) = true /\ fits (i_gpr i) = true /\
  assigned_ok (i_csr i) = true /\ text_ok (i_text i) = true /\
  starts_with "nbL" (i_text i) = false /\ starts_with "nbD" (i_text i) = false.
Proof. unfold instr_ok. rewrite !andb_true_iff, !negb_true_iff. tauto. Qed.

Definition instr_of (i : instr_item) : instr_groups :=
  {| pc := i_pc i; opc := i_opc i; reg := fst <$> i_gpr i; val := snd <$> i_gpr i;
     csr := fst <$> i_csr i; csr_val := snd <$> i_csr i; text := i_text i |}.

Lemma fits_blank a s : fits a = true -> exists s', rjust 13 (assigned a 12) +:+ s = String " " s'.
Proof.
  unfold rjust. destruct a as [[x y]|]; cbn [fits assigned]; intros H; [|by eexists].
  apply Nat.leb_le in H. rewrite !length_append. cbn [String.length].
  destruct (13 - _) as [|b] eqn:Eb; [lia|]. by eexists.
Qed.

Lemma instr_body_match i : instr_ok i = true ->
  exists sn, re_match INSTR_RE (instr_body i) = Some (MState sn EmptyString
    ((9, i_text i) :: csr_groups (i_csr i) ++ reg_groups (i_gpr i)
     ++ [(4, i_opc i); (3, i_pc i); (2, i_count i); (1, i_cycle i)])).
Proof.
  intros (Hcy & Hco & Hpc & Hop & Ha & Hf & Hc & Ht & _)%instr_ok_and.
  unfold instr_body, rjust at 1. rewrite append_assoc.
  apply cycle_ok; [done|done|]. intros sn.
  destruct (i_count i) as [|c1 count] eqn:E1; [done|]. destruct (i_pc i) as [|c2 p] eqn:E2; [done|].
  destruct (i_opc i) as [|c3 o] eqn:E3; [done|].
  set (F := rjust 13 _ +:+ _). 
  destruct (fits_blank (i_gpr i) (" " +:+ rjust 14 (assigned (i_csr i) 13) +:+ " ; " +:+ i_text i) Hf) as [F' EF].
  edestruct (reg_field (i_text i) Ht (i_gpr i) (i_csr i)) as [sn' H]; [exact Ha|exact Hf|exact Hc|].
  exists sn'.
  rewrite exec_seq. eapply (exec_lit _ "#"); [reflexivity|].
  rewrite exec_seq. eapply exec_group_plus; [reflexivity|exact Hco|reflexivity|].
  rewrite exec_seq. eapply (exec_plus _ _ " " EmptyString); [reflexivity|done|reflexivity|].
  rewrite exec_seq. eapply exec_lit; [reflexivity|].
  rewrite exec_seq. eapply (exec_plus _ _ " " EmptyString); [reflexivity|done| |].
  { cbn. apply hex_not_space. cbn in Hpc. by apply andb_true_iff in Hpc as [? _]. }
  rewrite exec_seq. eapply exec_group_plus; [reflexivity|exact Hpc|reflexivity|].
  rewrite exec_seq. eapply (exec_plus _ _ " " EmptyString); [reflexivity|done| |].
  { cbn. apply hex_not_space. cbn in Hop. by apply andb_true_iff in Hop as [? _]. }
  rewrite exec_seq. eapply exec_group_plus; [reflexivity|exact Hop| |exact H].
  subst F. by rewrite EF.
Qed.

(** *** Late writes *)

Definition nb_ok (n : nb_item) : bool :=
  number digit (n_cycle n) && number name_char (n_reg n) && negb (starts_with "#" (n_reg n))
  && number hex (n_val n).

Lemma nb_ok_and n : nb_ok n = true ->
  number digit (n_cycle n) = true /\ number name_char (n_reg n) = true /\
  starts_with "#" (n_reg n) = false /\ number hex (n_val n) = true.
Proof. unfold nb_ok. rewrite !andb_true_iff, negb_true_iff. tauto. Qed.

Lemma nb_name_match k sn gs :
  run (Group 4 (Alt (Lit "nbL") (Lit "nbD"))) sn (nb_name k) gs Some
  = Some (MState (rev_str (nb_name k) sn) EmptyString ((4, nb_name k) :: gs)).
Proof. by destruct k. Qed.

Lemma nb_body_match n : nb_ok n = true ->
  exists sn, re_match NB_RE (nb_body n) = Some (MState sn EmptyString
    [(4, nb_name (n_kind n)); (3, n_val n); (2, n_reg n); (1, n_cycle n)]).
Proof.
  intros (Hcy & Hr & _ & Hv)%nb_ok_and. unfold nb_body, rjust. rewrite append_assoc.
  apply cycle_ok; [done|by apply name_not_space|]. intros sn.
  destruct (n_reg n) as [|c1 r] eqn:E1; [done|]. destruct (n_val n) as [|c2 v] eqn:E2; [done|]. eexists.
  unfold assignment. rewrite exec_seq. eapply exec_group_plus; [reflexivity| |reflexivity|].
  { apply (all_in_impl _ _ _ (fun c H => proj1 (andb_prop _ _ H)) Hr). }
  rewrite exec_seq. eapply exec_lit; [reflexivity|].
  rewrite exec_seq. eapply exec_group_plus; [reflexivity|exact Hv|reflexivity|].
  rewrite exec_seq. eapply (exec_plus _ _ " " (repeat_str " " 15)); [reflexivity|done|reflexivity|].
  rewrite exec_seq. eapply exec_lit; [reflexivity|].
  rewrite exec_seq. eapply (exec_plus _ _ " " EmptyString); [reflexivity|done|by destruct (n_kind n)|].
  apply nb_name_match.
Qed.

(** After [name=value] the expression goes on at the blank, or inside the value. *)
Lemma assignment_inv n v r w y q sn gs k res :
  all_in not_sep w = true -> number hex y = true ->
  run (assignment n v r) sn (w +:+ "=" +:+ y +:+ String " " q) gs k = Some res ->
  exists sn' gs' u, exec r (MState sn' u gs') k = Some res /\
    (u = String " " q \/ exists a u', u = String a u' /\ is_space a = false).
Proof.
  intros Hw Hy E. unfold assignment in E. rewrite exec_seq, exec_group in E.
  apply exec_plus_inv in E as (c & w' & s & Hr & Hw' & E). cbn [rest] in Hr.
  rewrite exec_seq in E. apply exec_lit_inv in E as (s' & Hs & E). cbn [read rest] in Hs. subst s.
  destruct (split_unique not_sep _ _ "=" (y +:+ String " " q) "=" s' Hw Hw' eq_refl eq_refl Hr) as [_ [= <-]].
  rewrite exec_seq, exec_group in E. apply exec_plus_inv in E as (d & y' & s & Hr' & Hy' & E).
  cbn [read rest] in Hr'.
  assert (all_in hex y = true) as Hy2 by by destruct y.
  destruct (stops_split hex _ y s " " q Hy' Hy2 eq_refl) as (x & -> & ->); [by symmetry|].
  do 3 eexists. split; [exact E|]. cbn [read rest]. destruct x as [|a x]; [by left|right].
  exists a, (x +:+ String " " q). split; [done|].
  rewrite all_in_app in Hy2. apply andb_true_iff in Hy2 as [_ Hy2]. cbn in Hy2.
  apply andb_true_iff in Hy2 as [Ha _]. by apply negb_true_iff, hex_not_space.
Qed.

(** [\s+;\s+(nbL|nbD)] *)
Definition nb_end : re := Seq sp1 (Seq (Lit ";") (Seq sp1 (Group 4 (Alt (Lit "nbL") (Lit "nbD"))))).

Lemma nb_end_start a u sn gs k : is_space a = false -> run nb_end sn (String a u) gs k = None.
Proof. intros H. unfold nb_end. rewrite exec_seq. apply exec_plus_no. cbn. by rewrite H. Qed.

Lemma lit_none w sn s gs k : starts_with w s = false -> run (Lit w) sn s gs k = None.
Proof.
  intros H. destruct (exec _ _ _) as [res|] eqn:E; [|done].
  apply exec_lit_inv in E as (s' & Hs & _). cbn in Hs. subst s. exfalso.
  induction w as [|c w IH]; [by destruct s'|]. rewrite append_cons in H. cbn [starts_with] in H.
  rewrite Ascii.eqb_refl in H. by apply IH.
Qed.

Lemma nb_end_other w b z sn gs k :
  all_in is_space w = true -> is_space b = false -> b <> ";"%char -> run nb_end sn (w +:+ String b z) gs k = None.
Proof.
  intros Hw Hb Hn. destruct (exec _ _ _) as [res|] eqn:E; [|done].
  by apply sp1_lit_inv in E as (s & sn' & [= Eb _] & _).
Qed.

Lemma nb_end_text w t sn gs k :
  text_ok t = true -> starts_with "nbL" t = false -> starts_with "nbD" t = false ->
  all_in is_space w = true -> run nb_end sn (w +:+ "; " +:+ t) gs k = None.
Proof.
  intros Ht HL HD Hw. destruct (exec _ _ _) as [res|] eqn:E; [|done].
  apply sp1_lit_inv in E as (s & sn' & [= Es] & E); [|done..].
  rewrite append_nil_l in Es. subst s.
  destruct (text_first t Ht) as (c & t' & Et & Hc).
  change (" " +:+ t) with (String " " t) in E. rewrite exec_seq, Et, sp1_one in E by done.
  rewrite <- Et, exec_group in E. cbn [exec] in E.
  rewrite lit_none in E by done. by rewrite lit_none in E by done.
Qed.

(** *** The other expression *)

Lemma number_all p s : number p s = true -> all_in p s = true.
Proof. by destruct s. Qed.

Lemma number_not_sep p s :
  (forall c, p c = true -> not_sep c = true) -> number p s = true -> all_in not_sep s = true.
Proof. intros H Hs. apply (all_in_impl _ _ _ H). by apply number_all. Qed.

Lemma digit_not_sep c : digit c = true -> not_sep c = true.
Proof. destruct c as [[] [] [] [] [] [] [] []]; (reflexivity || discriminate). Qed.
Lemma hex_not_sep c : hex c = true -> not_sep c = true.
Proof. destruct c as [[] [] [] [] [] [] [] []]; (reflexivity || discriminate). Qed.
Lemma name_not_sep c : name_char c = true -> not_sep c = true.
Proof. unfold name_char. by destruct (not_sep c). Qed.
Lemma space_not_sep c : is_space c = true -> not_sep c = true.
Proof. destruct c as [[] [] [] [] [] [] [] []]; (reflexivity || discriminate). Qed.

Lemma nb_after_reg c t w : assigned_ok c = true -> text_ok t = true ->
  starts_with "nbL" t = false -> starts_with "nbD" t = false -> all_in is_space w = true ->
  forall sn gs k, run nb_end sn (w +:+ rjust 14 (assigned c 13) +:+ " ; " +:+ t) gs k = None.
Proof.
  intros Hc Ht HL HD Hw sn gs k. unfold rjust. destruct c as [[x y]|]; cbn [assigned assigned_ok] in *.
  - apply andb_true_iff in Hc as [Hx _]. destruct x as [|a x]; [done|].
    rewrite append_assoc, <- append_assoc. rewrite append_cons, (append_cons a).
    cbn in Hx. unfold name_char, not_sep in Hx. apply nb_end_other.
    + by rewrite all_in_app, Hw, all_in_blanks.
    + by destruct (Ascii.eqb a "="), (Ascii.eqb a ";"), (is_space a).
    + intros ->. by destruct (is_space ";").
  - pose proof (nb_end_text (w +:+ repeat_str " " 15) t sn gs k Ht HL HD) as H.
    rewrite append_assoc in H. apply H. by rewrite all_in_app, Hw.
Qed.

Lemma instr_body_no_nb i : instr_ok i = true -> re_match NB_RE (instr_body i) = None.
Proof.
  intros (Hcy & Hco & Hpc & Hop & Ha & Hf & Hc & Ht & HL & HD)%instr_ok_and.
  destruct (re_match _ _) as [res|] eqn:E; [|done].
  unfold instr_body, rjust at 1 in E. rewrite append_assoc in E.
  apply (cycle_inv (assignment 2 3 nb_end)) in E as (w & sn & gs & Hw & E); [|done..].
  set (P := w +:+ "#" +:+ i_count i +:+ " 0 " +:+ i_pc i +:+ " " +:+ i_opc i).
  assert (all_in not_sep P = true) as HP.
  { subst P. rewrite !all_in_app, (all_in_impl _ _ _ space_not_sep Hw),
      (number_not_sep _ _ digit_not_sep Hco), (number_not_sep _ _ hex_not_sep Hpc),
      (number_not_sep _ _ hex_not_sep Hop). done. }
  assert (exists F, F = rjust 13 (assigned (i_gpr i) 12) +:+ " " +:+ rjust 14 (assigned (i_csr i) 13) +:+ " ; " +:+ i_text i /\
    run (assignment 2 3 nb_end) sn (P +:+ F) gs Some = Some res) as (F & EF & E').
  { eexists. split; [reflexivity|]. rewrite <- E. subst P. by rewrite !append_assoc. }
  clear E. destruct (i_gpr i) as [[x y]|] eqn:Eg; cbn [assigned assigned_ok] in *.
  - apply andb_true_iff in Ha as [Hx Hy].
    destruct (assignment_inv 2 3 nb_end (P +:+ repeat_str " " (13 - String.length (x +:+ "=" +:+ y)) +:+ x) y
      (rjust 14 (assigned (i_csr i) 13) +:+ " ; " +:+ i_text i) sn gs Some res) as (sn' & gs' & u & E & Hu).
    + by rewrite !all_in_app, HP, not_sep_blanks, (number_not_sep _ _ name_not_sep Hx).
    + done.
    + rewrite <- E', EF. unfold rjust at 2. by rewrite !append_assoc.
    + destruct Hu as [-> |(a & u' & -> & Hs)]; [|by rewrite nb_end_start in E].
      pose proof (nb_after_reg (i_csr i) (i_text i) " " Hc Ht HL HD eq_refl sn' gs' Some) as H.
      by rewrite <- H, <- E.
  - destruct (i_csr i) as [[x y]|] eqn:Ec; cbn [assigned assigned_ok] in *.
    + apply andb_true_iff in Hc as [Hx Hy].
      destruct (assignment_inv 2 3 nb_end (P +:+ repeat_str " " (14 + (14 - String.length (x +:+ "=" +:+ y))) +:+ x) y
        ("; " +:+ i_text i) sn gs Some res) as (sn' & gs' & u & E & Hu).
      * by rewrite !all_in_app, HP, not_sep_blanks, (number_not_sep _ _ name_not_sep Hx).
      * done.
      * rewrite <- E', EF. unfold rjust at 2. rewrite <- blanks_add. by rewrite !append_assoc.
      * destruct Hu as [-> |(a & u' & -> & Hs)]; [|by rewrite nb_end_start in E].
        pose proof (nb_end_text " " (i_text i) sn' gs' Some Ht HL HD eq_refl) as H. by rewrite <- H, <- E.
    + rewrite EF in E'.
      pose proof (no_assignment 2 3 (P +:+ repeat_str " " 29) (" " +:+ i_text i) sn gs Some nb_end) as H.
      rewrite append_assoc in H. rewrite <- E', <- H; [done|]. by rewrite all_in_app, HP.
Qed.

Lemma nb_body_no_instr n : nb_ok n = true -> re_match INSTR_RE (nb_body n) = None.
Proof.
  intros (Hcy & Hr & Hh & Hv)%nb_ok_and. destruct (re_match _ _) as [res|] eqn:E; [|done].
  unfold nb_body, rjust in E. rewrite append_assoc in E.
  apply cycle_inv in E as (w & sn & gs & Hw & E); [|done|by apply name_not_space].
  rewrite exec_seq in E. apply exec_lit_inv in E as (s & Hs & _). cbn [rest] in Hs.
  destruct w as [|c w].
  - rewrite append_nil_l in Hs. destruct (n_reg n) as [|c r]; [done|].
    rewrite !append_cons in Hs. injection Hs as -> _. done.
  - rewrite !append_cons in Hs. injection Hs as -> _. done.
Qed.

(** *** Stripping a line *)

Lemma rstrip_blank_end s c : is_space c = true -> rstrip (s +:+ String c EmptyString) = rstrip s.
Proof.
  intros Hc. induction s as [|a s IH]; [rewrite append_nil_l; cbn; by rewrite Hc|].
  rewrite append_cons. cbn [rstrip]. by rewrite IH.
Qed.

Lemma rstrip_append a t : t <> EmptyString -> rstrip t = t -> rstrip (a +:+ t) = a +:+ t.
Proof.
  intros Hn Ht. induction a as [|c a IH]; [by rewrite append_nil_l|].
  rewrite append_cons. cbn [rstrip]. rewrite IH. destruct (a +:+ t) eqn:E; [|done].
  destruct a; [by rewrite append_nil_l in E|done].
Qed.

Lemma strip_line n c b t :
  is_space c = false -> t <> EmptyString -> rstrip t = t ->
  strip (repeat_str " " n +:+ (String c b +:+ t) +:+ newline) = String c b +:+ t.
Proof.
  intros Hc Hn Ht. unfold strip.
  assert (lstrip (repeat_str " " n +:+ (String c b +:+ t) +:+ newline) = (String c b +:+ t) +:+ newline) as ->.
  { induction n as [|n IH]; [|exact IH]. rewrite append_nil_l, !append_cons. cbn [lstrip]. by rewrite Hc. }
  unfold newline. rewrite rstrip_blank_end by done. by apply rstrip_append.
Qed.

(** ** Logs *)

Inductive log_item := LInstr (i : instr_item) | LNb (n : nb_item) | LOther (s : string).

Definition item_text (l : log_item) : string :=
  match l with LInstr i => instr_text i | LNb n => nb_text n | LOther s => s end.
Definition item_line (l : log_item) : line :=
  match l with
  | LInstr i => {| instr_match := Some (instr_of i); nb_match := None |}
  | LNb n => {| instr_match := None;
                nb_match := Some {| nb_reg := n_reg n; nb_val := n_val n; nb_mnemonic := nb_name (n_kind n) |} |}
  | LOther _ => {| instr_match := None; nb_match := None |}
  end.
Definition item_ok (l : log_item) : bool :=
  match l with
  | LInstr i => instr_ok i
  | LNb n => nb_ok n
  | LOther s =>
      match re_match INSTR_RE (strip s), re_match NB_RE (strip s) with None, None => true | _, _ => false end
  end.

Lemma strip_instr i : instr_ok i = true -> strip (instr_text i) = instr_body i.
Proof.
  intros (Hcy & _ & _ & _ & _ & _ & _ & Ht & _)%instr_ok_and.
  destruct (text_first _ Ht) as (c & t' & Et & _). apply andb_true_iff in Ht as [_ Hr%String.eqb_eq].
  unfold instr_text, instr_body. destruct (i_cycle i) as [|a cyc]; [done|].
  assert (is_space a = false) as Ha.
  { cbn in Hcy. apply andb_true_iff in Hcy as [Hcy _]. by apply negb_true_iff, digit_not_space. }
  pose proof (strip_line (10 - String.length (String a cyc)) a
    (cyc +:+ " : " +:+ rjust 8 ("#" +:+ i_count i) +:+ " 0 " +:+ i_pc i +:+ " " +:+ i_opc i
      +:+ rjust 13 (assigned (i_gpr i) 12) +:+ " " +:+ rjust 14 (assigned (i_csr i) 13) +:+ " ; ") (i_text i)
    Ha ltac:(by rewrite Et) Hr) as H.
  etransitivity; [|etransitivity; [exact H|]]; by repeat (rewrite append_cons || rewrite append_assoc || rewrite append_nil_l).
Qed.

Lemma strip_nb n : nb_ok n = true -> strip (nb_text n) = nb_body n.
Proof.
  intros (Hcy & _)%nb_ok_and. unfold nb_text, nb_body. destruct (n_cycle n) as [|a cyc]; [done|].
  assert (is_space a = false) as Ha.
  { cbn in Hcy. apply andb_true_iff in Hcy as [Hcy _]. by apply negb_true_iff, digit_not_space. }
  pose proof (strip_line (10 - String.length (String a cyc)) a
    (cyc +:+ " : " +:+ rjust 32 (n_reg n) +:+ "=" +:+ n_val n +:+ repeat_str " " 16 +:+ "; ") (nb_name (n_kind n))
    Ha ltac:(by destruct (n_kind n)) ltac:(by destruct (n_kind n))) as H.
  etransitivity; [|etransitivity; [exact H|]]; by repeat (rewrite append_cons || rewrite append_assoc || rewrite append_nil_l).
Qed.

(** A printed line is read back. *)
Lemma match_item l : item_ok l = true -> match_line (item_text l) = item_line l.
Proof.
  destruct l as [i|n|s]; cbn [item_ok item_text item_line]; intros H; unfold match_line.
  - rewrite strip_instr by done. destruct (instr_body_match i H) as [sn ->].
    rewrite (instr_body_no_nb i H). cbn [fmap option_fmap option_map]. f_equal. f_equal.
    destruct i as [cy co p o [[x y]|] [[x' y']|] t]; reflexivity.
  - rewrite strip_nb by done. destruct (nb_body_match n H) as [sn ->].
    by rewrite (nb_body_no_instr n H).
  - by destruct (re_match INSTR_RE _), (re_match NB_RE _).
Qed.

(** The lines are matched as they were meant, and the parser follows. *)
Lemma match_items items :
  forallb item_ok items = true -> match_line <$> (item_text <$> items) = item_line <$> items.
Proof.
  induction items as [|l items IH]; [done|]. cbn. intros [Hl Hok]%andb_true_iff.
  f_equal; [by apply match_item|by apply IH].
Qed.

Lemma parse_items fresh items :
  e_gpr fresh = [] -> forallb item_ok items = true -> wf_log [] (item_line <$> items) ->
  parse_log_text fresh (item_text <$> items) = Ok (expected fresh (item_line <$> items)) \/
  (1000 <= length items)%nat /\ parse_log_text fresh (item_text <$> items) = Raise AssertionError.
Proof.
  intros Hf Hok Hw. unfold parse_log_text. rewrite match_items by done.
  destruct (wf_log_correct fresh Hf [] _ Hw [] []) as [H|[Hl H]]; [constructor|done|by left|right].
  split; [|done]. by rewrite length_fmap in Hl.
Qed.

(** On the text of a log, printed by the trace monitor of the bench, the
    parser returns the trace in program order: the regular expressions give back
    the fields of every line, whether it has a register, a CSR, both or none, a
    late write is never taken for an instruction nor the other way round, and the
    late values reach their instructions.  Longer logs may also end in the
    assertion that bounds the queue. *)
Theorem log_text_correct (fresh : entry) (items : list log_item) :
  e_gpr fresh = [] -> forallb item_ok items = true -> wf_log [] (item_line <$> items) ->
  match_line <$> (item_text <$> items) = item_line <$> items /\
  (parse_log_text fresh (item_text <$> items) = Ok (expected fresh (item_line <$> items)) \/
   (1000 <= length items)%nat /\ parse_log_text fresh (item_text <$> items) = Raise AssertionError).
Proof. intros Hf Hok Hw. split; [by apply match_items|by apply parse_items]. Qed.

Definition example_items : list log_item :=
  [LOther ("//   Cycle : #inst    0    pc    opcode    reg=value    csr=value     ; mnemonic" +:+ newline);
   LInstr {| i_cycle := "521"; i_count := "1"; i_pc := "80000000"; i_opc := "00012503"; i_gpr := None;
             i_csr := None; i_text := "lw     a0,0(sp) [f0040000]" |};
   LInstr {| i_cycle := "523"; i_count := "2"; i_pc := "80000004"; i_opc := "305292f3"; i_gpr := Some ("t0", "00000001");
             i_csr := Some ("c305", "ee000000"); i_text := "csrrw  t0,mtvec,t0" |};
   LInstr {| i_cycle := "524"; i_count := "3"; i_pc := "80000008"; i_opc := "30529073"; i_gpr := None;
             i_csr := Some ("c305", "ee000000"); i_text := "csrrw  zero,mtvec,t0" |};
   LNb {| n_cycle := "530"; n_kind := Load; n_reg := "a0"; n_val := "0000002a" |};
   LInstr {| i_cycle := "532"; i_count := "4"; i_pc := "8000000c"; i_opc := "00000073"; i_gpr := None;
             i_csr := None; i_text := "ecall" |}].

Lemma example_wf : wf_log [] (item_line <$> example_items).
Proof.
  cbn. apply wf_other; [done..|].
  eapply (wf_delayed _ _ "lw" "a0" _ _ _ Load); [by constructor|done..|by intros ?%elem_of_nil|].
  eapply (wf_plain _ _ "csrrw"); [by constructor|done..|].
  eapply (wf_plain _ _ "csrrw"); [by constructor|done..|].
  eapply (wf_nb _ [] "a0" "0000002a" _ _ Load); [by constructor|done..|].
  eapply wf_ecall. by constructor.
Qed.

Lemma log_text_correct_witness :
  match_line <$> (item_text <$> example_items) = item_line <$> example_items /\
  (parse_log_text example_fresh (item_text <$> example_items) = Ok (expected example_fresh (item_line <$> example_items)) \/
   (1000 <= length example_items)%nat /\
   parse_log_text example_fresh (item_text <$> example_items) = Raise AssertionError).
Proof.
  apply log_text_correct; [reflexivity|vm_compute; reflexivity|].
  apply example_wf.
Defined.
