(* ===== verification/Compress.v ===== *)
(** * Instruction decompressor bench: verification/block/ifu_compress/testbench.py

    The assembler is run as an external program; [listing] stands for the text
    it prints.  The random values are arguments.  Items of the monitor hold the
    handles of the ports, which are read when the scoreboard runs. *)

From S2P Require Import Prelude Scoreboard Cocotb PyString Utils Bin2Hex TriggerLogic.
From stdpp Require Import base gmap list strings pretty.
From Stdlib Require Import Ascii ZArith Lia.

#[local] Open Scope string_scope.
#[local] Open Scope list_scope.
#[local] Open Scope Z_scope.

(** ** get_opcode *)

(** [textwrap.wrap(s, 2)] of a string without white space. *)
Fixpoint wrap2 (s : string) : list string :=
  match s with
  | EmptyString => []
  | String a EmptyString => [String a EmptyString]
  | String a (String b s) => String a (String b EmptyString) :: wrap2 s
  end.

(** [int(s, 16)] *)
Definition int_base16 (s : string) : result Z :=
  match s with
  | EmptyString => Raise ValueError
  | _ => match hex_value s 0 with Some v => Ok v | None => Raise ValueError end
  end.

Definition bit_char (b : bool) : ascii := if b then "1"%char else "0"%char.

(** [f"{v:0{size}b}"] *)
Definition format_binary (size : nat) (v : Z) : string :=
  foldr (fun b s => String (bit_char b) s) "" (format_bin size v).

(** The opcode in hexadecimal: "Take instruction hex (3rd column) and change
    its endianess", with the check of its width. *)
Definition opcode_hex (output : string) (size : nat) : result string :=
  match split_ws output !! 2%nat with
  | None => Raise IndexError
  | Some out =>
      let out := String.concat "" (rev (wrap2 out)) in
      let! _ := py_assert (Nat.eqb (String.length out) (size / 4)) in
      Ok out
  end.

Section Assembler.
(** The output of the command for an assembly line and an extension. *)
Variable listing : string -> string -> string.

Definition get_opcode (asm_line ext : string) (size : nat) : result string :=
  let! out := opcode_hex (listing asm_line ext) size in
  let! v := int_base16 out in
  Ok (format_binary size v).

(** ** CompressedGenerator *)

(** The random values of [generate_assembly_pair]. *)
Record asm_choice := { dreg : Z; sreg : Z; imm : Z; sgn : string; pick : nat }.

(** [imm % 5 or 1] *)
Definition imm_or_1 (v : Z) : Z := if v mod 5 =? 0 then 1 else v mod 5.

Definition three_regs (op d s1 s2 : string) : string := op +:+ " x" +:+ d +:+ ", x" +:+ s1 +:+ ", x" +:+ s2.

Definition two_regs (op d s : string) : string := op +:+ " x" +:+ d +:+ ", x" +:+ s.

Definition reg_imm (op d i : string) : string := op +:+ " x" +:+ d +:+ ", " +:+ i.

Definition two_regs_imm (op d s i : string) : string := op +:+ " x" +:+ d +:+ ", x" +:+ s +:+ ", " +:+ i.

Definition assembly_pairs (c : asm_choice) : list (string * string) :=
  let d := pretty (dreg c) in
  let s := pretty (sreg c) in
  let i := sgn c +:+ pretty (imm c mod 5) in
  let sh := pretty (imm_or_1 (imm c)) in
  [(two_regs "c.add" d s, three_regs "add" d d s);
   (two_regs "c.or" d s, three_regs "or" d d s);
   (two_regs "c.xor" d s, three_regs "xor" d d s);
   (two_regs "c.sub" d s, three_regs "sub" d d s);
   (two_regs "c.mv" d s, "add x" +:+ d +:+ ", x0, x" +:+ s);
   (reg_imm "c.andi" d i, two_regs_imm "andi" d d i);
   (reg_imm "c.addi" d i, two_regs_imm "addi" d d i);
   (reg_imm "c.srli" d sh, two_regs_imm "srli" d d sh);
   (reg_imm "c.srai" d sh, two_regs_imm "srai" d d sh);
   (reg_imm "c.slli" d sh, two_regs_imm "slli" d d sh);
   ("c.ebreak", "ebreak")].

Definition generate_assembly_pair (c : asm_choice) : string * string :=
  nth (pick c) (assembly_pairs c) ("", "").

Abbreviation Lookup := (gmap string string).

(** [CompressedGenerator.get], with the class attribute [lookup]. *)
Definition CompressedGenerator_get (lookup : Lookup) (c : asm_choice) : result (Lookup * string) :=
  let '(asm_com, asm_dec) := generate_assembly_pair c in
  let! com := get_opcode asm_com "rv32ic" 16 in
  let! dec := get_opcode asm_dec "rv32i" 32 in
  Ok (<[com := dec]> lookup, com).

Definition CompressedGenerator_check (lookup : Lookup) (com dec : string) : result bool :=
  match lookup !! com with
  | None => Raise AssertionError
  | Some d => Ok (String.eqb d dec)
  end.

(** [CompressedSequence.body]: the instructions of the items. *)
Fixpoint CompressedSequence_body (lookup : Lookup) (cs : list asm_choice)
  : result (Lookup * list string) :=
  match cs with
  | [] => Ok (lookup, [])
  | c :: cs =>
      let! (lookup, com) := CompressedGenerator_get lookup c in
      let! (lookup, coms) := CompressedSequence_body lookup cs in
      Ok (lookup, com :: coms)
  end.
End Assembler.

(** ** Driver, monitor and scoreboard *)

(** [InstructionPairItem(din, dout)]: the handles of two ports. *)
Record InstructionPairItem := { din : string; dout : string }.

Definition DecompressorDriver_write (instr : Z) : proc InstructionPairItem unit :=
  drive "din" instr ;;; (_ <- await Timer ;; Ret tt).

Definition DecompressorMonitor_run_phase (_ : unit) : proc InstructionPairItem unit :=
  _ <- await Timer ;; publish {| din := "din"; dout := "dout" |}.

Section Scoreboard.
Variable lookup : gmap string string.
(** [str(handle.value)] when [check_phase] runs. *)
Variable value_str : string -> string.

Definition check_item (item : InstructionPairItem) (passed : option bool) : result (option bool) :=
  let! ok := CompressedGenerator_check lookup (value_str (din item)) (value_str (dout item)) in
  Ok (if ok then passed else Some false).

Definition Scoreboard_verdict (items : list InstructionPairItem) : result unit :=
  let! passed := check_items check_item items None in final_phase passed.
End Scoreboard.

(** ** Facts *)

(** The listing of a little-endian memory image: two digits per byte. *)
Definition byte_hex (b : Z) : string := String (hex_digit (b / 16)) (String (hex_digit (b mod 16)) "").

Definition bytes_hex (bs : list Z) : string := String.concat "" (map byte_hex bs).

Lemma concat_cons x xs : String.concat "" (x :: xs) = x +:+ String.concat "" xs.
Proof.
  destruct xs as [|y xs]; [|done]. change (x = x +:+ "").
  induction x as [|a x IH]; [done|]. change (String a x = String a (x +:+ "")). by rewrite <- IH.
Qed.

Lemma append_assoc_l (a b c : string) : a +:+ (b +:+ c) = (a +:+ b) +:+ c.
Proof.
  induction a as [|x a IH]; [done|].
  change (String x (a +:+ (b +:+ c)) = String x ((a +:+ b) +:+ c)). by rewrite IH.
Qed.

Lemma wrap2_bytes bs : wrap2 (bytes_hex bs) = map byte_hex bs.
Proof.
  unfold bytes_hex. induction bs as [|b bs IH]; [done|]. cbn [map]. rewrite concat_cons.
  change (byte_hex b +:+ String.concat "" (map byte_hex bs))
    with (String (hex_digit (b / 16)) (String (hex_digit (b mod 16)) (String.concat "" (map byte_hex bs)))).
  cbn [wrap2]. by rewrite IH.
Qed.

Lemma hex_value_app s t v : hex_value (s +:+ t) v =
  match hex_value s v with Some v => hex_value t v | None => None end.
Proof.
  revert v. induction s as [|c s IH]; intros v; [done|].
  change (String c s +:+ t) with (String c (s +:+ t)). cbn [hex_value].
  destruct (digit_value c); [apply IH|done].
Qed.

Lemma hex_value_byte b v : is_byte b -> hex_value (byte_hex b) v = Some (256 * v + b).
Proof.
  intros Hb. unfold is_byte in Hb. cbn [byte_hex hex_value].
  rewrite !digit_value_hex by (first [apply Z.mod_pos_bound; lia
    |split; [apply Z.div_pos; lia|apply Z.div_lt_upper_bound; lia]]).
  f_equal. pose proof (Z.div_mod b 16). lia.
Qed.

Lemma hex_value_rev bs : Forall is_byte bs ->
  hex_value (String.concat "" (rev (map byte_hex bs))) 0 = Some (le_value bs).
Proof.
  induction 1 as [|b bs Hb _ IH]; [done|]. cbn [map rev le_value].
  assert (forall xs y, String.concat "" (xs ++ [y]) = String.concat "" xs +:+ y) as Hsnoc.
  { intros xs y. induction xs as [|x xs IHx]; [done|]. cbn [app]. rewrite !concat_cons, IHx.
    apply append_assoc_l. }
  rewrite Hsnoc, hex_value_app, IH, hex_value_byte by done. f_equal. lia.
Qed.

Lemma rev_concat_length bs :
  String.length (String.concat "" (rev (map byte_hex bs))) = (2 * length bs)%nat.
Proof.
  rewrite <- map_rev, <- (length_rev bs). induction (rev bs) as [|b l IH]; [done|].
  cbn [map]. rewrite concat_cons. cbn [length].
  transitivity (S (S (String.length (String.concat "" (map byte_hex l))))); [done|]. rewrite IH. lia.
Qed.

Lemma check_items_const lookup value_str (d o : string) items p :
  (forall it, it ∈ items -> value_str (din it) = d /\ value_str (dout it) = o) ->
  check_items (check_item lookup value_str) items p =
  match items, lookup !! d with
  | [], _ => Ok p
  | _, None => Raise AssertionError
  | _, Some x => Ok (if String.eqb x o then set_initial p else Some false)
  end.
Proof.
  revert p. induction items as [|it items IH]; intros p H; [done|]. cbn [check_items].
  destruct (H it) as [Hd Ho]; [by left|]. unfold check_item at 1, CompressedGenerator_check.
  rewrite Hd, Ho. destruct (lookup !! d) as [x|] eqn:E; [|done]. cbn [rbind].
  rewrite IH by (intros; apply H; by right).
  destruct items; rewrite ?E; by destruct (String.eqb x o), p.
Qed.

(** ** Properties *)

(** The verdict of the decompressor bench depends only on the values the
    two ports have when the scoreboard runs: the monitor publishes the handles
    of the ports and not their values, so for every run of at least one sample
    the scoreboard passes exactly when the last instruction was generated
    before and is decompressed correctly, whatever the unit answered to the
    instructions before. *)
Theorem compress_verdict_last (lookup : gmap string string) value_str cur (envs : list env) :
  envs <> [] ->
  (Scoreboard_verdict lookup value_str
     (monitor_items DecompressorMonitor_run_phase tt cur (Sample Timer <$> envs)) = Ok tt
   <-> lookup !! value_str "din" = Some (value_str "dout")).
Proof.
  intros Hne.
  assert (monitor_items DecompressorMonitor_run_phase tt cur (Sample Timer <$> envs)
          = replicate (length envs) {| din := "din"; dout := "dout" |}) as ->.
  { clear. revert cur. induction envs as [|e envs IH]; intros cur; [by apply monitor_items_nil|].
    rewrite fmap_cons. rewrite (monitor_items_step _ tt cur _ [APublish {| din := "din"; dout := "dout" |}]
      tt e (Sample Timer <$> envs)); [by rewrite IH| |].
    2: { unfold DecompressorMonitor_run_phase. cbn [pbind await]. by rewrite run_await_hit. }
    apply productive_await. intros u. by eexists _, _. }
  unfold Scoreboard_verdict.
  rewrite (check_items_const _ _ (value_str "din") (value_str "dout")).
  2: { intros it Hit. apply elem_of_replicate in Hit as [-> _]. done. }
  destruct envs as [|e envs]; [done|]. cbn [length replicate].
  destruct (lookup !! _) as [x|]; [|done]. cbn [rbind].
  destruct (String.eqb_spec x (value_str "dout")) as [->|Hn]; [done|].
  split; [done|]. by intros [= ->].
Qed.

Lemma compress_verdict_last_witness :
  Scoreboard_verdict {["1001000000000010" := "00000000000100000000000001110011"]}
    (fun s => if String.eqb s "din" then "1001000000000010" else "00000000000100000000000001110011")
    (monitor_items DecompressorMonitor_run_phase tt (sig_env []) (Sample Timer <$> [sig_env []; sig_env []]))
    = Ok tt
  <-> ({["1001000000000010" := "00000000000100000000000001110011"]} : gmap string string)
      !! "1001000000000010" = Some "00000000000100000000000001110011".
Proof. by apply (compress_verdict_last _ (fun s => if String.eqb s "din" then _ else _)). Defined.

(** The helper that obtains opcodes from the assembler reverses the byte
    order correctly: when the third column of the listing is the little-endian
    image of an instruction of the expected width, the result is the
    instruction's value in binary, with all its digits; an image of another
    width is an assertion failure. *)
Theorem get_opcode_value listing asm_line ext size (bs : list Z) c1 c2 rest :
  split_ws (listing asm_line ext) = c1 :: c2 :: bytes_hex bs :: rest ->
  Forall is_byte bs -> bs <> [] ->
  get_opcode listing asm_line ext size =
    if (2 * length bs =? size / 4)%nat then Ok (format_binary size (le_value bs))
    else Raise AssertionError.
Proof.
  intros Hs Hb Hne. unfold get_opcode, opcode_hex. rewrite Hs. cbn [lookup list_lookup].
  rewrite wrap2_bytes, rev_concat_length. destruct (2 * length bs =? size / 4)%nat; [|done].
  cbn [py_assert rbind]. unfold int_base16.
  pose proof (rev_concat_length bs) as Hl. pose proof (hex_value_rev bs Hb) as Hv.
  destruct (String.concat "" (rev (map byte_hex bs))) as [|a s]; [by destruct bs|].
  by rewrite Hv.
Qed.

Lemma get_opcode_value_witness :
  get_opcode (fun _ _ => "   1 0000 13050000 	li a0,0") "li a0,0" "rv32i" 32
  = if (2 * length [0x13; 0x05; 0x00; 0x00] =? 32 / 4)%nat
    then Ok (format_binary 32 (le_value [0x13; 0x05; 0x00; 0x00])) else Raise AssertionError.
Proof.
  apply (get_opcode_value _ _ _ _ [0x13; 0x05; 0x00; 0x00] "1" "0000" ["li"; "a0,0"]).
  - vm_compute. reflexivity.
  - repeat constructor; vm_compute; congruence.
  - discriminate.
Defined.
