(* ===== verification/DecIb.v ===== *)
(** * Instruction buffer control bench: verification/block/dec_ib/testbench.py

    Debug commands become instructions that the assembler encodes; [listing]
    stands for the output of the assembler, as in [Compress]. *)

From S2P Require Import Prelude Scoreboard Cocotb PyString Compress.
From stdpp Require Import base list strings pretty.
From Stdlib Require Import ZArith Lia.

#[local] Open Scope string_scope.
#[local] Open Scope list_scope.
#[local] Open Scope Z_scope.

Inductive DebugCmdType := GPR | CSR | MEMORY.

#[export] Instance DebugCmdType_eq_dec : EqDecision DebugCmdType.
Proof. solve_decision. Defined.

Definition DebugCmdType_value (t : DebugCmdType) : Z :=
  match t with GPR => 0 | CSR => 1 | MEMORY => 2 end.

(** [DebugCmdType(v)] *)
Definition DebugCmdType_of (v : Z) : result DebugCmdType :=
  if v =? 0 then Ok GPR else if v =? 1 then Ok CSR else if v =? 2 then Ok MEMORY
  else Raise ValueError.

Record DebugCmd := { write : Z; type : DebugCmdType; addr : Z }.

Record IbCtlInputItem := { debug_cmd : DebugCmd; ifu_instr : Z }.

Section Bench.
Variable listing : string -> string -> string.

(** [get_opcode] of this file returns the opcode as a number. *)
Definition get_opcode (asm_line : string) : result Z :=
  let! out := opcode_hex (listing asm_line "rv32i_zicsr") 32 in int_base16 out.

(** The instruction a debug command stands for. *)
Definition debug_asm (c : DebugCmd) : option string :=
  match type c with
  | GPR => Some (if truthy (write c) then "or x" +:+ pretty (addr c) +:+ ", x0, x0"
                 else "or x0, x" +:+ pretty (addr c) +:+ ", x0")
  | CSR => Some (if truthy (write c) then "csrrw x0, " +:+ pretty (addr c) +:+ ", x0"
                 else "csrrs x0, " +:+ pretty (addr c) +:+ ", x0")
  | MEMORY => None
  end.

(** [IbCtlInputItem.debug_instr] *)
Definition debug_instr (it : IbCtlInputItem) : result Z :=
  match debug_asm (debug_cmd it) with
  | Some asm => get_opcode asm
  | None => Ok 0
  end.

Definition IbCtlDriver_item (it : IbCtlInputItem) : proc IbCtlInputItem unit :=
  drive "dbg_cmd_valid" 1 ;;;
  drive "dbg_cmd_write" (write (debug_cmd it)) ;;;
  drive "dbg_cmd_type" (DebugCmdType_value (type (debug_cmd it))) ;;;
  drive "dbg_cmd_addr" (addr (debug_cmd it)) ;;;
  drive "ifu_i0_instr" (ifu_instr it) ;;;
  (_ <- await Timer ;; Ret tt).

Definition IbCtlInputMonitor_run_phase (_ : unit) : proc IbCtlInputItem unit :=
  e <- await Timer ;;
  t <- lift (DebugCmdType_of (e "dbg_cmd_type")) ;;
  publish {| debug_cmd := {| write := e "dbg_cmd_write"; type := t; addr := e "dbg_cmd_addr" |};
             ifu_instr := e "ifu_i0_instr" |}.

Definition IbCtlOutputMonitor_run_phase (_ : unit) : proc Z unit :=
  e <- await Timer ;; publish (e "dec_i0_instr_d").

Definition check_item (item_inp : IbCtlInputItem) (instr : Z) (passed : option bool)
  : result (option bool) :=
  let! expected := debug_instr item_inp in
  Ok (if negb (expected =? instr) then Some false else passed).

Definition IbCtlScoreboard_verdict (inp : list IbCtlInputItem) (out : list Z) : result unit :=
  let! passed := check_pairs check_item inp out None in final_phase passed.

(** One item of [IbCtlSequence.body] from its random values: write, type, the
    addresses drawn for a register and for a CSR, and the instruction. *)
Definition sequence_item (w : Z) (csr : bool) (gpr_addr csr_addr instr : Z) : IbCtlInputItem :=
  {| debug_cmd := {| write := w; type := if csr then CSR else GPR;
                     addr := if csr then csr_addr else gpr_addr |};
     ifu_instr := instr |}.

(** The assembler accepts the instruction of an item. *)
Definition assembles (it : IbCtlInputItem) : Prop := exists v, debug_instr it = Ok v.

#[export] Instance ib_pair_spec :
  PairSpec check_item assembles (fun it instr => debug_instr it = Ok instr).
Proof.
  refine {| pair_matches_dec := fun it instr => result_eq_dec (debug_instr it) (Ok instr) |}.
  intros it instr b [v Hv]. unfold check_item. rewrite Hv. cbn [rbind]. f_equal. f_equal.
  case_bool_decide as H.
  - injection H as ->. by rewrite Z.eqb_refl, andb_true_r.
  - destruct (Z.eqb_spec v instr) as [->|]; [done|]. by rewrite andb_false_r.
Qed.

(** The run passes exactly when every instruction is the encoding of the debug
    command sampled with it. *)
Lemma ib_scoreboard_verdict inp out :
  Forall assembles inp ->
  (IbCtlScoreboard_verdict inp out = Ok tt
   <-> inp <> [] /\ Forall2 (fun it instr => debug_instr it = Ok instr) inp out).
Proof. apply check_pairs_iff. Qed.
End Bench.
