(* ===== verification/Csrs.v ===== *)
(** * The table of control and status registers:
    verification/block/common/csrs.py

    A [CSR] is an integer (the address) that carries the function [out] from
    the word written to the word read back.  [csrs_ns] is the module's name
    space in the order of the source; [csr_list] is what the benches make of it,
    the registers in the alphabetical order in which [dir] lists the names.
    [readback] is what the core's write and read paths make of a register, from
    el2_dec_tlu_ctl.sv; [csr_table_legal] compares the two. *)

From S2P Require Import Prelude PyString.
From stdpp Require Import base list sorting strings.
From Stdlib Require Import ZArith Lia.

#[local] Open Scope string_scope.
#[local] Open Scope list_scope.
#[local] Open Scope Z_scope.

(** [class CSR(int)]: [CSR(addr)] has the identity as [out]. *)
Record CSR := mkCSR { addr : Z; out : Z -> Z }.

Definition CSR_id (addr : Z) : CSR := mkCSR addr (fun x => x).

Definition get_bit (value i : Z) : Z := Z.land (Z.shiftr value i) 1.

(** [b0 & (not b1)], an [int] with a [bool]. *)
Definition pair_step (value new_value i : Z) : Z :=
  let new_value := Z.shiftl new_value 2 in
  let b0 := get_bit value i in
  let b1 := get_bit value (i + 1) in
  Z.lor new_value (Z.lor (Z.shiftl b1 1) (Z.land b0 (Z.b2z (negb (truthy b1))))).

(** [reversed(range(0, 31, 2))] *)
Definition pair_indices : list Z := (fun k => 2 * Z.of_nat k) <$> rev (seq 0 16).

Definition prevent_11_pairs (value : Z) : Z := foldl (pair_step value) 0 pair_indices.

Definition mhpme_zero_event (value : Z) : bool :=
  (516 <? value)
  || ((value <? 512) && (56 <? value))
  || ((value <? 54) && (50 <? value))
  || (value =? 29)
  || (value =? 33).

Definition m_ect (value : Z) : Z :=
  if 26 <? Z.land (Z.shiftr value 27) 0x1F then
    Z.lor (Z.land value 0x07FFFFFF) (Z.shiftl 26 27)
  else value.

(** [value & ~(1 << n)] *)
Definition clear_bit (n : Z) (value : Z) : Z := Z.land value (Z.lnot (Z.shiftl 1 n)).

Definition set_bit (n : Z) (value : Z) : Z := Z.lor (clear_bit n value) (Z.shiftl 1 n).

Definition dicawics (value : Z) : Z :=
  let value := Z.land value 0x1FFFFFF in
  let value := clear_bit 23 value in
  let value := clear_bit 22 value in
  let value := clear_bit 19 value in
  let value := clear_bit 18 value in
  let value := clear_bit 17 value in
  let value := clear_bit 2 value in
  let value := clear_bit 1 value in
  clear_bit 0 value.

Definition dcsr (value : Z) : Z :=
  let value := Z.lor (Z.land value 0xFFFF) (Z.shiftl 0x4 28) in
  let value := Z.lor (Z.land value 0xFFFFFFFC) 0x3 in
  let value := clear_bit 14 value in
  let value := clear_bit 13 value in
  let value := clear_bit 12 value in
  let value := clear_bit 9 value in
  let value := clear_bit 8 value in
  let value := set_bit 7 value in
  let value := set_bit 6 value in
  let value := clear_bit 5 value in
  let value := clear_bit 4 value in
  clear_bit 3 value.

Definition mhpme_out (x : Z) : Z := if mhpme_zero_event x then 0 else x.

Definition MDEAU : CSR := CSR_id 0xBC0.
Definition MDSEAC : CSR := CSR_id 0xFC0.
Definition MEICPCT : CSR := CSR_id 0xBCA.
Definition MEIVT : CSR := CSR_id 0xBC8.
Definition MTSEL : CSR := CSR_id 0x7A0.
Definition MTDATA1 : CSR := CSR_id 0x7A1.
Definition MTDATA2 : CSR := CSR_id 0x7A2.
Definition MEIPT : CSR := mkCSR 0xBC9 (fun x => Z.land x 0xF).
Definition MTVEC : CSR := mkCSR 0x305 (fun x => Z.land x 0xFFFFFFFD).
Definition MRAC : CSR := mkCSR 0x7C0 prevent_11_pairs.
Definition MCOUNTINHIBIT : CSR := mkCSR 0x320 (fun x => Z.land x 0x7D).
Definition MFDHT : CSR := mkCSR 0x7CE (fun x => Z.land x 0x3F).
Definition MEICURPL : CSR := mkCSR 0xBCC (fun x => Z.land x 0xF).
Definition MFDC : CSR := mkCSR 0xBCC (fun x => Z.land x 0x71FBF).
Definition MHPMC3 : CSR := CSR_id 0xB03.
Definition MHPMC3H : CSR := CSR_id 0xB83.
Definition MHPMC4 : CSR := CSR_id 0xB04.
Definition MHPMC4H : CSR := CSR_id 0xB84.
Definition MHPMC5 : CSR := CSR_id 0xB05.
Definition MHPMC5H : CSR := CSR_id 0xB85.
Definition MHPMC6 : CSR := CSR_id 0xB06.
Definition MHPMC6H : CSR := CSR_id 0xB86.
Definition MINSTRETL : CSR := CSR_id 0xB02.
Definition MINSTRETH : CSR := CSR_id 0xB82.
Definition MCYCLEL : CSR := CSR_id 0xB00.
Definition MCYCLEH : CSR := CSR_id 0xB80.
Definition MHPME3 : CSR := mkCSR 0x323 mhpme_out.
Definition MHPME4 : CSR := mkCSR 0x324 mhpme_out.
Definition MHPME5 : CSR := mkCSR 0x325 mhpme_out.
Definition MHPME6 : CSR := mkCSR 0x326 mhpme_out.
Definition MICECT : CSR := mkCSR 0x7F0 m_ect.
Definition MICCMECT : CSR := mkCSR 0x7F1 m_ect.
Definition MDCCMECT : CSR := mkCSR 0x7F2 m_ect.
Definition DICAD0 : CSR := CSR_id 0x7C9.
Definition DICAD0H : CSR := CSR_id 0x7CC.
Definition DICAD1 : CSR := CSR_id 0x7CA.
Definition DICAWICS : CSR := mkCSR 0x7C8 dicawics.
Definition DPC : CSR := mkCSR 0x7B1 (fun x => Z.land x (Z.lnot 0x1)).
Definition DCSR : CSR := mkCSR 0x7B0 dcsr.
Definition MEICIDPL : CSR := mkCSR 0xBCB (fun x => Z.land x 0xF).

(** The registers of the module, in the order of the source. *)
Definition csrs_ns : list (string * CSR) :=
  [("MDEAU", MDEAU); ("MDSEAC", MDSEAC); ("MEICPCT", MEICPCT); ("MEIVT", MEIVT);
   ("MTSEL", MTSEL); ("MTDATA1", MTDATA1); ("MTDATA2", MTDATA2); ("MEIPT", MEIPT);
   ("MTVEC", MTVEC); ("MRAC", MRAC); ("MCOUNTINHIBIT", MCOUNTINHIBIT); ("MFDHT", MFDHT);
   ("MEICURPL", MEICURPL); ("MFDC", MFDC); ("MHPMC3", MHPMC3); ("MHPMC3H", MHPMC3H);
   ("MHPMC4", MHPMC4); ("MHPMC4H", MHPMC4H); ("MHPMC5", MHPMC5); ("MHPMC5H", MHPMC5H);
   ("MHPMC6", MHPMC6); ("MHPMC6H", MHPMC6H); ("MINSTRETL", MINSTRETL);
   ("MINSTRETH", MINSTRETH); ("MCYCLEL", MCYCLEL); ("MCYCLEH", MCYCLEH); ("MHPME3", MHPME3);
   ("MHPME4", MHPME4); ("MHPME5", MHPME5); ("MHPME6", MHPME6); ("MICECT", MICECT);
   ("MICCMECT", MICCMECT); ("MDCCMECT", MDCCMECT); ("DICAD0", DICAD0); ("DICAD0H", DICAD0H);
   ("DICAD1", DICAD1); ("DICAWICS", DICAWICS); ("DPC", DPC); ("DCSR", DCSR);
   ("MEICIDPL", MEICIDPL)].

(** [for c in cs: if c == csr: value = c.out(value); break] *)
Definition apply_first (cs : list CSR) (csr value : Z) : Z :=
  match List.find (fun c => addr c =? csr) cs with
  | Some c => out c value
  | None => value
  end.

(** [dir(csrs)], restricted to the registers. *)
Definition dir_csrs : list string := merge_sort str_le csrs_ns.*1.

(** [getattr(csrs, mod)] *)
Definition getattr (nm : string) : option CSR :=
  snd <$> List.find (fun p => String.eqb p.1 nm) csrs_ns.

(** [[getattr(csrs, mod) for mod in dir(csrs) if isinstance(..., csrs.CSR)]] *)
Definition csr_list : list CSR := omap getattr dir_csrs.

Definition csr_expected (csr value : Z) : Z := apply_first csr_list csr value.

(** ** What the core reads back

    The write and read paths of design/dec/el2_dec_tlu_ctl.sv, for a register
    that holds the word [v] written last (counters standing still, the caches'
    debug data not refilled, the core halted by the debugger for [dcsr]): the
    concatenation of the read multiplexer, from the most significant bits down. *)

Inductive field :=
  | Wr (hi lo : Z)          (* dec_csr_wrdata_r[hi:lo] *)
  | Const (width value : Z) (* bits that are not writable *)
  | Pair (hi : Z)           (* {wrdata[hi], wrdata[hi-1] & ~wrdata[hi]} *)
  | CsrSat                  (* csr_sat[31:27] *)
  | Event.                  (* event_r[9:0], and |wrdata[31:10] *)

Definition width (f : field) : Z :=
  match f with
  | Wr hi lo => hi - lo + 1 | Const w _ => w | Pair _ => 2 | CsrSat => 5 | Event => 10
  end.

(** The events that the core counts ([MHPME_NOEVENT] to [MHPME_DMA_WRITE_DCCM]). *)
Definition MHPME_EVENTS : list Z :=
  [0; 1; 2; 3; 4; 5; 6; 7; 8; 9; 10; 11; 12; 13; 14; 15; 16; 17; 18; 19; 20; 21; 22; 23; 24; 25;
   26; 27; 28; 30; 31; 32; 34; 35; 36; 37; 38; 39; 40; 41; 42; 43; 44; 45; 46; 47; 48; 49; 50;
   54; 55; 56; 512; 513; 514; 515; 516].

Definition field_value (f : field) (v : Z) : Z :=
  match f with
  | Wr hi lo => v / 2 ^ lo mod 2 ^ (hi - lo + 1)
  | Const _ k => k
  | Pair hi => 2 * (v / 2 ^ hi mod 2) + v / 2 ^ (hi - 1) mod 2 * (1 - v / 2 ^ hi mod 2)
  | CsrSat => Z.min (v / 2 ^ 27 mod 2 ^ 5) 26
  | Event => if bool_decide (v ∈ MHPME_EVENTS) then v else 0
  end.

Fixpoint total (fs : list field) : Z :=
  match fs with [] => 0 | f :: fs => width f + total fs end.

Fixpoint readback (fs : list field) (v : Z) : Z :=
  match fs with
  | [] => 0
  | f :: fs => field_value f v * 2 ^ total fs + readback fs v
  end.

Definition counter : list field := [Wr 31 0].
Definition error_counter : list field := [CsrSat; Wr 26 0].
Definition event_selector : list field := [Const 22 0; Event].
Definition priority : list field := [Const 28 0; Wr 3 0].

Definition mrac_fields : list field :=
  [Pair 31; Pair 29; Pair 27; Pair 25; Pair 23; Pair 21; Pair 19; Pair 17; Pair 15; Pair 13;
   Pair 11; Pair 9; Pair 7; Pair 5; Pair 3; Pair 1].

Definition mfdc_fields : list field :=
  [Const 13 0; Wr 18 16; Const 3 0; Wr 12 7; Wr 6 6; Wr 5 0].

(** [prv] is 3, [cause] is 3 (debugger request), no [nmip], [xdebugver] is 4. *)
Definition dcsr_fields : list field :=
  [Const 16 0x4000; Wr 15 15; Const 3 0; Wr 11 10; Const 1 0; Const 3 3; Const 2 0; Const 1 0;
   Wr 2 2; Const 2 3].

Definition dicawics_fields : list field :=
  [Const 7 0; Wr 24 24; Const 2 0; Wr 21 20; Const 3 0; Wr 16 3; Const 3 0].

(** The registers whose read-back the benches compare, with the addresses of
    the design: those drawn by the access tests of block/dec and
    block/dec_tlu_ctl, and [meicidpl]. *)
Definition core_regs : list (string * Z * list field) :=
  [("MHPMC3", 0xB03, counter); ("MHPMC3H", 0xB83, counter); ("MHPMC4", 0xB04, counter);
   ("MHPMC4H", 0xB84, counter); ("MHPMC5", 0xB05, counter); ("MHPMC5H", 0xB85, counter);
   ("MHPMC6", 0xB06, counter); ("MHPMC6H", 0xB86, counter); ("MCYCLEL", 0xB00, counter);
   ("MCYCLEH", 0xB80, counter); ("MINSTRETL", 0xB02, counter); ("MINSTRETH", 0xB82, counter);
   ("MICECT", 0x7F0, error_counter); ("MICCMECT", 0x7F1, error_counter);
   ("MDCCMECT", 0x7F2, error_counter); ("MTVEC", 0x305, [Wr 31 2; Const 1 0; Wr 0 0]);
   ("MHPME3", 0x323, event_selector); ("MHPME4", 0x324, event_selector);
   ("MHPME5", 0x325, event_selector); ("MHPME6", 0x326, event_selector);
   ("MRAC", 0x7C0, mrac_fields); ("MEIPT", 0xBC9, priority); ("MEICIDPL", 0xBCB, priority);
   ("MEICURPL", 0xBCC, priority);
   ("MCOUNTINHIBIT", 0x320, [Const 25 0; Wr 6 2; Const 1 0; Wr 0 0]);
   ("MFDHT", 0x7CE, [Const 26 0; Wr 5 0]); ("DICAD0", 0x7C9, [Wr 31 0]);
   ("DICAD0H", 0x7CC, [Wr 31 0]); ("DICAWICS", 0x7C8, dicawics_fields);
   ("DPC", 0x7B1, [Wr 31 1; Const 1 0]); ("DCSR", 0x7B0, dcsr_fields)].

(** Layouts of written and constant fields only, each written field in its
    place: the register is a mask with constant bits. *)
Fixpoint masked (fs : list field) : bool :=
  match fs with
  | [] => true
  | Wr hi lo :: fs => (lo =? total fs) && (lo <=? hi) && masked fs
  | Const w k :: fs => (0 <=? k) && (k <? 2 ^ w) && (0 <=? w) && masked fs
  | _ => false
  end.

Fixpoint kept (fs : list field) : Z :=
  match fs with
  | [] => 0
  | Wr hi lo :: fs => Z.lor (Z.shiftl (Z.ones (hi - lo + 1)) (total fs)) (kept fs)
  | _ :: fs => kept fs
  end.

Fixpoint fixed (fs : list field) : Z :=
  match fs with
  | [] => 0
  | Const w k :: fs => Z.lor (Z.shiftl k (total fs)) (fixed fs)
  | _ :: fs => fixed fs
  end.

Lemma cat_bound a b w t :
  0 <= w -> 0 <= t -> 0 <= a < 2 ^ w -> 0 <= b < 2 ^ t -> 0 <= a * 2 ^ t + b < 2 ^ (w + t).
Proof. intros Hw Ht Ha Hb. rewrite Z.pow_add_r by lia. nia. Qed.

Lemma cat_lor a b t : 0 <= t -> 0 <= b < 2 ^ t -> a * 2 ^ t + b = Z.lor (Z.shiftl a t) b.
Proof. intros Ht Hb. rewrite Z.lor_comm, lor_low_high by done. lia. Qed.

Lemma field_mask v lo w :
  0 <= lo -> 0 <= w -> Z.shiftl (v / 2 ^ lo mod 2 ^ w) lo = Z.land v (Z.shiftl (Z.ones w) lo).
Proof.
  intros Hlo Hw. apply Z.bits_inj'. intros i Hi. rewrite Z.land_spec, !testbit_shiftl by lia.
  destruct (Z.leb_spec lo i); [|by rewrite andb_false_r]. simpl.
  rewrite testbit_mod_pow2, Z.div_pow2_bits, testbit_ones by lia.
  replace (i - lo + lo) with i by lia. rewrite andb_comm. f_equal.
  by rewrite (proj2 (Z.leb_le 0 (i - lo))) by lia.
Qed.

Lemma readback_masked fs v :
  masked fs = true ->
  0 <= total fs /\ 0 <= readback fs v < 2 ^ total fs
  /\ readback fs v = Z.lor (Z.land v (kept fs)) (fixed fs).
Proof.
  induction fs as [|f fs IH]; intros H; [by rewrite Z.land_0_r|].
  destruct f as [hi lo|w k| | |]; cbn [masked] in H; try done; rewrite ?andb_true_iff in H;
    cbn [total readback width field_value kept fixed].
  - destruct H as [[Hlo Hhi] H]. destruct (IH H) as (Ht & Hb & E).
    apply Z.eqb_eq in Hlo. apply Z.leb_le in Hhi.
    split; [lia|]. split; [apply cat_bound; try lia; apply Z.mod_pos_bound; lia|].
    rewrite cat_lor, E by lia. rewrite <- Hlo, field_mask by lia.
    by rewrite Z.land_lor_distr_r, Z.lor_assoc.
  - destruct H as [[[Hk Hkw] Hw] H]. destruct (IH H) as (Ht & Hb & E).
    apply Z.leb_le in Hk, Hw. apply Z.ltb_lt in Hkw.
    split; [lia|]. split; [by apply cat_bound; try lia|].
    rewrite cat_lor, E by lia. rewrite !Z.lor_assoc. f_equal. apply Z.lor_comm.
Qed.

(** The bits of [_prevent_11_pairs]. *)
Definition pair_bit (v j : Z) : bool :=
  Z.testbit v j && (Z.odd j || negb (Z.testbit v (j + 1))).

Lemma pair_step_bits v acc i j :
  0 <= i -> 0 <= j -> Z.even i = true ->
  Z.testbit (pair_step v acc i) j
  = if j <? 2 then pair_bit v (i + j) else Z.testbit acc (j - 2).
Proof.
  intros Hi Hj He. unfold pair_step, pair_bit, get_bit. rewrite !bit_of by lia.
  rewrite !Z.lor_spec, !testbit_shiftl by lia.
  assert (Hsmall : forall (a : bool) k, Z.testbit (Z.b2z a) k = a && (k =? 0)).
  { intros a k. destruct a; simpl; [apply testbit_one|apply Z.bits_0]. }
  rewrite Z.land_spec, !Hsmall. destruct (Z.ltb_spec j 2).
  - assert (j = 0 \/ j = 1) as [->| ->] by lia.
    + rewrite Z.add_0_r. change (2 <=? 0) with false. change (1 <=? 0) with false.
      rewrite <- Z.negb_even, He. simpl. destruct (Z.testbit v i), (Z.testbit v (i + 1)); done.
    + change (2 <=? 1) with false. rewrite Z.odd_add, <- Z.negb_even, He. simpl.
      destruct (Z.testbit v (i + 1)), (Z.testbit v i); done.
  - rewrite (proj2 (Z.leb_le 2 j)), (proj2 (Z.leb_le 1 j)) by lia.
    rewrite (proj2 (Z.eqb_neq (j - 1) 0)), (proj2 (Z.eqb_neq j 0)) by lia.
    by rewrite !andb_false_r, !orb_false_r.
Qed.

Lemma prevent_fold_bits v n acc j :
  0 <= j ->
  Z.testbit (foldl (pair_step v) acc ((fun k => 2 * Z.of_nat k) <$> rev (seq 0 n))) j
  = if j <? 2 * Z.of_nat n then pair_bit v j else Z.testbit acc (j - 2 * Z.of_nat n).
Proof.
  revert acc j. induction n as [|n IH]; intros acc j Hj.
  - cbn [seq rev fmap list_fmap foldl]. change (2 * Z.of_nat 0) with 0. rewrite Z.sub_0_r. destruct (Z.ltb_spec j 0); [lia|done].
  - rewrite seq_S, rev_app_distr. cbn [rev app fmap list_fmap foldl Nat.add].
    rewrite IH by done. rewrite Nat2Z.inj_succ.
    destruct (Z.ltb_spec j (2 * Z.of_nat n)).
    + by rewrite (proj2 (Z.ltb_lt j _)) by lia.
    + rewrite pair_step_bits by (try lia; rewrite Z.even_mul; done).
      destruct (Z.ltb_spec (j - 2 * Z.of_nat n) 2), (Z.ltb_spec j (2 * Z.succ (Z.of_nat n)));
        try lia; f_equal; lia.
Qed.

Lemma prevent_11_pairs_bits v j :
  0 <= j -> Z.testbit (prevent_11_pairs v) j = (j <? 32) && pair_bit v j.
Proof.
  intros Hj. unfold prevent_11_pairs, pair_indices. rewrite prevent_fold_bits by done.
  change (2 * Z.of_nat 16) with 32. destruct (j <? 32); [done|]. apply Z.bits_0.
Qed.

Lemma dicawics_mask v : dicawics v = Z.land v 0x131FFF8.
Proof. unfold dicawics, clear_bit. by rewrite <- !Z.land_assoc. Qed.

(** [DCSR] keeps some bits, sets some and clears the others. *)
Lemma dcsr_mask v : dcsr v = Z.lor (Z.land v 0x8C04) 0x400000C3.
Proof.
  unfold dcsr, set_bit, clear_bit.
  repeat (rewrite Z.land_lor_distr_l || rewrite <- Z.land_assoc || rewrite <- Z.lor_assoc).
  apply Z.bits_inj'. intros i Hi. rewrite !Z.lor_spec, !Z.land_spec.
  destruct (Z.ltb_spec i 32) as [H|H].
  - assert (exists n, i = Z.of_nat n /\ (n < 32)%nat) as (n & -> & Hn)
      by (exists (Z.to_nat i); lia).
    do 32 (destruct n as [|n]; [vm_compute; by rewrite ?andb_true_r, ?andb_false_r, ?orb_false_r|]).
    lia.
  - assert (Hz : forall k, 0 <= k < 2 ^ 32 -> Z.testbit k i = false)
      by (intros k Hk; by apply (testbit_bounded k 32)).
    repeat match goal with |- context [Z.testbit ?k i] =>
      lazymatch k with v => fail | _ => rewrite (Hz k) by (vm_compute; split; congruence) end end.
    by rewrite ?andb_false_r.
Qed.

(** A masked layout read back is the mask of the table. *)
Lemma mask_readback fs m v :
  masked fs = true -> kept fs = m -> fixed fs = 0 -> readback fs v = Z.land v m.
Proof. intros H <- Hf. destruct (readback_masked fs v H) as (_ & _ & ->). by rewrite Hf, Z.lor_0_r. Qed.

Lemma pairs_bits n v j :
  0 <= v -> 0 <= j ->
  let fs := (fun k => Pair (2 * Z.of_nat k + 1)) <$> rev (seq 0 n) in
  total fs = 2 * Z.of_nat n /\ 0 <= readback fs v < 2 ^ total fs
  /\ Z.testbit (readback fs v) j = (j <? 2 * Z.of_nat n) && pair_bit v j.
Proof.
  intros Hv Hj. induction n as [|n IH].
  { cbn [seq rev fmap list_fmap total readback]. split; [done|]. split; [done|]. rewrite Z.bits_0. destruct (Z.ltb_spec j (2 * Z.of_nat 0)); [lia|done]. }
  rewrite seq_S, rev_app_distr. cbn [rev app fmap list_fmap Nat.add total readback width field_value].
  destruct IH as (Ht & Hb & E). rewrite Ht in Hb |- *.
  replace (2 * Z.of_nat n + 1 - 1) with (2 * Z.of_nat n) by lia.
  set (hi := v / 2 ^ (2 * Z.of_nat n + 1) mod 2). set (lo := v / 2 ^ (2 * Z.of_nat n) mod 2).
  assert (Hhi : hi = Z.b2z (Z.testbit v (2 * Z.of_nat n + 1))) by (subst hi; by rewrite Z.testbit_spec' by lia).
  assert (Hlo : lo = Z.b2z (Z.testbit v (2 * Z.of_nat n))) by (subst lo; by rewrite Z.testbit_spec' by lia).
  clearbody hi lo.
  assert (H2 : 0 <= 2 * hi + lo * (1 - hi) < 2 ^ 2).
  { rewrite Hhi, Hlo. by destruct (Z.testbit v _), (Z.testbit v _). }
  split; [lia|]. split; [by apply cat_bound; lia|].
  rewrite cat_lor, Z.lor_spec, testbit_shiftl, E by lia.
  destruct (Z.leb_spec (2 * Z.of_nat n) j), (Z.ltb_spec j (2 * Z.of_nat n)); try lia; simpl.
  - rewrite orb_false_r. destruct (Z.ltb_spec j (2 * Z.of_nat (S n))); simpl.
    + assert (j = 2 * Z.of_nat n \/ j = 2 * Z.of_nat n + 1) as [-> | ->] by lia; unfold pair_bit;
        rewrite ?Z.odd_add, Z.odd_mul, Hhi, Hlo; [rewrite Z.sub_diag|replace (2 * Z.of_nat n + 1 - 2 * Z.of_nat n) with 1 by lia];
        by destruct (Z.testbit v (2 * Z.of_nat n + 1)), (Z.testbit v (2 * Z.of_nat n)).
    + apply (testbit_bounded _ 2); lia.
  - by rewrite (proj2 (Z.ltb_lt j _)) by lia.
Qed.

Lemma mrac_readback v : 0 <= v < 2 ^ 32 -> prevent_11_pairs v = readback mrac_fields v.
Proof.
  intros Hv. apply Z.bits_inj'. intros j Hj. rewrite prevent_11_pairs_bits by done.
  destruct (pairs_bits 16 v j ltac:(lia) Hj) as (_ & _ & E). symmetry. exact E.
Qed.

Lemma m_ect_readback v : 0 <= v < 2 ^ 32 -> m_ect v = readback error_counter v.
Proof.
  intros Hv. unfold m_ect. cbn [readback error_counter field_value total width].
  rewrite land_mask5, Z.shiftr_div_pow2, (land_mask v 27) by done.
  rewrite lor_low_high by (lia || apply Z.mod_pos_bound; lia).
  change (27 - 0) with 27. rewrite Z.pow_0_r, Z.div_1_r. change (26 - 0 + 1 + 0) with 27. change (26 - 0 + 1) with 27.
  rewrite (Z.mod_small (v / 2 ^ 27)) by (split; [apply Z.div_pos|apply Z.div_lt_upper_bound]; lia).
  pose proof (Z.div_mod v (2 ^ 27) ltac:(lia)).
  destruct (Z.ltb_spec 26 (v / 2 ^ 27)); [rewrite Z.min_r by lia|rewrite Z.min_l by lia]; lia.
Qed.

Lemma zero_event_events v :
  0 <= v < 2 ^ 32 -> mhpme_zero_event v = negb (bool_decide (v ∈ MHPME_EVENTS)).
Proof.
  intros Hv. destruct (Z.ltb_spec 516 v) as [H|H].
  - unfold mhpme_zero_event. rewrite (proj2 (Z.ltb_lt 516 v) H). simpl.
    rewrite bool_decide_eq_false_2; [done|]. intros X.
    assert (Forall (fun x => x <= 516) MHPME_EVENTS) as F by (repeat constructor; lia).
    rewrite Forall_forall in F. apply F in X. lia.
  - assert (Hall : forallb (fun n => Bool.eqb (mhpme_zero_event (Z.of_nat n))
      (negb (bool_decide (Z.of_nat n ∈ MHPME_EVENTS)))) (seq 0 517) = true) by (vm_compute; reflexivity).
    rewrite forallb_forall in Hall. specialize (Hall (Z.to_nat v)). rewrite Z2Nat.id in Hall by lia.
    apply Bool.eqb_prop, Hall, in_seq. lia.
Qed.

Lemma mhpme_readback v : 0 <= v < 2 ^ 32 -> mhpme_out v = readback event_selector v.
Proof.
  intros Hv. unfold mhpme_out. rewrite zero_event_events by done.
  cbn [readback event_selector field_value total width]. rewrite Z.pow_0_r.
  destruct (bool_decide (v ∈ MHPME_EVENTS)); simpl; lia.
Qed.

Lemma dcsr_readback v : dcsr v = readback dcsr_fields v.
Proof. rewrite dcsr_mask. by destruct (readback_masked dcsr_fields v eq_refl) as (_ & _ & ->). Qed.

Lemma word_readback v : 0 <= v < 2 ^ 32 -> v = readback [Wr 31 0] v.
Proof. intros Hv. simpl. rewrite Z.div_1_r, Z.mod_small; lia. Qed.

Lemma dpc_readback v : 0 <= v < 2 ^ 32 -> Z.land v (Z.lnot 1) = readback [Wr 31 1; Const 1 0] v.
Proof.
  intros Hv. rewrite (mask_readback _ 0xFFFFFFFE) by done.
  apply Z.bits_inj'. intros i Hi. rewrite !Z.land_spec, testbit_lnot, testbit_one.
  change 0xFFFFFFFE with (Z.lxor (Z.ones 32) 1). rewrite Z.lxor_spec, testbit_ones, testbit_one by lia.
  destruct (Z.ltb_spec i 32); [|by rewrite (testbit_bounded v 32)].
  rewrite (proj2 (Z.leb_le 0 i)) by lia. by destruct (i =? 0).
Qed.

Lemma core_regs_outs :
  Forall (fun '(n, a, fs) => exists c, getattr n = Some c /\ addr c = a
    /\ forall v, 0 <= v < 2 ^ 32 -> out c v = readback fs v) core_regs.
Proof.
  unfold core_regs.
  repeat (apply Forall_cons; split; [eexists; split; [reflexivity|split; [reflexivity|intros v Hv; cbn [out]]]|]);
    try (by apply Forall_nil); first
    [ exact (word_readback v Hv) | exact (m_ect_readback v Hv) | exact (mhpme_readback v Hv)
    | exact (mrac_readback v Hv) | exact (dpc_readback v Hv) | exact (dcsr_readback v)
    | cbn [out DICAWICS]; rewrite ?dicawics_mask; symmetry; by apply mask_readback ].
Qed.

Lemma getattr_ns nm c : getattr nm = Some c -> (nm, c) ∈ csrs_ns.
Proof.
  unfold getattr. rewrite fmap_Some. intros ([n c'] & H & ->).
  apply List.find_some in H as [H Hn]. apply String.eqb_eq in Hn. simpl in *. subst.
  by apply list_elem_of_In.
Qed.

Lemma csr_list_eq :
  csr_list =
  [DCSR; DICAD0; DICAD0H; DICAD1; DICAWICS; DPC; MCOUNTINHIBIT; MCYCLEH; MCYCLEL; MDCCMECT;
   MDEAU; MDSEAC; MEICIDPL; MEICPCT; MEICURPL; MEIPT; MEIVT; MFDC; MFDHT; MHPMC3; MHPMC3H;
   MHPMC4; MHPMC4H; MHPMC5; MHPMC5H; MHPMC6; MHPMC6H; MHPME3; MHPME4; MHPME5; MHPME6;
   MICCMECT; MICECT; MINSTRETH; MINSTRETL; MRAC; MTDATA1; MTDATA2; MTSEL; MTVEC].
Proof.
  unfold csr_list.
  assert (dir_csrs = ["DCSR"; "DICAD0"; "DICAD0H"; "DICAD1"; "DICAWICS"; "DPC"; "MCOUNTINHIBIT";
    "MCYCLEH"; "MCYCLEL"; "MDCCMECT"; "MDEAU"; "MDSEAC"; "MEICIDPL"; "MEICPCT";
    "MEICURPL"; "MEIPT"; "MEIVT"; "MFDC"; "MFDHT"; "MHPMC3"; "MHPMC3H"; "MHPMC4";
    "MHPMC4H"; "MHPMC5"; "MHPMC5H"; "MHPMC6"; "MHPMC6H"; "MHPME3"; "MHPME4"; "MHPME5";
    "MHPME6"; "MICCMECT"; "MICECT"; "MINSTRETH"; "MINSTRETL"; "MRAC"; "MTDATA1";
    "MTDATA2"; "MTSEL"; "MTVEC"]) as -> by (vm_compute; reflexivity).
  reflexivity.
Qed.

(** Looking a register up by its address finds that register, for each of the
    forty registers but [MFDC]: it was given the address of [MEICURPL], whose
    name comes first in [csr_list]. *)
Lemma csr_expected_out n c v :
  (n, c) ∈ csrs_ns ->
  csr_expected (addr c) v
  = if String.eqb n "MFDC" then out MEICURPL v else out c v.
Proof.
  intros Hin. unfold csr_expected, apply_first.
  assert (H : Forall (fun p => List.find (fun c => addr c =? addr p.2) csr_list
    = Some (if String.eqb p.1 "MFDC" then MEICURPL else p.2)) csrs_ns).
  { rewrite csr_list_eq. unfold csrs_ns.
    repeat (apply Forall_cons; split; [reflexivity|]). by apply Forall_nil. }
  apply (proj1 (Forall_forall _ _) H) in Hin. cbn [fst snd] in Hin. rewrite Hin. by destruct (String.eqb n "MFDC").
Qed.

(** C13: for each register that the access tests draw, the table has the
    register's address in the core, and the word that it expects to read back is
    the one that the write and read paths of the core give (writable fields,
    constant fields, MRAC pairs, the saturation of the error counters, the events
    that exist), for every 32-bit word written.  [MFDC] is the exception: its
    entry has the address of [MEICURPL], the expectation there is that of
    [MEICURPL], and its own mask drops bit 6, which the core keeps. *)
Theorem csr_table_legal :
  Forall (fun '(n, a, fs) => exists c, getattr n = Some c /\ addr c = a
    /\ forall v, 0 <= v < 2 ^ 32 -> out c v = readback fs v /\ csr_expected a v = readback fs v)
    core_regs
  /\ (forall v, 0 <= v < 2 ^ 32 -> csr_expected (addr MFDC) v = readback priority v)
  /\ forall v, Z.testbit (readback mfdc_fields v) 6 = Z.testbit v 6
      /\ Z.land (readback mfdc_fields v) (Z.lnot 64) = out MFDC v.
Proof.
  split; [|split].
  - pose proof core_regs_outs as H. rewrite Forall_forall in H |- *.
    intros [[n a] fs] Hin. destruct (H _ Hin) as (c & Hc & Ha & Ho). exists c.
    split; [done|]. split; [done|]. intros v Hv. split; [by apply Ho|]. rewrite <- Ho by done.
    rewrite <- Ha, (csr_expected_out n c) by by apply getattr_ns.
    destruct (String.eqb_spec n "MFDC") as [->|]; [|done]. exfalso. clear - Hin.
    assert (X : "MFDC" ∈ core_regs.*1.*1) by (by apply (list_elem_of_fmap_2 fst), (list_elem_of_fmap_2 fst) in Hin).
    revert X. apply (bool_decide_eq_false_1 ("MFDC" ∈ core_regs.*1.*1)). by vm_compute.
  - intros v Hv. change (csr_expected (addr MFDC) v) with (csr_expected (addr MEICURPL) v).
    rewrite (csr_expected_out "MEICURPL" MEICURPL) by (apply getattr_ns; reflexivity).
    symmetry. by apply mask_readback.
  - intros v. rewrite (mask_readback mfdc_fields 0x71FFF) by done. split.
    + by rewrite Z.land_spec, andb_true_r.
    + rewrite <- Z.land_assoc. done.
Qed.

Lemma csr_table_legal_witness :
  csr_expected 0x7C0 0xFFFFFFFF = 0xAAAAAAAA /\ csr_expected 0x323 33 = 0 /\ csr_expected 0x323 34 = 34.
Proof.
  destruct csr_table_legal as [H _]. rewrite Forall_forall in H.
  assert (Hx : forall x v, x ∈ core_regs -> 0 <= v < 2 ^ 32 -> csr_expected x.1.2 v = readback x.2 v).
  { intros [[n a] fs] v Hin Hv. destruct (H _ Hin) as (c & _ & _ & Hc). by apply Hc. }
  split; [|split].
  - rewrite (Hx ("MRAC", 0x7C0, mrac_fields)); [by vm_compute| |lia].
    by apply (list_elem_of_lookup_2 _ 20%nat).
  - rewrite (Hx ("MHPME3", 0x323, event_selector)); [by vm_compute| |lia].
    by apply (list_elem_of_lookup_2 _ 16%nat).
  - rewrite (Hx ("MHPME3", 0x323, event_selector)); [by vm_compute| |lia].
    by apply (list_elem_of_lookup_2 _ 16%nat).
Defined.

(** The region access control register never reads back the reserved
    combination 11: of each pair of bits of a written word the high one is kept,
    and the low one is kept unless the high one is set; nothing else is set. *)
Theorem mrac_no_reserved_pair :
  forall v k, 0 <= k ->
    Z.testbit (out MRAC v) (2 * k + 1) = (k <? 16) && Z.testbit v (2 * k + 1)
    /\ Z.testbit (out MRAC v) (2 * k)
       = (k <? 16) && Z.testbit v (2 * k) && negb (Z.testbit v (2 * k + 1)).
Proof.
  intros v k Hk. cbn [out MRAC]. rewrite !prevent_11_pairs_bits by lia. unfold pair_bit.
  replace (2 * k + 1 <? 32) with (k <? 16) by (split_cmp; done).
  replace (2 * k <? 32) with (k <? 16) by (split_cmp; done).
  rewrite !Z.odd_add, Z.odd_mul. cbn [Z.odd andb xorb orb].
  by rewrite andb_true_r, andb_assoc.
Qed.

Lemma mrac_no_reserved_pair_witness :
  Z.testbit (out MRAC 0x36) 1 = true /\ Z.testbit (out MRAC 0x36) 5 = true
  /\ Z.testbit (out MRAC 0x36) 4 = false.
Proof.
  destruct (mrac_no_reserved_pair 0x36 2) as [H1 H0]; [lia|].
  split; [vm_compute; reflexivity|]. split; [exact H1|exact H0].
Defined.
