(* ===== verification/ClosedLoop.v ===== *)
(** * A driver in closed loop with a unit under test

    [closed] runs a driver against a clocked unit with a state of its own: at
    every rising edge of the clock the unit steps on the values before the edge,
    the driver resumes and its writes take effect, and the outputs of the unit
    follow combinationally.  The result is the list of samples that the
    monitors of the bench observe: the edges of the clock, and the rising edges
    of the signals of [watch].

    [monitor_segments] is the argument shared by the benches: when one item
    produces a segment of the trace from which a monitor publishes one item, a
    run over a list of items is published item by item. *)

From S2P Require Import Prelude Cocotb.
From stdpp Require Import base list strings.
From Stdlib Require Import ZArith Lia.

#[local] Open Scope list_scope.
#[local] Open Scope Z_scope.

Section Closed.
Context {I A St : Type}.
Variable clk : string.
(** The signals whose rising edges some monitor awaits. *)
Variable watch : list string.
(** The unit under test. *)
Variable step : St -> env -> St.
Variable outs : St -> env -> env.

(** The values at the last commit, the values with the writes of the driver
    since, and the state of the unit. *)
Record world := World { before : env; wires : env; unit_state : St }.

Definition settled (w : world) : env := outs (unit_state w) (wires w).

Definition rises (s : string) (e e' : env) : bool := negb (truthy (e s)) && truthy (e' s).

Definition rise_samples (w : world) : list sample :=
  omap (fun s => if rises s (before w) (settled w)
                 then Some (Sample (RisingEdge s) (settled w)) else None) watch.

(** The next edge of the clock. *)
Definition clock_edge (w : world) : list sample * world :=
  (rise_samples w ++ [Sample (RisingEdge clk) (settled w)],
   World (settled w) (settled w) (step (unit_state w) (settled w))).
End Closed.
Arguments World {St} before wires unit_state.
Arguments before {St} w.
Arguments wires {St} w.
Arguments unit_state {St} w.

Section Run.
Context {I St : Type}.
Variable clk : string.
Variable watch : list string.
Variable step : St -> env -> St.
Variable outs : St -> env -> env.

Abbreviation settled := (settled outs).
Abbreviation clock_edge := (clock_edge clk watch step outs).

(** Run a driver to its end; [None] when it waits for another signal than the
    clock, or raises. *)
Fixpoint closed {A} (p : proc I A) (w : world (St := St)) : list sample * option (A * world) :=
  match p with
  | Ret a => ([], Some (a, w))
  | Await t k =>
      if decide (t = RisingEdge clk) then
        let '(tr, w') := clock_edge w in
        let '(tr', o) := closed (k (settled w)) w' in
        (tr ++ tr', o)
      else ([], None)
  | Now k => closed (k (before w)) w
  | Drive s v k => closed k (World (before w) (upd s v (wires w)) (unit_state w))
  | Publish _ k => closed k w
  | LogError k => closed k w
  | Throw e => ([], None)
  end.

Lemma closed_pbind {A B} (m : proc I A) (f : A -> proc I B) w :
  closed (pbind m f) w =
    match closed m w with
    | (tr, Some (a, w')) => let '(tr', o) := closed (f a) w' in (tr ++ tr', o)
    | (tr, None) => (tr, None)
    end.
Proof.
  revert w. induction m as [a|t k IH|k IH|s v m IH|i m IH|m IH|e]; intros w; simpl.
  - by destruct (closed (f a) w).
  - destruct (decide _); [|done]. rewrite IH.
    destruct (closed (k (settled w)) _) as [tr' [[a w'']|]]; [|done].
    destruct (closed (f a) w''). by rewrite app_assoc.
  - apply IH.
  - apply IH.
  - apply IH.
  - apply IH.
  - done.
Qed.

(** The driver's loop over the items of a sequence. *)
Lemma closed_for_each_cons {X} (body : X -> proc I unit) x xs w tr w' :
  closed (body x) w = (tr, Some (tt, w')) ->
  closed (for_each (x :: xs) body) w
  = (tr ++ (closed (for_each xs body) w').1, (closed (for_each xs body) w').2).
Proof.
  intros H. cbn [for_each]. rewrite closed_pbind, H. by destruct (closed (for_each xs body) w').
Qed.

(** The driver completes every item. *)
Lemma closed_for_each_done {X} (body : X -> proc I unit) (inv : world -> Prop) xs w :
  inv w ->
  (forall x w, x ∈ xs -> inv w ->
     exists tr w', closed (body x) w = (tr, Some (tt, w')) /\ inv w') ->
  exists w', (closed (for_each xs body) w).2 = Some (tt, w').
Proof.
  revert w. induction xs as [|x xs IH]; intros w Hw Hx; [by exists w|].
  destruct (Hx x w) as (tr & w' & E & Hw'); [by left|done|].
  rewrite (closed_for_each_cons _ _ _ _ _ _ E). cbn [snd]. apply IH; [done|].
  intros y v Hy. apply Hx. by right.
Qed.
End Run.

(** ** Stepping a driver *)

(** The value of a signal after a series of writes. *)
Ltac env_simpl := repeat first [ rewrite upd_eq | rewrite upd_ne by discriminate ].

Section Steps.
Context {I St : Type}.
Variable clk : string.
Variable watch : list string.
Variable step : St -> env -> St.
Variable outs : St -> env -> env.

(** The driver runs to its end with this trace. *)
Definition closes {A} (p : proc I A) (w : world) (tr : list sample) (a : A) (w' : world) : Prop :=
  closed clk watch step outs p w = (tr, Some (a, w')).

Lemma closes_ret {A} (a : A) w : closes (Ret a) w [] a w.
Proof. done. Qed.

Lemma closes_drive {A} s v (p : proc I A) b c u tr a w' :
  closes p (World b (upd s v c) u) tr a w' -> closes (Drive s v p) (World b c u) tr a w'.
Proof. done. Qed.

Lemma closes_bind {A B} (m : proc I A) (f : A -> proc I B) w tr a w' tr' b w'' :
  closes m w tr a w' -> closes (f a) w' tr' b w'' -> closes (pbind m f) w (tr ++ tr') b w''.
Proof. unfold closes. intros H H'. by rewrite closed_pbind, H, H'. Qed.

(** [m; p] *)
Lemma closes_seq {A B} (m : proc I A) (p : proc I B) w tr a w' tr' b w'' all :
  closes m w tr a w' -> closes p w' tr' b w'' -> all = tr ++ tr' ->
  closes (pbind m (fun _ => p)) w all b w''.
Proof. intros H H' ->. exact (closes_bind m (fun _ => p) _ _ _ _ _ _ _ H H'). Qed.

(** An edge of the clock. *)
Lemma closes_edge {A} (k : env -> proc I A) b c u e tr a w' :
  e = outs u c -> closes (k e) (World e e (step u e)) tr a w' ->
  closes (Await (RisingEdge clk) k) (World b c u)
    (rise_samples watch outs (World b c u) ++ Sample (RisingEdge clk) e :: tr) a w'.
Proof.
  unfold closes. intros -> H. cbn [closed]. rewrite decide_True by done.
  unfold clock_edge, settled in *. cbn [unit_state wires before] in *. rewrite H.
  by rewrite <- app_assoc.
Qed.
End Steps.

Section OneSignal.
Context {I A St : Type} {clk sig : string} {step : St -> env -> St} {outs : St -> env -> env}.

Abbreviation closes1 := (closes (I := I) (A := A) clk [sig] step outs).

(** A cycle in which the watched signal does not rise. *)
Lemma closes_clk (k : env -> proc I A) b c u e tr a w' :
  e = outs u c -> truthy (e sig) = false ->
  closes1 (k e) (World e e (step u e)) tr a w' ->
  closes1 (Await (RisingEdge clk) k) (World b c u) (Sample (RisingEdge clk) e :: tr) a w'.
Proof.
  intros He Hs H. pose proof (closes_edge _ _ _ _ k b c u e tr a w' He H) as HH.
  unfold rise_samples, rises, settled in HH. cbn [omap list_omap unit_state wires before] in HH.
  by rewrite <- He, Hs, andb_false_r in HH.
Qed.

(** A cycle in which it rises. *)
Lemma closes_rise (k : env -> proc I A) b c u e tr a w' :
  e = outs u c -> truthy (b sig) = false -> truthy (e sig) = true ->
  closes1 (k e) (World e e (step u e)) tr a w' ->
  closes1 (Await (RisingEdge clk) k) (World b c u)
    (Sample (RisingEdge sig) e :: Sample (RisingEdge clk) e :: tr) a w'.
Proof.
  intros He Hb Hs H. pose proof (closes_edge _ _ _ _ k b c u e tr a w' He H) as HH.
  unfold rise_samples, rises, settled in HH. cbn [omap list_omap unit_state wires before] in HH.
  by rewrite <- He, Hb, Hs in HH.
Qed.
End OneSignal.

(** ** What a monitor makes of the trace *)

Lemma next_firing_miss t t' e tr : t' <> t -> next_firing t (Sample t' e :: tr) = next_firing t tr.
Proof.
  intros H. change (next_firing t (Sample t' e :: tr))
    with (if decide (t' = t) then Some (e, tr) else next_firing t tr).
  by rewrite decide_False.
Qed.

Lemma run_await_miss {I A} t t' (k : env -> proc I A) cur e tr :
  t' <> t -> run (Await t k) cur (Sample t' e :: tr) = run (Await t k) cur tr.
Proof. intros H. cbn [run]. by rewrite next_firing_miss. Qed.

(** The body of a monitor that starts by awaiting [t]. *)
Definition starts_await {M} (t : trigger) (body : unit -> proc M unit) : Prop :=
  exists k, forall u, body u = Await t k.

Lemma starts_await_productive {M} t (body : unit -> proc M unit) :
  starts_await t body -> productive body.
Proof. intros (k & H). apply productive_await. eauto. Qed.

Section Segments.
Context {M : Type} (body : unit -> proc M unit) (t : trigger).
Hypothesis body_awaits : starts_await t body.

Lemma monitor_skip cur cur' t' e tr :
  t' <> t -> monitor_items body tt cur (Sample t' e :: tr) = monitor_items body tt cur' tr.
Proof.
  intros Ht. pose proof (starts_await_productive _ _ body_awaits) as Hp.
  destruct body_awaits as (k & Hk). unfold monitor_items.
  rewrite <- (run_forever_fuel body Hp (S (length (Sample t' e :: tr))) (S (length tr)) tt cur' tr)
    by (simpl; lia).
  cbn [run_forever]. rewrite !Hk, run_await_miss by done. by cbn [run].
Qed.

Lemma monitor_end cur : monitor_items body tt cur [] = [].
Proof.
  destruct body_awaits as (k & Hk). apply monitor_items_nil. by rewrite Hk.
Qed.

(** A segment from which the monitor publishes [i], whatever follows. *)
Definition publishes (seg : list sample) (i : M) : Prop :=
  forall cur rest, exists cur',
    monitor_items body tt cur (seg ++ rest) = i :: monitor_items body tt cur' rest.

Lemma publishes_run seg left i :
  (forall cur rest, exists cur',
     run (body tt) cur (seg ++ rest) = ([APublish i], Done tt cur' (left ++ rest))) ->
  Forall (fun s => fired s <> t) left ->
  publishes seg i.
Proof.
  intros Hrun Hleft cur rest. destruct (Hrun cur rest) as (cur' & E).
  pose proof (starts_await_productive _ _ body_awaits) as Hp.
  rewrite (monitor_items_step body _ _ _ _ _ _ _ Hp E). cbn [published app].
  exists cur'. f_equal. clear E Hrun. revert cur'.
  induction Hleft as [|[t' e] left Ht _ IH]; intros cur'; [done|].
  cbn [app]. rewrite (monitor_skip cur' cur') by done. apply IH.
Qed.

Context {I St X : Type} (clk : string) (watch : list string).
Context (step : St -> env -> St) (outs : St -> env -> env).
Context (driver : X -> proc I unit) (seen : X -> M) (inv : world (St := St) -> Prop).

(** Item by item. *)
Lemma monitor_segments xs w cur :
  inv w ->
  (forall x w, x ∈ xs -> inv w -> exists tr w',
     closed clk watch step outs (driver x) w = (tr, Some (tt, w')) /\ inv w'
     /\ publishes tr (seen x)) ->
  monitor_items body tt cur (closed clk watch step outs (for_each xs driver) w).1 = seen <$> xs.
Proof.
  intros Hw Hseg. revert w cur Hw. induction xs as [|x xs IH]; intros w cur Hw.
  - apply monitor_end.
  - destruct (Hseg x w) as (tr & w' & E & Hw' & Hpub); [by left|done|].
    rewrite (closed_for_each_cons _ _ _ _ _ _ _ _ _ _ E). cbn [fst].
    destruct (Hpub cur (closed clk watch step outs (for_each xs driver) w').1) as (cur' & ->).
    cbn [fmap list_fmap]. f_equal. apply IH; [|done]. intros y v Hy. apply Hseg. by right.
Qed.
End Segments.

(** Walk a monitor's body over a concrete segment. *)
Ltac run_segment :=
  cbn [app];
  repeat first
    [ rewrite run_await_hit; cbn [pbind]
    | rewrite run_await_miss by done
    | progress cbn [run pbind await publish for_each clock_cycles] ].

(** ** Both edges of the clock

    For drivers that also wait for the falling edge: every edge up to the one that
    the driver awaits is a sample, and the unit steps at the rising ones. *)

Record clocked (St : Type) := Clocked { lines : env; inner : St; high : bool }.
Arguments Clocked {St} lines inner high.
Arguments lines {St} c.
Arguments inner {St} c.
Arguments high {St} c.

Section BothEdges.
Context {I St : Type}.
Variable clk : string.
Variable step : St -> env -> St.
Variable outs : St -> env -> env.

(** The values of the signals. *)
Definition level (h : clocked St) : env := outs (inner h) (lines h).

Definition fall (h : clocked St) : list sample * clocked St :=
  if high h then ([Sample (FallingEdge clk) (level h)], Clocked (lines h) (inner h) false) else ([], h).
Definition rise (h : clocked St) : list sample * clocked St :=
  if high h then ([], h)
  else ([Sample (RisingEdge clk) (level h)], Clocked (lines h) (step (inner h) (level h)) true).

(** Run a driver to its end. *)
Fixpoint half_cycles {A} (p : proc I A) (h : clocked St) : list sample * option (A * clocked St) :=
  match p with
  | Ret a => ([], Some (a, h))
  | Await t k =>
      if decide (t = RisingEdge clk) then
        let '(tr0, h) := fall h in
        let '(tr1, h') := rise h in
        let '(tr, o) := half_cycles (k (level h)) h' in
        (tr0 ++ tr1 ++ tr, o)
      else if decide (t = FallingEdge clk) then
        let '(tr0, h) := rise h in
        let '(tr1, h') := fall h in
        let '(tr, o) := half_cycles (k (level h)) h' in
        (tr0 ++ tr1 ++ tr, o)
      else ([], None)
  | Now k => half_cycles (k (level h)) h
  | Drive s v k => half_cycles k (Clocked (upd s v (lines h)) (inner h) (high h))
  | Publish _ k => half_cycles k h
  | LogError k => half_cycles k h
  | Throw e => ([], None)
  end.

Lemma half_cycles_pbind {A B} (m : proc I A) (f : A -> proc I B) h :
  half_cycles (pbind m f) h =
    match half_cycles m h with
    | (tr, Some (a, h')) => let '(tr', o) := half_cycles (f a) h' in (tr ++ tr', o)
    | (tr, None) => (tr, None)
    end.
Proof.
  revert h. induction m as [a|t k IH|k IH|s v m IH|i m IH|m IH|e]; intros h; simpl;
    [by destruct (half_cycles (f a) h)| |apply IH..|done].
  destruct (decide _); [|destruct (decide _); [|done]].
  - destruct (fall h) as [tr0 h0], (rise h0) as [tr1 h1]. rewrite IH.
    destruct (half_cycles (k _) _) as [tr' [[a h'']|]]; [|done].
    destruct (half_cycles (f a) h''). by rewrite !app_assoc.
  - destruct (rise h) as [tr0 h0], (fall h0) as [tr1 h1]. rewrite IH.
    destruct (half_cycles (k _) _) as [tr' [[a h'']|]]; [|done].
    destruct (half_cycles (f a) h''). by rewrite !app_assoc.
Qed.
End BothEdges.
