(* ===== verification/PicRegTests.v ===== *)
(** * Register tests of the interrupt controller: verification/block/pic/test_*.py

    The tests of the register contents, of the pending status, of the clock gates and
    of the reset, the sequences of the tests, and the register interface in closed
    loop: what the monitor publishes is what the driver did, for any unit. *)

From S2P Require Import Prelude Scoreboard Cocotb Pic PicTests ClosedLoop.
From stdpp Require Import base gmap list strings.
From Stdlib Require Import ZArith Lia.

#[local] Open Scope string_scope.
#[local] Open Scope list_scope.
#[local] Open Scope Z_scope.

(** [self.regs.reg[name]] *)
Definition reg_at (n : reg_name) : result Z :=
  match reg regs !! n with Some a => Ok a | None => Raise KeyError end.

(** ** test_config.py *)

Module Config.

Record state := { passed : option bool; reg_content : gmap Z Z }.

Definition start : state := {| passed := None; reg_content := ∅ |}.

(** The body of the loop of [check_phase]; the message of a mismatch formats the data
    of the item as a number. *)
Definition check_item (s : state) (item : PicItem) : result state :=
  let p := set_initial (passed s) in
  match item with
  | BusWriteItem addr data => Ok {| passed := p; reg_content := <[addr := data]> (reg_content s) |}
  | BusReadItem addr data =>
      match reg_content s !! addr, data with
      | None, _ => Ok {| passed := Some false; reg_content := reg_content s |}
      | Some golden, Some data =>
          Ok {| passed := if golden =? data then p else Some false; reg_content := reg_content s |}
      | Some _, None => Raise TypeError
      end
  | _ => Ok {| passed := p; reg_content := reg_content s |}
  end.

Fixpoint check_phase (items : list PicItem) (s : state) : result state :=
  match items with
  | [] => Ok s
  | item :: items => let! s := check_item s item in check_phase items s
  end.

Definition verdict (items : list PicItem) : result unit :=
  let! s := check_phase items start in final_phase (passed s).

(** The value that the sequence writes to a register, from an integer drawn for it. *)
Definition random_value (name : reg_name) (r : Z) : option Z :=
  match name with
  | mpiccfg => Some (randint 0 1 r)
  | meipl _ => Some (randint 0 PIC_NUM_PRIORITIES r)
  | meigwctrl _ => Some (randint 0 3 r)
  | meie _ => Some (randint 0 1 r)
  | meip _ | meigwclr _ => None
  end.

(** The random choices of an iteration: [names] and [written] after they were
    shuffled, and the integer drawn for each name. *)
Record round := { names : list reg_name; written : list reg_name; draw : reg_name -> Z }.

(** The values written, in the order of the writes. *)
Definition values (r : round) : list (reg_name * Z) :=
  omap (fun n => (fun v => (n, v)) <$> random_value n (draw r n)) (names r).

(** The items of an iteration: the writes, and the reads of what was written. *)
Definition iteration (r : round) : result (list PicItem) :=
  let! writes := map_result (fun '(n, v) => let! a := reg_at n in Ok (BusWriteItem a v)) (values r) in
  let! reads := map_result (fun n => let! a := reg_at n in Ok (BusReadItem a None)) (written r) in
  Ok (writes ++ reads).

Definition body (rounds : list round) : result (list PicItem) :=
  let! items := map_result iteration rounds in Ok (concat items).

(** The results of [random.shuffle]. *)
Definition shuffled (r : round) : Prop :=
  names r ≡ₚ (map_to_list (reg regs)).*1 /\ written r ≡ₚ (values r).*1.

End Config.

(** ** test_pending.py *)

Module Pending.

Record state := { passed : option bool; irqs : Z }.

Definition start : state := {| passed := None; irqs := 0 |}.

Definition check_item (s : state) (item : PicItem) : result state :=
  match item with
  | BusReadItem addr data =>
      match adr regs !! addr with
      | None => Ok {| passed := Some false; irqs := irqs s |}
      | Some (meip x) =>
          match data with
          | None => Raise TypeError
          | Some data =>
              let mask := Z.shiftl 0xFFFFFFFF (32 * Z.of_nat x) in
              let pend := Z.shiftl data (32 * Z.of_nat x) in
              Ok {| passed := if Z.land (irqs s) mask =? pend then set_initial (passed s) else Some false;
                    irqs := irqs s |}
          end
      | Some _ => Ok s
      end
  | IrqItem v => Ok {| passed := passed s; irqs := v |}
  | _ => Ok s
  end.

Fixpoint check_phase (items : list PicItem) (s : state) : result state :=
  match items with
  | [] => Ok s
  | item :: items => let! s := check_item s item in check_phase items s
  end.

Definition verdict (items : list PicItem) : result unit :=
  let! s := check_phase items start in final_phase (passed s).

End Pending.

(** ** test_clken.py *)

Module ClockEnable.

Inductive clk_item :=
  | ClockEnableItem (clk_en io_clk_en : Z)
  | ClockStateItem (state : gmap string bool).

Definition ClkenDriver_item (it : clk_item) : proc clk_item unit :=
  match it with
  | ClockEnableItem clk_en io_clk_en =>
      drive "clk_override" clk_en ;;; drive "io_clk_override" io_clk_en
  | _ => throw RuntimeError
  end.

(** The state is [(prev_clk_override, prev_io_clk_override)]. *)
Definition ClkenMonitor_run_phase (prev : Z * Z) : proc clk_item (Z * Z) :=
  e <- await (RisingEdge "clk") ;;
  let clk_override := e "clk_override" in
  let io_clk_override := e "io_clk_override" in
  if bool_decide (prev.1 <> clk_override \/ prev.2 <> io_clk_override) then
    publish (ClockEnableItem clk_override io_clk_override) ;;; Ret (clk_override, io_clk_override)
  else Ret prev.

Definition CLOCKS : list string :=
  ["pic_raddr_c1_clk"; "pic_data_c1_clk"; "pic_pri_c1_clk"; "pic_int_c1_clk"].
Definition IO_CLOCKS : list string := [].

(** [for clk in clocks: if state[clk] != en: self.passed = False] *)
Fixpoint check_clocks (clocks : list string) (state : gmap string bool) (en : Z) (passed : option bool)
  : result (option bool) :=
  match clocks with
  | [] => Ok passed
  | clk :: clocks =>
      match state !! clk with
      | None => Raise KeyError
      | Some toggling =>
          check_clocks clocks state en (if Z.b2z toggling =? en then passed else Some false)
      end
  end.

Fixpoint check_phase (items : list clk_item) (passed : option bool) : result (option bool) :=
  match items with
  | [] => Ok passed
  | ClockEnableItem clk_en io_clk_en :: ClockStateItem _ :: ClockStateItem state :: items =>
      let! passed := check_clocks CLOCKS state clk_en (set_initial passed) in
      let! passed := check_clocks IO_CLOCKS state io_clk_en passed in
      check_phase items passed
  | ClockEnableItem _ _ :: _ => Raise AssertionError
  | ClockStateItem _ :: items => check_phase items passed
  end.

Definition verdict (items : list clk_item) : result unit :=
  let! passed := check_phase items None in final_phase passed.

(** The items of the sequence; it waits 20 periods after each. *)
Definition body : list clk_item :=
  [ClockEnableItem 0 0; ClockEnableItem 1 0; ClockEnableItem 0 0; ClockEnableItem 0 1; ClockEnableItem 0 0].

End ClockEnable.

(** ** test_reset.py *)

Definition TestReset_run : proc PicItem unit :=
  e <- now ;;
  for_each ["mexintpend"; "mhwakeup"; "pl"; "claimid"] (fun name => lift (py_assert (e name =? 0))).

(** ** The sequences of the tests

    What they send to the sequencers, and the clock cycles they wait. *)

Inductive sequencer := REG_SEQR | PRI_SEQR | IRQ_SEQR.

Inductive seq_step :=
  | Send (seqr : sequencer) (item : PicItem)
  | Cycles (n : nat).

Definition write_step (n : reg_name) (data : Z) : result seq_step :=
  let! a := reg_at n in Ok (Send REG_SEQR (BusWriteItem a data)).

(** [for i in range(1, num_irq)] *)
Definition each_irq : list nat := py_range 1 PIC_NUM_INTERRUPTS.

(** [for i in ...: if chosen(i): irqs |= 1 << i] *)
Definition set_irqs (chosen : nat -> bool) (nums : list nat) (irqs : Z) : Z :=
  foldl (fun irqs i => if chosen i then Z.lor irqs (Z.shiftl 1 (Z.of_nat i)) else irqs) irqs nums.

(** [while irqs == 0: ...], with the choices of each turn; [None] when the turns given
    do not end it. *)
Fixpoint random_irqs (turns : list (nat -> bool)) (irqs : Z) : option Z :=
  if negb (irqs =? 0) then Some irqs
  else match turns with
       | [] => None
       | chosen :: turns => random_irqs turns (set_irqs chosen each_irq irqs)
       end.

(** [await ClockCycles(cocotb.top.clk, 4)] and so on between the items. *)
Definition Pending_body (irqs : Z) : result (list seq_step) :=
  let! disable := map_result (fun i => write_step (meie i) 0) each_irq in
  let! gateways := map_result (fun i => write_step (meigwctrl i) 2) each_irq in
  let! reads := map_result (fun x => let! a := reg_at (meip x) in Ok (Send REG_SEQR (BusReadItem a None)))
                  (py_range 0 ((PIC_NUM_INTERRUPTS + 31) / 32)) in
  Ok (disable ++ gateways ++ [Cycles 4; Send IRQ_SEQR (IrqItem irqs)] ++ reads).

(** The random choices of an iteration; [d_irqs] is the result of [random_irqs]. *)
Record draws := {
  d_priority : nat -> Z; d_enabled : nat -> bool; d_lvl : Z; d_thr : Z; d_irqs : Z }.

Definition set_priorities (d : draws) : result (list seq_step) :=
  map_result (fun i => write_step (meipl i) (randint 0 PIC_NUM_PRIORITIES (d_priority d i))) each_irq.
Definition set_enables (d : draws) : result (list seq_step) :=
  map_result (fun i => write_step (meie i) (Z.b2z (d_enabled d i))) each_irq.
Definition set_gateways : result (list seq_step) :=
  map_result (fun i => write_step (meigwctrl i) 2) each_irq.

Definition Prioritization_iteration (d : draws) : result (list seq_step) :=
  let! priorities := set_priorities d in
  let! enables := set_enables d in
  let! gateways := set_gateways in
  let! clears := map_result (fun i => write_step (meigwclr i) 0)
                   (List.filter (fun i => truthy (Z.land (d_irqs d) (Z.shiftl 1 (Z.of_nat i)))) each_irq) in
  Ok (priorities ++ enables ++ gateways
      ++ [Send PRI_SEQR (PrioLvlItem (randint 0 PIC_NUM_PRIORITIES (d_lvl d)));
          Send PRI_SEQR (PrioThrItem (randint 0 PIC_NUM_PRIORITIES (d_thr d))); Cycles 4;
          Send IRQ_SEQR (IrqItem (d_irqs d)); Cycles 2; Send IRQ_SEQR (IrqItem 0); Cycles 4]
      ++ clears ++ [Cycles 5]).

Definition Prioritization_body (order : Z) (ds : list draws) : result (list seq_step) :=
  let! config := write_step mpiccfg (randint 0 1 order) in
  let! iterations := map_result Prioritization_iteration ds in
  Ok (config :: concat iterations).

(** "Mimic interrupt servicing", at most [n] interrupts. *)
Fixpoint service (n : nat) (predictor : PriorityPredictor) : result (list seq_step * PriorityPredictor) :=
  match n with
  | O => Ok ([], predictor)
  | S n =>
      let irq := predict predictor in
      if id irq =? 0 then Ok ([], predictor)
      else
        let! clear := write_step (meigwclr (Z.to_nat (id irq))) 0 in
        let! (steps, predictor) := service n (set_irq (id irq) (set_triggered false) predictor) in
        Ok ([Send PRI_SEQR (PrioLvlItem (priority irq)); Cycles 5; Send PRI_SEQR (PrioLvlItem 0); clear; Cycles 4]
            ++ steps, predictor)
  end.

(** The predictor after an iteration configured the interrupts. *)
Definition predictor_config (d : draws) (pp : PriorityPredictor) : PriorityPredictor :=
  foldl (fun pp i =>
      set_irq (Z.of_nat i) (fun q => set_enabled (d_enabled d i)
        (set_priority (randint 0 PIC_NUM_PRIORITIES (d_priority d i)) q)) pp) pp each_irq.

(** The predictor with the listed interrupts triggered: [triggered = val], where [val]
    still holds the 2 of the gateways. *)
Definition predictor_trigger (nums : list nat) (pp : PriorityPredictor) : PriorityPredictor :=
  foldl (fun pp i => set_irq (Z.of_nat i) (set_triggered (truthy 2)) pp) pp nums.

(** An iteration of the sequence of test_servicing. [enabled_irqs] is a list made
    before the first iteration, to which each iteration adds. *)
Definition Servicing_iteration (st : list nat * PriorityPredictor) (d : draws)
  : result (list seq_step * (list nat * PriorityPredictor)) :=
  let '(enabled_irqs, predictor) := st in
  let! priorities := set_priorities d in
  let! enables := set_enables d in
  let! gateways := set_gateways in
  let enabled_irqs := enabled_irqs ++ List.filter (d_enabled d) each_irq in
  let predictor := predictor_trigger enabled_irqs (predictor_config d predictor) in
  let! (serviced, predictor) := service 50 predictor in
  Ok (priorities ++ enables ++ gateways
      ++ [Send PRI_SEQR (PrioThrItem (randint 0 PIC_NUM_PRIORITIES (d_thr d))); Cycles 4;
          Send IRQ_SEQR (IrqItem (set_irqs (fun _ => true) enabled_irqs 0)); Cycles 2;
          Send IRQ_SEQR (IrqItem 0); Cycles 4]
      ++ serviced, (enabled_irqs, predictor)).

Fixpoint Servicing_iterations (ds : list draws) (st : list nat * PriorityPredictor)
  : result (list seq_step) :=
  match ds with
  | [] => Ok []
  | d :: ds =>
      let! (steps, st) := Servicing_iteration st d in
      let! others := Servicing_iterations ds st in
      Ok (steps ++ others)
  end.

Definition Servicing_body (ds : list draws) : result (list seq_step) :=
  let! config := write_step mpiccfg 0 in
  let! others := Servicing_iterations ds ([], mkPriorityPredictor) in
  Ok (config :: others).

(** ** The register interface in closed loop *)

(** Items of the register sequencer, and what becomes of them: a read has its data. *)
Definition bus_item (it : PicItem) : Prop :=
  match it with BusWriteItem _ _ | BusReadItem _ _ => True | _ => False end.
Definition processed (it it' : PicItem) : Prop :=
  match it with
  | BusReadItem a _ => exists d, it' = BusReadItem a (Some d)
  | _ => it' = it
  end.

Section RegisterLoop.
Context {St : Type} (step : St -> env -> St) (outs : St -> env -> env).
(** The unit does not drive its inputs. *)
Definition register_inputs : list string :=
  ["picm_wren"; "picm_wraddr"; "picm_wr_data"; "picm_rden"; "picm_rdaddr"].
Hypothesis inputs_kept : forall s e n, n ∈ register_inputs -> outs s e n = e n.

Definition bus_idle (h : clocked St) : Prop := lines h "picm_wren" = 0 /\ lines h "picm_rden" = 0.

Abbreviation loop := (half_cycles "picm_clk" step outs).

Lemma monitor_awaits : starts_await (RisingEdge "picm_clk") RegisterMonitor_run_phase.
Proof. eexists. intros []. reflexivity. Qed.

(** The monitor over the edges of an access. *)
Lemma monitor_quiet cur e tr : e "picm_rden" = 0 -> e "picm_wren" = 0 ->
  monitor_items RegisterMonitor_run_phase tt cur (Sample (RisingEdge "picm_clk") e :: tr)
  = monitor_items RegisterMonitor_run_phase tt e tr.
Proof.
  intros Hr Hw. erewrite monitor_items_step; [|exact (starts_await_productive _ _ monitor_awaits)|].
  2:{ cbn [RegisterMonitor_run_phase pbind await]. rewrite run_await_hit, Hr. cbn [truthy Z.eqb negb].
      unfold monitor_write. rewrite Hw. reflexivity. }
  done.
Qed.

Lemma monitor_sees_write cur e tr : e "picm_rden" = 0 -> e "picm_wren" = 1 ->
  monitor_items RegisterMonitor_run_phase tt cur (Sample (RisingEdge "picm_clk") e :: tr)
  = BusWriteItem (e "picm_wraddr") (e "picm_wr_data") :: monitor_items RegisterMonitor_run_phase tt e tr.
Proof.
  intros Hr Hw. erewrite monitor_items_step; [|exact (starts_await_productive _ _ monitor_awaits)|].
  2:{ cbn [RegisterMonitor_run_phase pbind await]. rewrite run_await_hit, Hr. cbn [truthy Z.eqb negb].
      unfold monitor_write. rewrite Hw. reflexivity. }
  done.
Qed.

Lemma monitor_sees_read cur e e' tr :
  e "picm_rden" = 1 -> e' "picm_wren" = 0 ->
  monitor_items RegisterMonitor_run_phase tt cur
    (Sample (RisingEdge "picm_clk") e :: Sample (FallingEdge "picm_clk") e' :: tr)
  = BusReadItem (e "picm_rdaddr") (Some (e' "picm_rd_data"))
    :: monitor_items RegisterMonitor_run_phase tt e' tr.
Proof.
  intros Hr Hw. erewrite monitor_items_step; [|exact (starts_await_productive _ _ monitor_awaits)|].
  2:{ cbn [RegisterMonitor_run_phase pbind await]. rewrite run_await_hit, Hr. cbn [truthy Z.eqb negb pbind].
      rewrite run_await_hit. cbn [publish pbind run]. unfold monitor_write. rewrite Hw. reflexivity. }
  done.
Qed.

Lemma monitor_skips_fall cur e tr :
  monitor_items RegisterMonitor_run_phase tt cur (Sample (FallingEdge "picm_clk") e :: tr)
  = monitor_items RegisterMonitor_run_phase tt cur tr.
Proof. by apply (monitor_skip _ _ monitor_awaits). Qed.

(** The driver processes an item, and the monitor publishes the result. *)
Definition accessed (it : PicItem) (h : clocked St) : Prop :=
  exists tr it' h', loop (RegisterDriver_item it) h = (tr, Some (it', h')) /\ processed it it' /\ bus_idle h' /\
    publishes RegisterMonitor_run_phase tr it'.

Ltac input_simpl := rewrite ?inputs_kept by set_solver; cbn [lines]; env_simpl.

Lemma access_write a d h : bus_idle h -> accessed (BusWriteItem a d) h.
Proof using inputs_kept.
  intros [Hw Hr]. destruct h as [c u hi]. cbn [lines] in *.
  unfold accessed. cbn [RegisterDriver_item]. unfold RegisterBfm_write. cbn [pbind await drive half_cycles].
  rewrite !decide_True by done.
  destruct hi; cbn [fall rise high level lines inner]; cbn [half_cycles app lines inner high];
  (eexists _, _, _; split_and!; [reflexivity|done|split; cbn [lines]; by env_simpl|]);
  intros cur tr; eexists; cbn [app];
  rewrite ?monitor_skips_fall, monitor_quiet by (unfold level; by input_simpl);
  rewrite ?monitor_skips_fall, monitor_sees_write by (unfold level; by input_simpl);
  unfold level; input_simpl; reflexivity.
Qed.

Lemma access_read a d h : bus_idle h -> accessed (BusReadItem a d) h.
Proof using inputs_kept.
  intros [Hw Hr]. destruct h as [c u hi]. cbn [lines] in *.
  unfold accessed. cbn [RegisterDriver_item]. unfold RegisterBfm_read. cbn [pbind await drive half_cycles].
  repeat first [rewrite decide_True by done|rewrite decide_False by done].
  destruct hi; cbn [fall rise high level lines inner]; cbn [half_cycles app lines inner high];
  repeat first [rewrite decide_True by done|rewrite decide_False by done];
  cbn [fall rise high level lines inner]; cbn [half_cycles app lines inner high].
  all: (eexists _, _, _; split_and!; [reflexivity|by eexists|split; cbn [lines]; by env_simpl|]);
  intros cur tr; eexists; cbn [app];
  rewrite ?monitor_skips_fall, monitor_quiet by (unfold level; by input_simpl);
  rewrite ?monitor_skips_fall, monitor_sees_read by (unfold level; by input_simpl).
  all: unfold level; input_simpl; reflexivity.
Qed.

(** The driver processes all items and the monitor publishes them as processed. *)
Lemma register_driver_done items h : Forall bus_item items -> bus_idle h ->
  exists tr its h', loop (RegisterDriver_run_phase items) h = (tr, Some (its, h')) /\
    Forall2 processed items its /\ bus_idle h' /\
    forall cur, monitor_items RegisterMonitor_run_phase tt cur tr = its.
Proof using inputs_kept.
  intros Hb. revert h. induction Hb as [|it items Hit Hb IH]; intros h Hh.
  - exists [], [], h. split_and!; [done|done|done|]. intros cur. exact (monitor_end _ _ monitor_awaits cur).
  - assert (accessed it h) as (tr & it' & h1 & E & Hp & Hh1 & Hpub).
    { destruct it; try done; [by apply access_write|by apply access_read]. }
    destruct (IH h1 Hh1) as (tr' & its & h2 & E' & Hps & Hh2 & Hm).
    exists (tr ++ tr'), (it' :: its), h2. split_and!; [|by constructor|done|].
    + cbn [RegisterDriver_run_phase]. rewrite half_cycles_pbind, E. cbn.
      rewrite half_cycles_pbind, E'. cbn. by rewrite app_nil_r.
    + intros cur. destruct (Hpub cur tr') as (cur' & ->). by rewrite Hm.
Qed.
End RegisterLoop.

(** ** The register test *)

Definition address (n : reg_name) : Z := 0xF00C0000 + reg_offset n.

Lemma reg_at_ok n : reg_exists 32 n -> reg_at n = Ok (address n).
Proof.
  intros Hn. destruct (pic_register_map_bijective 32 0xF00C0000 ltac:(lia) n (address n)) as [_ H].
  unfold reg_at, regs. by rewrite (proj2 H).
Qed.

Lemma elem_of_keys n : n ∈ (map_to_list (reg regs)).*1 <-> reg_exists 32 n.
Proof.
  rewrite list_elem_of_fmap. split.
  - intros ([n' a] & -> & H%elem_of_map_to_list).
    by apply (pic_register_map_bijective 32 0xF00C0000 ltac:(lia)) in H as [H _].
  - intros Hn. exists (n, address n). split; [done|]. apply elem_of_map_to_list.
    apply (pic_register_map_bijective 32 0xF00C0000 ltac:(lia)). done.
Qed.

Lemma address_inj n n' : reg_exists 32 n -> reg_exists 32 n' -> address n = address n' -> n = n'.
Proof. unfold address. intros. apply (reg_offset_inj 32); [lia|done..|lia]. Qed.

Section ConfigTest.
Import Config.

(** The value that an iteration writes to a register. *)
Definition value (r : round) (n : reg_name) : Z := default 0 (random_value n (draw r n)).

Definition write_item (nv : reg_name * Z) : PicItem := BusWriteItem (address nv.1) nv.2.
Definition read_item (n : reg_name) (d : option Z) : PicItem := BusReadItem (address n) d.

(** The items of an iteration when the reads are answered with [ds]. *)
Definition seen (r : round) (ds : list Z) : list PicItem :=
  (write_item <$> values r) ++ zip_with (fun n d => read_item n (Some d)) (written r) ds.

Lemma values_names r : (values r).*1 ≡ₚ List.filter (fun n => bool_decide (is_Some (random_value n (draw r n)))) (names r).
Proof.
  unfold values. induction (names r) as [|n l IH]; [done|]. cbn [omap list_omap List.filter].
  destruct (random_value n (draw r n)) as [v|] eqn:E; cbn.
  - by rewrite IH.
  - by rewrite IH.
Qed.

Lemma elem_of_values r n v : (n, v) ∈ values r -> n ∈ names r /\ v = value r n.
Proof.
  unfold values. intros (n' & Hn & H)%list_elem_of_omap. destruct (random_value n' _) as [v'|] eqn:E; [|done].
  injection H as <- <-. split; [done|]. unfold value. by rewrite E.
Qed.

Lemma shuffled_exists r n : shuffled r -> n ∈ names r -> reg_exists 32 n.
Proof. intros [H _]. rewrite H. apply elem_of_keys. Qed.

Lemma shuffled_nodup r : shuffled r -> NoDup (values r).*1.
Proof.
  intros [H _]. rewrite values_names. apply NoDup_ListNoDup, List.NoDup_filter, NoDup_ListNoDup.
  rewrite H. apply NoDup_fst_map_to_list.
Qed.

Lemma shuffled_written r n : shuffled r -> n ∈ written r -> (n, value r n) ∈ values r.
Proof.
  intros [_ H]. rewrite H. intros ([n' v] & -> & Hv)%list_elem_of_fmap.
  destruct (elem_of_values _ _ _ Hv) as [_ E]. cbn [fst]. by rewrite <- E.
Qed.

Lemma values_nonempty r : shuffled r -> values r <> [].
Proof.
  intros [H _] E. assert (mpiccfg ∈ names r) as Hin by (rewrite H; by apply elem_of_keys).
  assert ((mpiccfg, value r mpiccfg) ∈ values r) as Hv.
  { unfold values. apply list_elem_of_omap. exists mpiccfg. done. }
  rewrite E in Hv. by apply not_elem_of_nil in Hv.
Qed.

(** The items that the sequence sends. *)
Definition asked (r : round) : list PicItem :=
  (write_item <$> values r) ++ ((fun n => read_item n None) <$> written r).

Lemma iteration_ok r : shuffled r -> iteration r = Ok (asked r).
Proof.
  intros Hr. unfold iteration, asked. rewrite (map_result_ok _ write_item).
  2:{ intros [n v] Hv. rewrite reg_at_ok; [done|].
      eapply shuffled_exists; [done|]. by apply elem_of_values in Hv as [Hv _]. }
  cbn [rbind]. rewrite (map_result_ok _ (fun n => read_item n None)); [done|].
  intros n Hn. rewrite reg_at_ok; [done|]. eapply shuffled_exists; [done|].
  by apply (shuffled_written r) in Hn as [Hn _]%elem_of_values.
Qed.

(** What the driver makes of an iteration. *)
Lemma processed_iteration r its :
  Forall2 processed (asked r) its ->
  exists ds, length ds = length (written r) /\ its = seen r ds.
Proof.
  intros (ws & rs & Hw & Hr & ->)%Forall2_app_inv_l. unfold seen.
  assert (ws = write_item <$> values r) as ->.
  { clear Hr. revert ws Hw. induction (values r) as [|v l IH]; intros ws Hw; inversion Hw as [|? ? ? ? Ha Hb]; [done|].
    subst. cbn in *. subst. f_equal. by apply IH. }
  enough (exists ds, length ds = length (written r) /\
            rs = zip_with (fun n d => read_item n (Some d)) (written r) ds) as (ds & Hl & ->) by by exists ds.
  clear Hw. revert rs Hr. induction (written r) as [|n l IH]; intros rs Hr; inversion Hr as [|? ? ? ? Ha Hb]; subst.
  - by exists [].
  - destruct Ha as (d & ->). destruct (IH _ Hb) as (ds & Hl & ->). exists (d :: ds). cbn. by rewrite Hl.
Qed.

(** *** The scoreboard over an iteration *)

Definition store (m : gmap Z Z) (nv : reg_name * Z) : gmap Z Z := <[address nv.1 := nv.2]> m.

Lemma check_writes l rest s : l <> [] ->
  check_phase ((write_item <$> l) ++ rest) s
  = check_phase rest {| passed := set_initial (passed s); reg_content := foldl store (reg_content s) l |}.
Proof.
  revert s. induction l as [|nv l IH]; intros s Hl; [done|]. cbn.
  destruct l as [|nv' l]; [done|]. rewrite IH by done. cbn. by destruct (passed s).
Qed.

Lemma store_other l m a : (forall nv, nv ∈ l -> address nv.1 <> a) -> foldl store m l !! a = m !! a.
Proof.
  revert m. induction l as [|nv l IH]; intros m H; [done|]. cbn [foldl]. rewrite IH.
  - unfold store. rewrite lookup_insert_ne; [done|]. apply H. by left.
  - intros nv' Hn. apply H. by right.
Qed.

Lemma store_lookup l m n v : NoDup l.*1 -> (forall n, n ∈ l.*1 -> reg_exists 32 n) -> (n, v) ∈ l ->
  foldl store m l !! address n = Some v.
Proof.
  revert m. induction l as [|nv l IH]; intros m Hd He Hin; [by apply not_elem_of_nil in Hin|].
  cbn [fmap list_fmap] in *. apply NoDup_cons in Hd as [Hni Hd]. cbn [foldl].
  apply elem_of_cons in Hin as [<-|Hin].
  - rewrite store_other.
    + unfold store. by rewrite lookup_insert_eq.
    + intros nv Hn E. apply address_inj in E; [|apply He; right; by apply list_elem_of_fmap_2|apply He; by left].
      apply Hni. cbn. rewrite <- E. by apply list_elem_of_fmap_2.
  - apply IH; [done| |done]. intros n' Hn. apply He. by right.
Qed.

Lemma check_reads (f : reg_name -> Z) ns ds rest m b :
  length ds = length ns -> (forall n, n ∈ ns -> m !! address n = Some (f n)) ->
  check_phase (zip_with (fun n d => read_item n (Some d)) ns ds ++ rest) {| passed := Some b; reg_content := m |}
  = check_phase rest {| passed := Some (b && bool_decide (ds = f <$> ns)); reg_content := m |}.
Proof.
  revert ds b. induction ns as [|n ns IH]; intros [|d ds] b Hl Hm; try done; cbn.
  - by rewrite bool_decide_true, andb_true_r.
  - rewrite Hm by by left. cbn [rbind]. injection Hl as Hl.
    transitivity (check_phase (zip_with (fun n d => read_item n (Some d)) ns ds ++ rest)
      {| passed := Some (b && (f n =? d)); reg_content := m |}).
    { f_equal. by destruct (f n =? d), b. }
    rewrite IH; [|done|intros n' Hn; apply Hm; by right]. do 2 f_equal. rewrite <- andb_assoc. f_equal.
    f_equal. destruct (Z.eqb_spec (f n) d) as [<-|Hne]; cbn [andb].
    + apply bool_decide_ext. split; [by intros ->|by intros [= ->]].
    + symmetry. apply bool_decide_eq_false. intros [= -> _]. done.
Qed.

(** The answers that the test expects in an iteration. *)
Definition expected (r : round) : list Z := value r <$> written r.

Lemma check_iteration r ds rest s : shuffled r -> length ds = length (written r) ->
  exists m, check_phase (seen r ds ++ rest) s
    = check_phase rest {| passed := Some (default true (passed s) && bool_decide (ds = expected r)); reg_content := m |}.
Proof.
  intros Hr Hl. unfold seen. rewrite <- app_assoc, check_writes by by apply values_nonempty.
  eexists. replace (set_initial (passed s)) with (Some (default true (passed s))) by by destruct (passed s) as [[]|].
  rewrite (check_reads (value r)); [reflexivity|done|].
  intros n Hn. apply store_lookup; [by apply shuffled_nodup| |by apply shuffled_written].
  intros n' ([n1 v] & -> & Hv)%list_elem_of_fmap. apply elem_of_values in Hv as [Hv _]. by eapply shuffled_exists.
Qed.

Lemma check_iterations rounds dss s : Forall shuffled rounds ->
  Forall2 (fun r ds => length ds = length (written r)) rounds dss ->
  exists m, check_phase (concat (zip_with seen rounds dss)) s
    = Ok {| passed := match rounds with [] => passed s
                      | _ => Some (default true (passed s) && bool_decide (dss = expected <$> rounds)) end;
            reg_content := m |}.
Proof.
  intros Hr Hl. revert s. induction Hl as [|r ds rounds dss Hd Hl IH]; intros s.
  - exists (reg_content s). by destruct s.
  - inversion Hr as [|? ? Hr1 Hr2]; subst. cbn [zip_with concat].
    destruct (check_iteration r ds (concat (zip_with seen rounds dss)) s Hr1 Hd) as (m & ->).
    destruct (IH Hr2 {| passed := Some (default true (passed s) && bool_decide (ds = expected r)); reg_content := m |})
      as (m' & ->).
    exists m'. do 2 f_equal. cbn [passed fmap list_fmap].
    assert (bool_decide (ds :: dss = expected r :: (expected <$> rounds))
      = bool_decide (ds = expected r) && bool_decide (dss = expected <$> rounds)) as ->.
    { destruct (decide (ds = expected r)) as [->|Hne].
      - rewrite (bool_decide_true (expected r = expected r)) by done. apply bool_decide_ext.
        split; [by intros [= ->]|by intros ->].
      - rewrite (bool_decide_false (ds = expected r)) by done. apply bool_decide_eq_false. by intros [= -> _]. }
    destruct rounds as [|r' rounds].
    + inversion Hl; subst. cbn. by rewrite andb_true_r.
    + cbn [default]. by rewrite andb_assoc.
Qed.

Lemma body_ok rounds : Forall shuffled rounds ->
  body rounds = Ok (concat (asked <$> rounds)).
Proof.
  intros Hr. unfold body. rewrite (map_result_ok _ _ _ (fun r Hin => iteration_ok r (proj1 (Forall_forall _ _) Hr r Hin))).
  done.
Qed.

Lemma processed_iterations rounds its :
  Forall2 processed (concat (asked <$> rounds)) its ->
  exists dss, Forall2 (fun r ds => length ds = length (written r)) rounds dss /\ its = concat (zip_with seen rounds dss).
Proof.
  revert its. induction rounds as [|r rounds IH]; intros its; cbn [fmap list_fmap concat].
  - intros H. inversion H. by exists [].
  - intros (a & b & Ha & Hb & ->)%Forall2_app_inv_l. destruct (processed_iteration _ _ Ha) as (ds & Hd & ->).
    destruct (IH _ Hb) as (dss & Hds & ->). exists (ds :: dss). split; [by constructor|done].
Qed.
End ConfigTest.

(** C27: The register test as a whole, against any unit that drives none of the inputs
    of the register interface, from any idle state and whatever was sampled before:
    the sequence runs, the driver processes every item, each read with the data that
    the unit shows, and the test passes exactly when there was an iteration and in
    each the unit answered every read with the value that the iteration had written
    to the register. *)
Theorem pic_config_sound_complete {St} (step : St -> env -> St) (outs : St -> env -> env)
    (inputs_kept : forall s e n, n ∈ register_inputs -> outs s e n = e n)
    (h : clocked St) (idle : bus_idle h) (rounds : list Config.round)
    (choices : Forall Config.shuffled rounds) :
  exists items tr its h' dss,
    Config.body rounds = Ok items /\
    half_cycles "picm_clk" step outs (RegisterDriver_run_phase items) h = (tr, Some (its, h')) /\
    its = concat (zip_with seen rounds dss) /\
    Forall2 (fun r ds => length ds = length (Config.written r)) rounds dss /\
    forall cur, Config.verdict (monitor_items RegisterMonitor_run_phase tt cur tr) = Ok tt
      <-> rounds <> [] /\ dss = expected <$> rounds.
Proof.
  destruct (register_driver_done step outs inputs_kept (concat (asked <$> rounds)) h)
    as (tr & its & h' & E & Hp & _ & Hm); [|exact idle|].
  - apply Forall_concat, Forall_fmap, Forall_true. intros r. cbn. apply Forall_app.
    split; apply Forall_fmap, Forall_true; done.
  - destruct (processed_iterations _ _ Hp) as (dss & Hl & ->). eexists _, _, _, _, dss.
    split_and!; [by apply body_ok|exact E|done|done|]. intros cur. rewrite Hm. unfold Config.verdict.
    destruct (check_iterations rounds dss Config.start choices Hl) as (m & ->). cbn [rbind Config.passed].
    destruct rounds as [|r rounds]; [split; [done|by intros []]|]. cbn [default Config.start Config.passed andb].
    case_bool_decide; cbn; split; try done. by intros [_ ?].
Qed.

(** A register file: the contents and the data read last. *)
Definition file_state : Type := prod (gmap Z Z) Z.
Definition file_step (s : file_state) (e : env) : file_state :=
  (if truthy (e "picm_wren") then <[e "picm_wraddr" := e "picm_wr_data"]> s.1 else s.1,
   if truthy (e "picm_rden") then default 0 (s.1 !! e "picm_rdaddr") else s.2).
Definition file_outs (s : file_state) (e : env) : env := upd "picm_rd_data" s.2 e.

Definition example_round : Config.round :=
  let r := {| Config.names := (map_to_list (reg regs)).*1; Config.written := []; Config.draw := reg_offset |} in
  {| Config.names := Config.names r; Config.written := (Config.values r).*1; Config.draw := reg_offset |}.
Definition example_half : clocked file_state := Clocked (fun _ => 0) (∅, 0) false.

(** The register file passes; one that loses the writes to a register does not. *)
Definition example_verdict (step : file_state -> env -> file_state) : result unit :=
  let! items := Config.body [example_round] in
  Config.verdict (monitor_items RegisterMonitor_run_phase tt (fun _ => 0)
    (half_cycles "picm_clk" step file_outs (RegisterDriver_run_phase items) example_half).1).

Example register_file_passes :
  (example_verdict file_step,
   example_verdict (fun s e => let s' := file_step s e in (delete 0xF00C0004 s'.1, s'.2)))
  = (Ok tt, Raise AssertionError).
Proof. vm_compute. reflexivity. Qed.

Lemma pic_config_sound_complete_witness :
  exists items tr its h' dss,
    Config.body [example_round] = Ok items /\
    half_cycles "picm_clk" file_step file_outs (RegisterDriver_run_phase items) example_half = (tr, Some (its, h')) /\
    its = concat (zip_with seen [example_round] dss) /\
    Forall2 (fun r ds => length ds = length (Config.written r)) [example_round] dss /\
    forall cur, Config.verdict (monitor_items RegisterMonitor_run_phase tt cur tr) = Ok tt
      <-> [example_round] <> [] /\ dss = expected <$> [example_round].
Proof.
  apply (pic_config_sound_complete file_step file_outs).
  - intros s e n Hn. unfold file_outs. rewrite upd_ne; [done|]. intros <-.
    revert Hn. unfold register_inputs. rewrite !elem_of_cons, elem_of_nil. intuition discriminate.
  - done.
  - constructor; [|constructor]. split; reflexivity.
Defined.

(** ** The pending status test *)

Section PendingTest.
Import Pending.

(** The requests at the last item that tells them. *)
Definition current_irqs (items : list PicItem) : Z :=
  foldl (fun acc it => match it with IrqItem v => v | _ => acc end) 0 items.

Definition pending_ok (pre : list PicItem) (it : PicItem) : Prop :=
  match it with
  | BusReadItem a d => exists r, adr regs !! a = Some r /\
      forall x, r = meip x -> d = Some (Z.land (Z.shiftr (current_irqs pre) (32 * Z.of_nat x)) 0xFFFFFFFF)
  | _ => True
  end.
Definition pending_read (pre : list PicItem) (it : PicItem) : Prop :=
  match it with BusReadItem a _ => exists x, adr regs !! a = Some (meip x) | _ => False end.

Lemma word_of v d k : 0 <= k ->
  Z.land v (Z.shiftl 0xFFFFFFFF k) = Z.shiftl d k <-> d = Z.land (Z.shiftr v k) 0xFFFFFFFF.
Proof.
  intros Hk.
  assert (Z.land v (Z.shiftl 0xFFFFFFFF k) = Z.shiftl (Z.land (Z.shiftr v k) 0xFFFFFFFF) k) as ->.
  { apply Z.bits_inj'. intros i Hi. rewrite Z.land_spec, !Z.shiftl_spec by done.
    destruct (Z.leb_spec k i).
    - rewrite Z.land_spec, Z.shiftr_spec by lia. by replace (i - k + k) with i by lia.
    - by rewrite !(Z.testbit_neg_r _ (i - k)), andb_false_r by lia. }
  split; [|by intros ->]. intros H. apply (f_equal (fun z => Z.shiftr z k)) in H.
  by rewrite !Z.shiftr_shiftl_l, !Z.sub_diag, !Z.shiftl_0_r in H by done.
Qed.

Lemma check_pending items s it :
  (forall a, it <> BusReadItem a None) -> irqs s = current_irqs items ->
  flag_at pending_ok pending_read items (passed s) ->
  exists s', check_item s it = Ok s' /\ irqs s' = current_irqs (items ++ [it]) /\
    flag_at pending_ok pending_read (items ++ [it]) (passed s').
Proof.
  intros Hd Hi Hf. unfold current_irqs. rewrite foldl_snoc. fold (current_irqs items).
  destruct it as [a d|a [d|]| | |v| |]; cbn [check_item];
    try (eexists; split_and!; [done|done|by apply flag_quiet; [exact I|intros []|]]); [|by destruct (Hd a)].
  destruct (adr regs !! a) as [r|] eqn:Ea.
  - destruct r as [| |x| | |]; try (exists s; split_and!; [done|done|]; apply flag_quiet; [|by intros (x & [=]%(eq_trans (eq_sym Ea)))|done];
      eexists; split; [exact Ea|done]).
    eexists. split_and!; [reflexivity|done|]. cbn [passed]. rewrite Hi.
    destruct (Z.eqb_spec (Z.land (current_irqs items) (Z.shiftl 0xFFFFFFFF (32 * Z.of_nat x)))
      (Z.shiftl d (32 * Z.of_nat x))) as [E|E]; rewrite word_of in E by lia.
    + apply flag_good; [|by exists x|done]. exists (meip x). split; [done|]. intros y [= <-]. by rewrite E.
    + apply flag_bad. intros (r & Hr & H). rewrite Ea in Hr. injection Hr as <-. specialize (H x eq_refl).
      by injection H as ->.
  - eexists. split_and!; [reflexivity|done|]. apply flag_bad. intros (r & Hr & _). by rewrite Ea in Hr.
Qed.
End PendingTest.

(** Test_pending passes exactly when every read addressed a register of the map,
    every read of a pending register showed the 32 requests of its word as the last
    request item before it told them, and there was such a read. (The monitor gives
    each read its data; a read without any would raise a TypeError.) *)
Theorem pic_pending_verdict items :
  (forall a, ~ BusReadItem a None ∈ items) ->
  Pending.verdict items = Ok tt <-> all_at pending_ok items /\ some_at pending_read items.
Proof.
  intros Hd. unfold Pending.verdict.
  assert (forall post pre s, items = pre ++ post -> Pending.irqs s = current_irqs pre ->
    flag_at pending_ok pending_read pre (Pending.passed s) ->
    exists s', Pending.check_phase post s = Ok s' /\ flag_at pending_ok pending_read items (Pending.passed s')) as H.
  { induction post as [|it post IH]; intros pre s -> Hi Hf.
    - rewrite app_nil_r. by exists s.
    - destruct (check_pending pre s it) as (s1 & E & Hi1 & Hf1); [|done|done|].
      + intros a ->. apply (Hd a). apply elem_of_app. right. by left.
      + cbn [Pending.check_phase]. rewrite E. cbn [rbind].
        apply (IH (pre ++ [it])); [by rewrite <- app_assoc|done|done]. }
  destruct (H items [] Pending.start eq_refl eq_refl (flag_start _ _)) as (s' & -> & Hf).
  exact (flag_final _ _ _ _ Hf).
Qed.

Lemma pic_pending_verdict_witness :
  Pending.verdict [IrqItem 6; BusReadItem 0xF00C1000 (Some 6)] = Ok tt /\
  (all_at pending_ok [IrqItem 6; BusReadItem 0xF00C1000 (Some 6)] /\
   some_at pending_read [IrqItem 6; BusReadItem 0xF00C1000 (Some 6)]).
Proof.
  assert (Pending.verdict [IrqItem 6; BusReadItem 0xF00C1000 (Some 6)] = Ok tt) as H by (vm_compute; reflexivity).
  split; [exact H|]. apply (pic_pending_verdict [IrqItem 6; BusReadItem 0xF00C1000 (Some 6)]); [|exact H].
  intros a Ha. rewrite !elem_of_cons, elem_of_nil in Ha. intuition discriminate.
Defined.

(** ** The clock gate test *)

Section ClockTest.
Import ClockEnable.

(** A change of the overrides, the two clock states after it, and the states until the
    next change. *)
Record change := {
  c_en : Z; c_io_en : Z; c_skipped : gmap string bool; c_checked : gmap string bool;
  c_others : list (gmap string bool) }.

Definition change_items (c : change) : list clk_item :=
  ClockEnableItem (c_en c) (c_io_en c) :: ClockStateItem (c_skipped c) :: ClockStateItem (c_checked c)
  :: (ClockStateItem <$> c_others c).

(** Every gated clock toggles, or none does, as the override says. *)
Definition change_ok (c : change) : Prop :=
  forall clk, clk ∈ CLOCKS -> Z.b2z (default false (c_checked c !! clk)) = c_en c.

#[local] Instance change_ok_dec c : Decision (change_ok c).
Proof.
  refine (cast_if (decide (Forall (fun clk => Z.b2z (default false (c_checked c !! clk)) = c_en c) CLOCKS)));
    unfold change_ok; rewrite <- Forall_forall; done.
Defined.

Lemma check_states states rest p : check_phase ((ClockStateItem <$> states) ++ rest) p = check_phase rest p.
Proof. by induction states. Qed.

Lemma check_clocks_spec clocks state en b : (forall clk, clk ∈ clocks -> is_Some (state !! clk)) ->
  check_clocks clocks state en (Some b)
  = Ok (Some (b && bool_decide (Forall (fun clk => Z.b2z (default false (state !! clk)) = en) clocks))).
Proof.
  revert b. induction clocks as [|clk clocks IH]; intros b H.
  - cbn [check_clocks]. rewrite bool_decide_true by constructor. by rewrite andb_true_r.
  - cbn [check_clocks]. destruct (H clk) as [t Ht]; [by left|]. rewrite Ht.
    replace (if Z.b2z t =? en then Some b else Some false) with (Some (b && (Z.b2z t =? en)))
      by by destruct (Z.b2z t =? en), b.
    rewrite IH by (intros c Hc; apply H; by right). do 2 f_equal. rewrite <- andb_assoc. f_equal.
    destruct (Z.eqb_spec (Z.b2z t) en) as [E|E]; cbn [andb].
    + apply bool_decide_ext. rewrite Forall_cons, Ht. cbn. tauto.
    + symmetry. apply bool_decide_eq_false. rewrite Forall_cons, Ht. cbn. tauto.
Qed.

Definition known (c : change) : Prop := forall clk, clk ∈ CLOCKS -> is_Some (c_checked c !! clk).

Lemma check_change c rest p : known c ->
  check_phase (change_items c ++ rest) p
  = check_phase rest (Some (default true p && bool_decide (change_ok c))).
Proof.
  intros Hk. cbn [change_items app check_phase].
  replace (set_initial p) with (Some (default true p)) by by destruct p.
  rewrite check_clocks_spec by done. cbn [rbind IO_CLOCKS check_clocks].
  rewrite check_states. do 3 f_equal. apply bool_decide_ext. unfold change_ok. by rewrite <- Forall_forall.
Qed.

Lemma check_changes cs p : Forall known cs ->
  check_phase (concat (change_items <$> cs)) p
  = Ok (match cs with [] => p | _ => Some (default true p && bool_decide (Forall change_ok cs)) end).
Proof.
  intros Hk. revert p. induction Hk as [|c cs Hc Hk IH]; intros p; [done|].
  cbn [fmap list_fmap concat]. rewrite check_change by done. rewrite IH. destruct cs as [|c' cs].
  - do 3 f_equal. apply bool_decide_ext. rewrite Forall_singleton. done.
  - cbn [from_option Datatypes.id]. do 2 f_equal. rewrite <- andb_assoc. f_equal.
    assert (bool_decide (Forall change_ok (c :: c' :: cs)) = bool_decide (change_ok c /\ Forall change_ok (c' :: cs))) as ->
      by (apply bool_decide_ext; by rewrite Forall_cons).
    by rewrite bool_decide_and.
Qed.
End ClockTest.

(** Test_clken passes exactly when a change of the overrides was seen and at the
    second clock state after each change every gated clock toggles if the override is
    on and none does if it is off, whatever the states in between; the override of the
    clocks of the gateways, [io_clk_en], has no influence. A change that is followed by
    fewer than two clock states fails the test with an assertion. *)
Theorem pic_clken_verdict before changes :
  Forall known changes ->
  (ClockEnable.verdict ((ClockEnable.ClockStateItem <$> before) ++ concat (change_items <$> changes)) = Ok tt
   <-> changes <> [] /\ Forall change_ok changes) /\
  (forall en io states, (length states < 2)%nat ->
     ClockEnable.verdict ((ClockEnable.ClockStateItem <$> before) ++ concat (change_items <$> changes)
       ++ ClockEnable.ClockEnableItem en io :: (ClockEnable.ClockStateItem <$> states)) = Raise AssertionError).
Proof.
  intros Hk. unfold ClockEnable.verdict. split.
  - rewrite check_states, check_changes by done. cbn [rbind]. destruct changes as [|c changes].
    + split; [done|by intros []].
    + cbn [default andb]. case_bool_decide; cbn; split; try done. by intros [_ ?].
  - intros en io states Hs. rewrite check_states. generalize (@None bool). induction Hk as [|c cs Hc Hk IH]; intros p.
    + destruct states as [|s [|s' states]]; [done|done|cbn in Hs; lia].
    + cbn [fmap list_fmap concat]. rewrite <- app_assoc, check_change by done. apply IH.
Qed.

(** ** The sequences *)

(** An item that the driver of the sequencer takes. *)
Definition accepted (s : seq_step) : Prop :=
  match s with
  | Send REG_SEQR it => bus_item it
  | Send PRI_SEQR (PrioLvlItem p) | Send PRI_SEQR (PrioThrItem p) => True
  | Send IRQ_SEQR (IrqItem _) => True
  | Send _ _ => False
  | Cycles _ => True
  end.

Definition runs_accepted {A} (steps : A -> list seq_step) (r : result A) : Prop :=
  exists a, r = Ok a /\ Forall accepted (steps a).

Abbreviation accepted_all := (runs_accepted (fun steps => steps)).

Lemma elem_of_each_irq i : i ∈ each_irq -> (1 <= i < 32)%nat.
Proof. unfold each_irq, PIC_NUM_INTERRUPTS. by rewrite elem_of_py_range. Qed.

(** The writes of one register of each of some interrupts. *)
Lemma irq_writes_accepted (f : nat -> reg_name) (v : nat -> Z) nums :
  (forall i, (1 <= i < 32)%nat -> reg_exists 32 (f i)) -> (forall i, i ∈ nums -> i ∈ each_irq) ->
  accepted_all (map_result (fun i => write_step (f i) (v i)) nums).
Proof.
  intros Hf Hn. eexists. split.
  - apply (map_result_ok _ (fun i => Send REG_SEQR (BusWriteItem (address (f i)) (v i)))).
    intros i Hi. unfold write_step. by rewrite reg_at_ok by auto using elem_of_each_irq.
  - apply Forall_fmap, Forall_true. done.
Qed.

Ltac irq_writes f v := 
  destruct (irq_writes_accepted f v each_irq) as (? & -> & ?); [by cbn; lia|done|]; cbn [rbind].

Lemma prioritization_iteration_accepted d : accepted_all (Prioritization_iteration d).
Proof.
  unfold Prioritization_iteration, set_priorities, set_enables, set_gateways.
  irq_writes meipl (fun i => randint 0 PIC_NUM_PRIORITIES (d_priority d i)).
  irq_writes meie (fun i => Z.b2z (d_enabled d i)).
  irq_writes meigwctrl (fun _ : nat => 2).
  destruct (irq_writes_accepted meigwclr (fun _ => 0)
    (List.filter (fun i => truthy (Z.land (d_irqs d) (Z.shiftl 1 (Z.of_nat i)))) each_irq)) as (clears & -> & Hc).
  { cbn. lia. }
  { intros i. rewrite !list_elem_of_In, List.filter_In. tauto. }
  cbn [rbind]. eexists. split; [reflexivity|]. rewrite !Forall_app. split_and!; try done; repeat constructor.
Qed.

(** The predictors of the sequence: the interrupts 1 to 31. *)
Definition standard (pp : PriorityPredictor) : Prop := id <$> irqs pp = Z.of_nat <$> each_irq.

Lemma standard_nodup pp : standard pp -> NoDup (id <$> irqs pp).
Proof.
  intros ->. apply NoDup_fmap_2; [apply _|]. apply NoDup_ListNoDup, seq_NoDup.
Qed.

Lemma standard_in pp i : standard pp -> i ∈ irqs pp -> 1 <= id i < 32.
Proof.
  intros Hs Hi. assert (id i ∈ id <$> irqs pp) as H by by apply list_elem_of_fmap_2.
  rewrite Hs in H. apply list_elem_of_fmap in H as (k & -> & Hk). apply elem_of_each_irq in Hk. lia.
Qed.

Lemma standard_set pp s f : (forall i, id (f i) = id i) -> standard pp -> standard (set_irq s f pp).
Proof. intros Hf Hs. unfold standard. by rewrite set_irq_ids. Qed.

Lemma standard_fold (f : nat -> Irq -> Irq) nums pp : (forall n i, id (f n i) = id i) -> standard pp ->
  standard (foldl (fun pp n => set_irq (Z.of_nat n) (f n) pp) pp nums).
Proof.
  intros Hf. revert pp. induction nums as [|n nums IH]; intros pp Hs; [done|]. cbn [foldl].
  apply IH. by apply standard_set.
Qed.

Lemma standard_config d pp : standard pp -> standard (predictor_config d pp).
Proof. intros Hs. unfold predictor_config. by apply standard_fold. Qed.

Lemma standard_trigger nums pp : standard pp -> standard (predictor_trigger nums pp).
Proof. intros Hs. unfold predictor_trigger. by apply standard_fold. Qed.

Lemma standard_serve n pp : standard pp -> standard (Servicing.serve n pp).2.
Proof.
  revert pp. induction n as [|n IH]; intros pp Hs; cbn [Servicing.serve]; [done|]. destruct (_ =? _); [done|].
  specialize (IH (set_irq (id (predict pp)) (set_triggered false) pp)).
  destruct (Servicing.serve n _). apply IH. by apply standard_set.
Qed.

(** The interrupts whose gateways the sequence clears, in order. *)
Definition cleared (steps : list seq_step) : list Z :=
  omap (fun s => match s with
                 | Send REG_SEQR (BusWriteItem a _) =>
                     match adr regs !! a with Some (meigwclr k) => Some (Z.of_nat k) | _ => None end
                 | _ => None
                 end) steps.

Lemma adr_address n : reg_exists 32 n -> adr regs !! address n = Some n.
Proof.
  intros Hn. apply (pic_register_map_bijective 32 0xF00C0000 ltac:(lia)).
  by apply (pic_register_map_bijective 32 0xF00C0000 ltac:(lia)).
Qed.

(** The servicing loop of the sequence takes the interrupts in the order in which the
    scoreboard expects them. *)
Lemma service_serves n pp : standard pp ->
  exists steps, service n pp = Ok (steps, (Servicing.serve n pp).2) /\ Forall accepted steps /\
    cleared steps = (Servicing.serve n pp).1.
Proof.
  revert pp. induction n as [|n IH]; intros pp Hs; cbn [service Servicing.serve]; [by exists []|].
  destruct (predict_cases pp (standard_nodup pp Hs)) as [[(Hin & _) _]|[_ ->]]; [|by exists []].
  set (i := predict pp) in *. pose proof (standard_in pp i Hs Hin) as Hi.
  destruct (Z.eqb_spec (id i) 0); [lia|].
  assert (reg_exists 32 (meigwclr (Z.to_nat (id i)))) as Hr by (cbn; lia).
  unfold write_step. rewrite reg_at_ok by done. cbn [rbind].
  destruct (IH (set_irq (id i) (set_triggered false) pp)) as (steps & -> & Ha & Hc); [by apply standard_set|].
  destruct (Servicing.serve n _) as [order pp'] eqn:E. cbn [fst snd rbind] in *.
  eexists. split_and!; [reflexivity|by repeat constructor|].
  cbn [app cleared omap list_omap]. rewrite adr_address by done. rewrite Z2Nat.id by lia. by f_equal.
Qed.

Lemma servicing_iteration_accepted st d : standard st.2 ->
  exists steps st', Servicing_iteration st d = Ok (steps, st') /\ Forall accepted steps /\ standard st'.2.
Proof.
  destruct st as [enabled pp]. intros Hs. cbn [snd] in Hs. unfold Servicing_iteration, set_priorities, set_enables, set_gateways.
  generalize 50%nat as turns. intros turns.
  irq_writes meipl (fun i => randint 0 PIC_NUM_PRIORITIES (d_priority d i)).
  irq_writes meie (fun i => Z.b2z (d_enabled d i)).
  irq_writes meigwctrl (fun _ : nat => 2).
  destruct (service_serves turns (predictor_trigger (enabled ++ List.filter (d_enabled d) each_irq) (predictor_config d pp)))
    as (steps & -> & Ha & _); [by apply standard_trigger, standard_config|]. cbn [rbind].
  eexists _, _. split_and!; [reflexivity| |].
  - rewrite !Forall_app. split_and!; try done; repeat constructor.
  - cbn [snd]. by apply standard_serve, standard_trigger, standard_config.
Qed.

(** The sequences of test_prioritization, test_servicing and test_pending run to
    their end for all random choices: every register they name exists, and every item
    they send is one that the driver of its sequencer takes. *)
Theorem pic_sequences_accepted :
  (forall order ds, accepted_all (Prioritization_body order ds)) /\
  (forall ds, accepted_all (Servicing_body ds)) /\
  (forall irqs, accepted_all (Pending_body irqs)).
Proof.
  split_and!.
  - intros order ds. unfold Prioritization_body, write_step. rewrite reg_at_ok by done. cbn [rbind].
    assert (exists its, map_result Prioritization_iteration ds = Ok its /\ Forall (Forall accepted) its) as (its & -> & H).
    { induction ds as [|d ds (its & IH & Hi)]; [by exists []|]. cbn [map_result].
      destruct (prioritization_iteration_accepted d) as (steps & -> & Hs). cbn [rbind]. rewrite IH.
      eexists. split; [reflexivity|by constructor]. }
    eexists. split; [reflexivity|]. constructor; [done|]. by apply Forall_concat.
  - intros ds. unfold Servicing_body, write_step. rewrite reg_at_ok by done. cbn [rbind].
    assert (forall st, standard st.2 -> accepted_all (Servicing_iterations ds st)) as H.
    { induction ds as [|d ds IH]; intros st Hs; cbn [Servicing_iterations].
      { by exists []. }
      destruct (servicing_iteration_accepted st d Hs) as (steps & st' & -> & Ha & Hs'). cbn [rbind].
      destruct (IH st' Hs') as (others & -> & Ho). cbn [rbind]. eexists. split; [reflexivity|]. by apply Forall_app. }
    destruct (H ([], mkPriorityPredictor)) as (steps & -> & Hs); [reflexivity|]. cbn [rbind].
    eexists. split; [reflexivity|by constructor].
  - intros irqs. unfold Pending_body.
    irq_writes meie (fun _ : nat => 0). irq_writes meigwctrl (fun _ : nat => 2).
    change (py_range 0 ((PIC_NUM_INTERRUPTS + 31) / 32)) with [0%nat]. cbn [map_result].
    rewrite reg_at_ok by (cbn; lia). cbn [rbind]. eexists. split; [reflexivity|].
    rewrite !Forall_app. split_and!; try done; repeat constructor.
Qed.

(** The sequence of test_servicing services each triggered candidate of its predictor
    once, the most urgent first, and leaves none; the limit of 50 turns does not cut
    the loop. It is the order that the scoreboard of the test expects. *)
Theorem servicing_sequence_order pp :
  standard pp ->
  exists steps pp' l, service 50 pp = Ok (steps, pp') /\ cleared steps = id <$> l /\
    (Servicing.serve 50 pp).1 = id <$> l /\ l ≡ₚ candidates pp /\
    Sorted.StronglySorted (precedes (inv_order pp)) l /\ candidates pp' = [].
Proof.
  intros Hs. destruct (service_serves 50 pp Hs) as (steps & E & _ & Hc).
  destruct (serve_spec 50 pp) as (l & El & Hl & Hsorted & Hend & _).
  - by apply standard_nodup.
  - apply Forall_forall. intros i Hi. pose proof (standard_in pp i Hs Hi). lia.
  - etrans; [apply List.filter_length_le|]. assert (length (id <$> irqs pp) = 31%nat) as H by by rewrite Hs.
    rewrite length_fmap in H. lia.
  - eexists steps, _, l. split_and!; [exact E|by rewrite Hc|done|done|done|done].
Qed.

(** The list [enabled_irqs] is never emptied: the second iteration requests
    interrupts that it has just disabled. *)
Definition example_draws (enabled : nat -> bool) : draws :=
  {| d_priority := fun _ => 1; d_enabled := enabled; d_lvl := 0; d_thr := 0; d_irqs := 0 |}.

Definition requests_of (steps : list seq_step) : list Z :=
  omap (fun s => match s with Send IRQ_SEQR (IrqItem v) => Some v | _ => None end) steps.

Example servicing_requests_disabled :
  match Servicing_body [example_draws (fun i => (i =? 1)%nat); example_draws (fun i => (i =? 2)%nat)] with
  | Ok steps => requests_of steps
  | Raise _ => []
  end = [2; 0; 6; 0].
Proof. vm_compute. reflexivity. Qed.

(** The requests that end the loop over the random choices are of existing
    interrupts, and there is one. *)
Lemma random_irqs_range turns irqs v :
  random_irqs turns irqs = Some v -> (forall i, 0 <= i -> Z.testbit irqs i = true -> 1 <= i < 32) ->
  v <> 0 /\ forall i, 0 <= i -> Z.testbit v i = true -> 1 <= i < 32.
Proof.
  revert irqs. induction turns as [|chosen turns IH]; intros irqs; cbn [random_irqs];
    (destruct (Z.eqb_spec irqs 0); cbn [negb]; [|by intros [= <-] H]); [done|].
  intros H Hb. apply (IH _ H). unfold set_irqs. clear H IH e.
  assert (forall i, i ∈ each_irq -> (1 <= i < 32)%nat) as Hn by apply elem_of_each_irq.
  revert irqs Hb. induction each_irq as [|k nums IH]; intros irqs Hb; [done|]. cbn [foldl].
  apply IH; [intros i Hi; apply Hn; by right|]. destruct (chosen k); [|done].
  assert (1 <= k < 32)%nat as Hk by (apply Hn; by left).
  intros i Hi. rewrite Z.shiftl_1_l, Z.lor_spec, Z.pow2_bits_eqb, orb_true_iff, Z.eqb_eq by lia.
  intros [H|H]; [by apply Hb|lia].
Qed.
