(* ===== verification/PicClocks.v ===== *)
(** * The clock gate test in time: verification/block/pic/test_clken.py

    [ClockMonitor] measures with time-outs whether the gated clocks toggle.  Its
    coroutines run in integer time; a signal is the increasing list of the times of
    its edges.  What happens first when two events fall on the same moment is left to
    parameters.  The theorem says which units the whole test accepts. *)

From S2P Require Import Prelude Scoreboard Cocotb Pic PicTests PicRegTests.
From stdpp Require Import base gmap list strings.
From Stdlib Require Import ZArith Lia Sorted.

#[local] Open Scope string_scope.
#[local] Open Scope list_scope.
#[local] Open Scope Z_scope.

(** Does the first event come before the second? Free when they fall together. *)
Class Tie (before : Z -> Z -> bool) := {
  tie_lt a b : a < b -> before a b = true;
  tie_gt a b : b < a -> before a b = false;
}.

#[export] Instance ltb_tie : Tie Z.ltb.
Proof. split; intros a b; lia. Qed.
#[export] Instance leb_tie : Tie Z.leb.
Proof. split; intros a b; lia. Qed.

Section ClockMonitor.
(** [TEST_CLK_PERIOD], the time at which the monitor starts, and the order of an edge
    and a time-out, and of an update and a sample, at the same time. *)
Context (period start : Z) (edge_first update_first : Z -> Z -> bool).

(** [await with_timeout(Edge(signal), 2.0 * period, "ns")] at time [t]: when the wait
    ends, and whether by an edge. *)
Definition wait_edge (edges : list Z) (t : Z) : Z * bool :=
  match head (filter (fun e => t < e) edges) with
  | Some e => if edge_first e (t + 2 * period) then (e, true) else (t + 2 * period, false)
  | None => (t + 2 * period, false)
  end.

(** [n] rounds of [monitor_clock], from time [t]: the updates of the state, with their
    times. *)
Fixpoint monitor_clock (n : nat) (edges : list Z) (t : Z) : list (Z * bool) :=
  match n with
  | O => []
  | S n => let '(t', toggling) := wait_edge edges t in (t', toggling) :: monitor_clock n edges t'
  end.

(** [self.state[name]] at time [t]; every round takes time, so that the rounds until
    then are at most as many as the moments. *)
Definition state_at (edges : list Z) (t : Z) : bool :=
  foldl (fun state u => if update_first u.1 t then u.2 else state) false
    (monitor_clock (Z.to_nat (t - start + 1)) edges start).

Definition SIGNALS : list string :=
  ["pic_raddr_c1_clk"; "pic_data_c1_clk"; "pic_pri_c1_clk"; "pic_int_c1_clk"; "gw_config_c1_clk"].

(** The [n]-th item of [ClockMonitor.run_phase], [Timer(period * 5)] after the one
    before. *)
Definition sample_time (n : nat) : Z := start + 5 * period * Z.of_nat n.
Definition clock_state (signals : string -> list Z) (n : nat) : gmap string bool :=
  list_to_map ((fun sig => (sig, state_at (signals sig) (sample_time n))) <$> SIGNALS).

(** ** The state of a clock *)

Context `{!Tie edge_first} `{!Tie update_first}.
Hypothesis period_pos : 0 < period.

Lemma wait_edge_bounds edges t : t < (wait_edge edges t).1 <= t + 2 * period.
Proof using All.
  unfold wait_edge. destruct (head _) as [e|] eqn:E; [|cbn; lia].
  assert (t < e) as He.
  { apply head_Some_elem_of in E. by apply list_elem_of_filter in E as [? _]. }
  destruct (edge_first e (t + 2 * period)) eqn:Ef; cbn; [|lia]. split; [done|].
  destruct (Z.leb_spec e (t + 2 * period)); [done|]. rewrite tie_gt in Ef by done. done.
Qed.

Lemma updates_late edges T n t state : T <= t ->
  foldl (fun state u => if update_first u.1 T then u.2 else state) state (monitor_clock n edges t) = state.
Proof using All.
  revert t. induction n as [|n IH]; intros t Ht; [done|]. cbn [monitor_clock].
  pose proof (wait_edge_bounds edges t). destruct (wait_edge edges t) as [u b]. cbn [foldl fst snd] in *.
  rewrite tie_gt by lia. apply IH. lia.
Qed.

(** The state after the updates before [T]: the state before them when the current wait
    is not over, and otherwise the outcome of a wait that began at most four periods
    before [T] and was over by then. *)
Lemma updates_window edges T n t state : T - t < Z.of_nat n ->
  let r := foldl (fun state u => if update_first u.1 T then u.2 else state) state (monitor_clock n edges t) in
  (r = state /\ T <= t + 2 * period) \/
  exists s, T - 4 * period <= s /\ t <= s /\ (wait_edge edges s).1 <= T /\ r = (wait_edge edges s).2.
Proof using All.
  cbv zeta. revert t state. induction n as [|n IH]; intros t state Hn; [left; cbn; split; [done|lia]|].
  cbn [monitor_clock]. pose proof (wait_edge_bounds edges t) as Hb.
  destruct (wait_edge edges t) as [u b] eqn:Eu. cbn [foldl fst snd] in *.
  destruct (update_first u T) eqn:Ef.
  - assert (u <= T) as Hu.
    { destruct (Z.leb_spec u T); [done|]. rewrite tie_gt in Ef by done. done. }
    right. destruct (IH u b) as [[-> H]|(s & H1 & H2 & H3 & ->)]; [lia|..].
    + exists t. rewrite Eu. cbn. split_and!; [lia|lia|done|done].
    + exists s. split_and!; [done|lia|done|done].
  - assert (T <= u) as Hu.
    { destruct (Z.leb_spec T u); [done|]. rewrite tie_lt in Ef by lia. done. }
    left. rewrite updates_late by done. split; [done|lia].
Qed.

(** ** Clocks that run or rest *)

(** From [A] to [B] the signal has an edge within any two periods, or none at all. *)
Definition runs (edges : list Z) (A B : Z) : Prop :=
  forall t, A <= t -> t + 2 * period <= B -> exists e, e ∈ edges /\ t < e < t + 2 * period.
Definition rests (edges : list Z) (A B : Z) : Prop := forall e, e ∈ edges -> ~ (A < e <= B).

Lemma first_edge_after edges s e : StronglySorted Z.le edges -> e ∈ edges -> s < e ->
  exists e', head (filter (fun e => s < e) edges) = Some e' /\ e' ∈ edges /\ s < e' <= e.
Proof using.
  induction 1 as [|x edges Hs IH Hall]; intros He Hlt; [by apply not_elem_of_nil in He|]. rewrite filter_cons.
  destruct (decide (s < x)) as [Hx|Hx]; cbn [head].
  - exists x. split_and!; [done|by left|done|].
    apply elem_of_cons in He as [-> |He]; [done|]. rewrite Forall_forall in Hall. by apply Hall.
  - apply elem_of_cons in He as [<-|He]; [lia|]. destruct (IH He Hlt) as (e' & H1 & H2 & H3).
    exists e'. split_and!; [done|by right|lia..].
Qed.

Lemma wait_runs edges A B s : StronglySorted Z.le edges -> runs edges A B -> A <= s -> s + 2 * period <= B ->
  (wait_edge edges s).2 = true.
Proof using All.
  intros Hs Hr HA HB. destruct (Hr s HA HB) as (e & He & Hlt).
  destruct (first_edge_after edges s e Hs He) as (e' & H & _ & Hlt'); [lia|]. unfold wait_edge. rewrite H.
  by rewrite tie_lt by lia.
Qed.

Lemma wait_rests edges A B s : rests edges A B -> A <= s -> s + 2 * period <= B ->
  (wait_edge edges s).2 = false.
Proof using All.
  intros Hr HA HB. unfold wait_edge. destruct (head _) as [e|] eqn:E; [|done].
  apply head_Some_elem_of, list_elem_of_filter in E as [Hlt He].
  pose proof (Hr e He). rewrite tie_gt by lia. done.
Qed.

(** The state four periods after a clock began to run or to rest. *)
Lemma state_settled edges A B T : StronglySorted Z.le edges ->
  start + 2 * period < T -> A + 4 * period <= T -> T + 2 * period <= B ->
  (runs edges A B -> state_at edges T = true) /\ (rests edges A B -> state_at edges T = false).
Proof using All.
  intros Hs H0 HA HB. unfold state_at.
  destruct (updates_window edges T (Z.to_nat (T - start + 1)) start false) as [[_ H]|(s & H1 & H2 & H3 & ->)];
    [lia|lia|].
  pose proof (wait_edge_bounds edges s).
  split; intros H'; [apply (wait_runs edges A B)|apply (wait_rests edges A B)]; done || lia.
Qed.

(** ** The test *)

(** A change of the overrides: when the monitor saw it, the values, and the number of
    the next clock state; the states are numbered from 1. *)
Record override := { o_time : Z; o_en : Z; o_io_en : Z; o_next : nat }.

(** The items of both monitors in the order of their publication, from the [n]-th
    clock state on; the last one has the number [total - 1]. *)
Fixpoint stream (signals : string -> list Z) (total : nat) (n : nat) (changes : list override)
  : list ClockEnable.clk_item :=
  match changes with
  | [] => ClockEnable.ClockStateItem <$> (clock_state signals <$> seq n (total - n))
  | c :: changes =>
      (ClockEnable.ClockStateItem <$> (clock_state signals <$> seq n (o_next c - n)))
      ++ ClockEnable.ClockEnableItem (o_en c) (o_io_en c) :: stream signals total (o_next c) changes
  end.

(** Each change falls between two samples, and at least two more samples are taken
    before the next change or the end of the test. *)
Fixpoint timely (total : nat) (n : nat) (changes : list override) : Prop :=
  match changes with
  | [] => (n <= total)%nat
  | c :: changes =>
      (n <= o_next c)%nat /\ sample_time (o_next c) - 5 * period <= o_time c <= sample_time (o_next c) /\
      start <= o_time c /\ timely total (o_next c + 2) changes
  end.

(** A change with the clock states that follow it. *)
Definition observed_change (signals : string -> list Z) (c : override) (ch : change) : Prop :=
  c_en ch = o_en c /\ c_checked ch = clock_state signals (o_next c + 1).

Lemma stream_changes signals total n m changes : timely total m changes -> (n <= m)%nat ->
  exists before cs, stream signals total n changes
      = (ClockEnable.ClockStateItem <$> before) ++ concat (change_items <$> cs) /\
    before = clock_state signals <$> seq n (match changes with [] => total | c :: _ => o_next c end - n) /\
    Forall2 (observed_change signals) changes cs.
Proof using.
  revert n m. induction changes as [|c changes IH]; intros n m; cbn [timely stream].
  - intros _ _. eexists _, []. split_and!; [by rewrite app_nil_r|done|done].
  - intros (Hm & _ & _ & Ht) Hn. destruct (IH (o_next c) (o_next c + 2)%nat Ht) as (before & cs & E & Hb & Hcs); [lia|].
    rewrite E, Hb. set (m' := match changes with [] => total | c :: _ => o_next c end).
    assert (o_next c + 2 <= m')%nat as Hm'.
    { subst m'. destruct changes as [|c' changes]; [done|]. by destruct Ht. }
    replace (m' - o_next c)%nat with (S (S (m' - o_next c - 2))) by lia. cbn [seq fmap list_fmap].
    eexists _, ({| c_en := o_en c; c_io_en := o_io_en c; c_skipped := clock_state signals (o_next c);
       c_checked := clock_state signals (S (o_next c));
       c_others := clock_state signals <$> seq (S (S (o_next c))) (m' - o_next c - 2) |} :: cs).
    split_and!; [reflexivity|done|]. constructor; [|done]. split; [done|]. cbn [c_checked]. by rewrite Nat.add_1_r.
Qed.

Lemma clock_state_lookup signals n clk : clk ∈ ClockEnable.CLOCKS ->
  clock_state signals n !! clk = Some (state_at (signals clk) (sample_time n)).
Proof using.
  unfold clock_state, SIGNALS, ClockEnable.CLOCKS. cbn [fmap list_fmap list_to_map].
  rewrite !elem_of_cons, elem_of_nil. intros [-> |[-> |[-> |[-> |[]]]]]; by simplify_map_eq.
Qed.
End ClockMonitor.

(** The monitored clocks that the scoreboard checks; [gate t clk] says whether [clk]
    runs after the change at time [t]. *)
Definition gated_as (period : Z) (signals : string -> list Z) (gate : Z -> string -> bool)
    (changes : list override) : Prop :=
  forall c clk, c ∈ changes -> clk ∈ ClockEnable.CLOCKS ->
    let during P := P (signals clk) (o_time c + period) (o_time c + 12 * period) in
    if gate (o_time c) clk then during (runs period) else during rests.

Definition follows (gate : Z -> string -> bool) (c : override) : Prop :=
  forall clk, clk ∈ ClockEnable.CLOCKS -> Z.b2z (gate (o_time c) clk) = o_en c.

Lemma clken_iff (period start : Z) (edge_first update_first : Z -> Z -> bool)
    `{!Tie edge_first} `{!Tie update_first} (signals : string -> list Z)
    (gate : Z -> string -> bool) (total : nat) (changes : list override) :
  0 < period -> (forall clk, clk ∈ ClockEnable.CLOCKS -> StronglySorted Z.le (signals clk)) ->
  timely period start total 1 changes -> gated_as period signals gate changes ->
  ClockEnable.verdict (stream period start edge_first update_first signals total 1 changes) = Ok tt
  <-> changes <> [] /\ Forall (follows gate) changes.
Proof.
  intros Hp Hs Ht Hg.
  destruct (stream_changes period start edge_first update_first signals total 1 1 changes Ht ltac:(lia))
    as (before & cs & -> & _ & Hcs).
  assert (Forall (fun c => sample_time period start (o_next c) - 5 * period <= o_time c <= sample_time period start (o_next c)
    /\ start <= o_time c) changes) as Htimes.
  { clear - Ht. revert Ht. generalize 1%nat as n. induction changes as [|c changes IH]; intros n; [done|].
    cbn [timely]. intros (_ & H1 & H2 & Ht). constructor; [done|]. by eapply IH. }
  assert (Forall2 (fun c ch => known ch /\ (change_ok ch <->
    forall clk, clk ∈ ClockEnable.CLOCKS -> Z.b2z (gate (o_time c) clk) = o_en c)) changes cs) as Hok.
  { clear Ht before. induction Hcs as [|c ch changes cs [He Hc] Hcs IH]; [done|].
    inversion_clear Htimes as [|? ? [Hn H0] Htimes']. constructor; [|apply IH; [|done]; intros c' clk Hin; apply Hg; by right].
    assert (forall clk, clk ∈ ClockEnable.CLOCKS -> c_checked ch !! clk = Some (gate (o_time c) clk)) as Hst.
    { intros clk Hclk. rewrite Hc, clock_state_lookup by done. f_equal.
      pose proof (Hg c clk ltac:(by left) Hclk) as Hgc.
      assert (sample_time period start (o_next c + 1) = sample_time period start (o_next c) + 5 * period) as ET
        by (unfold sample_time; lia).
      destruct (state_settled period start edge_first update_first Hp (signals clk) (o_time c + period)
        (o_time c + 12 * period) (sample_time period start (o_next c + 1))) as [H1 H2]; [by apply Hs|lia|lia|lia|].
      destruct (gate (o_time c) clk); [by apply H1|by apply H2]. }
    split.
    - intros clk Hclk. rewrite (Hst clk Hclk). by eexists.
    - unfold change_ok. split; intros H clk Hclk; specialize (H clk Hclk); rewrite (Hst clk Hclk) in *; cbn in *; congruence. }
  assert (Forall known cs) as Hknown by (eapply Forall2_Forall_r; [exact Hok|]; apply Forall_true; by intros c ch []).
  rewrite (proj1 (pic_clken_verdict before cs Hknown)).
  assert (changes = [] <-> cs = []) as Hnil by (clear - Hok; destruct Hok; split; done).
  assert (Forall change_ok cs <-> Forall (fun c => forall clk, clk ∈ ClockEnable.CLOCKS -> Z.b2z (gate (o_time c) clk) = o_en c) changes) as Hf.
  { clear - Hok. induction Hok as [|c ch changes cs [_ H] _ IH]; [by rewrite !Forall_nil|]. by rewrite !Forall_cons, H, IH. }
  rewrite Hf, Hnil. done.
Qed.

(** The same changes with other values of the override of the io clocks. *)
Definition with_io (io : override -> Z) (c : override) : override :=
  {| o_time := o_time c; o_en := o_en c; o_io_en := io c; o_next := o_next c |}.

Lemma timely_io period start total n io changes :
  timely period start total n (with_io io <$> changes) <-> timely period start total n changes.
Proof. revert n. induction changes as [|c changes IH]; intros n; [done|]. cbn. by rewrite <- IH. Qed.

(** C38: the clock gate test in time, for any order of the events that fall on the same
    moment: each change of the overrides falls between two samples and two more are
    taken before the next, and each of the four clocks that the scoreboard lists
    (raddr, data, pri and int) runs or rests, as the unit decides, from one period
    after the change until twelve periods after it.  Then the test passes exactly
    when there was a change and after each the four clocks run if clk_override is
    set and rest if it is not.  Nothing else counts: neither what the fifth monitored
    clock, gw_config_c1_clk, does, nor the value of io_clk_override, so that a unit
    that ignores both passes as well. *)
Theorem pic_clken_in_time (period start : Z) (edge_first update_first : Z -> Z -> bool)
    `{!Tie edge_first} `{!Tie update_first} (signals : string -> list Z)
    (gate : Z -> string -> bool) (total : nat) (changes : list override) :
  0 < period -> (forall clk, clk ∈ ClockEnable.CLOCKS -> StronglySorted Z.le (signals clk)) ->
  timely period start total 1 changes -> gated_as period signals gate changes ->
  let verdict := fun sigs cs =>
    ClockEnable.verdict (stream period start edge_first update_first sigs total 1 cs) in
  (verdict signals changes = Ok tt <-> changes <> [] /\ Forall (follows gate) changes)
  /\ (forall signals' io, (forall clk, clk <> "gw_config_c1_clk" -> signals' clk = signals clk) ->
       verdict signals' (with_io io <$> changes) = Ok tt <-> verdict signals changes = Ok tt).
Proof.
  intros Hp Hs Ht Hg verdict.
  pose proof (clken_iff period start edge_first update_first signals gate total changes Hp Hs Ht Hg) as Hiff.
  split; [exact Hiff|]. intros signals' io Hsig. unfold verdict. rewrite Hiff.
  assert (forall clk, clk ∈ ClockEnable.CLOCKS -> signals' clk = signals clk) as Hsame.
  { intros clk Hclk. apply Hsig. intros ->. revert Hclk. apply (bool_decide_unpack _). by vm_compute. }
  rewrite (clken_iff period start edge_first update_first signals' gate total (with_io io <$> changes)).
  - rewrite Forall_fmap. destruct changes; [done|]. by split; intros [_ ?].
  - done.
  - intros clk Hclk. rewrite Hsame by done. by apply Hs.
  - by apply timely_io.
  - intros c' clk (c & -> & Hc)%list_elem_of_fmap Hclk. rewrite Hsame by done. by apply (Hg c clk).
Qed.

(** A clock of period 2 that always runs; the override is set at time 20. *)
Definition example_signals (_ : string) : list Z := Z.of_nat <$> seq 0 100.
Definition example_override : override := {| o_time := 20; o_en := 1; o_io_en := 0; o_next := 2 |}.

Example clken_stream :
  ClockEnable.verdict (stream 2 0 Z.ltb Z.leb (fun _ => []) 4 1 [example_override]) = Raise AssertionError.
Proof. vm_compute. reflexivity. Qed.

(** The fifth clock rests throughout, and the test passes all the same. *)
Lemma pic_clken_in_time_witness :
  ClockEnable.verdict (stream 2 0 Z.ltb Z.leb
    (fun clk => if String.eqb clk "gw_config_c1_clk" then [] else example_signals clk) 4 1
    [with_io (fun _ => 1) example_override]) = Ok tt.
Proof.
  destruct (pic_clken_in_time 2 0 Z.ltb Z.leb example_signals (fun _ _ => true) 4 [example_override])
    as [H1 H2].
  - lia.
  - intros clk _. unfold example_signals. generalize 0%nat, 100%nat. intros k n. revert k. induction n as [|n IH]; intros k; constructor; [apply IH|].
    apply Forall_fmap, Forall_forall. intros x [Hx _]%elem_of_seq. cbn. lia.
  - cbn. unfold sample_time. lia.
  - intros c clk Hc _. apply list_elem_of_singleton in Hc. subst c. cbv zeta iota. intros t H1 H2. cbn [o_time example_override] in H1, H2. exists (t + 1). split; [|lia].
    change (t + 1 ∈ Z.of_nat <$> seq 0 100). apply list_elem_of_fmap. exists (Z.to_nat (t + 1)). split; [lia|]. apply elem_of_seq. lia.
  - apply (H2 _ (fun _ => 1)).
    + intros clk Hclk. by apply String.eqb_neq in Hclk as ->.
    + apply H1. split; [done|]. constructor; [|constructor]. intros clk _. done.
Defined.
