(* ===== verification/PmpTests.v ===== *)
(** * Tests of the PMP: verification/block/pmp/test_*.py

    The sequences of the three tests, and what the tests accept: the driver, the
    monitor and the scoreboard of Pmp.v in closed loop with an arbitrary unit.  The
    configurations are the constants of the tests, so that what they exercise is
    decided by computation. *)

From S2P Require Import Prelude Cocotb Pulse Pmp ClosedLoop.
From stdpp Require Import base gmap list strings.
From Stdlib Require Import ZArith Lia.

#[local] Open Scope string_scope.
#[local] Open Scope list_scope.
#[local] Open Scope Z_scope.

(** [BaseEnv.build_phase] *)
Definition pmp_entries : nat := 16.
Definition pmp_channels : nat := 3.

(** [random.randrange(start, stop, step)] with a positive step. *)
Definition randrange_step (start stop step r : Z) : result Z :=
  let n := (stop - start + step - 1) / step in
  if n <=? 0 then Raise ValueError else Ok (start + step * (r mod n)).

(** [self.randomAccessInAddrRange(start_addr, end_addr)], from the integer drawn. *)
Definition random_access (start_addr end_addr r : Z) : result (list PmpItem) :=
  let! addr := randrange_step start_addr end_addr 4 r in
  Ok (accessAtAddr pmp_channels addr).

(** [for _ in range(n): self.randomAccessInAddrRange(start_addr, end_addr)] *)
Definition random_accesses (n : nat) (start_addr end_addr : Z) (draw : nat -> Z) : result (list PmpItem) :=
  let! items := map_result (fun k => random_access start_addr end_addr (draw k)) (seq 0 n) in
  Ok (concat items).

(** "Configure PMP entries": the addresses, then the configurations. *)
Definition configure (confs : list (Z * Z)) : list PmpItem :=
  imap (fun i c => PMPWriteAddrCSRItem i c.2) confs ++ imap (fun i c => PMPWriteCfgCSRItem i c.1) confs.

(** ** test_address_matching.py *)

Module AddressMatching.

(** The pairs of ["pmpcfg"] and ["pmpaddr"]. *)
Definition pmp_configurations : list (Z * Z) :=
  [(0x80, Z.shiftr 0x1000 2); (0x8F, Z.shiftr 0x2000 2); (0x89, Z.shiftr 0x4000 2);
   (0x8C, Z.shiftr 0x10000 2); (0x8A, Z.shiftr 0x20000 2); (0x08, Z.shiftr 0x100000000 2);
   (0x88, Z.shiftr 0x20000 2); (0x97, Z.shiftr 0x20000 2); (0x90, Z.shiftr 0x30000 2);
   (0x98, Z.shiftr 0x57FFF 2); (0x9B, Z.shiftr 0x257FF 2); (0x9C, Z.shiftr 0x26BFF 2);
   (0x9B, Z.shiftr 0x26BFF 2)].

(** "Check boundaries and few random addresses of each PMP entry": the draws are
    numbered by the entry and the access. *)
Definition check_entry {BV} `{!BinaryValue BV} (regs : gmap reg_name BV) (draw : nat -> nat -> Z) (i : nat)
  : result (gmap reg_name BV * list PmpItem) :=
  let! (regs, range) := getDecodedEntryCfg regs i true in
  match range with
  | RangeOnly start_addr end_addr =>
      let accesses := Z.min ((end_addr - start_addr) / 4) 10 in
      let! random :=
        if start_addr =? end_addr then Ok []
        else random_accesses (Z.to_nat accesses) start_addr end_addr (draw i) in
      Ok (regs, checkRangeBoundary pmp_channels start_addr ++ random
                ++ checkRangeBoundary pmp_channels end_addr)
  | _ => Raise ValueError
  end.

Fixpoint check_entries {BV} `{!BinaryValue BV} (regs : gmap reg_name BV) (draw : nat -> nat -> Z)
    (indices : list nat) : result (list PmpItem) :=
  match indices with
  | [] => Ok []
  | i :: indices =>
      let! (regs, items) := check_entry regs draw i in
      let! others := check_entries regs draw indices in
      Ok (items ++ others)
  end.

(** The sequence waits for the driver after each item: [writes], then the accesses,
    when the driver has brought the registers to [regs]. *)
Definition writes : result (list PmpItem) :=
  let! _ := py_assert (length pmp_configurations <=? pmp_entries)%nat in
  Ok (configure pmp_configurations).

Definition accesses {BV} `{!BinaryValue BV} (test_iterations : nat)
    (draw : nat -> nat -> Z) (draw' : nat -> Z) (regs : gmap reg_name BV) : result (list PmpItem) :=
  let! checks := check_entries regs draw (seq 0 (length pmp_configurations)) in
  let! random := random_accesses test_iterations 0x00000000 0xFFFFFFFF draw' in
  Ok (checks ++ random).

End AddressMatching.

(** ** test_multiple_configs.py *)

Module MultipleConfigs.

Definition LOWER_BOUNDARY : Z := 0x00000.
Definition UPPER_BOUNDARY : Z := 0x20000.

Definition pmp_configurations : list (Z * Z) :=
  [(0x88, Z.shiftr 0x10000 2); (0x80, Z.shiftr 0x01000 2); (0x8F, Z.shiftr 0x10000 2);
   (0x00, Z.shiftr 0x01000 2); (0x89, Z.shiftr 0x20000 2); (0x00, Z.shiftr 0x01000 2);
   (0x8A, Z.shiftr 0x20000 2); (0x00, Z.shiftr 0x01000 2); (0x8C, Z.shiftr 0x20000 2)].

Definition writes : result (list PmpItem) :=
  let! _ := py_assert (length pmp_configurations <=? pmp_entries)%nat in
  Ok (configure pmp_configurations).

Definition accesses (test_iterations : nat) (draw : nat -> Z) : result (list PmpItem) :=
  let! random := random_accesses test_iterations LOWER_BOUNDARY UPPER_BOUNDARY draw in
  Ok (checkRangeBoundary pmp_channels LOWER_BOUNDARY ++ random
      ++ checkRangeBoundary pmp_channels UPPER_BOUNDARY).

End MultipleConfigs.

(** ** test_xwr_access.py *)

Module XWRAccess.

Definition MAX_XWR_CONFIGS : nat := 8.

(** "Configure entries to all possible XWR configurations" *)
Definition config_addrs : list PmpItem :=
  (fun i => PMPWriteAddrCSRItem i (Z.shiftr ((Z.of_nat i + 1) * 0x1000) 2)) <$> seq 0 MAX_XWR_CONFIGS.
Definition config_cfgs : list PmpItem :=
  (fun i => PMPWriteCfgCSRItem i (0x88 + Z.of_nat i)) <$> seq 0 MAX_XWR_CONFIGS.

(** "Check all possible access variants on configured entries" *)
Definition check_accesses : list PmpItem :=
  flat_map (fun channel =>
    flat_map (fun j =>
      (fun k => PMPCheckItem channel (Z.shiftr (0x200 + Z.of_nat k * 0x1000) 2) (Z.shiftl 1 (Z.of_nat j)) None)
        <$> seq 0 pmp_entries) (seq 0 3)) (seq 0 pmp_channels).

Definition writes : list PmpItem := config_addrs ++ config_cfgs.

End XWRAccess.

(** ** The accesses are legal *)

(** On a channel of the unit, at a word of the 32-bit address space, of a known type. *)
Definition legal_access (it : PmpItem) : Prop :=
  match it with
  | PMPCheckItem c addr type None =>
      (c < pmp_channels)%nat /\ 0 <= addr <= MAX_ADDR /\ addr mod 4 = 0 /\ is_Some (access_of type)
  | _ => False
  end.

Lemma access_legal addr : 0 <= addr <= MAX_ADDR -> addr mod 4 = 0 ->
  Forall legal_access (accessAtAddr pmp_channels addr).
Proof.
  intros Ha Hm. unfold accessAtAddr, pmp_channels. cbn [flat_map map seq app].
  repeat constructor; try lia; try done; by eexists.
Qed.

Lemma word_mask x : Z.land x 0xFFFFFFFC = 4 * (x / 4 mod 2 ^ 30).
Proof.
  change 0xFFFFFFFC with (Z.shiftl (Z.ones 30) 2).
  change 4 with (2 ^ 2). rewrite <- Z.shiftr_div_pow2, <- Z.land_ones, Z.mul_comm, <- Z.shiftl_mul_pow2 by lia.
  apply Z.bits_inj'. intros i Hi. rewrite Z.land_spec, !Z.shiftl_spec by done.
  destruct (Z.leb_spec 2 i).
  - rewrite Z.land_spec, Z.shiftr_spec by lia. by replace (i - 2 + 2) with i by lia.
  - by rewrite !(Z.testbit_neg_r _ (i - 2)), andb_false_r by lia.
Qed.

(** The mask wraps before [min] is taken: beyond the last word the boundary that is
    checked is address 0. *)
Lemma boundary_wraps addr :
  Z.min MAX_ADDR (Z.land (addr + 1) 0xFFFFFFFC) = 4 * ((addr + 1) / 4 mod 2 ^ 30).
Proof.
  rewrite word_mask. pose proof (Z.mod_pos_bound ((addr + 1) / 4) (2 ^ 30) ltac:(lia)). unfold MAX_ADDR. lia.
Qed.

Lemma boundary_legal addr : Forall legal_access (checkRangeBoundary pmp_channels addr).
Proof.
  unfold checkRangeBoundary. rewrite boundary_wraps.
  pose proof (Z.mod_pos_bound ((addr + 1) / 4) (2 ^ 30) ltac:(lia)) as Hb.
  set (k := (addr + 1) / 4 mod 2 ^ 30) in *. clearbody k.
  assert (forall j, (4 * j) mod 4 = 0) as Hm by (intros j; rewrite Z.mul_comm; by apply Z.mod_mul).
  unfold MAX_ADDR. rewrite !Forall_app. split_and!.
  - destruct (Z.leb_spec 4 (4 * k)); [|done]. apply access_legal; [unfold MAX_ADDR; lia|].
    replace (4 * k - 4) with (4 * (k - 1)) by lia. apply Hm.
  - apply access_legal; [unfold MAX_ADDR; lia|apply Hm].
  - destruct (Z.ltb_spec (4 * k) (2 ^ 32 - 4)); [|done]. apply access_legal; [unfold MAX_ADDR; lia|].
    replace (4 * k + 4) with (4 * (k + 1)) by lia. apply Hm.
Qed.

Lemma randrange_step_ok start stop r : start < stop ->
  exists k, randrange_step start stop 4 r = Ok (start + 4 * k) /\ 0 <= k /\ start + 4 * k < stop.
Proof.
  intros H. unfold randrange_step. set (n := (stop - start + 4 - 1) / 4).
  assert (stop - start <= 4 * n < stop - start + 4) as Hn.
  { subst n. pose proof (Z.div_mod (stop - start + 4 - 1) 4 ltac:(lia)).
    pose proof (Z.mod_pos_bound (stop - start + 4 - 1) 4 ltac:(lia)). lia. }
  clearbody n. destruct (Z.leb_spec n 0); [lia|].
  pose proof (Z.mod_pos_bound r n ltac:(lia)). eexists. split; [done|]. lia.
Qed.

Lemma random_accesses_legal n start stop draw :
  0 <= start < stop -> stop <= 2 ^ 32 - 1 -> start mod 4 = 0 ->
  exists items, random_accesses n start stop draw = Ok items /\ Forall legal_access items.
Proof.
  intros Hs He Hm. unfold random_accesses.
  assert (exists its, map_result (fun k => random_access start stop (draw k)) (seq 0 n) = Ok its
    /\ Forall (Forall legal_access) its) as (its & -> & H).
  { generalize (seq 0 n) as ks. induction ks as [|k ks (its & IH & Hl)]; [by exists []|]. cbn [map_result].
    unfold random_access at 1. destruct (randrange_step_ok start stop (draw k)) as (j & -> & Hj & Hlt); [lia|].
    cbn [rbind]. rewrite IH. eexists. split; [reflexivity|]. constructor; [|done].
    assert ((start + 4 * j) mod 4 = 0) as Hmod by (rewrite Z.mul_comm; rewrite Z.mod_add by lia; done).
    apply access_legal; [|done]. unfold MAX_ADDR. pose proof (Z.div_mod (start + 4 * j) 4 ltac:(lia)). lia. }
  eexists. split; [reflexivity|]. by apply Forall_concat.
Qed.

(** ** The ports while the driver runs *)

(** The last access on each channel. *)
Definition show (st : nat -> Z * Z) (it : PmpItem) : nat -> Z * Z :=
  match it with
  | PMPCheckItem c addr type _ => fun c' => if (c' =? c)%nat then (addr, type) else st c'
  | _ => st
  end.

(** The channels of the unit show the accesses of [st]. *)
Definition shows (e : env) (st : nat -> Z * Z) : Prop :=
  forall c, (c < pmp_channels)%nat -> e (port "pmp_chan_addr" c) = (st c).1 /\ e (port "pmp_chan_type" c) = (st c).2.

(** One sample after each item. *)
Fixpoint displays (st : nat -> Z * Z) (items : list PmpItem) (es : list env) : Prop :=
  match items, es with
  | [], [] => True
  | it :: items, e :: es => shows e (show st it) /\ displays (show st it) items es
  | _, _ => False
  end.

Definition pmp_inputs : list string :=
  flat_map (fun c => [port "pmp_chan_addr" c; port "pmp_chan_type" c]) (seq 0 pmp_channels).

(** What the monitor publishes of a sample. *)
Definition seen (chan_err : Z -> nat -> Z) (e : env) : list PmpItem :=
  (fun i => PMPCheckItem i (e (port "pmp_chan_addr" i)) (e (port "pmp_chan_type" i))
                        (Some (chan_err (e "pmp_chan_err") i))) <$> seq 0 pmp_channels.

Lemma monitor_sees chan_err es cur :
  monitor_items (PMPMonitor_run_phase chan_err pmp_channels) tt cur (Sample (RisingEdge "clk") <$> es)
  = flat_map (seen chan_err) es.
Proof.
  assert (productive (PMPMonitor_run_phase chan_err pmp_channels)) as Hp.
  { apply productive_await. intros []. by eexists _, _. }
  revert cur. induction es as [|e es IH]; intros cur.
  - by rewrite monitor_items_nil.
  - rewrite fmap_cons. erewrite monitor_items_step; [|exact Hp|].
    2:{ unfold PMPMonitor_run_phase. cbn [pbind await]. rewrite run_await_hit. reflexivity. }
    by rewrite IH.
Qed.

Definition driven_item (it : PmpItem) : Prop :=
  valid_write pmp_entries it /\ match it with PMPCheckItem _ _ _ _ => legal_access it | _ => True end.

Section Loop.
Context {BV : Type} `{BS : BinaryValueSpec BV}.
Context {St : Type} (step : St -> env -> St) (outs : St -> env -> env).
Hypothesis inputs_kept : forall s e n, n ∈ pmp_inputs -> outs s e n = e n.

Abbreviation loop := (closed "clk" [] step outs).

Lemma shows_settled u e st : shows e st -> shows (outs u e) st.
Proof using inputs_kept.
  clear step. intros H c Hc. rewrite !inputs_kept; [by apply H|..];
    apply list_elem_of_In, in_flat_map; exists c; rewrite in_seq; cbn; split; (lia || tauto).
Qed.

(** A write drives another port. *)
Lemma shows_write e st name i v : name = "pmp_pmpaddr" \/ name = "pmp_pmpcfg" ->
  shows e st -> shows (upd (port name i) v e) st.
Proof.
  intros Hn H c Hc. rewrite !upd_ne; [by apply H|..]; by destruct Hn as [-> | ->].
Qed.

Lemma shows_access e st c addr type err : (c < pmp_channels)%nat -> shows e st ->
  shows (upd (port "pmp_chan_type" c) type (upd (port "pmp_chan_addr" c) addr e)) (show st (PMPCheckItem c addr type err)).
Proof.
  intros Hc H c' Hc'. specialize (H c' Hc'). unfold pmp_channels in *. cbn [show].
  destruct (Nat.eqb_spec c' c) as [->|Hne].
  - rewrite upd_eq, upd_ne, upd_eq by done. done.
  - rewrite !upd_ne; [done|..];
      (destruct c as [|[|[|]]]; [..|lia]; (destruct c' as [|[|[|]]]; [..|lia])); done.
Qed.

Lemma loop_item (regs : gmap reg_name BV) es it w st :
  holds regs es -> length es = pmp_entries -> driven_item it -> shows (wires w) st ->
  exists e regs' w', loop (PMPDriver_item regs it) w = ([Sample (RisingEdge "clk") e], Some (regs', w')) /\
    holds regs' (write_entry es it) /\ shows e (show st it) /\ shows (wires w') (show st it) /\
    (match it with PMPCheckItem _ _ _ _ => regs' = regs | _ => True end).
Proof using BS inputs_kept.
  intros Hr Hl [Hv Hlegal] Hs. rewrite <- Hl in Hv.
  destruct (driver_item regs es it (fun _ => 0) (fun _ => 0) [] Hr Hv) as (acts & regs' & Hrun & Hr').
  destruct w as [b c u]. cbn [wires] in Hs.
  destruct it as [i v|i v|ch addr type err].
  - revert Hrun. unfold PMPDriver_item. cbn [pbind drive lift]. unfold reg_get.
    destruct (regs !! pmpcfg i) as [bv|] eqn:E; cbn; [|done]. rewrite next_firing_hit. intros [= _ <-].
    eexists _, _, _. split_and!; [reflexivity|done|by apply shows_settled, shows_write; [right|]..|done].
  - revert Hrun. unfold PMPDriver_item. cbn [pbind drive lift]. unfold reg_get.
    destruct (regs !! pmpaddr i) as [bv|] eqn:E; cbn; [|done]. rewrite next_firing_hit. intros [= _ <-].
    eexists _, _, _. split_and!; [reflexivity|done|by apply shows_settled, shows_write; [left|]..|done].
  - assert (ch < pmp_channels)%nat as Hc by (destruct err; [done|by destruct Hlegal]).
    eexists _, _, _. split_and!; [reflexivity|exact Hr|by apply shows_settled, shows_access..|done].
Qed.

Lemma loop_items items (regs : gmap reg_name BV) es w st :
  holds regs es -> length es = pmp_entries -> Forall driven_item items -> shows (wires w) st ->
  exists envs regs' w', loop (PMPDriver_run_phase regs items) w
      = (Sample (RisingEdge "clk") <$> envs, Some (regs', w')) /\
    holds regs' (foldl write_entry es items) /\ displays st items envs /\
    shows (wires w') (foldl show st items) /\ (Forall legal_access items -> regs' = regs).
Proof using BS inputs_kept.
  intros Hr Hl Hi. revert regs es w st Hr Hl. induction Hi as [|it items Hit _ IH]; intros regs es w st Hr Hl Hs.
  - exists [], regs, w. by split_and!.
  - destruct (loop_item regs es it w st Hr Hl Hit Hs) as (e & regs1 & w1 & E & Hr1 & He & Hs1 & Hregs).
    destruct (IH regs1 (write_entry es it) w1 (show st it) Hr1) as (envs & regs2 & w2 & E2 & Hr2 & Hd & Hs2 & Hregs2);
      [by rewrite write_entry_length|done|].
    exists (e :: envs), regs2, w2. split_and!; [|done|done|done|].
    + cbn [PMPDriver_run_phase]. rewrite closed_pbind, E, E2. done.
    + intros Hf. inversion_clear Hf as [|? ? H1 H2]. rewrite Hregs2 by done. by destruct it.
Qed.
End Loop.

(** Every access is seen by the monitor, and every access seen is word aligned. *)
Lemma displays_seen chan_err st items envs c addr type :
  displays st items envs -> (c < pmp_channels)%nat -> PMPCheckItem c addr type None ∈ items ->
  exists err, PMPCheckItem c addr type (Some err) ∈ flat_map (seen chan_err) envs.
Proof.
  intros Hd Hc. revert st envs Hd. induction items as [|it items IH]; intros st [|e envs] Hd Hin; try done.
  { by apply not_elem_of_nil in Hin. }
  destruct Hd as [Hs Hd]. cbn [flat_map]. apply elem_of_cons in Hin as [<-|Hin].
  - destruct (Hs c Hc) as [Ha Ht]. cbn [show] in Ha, Ht. rewrite Nat.eqb_refl in Ha, Ht.
    exists (chan_err (e "pmp_chan_err") c). apply elem_of_app. left. unfold seen.
    apply list_elem_of_fmap. exists c. split; [by rewrite Ha, Ht|]. apply elem_of_seq. lia.
  - destruct (IH _ _ Hd Hin) as (err & H). exists err. apply elem_of_app. by right.
Qed.

Definition word_address (a : Z) : Prop := 0 <= a <= MAX_ADDR /\ a mod 4 = 0.

Lemma show_words st it : driven_item it -> (forall c, word_address (st c).1) ->
  forall c, word_address (show st it c).1.
Proof.
  intros [_ Hl] Hst. destruct it as [| |ch addr type err]; [done..|]. intros c. cbn [show].
  destruct (c =? ch)%nat; [|done]. destruct err; [done|]. by destruct Hl as (_ & ? & ? & _).
Qed.

Lemma displays_words st items envs : displays st items envs -> Forall driven_item items ->
  (forall c, word_address (st c).1) ->
  Forall (fun e => forall c, (c < pmp_channels)%nat -> word_address (e (port "pmp_chan_addr" c))) envs /\
  forall c, word_address (foldl show st items c).1.
Proof.
  intros Hd Hi. revert st envs Hd. induction Hi as [|it items Hit _ IH]; intros st [|e envs] Hd Hst; try done.
  destruct Hd as [Hs Hd]. pose proof (show_words st it Hit Hst) as Hst'.
  destruct (IH _ _ Hd Hst') as [Ho Hf]. split; [|done].
  constructor; [|done]. intros c Hc. destruct (Hs c Hc) as [-> _]. apply Hst'.
Qed.

Lemma seen_words chan_err envs :
  (forall v i, chan_err v i = 0 \/ chan_err v i = 1) ->
  Forall (fun e => forall c, (c < pmp_channels)%nat -> word_address (e (port "pmp_chan_addr" c))) envs ->
  Forall (fun it => match it with
            | PMPCheckItem _ addr _ (Some err) => word_address addr /\ (err = 0 \/ err = 1) | _ => False end)
    (flat_map (seen chan_err) envs).
Proof.
  intros Hf He. apply Forall_flat_map. eapply Forall_impl; [exact He|]. intros e H.
  unfold seen. apply Forall_fmap, Forall_forall. intros c Hc%elem_of_seq. cbn. split; [apply H; lia|done].
Qed.

(** ** The scoreboard on what the monitor sees *)

(** The decoding of the bench finds the entry that the architecture finds, for every
    word address. *)
Definition decodes_right (es : list (Z * Z)) : Prop :=
  forall addr, word_address addr -> first_match decoded_matches 0 es addr = first_match arch_matches 0 es addr.

Definition word_access (it : PmpItem) : Prop :=
  match it with
  | PMPCheckItem _ addr _ (Some err) => word_address addr /\ (err = 0 \/ err = 1)
  | _ => False
  end.

Lemma scoreboard_words {BV} `{BinaryValueSpec BV} (regs : gmap reg_name BV) es obs :
  holds regs es -> decodes_right es -> Forall word_access obs ->
  Scoreboard_verdict regs obs = Ok tt <-> Forall (error_expected es) obs.
Proof.
  intros Hr Hd Ho. unfold Scoreboard_verdict.
  assert (forall passed, exists b, Scoreboard_check_phase regs obs passed = Ok b /\
    (b = true <-> passed = true /\ Forall (error_expected es) obs)) as H1.
  { induction Ho as [|it obs Hit _ IH]; intros passed.
    { exists passed. split; [done|]. by split; [|intros []]. }
    destruct it as [| |c addr type [err|]]; try done. destruct Hit as [Ha Herr].
    destruct (Scoreboard_item_spec regs es c addr type err passed Hr Herr) as (b & Hb & Hbt).
    cbn [Scoreboard_check_phase]. rewrite Hb. cbn [rbind].
    destruct (IH b) as (b' & -> & Hb'). exists b'. split; [done|].
    rewrite Hb', Hbt, Forall_cons, (Hd addr Ha). cbn [error_expected]. unfold arch_error. tauto. }
  destruct (H1 true) as (b & -> & Hb). cbn. transitivity (b = true); [by destruct b|].
  rewrite Hb. tauto.
Qed.

Lemma tor_decodes_right es : (forall cfg a, (cfg, a) ∈ es -> cfg_mode cfg <= 1) -> decodes_right es.
Proof.
  intros He addr [_ Ha]. generalize 0 as prev. revert He. induction es as [|[cfg a] es IH]; intros He prev; [done|].
  cbn [first_match]. rewrite tor_decoded_matches; [|apply (He cfg a); by left|done].
  rewrite IH; [done|]. intros cfg' a' Hin. apply (He cfg' a'). by right.
Qed.

(** The number of the entry that decides an access. *)
Fixpoint deciding (prev : Z) (es : list (Z * Z)) (addr : Z) : option nat :=
  match es with
  | [] => None
  | (cfg, a) :: es => if arch_matches prev cfg a addr then Some O else S <$> deciding a es addr
  end.

Lemma first_match_prefix m prev l l' addr :
  first_match m prev l addr <> None -> first_match m prev (l ++ l') addr = first_match m prev l addr.
Proof.
  revert prev. induction l as [|[cfg a] l IH]; intros prev; [done|]. cbn [app first_match].
  destruct (m prev cfg a addr); [done|]. apply IH.
Qed.

Lemma words_below (P : Z -> bool) n addr :
  forallb (fun k => P (4 * Z.of_nat k)) (seq 0 n) = true ->
  0 <= addr < 4 * Z.of_nat n -> addr mod 4 = 0 -> P addr = true.
Proof.
  rewrite forallb_forall. intros H Ha Hm. pose proof (Z.div_mod addr 4 ltac:(lia)) as Hd. rewrite Hm in Hd.
  specialize (H (Z.to_nat (addr / 4))). rewrite in_seq in H.
  pose proof (Z.div_pos addr 4 ltac:(lia) ltac:(lia)). rewrite Z2Nat.id in H by lia.
  replace addr with (4 * (addr / 4)) by lia. apply H. lia.
Qed.

(** *** The configurations of the tests *)

Definition matching_entries : list (Z * Z) :=
  Eval vm_compute in configured pmp_entries (configure AddressMatching.pmp_configurations).
Definition multiple_entries : list (Z * Z) :=
  Eval vm_compute in configured pmp_entries (configure MultipleConfigs.pmp_configurations).
Definition xwr_entries : list (Z * Z) :=
  Eval vm_compute in configured pmp_entries XWRAccess.writes.

(** All entries have a mode of at most one: disabled or top of range. *)
Definition all_tor (es : list (Z * Z)) : bool := forallb (fun p => cfg_mode p.1 <=? 1) es.

Lemma all_tor_spec es : all_tor es = true -> forall cfg a, (cfg, a) ∈ es -> cfg_mode cfg <= 1.
Proof.
  unfold all_tor. rewrite forallb_forall. intros H cfg a Hin. apply list_elem_of_In, H in Hin. cbn in Hin. lia.
Qed.

Lemma matching_prefix addr : 0x1000 <= addr <= MAX_ADDR ->
  first_match arch_matches 0 (take 6 matching_entries) addr <> None.
Proof.
  unfold MAX_ADDR. intros Ha. cbn [take matching_entries first_match].
  unfold arch_matches.
  repeat match goal with |- context [cfg_mode ?c] => let v := eval vm_compute in (cfg_mode c) in change (cfg_mode c) with v end.
  cbn [Z.eqb Pos.eqb].
  repeat match goal with |- context [if ?b then _ else _] => destruct b eqn:?; [done|] end.
  exfalso. lia.
Qed.

Definition matching_none (addr : Z) : bool :=
  bool_decide (first_match decoded_matches 0 matching_entries addr = None)
  && bool_decide (first_match arch_matches 0 matching_entries addr = None)
  && bool_decide (deciding 0 matching_entries addr = None).

Lemma matching_low addr : 0 <= addr < 0x1000 -> addr mod 4 = 0 ->
  first_match decoded_matches 0 matching_entries addr = None /\
  first_match arch_matches 0 matching_entries addr = None /\ deciding 0 matching_entries addr = None.
Proof.
  intros Ha Hm.
  assert (matching_none addr = true) as H.
  { apply (words_below matching_none 1024); [vm_compute; reflexivity|lia|done]. }
  unfold matching_none in H. apply and_assoc. by rewrite !andb_true_iff, !bool_decide_eq_true in H.
Qed.

Lemma matching_decodes_right : decodes_right matching_entries.
Proof.
  intros addr [Ha Hm]. destruct (Z.ltb_spec addr 0x1000).
  - destruct (matching_low addr) as (-> & -> & _); [lia|done|done].
  - pose proof (matching_prefix addr ltac:(lia)) as Hp.
    pose proof (tor_decodes_right (take 6 matching_entries)
      (all_tor_spec (take 6 matching_entries) ltac:(vm_compute; reflexivity)) addr (conj Ha Hm)) as Ht.
    rewrite <- (take_drop 6 matching_entries). rewrite !first_match_prefix; [exact Ht|done|by rewrite Ht].
Qed.

Lemma matching_deciding addr : 0x1000 <= addr <= MAX_ADDR ->
  deciding 0 matching_entries addr
  = Some (if addr <? 0x2000 then 1%nat else if addr <? 0x4000 then 2%nat else if addr <? 0x10000 then 3%nat
          else if addr <? 0x20000 then 4%nat else 5%nat).
Proof.
  unfold MAX_ADDR. intros Ha. unfold matching_entries. cbn [deciding]. unfold arch_matches at 1 2 3 4 5 6.
  repeat match goal with |- context [cfg_mode ?c] => let v := eval vm_compute in (cfg_mode c) in change (cfg_mode c) with v end.
  cbn [Z.eqb Pos.eqb].
  destruct (Z.ltb_spec addr 0x2000), (Z.ltb_spec addr 0x4000), (Z.ltb_spec addr 0x10000), (Z.ltb_spec addr 0x20000);
    try lia;
    repeat match goal with |- context [if ?b then _ else _] => destruct b eqn:?; try (exfalso; lia) end; done.
Qed.

Lemma multiple_deciding addr : 0 <= addr ->
  deciding 0 multiple_entries addr
  = if addr <? 0x10000 then Some 0%nat else if addr <? 0x20000 then Some 4%nat else None.
Proof.
  intros Ha. unfold multiple_entries. cbn [deciding]. unfold arch_matches.
  repeat match goal with |- context [cfg_mode ?c] => let v := eval vm_compute in (cfg_mode c) in change (cfg_mode c) with v end.
  cbn [Z.eqb Pos.eqb].
  destruct (Z.ltb_spec addr 0x10000), (Z.ltb_spec addr 0x20000); try lia;
    repeat match goal with |- context [if ?b then _ else _] => destruct b eqn:?; try (exfalso; lia) end; done.
Qed.

(** ** The accesses of the tests *)

Section Accesses.
Context {BV : Type} `{BS : BinaryValueSpec BV}.

(** A range whose random accesses are legal: it starts at a word, and is empty or
    ends in the address space. *)
Definition range_ok (r : Z * Z) : bool :=
  (r.1 mod 4 =? 0) && (0 <=? r.1) && ((r.2 <=? 2 ^ 32 - 1) || (r.2 <=? r.1)).

Definition entry_range (es : list (Z * Z)) (i : nat) : option (Z * Z) :=
  p ← es !! i;
  Some (range_of (match i with O => 0 | S j => default 0 (snd <$> es !! j) end) p.1 p.2).

Lemma check_entry_ok (regs : gmap reg_name BV) es draw i r :
  holds regs es -> entry_range es i = Some r -> range_ok r = true ->
  exists items, AddressMatching.check_entry regs draw i = Ok (regs, items) /\ Forall legal_access items.
Proof using BS.
  intros Hr Hi Hok. unfold entry_range in Hi. destruct (es !! i) as [[cfg a]|] eqn:E; [|done].
  injection Hi as <-. unfold AddressMatching.check_entry.
  rewrite (decode_range_only regs es i cfg a _ Hr E eq_refl). cbn [rbind].
  destruct (range_of _ cfg a) as [lo hi]. unfold range_ok in Hok. cbn [fst snd] in *.
  rewrite !andb_true_iff, orb_true_iff, !Z.leb_le, Z.eqb_eq in Hok. destruct Hok as [[Hm H0] Hhi].
  assert (exists items, (if lo =? hi then Ok []
      else random_accesses (Z.to_nat (Z.min ((hi - lo) / 4) 10)) lo hi (draw i)) = Ok items
    /\ Forall legal_access items) as (items & -> & Hl).
  { destruct (Z.eqb_spec lo hi); [by exists []|]. destruct (Z.ltb_spec lo hi).
    - apply random_accesses_legal; lia.
    - assert (Z.to_nat (Z.min ((hi - lo) / 4) 10) = 0%nat) as ->.
      { assert ((hi - lo) / 4 < 0); [|lia]. apply Z.div_lt_upper_bound; lia. }
      by exists []. }
  cbn [rbind]. eexists. split; [reflexivity|]. rewrite !Forall_app. split_and!; auto using boundary_legal.
Qed.

Lemma check_entries_ok (regs : gmap reg_name BV) es draw indices :
  holds regs es -> forallb (fun i => from_option range_ok false (entry_range es i)) indices = true ->
  exists items, AddressMatching.check_entries regs draw indices = Ok items /\ Forall legal_access items.
Proof using BS.
  intros Hr. induction indices as [|i indices IH]; cbn [forallb AddressMatching.check_entries]; [by exists []|].
  rewrite andb_true_iff. intros [Hi Hrest]. destruct (entry_range es i) as [r|] eqn:E; [|done].
  destruct (check_entry_ok regs es draw i r Hr E Hi) as (items & -> & Hl). cbn [rbind].
  destruct (IH Hrest) as (others & -> & Ho). eexists. split; [reflexivity|]. by apply Forall_app.
Qed.

(** The three tests, with all their random choices. *)
Inductive pmp_test : result (list PmpItem) -> (gmap reg_name BV -> result (list PmpItem)) -> Prop :=
  | test_address_matching n draw draw' :
      pmp_test AddressMatching.writes (AddressMatching.accesses n draw draw')
  | test_multiple_configs n draw :
      pmp_test MultipleConfigs.writes (fun _ => MultipleConfigs.accesses n draw)
  | test_xwr_access :
      pmp_test (Ok XWRAccess.writes) (fun _ => Ok XWRAccess.check_accesses).

Lemma xwr_legal : Forall legal_access XWRAccess.check_accesses.
Proof.
  assert (forallb (fun it => match it with
    | PMPCheckItem c addr type None => (c <? pmp_channels)%nat && (0 <=? addr) && (addr <=? MAX_ADDR)
        && (addr mod 4 =? 0) && bool_decide (is_Some (access_of type))
    | _ => false end) XWRAccess.check_accesses = true) as H by (vm_compute; reflexivity).
  rewrite forallb_forall in H. apply Forall_forall. intros it Hin. apply list_elem_of_In, H in Hin.
  destruct it as [| |c addr type [|]]; try done.
  rewrite !andb_true_iff, bool_decide_eq_true, Nat.ltb_lt, !Z.leb_le, Z.eqb_eq in Hin. cbn. tauto.
Qed.

(** What is common to the tests. *)
Lemma pmp_test_facts writes accesses : pmp_test writes accesses ->
  exists ws, writes = Ok ws /\ Forall driven_item ws /\ decodes_right (configured pmp_entries ws) /\
    forall regs, holds regs (configured pmp_entries ws) ->
    exists acc, accesses regs = Ok acc /\ Forall legal_access acc.
Proof using BS.
  assert (forall l, forallb (fun it => match it with
    | PMPWriteCfgCSRItem i v => (i <? pmp_entries)%nat && (0 <=? v) && (v <? 2 ^ 8)
    | PMPWriteAddrCSRItem i v => (i <? pmp_entries)%nat && (0 <=? v) && (v <? 2 ^ 32)
    | _ => false end) l = true -> Forall driven_item l) as Hw.
  { intros l. rewrite forallb_forall. intros H. apply Forall_forall. intros it Hin. apply list_elem_of_In, H in Hin.
    split; destruct it; try done;
      rewrite !andb_true_iff, Nat.ltb_lt, Z.leb_le, Z.ltb_lt in Hin; cbn [valid_write]; intuition lia. }
  destruct 1 as [n draw draw'|n draw|]; eexists; (split; [reflexivity|]);
    (split; [apply Hw; vm_compute; reflexivity|]).
  - change (configured pmp_entries (configure AddressMatching.pmp_configurations)) with matching_entries.
    split; [apply matching_decodes_right|]. intros regs Hr. unfold AddressMatching.accesses.
    destruct (check_entries_ok regs matching_entries draw (seq 0 (length AddressMatching.pmp_configurations)) Hr)
      as (checks & -> & Hc); [vm_compute; reflexivity|].
    destruct (random_accesses_legal n 0 0xFFFFFFFF draw') as (random & E & Hl); [lia|lia|done|].
    cbn [rbind]. rewrite E. eexists. split; [reflexivity|]. by apply Forall_app.
  - change (configured pmp_entries (configure MultipleConfigs.pmp_configurations)) with multiple_entries.
    split; [by apply tor_decodes_right, all_tor_spec|]. intros regs Hr. unfold MultipleConfigs.accesses.
    destruct (random_accesses_legal n MultipleConfigs.LOWER_BOUNDARY MultipleConfigs.UPPER_BOUNDARY draw)
      as (random & -> & Hl); [unfold MultipleConfigs.LOWER_BOUNDARY, MultipleConfigs.UPPER_BOUNDARY; lia..|done|].
    eexists. split; [reflexivity|]. rewrite !Forall_app. split_and!; auto using boundary_legal.
  - change (configured pmp_entries XWRAccess.writes) with xwr_entries.
    split; [by apply tor_decodes_right, all_tor_spec|]. intros regs _. eexists. split; [reflexivity|]. apply xwr_legal.
Qed.
End Accesses.

(** C5: The three tests of the PMP as a whole, for all random choices and against any
    unit that drives none of the request ports, from a state in which no channel
    requests an access: the sequence and the driver run to their end, every access of
    the sequence is seen by the monitor on its channel, and the test passes exactly
    when every access that the monitor saw had the error flag that the architecture
    prescribes for the configured entries, NA4 and NAPOT entries included. *)
Theorem pmp_tests_sound_complete {BV} `{BinaryValueSpec BV} {St} (step : St -> env -> St)
    (outs : St -> env -> env) (chan_err : Z -> nat -> Z)
    (inputs_kept : forall s e n, n ∈ pmp_inputs -> outs s e n = e n)
    (flags : forall v i, chan_err v i = 0 \/ chan_err v i = 1)
    (w : world) (idle : shows (wires w) (fun _ => (0, 0)))
    (writes : result (list PmpItem)) (accesses : gmap reg_name BV -> result (list PmpItem))
    (test : pmp_test writes accesses) :
  exists ws regs acc tr tr' w1 w2,
    writes = Ok ws /\ accesses regs = Ok acc /\
    closed "clk" [] step outs (PMPDriver_run_phase (RegisterMap pmp_entries) ws) w = (tr, Some (regs, w1)) /\
    closed "clk" [] step outs (PMPDriver_run_phase regs acc) w1 = (tr', Some (regs, w2)) /\
    forall cur, let obs := monitor_items (PMPMonitor_run_phase chan_err pmp_channels) tt cur (tr ++ tr') in
      (forall c addr type, PMPCheckItem c addr type None ∈ acc ->
         exists err, PMPCheckItem c addr type (Some err) ∈ obs) /\
      (Scoreboard_verdict regs obs = Ok tt <-> Forall (error_expected (configured pmp_entries ws)) obs).
Proof.
  destruct (pmp_test_facts writes accesses test) as (ws & -> & Hws & Hright & Hacc).
  destruct (loop_items step outs inputs_kept ws (RegisterMap pmp_entries) (replicate pmp_entries (0, 0)) w
    (fun _ => (0, 0))) as (envs & regs & w1 & E1 & Hr1 & Hd1 & Hs1 & _);
    [apply RegisterMap_holds|apply length_replicate|done|done|].
  destruct (Hacc regs Hr1) as (acc & Eacc & Hlegal).
  assert (Forall driven_item acc) as Hda.
  { eapply Forall_impl; [exact Hlegal|]. intros [| |c a t e]; cbn; by intros. }
  destruct (loop_items step outs inputs_kept acc regs (configured pmp_entries ws) w1
    (foldl show (fun _ => (0, 0)) ws)) as (envs' & regs' & w2 & E2 & _ & Hd2 & _ & Hsame); [done| |done|done|].
  { assert (forall items es, length (foldl write_entry es items) = length es) as Hl.
    { induction items as [|it items IH]; intros es; [done|]. cbn. by rewrite IH, write_entry_length. }
    unfold configured. by rewrite Hl, length_replicate. }
  rewrite (Hsame Hlegal) in E2.
  eexists ws, regs, acc, _, _, w1, w2. split_and!; [done|done|exact E1|exact E2|].
  intros cur. cbv zeta. rewrite <- fmap_app, monitor_sees, flat_map_app. split.
  - intros c addr type Hin.
    assert (c < pmp_channels)%nat as Hc by (rewrite Forall_forall in Hlegal; by destruct (Hlegal _ Hin)).
    destruct (displays_seen chan_err _ _ _ c addr type Hd2 Hc Hin) as (err & He).
    exists err. apply elem_of_app. by right.
  - apply scoreboard_words; [done|done|].
    assert (forall c : nat, word_address (fst ((fun _ => (0, 0)) c : Z * Z))) as H0 by (intros _; split; [unfold MAX_ADDR; cbn; lia|done]).
    destruct (displays_words _ _ _ Hd1 Hws H0) as [Hw1 Hst].
    destruct (displays_words _ _ _ Hd2 Hda Hst) as [Hw2 _].
    apply Forall_app. split; by apply seen_words.
Qed.

(** C17: Which entries the tests exercise. In test_address_matching every word from
    0x1000 on is decided by one of the five top-of-range entries 1 to 5, and the words
    below by none: the last of them is unlocked, covers the rest of the address space
    and shadows the NA4 and NAPOT entries 7 to 12, which decide no access at all. In
    test_multiple_configs the entries 0 and 4 decide everything. In test_xwr_access
    the addresses are shifted as if the ports took words: all of them lie in the
    entries 0 to 3, and the permissions of the entries 4 to 7, those that allow
    execution, are never tried. *)
Theorem pmp_tests_coverage :
  (forall addr, word_address addr ->
     deciding 0 (configured pmp_entries (configure AddressMatching.pmp_configurations)) addr
     = if addr <? 0x1000 then None
       else Some (if addr <? 0x2000 then 1%nat else if addr <? 0x4000 then 2%nat else if addr <? 0x10000 then 3%nat
                  else if addr <? 0x20000 then 4%nat else 5%nat)) /\
  (forall addr, word_address addr ->
     deciding 0 (configured pmp_entries (configure MultipleConfigs.pmp_configurations)) addr
     = if addr <? 0x10000 then Some 0%nat else if addr <? 0x20000 then Some 4%nat else None) /\
  (forall c addr type err, PMPCheckItem c addr type err ∈ XWRAccess.check_accesses ->
     exists i, deciding 0 (configured pmp_entries XWRAccess.writes) addr = Some i /\ (i < 4)%nat) /\
  (forall i cfg a, configured pmp_entries XWRAccess.writes !! i = Some (cfg, a) -> cfg_allows cfg X = true -> (4 <= i)%nat).
Proof.
  split_and!.
  - change (configured _ _) with matching_entries. intros addr [Ha Hm]. destruct (Z.ltb_spec addr 0x1000).
    + by destruct (matching_low addr) as (_ & _ & ->); [lia|..].
    + apply matching_deciding. lia.
  - change (configured _ _) with multiple_entries. intros addr [Ha _]. apply multiple_deciding. lia.
  - change (configured _ _) with xwr_entries.
    assert (forallb (fun it => match it with
      | PMPCheckItem _ addr _ _ => from_option (fun i => (i <? 4)%nat) false (deciding 0 xwr_entries addr)
      | _ => true end) XWRAccess.check_accesses = true) as H by (vm_compute; reflexivity).
    rewrite forallb_forall in H. intros c addr type err Hin. apply list_elem_of_In, H in Hin.
    destruct (deciding 0 xwr_entries addr) as [i|]; [|done]. exists i. split; [done|]. by apply Nat.ltb_lt.
  - change (configured _ _) with xwr_entries. intros i cfg a Hi Hx.
    destruct (decide (4 <= i)%nat) as [|Hn]; [done|]. exfalso.
    destruct i as [|[|[|[|i]]]]; [..|lia]; injection Hi as <- <-; vm_compute in Hx; done.
Qed.

(** A unit without state that computes the error flags of the architecture, one bit for
    each channel, and one that never raises an error. *)
Definition example_outs (es : list (Z * Z)) (_ : unit) (e : env) : env :=
  upd "pmp_chan_err"
    (foldr (fun c acc => acc * 2 + match access_of (e (port "pmp_chan_type" c)) with
              | Some op => Z.b2z (arch_error es (e (port "pmp_chan_addr" c)) op) | None => 0 end) 0
      (seq 0 pmp_channels)) e.
Definition example_err (v : Z) (i : nat) : Z := Z.b2z (Z.testbit v (Z.of_nat i)).
Definition example_world : world (St := unit) := World (fun _ => 0) (fun _ => 0) tt.

Definition example_verdict (outs : unit -> env -> env) : result unit :=
  let '(tr, o) := closed "clk" [] (fun u _ => u) outs
    (PMPDriver_run_phase (BV := simple_bv) (RegisterMap pmp_entries) (XWRAccess.writes ++ XWRAccess.check_accesses))
    example_world in
  match o with
  | Some (regs, _) =>
      Scoreboard_verdict regs (monitor_items (PMPMonitor_run_phase example_err pmp_channels) tt (fun _ => 0) tr)
  | None => Raise PlainException
  end.

(** Both are told apart; a unit that ignores the entries 4 to 7 passes. *)
Example xwr_verdicts :
  (example_verdict (example_outs xwr_entries), example_verdict (fun _ => upd "pmp_chan_err" 0),
   example_verdict (example_outs (take 4 xwr_entries)))
  = (Ok tt, Raise AssertionError, Ok tt).
Proof. vm_compute. reflexivity. Qed.

Lemma pmp_tests_sound_complete_witness :
  exists ws regs acc tr tr' w1 w2,
    Ok XWRAccess.writes = Ok ws /\ Ok XWRAccess.check_accesses = Ok acc /\
    closed "clk" [] (fun u _ => u) (example_outs xwr_entries) (PMPDriver_run_phase (RegisterMap pmp_entries) ws) example_world
      = (tr, Some (regs, w1)) /\
    closed "clk" [] (fun u _ => u) (example_outs xwr_entries) (PMPDriver_run_phase regs acc) w1
      = (tr', Some (regs : gmap reg_name simple_bv, w2)) /\
    forall cur, let obs := monitor_items (PMPMonitor_run_phase example_err pmp_channels) tt cur (tr ++ tr') in
      (forall c addr type, PMPCheckItem c addr type None ∈ acc ->
         exists err, PMPCheckItem c addr type (Some err) ∈ obs) /\
      (Scoreboard_verdict regs obs = Ok tt <-> Forall (error_expected (configured pmp_entries ws)) obs).
Proof.
  apply (pmp_tests_sound_complete (BV := simple_bv) (fun u _ => u) (example_outs xwr_entries) example_err).
  - intros s e n Hn. unfold example_outs. rewrite upd_ne; [done|]. intros <-.
    apply list_elem_of_In in Hn. cbn in Hn. intuition discriminate.
  - intros v i. unfold example_err. destruct (Z.testbit _ _); [by right|by left].
  - intros c _. done.
  - apply test_xwr_access.
Defined.
