(* ===== verification/DecTlu.v ===== *)
(** * Trigger and control unit bench: verification/block/dec_tlu_ctl/testbench.py

    The sequence, the driver, the two monitors and the scoreboard, each with the
    branches of the seven tests of test_dec_tl.py; [test] is the string that the
    tests store in [ConfigDB].  Random draws are a stream of integers.  The unit
    under test of the closed-loop theorems is a file of registers with an
    arbitrary read-back function.

    The driver of "mdseac" asks the wrapper for a signal that only the unit inside
    has when the register is locked, which raises.  The wiring of the environment
    and the logger's texts are not modelled. *)

From S2P Require Import Prelude Scoreboard Cocotb TriggerLogic Csrs ClosedLoop.
From stdpp Require Import base list strings.
From Stdlib Require Import ZArith Lia.

#[local] Open Scope string_scope.
#[local] Open Scope list_scope.
#[local] Open Scope Z_scope.

(** ** Data *)

Record TriggerAnyPktT := {
  t_select : Z; t_match : Z; t_store : Z; t_load : Z; t_execute : Z; t_m : Z; t_tdata2 : Z }.

#[export] Instance TriggerAnyPktT_eq_dec : EqDecision TriggerAnyPktT.
Proof. solve_decision. Defined.

(** [TriggerAnyPktT.get_from_dut] *)
Definition get_from_dut (e : env) : TriggerAnyPktT :=
  {| t_select := e "trigger_pkt_any_select"; t_match := e "trigger_pkt_any_match";
     t_store := e "trigger_pkt_any_store"; t_load := e "trigger_pkt_any_load";
     t_execute := e "trigger_pkt_any_execute"; t_m := e "trigger_pkt_any_m";
     t_tdata2 := e "trigger_pkt_any_tdata2" |}.

(** The field [dec_csr_rddata_d] of the class is neither set nor read by the
    bench and is left out. *)
Record TlInputItem := {
  pic_claimid : Z; dec_csr_wrdata_r : Z; mtdata1 : Z; mtdata2 : Z; mtsel : Z; mdeau : Z;
  csr_addr : Z; i_ifu_ic_debug_rd_data : Z; lsu_imprecise_error_addr_any : Z }.

#[export] Instance TlInputItem_eq_dec : EqDecision TlInputItem.
Proof. solve_decision. Defined.

(** [TlInputItem()] *)
Definition TlInputItem0 : TlInputItem :=
  {| pic_claimid := 0; dec_csr_wrdata_r := 0; mtdata1 := 0; mtdata2 := 0; mtsel := 0;
     mdeau := 0; csr_addr := 0; i_ifu_ic_debug_rd_data := 0;
     lsu_imprecise_error_addr_any := 0 |}.

Definition item_meihap (claim wrdata : Z) : TlInputItem :=
  {| pic_claimid := claim; dec_csr_wrdata_r := wrdata; mtdata1 := 0; mtdata2 := 0; mtsel := 0;
     mdeau := 0; csr_addr := 0; i_ifu_ic_debug_rd_data := 0;
     lsu_imprecise_error_addr_any := 0 |}.

Definition item_mtdata (d1 d2 sel : Z) : TlInputItem :=
  {| pic_claimid := 0; dec_csr_wrdata_r := 0; mtdata1 := d1; mtdata2 := d2; mtsel := sel;
     mdeau := 0; csr_addr := 0; i_ifu_ic_debug_rd_data := 0;
     lsu_imprecise_error_addr_any := 0 |}.

Definition item_mdseac (deau csr err : Z) : TlInputItem :=
  {| pic_claimid := 0; dec_csr_wrdata_r := 0; mtdata1 := 0; mtdata2 := 0; mtsel := 0;
     mdeau := deau; csr_addr := csr; i_ifu_ic_debug_rd_data := 0;
     lsu_imprecise_error_addr_any := err |}.

Definition item_csr (csr wrdata : Z) : TlInputItem :=
  {| pic_claimid := 0; dec_csr_wrdata_r := wrdata; mtdata1 := 0; mtdata2 := 0; mtsel := 0;
     mdeau := 0; csr_addr := csr; i_ifu_ic_debug_rd_data := 0;
     lsu_imprecise_error_addr_any := 0 |}.

Definition item_ic_cache (v : Z) : TlInputItem :=
  {| pic_claimid := 0; dec_csr_wrdata_r := 0; mtdata1 := 0; mtdata2 := 0; mtsel := 0;
     mdeau := 0; csr_addr := 0; i_ifu_ic_debug_rd_data := v;
     lsu_imprecise_error_addr_any := 0 |}.

(** The default of [trigger_pkt_any] is the integer 0, which has no fields:
    that is [None]. *)
Record TlOutputItem := {
  dec_tlu_meihap : Z; trigger_pkt_any : option TriggerAnyPktT;
  dec_csr_rddata_d : Z; ifu_ic_debug_rd_data : Z }.

Definition out_meihap (v : Z) : TlOutputItem :=
  {| dec_tlu_meihap := v; trigger_pkt_any := None; dec_csr_rddata_d := 0;
     ifu_ic_debug_rd_data := 0 |}.
Definition out_mtdata (p : TriggerAnyPktT) : TlOutputItem :=
  {| dec_tlu_meihap := 0; trigger_pkt_any := Some p; dec_csr_rddata_d := 0;
     ifu_ic_debug_rd_data := 0 |}.
Definition out_csr (v : Z) : TlOutputItem :=
  {| dec_tlu_meihap := 0; trigger_pkt_any := None; dec_csr_rddata_d := v;
     ifu_ic_debug_rd_data := 0 |}.
Definition out_ic_cache (v : Z) : TlOutputItem :=
  {| dec_tlu_meihap := 0; trigger_pkt_any := None; dec_csr_rddata_d := 0;
     ifu_ic_debug_rd_data := v |}.

(** ** Random items *)

(** The integers that the generator will draw, in order. *)
Definition rng := nat -> Z.

(** [n] times [random.choice(["0", "1"])], from the draw [pos] on. *)
Definition random_digits (r : rng) (pos n : nat) : list bool :=
  (fun i => Z.odd (r (pos + i)%nat)) <$> seq 0 n.

Definition mhpme_lst : list CSR := [MHPME3; MHPME4; MHPME5; MHPME6].

Definition csrs_access_lst : list CSR :=
  [MHPMC3; MHPMC3H; MHPMC4; MHPMC4H; MHPMC5; MHPMC5H; MHPMC6; MHPMC6H; MCYCLEL; MCYCLEH;
   MINSTRETL; MINSTRETH; MICECT; MICCMECT; MDCCMECT; MTVEC; MHPME3; MHPME4; MHPME5; MHPME6;
   MRAC; MEIPT; MCOUNTINHIBIT; MFDHT; MEICURPL; MFDC].

Definition debug_csrs_lst : list CSR := [DICAD0; DICAD0H; DICAWICS; DPC; DCSR].

(** The registers drawn are those of [core_regs], and [MFDC]. *)
Lemma drawn_core_regs :
  Forall (fun c => addr c ∈ core_regs.*1.*2) (mhpme_lst ++ csrs_access_lst ++ debug_csrs_lst).
Proof. refine (bool_decide_unpack _ _). by vm_compute. Qed.

Definition randomize (test : string) (r : rng) (it : TlInputItem) : result TlInputItem :=
  if String.eqb test "meihap" then
    let! claim := int_base2 (random_digits r 0 8) in
    let! wrdata := int_base2 (random_digits r 8 22) in
    Ok {| pic_claimid := claim; dec_csr_wrdata_r := Z.shiftl wrdata 10; mtdata1 := mtdata1 it;
          mtdata2 := mtdata2 it; mtsel := mtsel it; mdeau := mdeau it; csr_addr := csr_addr it;
          i_ifu_ic_debug_rd_data := i_ifu_ic_debug_rd_data it;
          lsu_imprecise_error_addr_any := lsu_imprecise_error_addr_any it |}
  else if String.eqb test "mhpme" then
    let! value := int_base2 (random_digits r 0 10) in
    let! c := Prelude.choice mhpme_lst (r 10%nat) in
    Ok {| pic_claimid := pic_claimid it; dec_csr_wrdata_r := value; mtdata1 := mtdata1 it;
          mtdata2 := mtdata2 it; mtsel := mtsel it; mdeau := mdeau it; csr_addr := addr c;
          i_ifu_ic_debug_rd_data := i_ifu_ic_debug_rd_data it;
          lsu_imprecise_error_addr_any := lsu_imprecise_error_addr_any it |}
  else if String.eqb test "mtdata" then
    (* bits 31:28 are 0x2, DMODE (bit 27) is cleared *)
    let d1 := [false; false; true; false] ++ random_digits r 0 28 in
    let! d1 := int_base2 (<[(31 - 27)%nat := false]> d1) in
    let! d2 := int_base2 (random_digits r 28 32) in
    let! sel := int_base2 (random_digits r 60 2) in
    Ok {| pic_claimid := pic_claimid it; dec_csr_wrdata_r := dec_csr_wrdata_r it;
          mtdata1 := d1; mtdata2 := d2; mtsel := sel; mdeau := mdeau it;
          csr_addr := csr_addr it; i_ifu_ic_debug_rd_data := i_ifu_ic_debug_rd_data it;
          lsu_imprecise_error_addr_any := lsu_imprecise_error_addr_any it |}
  else if String.eqb test "mdseac" then
    let! deau := int_base2 (random_digits r 0 32) in
    let! value := int_base2 (random_digits r 32 32) in
    Ok {| pic_claimid := pic_claimid it; dec_csr_wrdata_r := dec_csr_wrdata_r it;
          mtdata1 := mtdata1 it; mtdata2 := mtdata2 it; mtsel := mtsel it; mdeau := deau;
          csr_addr := addr MDSEAC; i_ifu_ic_debug_rd_data := i_ifu_ic_debug_rd_data it;
          lsu_imprecise_error_addr_any := value |}
  else if String.eqb test "csrs_access" then
    let! value := int_base2 (random_digits r 0 32) in
    let! c := Prelude.choice csrs_access_lst (r 32%nat) in
    Ok {| pic_claimid := pic_claimid it; dec_csr_wrdata_r := value; mtdata1 := mtdata1 it;
          mtdata2 := mtdata2 it; mtsel := mtsel it; mdeau := mdeau it; csr_addr := addr c;
          i_ifu_ic_debug_rd_data := i_ifu_ic_debug_rd_data it;
          lsu_imprecise_error_addr_any := lsu_imprecise_error_addr_any it |}
  else if String.eqb test "debug_csrs_access" then
    let! value := int_base2 (random_digits r 0 32) in
    let! c := Prelude.choice debug_csrs_lst (r 32%nat) in
    Ok {| pic_claimid := pic_claimid it; dec_csr_wrdata_r := value; mtdata1 := mtdata1 it;
          mtdata2 := mtdata2 it; mtsel := mtsel it; mdeau := mdeau it; csr_addr := addr c;
          i_ifu_ic_debug_rd_data := i_ifu_ic_debug_rd_data it;
          lsu_imprecise_error_addr_any := lsu_imprecise_error_addr_any it |}
  else if String.eqb test "debug_ic_cache" then
    let! value := int_base2 (random_digits r 0 71) in
    Ok {| pic_claimid := pic_claimid it; dec_csr_wrdata_r := dec_csr_wrdata_r it;
          mtdata1 := mtdata1 it; mtdata2 := mtdata2 it; mtsel := mtsel it; mdeau := mdeau it;
          csr_addr := csr_addr it; i_ifu_ic_debug_rd_data := value;
          lsu_imprecise_error_addr_any := lsu_imprecise_error_addr_any it |}
  else Ok it.

(** [TlSequence.body]: one item per stream of draws. *)
Fixpoint TlSequence_body (test : string) (rs : list rng) : result (list TlInputItem) :=
  match rs with
  | [] => Ok []
  | r :: rs =>
      let! it := randomize test r TlInputItem0 in
      let! its := TlSequence_body test rs in
      Ok (it :: its)
  end.

(** ** The driver *)

Section Driver.
Context {I : Type}.

Definition read_csr (address : Z) : proc I unit :=
  drive "dec_csr_rdaddr_d" address ;;;
  (_ <- await (RisingEdge "clk") ;; Ret tt).

Definition write_csr (address value : Z) : proc I unit :=
  drive "dec_csr_wen_r" 0 ;;;
  (_ <- await (RisingEdge "clk") ;;
  drive "dec_csr_wen_r" 1 ;;;
  drive "dec_csr_wraddr_r" address ;;;
  drive "dec_csr_wrdata_r" value ;;;
  _ <- await (RisingEdge "clk") ;;
  drive "dec_csr_wen_r" 0).

Definition do_reset : proc I unit :=
  drive "rst_l" 0 ;;;
  clock_cycles "clk" 2 ;;;
  (_ <- await (FallingEdge "clk") ;;
  drive "rst_l" 1).

Definition TlDriver_item (test : string) (it : TlInputItem) : proc I unit :=
  if String.eqb test "meihap" then
    write_csr (addr MEIVT) (dec_csr_wrdata_r it) ;;;
    (_ <- await (RisingEdge "clk") ;;
    drive "pic_claimid" (pic_claimid it) ;;;
    drive "dec_csr_wen_r" 1 ;;;
    drive "dec_csr_wraddr_r" (addr MEICPCT) ;;;
    _ <- await (RisingEdge "clk") ;;
    drive "dec_csr_wen_r" 0 ;;;
    _ <- await (RisingEdge "clk") ;;
    _ <- await (RisingEdge "clk") ;;
    Ret tt)
  else if String.eqb test "mtdata" then
    write_csr (addr MTSEL) (mtsel it) ;;;
    write_csr (addr MTDATA1) (mtdata1 it) ;;;
    write_csr (addr MTDATA2) (mtdata2 it)
  else if String.eqb test "mdseac" then
    write_csr (addr MDEAU) (mdeau it) ;;;
    (e <- now ;;
    (if truthy (e "dut.mdseac_locked_f") then
       throw AttributeError (* self.dut.mdseac_locked_f *)
     else Ret tt) ;;;
    _ <- await (RisingEdge "clk") ;;
    drive "lsu_imprecise_error_addr_any" (lsu_imprecise_error_addr_any it) ;;;
    drive "lsu_imprecise_error_store_any" 1 ;;;
    _ <- await (RisingEdge "clk") ;;
    drive "lsu_imprecise_error_store_any" 0 ;;;
    _ <- await (RisingEdge "clk") ;;
    read_csr (csr_addr it) ;;;
    do_reset)
  else if str_in test ["csrs_access"; "mhpme"] then
    write_csr (csr_addr it) (dec_csr_wrdata_r it) ;;;
    read_csr (csr_addr it)
  else if String.eqb test "debug_csrs_access" then
    drive "dbg_halt_req" 1 ;;;
    clock_cycles "clk" 2 ;;;
    write_csr (csr_addr it) (dec_csr_wrdata_r it) ;;;
    read_csr (csr_addr it)
  else if String.eqb test "debug_ic_cache" then
    drive "ifu_ic_debug_rd_data_valid" 1 ;;;
    drive "ifu_ic_debug_rd_data" (i_ifu_ic_debug_rd_data it) ;;;
    (_ <- await (RisingEdge "clk") ;;
    drive "ifu_ic_debug_rd_data_valid" 0 ;;;
    drive "ifu_ic_debug_rd_data" 0 ;;;
    read_csr (addr DICAD0) ;;;
    read_csr (addr DICAD0H) ;;;
    read_csr (addr DICAD1))
  else Ret tt.
End Driver.

(** [run_phase]: the items of the sequence in turn. *)
Definition TlDriver_run_phase (test : string) (its : list TlInputItem) : proc TlInputItem unit :=
  for_each its (TlDriver_item test).

(** ** The monitors *)

Definition TlInputMonitor_run_phase (test : string) (_ : unit) : proc TlInputItem unit :=
  if String.eqb test "meihap" then
    _ <- await (RisingEdge "dec_csr_wen_r") ;;
    e <- await (RisingEdge "dec_csr_wen_r") ;;
    publish (item_meihap (e "pic_claimid") (e "dec_csr_wrdata_r"))
  else if String.eqb test "mtdata" then
    _ <- await (RisingEdge "dec_csr_wen_r") ;;
    e1 <- await (RisingEdge "clk") ;;
    _ <- await (RisingEdge "dec_csr_wen_r") ;;
    e2 <- await (RisingEdge "clk") ;;
    _ <- await (RisingEdge "dec_csr_wen_r") ;;
    e3 <- await (RisingEdge "clk") ;;
    publish (item_mtdata (e2 "dec_csr_wrdata_r") (e3 "dec_csr_wrdata_r") (e1 "dec_csr_wrdata_r"))
  else if String.eqb test "mdseac" then
    _ <- await (RisingEdge "lsu_imprecise_error_store_any") ;;
    e <- await (RisingEdge "clk") ;;
    publish (item_mdseac 0 (e "dec_csr_rdaddr_d") (e "lsu_imprecise_error_addr_any"))
  else if str_in test ["csrs_access"; "mhpme"] then
    _ <- await (RisingEdge "dec_csr_wen_r") ;;
    e <- await (RisingEdge "clk") ;;
    publish (item_csr (e "dec_csr_wraddr_r") (e "dec_csr_wrdata_r"))
  else if String.eqb test "debug_csrs_access" then
    clock_cycles "clk" 2 ;;;
    (_ <- await (RisingEdge "dec_csr_wen_r") ;;
    e <- await (RisingEdge "clk") ;;
    publish (item_csr (e "dec_csr_wraddr_r") (e "dec_csr_wrdata_r")))
  else if String.eqb test "debug_ic_cache" then
    _ <- await (RisingEdge "ifu_ic_debug_rd_data_valid") ;;
    e <- await (RisingEdge "clk") ;;
    publish (item_ic_cache (e "ifu_ic_debug_rd_data"))
  else Ret tt.

Definition TlOutputMonitor_run_phase (test : string) (_ : unit) : proc TlOutputItem unit :=
  if String.eqb test "meihap" then
    _ <- await (RisingEdge "dec_csr_wen_r") ;;
    _ <- await (RisingEdge "dec_csr_wen_r") ;;
    _ <- await (RisingEdge "clk") ;;
    e <- await (RisingEdge "clk") ;;
    publish (out_meihap (Z.shiftl (e "dec_tlu_meihap") 2))
  else if String.eqb test "mtdata" then
    _ <- await (RisingEdge "dec_csr_wen_r") ;;
    _ <- await (RisingEdge "dec_csr_wen_r") ;;
    _ <- await (RisingEdge "dec_csr_wen_r") ;;
    _ <- await (RisingEdge "clk") ;;
    e <- await (RisingEdge "clk") ;;
    publish (out_mtdata (get_from_dut e))
  else if String.eqb test "mdseac" then
    _ <- await (RisingEdge "lsu_imprecise_error_store_any") ;;
    clock_cycles "clk" 3 ;;;
    (e <- now ;; publish (out_csr (e "dec_csr_rddata_d")))
  else if str_in test ["csrs_access"; "mhpme"] then
    _ <- await (RisingEdge "dec_csr_wen_r") ;;
    _ <- await (RisingEdge "clk") ;;
    e <- await (RisingEdge "clk") ;;
    publish (out_csr (e "dec_csr_rddata_d"))
  else if String.eqb test "debug_csrs_access" then
    clock_cycles "clk" 2 ;;;
    (_ <- await (RisingEdge "dec_csr_wen_r") ;;
    _ <- await (RisingEdge "clk") ;;
    e <- await (RisingEdge "clk") ;;
    publish (out_csr (e "dec_csr_rddata_d")))
  else if String.eqb test "debug_ic_cache" then
    _ <- await (RisingEdge "ifu_ic_debug_rd_data_valid") ;;
    _ <- await (RisingEdge "clk") ;;
    e0 <- await (RisingEdge "clk") ;;
    e1 <- await (RisingEdge "clk") ;;
    e2 <- await (RisingEdge "clk") ;;
    publish (out_ic_cache
      (Z.lor (Z.lor (e0 "dec_csr_rddata_d") (Z.shiftl (e1 "dec_csr_rddata_d") 32))
             (Z.shiftl (e2 "dec_csr_rddata_d") 64)))
  else Ret tt.

(** ** The scoreboard *)

(** [if a != b: self.passed = False] *)
Definition compare (a b : Z) (passed : option bool) : option bool :=
  if negb (a =? b) then Some false else passed.

Definition check_meihap (item_inp : TlInputItem) (item_out : TlOutputItem)
    (passed : option bool) : option bool :=
  let sent_pic_claimid := pic_claimid item_inp in
  let sent_meivt := Z.shiftr (dec_csr_wrdata_r item_inp) 12 in
  let recv_pic_claimid := Z.land (Z.shiftr (dec_tlu_meihap item_out) 2) 0xFF in
  let recv_meivt := Z.shiftr (dec_tlu_meihap item_out) 12 in
  compare sent_meivt recv_meivt (compare sent_pic_claimid recv_pic_claimid passed).

Definition check_mtdata (item_inp : TlInputItem) (pkt : TriggerAnyPktT)
    (passed : option bool) : option bool :=
  let tdata2_mask := 0xFFFFFFFF in
  let sel := mtsel item_inp in
  let mtdata1_i := mtdata1 item_inp in
  let mtdata2_i := mtdata2 item_inp in
  let select_i := Z.land (Z.shiftr mtdata1_i 19) 1 in
  let match_i := Z.land (Z.shiftr mtdata1_i 7) 1 in
  let store_i := Z.land (Z.shiftr mtdata1_i 1) 1 in
  let load_i := Z.land (Z.land (Z.shiftr mtdata1_i 0) 1)
                  (Z.lnot (Z.land (Z.shiftr mtdata1_i 19) 1)) in
  let execute_i := Z.land (Z.land (Z.shiftr mtdata1_i 2) 1)
                     (Z.lnot (Z.land (Z.shiftr mtdata1_i 19) 1)) in
  let m_i := Z.land (Z.shiftr mtdata1_i 6) 1 in
  let select_o := Z.land (Z.shiftr (t_select pkt) sel) 1 in
  let match_o := Z.land (Z.shiftr (t_match pkt) sel) 1 in
  let store_o := Z.land (Z.shiftr (t_store pkt) sel) 1 in
  let load_o := Z.land (Z.shiftr (t_load pkt) sel) 1 in
  let execute_o := Z.land (Z.shiftr (t_execute pkt) sel) 1 in
  let m_o := Z.land (Z.shiftr (t_m pkt) sel) 1 in
  let mtdata2_o := Z.land (Z.shiftr (t_tdata2 pkt) (sel * 32)) tdata2_mask in
  compare m_i m_o (compare execute_i execute_o (compare load_i load_o
    (compare store_i store_o (compare match_i match_o (compare select_i select_o
      (compare mtdata2_i mtdata2_o passed)))))).

(** [[c for c in mhpme_lst if c == csr][0]] *)
Definition mhpme_lookup (csr : Z) : result CSR :=
  match List.filter (fun c => addr c =? csr) mhpme_lst with
  | c :: _ => Ok c
  | [] => Raise IndexError
  end.

(** The [if csr == csrs.DCSR ... elif ...] chain of "debug_csrs_access". *)
Definition debug_csr_expected (csr v : Z) : Z :=
  if csr =? addr DCSR then out DCSR v
  else if csr =? addr DPC then out DPC v
  else if csr =? addr DICAWICS then out DICAWICS v
  else v.

Definition check_item (test : string) (item_inp : TlInputItem) (item_out : TlOutputItem)
    (passed : option bool) : result (option bool) :=
  if String.eqb test "meihap" then Ok (check_meihap item_inp item_out passed)
  else if String.eqb test "mtdata" then
    match trigger_pkt_any item_out with
    | Some pkt => Ok (check_mtdata item_inp pkt passed)
    | None => Raise AttributeError
    end
  else if String.eqb test "mhpme" then
    let! c := mhpme_lookup (csr_addr item_inp) in
    Ok (compare (out c (dec_csr_wrdata_r item_inp)) (dec_csr_rddata_d item_out) passed)
  else if String.eqb test "mdseac" then
    Ok (compare (lsu_imprecise_error_addr_any item_inp) (dec_csr_rddata_d item_out) passed)
  else if String.eqb test "csrs_access" then
    Ok (compare (csr_expected (csr_addr item_inp) (dec_csr_wrdata_r item_inp))
                (dec_csr_rddata_d item_out) passed)
  else if String.eqb test "debug_csrs_access" then
    Ok (compare (debug_csr_expected (csr_addr item_inp) (dec_csr_wrdata_r item_inp))
                (dec_csr_rddata_d item_out) passed)
  else if String.eqb test "debug_ic_cache" then
    Ok (compare (i_ifu_ic_debug_rd_data item_inp) (ifu_ic_debug_rd_data item_out) passed)
  else Ok passed.

Definition TlScoreboard_verdict (test : string) (inp : list TlInputItem)
    (outp : list TlOutputItem) : result unit :=
  let! passed := check_pairs (check_item test) inp outp None in final_phase passed.

(** [BaseTest.run_phase], up to the sequence: the inputs that are driven to 0,
    the reset, and two cycles. *)
Definition reset_inputs : list string :=
  ["rst_vec"; "nmi_int"; "nmi_vec"; "i_cpu_halt_req"; "i_cpu_run_req";
   "lsu_fastint_stall_any"; "ifu_pmu_instr_aligned"; "ifu_pmu_fetch_stall";
   "ifu_pmu_ic_miss"; "ifu_pmu_ic_hit"; "ifu_pmu_bus_error"; "ifu_pmu_bus_busy";
   "ifu_pmu_bus_trxn"; "dec_pmu_instr_decoded"; "dec_pmu_decode_stall";
   "dec_pmu_presync_stall"; "dec_pmu_postsync_stall"; "lsu_store_stall_any";
   "dma_dccm_stall_any"; "dma_iccm_stall_any"; "exu_pmu_i0_br_misp";
   "exu_pmu_i0_br_ataken"; "exu_pmu_i0_pc4"; "lsu_pmu_bus_trxn"; "lsu_pmu_bus_misaligned";
   "lsu_pmu_bus_error"; "lsu_pmu_bus_busy"; "lsu_pmu_load_external_m";
   "lsu_pmu_store_external_m"; "dma_pmu_dccm_read"; "dma_pmu_dccm_write";
   "dma_pmu_any_read"; "dma_pmu_any_write"; "lsu_fir_addr"; "lsu_fir_error";
   "iccm_dma_sb_error"; "lsu_single_ecc_error_incr"; "dec_pause_state";
   "lsu_imprecise_error_store_any"; "lsu_imprecise_error_load_any";
   "lsu_imprecise_error_addr_any"; "dec_csr_wen_unq_d"; "dec_csr_any_unq_d";
   "dec_csr_rdaddr_d"; "dec_csr_wen_r"; "dec_csr_rdaddr_r"; "dec_csr_wraddr_r";
   "dec_csr_wrdata_r"; "dec_csr_stall_int_ff"; "dec_tlu_i0_valid_r"; "exu_npc_r";
   "dec_tlu_i0_pc_r"; "dec_illegal_inst"; "dec_i0_decode_d"; "exu_i0_br_hist_r";
   "exu_i0_br_error_r"; "exu_i0_br_start_error_r"; "exu_i0_br_valid_r"; "exu_i0_br_mp_r";
   "exu_i0_br_middle_r"; "exu_i0_br_way_r"; "dbg_halt_req"; "dbg_resume_req";
   "ifu_miss_state_idle"; "lsu_idle_any"; "dec_div_active"; "ifu_ic_error_start";
   "ifu_iccm_rd_ecc_single_err"; "ifu_ic_debug_rd_data"; "ifu_ic_debug_rd_data_valid";
   "pic_claimid"; "pic_pl"; "mhwakeup"; "mexintpend"; "timer_int"; "soft_int"; "core_id";
   "mpc_debug_halt_req"; "mpc_debug_run_req"; "mpc_reset_run_req"].

Definition BaseTest_reset {I} : proc I unit :=
  for_each reset_inputs (fun s => drive s 0) ;;;
  do_reset ;;;
  clock_cycles "clk" 2.

(** ** The bench in closed loop with a file of registers *)

(** [rd a v] is what reading register [a] yields after [v] was written to it,
    [hap] the interrupt handler address made of the last words written to
    [MEIVT] and of the claim id captured when [MEICPCT] is written: the unit
    under test is arbitrary in both. *)
Record tlu := { regs : Z -> Z; claim : Z }.

Definition tlu_step (u : tlu) (e : env) : tlu :=
  if truthy (e "dec_csr_wen_r") then
    {| regs := fun a => if a =? e "dec_csr_wraddr_r" then e "dec_csr_wrdata_r" else regs u a;
       claim := if e "dec_csr_wraddr_r" =? addr MEICPCT then e "pic_claimid" else claim u |}
  else u.

Definition tlu_outs (rd hap : Z -> Z -> Z) (u : tlu) (e : env) : env :=
  upd "dec_csr_rddata_d" (rd (e "dec_csr_rdaddr_d") (regs u (e "dec_csr_rdaddr_d")))
    (upd "dec_tlu_meihap" (hap (regs u (addr MEIVT)) (claim u)) e).


(** Decide the comparisons of the name of the test. *)
Ltac pick_test := cbv [String.eqb Ascii.eqb Bool.eqb str_in existsb orb].

Section Bench.
Variables rd hap : Z -> Z -> Z.

(** One rising edge of the clock ends each cycle; the write enable is watched. *)
Abbreviation runs := (closes (I := TlInputItem) "clk" ["dec_csr_wen_r"] tlu_step (tlu_outs rd hap)).

Lemma outs_wire u c s :
  s <> "dec_csr_rddata_d" -> s <> "dec_tlu_meihap" -> tlu_outs rd hap u c s = c s.
Proof. intros. unfold tlu_outs. by rewrite !upd_ne. Qed.

Lemma outs_rddata u c :
  tlu_outs rd hap u c "dec_csr_rddata_d" = rd (c "dec_csr_rdaddr_d") (regs u (c "dec_csr_rdaddr_d")).
Proof. unfold tlu_outs. by rewrite upd_eq. Qed.

Lemma outs_meihap u c : tlu_outs rd hap u c "dec_tlu_meihap" = hap (regs u (addr MEIVT)) (claim u).
Proof. unfold tlu_outs. by rewrite upd_ne, upd_eq. Qed.

Lemma step_idle u e : e "dec_csr_wen_r" = 0 -> tlu_step u e = u.
Proof. intros H. unfold tlu_step. by rewrite H. Qed.


(** [write_csr]: a cycle with the enable low, then the cycle of the write. *)
Lemma write_csr_runs a v b c u :
  exists e1 e2 u',
    runs (write_csr a v) (World b c u)
      [Sample (RisingEdge "clk") e1; Sample (RisingEdge "dec_csr_wen_r") e2;
       Sample (RisingEdge "clk") e2] tt
      (World e2 (upd "dec_csr_wen_r" 0 e2) u')
    /\ e2 "dec_csr_wraddr_r" = a /\ e2 "dec_csr_wrdata_r" = v
    /\ regs u' = (fun x => if x =? a then v else regs u x)
    /\ (a <> addr MEICPCT -> claim u' = claim u).
Proof.
  set (e1 := tlu_outs rd hap u (upd "dec_csr_wen_r" 0 c)).
  set (e2 := tlu_outs rd hap u (upd "dec_csr_wrdata_r" v (upd "dec_csr_wraddr_r" a
               (upd "dec_csr_wen_r" 1 e1)))).
  assert (H1 : e1 "dec_csr_wen_r" = 0) by (unfold e1; rewrite outs_wire by done; by env_simpl).
  assert (H2 : e2 "dec_csr_wen_r" = 1) by (unfold e2; rewrite outs_wire by done; by env_simpl).
  assert (Ha : e2 "dec_csr_wraddr_r" = a) by (unfold e2; rewrite outs_wire by done; by env_simpl).
  assert (Hv : e2 "dec_csr_wrdata_r" = v) by (unfold e2; rewrite outs_wire by done; by env_simpl).
  exists e1, e2, (tlu_step u e2). split; [|split; [done|split; [done|]]].
  - apply closes_drive, closes_clk; [done|by rewrite H1|]. rewrite (step_idle u e1 H1).
    do 3 apply closes_drive. apply closes_rise; [done|by rewrite H1|by rewrite H2|].
    apply closes_drive, closes_ret.
  - unfold tlu_step. rewrite H2, Ha, Hv. split; [done|]. intros H.
    cbn [truthy negb Z.eqb claim]. by rewrite (proj2 (Z.eqb_neq _ _) H).
Qed.

Lemma read_csr_runs a b c u :
  c "dec_csr_wen_r" = 0 ->
  exists e, runs (read_csr a) (World b c u) [Sample (RisingEdge "clk") e] tt (World e e u)
    /\ e "dec_csr_rddata_d" = rd a (regs u a) /\ e "dec_csr_wen_r" = 0.
Proof.
  intros Hw. set (e := tlu_outs rd hap u (upd "dec_csr_rdaddr_d" a c)).
  assert (H : e "dec_csr_wen_r" = 0) by (unfold e; rewrite outs_wire by done; by env_simpl).
  exists e. split; [|split; [unfold e; rewrite outs_rddata; by env_simpl|done]].
  apply closes_drive, closes_clk; [done|by rewrite H|]. rewrite (step_idle u e H). apply closes_ret.
Qed.

Lemma csr_access_runs it b c u :
  exists e1 e2 e3 w',
    runs (TlDriver_item "csrs_access" it) (World b c u)
      [Sample (RisingEdge "clk") e1; Sample (RisingEdge "dec_csr_wen_r") e2;
       Sample (RisingEdge "clk") e2; Sample (RisingEdge "clk") e3] tt w'
    /\ e2 "dec_csr_wraddr_r" = csr_addr it /\ e2 "dec_csr_wrdata_r" = dec_csr_wrdata_r it
    /\ e3 "dec_csr_rddata_d" = rd (csr_addr it) (dec_csr_wrdata_r it).
Proof.
  destruct (write_csr_runs (csr_addr it) (dec_csr_wrdata_r it) b c u)
    as (e1 & e2 & u' & Hw & Ha & Hv & Hr & _).
  destruct (read_csr_runs (csr_addr it) e2 (upd "dec_csr_wen_r" 0 e2) u') as (e3 & Hrd & Hd & _);
    [by rewrite upd_eq|].
  exists e1, e2, e3, (World e3 e3 u'). split; [|split; [done|split; [done|]]].
  - eapply closes_seq; [exact Hw|exact Hrd|done].
  - by rewrite Hd, Hr, Z.eqb_refl.
Qed.



(** The trace of the driver's run over the items of a sequence. *)
Definition tlu_trace (test : string) (its : list TlInputItem) (w : world) : list sample :=
  (closed (I := TlInputItem) "clk" ["dec_csr_wen_r"] tlu_step (tlu_outs rd hap)
     (TlDriver_run_phase test its) w).1.

(** The bench on the trace of a run: what the two monitors publish, checked. *)
Definition bench_verdict (test : string) (its : list TlInputItem) (w : world (St := tlu))
    (cur : env) : result unit :=
  let tr := tlu_trace test its w in
  TlScoreboard_verdict test
    (monitor_items (TlInputMonitor_run_phase test) tt cur tr)
    (monitor_items (TlOutputMonitor_run_phase test) tt cur tr).

(** What one item makes the driver, the unit and the monitors do. *)
Definition item_segment (test : string) (it : TlInputItem) (i : TlInputItem) (o : TlOutputItem)
    (w : world) : Prop :=
  exists tr w', runs (TlDriver_item test it) w tr tt w'
    /\ publishes (TlInputMonitor_run_phase test) tr i
    /\ publishes (TlOutputMonitor_run_phase test) tr o.

Lemma bench_items test its (seen_in : TlInputItem -> TlInputItem)
    (seen_out : TlInputItem -> TlOutputItem) w cur t1 t2 :
  starts_await t1 (TlInputMonitor_run_phase test) ->
  starts_await t2 (TlOutputMonitor_run_phase test) ->
  (forall it w, it ∈ its -> item_segment test it (seen_in it) (seen_out it) w) ->
  monitor_items (TlInputMonitor_run_phase test) tt cur (tlu_trace test its w)
    = seen_in <$> its
  /\ monitor_items (TlOutputMonitor_run_phase test) tt cur (tlu_trace test its w)
    = seen_out <$> its.
Proof.
  intros H1 H2 Hseg. unfold tlu_trace, TlDriver_run_phase.
  split; (eapply monitor_segments with (inv := fun _ => True); [eassumption|done|]);
    intros it w' Hit _; destruct (Hseg it w' Hit) as (tr & w'' & Hr & Hi & Ho);
    by exists tr, w''.
Qed.

Lemma csrs_access_segment it w :
  item_segment "csrs_access" it (item_csr (csr_addr it) (dec_csr_wrdata_r it))
    (out_csr (rd (csr_addr it) (dec_csr_wrdata_r it))) w.
Proof.
  destruct w as [b c u].
  destruct (csr_access_runs it b c u) as (e1 & e2 & e3 & w' & Hr & <- & <- & <-).
  eexists _, w'. split; [exact Hr|]. split.
  - apply (publishes_run _ (RisingEdge "dec_csr_wen_r")) with (left := [Sample (RisingEdge "clk") e3]);
      [by eexists| |by repeat constructor].
    intros cur rest. exists e2. unfold TlInputMonitor_run_phase. pick_test. run_segment. reflexivity.
  - apply (publishes_run _ (RisingEdge "dec_csr_wen_r")) with (left := []);
      [by eexists| |by repeat constructor].
    intros cur rest. exists e3. unfold TlOutputMonitor_run_phase. pick_test. run_segment. reflexivity.
Qed.




Lemma meihap_runs it b c u :
  exists e1 e2 e3 e4 e5 e6 w',
    runs (TlDriver_item "meihap" it) (World b c u)
      [Sample (RisingEdge "clk") e1; Sample (RisingEdge "dec_csr_wen_r") e2;
       Sample (RisingEdge "clk") e2; Sample (RisingEdge "clk") e3;
       Sample (RisingEdge "dec_csr_wen_r") e4; Sample (RisingEdge "clk") e4;
       Sample (RisingEdge "clk") e5; Sample (RisingEdge "clk") e6] tt w'
    /\ e4 "pic_claimid" = pic_claimid it /\ e4 "dec_csr_wrdata_r" = dec_csr_wrdata_r it
    /\ e5 "dec_tlu_meihap" = hap (dec_csr_wrdata_r it) (pic_claimid it).
Proof.
  destruct (write_csr_runs (addr MEIVT) (dec_csr_wrdata_r it) b c u)
    as (e1 & e2 & u' & Hw & Ha & Hv & Hr & _).
  set (e3 := tlu_outs rd hap u' (upd "dec_csr_wen_r" 0 e2)).
  set (e4 := tlu_outs rd hap u' (upd "dec_csr_wraddr_r" (addr MEICPCT) (upd "dec_csr_wen_r" 1
               (upd "pic_claimid" (pic_claimid it) e3)))).
  set (u4 := tlu_step u' e4).
  set (e5 := tlu_outs rd hap u4 (upd "dec_csr_wen_r" 0 e4)).
  set (e6 := tlu_outs rd hap u4 e5).
  assert (H3 : e3 "dec_csr_wen_r" = 0) by (unfold e3; rewrite outs_wire by done; by env_simpl).
  assert (H4 : e4 "dec_csr_wen_r" = 1) by (unfold e4; rewrite outs_wire by done; by env_simpl).
  assert (H5 : e5 "dec_csr_wen_r" = 0) by (unfold e5; rewrite outs_wire by done; by env_simpl).
  assert (H6 : e6 "dec_csr_wen_r" = 0) by (unfold e6; rewrite outs_wire by done; by env_simpl).
  assert (Hc : e4 "pic_claimid" = pic_claimid it)
    by (unfold e4; rewrite outs_wire by done; by env_simpl).
  assert (Hd : e4 "dec_csr_wrdata_r" = dec_csr_wrdata_r it).
  { unfold e4. rewrite outs_wire by done. env_simpl. unfold e3. rewrite outs_wire by done.
    by env_simpl. }
  assert (Hwa : e4 "dec_csr_wraddr_r" = addr MEICPCT)
    by (unfold e4; rewrite outs_wire by done; by env_simpl).
  exists e1, e2, e3, e4, e5, e6, (World e6 e6 u4).
  split; [|split; [done|split; [done|]]].
  - eapply closes_seq; [exact Hw| |cbn [app]; reflexivity].
    apply closes_clk; [done|by rewrite H3|]. rewrite (step_idle u' e3 H3).
    do 3 apply closes_drive. apply closes_rise; [done|by rewrite H3|by rewrite H4|].
    apply closes_drive. fold u4. apply closes_clk; [done|by rewrite H5|].
    rewrite (step_idle u4 e5 H5). apply closes_clk; [done|by rewrite H6|].
    rewrite (step_idle u4 e6 H6). apply closes_ret.
  - unfold e5. rewrite outs_meihap. unfold u4, tlu_step. rewrite H4, Hwa, Hc, Hd, Hr. done.
Qed.

Lemma meihap_segment it w :
  item_segment "meihap" it (item_meihap (pic_claimid it) (dec_csr_wrdata_r it))
    (out_meihap (Z.shiftl (hap (dec_csr_wrdata_r it) (pic_claimid it)) 2)) w.
Proof.
  destruct w as [b c u].
  destruct (meihap_runs it b c u)
    as (e1 & e2 & e3 & e4 & e5 & e6 & w' & Hr & <- & <- & <-).
  eexists _, w'. split; [exact Hr|]. split.
  - apply (publishes_run _ (RisingEdge "dec_csr_wen_r"))
      with (left := [Sample (RisingEdge "clk") e4; Sample (RisingEdge "clk") e5;
                     Sample (RisingEdge "clk") e6]); [by eexists| |by repeat constructor].
    intros cur rest. exists e4. unfold TlInputMonitor_run_phase. pick_test. run_segment. reflexivity.
  - apply (publishes_run _ (RisingEdge "dec_csr_wen_r"))
      with (left := [Sample (RisingEdge "clk") e6]); [by eexists| |by repeat constructor].
    intros cur rest. exists e5. unfold TlOutputMonitor_run_phase. pick_test. run_segment. reflexivity.
Qed.
End Bench.

(** ** What the scoreboard checks *)

Lemma compare_some a b p : compare a b (Some p) = Some (p && bool_decide (a = b)).
Proof.
  unfold compare. destruct (Z.eqb_spec a b); case_bool_decide; try done; by destruct p.
Qed.

#[export] Instance csrs_access_spec :
  PairSpec (check_item "csrs_access") (fun _ => True)
    (fun i o => csr_expected (csr_addr i) (dec_csr_wrdata_r i) = dec_csr_rddata_d o).
Proof.
  refine {| pair_matches_dec := fun i o => decide (_ = _) |}.
  intros i o b _. unfold check_item. pick_test. by rewrite compare_some.
Qed.

#[export] Instance meihap_spec :
  PairSpec (check_item "meihap") (fun _ => True)
    (fun i o => pic_claimid i = Z.land (Z.shiftr (dec_tlu_meihap o) 2) 0xFF
                /\ Z.shiftr (dec_csr_wrdata_r i) 12 = Z.shiftr (dec_tlu_meihap o) 12).
Proof.
  refine {| pair_matches_dec := fun i o => decide (_ /\ _) |}.
  intros i o b _. unfold check_item, check_meihap. pick_test. rewrite !compare_some.
  by rewrite <- andb_assoc, <- bool_decide_and.
Qed.

Lemma mhpme_lookup_in csr : csr ∈ (addr <$> mhpme_lst) ->
  exists c, mhpme_lookup csr = Ok c /\ addr c = csr /\ out c = mhpme_out.
Proof.
  unfold mhpme_lst. cbn [fmap list_fmap]. rewrite !elem_of_cons, elem_of_nil.
  intros [->|[->|[->|[->|[]]]]]; eexists; done.
Qed.

#[export] Instance mhpme_spec :
  PairSpec (check_item "mhpme") (fun i => csr_addr i ∈ (addr <$> mhpme_lst))
    (fun i o => mhpme_out (dec_csr_wrdata_r i) = dec_csr_rddata_d o).
Proof.
  refine {| pair_matches_dec := fun i o => decide (_ = _) |}.
  intros i o b Hi. unfold check_item. pick_test.
  destruct (mhpme_lookup_in _ Hi) as (c & -> & _ & Hc). cbn [rbind].
  by rewrite Hc, compare_some.
Qed.

(** The trigger packet shows the fields of the written words for the selected
    trigger. *)
Definition pkt_shows (i : TlInputItem) (pkt : TriggerAnyPktT) : Prop :=
  let bit n := Z.testbit (mtdata1 i) n in
  let sel b := Z.testbit b (mtsel i) in
  mtdata2 i = Z.shiftr (t_tdata2 pkt) (mtsel i * 32) mod 2 ^ 32
  /\ sel (t_select pkt) = bit 19 /\ sel (t_match pkt) = bit 7 /\ sel (t_store pkt) = bit 1
  /\ sel (t_load pkt) = (bit 0 && negb (bit 19))
  /\ sel (t_execute pkt) = (bit 2 && negb (bit 19)) /\ sel (t_m pkt) = bit 6.

#[export] Instance pkt_shows_dec i pkt : Decision (pkt_shows i pkt).
Proof. unfold pkt_shows. apply _. Defined.

Lemma b2z_land_lnot a b : Z.land (Z.b2z a) (Z.lnot (Z.b2z b)) = Z.b2z (a && negb b).
Proof. by destruct a, b. Qed.

Lemma b2z_decide a b : bool_decide (Z.b2z a = Z.b2z b) = bool_decide (b = a).
Proof. by destruct a, b. Qed.

Lemma check_mtdata_spec i pkt b :
  0 <= mtsel i -> check_mtdata i pkt (Some b) = Some (b && bool_decide (pkt_shows i pkt)).
Proof.
  intros Hs. unfold check_mtdata. rewrite !bit_of, land_mask32, !b2z_land_lnot, !compare_some by lia.
  rewrite !b2z_decide. unfold pkt_shows. f_equal.
  by rewrite <- !andb_assoc, <- !bool_decide_and.
Qed.

(** The test compares an output item without a packet with an exception. *)
#[export] Instance mtdata_spec :
  PairSpec (fun i o => check_item "mtdata" i (out_mtdata o)) (fun i => 0 <= mtsel i) pkt_shows.
Proof.
  refine {| pair_matches_dec := pkt_shows_dec |}.
  intros i o b Hi. unfold check_item. pick_test. cbn [trigger_pkt_any out_mtdata].
  by rewrite check_mtdata_spec.
Qed.

Lemma meihap_low h : Z.shiftr (Z.shiftl h 2) 2 = h.
Proof. bits_ext. Qed.

Lemma meihap_high h : Z.shiftr (Z.shiftl h 2) 12 = Z.shiftr h 10.
Proof. bits_ext. Qed.

(** ** The bench accepts exactly the right units *)

(** C8: the bench for register accesses, end to end.  Whatever the unit reads
    back from a register after a word was written to it ([rd]), and whatever the
    driver sends, the two monitors see each item once and in order, and the test
    passes exactly when at least one item was sent and every register reads back
    the word that the table of registers expects. *)
Theorem tlu_csrs_access_sound_complete :
  forall rd hap its w cur,
    (bench_verdict rd hap "csrs_access" its w cur = Ok tt
     <-> its <> [] /\ Forall (fun it =>
           rd (csr_addr it) (dec_csr_wrdata_r it)
           = csr_expected (csr_addr it) (dec_csr_wrdata_r it)) its).
Proof.
  intros rd hap its w cur. unfold bench_verdict, TlScoreboard_verdict.
  destruct (bench_items rd hap "csrs_access" its
    (fun it => item_csr (csr_addr it) (dec_csr_wrdata_r it))
    (fun it => out_csr (rd (csr_addr it) (dec_csr_wrdata_r it))) w cur
    (RisingEdge "dec_csr_wen_r") (RisingEdge "dec_csr_wen_r")) as [-> ->]; [by eexists..| |].
  - intros it w' _. apply csrs_access_segment.
  - rewrite check_pairs_seen by (by apply Forall_true). apply and_iff_compat_l.
    apply Forall_proper; [|done]. intros it. cbn. split; congruence.
Qed.

(** The interrupt handler bench, end to end, with a unit that forms the
    handler address [hap d c] from the word [d] written to MEIVT and the claim id
    [c].  The test passes exactly when the low eight bits of the address are the
    claim id and the bits from 10 up are bits 31:12 of the word.  Bits 11:10 of
    the word are not looked at: a unit that loses them passes with every
    sequence of items that [randomize] generates. *)
Theorem tlu_meihap_sound_complete :
  forall its w cur,
    (forall rd hap,
      bench_verdict rd hap "meihap" its w cur = Ok tt
      <-> its <> [] /\ Forall (fun it =>
            let h := hap (dec_csr_wrdata_r it) (pic_claimid it) in
            pic_claimid it = h mod 2 ^ 8
            /\ Z.shiftr (dec_csr_wrdata_r it) 12 = Z.shiftr h 10) its)
    /\ (forall rd, its <> [] -> Forall (fun it => 0 <= pic_claimid it < 2 ^ 8) its ->
        bench_verdict rd (fun d c => Z.lor c (Z.shiftl (Z.shiftr d 12) 10)) "meihap" its w cur
        = Ok tt).
Proof.
  intros its w cur.
  assert (H : forall rd hap,
      bench_verdict rd hap "meihap" its w cur = Ok tt
      <-> its <> [] /\ Forall (fun it =>
            let h := hap (dec_csr_wrdata_r it) (pic_claimid it) in
            pic_claimid it = h mod 2 ^ 8
            /\ Z.shiftr (dec_csr_wrdata_r it) 12 = Z.shiftr h 10) its).
  { intros rd hap. unfold bench_verdict, TlScoreboard_verdict.
    destruct (bench_items rd hap "meihap" its
      (fun it => item_meihap (pic_claimid it) (dec_csr_wrdata_r it))
      (fun it => out_meihap (Z.shiftl (hap (dec_csr_wrdata_r it) (pic_claimid it)) 2)) w cur
      (RisingEdge "dec_csr_wen_r") (RisingEdge "dec_csr_wen_r")) as [-> ->]; [by eexists..| |].
    - intros it w' _. apply meihap_segment.
    - rewrite check_pairs_seen by (by apply Forall_true). apply and_iff_compat_l.
      apply Forall_proper; [|done]. intros it.
      cbn [pic_claimid dec_csr_wrdata_r dec_tlu_meihap item_meihap out_meihap].
      by rewrite land_mask8, meihap_low, meihap_high. }
  split; [exact H|]. intros rd Hne Hc. rewrite H. split; [done|].
  eapply Forall_impl; [exact Hc|]. intros it Hi. cbv beta in Hi. cbn zeta. split; bits_ext.
Qed.

Lemma tlu_meihap_sound_complete_witness :
  let rs := [fun n => Z.of_nat n; fun n => Z.of_nat (n / 2)] in
  exists its, TlSequence_body "meihap" rs = Ok its
  /\ bench_verdict (fun _ v => v) (fun d c => Z.lor c (Z.shiftl (Z.shiftr d 12) 10)) "meihap" its
      (World (fun _ => 0) (fun _ => 0) {| regs := fun _ => 0; claim := 0 |}) (fun _ => 0) = Ok tt.
Proof.
  eexists. split; [vm_compute; reflexivity|].
  apply tlu_meihap_sound_complete; [discriminate|]. repeat constructor; simpl; lia.
Defined.

(** *** The instruction cache debug port *)

(** The unit latches the word of the cache and shows it through three
    registers: [rd a v] is what register [a] reads when [v] was latched. *)
Section IcCache.
Variable rd : Z -> Z -> Z.

Definition ic_step (v : Z) (e : env) : Z :=
  if truthy (e "ifu_ic_debug_rd_data_valid") then e "ifu_ic_debug_rd_data" else v.

Definition ic_outs (v : Z) (e : env) : env :=
  upd "dec_csr_rddata_d" (rd (e "dec_csr_rdaddr_d") v) e.

Abbreviation ic_runs :=
  (closes (I := TlInputItem) "clk" ["ifu_ic_debug_rd_data_valid"] ic_step ic_outs).

Lemma ic_outs_wire v c s : s <> "dec_csr_rddata_d" -> ic_outs v c s = c s.
Proof. intros H. unfold ic_outs. by rewrite upd_ne. Qed.

Lemma ic_outs_rddata v c : ic_outs v c "dec_csr_rddata_d" = rd (c "dec_csr_rdaddr_d") v.
Proof. unfold ic_outs. by rewrite upd_eq. Qed.

(** Outside of a read of the cache the valid signal is low. *)
Definition ic_idle (w : world (St := Z)) : Prop := before w "ifu_ic_debug_rd_data_valid" = 0.

Lemma ic_read_csr_runs a b c v :
  c "ifu_ic_debug_rd_data_valid" = 0 ->
  exists e, ic_runs (read_csr a) (World b c v) [Sample (RisingEdge "clk") e] tt (World e e v)
    /\ e "ifu_ic_debug_rd_data_valid" = 0 /\ e "dec_csr_rddata_d" = rd a v.
Proof.
  intros Hw. set (e := ic_outs v (upd "dec_csr_rdaddr_d" a c)).
  assert (H : e "ifu_ic_debug_rd_data_valid" = 0)
    by (unfold e; rewrite ic_outs_wire by done; by env_simpl).
  exists e. split; [|split; [done|unfold e; rewrite ic_outs_rddata; by env_simpl]].
  apply closes_drive, closes_clk; [done|by rewrite H|].
  assert (ic_step v e = v) as -> by (unfold ic_step; by rewrite H). apply closes_ret.
Qed.

Lemma ic_cache_runs it w :
  ic_idle w ->
  exists e0 e1 e2 e3 w',
    ic_runs (TlDriver_item "debug_ic_cache" it) w
      [Sample (RisingEdge "ifu_ic_debug_rd_data_valid") e0; Sample (RisingEdge "clk") e0;
       Sample (RisingEdge "clk") e1; Sample (RisingEdge "clk") e2; Sample (RisingEdge "clk") e3]
      tt w'
    /\ ic_idle w'
    /\ let v := i_ifu_ic_debug_rd_data it in
       e0 "ifu_ic_debug_rd_data" = v /\ e1 "dec_csr_rddata_d" = rd (addr DICAD0) v
       /\ e2 "dec_csr_rddata_d" = rd (addr DICAD0H) v
       /\ e3 "dec_csr_rddata_d" = rd (addr DICAD1) v.
Proof.
  destruct w as [b c v0]. unfold ic_idle. cbn [before]. intros Hb.
  set (v := i_ifu_ic_debug_rd_data it).
  set (e0 := ic_outs v0 (upd "ifu_ic_debug_rd_data" v (upd "ifu_ic_debug_rd_data_valid" 1 c))).
  assert (H0 : e0 "ifu_ic_debug_rd_data_valid" = 1)
    by (unfold e0; rewrite ic_outs_wire by done; by env_simpl).
  assert (Hv : e0 "ifu_ic_debug_rd_data" = v)
    by (unfold e0; rewrite ic_outs_wire by done; by env_simpl).
  destruct (ic_read_csr_runs (addr DICAD0) e0
    (upd "ifu_ic_debug_rd_data" 0 (upd "ifu_ic_debug_rd_data_valid" 0 e0)) v)
    as (e1 & R1 & V1 & D1); [by env_simpl|].
  destruct (ic_read_csr_runs (addr DICAD0H) e1 e1 v V1) as (e2 & R2 & V2 & D2).
  destruct (ic_read_csr_runs (addr DICAD1) e2 e2 v V2) as (e3 & R3 & V3 & D3).
  exists e0, e1, e2, e3, (World e3 e3 v). split; [|by repeat split].
  do 2 apply closes_drive. apply closes_rise; [done|by rewrite Hb|by rewrite H0|].
  assert (ic_step v0 e0 = v) as -> by (unfold ic_step; by rewrite H0).
  do 2 apply closes_drive.
  eapply closes_seq; [exact R1| |done]. eapply closes_seq; [exact R2|exact R3|done].
Qed.

Definition ic_bench_verdict (its : list TlInputItem) (w : world (St := Z)) (cur : env)
  : result unit :=
  let tr := (closed (I := TlInputItem) "clk" ["ifu_ic_debug_rd_data_valid"] ic_step ic_outs
               (TlDriver_run_phase "debug_ic_cache" its) w).1 in
  TlScoreboard_verdict "debug_ic_cache"
    (monitor_items (TlInputMonitor_run_phase "debug_ic_cache") tt cur tr)
    (monitor_items (TlOutputMonitor_run_phase "debug_ic_cache") tt cur tr).

(** The word put together from the three registers. *)
Definition ic_word (v : Z) : Z :=
  Z.lor (Z.lor (rd (addr DICAD0) v) (Z.shiftl (rd (addr DICAD0H) v) 32))
        (Z.shiftl (rd (addr DICAD1) v) 64).

Lemma ic_cache_publishes it w :
  ic_idle w -> exists tr w',
    ic_runs (TlDriver_item "debug_ic_cache" it) w tr tt w' /\ ic_idle w'
    /\ publishes (TlInputMonitor_run_phase "debug_ic_cache") tr
         (item_ic_cache (i_ifu_ic_debug_rd_data it))
    /\ publishes (TlOutputMonitor_run_phase "debug_ic_cache") tr
         (out_ic_cache (ic_word (i_ifu_ic_debug_rd_data it))).
Proof.
  intros Hw. destruct (ic_cache_runs it w Hw) as (e0 & e1 & e2 & e3 & w' & Hr & Hw' & Hv & D1 & D2 & D3).
  eexists _, w'. split; [exact Hr|]. split; [done|]. unfold ic_word. split.
  - rewrite <- Hv. apply (publishes_run _ (RisingEdge "ifu_ic_debug_rd_data_valid"))
      with (left := [Sample (RisingEdge "clk") e1; Sample (RisingEdge "clk") e2;
                     Sample (RisingEdge "clk") e3]); [by eexists| |by repeat constructor].
    intros cur rest. exists e0. unfold TlInputMonitor_run_phase. pick_test. run_segment. reflexivity.
  - rewrite <- D1, <- D2, <- D3.
    apply (publishes_run _ (RisingEdge "ifu_ic_debug_rd_data_valid")) with (left := []);
      [by eexists| |by repeat constructor].
    intros cur rest. exists e3. unfold TlOutputMonitor_run_phase. pick_test. run_segment. reflexivity.
Qed.
End IcCache.

#[export] Instance ic_cache_spec :
  PairSpec (check_item "debug_ic_cache") (fun _ => True)
    (fun i o => i_ifu_ic_debug_rd_data i = ifu_ic_debug_rd_data o).
Proof.
  refine {| pair_matches_dec := fun i o => decide (_ = _) |}.
  intros i o b _. unfold check_item. pick_test. by rewrite compare_some.
Qed.

Lemma ic_bench_iff rd its w cur :
  ic_idle w ->
  (ic_bench_verdict rd its w cur = Ok tt
   <-> its <> [] /\ Forall (fun it => i_ifu_ic_debug_rd_data it
                              = ic_word rd (i_ifu_ic_debug_rd_data it)) its).
Proof.
  intros Hw. unfold ic_bench_verdict, TlScoreboard_verdict, TlDriver_run_phase.
  rewrite (monitor_segments (TlInputMonitor_run_phase "debug_ic_cache")
    (RisingEdge "ifu_ic_debug_rd_data_valid")) with (inv := ic_idle)
    (seen := fun it => item_ic_cache (i_ifu_ic_debug_rd_data it)); [|by eexists|done|].
  - rewrite (monitor_segments (TlOutputMonitor_run_phase "debug_ic_cache")
      (RisingEdge "ifu_ic_debug_rd_data_valid")) with (inv := ic_idle)
      (seen := fun it => out_ic_cache (ic_word rd (i_ifu_ic_debug_rd_data it)));
      [|by eexists|done|].
    + rewrite check_pairs_seen by (by apply Forall_true). done.
    + intros it v _ Hv. destruct (ic_cache_publishes rd it v Hv) as (tr & w' & ? & ? & ? & ?).
      by exists tr, w'.
  - intros it v _ Hv. destruct (ic_cache_publishes rd it v Hv) as (tr & w' & ? & ? & ? & ?).
    by exists tr, w'.
Qed.

Lemma ic_word_slices rd v :
  0 <= rd (addr DICAD0) v < 2 ^ 32 -> 0 <= rd (addr DICAD0H) v < 2 ^ 32 ->
  (v = ic_word rd v
   <-> rd (addr DICAD0) v = v mod 2 ^ 32 /\ rd (addr DICAD0H) v = Z.shiftr v 32 mod 2 ^ 32
       /\ rd (addr DICAD1) v = Z.shiftr v 64).
Proof.
  unfold ic_word. generalize (rd (addr DICAD0) v) (rd (addr DICAD0H) v) (rd (addr DICAD1) v).
  intros x y z Hx Hy. rewrite (lor_low_high x y 32) by lia.
  rewrite (lor_low_high _ z 64) by lia. rewrite !Z.shiftr_div_pow2 by lia.
  change (2 ^ 64) with (2 ^ 32 * 2 ^ 32). rewrite <- Z.div_div by lia.
  change (2 ^ 32) with 4294967296 in *. split.
  - intros ->. 
    replace (x + y * 4294967296 + z * (4294967296 * 4294967296))
      with (x + (y + z * 4294967296) * 4294967296) by ring.
    rewrite Z.mod_add, Z.div_add, (Z.div_small x), (Z.mod_small x) by lia.
    rewrite Z.add_0_l, Z.mod_add, Z.div_add, (Z.div_small y), (Z.mod_small y) by lia. lia.
  - intros (-> & -> & ->). pose proof (Z.div_mod v 4294967296).
    pose proof (Z.div_mod (v / 4294967296) 4294967296). lia.
Qed.

(** The bench of the cache debug port, end to end, with a unit whose three
    registers show words of 32, 32 and any number of bits: the test passes
    exactly when DICAD0, DICAD0H and DICAD1 show the bits 31:0, 63:32 and those
    from 64 up of every word that the cache delivers. *)
Theorem tlu_ic_cache_sound_complete rd its w cur :
  ic_idle w ->
  (forall v, 0 <= rd (addr DICAD0) v < 2 ^ 32 /\ 0 <= rd (addr DICAD0H) v < 2 ^ 32) ->
  (ic_bench_verdict rd its w cur = Ok tt
   <-> its <> [] /\ Forall (fun it =>
         let v := i_ifu_ic_debug_rd_data it in
         rd (addr DICAD0) v = v mod 2 ^ 32
         /\ rd (addr DICAD0H) v = Z.shiftr v 32 mod 2 ^ 32
         /\ rd (addr DICAD1) v = Z.shiftr v 64) its).
Proof.
  intros Hw Hrd. rewrite (ic_bench_iff rd its w cur Hw). apply and_iff_compat_l.
  apply Forall_proper; [|done]. intros it. cbn zeta. destruct (Hrd (i_ifu_ic_debug_rd_data it)).
  apply ic_word_slices; done.
Qed.

Lemma tlu_ic_cache_sound_complete_witness :
  let rd := fun a v => if a =? addr DICAD0 then v mod 2 ^ 32
                       else if a =? addr DICAD0H then Z.shiftr v 32 mod 2 ^ 32
                       else Z.shiftr v 64 in
  exists its, TlSequence_body "debug_ic_cache" [fun n => Z.of_nat (n / 3)] = Ok its
  /\ ic_bench_verdict rd its (World (fun _ => 0) (fun _ => 0) 0) (fun _ => 0) = Ok tt.
Proof.
  eexists. split; [vm_compute; reflexivity|]. apply tlu_ic_cache_sound_complete.
  - reflexivity.
  - intros v. split; [|rewrite (proj2 (Z.eqb_neq _ _)) by discriminate];
      rewrite Z.eqb_refl; apply Z.mod_pos_bound; lia.
  - split; [discriminate|]. repeat constructor.
Defined.





(** *** The random items *)

(** The ranges of the fields that each test randomizes. *)
Definition item_ranges (test : string) (it : TlInputItem) : Prop :=
  if String.eqb test "meihap" then
    0 <= pic_claimid it < 2 ^ 8 /\ 0 <= dec_csr_wrdata_r it < 2 ^ 32
    /\ dec_csr_wrdata_r it mod 2 ^ 10 = 0
  else if String.eqb test "mhpme" then
    0 <= dec_csr_wrdata_r it < 2 ^ 10 /\ csr_addr it ∈ (addr <$> mhpme_lst)
  else if String.eqb test "mtdata" then
    0 <= mtdata1 it < 2 ^ 32 /\ Z.shiftr (mtdata1 it) 27 = 4 /\ 0 <= mtdata2 it < 2 ^ 32
    /\ 0 <= mtsel it < 4
  else if String.eqb test "mdseac" then
    0 <= mdeau it < 2 ^ 32 /\ 0 <= lsu_imprecise_error_addr_any it < 2 ^ 32
    /\ csr_addr it = addr MDSEAC
  else if String.eqb test "csrs_access" then
    0 <= dec_csr_wrdata_r it < 2 ^ 32 /\ csr_addr it ∈ (addr <$> csrs_access_lst)
  else if String.eqb test "debug_csrs_access" then
    0 <= dec_csr_wrdata_r it < 2 ^ 32 /\ csr_addr it ∈ (addr <$> debug_csrs_lst)
  else if String.eqb test "debug_ic_cache" then 0 <= i_ifu_ic_debug_rd_data it < 2 ^ 71
  else True.

Lemma random_digits_val r pos n :
  (0 < n)%nat -> exists v, int_base2 (random_digits r pos n) = Ok v /\ 0 <= v < 2 ^ Z.of_nat n.
Proof.
  intros Hn. exists (val (random_digits r pos n)). split.
  - apply int_base2_val. by destruct n; [lia|].
  - pose proof (val_bound (random_digits r pos n)) as H.
    unfold random_digits in H at 3. by rewrite length_fmap, length_seq in H.
Qed.

Lemma choice_elem {A} (xs : list A) (r : Z) :
  xs <> [] -> exists x, Prelude.choice xs r = Ok x /\ x ∈ xs.
Proof.
  intros H. destruct (choice_in xs r H) as (x & E & Hx). exists x.
  split; [exact E|]. by apply list_elem_of_In.
Qed.

Lemma mtdata1_value r :
  exists v, int_base2 (<[(31 - 27)%nat := false]>
                         ([false; false; true; false] ++ random_digits r 0 28)) = Ok v
    /\ 0 <= v < 2 ^ 32 /\ Z.shiftr v 27 = 4.
Proof.
  set (ds := random_digits r 1 27).
  assert (random_digits r 0 28 = Z.odd (r 0%nat) :: ds) as -> by reflexivity.
  assert (Hl : length ds = 27%nat) by (unfold ds, random_digits; by rewrite length_fmap, length_seq).
  assert (Hb := val_bound ds). rewrite Hl in Hb.
  exists (4 * 2 ^ 27 + val ds). split; [|split].
  - rewrite int_base2_val by done. f_equal. cbn [app Nat.sub insert list_insert].
    change (false :: false :: true :: false :: false :: ds)
      with ([false; false; true; false; false] ++ ds).
    rewrite val_app, Hl. done.
  - lia.
  - rewrite Z.shiftr_div_pow2, Z.add_comm, Z.div_add by lia.
    rewrite Z.div_small by (change (Z.of_nat 27) with 27 in Hb; lia). done.
Qed.

(** C40: the random items are well formed.  For each of the seven tests, and
    whatever the generator draws, [randomize] returns an item whose fields fit
    the ports they are driven on: the MEIVT word has its ten low bits clear, the
    trigger word has type 2 in bits 31:28 and DMODE (bit 27) clear, the trigger
    number is below 4, and the register is one of those the test lists. *)
Theorem tlu_randomize_ranges :
  forall test r it, exists it', randomize test r it = Ok it' /\ item_ranges test it'.
Proof.
  intros test r it. unfold randomize, item_ranges.
  destruct (String.eqb test "meihap").
  { destruct (random_digits_val r 0 8) as (c & -> & Hc); [lia|].
    destruct (random_digits_val r 8 22) as (d & -> & Hd); [lia|].
    eexists. split; [reflexivity|]. cbn [pic_claimid dec_csr_wrdata_r rbind].
    change (Z.of_nat 22) with 22 in Hd. change (Z.of_nat 8) with 8 in Hc.
    rewrite Z.shiftl_mul_pow2, Z.mod_mul by lia. lia. }
  destruct (String.eqb test "mhpme").
  { destruct (random_digits_val r 0 10) as (d & -> & Hd); [lia|].
    destruct (choice_elem mhpme_lst (r 10%nat)) as (c & E & Hc); [done|].
    cbn [rbind]. rewrite E. eexists. split; [reflexivity|]. split; [exact Hd|].
    apply list_elem_of_fmap. by exists c. }
  destruct (String.eqb test "mtdata").
  { destruct (mtdata1_value r) as (d1 & -> & H1).
    destruct (random_digits_val r 28 32) as (d2 & -> & H2); [lia|].
    destruct (random_digits_val r 60 2) as (s & -> & Hs); [lia|].
    eexists. split; [reflexivity|]. cbn [mtdata1 mtdata2 mtsel]. split; [tauto|].
    split; [tauto|]. split; [exact H2|exact Hs]. }
  destruct (String.eqb test "mdseac").
  { destruct (random_digits_val r 0 32) as (d & -> & Hd); [lia|].
    destruct (random_digits_val r 32 32) as (v & -> & Hv); [lia|].
    eexists. split; [reflexivity|]. split; [exact Hd|]. by split; [exact Hv|]. }
  destruct (String.eqb test "csrs_access").
  { destruct (random_digits_val r 0 32) as (d & -> & Hd); [lia|].
    destruct (choice_elem csrs_access_lst (r 32%nat)) as (c & E & Hc); [done|].
    cbn [rbind]. rewrite E. eexists. split; [reflexivity|]. split; [exact Hd|].
    apply list_elem_of_fmap. by exists c. }
  destruct (String.eqb test "debug_csrs_access").
  { destruct (random_digits_val r 0 32) as (d & -> & Hd); [lia|].
    destruct (choice_elem debug_csrs_lst (r 32%nat)) as (c & E & Hc); [done|].
    cbn [rbind]. rewrite E. eexists. split; [reflexivity|]. split; [exact Hd|].
    apply list_elem_of_fmap. by exists c. }
  destruct (String.eqb test "debug_ic_cache"); [|by exists it].
  destruct (random_digits_val r 0 71) as (d & -> & Hd); [lia|].
  eexists. split; [reflexivity|]. exact Hd.
Qed.

(** The scoreboard of the trigger test.  On items with a packet the verdict
    is success exactly when there is one and every packet shows, for the trigger
    selected, the fields of the words written, where load and execute are gated
    by the select bit; an output item without a packet, the default of the
    class, raises an [AttributeError]. *)
Theorem tlu_mtdata_scoreboard :
  forall (seen : list (TlInputItem * TriggerAnyPktT)),
    Forall (fun p => 0 <= mtsel p.1) seen ->
    (TlScoreboard_verdict "mtdata" seen.*1 (out_mtdata <$> seen.*2) = Ok tt
     <-> seen <> [] /\ Forall (fun p => pkt_shows p.1 p.2) seen)
    /\ (forall i inp v outp,
         TlScoreboard_verdict "mtdata" (i :: inp) (out_csr v :: outp) = Raise AttributeError).
Proof.
  intros seen Hs. split; [|reflexivity]. unfold TlScoreboard_verdict.
  rewrite check_pairs_out. rewrite check_pairs_seen by done. done.
Qed.

Lemma tlu_mtdata_scoreboard_witness :
  let p := {| t_select := 0x4; t_match := 0; t_store := 0x4; t_load := 0; t_execute := 0; t_m := 0;
              t_tdata2 := Z.shiftl 77 64 |} in
  TlScoreboard_verdict "mtdata" [item_mtdata 0x80005 77 2] [out_mtdata p]
  = Raise AssertionError
  /\ TlScoreboard_verdict "mtdata" [item_mtdata 0x80007 77 2] [out_mtdata p] = Ok tt.
Proof.
  split; [vm_compute; reflexivity|].
  apply (tlu_mtdata_scoreboard [(item_mtdata 0x80007 77 2, _)]).
  - apply Forall_singleton. cbn. lia.
  - split; [done|]. apply Forall_singleton. vm_compute. repeat split.
Defined.
