(* ===== verification/Dec.v ===== *)
(** * Decode unit bench: verification/block/dec/testbench.py

    The bench reaches the registers through instructions: [csr_access_inst]
    assembles them, the driver presents the instruction and then the result
    word, and the monitors pick both up again.  The scoreboard is the one of the
    trigger and control unit bench with two more tests.  The unit of the
    closed-loop theorems decodes the instruction, takes the result of the next
    cycle, and has an arbitrary read-back function. *)

From S2P Require Import Prelude Scoreboard Cocotb TriggerLogic Csrs ClosedLoop DecTlu.
From stdpp Require Import base list strings.
From Stdlib Require Import ZArith Lia.

#[local] Open Scope string_scope.
#[local] Open Scope list_scope.
#[local] Open Scope Z_scope.

(** ** Instructions *)

Definition CSR_OPCODE : Z := 0x73.

Inductive Funct3 := CSRRW | CSRRS | CSRRC | CSRRWI | CSRRSI | CSRRCI.

Definition funct3_value (f : Funct3) : Z :=
  match f with
  | CSRRW => 1 | CSRRS => 2 | CSRRC => 3 | CSRRWI => 5 | CSRRSI => 6 | CSRRCI => 7
  end.

Definition csr_access_inst (csr rs1 funct3 rd opcode : Z) : Z :=
  let csr_mask := Z.shiftl 1 13 - 1 in
  let rs1_mask := Z.shiftl 1 6 - 1 in
  let funct3_mask := Z.shiftl 1 4 - 1 in
  let rd_mask := Z.shiftl 1 6 - 1 in
  let opcode_mask := Z.shiftl 1 8 - 1 in
  Z.lor (Z.lor (Z.lor (Z.lor (Z.shiftl (Z.land csr csr_mask) 20)
                             (Z.shiftl (Z.land rs1 rs1_mask) 15))
                      (Z.shiftl (Z.land funct3 funct3_mask) 12))
               (Z.shiftl (Z.land rd rd_mask) 7))
        (Z.land opcode opcode_mask).

(** [ReadCSRInst(csr).encode()] *)
Definition ReadCSRInst_encode (csr : Z) : Z :=
  csr_access_inst csr 0 (funct3_value CSRRS) 0 CSR_OPCODE.

(** [WriteCSRInst(csr).encode()] *)
Definition WriteCSRInst_encode (csr : Z) : Z :=
  csr_access_inst csr 0 (funct3_value CSRRW) 0 CSR_OPCODE.

(** [randint(width)] *)
Definition randint (width : Z) (r : Z) : Z := Prelude.randint 0 (2 ^ width - 1) r.

(** ** Items *)

Record DecInputItem := {
  exu_i0_result_x : Z; csr_addr : Z; csrw_instr : Z; csrr_instr : Z; pic_pl : Z;
  pic_claimid : Z; i_ifu_ic_debug_rd_data : Z; mtdata1 : Z; mtdata2 : Z; mtsel : Z }.

Definition DecInputItem0 : DecInputItem :=
  {| exu_i0_result_x := 0; csr_addr := 0; csrw_instr := 0; csrr_instr := 0; pic_pl := 0;
     pic_claimid := 0; i_ifu_ic_debug_rd_data := 0; mtdata1 := 0; mtdata2 := 0; mtsel := 0 |}.

Definition dec_meihap_item (claim data : Z) : DecInputItem :=
  {| exu_i0_result_x := data; csr_addr := 0; csrw_instr := 0; csrr_instr := 0; pic_pl := 0;
     pic_claimid := claim; i_ifu_ic_debug_rd_data := 0; mtdata1 := 0; mtdata2 := 0; mtsel := 0 |}.

Definition dec_mtdata_item (d1 d2 sel : Z) : DecInputItem :=
  {| exu_i0_result_x := 0; csr_addr := 0; csrw_instr := 0; csrr_instr := 0; pic_pl := 0;
     pic_claimid := 0; i_ifu_ic_debug_rd_data := 0; mtdata1 := d1; mtdata2 := d2; mtsel := sel |}.

Definition dec_instr_item (csrw csrr data : Z) : DecInputItem :=
  {| exu_i0_result_x := data; csr_addr := 0; csrw_instr := csrw; csrr_instr := csrr; pic_pl := 0;
     pic_claimid := 0; i_ifu_ic_debug_rd_data := 0; mtdata1 := 0; mtdata2 := 0; mtsel := 0 |}.

Definition dec_csr_item (csr data : Z) : DecInputItem :=
  {| exu_i0_result_x := data; csr_addr := csr; csrw_instr := 0; csrr_instr := 0; pic_pl := 0;
     pic_claimid := 0; i_ifu_ic_debug_rd_data := 0; mtdata1 := 0; mtdata2 := 0; mtsel := 0 |}.

Definition dec_ic_item (v : Z) : DecInputItem :=
  {| exu_i0_result_x := 0; csr_addr := 0; csrw_instr := 0; csrr_instr := 0; pic_pl := 0;
     pic_claimid := 0; i_ifu_ic_debug_rd_data := v; mtdata1 := 0; mtdata2 := 0; mtsel := 0 |}.

(** [dec_csr_wrdata_r] of the class is neither set nor read and is left out. *)
Record DecOutputItem := {
  o_csrr_instr : Z; dec_csr_rddata_d : Z; dec_tlu_meihap : Z;
  trigger_pkt_any : TriggerAnyPktT; ifu_ic_debug_rd_data : Z }.

(** [TriggerAnyPktT()] *)
Definition TriggerAnyPktT0 : TriggerAnyPktT :=
  {| t_select := 0; t_match := 0; t_store := 0; t_load := 0; t_execute := 0; t_m := 0;
     t_tdata2 := 0 |}.

Definition dec_out (csrr rddata meihap : Z) (pkt : TriggerAnyPktT) (ic : Z) : DecOutputItem :=
  {| o_csrr_instr := csrr; dec_csr_rddata_d := rddata; dec_tlu_meihap := meihap;
     trigger_pkt_any := pkt; ifu_ic_debug_rd_data := ic |}.

Definition csr_access_lst : list CSR :=
  [MCOUNTINHIBIT; MDCCMECT; MEICURPL; MEIPT; MFDC; MFDHT; MHPMC3; MHPMC3H; MHPMC4; MHPMC4H;
   MHPMC5; MHPMC5H; MHPMC6; MHPMC6H; MHPME3; MHPME4; MHPME5; MHPME6; MICCMECT; MICECT;
   MINSTRETH; MINSTRETL; MRAC; MTVEC].

(** The registers drawn are those of [core_regs], and [MFDC]. *)
Lemma access_core_regs :
  Forall (fun c => addr c ∈ core_regs.*1.*2) (csr_access_lst).
Proof. refine (bool_decide_unpack _ _). by vm_compute. Qed.

(** The fields that an access to [csr] sets. *)
Definition set_access (it : DecInputItem) (csr data : Z) : DecInputItem :=
  {| exu_i0_result_x := data; csr_addr := csr; csrw_instr := WriteCSRInst_encode csr;
     csrr_instr := ReadCSRInst_encode csr; pic_pl := pic_pl it; pic_claimid := pic_claimid it;
     i_ifu_ic_debug_rd_data := i_ifu_ic_debug_rd_data it; mtdata1 := mtdata1 it;
     mtdata2 := mtdata2 it; mtsel := mtsel it |}.

Definition set_pic_claimid (it : DecInputItem) (claim : Z) : DecInputItem :=
  {| exu_i0_result_x := exu_i0_result_x it; csr_addr := csr_addr it; csrw_instr := csrw_instr it;
     csrr_instr := csrr_instr it; pic_pl := pic_pl it; pic_claimid := claim;
     i_ifu_ic_debug_rd_data := i_ifu_ic_debug_rd_data it; mtdata1 := mtdata1 it;
     mtdata2 := mtdata2 it; mtsel := mtsel it |}.

Definition set_pic_pl (it : DecInputItem) (pl : Z) : DecInputItem :=
  {| exu_i0_result_x := exu_i0_result_x it; csr_addr := csr_addr it; csrw_instr := csrw_instr it;
     csrr_instr := csrr_instr it; pic_pl := pl; pic_claimid := pic_claimid it;
     i_ifu_ic_debug_rd_data := i_ifu_ic_debug_rd_data it; mtdata1 := mtdata1 it;
     mtdata2 := mtdata2 it; mtsel := mtsel it |}.

Definition set_mtdata (it : DecInputItem) (d1 d2 sel : Z) : DecInputItem :=
  {| exu_i0_result_x := exu_i0_result_x it; csr_addr := csr_addr it; csrw_instr := csrw_instr it;
     csrr_instr := csrr_instr it; pic_pl := pic_pl it; pic_claimid := pic_claimid it;
     i_ifu_ic_debug_rd_data := i_ifu_ic_debug_rd_data it; mtdata1 := d1; mtdata2 := d2;
     mtsel := sel |}.

Definition set_ic (it : DecInputItem) (v : Z) : DecInputItem :=
  {| exu_i0_result_x := exu_i0_result_x it; csr_addr := csr_addr it; csrw_instr := csrw_instr it;
     csrr_instr := csrr_instr it; pic_pl := pic_pl it; pic_claimid := pic_claimid it;
     i_ifu_ic_debug_rd_data := v; mtdata1 := mtdata1 it; mtdata2 := mtdata2 it;
     mtsel := mtsel it |}.

Definition randomize (test : string) (r : rng) (it : DecInputItem) : result DecInputItem :=
  if String.eqb test "meihap" then
    Ok (set_access (set_pic_claimid it (randint 8 (r 0%nat))) (addr MEIVT)
          (Z.shiftl (randint 22 (r 1%nat)) 10))
  else if String.eqb test "mtdata" then
    (* bits 31:28 are 0x2, DMODE (bit 27) is cleared *)
    let d1 := [false; false; true; false] ++ random_digits r 0 28 in
    let! d1 := int_base2 (<[(31 - 27)%nat := false]> d1) in
    Ok (set_mtdata it d1 (randint 32 (r 28%nat)) (randint 2 (r 29%nat)))
  else if String.eqb test "csr_access" then
    let! c := Prelude.choice csr_access_lst (r 0%nat) in
    Ok (set_access it (addr c) (randint 32 (r 1%nat)))
  else if String.eqb test "debug_ic_cache" then Ok (set_ic it (randint 71 (r 0%nat)))
  else if String.eqb test "debug_csrs_access" then
    let! c := Prelude.choice debug_csrs_lst (r 1%nat) in
    Ok (set_access it (addr c) (randint 32 (r 0%nat)))
  else if String.eqb test "meicidpl" then
    Ok (set_access (set_pic_pl it (randint 4 (r 0%nat))) (addr MEICIDPL) (exu_i0_result_x it))
  else Ok it.

(** [DecSequence.body]: one item per stream of draws. *)
Fixpoint DecSequence_body (test : string) (rs : list rng) : result (list DecInputItem) :=
  match rs with
  | [] => Ok []
  | r :: rs =>
      let! it := randomize test r DecInputItem0 in
      let! its := DecSequence_body test rs in
      Ok (it :: its)
  end.

(** ** The driver *)

Section Driver.
Context {I : Type}.

Definition read_csr (instr : Z) : proc I unit :=
  drive "ifu_i0_valid" 0 ;;;
  (_ <- await (RisingEdge "clk") ;;
  drive "ifu_i0_valid" 1 ;;;
  drive "ifu_i0_instr" instr ;;;
  _ <- await (RisingEdge "clk") ;;
  drive "ifu_i0_valid" 0 ;;;
  drive "ifu_i0_instr" 0).

Definition write_csr (instr data : Z) : proc I unit :=
  drive "ifu_i0_valid" 0 ;;;
  (_ <- await (RisingEdge "clk") ;;
  drive "ifu_i0_valid" 1 ;;;
  drive "ifu_i0_instr" instr ;;;
  _ <- await (RisingEdge "clk") ;;
  drive "ifu_i0_instr" 0 ;;;
  drive "exu_i0_result_x" data ;;;
  drive "ifu_i0_valid" 0 ;;;
  _ <- await (RisingEdge "clk") ;;
  drive "exu_i0_result_x" 0).

Definition DecDriver_item (test : string) (it : DecInputItem) : proc I unit :=
  if String.eqb test "meihap" then
    write_csr (csrw_instr it) (exu_i0_result_x it) ;;;
    clock_cycles "clk" 2 ;;;
    drive "pic_claimid" (pic_claimid it) ;;;
    write_csr (WriteCSRInst_encode (addr MEICPCT)) (exu_i0_result_x it) ;;;
    clock_cycles "clk" 2
  else if String.eqb test "mtdata" then
    write_csr (WriteCSRInst_encode (addr MTSEL)) (mtsel it) ;;;
    write_csr (WriteCSRInst_encode (addr MTDATA1)) (mtdata1 it) ;;;
    write_csr (WriteCSRInst_encode (addr MTDATA2)) (mtdata2 it) ;;;
    clock_cycles "clk" 4
  else if str_in test ["csr_access"] then
    write_csr (csrw_instr it) (exu_i0_result_x it) ;;;
    clock_cycles "clk" 2 ;;;
    read_csr (csrr_instr it) ;;;
    (_ <- await (RisingEdge "clk") ;; Ret tt)
  else if String.eqb test "debug_ic_cache" then
    drive "ifu_ic_debug_rd_data_valid" 1 ;;;
    drive "ifu_ic_debug_rd_data" (i_ifu_ic_debug_rd_data it) ;;;
    (_ <- await (RisingEdge "clk") ;;
    drive "ifu_ic_debug_rd_data_valid" 0 ;;;
    read_csr (ReadCSRInst_encode (addr DICAD0)) ;;;
    read_csr (ReadCSRInst_encode (addr DICAD0H)) ;;;
    read_csr (ReadCSRInst_encode (addr DICAD1)))
  else if String.eqb test "debug_csrs_access" then
    write_csr (csrw_instr it) (exu_i0_result_x it) ;;;
    clock_cycles "clk" 2 ;;;
    read_csr (csrr_instr it) ;;;
    clock_cycles "clk" 2
  else if String.eqb test "meicidpl" then
    drive "pic_pl" (pic_pl it) ;;;
    write_csr (csrw_instr it) 0 ;;;
    clock_cycles "clk" 2 ;;;
    read_csr (csrr_instr it) ;;;
    (_ <- await (RisingEdge "clk") ;; Ret tt)
  else Ret tt.
End Driver.

(** [run_phase]: the items of the sequence in turn. *)
Definition DecDriver_run_phase (test : string) (its : list DecInputItem)
  : proc DecInputItem unit := for_each its (DecDriver_item test).

(** ** The monitors *)

(** [await ClockCycles(clk, 2)], then the values sampled. *)
Definition after2 {I A} (k : env -> proc I A) : proc I A :=
  _ <- await (RisingEdge "clk") ;;
  e <- await (RisingEdge "clk") ;;
  k e.

Definition DecInputMonitor_run_phase (test : string) (_ : unit) : proc DecInputItem unit :=
  if String.eqb test "meihap" then
    _ <- await (RisingEdge "ifu_i0_valid") ;;
    after2 (fun e =>
    e' <- await (RisingEdge "ifu_i0_valid") ;;
    publish (dec_meihap_item (e' "pic_claimid") (e "exu_i0_result_x")))
  else if String.eqb test "mtdata" then
    _ <- await (RisingEdge "ifu_i0_valid") ;;
    after2 (fun e1 =>
    _ <- await (RisingEdge "ifu_i0_valid") ;;
    after2 (fun e2 =>
    _ <- await (RisingEdge "ifu_i0_valid") ;;
    after2 (fun e3 =>
    publish (dec_mtdata_item (e2 "exu_i0_result_x") (e3 "exu_i0_result_x")
               (e1 "exu_i0_result_x")))))
  else if str_in test ["csr_access"] then
    _ <- await (RisingEdge "ifu_i0_valid") ;;
    e1 <- await (RisingEdge "clk") ;;
    e2 <- await (RisingEdge "clk") ;;
    _ <- await (RisingEdge "ifu_i0_valid") ;;
    e3 <- await (RisingEdge "clk") ;;
    publish (dec_instr_item (e1 "ifu_i0_instr") (e3 "ifu_i0_instr") (e2 "exu_i0_result_x"))
  else if String.eqb test "debug_ic_cache" then
    _ <- await (RisingEdge "ifu_ic_debug_rd_data_valid") ;;
    e <- await (RisingEdge "clk") ;;
    publish (dec_ic_item (e "ifu_ic_debug_rd_data")) ;;;
    clock_cycles "clk" 4
  else if String.eqb test "debug_csrs_access" then
    _ <- await (RisingEdge "ifu_i0_valid") ;;
    e1 <- await (RisingEdge "clk") ;;
    e2 <- await (RisingEdge "clk") ;;
    _ <- await (RisingEdge "ifu_i0_valid") ;;
    _ <- await (RisingEdge "clk") ;;
    publish (dec_csr_item (Z.shiftr (e1 "ifu_i0_instr") 20) (e2 "exu_i0_result_x"))
  else if String.eqb test "meicidpl" then
    e1 <- await (RisingEdge "ifu_i0_valid") ;;
    after2 (fun e2 =>
    _ <- await (RisingEdge "ifu_i0_valid") ;;
    publish (dec_csr_item (Z.shiftr (e1 "ifu_i0_instr") 20) (e2 "exu_i0_result_x")))
  else Ret tt.

Definition DecOutputMonitor_run_phase (test : string) (_ : unit) : proc DecOutputItem unit :=
  if String.eqb test "meihap" then
    _ <- await (RisingEdge "ifu_i0_valid") ;;
    _ <- await (RisingEdge "ifu_i0_valid") ;;
    after2 (fun _ => after2 (fun e =>
    publish (dec_out 0 0 (e "dec_tlu_meihap") TriggerAnyPktT0 0)))
  else if String.eqb test "mtdata" then
    _ <- await (RisingEdge "ifu_i0_valid") ;;
    _ <- await (RisingEdge "ifu_i0_valid") ;;
    _ <- await (RisingEdge "ifu_i0_valid") ;;
    after2 (fun _ => after2 (fun e =>
    publish (dec_out 0 0 0 (get_from_dut e) 0)))
  else if str_in test ["csr_access"] then
    _ <- await (RisingEdge "ifu_i0_valid") ;;
    _ <- await (RisingEdge "ifu_i0_valid") ;;
    e <- await (RisingEdge "clk") ;;
    publish (dec_out (e "ifu_i0_instr") (e "dec_csr_rddata_d") 0 TriggerAnyPktT0 0)
  else if String.eqb test "debug_ic_cache" then
    _ <- await (RisingEdge "ifu_ic_debug_rd_data_valid") ;;
    _ <- await (RisingEdge "ifu_i0_valid") ;;
    e0 <- await (RisingEdge "clk") ;;
    _ <- await (RisingEdge "ifu_i0_valid") ;;
    e1 <- await (RisingEdge "clk") ;;
    _ <- await (RisingEdge "ifu_i0_valid") ;;
    e2 <- await (RisingEdge "clk") ;;
    publish (dec_out 0 0 0 TriggerAnyPktT0
      (Z.lor (Z.lor (e0 "dec_csr_rddata_d") (Z.shiftl (e1 "dec_csr_rddata_d") 32))
             (Z.shiftl (e2 "dec_csr_rddata_d") 64)))
  else if String.eqb test "debug_csrs_access" then
    _ <- await (RisingEdge "ifu_i0_valid") ;;
    _ <- await (RisingEdge "ifu_i0_valid") ;;
    e <- await (RisingEdge "clk") ;;
    publish (dec_out 0 (e "dec_csr_rddata_d") 0 TriggerAnyPktT0 0)
  else if String.eqb test "meicidpl" then
    _ <- await (RisingEdge "ifu_i0_valid") ;;
    e <- await (RisingEdge "ifu_i0_valid") ;;
    e' <- await (RisingEdge "clk") ;;
    publish (dec_out (e "ifu_i0_instr") (e' "dec_csr_rddata_d") 0 TriggerAnyPktT0 0)
  else Ret tt.

(** ** The scoreboard *)

Definition check_meihap (item_inp : DecInputItem) (item_out : DecOutputItem)
    (passed : option bool) : option bool :=
  let pic_claimid_i := pic_claimid item_inp in
  let pic_claimid_o := Z.land (dec_tlu_meihap item_out) 0xFF in
  let meivt_i := Z.shiftr (exu_i0_result_x item_inp) 12 in
  let meivt_o := Z.shiftr (dec_tlu_meihap item_out) 10 in
  compare meivt_i meivt_o (compare pic_claimid_i pic_claimid_o passed).

Definition check_mtdata (item_inp : DecInputItem) (item_out : DecOutputItem)
    (passed : option bool) : option bool :=
  let tdata2_mask := 0xFFFFFFFF in
  let sel := mtsel item_inp in
  let mtdata1_i := mtdata1 item_inp in
  let mtdata2_i := mtdata2 item_inp in
  let pkt := trigger_pkt_any item_out in
  let select_i := get_bit mtdata1_i 19 in
  let match_i := get_bit mtdata1_i 7 in
  let store_i := get_bit mtdata1_i 1 in
  let load_i := Z.land (get_bit mtdata1_i 0) (Z.lnot (get_bit mtdata1_i 19)) in
  let execute_i := Z.land (get_bit mtdata1_i 2) (Z.lnot (get_bit mtdata1_i 19)) in
  let m_i := get_bit mtdata1_i 6 in
  let select_o := get_bit (t_select pkt) sel in
  let match_o := get_bit (t_match pkt) sel in
  let store_o := get_bit (t_store pkt) sel in
  let load_o := get_bit (t_load pkt) sel in
  let execute_o := get_bit (t_execute pkt) sel in
  let m_o := get_bit (t_m pkt) sel in
  let mtdata2_o := Z.land (Z.shiftr (t_tdata2 pkt) (sel * 32)) tdata2_mask in
  compare m_i m_o (compare execute_i execute_o (compare load_i load_o
    (compare store_i store_o (compare match_i match_o (compare select_i select_o
      (compare mtdata2_i mtdata2_o passed)))))).

Definition check_csr_access (item_inp : DecInputItem) (item_out : DecOutputItem)
    (passed : option bool) : option bool :=
  let i0 := csrw_instr item_inp in
  let i1 := csrr_instr item_inp in
  let wr_addr := Z.land (Z.shiftr i0 20) (Z.shiftl 1 13 - 1) in
  let rd_addr := Z.land (Z.shiftr i1 20) (Z.shiftl 1 13 - 1) in
  let passed := compare wr_addr rd_addr passed in
  compare (csr_expected rd_addr (exu_i0_result_x item_inp)) (dec_csr_rddata_d item_out) passed.

(** In "meicidpl" the message of a mismatch names the variable [csr], which that
    branch does not set: the f-string raises before [passed] is cleared. *)
Definition check_item (test : string) (item_inp : DecInputItem) (item_out : DecOutputItem)
    (passed : option bool) : result (option bool) :=
  if String.eqb test "meihap" then Ok (check_meihap item_inp item_out passed)
  else if String.eqb test "mtdata" then Ok (check_mtdata item_inp item_out passed)
  else if String.eqb test "csr_access" then Ok (check_csr_access item_inp item_out passed)
  else if String.eqb test "debug_ic_cache" then
    Ok (compare (i_ifu_ic_debug_rd_data item_inp) (ifu_ic_debug_rd_data item_out) passed)
  else if String.eqb test "debug_csrs_access" then
    Ok (compare (apply_first debug_csrs_lst (csr_addr item_inp) (exu_i0_result_x item_inp))
                (dec_csr_rddata_d item_out) passed)
  else if String.eqb test "meicidpl" then
    if negb (out MEICIDPL (exu_i0_result_x item_inp) =? dec_csr_rddata_d item_out)
    then Raise UnboundLocalError else Ok passed
  else Ok passed.

Definition DecScoreboard_verdict (test : string) (inp : list DecInputItem)
    (outp : list DecOutputItem) : result unit :=
  let! passed := check_pairs (check_item test) inp outp None in final_phase passed.

(** ** [BaseTest] *)

Definition enter_debug_mode {I} : proc I unit :=
  drive "dbg_halt_req" 1 ;;;
  clock_cycles "clk" 2 ;;;
  drive "dbg_halt_req" 0 ;;;
  (e <- now ;;
  if truthy (e "o_debug_mode_status") then Ret tt
  else _ <- await (RisingEdge "o_debug_mode_status") ;; Ret tt).

(** The inputs driven to 1, then those driven to 0. *)
Definition reset_high : list string := ["mpc_reset_run_req"; "lsu_idle_any"; "ifu_miss_state_idle"].

Definition reset_inputs : list string :=
  ["lsu_fastint_stall_any"; "rst_vec"; "nmi_int"; "nmi_vec"; "i_cpu_halt_req";
   "i_cpu_run_req"; "core_id"; "mpc_debug_halt_req"; "mpc_debug_run_req";
   "exu_pmu_i0_br_misp"; "exu_pmu_i0_br_ataken"; "exu_pmu_i0_pc4";
   "lsu_nonblock_load_valid_m"; "lsu_nonblock_load_tag_m"; "lsu_nonblock_load_inv_r";
   "lsu_nonblock_load_inv_tag_r"; "lsu_nonblock_load_data_valid";
   "lsu_nonblock_load_data_error"; "lsu_nonblock_load_data_tag"; "lsu_nonblock_load_data";
   "lsu_pmu_bus_trxn"; "lsu_pmu_bus_misaligned"; "lsu_pmu_bus_error"; "lsu_pmu_bus_busy";
   "lsu_pmu_misaligned_m"; "lsu_pmu_load_external_m"; "lsu_pmu_store_external_m";
   "dma_pmu_dccm_read"; "dma_pmu_dccm_write"; "dma_pmu_any_read"; "dma_pmu_any_write";
   "lsu_fir_addr"; "lsu_fir_error"; "ifu_pmu_instr_aligned"; "ifu_pmu_fetch_stall";
   "ifu_pmu_ic_miss"; "ifu_pmu_ic_hit"; "ifu_pmu_bus_error"; "ifu_pmu_bus_busy";
   "ifu_pmu_bus_trxn"; "ifu_ic_error_start"; "ifu_iccm_rd_ecc_single_err";
   "lsu_trigger_match_m"; "dbg_cmd_valid"; "dbg_cmd_write"; "dbg_cmd_type"; "dbg_cmd_addr";
   "dbg_cmd_wrdata"; "ifu_i0_icaf"; "ifu_i0_icaf_type"; "ifu_i0_icaf_second";
   "ifu_i0_dbecc"; "ifu_i0_bp_index"; "ifu_i0_bp_fghr"; "ifu_i0_bp_btag";
   "ifu_i0_fa_index"; "lsu_single_ecc_error_incr"; "lsu_imprecise_error_load_any";
   "lsu_imprecise_error_store_any"; "lsu_imprecise_error_addr_any"; "exu_div_result";
   "exu_div_wren"; "exu_csr_rs1_x"; "lsu_result_m"; "lsu_result_corr_r";
   "lsu_load_stall_any"; "lsu_store_stall_any"; "dma_dccm_stall_any"; "dma_iccm_stall_any";
   "iccm_dma_sb_error"; "exu_flush_final"; "exu_npc_r"; "exu_i0_result_x"; "ifu_i0_valid";
   "ifu_i0_instr"; "ifu_i0_pc"; "ifu_i0_pc4"; "exu_i0_pc_x"; "mexintpend"; "timer_int";
   "soft_int"; "pic_claimid"; "pic_pl"; "mhwakeup"; "ifu_ic_debug_rd_data";
   "ifu_ic_debug_rd_data_valid"; "dbg_halt_req"; "dbg_resume_req"; "exu_i0_br_hist_r";
   "exu_i0_br_error_r"; "exu_i0_br_start_error_r"; "exu_i0_br_valid_r"; "exu_i0_br_mp_r";
   "exu_i0_br_middle_r"; "exu_i0_br_way_r"; "ifu_i0_cinst"].

Definition BaseTest_reset {I} (test : string) : proc I unit :=
  for_each reset_high (fun s => drive s 1) ;;;
  for_each reset_inputs (fun s => drive s 0) ;;;
  do_reset ;;;
  clock_cycles "clk" 2 ;;;
  (if String.eqb test "debug_csrs_access" then enter_debug_mode else Ret tt).

(** ** Instructions, taken apart *)

Definition inst_csr (i : Z) : Z := Z.land (Z.shiftr i 20) (Z.ones 12).
Definition inst_rs1 (i : Z) : Z := Z.land (Z.shiftr i 15) (Z.ones 5).
Definition inst_funct3 (i : Z) : Z := Z.land (Z.shiftr i 12) (Z.ones 3).
Definition inst_rd (i : Z) : Z := Z.land (Z.shiftr i 7) (Z.ones 5).
Definition inst_opcode (i : Z) : Z := Z.land i (Z.ones 7).

(** A field [a] of [n] bits below the field [x]. *)
Lemma lor_field x a n k m :
  m = n + k -> 0 <= k -> 0 <= n -> 0 <= a < 2 ^ n ->
  Z.lor (Z.shiftl x m) (Z.shiftl a k) = Z.shiftl (a + x * 2 ^ n) k.
Proof.
  intros -> Hk Hn Ha. by rewrite <- lor_low_high, Z.shiftl_lor, Z.shiftl_shiftl, Z.lor_comm by lia.
Qed.

Lemma csr_access_inst_sum csr rs1 funct3 rd opcode :
  0 <= csr < 2 ^ 12 -> 0 <= rs1 < 2 ^ 5 -> 0 <= funct3 < 2 ^ 3 -> 0 <= rd < 2 ^ 5 ->
  0 <= opcode < 2 ^ 7 ->
  csr_access_inst csr rs1 funct3 rd opcode
  = opcode + (rd + (funct3 + (rs1 + csr * 2 ^ 5) * 2 ^ 3) * 2 ^ 5) * 2 ^ 7.
Proof.
  intros Hc Hs Hf Hr Ho. unfold csr_access_inst.
  rewrite (land_mask csr 13), (land_mask rs1 6), (land_mask funct3 4), (land_mask rd 6),
    (land_mask opcode 8) by done.
  rewrite !Z.mod_small by lia.
  rewrite (lor_field csr rs1 5 15 20), (lor_field _ funct3 3 12 15), (lor_field _ rd 5 7 12) by lia.
  rewrite Z.lor_comm. by apply lor_low_high.
Qed.

Lemma field_low a x n : 0 <= n -> 0 <= a < 2 ^ n -> Z.land (a + x * 2 ^ n) (Z.ones n) = a.
Proof. intros Hn Ha. rewrite Z.land_ones, Z.mod_add, Z.mod_small by lia. done. Qed.

Lemma field_high a x n k m :
  m = n + k -> 0 <= n -> 0 <= k -> 0 <= a < 2 ^ n ->
  Z.shiftr (a + x * 2 ^ n) m = Z.shiftr x k.
Proof.
  intros -> Hn Hk Ha. rewrite <- Z.shiftr_shiftr, (Z.shiftr_div_pow2 _ n), Z.div_add by lia.
  by rewrite Z.div_small, Z.add_0_l.
Qed.

(** Assembling and decoding.  When every field fits, [csr_access_inst]
    returns a 32-bit word from which the five fields of the instruction format
    are read back; each of its masks is one bit too wide, so a field that does
    not fit spills into its neighbour instead of being cut, and an address of
    13 bits yields a word of 33. *)
Theorem csr_access_inst_roundtrip :
  (forall csr rs1 funct3 rd opcode,
    0 <= csr < 2 ^ 12 -> 0 <= rs1 < 2 ^ 5 -> 0 <= funct3 < 2 ^ 3 -> 0 <= rd < 2 ^ 5 ->
    0 <= opcode < 2 ^ 7 ->
    let i := csr_access_inst csr rs1 funct3 rd opcode in
    0 <= i < 2 ^ 32 /\ inst_csr i = csr /\ inst_rs1 i = rs1 /\ inst_funct3 i = funct3
    /\ inst_rd i = rd /\ inst_opcode i = opcode)
  /\ inst_rd (csr_access_inst 0x300 0 1 0 0x80) = 1
  /\ csr_access_inst 0x1000 0 1 0 CSR_OPCODE = 2 ^ 32 + csr_access_inst 0 0 1 0 CSR_OPCODE.
Proof.
  split; [|by split]. intros csr rs1 funct3 rd opcode Hc Hs Hf Hr Ho i. subst i.
  rewrite csr_access_inst_sum by done. split; [lia|].
  unfold inst_csr, inst_rs1, inst_funct3, inst_rd, inst_opcode.
  rewrite (field_high opcode _ 7 13 20), (field_high opcode _ 7 8 15), (field_high opcode _ 7 5 12),
    (field_high opcode _ 7 0 7) by lia.
  rewrite (field_high rd _ 5 8 13), (field_high rd _ 5 3 8), (field_high rd _ 5 0 5) by lia.
  rewrite (field_high funct3 _ 3 5 8), (field_high funct3 _ 3 0 3), (field_high rs1 _ 5 0 5) by lia.
  rewrite !Z.shiftr_0_r, !field_low by lia.
  by rewrite Z.land_ones, Z.mod_small by lia.
Qed.

Lemma csr_access_inst_roundtrip_witness :
  let i := csr_access_inst 0x7C0 0 (funct3_value CSRRW) 0 CSR_OPCODE in
  i = 0x7C001073 /\ inst_csr i = 0x7C0.
Proof.
  split; [vm_compute; reflexivity|].
  apply (proj1 csr_access_inst_roundtrip 0x7C0 0 1 0 0x73); lia.
Defined.

Lemma encode_fields csr f3 :
  0 <= csr < 2 ^ 12 -> 0 <= f3 < 8 ->
  let i := csr_access_inst csr 0 f3 0 CSR_OPCODE in
  Z.shiftr i 20 = csr /\ inst_funct3 i = f3 /\ inst_opcode i = CSR_OPCODE.
Proof.
  intros Hc Hf i. subst i. unfold CSR_OPCODE. rewrite csr_access_inst_sum by lia.
  unfold inst_funct3, inst_opcode.
  rewrite (field_high _ _ 7 13 20), (field_high _ _ 7 5 12), (field_high _ _ 5 8 13),
    (field_high _ _ 5 0 5), (field_high _ _ 3 5 8), Z.shiftr_0_r, !field_low by lia.
  split; [|done]. by rewrite (field_high 0 _ 5 0 5), Z.shiftr_0_r by lia.
Qed.

(** ** The bench in closed loop with a decoding unit *)

(** A write to a register is pending between the cycle of the instruction and
    the cycle of its result. *)
Record core := { pending : option Z; cregs : Z -> Z }.

Definition decode_write (i : Z) : option Z :=
  if (inst_opcode i =? CSR_OPCODE) && (inst_funct3 i =? funct3_value CSRRW)
  then Some (Z.shiftr i 20) else None.

Definition core_step (u : core) (e : env) : core :=
  {| pending := if truthy (e "ifu_i0_valid") then decode_write (e "ifu_i0_instr") else None;
     cregs := match pending u with
              | Some a => fun x => if x =? a then e "exu_i0_result_x" else cregs u x
              | None => cregs u
              end |}.

(** The read port shows the register that the instruction names. *)
Definition core_outs (rd : Z -> Z -> Z) (u : core) (e : env) : env :=
  upd "dec_csr_rddata_d"
    (let a := Z.shiftr (e "ifu_i0_instr") 20 in rd a (cregs u a)) e.

Section Bench.
Variable rd : Z -> Z -> Z.

Abbreviation runs :=
  (closes (I := DecInputItem) "clk" ["ifu_i0_valid"] core_step (core_outs rd)).
Abbreviation clk e := (Sample (RisingEdge "clk") e).
Abbreviation valid e := (Sample (RisingEdge "ifu_i0_valid") e).

Lemma core_wire u c s : s <> "dec_csr_rddata_d" -> core_outs rd u c s = c s.
Proof. intros H. unfold core_outs. by rewrite upd_ne. Qed.

Lemma core_rddata u c a :
  Z.shiftr (c "ifu_i0_instr") 20 = a -> core_outs rd u c "dec_csr_rddata_d" = rd a (cregs u a).
Proof. intros <-. unfold core_outs. by rewrite upd_eq. Qed.

(** No instruction, and no result is awaited. *)
Definition quiet (w : world (St := core)) : Prop := pending (unit_state w) = None.

Lemma core_step_idle u e : e "ifu_i0_valid" = 0 -> pending u = None -> core_step u e = u.
Proof. intros Hv Hp. unfold core_step. rewrite Hv, Hp. destruct u; simpl in *. by subst. Qed.

Ltac wire e := unfold e; rewrite core_wire by done; env_simpl; try done.

Lemma dec_write_csr_runs csr d b c u :
  0 <= csr < 2 ^ 12 -> pending u = None ->
  exists e1 e2 e3 u',
    runs (write_csr (WriteCSRInst_encode csr) d) (World b c u)
      [clk e1; valid e2; clk e2; clk e3] tt (World e3 (upd "exu_i0_result_x" 0 e3) u')
    /\ e2 "ifu_i0_instr" = WriteCSRInst_encode csr /\ e3 "exu_i0_result_x" = d
    /\ e3 "ifu_i0_valid" = 0
    /\ pending u' = None /\ cregs u' = (fun x => if x =? csr then d else cregs u x).
Proof.
  intros Hc Hp. destruct (encode_fields csr (funct3_value CSRRW) Hc) as (Ha & Hf & Ho); [cbn; lia|].
  set (e1 := core_outs rd u (upd "ifu_i0_valid" 0 c)).
  set (e2 := core_outs rd u (upd "ifu_i0_instr" (WriteCSRInst_encode csr)
               (upd "ifu_i0_valid" 1 e1))).
  set (u2 := core_step u e2).
  set (e3 := core_outs rd u2 (upd "ifu_i0_valid" 0 (upd "exu_i0_result_x" d
               (upd "ifu_i0_instr" 0 e2)))).
  assert (V1 : e1 "ifu_i0_valid" = 0) by wire e1.
  assert (V2 : e2 "ifu_i0_valid" = 1) by wire e2.
  assert (I2 : e2 "ifu_i0_instr" = WriteCSRInst_encode csr) by wire e2.
  assert (V3 : e3 "ifu_i0_valid" = 0) by wire e3.
  assert (D3 : e3 "exu_i0_result_x" = d) by wire e3.
  assert (P2 : pending u2 = Some csr).
  { unfold u2, core_step. cbn [pending]. rewrite V2, I2. cbn [truthy negb Z.eqb].
    unfold decode_write, WriteCSRInst_encode. rewrite Hf, Ho, Ha. done. }
  assert (R2 : cregs u2 = cregs u) by (unfold u2, core_step; cbn [cregs]; by rewrite Hp).
  exists e1, e2, e3, (core_step u2 e3). split.
  - apply closes_drive, closes_clk; [done|by rewrite V1|]. rewrite (core_step_idle u e1 V1 Hp).
    do 2 apply closes_drive. apply closes_rise; [done|by rewrite V1|by rewrite V2|].
    do 3 apply closes_drive. apply closes_clk; [done|by rewrite V3|].
    apply closes_drive, closes_ret.
  - unfold core_step at 1 2. cbn [pending cregs]. rewrite V3, P2, R2, D3. done.
Qed.

Lemma dec_read_csr_runs csr b c u :
  0 <= csr < 2 ^ 12 -> pending u = None ->
  exists e1 e2 c',
    runs (read_csr (ReadCSRInst_encode csr)) (World b c u) [clk e1; valid e2; clk e2] tt
      (World e2 c' u)
    /\ e2 "ifu_i0_instr" = ReadCSRInst_encode csr
    /\ e2 "dec_csr_rddata_d" = rd csr (cregs u csr) /\ c' "ifu_i0_valid" = 0.
Proof.
  intros Hc Hp. destruct (encode_fields csr (funct3_value CSRRS) Hc) as (Ha & Hf & Ho); [cbn; lia|].
  set (e1 := core_outs rd u (upd "ifu_i0_valid" 0 c)).
  set (c2 := upd "ifu_i0_instr" (ReadCSRInst_encode csr) (upd "ifu_i0_valid" 1 e1)).
  set (e2 := core_outs rd u c2).
  assert (V1 : e1 "ifu_i0_valid" = 0) by wire e1.
  assert (V2 : e2 "ifu_i0_valid" = 1) by (unfold e2, c2; rewrite core_wire by done; by env_simpl).
  assert (I2 : e2 "ifu_i0_instr" = ReadCSRInst_encode csr)
    by (unfold e2, c2; rewrite core_wire by done; by env_simpl).
  assert (S2 : core_step u e2 = u).
  { unfold core_step. rewrite V2, I2, Hp. cbn [truthy negb Z.eqb].
    unfold decode_write, ReadCSRInst_encode. rewrite Hf, Ho. destruct u; simpl in *. by subst. }
  exists e1, e2, (upd "ifu_i0_instr" 0 (upd "ifu_i0_valid" 0 e2)).
  split; [|split; [done|split; [|by env_simpl]]].
  - apply closes_drive, closes_clk; [done|by rewrite V1|]. rewrite (core_step_idle u e1 V1 Hp).
    do 2 apply closes_drive. apply closes_rise; [done|by rewrite V1|by rewrite V2|].
    rewrite S2. do 2 apply closes_drive. apply closes_ret.
  - unfold e2. apply core_rddata. unfold c2. by env_simpl.
Qed.

Lemma idle_runs b c u :
  c "ifu_i0_valid" = 0 -> pending u = None ->
  exists e, runs (_ <- await (RisingEdge "clk") ;; Ret tt) (World b c u) [clk e] tt (World e e u)
    /\ e "ifu_i0_valid" = 0.
Proof.
  intros Hv Hp. set (e := core_outs rd u c). assert (V : e "ifu_i0_valid" = 0) by wire e.
  exists e. split; [|done]. apply closes_clk; [done|by rewrite V|].
  rewrite (core_step_idle u e V Hp). apply closes_ret.
Qed.

(** Cycles without an instruction. *)
Lemma cycles_runs n b c u :
  c "ifu_i0_valid" = 0 -> pending u = None ->
  exists es w', runs (clock_cycles "clk" n) (World b c u) ((fun e => clk e) <$> es) tt w'
    /\ length es = n /\ unit_state w' = u /\ wires w' "ifu_i0_valid" = 0.
Proof.
  revert b c. induction n as [|n IH]; intros b c Hv Hp.
  - exists [], (World b c u). by split; [apply closes_ret|].
  - destruct (idle_runs b c u Hv Hp) as (e & R & V).
    destruct (IH e e V Hp) as (es & w' & R' & Hl & Hu & V').
    exists (e :: es), w'. split; [|split; [simpl; by rewrite Hl|done]].
    exact (closes_seq _ _ _ _ _ _ _ _ _ _ _ _ _ _ R R' eq_refl).
Qed.

(** A write and a read back, with the cycles after each of them. *)
Lemma access_runs n (w : world) csr d :
  0 <= csr < 2 ^ 12 -> quiet w ->
  exists e1 e2 e3 e4 e5 e6 e7 es w',
    runs (write_csr (WriteCSRInst_encode csr) d ;;; clock_cycles "clk" 2 ;;;
          read_csr (ReadCSRInst_encode csr) ;;; clock_cycles "clk" n) w
      ([clk e1; valid e2; clk e2; clk e3; clk e4; clk e5; clk e6; valid e7; clk e7]
       ++ ((fun e => clk e) <$> es)) tt w'
    /\ quiet w'
    /\ e2 "ifu_i0_instr" = WriteCSRInst_encode csr /\ e3 "exu_i0_result_x" = d
    /\ e7 "ifu_i0_instr" = ReadCSRInst_encode csr /\ e7 "dec_csr_rddata_d" = rd csr d.
Proof.
  destruct w as [b c u]. unfold quiet. cbn [unit_state]. intros Hc Hp.
  destruct (dec_write_csr_runs csr d b c u Hc Hp) as (e1 & e2 & e3 & u' & R1 & I2 & D3 & V3 & Hp' & Hr).
  destruct (cycles_runs 2 e3 (upd "exu_i0_result_x" 0 e3) u')
    as (es2 & [b5 c5 u5] & R2 & Hl & Hu & V5); [by env_simpl|done|].
  destruct es2 as [|e4 [|e5 [|? ?]]]; try done. cbn [unit_state wires] in *. subst u5.
  destruct (dec_read_csr_runs csr b5 c5 u' Hc Hp') as (e6 & e7 & c7 & R3 & I7 & D7 & V7).
  destruct (cycles_runs n e7 c7 u' V7 Hp') as (es & w8 & R4 & _ & Hu & _).
  exists e1, e2, e3, e4, e5, e6, e7, es, w8.
  split; [|split; [by rewrite Hu|split; [done|split; [done|split; [done|]]]]].
  - eapply closes_seq; [exact R1| |reflexivity]. eapply closes_seq; [exact R2| |reflexivity].
    eapply closes_seq; [exact R3|exact R4|reflexivity].
  - by rewrite D7, Hr, Z.eqb_refl.
Qed.

Lemma clk_left es : Forall (fun s => fired s <> RisingEdge "ifu_i0_valid") ((fun e => clk e) <$> es).
Proof. apply Forall_fmap, Forall_true. intros e. done. Qed.

(** What the monitors make of the accesses of the three tests that write a
    register and read it back. *)
Definition access_tests : list (string * nat) :=
  [("csr_access", 1%nat); ("debug_csrs_access", 2%nat); ("meicidpl", 1%nat)].

(** The word that the driver of a test writes. *)
Definition written (test : string) (d : Z) : Z := if String.eqb test "meicidpl" then 0 else d.

Definition seen_in (test : string) (csr d : Z) : DecInputItem :=
  if String.eqb test "csr_access"
  then dec_instr_item (WriteCSRInst_encode csr) (ReadCSRInst_encode csr) d
  else dec_csr_item csr (written test d).

Definition seen_out (test : string) (csr d : Z) : DecOutputItem :=
  dec_out (if String.eqb test "debug_csrs_access" then 0 else ReadCSRInst_encode csr)
    (rd csr (written test d)) 0 TriggerAnyPktT0 0.

(** The monitor publishes from the segment and leaves only edges of the clock. *)
Ltac seen_by monitor e rest_of_segment :=
  apply (publishes_run _ (RisingEdge "ifu_i0_valid")) with (left := rest_of_segment);
  [by eexists| |repeat (constructor; [done|]); apply clk_left];
  intros cur rest; exists e; unfold monitor; pick_test; rewrite <- app_assoc; run_segment;
  reflexivity.

(** What an access of one of the three tests makes the bench do. *)
Definition accesses (test : string) (it : DecInputItem) (csr : Z) (w : world) : Prop :=
  exists tr w', runs (DecDriver_item test it) w tr tt w' /\ quiet w'
    /\ publishes (DecInputMonitor_run_phase test) tr (seen_in test csr (exu_i0_result_x it))
    /\ publishes (DecOutputMonitor_run_phase test) tr (seen_out test csr (exu_i0_result_x it)).

(** The instructions of the item. *)
Definition assembled (csr : Z) (it : DecInputItem) : Prop :=
  0 <= csr < 2 ^ 12 /\ csrw_instr it = WriteCSRInst_encode csr
  /\ csrr_instr it = ReadCSRInst_encode csr.

Lemma csr_access_segment it csr w :
  assembled csr it -> quiet w -> accesses "csr_access" it csr w.
Proof.
  intros (Hc & Hi & Hr) Hw.
  destruct (access_runs 1 w csr (exu_i0_result_x it) Hc Hw)
    as (e1 & e2 & e3 & e4 & e5 & e6 & e7 & es & w' & R & Hq & I2 & D3 & I7 & D7).
  eexists _, w'. split; [unfold DecDriver_item; pick_test; rewrite Hi, Hr; exact R|].
  split; [done|]. unfold seen_in, seen_out, written. pick_test.
  rewrite <- I2, <- I7, <- D7, <- D3. split.
  - seen_by DecInputMonitor_run_phase e7 ((fun e => clk e) <$> es).
  - seen_by DecOutputMonitor_run_phase e7 ((fun e => clk e) <$> es).
Qed.

Lemma debug_csrs_segment it csr w :
  assembled csr it -> quiet w -> accesses "debug_csrs_access" it csr w.
Proof.
  intros (Hc & Hi & Hr) Hw.
  destruct (encode_fields csr (funct3_value CSRRW) Hc) as (Ha & _); [cbn; lia|].
  destruct (access_runs 2 w csr (exu_i0_result_x it) Hc Hw)
    as (e1 & e2 & e3 & e4 & e5 & e6 & e7 & es & w' & R & Hq & I2 & D3 & I7 & D7).
  assert (csr = Z.shiftr (e2 "ifu_i0_instr") 20) as Hcsr by (by rewrite I2).
  eexists _, w'. split; [unfold DecDriver_item; pick_test; rewrite Hi, Hr; exact R|].
  split; [done|]. unfold seen_in, seen_out, written. pick_test. rewrite <- D7, <- D3. split.
  - rewrite Hcsr. seen_by DecInputMonitor_run_phase e7 ((fun e => clk e) <$> es).
  - seen_by DecOutputMonitor_run_phase e7 ((fun e => clk e) <$> es).
Qed.

Lemma meicidpl_segment it csr w :
  assembled csr it -> quiet w -> accesses "meicidpl" it csr w.
Proof.
  intros (Hc & Hi & Hr) Hw. destruct w as [b c u].
  destruct (encode_fields csr (funct3_value CSRRW) Hc) as (Ha & _); [cbn; lia|].
  destruct (access_runs 1 (World b (upd "pic_pl" (pic_pl it) c) u) csr 0 Hc Hw)
    as (e1 & e2 & e3 & e4 & e5 & e6 & e7 & es & w' & R & Hq & I2 & D3 & I7 & D7).
  assert (csr = Z.shiftr (e2 "ifu_i0_instr") 20) as Hcsr by (by rewrite I2).
  eexists _, w'.
  split; [unfold DecDriver_item; pick_test; rewrite Hi, Hr; apply closes_drive; exact R|].
  split; [done|]. unfold seen_in, seen_out, written. pick_test. rewrite <- I7, <- D7. split.
  - rewrite <- D3, Hcsr.
    seen_by DecInputMonitor_run_phase e7 (clk e7 :: ((fun e => clk e) <$> es)).
  - seen_by DecOutputMonitor_run_phase e7 ((fun e => clk e) <$> es).
Qed.

Definition bench_verdict (test : string) (its : list DecInputItem) (w : world (St := core))
    (cur : env) : result unit :=
  let tr := (closed (I := DecInputItem) "clk" ["ifu_i0_valid"] core_step (core_outs rd)
               (DecDriver_run_phase test its) w).1 in
  DecScoreboard_verdict test
    (monitor_items (DecInputMonitor_run_phase test) tt cur tr)
    (monitor_items (DecOutputMonitor_run_phase test) tt cur tr).

(** A sequence of accesses, checked. *)
Lemma bench_accesses test (csr : DecInputItem -> Z) its w cur :
  test ∈ ["csr_access"; "debug_csrs_access"; "meicidpl"] ->
  quiet w -> Forall (fun it => assembled (csr it) it) its ->
  bench_verdict test its w cur
  = DecScoreboard_verdict test
      ((fun it => seen_in test (csr it) (exu_i0_result_x it)) <$> its)
      ((fun it => seen_out test (csr it) (exu_i0_result_x it)) <$> its).
Proof.
  intros Ht Hw Hits.
  assert (Hseg : forall it v, it ∈ its -> quiet v -> accesses test it (csr it) v).
  { intros it v Hin Hv. apply (proj1 (Forall_forall _ _) Hits) in Hin.
    revert Ht. rewrite !elem_of_cons, elem_of_nil. intros [->|[->|[->|[]]]].
    - by apply csr_access_segment.
    - by apply debug_csrs_segment.
    - by apply meicidpl_segment. }
  assert (Hst : starts_await (RisingEdge "ifu_i0_valid") (DecInputMonitor_run_phase test)
           /\ starts_await (RisingEdge "ifu_i0_valid") (DecOutputMonitor_run_phase test)).
  { revert Ht. rewrite !elem_of_cons, elem_of_nil. intros [->|[->|[->|[]]]]; split; by eexists. }
  destruct Hst as [H1 H2]. unfold bench_verdict, DecDriver_run_phase.
  f_equal; (eapply monitor_segments with (inv := quiet); [eassumption|done|]);
    intros it v Hin Hv; destruct (Hseg it v Hin Hv) as (tr & w' & ? & ? & ? & ?); by exists tr, w'.
Qed.
End Bench.

(** ** What the scoreboard checks *)

#[export] Instance csr_access_spec :
  PairSpec (check_item "csr_access")
    (fun i => exists csr d, 0 <= csr < 2 ^ 12
       /\ i = dec_instr_item (WriteCSRInst_encode csr) (ReadCSRInst_encode csr) d)
    (fun i o => csr_expected (Z.shiftr (csrr_instr i) 20) (exu_i0_result_x i)
                = dec_csr_rddata_d o).
Proof.
  refine {| pair_matches_dec := fun i o => decide (_ = _) |}.
  intros i o b (csr & d & Hc & ->). unfold check_item, check_csr_access. pick_test.
  cbn [csrw_instr csrr_instr exu_i0_result_x dec_instr_item].
  unfold WriteCSRInst_encode, ReadCSRInst_encode.
  destruct (encode_fields csr (funct3_value CSRRW) Hc) as (-> & _); [cbn; lia|].
  destruct (encode_fields csr (funct3_value CSRRS) Hc) as (-> & _); [cbn; lia|].
  rewrite (land_mask csr 13) by done. rewrite (Z.mod_small csr) by lia.
  rewrite !compare_some, (bool_decide_eq_true_2 (csr = csr)) by done. by rewrite andb_true_r.
Qed.

#[export] Instance debug_csrs_spec :
  PairSpec (check_item "debug_csrs_access") (fun _ => True)
    (fun i o => apply_first debug_csrs_lst (csr_addr i) (exu_i0_result_x i) = dec_csr_rddata_d o).
Proof.
  refine {| pair_matches_dec := fun i o => decide (_ = _) |}.
  intros i o b _. unfold check_item. pick_test. by rewrite compare_some.
Qed.

(** The two checks of the trigger test agree. *)
Lemma check_mtdata_tlu i o passed :
  check_mtdata i o passed
  = DecTlu.check_mtdata (item_mtdata (mtdata1 i) (mtdata2 i) (mtsel i)) (trigger_pkt_any o) passed.
Proof. done. Qed.

(** ** The random items *)

Lemma randomize_assembled test r it it' :
  test ∈ ["csr_access"; "debug_csrs_access"; "meicidpl"] ->
  randomize test r it = Ok it' ->
  assembled (csr_addr it') it'
  /\ (test = "meicidpl" -> csr_addr it' = addr MEICIDPL)
  /\ (test = "debug_csrs_access" -> csr_addr it' ∈ (addr <$> debug_csrs_lst)).
Proof.
  assert (Hacc : Forall (fun c => 0 <= addr c < 2 ^ 12) csr_access_lst).
  { unfold csr_access_lst. repeat (apply Forall_cons; split; [cbn; lia|]). by apply Forall_nil. }
  assert (Hdbg : Forall (fun c => 0 <= addr c < 2 ^ 12) debug_csrs_lst).
  { unfold debug_csrs_lst. repeat (apply Forall_cons; split; [cbn; lia|]). by apply Forall_nil. }
  rewrite !elem_of_cons, elem_of_nil. intros [->|[->|[->|[]]]]; unfold randomize; pick_test.
  - destruct (choice_elem csr_access_lst (r 0%nat)) as (c & -> & Hc); [done|].
    cbn [rbind]. intros [= <-]. split; [|done]. split; [|done].
    exact (proj1 (Forall_forall _ _) Hacc c Hc).
  - destruct (choice_elem debug_csrs_lst (r 1%nat)) as (c & -> & Hc); [done|].
    cbn [rbind]. intros [= <-]. split; [|split; [done|]].
    + split; [|done]. exact (proj1 (Forall_forall _ _) Hdbg c Hc).
    + intros _. apply list_elem_of_fmap. by exists c.
  - intros [= <-]. split; [|done]. split; [cbn; lia|done].
Qed.

Lemma sequence_assembled test rs its :
  test ∈ ["csr_access"; "debug_csrs_access"; "meicidpl"] ->
  DecSequence_body test rs = Ok its ->
  Forall (fun it => assembled (csr_addr it) it
            /\ (test = "meicidpl" -> csr_addr it = addr MEICIDPL)) its.
Proof.
  intros Ht. revert its. induction rs as [|r rs IH]; intros its H; [by injection H as <-|].
  cbn [DecSequence_body] in H. apply rbind_ok in H as (it & Hit & H).
  apply rbind_ok in H as (its' & Hits & [= <-]).
  destruct (randomize_assembled test r _ _ Ht Hit) as (? & ? & _).
  constructor; [done|]. by apply IH.
Qed.

(** The value that a test expects of an access. *)
Definition expected (test : string) (csr d : Z) : Z :=
  if String.eqb test "csr_access" then csr_expected csr d else apply_first debug_csrs_lst csr d.

(** ** The bench accepts exactly the right units *)

(** C9: the bench for register accesses through instructions, end to end.  For
    the sequences that [randomize] generates, and a unit that decodes the
    assembled instructions and reads back [rd csr d] after writing [d], the
    driver, the monitors and the scoreboard together accept exactly the units
    that read back what the table of registers expects for every item, and no
    empty run. *)
Theorem dec_csr_access_sound_complete test rs its rd w cur :
  test ∈ ["csr_access"; "debug_csrs_access"] ->
  DecSequence_body test rs = Ok its -> quiet w ->
  (bench_verdict rd test its w cur = Ok tt
   <-> its <> [] /\ Forall (fun it =>
         rd (csr_addr it) (exu_i0_result_x it)
         = expected test (csr_addr it) (exu_i0_result_x it)) its).
Proof.
  intros Ht Hseq Hw.
  assert (Ht' : test ∈ ["csr_access"; "debug_csrs_access"; "meicidpl"]).
  { revert Ht. rewrite !elem_of_cons, elem_of_nil. tauto. }
  assert (Has : Forall (fun it => assembled (csr_addr it) it) its).
  { eapply Forall_impl; [exact (sequence_assembled _ _ _ Ht' Hseq)|]. by intros it [? _]. }
  rewrite (bench_accesses rd test csr_addr) by done. unfold DecScoreboard_verdict.
  revert Ht. rewrite !elem_of_cons, elem_of_nil. intros [->|[->|[]]]; rewrite check_pairs_seen.
  - apply and_iff_compat_l. apply Forall_iff_each. eapply Forall_impl; [exact Has|].
    intros it (Hc & _). destruct (encode_fields (csr_addr it) (funct3_value CSRRS) Hc) as (He & _);
      [cbn; lia|].
    unfold seen_in, seen_out, written, expected. pick_test.
    cbn [csrr_instr exu_i0_result_x dec_csr_rddata_d dec_instr_item dec_out].
    unfold ReadCSRInst_encode. rewrite He. split; congruence.
  - eapply Forall_impl; [exact Has|]. intros it (Hc & _).
    exists (csr_addr it), (exu_i0_result_x it). done.
  - apply and_iff_compat_l. apply Forall_proper; [|done]. intros it.
    unfold seen_in, seen_out, written, expected. pick_test. cbn. split; congruence.
  - by apply Forall_true.
Qed.

Lemma dec_csr_access_sound_complete_witness :
  exists its, DecSequence_body "csr_access" [fun n => 22 + Z.of_nat n; fun n => 16] = Ok its
  /\ bench_verdict (fun a v => csr_expected a v) "csr_access" its
       (World (fun _ => 0) (fun _ => 0) {| pending := None; cregs := fun _ => 0 |}) (fun _ => 0)
     = Ok tt.
Proof.
  eexists. split; [vm_compute; reflexivity|].
  apply (dec_csr_access_sound_complete "csr_access" [fun n => 22 + Z.of_nat n; fun n => 16]).
  - rewrite !elem_of_cons. auto.
  - vm_compute. reflexivity.
  - reflexivity.
  - split; [discriminate|]. repeat constructor.
Defined.

(** The test "meicidpl" only ever sees zero.  Its driver ignores the random
    priority level when it writes the register and writes 0, so the verdict
    depends on nothing but what the unit reads back after 0 was written: success
    when that is 0, and otherwise not the failure of an assertion but an
    [UnboundLocalError], because the message names a variable of another branch. *)
Theorem dec_meicidpl_only_zero rs its rd w cur :
  DecSequence_body "meicidpl" rs = Ok its -> quiet w ->
  bench_verdict rd "meicidpl" its w cur
  = match its with
    | [] => Raise AssertionError
    | _ => if rd (addr MEICIDPL) 0 =? 0 then Ok tt else Raise UnboundLocalError
    end.
Proof.
  intros Hseq Hw.
  assert (Ht : "meicidpl" ∈ ["csr_access"; "debug_csrs_access"; "meicidpl"])
    by (rewrite !elem_of_cons; auto).
  pose proof (sequence_assembled _ _ _ Ht Hseq) as Has.
  rewrite (bench_accesses rd "meicidpl" csr_addr);
    [|done|done|eapply Forall_impl; [exact Has|]; by intros it [? _]].
  unfold DecScoreboard_verdict.
  assert (H : forall passed, check_pairs (check_item "meicidpl")
      ((fun it => seen_in "meicidpl" (csr_addr it) (exu_i0_result_x it)) <$> its)
      ((fun it => seen_out rd "meicidpl" (csr_addr it) (exu_i0_result_x it)) <$> its) passed
    = match its with
      | [] => Ok passed
      | _ => if rd (addr MEICIDPL) 0 =? 0 then Ok (set_initial passed)
             else Raise UnboundLocalError
      end).
  { clear Hseq. induction Has as [|it its [_ Ha] _ IH]; intros passed; [done|].
    cbn [fmap list_fmap check_pairs]. unfold check_item at 1. pick_test.
    unfold seen_in at 1, seen_out at 1, written. pick_test.
    rewrite (Ha eq_refl). cbn [exu_i0_result_x dec_csr_rddata_d dec_csr_item dec_out].
    change (out MEICIDPL 0) with 0. rewrite (Z.eqb_sym 0).
    destruct (rd (addr MEICIDPL) 0 =? 0); [|done]. cbn [negb rbind]. rewrite IH.
    by destruct its, passed. }
  rewrite H. destruct its; [done|]. by destruct (_ =? 0).
Qed.

Lemma dec_meicidpl_only_zero_witness :
  exists its, DecSequence_body "meicidpl" [fun _ => 5] = Ok its
  /\ (pic_pl <$> its) = [5]
  /\ bench_verdict (fun _ v => v + 1) "meicidpl" its
       (World (fun _ => 0) (fun _ => 0) {| pending := None; cregs := fun _ => 0 |}) (fun _ => 0)
     = Raise UnboundLocalError.
Proof.
  eexists. split; [vm_compute; reflexivity|]. split; [reflexivity|].
  apply (dec_meicidpl_only_zero [fun _ => 5]); [vm_compute; reflexivity|reflexivity].
Defined.
