(* ===== verification/Axi4ToAhb.v ===== *)
(** * AXI4 to AHB-Lite bridge bench: verification/block/lib_axi4_to_ahb/

    The bus functional models of the two AXI channels and of the AHB-Lite slave
    (axi_w_bfm.py, axi_r_bfm.py, ahb_lite_bfm.py), the sequence items
    (axi_w_seq.py, axi_r_seq.py, ahb_lite_seq.py), the drivers of the agents
    (axi_w_agent.py, axi_r_agent.py, ahb_lite_agent.py), the coordinator
    (coordinator_seq.py) and the scoreboard of testbench.py.

    A queue that a coroutine polls with [get_nowait] is seen by it as the list
    of what the successive polls find, [None] when the queue is empty.  A put
    into a queue without a bound is a [publish]. *)

From S2P Require Import Prelude Cocotb.
From stdpp Require Import base list strings.
From Stdlib Require Import ZArith Lia.

#[local] Open Scope string_scope.
#[local] Open Scope list_scope.
#[local] Open Scope Z_scope.

(** ** axi_pkg.py and ahb_lite_pkg.py *)

Definition OKAY : Z := 0.
Definition MAX_8B_TRANSFER : Z := 3.
Definition IDLE : Z := 0.
Definition NONSEQ : Z := 2.

Inductive AHB_LITE_NOTIFICATION := AHB_LITE_WRITE | AHB_LITE_READ | AHB_LITE_IDLE.

#[export] Instance notification_eq_dec : EqDecision AHB_LITE_NOTIFICATION.
Proof. solve_decision. Defined.

(** ** Sequence items *)

Record AXIWriteItem := {
  axi_awvalid : Z; axi_awid : Z; axi_awaddr : Z; axi_awsize : Z; axi_awprot : Z;
  axi_wvalid : Z; axi_wdata : Z; axi_wstrb : Z; axi_wlast : Z; axi_bready : Z }.

Record AXIReadItem := {
  axi_arvalid : Z; axi_arid : Z; axi_araddr : Z; axi_arsize : Z; axi_arprot : Z;
  axi_rready : Z }.

Record AHBItem := { ahb_hrdata : Z; ahb_hready : Z; ahb_hresp : Z }.

(** [AXI_DATA_WIDTH / 8] strobes, for the 64 bits that the environment sets. *)
Definition AXI_NUM_STRB_BITS : Z := 8.
Definition all_strobes : Z := Z.ones AXI_NUM_STRB_BITS.

(** The classes of axi_w_seq.py; the last three fields of the constructor that
    vary are [wvalid], [wlast] and [bready]. *)
Definition AXIWriteTransactionRequestSeqItem (r_id r_addr : Z) : AXIWriteItem :=
  {| axi_awvalid := 1; axi_awid := randint 0 1 r_id; axi_awaddr := 8 * randint 0 0x1FFFFFFF r_addr;
     axi_awsize := MAX_8B_TRANSFER; axi_awprot := 0; axi_wvalid := 0; axi_wdata := 0;
     axi_wstrb := all_strobes; axi_wlast := 0; axi_bready := 0 |}.

Definition AXIWriteLastDataSeqItem (r_data : Z) : AXIWriteItem :=
  {| axi_awvalid := 0; axi_awid := 0; axi_awaddr := 0; axi_awsize := MAX_8B_TRANSFER;
     axi_awprot := 0; axi_wvalid := 1; axi_wdata := randint 0 0xFFFFFFFFFFFFFFFF r_data;
     axi_wstrb := all_strobes; axi_wlast := 1; axi_bready := 0 |}.

Definition AXIWriteResponseWriteSeqItem : AXIWriteItem :=
  {| axi_awvalid := 0; axi_awid := 0; axi_awaddr := 0; axi_awsize := MAX_8B_TRANSFER;
     axi_awprot := 0; axi_wvalid := 0; axi_wdata := 0; axi_wstrb := all_strobes; axi_wlast := 0;
     axi_bready := 1 |}.

Definition AXIWriteInactiveSeqItem : AXIWriteItem :=
  {| axi_awvalid := 0; axi_awid := 0; axi_awaddr := 0; axi_awsize := 0; axi_awprot := 0;
     axi_wvalid := 0; axi_wdata := 0; axi_wstrb := 0; axi_wlast := 0; axi_bready := 0 |}.

(** The driver's dispatch on the class of the item. *)
Inductive AXIWriteSeqItem :=
  | WInactive
  | WRequest (r_id r_addr : Z)
  | WLastData (r_data : Z)
  | WResponse.

Definition w_item (i : AXIWriteSeqItem) : AXIWriteItem :=
  match i with
  | WInactive => AXIWriteInactiveSeqItem
  | WRequest r_id r_addr => AXIWriteTransactionRequestSeqItem r_id r_addr
  | WLastData r_data => AXIWriteLastDataSeqItem r_data
  | WResponse => AXIWriteResponseWriteSeqItem
  end.

Definition AXIWriteTransactionRequestSeq (r_id r_addr : Z) : list AXIWriteSeqItem :=
  [WInactive; WRequest r_id r_addr; WInactive].
Definition AXIWriteDataSeq (r_data : Z) : list AXIWriteSeqItem :=
  [WInactive; WLastData r_data; WInactive].
Definition AXIWriteResponseSeq : list AXIWriteSeqItem := [WInactive; WResponse; WInactive].

Definition AXIReadTransactionRequestSeqItem (r_addr : Z) : AXIReadItem :=
  {| axi_arvalid := 1; axi_arid := 0; axi_araddr := 8 * randint 0 0x1FFFFFFF r_addr;
     axi_arsize := MAX_8B_TRANSFER; axi_arprot := 0; axi_rready := 0 |}.
Definition AXIReadResponseReadSeqItem : AXIReadItem :=
  {| axi_arvalid := 0; axi_arid := 0; axi_araddr := 0; axi_arsize := MAX_8B_TRANSFER;
     axi_arprot := 0; axi_rready := 1 |}.
Definition AXIReadInactiveSeqItem : AXIReadItem :=
  {| axi_arvalid := 0; axi_arid := 0; axi_araddr := 0; axi_arsize := 0; axi_arprot := 0;
     axi_rready := 0 |}.

Definition AXIReadTransactionRequestSeq (r_addr : Z) : list AXIReadItem :=
  [AXIReadTransactionRequestSeqItem r_addr; AXIReadInactiveSeqItem].
Definition AXIReadTransactionResponseSeq : list AXIReadItem :=
  [AXIReadResponseReadSeqItem; AXIReadInactiveSeqItem].

Definition AHBLiteReadyReadSeqItem (r_data : Z) : AHBItem :=
  {| ahb_hrdata := randint 0 255 r_data; ahb_hready := 1; ahb_hresp := OKAY |}.
Definition AHBLiteReadyWriteSeqItem : AHBItem :=
  {| ahb_hrdata := 0; ahb_hready := 1; ahb_hresp := OKAY |}.
Definition AHBLiteReadyNoDataSeqItem : AHBItem :=
  {| ahb_hrdata := 0; ahb_hready := 1; ahb_hresp := OKAY |}.

Definition AHBLiteAcceptWriteSeq : list AHBItem :=
  [AHBLiteReadyNoDataSeqItem; AHBLiteReadyWriteSeqItem].
Definition AHBLiteAcceptReadSeq (r_data : Z) : list AHBItem :=
  [AHBLiteReadyNoDataSeqItem; AHBLiteReadyReadSeqItem r_data].

(** ** The bus functional models *)

(** [for s in signals: s.value = 0] *)
Definition drive_zero {I} (signals : list string) : proc I unit :=
  for_each signals (fun s => drive s 0).

(** [if self.rst_n.value == 0: ...; await RisingEdge(self.rst_n)] *)
Definition in_reset {I} (idle : proc I unit) : proc I unit :=
  e <- now ;;
  if e "rst_l" =? 0 then idle ;;; (_ <- await (RisingEdge "rst_l") ;; Ret tt) else Ret tt.

Definition AXI_W_CHAN_DRV_SIGNALS : list string :=
  ["axi_awvalid"; "axi_awid"; "axi_awaddr"; "axi_awsize"; "axi_awprot"; "axi_wvalid";
   "axi_wdata"; "axi_wstrb"; "axi_wlast"; "axi_bready"].

Definition AXI_R_CHAN_DRV_SIGNALS : list string :=
  ["axi_arvalid"; "axi_arid"; "axi_araddr"; "axi_arsize"; "axi_arprot"; "axi_rready"].

Definition AXI_W_CHAN_RSP_SIGNALS : list string :=
  ["axi_awready"; "axi_wready"; "axi_bvalid"; "axi_bresp"; "axi_bid"].

Definition AXI_R_CHAN_RSP_SIGNALS : list string :=
  ["axi_arready"; "axi_rvalid"; "axi_rid"; "axi_rdata"; "axi_rresp"; "axi_rlast"].

Definition AHB_RSP_SIGNALS : list string :=
  ["ahb_haddr"; "ahb_hburst"; "ahb_hmastlock"; "ahb_hprot"; "ahb_hsize"; "ahb_htrans";
   "ahb_hwrite"; "ahb_hwdata"].

(** [tuple(sig.value for sig in sigs)] *)
Definition sample_signals (signals : list string) (e : env) : list Z := e <$> signals.

Definition drive_w {I} (i : AXIWriteItem) : proc I unit :=
  drive "axi_awvalid" (axi_awvalid i) ;;; drive "axi_awid" (axi_awid i) ;;;
  drive "axi_awaddr" (axi_awaddr i) ;;; drive "axi_awsize" (axi_awsize i) ;;;
  drive "axi_awprot" (axi_awprot i) ;;; drive "axi_wvalid" (axi_wvalid i) ;;;
  drive "axi_wdata" (axi_wdata i) ;;; drive "axi_wstrb" (axi_wstrb i) ;;;
  drive "axi_wlast" (axi_wlast i) ;;; drive "axi_bready" (axi_bready i).

(** One iteration of [AXIWriteChannelBFM.drive]; the state is what the polls of
    [req_driver_q] will find. *)
Definition AXIWrite_drive (offers : list (option AXIWriteItem))
  : proc AXIWriteItem (list (option AXIWriteItem)) :=
  in_reset (drive_zero AXI_W_CHAN_DRV_SIGNALS) ;;;
  (_ <- await (RisingEdge "clk") ;;
  match offers with
  | Some item :: offers => drive_w item ;;; Ret offers
  | None :: offers => Ret offers
  | [] => Ret []
  end).

Definition sample_w (e : env) : AXIWriteItem :=
  {| axi_awvalid := e "axi_awvalid"; axi_awid := e "axi_awid"; axi_awaddr := e "axi_awaddr";
     axi_awsize := e "axi_awsize"; axi_awprot := e "axi_awprot"; axi_wvalid := e "axi_wvalid";
     axi_wdata := e "axi_wdata"; axi_wstrb := e "axi_wstrb"; axi_wlast := e "axi_wlast";
     axi_bready := e "axi_bready" |}.

(** A transfer on the address or on the data channel. *)
Definition w_handshake (e : env) : bool :=
  (truthy (e "axi_awvalid") && truthy (e "axi_awready"))
  || (truthy (e "axi_wvalid") && truthy (e "axi_wready")).

Definition AXIWrite_req_monitor (_ : unit) : proc AXIWriteItem unit :=
  in_reset (Ret tt) ;;;
  (e <- await (RisingEdge "clk") ;;
  if w_handshake e then publish (sample_w e) else Ret tt).

Definition AXIWrite_rsp_monitor (_ : unit) : proc (list Z) unit :=
  in_reset (Ret tt) ;;;
  (e <- await (RisingEdge "clk") ;;
  if truthy (e "axi_bvalid") && truthy (e "axi_bready")
  then publish (sample_signals AXI_W_CHAN_RSP_SIGNALS e) else Ret tt).

Definition drive_r {I} (i : AXIReadItem) : proc I unit :=
  drive "axi_arvalid" (axi_arvalid i) ;;; drive "axi_arid" (axi_arid i) ;;;
  drive "axi_araddr" (axi_araddr i) ;;; drive "axi_arsize" (axi_arsize i) ;;;
  drive "axi_arprot" (axi_arprot i) ;;; drive "axi_rready" (axi_rready i).

Definition TIMEOUT_THRESHOLD : nat := 20.

(** "Handshake ARVALID <-> ARREADY": [more] further rounds may begin, after which
    the timeout raises.  [full] says whether [rsp_driver_q], of size 1, holds a
    notification, and [drains] whether the agent takes it during each cycle. *)
Fixpoint ar_handshake {I} (more : nat) (full : bool) (drains : list bool)
  : proc I (bool * list bool) :=
  e <- now ;;
  if e "axi_arready" =? 0 then
    if full then throw QueueFull
    else
      _ <- await (RisingEdge "clk") ;;
      match more with
      | O => throw TimeoutError
      | S more =>
          match drains with
          | d :: drains => ar_handshake more (negb d) drains
          | [] => ar_handshake more true []
          end
      end
  else Ret (full, drains).

Record read_state := {
  r_offers : list (option AXIReadItem); r_full : bool; r_drains : list bool }.

(** One iteration of [AXIReadChannelBFM.drive].  The values just written are not
    yet on the wires when [axi_arvalid] is tested. *)
Definition AXIRead_drive (st : read_state) : proc AXIReadItem read_state :=
  in_reset (drive_zero AXI_R_CHAN_DRV_SIGNALS) ;;;
  (_ <- await (RisingEdge "clk") ;;
  offers <- match r_offers st with
            | Some item :: offers => drive_r item ;;; Ret offers
            | None :: offers => Ret offers
            | [] => Ret []
            end ;;
  e <- now ;;
  if truthy (e "axi_arvalid") then
    p <- ar_handshake TIMEOUT_THRESHOLD (r_full st) (r_drains st) ;;
    Ret {| r_offers := offers; r_full := p.1; r_drains := p.2 |}
  else Ret {| r_offers := offers; r_full := r_full st; r_drains := r_drains st |}).

Definition sample_r (e : env) : AXIReadItem :=
  {| axi_arvalid := e "axi_arvalid"; axi_arid := e "axi_arid"; axi_araddr := e "axi_araddr";
     axi_arsize := e "axi_arsize"; axi_arprot := e "axi_arprot"; axi_rready := e "axi_rready" |}.

Definition AXIRead_req_monitor (_ : unit) : proc AXIReadItem unit :=
  in_reset (Ret tt) ;;;
  (e <- await (RisingEdge "clk") ;;
  if truthy (e "axi_arvalid") && truthy (e "axi_arready") then publish (sample_r e) else Ret tt).

Definition AXIRead_rsp_monitor (_ : unit) : proc (list Z) unit :=
  in_reset (Ret tt) ;;;
  (e <- await (RisingEdge "clk") ;;
  if truthy (e "axi_rvalid") && truthy (e "axi_rready")
  then publish (sample_signals AXI_R_CHAN_RSP_SIGNALS e) else Ret tt).

Definition drive_ahb {I} (i : AHBItem) : proc I unit :=
  drive "ahb_hrdata" (ahb_hrdata i) ;;; drive "ahb_hready" (ahb_hready i) ;;;
  drive "ahb_hresp" (ahb_hresp i).

Definition ahb_zero : AHBItem := {| ahb_hrdata := 0; ahb_hready := 0; ahb_hresp := OKAY |}.

(** One iteration of [AHBLiteBFM.drive]; the state is [htrans] and the polls. *)
Definition AHBLite_drive (st : Z * list (option AHBItem))
  : proc AHB_LITE_NOTIFICATION (Z * list (option AHBItem)) :=
  let '(prev_htrans, offers) := st in
  in_reset (drive_ahb ahb_zero) ;;;
  (e <- await (RisingEdge "clk") ;;
  htrans <- (if e "ahb_htrans" =? IDLE then drive_ahb ahb_zero ;;; Ret IDLE
             else if e "ahb_htrans" =? NONSEQ then
               (if negb (NONSEQ =? prev_htrans)
                then publish (if truthy (e "ahb_hwrite") then AHB_LITE_WRITE else AHB_LITE_READ)
                else Ret tt) ;;; Ret NONSEQ
             else Ret prev_htrans) ;;
  match offers with
  | Some item :: offers => drive_ahb item ;;; Ret (htrans, offers)
  | None :: offers => drive_ahb ahb_zero ;;; Ret (htrans, offers)
  | [] => drive_ahb ahb_zero ;;; Ret (htrans, [])
  end).

Definition AHBLite_req_monitor (_ : unit) : proc AHBItem unit :=
  e <- await (RisingEdge "clk") ;;
  if truthy (e "ahb_hready")
  then publish {| ahb_hrdata := e "ahb_hrdata"; ahb_hready := e "ahb_hready";
                  ahb_hresp := e "ahb_hresp" |}
  else Ret tt.

Definition AHBLite_rsp_monitor (_ : unit) : proc (list Z) unit :=
  e <- await (RisingEdge "clk") ;;
  if truthy (e "ahb_hready") then publish (sample_signals AHB_RSP_SIGNALS e) else Ret tt.

(** ** The drivers of the agents *)

(** [wait_handshake(sig_name)]: [more] further rounds may begin. *)
Fixpoint wait_handshake {I} (sig_name : string) (more : nat) : proc I unit :=
  e <- await (RisingEdge "clk") ;;
  if truthy (e sig_name) then Ret tt
  else match more with
       | O => throw TimeoutError
       | S more => wait_handshake sig_name more
       end.

Definition W_TIMEOUT_THRESHOLD : nat := 30.

(** One item of [AXIWriteChannelDriver.run_phase]: put it into the queue of the
    model ([publish]), and wait for the handshake of its class. *)
Definition AXIWriteChannelDriver_item (i : AXIWriteSeqItem) : proc AXIWriteItem unit :=
  publish (w_item i) ;;;
  match i with
  | WInactive => Ret tt
  | WRequest _ _ => wait_handshake "axi_awready" W_TIMEOUT_THRESHOLD
  | WLastData _ => wait_handshake "axi_wready" W_TIMEOUT_THRESHOLD
  | WResponse => wait_handshake "axi_bvalid" W_TIMEOUT_THRESHOLD
  end.

(** One item of [AXIReadChannelDriver.run_phase]. *)
Definition AXIReadChannelDriver_item (i : AXIReadItem) : proc AXIReadItem unit := publish i.

(** [AHBLiteDriver.run_phase] after a notification: two items are put. *)
Definition AHBLiteDriver_pair (i j : AHBItem) : proc AHBItem unit := publish i ;;; publish j.

(** ** The coordinator *)

(** What the coordinator does: the sequences it starts on the sequencers, the
    cycles it waits. *)
Inductive command :=
  | StartW (items : list AXIWriteSeqItem)
  | StartR (items : list AXIReadItem)
  | StartAhb (items : list AHBItem)
  | Delay (cycles : nat).

(** The commands, and whether the coordinator goes on with the notifications
    still to come ([Some]), waits for a notification for ever ([None]), or has
    raised. *)
Definition coord := (list command * result (option (list AHB_LITE_NOTIFICATION)))%type.

(** [a; b] *)
Definition then_do (a : coord) (b : list AHB_LITE_NOTIFICATION -> coord) : coord :=
  match a with
  | (cs, Ok (Some rsps)) => let '(cs', o) := b rsps in (cs ++ cs', o)
  | a => a
  end.

Definition ahb_response_handler (is_read : bool) (r_data : Z)
    (rsps : list AHB_LITE_NOTIFICATION) : coord :=
  match rsps with
  | [] => ([], Ok None)
  | response :: rsps =>
      let expected_response := if is_read then AHB_LITE_READ else AHB_LITE_WRITE in
      if decide (response = expected_response) then
        ([StartAhb (if is_read then AHBLiteAcceptReadSeq r_data else AHBLiteAcceptWriteSeq)],
         Ok (Some rsps))
      else ([], Raise ValueError)
  end.

Definition emit (cs : list command) (rsps : list AHB_LITE_NOTIFICATION) : coord :=
  (cs, Ok (Some rsps)).

(** The random values of one transaction. *)
Record draws := { d_id : Z; d_addr : Z; d_data : Z }.

Definition axi_write (d : draws) (rsps : list AHB_LITE_NOTIFICATION) : coord :=
  then_do (emit [StartW (AXIWriteTransactionRequestSeq (d_id d) (d_addr d)); Delay 5;
                 StartW (AXIWriteDataSeq (d_data d))] rsps) (fun rsps =>
  then_do (ahb_response_handler false (d_data d) rsps) (fun rsps =>
  emit [StartW AXIWriteResponseSeq] rsps)).

Definition axi_read (d : draws) (rsps : list AHB_LITE_NOTIFICATION) : coord :=
  then_do (emit [StartR (AXIReadTransactionRequestSeq (d_addr d)); Delay 5] rsps) (fun rsps =>
  then_do (ahb_response_handler true (d_data d) rsps) (fun rsps =>
  emit [Delay 5; StartR AXIReadTransactionResponseSeq] rsps)).

(** [for _ in range(n): await body; ...] *)
Fixpoint repeat_do {X} (body : X -> list AHB_LITE_NOTIFICATION -> coord) (xs : list X)
    (rsps : list AHB_LITE_NOTIFICATION) : coord :=
  match xs with
  | [] => ([], Ok (Some rsps))
  | x :: xs => then_do (body x rsps) (repeat_do body xs)
  end.

Definition TestWriteChannelSeq : list draws -> list AHB_LITE_NOTIFICATION -> coord :=
  repeat_do (fun d rsps => then_do (axi_write d rsps) (emit [Delay 10])).

Definition TestReadChannelSeq : list draws -> list AHB_LITE_NOTIFICATION -> coord :=
  repeat_do (fun d rsps => then_do (axi_read d rsps) (emit [Delay 10])).

(** [random.randint(0, 1)] chooses a read. *)
Definition TestBothChannelsSeq : list (Z * draws) -> list AHB_LITE_NOTIFICATION -> coord :=
  repeat_do (fun p rsps => if truthy (randint 0 1 p.1) then axi_read p.2 rsps
                           else axi_write p.2 rsps).

(** ** The scoreboard *)

(** A transaction: ["TYPE"], ["ADDRESS"], ["DATA"]. *)
Record transaction := { is_write : bool; t_address : Z; t_data : Z }.

#[export] Instance transaction_eq_dec : EqDecision transaction.
Proof. solve_decision. Defined.

(** The dictionaries of [axi_w_req_list] have one of two keys. *)
Inductive w_req := ReqAddress (a : Z) | ReqData (d : Z).

Definition w_req_of (item : AXIWriteItem) : result w_req :=
  if truthy (axi_awvalid item) then Ok (ReqAddress (axi_awaddr item))
  else if truthy (axi_wvalid item) then Ok (ReqData (axi_wdata item))
  else Raise ValueError.

(** [xs[0::2]] and [xs[1::2]] *)
Fixpoint evens {X} (xs : list X) : list X :=
  match xs with
  | x :: _ :: xs => x :: evens xs
  | _ => xs
  end.

Definition odds {X} (xs : list X) : list X := evens (tail xs).

(** [transaction_requests[id]["ADDRESS"]], [transaction_data[id]["DATA"]] *)
Definition w_transaction (p : w_req * w_req) : result transaction :=
  match p with
  | (ReqAddress a, ReqData d) => Ok {| is_write := true; t_address := a; t_data := d |}
  | _ => Raise KeyError
  end.

(** Index into the tuple of a response. *)
Definition item_at (item : list Z) (i : nat) : result Z :=
  match item !! i with Some v => Ok v | None => Raise IndexError end.

Definition check_w_rsp (item : list Z) : result unit :=
  let! bvalid := item_at item 2 in
  let! bresp := item_at item 3 in
  let! _ := py_assert (bvalid =? 1) in
  py_assert (bresp =? OKAY).

Definition check_axi_write (reqs : list AXIWriteItem) (rsps : list (list Z))
  : result (list transaction) :=
  let! req_list := map_result w_req_of reqs in
  let transaction_requests := evens req_list in
  let transaction_data := odds req_list in
  let! _ := py_assert (Nat.eqb (length transaction_requests) (length transaction_data)) in
  let! transactions := map_result w_transaction (zip transaction_requests transaction_data) in
  let! rsp_list := map_result check_w_rsp rsps in
  let! _ := py_assert (Nat.eqb (length transaction_requests) (length rsp_list)) in
  Ok transactions.

Definition r_req_of (item : AXIReadItem) : result Z :=
  let! _ := py_assert (axi_arvalid item =? 1) in Ok (axi_araddr item).

Definition check_r_rsp (item : list Z) : result Z :=
  let! rvalid := item_at item 1 in
  let! rdata := item_at item 3 in
  let! rresp := item_at item 4 in
  let! _ := py_assert (rvalid =? 1) in
  let! _ := py_assert (rresp =? OKAY) in
  Ok rdata.

Definition check_axi_read (reqs : list AXIReadItem) (rsps : list (list Z))
  : result (list transaction) :=
  let! req_list := map_result r_req_of reqs in
  let! rsp_list := map_result check_r_rsp rsps in
  let! _ := py_assert (Nat.eqb (length req_list) (length rsp_list)) in
  Ok ((fun p => {| is_write := false; t_address := p.1; t_data := p.2 |}) <$> zip req_list rsp_list).

(** [ahb_rsp_dict] after an even beat; a read has no data yet. *)
Definition ahb_beat (item : list Z) : result (bool * Z * Z) :=
  let! haddr := item_at item 0 in
  let! htrans := item_at item 5 in
  let! hwrite := item_at item 6 in
  let! hwdata := item_at item 7 in
  let! _ := py_assert (htrans =? NONSEQ) in
  Ok (truthy hwrite, haddr, hwdata).

(** The loop over the responses; [pending] is the dictionary being filled, which
    is there on odd beats. *)
Fixpoint ahb_rsp_loop (items : list (list Z)) (pending : option (bool * Z * Z))
    (acc : list (bool * Z * Z)) : result (list (bool * Z * Z)) :=
  match items with
  | [] => Ok acc
  | item :: items =>
      let! _ := item_at item 7 in
      match pending with
      | None => let! d := ahb_beat item in ahb_rsp_loop items (Some d) acc
      | Some d => ahb_rsp_loop items None (acc ++ [d])
      end
  end.

Fixpoint ahb_req_loop (items : list AHBItem) (is_even : bool) (acc : list Z) : result (list Z) :=
  match items with
  | [] => Ok acc
  | item :: items =>
      let! _ := py_assert (ahb_hready item =? 1) in
      let! _ := py_assert (ahb_hresp item =? OKAY) in
      ahb_req_loop items (negb is_even) (if is_even then acc else acc ++ [ahb_hrdata item])
  end.

Definition check_ahb (reqs : list AHBItem) (rsps : list (list Z)) : result (list transaction) :=
  let! rsp_list := ahb_rsp_loop rsps None [] in
  let! req_list := ahb_req_loop reqs true [] in
  let! _ := py_assert (Nat.eqb (length rsp_list) (length req_list)) in
  Ok ((fun p => let '(w, haddr, hwdata, hrdata) := p in
         {| is_write := w; t_address := haddr; t_data := if w then hwdata else hrdata |})
      <$> zip rsp_list req_list).

(** What the six FIFOs hold. *)
Record fifos := {
  axi_w_req : list AXIWriteItem; axi_w_rsp : list (list Z);
  axi_r_req : list AXIReadItem; axi_r_rsp : list (list Z);
  ahb_req : list AHBItem; ahb_rsp : list (list Z) }.

Definition check_phase (q : fifos) : result unit :=
  let! axi_w_transactions := check_axi_write (axi_w_req q) (axi_w_rsp q) in
  let! axi_r_transactions := check_axi_read (axi_r_req q) (axi_r_rsp q) in
  let! ahb_transactions := check_ahb (ahb_req q) (ahb_rsp q) in
  let ahb_w_transactions := List.filter is_write ahb_transactions in
  let ahb_r_transactions := List.filter (fun t => negb (is_write t)) ahb_transactions in
  let! _ := py_assert (Nat.eqb (length axi_w_transactions) (length ahb_w_transactions)) in
  let! _ := py_assert (Nat.eqb (length axi_r_transactions) (length ahb_r_transactions)) in
  let! _ := py_assert (bool_decide (axi_w_transactions = ahb_w_transactions)) in
  py_assert (bool_decide (axi_r_transactions = ahb_r_transactions)).

(** [BaseTest.do_reset] *)
Definition do_reset_zero : list string :=
  ["dec_tlu_force_halt"] ++ AXI_W_CHAN_DRV_SIGNALS ++ AXI_R_CHAN_DRV_SIGNALS
  ++ ["ahb_hrdata"; "ahb_hready"; "ahb_hresp"].

(** [BaseTest.config] *)
Definition config {I} : proc I unit :=
  drive "scan_mode" 0 ;;; drive "bus_clk_en" 1 ;;; drive "clk_override" 0 ;;;
  drive "dec_tlu_force_halt" 0.

Definition do_reset {I} (signalName : string) (isActiveHigh : bool) : proc I unit :=
  drive "rst_l" 0 ;;; drive "free_clk" 0 ;;; drive "bus_clk_en" 1 ;;; drive "clk_override" 0 ;;;
  drive_zero do_reset_zero ;;;
  drive signalName (Z.b2z isActiveHigh) ;;;
  config ;;;
  (_ <- await Timer ;;
  drive signalName (Z.b2z (negb isActiveHigh))).

(** [BaseTest.run_phase], between the start of the clocks [clk] and [free_clk]
    and the end of the test. *)
Definition run_phase {I} (run : proc I unit) : proc I unit :=
  do_reset "rst_l" false ;;;
  clock_cycles "clk" 2 ;;;
  run ;;;
  clock_cycles "clk" 10.

(** ** Facts *)

Lemma py_assert_ok c : py_assert c = Ok tt <-> c = true.
Proof. by destruct c. Qed.

(** *** The AXI write channel *)

(** The requests of a list of writes: an address, then its data. *)
Definition w_entries (ws : list transaction) : list w_req :=
  flat_map (fun t => [ReqAddress (t_address t); ReqData (t_data t)]) ws.

Lemma evens_entries ws : evens (w_entries ws) = (fun t => ReqAddress (t_address t)) <$> ws.
Proof. induction ws as [|t ws IH]; [done|]. simpl. by f_equal. Qed.

Lemma odds_entries ws : odds (w_entries ws) = (fun t => ReqData (t_data t)) <$> ws.
Proof.
  unfold odds. induction ws as [|t ws IH]; [done|]. cbn [w_entries flat_map app tail fmap list_fmap].
  fold (w_entries ws). destruct ws as [|u ws]; [done|].
  cbn [w_entries flat_map app] in *. cbn [evens]. f_equal. exact IH.
Qed.

Lemma w_transactions ws :
  Forall (fun t => is_write t = true) ws ->
  map_result w_transaction (zip ((fun t => ReqAddress (t_address t)) <$> ws)
                                ((fun t => ReqData (t_data t)) <$> ws)) = Ok ws.
Proof.
  induction 1 as [|[w a d] ws Hw _ IH]; [done|]. simpl in Hw. subst.
  cbn [fmap list_fmap zip zip_with map_result]. by rewrite IH.
Qed.

Lemma check_axi_write_ok ws reqs rsps :
  Forall (fun t => is_write t = true) ws ->
  map_result w_req_of reqs = Ok (w_entries ws) ->
  map_result check_w_rsp rsps = Ok (replicate (length ws) tt) ->
  check_axi_write reqs rsps = Ok ws.
Proof.
  intros Hw Hreq Hrsp. unfold check_axi_write. rewrite Hreq. cbn [rbind].
  rewrite evens_entries, odds_entries, !length_fmap, Nat.eqb_refl. cbn [py_assert rbind].
  rewrite w_transactions by done. cbn [rbind]. rewrite Hrsp. cbn [rbind].
  by rewrite length_replicate, Nat.eqb_refl.
Qed.

Lemma check_axi_read_ok rs reqs rsps :
  Forall (fun t => is_write t = false) rs ->
  map_result r_req_of reqs = Ok (t_address <$> rs) ->
  map_result check_r_rsp rsps = Ok (t_data <$> rs) ->
  check_axi_read reqs rsps = Ok rs.
Proof.
  intros Hr Hreq Hrsp. unfold check_axi_read. rewrite Hreq, Hrsp. cbn [rbind].
  rewrite !length_fmap, Nat.eqb_refl. cbn [py_assert rbind]. f_equal. clear -Hr.
  induction Hr as [|[w a d] rs Hw _ IH]; [done|]. simpl in Hw. subst.
  cbn [fmap list_fmap zip zip_with]. by f_equal.
Qed.

(** *** The AHB side *)

(** A transfer as the two monitors of the AHB side see it: two beats with HREADY
    high on each. *)
Record ahb_seen := {
  seen : transaction; rsp_first : list Z; rsp_second : list Z;
  req_first : AHBItem; req_second : AHBItem }.

Definition ready (i : AHBItem) : Prop := ahb_hready i = 1 /\ ahb_hresp i = OKAY.

(** The first beat carries the direction, the address and, of a write, the data;
    the second beat carries the data of a read. *)
Definition ahb_seen_ok (s : ahb_seen) : Prop :=
  length (rsp_first s) = 8%nat /\ length (rsp_second s) = 8%nat
  /\ ready (req_first s) /\ ready (req_second s)
  /\ exists hwdata, ahb_beat (rsp_first s) = Ok (is_write (seen s), t_address (seen s), hwdata)
       /\ t_data (seen s) = if is_write (seen s) then hwdata else ahb_hrdata (req_second s).

Lemma item_at_7 item : length item = 8%nat -> exists v, item_at item 7 = Ok v.
Proof. destruct item as [|a [|b [|c [|d [|e [|f [|g [|h [|i l]]]]]]]]]; try done. by exists h. Qed.

Lemma ahb_rsp_loop_seen ss acc :
  Forall ahb_seen_ok ss ->
  exists ds, ahb_rsp_loop (flat_map (fun s => [rsp_first s; rsp_second s]) ss) None acc
             = Ok (acc ++ ds)
    /\ Forall2 (fun s d => ahb_beat (rsp_first s) = Ok d) ss ds.
Proof.
  intros H. revert acc. induction H as [|s ss (H1 & H2 & _ & _ & hw & Hb & _) _ IH]; intros acc.
  - exists []. by rewrite app_nil_r.
  - destruct (item_at_7 _ H1) as (v1 & E1), (item_at_7 _ H2) as (v2 & E2).
    cbn [flat_map app ahb_rsp_loop]. rewrite E1, Hb. cbn [rbind ahb_rsp_loop]. rewrite E2.
    cbn [rbind]. destruct (IH (acc ++ [(is_write (seen s), t_address (seen s), hw)])) as (ds & -> & Hds).
    eexists. rewrite <- app_assoc. split; [reflexivity|]. by constructor.
Qed.

Lemma ahb_req_loop_seen ss acc :
  Forall ahb_seen_ok ss ->
  ahb_req_loop (flat_map (fun s => [req_first s; req_second s]) ss) true acc
  = Ok (acc ++ ((fun s => ahb_hrdata (req_second s)) <$> ss)).
Proof.
  intros H. revert acc.
  induction H as [|s ss (_ & _ & [R1 O1] & [R2 O2] & _) _ IH]; intros acc;
    [by rewrite app_nil_r|].
  cbn [flat_map app ahb_req_loop]. rewrite R1, O1, R2, O2. cbn [py_assert Z.eqb rbind negb Pos.eqb].
  unfold OKAY. cbn [py_assert Z.eqb rbind negb ahb_req_loop]. rewrite IH, <- app_assoc. done.
Qed.

Lemma check_ahb_ok ss :
  Forall ahb_seen_ok ss ->
  check_ahb (flat_map (fun s => [req_first s; req_second s]) ss)
            (flat_map (fun s => [rsp_first s; rsp_second s]) ss) = Ok (seen <$> ss).
Proof.
  intros H. unfold check_ahb. destruct (ahb_rsp_loop_seen ss [] H) as (ds & -> & Hds).
  rewrite ahb_req_loop_seen by done. cbn [rbind app].
  rewrite length_fmap, (Forall2_length _ _ _ Hds), Nat.eqb_refl. cbn [py_assert rbind]. f_equal.
  induction Hds as [|s d ss ds Hd _ IH]; [done|].
  apply Forall_cons in H as [(_ & _ & _ & _ & hw & Hb & Ht) H].
  rewrite Hb in Hd. injection Hd as <-. cbn [fmap list_fmap zip zip_with]. f_equal; [|by apply IH].
  destruct (seen s) as [w a d]. cbn in *. by subst.
Qed.

(** ** What the scoreboard accepts *)

(** The FIFOs after a run in which the AXI side did the writes [ws] and the reads
    [rs] and the AHB side the transfers [ss], each to its end. *)
Definition complete_run (ws rs : list transaction) (ss : list ahb_seen) (q : fifos) : Prop :=
  Forall (fun t => is_write t = true) ws /\ Forall (fun t => is_write t = false) rs
  /\ Forall ahb_seen_ok ss
  /\ map_result w_req_of (axi_w_req q) = Ok (w_entries ws)
  /\ map_result check_w_rsp (axi_w_rsp q) = Ok (replicate (length ws) tt)
  /\ map_result r_req_of (axi_r_req q) = Ok (t_address <$> rs)
  /\ map_result check_r_rsp (axi_r_rsp q) = Ok (t_data <$> rs)
  /\ ahb_req q = flat_map (fun s => [req_first s; req_second s]) ss
  /\ ahb_rsp q = flat_map (fun s => [rsp_first s; rsp_second s]) ss.

Lemma odds_cons {X} (x y : X) xs : odds (x :: y :: xs) = y :: odds xs.
Proof. by destruct xs. Qed.

(** Taking every other entry leaves as many as the rest has, or one more. *)
Lemma evens_odds_length {X} (xs : list X) :
  length (evens xs) = (length (odds xs) + if Nat.even (length xs) then 0 else 1)%nat.
Proof.
  revert xs. fix IH 1. intros [|x [|y xs]]; [done..|].
  rewrite odds_cons. cbn [evens length Nat.even]. rewrite IH. done.
Qed.

Lemma evens_Forall {X} (P : X -> Prop) xs : Forall P xs -> Forall P (evens xs).
Proof.
  revert xs. fix IH 1. intros [|x [|y xs]] H; [done..|].
  cbn [evens]. inversion_clear H as [|?? Hx H']. inversion_clear H'. constructor; [done|]. by apply IH.
Qed.

(** Write requests that are all taken for addresses: the data is missing. *)
Lemma check_axi_write_addresses reqs rsps :
  reqs <> [] -> Forall (fun i => truthy (axi_awvalid i) = true) reqs ->
  check_axi_write reqs rsps = Raise (if Nat.even (length reqs) then KeyError else AssertionError).
Proof.
  intros Hne H. unfold check_axi_write.
  assert (map_result w_req_of reqs = Ok ((fun i => ReqAddress (axi_awaddr i)) <$> reqs)) as ->.
  { clear Hne. induction H as [|i reqs Hi _ IH]; [done|]. cbn [map_result]. unfold w_req_of at 1.
    by rewrite Hi, IH. }
  cbn [rbind]. set (xs := _ <$> reqs).
  assert (Hx : Forall (fun x => exists a, x = ReqAddress a) xs)
    by (apply Forall_fmap, Forall_forall; intros i _; by eexists).
  assert (Hl : length xs = length reqs) by apply length_fmap.
  pose proof (evens_odds_length xs) as Hlen. rewrite Hl in Hlen. rewrite Hlen.
  destruct (Nat.even (length reqs)) eqn:Ev.
  - rewrite Nat.add_0_r, Nat.eqb_refl. cbn [py_assert rbind].
    destruct xs as [|x [|y xs']]; [by destruct reqs|by destruct reqs as [|? [|? ?]]|].
    inversion_clear Hx as [|?? [a ->] Hx']. inversion_clear Hx' as [|?? [b ->] _].
    rewrite odds_cons. by cbn.
  - by rewrite (proj2 (Nat.eqb_neq _ _)) by lia.
Qed.

(** C18: the scoreboard of the bridge.  On a run whose transfers are complete on
    both sides the check passes exactly when the AHB side did the same writes in
    the same order and the same reads in the same order, with equal addresses
    and data; how reads and writes are interleaved is not compared.  An empty
    run passes.  Write requests whose address and data are seen together count as
    addresses only: when all write requests are of this kind and there is one at
    least, the check raises a [KeyError] if their number is even and an
    [AssertionError] if it is odd, whatever else was seen. *)
Theorem axi4_to_ahb_check_phase :
  (forall ws rs ss q, complete_run ws rs ss q ->
     (check_phase q = Ok tt
      <-> ws = List.filter is_write (seen <$> ss)
          /\ rs = List.filter (fun t => negb (is_write t)) (seen <$> ss)))
  /\ check_phase {| axi_w_req := []; axi_w_rsp := []; axi_r_req := []; axi_r_rsp := [];
                    ahb_req := []; ahb_rsp := [] |} = Ok tt
  /\ (forall q, axi_w_req q <> [] ->
        Forall (fun i => truthy (axi_awvalid i) = true /\ truthy (axi_wvalid i) = true) (axi_w_req q) ->
        check_phase q = Raise (if Nat.even (length (axi_w_req q)) then KeyError else AssertionError)).
Proof.
  split; [|split; [reflexivity|]].
  - intros ws rs ss q (Hw & Hr & Hs & Q1 & Q2 & Q3 & Q4 & Q5 & Q6). unfold check_phase.
    rewrite (check_axi_write_ok ws), (check_axi_read_ok rs), Q5, Q6, check_ahb_ok by done.
    cbn [rbind].
    set (fw := List.filter is_write _). set (fr := List.filter (fun t => negb (is_write t)) _).
    split.
    + intros H. apply rbind_ok in H as (_ & _ & H). apply rbind_ok in H as (_ & _ & H).
      apply rbind_ok in H as ([] & H1 & H2).
      apply py_assert_ok, bool_decide_eq_true in H1. apply py_assert_ok, bool_decide_eq_true in H2.
      done.
    + intros [-> ->]. rewrite !Nat.eqb_refl, !bool_decide_eq_true_2 by done. done.
  - intros q Hne H. unfold check_phase. rewrite check_axi_write_addresses; [done|done|].
    eapply Forall_impl; [exact H|]. by intros i [Hi _].
Qed.

Lemma axi4_to_ahb_check_phase_witness :
  let w := {| is_write := true; t_address := 0x40; t_data := 0x11 |} in
  let r := {| is_write := false; t_address := 0x48; t_data := 0x22 |} in
  let q ts := {|
    axi_w_req := [w_item (WRequest 0 8);
      {| axi_awvalid := 0; axi_awid := 0; axi_awaddr := 0; axi_awsize := 3; axi_awprot := 0;
         axi_wvalid := 1; axi_wdata := 0x11; axi_wstrb := 255; axi_wlast := 1; axi_bready := 0 |}];
    axi_w_rsp := [[0; 0; 1; 0; 0]];
    axi_r_req := [AXIReadTransactionRequestSeqItem 9]; axi_r_rsp := [[0; 1; 0; 0x22; 0; 1]];
    ahb_req := flat_map (fun t => [AHBLiteReadyNoDataSeqItem;
                                   {| ahb_hrdata := t_data t; ahb_hready := 1; ahb_hresp := 0 |}]) ts;
    ahb_rsp := flat_map (fun t => [[t_address t; 0; 0; 0; 3; NONSEQ; Z.b2z (is_write t); t_data t];
                                   [0; 0; 0; 0; 0; 0; 0; 0]]) ts |} in
  check_phase (q [r; w]) = Ok tt /\ check_phase (q [w; w]) = Raise AssertionError
  /\ (let both := {| axi_awvalid := 1; axi_awid := 0; axi_awaddr := 0x40; axi_awsize := 3;
         axi_awprot := 0; axi_wvalid := 1; axi_wdata := 0x11; axi_wstrb := 255; axi_wlast := 1;
         axi_bready := 0 |} in
      let q n := {| axi_w_req := replicate n both; axi_w_rsp := []; axi_r_req := []; axi_r_rsp := [];
                    ahb_req := []; ahb_rsp := [] |} in
      check_phase (q 1%nat) = Raise AssertionError /\ check_phase (q 4%nat) = Raise KeyError).
Proof.
  cbv zeta. split; [|split; [vm_compute; reflexivity|]].
  2:{ destruct axi4_to_ahb_check_phase as (_ & _ & H).
      split; [rewrite H|rewrite H]; try done; repeat constructor. }
  pose (s := fun t => {| seen := t;
    rsp_first := [t_address t; 0; 0; 0; 3; NONSEQ; Z.b2z (is_write t); t_data t];
    rsp_second := [0; 0; 0; 0; 0; 0; 0; 0]; req_first := AHBLiteReadyNoDataSeqItem;
    req_second := {| ahb_hrdata := t_data t; ahb_hready := 1; ahb_hresp := 0 |} |}).
  apply (proj1 axi4_to_ahb_check_phase
    [{| is_write := true; t_address := 0x40; t_data := 0x11 |}]
    [{| is_write := false; t_address := 0x48; t_data := 0x22 |}]
    [s {| is_write := false; t_address := 0x48; t_data := 0x22 |};
     s {| is_write := true; t_address := 0x40; t_data := 0x11 |}]); [|by split].
  split; [by repeat constructor|]. split; [by repeat constructor|]. split; [|by repeat split].
  repeat constructor; eexists; split; reflexivity.
Defined.

(** ** The handshakes *)

(** The edges of the clock. *)
Definition edges (es : list env) : list sample := (fun e => Sample (RisingEdge "clk") e) <$> es.

Lemma run_clk {I A} (k : env -> proc I A) cur e es :
  run (Await (RisingEdge "clk") k) cur (edges (e :: es)) = run (k e) e (edges es).
Proof. apply run_await_hit. Qed.

Lemma next_edge e es : next_firing (RisingEdge "clk") (edges (e :: es)) = Some (e, edges es).
Proof. apply next_firing_hit. Qed.

Lemma wait_handshake_run {I} sig more cur es :
  run (wait_handshake (I := I) sig more) cur (edges es)
  = match list_find (fun e => truthy (e sig) = true) (take (S more) es) with
    | Some (i, e) => ([], Done tt e (edges (drop (S i) es)))
    | None => ([], if (S more <=? length es)%nat then Crashed TimeoutError else Suspended)
    end.
Proof.
  revert cur es. induction more as [|more IH]; intros cur [|e es]; try done.
  - cbn [wait_handshake pbind await]. rewrite run_clk. cbn [take list_find].
    destruct (truthy (e sig)) eqn:E.
    + by rewrite decide_True.
    + by rewrite decide_False by congruence.
  - change (take (S (S more)) (e :: es)) with (e :: take (S more) es).
    cbn [wait_handshake pbind await list_find]. rewrite run_clk. destruct (truthy (e sig)) eqn:E.
    + by rewrite decide_True.
    + rewrite decide_False by congruence. cbn [pbind]. fold (wait_handshake (I := I) sig more).
      rewrite IH. destruct (list_find _ _) as [[i e']|]; [done|]. done.
Qed.

(** The write driver never waits for ever, and never gives up early.  Over
    the edges [es] of the clock, an item that needs a handshake is finished at
    the first of the next 31 edges at which the bridge answers, at that edge; if
    31 edges pass without an answer the driver raises [TimeoutError]; and only
    when fewer edges come is it still waiting. *)
Theorem axi_w_driver_handshake :
  forall i sig cur es,
  match i with
  | WInactive => False
  | WRequest _ _ => sig = "axi_awready"
  | WLastData _ => sig = "axi_wready"
  | WResponse => sig = "axi_bvalid"
  end ->
  run (AXIWriteChannelDriver_item i) cur (edges es)
  = ([APublish (w_item i)],
     match list_find (fun e => truthy (e sig) = true) (take 31 es) with
     | Some (k, e) => Done tt e (edges (drop (S k) es))
     | None => if (31 <=? length es)%nat then Crashed TimeoutError else Suspended
     end).
Proof.
  intros i sig cur es Hi. unfold AXIWriteChannelDriver_item, publish. cbn [pbind run].
  destruct i; [done| | |]; subst sig; rewrite wait_handshake_run;
    by destruct (list_find _ _) as [[k e]|].
Qed.

Lemma axi_w_driver_handshake_witness :
  let quiet : env := fun _ => 0 in
  let e := sig_env [("axi_wready", 1)] in
  run (AXIWriteChannelDriver_item (WLastData 5)) quiet (edges (replicate 30 quiet ++ [e; quiet]))
    = ([APublish (w_item (WLastData 5))], Done tt e (edges [quiet]))
  /\ run (AXIWriteChannelDriver_item (WLastData 5)) quiet (edges (replicate 31 quiet ++ [e]))
    = ([APublish (w_item (WLastData 5))], Crashed TimeoutError).
Proof.
  cbv zeta. split.
  - rewrite (axi_w_driver_handshake (WLastData 5) "axi_wready") by reflexivity. reflexivity.
  - rewrite (axi_w_driver_handshake (WLastData 5) "axi_wready") by reflexivity. reflexivity.
Defined.

(** While the agent takes each notification in the cycle in which it is put. *)
Lemma ar_handshake_drained {I} more cur es :
  run (ar_handshake (I := I) more false (replicate (S more) true)) cur (edges es)
  = match list_find (fun e => truthy (e "axi_arready") = true) (take (S more) (cur :: es)) with
    | Some (i, e) => ([], Done (false, replicate (S more - i) true) e (edges (drop i es)))
    | None => ([], if (S more <=? length es)%nat then Crashed TimeoutError else Suspended)
    end.
Proof.
  assert (Hz : forall e : env, (e "axi_arready" =? 0) = negb (truthy (e "axi_arready")))
    by (intros e; unfold truthy; by rewrite negb_involutive).
  revert cur es. induction more as [|more IH]; intros cur es.
  - cbn [ar_handshake now pbind run take list_find replicate]. rewrite Hz.
    destruct (truthy (cur "axi_arready")) eqn:E; cbn [negb].
    + by rewrite decide_True.
    + rewrite decide_False by congruence. destruct es as [|e es]; [done|]. cbn [await pbind].
      by rewrite run_clk.
  - change (take (S (S more)) (cur :: es)) with (cur :: take (S more) es).
    cbn [ar_handshake now pbind run list_find replicate]. rewrite Hz.
    destruct (truthy (cur "axi_arready")) eqn:E; cbn [negb].
    + by rewrite decide_True.
    + rewrite decide_False by congruence. cbn [await pbind]. destruct es as [|e es]; [done|].
      rewrite run_clk. fold (ar_handshake (I := I) more).
      change (negb true) with false. cbn [pbind]. change (true :: replicate more true) with (replicate (S more) true).
      rewrite IH. destruct (list_find _ _) as [[i e']|]; [done|]. done.
Qed.

(** The address handshake of the read model.  When the agent takes every
    notification at once, the model goes on at the first edge with ARREADY high
    among the current one and the next twenty, and raises [TimeoutError] when it
    has waited 21 cycles in vain.  But the queue of the notifications holds one:
    when the agent leaves the first of them there, two cycles of a low ARREADY
    are enough to raise [QueueFull], long before the timeout. *)
Theorem axi_r_handshake_overflow :
  (forall cur es,
    run (I := AXIReadItem)
      (ar_handshake TIMEOUT_THRESHOLD false (replicate (S TIMEOUT_THRESHOLD) true)) cur (edges es)
    = ([], match list_find (fun e => truthy (e "axi_arready") = true) (take 21 (cur :: es)) with
           | Some (i, e) => Done (false, replicate (21 - i) true) e (edges (drop i es))
           | None => if (21 <=? length es)%nat then Crashed TimeoutError else Suspended
           end))
  /\ (forall item offers drains cur e1 e2 es,
    cur "rst_l" <> 0 -> e1 "axi_arvalid" <> 0 -> e1 "axi_arready" = 0 -> e2 "axi_arready" = 0 ->
    (run (AXIRead_drive {| r_offers := Some item :: offers; r_full := false;
                           r_drains := false :: drains |}) cur (edges (e1 :: e2 :: es))).2
    = Crashed QueueFull).
Proof.
  split.
  - intros cur es. rewrite ar_handshake_drained. by destruct (list_find _ _) as [[i e]|].
  - intros item offers drains cur e1 e2 es Hr Hv H1 H2. unfold AXIRead_drive, in_reset.
    rewrite run_pbind. cbn [now pbind run]. rewrite (proj2 (Z.eqb_neq _ _) Hr).
    cbn [run await pbind r_offers r_full r_drains]. rewrite next_edge.
    unfold drive_r, drive. cbn [pbind run now].
    unfold truthy. rewrite (proj2 (Z.eqb_neq _ _) Hv). cbn [negb].
    unfold TIMEOUT_THRESHOLD. cbn [ar_handshake now pbind run].
    rewrite H1. cbn [Z.eqb await pbind run]. rewrite next_edge. cbn [negb now pbind run].
    rewrite H2. done.
Qed.

Lemma axi_r_handshake_overflow_witness :
  let cur := sig_env [("rst_l", 1)] in
  let e := sig_env [("rst_l", 1); ("axi_arvalid", 1)] in
  (run (AXIRead_drive {| r_offers := [Some (AXIReadTransactionRequestSeqItem 3)]; r_full := false;
                         r_drains := [false] |}) cur (edges [e; e])).2 = Crashed QueueFull.
Proof. cbv zeta. apply (proj2 axi_r_handshake_overflow); (discriminate || reflexivity). Defined.

(** ** The coordinator *)

(** The notification that each transaction waits for. *)
Definition expected_notification (p : Z * draws) : AHB_LITE_NOTIFICATION :=
  if truthy (randint 0 1 p.1) then AHB_LITE_READ else AHB_LITE_WRITE.

(** What becomes of a coordinator that expects [ns] when it gets [rsps]. *)
Fixpoint answers (ns rsps : list AHB_LITE_NOTIFICATION)
  : result (option (list AHB_LITE_NOTIFICATION)) :=
  match ns, rsps with
  | [], _ => Ok (Some rsps)
  | _ :: _, [] => Ok None
  | n :: ns, r :: rsps => if decide (r = n) then answers ns rsps else Raise ValueError
  end.

(** The AHB items that were started: two beats of HREADY for each transaction. *)
Definition ahb_started (cs : list command) : list AHBItem :=
  flat_map (fun c => match c with StartAhb items => items | _ => [] end) cs.

Lemma both_step p rsps :
  exists cs, (if truthy (randint 0 1 p.1) then axi_read p.2 rsps else axi_write p.2 rsps)
    = (cs, answers [expected_notification p] rsps)
  /\ length (ahb_started cs)
    = match answers [expected_notification p] rsps with Ok (Some _) => 2%nat | _ => 0%nat end.
Proof.
  unfold expected_notification. destruct (truthy (randint 0 1 p.1));
    (destruct rsps as [|r rsps]; cbn; [by eexists|]); destruct (decide (r = _)); by eexists.
Qed.

(** The coordinator and the notifications of the AHB side.  The mixed test
    consumes one notification for each transaction, in order; it raises
    [ValueError] at the first that has the wrong direction, and waits when there
    are too few.  For each transaction that was answered it started exactly two
    AHB beats, as many as the AHB driver takes for one notification. *)
Theorem axi4_to_ahb_coordinator :
  forall ps rsps,
    (TestBothChannelsSeq ps rsps).2 = answers (expected_notification <$> ps) rsps
    /\ forall rest, (TestBothChannelsSeq ps rsps).2 = Ok (Some rest) ->
         rsps = (expected_notification <$> ps) ++ rest
         /\ length (ahb_started (TestBothChannelsSeq ps rsps).1) = (2 * length ps)%nat.
Proof.
  intros ps. induction ps as [|p ps IH]; intros rsps.
  - split; [done|]. cbn. by intros rest [= <-].
  - unfold TestBothChannelsSeq. cbn [repeat_do fmap list_fmap].
    destruct (both_step p rsps) as (cs & -> & Hl).
    destruct rsps as [|r rsps]; [by split|]. cbn [answers] in *.
    destruct (decide (r = expected_notification p)) as [->|]; [|by split].
    cbn [then_do]. fold (TestBothChannelsSeq ps rsps).
    destruct (IH rsps) as [IH1 IH2]. destruct (TestBothChannelsSeq ps rsps) as [cs' o] eqn:E.
    cbn [fst snd] in *. split; [done|]. intros rest Ho. destruct (IH2 rest Ho) as [-> Hn].
    split; [done|]. unfold ahb_started in *. rewrite flat_map_app, length_app, Hl, Hn. simpl. lia.
Qed.

Lemma axi4_to_ahb_coordinator_witness :
  let d := {| d_id := 0; d_addr := 1; d_data := 2 |} in
  length (ahb_started (TestBothChannelsSeq [(0, d); (1, d)] [AHB_LITE_WRITE; AHB_LITE_READ]).1)
    = 4%nat
  /\ (TestBothChannelsSeq [(0, d); (1, d)] [AHB_LITE_WRITE; AHB_LITE_WRITE]).2 = Raise ValueError.
Proof.
  cbv zeta. split; [|reflexivity].
  apply (axi4_to_ahb_coordinator [(0, _); (1, _)] [AHB_LITE_WRITE; AHB_LITE_READ]) with (rest := []).
  reflexivity.
Defined.
