(* ===== verification/Agents.v ===== *)
(** * The agents between the sequences and the bus models

    The drivers of the agents of the DMI bench (verification/block/dmi) and of the
    bridge bench (verification/block/lib_axi4_to_ahb): each takes items from its
    sequencer and puts them into the queue of its bus model, which holds one item
    and which the bus model polls at the edges of a clock.

    An agent is a tree of the effects of one turn of its [while True] loop.  Agent,
    sequencer and queues form a state machine, [step], in which the agent, the bus
    model, the sequences and the clock move in any order.  [phase_ok] is the protocol
    that an agent keeps with its sequencer; the invariant of the machine follows from
    it for every agent at once.

    pyuvm's sequencer and cocotb's queues are first-in first-out queues here, as
    documented: [put] waits while the queue is full. *)

From S2P Require Import Prelude Cocotb LogicArray Jtag Dmi Axi4ToAhb.
From stdpp Require Import base list strings relations.
From Stdlib Require Import ZArith Lia.

#[local] Open Scope string_scope.
#[local] Open Scope list_scope.
#[local] Open Scope Z_scope.

(** ** Agents *)

(** [I] are the items of the sequencer, [P] the entries of [req_driver_q] and [N] the
    notifications in [rsp_driver_q]. *)
Inductive agent (I P N : Type) :=
  | Finish
  | Look (k : env -> agent I P N)
  | WaitFor (t : trigger) (k : env -> agent I P N)
  | GetNextItem (k : I -> agent I P N)
  | Put (x : P) (k : agent I P N)
  | ItemDone (k : agent I P N)
  | GetNowait (k : option N -> agent I P N)
  | PutResponse (r : N + Z) (k : agent I P N)
  | Fail (e : exn).
Arguments Finish {I P N}.
Arguments Look {I P N} k.
Arguments WaitFor {I P N} t k.
Arguments GetNextItem {I P N} k.
Arguments Put {I P N} x k.
Arguments ItemDone {I P N} k.
Arguments GetNowait {I P N} k.
Arguments PutResponse {I P N} r k.
Arguments Fail {I P N} e.

(** ** The drivers of dmi_agent.py and jtag_agent.py *)

(** The loop of [DMIDriver.run_phase]. *)
Definition DMIDriver_run_phase {I} : agent I I Empty_set :=
  GetNextItem (fun item => Put item (ItemDone Finish)).

(** The loop of [JTAGDriver.run_phase], after [self.bfm.reset()]. *)
Definition JTAGDriver_run_phase : agent JTAGBaseSeqItem (Z * Z) Empty_set :=
  GetNextItem (fun item => Put (item_tms item, item_tdi item) (ItemDone Finish)).

(** ** The drivers of lib_axi4_to_ahb *)

(** [if self.rst_n.value == 0: await RisingEdge(self.rst_n)] *)
Definition out_of_reset {I P N} (k : agent I P N) : agent I P N :=
  Look (fun e => if e "rst_l" =? 0 then WaitFor (RisingEdge "rst_l") (fun _ => k) else k).

(** [await self.wait_handshake(sig_name)]: [more] further rounds may begin. *)
Fixpoint handshake {I P N} (sig_name : string) (more : nat) (k : agent I P N) : agent I P N :=
  WaitFor (RisingEdge "clk") (fun e =>
    if truthy (e sig_name) then k
    else match more with O => Fail TimeoutError | S more => handshake sig_name more k end).

(** The loop of [AXIWriteChannelDriver.run_phase]. *)
Definition AXIWriteChannelDriver_run_phase : agent AXIWriteSeqItem AXIWriteItem Empty_set :=
  out_of_reset (GetNextItem (fun item =>
    Put (w_item item)
      match item with
      | WInactive => ItemDone Finish
      | WRequest _ _ => handshake "axi_awready" W_TIMEOUT_THRESHOLD (ItemDone Finish)
      | WLastData _ => handshake "axi_wready" W_TIMEOUT_THRESHOLD (ItemDone Finish)
      | WResponse => handshake "axi_bvalid" W_TIMEOUT_THRESHOLD (ItemDone Finish)
      end)).

Inductive AXI_NOTIFICATION := AXI_FREE | AXI_BUSY | AXI_AREAD_HANDSHAKE | AXI_READ_HANDSHAKE.

(** The loop of [AXIReadChannelDriver.run_phase]. *)
Definition AXIReadChannelDriver_run_phase : agent AXIReadItem AXIReadItem AXI_NOTIFICATION :=
  out_of_reset (GetNowait (fun pending =>
    let next := PutResponse (inr 3) (GetNextItem (fun item => Put item (ItemDone Finish))) in
    match pending with
    | Some axi_notification => PutResponse (inl axi_notification) next
    | None => next
    end)).

(** [for _ in range(n): item = await ...get_next_item(); await self.drive(item); ...] *)
Fixpoint drive_items {I N} (n : nat) : agent I I N :=
  match n with
  | O => Finish
  | S n => GetNextItem (fun item => Put item (ItemDone (drive_items n)))
  end.

(** The loop of [AHBLiteDriver.run_phase]. *)
Definition AHBLiteDriver_run_phase : agent AHBItem AHBItem AHB_LITE_NOTIFICATION :=
  out_of_reset (WaitFor (RisingEdge "clk") (fun _ => GetNowait (fun response =>
    match response with
    | Some response => PutResponse (inl response) (drive_items 2)
    | None => Finish
    end))).

(** ** The protocol of an agent *)

(** What the agent does with the items: it has none, it has one that it still has to
    put, or one that it has put and not finished. *)
Inductive phase (I : Type) := Idle | Got (x : I) | Sent (x : I).
Arguments Idle {I}.
Arguments Got {I} x.
Arguments Sent {I} x.

Definition held {I} (p : phase I) : list I :=
  match p with Idle => [] | Got x | Sent x => [x] end.
Definition put {I} (p : phase I) : list I :=
  match p with Idle | Got _ => [] | Sent x => [x] end.

(** In phase [p] the agent gets an item only when it has finished the one before, puts
    each item once, as [pay] says, and finishes it afterwards. *)
Fixpoint phase_ok {I P N} (pay : I -> P) (p : phase I) (a : agent I P N) : Prop :=
  match a with
  | Finish => p = Idle
  | Look k | WaitFor _ k => forall e, phase_ok pay p (k e)
  | GetNextItem k => p = Idle /\ forall x, phase_ok pay (Got x) (k x)
  | Put y k => exists x, p = Got x /\ y = pay x /\ phase_ok pay (Sent x) k
  | ItemDone k => (exists x, p = Sent x) /\ phase_ok pay Idle k
  | GetNowait k => forall o, phase_ok pay p (k o)
  | PutResponse _ k => phase_ok pay p k
  | Fail _ => True
  end.

(** ** Agent, sequencer, queues *)

(** The sequencer: the items of all sequences started so far, those that no driver has
    taken, the one that the driver has taken last, and those with [item_done]. *)
Record sequencer (I : Type) := { given : list I; todo : list I; current : option I; finished : list I }.
Arguments given {I} s.
Arguments todo {I} s.
Arguments current {I} s.
Arguments finished {I} s.
Arguments Build_sequencer {I}.

Definition start_item {I} (x : I) (s : sequencer I) : sequencer I :=
  {| given := given s ++ [x]; todo := todo s ++ [x]; current := current s; finished := finished s |}.

(** [None] while there is no item. *)
Definition get_next_item {I} (s : sequencer I) : option (I * sequencer I) :=
  match todo s with
  | [] => None
  | x :: xs => Some (x, {| given := given s; todo := xs; current := Some x; finished := finished s |})
  end.

Definition item_done {I} (s : sequencer I) : sequencer I :=
  {| given := given s; todo := todo s; current := None;
     finished := finished s ++ match current s with Some x => [x] | None => [] end |}.

(** The queues of the bus model, what the agent has put back as responses, and what the
    bus model has found in [req_driver_q] at its polls. *)
Record queues (P N : Type) := {
  req_driver_q : list P; rsp_driver_q : list N; responses : list (N + Z); polls : list (option P) }.
Arguments req_driver_q {P N} q.
Arguments rsp_driver_q {P N} q.
Arguments responses {P N} q.
Arguments polls {P N} q.
Arguments Build_queues {P N}.

(** [UVMQueue(maxsize=1)]; [None] while the queue is full. *)
Definition req_maxsize : nat := 1.
Definition req_driver_q_put {P N} (y : P) (q : queues P N) : option (queues P N) :=
  if (length (req_driver_q q) <? req_maxsize)%nat
  then Some {| req_driver_q := req_driver_q q ++ [y]; rsp_driver_q := rsp_driver_q q;
               responses := responses q; polls := polls q |}
  else None.

(** [self.req_driver_q.get_nowait()] of the bus model. *)
Definition poll {P N} (q : queues P N) : queues P N :=
  {| req_driver_q := tail (req_driver_q q); rsp_driver_q := rsp_driver_q q;
     responses := responses q; polls := polls q ++ [head (req_driver_q q)] |}.

(** [self.rsp_driver_q.put_nowait(n)] of the bus model, when the queue is not full. *)
Definition notify {P N} (n : N) (q : queues P N) : queues P N :=
  {| req_driver_q := req_driver_q q; rsp_driver_q := rsp_driver_q q ++ [n];
     responses := responses q; polls := polls q |}.

(** [self.bfm.rsp_driver_q.get_nowait()] of the agent. *)
Definition take_notification {P N} (q : queues P N) : queues P N :=
  {| req_driver_q := req_driver_q q; rsp_driver_q := tail (rsp_driver_q q);
     responses := responses q; polls := polls q |}.

Definition put_response {P N} (r : N + Z) (q : queues P N) : queues P N :=
  {| req_driver_q := req_driver_q q; rsp_driver_q := rsp_driver_q q;
     responses := responses q ++ [r]; polls := polls q |}.

Section Machine.
Context {I P N : Type}.
(** The loop of the agent. *)
Context (loop : agent I P N).

Record system := System { seqr : sequencer I; doing : agent I P N; bfm : queues P N }.

Definition start (first : agent I P N) : system :=
  System {| given := []; todo := []; current := None; finished := [] |} first
         {| req_driver_q := []; rsp_driver_q := []; responses := []; polls := [] |}.

(** The next step of the agent when the signals are [e]; [None] when it waits. *)
Definition agent_step (e : env) (s : system) : option system :=
  let '(System sq a q) := s in
  match a with
  | Finish => Some (System sq loop q)
  | Look k => Some (System sq (k e) q)
  | WaitFor _ _ | Fail _ => None
  | GetNextItem k => '(x, sq) ← get_next_item sq; Some (System sq (k x) q)
  | Put y k => q ← req_driver_q_put y q; Some (System sq k q)
  | ItemDone k => Some (System (item_done sq) k q)
  | GetNowait k => Some (System sq (k (head (rsp_driver_q q))) (take_notification q))
  | PutResponse r k => Some (System sq k (put_response r q))
  end.

(** The agent steps, the trigger it waits for fires, a sequence starts an item, the bus
    model polls its queue or notifies the agent. *)
Inductive step : system -> system -> Prop :=
  | step_agent e s s' : agent_step e s = Some s' -> step s s'
  | step_fires sq t k q e : step (System sq (WaitFor t k) q) (System sq (k e) q)
  | step_start sq a q x : step (System sq a q) (System (start_item x sq) a q)
  | step_poll sq a q : step (System sq a q) (System sq a (poll q))
  | step_notify sq a q n : step (System sq a q) (System sq a (notify n q)).
End Machine.
Arguments System {I P N} seqr doing bfm.
Arguments seqr {I P N} s.
Arguments doing {I P N} s.
Arguments bfm {I P N} s.

(** ** What every agent delivers *)

Section Invariant.
Context {I P N : Type} (pay : I -> P) (loop : agent I P N).
Hypothesis loop_ok : phase_ok pay Idle loop.

(** The entries that the bus model has found. *)
Definition applied (q : queues P N) : list P := omap id (polls q).

Record inv (s : system) : Prop := {
  inv_phase : exists p, phase_ok pay p (doing s) /\ current (seqr s) = head (held p)
    /\ given (seqr s) = finished (seqr s) ++ held p ++ todo (seqr s)
    /\ applied (bfm s) ++ req_driver_q (bfm s) = pay <$> finished (seqr s) ++ put p;
  inv_queue : (length (req_driver_q (bfm s)) <= req_maxsize)%nat }.

Lemma agent_step_inv e s s' : inv s -> agent_step loop e s = Some s' -> inv s'.
Proof using loop_ok.
  destruct s as [sq a q]. intros [(p & Hp & Hc & Hg & Hq) Hl] H. cbn [seqr doing bfm] in *.
  destruct a as [|k|t k|k|y k|k|k|r k|e']; cbn [agent_step phase_ok] in *; simplify_eq.
  - split; [|done]. by exists Idle.
  - split; [|done]. exists p. split; [apply Hp|done].
  - destruct Hp as [-> Hk]. unfold get_next_item in H. destruct (todo sq) as [|x xs] eqn:E; [done|].
    injection H as <-. split; [|done]. exists (Got x). cbn [seqr bfm doing given todo current finished held put head] in *.
    split_and!; [apply Hk|done|done|done].
  - destruct Hp as (x & -> & -> & Hk). unfold req_driver_q_put in H.
    destruct (Nat.ltb_spec (length (req_driver_q q)) req_maxsize); [|done]. injection H as <-.
    cbn [held put] in *. rewrite app_nil_r in Hq.
    split; [|cbn; rewrite length_app; cbn; lia]. exists (Sent x). split_and!; [done..|].
    cbn [bfm seqr]. unfold applied in *. cbn [polls req_driver_q put]. by rewrite app_assoc, Hq, fmap_app.
  - destruct Hp as [(x & ->) Hk]. split; [|done]. exists Idle. cbn [seqr bfm doing held put] in *.
    unfold item_done. rewrite Hc. cbn [given todo current finished head app]. split_and!; [done|done| |].
    + by rewrite <- app_assoc.
    + by rewrite app_nil_r.
  - split; [|done]. exists p. split; [apply Hp|done].
  - split; [|done]. exists p. done.
Qed.

Lemma step_inv s s' : inv s -> step loop s s' -> inv s'.
Proof using loop_ok.
  intros Hi H. destruct H as [e s s' H|sq t k q e|sq a q x|sq a q|sq a q n]; [by eapply agent_step_inv| ..];
    destruct Hi as [(p & Hp & Hc & Hg & Hq) Hl]; cbn [seqr doing bfm] in *.
  - split; [|done]. exists p. split; [apply Hp|done].
  - split; [|done]. exists p. split_and!; [done|done| |done]. cbn. by rewrite Hg, !app_assoc.
  - split; cbn [seqr doing bfm].
    + exists p. split_and!; [done..|]. rewrite <- Hq. unfold applied, poll. cbn [polls req_driver_q].
      rewrite omap_app, <- app_assoc. by destruct (req_driver_q q).
    + cbn. by destruct (req_driver_q q); cbn in *; lia.
  - split; [|done]. by exists p.
Qed.

Lemma reachable_inv first s : phase_ok pay Idle first -> rtc (step loop) (start first) s -> inv s.
Proof using loop_ok.
  intros Hf H. assert (inv (start first)) as H0 by (split; [by exists Idle|cbn; unfold req_maxsize; lia]).
  induction H as [|s1 s2 s3 Hs _ IH]; [done|]. apply IH. by eapply step_inv.
Qed.

(** What the bus model has found and will find is a beginning of the items. *)
Lemma inv_prefix s : inv s -> (applied (bfm s) ++ req_driver_q (bfm s)) `prefix_of` (pay <$> given (seqr s)).
Proof using.
  intros [(p & Hp & Hc & Hg & Hq) _]. rewrite Hq, Hg, !fmap_app. apply prefix_app.
  destruct p; cbn; [apply prefix_nil..|]. by eexists.
Qed.

(** An agent that can go no further, although the queue has room, waits for a trigger,
    has failed, or has delivered everything. *)
Lemma blocked_done s : inv s -> (forall e, agent_step loop e s = None) -> req_driver_q (bfm s) = [] ->
  (exists t k, doing s = WaitFor t k) \/ (exists e, doing s = Fail e)
  \/ finished (seqr s) = given (seqr s) /\ applied (bfm s) = pay <$> given (seqr s).
Proof using.
  destruct s as [sq a q]. intros [(p & Hp & Hc & Hg & Hq) Hl] Hb Hr. cbn [seqr doing bfm] in *.
  specialize (Hb (fun _ => 0)).
  destruct a as [|k|t k|k|y k|k|k|r k|e']; cbn [agent_step phase_ok] in *; try done.
  - left. by eexists _, _.
  - right; right. destruct Hp as [-> _]. unfold get_next_item in Hb. destruct (todo sq) eqn:E; [|done].
    cbn [held put app] in *. rewrite app_nil_r in *. rewrite Hr, app_nil_r in Hq. by rewrite Hg.
  - unfold req_driver_q_put in Hb. by rewrite Hr in Hb.
  - right; left. by eexists.
Qed.
End Invariant.

(** Items reach the bus model in order, without loss or repetition: what it has found,
    and what waits in its queue, are a beginning of the items given; so are the items
    reported as done, and the two differ by at most one.  The agent stops only when
    everything is delivered, apart from its waits for the bus and its time-outs. *)
Definition delivers {I P N} (pay : I -> P) (loop first : agent I P N) : Prop :=
  forall s, rtc (step loop) (start first) s ->
    let given := given (seqr s) in let finished := finished (seqr s) in
    let applied := applied (bfm s) in let waiting := req_driver_q (bfm s) in
    (applied ++ waiting) `prefix_of` (pay <$> given) /\ finished `prefix_of` given
    /\ (length waiting <= 1)%nat
    /\ (length finished <= length applied + 1 /\ length applied <= length finished + 1)%nat
    /\ ((forall e, agent_step loop e s = None) -> waiting = [] ->
        (exists t k, doing s = WaitFor t k) \/ (exists e, doing s = Fail e)
        \/ finished = given /\ applied = pay <$> given).

Lemma phase_ok_delivers {I P N} (pay : I -> P) (loop first : agent I P N) :
  phase_ok pay Idle loop -> phase_ok pay Idle first -> delivers pay loop first.
Proof.
  intros Hl Hf s Hs. pose proof (reachable_inv pay loop Hl first s Hf Hs) as Hi. cbv zeta.
  split_and!; [by apply inv_prefix| | | | |by apply blocked_done].
  all: destruct Hi as [(p & Hp & Hc & Hg & Hq) Hm]; unfold req_maxsize in Hm.
  - rewrite Hg. by apply prefix_app_r.
  - done.
  - apply (f_equal length) in Hq. rewrite length_fmap, !length_app in Hq. lia.
  - apply (f_equal length) in Hq. rewrite length_fmap, !length_app in Hq. destruct p; cbn in Hq; lia.
Qed.

(** The agents of the two benches keep the protocol. *)
Lemma JTAGDriver_ok : phase_ok item_pair Idle JTAGDriver_run_phase.
Proof. split; [done|]. intros x. exists x. cbn. eauto. Qed.

Lemma DMIDriver_ok {I} : phase_ok (I := I) id Idle DMIDriver_run_phase.
Proof. split; [done|]. intros x. exists x. cbn. eauto. Qed.

Lemma out_of_reset_ok {I P N} (pay : I -> P) p (k : agent I P N) :
  phase_ok pay p k -> phase_ok pay p (out_of_reset k).
Proof. intros H e. destruct (_ =? _); [by intros _|done]. Qed.

Lemma handshake_ok {I P N} (pay : I -> P) p sig more (k : agent I P N) :
  phase_ok pay p k -> phase_ok pay p (handshake sig more k).
Proof.
  intros H. induction more as [|more IH]; intros e; by destruct (truthy _).
Qed.

Lemma AXIWriteChannelDriver_ok : phase_ok w_item Idle AXIWriteChannelDriver_run_phase.
Proof.
  apply out_of_reset_ok. split; [done|]. intros x. exists x. split_and!; [done..|].
  destruct x; [|apply handshake_ok..]; cbn; eauto.
Qed.

Lemma AXIReadChannelDriver_ok : phase_ok id Idle AXIReadChannelDriver_run_phase.
Proof. apply out_of_reset_ok. intros [n|]; cbn; (split; [done|]); intros x; exists x; eauto. Qed.

Lemma drive_items_ok {I N} n : phase_ok (I := I) (N := N) id Idle (drive_items n).
Proof. induction n as [|n IH]; [done|]. split; [done|]. intros x. exists x. cbn. eauto. Qed.

Lemma AHBLiteDriver_ok : phase_ok id Idle AHBLiteDriver_run_phase.
Proof.
  apply out_of_reset_ok. intros e [r|]; [|done]. apply (drive_items_ok 2).
Qed.

(** C32: The agents of the DMI bench and of the bridge bench deliver: for any order of
    the steps of agent, sequences, bus model and clock, the bus model is given the items
    of the sequences in their order, each once, and an item is reported as done at
    most one ahead of or behind the bus; an agent stops before everything is delivered
    only to wait for a signal or after an error. *)
Theorem agents_deliver :
  delivers item_pair JTAGDriver_run_phase JTAGDriver_run_phase
  /\ (forall I, delivers (I := I) id DMIDriver_run_phase DMIDriver_run_phase)
  /\ (let loop := AXIWriteChannelDriver_run_phase in
      delivers w_item loop (WaitFor (RisingEdge "rst_l") (fun _ => loop)))
  /\ (let loop := AXIReadChannelDriver_run_phase in
      delivers id loop (WaitFor (RisingEdge "rst_l") (fun _ => loop)))
  /\ delivers id AHBLiteDriver_run_phase AHBLiteDriver_run_phase.
Proof.
  split_and!.
  - apply phase_ok_delivers; apply JTAGDriver_ok.
  - intros I. apply phase_ok_delivers; apply DMIDriver_ok.
  - apply phase_ok_delivers; [|intros e]; apply AXIWriteChannelDriver_ok.
  - apply phase_ok_delivers; [|intros e]; apply AXIReadChannelDriver_ok.
  - apply phase_ok_delivers; apply AHBLiteDriver_ok.
Qed.

(** ** An agent that keeps up with its bus model *)

Section Eager.
Context {I P N : Type} (pay : I -> P) (loop : agent I P N).

(** The agent never waits for a signal and never fails. *)
Fixpoint never_waits (a : agent I P N) : Prop :=
  match a with
  | Finish => True
  | Look k => forall e, never_waits (k e)
  | WaitFor _ _ | Fail _ => False
  | GetNextItem k => forall x, never_waits (k x)
  | Put _ k | ItemDone k | PutResponse _ k => never_waits k
  | GetNowait k => forall o, never_waits (k o)
  end.

Hypothesis loop_ok : phase_ok pay Idle loop.
Hypothesis loop_free : never_waits loop.

(** All items are started, and the bus model polls when the agent can go no further:
    the steps of the agent take no time. *)
Inductive eager_step : system -> system -> Prop :=
  | eager_agent e s s' : agent_step loop e s = Some s' -> eager_step s s'
  | eager_poll sq a q : (forall e, agent_step loop e (System sq a q) = None) ->
      eager_step (System sq a q) (System sq a (poll q)).

Definition loaded (items : list I) : system :=
  System {| given := items; todo := items; current := None; finished := [] |} loop
         {| req_driver_q := []; rsp_driver_q := []; responses := []; polls := [] |}.

(** The agent cannot go on, whatever the signals. *)
Definition stuck (s : system (I := I) (P := P) (N := N)) : bool :=
  match doing s with
  | GetNextItem _ => match todo (seqr s) with [] => true | _ => false end
  | Put _ _ => (req_maxsize <=? length (req_driver_q (bfm s)))%nat
  | WaitFor _ _ | Fail _ => true
  | _ => false
  end.

Lemma stuck_blocked s : stuck s = true -> forall e, agent_step loop e s = None.
Proof using.
  destruct s as [sq a q]. unfold stuck. cbn [doing seqr bfm]. intros H e.
  destruct a as [|k|t k|k|y k|k|k|r k|e']; cbn [agent_step]; try done.
  - unfold get_next_item. by destruct (todo sq).
  - unfold req_driver_q_put. apply Nat.leb_le in H. by rewrite (proj2 (Nat.ltb_ge _ _) H).
Qed.

(** The agent runs on as far as it can, in at most [fuel] steps. *)
Fixpoint run_on (fuel : nat) (e : env) (s : system (I := I) (P := P) (N := N)) : system :=
  match fuel with
  | O => s
  | S fuel => match agent_step loop e s with Some s => run_on fuel e s | None => s end
  end.

(** [n] polls; a turn of an agent has less than 10 steps, and at most two turns are
    possible between two polls. *)
Fixpoint keep_up (n : nat) (s : system (I := I) (P := P) (N := N)) : option system :=
  match n with
  | O => Some s
  | S n =>
      let s := run_on 20 (fun _ => 0) s in
      if stuck s then keep_up n (System (seqr s) (doing s) (poll (bfm s))) else None
  end.

Lemma run_on_eager fuel e s : rtc eager_step s (run_on fuel e s).
Proof using.
  revert s. induction fuel as [|fuel IH]; intros s; [apply rtc_refl|]. cbn [run_on].
  destruct (agent_step loop e s) as [s'|] eqn:E; [|apply rtc_refl].
  eapply rtc_l; [by eapply eager_agent|apply IH].
Qed.

Lemma keep_up_eager n s s' : keep_up n s = Some s' -> rtc eager_step s s'.
Proof using.
  revert s. induction n as [|n IH]; intros s; [intros [= ->]; apply rtc_refl|]. cbn [keep_up]. cbv zeta.
  pose proof (run_on_eager 20 (fun _ => 0) s) as Hs. revert Hs. generalize (run_on 20 (fun _ => 0) s). intros t Hs H.
  destruct (stuck t) eqn:Et; [|done]. etrans; [exact Hs|]. eapply rtc_l; [|by apply IH].
  destruct t as [sq a q]. apply eager_poll. by apply stuck_blocked.
Qed.

(** The items, and then nothing. *)
Definition gapless (entries : list P) (slots : list (option P)) : Prop :=
  exists n, slots = (Some <$> omap id slots) ++ replicate n None /\ (n = 0%nat \/ omap id slots = entries).

Lemma never_waits_step e s s' : never_waits (doing s) -> agent_step loop e s = Some s' ->
  never_waits (doing s') /\ given (seqr s') = given (seqr s) /\ polls (bfm s') = polls (bfm s).
Proof using loop_free.
  destruct s as [sq a q]. intros Hw H. cbn [doing seqr bfm] in *.
  destruct a as [|k|t k|k|y k|k|k|r k|e']; cbn [agent_step never_waits] in *; try done.
  - by injection H as <-.
  - injection H as <-. split_and!; [apply Hw|done..].
  - unfold get_next_item in H. destruct (todo sq); [done|]. injection H as <-. split_and!; [apply Hw|done..].
  - unfold req_driver_q_put in H. destruct (_ <? _)%nat; [|done]. injection H as <-. split_and!; [apply Hw|done..].
  - by injection H as <-.
  - injection H as <-. split_and!; [apply Hw|done..].
  - by injection H as <-.
Qed.

Lemma eager_gapless items s : rtc eager_step (loaded items) s ->
  inv pay s /\ never_waits (doing s) /\ given (seqr s) = items /\ gapless (pay <$> items) (polls (bfm s)).
Proof using loop_ok loop_free.
  intros H. assert (inv pay (loaded items) /\ never_waits (doing (loaded items)) /\ given (seqr (loaded items)) = items
    /\ gapless (pay <$> items) (polls (bfm (loaded items)))) as H0.
  { split_and!; [split; [by exists Idle|cbn; unfold req_maxsize; lia]|done|done|]. exists 0%nat. split; [done|by left]. }
  induction H as [|s1 s2 s3 Hs _ IH]; [done|]. apply IH. clear IH s3. destruct H0 as (Hi & Hw & Hg & Hn).
  destruct Hs as [e s s' H|sq a q Hb].
  - destruct (never_waits_step _ _ _ Hw H) as (Hw' & Hg' & Hp').
    split_and!; [by eapply agent_step_inv|done|by rewrite Hg'|by rewrite Hp'].
  - split_and!; [eapply (step_inv pay loop loop_ok); [exact Hi|constructor]|done|done|]. cbn [doing bfm seqr] in *.
    destruct Hn as (n & E & Hn). unfold gapless, poll. cbn [polls]. rewrite omap_app.
    pose proof (blocked_done pay loop _ Hi Hb) as Hd. destruct Hi as [(p & _ & _ & Hgi & Hq) Hl]. cbn [seqr doing bfm] in *.
    unfold applied in *. destruct (req_driver_q q) as [|y [|]] eqn:Eq; [| |cbn in Hl; unfold req_maxsize in Hl; lia].
    + destruct (Hd eq_refl) as [(t & k & ->)|[(e & ->)|[_ Ha]]]; [done|done|]. cbn [head omap list_omap id].
      exists (S n). rewrite app_nil_r, Ha, Hg. split; [|by right]. rewrite E at 1. rewrite Ha, Hg, <- app_assoc.
      f_equal. by rewrite <- replicate_cons_app.
    + cbn [head omap list_omap id]. exists 0%nat. split; [|by left]. assert (n = 0%nat) as ->.
      { destruct Hn as [|Hn]; [done|]. apply (f_equal length) in Hq. rewrite Hn, length_app, <- Hg, Hgi in Hq.
        rewrite !length_fmap, !length_app in Hq. destruct p; cbn in Hq; lia. }
      rewrite app_nil_r in E. by rewrite fmap_app, app_nil_r, <- E.
Qed.
End Eager.

(** ** Scans through the agent, the bus model and the predictor *)

(** The signals after the writes of a coroutine. *)
Definition written {I} (acts : list (action I)) (e : env) : env :=
  foldl (fun e a => match a with ADrive s v => upd s v e | _ => e end) e acts.

(** The signals after each falling edge of [tck] at which [JTAGBfm.driver_bfm] polls. *)
Fixpoint driver_bfm_wires (slots : list (option (Z * Z))) (e : env) : list env :=
  match slots with
  | [] => []
  | slot :: slots =>
      let e' := written (run (JTAGBfm_driver_step slot) e [Sample (FallingEdge "tck") e]).1 e in
      e' :: driver_bfm_wires slots e'
  end.

Lemma driver_step_wires slot e :
  written (run (JTAGBfm_driver_step slot) e [Sample (FallingEdge "tck") e]).1 e
  = match slot with Some (m, d) => upd "tdi" d (upd "tms" m e) | None => e end.
Proof.
  unfold JTAGBfm_driver_step. cbn [await pbind]. rewrite run_await_hit. by destruct slot as [[m d]|].
Qed.

(** The TAP stays idle while [tms] is low. *)
Lemma tap_run_idle aw n t rds : t_state t = RUN_TEST_IDLE_STATE ->
  let t' := tap_run aw (replicate n (0, 0)) rds t in t_state t' = RUN_TEST_IDLE_STATE /\ t_ir t' = t_ir t.
Proof.
  revert t rds. induction n as [|n IH]; intros t rds Hs; [by destruct rds|].
  destruct rds as [|rd rds]; [done|]. cbn [replicate tap_run].
  destruct t as [st irv srv drv ndrv]. cbn in Hs. subst st.
  destruct (IH (tap_step aw 0 0 rd {| t_state := RUN_TEST_IDLE_STATE; t_ir := irv; t_sr := srv; t_dr := drv; t_ndr := ndrv |}) rds)
    as [H1 H2]; [done|]. split; [exact H1|exact H2].
Qed.

(** The predictor sees [tms] and [tdi], out of reset. *)
Definition sampled (e : env) (i : Inputs) : Prop :=
  Jtag.trst_n i <> 0 /\ Jtag.tms i = Some (e "tms") /\ Jtag.tdi i = Some (e "tdi") /\ 0 <= rd_data i < 2 ^ 32.

(** The item that the signals show. *)
Definition shows (it : JTAGBaseSeqItem) (e : env) : Prop := e "tms" = item_tms it /\ e "tdi" = item_tdi it.

Lemma sampled_presents it e i : shows it e -> sampled e i -> presents it i.
Proof. intros [Hm Hd] (H1 & H2 & H3 & H4). rewrite Hm in H2. rewrite Hd in H3. done. Qed.

(** Items found without a gap are presented one after the other; the last one stays. *)
Lemma driver_bfm_stays n it e ins : shows it e ->
  Forall2 sampled (driver_bfm_wires (replicate n None) e) ins -> Forall2 presents (replicate n it) ins.
Proof.
  intros He. revert ins. induction n as [|n IH]; intros ins H; cbn [replicate driver_bfm_wires] in H.
  - by apply Forall2_nil_inv_l in H as ->.
  - rewrite driver_step_wires in H. apply Forall2_cons_inv_l in H as (i & ins' & Hi & H & ->).
    constructor; [by eapply sampled_presents|by apply IH].
Qed.

Lemma driver_bfm_presents items n it e ins : shows it e ->
  Forall2 sampled (driver_bfm_wires ((Some <$> (item_pair <$> items)) ++ replicate n None) e) ins ->
  Forall2 presents (items ++ replicate n (default it (last items))) ins.
Proof.
  revert it e ins. induction items as [|x items IH]; intros it e ins He H; [by eapply driver_bfm_stays|].
  cbn [fmap list_fmap app driver_bfm_wires] in H. rewrite driver_step_wires in H.
  apply Forall2_cons_inv_l in H as (i & ins' & Hi & H & ->).
  assert (shows x (upd "tdi" (item_tdi x) (upd "tms" (item_tms x) e))) as Hx.
  { split; [rewrite upd_ne by done|]; by rewrite upd_eq. }
  cbn [app]. constructor; [by eapply sampled_presents|]. eapply IH in H; [|exact Hx].
  by rewrite last_cons; destruct (last items).
Qed.

Lemma jtag_agent_bits instr n :
  Forall item_bits (SetIRSequence_body instr ++ replicate n (mkItem "idle1" 0 0)).
Proof.
  apply Forall_app. split; [apply set_ir_items_bits|]. apply Forall_replicate. split; by left.
Qed.

(** C15: Loading an instruction, through the agent, the bus model and the predictor.
    When the steps of the agent take no time between the falling edges of [tck], the
    items of [SetIRSequence] reach the wires at successive edges, and once there have
    been as many edges as items the predictor is idle with the five low bits of the
    instruction in [ir] (0 being replaced by the bypass instruction), and stays so for
    as long as no other sequence is started. *)
Theorem jtag_agent_sets_ir {LA : Type} `{LOps : LogicArray LA} {LSpec : LogicArraySpec LA}
    (pre : list Inputs) (p : JTAGPredictor LA) (instr : Z) (s : system) (e : env) (ins : list Inputs) :
  Forall good_inputs pre -> predicted pre p -> state (fsm p) = RUN_TEST_IDLE_STATE ->
  rtc (eager_step JTAGDriver_run_phase) (loaded JTAGDriver_run_phase (SetIRSequence_body instr)) s ->
  e "tms" = 0 -> e "tdi" = 0 ->
  Forall2 sampled (driver_bfm_wires (polls (bfm s)) e) ins ->
  (length (SetIRSequence_body instr) <= length (polls (bfm s)))%nat ->
  exists p', predict_cycles 7 ins p = Ok p' /\ state (fsm p') = RUN_TEST_IDLE_STATE
    /\ integer (ir (regs p')) = if instr mod 32 =? 0 then 0x1F else instr mod 32.
Proof.
  intros Hg Hp Hs Hrun Hm Hd Hins Hlen.
  destruct (eager_gapless item_pair JTAGDriver_run_phase JTAGDriver_ok) with (items := SetIRSequence_body instr) (s := s)
    as (Hi & _ & Hgiven & n & E & Hn); [done|done|].
  pose proof (inv_prefix _ _ Hi) as Hpre. rewrite Hgiven in Hpre.
  assert (applied (bfm s) = item_pair <$> SetIRSequence_body instr) as Ha.
  { destruct Hn as [->|Hn]; [|done]. apply prefix_length_eq; [by eapply prefix_app_l|].
    rewrite app_nil_r in E. rewrite E, length_fmap in Hlen. by rewrite length_fmap. }
  unfold applied in Ha. rewrite Ha in E. rewrite E in Hins.
  apply (driver_bfm_presents _ _ (mkItem "idle" 0 0)) in Hins; [|done].
  pose proof (predicted_refines _ _ Hg Hp) as Hr.
  destruct (items_refine _ _ _ _ (jtag_agent_bits instr n) Hins Hr) as (p' & E' & Hr').
  apply Forall2_app_inv_l in Hins as (ins1 & ins2 & H1 & _ & ->).
  rewrite !fmap_app, tap_run_app, fmap_replicate in Hr'
    by (rewrite !length_fmap; symmetry; by apply Forall2_length in H1).
  destruct (tap_set_ir 7 (sticky_cycles 7 pre tap_init) instr (rd_data <$> ins1)) as [S1 I1].
  { by rewrite <- (rel_state _ _ _ Hr). }
  { rewrite length_fmap. symmetry. by apply Forall2_length in H1. }
  destruct (tap_run_idle 7 n _ (rd_data <$> ins2) S1) as [S2 I2].
  exists p'. split; [done|]. split.
  - rewrite (rel_state _ _ _ Hr'). exact S2.
  - rewrite (ir_val _ _ _ _ _ _ (rel_regs _ _ _ Hr')). refine (eq_trans I2 _). exact I1.
Qed.

(** Loading the instruction 17 into the initial predictor, after it has become idle, with
    20 edges; and the same with one edge at which the agent had nothing to offer while
    the bits were shifted: the bit shown before is shifted in twice, and the first one is shifted out. *)
Definition inputs_of_wires (e : env) : Inputs :=
  {| Jtag.trst_n := 1; Jtag.tms := Some (e "tms"); Jtag.tdi := Some (e "tdi"); rd_data := 0 |}.

Definition ir_after (slots : list (option (Z * Z))) : result Z :=
  let! p := predict_cycles (LA := bits) 7 (inputs_of_wires <$> driver_bfm_wires slots (fun _ => 0)) (example_run example_idle) in
  Ok (integer (ir (regs p))).

Example scan_with_gap :
  let slots := Some <$> (item_pair <$> SetIRSequence_body 17) in
  ir_after slots = Ok 17 /\ ir_after (take 7 slots ++ None :: drop 7 slots) = Ok 16.
Proof. vm_compute. done. Qed.

Lemma jtag_agent_sets_ir_witness :
  exists s, keep_up JTAGDriver_run_phase 20 (loaded JTAGDriver_run_phase (SetIRSequence_body 17)) = Some s
    /\ exists p', predict_cycles (LA := bits) 7 (inputs_of_wires <$> driver_bfm_wires (polls (bfm s)) (fun _ => 0)) (example_run example_idle) = Ok p'
      /\ state (fsm p') = RUN_TEST_IDLE_STATE /\ integer (ir (regs p')) = 17.
Proof.
  destruct (keep_up JTAGDriver_run_phase 20 (loaded JTAGDriver_run_phase (SetIRSequence_body 17))) as [s|] eqn:E;
    [|vm_compute in E; discriminate E].
  exists s. split; [reflexivity|].
  apply (jtag_agent_sets_ir (LA := bits) example_idle (example_run example_idle) 17 s (fun _ => 0)).
  - apply (good_present [_]). constructor; [split; simpl; auto|constructor].
  - vm_compute. reflexivity.
  - vm_compute. reflexivity.
  - eapply keep_up_eager. exact E.
  - reflexivity.
  - reflexivity.
  - apply Forall2_fmap_r, Forall2_diag_iff, Forall_true. intros e. split_and!; (reflexivity || discriminate || lia).
  - vm_compute in E. injection E as <-. vm_compute. lia.
Defined.

(** ** The handshakes of the write channels *)

Section Bench.
Context {I P N : Type} (loop : agent I P N).

(** A rising edge of [clk]: the bus model polls its queue; then the agent resumes, if
    it waits for the edge, and goes on until it waits again.  (In the bench the bus
    model comes first: the agent has to give the item back to the sequence and to get
    the next one before it puts it.) *)
Definition bench_edge (s : system (I := I) (P := P) (N := N)) (e : env) : system :=
  run_on loop 20 e (System (seqr s)
    (match doing s with
     | WaitFor t k => if decide (t = RisingEdge "clk") then k e else WaitFor t k
     | a => a
     end) (poll (bfm s))).
Definition bench (es : list env) (s : system (I := I) (P := P) (N := N)) : system := foldl bench_edge s es.
End Bench.

(** The signals at each rising edge of [clk], where [AXIWriteChannelBFM.drive] polls. *)
Fixpoint drive_wires (slots : list (option AXIWriteItem)) (e : env) : list env :=
  match slots with
  | [] => []
  | slot :: slots =>
      e :: drive_wires slots (written (run (AXIWrite_drive [slot]) e [Sample (RisingEdge "clk") e]).1 e)
  end.

(** The write items on the wires at each edge. *)
Fixpoint on_wires (item : AXIWriteItem) (slots : list (option AXIWriteItem)) : list AXIWriteItem :=
  match slots with
  | [] => []
  | slot :: slots => item :: on_wires (default item slot) slots
  end.

Lemma drive_wires_items slots e : e "rst_l" <> 0 ->
  sample_w <$> drive_wires slots e = on_wires (sample_w e) slots.
Proof.
  revert e. induction slots as [|slot slots IH]; intros e Hr; [done|].
  cbn [drive_wires fmap list_fmap on_wires]. f_equal.
  assert ((run (AXIWrite_drive [slot]) e [Sample (RisingEdge "clk") e]).1
    = match slot with Some item => (run (drive_w (I := AXIWriteItem) item) e []).1 | None => [] end) as ->.
  { unfold AXIWrite_drive, in_reset. rewrite run_pbind. cbn [now pbind run].
    rewrite (proj2 (Z.eqb_neq _ _) Hr). cbn [run await pbind]. rewrite next_firing_hit. by destruct slot as [[]|]. }
  rewrite IH; [f_equal; by destruct slot as [[]|]|by destruct slot as [[]|]].
Qed.

(** What the monitors of the channel report. *)
Lemma in_reset_skip {I} (idle : proc I unit) (p : proc I unit) cur tr : cur "rst_l" <> 0 ->
  run (in_reset idle ;;; p) cur tr = run p cur tr.
Proof.
  intros Hr. rewrite run_pbind. unfold in_reset. cbn [now pbind run].
  rewrite (proj2 (Z.eqb_neq _ _) Hr). cbn [run]. by destruct (run p cur tr).
Qed.

(** The monitor of a handshake: the test and the item are those of one edge. *)
Definition edge_monitor {I} (test : env -> bool) (item : env -> I) (body : unit -> proc I unit) : Prop :=
  body = fun _ => in_reset (Ret tt) ;;;
    (e <- await (RisingEdge "clk") ;; if test e then publish (item e) else Ret tt).

Lemma edge_monitor_items {I} test item (body : unit -> proc I unit) cur es : edge_monitor test item body ->
  cur "rst_l" <> 0 -> Forall (fun e : env => e "rst_l" <> 0) es ->
  monitor_items body tt cur (edges es) = item <$> filter (fun e => test e = true) es.
Proof.
  intros -> Hc Hes. unfold monitor_items.
  enough (forall n, (length es < n)%nat -> published (run_forever n
    (fun _ : unit => in_reset (Ret tt) ;;; (e <- await (RisingEdge "clk") ;; if test e then publish (item e) else Ret tt))
    tt cur (edges es)).1 = item <$> filter (fun e => test e = true) es) as H.
  { apply H. unfold edges. rewrite length_fmap. lia. }
  revert cur Hc. induction Hes as [|e es He Hes IH]; intros cur Hc n Hn; (destruct n as [|n]; [cbn in Hn; lia|]);
    cbn [run_forever]; rewrite in_reset_skip by done; cbn [await pbind]; [done|].
  rewrite run_clk, filter_cons. cbn [length] in Hn. specialize (IH e He n ltac:(lia)).
  destruct (test e) eqn:E; cbn [publish run fmap list_fmap].
  - rewrite decide_True by done. destruct (run_forever n _ tt e (edges es)) as [acts o]. cbn in *. by rewrite IH.
  - rewrite decide_False by done. destruct (run_forever n _ tt e (edges es)) as [acts o]. done.
Qed.

Section WriteChannel.
#[local] Abbreviation loop := AXIWriteChannelDriver_run_phase.

(** The class of an item that waits for an answer, and the signal of the answer. *)
Definition answered_by (item : AXIWriteSeqItem) (sig : string) : Prop :=
  match item with
  | WInactive => False
  | WRequest _ _ => sig = "axi_awready"
  | WLastData _ => sig = "axi_wready"
  | WResponse => sig = "axi_bvalid"
  end.

(** The agent out of reset, when a sequence has been started: it has put the first
    item. *)
Definition offered (item : AXIWriteSeqItem) (e : env) : system (I := AXIWriteSeqItem) (P := AXIWriteItem) (N := Empty_set) :=
  run_on loop 20 e (loaded loop [WInactive; item; WInactive]).

Lemma bench_waits sig m (k : agent AXIWriteSeqItem AXIWriteItem Empty_set) low sq q :
  Forall (fun e => truthy (e sig) = false) low -> (length low <= m)%nat ->
  bench loop low (System sq (handshake sig m k) q)
  = System sq (handshake sig (m - length low) k) (Nat.iter (length low) poll q).
Proof.
  intros Hl. revert m q. induction Hl as [|e low He Hl IH]; intros m q Hm; [by rewrite Nat.sub_0_r|].
  cbn [length] in *. destruct m as [|m]; [lia|]. unfold bench. cbn [foldl].
  assert (bench_edge loop (System sq (handshake sig (S m) k) q) e = System sq (handshake sig m k) (poll q)) as ->.
  { unfold bench_edge. cbn [handshake doing seqr bfm]. rewrite decide_True by done. rewrite He. by destruct m. }
  fold (bench loop low (System sq (handshake sig m k) (poll q))). rewrite IH by lia.
  by rewrite Nat.iter_succ_r.
Qed.

Lemma iter_poll_empty {P N} (rsp : list N) res (ps : list (option P)) n :
  Nat.iter n poll {| req_driver_q := []; rsp_driver_q := rsp; responses := res; polls := ps |}
  = {| req_driver_q := []; rsp_driver_q := rsp; responses := res; polls := ps ++ replicate n None |}.
Proof.
  revert ps. induction n as [|n IH]; intros ps; [by rewrite app_nil_r|].
  rewrite Nat.iter_succ_r. unfold poll at 2. cbn [req_driver_q rsp_driver_q responses polls tail head].
  by rewrite IH, <- app_assoc.
Qed.

Lemma iter_poll_one {P N} (x : P) (rsp : list N) res ps n :
  Nat.iter (S n) poll {| req_driver_q := [x]; rsp_driver_q := rsp; responses := res; polls := ps |}
  = {| req_driver_q := []; rsp_driver_q := rsp; responses := res; polls := ps ++ Some x :: replicate n None |}.
Proof.
  rewrite Nat.iter_succ_r. unfold poll at 2. cbn [req_driver_q rsp_driver_q responses polls tail head].
  by rewrite iter_poll_empty, <- app_assoc.
Qed.

Lemma bench_idle rest sq q k : todo sq = [] ->
  bench (P := AXIWriteItem) (N := Empty_set) loop rest (System sq (GetNextItem k) q)
  = System sq (GetNextItem k) (Nat.iter (length rest) poll q).
Proof.
  intros Ht. revert q. induction rest as [|e rest IH]; intros q; [done|]. unfold bench. cbn [foldl].
  assert (bench_edge loop (System sq (GetNextItem k) q) e = System sq (GetNextItem k) (poll q)) as ->.
  { unfold bench_edge. cbn [doing seqr bfm run_on agent_step]. unfold get_next_item. by rewrite Ht. }
  fold (bench loop rest (System sq (GetNextItem k) (poll q))). rewrite IH. cbn [length].
  by rewrite Nat.iter_succ_r.
Qed.

(** The slots of a sequence whose item is answered after [low] edges. *)
Lemma write_slots item sig e e0 low high next rest :
  answered_by item sig -> Forall (fun e => e "rst_l" <> 0) [e; e0; high] ->
  Forall (fun e => truthy (e sig) = false) low -> truthy (high sig) = true -> (length low <= 30)%nat ->
  polls (bfm (bench loop (e0 :: low ++ high :: next :: rest) (offered item e)))
  = [Some (w_item WInactive); Some (w_item item)] ++ replicate (length low) None
    ++ Some (w_item WInactive) :: replicate (length rest) None.
Proof.
  intros Hi Hr Hlow Hhigh Hlen.
  inversion_clear Hr as [|? ? Hre Hr1]. inversion_clear Hr1 as [|? ? Hr0 Hr2]. inversion_clear Hr2 as [|? ? Hrh _].
  apply Z.eqb_neq in Hre, Hr0, Hrh.
  set (sq := {| given := [WInactive; item; WInactive]; todo := [WInactive]; current := Some item; finished := [WInactive] |}).
  assert (bench_edge loop (offered item e) e0 = System sq (handshake sig W_TIMEOUT_THRESHOLD (ItemDone Finish))
    {| req_driver_q := [w_item item]; rsp_driver_q := []; responses := []; polls := [Some (w_item WInactive)] |}) as H0.
  { unfold offered. cbn. rewrite Hre. cbn. rewrite Hre. cbn. unfold bench_edge. cbn. destruct item; cbn in Hi; subst; done. }
  unfold bench. cbn [foldl]. rewrite H0, foldl_app. fold (bench loop low).
  change (foldl (bench_edge loop) ?s low) with (bench loop low s).
  rewrite (bench_waits sig) by (done || (unfold W_TIMEOUT_THRESHOLD; lia)).
  change (foldl (bench_edge loop) ?s (high :: ?r)) with (bench loop r (bench_edge loop s high)).
  assert (exists sq' k, todo sq' = [] /\ bench_edge loop (System sq (handshake sig (W_TIMEOUT_THRESHOLD - length low) (ItemDone Finish))
      (Nat.iter (length low) poll {| req_driver_q := [w_item item]; rsp_driver_q := []; responses := []; polls := [Some (w_item WInactive)] |})) high
    = System sq' (GetNextItem k) {| req_driver_q := [w_item WInactive]; rsp_driver_q := []; responses := [];
        polls := [Some (w_item WInactive); Some (w_item item)] ++ replicate (length low) None |}) as (sq' & k & Ht & ->).
  { unfold bench_edge. cbn [bfm seqr doing]. rewrite <- Nat.iter_succ, iter_poll_one.
    destruct (_ - _)%nat; cbn [handshake]; rewrite decide_True, Hhigh by done; cbn; rewrite Hrh; cbn; rewrite Hrh; cbn; eexists _, _; (split; [|reflexivity]); reflexivity. }
  rewrite bench_idle by done. cbn [length bfm]. rewrite iter_poll_one. cbn [polls]. by rewrite <- app_assoc.
Qed.

(** The edges with an item on the wires are those after the first one of [low ++ [high]]
    up to [next]. *)
Lemma on_wires_slots item i n m :
  on_wires i ([Some i; Some item] ++ replicate n None ++ Some i :: replicate m None)
  = [i; i] ++ replicate n item ++ item :: replicate m i.
Proof.
  cbn [app on_wires default]. do 2 f_equal.
  assert (forall x n slots, on_wires x (replicate n None ++ slots) = replicate n x ++ on_wires x slots) as H.
  { clear. intros x n slots. induction n as [|n IH]; [done|]. cbn. by rewrite IH. }
  rewrite H. cbn [on_wires default id]. do 2 f_equal. specialize (H i m []). by rewrite !app_nil_r in H.
Qed.

Lemma fmap_replicate_inv {A B} (f : A -> B) l n x : f <$> l = replicate n x -> Forall (fun y => f y = x) l.
Proof.
  revert n. induction l as [|y l IH]; intros [|n]; [by constructor|done|done|].
  cbn. intros [= Hy Hl]. constructor; [done|by eapply IH].
Qed.
End WriteChannel.

Section Transfers.
Context (test : env -> bool) (item inactive : AXIWriteItem) (sig : string).
Hypothesis test_item : forall e, sample_w e = item -> test e = truthy (e sig).
Hypothesis test_inactive : forall e, sample_w e = inactive -> test e = false.

Lemma filter_inactive es : Forall (fun e => sample_w e = inactive) es -> filter (fun e => test e = true) es = [].
Proof using test_inactive.
  induction 1 as [|e es He _ IH]; [done|]. by rewrite filter_cons, (test_inactive e He), decide_False.
Qed.

Lemma filter_low es : Forall (fun e => sample_w e = item) es -> Forall (fun e => truthy (e sig) = false) es ->
  filter (fun e => test e = true) es = [].
Proof using test_item.
  induction 1 as [|e es He _ IH]; [done|]. intros H. inversion_clear H as [|? ? Hs Hs'].
  by rewrite filter_cons, (test_item e He), Hs, decide_False, IH.
Qed.

Lemma transfers e0 low high next rest :
  Forall (fun e => truthy (e sig) = false) low -> truthy (high sig) = true ->
  sample_w <$> (e0 :: low ++ high :: next :: rest)
    = [inactive; inactive] ++ replicate (length low) item ++ item :: replicate (length rest) inactive ->
  let taken := (match low with [] => [] | _ => [high] end) ++ (if truthy (next sig) then [next] else []) in
  filter (fun e => test e = true) (e0 :: low ++ high :: next :: rest) = taken
  /\ sample_w <$> taken = (fun _ => item) <$> taken.
Proof using test_item test_inactive.
  intros Hlow Hhigh. cbn [fmap list_fmap app]. intros [= H0 H]. rewrite filter_cons, (test_inactive e0 H0), decide_False by done.
  assert (forall rest, Forall (fun e => sample_w e = inactive) rest -> sample_w next = item ->
    filter (fun e => test e = true) (next :: rest) = if truthy (next sig) then [next] else []) as Hnext.
  { intros r Hr Hn. rewrite filter_cons, (test_item next Hn), (filter_inactive r Hr). by destruct (truthy (next sig)). }
  destruct low as [|l low]; cbn [app length replicate fmap list_fmap] in *.
  - injection H as H1 H2 H3. rewrite filter_cons, (test_inactive high H1), decide_False by done.
    rewrite Hnext by (done || by eapply fmap_replicate_inv). split; [done|]. destruct (truthy (next sig)); cbn; by rewrite ?H2.
  - injection H as H1 H2. inversion_clear Hlow as [|? ? _ Hlow'].
    rewrite filter_cons, (test_inactive l H1), decide_False by done.
    replace (low ++ high :: next :: rest) with ((low ++ [high]) ++ next :: rest) in * by by rewrite <- app_assoc.
    change (item :: replicate (length low) item ++ item :: replicate (length rest) inactive)
      with (replicate (S (length low)) item ++ item :: replicate (length rest) inactive) in H2.
    rewrite fmap_app in H2. apply app_inj_1 in H2 as [H2 H3]; [|by rewrite length_fmap, length_app, length_replicate, Nat.add_comm].
    apply fmap_replicate_inv, Forall_app in H2 as [Hl Hh]. inversion_clear Hh as [|? ? Hh' _].
    injection H3 as Hn Hr. rewrite filter_app, filter_app, (filter_low low) by done.
    rewrite filter_cons, (test_item high Hh'), Hhigh, decide_True by done.
    rewrite Hnext by (done || by eapply fmap_replicate_inv). split; [done|].
    destruct (truthy (next sig)); cbn; by rewrite ?Hh', ?Hn.
Qed.
End Transfers.


(** The monitor that reports the transfers of an item. *)
Definition transfer_test (item : AXIWriteSeqItem) (e : env) : bool :=
  match item with
  | WResponse => truthy (e "axi_bvalid") && truthy (e "axi_bready")
  | _ => w_handshake e
  end.

Lemma transfer_test_item item sig e : answered_by item sig -> sample_w e = w_item item ->
  transfer_test item e = truthy (e sig).
Proof.
  intros Ha H. pose proof (f_equal axi_awvalid H) as H1. pose proof (f_equal axi_wvalid H) as H2.
  pose proof (f_equal axi_bready H) as H3. clear H. destruct item; cbn in Ha; [done|subst sig..]; cbn [transfer_test]; unfold w_handshake; cbn in H1, H2, H3;
    rewrite ?H1, ?H2, ?H3; cbn; by rewrite ?orb_false_r, ?andb_true_r.
Qed.

Lemma transfer_test_inactive item e : sample_w e = AXIWriteInactiveSeqItem -> transfer_test item e = false.
Proof.
  intros H. pose proof (f_equal axi_awvalid H) as H1. pose proof (f_equal axi_wvalid H) as H2.
  pose proof (f_equal axi_bready H) as H3. clear H. cbn in H1, H2, H3.
  destruct item; cbn [transfer_test]; unfold w_handshake; rewrite ?H1, ?H2, ?H3; cbn; by rewrite ?andb_false_r.
Qed.

(** C39: The transfers that a write sequence makes.  Its item is offered between two
    inactive ones; the agent waits for the ready signal of the bridge from the edge at
    which the bus model drives the item ([low] edges in vain, then [high]), and the item
    stays on the wires until the edge after the answer ([next]).  So the monitors report
    the transfer at [high], unless this was the first edge, at which the item was not
    yet on the wires; and again at [next], if the bridge is ready then.  A bridge that
    becomes ready late and stays so takes every item twice. *)
Theorem axi_write_transfers (item : AXIWriteSeqItem) (sig : string) (e e0 high next cur w0 : env) (low rest : list env) :
  let es := e0 :: low ++ high :: next :: rest in
  answered_by item sig ->
  Forall (fun e : env => e "rst_l" <> 0) (e :: cur :: w0 :: es) ->
  Forall (fun e => truthy (e sig) = false) low -> truthy (high sig) = true -> (length low <= 30)%nat ->
  sample_w w0 = AXIWriteInactiveSeqItem ->
  Forall2 (fun w e => sample_w e = sample_w w)
    (drive_wires (polls (bfm (bench AXIWriteChannelDriver_run_phase es (offered item e)))) w0) es ->
  let taken := (match low with [] => [] | _ => [high] end) ++ (if truthy (next sig) then [next] else []) in
  match item with
  | WResponse => monitor_items AXIWrite_rsp_monitor tt cur (edges es) = sample_signals AXI_W_CHAN_RSP_SIGNALS <$> taken
  | _ => monitor_items AXIWrite_req_monitor tt cur (edges es) = (fun _ => w_item item) <$> taken
  end.
Proof.
  intros es Ha Hr Hlow Hhigh Hlen H0 Hw taken. inversion_clear Hr as [|? ? Hre Hr1].
  inversion_clear Hr1 as [|? ? Hrc Hr2]. inversion_clear Hr2 as [|? ? Hrw Hres].
  assert (sample_w <$> es = on_wires AXIWriteInactiveSeqItem
    (polls (bfm (bench AXIWriteChannelDriver_run_phase es (offered item e))))) as Hes.
  { rewrite <- H0, <- drive_wires_items by done. clear - Hw. induction Hw as [|w e' ws es' He _ IH]; [done|]. cbn. by rewrite He, IH. }
  assert (Forall (fun e : env => e "rst_l" <> 0) [e; e0; high]) as Hrs.
  { repeat constructor; [done|by inversion_clear Hres|]. rewrite Forall_forall in Hres. apply Hres. subst es.
    apply elem_of_cons; right. apply elem_of_app; right. by left. }
  unfold es in Hes. rewrite (write_slots item sig) in Hes by done. cbn [w_item] in Hes. rewrite on_wires_slots in Hes.
  assert (filter (fun e => transfer_test item e = true) es = taken
    /\ sample_w <$> taken = (fun _ => w_item item) <$> taken) as [Ht Hitem].
  { apply (transfers _ (w_item item) AXIWriteInactiveSeqItem sig); try done.
    - intros e'. by apply transfer_test_item.
    - intros e'. by apply transfer_test_inactive. }
  destruct item; [done|..].
  1,2: rewrite (edge_monitor_items w_handshake sample_w) by (done || reflexivity); rewrite <- Hitem, <- Ht; reflexivity.
  rewrite (edge_monitor_items (transfer_test WResponse) (sample_signals AXI_W_CHAN_RSP_SIGNALS)) by (done || reflexivity).
  by rewrite Ht.
Qed.

(** A bridge that is ready from the third edge on, and stays so: one write request of
    the sequence is reported twice. *)
Lemma axi_write_transfers_witness :
  let item := WRequest 0 8 in
  let quiet := sig_env [("rst_l", 1)] in
  let asks := written (run (drive_w (I := unit) (w_item item)) quiet []).1 quiet in
  let ready := upd "axi_awready" 1 asks in
  monitor_items AXIWrite_req_monitor tt quiet (edges [quiet; quiet; ready; ready; quiet])
  = [w_item item; w_item item].
Proof.
  cbv zeta. set (quiet := sig_env [("rst_l", 1)]).
  set (asks := written (run (drive_w (I := unit) (w_item (WRequest 0 8))) quiet []).1 quiet).
  apply (axi_write_transfers (WRequest 0 8) "axi_awready" quiet quiet (upd "axi_awready" 1 asks)
    (upd "axi_awready" 1 asks) quiet quiet [quiet] [quiet]).
  - reflexivity.
  - repeat (constructor; [discriminate|]). constructor.
  - repeat constructor.
  - reflexivity.
  - cbn. lia.
  - reflexivity.
  - vm_compute. repeat constructor.
Defined.

(** ** The read request *)

Section ReadChannel.
#[local] Abbreviation loop := AXIReadChannelDriver_run_phase.

(** The agent out of reset, when a read request has been started, at two edges. *)
Definition read_agent (r_addr : Z) (e e0 e1 : env) : system (I := AXIReadItem) (P := AXIReadItem) (N := AXI_NOTIFICATION) :=
  bench loop [e0; e1] (run_on loop 20 e (loaded loop (AXIReadTransactionRequestSeq r_addr))).

(** Two turns of [AXIReadChannelBFM.drive] that find [offers]; a notification is not
    taken meanwhile. *)
Definition read_turns (offers : list (option AXIReadItem)) : proc AXIReadItem read_state :=
  st <- AXIRead_drive {| r_offers := offers; r_full := false; r_drains := [false] |} ;; AXIRead_drive st.

Lemma read_agent_done r_addr (e e0 e1 : env) :
  Forall (fun e : env => e "rst_l" <> 0) [e; e0; e1] ->
  polls (bfm (read_agent r_addr e e0 e1)) = Some <$> AXIReadTransactionRequestSeq r_addr
  /\ exists k, doing (read_agent r_addr e e0 e1) = GetNextItem k /\ todo (seqr (read_agent r_addr e e0 e1)) = [].
Proof.
  intros Hr. inversion_clear Hr as [|? ? Hre Hr1]. inversion_clear Hr1 as [|? ? Hr0 Hr2]. inversion_clear Hr2 as [|? ? Hr1 _].
  apply Z.eqb_neq in Hre, Hr0, Hr1. unfold read_agent, bench. cbn [foldl].
  set (items := AXIReadTransactionRequestSeq r_addr). unfold AXIReadTransactionRequestSeq in items.
  set (request := AXIReadTransactionRequestSeqItem r_addr) in *. clearbody request.
  do 6 (cbn; rewrite ?Hre, ?Hr0, ?Hr1). split; [done|]. by eexists.
Qed.

Lemma read_turns_run request (e0 e1 e2 cur : env) :
  Forall (fun e : env => e "rst_l" <> 0) [cur; e0; e1; e2] -> truthy (e0 "axi_arvalid") = false ->
  truthy (e1 "axi_arvalid") = true ->
  let offers := [Some request; Some AXIReadInactiveSeqItem] in
  (run (read_turns offers) cur (edges [e0])).1 = (run (drive_r (I := AXIReadItem) request) e0 []).1
  /\ (run (read_turns offers) cur (edges [e0; e1])).1
     = (run (drive_r (I := AXIReadItem) request ;;; drive_r AXIReadInactiveSeqItem) e0 []).1
  /\ (run (read_turns offers) cur (edges [e0; e1; e2])).2
     = if truthy (e1 "axi_arready") then Done {| r_offers := []; r_full := false; r_drains := [false] |} e1 (edges [e2])
       else if truthy (e2 "axi_arready") then Done {| r_offers := []; r_full := true; r_drains := [] |} e2 []
       else Crashed QueueFull.
Proof.
  intros Hr H0 H1 offers. inversion_clear Hr as [|? ? Hc Hr0]. inversion_clear Hr0 as [|? ? He0 Hr1].
  inversion_clear Hr1 as [|? ? He1 Hr2]. inversion_clear Hr2 as [|? ? He2 _].
  apply Z.eqb_neq in Hc, He0, He1, He2.
  subst offers. unfold read_turns, AXIRead_drive, in_reset. split_and!.
  all: do 4 (cbn; rewrite ?Hc, ?He0, ?He1, ?He2, ?next_firing_hit, ?H0, ?H1).
  - done.
  - cbn. by destruct (e1 "axi_arready" =? 0).
  - cbn. unfold truthy in *. destruct (e1 "axi_arready" =? 0); cbn; [|done].
    rewrite ?next_firing_hit. cbn. by destruct (e2 "axi_arready" =? 0).
Qed.

(** C37: A read request and the cycle it has.  The agent offers the request and, as soon
    as the bus model has taken it, an inactive item, and then waits for the next
    sequence without looking at its notifications.  So the request is on the wires at
    one edge, [e1], only: the monitor reports it if the bridge is ready at this edge.
    If not, the request is lost: when the bridge is ready at the edge after, the bus
    model goes on as if it had been accepted, with its notification left in the queue;
    and when it is not ready then either, putting a second notification into the
    queue of size 1 raises [QueueFull], long before the time-out of 20 cycles. *)
Theorem axi_read_request_cycle (r_addr : Z) (e cur e0 e1 e2 : env) :
  let turns := read_turns (polls (bfm (read_agent r_addr e e0 e1))) in
  Forall (fun e : env => e "rst_l" <> 0) [e; cur; e0; e1; e2] ->
  sample_r e0 = AXIReadInactiveSeqItem ->
  sample_r e1 = sample_r (written (run turns cur (edges [e0])).1 e0) ->
  sample_r e2 = sample_r (written (run turns cur (edges [e0; e1])).1 e0) ->
  (forall n e', agent_step loop e' (System (seqr (read_agent r_addr e e0 e1)) (doing (read_agent r_addr e e0 e1))
     (notify n (bfm (read_agent r_addr e e0 e1)))) = None)
  /\ monitor_items AXIRead_req_monitor tt cur (edges [e0; e1; e2])
     = (if truthy (e1 "axi_arready") then [AXIReadTransactionRequestSeqItem r_addr] else [])
  /\ (run turns cur (edges [e0; e1; e2])).2
     = if truthy (e1 "axi_arready") then Done {| r_offers := []; r_full := false; r_drains := [false] |} e1 (edges [e2])
       else if truthy (e2 "axi_arready") then Done {| r_offers := []; r_full := true; r_drains := [] |} e2 []
       else Crashed QueueFull.
Proof.
  intros turns Hr H0 H1 H2. inversion_clear Hr as [|? ? He Hr'].
  destruct (read_agent_done r_addr e e0 e1) as (Hp & k & Hd & Ht).
  { inversion_clear Hr' as [|? ? _ Hr0]. inversion_clear Hr0 as [|? ? He0 Hr1]. inversion_clear Hr1 as [|? ? He1 _]. by repeat constructor. }
  subst turns. rewrite Hp in *. change (Some <$> AXIReadTransactionRequestSeq r_addr)
    with [Some (AXIReadTransactionRequestSeqItem r_addr); Some AXIReadInactiveSeqItem] in *.
  set (request := AXIReadTransactionRequestSeqItem r_addr) in *.
  assert (axi_arvalid request = 1) as Hv by done. clearbody request.
  assert (truthy (e0 "axi_arvalid") = false) as V0 by (pose proof (f_equal axi_arvalid H0) as H; cbn in H; by rewrite H).
  inversion_clear Hr' as [|? ? Hc Hes]. inversion_clear Hes as [|? ? R0 Hes']. inversion_clear Hes' as [|? ? R1 Hes].
  inversion_clear Hes as [|? ? R2 _].
  assert (truthy (e1 "axi_arvalid") = true /\ sample_r e1 = request) as [V1 S1].
  { destruct (read_turns_run request e0 (upd "axi_arvalid" 1 e1) e2 cur) as (E & _);
      [by repeat constructor|done|by rewrite upd_eq|]. rewrite E in H1.
    assert (sample_r e1 = request) as S1 by (rewrite H1; by destruct request). split; [|done].
    pose proof (f_equal axi_arvalid S1) as H. rewrite Hv in H. cbn in H. by rewrite H. }
  destruct (read_turns_run request e0 e1 e2 cur) as (_ & E2 & E3); [by repeat constructor|done..|].
  rewrite E2 in H2. assert (sample_r e2 = AXIReadInactiveSeqItem) as S2 by (rewrite H2; by destruct request).
  assert (truthy (e2 "axi_arvalid") = false) as V2 by (pose proof (f_equal axi_arvalid S2) as H; cbn in H; by rewrite H).
  split_and!.
  - intros n e'. cbn [agent_step]. rewrite Hd. unfold get_next_item. by rewrite Ht.
  - rewrite (edge_monitor_items (fun e => truthy (e "axi_arvalid") && truthy (e "axi_arready")) sample_r)
      by (reflexivity || done || (constructor; [done|]; constructor; [done|]; constructor; [done|constructor])).
    rewrite !filter_cons, V0, V1, V2. cbn [andb]. 
    destruct (truthy (e1 "axi_arready")); repeat case_decide; try done. cbn. by rewrite S1.
  - exact E3.
Qed.
End ReadChannel.

(** The bridge is ready one cycle too late: the request is lost. *)
Lemma axi_read_request_cycle_witness :
  let up := sig_env [("rst_l", 1)] in
  let e1 := written (run (drive_r (I := unit) (AXIReadTransactionRequestSeqItem 5)) up []).1 up in
  let e2 := sig_env [("rst_l", 1); ("axi_arready", 1)] in
  monitor_items AXIRead_req_monitor tt up (edges [up; e1; e2]) = []
  /\ (run (read_turns (polls (bfm (read_agent 5 up up e1)))) up (edges [up; e1; e2])).2
     = Done {| r_offers := []; r_full := true; r_drains := [] |} e2 [].
Proof.
  cbv zeta. set (up := sig_env [("rst_l", 1)]).
  apply (axi_read_request_cycle 5 up up up
    (written (run (drive_r (I := unit) (AXIReadTransactionRequestSeqItem 5)) up []).1 up)
    (sig_env [("rst_l", 1); ("axi_arready", 1)])).
  - repeat (constructor; [discriminate|]). constructor.
  - reflexivity.
  - reflexivity.
  - reflexivity.
Defined.

(** ** The monitors of the agents

    A monitor moves what its bus model puts into an unbounded queue to its analysis
    port: JTAGMonitor, DMIMonitor, and each of the two tasks of BaseMonitor. *)

Record monitor (D : Type) := { produced : list D; pending : list D; datum : option D; port : list D }.
Arguments produced {D} m.
Arguments pending {D} m.
Arguments datum {D} m.
Arguments port {D} m.
Arguments Build_monitor {D}.

(** [self.rsp_monitor_q.put_nowait(d)] of the bus model. *)
Definition monitor_q_put {D} (d : D) (m : monitor D) : monitor D :=
  {| produced := produced m ++ [d]; pending := pending m ++ [d]; datum := datum m; port := port m |}.

(** The turns of [run_phase]: [datum = await self.get_method()], [self.ap.write(datum)];
    [None] while there is nothing to get. *)
Definition monitor_turn {D} (m : monitor D) : option (monitor D) :=
  match datum m, pending m with
  | Some d, _ => Some {| produced := produced m; pending := pending m; datum := None; port := port m ++ [d] |}
  | None, d :: ds => Some {| produced := produced m; pending := ds; datum := Some d; port := port m |}
  | None, [] => None
  end.

Inductive monitor_step {D} : monitor D -> monitor D -> Prop :=
  | monitor_puts d m : monitor_step m (monitor_q_put d m)
  | monitor_turns m m' : monitor_turn m = Some m' -> monitor_step m m'.

Definition idle_monitor (D : Type) : monitor D :=
  {| produced := []; pending := []; datum := None; port := [] |}.

(** [BaseMonitor.run_phase]: the tasks [monitor_req] and [monitor_rsp] side by side. *)
Inductive base_monitor_step {Q R} : monitor Q * monitor R -> monitor Q * monitor R -> Prop :=
  | monitor_req m m' r : monitor_step m m' -> base_monitor_step (m, r) (m', r)
  | monitor_rsp q m m' : monitor_step m m' -> base_monitor_step (q, m) (q, m').

(** Everything produced is at the port, in hand, or in the queue, in this order; a
    monitor that cannot go on has written everything. *)
Definition forwards {D} (m : monitor D) : Prop :=
  produced m = port m ++ (match datum m with Some d => [d] | None => [] end) ++ pending m
  /\ (monitor_turn m = None -> port m = produced m).

Lemma monitor_step_forwards {D} (m m' : monitor D) : forwards m -> monitor_step m m' -> forwards m'.
Proof.
  intros [Hm _] Hs. assert (produced m' = port m' ++ (match datum m' with Some d => [d] | None => [] end) ++ pending m') as H.
  { destruct Hs as [d m|m m' H]; [cbn; by rewrite Hm, !app_assoc|]. destruct m as [ps [|d ds] [x|] out]; cbn in *;
      simplify_eq; cbn; rewrite ?app_nil_r, <- ?app_assoc; done. }
  split; [done|]. destruct m' as [ps [|d ds] [x|] out]; cbn in *; try done. intros _. by rewrite H, app_nil_r.
Qed.

(** A reachable [BaseMonitor] forwards the requests and the responses, each in order. *)
Lemma base_monitor_forwards {Q R} (s : monitor Q * monitor R) :
  rtc base_monitor_step (idle_monitor Q, idle_monitor R) s -> forwards s.1 /\ forwards s.2.
Proof.
  intros H. assert (forwards (idle_monitor Q) /\ forwards (idle_monitor R)) as H0 by by split.
  change (idle_monitor Q) with (idle_monitor Q, idle_monitor R).1 in H0.
  change (idle_monitor R) with (idle_monitor Q, idle_monitor R).2 in H0 at 2.
  induction H as [|s1 s2 s3 Hs _ IH]; [exact H0|]. apply IH.
  destruct Hs as [m m' r Hs|q m m' Hs]; destruct H0; (split; [|]); try done; by eapply monitor_step_forwards.
Qed.
