(* ===== verification/MemBench.v ===== *)
(** * Closely coupled memory benches: verification/block/dccm/testbench.py and
    verification/block/iccm/testbench.py, with the sequences of their tests

    The two benches differ in the names of the ports, in how many ports carry
    the address and the data, and in the constant the instruction side drives on
    the size port; [ports] collects that.  The unit of the closed-loop theorem is
    an arbitrary function of the words written: it need not be a memory. *)

From S2P Require Import Prelude Scoreboard Cocotb ClosedLoop.
From stdpp Require Import base gmap list strings.
From Stdlib Require Import ZArith Lia.

#[local] Open Scope string_scope.
#[local] Open Scope list_scope.
#[local] Open Scope Z_scope.

(** [MemWriteItem], [MemReadItem]; the driver ignores the data of a read. *)
Inductive item := MemWriteItem (addr data : Z) | MemReadItem (addr data : Z).

#[export] Instance item_eq_dec : EqDecision item.
Proof. solve_decision. Defined.

Record ports := {
  wren : string; rden : string;
  wr_addr : list string; wr_data : list string; rd_addr : list string;
  (** Ports driven to a constant by a write. *)
  wr_const : list (string * Z);
  (** The ports that the monitor samples. *)
  mon_wr_addr : string; mon_wr_data : string; mon_rd_addr : string; mon_rd_data : string }.

Definition dccm_ports : ports :=
  {| wren := "dccm_wren"; rden := "dccm_rden";
     wr_addr := ["dccm_wr_addr_lo"; "dccm_wr_addr_hi"];
     wr_data := ["dccm_wr_data_lo"; "dccm_wr_data_hi"];
     rd_addr := ["dccm_rd_addr_lo"; "dccm_rd_addr_hi"]; wr_const := [];
     mon_wr_addr := "dccm_wr_addr_lo"; mon_wr_data := "dccm_wr_data_lo";
     mon_rd_addr := "dccm_rd_addr_lo"; mon_rd_data := "dccm_rd_data_lo" |}.

Definition iccm_ports : ports :=
  {| wren := "iccm_wren"; rden := "iccm_rden";
     wr_addr := ["iccm_rw_addr"]; wr_data := ["iccm_wr_data"]; rd_addr := ["iccm_rw_addr"];
     wr_const := [("iccm_wr_size", 7)];
     mon_wr_addr := "iccm_rw_addr"; mon_wr_data := "iccm_wr_data";
     mon_rd_addr := "iccm_rw_addr"; mon_rd_data := "iccm_rd_data_ecc" |}.

Definition drive_each {I} (signals : list string) (v : Z) : proc I unit :=
  for_each signals (fun s => drive s v).

(** One item of [MemDriver.run_phase]. *)
Definition MemDriver_item (p : ports) (it : item) : proc item unit :=
  match it with
  | MemWriteItem a d =>
      _ <- await (RisingEdge "clk") ;;
      drive (wren p) 1 ;;;
      drive_each (wr_addr p) a ;;;
      drive_each (wr_data p) d ;;;
      for_each (wr_const p) (fun c => drive c.1 c.2) ;;;
      (_ <- await (RisingEdge "clk") ;;
      drive (wren p) 0)
  | MemReadItem a _ =>
      _ <- await (RisingEdge "clk") ;;
      drive (rden p) 1 ;;;
      drive_each (rd_addr p) a ;;;
      (_ <- await (RisingEdge "clk") ;;
      drive (rden p) 0)
  end.

Definition MemMonitor_run_phase (p : ports) (_ : unit) : proc item unit :=
  e <- await (RisingEdge "clk") ;;
  (if truthy (e (wren p))
   then publish (MemWriteItem (e (mon_wr_addr p)) (e (mon_wr_data p))) else Ret tt) ;;;
  (if truthy (e (rden p)) then
     e' <- await (RisingEdge "clk") ;;
     publish (MemReadItem (e (mon_rd_addr p)) (e' (mon_rd_data p)))
   else Ret tt).

(** ** The scoreboard *)

Record check_state := {
  passed : option bool; did_write : bool; did_read : bool; mem_content : gmap Z Z }.

(** Formatting [None] with [{:08X}] in the debug message raises. *)
Definition check_one (it : item) (st : check_state) : result check_state :=
  match it with
  | MemWriteItem a d =>
      Ok {| passed := set_initial (passed st); did_write := true; did_read := did_read st;
            mem_content := <[a := d]> (mem_content st) |}
  | MemReadItem a d =>
      match mem_content st !! a with
      | None => Raise TypeError
      | Some data =>
          Ok {| passed := if negb (data =? d) then Some false else set_initial (passed st);
                did_write := did_write st; did_read := true; mem_content := mem_content st |}
      end
  end.

Fixpoint check_all (items : list item) (st : check_state) : result check_state :=
  match items with
  | [] => Ok st
  | it :: items => let! st := check_one it st in check_all items st
  end.

Definition check_state0 : check_state :=
  {| passed := None; did_write := false; did_read := false; mem_content := ∅ |}.

Definition check_phase (items : list item) : result (option bool) :=
  let! st := check_all items check_state0 in
  let p := if negb (did_write st) then Some false else passed st in
  Ok (if negb (did_read st) then Some false else p).

Definition Scoreboard_verdict (items : list item) : result unit :=
  let! p := check_phase items in final_phase p.

(** ** The sequences *)

(** [set([...])] in the order [ord] in which Python iterates it: any order of
    the distinct values. *)
Definition dccm_addr (r : Z) : Z := Z.land (randrange 0 (2 ^ 0x10) r) 0xFFFFFFFC.
Definition iccm_addr (r : Z) : Z := Z.land (randrange 0 (2 ^ (0x10 - 1)) r) (Z.lnot 7).

(** One burst: the writes, then the reads; the data of the reads is whatever was
    written last. *)
Definition burst (addrs : list Z) (datas : list Z) (reads : list Z) : list item :=
  zip_with MemWriteItem addrs datas
  ++ ((fun a => MemReadItem a (List.last datas 0)) <$> reads).

Definition dccm_data (r : Z) : Z := randrange 0 (2 ^ 0x20) r.
Definition iccm_data (r : Z) : Z := randrange 0 (2 ^ 64) r.

(** The shuffle of the DCCM sequence is lost ([random.shuffle] of a fresh list):
    it reads in the order of the writes.  The ICCM sequence reads in the order
    [shuffled]. *)
Definition dccm_burst (addrs rs : list Z) : list item :=
  burst addrs (dccm_data <$> rs) addrs.
Definition iccm_burst (addrs rs shuffled : list Z) : list item :=
  burst addrs (iccm_data <$> rs) shuffled.

(** [BaseTest.run_phase] of the ICCM bench: the inputs at 0, and the constants
    set again after the reset. *)
Definition iccm_inputs : list string :=
  ["active_clk"; "clk_override"; "iccm_wren"; "iccm_rden"; "iccm_rw_addr";
   "iccm_buf_correct_ecc"; "iccm_correction_state"; "iccm_wr_size"; "iccm_wr_data";
   "iccm_ext_in_pkt_TEST1"; "iccm_ext_in_pkt_RME"; "iccm_ext_in_pkt_RM"; "iccm_ext_in_pkt_LS";
   "iccm_ext_in_pkt_DS"; "iccm_ext_in_pkt_SD"; "iccm_ext_in_pkt_TEST_RNM"; "iccm_ext_in_pkt_BC1";
   "iccm_ext_in_pkt_BC2"; "scan_mode"].

Definition do_reset {I} (inputs : list string) : proc I unit :=
  for_each inputs (fun s => drive s 0) ;;;
  drive "rst_l" 0 ;;;
  clock_cycles "clk" 2 ;;;
  (_ <- await (FallingEdge "clk") ;;
  drive "rst_l" 1).

(** [constants] are the inputs set again after the reset. *)
Definition BaseTest_run_phase {I} (inputs constants : list string) (run : proc I unit)
  : proc I unit :=
  do_reset inputs ;;;
  for_each constants (fun s => drive s 0) ;;;
  clock_cycles "clk" 2 ;;;
  run ;;;
  clock_cycles "clk" 10.

Definition dccm_run_phase {I} : proc I unit -> proc I unit := BaseTest_run_phase [] [].
Definition iccm_run_phase {I} : proc I unit -> proc I unit :=
  BaseTest_run_phase iccm_inputs ["iccm_buf_correct_ecc"; "iccm_correction_state"].

(** ** The bench in closed loop *)

(** The unit: the writes it has seen, the latest first, and its read register. *)
Record unit_mem := { history : list (Z * Z); q : Z }.

Section Bench.
(** [rdf ws a] is what the unit reads at [a] after the writes [ws]. *)
Variable rdf : list (Z * Z) -> Z -> Z.
Variable p : ports.

Definition mem_step (u : unit_mem) (e : env) : unit_mem :=
  {| history := if truthy (e (wren p))
                then (e (mon_wr_addr p), e (mon_wr_data p)) :: history u else history u;
     q := if truthy (e (rden p)) then rdf (history u) (e (mon_rd_addr p)) else q u |}.

Definition mem_outs (u : unit_mem) (e : env) : env := upd (mon_rd_data p) (q u) e.

(** The test: the items of the sequence, then some more cycles. *)
Definition bench (n : nat) (its : list item) : proc item unit :=
  for_each its (MemDriver_item p) ;;; clock_cycles "clk" (S n).

Definition bench_trace (n : nat) (its : list item) (w : world) : list sample :=
  (closed "clk" [] mem_step mem_outs (bench n its) w).1.

(** What the monitor is to see: the items, each read with the unit's answer. *)
Fixpoint observed (ws : list (Z * Z)) (its : list item) : list item :=
  match its with
  | [] => []
  | MemWriteItem a d :: its => MemWriteItem a d :: observed ((a, d) :: ws) its
  | MemReadItem a _ :: its => MemReadItem a (rdf ws a) :: observed ws its
  end.

Definition bench_verdict (n : nat) (its : list item) (w : world) (cur : env) : result unit :=
  Scoreboard_verdict (monitor_items (MemMonitor_run_phase p) tt cur (bench_trace n its w)).

(** Neither a write nor a read is requested. *)
Definition idle_env (e : env) : Prop := e (wren p) = 0 /\ e (rden p) = 0.

(** The wires after the driver has requested the item. *)
Definition requested (it : item) (e : env) : env :=
  match it with
  | MemWriteItem a d =>
      foldl (fun e c => upd c.1 c.2 e)
        (foldl (fun e s => upd s d e)
           (foldl (fun e s => upd s a e) (upd (wren p) 1 e) (wr_addr p)) (wr_data p)) (wr_const p)
  | MemReadItem a _ => foldl (fun e s => upd s a e) (upd (rden p) 1 e) (rd_addr p)
  end.

Definition enable (it : item) : string :=
  match it with MemWriteItem _ _ => wren p | MemReadItem _ _ => rden p end.

End Bench.

Section BenchFacts.
Variable rdf : list (Z * Z) -> Z -> Z.
Variable p : ports.
Hypothesis Hp : p = dccm_ports \/ p = iccm_ports.

Abbreviation mem_step := (mem_step rdf p).
Abbreviation mem_outs := (mem_outs p).
Abbreviation bench := (bench p).
Abbreviation observed := (observed rdf).
Abbreviation idle_env := (idle_env p).
Abbreviation requested := (requested p).
Abbreviation enable := (enable p).

Abbreviation clk e := (Sample (RisingEdge "clk") e).

Lemma monitor_productive : productive (MemMonitor_run_phase p).
Proof. apply productive_await. intros []. by eexists _, _. Qed.

Lemma monitor_step e tr cur acts cur' tr' :
  run (MemMonitor_run_phase p tt) cur (clk e :: tr) = (acts, Done tt cur' tr') ->
  monitor_items (MemMonitor_run_phase p) tt cur (clk e :: tr)
  = published acts ++ monitor_items (MemMonitor_run_phase p) tt cur' tr'.
Proof. apply monitor_items_step, monitor_productive. Qed.

Lemma monitor_idle e tr cur :
  idle_env e ->
  monitor_items (MemMonitor_run_phase p) tt cur (clk e :: tr)
  = monitor_items (MemMonitor_run_phase p) tt e tr.
Proof.
  intros [Hw Hr]. rewrite (monitor_step e tr cur [] e tr); [done|].
  unfold MemMonitor_run_phase. cbn [await pbind]. rewrite run_await_hit. by rewrite Hw, Hr.
Qed.

Lemma monitor_write e tr cur :
  e (wren p) = 1 -> e (rden p) = 0 ->
  monitor_items (MemMonitor_run_phase p) tt cur (clk e :: tr)
  = MemWriteItem (e (mon_wr_addr p)) (e (mon_wr_data p))
    :: monitor_items (MemMonitor_run_phase p) tt e tr.
Proof.
  intros Hw Hr.
  rewrite (monitor_step e tr cur [APublish (MemWriteItem (e (mon_wr_addr p)) (e (mon_wr_data p)))] e tr);
    [done|].
  unfold MemMonitor_run_phase. cbn [await pbind]. rewrite run_await_hit. by rewrite Hw, Hr.
Qed.

Lemma monitor_read e e' tr cur :
  e (wren p) = 0 -> e (rden p) = 1 ->
  monitor_items (MemMonitor_run_phase p) tt cur (clk e :: clk e' :: tr)
  = MemReadItem (e (mon_rd_addr p)) (e' (mon_rd_data p))
    :: monitor_items (MemMonitor_run_phase p) tt e' tr.
Proof.
  intros Hw Hr.
  rewrite (monitor_step e (clk e' :: tr) cur
    [APublish (MemReadItem (e (mon_rd_addr p)) (e' (mon_rd_data p)))] e' tr); [done|].
  unfold MemMonitor_run_phase. cbn [await pbind]. rewrite run_await_hit, Hw, Hr.
  cbn [truthy negb Z.eqb pbind]. by rewrite run_await_hit.
Qed.

(** *** The driver *)

Abbreviation go := (closed (I := item) "clk" [] mem_step mem_outs).

Lemma go_clk {A} (k : env -> proc item A) b c u :
  (go (Await (RisingEdge "clk") k) (World b c u)).1
  = clk (mem_outs u c)
    :: (go (k (mem_outs u c)) (World (mem_outs u c) (mem_outs u c) (mem_step u (mem_outs u c)))).1.
Proof.
  cbn [closed]. rewrite decide_True by done. unfold clock_edge, settled, rise_samples.
  cbn [omap list_omap unit_state wires app]. by destruct (closed _ _ _ _ _ _).
Qed.

Lemma mem_step_idle u e : idle_env e -> mem_step u e = u.
Proof. intros [Hw Hr]. unfold MemBench.mem_step. rewrite Hw, Hr. by destruct u. Qed.

Lemma outs_idle u c : idle_env c -> idle_env (mem_outs u c).
Proof.
  intros [Hw Hr]. unfold MemBench.mem_outs. split; destruct Hp; subst p; cbn in *; env_simpl; done.
Qed.

Lemma idle_cycles n b c u cur :
  idle_env c ->
  exists tr, (go (clock_cycles "clk" (S n)) (World b c u)).1 = clk (mem_outs u c) :: tr
    /\ monitor_items (MemMonitor_run_phase p) tt cur tr = [].
Proof.
  revert b c cur. induction n as [|n IH]; intros b c cur Hc;
    cbn [clock_cycles await pbind]; rewrite go_clk; (eexists; split; [reflexivity|]).
  - apply (monitor_end _ (RisingEdge "clk")). by eexists.
  - pose proof (outs_idle u c Hc) as Ho.
    destruct (IH (mem_outs u c) (mem_outs u c) (mem_outs u (mem_outs u c)) Ho) as (tr & E & Hm).
    rewrite (mem_step_idle u _ Ho). cbn [clock_cycles await pbind] in E. rewrite E.
    rewrite monitor_idle by (by apply outs_idle). exact Hm.
Qed.

(** Two cycles for an item. *)
Lemma go_item it (k : proc item unit) b c u :
  (go (MemDriver_item p it ;;; k) (World b c u)).1
  = let e1 := mem_outs u c in
    let u1 := mem_step u e1 in
    let e2 := mem_outs u1 (requested it e1) in
    clk e1 :: clk e2 :: (go k (World e2 (upd (enable it) 0 e2) (mem_step u1 e2))).1.
Proof.
  destruct it as [a d|a d]; unfold MemDriver_item, drive_each; cbn [await pbind];
    rewrite go_clk; cbv zeta; f_equal; destruct Hp; subst p;
    cbn [for_each pbind drive dccm_ports iccm_ports wren rden wr_addr wr_data rd_addr wr_const fst snd];
    cbn [closed before unit_state wires]; rewrite decide_True by done;
    unfold clock_edge, settled, rise_samples; cbn [omap list_omap unit_state wires app];
    by destruct (closed _ _ _ _ _ _).
Qed.

Lemma bench_cons n it its b c u :
  (go (bench n (it :: its)) (World b c u)).1
  = (go (MemDriver_item p it ;;; bench n its) (World b c u)).1.
Proof. unfold MemBench.bench. cbn [for_each]. rewrite !closed_pbind. destruct (go _ _) as [tr [[[] w]|]];
  [|done]. rewrite closed_pbind. destruct (go (for_each _ _) _) as [tr' [[[] w']|]]; [|done].
  destruct (go (clock_cycles _ _) _). by rewrite app_assoc. Qed.

(** After a write request the wires and the unit are as meant. *)
Lemma write_request a d e u :
  idle_env e -> let e2 := mem_outs u (requested (MemWriteItem a d) e) in
  e2 (wren p) = 1 /\ e2 (rden p) = 0 /\ e2 (mon_wr_addr p) = a /\ e2 (mon_wr_data p) = d
  /\ idle_env (upd (wren p) 0 e2)
  /\ mem_step u e2 = {| history := (a, d) :: history u; q := q u |}.
Proof.
  intros [Hw Hr] e2.
  assert (e2 (wren p) = 1 /\ e2 (rden p) = 0 /\ e2 (mon_wr_addr p) = a /\ e2 (mon_wr_data p) = d)
    as (H1 & H2 & H3 & H4).
  { unfold e2, MemBench.mem_outs, MemBench.requested. destruct Hp; subst p; cbn in *; env_simpl; done. }
  repeat (split; [done|]). split.
  - split; [by env_simpl|]. rewrite upd_ne; [done|]. by destruct Hp; subst p.
  - unfold MemBench.mem_step. by rewrite H1, H2, H3, H4.
Qed.

Lemma read_request a d e u :
  idle_env e -> let e2 := mem_outs u (requested (MemReadItem a d) e) in
  e2 (wren p) = 0 /\ e2 (rden p) = 1 /\ e2 (mon_rd_addr p) = a
  /\ idle_env (upd (rden p) 0 e2)
  /\ mem_step u e2 = {| history := history u; q := rdf (history u) a |}.
Proof.
  intros [Hw Hr] e2.
  assert (e2 (wren p) = 0 /\ e2 (rden p) = 1 /\ e2 (mon_rd_addr p) = a) as (H1 & H2 & H3).
  { unfold e2, MemBench.mem_outs, MemBench.requested. destruct Hp; subst p; cbn in *; env_simpl; done. }
  repeat (split; [done|]). split.
  - split; [|by env_simpl]. rewrite upd_ne; [done|]. by destruct Hp; subst p.
  - unfold MemBench.mem_step. by rewrite H1, H2, H3.
Qed.

(** The monitor sees each item once and in order; the first cycle of an item
    ends the one before. *)
Lemma bench_observed n its b c u cur :
  idle_env c ->
  exists tr, (go (bench n its) (World b c u)).1 = clk (mem_outs u c) :: tr
    /\ monitor_items (MemMonitor_run_phase p) tt cur tr = observed (history u) its.
Proof.
  revert b c u cur. induction its as [|it its IH]; intros b c u cur Hc.
  - unfold MemBench.bench. cbn [for_each]. cbn [pbind]. by apply idle_cycles.
  - rewrite bench_cons, go_item. cbv zeta.
    set (e1 := mem_outs u c). pose proof (outs_idle u c Hc) as He1. fold e1 in He1.
    rewrite (mem_step_idle u e1 He1). set (e2 := mem_outs u (requested it e1)).
    eexists. split; [reflexivity|]. destruct it as [a d|a d].
    + destruct (write_request a d e1 u He1) as (H1 & H2 & H3 & H4 & Hi & Hs). fold e2 in H1, H2, H3, H4, Hi, Hs.
      rewrite monitor_write by done. rewrite H3, H4, Hs. cbn [MemBench.observed]. f_equal.
      destruct (IH e2 (upd (enable (MemWriteItem a d)) 0 e2)
        {| history := (a, d) :: history u; q := q u |} (mem_outs {| history := (a, d) :: history u; q := q u |} (upd (wren p) 0 e2)) Hi)
        as (tr & -> & Hm).
      rewrite monitor_idle by (by apply outs_idle). exact Hm.
    + destruct (read_request a d e1 u He1) as (H1 & H2 & H3 & Hi & Hs). fold e2 in H1, H2, H3, Hi, Hs.
      rewrite Hs. set (u2 := {| history := history u; q := rdf (history u) a |}).
      destruct (IH e2 (upd (enable (MemReadItem a d)) 0 e2) u2 (mem_outs u2 (upd (rden p) 0 e2)) Hi)
        as (tr & -> & Hm).
      rewrite monitor_read by done. rewrite H3. cbn [MemBench.observed]. f_equal; [|exact Hm].
      f_equal. unfold MemBench.mem_outs. apply upd_eq.
Qed.
End BenchFacts.

(** ** What the scoreboard decides *)

(** The last word written to [a]. *)
Fixpoint last_write (ws : list (Z * Z)) (a : Z) : option Z :=
  match ws with
  | [] => None
  | (a', d) :: ws => if a' =? a then Some d else last_write ws a
  end.

Definition is_write (it : item) : bool := match it with MemWriteItem _ _ => true | _ => false end.
Definition is_read (it : item) : bool := negb (is_write it).

(** Each read of the sequence satisfies [ok]. *)
Fixpoint reads_all (ok : list (Z * Z) -> Z -> bool) (ws : list (Z * Z)) (its : list item) : bool :=
  match its with
  | [] => true
  | MemWriteItem a d :: its => reads_all ok ((a, d) :: ws) its
  | MemReadItem a _ :: its => ok ws a && reads_all ok ws its
  end.

(** The address was written before; the unit answers with the last word. *)
Definition was_written (ws : list (Z * Z)) (a : Z) : bool :=
  match last_write ws a with Some _ => true | None => false end.
Definition answers_last (rdf : list (Z * Z) -> Z -> Z) (ws : list (Z * Z)) (a : Z) : bool :=
  match last_write ws a with Some d => d =? rdf ws a | None => true end.

Definition tracks (m : gmap Z Z) (ws : list (Z * Z)) : Prop := forall a, m !! a = last_write ws a.

Lemma tracks_insert m ws a d : tracks m ws -> tracks (<[a := d]> m) ((a, d) :: ws).
Proof.
  intros H x. simpl. destruct (Z.eqb_spec a x) as [->|Hne].
  - by rewrite lookup_insert_eq.
  - rewrite lookup_insert_ne by done. apply H.
Qed.

Lemma check_all_observed rdf ws its st :
  tracks (mem_content st) ws ->
  match check_all (observed rdf ws its) st with
  | Ok st' =>
      reads_all was_written ws its = true
      /\ did_write st' = did_write st || existsb is_write its
      /\ did_read st' = did_read st || existsb is_read its
      /\ passed st' = match its with
                      | [] => passed st
                      | _ => Some (default true (passed st) && reads_all (answers_last rdf) ws its)
                      end
  | Raise e => e = TypeError /\ reads_all was_written ws its = false
  end.
Proof.
  revert ws st. induction its as [|[a d|a d] its IH]; intros ws st Ht.
  - cbn. by rewrite !orb_false_r.
  - cbn [observed check_all check_one rbind reads_all existsb is_write is_read negb].
    specialize (IH ((a, d) :: ws)
      {| passed := set_initial (passed st); did_write := true; did_read := did_read st;
         mem_content := <[a := d]> (mem_content st) |} (tracks_insert _ _ _ _ Ht)).
    destruct (check_all _ _) as [st'|e]; [|done]. cbn [passed did_write did_read] in IH.
    destruct IH as (H1 & H2 & H3 & H4). rewrite orb_true_r. repeat (split; [done|]).
    rewrite H4. destruct its as [|it its], (passed st) as [[]|]; done.
  - cbn [observed check_all check_one reads_all existsb is_write is_read negb].
    rewrite (Ht a). unfold was_written at 1 3, answers_last at 1.
    destruct (last_write ws a) as [v|]; [|done]. cbn [rbind andb].
    specialize (IH ws
      {| passed := if negb (v =? rdf ws a) then Some false else set_initial (passed st);
         did_write := did_write st; did_read := true; mem_content := mem_content st |} Ht).
    destruct (check_all _ _) as [st'|e]; [|done]. cbn [passed did_write did_read] in IH.
    destruct IH as (H1 & H2 & H3 & H4). rewrite orb_true_r. repeat (split; [done|]).
    rewrite H4. destruct its as [|it its], (v =? rdf ws a), (passed st) as [[]|]; cbn;
      rewrite ?andb_true_r, ?andb_false_r; done.
Qed.

(** The verdict on what the monitor saw. *)
Definition expected_verdict (rdf : list (Z * Z) -> Z -> Z) (its : list item) : result unit :=
  if negb (reads_all was_written [] its) then Raise TypeError
  else if existsb is_write its && existsb is_read its && reads_all (answers_last rdf) [] its
  then Ok tt else Raise AssertionError.

Lemma verdict_observed rdf its :
  Scoreboard_verdict (observed rdf [] its) = expected_verdict rdf its.
Proof.
  unfold Scoreboard_verdict, check_phase, expected_verdict.
  pose proof (check_all_observed rdf [] its check_state0) as H.
  destruct (check_all _ _) as [st|e].
  - destruct H as (H1 & H2 & H3 & H4); [done|]. cbn [did_write did_read passed check_state0 orb] in *.
    cbn [rbind]. rewrite H1, H2, H3, H4. cbn [negb]. destruct its as [|it its]; [done|].
    cbn [default andb]. destruct (existsb is_write _), (existsb is_read _), (reads_all _ _ _); done.
  - destruct H as [-> H1]; [done|]. by rewrite H1.
Qed.

(** C31: the memory benches, end to end, for the data and for the instruction
    memory.  For any items, and a unit that answers each read with an arbitrary
    function of the writes before it, the driver, the monitor and the scoreboard
    together succeed exactly when there was a write and a read and every read was
    answered with the last word written to its address.  Reading an address that
    was never written is not a failure of the check but a [TypeError], raised by
    the format of the debug message. *)
Theorem mem_bench_sound_complete :
  forall p, p = dccm_ports \/ p = iccm_ports ->
  forall rdf n its w cur,
    idle_env p (wires w) -> history (unit_state w) = [] ->
    bench_verdict rdf p n its w cur = expected_verdict rdf its.
Proof.
  intros p Hp rdf n its [b c u] cur Hc Hu. cbn [wires unit_state] in *.
  unfold bench_verdict, bench_trace.
  destruct (bench_observed rdf p Hp n its b c u (mem_outs p u c) Hc) as (tr & -> & Hm).
  rewrite monitor_idle by (by apply outs_idle). rewrite Hm, Hu. apply verdict_observed.
Qed.

Lemma mem_bench_sound_complete_witness :
  let w := World (fun _ => 0) (fun _ => 0) {| history := []; q := 0 |} in
  let ram ws a := default 0 (last_write ws a) in
  bench_verdict ram dccm_ports 9 (dccm_burst [0x40; 0x80] [3; 4]) w (fun _ => 0) = Ok tt
  /\ bench_verdict (fun _ _ => 3) iccm_ports 9 (iccm_burst [0x40; 0x80] [3; 4] [0x80; 0x40]) w
       (fun _ => 0) = Raise AssertionError
  /\ bench_verdict ram dccm_ports 9 [MemReadItem 0x40 0] w (fun _ => 0) = Raise TypeError.
Proof.
  cbv zeta. split; [|split].
  - rewrite (mem_bench_sound_complete dccm_ports (or_introl eq_refl)) by (split || idtac; reflexivity).
    vm_compute. reflexivity.
  - rewrite (mem_bench_sound_complete iccm_ports (or_intror eq_refl)) by (split || idtac; reflexivity).
    vm_compute. reflexivity.
  - rewrite (mem_bench_sound_complete dccm_ports (or_introl eq_refl)) by (split || idtac; reflexivity).
    vm_compute. reflexivity.
Defined.
