(* ===== verification/SmallBenches.v ===== *)
(** * Helpers of the instruction memory control and lockstep benches

    [IfuMemCtl]: verification/block/ifu_mem_ctl/common.py, the AXI read responder,
    the accesses and the random values.  [Dcls]: the reset of
    verification/block/dcls/testbench.py and the checks of its tests. *)

From S2P Require Import Prelude Cocotb.
From stdpp Require Import base list strings.
From Stdlib Require Import ZArith Lia.

#[local] Open Scope string_scope.
#[local] Open Scope list_scope.
#[local] Open Scope Z_scope.

Module IfuMemCtl.

Definition ICCM_BASE : Z := 0xEE000000.
Definition ICCM_SIZE : Z := 0x10000.

Definition rand_iccm_addr (r : Z) : Z := randint ICCM_BASE (ICCM_BASE + ICCM_SIZE) r.
Definition rand_iccm_data (r : Z) : Z := randint 0 (2 ^ 64 - 1) r.
Definition rand_ifu_addr (r : Z) : Z := randint 0 (2 ^ 31 - 1) r.

(** [2 << (... % 37) | (2**40 & (2**40 - do_double_bit))]: the shift binds
    tighter than the disjunction. *)
Definition get_bitflip_mask (do_double_bit r : Z) : Z :=
  Z.lor (Z.shiftl 2 (randint 0 (2 ^ 32 - 1) r mod 37))
        (Z.land (2 ^ 40) (2 ^ 40 - do_double_bit)).

(** [Axi4LiteBFM._wait] *)
Definition wait {I} (signal : string) : proc I unit :=
  wait_for RuntimeError "clk" (fun e => truthy (e signal)) 200.

(** One iteration of [Axi4LiteBFM.read_handler]; the state is the list of the
    random data still to come. *)
Definition read_handler (datas : list Z) : proc Z (list Z) :=
  e <- now ;;
  (if truthy (e "rst_l") then Ret tt else _ <- await (RisingEdge "rst_l") ;; Ret tt) ;;;
  drive "ifu_axi_arready" 1 ;;;
  wait "ifu_axi_arvalid" ;;;
  drive "ifu_axi_arready" 0 ;;;
  drive "ifu_axi_rvalid" 1 ;;;
  match datas with
  | r :: datas =>
      drive "ifu_axi_rdata" (rand_iccm_data r) ;;;
      drive "ifu_axi_rresp" 0 ;;;
      (_ <- await (RisingEdge "clk") ;;
      drive "ifu_axi_rvalid" 0 ;;;
      drive "ifu_axi_rdata" 0 ;;;
      drive "ifu_axi_rresp" 0 ;;;
      Ret datas)
  | [] => Ret []
  end.

Definition reset {I} : proc I unit :=
  drive "rst_l" 0 ;;;
  clock_cycles "clk" 2 ;;;
  (_ <- await (FallingEdge "clk") ;;
  drive "rst_l" 1 ;;;
  clock_cycles "clk" 2 ;;;
  drive "ifu_bus_clk_en" 1).

Definition initialize_inputs : list string :=
  ["active_clk"; "free_l2clk"; "exu_flush_final"; "dec_tlu_flush_lower_wb";
   "dec_tlu_flush_err_wb"; "dec_tlu_i0_commit_cmt"; "dec_tlu_force_halt";
   "ifc_fetch_addr_bf"; "ifc_fetch_uncacheable_bf"; "ifc_fetch_req_bf";
   "ifc_fetch_req_bf_raw"; "ifc_iccm_access_bf"; "ifc_region_acc_fault_bf";
   "ifc_dma_access_ok"; "dec_tlu_fence_i_wb"; "ifu_bp_hit_taken_f"; "ifu_bp_inst_mask_f";
   "ifu_axi_arready"; "ifu_axi_rvalid"; "ifu_axi_rid"; "ifu_axi_rdata"; "ifu_axi_rresp";
   "ifu_bus_clk_en"; "dma_iccm_req"; "dma_mem_addr"; "dma_mem_sz"; "dma_mem_write";
   "dma_mem_wdata"; "dma_mem_tag"; "ic_rd_data"; "ic_rd_addr_lo"; "ic_rd_bank_check_en";
   "ic_debug_rd_data"; "ictag_debug_rd_data"; "ic_rd_hit"; "ic_tag_perr"; "iccm_rd_data";
   "iccm_rd_data_ecc"; "ifu_fetch_val"; "icache_wrdata"; "icache_dicawics";
   "icache_rd_valid"; "icache_wr_valid"; "dec_tlu_core_ecc_disable"; "ifu_pmp_error";
   "scan_mode"].

(** [initialize], without the clocks and the responder that it starts. *)
Definition initialize {I} : proc I unit :=
  for_each initialize_inputs (fun s => drive s 0) ;;; reset.

Definition write {I} (addr wdata : Z) : proc I unit :=
  _ <- await (RisingEdge "clk") ;;
  drive "dma_iccm_req" 1 ;;;
  drive "dma_mem_addr" addr ;;;
  drive "dma_mem_write" 1 ;;;
  drive "dma_mem_wdata" wdata ;;;
  (_ <- await (RisingEdge "clk") ;;
  drive "dma_iccm_req" 0 ;;;
  drive "dma_mem_addr" 0 ;;;
  drive "dma_mem_write" 0 ;;;
  drive "dma_mem_wdata" 0).

Definition read {I} (addr : Z) : proc I unit :=
  _ <- await (RisingEdge "clk") ;;
  drive "dma_iccm_req" 1 ;;;
  drive "dma_mem_write" 0 ;;;
  drive "dma_mem_addr" addr.

(** ** Facts *)

Lemma bitflip_shift r :
  exists k, 1 <= k <= 37 /\ Z.shiftl 2 (randint 0 (2 ^ 32 - 1) r mod 37) = 2 ^ k.
Proof.
  set (m := randint 0 (2 ^ 32 - 1) r mod 37).
  assert (0 <= m < 37) by (apply Z.mod_pos_bound; lia).
  exists (1 + m). split; [lia|]. rewrite Z.shiftl_mul_pow2, Z.pow_add_r by lia. done.
Qed.

(** The random masks of bit errors.  With [do_double_bit] 0 the mask has two
    bits set, one among the bits 1 to 37 and bit 40, and with [do_double_bit] 1
    it has one bit set: the argument means the opposite of its name.  Bit 0 and
    the bits 38 and 39 are never flipped. *)
Theorem ifu_bitflip_mask :
  forall r, exists k, 1 <= k <= 37
    /\ get_bitflip_mask 0 r = 2 ^ k + 2 ^ 40
    /\ get_bitflip_mask 1 r = 2 ^ k
    /\ forall i, 0 <= i ->
         Z.testbit (get_bitflip_mask 0 r) i = (i =? k) || (i =? 40)
         /\ Z.testbit (get_bitflip_mask 1 r) i = (i =? k).
Proof.
  intros r. destruct (bitflip_shift r) as (k & Hk & E). exists k. split; [done|].
  unfold get_bitflip_mask. rewrite E.
  change (Z.land (2 ^ 40) (2 ^ 40 - 0)) with (2 ^ 40).
  change (Z.land (2 ^ 40) (2 ^ 40 - 1)) with 0. rewrite Z.lor_0_r.
  split; [|split; [done|]].
  - rewrite lor_pow2 by lia. rewrite Z.pow2_bits_false by lia. done.
  - intros i Hi. rewrite Z.lor_spec, !Z.pow2_bits_eqb by lia.
    by rewrite (Z.eqb_sym k), (Z.eqb_sym 40).
Qed.

Lemma ifu_bitflip_mask_witness :
  get_bitflip_mask 0 4 = 32 + 2 ^ 40 /\ get_bitflip_mask 1 4 = 32
  /\ Z.testbit (get_bitflip_mask 0 4) 40 = true.
Proof.
  split; [vm_compute; reflexivity|]. split; [vm_compute; reflexivity|].
  destruct (ifu_bitflip_mask 4) as (k & _ & _ & _ & H).
  destruct (H 40) as [-> _]; [lia|]. apply orb_true_r.
Defined.

(** Every address of the memory is drawn, and also the first one after it. *)
Lemma rand_iccm_addr_range v :
  (exists r, rand_iccm_addr r = v) <-> ICCM_BASE <= v <= ICCM_BASE + ICCM_SIZE.
Proof.
  unfold rand_iccm_addr, randint. split.
  - intros [r <-]. pose proof (randrange_bounds ICCM_BASE (ICCM_BASE + ICCM_SIZE + 1) r) as H.
    unfold ICCM_BASE, ICCM_SIZE in *. lia.
  - intros H. apply randrange_onto. lia.
Qed.
End IfuMemCtl.

Module Dcls.

Definition LOCKSTEP_DELAY : nat := 3.
Definition MUBI_TRUE : Z := 0x6.
Definition MUBI_FALSE : Z := 0x9.
Definition mubi_max : Z := 2 ^ 4 - 1.

Definition do_reset {I} : proc I unit :=
  drive "rst_l" 0 ;;;
  drive "dbg_rst_l" 0 ;;;
  clock_cycles "clk" 2 ;;;
  (_ <- await (FallingEdge "clk") ;;
  drive "rst_l" 1 ;;;
  drive "dbg_rst_l" 1 ;;;
  drive "disable_corruption_detection_i" MUBI_FALSE ;;;
  drive "lockstep_err_injection_en_i" MUBI_FALSE).

(** [BaseTest.run_phase] *)
Definition run_phase {I} (run : proc I unit) : proc I unit :=
  do_reset ;;;
  (_ <- await (RisingEdge "clk") ;;
  run ;;;
  clock_cycles "clk" 10).

(** [assert_signals] *)
Definition assert_signals {I} (signals : list (string * Z)) : proc I unit :=
  e <- now ;;
  for_each signals (fun p => if e p.1 =? p.2 then Ret tt else throw AssertionError).

Definition in_reset : list (string * Z) :=
  [("shadow_reset", 0); ("shadow_dbg_reset", 0); ("corruption_detected_o", MUBI_FALSE)].
Definition running (corruption : Z) : list (string * Z) :=
  [("shadow_reset", 1); ("shadow_dbg_reset", 1); ("corruption_detected_o", corruption)].

(** [TestReset.test_reset] *)
Definition test_reset {I} : proc I unit :=
  for_each (seq 0 (LOCKSTEP_DELAY - 1)) (fun _ =>
    _ <- await ReadOnly ;;
    assert_signals in_reset ;;;
    (_ <- await (RisingEdge "clk") ;; Ret tt)) ;;;
  (_ <- await ReadOnly ;;
  assert_signals (running MUBI_FALSE) ;;;
  (_ <- await (RisingEdge "clk") ;; Ret tt)).

(** [TestErrorInjection.run] *)
Definition test_error_injection {I} : proc I unit :=
  test_reset ;;;
  clock_cycles "clk" 10 ;;;
  drive "lockstep_err_injection_en_i" MUBI_TRUE ;;;
  (_ <- await (RisingEdge "clk") ;;
  assert_signals (running MUBI_TRUE) ;;;
  drive "disable_corruption_detection_i" MUBI_TRUE ;;;
  (_ <- await (RisingEdge "clk") ;;
  assert_signals (running MUBI_FALSE))).

(** The invalid multi-bit encodings. *)
Definition mubi_l : list Z :=
  List.filter (fun x => negb (existsb (Z.eqb x) [MUBI_TRUE; MUBI_FALSE]))
    (Z.of_nat <$> seq 0 (Z.to_nat (mubi_max + 1))).

(** [TestInvalidErrorInjection.run] *)
Definition test_invalid_error_injection {I} : proc I unit :=
  for_each mubi_l (fun x =>
    test_reset ;;;
    drive "lockstep_err_injection_en_i" x ;;;
    (_ <- await (RisingEdge "clk") ;;
    assert_signals (running MUBI_TRUE) ;;;
    drive "disable_corruption_detection_i" MUBI_TRUE ;;;
    (_ <- await (RisingEdge "clk") ;;
    assert_signals (running MUBI_FALSE) ;;;
    do_reset ;;;
    (_ <- await (RisingEdge "clk") ;; Ret tt)))).

(** [TestInvalidDisableCorruptionDetection.run] *)
Definition test_invalid_disable_corruption_detection {I} : proc I unit :=
  for_each mubi_l (fun x =>
    test_reset ;;;
    drive "disable_corruption_detection_i" x ;;;
    (_ <- await (RisingEdge "clk") ;;
    assert_signals (running MUBI_TRUE) ;;;
    do_reset ;;;
    (_ <- await (RisingEdge "clk") ;; Ret tt))).

(** The encodings that the tests drive are all the four-bit words but the two
    valid ones, and the valid ones differ in every bit. *)
Lemma mubi_l_complete x :
  x ∈ mubi_l <-> 0 <= x < 2 ^ 4 /\ x <> MUBI_TRUE /\ x <> MUBI_FALSE.
Proof.
  assert (mubi_l = [0; 1; 2; 3; 4; 5; 7; 8; 10; 11; 12; 13; 14; 15]) as -> by reflexivity.
  rewrite !elem_of_cons, elem_of_nil. unfold MUBI_TRUE, MUBI_FALSE. lia.
Qed.
End Dcls.
