(* ===== verification/Phase1Book.v ===== *)
(** * The address map workbook: Reliable_Data_Transport_System/docs/phase1/generate_phase1_excel.py

    The workbook that the script writes: the texts of its cells and their fill
    colours, by sheet, row and column, as the sheet functions of the script put
    them there.  Fonts, borders, alignments, sizes and merged ranges are not
    modelled: a merged range keeps the value of its first cell.  The library that
    writes the file is third-party; only its grid of cells is used. *)

From S2P Require Import Prelude PyString.
From stdpp Require Import base gmap list strings.
From Stdlib Require Import ZArith Lia.

#[local] Open Scope nat_scope.
#[local] Open Scope string_scope.
#[local] Open Scope list_scope.

(** ** Sheets and cells *)

Record cell := Cell { value : option string; fill : option string }.

(** Rows and columns are counted from 1. *)
Record sheet := Sheet { title : string; cells : gmap (nat * nat) cell }.

Definition workbook := list sheet.

(** [wb.create_sheet] *)
Definition create_sheet (t : string) : sheet := Sheet t ∅.

Definition put (r c : nat) (v : option string) (f : option string) (ws : sheet) : sheet :=
  Sheet (title ws) (<[(r, c) := Cell v f]> (cells ws)).

Definition HDR_DARK := "1F3864".
Definition HDR_MID := "2E74B5".
Definition HDR_LIGHT := "BDD7EE".
Definition ROW_ALT := "EBF3FB".
Definition ROW_WHITE := "FFFFFF".
Definition WARN_AMBER := "FFE699".
Definition OK_GREEN := "E2EFDA".

Definition write_title (t : string) (ws : sheet) : sheet := put 1 1 (Some t) (Some HDR_DARK) ws.

(** [for col, v in enumerate(values, start=1)] *)
Definition for_columns {A} (f : nat -> A -> sheet -> sheet) (vs : list A) (ws : sheet) : sheet :=
  foldl (fun ws cv => f cv.1 cv.2 ws) ws (zip (seq 1 (length vs)) vs).

Definition write_col_headers (headers : list string) (row : nat) (fill_color : string) (ws : sheet)
  : sheet :=
  for_columns (fun col h => put row col (Some h) (Some fill_color)) headers ws.

(** [fills] has an entry for each value, or is [None]. *)
Definition write_row (row_idx : nat) (values : list (option string)) (alt : bool)
    (fills : option (list (option string))) (ws : sheet) : sheet :=
  let bg := if alt then ROW_ALT else ROW_WHITE in
  for_columns (fun col v =>
    let f := match fills with
             | Some fs => default bg (mjoin (fs !! (col - 1)))
             | None => bg
             end in
    put row_idx col v (Some f)) values ws.

Definition write_section_header (row : nat) (text color : string) (ws : sheet) : sheet :=
  put row 1 (Some text) (Some color) ws.

Definition text (vs : list string) : list (option string) := Some <$> vs.

(** [for i, x in enumerate(xs)] *)
Definition for_enum {A S} (f : nat -> A -> S -> S) (xs : list A) (s : S) : S :=
  foldl (fun s ix => f ix.1 ix.2 s) s (zip (seq 0 (length xs)) xs).

(** [i % 2 == 0] and [i % 2 == 1] *)
Definition even (i : nat) : bool := Nat.even i.
Definition odd (i : nat) : bool := Nat.odd i.

(** [if c in ...: ... elif ...] on the text of a cell: the fill of the first test
    that holds. *)
Definition first_fill (tests : list (bool * string)) : option string :=
  snd <$> List.find fst tests.

(** ** IP_Inventory *)

Definition inventory_headers : list string :=
  ["IP Name"; "Source / Location"; "Data Width"; "Bus Interface"; "Addr Width (bits)";
   "Registers Available (from RTL)"; "Interrupt Output"; "Notes"].

Definition confirmed : list (list string) := [
  ["UART";
   ("soc_project_packet_buffering/rtl/UART_IP/src/rtl/" +:+ newline +:+ "Honours_lab_316/axi-lite_uart-ipcore/src/rtl/" +:+ newline +:+ "IPs/axi-lite_uart-ipcore-develop/src/rtl/");
   "32-bit"; ("AXI4-Lite (slave)" +:+ newline +:+ "(ID field present – quasi-Lite)"); "5";
   ("RBR/THR @0x00, IER @0x04," +:+ newline +:+ "BAUD_DIV @0x08, LCR @0x0C," +:+ newline +:+ "LSR @0x14" +:+ newline +:+ "(6 logical registers)");
   "YES – read_interrupt_o";
   "Three copies in repo – all byte-for-byte IDENTICAL (confirmed with diff). Single integration slot required. Has two clock domains (fixed_clk_i + axi_aclk_i). AXI4→Lite adapter already exists in repo."];
  ["SPI"; "axi-lite_spi-ipcore-develop/src/rtl/"; "32-bit";
   ("AXI4-Lite (slave)" +:+ newline +:+ "(ID field present)"); "7";
   ("GIER@0x1C, ISR@0x20, IER@0x28," +:+ newline +:+ "SRR@0x40, CR@0x60, SR@0x64," +:+ newline +:+ "DTR@0x68, DRR@0x6C, SSR@0x70," +:+ newline +:+ "TFOR@0x74, RFOR@0x78," +:+ newline +:+ "RCLK@0x30 (custom)" +:+ newline +:+ "(12 registers; highest offset 0x78)");
   ("Pending – IER/ISR present," +:+ newline +:+ "output pin NOT yet confirmed");
   "Has two clock domains (fixed_clk_i + axi_aclk_i). Highest register offset 0x78 → needs ≥128 B address space."];
  ["I2C"; ("IPs/i2c-master/rtl/verilog/" +:+ newline +:+ "Honours_lab_316/I2C/rtl/verilog/");
   "8-bit"; "Wishbone rev-B2 (slave)"; "3";
   ("PRER_LO @0x00 (8b), PRER_HI @0x01," +:+ newline +:+ "CTR @0x02, RXR/TXR @0x03," +:+ newline +:+ "SR/CR @0x04, (debug:TXR@0x05," +:+ newline +:+ "CR@0x06), SLADR @0x07" +:+ newline +:+ "(8 registers × 8-bit)");
   "YES – wb_inta_o";
   "Wishbone protocol – CANNOT connect directly to AXI interconnect. Requires AXI4-Lite→Wishbone bridge wrapper. Both copies are byte-for-byte identical (same codebase)."];
  ["AES";
   ("Honours_lab_316/aes_core-master/rtl/verilog/" +:+ newline +:+ "IPs/aes_core-master/rtl/verilog/" +:+ newline +:+ "Honours_lab_316/AES-IP/aes_core-master/rtl/verilog/");
   "32-bit"; ("AXI4 full (slave)" +:+ newline +:+ "axi_aes_slave.v wrapper"); "32";
   ("CONTROL @0x0000, STATUS @0x0004," +:+ newline +:+ "KEY0–KEY3 @0x0010–0x001C," +:+ newline +:+ "TEXT_IN0–3 @0x0020–0x002C," +:+ newline +:+ "TEXT_OUT0–3 @0x0030–0x003C" +:+ newline +:+ "(11 registers, highest offset 0x3C)");
   ("NOT DETERMINED from available RTL" +:+ newline +:+ "(no irq output found in axi_aes_slave.v)");
   "Three copies in repo – same source codebase. AXI4 full interface (not Lite) – direct connection to 32-bit AXI interconnect is possible. reset (rst) is ACTIVE-LOW on aes_cipher_top."];
  ["PWM"; "AXI4-Lite-PWM-Controller-IP-Zynq-PYNQ--main/"; "32-bit";
   ("AXI4-Lite (slave)" +:+ newline +:+ "(Xilinx auto-generated style – no ID)"); "4";
   ("slv_reg0 @0x00, slv_reg1 @0x04," +:+ newline +:+ "slv_reg2 @0x08, slv_reg3 @0x0C" +:+ newline +:+ "(4 registers × 32-bit)" +:+ newline +:+ "Output: PWM_OUT");
   "None found in RTL";
   "4-bit address bus → 16-byte space. Xilinx Vivado IP packager style. No AXI ID signals (pure AXI4-Lite). Register function (period/duty/etc.) NOT DOCUMENTED in available RTL."]].

Definition missing : list (list string) := [
  ["Instruction Memory"; "Referenced in axi_interconnect_wrap_1x8.v comments"; "NOT DETERMINED";
   "AXI4 (inferred from interconnect)"; "NOT DETERMINED";
   "REGISTER MAP: TO BE DETERMINED FROM IP RTL / SPECIFICATION"; "N/A";
   "RTL not found. Placeholder @ 0x0000_0000 in existing interconnect."];
  ["Data Memory"; "Referenced in axi_interconnect_wrap_1x8.v comments"; "NOT DETERMINED";
   "AXI4 (inferred from interconnect)"; "NOT DETERMINED";
   "REGISTER MAP: TO BE DETERMINED FROM IP RTL / SPECIFICATION"; "N/A";
   "RTL not found. Placeholder @ 0x0001_0000 in existing interconnect."];
  ["Timer"; "Referenced in axi_interconnect_wrap comments"; "NOT DETERMINED"; "AXI4 (inferred)";
   "NOT DETERMINED"; "REGISTER MAP: TO BE DETERMINED FROM IP RTL / SPECIFICATION";
   "NOT DETERMINED"; "No RTL found. Slot reserved at 0x0004_0000 in full SoC map."];
  ["GPIO"; "Referenced in axi_interconnect_wrap comments"; "NOT DETERMINED"; "AXI4 (inferred)";
   "NOT DETERMINED"; "REGISTER MAP: TO BE DETERMINED FROM IP RTL / SPECIFICATION";
   "NOT DETERMINED"; "No RTL found. Slot reserved at 0x0005_0000 in full SoC map."];
  ["FIFO (Packet FIFO)"; "Referenced in axi_interconnect_wrap comments"; "NOT DETERMINED";
   "AXI4 (inferred)"; "NOT DETERMINED";
   "REGISTER MAP: TO BE DETERMINED FROM IP RTL / SPECIFICATION"; "NOT DETERMINED";
   "No RTL found. Slot reserved at 0x0006_0000 in full SoC map."];
  ["Packet Counter"; "Referenced in axi_interconnect_wrap comments"; "NOT DETERMINED";
   "AXI4 (inferred)"; "NOT DETERMINED";
   "REGISTER MAP: TO BE DETERMINED FROM IP RTL / SPECIFICATION"; "NOT DETERMINED";
   "No RTL found. Slot reserved at 0x0007_0000 in full SoC map."];
  ["Enhanced Timer"; "Referenced in prompt (team member IP)"; "NOT DETERMINED"; "NOT DETERMINED";
   "NOT DETERMINED"; "REGISTER MAP: TO BE DETERMINED FROM IP RTL / SPECIFICATION";
   "NOT DETERMINED"; "No RTL found. Slot reserved at 0x0008_0000."];
  ["CRC"; "Referenced in axi_interconnect_wrap comments"; "NOT DETERMINED"; "AXI4 (inferred)";
   "NOT DETERMINED"; "REGISTER MAP: TO BE DETERMINED FROM IP RTL / SPECIFICATION";
   "NOT DETERMINED"; "No RTL found. Slot reserved at 0x0009_0000."];
  ["DMA"; "Referenced in prompt (team member IP)"; "NOT DETERMINED"; "NOT DETERMINED";
   "NOT DETERMINED"; "REGISTER MAP: TO BE DETERMINED FROM IP RTL / SPECIFICATION";
   "NOT DETERMINED"; "No RTL found. Slot reserved at 0x000A_0000."];
  ["Interrupt Controller"; "Referenced in prompt (team member IP)"; "NOT DETERMINED";
   "NOT DETERMINED"; "NOT DETERMINED";
   "REGISTER MAP: TO BE DETERMINED FROM IP RTL / SPECIFICATION"; "NOT DETERMINED";
   "No RTL found. Slot reserved at 0x000B_0000."];
  ["RLE"; "Referenced in prompt (team member IP)"; "NOT DETERMINED"; "NOT DETERMINED";
   "NOT DETERMINED"; "REGISTER MAP: TO BE DETERMINED FROM IP RTL / SPECIFICATION";
   "NOT DETERMINED"; "No RTL found. Slot reserved at 0x000C_0000."]].

Definition sheet_ip_inventory : sheet :=
  let ws := create_sheet "IP_Inventory" in
  let ws := write_title "SoC Honours Project – IP Inventory (Phase 1)" ws in
  let ws := write_col_headers inventory_headers 2 HDR_LIGHT ws in
  let ws := write_section_header 3 "IPs WITH CONFIRMED RTL IN REPOSITORY" HDR_MID ws in
  let ws := for_enum (fun i row => write_row (4 + i) (text row) (odd i) None) confirmed ws in
  let r := 4 + length confirmed in
  let ws := write_section_header r
    "IPs REFERENCED IN PROJECT BUT NO RTL FOUND IN REPOSITORY" "C00000" ws in
  let r := r + 1 in
  for_enum (fun i row =>
    let fills := (fun v => first_fill [(String.eqb v "NOT DETERMINED", WARN_AMBER)]) <$> row in
    write_row (r + i) (text row) (odd i) (Some fills)) missing ws.

(** ** SoC_Address_Map *)

Definition divider (t : string) : list (option string) := Some t :: replicate 8 None.

Definition map_headers : list string :=
  ["IP / Region"; "Base Address"; "End Address"; "Allocated Size"; "Current Register Usage";
   "Expansion Space"; "Data Width"; "Required Adapter / Wrapper"; "Notes"].

Definition map_rows : list (list (option string)) := [
  divider "── VeeR EL2 Internal Memory Regions ──";
  text [("VeeR DCCM" +:+ newline +:+ "(Data-Closely-Coupled Memory)"); "0xF004_0000";
        "0xF004_FFFF"; "64 KB";
        ("Internal VeeR DCCM" +:+ newline +:+ "(not accessible via LSU AXI)");
        "0 (fixed by VeeR config)"; "64-bit internal"; "None – internal to VeeR core";
        "Region 0xF, offset 0x40000. Configured in veer.config. NOT memory-mapped through the SoC AXI interconnect."];
  text [("VeeR ICCM" +:+ newline +:+ "(Instruction-Closely-Coupled Memory)"); "0xEE00_0000";
        "0xEE00_FFFF"; "64 KB";
        ("Internal VeeR ICCM" +:+ newline +:+ "(not accessible via IFU AXI)");
        "0 (fixed by VeeR config)"; "64-bit internal"; "None – internal to VeeR core";
        "Region 0xE, top-aligned. Configured in veer.config. NOT memory-mapped through the SoC AXI interconnect."];
  text [("VeeR PIC" +:+ newline +:+ "(Programmable Interrupt Controller)"); "0xF00C_0000";
        "0xF00C_7FFF"; "32 KB";
        ("VeeR internal PIC registers" +:+ newline +:+ "(memory-mapped inside VeeR)");
        "0 (fixed by VeeR config)"; "32-bit (VeeR internal)"; "None – internal to VeeR core";
        "Region 0xF, offset 0xC0000. CPU accesses via load/store to this range. Must NOT be allocated to any SoC peripheral."];
  divider "── SoC Peripheral Region ──";
  text ["Instruction Memory"; "0x0000_0000"; "0x0000_FFFF"; "64 KB";
        "TO BE DETERMINED FROM IP RTL"; "Expansion to 64 KB total"; "32-bit";
        "None (if 32-bit AXI memory)";
        "Boot / program memory. reset_vec = 0x8000_0000 (overridable). IFU AXI fetches from here. RTL not yet provided."];
  text ["Data Memory"; "0x0001_0000"; "0x0001_FFFF"; "64 KB"; "TO BE DETERMINED FROM IP RTL";
        "Expansion to 64 KB total"; "32-bit"; "AXI64→AXI32 adapter on LSU path";
        "General SRAM data storage. RTL not yet provided."];
  text ["UART"; "0x0002_0000"; "0x0002_0FFF"; "4 KB";
        ("6 regs: RBR/THR@+0x00, IER@+0x04," +:+ newline +:+ "BAUD_DIV@+0x08, LCR@+0x0C, LSR@+0x14" +:+ newline +:+ "(28 bytes used)");
        "4 KB − 28 B = ~4068 B free"; "32-bit";
        ("AXI64→AXI32 adapter (LSU path)" +:+ newline +:+ "+ AXI4→AXI4Lite bridge" +:+ newline +:+ "(already exists in repo)");
        "Existing adapter: axi4_to_axi4lite_uart_adapter.v. UART has 5-bit internal address bus."];
  text ["Timer"; "0x0004_0000"; "0x0004_0FFF"; "4 KB"; "TO BE DETERMINED FROM IP RTL";
        "~4 KB free"; "NOT DETERMINED"; "TBD – depends on IP interface";
        "No RTL found. Reserved slot. Note: moved from 0x0002_1000 to give full 4 KB alignment."];
  text ["GPIO"; "0x0005_0000"; "0x0005_0FFF"; "4 KB"; "TO BE DETERMINED FROM IP RTL"; "~4 KB free";
        "NOT DETERMINED"; "TBD – depends on IP interface"; "No RTL found. Reserved slot."];
  text ["Packet FIFO"; "0x0006_0000"; "0x0006_0FFF"; "4 KB"; "TO BE DETERMINED FROM IP RTL";
        "~4 KB free"; "NOT DETERMINED"; "TBD – depends on IP interface";
        "No RTL found. Reserved slot."];
  text ["Packet Counter"; "0x0007_0000"; "0x0007_0FFF"; "4 KB"; "TO BE DETERMINED FROM IP RTL";
        "~4 KB free"; "NOT DETERMINED"; "TBD – depends on IP interface";
        "No RTL found. Reserved slot."];
  text ["Enhanced Timer"; "0x0008_0000"; "0x0008_0FFF"; "4 KB"; "TO BE DETERMINED FROM IP RTL";
        "~4 KB free"; "NOT DETERMINED"; "TBD – depends on IP interface";
        "No RTL found. Reserved slot."];
  text ["CRC"; "0x0009_0000"; "0x0009_0FFF"; "4 KB"; "TO BE DETERMINED FROM IP RTL"; "~4 KB free";
        "NOT DETERMINED"; "TBD – depends on IP interface"; "No RTL found. Reserved slot."];
  text ["DMA"; "0x000A_0000"; "0x000A_FFFF"; "64 KB"; "TO BE DETERMINED FROM IP RTL";
        "64 KB total"; "NOT DETERMINED"; "TBD – DMA may need 64-bit path";
        "No RTL found. Larger region allocated – DMA typically has more registers (src/dst/len/control/status per channel)."];
  text ["Interrupt Controller"; "0x000B_0000"; "0x000B_0FFF"; "4 KB";
        "TO BE DETERMINED FROM IP RTL"; "~4 KB free"; "NOT DETERMINED";
        "TBD – depends on IP interface";
        "No RTL found. Reserved slot. Note: VeeR has internal PIC; this slot is for an external interrupt controller IP if provided by a team member."];
  text ["RLE"; "0x000C_0000"; "0x000C_0FFF"; "4 KB"; "TO BE DETERMINED FROM IP RTL"; "~4 KB free";
        "NOT DETERMINED"; "TBD – depends on IP interface"; "No RTL found. Reserved slot."];
  text ["SPI"; "0x000D_0000"; "0x000D_0FFF"; "4 KB";
        ("12 regs: highest offset 0x78 (RFOR)" +:+ newline +:+ "(124 bytes used)");
        "4 KB − 124 B = ~3972 B free"; "32-bit";
        ("AXI64→AXI32 adapter (LSU path)" +:+ newline +:+ "+ AXI4→AXI4Lite bridge (to be created)");
        "SPI has 7-bit internal address bus (128-byte space). 4 KB region provides ample expansion."];
  text ["I2C"; "0x000E_0000"; "0x000E_0FFF"; "4 KB";
        ("8 regs × 8-bit: PRER_LO@+0, PRER_HI@+1," +:+ newline +:+ "CTR@+2, RXR/TXR@+3, SR/CR@+4," +:+ newline +:+ "(debug@+5,+6), SLADR@+7");
        "4 KB − 8 B = ~4088 B free"; "8-bit (Wishbone)";
        ("AXI64→AXI32 adapter (LSU path)" +:+ newline +:+ "+ AXI4-Lite→Wishbone bridge (to be created)");
        "I2C is Wishbone. Requires a bridge wrapper. 8-bit data width mismatch with 32-bit AXI must be handled in the bridge wrapper."];
  text ["AES"; "0x000F_0000"; "0x000F_0FFF"; "4 KB";
        ("11 regs: CTRL@+0x00, STAT@+0x04," +:+ newline +:+ "KEY0–3@+0x10–0x1C, TXT_IN0–3@+0x20–0x2C," +:+ newline +:+ "TXT_OUT0–3@+0x30–0x3C" +:+ newline +:+ "(64 bytes used)");
        "4 KB − 64 B = ~4032 B free"; "32-bit";
        ("AXI64→AXI32 adapter (LSU path)" +:+ newline +:+ "(AES uses AXI4 full – no Lite bridge needed)");
        "AES has AXI4 full slave interface. reset is ACTIVE-LOW on aes_cipher_top."];
  text ["PWM"; "0x0010_0000"; "0x0010_0FFF"; "4 KB";
        ("4 regs × 32-bit:" +:+ newline +:+ "slv_reg0@+0x00, slv_reg1@+0x04," +:+ newline +:+ "slv_reg2@+0x08, slv_reg3@+0x0C");
        "4 KB − 16 B = ~4080 B free"; "32-bit";
        ("AXI64→AXI32 adapter (LSU path)" +:+ newline +:+ "+ AXI4→AXI4Lite bridge (no ID in PWM)");
        "PWM has 4-bit internal address bus (pure AXI4-Lite, no ID)."];
  divider "── Reserved / Future Expansion ──";
  text [("Future IP Expansion Bank A" +:+ newline +:+ "(Team member IPs not yet provided)");
        "0x0011_0000"; "0x001F_FFFF"; "~1 MB"; "RESERVED"; "~1 MB"; "TBD"; "TBD";
        "Reserved for additional IPs from all 5 team members. Each team member can be allocated 64–256 KB sub-regions here."];
  text [("RESERVED – must not use" +:+ newline +:+ "(VeeR PIC region)"); "0xF00C_0000";
        "0xF00C_7FFF"; "32 KB"; "VeeR internal PIC only"; "0"; "32-bit VeeR internal"; "None";
        "DO NOT allocate to any SoC peripheral. VeeR accesses this region internally for interrupt management."];
  text [("RESERVED – must not use" +:+ newline +:+ "(VeeR DCCM region)"); "0xF004_0000";
        "0xF004_FFFF"; "64 KB"; "VeeR internal DCCM only"; "0"; "64-bit internal"; "None";
        "DO NOT allocate to any SoC peripheral."];
  text [("RESERVED – must not use" +:+ newline +:+ "(VeeR ICCM region)"); "0xEE00_0000";
        "0xEE00_FFFF"; "64 KB"; "VeeR internal ICCM only"; "0"; "64-bit internal"; "None";
        "DO NOT allocate to any SoC peripheral."]].

(** The fill of a cell of a region row. *)
Definition map_fill (v : option string) : option string :=
  match v with
  | None => None
  | Some s =>
      first_fill
        [(negb (String.eqb s EmptyString)
          && (contains "TO BE DETERMINED" s || contains "NOT DETERMINED" s || contains "TBD" s
              || String.eqb "RESERVED" s), WARN_AMBER);
         (contains "RESERVED – must not use" s, "FFD7D7")]
  end.

Definition is_divider (row : list (option string)) : bool :=
  match row !! 1 with Some (Some _) => false | _ => true end.

Definition sheet_address_map : sheet :=
  let ws := create_sheet "SoC_Address_Map" in
  let ws := write_title "SoC Honours Project – Full Memory Map (Phase 1 Draft)" ws in
  let ws := write_col_headers map_headers 2 HDR_LIGHT ws in
  for_enum (fun i row ws =>
    let r := 4 + i in
    if is_divider row then put r 1 (mjoin (row !! 0)) (Some HDR_MID) ws
    else write_row r row (even i) (Some (map_fill <$> row)) ws) map_rows ws.

(** ** Register_Map *)

Definition register_headers : list string :=
  ["IP"; "Register Name"; "Offset (hex)"; "Absolute Address (hex)"; "Width (bits)"; "Access";
   "Description"].

Definition regs : list (list string) := [
  [("UART" +:+ newline +:+ "(base 0x0002_0000)"); "RBR (Rx Buffer Reg)"; "0x00"; "0x0002_0000";
   "32"; "R"; "Receive data register. Read to get received byte."];
  [EmptyString; "THR (Tx Holding Reg)"; "0x00"; "0x0002_0000"; "32"; "W";
   "Transmit data register. Write to send byte. Same offset as RBR."];
  [EmptyString; "IER (Interrupt Enable Reg)"; "0x04"; "0x0002_0004"; "32"; "R/W";
   "Interrupt enable control."];
  [EmptyString; "BAUD_DIVISOR"; "0x08"; "0x0002_0008"; "32"; "R/W";
   "Baud rate divisor. Active when DLAB=1 in LCR. Default: clk/115200."];
  [EmptyString; "LCR (Line Control Reg)"; "0x0C"; "0x0002_000C"; "32"; "R/W";
   "[7]=DLAB, [4]=parity_mode, [3]=parity_en, [2]=stop_bits, [1:0]=word_len"];
  [EmptyString; "LSR (Line Status Reg)"; "0x14"; "0x0002_0014"; "32"; "R";
   "[6]=TEMT (TX empty), [5]=THRE (TX FIFO empty), [0]=data_ready"];
  [("SPI" +:+ newline +:+ "(base 0x000D_0000)"); "GIER (Global IRQ Enable)"; "0x1C"; "0x000D_001C";
   "32"; "R/W"; "Global interrupt enable register."];
  [EmptyString; "ISR (Interrupt Status)"; "0x20"; "0x000D_0020"; "32"; "R/W";
   "Interrupt status register. Write 1 to clear."];
  [EmptyString; "IER (Interrupt Enable)"; "0x28"; "0x000D_0028"; "32"; "R/W";
   "Interrupt enable register."];
  [EmptyString; "RCLK (custom Ratio Clk)"; "0x30"; "0x000D_0030"; "32"; "R/W";
   "Custom SPI clock ratio register. Reset value = 4."];
  [EmptyString; "SRR (Soft Reset)"; "0x40"; "0x000D_0040"; "32"; "W";
   "Software reset. Write 0x0000_000A to reset."];
  [EmptyString; "CR (Control Reg)"; "0x60"; "0x000D_0060"; "32"; "R/W";
   "[9]=LSB_first, [6]=RX_FIFO_rst, [5]=TX_FIFO_rst, [4]=CPHA, [3]=CPOL, [2]=MASTER, [1]=SPI_EN"];
  [EmptyString; "SR (Status Reg)"; "0x64"; "0x000D_0064"; "32"; "R";
   "[5]=SMOD_SEL, [4]=MODF, [3]=TX_FULL, [2]=TX_EMPTY, [1]=RX_FULL, [0]=RX_EMPTY"];
  [EmptyString; "DTR (Data TX Register)"; "0x68"; "0x000D_0068"; "32"; "W"; "Write byte to TX FIFO."];
  [EmptyString; "DRR (Data RX Register)"; "0x6C"; "0x000D_006C"; "32"; "R";
   "Read byte from RX FIFO."];
  [EmptyString; "SSR (Slave Select)"; "0x70"; "0x000D_0070"; "32"; "R/W";
   "Chip select (active low bits). Reset = 0xFFFF_FFFF."];
  [EmptyString; "TFOR (TX FIFO Occupancy)"; "0x74"; "0x000D_0074"; "32"; "R";
   "TX FIFO occupancy register."];
  [EmptyString; "RFOR (RX FIFO Occupancy)"; "0x78"; "0x000D_0078"; "32"; "R";
   "RX FIFO occupancy register."];
  [("I2C / Wishbone" +:+ newline +:+ "(base 0x000E_0000)"); "PRER_LO (Prescale Low)"; "0x00";
   "0x000E_0000"; "8"; "R/W"; "Clock prescale register [7:0]. Reset = 0xFF."];
  [EmptyString; "PRER_HI (Prescale High)"; "0x01"; "0x000E_0001"; "8"; "R/W";
   "Clock prescale register [15:8]. Reset = 0xFF."];
  [EmptyString; "CTR (Control Reg)"; "0x02"; "0x000E_0002"; "8"; "R/W";
   "[7]=EN (core enable), [6]=IEN (interrupt enable)."];
  [EmptyString; "TXR/RXR (Data)"; "0x03"; "0x000E_0003"; "8"; "W/R"; "Write=TX byte. Read=RX byte."];
  [EmptyString; "CR/SR (Cmd/Status)"; "0x04"; "0x000E_0004"; "8"; "W/R";
   "Write=Command: [7]=STA,[6]=STO,[5]=RD,[4]=WR,[3]=ACK,[0]=IACK. Read=Status: [7]=RxACK,[6]=BUSY,[5]=AL,[1]=TIP,[0]=IF."];
  [EmptyString; "SLADR (Slave Addr)"; "0x07"; "0x000E_0007"; "8"; "R/W";
   "7-bit target slave address [6:0]. Default = 0x7E."];
  [("AES" +:+ newline +:+ "(base 0x000F_0000)"); "CONTROL"; "0x0000"; "0x000F_0000"; "32"; "R/W";
   "[0]=START (write 1→1-cycle aes_ld), [1]=CLEAR_DONE, [2]=SOFT_RESET."];
  [EmptyString; "STATUS"; "0x0004"; "0x000F_0004"; "32"; "R";
   "[0]=DONE (latched), [1]=BUSY, [2]=KEY_VALID, [3]=INPUT_VALID."];
  [EmptyString; "KEY0"; "0x0010"; "0x000F_0010"; "32"; "R/W"; "AES key [127:96]."];
  [EmptyString; "KEY1"; "0x0014"; "0x000F_0014"; "32"; "R/W"; "AES key [95:64]."];
  [EmptyString; "KEY2"; "0x0018"; "0x000F_0018"; "32"; "R/W"; "AES key [63:32]."];
  [EmptyString; "KEY3"; "0x001C"; "0x000F_001C"; "32"; "R/W"; "AES key [31:0]."];
  [EmptyString; "TEXT_IN0"; "0x0020"; "0x000F_0020"; "32"; "R/W"; "Plaintext input [127:96]."];
  [EmptyString; "TEXT_IN1"; "0x0024"; "0x000F_0024"; "32"; "R/W"; "Plaintext input [95:64]."];
  [EmptyString; "TEXT_IN2"; "0x0028"; "0x000F_0028"; "32"; "R/W"; "Plaintext input [63:32]."];
  [EmptyString; "TEXT_IN3"; "0x002C"; "0x000F_002C"; "32"; "R/W"; "Plaintext input [31:0]."];
  [EmptyString; "TEXT_OUT0"; "0x0030"; "0x000F_0030"; "32"; "R"; "Ciphertext output [127:96]."];
  [EmptyString; "TEXT_OUT1"; "0x0034"; "0x000F_0034"; "32"; "R"; "Ciphertext output [95:64]."];
  [EmptyString; "TEXT_OUT2"; "0x0038"; "0x000F_0038"; "32"; "R"; "Ciphertext output [63:32]."];
  [EmptyString; "TEXT_OUT3"; "0x003C"; "0x000F_003C"; "32"; "R"; "Ciphertext output [31:0]."];
  [("PWM" +:+ newline +:+ "(base 0x0010_0000)"); "slv_reg0"; "0x00"; "0x0010_0000"; "32"; "R/W";
   "PWM register 0. Exact function NOT DETERMINED from available RTL."];
  [EmptyString; "slv_reg1"; "0x04"; "0x0010_0004"; "32"; "R/W";
   "PWM register 1. Exact function NOT DETERMINED from available RTL."];
  [EmptyString; "slv_reg2"; "0x08"; "0x0010_0008"; "32"; "R/W";
   "PWM register 2. Exact function NOT DETERMINED from available RTL."];
  [EmptyString; "slv_reg3"; "0x0C"; "0x0010_000C"; "32"; "R/W";
   "PWM register 3. Exact function NOT DETERMINED from available RTL."]].

Definition ip_colors : list (string * string) :=
  [("UART", "DDEEFF"); ("SPI", "E2EFDA"); ("I2C", "FFF2CC"); ("AES", "FCE4D6"); ("PWM", "EAD1DC")].

(** The colour of the rows changes at a labelled row. *)
Definition next_color (label current_color : string) : string :=
  if String.eqb label EmptyString then current_color
  else match List.find (fun kv => contains kv.1 label) ip_colors with
       | Some kv => kv.2
       | None => current_color
       end.

Definition sheet_register_map : sheet :=
  let ws := create_sheet "Register_Map" in
  let ws := write_title "SoC Honours Project – Register Map (IPs with confirmed RTL)" ws in
  let ws := write_col_headers register_headers 2 HDR_LIGHT ws in
  (for_enum (fun i row st =>
     let '(current_color, ws) := st in
     let current_color := next_color (default EmptyString (row !! 0)) current_color in
     let fills := (fun v => Some (if contains "NOT DETERMINED" v then WARN_AMBER
                                  else current_color)) <$> row in
     (current_color, write_row (4 + i) (text row) false (Some fills) ws)) regs (ROW_WHITE, ws)).2.

(** ** Reserved_Address_Space *)

Definition reserved_headers : list string :=
  ["Region"; "Base Address"; "End Address"; "Size"; "Reason / Notes"].

Definition reserved_rows : list (list string) := [
  [("Gap: 0x0000_0000–0x0001_FFFF interior" +:+ newline +:+ "(between Instr Mem and Data Mem)");
   "0x0000_0000"; "0x0001_FFFF"; "128 KB";
   "Occupied by Instruction Memory (0x0000_0000) and Data Memory (0x0001_0000). No unused gap here."];
  ["Gap: above Data Memory to UART"; "0x0002_0000"; "0x0002_0FFF"; "4 KB";
   "UART occupies this range. No gap."];
  ["GAP: 0x0003_0000 – 0x0003_FFFF"; "0x0003_0000"; "0x0003_FFFF"; "64 KB";
   "UNALLOCATED. Available for future IP. Previously the existing interconnect packed peripherals tightly at 0x0002_x000; the new map gives each IP a clean 64 KB-boundary base, leaving this gap free."];
  ["Timer slot (IP pending)"; "0x0004_0000"; "0x0004_0FFF"; "4 KB";
   "Reserved for Timer IP. RTL not yet available. Remaining 0x0004_1000–0x0004_FFFF (60 KB) is expansion space."];
  ["GPIO slot (IP pending)"; "0x0005_0000"; "0x0005_0FFF"; "4 KB";
   "Reserved for GPIO IP. RTL not yet available."];
  ["Packet FIFO slot (IP pending)"; "0x0006_0000"; "0x0006_0FFF"; "4 KB";
   "Reserved for Packet FIFO IP. RTL not yet available."];
  ["Packet Counter slot (IP pending)"; "0x0007_0000"; "0x0007_0FFF"; "4 KB";
   "Reserved for Packet Counter IP. RTL not yet available."];
  ["Enhanced Timer slot (IP pending)"; "0x0008_0000"; "0x0008_0FFF"; "4 KB";
   "Reserved for Enhanced Timer IP. RTL not yet available."];
  ["CRC slot (IP pending)"; "0x0009_0000"; "0x0009_0FFF"; "4 KB";
   "Reserved for CRC IP. RTL not yet available."];
  ["DMA slot (IP pending)"; "0x000A_0000"; "0x000A_FFFF"; "64 KB";
   "Reserved for DMA IP. Given 64 KB because DMA controllers typically need registers for multiple channels (src addr, dst addr, length, control, status per channel)."];
  ["Interrupt Controller slot (IP pending)"; "0x000B_0000"; "0x000B_0FFF"; "4 KB";
   "Reserved for external Interrupt Controller IP. Note: VeeR has its own internal PIC. This slot is for any additional team-member interrupt controller."];
  ["RLE slot (IP pending)"; "0x000C_0000"; "0x000C_0FFF"; "4 KB";
   "Reserved for RLE (Run-Length Encoding) IP. RTL not yet available."];
  ["Expansion gap above known IPs"; "0x0011_0000"; "0x001F_FFFF"; "~956 KB";
   "RESERVED for future IP expansion. All 5 team members can be allocated sub-regions here as their IPs are integrated. Clean 64 KB sub-regions recommended per IP."];
  ["MUST NOT USE – VeeR ICCM"; "0xEE00_0000"; "0xEE00_FFFF"; "64 KB";
   "VeeR internal Instruction CCM. Hardcoded in veer.config (region 0xE, top-aligned). Must not be allocated to any peripheral."];
  ["MUST NOT USE – VeeR DCCM"; "0xF004_0000"; "0xF004_FFFF"; "64 KB";
   "VeeR internal Data CCM. Hardcoded in veer.config (region 0xF, offset 0x40000). Must not be allocated to any peripheral."];
  ["MUST NOT USE – VeeR PIC"; "0xF00C_0000"; "0xF00C_7FFF"; "32 KB";
   "VeeR internal PIC registers. Hardcoded in veer.config (region 0xF, offset 0xC0000). CPU accesses this range via load/store for interrupt management. Must not be allocated to any peripheral."];
  ["All other addresses"; "0x0000_0000"; "0xFFFF_FFFF"; "~4 GB minus above";
   "Addresses not listed in the SoC address map are unallocated. The AXI interconnect will return DECERR for unmapped accesses. Avoid regions 0xD0000000–0xFFFFFFFF as they overlap with standard RISC-V machine-mode CSR / platform regions."]].

Definition reserved_fill (row : list string) (v : string) : option string :=
  first_fill
    [(contains "MUST NOT USE" v || contains "MUST NOT USE" (default EmptyString (row !! 0)),
      "FFD7D7");
     (contains "UNALLOCATED" v || contains "Reserved" v || contains "pending" v, WARN_AMBER)].

Definition sheet_reserved : sheet :=
  let ws := create_sheet "Reserved_Address_Space" in
  let ws := write_title "SoC Honours Project – Reserved / Unused Address Space" ws in
  let ws := write_col_headers reserved_headers 2 HDR_LIGHT ws in
  for_enum (fun i row =>
    write_row (i + 3) (text row) (even i) (Some (reserved_fill row <$> row))) reserved_rows ws.

(** ** Duplicate_IP_Analysis *)

Definition duplicate_headers : list string :=
  ["IP Name"; "Instance A (Path)"; "Instance B (Path)"; "Instance C (Path)"; "Comparison Result";
   "Integration Decision"; "Action Required"].

Definition duplicate_rows : list (list string) := [
  ["UART"; "soc_project_packet_buffering/rtl/UART_IP/src/rtl/axi_uart_top.v";
   "Honours_lab_316/axi-lite_uart-ipcore/src/rtl/axi_uart_top.v";
   "IPs/axi-lite_uart-ipcore-develop/src/rtl/axi_uart_top.v";
   ("IDENTICAL" +:+ newline +:+ "(diff confirmed – byte for byte)");
   ("Single integration slot." +:+ newline +:+ "One canonical copy used.");
   "Choose one canonical copy for FULL_SOC_HONOURS_PROJECT/rtl/ip/uart/. Do NOT modify internal files. Recommend: use soc_project_packet_buffering copy as it is the most recently integrated version with the existing adapter."];
  ["AES"; "Honours_lab_316/aes_core-master/rtl/verilog/"; "IPs/aes_core-master/rtl/verilog/";
   "Honours_lab_316/AES-IP/aes_core-master/rtl/verilog/";
   ("SAME CODEBASE" +:+ newline +:+ "(same filenames, same structure)");
   ("Single integration slot." +:+ newline +:+ "One canonical copy used.");
   "Verify with diff. If identical, use one copy. Place in FULL_SOC_HONOURS_PROJECT/rtl/ip/aes/. If any copy has been modified, document the differences."];
  ["I2C"; "IPs/i2c-master/rtl/verilog/i2c_master_top.v";
   "Honours_lab_316/I2C/rtl/verilog/i2c_master_top.v"; "N/A";
   ("SAME CODEBASE" +:+ newline +:+ "(same author, same filenames)");
   ("Single integration slot." +:+ newline +:+ "One canonical copy used.");
   "Verify with diff. If identical, use one copy. Requires AXI4-Lite→Wishbone bridge wrapper – do not modify i2c_master_top.v itself."];
  ["Timer"; "NOT FOUND IN REPO"; "NOT FOUND IN REPO"; "N/A"; "NO RTL AVAILABLE";
   ("Slot reserved at 0x0004_0000." +:+ newline +:+ "Pending from team.");
   "Obtain Timer RTL from the responsible team member. Compare if multiple versions exist. Do not assume identical until confirmed."];
  [("FIFO" +:+ newline +:+ "(Packet FIFO)"); "NOT FOUND IN REPO"; "NOT FOUND IN REPO"; "N/A";
   "NO RTL AVAILABLE"; ("Slot reserved at 0x0006_0000." +:+ newline +:+ "Pending from team.");
   "Note: the UART IP contains an internal FIFO (axi_internal_fifo.v) but this is NOT a standalone FIFO IP. Obtain standalone FIFO RTL from team."]].

Definition duplicate_fill (v : string) : option string :=
  first_fill [(contains "NOT FOUND" v || contains "NO RTL" v, WARN_AMBER);
              (contains "IDENTICAL" v, OK_GREEN); (contains "SAME CODEBASE" v, "D9EAD3")].

Definition sheet_duplicates : sheet :=
  let ws := create_sheet "Duplicate_IP_Analysis" in
  let ws := write_title "SoC Honours Project – Duplicate IP Analysis" ws in
  let ws := write_col_headers duplicate_headers 2 HDR_LIGHT ws in
  for_enum (fun i row =>
    write_row (i + 3) (text row) (even i) (Some (duplicate_fill <$> row))) duplicate_rows ws.

(** ** Adapters_Wrappers *)

Definition adapter_headers : list string :=
  ["Adapter / Wrapper Name"; "Required For"; "CPU-Side Interface"; "IP-Side Interface";
   "Key Conversion Tasks"; "Status"; "Source File (if existing)"; "Priority"].

Definition adapter_rows : list (list string) := [
  [("veer_lsu_axi64_to_axi32" +:+ newline +:+ "(AXI4 64-bit → AXI4 32-bit)");
   "ALL peripherals on the LSU path";
   ("AXI4, 64-bit data, 32-bit addr," +:+ newline +:+ "8-bit wstrb, ID=LSU_BUS_TAG (4b)");
   ("AXI4, 32-bit data, 32-bit addr," +:+ newline +:+ "4-bit wstrb, ID=8b");
   ("• Split 64-bit write data to lower/upper 32-bit word" +:+ newline +:+ "• Select correct 32-bit word based on address LSB [2]" +:+ newline +:+ "• Convert 8-bit byte strobe to 4-bit" +:+ newline +:+ "• Zero-extend read data from 32→64 bit" +:+ newline +:+ "• Pass-through all AXI handshake signals" +:+ newline +:+ "• Handle AXI4 ID width mismatch");
   "TO BE CREATED";
   ("Described in KIRO_DESCRIPTION.txt." +:+ newline +:+ "axi4_to_axi4lite_uart_adapter.v exists but is UART-specific only.");
   ("HIGH" +:+ newline +:+ "(blocks all LSU integration)")];
  [("veer_ifu_axi64_to_axi32" +:+ newline +:+ "(AXI4 64-bit → AXI4 32-bit for IFU)");
   ("Instruction Memory" +:+ newline +:+ "(IFU fetch path)");
   ("AXI4, 64-bit data, 32-bit addr," +:+ newline +:+ "IFU_BUS_TAG ID (derived)");
   "AXI4, 32-bit data, 32-bit addr";
   ("• 64-bit fetch data reassembly for 32-bit instruction memory" +:+ newline +:+ "• IFU typically issues read-only burst transactions" +:+ newline +:+ "• Must handle AXI arlen/arsize correctly");
   "TO BE CREATED"; "None existing."; ("HIGH" +:+ newline +:+ "(IFU cannot fetch if not present)")];
  [("axi4_to_axi4lite_uart_adapter" +:+ newline +:+ "(AXI4 → AXI4-Lite for UART)"); "UART IP";
   ("AXI4, 32-bit data, 32-bit addr," +:+ newline +:+ "8-bit ID");
   ("AXI4-Lite style, 32-bit data," +:+ newline +:+ "5-bit addr, 12-bit ID");
   ("• Buffer AW and W independently" +:+ newline +:+ "• Present AWVALID+WVALID together to UART" +:+ newline +:+ "• Address truncation [31:0]→[4:0]" +:+ newline +:+ "• ID zero-extension 8b→12b and truncation on response" +:+ newline +:+ "• No burst support (UART is register peripheral)");
   "EXISTS IN REPO";
   ("soc_project_packet_buffering/rtl/" +:+ newline +:+ "axi4_to_axi4lite_uart_adapter.v");
   ("DONE" +:+ newline +:+ "(already integrated)")];
  [("axi4_to_axi4lite_spi_adapter" +:+ newline +:+ "(AXI4 → AXI4-Lite for SPI)"); "SPI IP";
   ("AXI4, 32-bit data, 32-bit addr," +:+ newline +:+ "8-bit ID");
   ("AXI4-Lite style, 32-bit data," +:+ newline +:+ "7-bit addr, 12-bit ID");
   ("• Similar to UART adapter" +:+ newline +:+ "• Address truncation [31:0]→[6:0]" +:+ newline +:+ "• ID conversion 8b→12b" +:+ newline +:+ "• No burst support");
   ("TO BE CREATED" +:+ newline +:+ "(model on UART adapter)");
   "None. Model after axi4_to_axi4lite_uart_adapter.v"; "HIGH"];
  [("axi4lite_to_wishbone_i2c_bridge" +:+ newline +:+ "(AXI4-Lite → Wishbone for I2C)"); "I2C IP";
   "AXI4-Lite, 32-bit data, 32-bit addr";
   ("Wishbone rev-B2, 8-bit data," +:+ newline +:+ "3-bit addr, wb_cyc+wb_stb+wb_we");
   ("• Protocol conversion: AXI4-Lite → Wishbone" +:+ newline +:+ "• Data width conversion: 32-bit → 8-bit" +:+ newline +:+ "• Address mapping: AXI byte addr → wb_adr_i[2:0]" +:+ newline +:+ "• Single-beat only (I2C regs are 8-bit)" +:+ newline +:+ "• Map wb_ack_o → AXI BVALID/RVALID" +:+ newline +:+ "• Route wb_inta_o as interrupt output");
   "TO BE CREATED"; "None existing in repo.";
   ("HIGH" +:+ newline +:+ "(I2C cannot work without this)")];
  [("axi4_to_axi4lite_pwm_adapter" +:+ newline +:+ "(AXI4 → AXI4-Lite for PWM)"); "PWM IP";
   ("AXI4, 32-bit data, 32-bit addr," +:+ newline +:+ "8-bit ID");
   ("AXI4-Lite, 32-bit data," +:+ newline +:+ "4-bit addr (NO ID signals)");
   ("• Address truncation [31:0]→[3:0]" +:+ newline +:+ "• Strip AXI ID (PWM has no ID ports)" +:+ newline +:+ "• No burst support");
   "TO BE CREATED"; "None. Can model after UART adapter but simpler (no ID on slave)."; "MEDIUM"];
  [("axi64_to_axi32_aes_wrapper" +:+ newline +:+ "(AXI4 64-bit → AXI4 32-bit for AES)"); "AES IP";
   ("AXI4, 64-bit data (from LSU adapter)," +:+ newline +:+ "or direct 32-bit if LSU adapter used");
   ("AXI4 full, 32-bit data, 32-bit addr," +:+ newline +:+ "8-bit ID");
   ("• If general LSU adapter already reduces to 32-bit," +:+ newline +:+ "  AES connects directly to interconnect" +:+ newline +:+ "• AES uses AXI4 full (not Lite) – no additional Lite bridge needed" +:+ newline +:+ "• Verify rst polarity: aes_cipher_top uses ACTIVE-LOW reset");
   ("NO EXTRA ADAPTER NEEDED" +:+ newline +:+ "(if general LSU 64→32 adapter used)");
   ("aes_register_set.v + axi_aes_slave.v" +:+ newline +:+ "(already AXI4 full slave)");
   ("LOW" +:+ newline +:+ "(AXI4 native)")]].

Definition adapter_fill (v : string) : option string :=
  first_fill [(contains "TO BE CREATED" v, WARN_AMBER);
              (contains "EXISTS IN REPO" v || contains "DONE" v, OK_GREEN);
              (contains "NO EXTRA ADAPTER NEEDED" v, OK_GREEN)].

Definition sheet_adapters : sheet :=
  let ws := create_sheet "Adapters_Wrappers" in
  let ws := write_title "SoC Honours Project – Required Adapters and Wrappers" ws in
  let ws := write_col_headers adapter_headers 2 HDR_LIGHT ws in
  for_enum (fun i row =>
    write_row (i + 3) (text row) (even i) (Some (adapter_fill <$> row))) adapter_rows ws.

(** ** VeeR_EL2_Interface *)

Definition veer_headers : list string :=
  ["Interface / Signal Group"; "Direction (CPU)"; "Width"; "Protocol"; "Notes"].

Definition veer_rows : list (list string) := [
  ["── Global ──"; EmptyString; EmptyString; EmptyString; EmptyString];
  ["clk"; "Input"; "1"; "–"; "Primary clock."];
  ["rst_l"; "Input"; "1"; "–"; "Active-LOW synchronous reset."];
  ["dbg_rst_l"; "Input"; "1"; "–"; "Debug reset, active-LOW."];
  ["rst_vec[31:1]"; "Input"; "31"; "–";
   "Reset vector. Default 0x8000_0000 (testbench). Tie to constant in top-level."];
  ["nmi_int"; "Input"; "1"; "–"; "Non-maskable interrupt."];
  ["nmi_vec[31:1]"; "Input"; "31"; "–"; "NMI handler address. Tie to constant."];
  ["jtag_id[31:1]"; "Input"; "31"; "–"; "JTAG ID. Tie to constant."];
  ["── LSU AXI Master (Load/Store) ──"; EmptyString; EmptyString; EmptyString; EmptyString];
  ["lsu_axi_awaddr[31:0]"; "Output"; "32"; "AXI4"; "Write address."];
  ["lsu_axi_awvalid / awready"; "Out/In"; "1"; "AXI4"; "Write address handshake."];
  ["lsu_axi_awid[LSU_BUS_TAG-1:0]"; "Output"; "4 (default)"; "AXI4";
   "Write transaction ID. LSU_BUS_TAG=4 by default."];
  ["lsu_axi_awlen[7:0]"; "Output"; "8"; "AXI4"; "Burst length. Tied to 0 (single beat) by LSU."];
  ["lsu_axi_awsize[2:0]"; "Output"; "3"; "AXI4"; "Transfer size. Max 3'b011 = 8 bytes (64-bit)."];
  ["lsu_axi_awburst[1:0]"; "Output"; "2"; "AXI4"; "Burst type. Tied to INCR by LSU."];
  ["lsu_axi_wdata[63:0]"; "Output"; "64"; "AXI4";
   "DATA BUS IS 64-BIT. Width mismatch with 32-bit IPs."];
  ["lsu_axi_wstrb[7:0]"; "Output"; "8"; "AXI4";
   "8-bit byte strobe (one bit per byte of 64-bit data)."];
  ["lsu_axi_wvalid / wready"; "Out/In"; "1"; "AXI4"; "Write data handshake."];
  ["lsu_axi_wlast"; "Output"; "1"; "AXI4"; "End of burst. Always 1 for single beat."];
  ["lsu_axi_bresp[1:0]"; "Input"; "2"; "AXI4"; "Write response: 00=OKAY, 10=SLVERR, 11=DECERR."];
  ["lsu_axi_bid[LSU_BUS_TAG-1:0]"; "Input"; "4"; "AXI4"; "Write response ID."];
  ["lsu_axi_araddr[31:0]"; "Output"; "32"; "AXI4"; "Read address."];
  ["lsu_axi_arvalid / arready"; "Out/In"; "1"; "AXI4"; "Read address handshake."];
  ["lsu_axi_arid[LSU_BUS_TAG-1:0]"; "Output"; "4"; "AXI4"; "Read transaction ID."];
  ["lsu_axi_rdata[63:0]"; "Input"; "64"; "AXI4";
   "Read data. 64-BIT. Must pad from 32-bit peripheral."];
  ["lsu_axi_rresp[1:0]"; "Input"; "2"; "AXI4"; "Read response."];
  ["lsu_axi_rid[LSU_BUS_TAG-1:0]"; "Input"; "4"; "AXI4"; "Read data ID."];
  ["lsu_axi_rlast"; "Input"; "1"; "AXI4"; "Last read data beat."];
  ["── IFU AXI Master (Instruction Fetch) ──"; EmptyString; EmptyString; EmptyString; EmptyString];
  ["ifu_axi_araddr[31:0]"; "Output"; "32"; "AXI4"; "Instruction fetch address."];
  ["ifu_axi_arvalid / arready"; "Out/In"; "1"; "AXI4"; "Read address handshake."];
  ["ifu_axi_arid[IFU_BUS_TAG-1:0]"; "Output"; "derived"; "AXI4";
   "IFU transaction ID. Width is derived (default 4)."];
  ["ifu_axi_rdata[63:0]"; "Input"; "64"; "AXI4";
   "Fetched instruction data. 64-BIT. IFU reads 64-bit chunks."];
  ["ifu_axi_rresp[1:0]"; "Input"; "2"; "AXI4"; "Read response."];
  ["ifu_axi_rlast"; "Input"; "1"; "AXI4"; "Last read beat."];
  ["IFU write channel"; "Output"; "–"; "AXI4";
   "All tied to 0 by IFU (instruction fetch is read-only in practice). Pragma coverage off."];
  ["── SB AXI Master (System Bus / Debug) ──"; EmptyString; EmptyString; EmptyString; EmptyString];
  ["sb_axi_awaddr[31:0]"; "Output"; "32"; "AXI4"; "Debug write address."];
  ["sb_axi_wdata[63:0]"; "Output"; "64"; "AXI4"; "Debug write data. 64-BIT."];
  ["sb_axi_wstrb[7:0]"; "Output"; "8"; "AXI4"; "8-bit byte strobe."];
  ["sb_axi_araddr[31:0]"; "Output"; "32"; "AXI4"; "Debug read address."];
  ["sb_axi_rdata[63:0]"; "Input"; "64"; "AXI4"; "Debug read data. 64-BIT."];
  ["sb_axi_awid / arid [SB_BUS_TAG-1:0]"; "Output"; "1"; "AXI4"; "SB_BUS_TAG = 1 bit by default."];
  ["── DMA AXI Slave (external DMA writes into CPU DCCM/ICCM) ──"; EmptyString; EmptyString;
   EmptyString; EmptyString];
  ["dma_axi_awaddr[31:0]"; "Input"; "32"; "AXI4"; "DMA writes into CPU memory."];
  ["dma_axi_wdata[63:0]"; "Input"; "64"; "AXI4"; "DMA data bus. 64-BIT."];
  ["dma_axi_wstrb[7:0]"; "Input"; "8"; "AXI4"; "8-bit strobe."];
  ["dma_axi_rdata[63:0]"; "Output"; "64"; "AXI4"; "DMA read data. 64-BIT."];
  ["dma_axi_awid/arid [DMA_BUS_TAG-1:0]"; "Input"; "1"; "AXI4"; "DMA_BUS_TAG = 1 bit."];
  ["── Interrupt Interface ──"; EmptyString; EmptyString; EmptyString; EmptyString];
  ["timer_int"; "Input"; "1"; "–"; "Timer interrupt. Connect to Timer IP's irq output."];
  ["soft_int"; "Input"; "1"; "–"; "Software interrupt."];
  ["extintsrc_req[pt.PIC_TOTAL_INT:1]"; "Input"; "31 (default)"; "–";
   "External interrupt sources [31:1]. Connect to peripheral IRQ outputs. PIC_TOTAL_INT = 31 by default (configurable)."];
  ["── JTAG Interface ──"; EmptyString; EmptyString; EmptyString; EmptyString];
  ["jtag_tck / jtag_tms / jtag_tdi / jtag_tdo"; "In/In/In/Out"; "1 each"; "JTAG";
   "Standard JTAG debug interface."];
  ["jtag_trst_n"; "Input"; "1"; "JTAG"; "JTAG async reset, active-LOW."];
  ["── VeeR Internal Memory Addresses (from veer.config) ──"; EmptyString; EmptyString;
   EmptyString; EmptyString];
  ["DCCM: region=0xF, offset=0x40000"; "–"; "–"; "–";
   "Address = 256M × 0xF + 0x40000 = 0xF004_0000. Size=64KB."];
  ["ICCM: region=0xE, top-aligned"; "–"; "–"; "–";
   "Top-aligned in region 0xE. Address ≈ 0xEE00_0000. Size=64KB."];
  ["PIC: region=0xF, offset=0xC0000"; "–"; "–"; "–";
   "Address = 0xF00C_0000. Size=32KB. PIC_TOTAL_INT=31."];
  ["reset_vec (default)"; "–"; "–"; "–";
   "0x8000_0000. Overridable. CPU starts fetching from this address."]].

Definition at_col (row : list string) (i : nat) : string := default EmptyString (row !! i).

Definition veer_fills (row : list string) : list (option string) :=
  if contains "64-BIT" (at_col row 4) || contains "64-BIT" (at_col row 2)
  then [None; None; Some "FFE699"; None; Some "FFE699"] else replicate 5 None.

Definition sheet_veer : sheet :=
  let ws := create_sheet "VeeR_EL2_Interface" in
  let ws := write_title "VeeR EL2 CPU Interface Summary (from el2_veer_wrapper.sv)" ws in
  let ws := write_col_headers veer_headers 2 HDR_LIGHT ws in
  for_enum (fun i row ws =>
    let r := 4 + i in
    if String.eqb (at_col row 1) EmptyString && String.eqb (at_col row 2) EmptyString
       && contains "──" (at_col row 0)
    then put r 1 (Some (at_col row 0)) (Some HDR_MID) ws
    else write_row r (text row) false (Some (veer_fills row)) ws) veer_rows ws.

(** ** Integration_Architecture *)

Definition rule : string := repeat_str "═" 100.

(** The format string of the decode table. *)
Definition decode_row (slot name base end_ size adapter : string) : string :=
  "  " +:+ PyString.join " " [ljust 5 slot; ljust 28 name; ljust 14 base; ljust 14 end_; ljust 10 size;
                     adapter].

Definition arch_overview : list string := [
  EmptyString;
  "CONFIRMED FROM ACTUAL RTL FILES – NOT ASSUMED";
  EmptyString;
  "All interfaces, widths, and protocols below are taken directly from:";
  "  • el2_veer_wrapper.sv (VeeR EL2 AXI interface)";
  "  • axi_uart_top.v + axi_uart.vh + axi_uart_defines.vh (UART)";
  "  • axi_spi_top.v + axi_spi.vh + axi_spi_defines.vh (SPI)";
  "  • i2c_master_top.v + i2c_master_defines.v (I2C)";
  "  • axi_aes_slave.v + aes_register_set.v (AES)";
  "  • myip_v1_0_S00_AXI.v + myip_v1_0.v (PWM)";
  "  • axi_interconnect_wrap_1x8.v / axi_interconnect_wrap_3x8.v";
  "  • axi4_to_axi4lite_uart_adapter.v";
  "  • configs/veer.config";
  EmptyString;
  rule].

Definition arch_diagram : list string := [
  EmptyString;
  "                         ┌─────────────────────────────────────────────┐";
  "                         │          VeeR EL2 RISC-V CPU                │";
  "                         │  xlen=32, regwidth=32, BUS DATA = 64-bit    │";
  "                         │  AXI4 protocol (RV_BUILD_AXI4)              │";
  "                         │  reset_vec = 0x8000_0000                    │";
  "                         └────────┬─────────┬──────────┬───────────────┘";
  "                                  │ LSU     │ IFU      │ DMA (slave)";
  "                                  │ AXI4    │ AXI4     │ AXI4";
  "                                  │ 64-bit  │ 64-bit   │ 64-bit";
  "                                  │         │          │";
  "                    ┌─────────────▼─┐   ┌───▼────────┐ │";
  "                    │ veer_lsu_axi  │   │veer_ifu_axi│ │";
  "                    │ 64→32 adapter │   │64→32 adapter│ │";
  "                    │ (TO CREATE)   │   │(TO CREATE) │ │";
  "                    └──────┬────────┘   └─────┬──────┘ │";
  "                           │ AXI4             │ AXI4   │";
  "                           │ 32-bit           │ 32-bit │";
  "                           │                  │        │";
  "         ┌─────────────────▼──────────────────▼────────┘";
  "         │                                              │";
  "         │       SoC AXI Interconnect                  │";
  "         │   (axi_interconnect_wrap_NxM)               │";
  "         │   32-bit data, 32-bit addr                  │";
  "         │   Address decoding per SoC memory map       │";
  "         │                                             │";
  "         └──┬──────┬──────┬────┬────┬────┬────┬────┬──┘";
  "            │      │      │    │    │    │    │    │";
  "         [0x0000] [0x0001][0x0002][0x000D][0x000E][0x000F][0x0010][0x000A+]";
  "            │      │      │    │    │    │    │    │";
  "          Instr   Data   UART SPI  I2C  AES  PWM  [Future]";
  "          Mem     Mem   Adapter Adapter Bridge      IPs";
  "         (RTL     (RTL  │    │    │    (AXI4  Adapter";
  "         TBD)     TBD)  │    │    │   native) │";
  "                        │    │    │          │";
  "                   axi_uart axi_spi axi4lite→WB PWM→Lite";
  "                   _top.v  _top.v  i2c_master  adapter";
  "                   (AXI4L) (AXI4L) _top.v(WB)  (TO CREATE)";
  EmptyString;
  rule].

Definition arch_key_facts : list string := [
  EmptyString;
  "KEY FACTS FROM RTL ANALYSIS:";
  EmptyString;
  "1. VeeR EL2 data buses are ALL 64-bit (LSU, IFU, SB, DMA).";
  "   Address buses are all 32-bit.";
  "   A 64-bit→32-bit AXI width adapter IS REQUIRED on every outbound CPU bus.";
  EmptyString;
  "2. The existing axi4_to_axi4lite_uart_adapter.v handles UART specifically.";
  "   A general veer_lsu_axi64_to_axi32 adapter must be created for all other IPs.";
  EmptyString;
  "3. UART (AXI4-Lite style, 32-bit, 5-bit addr) – CONFIRMED RTL, identical across all 3 copies.";
  "   Requires: (a) 64→32 LSU adapter  (b) existing AXI4→Lite UART adapter.";
  EmptyString;
  "4. SPI (AXI4-Lite style, 32-bit, 7-bit addr) – CONFIRMED RTL.";
  "   Requires: (a) 64→32 LSU adapter  (b) new AXI4→Lite SPI adapter (model on UART adapter).";
  EmptyString;
  "5. I2C (Wishbone rev-B2, 8-bit data, 3-bit addr) – CONFIRMED RTL.";
  "   Requires: (a) 64→32 LSU adapter  (b) NEW AXI4-Lite→Wishbone bridge (not yet in repo).";
  "   Data width mismatch: 32-bit AXI ↔ 8-bit Wishbone – bridge must handle this.";
  EmptyString;
  "6. AES (AXI4 full, 32-bit data, 32-bit addr) – CONFIRMED RTL.";
  "   Requires: 64→32 LSU adapter only. No Lite bridge needed (AXI4 full native).";
  "   NOTE: aes_cipher_top reset is ACTIVE-LOW – connect carefully.";
  EmptyString;
  "7. PWM (AXI4-Lite, 32-bit data, 4-bit addr, NO ID signals) – CONFIRMED RTL.";
  "   Requires: (a) 64→32 LSU adapter  (b) new AXI4→Lite PWM adapter (strip ID).";
  EmptyString;
  "8. IPs NOT YET AVAILABLE (RTL pending from team):";
  "   Timer, GPIO, Packet FIFO, Packet Counter, Enhanced Timer,";
  "   CRC, DMA, Interrupt Controller, RLE.";
  "   Slots reserved in address map. Cannot design adapters until RTL is available.";
  EmptyString;
  "9. VeeR internal regions MUST be protected in the interconnect:";
  "   DCCM 0xF004_0000–0xF004_FFFF  (64 KB)";
  "   ICCM 0xEE00_0000–0xEE00_FFFF  (64 KB)";
  "   PIC  0xF00C_0000–0xF00C_7FFF  (32 KB)";
  "   These must not be decoded to any peripheral.";
  EmptyString;
  rule].

Definition arch_decode_table : list string := [
  EmptyString;
  "INTERCONNECT DECODE TABLE (for implementing axi_interconnect_wrap_NxM):";
  EmptyString;
  decode_row "Slot" "IP Name" "Base Addr" "End Addr" "Size" "Adapter Required";
  decode_row (repeat_str "-" 5) (repeat_str "-" 28) (repeat_str "-" 14) (repeat_str "-" 14) (repeat_str "-" 10) (repeat_str "-" 40);
  decode_row "M00" "Instruction Memory" "0x0000_0000" "0x0000_FFFF" "64 KB" "64→32 IFU adapter";
  decode_row "M01" "Data Memory" "0x0001_0000" "0x0001_FFFF" "64 KB" "64→32 LSU adapter";
  decode_row "M02" "UART" "0x0002_0000" "0x0002_0FFF" "4 KB" "64→32 + AXI4→Lite UART adapter (EXISTS)";
  decode_row "M03" "Timer (pending)" "0x0004_0000" "0x0004_0FFF" "4 KB" "TBD – IP RTL not available";
  decode_row "M04" "GPIO (pending)" "0x0005_0000" "0x0005_0FFF" "4 KB" "TBD – IP RTL not available";
  decode_row "M05" "Packet FIFO (pending)" "0x0006_0000" "0x0006_0FFF" "4 KB" "TBD – IP RTL not available";
  decode_row "M06" "Packet Counter (pending)" "0x0007_0000" "0x0007_0FFF" "4 KB" "TBD – IP RTL not available";
  decode_row "M07" "Enhanced Timer (pending)" "0x0008_0000" "0x0008_0FFF" "4 KB" "TBD – IP RTL not available";
  decode_row "M08" "CRC (pending)" "0x0009_0000" "0x0009_0FFF" "4 KB" "TBD – IP RTL not available";
  decode_row "M09" "DMA (pending)" "0x000A_0000" "0x000A_FFFF" "64 KB" "TBD – may need 64-bit path";
  decode_row "M10" "Interrupt Ctrl (pending)" "0x000B_0000" "0x000B_0FFF" "4 KB" "TBD – IP RTL not available";
  decode_row "M11" "RLE (pending)" "0x000C_0000" "0x000C_0FFF" "4 KB" "TBD – IP RTL not available";
  decode_row "M12" "SPI" "0x000D_0000" "0x000D_0FFF" "4 KB" "64→32 + AXI4→Lite SPI adapter (TO CREATE)";
  decode_row "M13" "I2C" "0x000E_0000" "0x000E_0FFF" "4 KB" "64→32 + AXI4-Lite→Wishbone bridge (TO CREATE)";
  decode_row "M14" "AES" "0x000F_0000" "0x000F_0FFF" "4 KB" "64→32 LSU adapter only (AXI4 native)";
  decode_row "M15" "PWM" "0x0010_0000" "0x0010_0FFF" "4 KB" "64→32 + AXI4→Lite PWM adapter (TO CREATE)";
  EmptyString;
  rule].

Definition arch_unresolved : list string := [
  EmptyString;
  "UNRESOLVED ITEMS – REQUIRED FROM TEAM BEFORE PHASE 2:";
  EmptyString;
  "  1. RTL for: Timer, GPIO, Packet FIFO, Packet Counter, Enhanced Timer,";
  "              CRC, DMA, Interrupt Controller, RLE";
  "  2. Confirmation whether Timer is the same IP as Enhanced Timer or different";
  "  3. Bus protocol for each missing IP (AXI4 / AXI4-Lite / APB / custom?)";
  "  4. Data width of each missing IP";
  "  5. Register map for each missing IP";
  "  6. Interrupt output signal names for each IP that has an interrupt";
  "  7. Whether any team member has developed a 2nd UART with different functionality";
  "  8. Confirmation of reset_vec address for the final SoC";
  "  9. Target FPGA / technology (affects memory implementation for Instr/Data memory)";
  " 10. PWM register function definitions (slv_reg0–3 not documented in RTL)"].

Definition arch_lines : list string :=
  arch_overview ++ arch_diagram ++ arch_key_facts ++ arch_decode_table ++ arch_unresolved.

Definition is_heading (line : string) : bool :=
  contains "CONFIRMED FROM" line || contains "KEY FACTS" line || contains "UNRESOLVED" line
  || contains "INTERCONNECT DECODE" line.

Definition sheet_architecture : sheet :=
  let ws := create_sheet "Integration_Architecture" in
  let ws := write_title
    "SoC Honours Project – High-Level Integration Architecture (Phase 1)" ws in
  for_enum (fun i line =>
    put (i + 2) 1 (Some line) (if is_heading line then Some HDR_LIGHT else None)) arch_lines ws.

(** [main] *)
Definition main : workbook :=
  [sheet_ip_inventory; sheet_address_map; sheet_register_map; sheet_reserved; sheet_duplicates;
   sheet_adapters; sheet_veer; sheet_architecture].

(** ** Facts *)

(** The rows of each sheet have as many cells as the header. *)
Lemma rows_rectangular :
  Forall (fun row => length row = length inventory_headers) (confirmed ++ missing)
  /\ Forall (fun row => length row = length map_headers) map_rows
  /\ Forall (fun row => length row = length register_headers) regs
  /\ Forall (fun row => length row = length reserved_headers) reserved_rows
  /\ Forall (fun row => length row = length duplicate_headers) duplicate_rows
  /\ Forall (fun row => length row = length adapter_headers) adapter_rows
  /\ Forall (fun row => length row = length veer_headers) veer_rows.
Proof.
  repeat split; apply (bool_decide_unpack _); vm_compute; exact I.
Qed.
