(* ===== verification/AddressUpdate.v ===== *)
(** * Moving the address map: update_addresses.py and update_addresses_v2.py of
    Reliable_Data_Transport_System/docs/phase1

    Both scripts rewrite the addresses in the texts of the workbook of
    [Phase1Book], to grow the data memory to 128 KB and to move the peripherals up
    by 64 KB.  [V1] replaces one address after the other; [V2] replaces all of
    them in one pass.  The first theorems describe the two on any text made of
    addresses and of other characters, the others what they make of the workbook. *)

From S2P Require Import Prelude PyString Phase1Book.
From stdpp Require Import base gmap list strings.
From Stdlib Require Import Ascii ZArith Lia.

#[local] Open Scope string_scope.
#[local] Open Scope list_scope.
#[local] Open Scope nat_scope.

(** ** Access to the workbook

    The state of the scripts: the workbook and the number of updates so far. *)

Definition state : Type := workbook * nat.

Definition max_row (ws : sheet) : nat := foldr Nat.max 0 ((fun k => k.1.1) <$> map_to_list (cells ws)).
Definition max_col (ws : sheet) : nat := foldr Nat.max 0 ((fun k => k.1.2) <$> map_to_list (cells ws)).

(** The value of [row[i]] for a row of [ws.iter_rows()]. *)
Definition row_value (ws : sheet) (r i : nat) : option string :=
  match cells ws !! (r, S i) with Some c => value c | None => None end.

(** [str(row[i].value) if row[i].value else ""] *)
Definition row_text (ws : sheet) (r i : nat) : string := default EmptyString (row_value ws r i).

(** [row[i]]: the rows have [max_col] cells. *)
Definition row_index (ws : sheet) (i : nat) : result unit :=
  if i <? max_col ws then Ok tt else Raise IndexError.

(** [row[i].value = v] *)
Definition set_value (r i : nat) (v : string) (ws : sheet) : sheet :=
  Sheet (title ws)
    (partial_alter (fun c => Some (Cell (Some v) (c ≫= fill))) (r, S i) (cells ws)).

Definition rows (ws : sheet) : list nat := seq 1 (max_row ws).

(** [wb[t]], and the workbook with this sheet changed. *)
Definition sheet_named (t : string) (wb : workbook) : result sheet :=
  match List.find (fun ws => String.eqb (title ws) t) wb with
  | Some ws => Ok ws
  | None => Raise KeyError
  end.

Definition set_sheet (t : string) (ws : sheet) (wb : workbook) : workbook :=
  (fun s => if String.eqb (title s) t then ws else s) <$> wb.

Definition on_sheet (t : string) (f : sheet * nat -> result (sheet * nat)) (st : state)
  : result state :=
  let! ws := sheet_named t st.1 in
  let! (ws, total) := f (ws, st.2) in
  Ok (set_sheet t ws st.1, total).

(** [for row in ws.iter_rows(): ...] *)
Fixpoint for_rows (rs : list nat) (body : nat -> sheet * nat -> result (sheet * nat))
    (st : sheet * nat) : result (sheet * nat) :=
  match rs with
  | [] => Ok st
  | r :: rs => let! st := body r st in for_rows rs body st
  end.

(** The pass over all cells: [f] on each text, and the count of those changed. *)
Definition pass_cell (f : string -> string) (c : cell) : cell := Cell (f <$> value c) (fill c).

Definition pass_sheet (f : string -> string) (ws : sheet) : sheet :=
  Sheet (title ws) (pass_cell f <$> cells ws).

Definition changed_by (f : string -> string) (c : cell) : bool :=
  match value c with Some s => negb (String.eqb (f s) s) | None => false end.

Definition changes (f : string -> string) (ws : sheet) : nat :=
  length (List.filter (fun k => changed_by f k.2) (map_to_list (cells ws))).

Definition pass (f : string -> string) (wb : workbook) : state :=
  (pass_sheet f <$> wb, foldr Nat.add 0 (changes f <$> wb)).

(** Both scripts enlarge the data memory in the address map: the first row whose
    first cell names it. *)
Fixpoint find_row (p : nat -> bool) (rs : list nat) : option nat :=
  match rs with [] => None | r :: rs => if p r then Some r else find_row p rs end.

Definition resize_data_memory (st : sheet * nat) : result (sheet * nat) :=
  let '(ws, total) := st in
  match find_row (fun r => contains "Data Memory" (row_text ws r 0)) (rows ws) with
  | None => Ok (ws, total)
  | Some r =>
      let! _ := row_index ws 3 in
      let '(ws, total) :=
        if contains "64 KB" (row_text ws r 3) then (set_value r 3 "128 KB" ws, S total)
        else (ws, total) in
      let! _ := row_index ws 5 in
      let old := row_text ws r 5 in
      let new := replace "Expansion to 64 KB total" "Expansion to 128 KB total" old in
      Ok (if String.eqb new old then (ws, total) else (set_value r 5 new ws, S total))
  end.

(** The size of the data memory in the decode table. *)
Definition resize_decode_table (st : sheet * nat) : result (sheet * nat) :=
  for_rows (rows st.1) (fun r st =>
    let '(ws, total) := st in
    let v := row_text ws r 0 in
    Ok (if contains "M01" v && contains "Data Memory" v && contains "64 KB" v
        then (set_value r 0 (replace_first "64 KB" "128 KB" v) ws, S total) else st)) st.

(** ** update_addresses.py *)

Module V1.

Definition addr_entries : list (string * string) :=
  [("0x0001_FFFF", "0x0002_FFFF"); ("0x0001_FFFF", "0x0002_FFFF"); ("0x0002_0FFF", "0x0003_0FFF");
   ("0x0002_0000", "0x0003_0000"); ("0x0004_0FFF", "0x0005_0FFF"); ("0x0004_0000", "0x0005_0000");
   ("0x0005_0FFF", "0x0006_0FFF"); ("0x0005_0000", "0x0006_0000"); ("0x0006_0FFF", "0x0007_0FFF");
   ("0x0006_0000", "0x0007_0000"); ("0x0007_0FFF", "0x0008_0FFF"); ("0x0007_0000", "0x0008_0000");
   ("0x0008_0FFF", "0x0009_0FFF"); ("0x0008_0000", "0x0009_0000"); ("0x0009_0FFF", "0x000A_0FFF");
   ("0x0009_0000", "0x000A_0000"); ("0x000A_FFFF", "0x000B_FFFF"); ("0x000A_FFFF", "0x000B_FFFF");
   ("0x000A_0000", "0x000B_0000"); ("0x000B_0FFF", "0x000C_0FFF"); ("0x000B_0000", "0x000C_0000");
   ("0x000C_0FFF", "0x000D_0FFF"); ("0x000C_0000", "0x000D_0000"); ("0x000D_0FFF", "0x000E_0FFF");
   ("0x000D_001C", "0x000E_001C"); ("0x000D_0020", "0x000E_0020"); ("0x000D_0028", "0x000E_0028");
   ("0x000D_0030", "0x000E_0030"); ("0x000D_0040", "0x000E_0040"); ("0x000D_0060", "0x000E_0060");
   ("0x000D_0064", "0x000E_0064"); ("0x000D_0068", "0x000E_0068"); ("0x000D_006C", "0x000E_006C");
   ("0x000D_0070", "0x000E_0070"); ("0x000D_0074", "0x000E_0074"); ("0x000D_0078", "0x000E_0078");
   ("0x000D_0000", "0x000E_0000"); ("0x000E_0FFF", "0x000F_0FFF"); ("0x000E_0007", "0x000F_0007");
   ("0x000E_0004", "0x000F_0004"); ("0x000E_0003", "0x000F_0003"); ("0x000E_0002", "0x000F_0002");
   ("0x000E_0001", "0x000F_0001"); ("0x000E_0000", "0x000F_0000"); ("0x000F_0FFF", "0x0010_0FFF");
   ("0x000F_003C", "0x0010_003C"); ("0x000F_0038", "0x0010_0038"); ("0x000F_0034", "0x0010_0034");
   ("0x000F_0030", "0x0010_0030"); ("0x000F_002C", "0x0010_002C"); ("0x000F_0028", "0x0010_0028");
   ("0x000F_0024", "0x0010_0024"); ("0x000F_0020", "0x0010_0020"); ("0x000F_001C", "0x0010_001C");
   ("0x000F_0018", "0x0010_0018"); ("0x000F_0014", "0x0010_0014"); ("0x000F_0010", "0x0010_0010");
   ("0x000F_0004", "0x0010_0004"); ("0x000F_0000", "0x0010_0000"); ("0x0010_0FFF", "0x0011_0FFF");
   ("0x0010_000C", "0x0011_000C"); ("0x0010_0008", "0x0011_0008"); ("0x0010_0004", "0x0011_0004");
   ("0x0010_0000", "0x0011_0000"); ("0x0011_0000", "0x0012_0000")].

Definition text_entries : list (string * string) :=
  [("Expansion to 64 KB total", "Expansion to 128 KB total");
   ("Placeholder @ 0x0001_0000 in existing interconnect.", "Placeholder @ 0x0001_0000 in existing interconnect.");
   (("Gap: 0x0000_0000–0x0001_FFFF interior" +:+ newline +:+ "(between Instr Mem and Data Mem)"), ("Gap: 0x0000_0000–0x0002_FFFF interior" +:+ newline +:+ "(between Instr Mem and Data Mem)"));
   ("Occupied by Instruction Memory (0x0000_0000) and Data Memory (0x0001_0000). No u", "Occupied by Instruction Memory (0x0000_0000) and Data Memory (0x0001_0000–0x0002_FFFF). No u");
   ("Gap: above Data Memory to UART", "Gap: above extended Data Memory to UART");
   (("Slot reserved at 0x0004_0000." +:+ newline +:+ "Pending from team."), ("Slot reserved at 0x0005_0000." +:+ newline +:+ "Pending from team."));
   (("Slot reserved at 0x0006_0000." +:+ newline +:+ "Pending from team."), ("Slot reserved at 0x0007_0000." +:+ newline +:+ "Pending from team."));
   ("No RTL found. Slot reserved at 0x0004_0000 in full SoC map.", "No RTL found. Slot reserved at 0x0005_0000 in full SoC map.");
   ("No RTL found. Slot reserved at 0x0005_0000 in full SoC map.", "No RTL found. Slot reserved at 0x0006_0000 in full SoC map.");
   ("No RTL found. Slot reserved at 0x0006_0000 in full SoC map.", "No RTL found. Slot reserved at 0x0007_0000 in full SoC map.");
   ("No RTL found. Slot reserved at 0x0007_0000 in full SoC map.", "No RTL found. Slot reserved at 0x0008_0000 in full SoC map.");
   ("No RTL found. Slot reserved at 0x0008_0000.", "No RTL found. Slot reserved at 0x0009_0000.");
   ("No RTL found. Slot reserved at 0x0009_0000.", "No RTL found. Slot reserved at 0x000A_0000.");
   ("No RTL found. Slot reserved at 0x000A_0000.", "No RTL found. Slot reserved at 0x000B_0000.");
   ("No RTL found. Slot reserved at 0x000B_0000.", "No RTL found. Slot reserved at 0x000C_0000.");
   ("No RTL found. Slot reserved at 0x000C_0000.", "No RTL found. Slot reserved at 0x000D_0000.");
   ("[0x0000] [0x0001][0x0002][0x000D][0x000E][0x000F][0x0010][0x000A+]", "[0x0000] [0x0001][0x0003][0x000E][0x000F][0x0010][0x0011][0x000B+]")].

Definition ADDR_MAP : list (string * string) := addr_entries ++ text_entries.

Definition apply_replacements (s : string) (replacements : list (string * string)) : string :=
  foldl (fun s e => if contains e.1 s then replace e.1 e.2 s else s) s replacements.

Definition gap_name : string :=
  "GAP: 0x0003_1000 – 0x0003_FFFF" +:+ newline +:+ "(above UART to next IP)".
Definition gap_notes : string :=
  "PARTIALLY UNALLOCATED. UART occupies 0x0003_0000–0x0003_0FFF (4 KB). "
  +:+ "Remaining 0x0003_1000–0x0003_FFFF (~60 KB) is expansion space for UART "
  +:+ "or an additional small peripheral if needed.".
Definition no_gap_notes : string :=
  "UART occupies 0x0003_0000–0x0003_0FFF. No gap between Data Memory end (0x0002_FFFF) and UART start (0x0003_0000).".

Definition patch_gap (st : sheet * nat) : result (sheet * nat) :=
  let '(ws, total) := st in
  match find_row (fun r => contains "GAP: 0x0003_0000" (row_text ws r 0)
                           || contains "GAP: 0x0004_0000" (row_text ws r 0)) (rows ws) with
  | None => Ok st
  | Some r =>
      let! _ := row_index ws 4 in
      Ok (set_value r 4 gap_notes (set_value r 3 "~60 KB" (set_value r 2 "0x0003_FFFF"
            (set_value r 1 "0x0003_1000" (set_value r 0 gap_name ws)))), S total)
  end.

Definition patch_no_gap (st : sheet * nat) : result (sheet * nat) :=
  let '(ws, total) := st in
  let! _ := match rows ws with [] => Ok tt | _ => row_index ws 4 end in
  match find_row (fun r => contains "above extended Data Memory to UART" (row_text ws r 0))
          (rows ws) with
  | None => Ok st
  | Some r => Ok (set_value r 4 no_gap_notes ws, S total)
  end.

Definition patch_workbook (wb : workbook) : result state :=
  let st := pass (fun s => apply_replacements s ADDR_MAP) wb in
  let! st := on_sheet "SoC_Address_Map" resize_data_memory st in
  let! st := on_sheet "Reserved_Address_Space" patch_gap st in
  let! st := on_sheet "Reserved_Address_Space" patch_no_gap st in
  on_sheet "Integration_Architecture" resize_decode_table st.

End V1.

(** ** update_addresses_v2.py *)

Module V2.

Definition ADDR_TABLE : list (string * string) :=
  [("0x0001_FFFF", "0x0002_FFFF"); ("0x0002_0000", "0x0003_0000"); ("0x0002_0004", "0x0003_0004");
   ("0x0002_0008", "0x0003_0008"); ("0x0002_000C", "0x0003_000C"); ("0x0002_0014", "0x0003_0014");
   ("0x0002_0FFF", "0x0003_0FFF"); ("0x0004_0000", "0x0005_0000"); ("0x0004_0FFF", "0x0005_0FFF");
   ("0x0005_0000", "0x0006_0000"); ("0x0005_0FFF", "0x0006_0FFF"); ("0x0006_0000", "0x0007_0000");
   ("0x0006_0FFF", "0x0007_0FFF"); ("0x0007_0000", "0x0008_0000"); ("0x0007_0FFF", "0x0008_0FFF");
   ("0x0008_0000", "0x0009_0000"); ("0x0008_0FFF", "0x0009_0FFF"); ("0x0009_0000", "0x000A_0000");
   ("0x0009_0FFF", "0x000A_0FFF"); ("0x000A_0000", "0x000B_0000"); ("0x000A_FFFF", "0x000B_FFFF");
   ("0x000B_0000", "0x000C_0000"); ("0x000B_0FFF", "0x000C_0FFF"); ("0x000C_0000", "0x000D_0000");
   ("0x000C_0FFF", "0x000D_0FFF"); ("0x000D_0000", "0x000E_0000"); ("0x000D_001C", "0x000E_001C");
   ("0x000D_0020", "0x000E_0020"); ("0x000D_0028", "0x000E_0028"); ("0x000D_0030", "0x000E_0030");
   ("0x000D_0040", "0x000E_0040"); ("0x000D_0060", "0x000E_0060"); ("0x000D_0064", "0x000E_0064");
   ("0x000D_0068", "0x000E_0068"); ("0x000D_006C", "0x000E_006C"); ("0x000D_0070", "0x000E_0070");
   ("0x000D_0074", "0x000E_0074"); ("0x000D_0078", "0x000E_0078"); ("0x000D_0FFF", "0x000E_0FFF");
   ("0x000E_0000", "0x000F_0000"); ("0x000E_0001", "0x000F_0001"); ("0x000E_0002", "0x000F_0002");
   ("0x000E_0003", "0x000F_0003"); ("0x000E_0004", "0x000F_0004"); ("0x000E_0007", "0x000F_0007");
   ("0x000E_0FFF", "0x000F_0FFF"); ("0x000F_0000", "0x0010_0000"); ("0x000F_0004", "0x0010_0004");
   ("0x000F_0010", "0x0010_0010"); ("0x000F_0014", "0x0010_0014"); ("0x000F_0018", "0x0010_0018");
   ("0x000F_001C", "0x0010_001C"); ("0x000F_0020", "0x0010_0020"); ("0x000F_0024", "0x0010_0024");
   ("0x000F_0028", "0x0010_0028"); ("0x000F_002C", "0x0010_002C"); ("0x000F_0030", "0x0010_0030");
   ("0x000F_0034", "0x0010_0034"); ("0x000F_0038", "0x0010_0038"); ("0x000F_003C", "0x0010_003C");
   ("0x000F_0FFF", "0x0010_0FFF"); ("0x0010_0000", "0x0011_0000"); ("0x0010_0004", "0x0011_0004");
   ("0x0010_0008", "0x0011_0008"); ("0x0010_000C", "0x0011_000C"); ("0x0010_0FFF", "0x0011_0FFF");
   ("0x0011_0000", "0x0012_0000")].

(** The keys hold no character that is special in a pattern. *)
Definition replace_addrs (s : string) : string := re_sub ADDR_TABLE s.

Definition no_gap_notes : string :=
  "UART occupies 0x0003_0000–0x0003_0FFF. "
  +:+ "No gap between Data Memory end (0x0002_FFFF) and UART start (0x0003_0000).".
Definition gap_name : string :=
  "GAP: 0x0003_1000 – 0x0003_FFFF" +:+ newline +:+ "(above UART, below Timer)".
Definition gap_notes : string :=
  "PARTIALLY UNALLOCATED. UART occupies 0x0003_0000–0x0003_0FFF (4 KB). "
  +:+ "Remaining 0x0003_1000–0x0003_FFFF (~60 KB) is expansion space for UART "
  +:+ "or additional small peripheral.".

(** The body of the loop over the rows of the reserved space; [region] and
    [notes] are read before the updates of the row. *)
Definition reserved_row (r : nat) (st : sheet * nat) : result (sheet * nat) :=
  let '(ws, total) := st in
  let region := row_text ws r 0 in
  let! _ := row_index ws 4 in
  let notes := row_text ws r 4 in
  let '(ws, total) :=
    if contains "above Data Memory to UART" region
    then (set_value r 4 no_gap_notes ws, S total) else (ws, total) in
  let '(ws, total) :=
    if contains "GAP: 0x0003_0000" region || contains "UNALLOCATED" notes
    then (set_value r 4 gap_notes (set_value r 3 "~60 KB" (set_value r 2 "0x0003_FFFF"
            (set_value r 1 "0x0003_1000" (set_value r 0 gap_name ws)))), S total)
    else (ws, total) in
  let '(ws, total) :=
    if contains "0x0001_FFFF" region
    then (set_value r 0 (replace "0x0001_FFFF" "0x0002_FFFF" region) ws, S total)
    else (ws, total) in
  if contains "Data Memory (0x0001_0000). No u" notes || contains "Data Memory (0x0001_0000)" notes
  then Ok (set_value r 4
             (replace "Data Memory (0x0001_0000)" "Data Memory (0x0001_0000–0x0002_FFFF)"
                (replace "Data Memory (0x0001_0000). No u"
                   "Data Memory (0x0001_0000–0x0002_FFFF). No u" notes)) ws, S total)
  else Ok (ws, total).

Definition patch_reserved (st : sheet * nat) : result (sheet * nat) :=
  for_rows (rows st.1) reserved_row st.

Definition patch_inventory (st : sheet * nat) : result (sheet * nat) :=
  let '(ws, total) := st in
  match find_row (fun r => contains "Data Memory" (row_text ws r 0)) (rows ws) with
  | None => Ok st
  | Some r =>
      let! _ := row_index ws 7 in
      let old := row_text ws r 7 in
      let new := replace "Placeholder @ 0x0001_0000 in existing interconnect."
        "Placeholder @ 0x0001_0000–0x0002_FFFF (128 KB) in existing interconnect." old in
      Ok (if String.eqb new old then st else (set_value r 7 new ws, S total))
  end.

Definition old_art : string :=
  "[0x0000] [0x0001][0x0002][0x000D][0x000E][0x000F][0x0010][0x000A+]".
Definition new_art : string :=
  "[0x0000] [0x0001][0x0003][0x000E][0x000F][0x0010][0x0011][0x000B+]".

Definition patch_art (st : sheet * nat) : result (sheet * nat) :=
  for_rows (rows st.1) (fun r st =>
    let '(ws, total) := st in
    let v := row_text ws r 0 in
    Ok (if contains old_art v then (set_value r 0 (replace old_art new_art v) ws, S total)
        else st)) st.

(** The script, on the workbook that the generator has written. *)
Definition update (wb : workbook) : result state :=
  let st := pass replace_addrs wb in
  let! st := on_sheet "SoC_Address_Map" resize_data_memory st in
  let! st := on_sheet "Reserved_Address_Space" patch_reserved st in
  let! st := on_sheet "IP_Inventory" patch_inventory st in
  let! st := on_sheet "Integration_Architecture" resize_decode_table st in
  on_sheet "Integration_Architecture" patch_art st.

Definition script : result state := update Phase1Book.main.

End V2.

(** ** Texts made of addresses *)

Section Texts.
#[local] Open Scope Z_scope.

Definition hex_digit (d : Z) : ascii :=
  default "0"%char (String.get (Z.to_nat d) "0123456789ABCDEF").

Definition hex4 (v : Z) : string :=
  String (hex_digit (v / 4096 mod 16)) (String (hex_digit (v / 256 mod 16))
    (String (hex_digit (v / 16 mod 16)) (String (hex_digit (v mod 16)) EmptyString))).

(** An address as the workbook writes it. *)
Definition fmt (v : Z) : string := "0x" +:+ hex4 (v / 65536) +:+ "_" +:+ hex4 v.

Definition digit_value (c : ascii) : option Z :=
  Z.of_nat <$> String.index 0 (String c EmptyString) "0123456789ABCDEF".

Fixpoint hex_value (s : string) (acc : Z) : option Z :=
  match s with
  | EmptyString => Some acc
  | String c s => match digit_value c with Some d => hex_value s (16 * acc + d) | None => None end
  end.

Definition parse_addr (s : string) : option Z :=
  match s with
  | String z (String x (String a (String b (String c (String d
      (String u (String e (String f (String g (String h EmptyString)))))))))) =>
      if Ascii.eqb z "0" && Ascii.eqb x "x" && Ascii.eqb u "_"
      then hex_value (String a (String b (String c (String d
             (String e (String f (String g (String h EmptyString)))))))) 0
      else None
  | _ => None
  end.

(** A text: addresses, and other characters among which there is no [x]. *)
Inductive piece := Chars (s : string) | Addr (v : Z).

Fixpoint no_x (s : string) : bool :=
  match s with EmptyString => true | String a s => negb (Ascii.eqb a "x") && no_x s end.

Definition piece_ok (p : piece) : Prop :=
  match p with Chars s => no_x s = true | Addr v => 0 <= v < 2 ^ 32 end.

#[export] Instance piece_ok_dec p : Decision (piece_ok p).
Proof. destruct p; apply _. Defined.

Definition render_piece (p : piece) : string :=
  match p with Chars s => s | Addr v => fmt v end.

Fixpoint render (d : list piece) : string :=
  match d with [] => EmptyString | p :: d => render_piece p +:+ render d end.

Definition on_addr (f : Z -> Z) (p : piece) : piece :=
  match p with Chars s => Chars s | Addr v => Addr (f v) end.

(** A table of addresses, and what one pass over it makes of an address. *)
Definition fmt_table (t : list (Z * Z)) : list (string * string) :=
  (fun e => (fmt e.1, fmt e.2)) <$> t.

Definition move (t : list (Z * Z)) (v : Z) : Z :=
  match List.find (fun e => e.1 =? v) t with Some e => e.2 | None => v end.

Definition in_range (e : Z * Z) : Prop := 0 <= e.1 < 2 ^ 32 /\ 0 <= e.2 < 2 ^ 32.

(** The addresses of a table of texts. *)
Definition parse_table (t : list (string * string)) : list (Z * Z) :=
  omap (fun e => match parse_addr e.1, parse_addr e.2 with
                 | Some a, Some b => Some (a, b) | _, _ => None end) t.

(** What the replacements one after the other make of an address. *)
Definition chain (t : list (Z * Z)) (v : Z) : Z :=
  foldl (fun v e => if e.1 =? v then e.2 else v) v t.

End Texts.

(** The addresses that [V2] moves, and the table of the addresses of [V1]. *)
Definition moved : list Z := fst <$> parse_table V2.ADDR_TABLE.
Definition addr_chain : list (Z * Z) := parse_table V1.addr_entries.

Section TextFacts.
#[local] Open Scope Z_scope.

Lemma upper_digit_value d : 0 <= d < 16 -> digit_value (hex_digit d) = Some d.
Proof.
  intros H. destruct d as [|p|p]; [reflexivity| |lia].
  do 4 (destruct p as [p|p|]; try reflexivity); lia.
Qed.

Lemma hex_digit_not_x d : 0 <= d < 16 -> Ascii.eqb (hex_digit d) "x" = false.
Proof.
  intros H. destruct (Ascii.eqb_spec (hex_digit d) "x") as [E|]; [|done].
  pose proof (upper_digit_value d H) as Hd. by rewrite E in Hd.
Qed.

Lemma fmt_cons v : fmt v = String "0" (String "x" (hex4 (v / 65536) +:+ String "_" (hex4 v))).
Proof. reflexivity. Qed.

(** The last digit of a quotient, and the rest. *)
Lemma div_step v b c : 0 < b -> c = b * 16 -> v / b = 16 * (v / c) + v / b mod 16.
Proof. intros H ->. rewrite <- Z.div_div by lia. apply Z.div_mod. lia. Qed.

Lemma parse_fmt v : 0 <= v < 2 ^ 32 -> parse_addr (fmt v) = Some v.
Proof.
  intros H.
  change (parse_addr (fmt v)) with (hex_value (hex4 (v / 65536) +:+ hex4 v) 0).
  unfold hex4. rewrite !append_cons, append_nil_l. cbn [hex_value].
  repeat (rewrite upper_digit_value by (apply Z.mod_pos_bound; lia)).
  f_equal. rewrite !Z.div_div by lia. change (65536 * 16) with 1048576.
  change (65536 * 256) with 16777216. change (65536 * 4096) with 268435456.
  pose proof (Z.div_mod v 16). pose proof (Z.div_small v 4294967296).
  pose proof (div_step v 16 256 eq_refl eq_refl).
  pose proof (div_step v 256 4096 eq_refl eq_refl).
  pose proof (div_step v 4096 65536 eq_refl eq_refl).
  pose proof (div_step v 65536 1048576 eq_refl eq_refl).
  pose proof (div_step v 1048576 16777216 eq_refl eq_refl).
  pose proof (div_step v 16777216 268435456 eq_refl eq_refl).
  pose proof (div_step v 268435456 4294967296 eq_refl eq_refl).
  lia.
Qed.

Lemma fmt_inj v w : 0 <= v < 2 ^ 32 -> 0 <= w < 2 ^ 32 -> fmt v = fmt w -> v = w.
Proof. intros Hv Hw E. apply (f_equal parse_addr) in E. rewrite !parse_fmt in E by done. congruence. Qed.

Lemma fmt_length v : String.length (fmt v) = 11%nat.
Proof. reflexivity. Qed.

Lemma fmt_eqb v w : 0 <= v < 2 ^ 32 -> 0 <= w < 2 ^ 32 -> String.eqb (fmt v) (fmt w) = (v =? w).
Proof.
  intros Hv Hw. destruct (String.eqb_spec (fmt v) (fmt w)) as [E|E], (Z.eqb_spec v w) as [E'|E'];
    try done.
  - by apply fmt_inj in E.
  - by subst.
Qed.

Lemma no_x_app s t : no_x (s +:+ t) = no_x s && no_x t.
Proof.
  induction s as [|a s IH]; [done|]. rewrite append_cons. cbn [no_x]. by rewrite IH, andb_assoc.
Qed.

Lemma no_x_hex4 v : no_x (hex4 v) = true.
Proof.
  unfold hex4. cbn [no_x]. by rewrite !hex_digit_not_x by (apply Z.mod_pos_bound; lia).
Qed.

Definition head_not_x (s : string) : bool :=
  match s with String a _ => negb (Ascii.eqb a "x") | EmptyString => true end.

Lemma render_head d : Forall piece_ok d -> head_not_x (render d) = true.
Proof.
  induction 1 as [|[s|v] d Hp Hd IH]; [done| |reflexivity].
  cbn [render render_piece]. destruct s as [|a s]; [exact IH|]. rewrite append_cons.
  cbn [piece_ok no_x] in Hp. by apply andb_true_iff in Hp as [Ha _].
Qed.

(** An address starts only before an [x]. *)
Lemma fmt_not_before_x v a s : head_not_x s = true -> starts_with (fmt v) (String a s) = false.
Proof.
  intros H. rewrite fmt_cons. cbn [starts_with]. destruct (Ascii.eqb _ _); [|done].
  destruct s as [|b s]; [done|]. cbn [head_not_x] in H. rewrite Ascii.eqb_sym.
  by destruct (Ascii.eqb b "x").
Qed.

Lemma find_none_not_x t a s :
  head_not_x s = true -> List.find (fun e => starts_with e.1 (String a s)) (fmt_table t) = None.
Proof.
  intros H. induction t as [|e t IH]; [done|].
  cbn [fmt_table fmap list_fmap List.find fst]. by rewrite fmt_not_before_x.
Qed.

(** The scan copies characters that are not [x]. *)
Lemma sub_copies t a s rest :
  no_x s = true -> head_not_x rest = true ->
  re_sub (fmt_table t) (String a s +:+ rest) = String a s +:+ re_sub (fmt_table t) rest.
Proof.
  unfold re_sub. revert a. induction s as [|b s IH]; intros a Hs Hr; rewrite !append_cons;
    cbn [sub_from].
  - by rewrite find_none_not_x.
  - cbn [no_x] in Hs. apply andb_true_iff in Hs as [Hb Hs].
    rewrite find_none_not_x by done. specialize (IH b Hs Hr). rewrite !append_cons in IH.
    cbn [sub_from] in IH. by rewrite <- IH.
Qed.

(** At an address the pass finds the entry of the address. *)
Lemma find_fmt t v rest :
  0 <= v < 2 ^ 32 -> Forall in_range t ->
  List.find (fun e => starts_with e.1 (fmt v +:+ rest)) (fmt_table t)
  = (fun e => (fmt e.1, fmt e.2)) <$> List.find (fun e => e.1 =? v) t.
Proof.
  intros Hv Ht. induction Ht as [|e t [He _] Ht IH]; [done|].
  cbn [fmt_table fmap list_fmap List.find fst].
  rewrite starts_with_same_length by done. rewrite fmt_eqb by done.
  by destruct (e.1 =? v).
Qed.

Lemma sub_address t v rest :
  0 <= v < 2 ^ 32 -> Forall in_range t -> head_not_x rest = true ->
  re_sub (fmt_table t) (fmt v +:+ rest) = fmt (move t v) +:+ re_sub (fmt_table t) rest.
Proof.
  intros Hv Ht Hr. pose proof (find_fmt t v rest Hv Ht) as Hf. unfold move.
  rewrite fmt_cons, !append_cons in Hf |- *. unfold re_sub. cbn [sub_from]. rewrite Hf.
  destruct (List.find (fun e => e.1 =? v) t) as [e|]; cbn [fmap option_fmap option_map fst snd].
  - reflexivity.
  - rewrite fmt_cons, !append_cons. f_equal. rewrite <- !append_cons. apply sub_copies; [|done].
    rewrite no_x_app. cbn [no_x]. by rewrite !no_x_hex4.
Qed.

(** One pass moves every address of a text once. *)
Lemma re_sub_render t d :
  Forall in_range t -> Forall piece_ok d ->
  re_sub (fmt_table t) (render d) = render (on_addr (move t) <$> d).
Proof.
  intros Ht. induction 1 as [|[s|v] d Hp Hd IH]; [done| |].
  - cbn [render render_piece fmap list_fmap on_addr]. rewrite <- IH.
    destruct s as [|a s]; [done|]. cbn [piece_ok no_x] in Hp. apply andb_true_iff in Hp as [_ Hp].
    apply sub_copies; [done|by apply render_head].
  - cbn [render render_piece fmap list_fmap on_addr]. rewrite <- IH.
    apply sub_address; [done..|by apply render_head].
Qed.

Lemma move_range t v : Forall in_range t -> 0 <= v < 2 ^ 32 -> 0 <= move t v < 2 ^ 32.
Proof.
  intros Ht Hv. unfold move. induction Ht as [|e t [_ He] Ht IH]; [done|].
  cbn [List.find]. by destruct (e.1 =? v).
Qed.

Lemma pieces_ok f d :
  (forall v, 0 <= v < 2 ^ 32 -> 0 <= f v < 2 ^ 32) ->
  Forall piece_ok d -> Forall piece_ok (on_addr f <$> d).
Proof. intros Hf H. apply Forall_fmap. eapply Forall_impl; [exact H|]. intros [s|v]; [done|apply Hf]. Qed.

Lemma on_addr_compose f g (d : list piece) : on_addr g <$> (on_addr f <$> d) = on_addr (fun v => g (f v)) <$> d.
Proof. rewrite <- list_fmap_compose. apply list_fmap_ext. by intros ? [s|v] _. Qed.

Lemma on_addr_ext f g (d : list piece) : (forall v, f v = g v) -> on_addr f <$> d = on_addr g <$> d.
Proof. intros H. apply list_fmap_ext. intros ? [s|v] _; [done|]. cbn. by rewrite H. Qed.

Lemma replace_guard old new s :
  (if contains old s then replace old new s else s) = replace old new s.
Proof. destruct (contains old s) eqn:E; [done|]. by rewrite replace_absent. Qed.

(** Replacements one after the other push each address through the table. *)
Lemma replacements_render t d :
  Forall in_range t -> Forall piece_ok d ->
  V1.apply_replacements (render d) (fmt_table t) = render (on_addr (chain t) <$> d).
Proof.
  intros Ht. revert d. unfold V1.apply_replacements.
  induction Ht as [|e t He Ht IH]; intros d Hd; cbn [fmt_table fmap list_fmap foldl fst snd].
  - f_equal. rewrite <- (list_fmap_id d) at 1. apply list_fmap_ext. by intros ? [s|v] _.
  - rewrite replace_guard. unfold replace.
    rewrite (re_sub_render [e]) by (done || by constructor).
    assert (forall v, move [e] v = if e.1 =? v then e.2 else v) as Hm
      by (intros v; unfold move; cbn; by destruct (e.1 =? v)).
    fold (fmt_table t). rewrite IH.
    + rewrite on_addr_compose. f_equal. apply on_addr_ext. intros v. by rewrite Hm.
    + apply pieces_ok; [|done]. intros v Hv. apply move_range; [by constructor|done].
Qed.

End TextFacts.

(** ** The workbook as an address map *)

Definition book (r : result state) : workbook := match r with Ok st => st.1 | Raise _ => [] end.

Section Book.
#[local] Open Scope Z_scope.

Record region := Region { name : string; base : Z; end_ : Z; size : string }.

#[export] Instance region_eq_dec : EqDecision region.
Proof. solve_decision. Defined.

Definition region_at (ws : sheet) (r : nat) : option region :=
  match parse_addr (row_text ws r 1), parse_addr (row_text ws r 2) with
  | Some b, Some e => Some (Region (row_text ws r 0) b e (row_text ws r 3))
  | _, _ => None
  end.

(** The rows of a sheet that state a range of addresses. *)
Definition regions (t : string) (wb : workbook) : list region :=
  match sheet_named t wb with Ok ws => omap (region_at ws) (rows ws) | Raise _ => [] end.

Definition map_regions : workbook -> list region := regions "SoC_Address_Map".

(** The sizes that are stated exactly. *)
Definition stated_size (s : string) : option Z :=
  snd <$> List.find (fun e => String.eqb e.1 s)
    [("4 KB", 0x1000); ("32 KB", 0x8000); ("64 KB", 0x10000); ("128 KB", 0x20000)].

Definition region_ok (g : region) : bool :=
  (base g <=? end_ g)
  && match stated_size (size g) with Some n => end_ g + 1 - base g =? n | None => true end.

Definition disjoint_regions (g h : region) : bool := (end_ g <? base h) || (end_ h <? base g).
Definition same_range (g h : region) : bool := (base g =? base h) && (end_ g =? end_ h).

(** The last rows of the map do not allot a range: they repeat those of the
    processor, which nothing else may use. *)
Definition repeats (g : region) : bool := starts_with "RESERVED" (name g).

Fixpoint pairwise {A} (f : A -> A -> bool) (l : list A) : bool :=
  match l with [] => true | x :: l => forallb (f x) l && pairwise f l end.

Definition allotted (wb : workbook) : list region :=
  List.filter (fun g => negb (repeats g)) (map_regions wb).

(** The ranges have the sizes that they state, any two allotted ones are
    disjoint, and a repeated one is the range of one allotted region. *)
Definition map_ok (wb : workbook) : bool :=
  forallb region_ok (map_regions wb) && pairwise disjoint_regions (allotted wb)
  && forallb (fun g => length (List.filter (same_range g) (allotted wb)) =? 1)%nat
       (List.filter repeats (map_regions wb)).

(** The text of a cell of a sheet. *)
Definition text_at (t : string) (wb : workbook) (r i : nat) : string :=
  match sheet_named t wb with Ok ws => row_text ws r i | Raise _ => EmptyString end.

(** The move: whatever lies between the end of the data memory and the start
    of the expansion bank goes up by 64 KB.  The data memory grows by it, and the
    expansion bank, whose end does not move, shrinks by it. *)
Definition relocate (v : Z) : Z :=
  if (0x1FFFF <=? v) && (v <=? 0x110000) then v + 0x10000 else v.

Definition relocate_region (g : region) : region :=
  Region (name g) (relocate (base g)) (relocate (end_ g))
    (if String.eqb (name g) "Data Memory" then "128 KB" else size g).

(** What one pass over the addresses of the table makes of an address. *)
Definition table_shift (v : Z) : Z := if bool_decide (v ∈ moved) then v + 0x10000 else v.

(** The registers: base of the labelled block, offset and absolute address. *)
Fixpoint after (p s : string) : option string :=
  if starts_with p s then Some (drop_str (String.length p) s)
  else match s with EmptyString => None | String _ s => after p s end.

Definition label_base (s : string) : option Z :=
  after "(base " s ≫= fun s => parse_addr (String.substring 0 11 s).

Definition offset_value (s : string) : option Z :=
  if starts_with "0x" s then hex_value (drop_str 2 s) 0 else None.

Fixpoint registers_of (ws : sheet) (rs : list nat) (block : Z) : list (Z * Z * Z) :=
  match rs with
  | [] => []
  | r :: rs =>
      let block := default block (label_base (row_text ws r 0)) in
      match offset_value (row_text ws r 2), parse_addr (row_text ws r 3) with
      | Some o, Some a => (block, o, a) :: registers_of ws rs block
      | _, _ => registers_of ws rs block
      end
  end.

Definition registers (wb : workbook) : list (Z * Z * Z) :=
  match sheet_named "Register_Map" wb with
  | Ok ws => registers_of ws (rows ws) 0
  | Raise _ => []
  end.

Definition relocate_register (r : Z * Z * Z) : Z * Z * Z :=
  let '(block, o, a) := r in (relocate block, o, relocate a).

(** The addresses that the address map and the register map of a workbook state. *)
Definition stated_addresses (wb : workbook) : list Z :=
  (base <$> map_regions wb) ++ (end_ <$> map_regions wb)
  ++ ((fun r => r.1.1) <$> registers wb) ++ (snd <$> registers wb).

(** The addresses of a text. *)
Definition addresses (d : list piece) : list Z :=
  omap (fun p => match p with Addr v => Some v | Chars _ => None end) d.

(** Each register is at its offset from its block, the block is the start of a
    region of the map, and the register lies in the region. *)
Definition registers_ok (wb : workbook) : bool :=
  forallb (fun '(block, o, a) =>
    (a =? block + o)
    && existsb (fun g => (base g =? block) && (a <=? end_ g)) (map_regions wb)) (registers wb).

(** The lines of the decode table, and the regions of the map that they list. *)
Definition decode_lines (wb : workbook) : list string :=
  match sheet_named "Integration_Architecture" wb with
  | Ok ws => List.filter (starts_with "  M") ((fun r => row_text ws r 0) <$> rows ws)
  | Raise _ => []
  end.

Definition decode_ok (wb : workbook) : bool :=
  let gs := take 16 (drop 3 (map_regions wb)) in
  bool_decide (length (decode_lines wb) = 16%nat)
  && forallb (fun lg => contains (fmt (base lg.2)) lg.1 && contains (fmt (end_ lg.2)) lg.1)
       (zip (decode_lines wb) gs).

End Book.

(** ** The properties *)

Section Properties.
#[local] Open Scope Z_scope.

Lemma ADDR_TABLE_shift : V2.ADDR_TABLE = fmt_table ((fun a => (a, a + 0x10000)) <$> moved).
Proof. vm_compute. reflexivity. Qed.

Lemma addr_entries_fmt : V1.addr_entries = fmt_table addr_chain.
Proof. vm_compute. reflexivity. Qed.

Lemma moved_range : Forall (fun a => 0 <= a < 2 ^ 32 /\ 0 <= a + 0x10000 < 2 ^ 32) moved.
Proof. apply (bool_decide_unpack _). vm_compute. exact I. Qed.

Lemma addr_chain_range : Forall in_range addr_chain.
Proof. apply (bool_decide_unpack _). vm_compute. exact I. Qed.

Lemma move_shift l v :
  move ((fun a => (a, a + 0x10000)) <$> l) v = if bool_decide (v ∈ l) then v + 0x10000 else v.
Proof.
  unfold move. induction l as [|a l IH]; [done|]. cbn [fmap list_fmap List.find fst].
  destruct (Z.eqb_spec a v) as [->|Hne].
  - by rewrite bool_decide_true by (constructor).
  - cbn [fmap list_fmap] in IH. rewrite IH. apply (f_equal (fun b : bool => if b then _ else _)).
    apply bool_decide_ext. rewrite elem_of_cons.
    split; [by right|intros [->|H]; done].
Qed.

(** The single pass of [update_addresses_v2.py].  In a text made of 32-bit
    addresses and of characters other than [x], every address of the table is
    moved up by 64 KB, exactly once, and nothing else changes. *)
Lemma table_pass :
  forall d, Forall piece_ok d -> V2.replace_addrs (render d) = render (on_addr table_shift <$> d).
Proof.
  intros d Hd. unfold V2.replace_addrs. rewrite ADDR_TABLE_shift, re_sub_render; [| |done].
  - f_equal. apply on_addr_ext. intros v. apply move_shift.
  - apply Forall_fmap. exact moved_range.
Qed.

Lemma chain_bases i :
  In i (seqZ 4 14) ->
  chain addr_chain (i * 0x10000) = 0x120000
  /\ (i <= 0x10 ->
      chain addr_chain (i * 0x10000 + 0xFFF) = if i <=? 10 then 0xA0FFF else 0x110FFF).
Proof. repeat (intros [<-|H]; [split; [by vm_compute|by intros; vm_compute]|revert H]). done. Qed.

Lemma apply_replacements_app s t u :
  V1.apply_replacements s (t ++ u) = V1.apply_replacements (V1.apply_replacements s t) u.
Proof. apply foldl_app. Qed.

Lemma addr_entries_render d :
  Forall piece_ok d ->
  V1.apply_replacements (render d) V1.addr_entries = render (on_addr (chain addr_chain) <$> d).
Proof. intros Hd. rewrite addr_entries_fmt. by apply replacements_render; [exact addr_chain_range|]. Qed.

(** The replacements of [update_addresses.py], one after the other.  Each
    address of a text is pushed through the entries from the first to the last
    before the entries with words apply; the result of an entry is an old address
    of the next one, so that the fourteen bases from the timer to the expansion
    bank all become 0x0012_0000, and the ends of the peripherals with 4 KB become
    two addresses. *)
Theorem apply_replacements_cascade :
  forall d, Forall piece_ok d ->
    V1.apply_replacements (render d) V1.ADDR_MAP
    = V1.apply_replacements (render (on_addr (chain addr_chain) <$> d)) V1.text_entries
    /\ forall i, 4 <= i <= 0x11 ->
         chain addr_chain (i * 0x10000) = 0x120000
         /\ (i <= 0x10 ->
             chain addr_chain (i * 0x10000 + 0xFFF) = if i <=? 10 then 0xA0FFF else 0x110FFF).
Proof.
  intros d Hd. split.
  - unfold V1.ADDR_MAP. by rewrite apply_replacements_app, (addr_entries_render d Hd).
  - intros i Hi. apply chain_bases, list_elem_of_In, elem_of_seqZ. lia.
Qed.

Lemma apply_replacements_cascade_witness :
  V1.apply_replacements (render [Chars "GPIO at "; Addr 0x50000; Chars "–"; Addr 0x50FFF]) V1.ADDR_MAP
  = "GPIO at 0x0012_0000–0x000A_0FFF".
Proof.
  destruct (apply_replacements_cascade [Chars "GPIO at "; Addr 0x50000; Chars "–"; Addr 0x50FFF])
    as [-> _]; [apply (bool_decide_unpack _); vm_compute; exact I|]. vm_compute. reflexivity.
Defined.

Lemma stated_relocate : Forall (fun v => table_shift v = relocate v) (stated_addresses main).
Proof. apply (bool_decide_unpack _). vm_compute. exact I. Qed.

Lemma on_addr_ext_in f g (d : list piece) :
  (forall v, v ∈ addresses d -> f v = g v) -> on_addr f <$> d = on_addr g <$> d.
Proof.
  induction d as [|[s|v] d IH]; intros H; cbn; [done| |].
  - f_equal. by apply IH.
  - rewrite H by (cbn; constructor). f_equal. apply IH. intros w Hw. apply H. cbn. by right.
Qed.

Lemma text_relocated d :
  Forall piece_ok d -> addresses d ⊆ stated_addresses main ->
  V2.replace_addrs (render d) = render (on_addr relocate <$> d).
Proof.
  intros Hd Hin. rewrite table_pass by done. f_equal. apply on_addr_ext_in. intros v Hv.
  by apply (proj1 (Forall_forall _ _) stated_relocate), Hin.
Qed.

(** C21: what the two scripts make of the address map.  In the generated map each
    region ends after its base and has the size that it states, and any two
    regions that it allots are disjoint; the three ranges of the processor are
    repeated once at the end.  [update_addresses_v2.py] moves exactly the
    addresses between the end of the data memory and the start of the expansion
    bank, 0x0001_FFFF to 0x0011_0000, up by 64 KB: in the map, where all the rest
    of the rows stays as it is but for the 128 KB of the data memory, in the
    register map, and, once, in every text whose addresses are among those of the
    two maps.  The new map is well formed in the same sense.  After
    [update_addresses.py] fourteen regions, which had different bases, start at
    0x0012_0000, and the map is not well formed any more. *)
Theorem address_map_moves :
  map_ok main = true
  /\ is_ok V2.script = true
  /\ map_regions (book V2.script) = relocate_region <$> map_regions main
  /\ registers (book V2.script) = relocate_register <$> registers main
  /\ (forall d, Forall piece_ok d -> addresses d ⊆ stated_addresses main ->
        V2.replace_addrs (render d) = render (on_addr relocate <$> d))
  /\ map_ok (book V2.script) = true
  /\ is_ok (V1.patch_workbook main) = true
  /\ map_ok (book (V1.patch_workbook main)) = false
  /\ length (List.filter (fun g => base g =? 0x120000) (map_regions (book (V1.patch_workbook main))))
     = 14%nat.
Proof.
  split; [vm_compute; reflexivity|]. split; [vm_compute; reflexivity|].
  split; [vm_compute; reflexivity|]. split; [vm_compute; reflexivity|].
  split; [exact text_relocated|]. split; [vm_compute; reflexivity|].
  split; [vm_compute; reflexivity|]. split; vm_compute; reflexivity.
Qed.

Lemma address_map_moves_witness :
  V2.replace_addrs (render [Chars "Timer "; Addr 0x40000; Chars "–"; Addr 0x40FFF; Chars " below "; Addr 0x1FFFFF])
  = "Timer 0x0005_0000–0x0005_0FFF below 0x001F_FFFF".
Proof.
  destruct address_map_moves as (_ & _ & _ & _ & H & _).
  rewrite H by (apply (bool_decide_unpack _); vm_compute; exact I). vm_compute. reflexivity.
Defined.

(** The sheets of the workbook agree with each other, as it is generated and
    after [update_addresses_v2.py]: each register is at its offset from the start
    of a region of the map and inside it, and the sixteen lines of the decode
    table give the regions of the map in order.  The ranges of the reserved space
    have the sizes that they state only before the update: the first one grows
    and keeps its size of 128 KB, and the note of the timer keeps the old
    addresses. *)
Theorem phase1_sheets_agree :
  let new := book V2.script in
  let reserved := regions "Reserved_Address_Space" in
  registers_ok main = true /\ length (registers main) = 42%nat /\ decode_ok main = true
  /\ registers_ok new = true /\ length (registers new) = 42%nat /\ decode_ok new = true
  /\ forallb region_ok (reserved main) = true
  /\ head (reserved new)
     = Some (Region ("Gap: 0x0000_0000–0x0002_FFFF interior" +:+ newline
                     +:+ "(between Instr Mem and Data Mem)") 0 0x2FFFF "128 KB")
  /\ text_at "Reserved_Address_Space" new 6 1 = "0x0005_0000"
  /\ contains "0x0004_1000–0x0004_FFFF" (text_at "Reserved_Address_Space" new 6 4) = true.
Proof.
  cbv zeta. repeat (split; [vm_compute; reflexivity|]). vm_compute. reflexivity.
Qed.

End Properties.
