(* ===== verification/Generators.v ===== *)
(** * Generators of hardware text

    [Wrap]: scripts/axi_interconnect_wrap.py of Honours-Project-Packet-Buffering,
    which writes a Verilog wrapper with separate ports around an interconnect with
    concatenated ones.  [Uvm]: uvm_components/uvm_full_tb_generator.py, which
    writes the interface and the transaction class of a bench from a list of
    signals.  The template of [Wrap] is rendered by a third-party engine; its
    loops and conditions are written here as the functions that they denote. *)

From S2P Require Import Prelude PyString.
From stdpp Require Import base list strings.
From Stdlib Require Import Ascii ZArith Lia.

#[local] Open Scope string_scope.
#[local] Open Scope list_scope.
#[local] Open Scope nat_scope.

(** ** Decimal numbers *)

Definition dec_digit (d : nat) : ascii := ascii_of_nat (48 + d).

Fixpoint dec_digits (fuel n : nat) : string :=
  match fuel with
  | O => EmptyString
  | S fuel =>
      (if n <? 10 then EmptyString else dec_digits fuel (n / 10))
      +:+ String (dec_digit (n mod 10)) EmptyString
  end.

(** [str(n)]; [S n] is more than the number of digits. *)
Definition decimal (n : nat) : string := dec_digits (S n) n.

(** ['%02d' % n] *)
Definition pad2 (n : nat) : string := if n <? 10 then "0" +:+ decimal n else decimal n.

(** The quotation mark. *)
Definition dquote : string := String (ascii_of_nat 34) EmptyString.

Module Wrap.

(** ** [generate]: the numbers of ports and the names *)

Inductive ports_arg := PortsInt (n : nat) | PortsList (ns : list nat).

(** The numbers of slave and of master ports; [m, n = ports] unpacks two. *)
Definition port_counts (p : ports_arg) : result (nat * nat) :=
  match p with
  | PortsInt n => Ok (n, n)
  | PortsList [n] => Ok (n, n)
  | PortsList [m; n] => Ok (m, n)
  | PortsList _ => Raise ValueError
  end.

Definition default_name (m n : nat) : string :=
  "axi_interconnect_wrap_" +:+ decimal m +:+ "x" +:+ decimal n.

(** ** The template *)

Inductive direction := Input | Output.

#[export] Instance direction_eq_dec : EqDecision direction.
Proof. solve_decision. Defined.

Record signal := Signal { dir : direction; width : string; sig : string }.

Definition inp (w s : string) : signal := Signal Input w s.
Definition outp (w s : string) : signal := Signal Output w s.

Definition slave_signals : list signal :=
  [inp "[ID_WIDTH-1:0]" "awid"; inp "[ADDR_WIDTH-1:0]" "awaddr"; inp "[7:0]" "awlen";
   inp "[2:0]" "awsize"; inp "[1:0]" "awburst"; inp EmptyString "awlock"; inp "[3:0]" "awcache";
   inp "[2:0]" "awprot"; inp "[3:0]" "awqos"; inp "[AWUSER_WIDTH-1:0]" "awuser";
   inp EmptyString "awvalid"; outp EmptyString "awready"; inp "[DATA_WIDTH-1:0]" "wdata";
   inp "[STRB_WIDTH-1:0]" "wstrb"; inp EmptyString "wlast"; inp "[WUSER_WIDTH-1:0]" "wuser";
   inp EmptyString "wvalid"; outp EmptyString "wready"; outp "[ID_WIDTH-1:0]" "bid";
   outp "[1:0]" "bresp"; outp "[BUSER_WIDTH-1:0]" "buser"; outp EmptyString "bvalid";
   inp EmptyString "bready"; inp "[ID_WIDTH-1:0]" "arid"; inp "[ADDR_WIDTH-1:0]" "araddr";
   inp "[7:0]" "arlen"; inp "[2:0]" "arsize"; inp "[1:0]" "arburst"; inp EmptyString "arlock";
   inp "[3:0]" "arcache"; inp "[2:0]" "arprot"; inp "[3:0]" "arqos";
   inp "[ARUSER_WIDTH-1:0]" "aruser"; inp EmptyString "arvalid"; outp EmptyString "arready";
   outp "[ID_WIDTH-1:0]" "rid"; outp "[DATA_WIDTH-1:0]" "rdata"; outp "[1:0]" "rresp";
   outp EmptyString "rlast"; outp "[RUSER_WIDTH-1:0]" "ruser"; outp EmptyString "rvalid";
   inp EmptyString "rready"].

Definition master_signals : list signal :=
  [outp "[ID_WIDTH-1:0]" "awid"; outp "[ADDR_WIDTH-1:0]" "awaddr"; outp "[7:0]" "awlen";
   outp "[2:0]" "awsize"; outp "[1:0]" "awburst"; outp EmptyString "awlock";
   outp "[3:0]" "awcache"; outp "[2:0]" "awprot"; outp "[3:0]" "awqos"; outp "[3:0]" "awregion";
   outp "[AWUSER_WIDTH-1:0]" "awuser"; outp EmptyString "awvalid"; inp EmptyString "awready";
   outp "[DATA_WIDTH-1:0]" "wdata"; outp "[STRB_WIDTH-1:0]" "wstrb"; outp EmptyString "wlast";
   outp "[WUSER_WIDTH-1:0]" "wuser"; outp EmptyString "wvalid"; inp EmptyString "wready";
   inp "[ID_WIDTH-1:0]" "bid"; inp "[1:0]" "bresp"; inp "[BUSER_WIDTH-1:0]" "buser";
   inp EmptyString "bvalid"; outp EmptyString "bready"; outp "[ID_WIDTH-1:0]" "arid";
   outp "[ADDR_WIDTH-1:0]" "araddr"; outp "[7:0]" "arlen"; outp "[2:0]" "arsize";
   outp "[1:0]" "arburst"; outp EmptyString "arlock"; outp "[3:0]" "arcache";
   outp "[2:0]" "arprot"; outp "[3:0]" "arqos"; outp "[3:0]" "arregion";
   outp "[ARUSER_WIDTH-1:0]" "aruser"; outp EmptyString "arvalid"; inp EmptyString "arready";
   inp "[ID_WIDTH-1:0]" "rid"; inp "[DATA_WIDTH-1:0]" "rdata"; inp "[1:0]" "rresp";
   inp EmptyString "rlast"; inp "[RUSER_WIDTH-1:0]" "ruser"; inp EmptyString "rvalid";
   outp EmptyString "rready"].

(** The port of the signal [s] of the [p]-th slave ([side] "s") or master ("m"). *)
Definition port_name (side : string) (p : nat) (s : string) : string :=
  side +:+ pad2 p +:+ "_axi_" +:+ s.

Definition port_line (side : string) (p : nat) (comma : bool) (s : signal) : string :=
  "    " +:+ (match dir s with Input => "input  wire " | Output => "output wire " end)
  +:+ ljust 20 (width s) +:+ port_name side p (sig s) +:+ (if comma then "," else EmptyString).

(** [loop.last] *)
Definition last_of (n p : nat) : bool := Nat.eqb (S p) n.

Definition slave_ports (m : nat) : list string :=
  mjoin ((fun p => (port_line "s" p true <$> slave_signals) ++ [EmptyString]) <$> seq 0 m).

(** The last line of a master has a comma unless the master is the last one; an
    empty line separates two masters. *)
Definition master_ports (n : nat) : list string :=
  mjoin ((fun p =>
    (port_line "m" p true <$> removelast master_signals)
    ++ [port_line "m" p (negb (last_of n p)) (List.last master_signals (inp EmptyString EmptyString))]
    ++ (if last_of n p then [] else [EmptyString])) <$> seq 0 n).

Definition common_parameters : list string :=
  ["    parameter DATA_WIDTH = 32,";
   "    parameter ADDR_WIDTH = 32,";
   "    parameter STRB_WIDTH = (DATA_WIDTH/8),";
   "    parameter ID_WIDTH = 8,";
   "    parameter AWUSER_ENABLE = 0,";
   "    parameter AWUSER_WIDTH = 1,";
   "    parameter WUSER_ENABLE = 0,";
   "    parameter WUSER_WIDTH = 1,";
   "    parameter BUSER_ENABLE = 0,";
   "    parameter BUSER_WIDTH = 1,";
   "    parameter ARUSER_ENABLE = 0,";
   "    parameter ARUSER_WIDTH = 1,";
   "    parameter RUSER_ENABLE = 0,";
   "    parameter RUSER_WIDTH = 1,";
   "    parameter FORWARD_ID = 0,";
   "    parameter M_REGIONS = 1,"].

Definition parameters (m n : nat) : list string :=
  mjoin ((fun p =>
    ["    parameter M" +:+ pad2 p +:+ "_BASE_ADDR = 0,";
     "    parameter M" +:+ pad2 p +:+ "_ADDR_WIDTH = {M_REGIONS{32'd24}},";
     "    parameter M" +:+ pad2 p +:+ "_CONNECT_READ = " +:+ decimal m +:+ "'b" +:+ repeat_str "1" m +:+ ",";
     "    parameter M" +:+ pad2 p +:+ "_CONNECT_WRITE = " +:+ decimal m +:+ "'b" +:+ repeat_str "1" m +:+ ",";
     "    parameter M" +:+ pad2 p +:+ "_SECURE = 1'b0" +:+ (if last_of n p then EmptyString else ",")])
    <$> seq 0 n).

(** [{ x_{n-1}, ..., x_0 }]: [for p in range(n-1,-1,-1)]. *)
Definition concatenation (f : nat -> string) (n : nat) : string :=
  "{ " +:+ PyString.join ", " (f <$> rev (seq 0 n)) +:+ " }".

Definition per_master (formal helper param : string) (n : nat) : string :=
  "    ." +:+ formal +:+ "(" +:+ concatenation (fun p => helper +:+ "(M" +:+ pad2 p +:+ param +:+ ")") n +:+ ")".

Definition common_overrides : list string :=
  ["    .S_COUNT(S_COUNT),";
   "    .M_COUNT(M_COUNT),";
   "    .DATA_WIDTH(DATA_WIDTH),";
   "    .ADDR_WIDTH(ADDR_WIDTH),";
   "    .STRB_WIDTH(STRB_WIDTH),";
   "    .ID_WIDTH(ID_WIDTH),";
   "    .AWUSER_ENABLE(AWUSER_ENABLE),";
   "    .AWUSER_WIDTH(AWUSER_WIDTH),";
   "    .WUSER_ENABLE(WUSER_ENABLE),";
   "    .WUSER_WIDTH(WUSER_WIDTH),";
   "    .BUSER_ENABLE(BUSER_ENABLE),";
   "    .BUSER_WIDTH(BUSER_WIDTH),";
   "    .ARUSER_ENABLE(ARUSER_ENABLE),";
   "    .ARUSER_WIDTH(ARUSER_WIDTH),";
   "    .RUSER_ENABLE(RUSER_ENABLE),";
   "    .RUSER_WIDTH(RUSER_WIDTH),";
   "    .FORWARD_ID(FORWARD_ID),";
   "    .M_REGIONS(M_REGIONS),"].

Definition overrides (n : nat) : list string :=
  common_overrides ++
  [per_master "M_BASE_ADDR" "w_a_r" "_BASE_ADDR" n +:+ ",";
   per_master "M_ADDR_WIDTH" "w_32_r" "_ADDR_WIDTH" n +:+ ",";
   per_master "M_CONNECT_READ" "w_s" "_CONNECT_READ" n +:+ ",";
   per_master "M_CONNECT_WRITE" "w_s" "_CONNECT_WRITE" n +:+ ",";
   per_master "M_SECURE" "w_1" "_SECURE" n].

(** The connections of the instance: the formal port, and the actual ports, the
    most significant first.  The template writes them out apart from the
    declarations. *)
Definition slave_formals : list string :=
  ["awid"; "awaddr"; "awlen"; "awsize"; "awburst"; "awlock"; "awcache"; "awprot";
   "awqos"; "awuser"; "awvalid"; "awready"; "wdata"; "wstrb"; "wlast"; "wuser"; "wvalid";
   "wready"; "bid"; "bresp"; "buser"; "bvalid"; "bready"; "arid"; "araddr"; "arlen";
   "arsize"; "arburst"; "arlock"; "arcache"; "arprot"; "arqos"; "aruser"; "arvalid";
   "arready"; "rid"; "rdata"; "rresp"; "rlast"; "ruser"; "rvalid"; "rready"].

Definition master_formals : list string :=
  ["awid"; "awaddr"; "awlen"; "awsize"; "awburst"; "awlock"; "awcache"; "awprot";
   "awqos"; "awregion"; "awuser"; "awvalid"; "awready"; "wdata"; "wstrb"; "wlast";
   "wuser"; "wvalid"; "wready"; "bid"; "bresp"; "buser"; "bvalid"; "bready"; "arid";
   "araddr"; "arlen"; "arsize"; "arburst"; "arlock"; "arcache"; "arprot"; "arqos";
   "arregion"; "aruser"; "arvalid"; "arready"; "rid"; "rdata"; "rresp"; "rlast"; "ruser";
   "rvalid"; "rready"].

Definition side_connections (side : string) (count : nat) (formals : list string)
  : list (string * list string) :=
  (fun s => (side +:+ "_axi_" +:+ s, (fun p => port_name side p s) <$> rev (seq 0 count)))
  <$> formals.

Definition connections (m n : nat) : list (string * list string) :=
  side_connections "s" m slave_formals ++ side_connections "m" n master_formals.

Definition connection_line (c : string * list string) : string :=
  "    ." +:+ c.1 +:+ "({ " +:+ PyString.join ", " c.2 +:+ " })".

Fixpoint comma_separated (ls : list string) : list string :=
  match ls with
  | [] => []
  | [l] => [l]
  | l :: ls => (l +:+ ",") :: comma_separated ls
  end.

Definition sizing_helpers : list string :=
  ["// parameter sizing helpers";
   "function [ADDR_WIDTH*M_REGIONS-1:0] w_a_r(input [ADDR_WIDTH*M_REGIONS-1:0] val);";
   "    w_a_r = val;";
   "endfunction";
   EmptyString;
   "function [32*M_REGIONS-1:0] w_32_r(input [32*M_REGIONS-1:0] val);";
   "    w_32_r = val;";
   "endfunction";
   EmptyString;
   "function [S_COUNT-1:0] w_s(input [S_COUNT-1:0] val);";
   "    w_s = val;";
   "endfunction";
   EmptyString;
   "function w_1(input val);";
   "    w_1 = val;";
   "endfunction";
   EmptyString].

(** [t.render], by lines; [license] is the text of the licence at the head of the
    template, a comment, with the directives after it. *)
Definition render (license : list string) (m n : nat) (name : string) : list string :=
  license
  ++ ["/*"; " * AXI4 " +:+ decimal m +:+ "x" +:+ decimal n +:+ " interconnect (wrapper)"; " */";
      "module " +:+ name +:+ " #"; "("]
  ++ common_parameters ++ parameters m n
  ++ [")"; "("; "    input  wire                     clk,"; "    input  wire                     rst,";
      EmptyString; "    /*"; "     * AXI slave interface"; "     */"]
  ++ slave_ports m
  ++ ["    /*"; "     * AXI master interface"; "     */"]
  ++ master_ports n
  ++ [");"; EmptyString; "localparam S_COUNT = " +:+ decimal m +:+ ";";
      "localparam M_COUNT = " +:+ decimal n +:+ ";"; EmptyString]
  ++ sizing_helpers
  ++ ["axi_interconnect #("] ++ overrides n ++ [")"; "axi_interconnect_inst ("; "    .clk(clk),";
      "    .rst(rst),"]
  ++ comma_separated (connection_line <$> connections m n)
  ++ [");"; EmptyString; "endmodule"; EmptyString; "`resetall"; EmptyString].

(** [generate]: the output file and its lines. *)
Definition generate (license : list string) (ports : ports_arg) (name output : option string)
  : result (string * list string) :=
  let! (m, n) := port_counts ports in
  let name := default (default_name m n) name in
  let output := default (name +:+ ".v") output in
  Ok (output, render license m n name).

End Wrap.

Module Uvm.

(** A row of the CSV file, as [csv.reader] splits it; the texts are of ASCII
    characters. *)
Record sig_row := SigRow { s_name : string; s_dir : string; s_width : Z }.

Definition is_digit (c : ascii) : bool :=
  let n := nat_of_ascii c in (48 <=? n) && (n <=? 57).

Fixpoint all_digits (s : string) : bool :=
  match s with EmptyString => true | String c s => is_digit c && all_digits s end.

(** [s.isdigit()] *)
Definition isdigit (s : string) : bool :=
  match s with EmptyString => false | _ => all_digits s end.

(** [int(s)] of a string of digits. *)
Fixpoint int_of_digits (s : string) (acc : Z) : Z :=
  match s with
  | EmptyString => acc
  | String c s => int_of_digits s (10 * acc + Z.of_nat (nat_of_ascii c - 48))%Z
  end.

(** Rows that are too short and rows without a width are skipped. *)
Definition read_row (row : list string) : option sig_row :=
  match row with
  | name :: d :: w :: _ =>
      if isdigit (strip w)
      then Some (SigRow (strip name) (lower (strip d)) (int_of_digits (strip w) 0)) else None
  | _ => None
  end.

Definition read_signals (rows : list (list string)) : list sig_row := omap read_row rows.

Definition CLK_NAMES : list string := ["clk"; "clock"].
Definition RST_NAMES : list string := ["rst"; "rst_n"; "reset"; "reset_n"].

(** [str] of an integer. *)
Definition str_int (z : Z) : string :=
  match z with Zneg p => "-" +:+ decimal (Pos.to_nat p) | _ => decimal (Z.to_nat z) end.

Definition sv_type (width : Z) : string :=
  if (width =? 1)%Z then "bit" else "bit [" +:+ str_int (width - 1) +:+ ":0]".

Definition is_clk_rst (name : string) : bool := str_in name (CLK_NAMES ++ RST_NAMES).

(** The lines of a file that the generator writes end with a newline each. *)
Definition transaction (VIP : string) (signals : list sig_row) : list string :=
  ["class " +:+ VIP +:+ "_item extends uvm_sequence_item;"; EmptyString]
  ++ ((fun s => "  " +:+ (if String.eqb (s_dir s) "input" then "rand " else EmptyString)
                +:+ sv_type (s_width s) +:+ " " +:+ s_name s +:+ ";")
      <$> List.filter (fun s => negb (is_clk_rst (s_name s))) signals)
  ++ [EmptyString; "  `uvm_object_utils(" +:+ VIP +:+ "_item)"; EmptyString;
      "  function new(string name=" +:+ dquote +:+ VIP +:+ "_item" +:+ dquote
      +:+ "); super.new(name); endfunction"; "endclass"].

Definition interface (VIP : string) (signals : list sig_row) : list string :=
  ["interface " +:+ VIP +:+ "_if;"]
  ++ ((fun s => if (s_width s =? 1)%Z then "logic " +:+ s_name s +:+ ";"
                else "logic [" +:+ str_int (s_width s - 1) +:+ ":0] " +:+ s_name s +:+ ";")
      <$> signals)
  ++ ["endinterface"].

Definition constructor : string :=
  "function new(string n,uvm_component p);super.new(n,p);endfunction".
Definition utils (VIP cls : string) : string := "`uvm_component_utils(" +:+ VIP +:+ cls +:+ ")".

Definition sequencer (VIP : string) : list string :=
  ["class " +:+ VIP +:+ "_sequencer extends uvm_sequencer #(" +:+ VIP +:+ "_item);";
   utils VIP "_sequencer"; constructor; "endclass"].

Definition driver (VIP : string) : list string :=
  ["class " +:+ VIP +:+ "_driver extends uvm_driver #(" +:+ VIP +:+ "_item);";
   "virtual " +:+ VIP +:+ "_if vif;"; utils VIP "_driver"; constructor;
   "task run_phase(uvm_phase phase); forever begin seq_item_port.get_next_item(req); "
   +:+ "@(posedge vif.clk); seq_item_port.item_done(); end endtask"; "endclass"].

Definition monitor (VIP : string) : list string :=
  ["class " +:+ VIP +:+ "_monitor extends uvm_monitor;";
   "virtual " +:+ VIP +:+ "_if vif;"; "uvm_analysis_port #(" +:+ VIP +:+ "_item) ap;";
   utils VIP "_monitor";
   "function new(string n,uvm_component p); super.new(n,p); ap=new(" +:+ dquote +:+ "ap" +:+ dquote
   +:+ ",this); endfunction"; "endclass"].

(** [x=C::type_id::create("x",this);] *)
Definition create (VIP x cls : string) : string :=
  x +:+ "=" +:+ VIP +:+ cls +:+ "::type_id::create(" +:+ dquote +:+ x +:+ dquote +:+ ",this);".

Definition agent (VIP : string) : list string :=
  ["class " +:+ VIP +:+ "_agent extends uvm_agent;";
   VIP +:+ "_driver drv; " +:+ VIP +:+ "_monitor mon; " +:+ VIP +:+ "_sequencer seqr;";
   utils VIP "_agent"; constructor;
   "function void build_phase(uvm_phase phase); " +:+ create VIP "drv" "_driver" +:+ " "
   +:+ create VIP "mon" "_monitor" +:+ " " +:+ create VIP "seqr" "_sequencer" +:+ " endfunction";
   "function void connect_phase(uvm_phase phase); drv.seq_item_port.connect(seqr.seq_item_export); endfunction";
   "endclass"].

Definition scoreboard (VIP : string) : list string :=
  ["class " +:+ VIP +:+ "_scoreboard extends uvm_scoreboard;"; utils VIP "_scoreboard"; constructor;
   "endclass"].

Definition env (VIP : string) : list string :=
  ["class " +:+ VIP +:+ "_env extends uvm_env;"; VIP +:+ "_agent agent; " +:+ VIP +:+ "_scoreboard sb;";
   utils VIP "_env"; constructor;
   "function void build_phase(uvm_phase phase); " +:+ create VIP "agent" "_agent" +:+ " "
   +:+ create VIP "sb" "_scoreboard" +:+ " endfunction"; "endclass"].

Definition test (VIP : string) : list string :=
  ["class " +:+ VIP +:+ "_test extends uvm_test;"; VIP +:+ "_env env;"; utils VIP "_test"; constructor;
   "function void build_phase(uvm_phase phase); " +:+ create VIP "env" "_env" +:+ " endfunction";
   "endclass"].

Definition include (file : string) : string := "`include " +:+ dquote +:+ file +:+ dquote.

Definition package (VIP : string) : list string :=
  ["package " +:+ VIP +:+ "_pkg;"; "import uvm_pkg::*;"; include "uvm_macros.svh"]
  ++ ((fun c => include (VIP +:+ c +:+ ".sv"))
      <$> ["_item"; "_sequencer"; "_driver"; "_monitor"; "_agent"; "_scoreboard"; "_env"; "_test"])
  ++ ["endpackage"].

Definition tb_top (VIP : string) : list string :=
  ["module tb_top;"; "import uvm_pkg::*; import " +:+ VIP +:+ "_pkg::*;"; VIP +:+ "_if vif();";
   "initial run_test(" +:+ dquote +:+ VIP +:+ "_test" +:+ dquote +:+ ");"; "endmodule"].

(** [files]: the names and the lines, in the order of the dictionary; [VIP] is
    the first argument in lower case. *)
Definition files (vip : string) (rows : list (list string)) : list (string * list string) :=
  let VIP := lower vip in
  let signals := read_signals rows in
  [(VIP +:+ "_if.sv", interface VIP signals); (VIP +:+ "_item.sv", transaction VIP signals);
   (VIP +:+ "_sequencer.sv", sequencer VIP); (VIP +:+ "_driver.sv", driver VIP);
   (VIP +:+ "_monitor.sv", monitor VIP); (VIP +:+ "_agent.sv", agent VIP);
   (VIP +:+ "_scoreboard.sv", scoreboard VIP); (VIP +:+ "_env.sv", env VIP);
   (VIP +:+ "_test.sv", test VIP); (VIP +:+ "_pkg.sv", package VIP); ("tb_top.sv", tb_top VIP)].

End Uvm.

(** ** Facts *)

(** The number that a string of digits denotes. *)
Fixpoint dec_value (s : string) (acc : nat) : nat :=
  match s with
  | EmptyString => acc
  | String c s => dec_value s (10 * acc + (nat_of_ascii c - 48))
  end.

Lemma dec_value_app s t acc : dec_value (s +:+ t) acc = dec_value t (dec_value s acc).
Proof. revert acc. induction s as [|c s IH]; intros acc; [done|]. apply IH. Qed.

Lemma dec_digit_value d : d < 10 -> nat_of_ascii (dec_digit d) - 48 = d.
Proof. intros H. do 10 (destruct d as [|d]; [reflexivity|]). lia. Qed.

Lemma dec_digits_value fuel n : n < fuel -> dec_value (dec_digits fuel n) 0 = n.
Proof.
  revert n. induction fuel as [|fuel IH]; intros n Hn; [lia|]. cbn [dec_digits].
  pose proof (Nat.mod_upper_bound n 10 ltac:(lia)) as Hm.
  rewrite dec_value_app. cbn [dec_value]. rewrite dec_digit_value by done.
  pose proof (Nat.div_mod_eq n 10) as E. destruct (Nat.ltb_spec n 10).
  - cbn [dec_value]. rewrite Nat.mod_small by done. lia.
  - rewrite IH; [lia|]. apply Nat.Div0.div_lt_upper_bound. lia.
Qed.

Lemma pad2_value n : dec_value (pad2 n) 0 = n.
Proof.
  unfold pad2, decimal. destruct (n <? 10); [rewrite dec_value_app|]; apply dec_digits_value; lia.
Qed.

Lemma pad2_inj n k : pad2 n = pad2 k -> n = k.
Proof. intros E. apply (f_equal (fun s => dec_value s 0)) in E. by rewrite !pad2_value in E. Qed.

(** No character of [s] is [c]. *)
Fixpoint free_of (c : ascii) (s : string) : bool :=
  match s with EmptyString => true | String a s => negb (Ascii.eqb a c) && free_of c s end.

Lemma free_of_app c s t : free_of c (s +:+ t) = free_of c s && free_of c t.
Proof.
  induction s as [|a s IH]; [done|]. rewrite append_cons. cbn [free_of]. by rewrite IH, andb_assoc.
Qed.

Lemma cut_app c s t : free_of c s = true -> cut c (s +:+ String c t) = Some (s, t).
Proof.
  induction s as [|a s IH]; intros H.
  - rewrite append_nil_l. cbn [cut]. by rewrite Ascii.eqb_refl.
  - rewrite append_cons. cbn [cut]. cbn [free_of] in H. apply andb_true_iff in H as [Ha Hs].
    rewrite IH by done. by destruct (Ascii.eqb a c).
Qed.

Lemma dec_digits_free fuel n : free_of "_" (dec_digits fuel n) = true.
Proof.
  revert n. induction fuel as [|fuel IH]; intros n; [done|]. cbn [dec_digits].
  rewrite free_of_app. apply andb_true_iff. split; [by destruct (n <? 10)|].
  pose proof (Nat.mod_upper_bound n 10 ltac:(lia)) as H.
  set (d := n mod 10) in *. clearbody d. do 10 (destruct d as [|d]; [reflexivity|]). lia.
Qed.

Lemma pad2_free n : free_of "_" (pad2 n) = true.
Proof. unfold pad2, decimal. destruct (n <? 10); [rewrite free_of_app|]; apply dec_digits_free. Qed.

Lemma append_inj_l s t u : s +:+ t = s +:+ u -> t = u.
Proof. induction s as [|a s IH]; intros E; [done|]. apply IH. by injection E. Qed.

Section UvmFacts.
Import Uvm.

Lemma string_length_app s t : String.length (s +:+ t) = String.length s + String.length t.
Proof. induction s as [|a s IH]; [done|]. exact (f_equal S IH). Qed.

Lemma append_inj_r s t u : s +:+ u = t +:+ u -> s = t.
Proof.
  revert t. induction s as [|a s IH]; intros [|b t] E; try done.
  - apply (f_equal String.length) in E. rewrite append_cons, append_nil_l in E.
    cbn [String.length] in E. rewrite string_length_app in E. lia.
  - apply (f_equal String.length) in E. rewrite append_cons, append_nil_l in E.
    cbn [String.length] in E. rewrite string_length_app in E. lia.
  - rewrite !append_cons in E. injection E as -> E. f_equal. by apply IH.
Qed.

(** The driver waits for [vif.clk]: the interface declares that signal exactly
    when a row of the file names it, with width 1.  The other name that the
    generator knows for a clock, and the interface of a block whose clock is not
    in the file, give a driver that refers to a signal that is not declared. *)
Lemma uvm_clock_declared VIP rows :
  "logic clk;" ∈ interface VIP (read_signals rows)
  <-> exists s, s ∈ read_signals rows /\ s_name s = "clk" /\ s_width s = 1%Z.
Proof.
  unfold interface. rewrite !elem_of_app, !list_elem_of_singleton, list_elem_of_fmap. split.
  - intros [H|[(s & E & Hs)|H]]; [done| |done]. exists s. split; [done|].
    destruct (Z.eqb_spec (s_width s) 1) as [Hw|Hw]; [|done].
    split; [|done]. change "logic clk;" with ("logic " +:+ ("clk" +:+ ";")) in E.
    apply append_inj_l, append_inj_r in E. done.
  - intros (s & Hs & Hn & Hw). right. left. exists s. split; [|done]. by rewrite Hw, Hn.
Qed.

(** The checked-in list of the GPIO block has no clock. *)
Example gpio_has_no_clock :
  let rows := [["gpio_i"; "input"; "32"]; ["gpio_o"; "output"; "32"]; ["gpio_oe"; "output"; "32"]] in
  interface "gpio" (read_signals rows)
  = ["interface gpio_if;"; "logic [31:0] gpio_i;"; "logic [31:0] gpio_o;"; "logic [31:0] gpio_oe;";
     "endinterface"].
Proof. vm_compute. reflexivity. Qed.

(** The package includes a generated file for each class, a class after those it
    uses, and the names of the files are different. *)
Lemma uvm_package_files vip rows :
  let VIP := lower vip in
  package VIP
  = ["package " +:+ VIP +:+ "_pkg;"; "import uvm_pkg::*;"; include "uvm_macros.svh"]
    ++ (include <$> take 8 (drop 1 (fst <$> files vip rows))) ++ ["endpackage"].
Proof. reflexivity. Qed.

End UvmFacts.
