(* ===== verification/WrapText.v ===== *)
(** * Reading the generated wrapper

    The text that [Wrap.generate] of Generators.v writes, read again: a reader of
    the module takes the declared ports and the connections of the instance from
    the lines, whatever wrote them.  [wrap_ports_connected] compares what it finds
    with the ports of the interconnect itself, axi_interconnect.v of
    Honours-Project-Packet-Buffering/rtl/interconnect. *)

From S2P Require Import Prelude PyString Generators.
From stdpp Require Import base list strings.
From Stdlib Require Import Ascii ZArith Lia.

#[local] Open Scope string_scope.
#[local] Open Scope list_scope.
#[local] Open Scope nat_scope.

Import Wrap.

(** ** The ports of the interconnect

    Direction, width of the field of one port, and signal. *)

Abbreviation bus := (direction * string * string)%type.

Definition slave_buses : list bus :=
  [(Input, "ID_WIDTH", "awid"); (Input, "ADDR_WIDTH", "awaddr"); (Input, "8", "awlen");
   (Input, "3", "awsize"); (Input, "2", "awburst"); (Input, "1", "awlock");
   (Input, "4", "awcache"); (Input, "3", "awprot"); (Input, "4", "awqos");
   (Input, "AWUSER_WIDTH", "awuser"); (Input, "1", "awvalid"); (Output, "1", "awready");
   (Input, "DATA_WIDTH", "wdata"); (Input, "STRB_WIDTH", "wstrb"); (Input, "1", "wlast");
   (Input, "WUSER_WIDTH", "wuser"); (Input, "1", "wvalid"); (Output, "1", "wready");
   (Output, "ID_WIDTH", "bid"); (Output, "2", "bresp"); (Output, "BUSER_WIDTH", "buser");
   (Output, "1", "bvalid"); (Input, "1", "bready"); (Input, "ID_WIDTH", "arid");
   (Input, "ADDR_WIDTH", "araddr"); (Input, "8", "arlen"); (Input, "3", "arsize");
   (Input, "2", "arburst"); (Input, "1", "arlock"); (Input, "4", "arcache");
   (Input, "3", "arprot"); (Input, "4", "arqos"); (Input, "ARUSER_WIDTH", "aruser");
   (Input, "1", "arvalid"); (Output, "1", "arready"); (Output, "ID_WIDTH", "rid");
   (Output, "DATA_WIDTH", "rdata"); (Output, "2", "rresp"); (Output, "1", "rlast");
   (Output, "RUSER_WIDTH", "ruser"); (Output, "1", "rvalid"); (Input, "1", "rready")].

Definition master_buses : list bus :=
  [(Output, "ID_WIDTH", "awid"); (Output, "ADDR_WIDTH", "awaddr");
   (Output, "8", "awlen"); (Output, "3", "awsize"); (Output, "2", "awburst");
   (Output, "1", "awlock"); (Output, "4", "awcache"); (Output, "3", "awprot");
   (Output, "4", "awqos"); (Output, "4", "awregion"); (Output, "AWUSER_WIDTH", "awuser");
   (Output, "1", "awvalid"); (Input, "1", "awready"); (Output, "DATA_WIDTH", "wdata");
   (Output, "STRB_WIDTH", "wstrb"); (Output, "1", "wlast");
   (Output, "WUSER_WIDTH", "wuser"); (Output, "1", "wvalid"); (Input, "1", "wready");
   (Input, "ID_WIDTH", "bid"); (Input, "2", "bresp"); (Input, "BUSER_WIDTH", "buser");
   (Input, "1", "bvalid"); (Output, "1", "bready"); (Output, "ID_WIDTH", "arid");
   (Output, "ADDR_WIDTH", "araddr"); (Output, "8", "arlen"); (Output, "3", "arsize");
   (Output, "2", "arburst"); (Output, "1", "arlock"); (Output, "4", "arcache");
   (Output, "3", "arprot"); (Output, "4", "arqos"); (Output, "4", "arregion");
   (Output, "ARUSER_WIDTH", "aruser"); (Output, "1", "arvalid"); (Input, "1", "arready");
   (Input, "ID_WIDTH", "rid"); (Input, "DATA_WIDTH", "rdata"); (Input, "2", "rresp");
   (Input, "1", "rlast"); (Input, "RUSER_WIDTH", "ruser"); (Input, "1", "rvalid");
   (Output, "1", "rready")].

(** The range of a field in a declaration. *)
Definition slice (w : string) : string :=
  match List.find (fun e => String.eqb e.1 w)
    [("1", EmptyString); ("2", "[1:0]"); ("3", "[2:0]"); ("4", "[3:0]"); ("8", "[7:0]")] with
  | Some e => e.2
  | None => "[" +:+ w +:+ "-1:0]"
  end.

(** ** The reader *)

(** The lines before the first line [x], and those after it. *)
Fixpoint split_at (x : string) (ls : list string) : option (list string * list string) :=
  match ls with
  | [] => None
  | l :: ls =>
      if String.eqb l x then Some ([], ls)
      else match split_at x ls with Some (a, b) => Some (l :: a, b) | None => None end
  end.

(** The entries of a list in which each but the last is followed by a comma. *)
Fixpoint unsep (ls : list string) : option (list string) :=
  match ls with
  | [] => Some []
  | l :: ls' =>
      match cut "," l, ls' with
      | None, [] => Some [l]
      | Some (x, EmptyString), _ :: _ =>
          match unsep ls' with Some xs => Some (x :: xs) | None => None end
      | _, _ => None
      end
  end.

(** A line that declares a port: direction, range, and name with the comma. *)
Definition read_port (l : string) : option (direction * string * string) :=
  match split_ws l with
  | d :: "wire" :: ws =>
      let dir := if String.eqb d "input" then Some Input
                 else if String.eqb d "output" then Some Output else None in
      match dir, ws with
      | Some dir, [name] => Some (dir, EmptyString, name)
      | Some dir, [range; name] => Some (dir, range, name)
      | _, _ => None
      end
  | _ => None
  end.

Definition read_ports (ls : list string) : option (list (direction * string * string)) :=
  let decls := omap read_port ls in
  match unsep (snd <$> decls) with
  | Some names => Some (zip (fst <$> decls) names)
  | None => None
  end.

(** A line [.formal(actual)] or [.formal({ ..., ... })]: the formal port with what
    follows the connection, and the actual ones. *)
Definition read_connection (l : string) : option (string * list string) :=
  match cut "." l with
  | Some (_, l) =>
      match cut "(" l with
      | Some (formal, l) =>
          match cut ")" l with
          | Some (actual, rest) =>
              match actual with
              | String "{" inner =>
                  match cut "}" inner with
                  | Some (inner, _) =>
                      match unsep (split_ws inner) with
                      | Some xs => Some (formal +:+ rest, xs)
                      | None => None
                      end
                  | None => None
                  end
              | _ => Some (formal +:+ rest, [actual])
              end
          | None => None
          end
      | None => None
      end
  | None => None
  end.

Definition read_connections (ls : list string) : option (list (string * list string)) :=
  match mapM read_connection ls with
  | Some cs => match unsep (fst <$> cs) with Some fs => Some (zip fs (snd <$> cs)) | None => None end
  | None => None
  end.

(** The declared ports and the connections of the instance. *)
Definition read_wrapper (text : list string)
  : option (list (direction * string * string) * list (string * list string)) :=
  match split_at ")" text with
  | Some (_, text) =>
      match split_at ");" text with
      | Some (header, text) =>
          match split_at "axi_interconnect_inst (" text with
          | Some (_, text) =>
              match split_at ");" text with
              | Some (instance, _) =>
                  match read_ports header, read_connections instance with
                  | Some ps, Some cs => Some (ps, cs)
                  | _, _ => None
                  end
              | None => None
              end
          | None => None
          end
      | None => None
      end
  | None => None
  end.

(** ** What is to be read *)

(** The ports of all slaves or masters, one after the other. *)
Definition ports_of (side : string) (count : nat) (buses : list bus)
  : list (direction * string * string) :=
  mjoin ((fun p => (fun b => (b.1.1, slice b.1.2, port_name side p b.2)) <$> buses) <$> seq 0 count).

Definition wrapper_ports (m n : nat) : list (direction * string * string) :=
  [(Input, EmptyString, "clk"); (Input, EmptyString, "rst")]
  ++ ports_of "s" m slave_buses ++ ports_of "m" n master_buses.

(** Each bus of the interconnect is the concatenation of the ports of its signal,
    the port of number 0 in the lowest field. *)
Definition bus_connections (side : string) (count : nat) (buses : list bus)
  : list (string * list string) :=
  (fun b => (side +:+ "_axi_" +:+ b.2, (fun p => port_name side p b.2) <$> rev (seq 0 count)))
  <$> buses.

Definition wrapper_connections (m n : nat) : list (string * list string) :=
  [("clk", ["clk"]); ("rst", ["rst"])]
  ++ bus_connections "s" m slave_buses ++ bus_connections "m" n master_buses.

(** ** Facts of strings *)

(** No white space in [s]. *)
Fixpoint no_ws (s : string) : bool :=
  match s with EmptyString => true | String a s => negb (is_space a) && no_ws s end.

Lemma no_ws_app s t : no_ws (s +:+ t) = no_ws s && no_ws t.
Proof. induction s as [|a s IH]; [done|]. rewrite append_cons. cbn [no_ws]. by rewrite IH, andb_assoc. Qed.

Lemma split_ws_space s t : split_ws (s +:+ String " " t) = split_ws s ++ split_ws t.
Proof.
  induction s as [|a s IH]; [done|]. rewrite append_cons. cbn [split_ws].
  destruct (is_space a); [done|]. destruct s as [|b s].
  - rewrite append_nil_l. cbn [split_ws]. done.
  - rewrite append_cons. destruct (is_space b) eqn:Eb.
    + by rewrite append_cons in IH; rewrite IH.
    + rewrite append_cons in IH. rewrite IH.
      destruct (split_ws (String b s)) as [|w ws] eqn:E; [|done].
      exfalso. revert E. cbn [split_ws]. rewrite Eb. destruct s as [|c s]; [done|].
      destruct (is_space c); [done|]. by destruct (split_ws (String c s)).
Qed.

Lemma split_ws_word s : no_ws s = true -> s <> EmptyString -> split_ws s = [s].
Proof.
  induction s as [|a s IH]; intros Hs Hne; [done|]. cbn [no_ws] in Hs.
  apply andb_true_iff in Hs as [Ha Hs]. apply negb_true_iff in Ha. cbn [split_ws]. rewrite Ha.
  destruct s as [|b s]; [done|]. pose proof Hs as Hb. cbn [no_ws] in Hb.
  apply andb_true_iff in Hb as [Hb _]. apply negb_true_iff in Hb. rewrite Hb.
  by rewrite IH by done.
Qed.

Lemma cut_free c s : free_of c s = true -> cut c s = None.
Proof.
  induction s as [|a s IH]; [done|]. cbn [free_of cut]. rewrite andb_true_iff, negb_true_iff.
  intros [-> Hs]. by rewrite IH.
Qed.

Lemma cut_end c s : free_of c s = true -> cut c (s +:+ String c EmptyString) = Some (s, EmptyString).
Proof. apply cut_app. Qed.

(** A list written with commas is read back. *)
Lemma unsep_comma_separated xs :
  Forall (fun x => free_of "," x = true) xs -> unsep (comma_separated xs) = Some xs.
Proof.
  induction 1 as [|x xs Hx Hxs IH]; [done|]. destruct xs as [|y xs].
  - cbn [comma_separated unsep]. by rewrite cut_free.
  - change (comma_separated (x :: y :: xs)) with ((x +:+ ",") :: comma_separated (y :: xs)).
    cbn [unsep]. rewrite (cut_end "," x) by done. rewrite IH.
    by destruct (comma_separated (y :: xs)) eqn:E; [destruct xs|].
Qed.

Lemma comma_separated_app xs ys :
  ys <> [] -> comma_separated (xs ++ ys) = ((fun x => x +:+ ",") <$> xs) ++ comma_separated ys.
Proof.
  intros Hy. induction xs as [|x xs IH]; [done|]. cbn [app fmap list_fmap].
  rewrite <- IH. cbn [comma_separated]. destruct (xs ++ ys) eqn:E; [|done].
  by apply app_eq_nil in E as [_ ?].
Qed.

Lemma split_ws_join xs :
  Forall (fun x => no_ws x = true /\ x <> EmptyString) xs ->
  split_ws (PyString.join ", " xs +:+ " ") = comma_separated xs.
Proof.
  induction 1 as [|x xs [Hx Hne] Hxs IH]; [done|]. destruct xs as [|y xs].
  - cbn [PyString.join comma_separated]. rewrite (split_ws_space x EmptyString).
    by rewrite split_ws_word.
  - change (PyString.join ", " (x :: y :: xs)) with (x +:+ ", " +:+ PyString.join ", " (y :: xs)).
    change (comma_separated (x :: y :: xs)) with ((x +:+ ",") :: comma_separated (y :: xs)).
    rewrite <- IH, !append_assoc.
    change (", " +:+ PyString.join ", " (y :: xs) +:+ " ") with
      ("," +:+ String " " (PyString.join ", " (y :: xs) +:+ " ")).
    rewrite <- append_assoc, split_ws_space, split_ws_word; [done| |].
    + by rewrite no_ws_app, Hx.
    + by destruct x.
Qed.

(** ** The lines of the template *)

(** A declared signal whose line can be read: what precedes the name ends in a
    space and holds direction and range. *)
Definition declarable (s : signal) : bool :=
  let line := "    " +:+ (match dir s with Input => "input  wire " | Output => "output wire " end)
              +:+ ljust 20 (width s) in
  String.eqb line (drop_last line +:+ " ")
  && bool_decide (split_ws (drop_last line)
       = (match dir s with Input => "input" | Output => "output" end) :: "wire"
         :: (if String.eqb (width s) EmptyString then [] else [width s]))
  && no_ws (sig s).

Lemma pad2_chars (ok : ascii -> bool) n :
  (forall d, d < 10 -> ok (dec_digit d) = true) ->
  forallb ok (String.list_ascii_of_string (pad2 n)) = true.
Proof.
  intros Hd.
  assert (forall s t, String.list_ascii_of_string (s +:+ t)
          = String.list_ascii_of_string s ++ String.list_ascii_of_string t) as Happ.
  { induction s as [|a s IH]; intros t; [done|]. rewrite append_cons. cbn. by rewrite IH. }
  assert (forall fuel n, forallb ok (String.list_ascii_of_string (dec_digits fuel n)) = true) as Hdig.
  { induction fuel as [|fuel IH]; intros k; [done|]. cbn [dec_digits]. rewrite Happ, forallb_app.
    apply andb_true_iff. split; [by destruct (k <? 10)|].
    cbn [String.list_ascii_of_string forallb]. by rewrite Hd by (by apply Nat.mod_upper_bound). }
  unfold pad2, decimal. destruct (n <? 10); [|apply Hdig].
  rewrite Happ, forallb_app. apply andb_true_iff. split; [|apply Hdig].
  apply andb_true_iff. split; [|done]. apply (Hd 0). lia.
Qed.

Lemma pad2_no_ws n : no_ws (pad2 n) = true.
Proof.
  assert (forall s, no_ws s = forallb (fun c => negb (is_space c)) (String.list_ascii_of_string s)) as ->
    by (induction s as [|a s IH]; [done|cbn; by rewrite IH]).
  apply pad2_chars. intros d Hd. do 10 (destruct d as [|d]; [reflexivity|]). lia.
Qed.

(** The characters that the punctuation of the text consists of. *)
Lemma pad2_free_of c n : c ∈ [","; ")"; "}"; "("]%char -> free_of c (pad2 n) = true.
Proof.
  intros Hc.
  assert (forall s, free_of c s = forallb (fun a => negb (Ascii.eqb a c)) (String.list_ascii_of_string s)) as ->
    by (induction s as [|a s IH]; [done|cbn; by rewrite IH]).
  apply pad2_chars. intros d Hd. rewrite !elem_of_cons, elem_of_nil in Hc.
  destruct Hc as [->|[->|[->|[->|[]]]]]; do 10 (destruct d as [|d]; [reflexivity|]); lia.
Qed.

(** Names without white space and punctuation. *)
Definition plain (s : string) : bool :=
  no_ws s && free_of "," s && free_of ")" s && free_of "}" s && free_of "(" s.

Lemma plain_app s t : plain (s +:+ t) = plain s && plain t.
Proof.
  unfold plain. rewrite no_ws_app, !free_of_app.
  by destruct (no_ws s), (free_of "," s), (free_of ")" s), (free_of "}" s), (free_of "(" s), (no_ws t),
    (free_of "," t), (free_of ")" t), (free_of "}" t).
Qed.

Lemma plain_pad2 n : plain (pad2 n) = true.
Proof.
  unfold plain. rewrite pad2_no_ws, !pad2_free_of; [done|..]; rewrite !elem_of_cons; tauto.
Qed.

Lemma plain_port side p s : plain side = true -> plain s = true -> plain (port_name side p s) = true.
Proof. intros H1 H2. unfold port_name. by rewrite !plain_app, H1, H2, plain_pad2. Qed.

Lemma plain_parts s : plain s = true ->
  no_ws s = true /\ free_of "," s = true /\ free_of ")" s = true /\ free_of "}" s = true /\ free_of "(" s = true.
Proof. unfold plain. rewrite !andb_true_iff. tauto. Qed.

Lemma port_name_nonempty side p s : port_name side p s <> EmptyString.
Proof.
  unfold port_name. destruct side; [|done]. rewrite append_nil_l. unfold pad2, decimal.
  destruct (p <? 10); [done|]. intros E. apply (f_equal (free_of "_")) in E.
  rewrite free_of_app in E. change (free_of "_" ("_axi_" +:+ s)) with false in E.
  by rewrite andb_false_r in E.
Qed.

(** The line of a port is read as the port. *)
Lemma read_port_line side p comma s :
  declarable s = true -> plain side = true -> plain (sig s) = true ->
  read_port (port_line side p comma s)
  = Some (dir s, width s, port_name side p (sig s) +:+ (if comma then "," else EmptyString)).
Proof.
  intros Hs Hside Hsig. unfold declarable in Hs. rewrite !andb_true_iff in Hs.
  destruct Hs as [[Hline Hws] _]. apply String.eqb_eq in Hline. apply bool_decide_eq_true in Hws.
  unfold read_port, port_line.
  set (name := port_name side p (sig s) +:+ (if comma then "," else EmptyString)).
  assert (split_ws name = [name]) as Hname.
  { apply split_ws_word.
    - destruct (plain_parts _ (plain_port side p _ Hside Hsig)) as [H _]. unfold name.
      rewrite no_ws_app, H. by destruct comma.
    - unfold name. pose proof (port_name_nonempty side p (sig s)).
      by destruct (port_name side p (sig s)). }
  rewrite <- (append_assoc (match dir s with Input => _ | Output => _ end)), <- append_assoc, Hline, append_assoc.
  change (" " +:+ name) with (String " " name). rewrite split_ws_space, Hws, Hname.
  destruct s as [[] w sg]; cbn [dir width];
    destruct (String.eqb_spec w EmptyString) as [->|_]; reflexivity.
Qed.

(** ** The section of the ports *)

Definition as_signal (b : bus) : signal := Signal b.1.1 (slice b.1.2) b.2.

(** The template declares the buses of the interconnect, port by port. *)
Lemma signals_buses :
  slave_signals = as_signal <$> slave_buses /\ master_signals = as_signal <$> master_buses.
Proof. split; vm_compute; reflexivity. Qed.

(** It connects them, under their names. *)
Lemma formals_buses : slave_formals = snd <$> slave_buses /\ master_formals = snd <$> master_buses.
Proof. split; vm_compute; reflexivity. Qed.

Definition readable (s : signal) : bool := declarable s && plain (sig s).

Lemma signals_readable :
  Forall (fun s => readable s = true) slave_signals /\ Forall (fun s => readable s = true) master_signals.
Proof. split; apply (bool_decide_unpack _); vm_compute; exact I. Qed.

Definition decl (side : string) (p : nat) (s : signal) : direction * string * string :=
  (dir s, width s, port_name side p (sig s)).

Definition with_comma (x : direction * string * string) : direction * string * string :=
  (x.1, x.2 +:+ ",").

Lemma ports_of_decl side count buses :
  ports_of side count buses = mjoin ((fun p => decl side p <$> (as_signal <$> buses)) <$> seq 0 count).
Proof.
  unfold ports_of. f_equal. apply list_fmap_ext. intros i p _. by rewrite <- list_fmap_compose.
Qed.

Lemma read_lines side p sigs :
  plain side = true -> Forall (fun s => readable s = true) sigs ->
  omap read_port (port_line side p true <$> sigs) = with_comma <$> (decl side p <$> sigs).
Proof.
  intros Hside. induction 1 as [|s sigs Hs _ IH]; [done|]. unfold readable in Hs.
  apply andb_true_iff in Hs as [Hd Hp]. rewrite !fmap_cons. cbn [omap list_omap].
  rewrite (read_port_line side p true s) by done. f_equal. exact IH.
Qed.

Lemma omap_join {A B C} (g : B -> option C) (f : A -> list B) (l : list A) :
  omap g (mjoin (f <$> l)) = mjoin ((fun x => omap g (f x)) <$> l).
Proof.
  induction l as [|x l IH]; [done|].
  change (omap g (f x ++ mjoin (f <$> l)) = omap g (f x) ++ mjoin ((fun x => omap g (f x)) <$> l)).
  by rewrite omap_app, IH.
Qed.

Lemma fmap_join {A B C} (g : B -> C) (f : A -> list B) (l : list A) :
  g <$> mjoin (f <$> l) = mjoin ((fun x => g <$> f x) <$> l).
Proof.
  induction l as [|x l IH]; [done|].
  change (g <$> (f x ++ mjoin (f <$> l)) = (g <$> f x) ++ mjoin ((fun x => g <$> f x) <$> l)).
  by rewrite fmap_app, IH.
Qed.

Lemma join_snoc {A B} (f : A -> list B) (l : list A) x :
  mjoin (f <$> l ++ [x]) = mjoin (f <$> l) ++ f x.
Proof.
  induction l as [|y l IH]; [cbn; by rewrite app_nil_r|].
  change (f y ++ mjoin (f <$> l ++ [x]) = (f y ++ mjoin (f <$> l)) ++ f x). by rewrite IH, app_assoc.
Qed.

Lemma join_app {A} (xs ys : list (list A)) : mjoin (xs ++ ys) = mjoin xs ++ mjoin ys.
Proof.
  induction xs as [|x xs IH]; [done|].
  change (x ++ mjoin (xs ++ ys) = (x ++ mjoin xs) ++ mjoin ys). by rewrite IH, app_assoc.
Qed.

Lemma join_ext {A B} (f g : A -> list B) (l : list A) :
  (forall x, x ∈ l -> f x = g x) -> mjoin (f <$> l) = mjoin (g <$> l).
Proof.
  induction l as [|x l IH]; intros H; [done|].
  change (f x ++ mjoin (f <$> l) = g x ++ mjoin (g <$> l)). rewrite H by left.
  f_equal. apply IH. intros y Hy. apply H. by right.
Qed.

Lemma read_slave_ports m :
  omap read_port (slave_ports m) = with_comma <$> ports_of "s" m slave_buses.
Proof.
  unfold slave_ports. rewrite omap_join, ports_of_decl, fmap_join. apply join_ext. intros p _.
  destruct signals_buses as [<- _]. rewrite omap_app, read_lines by (done || apply signals_readable).
  cbn [omap list_omap]. by rewrite app_nil_r.
Qed.

(** The last signal of the masters. *)
Definition last_master : signal := List.last master_signals (inp EmptyString EmptyString).

Lemma masters_snoc : master_signals = removelast master_signals ++ [last_master].
Proof. vm_compute. reflexivity. Qed.

Lemma master_readable :
  Forall (fun s => readable s = true) (removelast master_signals) /\ readable last_master = true.
Proof.
  destruct signals_readable as [_ H]. rewrite masters_snoc in H at 1.
  apply Forall_app in H as [H1 H2]. split; [done|]. by apply Forall_cons in H2 as [? _].
Qed.

Lemma read_master p comma tail :
  omap read_port ((port_line "m" p true <$> removelast master_signals)
                  ++ [port_line "m" p comma last_master] ++ tail)
  = (with_comma <$> (decl "m" p <$> removelast master_signals))
    ++ [if comma then with_comma (decl "m" p last_master) else decl "m" p last_master]
    ++ omap read_port tail.
Proof.
  destruct master_readable as [H1 H2]. unfold readable in H2. apply andb_true_iff in H2 as [Hd Hp].
  rewrite !omap_app, read_lines by done. f_equal. f_equal.
  cbn [omap list_omap]. rewrite (read_port_line "m" p comma last_master) by done.
  destruct comma; [done|]. by rewrite append_empty_r.
Qed.

(** All the lines of the masters, the last without a comma. *)
Lemma read_master_ports n :
  exists init last, ports_of "m" (S n) master_buses = init ++ [last]
    /\ omap read_port (master_ports (S n)) = (with_comma <$> init) ++ [last].
Proof.
  rewrite ports_of_decl. unfold master_ports. rewrite omap_join. rewrite !seq_S, !join_snoc, !Nat.add_0_l.
  fold last_master.
  assert (forall p, decl "m" p <$> (as_signal <$> master_buses)
          = (decl "m" p <$> removelast master_signals) ++ [decl "m" p last_master]) as Hsnoc.
  { intros p. destruct signals_buses as [_ <-]. rewrite masters_snoc at 1. by rewrite fmap_app. }
  eexists _, (decl "m" n last_master). split.
  - rewrite Hsnoc, app_assoc. reflexivity.
  - rewrite fmap_app, fmap_join.
    assert (last_of (S n) n = true) as -> by apply Nat.eqb_refl. cbn [negb].
    rewrite (read_master n false []). cbn [omap list_omap]. rewrite app_nil_r, app_assoc. f_equal. f_equal.
    apply join_ext. intros p Hp%elem_of_seq.
    assert (last_of (S n) p = false) as -> by (apply Nat.eqb_neq; lia). cbn [negb].
    rewrite (read_master p true [EmptyString]), Hsnoc, fmap_app. cbn [omap list_omap]. done.
Qed.

Lemma clock_lines :
  omap read_port ["("; "    input  wire                     clk,"; "    input  wire                     rst,";
                  EmptyString; "    /*"; "     * AXI slave interface"; "     */"]
  = with_comma <$> [(Input, EmptyString, "clk"); (Input, EmptyString, "rst")]
  /\ omap read_port ["    /*"; "     * AXI master interface"; "     */"] = [].
Proof. split; vm_compute; reflexivity. Qed.

Lemma buses_plain :
  Forall (fun b : bus => plain b.2 = true) slave_buses /\ Forall (fun b : bus => plain b.2 = true) master_buses.
Proof. split; apply (bool_decide_unpack _); vm_compute; exact I. Qed.

Lemma ports_plain side count buses :
  plain side = true -> Forall (fun b : bus => plain b.2 = true) buses ->
  Forall (fun x => plain x.2 = true) (ports_of side count buses).
Proof.
  intros Hside Hb. unfold ports_of. apply Forall_join, Forall_fmap, Forall_forall. intros p _.
  apply Forall_fmap. eapply Forall_impl; [exact Hb|]. intros b Hp. cbn. by apply plain_port.
Qed.

Definition port_section (m n : nat) : list string :=
  ["("; "    input  wire                     clk,"; "    input  wire                     rst,";
   EmptyString; "    /*"; "     * AXI slave interface"; "     */"]
  ++ slave_ports m ++ ["    /*"; "     * AXI master interface"; "     */"] ++ master_ports n.

Lemma read_port_section m n : read_ports (port_section m (S n)) = Some (wrapper_ports m (S n)).
Proof.
  unfold read_ports, port_section. rewrite !omap_app. destruct clock_lines as [-> ->].
  rewrite read_slave_ports, app_nil_l. destruct (read_master_ports n) as (init & last & E & ->).
  assert (wrapper_ports m (S n)
          = ([(Input, EmptyString, "clk"); (Input, EmptyString, "rst")]
             ++ ports_of "s" m slave_buses ++ init) ++ [last]) as Hw.
  { unfold wrapper_ports. rewrite E, <- !app_assoc. done. }
  assert (Forall (fun x => free_of "," x = true) (snd <$> wrapper_ports m (S n))) as Hfree.
  { apply Forall_fmap. unfold wrapper_ports. destruct buses_plain as [Hs Hm].
    apply Forall_app. split; [repeat constructor|]. apply Forall_app. split;
      (eapply Forall_impl; [by apply ports_plain|]); intros x Hx; by apply plain_parts in Hx as (_ & ? & _). }
  rewrite !app_assoc, <- !fmap_app, <- !app_assoc. rewrite Hw in Hfree |- *.
  set (most := [(Input, EmptyString, "clk"); (Input, EmptyString, "rst")] ++ _) in *.
  assert (snd <$> (with_comma <$> most) ++ [last] = comma_separated (snd <$> most ++ [last])) as ->.
  { rewrite !fmap_app, comma_separated_app by done. f_equal. by rewrite <- !list_fmap_compose. }
  rewrite unsep_comma_separated by done. f_equal.
  assert (fst <$> (with_comma <$> most) ++ [last] = fst <$> most ++ [last]) as ->
    by (rewrite !fmap_app, <- list_fmap_compose; done).
  apply zip_fst_snd.
Qed.

(** ** The section of the connections *)

Definition plain_connection (c : string * list string) : Prop :=
  plain c.1 = true /\ Forall (fun x => plain x = true /\ x <> EmptyString) c.2.

Lemma free_of_join c xs :
  free_of c ", " = true -> Forall (fun x => free_of c x = true) xs ->
  free_of c (PyString.join ", " xs) = true.
Proof.
  intros Hsep. induction 1 as [|x xs Hx Hxs IH]; [done|]. destruct xs as [|y xs]; [done|].
  change (PyString.join ", " (x :: y :: xs)) with (x +:+ ", " +:+ PyString.join ", " (y :: xs)).
  by rewrite !free_of_app, Hx, Hsep, IH.
Qed.

Lemma read_connection_line c rest :
  plain_connection c ->
  read_connection (connection_line c +:+ rest) = Some (c.1 +:+ rest, c.2).
Proof.
  intros [H1 H2]. destruct c as [f xs]. cbn [fst snd] in *. unfold connection_line. cbn [fst snd].
  apply plain_parts in H1 as (_ & _ & _ & _ & Hf).
  assert (forall c, c ∈ [")"; "}"]%char -> free_of c (PyString.join ", " xs) = true) as Hjoin.
  { intros c Hc. apply free_of_join.
    - rewrite !elem_of_cons, elem_of_nil in Hc. by destruct Hc as [->|[->|[]]].
    - eapply Forall_impl; [exact H2|]. intros x [Hx _]. apply plain_parts in Hx as (_ & _ & ? & ? & _).
      rewrite !elem_of_cons, elem_of_nil in Hc. by destruct Hc as [->|[->|[]]]. }
  unfold read_connection. rewrite !append_assoc.
  assert (forall s, cut "." ("    ." +:+ s) = Some ("    ", s)) as -> by done.
  change ("({ " +:+ PyString.join ", " xs +:+ " })" +:+ rest) with
    (String "(" ("{ " +:+ PyString.join ", " xs +:+ " })" +:+ rest)).
  rewrite cut_app by done.
  change (" })" +:+ rest) with (" }" +:+ String ")" rest).
  rewrite <- (append_assoc "{ "), <- (append_assoc _ " }"), cut_app.
  2: { rewrite !free_of_app, Hjoin by (rewrite !elem_of_cons; tauto). done. }
  rewrite !append_assoc.
  change ("{ " +:+ PyString.join ", " xs +:+ " }") with
    (String "{" (" " +:+ PyString.join ", " xs +:+ " }")).
  cbv iota beta.
  change (" " +:+ PyString.join ", " xs +:+ " }") with
    (" " +:+ PyString.join ", " xs +:+ " " +:+ String "}" EmptyString).
  rewrite <- (append_assoc _ " "), <- (append_assoc " "), cut_app.
  2: { rewrite !free_of_app, Hjoin by (rewrite !elem_of_cons; tauto). done. }
  change (" " +:+ PyString.join ", " xs +:+ " ") with (EmptyString +:+ String " " (PyString.join ", " xs +:+ " ")).
  rewrite split_ws_space. cbn [split_ws app]. rewrite split_ws_join.
  - rewrite unsep_comma_separated; [done|]. eapply Forall_impl; [exact H2|].
    intros x [Hx _]. by apply plain_parts in Hx as (_ & ? & _).
  - eapply Forall_impl; [exact H2|]. intros x [Hx ?]. by apply plain_parts in Hx as (? & _).
Qed.

Lemma connections_buses m n :
  connections m n = bus_connections "s" m slave_buses ++ bus_connections "m" n master_buses.
Proof.
  unfold connections, side_connections, bus_connections. destruct formals_buses as [-> ->].
  by rewrite <- !list_fmap_compose.
Qed.

Lemma bus_connections_plain side count buses :
  plain side = true -> Forall (fun b : bus => plain b.2 = true) buses ->
  Forall plain_connection (bus_connections side count buses).
Proof.
  intros Hside Hb. apply Forall_fmap. eapply Forall_impl; [exact Hb|]. intros b Hp. split; cbn.
  - by rewrite !plain_app, Hside, Hp.
  - apply Forall_fmap, Forall_forall. intros p _. cbn. split; [by apply plain_port|apply port_name_nonempty].
Qed.

Lemma connections_plain m n : Forall plain_connection (connections m n).
Proof.
  rewrite connections_buses. destruct buses_plain. apply Forall_app.
  split; by apply bus_connections_plain.
Qed.

(** The lines, each but the last with a comma, are read one by one. *)
Lemma mapM_connection_lines cs :
  Forall plain_connection cs ->
  mapM read_connection (comma_separated (connection_line <$> cs))
  = Some (zip (comma_separated (fst <$> cs)) (snd <$> cs)).
Proof.
  induction 1 as [|c cs Hc Hcs IH]; [done|]. destruct cs as [|d cs].
  - cbn [fmap list_fmap comma_separated mapM]. rewrite <- (append_empty_r (connection_line c)).
    rewrite read_connection_line by done. by rewrite append_empty_r.
  - change (comma_separated (connection_line <$> c :: d :: cs)) with
      ((connection_line c +:+ ",") :: comma_separated (connection_line <$> d :: cs)).
    change (comma_separated (fst <$> c :: d :: cs)) with
      ((c.1 +:+ ",") :: comma_separated (fst <$> d :: cs)).
    cbn [mapM]. rewrite read_connection_line by done. cbn [mbind option_bind]. by rewrite IH.
Qed.

Lemma comma_separated_length xs : length (comma_separated xs) = length xs.
Proof.
  induction xs as [|x xs IH]; [done|]. destruct xs as [|y xs]; [done|].
  change (comma_separated (x :: y :: xs)) with ((x +:+ ",") :: comma_separated (y :: xs)).
  cbn [length]. by rewrite IH.
Qed.

Lemma read_connection_section m n :
  read_connections (["    .clk(clk),"; "    .rst(rst),"] ++ comma_separated (connection_line <$> connections m n))
  = Some (wrapper_connections m n).
Proof.
  pose proof (connections_plain m n) as Hcs. unfold read_connections, wrapper_connections.
  rewrite <- connections_buses. change ([?a; ?b] ++ ?l) with (a :: b :: l). cbn [app mapM].
  change (read_connection "    .clk(clk),") with (Some ("clk,", ["clk"])).
  change (read_connection "    .rst(rst),") with (Some ("rst,", ["rst"])).
  rewrite mapM_connection_lines by done. cbn [mbind option_bind mret option_ret].
  assert (connections m n <> []) as Hne by (rewrite connections_buses; done).
  set (cs := connections m n) in *. cbn [fmap list_fmap fst snd].
  fold (@fmap list list_fmap _ _ (@fst string (list string)) (zip (comma_separated (fst <$> cs)) (snd <$> cs))).
  fold (@fmap list list_fmap _ _ (@snd string (list string)) (zip (comma_separated (fst <$> cs)) (snd <$> cs))).
  rewrite fst_zip, snd_zip by (rewrite comma_separated_length, !length_fmap; lia).
  change ("clk," :: "rst," :: comma_separated (fst <$> cs)) with
    (((fun x => x +:+ ",") <$> ["clk"; "rst"]) ++ comma_separated (fst <$> cs)).
  rewrite <- comma_separated_app by (by destruct cs).
  rewrite unsep_comma_separated.
  - cbn [app zip]. by rewrite zip_fst_snd.
  - apply Forall_app. split; [repeat constructor|]. apply Forall_fmap.
    eapply Forall_impl; [exact Hcs|]. intros c [Hc _]. by apply plain_parts in Hc as (_ & ? & _).
Qed.

(** ** The whole text *)

Lemma split_at_app x a b : Forall (fun l => l <> x) a -> split_at x (a ++ x :: b) = Some (a, b).
Proof.
  induction 1 as [|l a Hl _ IH]; cbn.
  - by rewrite String.eqb_refl.
  - apply String.eqb_neq in Hl as ->. by rewrite IH.
Qed.

Definition head_lines (license : list string) (m n : nat) (name : string) : list string :=
  license ++ ["/*"; " * AXI4 " +:+ decimal m +:+ "x" +:+ decimal n +:+ " interconnect (wrapper)"; " */";
              "module " +:+ name +:+ " #"; "("] ++ common_parameters ++ parameters m n.

Definition instance_head (m n : nat) : list string :=
  [EmptyString; "localparam S_COUNT = " +:+ decimal m +:+ ";";
   "localparam M_COUNT = " +:+ decimal n +:+ ";"; EmptyString]
  ++ sizing_helpers ++ ["axi_interconnect #("] ++ overrides n ++ [")"].

Definition connection_section (m n : nat) : list string :=
  ["    .clk(clk),"; "    .rst(rst),"] ++ comma_separated (connection_line <$> connections m n).

Lemma render_sections license m n name :
  render license m n name
  = head_lines license m n name ++ ")" :: port_section m n ++ ");" :: instance_head m n
    ++ "axi_interconnect_inst (" :: connection_section m n
    ++ [");"; EmptyString; "endmodule"; EmptyString; "`resetall"; EmptyString].
Proof.
  unfold render, head_lines, port_section, instance_head, connection_section.
  rewrite <- !app_assoc. reflexivity.
Qed.

(** Lines that are none of the three at which a section ends. *)
Definition not_end (l : string) : Prop := l <> ")" /\ l <> ");" /\ l <> "axi_interconnect_inst (".

Lemma parameters_not_end m n : Forall not_end (parameters m n).
Proof. apply Forall_join, Forall_fmap, Forall_forall. intros p _. repeat constructor; done. Qed.

Lemma port_line_not_end side p c s : not_end (port_line side p c s).
Proof. by repeat split. Qed.

Lemma ports_not_end m n : Forall not_end (port_section m n).
Proof.
  assert (forall side p c sigs, Forall not_end (port_line side p c <$> sigs)) as Hl
    by (intros; apply Forall_fmap, Forall_forall; intros; apply port_line_not_end).
  unfold port_section, slave_ports, master_ports.
  apply Forall_app. split; [repeat constructor; done|]. apply Forall_app. split.
  - apply Forall_join, Forall_fmap, Forall_forall. intros p _.
    apply Forall_app. split; [apply Hl|repeat constructor; done].
  - apply Forall_app. split; [repeat constructor; done|].
    apply Forall_join, Forall_fmap, Forall_forall. intros p _. fold last_master.
    apply Forall_app. split; [apply Hl|].
    constructor; [apply port_line_not_end|]. destruct (last_of n p); repeat constructor; done.
Qed.

Lemma connections_not_end m n : Forall not_end (connection_section m n).
Proof.
  unfold connection_section. apply Forall_app. split; [repeat constructor; done|].
  induction (connections m n) as [|c cs IH]; [constructor|].
  destruct cs as [|d cs]; (constructor; [by repeat split|]); [constructor|exact IH].
Qed.

Lemma instance_not_end m n : Forall (fun l => l <> "axi_interconnect_inst (") (instance_head m n).
Proof. repeat constructor; done. Qed.

(** The ports of a side, and of both, are all different. *)
Lemma port_name_inj a p s b q t :
  port_name (String a EmptyString) p s = port_name (String b EmptyString) q t ->
  a <> "_"%char -> b <> "_"%char -> a = b /\ p = q /\ s = t.
Proof.
  intros E Ha Hb. apply (f_equal (cut "_")) in E. unfold port_name in E.
  rewrite <- !(append_assoc (String _ EmptyString)) in E.
  change ("_axi_" +:+ s) with (String "_" ("axi_" +:+ s)) in E.
  change ("_axi_" +:+ t) with (String "_" ("axi_" +:+ t)) in E.
  rewrite !cut_app in E.
  - injection E as E1 E2 E3. split; [done|]. split; [by apply pad2_inj|].
    done.
  - rewrite free_of_app, pad2_free. cbn [free_of]. by apply Ascii.eqb_neq in Hb as ->.
  - rewrite free_of_app, pad2_free. cbn [free_of]. by apply Ascii.eqb_neq in Ha as ->.
Qed.

Lemma ports_of_elem side count buses x :
  x ∈ snd <$> ports_of side count buses
  <-> exists p b, x = port_name side p b.2 /\ p < count /\ b ∈ buses.
Proof.
  unfold ports_of. rewrite fmap_join, list_elem_of_join. split.
  - intros (l & Hx & (p & -> & Hp%elem_of_seq)%list_elem_of_fmap).
    rewrite <- list_fmap_compose in Hx. apply list_elem_of_fmap in Hx as (b & -> & Hb).
    exists p, b. split; [done|]. split; [lia|done].
  - intros (p & b & -> & Hp & Hb). exists ((fun b => port_name side p b.2) <$> buses).
    split; [apply list_elem_of_fmap; by exists b|]. apply list_elem_of_fmap. exists p.
    split; [by rewrite <- list_fmap_compose|]. apply elem_of_seq. lia.
Qed.

Lemma ports_of_nodup a count buses :
  a <> "_"%char -> NoDup (snd <$> buses) -> NoDup (snd <$> ports_of (String a EmptyString) count buses).
Proof.
  intros Ha Hb. unfold ports_of. rewrite fmap_join. generalize 0 as j.
  induction count as [|count IH]; intros j; [constructor|].
  cbn [seq fmap list_fmap mjoin list_join]. apply NoDup_app. split; [|split; [|apply IH]].
  - assert (forall l : list bus, snd <$> ((fun b => (b.1.1, slice b.1.2, port_name (String a EmptyString) j b.2)) <$> l)
            = port_name (String a EmptyString) j <$> (snd <$> l)) as ->
      by (intros l; by rewrite <- !list_fmap_compose).
    apply NoDup_fmap_2; [|done]. intros s t E. by apply port_name_inj in E as (_ & _ & ?).
  - intros x Hx Hy. rewrite <- list_fmap_compose in Hx. apply list_elem_of_fmap in Hx as (s & -> & _).
    apply list_elem_of_join in Hy as (l & Hy & Hl).
    apply list_elem_of_fmap in Hl as (p & -> & Hp). apply elem_of_seq in Hp.
    rewrite <- list_fmap_compose in Hy. apply list_elem_of_fmap in Hy as (t & E & _).
    apply port_name_inj in E as (_ & ? & _); [lia|done..].
Qed.

Lemma wrapper_nodup m n : NoDup (snd <$> wrapper_ports m n).
Proof.
  unfold wrapper_ports. rewrite !fmap_app, NoDup_app.
  split; [by (apply (bool_decide_unpack _); vm_compute)|]. split.
  - intros x Hx Hy. rewrite elem_of_app, !ports_of_elem in Hy. cbn in Hx.
    rewrite !elem_of_cons, elem_of_nil in Hx.
    destruct Hy as [(p & s & -> & _)|(p & s & -> & _)]; by destruct Hx as [Hx|[Hx|[]]].
  - assert (NoDup (snd <$> slave_buses) /\ NoDup (snd <$> master_buses)) as [Hs Hm]
      by (split; apply (bool_decide_unpack _); vm_compute; exact I).
    rewrite NoDup_app. split; [by apply ports_of_nodup|]. split; [|by apply ports_of_nodup].
    intros x Hx Hy. apply ports_of_elem in Hx as (p & s & -> & _).
    apply ports_of_elem in Hy as (q & t & E & _). by apply port_name_inj in E as (? & _).
Qed.

Lemma join_swap {A B C} (f : A -> B -> C) (xs : list A) (ys : list B) :
  mjoin ((fun x => f x <$> ys) <$> xs) ≡ₚ mjoin ((fun y => (fun x => f x y) <$> xs) <$> ys).
Proof.
  induction xs as [|x xs IH].
  - cbn. induction ys as [|y ys IHy]; [done|]. exact IHy.
  - cbn [fmap list_fmap mjoin list_join]. rewrite IH. clear IH.
    induction ys as [|y ys IHy]; [done|]. cbn [fmap list_fmap mjoin list_join app] in *.
    constructor. rewrite <- IHy. rewrite !app_assoc. apply Permutation_app; [|done].
    apply Permutation_app_comm.
Qed.

Lemma buses_connected side count buses :
  mjoin (snd <$> bus_connections side count buses) ≡ₚ snd <$> ports_of side count buses.
Proof.
  unfold ports_of, bus_connections. rewrite fmap_join, <- list_fmap_compose.
  assert (mjoin ((fun p => snd <$> ((fun b : bus => (b.1.1, slice b.1.2, port_name side p b.2)) <$> buses)) <$> seq 0 count)
          = mjoin ((fun p => (fun b : bus => port_name side p b.2) <$> buses) <$> seq 0 count)) as ->
    by (apply join_ext; intros p _; by rewrite <- list_fmap_compose).
  rewrite join_swap. induction buses as [|b buses IH]; [done|].
  cbn [fmap list_fmap mjoin list_join]. apply Permutation_app; [|exact IH]. cbn.
  apply fmap_Permutation. symmetry. apply Permutation_rev.
Qed.

Lemma bus_field side count buses b p :
  p < count -> b ∈ buses ->
  exists l, (side +:+ "_axi_" +:+ b.2, l) ∈ bus_connections side count buses
    /\ length l = count /\ l !! (count - 1 - p) = Some (port_name side p b.2).
Proof.
  intros Hp Hb. exists ((fun p => port_name side p b.2) <$> rev (seq 0 count)). split; [|split].
  - apply list_elem_of_fmap. by exists b.
  - by rewrite length_fmap, length_rev, length_seq.
  - rewrite list_lookup_fmap.
    assert (rev (seq 0 count) !! (count - 1 - p) = Some p) as ->; [|done].
    rewrite rev_alt. change (rev_append (seq 0 count) []) with (reverse (seq 0 count)).
    rewrite reverse_lookup_Some, length_seq. split; [|lia]. rewrite lookup_seq. lia.
Qed.

Lemma read_render license m n name :
  Forall (fun l => l <> ")") license ->
  read_wrapper (render license m (S n) name) = Some (wrapper_ports m (S n), wrapper_connections m (S n)).
Proof.
  intros Hl. unfold read_wrapper. rewrite render_sections, split_at_app.
  2: { unfold head_lines. apply Forall_app. split; [done|]. apply Forall_app.
       split; [repeat constructor; done|]. apply Forall_app. split; [repeat constructor; done|].
       eapply Forall_impl; [apply parameters_not_end|]. by intros l (? & _). }
  rewrite split_at_app by (eapply Forall_impl; [apply ports_not_end|]; by intros l (_ & ? & _)).
  rewrite split_at_app by apply instance_not_end.
  rewrite split_at_app by (eapply Forall_impl; [apply connections_not_end|]; by intros l (_ & ? & _)).
  rewrite read_port_section. unfold connection_section. by rewrite read_connection_section.
Qed.

(** C36: the generated wrapper, for any numbers of slave and of master ports (at least
    one master) and a licence text in which no line is a closing parenthesis.  The
    reader finds the ports in the declarations of the written text and the
    connections in its instance, both with commas where they belong.  The ports
    are, for each slave and each master, exactly those of the buses of
    axi_interconnect.v, with their directions and the ranges of one field; their
    names are all different; every bus of the interconnect is connected, and each
    declared port occurs exactly once in the connections: the port of the [p]-th
    slave or master is the [p]-th field from the right of the bus of its signal. *)
Theorem wrap_ports_connected license arg name output m n :
  port_counts arg = Ok (m, n) -> 0 < n -> Forall (fun l => l <> ")") license ->
  exists file text ps cs,
    generate license arg name output = Ok (file, text)
    /\ read_wrapper text = Some (ps, cs)
    /\ ps = wrapper_ports m n /\ cs = wrapper_connections m n
    /\ NoDup (snd <$> ps)
    /\ mjoin (snd <$> cs) ≡ₚ snd <$> ps
    /\ (forall b p, b ∈ slave_buses -> p < m ->
          exists l, ("s_axi_" +:+ b.2, l) ∈ cs /\ length l = m
            /\ l !! (m - 1 - p) = Some (port_name "s" p b.2))
    /\ (forall b p, b ∈ master_buses -> p < n ->
          exists l, ("m_axi_" +:+ b.2, l) ∈ cs /\ length l = n
            /\ l !! (n - 1 - p) = Some (port_name "m" p b.2)).
Proof.
  intros Harg Hn Hl. destruct n as [|n]; [lia|]. unfold generate. rewrite Harg.
  eexists _, _, _, _. split; [reflexivity|]. split; [by apply read_render|].
  split; [done|]. split; [done|]. split; [apply wrapper_nodup|]. split; [|split].
  - unfold wrapper_connections, wrapper_ports. rewrite !fmap_app, !join_app, !buses_connected. done.
  - intros b p Hb Hp. destruct (bus_field "s" m slave_buses b p Hp Hb) as (l & Hin & H).
    exists l. split; [|done]. unfold wrapper_connections. rewrite !elem_of_app. tauto.
  - intros b p Hb Hp. destruct (bus_field "m" (S n) master_buses b p Hp Hb) as (l & Hin & H).
    exists l. split; [|done]. unfold wrapper_connections. rewrite !elem_of_app. tauto.
Qed.

Lemma wrap_ports_connected_witness :
  exists text ps cs, generate ["/* MIT */"] (PortsList [1; 8]) None None = Ok ("axi_interconnect_wrap_1x8.v", text)
    /\ read_wrapper text = Some (ps, cs) /\ length ps = 2 + 42 + 8 * 44
    /\ exists l, ("m_axi_awid", l) ∈ cs /\ l !! 5 = Some "m02_axi_awid".
Proof.
  destruct (wrap_ports_connected ["/* MIT */"] (PortsList [1; 8]) None None 1 8)
    as (file & text & ps & cs & Hg & Hr & Hps & _ & _ & _ & _ & Hm);
    [reflexivity|lia|repeat constructor; done|].
  exists text, ps, cs. split; [|split; [exact Hr|split]].
  - rewrite Hg. f_equal. f_equal. apply (f_equal (fun r => match r with Ok (f, _) => f | _ => EmptyString end)) in Hg.
    vm_compute in Hg. by symmetry.
  - rewrite Hps. vm_compute. reflexivity.
  - destruct (Hm (Output, "ID_WIDTH", "awid") 2) as (l & Hin & _ & Hl); [left|lia|].
    exists l. split; [exact Hin|exact Hl].
Defined.
