(* ===== verification/Irq.v ===== *)
(** * The interrupt test of the whole core: verification/top/test_pyuvm/test_irq

    The bus functional model with its three coroutines and three queues, the
    driver, the monitor, and the run against a core that answers in any way.  The
    coroutines wake at each falling edge of the clock, in the order in which they
    were started; a write to a pin is seen from the next edge on. *)

From S2P Require Import Prelude.
From stdpp Require Import base list.
From Stdlib Require Import ZArith Lia.

#[local] Open Scope list_scope.
#[local] Open Scope Z_scope.

(** [IrqTriggerSeqItem] *)
Record IrqTriggerSeqItem := Item { nmi : Z; soft : Z; timer : Z; ext : Z }.

(** [randomize], with the four values that [random.randrange(2)] returns. *)
Definition randomize (r1 r2 r3 r4 : bool) : IrqTriggerSeqItem :=
  Item (Z.b2z r1) (Z.b2z r2) (Z.b2z r3) (Z.b2z r4).

Definition vIrqSeq (draws : list (bool * bool * bool * bool)) : list IrqTriggerSeqItem :=
  (fun '(r1, r2, r3, r4) => randomize r1 r2 r3 r4) <$> draws.

(** [get_int]: a signal with unresolved bits reads as 0. *)
Definition get_int (signal : option Z) : Z := default 0 signal.

(** [IrqBfm]: the queues and the pins it drives. *)
Record IrqBfm := {
  interrupt_driver_queue : list IrqTriggerSeqItem;      (** at most one *)
  interrupt_source_queue : list (Z * Z * Z * Z);        (** all samples; [IrqMonitor] passes them on *)
  trace_interrupt_queue : list Z;
  pins : IrqTriggerSeqItem }.

(** [reset], and the writes with which the driver's coroutine begins. *)
Definition no_interrupts : IrqTriggerSeqItem := Item 0 0 0 0.
Definition reset : IrqBfm :=
  {| interrupt_driver_queue := []; interrupt_source_queue := []; trace_interrupt_queue := [];
     pins := no_interrupts |}.

(** One round of [interrupt_driver_bfm]. *)
Definition interrupt_driver_bfm (b : IrqBfm) : IrqBfm :=
  match interrupt_driver_queue b with
  | ints :: q => {| interrupt_driver_queue := q; interrupt_source_queue := interrupt_source_queue b;
                    trace_interrupt_queue := trace_interrupt_queue b; pins := ints |}
  | [] => b
  end.

(** One round of [interrupt_source_bfm], from the pins that are seen. *)
Definition interrupt_source_bfm (seen : IrqTriggerSeqItem) (b : IrqBfm) : IrqBfm :=
  {| interrupt_driver_queue := interrupt_driver_queue b;
     interrupt_source_queue := interrupt_source_queue b ++ [(soft seen, timer seen, nmi seen, ext seen)];
     trace_interrupt_queue := trace_interrupt_queue b; pins := pins b |}.

(** One round of [interrupt_trace_bfm]. *)
Definition interrupt_trace_bfm (trace_rv_i_interrupt_ip : option Z) (b : IrqBfm) : IrqBfm :=
  {| interrupt_driver_queue := interrupt_driver_queue b; interrupt_source_queue := interrupt_source_queue b;
     trace_interrupt_queue := trace_interrupt_queue b ++ [get_int trace_rv_i_interrupt_ip]; pins := pins b |}.

(** [send_interrupt_source]: blocks while the queue is full. *)
Definition send_interrupt_source (ints : IrqTriggerSeqItem) (b : IrqBfm) : option IrqBfm :=
  match interrupt_driver_queue b with
  | [] => Some {| interrupt_driver_queue := [ints]; interrupt_source_queue := interrupt_source_queue b;
                  trace_interrupt_queue := trace_interrupt_queue b; pins := pins b |}
  | _ => None
  end.

(** [get_trace_interrupt]: blocks while the queue is empty. *)
Definition get_trace_interrupt (b : IrqBfm) : option (Z * IrqBfm) :=
  match trace_interrupt_queue b with
  | t :: q => Some (t, {| interrupt_driver_queue := interrupt_driver_queue b;
                          interrupt_source_queue := interrupt_source_queue b;
                          trace_interrupt_queue := q; pins := pins b |})
  | [] => None
  end.

(** Where [IrqDriver.run_phase] stands: waiting for the next item, for room in the
    queue, or for a value of the trace. *)
Inductive driver_at := NextItem | Sending (ints : IrqTriggerSeqItem) | Receiving.

Record bench := {
  bfm : IrqBfm; at_ : driver_at; todo : list IrqTriggerSeqItem;
  results : list Z                 (** what the driver wrote to its port *) }.

(** The driver runs until it blocks: first the value it waits for, then an item
    for each that can be sent and answered at once. *)
Definition receive (s : bench) : bench :=
  match at_ s with
  | Receiving =>
      match get_trace_interrupt (bfm s) with
      | Some (t, b) => {| bfm := b; at_ := NextItem; todo := todo s; results := results s ++ [t] |}
      | None => s
      end
  | _ => s
  end.

Definition send (ints : IrqTriggerSeqItem) (s : bench) : bench :=
  match send_interrupt_source ints (bfm s) with
  | Some b => receive {| bfm := b; at_ := Receiving; todo := todo s; results := results s |}
  | None => {| bfm := bfm s; at_ := Sending ints; todo := todo s; results := results s |}
  end.

Fixpoint next_items (items : list IrqTriggerSeqItem) (s : bench) : bench :=
  let s := {| bfm := bfm s; at_ := at_ s; todo := items; results := results s |} in
  match at_ s, items with
  | NextItem, ints :: items =>
      next_items items (send ints {| bfm := bfm s; at_ := at_ s; todo := items; results := results s |})
  | _, _ => s
  end.

Definition run_driver (s : bench) : bench :=
  let s := receive s in
  let s := match at_ s with Sending ints => send ints s | _ => s end in
  next_items (todo s) s.

(** A falling edge, at which the core shows [t]: the three coroutines of the model,
    and then the driver, which they wake. *)
Definition falling_edge (t : option Z) (s : bench) : bench :=
  let seen := pins (bfm s) in
  let b := interrupt_trace_bfm t (interrupt_source_bfm seen (interrupt_driver_bfm (bfm s))) in
  run_driver {| bfm := b; at_ := at_ s; todo := todo s; results := results s |}.

(** The start of the run phase, after the reset. *)
Definition start (items : list IrqTriggerSeqItem) : bench :=
  run_driver {| bfm := reset; at_ := NextItem; todo := items; results := [] |}.

(** [Scoreboard.check_phase] *)
Definition check_phase (s : bench) : result unit :=
  let passed := true in py_assert passed.

(** The run against a core whose trace output depends on the pins it has seen. *)
Fixpoint run (core : list IrqTriggerSeqItem -> option Z) (n : nat) (hist : list IrqTriggerSeqItem) (s : bench)
  : bench :=
  match n with
  | O => s
  | S n => let hist := hist ++ [pins (bfm s)] in run core n hist (falling_edge (core hist) s)
  end.

(** ** What the run shows *)

Definition as_source (i : IrqTriggerSeqItem) : Z * Z * Z * Z := (soft i, timer i, nmi i, ext i).

(** The state between two edges, while there are items, and after the last. *)
Definition busy p it rest src res : bench :=
  {| bfm := {| interrupt_driver_queue := [it]; interrupt_source_queue := src; trace_interrupt_queue := []; pins := p |};
     at_ := Receiving; todo := rest; results := res |}.
Definition idle p src tr res : bench :=
  {| bfm := {| interrupt_driver_queue := []; interrupt_source_queue := src; trace_interrupt_queue := tr; pins := p |};
     at_ := NextItem; todo := []; results := res |}.

Lemma start_busy it rest : start (it :: rest) = busy no_interrupts it rest [] [].
Proof. by destruct rest. Qed.

Lemma edge_busy t p it it' rest src res :
  falling_edge t (busy p it (it' :: rest) src res)
  = busy it it' rest (src ++ [as_source p]) (res ++ [get_int t]).
Proof. by destruct rest. Qed.

Lemma edge_last t p it src res :
  falling_edge t (busy p it [] src res) = idle it (src ++ [as_source p]) [] (res ++ [get_int t]).
Proof. done. Qed.

Lemma edge_idle t p src tr res :
  falling_edge t (idle p src tr res) = idle p (src ++ [as_source p]) (tr ++ [get_int t]) res.
Proof. done. Qed.

Lemma run_idle core p res m : forall hist src tr,
  results (run core m hist (idle p src tr res)) = res /\
  interrupt_source_queue (bfm (run core m hist (idle p src tr res))) = src ++ replicate m (as_source p).
Proof.
  induction m as [|m IH]; intros hist src tr; cbn [run replicate]; [by rewrite app_nil_r|].
  rewrite edge_idle. destruct (IH (hist ++ [pins (bfm (idle p src tr res))]) (src ++ [as_source p])
    (tr ++ [get_int (core (hist ++ [pins (bfm (idle p src tr res))]))])) as [-> ->].
  by rewrite <- app_assoc.
Qed.

Lemma run_S core n hist s :
  run core (S n) hist s = run core n (hist ++ [pins (bfm s)]) (falling_edge (core (hist ++ [pins (bfm s)])) s).
Proof. done. Qed.

Lemma run_busy core m : forall rest p it hist src res,
  let s := run core (S (length rest) + m) hist (busy p it rest src res) in
  results s = res ++ ((fun k => get_int (core (hist ++ p :: take k (it :: rest)))) <$> seq 0 (S (length rest))) /\
  interrupt_source_queue (bfm s)
  = src ++ (as_source <$> (p :: take (length rest) (it :: rest))) ++ replicate m (as_source (List.last (it :: rest) it)).
Proof.
  induction rest as [|it' rest IH]; intros p it hist src res; cbv zeta.
  - change (S (length []) + m)%nat with (S m). rewrite run_S, edge_last.
    match goal with |- context [run core m ?h (idle ?q ?s ?t ?r)] => destruct (run_idle core q r m h s t) as [-> ->] end.
    split; [done|]. by rewrite <- app_assoc.
  - change (S (length (it' :: rest)) + m)%nat with (S (S (length rest) + m)). rewrite run_S, edge_busy.
    match goal with |- context [run core _ ?h (busy ?q ?i _ ?s ?r)] => destruct (IH q i h s r) as [-> ->] end.
    cbn [busy bfm pins]. split.
    + rewrite <- app_assoc. f_equal. cbn [length]. change (seq 0 (S (S (length rest)))) with (0 :: seq 1 (S (length rest)))%nat.
      rewrite <- fmap_S_seq. rewrite fmap_cons, <- list_fmap_compose. cbn [app]. f_equal.
      apply list_fmap_ext. intros _ k _. cbn [compose take]. by rewrite <- app_assoc.
    + rewrite <- !app_assoc. f_equal. cbn [length take]. cbn [fmap list_fmap app]. do 2 f_equal.
      assert (forall l (a d d' : IrqTriggerSeqItem), List.last (a :: l) d = List.last (a :: l) d') as Hlast.
      { clear. induction l as [|b l IH]; intros a d d'; [done|]. cbn in *. apply (IH b). }
      f_equal. f_equal. f_equal. change (List.last (it :: it' :: rest) it) with (List.last (it' :: rest) it). apply Hlast.
Qed.

(** C26: over a run with an edge for each item and any further ones, whatever the
    core answers: every item is driven once, in order, and the monitor reports the
    pins at every edge, first those of the reset; but the result that the driver
    records for an item is what the core shows at the edge at which the item is
    put on the pins, so that it depends on the earlier items only; and the
    scoreboard passes, whatever was recorded. *)
Theorem irq_results_stale (core : list IrqTriggerSeqItem -> option Z)
    (it : IrqTriggerSeqItem) (rest : list IrqTriggerSeqItem) (m : nat) :
  let s := run core (S (length rest) + m) [] (start (it :: rest)) in
  results s = (fun k => get_int (core (no_interrupts :: take k (it :: rest)))) <$> seq 0 (S (length rest)) /\
  interrupt_source_queue (bfm s)
  = (as_source <$> (no_interrupts :: take (length rest) (it :: rest)))
    ++ replicate m (as_source (List.last (it :: rest) it)) /\
  check_phase s = Ok tt.
Proof.
  cbv zeta. rewrite start_busy. destruct (run_busy core m rest no_interrupts it [] [] []) as [H1 H2].
  split; [exact H1|]. by split.
Qed.

(** A core that signals the interrupt at once: each result belongs to the item
    before. *)
Example irq_stale_example :
  let items := [Item 0 1 0 0; Item 0 0 0 0; Item 0 1 0 0; Item 0 0 0 0] in
  results (run (fun seen => Some (soft (List.last seen no_interrupts))) 4 [] (start items)) = [0; 1; 0; 1].
Proof. reflexivity. Qed.
