(* ===== verification/Uvm.v ===== *)
(** * Elaboration of the testbenches

    What the constructors and the [build_phase] and [connect_phase] methods of the
    components do: they create other components, set attributes, read and write
    the configuration and connect ports.  A component is named by its path in the
    tree; a method is a value of the state and error monad [E] over [uvm].

    Of pyuvm this uses what its documentation (and IEEE 1800.2, which it
    implements) says: the ports and exports that its own components have, the
    order of the phases (the build phase from the top of the tree downwards, the
    connect phase from the bottom upwards), that an analysis port delivers each
    item to every connected export, and that a setting is found under the
    component for which it was made or for all components. *)

From S2P Require Import Prelude Utils.
From stdpp Require Import base list strings.
From Stdlib Require Import ZArith Lia.

#[local] Open Scope string_scope.
#[local] Open Scope list_scope.

Definition path := list string.

Fixpoint path_eqb (p q : path) : bool :=
  match p, q with
  | [], [] => true
  | x :: p, y :: q => String.eqb x y && path_eqb p q
  | _, _ => false
  end.

Lemma path_eqb_spec p q : reflect (p = q) (path_eqb p q).
Proof.
  apply iff_reflect. revert q. induction p as [|x p IH]; intros [|y q]; cbn; try done.
  rewrite andb_true_iff, String.eqb_eq, <- IH. split; [by intros [= -> ->]|by intros [-> ->]].
Qed.

Definition path_in (p : path) (l : list path) : bool := existsb (path_eqb p) l.

Lemma path_in_spec p l : path_in p l = true <-> p ∈ l.
Proof.
  unfold path_in. rewrite existsb_exists, list_elem_of_In. split.
  - intros (q & Hq & E). by destruct (path_eqb_spec p q) as [->|].
  - intros Hp. exists p. split; [done|]. by destruct (path_eqb_spec p p).
Qed.

(** Floating-point values are kept as the expressions that compute them. *)
Inductive float_expr :=
  | Decimal (mantissa : Z) (digits : nat)
  | OfInt (z : Z)
  | FSub (a b : float_expr)
  | FMul (a b : float_expr)
  | FMax (a b : float_expr)
  | FTrials (p k j : float_expr).   (* smallest_number_of_trials(p, k, j) *)

Inductive value :=
  | VNone
  | VBool (b : bool)
  | VInt (z : Z)
  | VPair (v w : value)
  | VDict (entries : list (string * string))
  | VFloat (f : float_expr)
  | VStr (s : string)
  | VTop                          (* cocotb.top *)
  | VSignal (name : string)       (* an attribute of cocotb.top *)
  | VRead (name : string)         (* its value *)
  | VLen (name : string) (div : Z) (* len(...) // div *)
  | VObject (p : path)            (* a component, a port or an export *)
  | VNew (cls : string).          (* an object of a class without components *)

#[global] Instance float_expr_eq_dec : EqDecision float_expr.
Proof. solve_decision. Defined.
#[global] Instance value_eq_dec : EqDecision value.
Proof. solve_decision. Defined.

(** Arithmetic on settings. *)
Definition as_float (v : value) : float_expr :=
  match v with VInt z => OfInt z | VFloat f => f | _ => OfInt 0 end.
Definition vmul (v w : value) : value :=
  match v, w with VInt a, VInt b => VInt (a * b) | _, _ => VFloat (FMul (as_float v) (as_float w)) end.
Definition vsub (v w : value) : value :=
  match v, w with VInt a, VInt b => VInt (a - b) | _, _ => VFloat (FSub (as_float v) (as_float w)) end.
Definition vmax (v w : value) : value :=
  match v, w with VInt a, VInt b => VInt (Z.max a b) | _, _ => VFloat (FMax (as_float v) (as_float w)) end.
Definition vtrials (p k j : value) : value := VFloat (FTrials (as_float p) (as_float k) (as_float j)).
Definition str_of (v : value) : string := match v with VStr s => s | _ => "" end.
Definition dict_of (v : value) : option (list (string * string)) :=
  match v with VDict l => Some l | _ => None end.

(** ** The state of an elaboration *)

(** A setting: for one component, or for all of them (["*"]). *)
Record setting := { for_component : option path; field : string; set_to : value }.

Record uvm := {
  dut : list string;                      (* the names that cocotb.top has *)
  config : list setting;                  (* the last one first *)
  tree : list (path * string);            (* component and class, in the order of creation *)
  attrs : list (path * string * value);   (* the last one first *)
  links : list (path * path);             (* a port and the export it is connected to *)
  driven : list (string * value);         (* the signals of cocotb.top that were set, the last one first *)
  logged : nat                            (* errors *)
}.

Definition E (A : Type) : Type := uvm -> result (A * uvm).

#[global] Instance E_ret : MRet E := fun _ a st => Ok (a, st).
#[global] Instance E_bind : MBind E := fun _ _ f m st =>
  match m st with Ok (a, st) => f a st | Raise e => Raise e end.

Definition ebind {A B} (m : E A) (f : A -> E B) : E B := m ≫= f.

Declare Scope uvm_scope.
Delimit Scope uvm_scope with uvm.
Notation "'let*' x ':=' m 'in' k" := (ebind m (fun x => k))
  (at level 10, x pattern, m at level 100, k at level 200) : uvm_scope.
#[global] Open Scope uvm_scope.

Definition raise {A} (e : exn) : E A := fun _ => Raise e.
Definition skip : E unit := mret ().
Definition modify (f : uvm -> uvm) : E unit := fun st => Ok ((), f st).
Definition gets {A} (f : uvm -> A) : E A := fun st => Ok (f st, st).

Fixpoint each {X} (f : X -> E unit) (xs : list X) : E unit :=
  match xs with [] => skip | x :: xs => f x ;; each f xs end.

(** ** Classes *)

(** What pyuvm's own classes give a component. *)
Inductive library_class :=
  | uvm_component | uvm_driver | uvm_env | uvm_test | uvm_agent | uvm_sequencer | uvm_analysis_port
  | uvm_get_port | uvm_tlm_analysis_fifo.

Definition library_ports (c : library_class) : list string :=
  match c with
  | uvm_driver => ["seq_item_port"]
  | uvm_sequencer => ["seq_item_export"]
  | uvm_tlm_analysis_fifo => ["analysis_export"; "get_export"]
  | _ => []
  end.

Definition kwargs := list (string * value).

(** [init] gets the keyword arguments and returns those that are left for the
    constructor of the base class. *)
Record class := {
  cname : string;
  base : library_class;
  init : path -> kwargs -> E kwargs;
  build_phase : path -> E unit;
  connect_phase : path -> E unit }.

(** A constructor that takes no keyword arguments. *)
Definition no_keys (self : path) (kw : kwargs) : E kwargs := mret kw.

Definition library (name : string) (c : library_class) : class :=
  {| cname := name; base := c; init := no_keys;
     build_phase := fun _ => skip; connect_phase := fun _ => skip |}.

Definition sequencer : class := library "uvm_sequencer" uvm_sequencer.
Definition analysis_port : class := library "uvm_analysis_port" uvm_analysis_port.
Definition get_port : class := library "uvm_get_port" uvm_get_port.
Definition analysis_fifo : class := library "uvm_tlm_analysis_fifo" uvm_tlm_analysis_fifo.

(** A test, and what it does when the components are connected. *)
Record test := { test_class : class; end_of_elaboration_phase : path -> E unit }.

(** ** The operations *)

Definition setattr (obj : path) (name : string) (v : value) : E unit := modify (fun st =>
  {| dut := dut st; config := config st; tree := tree st; attrs := (obj, name, v) :: attrs st;
     links := links st; driven := driven st; logged := logged st |}).

Definition find_attr (l : list (path * string * value)) (obj : path) (name : string) : option value :=
  snd <$> List.find (fun a => path_eqb a.1.1 obj && String.eqb a.1.2 name) l.

Definition getattr (obj : path) (name : string) : E value :=
  let* o := gets (fun st => find_attr (attrs st) obj name) in
  match o with Some v => mret v | None => raise AttributeError end.

(** [cocotb.top.<name>] *)
Definition cocotb_top (name : string) : E value :=
  let* known := gets (fun st => str_in name (dut st)) in
  if known then mret (VSignal name) else raise AttributeError.

(** [obj.<a>.<b>]... *)
Fixpoint dot (v : value) (names : list string) : E value :=
  match names with
  | [] => mret v
  | n :: names =>
      match v with
      | VObject p => let* v := getattr p n in dot v names
      | VTop => let* v := cocotb_top n in dot v names
      | _ => raise AttributeError
      end
  end.

Definition add_child (p : path) (cls : string) : E unit := modify (fun st =>
  {| dut := dut st; config := config st; tree := tree st ++ [(p, cls)]; attrs := attrs st;
     links := links st; driven := driven st; logged := logged st |}).

(** The constructor call [cls(name, parent, **kwargs)]. A component has no two
    children of the same name. *)
Definition new (cls : class) (name : string) (parent : path) (kw : kwargs) : E value :=
  let self := parent ++ [name] in
  let* taken := gets (fun st => path_in self (tree st).*1) in
  if (taken : bool) then raise AssertionError
  else
    add_child self (cname cls) ;;
    each (fun port => setattr self port (VObject (self ++ [port]))) (library_ports (base cls)) ;;
    let* rest := init cls self kw in
    match rest with [] => mret (VObject self) | _ => raise TypeError end.

(** [self.<attr> = cls(name, self, **kwargs)] *)
Definition create (self : path) (attr : string) (cls : class) (name : string) (kw : kwargs) : E unit :=
  let* v := new cls name self kw in setattr self attr v.

Fixpoint take_key (k : string) (kw : kwargs) : option (value * kwargs) :=
  match kw with
  | [] => None
  | (k', v) :: kw =>
      if String.eqb k k' then Some (v, kw)
      else match take_key k kw with Some (w, rest) => Some (w, (k', v) :: rest) | None => None end
  end.

(** [<x> = kwargs[k]; del kwargs[k]] *)
Definition pop_key (k : string) (kw : kwargs) : E (value * kwargs) :=
  match take_key k kw with Some r => mret r | None => raise KeyError end.

(** [self.<k> = kwargs[k]; del kwargs[k]; super().__init__( *args, **kwargs)] *)
Definition keep_key (k : string) (self : path) (kw : kwargs) : E kwargs :=
  let* (v, kw) := pop_key k kw in setattr self k v ;; mret kw.

(** [cocotb.top.<name>.value = v] *)
Definition drive_signal (n : string) (v : value) : E unit := modify (fun st =>
  {| dut := dut st; config := config st; tree := tree st; attrs := attrs st; links := links st;
     driven := (n, v) :: driven st; logged := logged st |}).
Definition set_top (n : string) (v : value) : E unit :=
  let* _ := cocotb_top n in drive_signal n v.

(** [self.<attr>.value = v], for an attribute that holds a signal. *)
Definition set_signal (self : path) (attr : string) (v : value) : E unit :=
  let* s := getattr self attr in
  match s with
  | VSignal n => drive_signal n v
  | _ => raise AttributeError
  end.

Definition connect (v w : value) : E unit :=
  match v, w with
  | VObject p, VObject q => modify (fun st =>
      {| dut := dut st; config := config st; tree := tree st; attrs := attrs st;
         links := links st ++ [(p, q)]; driven := driven st; logged := logged st |})
  | _, _ => raise AttributeError
  end.

(** [self.<a>.<b>.connect(self.<c>.<d>)] *)
Definition connect_attrs (self : path) (a b : list string) : E unit :=
  let* v := dot (VObject self) a in let* w := dot (VObject self) b in connect v w.

(** [ConfigDB().set(ctx, inst, field, v)], for [ctx] a component and [inst] empty,
    or for [None] and ["*"]. *)
Definition cdb_set (ctx : option path) (k : string) (v : value) : E unit := modify (fun st =>
  {| dut := dut st; config := {| for_component := ctx; field := k; set_to := v |} :: config st;
     tree := tree st; attrs := attrs st; links := links st; driven := driven st; logged := logged st |}).

Definition setting_for (ctx : option path) (k : string) (s : setting) : bool :=
  String.eqb (field s) k
  && match for_component s, ctx with None, _ => true | Some p, Some q => path_eqb p q | _, _ => false end.

Definition find_setting (ctx : option path) (k : string) (l : list setting) : option value :=
  set_to <$> List.find (setting_for ctx k) l.

(** [ConfigDB().get(ctx, "", field)]; pyuvm raises an exception of its own. *)
Definition cdb_get (ctx : option path) (k : string) : E value :=
  let* o := gets (fun st => find_setting ctx k (config st)) in
  match o with Some v => mret v | None => raise PlainException end.

(** [self.<attr> = ConfigDB().get(ctx, "", field)] *)
Definition load (self : path) (attr : string) (ctx : option path) (k : string) : E unit :=
  let* v := cdb_get ctx k in setattr self attr v.

(** The same two calls for the component [self.<a>]. *)
Definition object (v : value) : option path := match v with VObject p => Some p | _ => None end.
Definition cdb_set_at (self : path) (a : list string) (k : string) (v : value) : E unit :=
  let* o := dot (VObject self) a in cdb_set (object o) k v.
Definition cdb_get_at (self : path) (a : list string) (k : string) : E value :=
  let* o := dot (VObject self) a in cdb_get (object o) k.

Definition log_error : E unit := modify (fun st =>
  {| dut := dut st; config := config st; tree := tree st; attrs := attrs st; links := links st; driven := driven st;
     logged := S (logged st) |}).

(** [collect_signals(signals, uut, self, ...)] *)
Definition collect (self : path) (signals : list string) (uut_prefix obj_prefix : string)
    (signal_map : option (list (string * string))) : E unit :=
  let* names := gets dut in
  each (fun '(attr, s) =>
    match s with
    | Some s => setattr self attr (VSignal s)
    | None => setattr self attr VNone ;; log_error
    end)
    (collect_signals signals names uut_prefix obj_prefix
       (match signal_map with
        | None => None
        | Some m => Some (fun k => snd <$> List.find (fun e => String.eqb e.1 k) m)
        end)).

(** ** The phases *)

Definition children (p : path) (st : uvm) : list path :=
  List.filter (fun c => match c with [] => false | _ => path_eqb (removelast c) p end) (tree st).*1.

Definition class_of (classes : list class) (p : path) (st : uvm) : option class :=
  match List.find (fun e => path_eqb e.1 p) (tree st) with
  | Some (_, n) => List.find (fun c => String.eqb (cname c) n) classes
  | None => None
  end.

(** A testbench: the names that [cocotb.top] has, the settings that are read when a
    test runs, and the tests, each with the classes of its components. *)
Record bench := {
  dut_ports : list string;
  run_reads : list (option string * string);
  runs : list (list class * test) }.

Section Phases.
(** The classes of the bench. *)
Variable classes : list class.

Definition on_class (f : class -> path -> E unit) (p : path) : E unit :=
  let* c := gets (class_of classes p) in
  match c with Some c => f c p | None => skip end.

Fixpoint build_from (depth : nat) (p : path) : E unit :=
  on_class build_phase p ;;
  match depth with
  | O => skip
  | S depth => let* ps := gets (children p) in each (build_from depth) ps
  end.

Fixpoint connect_from (depth : nat) (p : path) : E unit :=
  (match depth with
   | O => skip
   | S depth => let* ps := gets (children p) in each (connect_from depth) ps
   end) ;;
  on_class connect_phase p.

(** The trees of the benches are less than 6 levels deep. *)
Definition depth : nat := 6.

End Phases.

(** pyuvm creates the test and runs its phases; [classes] are those of the bench. *)
Definition elaborate (classes : list class) (names : list string) (t : test) : result uvm :=
  let classes := test_class t :: classes in
  let root := ["uvm_test_top"] in
  let run : E unit :=
    new (test_class t) "uvm_test_top" [] [] ;;
    build_from classes depth root ;; connect_from classes depth root ;;
    end_of_elaboration_phase t root in
  match run {| dut := names; config := []; tree := []; attrs := []; links := []; driven := []; logged := 0 |} with
  | Ok (_, st) => Ok st
  | Raise e => Raise e
  end.

(** ** What the connections do *)

(** The fifo that a get port reads. *)
Definition fifos_of (st : uvm) (port : path) : list path :=
  omap (fun l => if path_eqb l.1 port then
                   match rev l.2 with "get_export" :: f => Some (rev f) | _ => None end
                 else None) (links st).

(** The analysis ports that fill a fifo. *)
Definition feeders (st : uvm) (fifo : path) : list path :=
  omap (fun l => if path_eqb l.2 (fifo ++ ["analysis_export"]) then Some l.1 else None) (links st).

(** The items that a get port can get, of the items that analysis ports write in
    the course of a test: one copy for every connection, in the order of the writes. *)
Definition received {I} (st : uvm) (port : path) (writes : list (path * I)) : list I :=
  fifo ← fifos_of st port;
  w ← writes;
  match w with (ap, item) => (fun _ => item) <$> List.filter (fun p => path_eqb p ap) (feeders st fifo) end.

(** The driver's port is connected to the sequencer's export. *)
Definition served_by (st : uvm) (drv : path) : list path :=
  omap (fun l => if path_eqb l.1 (drv ++ ["seq_item_port"]) then
                   match rev l.2 with "seq_item_export" :: s => Some (rev s) | _ => None end
                 else None) (links st).

(** Class of the library a component belongs to. *)
Definition kind_of (classes : list class) (cls : string) : library_class :=
  match List.find (fun c => String.eqb (cname c) cls)
          (classes ++ [sequencer; analysis_port; get_port; analysis_fifo]) with
  | Some c => base c
  | None => uvm_component
  end.

#[global] Instance library_class_eq_dec : EqDecision library_class.
Proof. solve_decision. Defined.

Definition components_of (classes : list class) (k : library_class) (st : uvm) : list path :=
  (fun e => e.1) <$> List.filter (fun e => bool_decide (kind_of classes e.2 = k)) (tree st).

Definition of_class (cls : string) (st : uvm) : list path :=
  (fun e => e.1) <$> List.filter (fun e => String.eqb e.2 cls) (tree st).

(** ** Facts *)

Lemma copies {X} (x : X) (ap : path) (l : list path) : NoDup l ->
  (fun _ => x) <$> List.filter (fun p => path_eqb p ap) l = if path_in ap l then [x] else [].
Proof.
  induction l as [|p l IH]; intros Hnd; [done|]. apply NoDup_cons in Hnd as [Hp Hl].
  cbn [List.filter]. unfold path_in. cbn [existsb]. fold (path_in ap l).
  destruct (path_eqb_spec p ap) as [E1|E1], (path_eqb_spec ap p) as [E2|E2]; cbn [orb]; try congruence; subst.
  - rewrite fmap_cons, IH by done. destruct (path_in ap l) eqn:E'; [|done]. by apply path_in_spec in E'.
  - by apply IH.
Qed.

(** A port with one fifo, filled by each of its sources over one connection, gets
    what those sources write, in the order of the writes. *)
Lemma received_spec {I} st port fifo (writes : list (path * I)) :
  fifos_of st port = [fifo] -> NoDup (feeders st fifo) ->
  received st port writes = snd <$> List.filter (fun w => path_in w.1 (feeders st fifo)) writes.
Proof.
  intros Hf Hnd. unfold received. rewrite Hf, bind_cons, app_nil_r.
  induction writes as [|[ap i] writes IH]; [done|].
  rewrite bind_cons, IH, copies by done. cbn [List.filter fst].
  by destruct (path_in _ _).
Qed.
