(* ===== verification/Duts.v ===== *)
(** * The ports of the modules under test

    The names that [cocotb.top] has in each testbench, in the order of the port
    list of the module that the bench's Makefile names as its top level. *)

From S2P Require Import Prelude.
From stdpp Require Import base list strings.

#[local] Open Scope string_scope.
#[local] Open Scope list_scope.

(** [el2_exu_alu_ctl_wrapper] *)
Definition exu_alu_ports : list string :=
  ["clk"; "rst_l"; "scan_mode"; "flush_upper_x"; "flush_lower_r"; "enable"; "valid_in"; "ap_clz";
   "ap_ctz"; "ap_cpop"; "ap_sext_b"; "ap_sext_h"; "ap_min"; "ap_max"; "ap_pack"; "ap_packu";
   "ap_packh"; "ap_rol"; "ap_ror"; "ap_grev"; "ap_gorc"; "ap_zbb"; "ap_bset"; "ap_bclr"; "ap_binv";
   "ap_bext"; "ap_sh1add"; "ap_sh2add"; "ap_sh3add"; "ap_zba"; "ap_land"; "ap_lor"; "ap_lxor";
   "ap_sll"; "ap_srl"; "ap_sra"; "ap_beq"; "ap_bne"; "ap_blt"; "ap_bge"; "ap_add"; "ap_sub";
   "ap_slt"; "ap_unsignl"; "ap_jall"; "ap_predict_tl"; "ap_predict_nt"; "ap_csr_write";
   "ap_csr_imm"; "csr_ren_in"; "csr_rddata_in"; "a_in"; "b_in"; "pc_in"; "pp_in"; "brimm_in";
   "result_ff"; "flush_upper_out"; "flush_final_out"; "flush_path_out"; "pc_ff";
   "pred_correct_out"; "predict_p_out"].

(** [el2_exu_mul_ctl_wrapper] *)
Definition exu_mul_ports : list string :=
  ["clk"; "rst_l"; "scan_mode"; "mul_p_valid"; "mul_p_rs1_sign"; "mul_p_rs2_sign"; "mul_p_low";
   "mul_p_bcompress"; "mul_p_bdecompress"; "mul_p_clmul"; "mul_p_clmulh"; "mul_p_clmulr";
   "mul_p_grev"; "mul_p_gorc"; "mul_p_shfl"; "mul_p_unshfl"; "mul_p_crc32_b"; "mul_p_crc32_h";
   "mul_p_crc32_w"; "mul_p_crc32c_b"; "mul_p_crc32c_h"; "mul_p_crc32c_w"; "mul_p_bfp";
   "mul_p_xperm_n"; "mul_p_xperm_b"; "mul_p_xperm_h"; "rs1_in"; "rs2_in"; "result_x"].

(** [el2_exu_div_ctl_wrapper] *)
Definition exu_div_ports : list string :=
  ["clk"; "rst_l"; "scan_mode"; "dp_valid"; "dp_unsign"; "dp_rem"; "dividend"; "divisor"; "cancel";
   "finish_dly"; "out"].

(** [el2_ifu_compress_ctl] *)
Definition ifu_compress_ports : list string :=
  ["din"; "dout"].

(** [el2_dec_ib_ctl_wrapper] *)
Definition dec_ib_ports : list string :=
  ["dbg_cmd_valid"; "dbg_cmd_write"; "dbg_cmd_type"; "dbg_cmd_addr"; "i0_brp_valid";
   "i0_brp_toffset"; "i0_brp_hist"; "i0_brp_br_error"; "i0_brp_br_start_error"; "i0_brp_bank";
   "i0_brp_prett"; "i0_brp_way"; "i0_brp_ret"; "ifu_i0_bp_index"; "ifu_i0_bp_fghr";
   "ifu_i0_bp_btag"; "ifu_i0_fa_index"; "ifu_i0_pc4"; "ifu_i0_valid"; "ifu_i0_icaf";
   "ifu_i0_icaf_type"; "ifu_i0_icaf_second"; "ifu_i0_dbecc"; "ifu_i0_instr"; "ifu_i0_pc";
   "dec_ib0_valid_d"; "dec_debug_valid_d"; "dec_i0_instr_d"; "dec_i0_pc_d"; "dec_i0_pc4_d";
   "dec_i0_brp_valid"; "dec_i0_brp_toffset"; "dec_i0_brp_hist"; "dec_i0_brp_br_error";
   "dec_i0_brp_br_start_error"; "dec_i0_brp_bank"; "dec_i0_brp_prett"; "dec_i0_brp_way";
   "dec_i0_brp_ret"; "dec_i0_bp_index"; "dec_i0_bp_fghr"; "dec_i0_bp_btag"; "dec_i0_bp_fa_index";
   "dec_i0_icaf_d"; "dec_i0_icaf_second_d"; "dec_i0_icaf_type_d"; "dec_i0_dbecc_d";
   "dec_debug_wdata_rs1_d"; "dec_debug_fence_d"].

(** [el2_dec_trigger_wrapper] *)
Definition dec_tl_ports : list string :=
  ["dec_i0_pc_d"; "select"; "match"; "store"; "load"; "execute"; "m"; "tdata";
   "dec_i0_trigger_match_d"].

(** [el2_lsu_trigger_wrapper] *)
Definition lsu_tl_ports : list string :=
  ["select"; "match"; "store"; "load"; "execute"; "m"; "tdata"; "lsu_addr_m"; "store_data_m";
   "lsu_trigger_match_m"].

(** [el2_dec_wrapper] *)
Definition dec_ports : list string :=
  ["clk"; "active_clk"; "free_clk"; "free_l2clk"; "lsu_fastint_stall_any"; "dec_extint_stall";
   "dec_i0_decode_d"; "dec_pause_state_cg"; "dec_tlu_core_empty"; "rst_l"; "rst_vec"; "nmi_int";
   "nmi_vec"; "i_cpu_halt_req"; "i_cpu_run_req"; "o_cpu_halt_status"; "o_cpu_halt_ack";
   "o_cpu_run_ack"; "o_debug_mode_status"; "core_id"; "mpc_debug_halt_req"; "mpc_debug_run_req";
   "mpc_reset_run_req"; "mpc_debug_halt_ack"; "mpc_debug_run_ack"; "debug_brkpt_status";
   "exu_pmu_i0_br_misp"; "exu_pmu_i0_br_ataken"; "exu_pmu_i0_pc4"; "lsu_nonblock_load_valid_m";
   "lsu_nonblock_load_tag_m"; "lsu_nonblock_load_inv_r"; "lsu_nonblock_load_inv_tag_r";
   "lsu_nonblock_load_data_valid"; "lsu_nonblock_load_data_error"; "lsu_nonblock_load_data_tag";
   "lsu_nonblock_load_data"; "lsu_pmu_bus_trxn"; "lsu_pmu_bus_misaligned"; "lsu_pmu_bus_error";
   "lsu_pmu_bus_busy"; "lsu_pmu_misaligned_m"; "lsu_pmu_load_external_m";
   "lsu_pmu_store_external_m"; "dma_pmu_dccm_read"; "dma_pmu_dccm_write"; "dma_pmu_any_read";
   "dma_pmu_any_write"; "lsu_fir_addr"; "lsu_fir_error"; "ifu_pmu_instr_aligned";
   "ifu_pmu_fetch_stall"; "ifu_pmu_ic_miss"; "ifu_pmu_ic_hit"; "ifu_pmu_bus_error";
   "ifu_pmu_bus_busy"; "ifu_pmu_bus_trxn"; "ifu_ic_error_start"; "ifu_iccm_rd_ecc_single_err";
   "lsu_trigger_match_m"; "dbg_cmd_valid"; "dbg_cmd_write"; "dbg_cmd_type"; "dbg_cmd_addr";
   "dbg_cmd_wrdata"; "ifu_i0_icaf"; "ifu_i0_icaf_type"; "ifu_i0_icaf_second"; "ifu_i0_dbecc";
   "lsu_idle_any"; "ifu_i0_bp_index"; "ifu_i0_bp_fghr"; "ifu_i0_bp_btag"; "ifu_i0_fa_index";
   "lsu_single_ecc_error_incr"; "lsu_imprecise_error_load_any"; "lsu_imprecise_error_store_any";
   "lsu_imprecise_error_addr_any"; "exu_div_result"; "exu_div_wren"; "exu_csr_rs1_x";
   "lsu_result_m"; "lsu_result_corr_r"; "lsu_load_stall_any"; "lsu_store_stall_any";
   "dma_dccm_stall_any"; "dma_iccm_stall_any"; "iccm_dma_sb_error"; "exu_flush_final"; "exu_npc_r";
   "exu_i0_result_x"; "ifu_i0_valid"; "ifu_i0_instr"; "ifu_i0_pc"; "ifu_i0_pc4"; "exu_i0_pc_x";
   "mexintpend"; "timer_int"; "soft_int"; "pic_claimid"; "pic_pl"; "mhwakeup"; "dec_tlu_meicurpl";
   "dec_tlu_meipt"; "ifu_ic_debug_rd_data"; "ifu_ic_debug_rd_data_valid"; "dec_tlu_ic_diag_pkt";
   "dbg_halt_req"; "dbg_resume_req"; "ifu_miss_state_idle"; "dec_tlu_dbg_halted";
   "dec_tlu_debug_mode"; "dec_tlu_resume_ack"; "dec_tlu_flush_noredir_r";
   "dec_tlu_mpc_halted_only"; "dec_tlu_flush_leak_one_r"; "dec_tlu_flush_err_r"; "dec_tlu_meihap";
   "dec_debug_wdata_rs1_d"; "dec_dbg_rddata"; "dec_dbg_cmd_done"; "dec_dbg_cmd_fail";
   "trigger_pkt_any_select"; "trigger_pkt_any_match"; "trigger_pkt_any_store";
   "trigger_pkt_any_load"; "trigger_pkt_any_execute"; "trigger_pkt_any_m";
   "trigger_pkt_any_tdata2"; "dec_tlu_force_halt"; "exu_i0_br_hist_r"; "exu_i0_br_error_r";
   "exu_i0_br_start_error_r"; "exu_i0_br_valid_r"; "exu_i0_br_mp_r"; "exu_i0_br_middle_r";
   "exu_i0_br_way_r"; "dec_i0_rs1_en_d"; "dec_i0_rs2_en_d"; "gpr_i0_rs1_d"; "gpr_i0_rs2_d";
   "dec_i0_immed_d"; "dec_i0_br_immed_d"; "i0_ap"; "dec_i0_alu_decode_d"; "dec_i0_branch_d";
   "dec_i0_select_pc_d"; "dec_i0_pc_d"; "dec_i0_rs1_bypass_en_d"; "dec_i0_rs2_bypass_en_d";
   "dec_i0_result_r"; "lsu_p"; "dec_qual_lsu_d"; "mul_p"; "div_p"; "dec_div_cancel";
   "dec_lsu_offset_d"; "dec_csr_ren_d"; "dec_csr_rddata_d"; "dec_tlu_flush_lower_r";
   "dec_tlu_flush_lower_wb"; "dec_tlu_flush_path_r"; "dec_tlu_i0_kill_writeb_r";
   "dec_tlu_fence_i_r"; "pred_correct_npc_x"; "dec_tlu_br0_r_pkt"; "dec_tlu_perfcnt0";
   "dec_tlu_perfcnt1"; "dec_tlu_perfcnt2"; "dec_tlu_perfcnt3"; "dec_i0_predict_p_d";
   "i0_predict_fghr_d"; "i0_predict_index_d"; "i0_predict_btag_d"; "dec_fa_error_index";
   "dec_lsu_valid_raw_d"; "dec_tlu_mrac_ff"; "dec_data_en"; "dec_ctl_en"; "ifu_i0_cinst";
   "trace_rv_trace_pkt"; "pmp_pmpcfg"; "pmp_pmpaddr"; "priv_mode"; "priv_mode_eff"; "priv_mode_ns";
   "mseccfg"; "dec_tlu_external_ldfwd_disable"; "dec_tlu_sideeffect_posted_disable";
   "dec_tlu_core_ecc_disable"; "dec_tlu_dccm_wr_readback_disable"; "dec_tlu_bpred_disable";
   "dec_tlu_wb_coalescing_disable"; "dec_tlu_dma_qos_prty"; "dec_tlu_misc_clk_override";
   "dec_tlu_ifu_clk_override"; "dec_tlu_lsu_clk_override"; "dec_tlu_bus_clk_override";
   "dec_tlu_pic_clk_override"; "dec_tlu_picio_clk_override"; "dec_tlu_dccm_clk_override";
   "dec_tlu_icm_clk_override"; "dec_tlu_i0_commit_cmt"; "scan_mode"].

(** [el2_dec_tlu_ctl_wrapper] *)
Definition dec_tlu_ctl_ports : list string :=
  ["clk"; "free_clk"; "free_l2clk"; "rst_l"; "scan_mode"; "rst_vec"; "nmi_int"; "nmi_vec";
   "i_cpu_halt_req"; "i_cpu_run_req"; "lsu_fastint_stall_any"; "ifu_pmu_instr_aligned";
   "ifu_pmu_fetch_stall"; "ifu_pmu_ic_miss"; "ifu_pmu_ic_hit"; "ifu_pmu_bus_error";
   "ifu_pmu_bus_busy"; "ifu_pmu_bus_trxn"; "dec_pmu_instr_decoded"; "dec_pmu_decode_stall";
   "dec_pmu_presync_stall"; "dec_pmu_postsync_stall"; "lsu_store_stall_any"; "dma_dccm_stall_any";
   "dma_iccm_stall_any"; "exu_pmu_i0_br_misp"; "exu_pmu_i0_br_ataken"; "exu_pmu_i0_pc4";
   "lsu_pmu_bus_trxn"; "lsu_pmu_bus_misaligned"; "lsu_pmu_bus_error"; "lsu_pmu_bus_busy";
   "lsu_pmu_load_external_m"; "lsu_pmu_store_external_m"; "dma_pmu_dccm_read";
   "dma_pmu_dccm_write"; "dma_pmu_any_read"; "dma_pmu_any_write"; "lsu_fir_addr"; "lsu_fir_error";
   "iccm_dma_sb_error"; "lsu_single_ecc_error_incr"; "dec_pause_state";
   "lsu_imprecise_error_store_any"; "lsu_imprecise_error_load_any"; "lsu_imprecise_error_addr_any";
   "dec_csr_wen_unq_d"; "dec_csr_any_unq_d"; "dec_csr_rdaddr_d"; "dec_csr_wen_r";
   "dec_csr_rdaddr_r"; "dec_csr_wraddr_r"; "dec_csr_wrdata_r"; "dec_csr_stall_int_ff";
   "dec_tlu_i0_valid_r"; "exu_npc_r"; "dec_tlu_i0_pc_r"; "dec_illegal_inst"; "dec_i0_decode_d";
   "exu_i0_br_hist_r"; "exu_i0_br_error_r"; "exu_i0_br_start_error_r"; "exu_i0_br_valid_r";
   "exu_i0_br_mp_r"; "exu_i0_br_middle_r"; "exu_i0_br_way_r"; "dec_tlu_core_empty";
   "dec_dbg_cmd_done"; "dec_dbg_cmd_fail"; "dec_tlu_dbg_halted"; "dec_tlu_debug_mode";
   "dec_tlu_resume_ack"; "dec_tlu_debug_stall"; "dec_tlu_flush_noredir_r";
   "dec_tlu_mpc_halted_only"; "dec_tlu_flush_leak_one_r"; "dec_tlu_flush_err_r";
   "dec_tlu_flush_extint"; "dec_tlu_meihap"; "dbg_halt_req"; "dbg_resume_req";
   "ifu_miss_state_idle"; "lsu_idle_any"; "dec_div_active"; "trigger_pkt_any_select";
   "trigger_pkt_any_match"; "trigger_pkt_any_store"; "trigger_pkt_any_load";
   "trigger_pkt_any_execute"; "trigger_pkt_any_m"; "trigger_pkt_any_tdata2"; "ifu_ic_error_start";
   "ifu_iccm_rd_ecc_single_err"; "ifu_ic_debug_rd_data"; "ifu_ic_debug_rd_data_valid";
   "dec_tlu_ic_diag_pkt"; "pic_claimid"; "pic_pl"; "mhwakeup"; "mexintpend"; "timer_int";
   "soft_int"; "o_cpu_halt_status"; "o_cpu_halt_ack"; "o_cpu_run_ack"; "o_debug_mode_status";
   "core_id"; "mpc_debug_halt_req"; "mpc_debug_run_req"; "mpc_reset_run_req"; "mpc_debug_halt_ack";
   "mpc_debug_run_ack"; "debug_brkpt_status"; "dec_tlu_meicurpl"; "dec_tlu_meipt";
   "dec_csr_rddata_d"; "dec_csr_legal_d"; "dec_tlu_br0_r_pkt"; "dec_tlu_i0_kill_writeb_wb";
   "dec_tlu_flush_lower_wb"; "dec_tlu_i0_commit_cmt"; "dec_tlu_i0_kill_writeb_r";
   "dec_tlu_flush_lower_r"; "dec_tlu_flush_path_r"; "dec_tlu_fence_i_r"; "dec_tlu_wr_pause_r";
   "dec_tlu_flush_pause_r"; "dec_tlu_presync_d"; "dec_tlu_postsync_d"; "dec_tlu_mrac_ff";
   "dec_tlu_force_halt"; "dec_tlu_perfcnt0"; "dec_tlu_perfcnt1"; "dec_tlu_perfcnt2";
   "dec_tlu_perfcnt3"; "dec_tlu_i0_exc_valid_wb1"; "dec_tlu_i0_valid_wb1"; "dec_tlu_int_valid_wb1";
   "dec_tlu_exc_cause_wb1"; "dec_tlu_mtval_wb1"; "dec_tlu_external_ldfwd_disable";
   "dec_tlu_sideeffect_posted_disable"; "dec_tlu_core_ecc_disable";
   "dec_tlu_dccm_wr_readback_disable"; "dec_tlu_bpred_disable"; "dec_tlu_wb_coalescing_disable";
   "dec_tlu_pipelining_disable"; "dec_tlu_trace_disable"; "dec_tlu_dma_qos_prty";
   "dec_tlu_misc_clk_override"; "dec_tlu_dec_clk_override"; "dec_tlu_ifu_clk_override";
   "dec_tlu_lsu_clk_override"; "dec_tlu_bus_clk_override"; "dec_tlu_pic_clk_override";
   "dec_tlu_picio_clk_override"; "dec_tlu_dccm_clk_override"; "dec_tlu_icm_clk_override";
   "priv_mode"; "priv_mode_eff"; "priv_mode_ns"; "mseccfg"; "pmp_pmpcfg"; "pmp_pmpaddr"].

(** [el2_dec_tlu_ctl] *)
Definition dec_pmp_ctl_ports : list string :=
  ["clk"; "free_clk"; "free_l2clk"; "rst_l"; "scan_mode"; "rst_vec"; "nmi_int"; "nmi_vec";
   "i_cpu_halt_req"; "i_cpu_run_req"; "lsu_fastint_stall_any"; "ifu_pmu_instr_aligned";
   "ifu_pmu_fetch_stall"; "ifu_pmu_ic_miss"; "ifu_pmu_ic_hit"; "ifu_pmu_bus_error";
   "ifu_pmu_bus_busy"; "ifu_pmu_bus_trxn"; "dec_pmu_instr_decoded"; "dec_pmu_decode_stall";
   "dec_pmu_presync_stall"; "dec_pmu_postsync_stall"; "lsu_store_stall_any"; "dma_dccm_stall_any";
   "dma_iccm_stall_any"; "exu_pmu_i0_br_misp"; "exu_pmu_i0_br_ataken"; "exu_pmu_i0_pc4";
   "lsu_pmu_bus_trxn"; "lsu_pmu_bus_misaligned"; "lsu_pmu_bus_error"; "lsu_pmu_bus_busy";
   "lsu_pmu_load_external_m"; "lsu_pmu_store_external_m"; "dma_pmu_dccm_read";
   "dma_pmu_dccm_write"; "dma_pmu_any_read"; "dma_pmu_any_write"; "lsu_fir_addr"; "lsu_fir_error";
   "iccm_dma_sb_error"; "lsu_error_pkt_r"; "lsu_single_ecc_error_incr"; "dec_pause_state";
   "lsu_imprecise_error_store_any"; "lsu_imprecise_error_load_any"; "lsu_imprecise_error_addr_any";
   "dec_csr_wen_unq_d"; "dec_csr_any_unq_d"; "dec_csr_rdaddr_d"; "dec_csr_wen_r";
   "dec_csr_rdaddr_r"; "dec_csr_wraddr_r"; "dec_csr_wrdata_r"; "dec_csr_stall_int_ff";
   "dec_tlu_i0_valid_r"; "exu_npc_r"; "dec_tlu_i0_pc_r"; "dec_tlu_packet_r"; "dec_illegal_inst";
   "dec_i0_decode_d"; "exu_i0_br_hist_r"; "exu_i0_br_error_r"; "exu_i0_br_start_error_r";
   "exu_i0_br_valid_r"; "exu_i0_br_mp_r"; "exu_i0_br_middle_r"; "exu_i0_br_way_r";
   "dec_tlu_core_empty"; "dec_dbg_cmd_done"; "dec_dbg_cmd_fail"; "dec_tlu_dbg_halted";
   "dec_tlu_debug_mode"; "dec_tlu_resume_ack"; "dec_tlu_debug_stall"; "dec_tlu_flush_noredir_r";
   "dec_tlu_mpc_halted_only"; "dec_tlu_flush_leak_one_r"; "dec_tlu_flush_err_r";
   "dec_tlu_flush_extint"; "dec_tlu_meihap"; "dbg_halt_req"; "dbg_resume_req";
   "ifu_miss_state_idle"; "lsu_idle_any"; "dec_div_active"; "trigger_pkt_any";
   "ifu_ic_error_start"; "ifu_iccm_rd_ecc_single_err"; "ifu_ic_debug_rd_data";
   "ifu_ic_debug_rd_data_valid"; "dec_tlu_ic_diag_pkt"; "pic_claimid"; "pic_pl"; "mhwakeup";
   "mexintpend"; "timer_int"; "soft_int"; "o_cpu_halt_status"; "o_cpu_halt_ack"; "o_cpu_run_ack";
   "o_debug_mode_status"; "core_id"; "mpc_debug_halt_req"; "mpc_debug_run_req";
   "mpc_reset_run_req"; "mpc_debug_halt_ack"; "mpc_debug_run_ack"; "debug_brkpt_status";
   "dec_tlu_meicurpl"; "dec_tlu_meipt"; "dec_csr_rddata_d"; "dec_csr_legal_d"; "dec_tlu_br0_r_pkt";
   "dec_tlu_i0_kill_writeb_wb"; "dec_tlu_flush_lower_wb"; "dec_tlu_i0_commit_cmt";
   "dec_tlu_i0_kill_writeb_r"; "dec_tlu_flush_lower_r"; "dec_tlu_flush_path_r";
   "dec_tlu_fence_i_r"; "dec_tlu_wr_pause_r"; "dec_tlu_flush_pause_r"; "dec_tlu_presync_d";
   "dec_tlu_postsync_d"; "dec_tlu_mrac_ff"; "dec_tlu_force_halt"; "dec_tlu_perfcnt0";
   "dec_tlu_perfcnt1"; "dec_tlu_perfcnt2"; "dec_tlu_perfcnt3"; "dec_tlu_i0_exc_valid_wb1";
   "dec_tlu_i0_valid_wb1"; "dec_tlu_int_valid_wb1"; "dec_tlu_exc_cause_wb1"; "dec_tlu_mtval_wb1";
   "dec_tlu_external_ldfwd_disable"; "dec_tlu_sideeffect_posted_disable";
   "dec_tlu_core_ecc_disable"; "dec_tlu_dccm_wr_readback_disable"; "dec_tlu_bpred_disable";
   "dec_tlu_wb_coalescing_disable"; "dec_tlu_pipelining_disable"; "dec_tlu_trace_disable";
   "dec_tlu_dma_qos_prty"; "dec_tlu_misc_clk_override"; "dec_tlu_dec_clk_override";
   "dec_tlu_ifu_clk_override"; "dec_tlu_lsu_clk_override"; "dec_tlu_bus_clk_override";
   "dec_tlu_pic_clk_override"; "dec_tlu_picio_clk_override"; "dec_tlu_dccm_clk_override";
   "dec_tlu_icm_clk_override"; "regfile"; "priv_mode"; "priv_mode_eff"; "priv_mode_ns"; "mseccfg";
   "pmp_pmpcfg"; "pmp_pmpaddr"; "csr_wr_clk"].

(** [el2_pmp_wrapper] *)
Definition pmp_ports : list string :=
  ["clk"; "rst_l"; "scan_mode"; "pmp_pmpcfg"; "pmp_pmpaddr"; "pmp_chan_addr"; "pmp_chan_type";
   "pmp_chan_err"].

(** [el2_pmp_wrapper] *)
Definition pmp_random_ports : list string :=
  ["clk"; "rst_l"; "scan_mode"; "pmp_pmpcfg"; "pmp_pmpaddr"; "pmp_chan_addr"; "pmp_chan_type";
   "pmp_chan_err"].

(** [el2_lsu_dccm_mem_wrapper] *)
Definition dccm_ports : list string :=
  ["clk"; "active_clk"; "rst_l"; "clk_override"; "dccm_wren"; "dccm_rden"; "dccm_wr_addr_lo";
   "dccm_wr_addr_hi"; "dccm_rd_addr_lo"; "dccm_rd_addr_hi"; "dccm_wr_data_lo"; "dccm_wr_data_hi";
   "dccm_ext_in_pkt_TEST1"; "dccm_ext_in_pkt_RME"; "dccm_ext_in_pkt_RM"; "dccm_ext_in_pkt_LS";
   "dccm_ext_in_pkt_DS"; "dccm_ext_in_pkt_SD"; "dccm_ext_in_pkt_TEST_RNM"; "dccm_ext_in_pkt_BC1";
   "dccm_ext_in_pkt_BC2"; "dccm_rd_data_lo"; "dccm_rd_data_hi"; "scan_mode"].

(** [el2_ifu_iccm_mem_wrapper] *)
Definition iccm_ports : list string :=
  ["clk"; "active_clk"; "rst_l"; "clk_override"; "iccm_wren"; "iccm_rden"; "iccm_rw_addr";
   "iccm_buf_correct_ecc"; "iccm_correction_state"; "iccm_wr_size"; "iccm_wr_data";
   "iccm_ext_in_pkt_TEST1"; "iccm_ext_in_pkt_RME"; "iccm_ext_in_pkt_RM"; "iccm_ext_in_pkt_LS";
   "iccm_ext_in_pkt_DS"; "iccm_ext_in_pkt_SD"; "iccm_ext_in_pkt_TEST_RNM"; "iccm_ext_in_pkt_BC1";
   "iccm_ext_in_pkt_BC2"; "iccm_rd_data"; "iccm_rd_data_ecc"; "scan_mode"].

(** [el2_dma_ctrl] *)
Definition dma_ports : list string :=
  ["clk"; "free_clk"; "rst_l"; "dma_bus_clk_en"; "clk_override"; "scan_mode"; "dbg_cmd_addr";
   "dbg_cmd_wrdata"; "dbg_cmd_valid"; "dbg_cmd_write"; "dbg_cmd_type"; "dbg_cmd_size";
   "dbg_dma_bubble"; "dma_dbg_ready"; "dma_dbg_cmd_done"; "dma_dbg_cmd_fail"; "dma_dbg_rddata";
   "dma_dccm_req"; "dma_iccm_req"; "dma_mem_tag"; "dma_mem_addr"; "dma_mem_sz"; "dma_mem_write";
   "dma_mem_wdata"; "dccm_dma_rvalid"; "dccm_dma_ecc_error"; "dccm_dma_rtag"; "dccm_dma_rdata";
   "iccm_dma_rvalid"; "iccm_dma_ecc_error"; "iccm_dma_rtag"; "iccm_dma_rdata"; "dma_active";
   "dma_dccm_stall_any"; "dma_iccm_stall_any"; "dccm_ready"; "iccm_ready"; "dec_tlu_dma_qos_prty";
   "dma_pmu_dccm_read"; "dma_pmu_dccm_write"; "dma_pmu_any_read"; "dma_pmu_any_write";
   "dma_axi_awvalid"; "dma_axi_awready"; "dma_axi_awid"; "dma_axi_awaddr"; "dma_axi_awsize";
   "dma_axi_wvalid"; "dma_axi_wready"; "dma_axi_wdata"; "dma_axi_wstrb"; "dma_axi_bvalid";
   "dma_axi_bready"; "dma_axi_bresp"; "dma_axi_bid"; "dma_axi_arvalid"; "dma_axi_arready";
   "dma_axi_arid"; "dma_axi_araddr"; "dma_axi_arsize"; "dma_axi_rvalid"; "dma_axi_rready";
   "dma_axi_rid"; "dma_axi_rdata"; "dma_axi_rresp"; "dma_axi_rlast"].

(** [ahb_to_axi4_wrapper] *)
Definition lib_ahb_to_axi4_ports : list string :=
  ["clk"; "rst_l"; "scan_mode"; "bus_clk_en"; "clk_override"; "axi_awvalid"; "axi_awready";
   "axi_awid"; "axi_awaddr"; "axi_awsize"; "axi_awprot"; "axi_awlen"; "axi_awburst"; "axi_wvalid";
   "axi_wready"; "axi_wdata"; "axi_wstrb"; "axi_wlast"; "axi_bvalid"; "axi_bready"; "axi_bresp";
   "axi_bid"; "axi_arvalid"; "axi_arready"; "axi_arid"; "axi_araddr"; "axi_arsize"; "axi_arprot";
   "axi_arlen"; "axi_arburst"; "axi_rvalid"; "axi_rready"; "axi_rid"; "axi_rdata"; "axi_rresp";
   "ahb_haddr"; "ahb_hburst"; "ahb_hmastlock"; "ahb_hprot"; "ahb_hsize"; "ahb_htrans";
   "ahb_hwrite"; "ahb_hwdata"; "ahb_hsel"; "ahb_hreadyin"; "ahb_hrdata"; "ahb_hreadyout";
   "ahb_hresp"].

(** [el2_pic_ctrl] *)
Definition pic_ports : list string :=
  ["clk"; "free_clk"; "rst_l"; "clk_override"; "io_clk_override"; "extintsrc_req"; "picm_rdaddr";
   "picm_wraddr"; "picm_wr_data"; "picm_wren"; "picm_rden"; "picm_mken"; "meicurpl"; "meipt";
   "mexintpend"; "claimid"; "pl"; "picm_rd_data"; "mhwakeup"; "scan_mode"; "pic_raddr_c1_clk";
   "pic_data_c1_clk"; "pic_pri_c1_clk"; "pic_int_c1_clk"; "gw_config_c1_clk"].

(** [dmi_test_wrapper] *)
Definition dmi_ports : list string :=
  ["trst_n"; "tck"; "tms"; "tdi"; "tdo"; "tdoEnable"; "core_rst_n"; "core_clk"; "jtag_id";
   "rd_data"; "dmi_hard_reset"; "uncore_enable"; "dmi_core_en"; "dmi_core_wr_en"; "dmi_core_addr";
   "dmi_core_wdata"; "dmi_core_rdata"; "dmi_uncore_en"; "dmi_uncore_wr_en"; "dmi_uncore_addr";
   "dmi_uncore_wdata"; "dmi_uncore_rdata"].

(** [axi4_to_ahb] *)
Definition lib_axi4_to_ahb_ports : list string :=
  ["clk"; "free_clk"; "rst_l"; "scan_mode"; "bus_clk_en"; "clk_override"; "dec_tlu_force_halt";
   "axi_awvalid"; "axi_awready"; "axi_awid"; "axi_awaddr"; "axi_awsize"; "axi_awprot";
   "axi_wvalid"; "axi_wready"; "axi_wdata"; "axi_wstrb"; "axi_wlast"; "axi_bvalid"; "axi_bready";
   "axi_bresp"; "axi_bid"; "axi_arvalid"; "axi_arready"; "axi_arid"; "axi_araddr"; "axi_arsize";
   "axi_arprot"; "axi_rvalid"; "axi_rready"; "axi_rid"; "axi_rdata"; "axi_rresp"; "axi_rlast";
   "ahb_haddr"; "ahb_hburst"; "ahb_hmastlock"; "ahb_hprot"; "ahb_hsize"; "ahb_htrans";
   "ahb_hwrite"; "ahb_hwdata"; "ahb_hrdata"; "ahb_hready"; "ahb_hresp"; "PRTY"; "TAG"; "ID"].

(** The clock, the resets and the interrupt inputs of [veer_wrapper]. *)
Definition veer_wrapper_pins : list string :=
  ["clk"; "rst_l"; "dbg_rst_l"; "rst_vec"; "nmi_int"; "nmi_vec"; "timer_int"; "soft_int";
   "extintsrc_req"].

(** [el2_veer_lockstep_wrapper] *)
Definition dcls_ports : list string :=
  ["clk"; "rst_l"; "dbg_rst_l"; "shadow_reset"; "shadow_dbg_reset";
   "disable_corruption_detection_i"; "lockstep_err_injection_en_i"; "corruption_detected_o"].

