(* ===== verification/EnvUnits.v ===== *)
(** * The environments of the testbenches of single units

    verification/block: exu_alu, exu_mul, exu_div, ifu_compress, dec_ib, dec_tl,
    lsu_tl, dec, dec_tlu_ctl, dec_pmp_ctl, pmp, pmp_random, dccm and iccm. For
    each the component classes (their constructors, build and connect phases),
    the base test and the tests. *)

From S2P Require Import Prelude Utils Cocotb Uvm Duts.
From stdpp Require Import base list strings.
From Stdlib Require Import ZArith.

#[local] Open Scope string_scope.
#[local] Open Scope list_scope.
#[local] Open Scope Z_scope.

(** ** exu_alu *)

Module ExuAluBench.

Definition AluDriver : class := {|
  cname := "AluDriver"; base := uvm_driver;
  init := keep_key "dut";
  build_phase _ := skip;
  connect_phase _ := skip |}.

Definition AluInputMonitor : class := {|
  cname := "AluInputMonitor"; base := uvm_component;
  init := keep_key "dut";
  build_phase self :=
    create self "ap" analysis_port "ap" [];
  connect_phase _ := skip |}.

Definition AluOutputMonitor : class := {|
  cname := "AluOutputMonitor"; base := uvm_component;
  init := keep_key "dut";
  build_phase self :=
    create self "ap" analysis_port "ap" [];
  connect_phase _ := skip |}.

Definition AluScoreboard : class := {|
  cname := "AluScoreboard"; base := uvm_component;
  init self kwargs :=
    setattr self "passed" VNone ;;
    mret kwargs;
  build_phase self :=
    create self "fifo_inp" analysis_fifo "fifo_inp" [] ;;
    create self "fifo_out" analysis_fifo "fifo_out" [] ;;
    create self "port_inp" get_port "port_inp" [] ;;
    create self "port_out" get_port "port_out" [];
  connect_phase self :=
    connect_attrs self ["port_inp"] ["fifo_inp"; "get_export"] ;;
    connect_attrs self ["port_out"] ["fifo_out"; "get_export"] |}.

Definition BaseEnv : class := {|
  cname := "BaseEnv"; base := uvm_env;
  init := no_keys;
  build_phase self :=
    cdb_set None "TEST_CLK_PERIOD" (VInt 1) ;;
    cdb_set None "TEST_ITERATIONS" (VInt 50) ;;
    create self "alu_seqr" sequencer "alu_seqr" [] ;;
    create self "alu_drv" AluDriver "alu_drv" [("dut", VTop)] ;;
    create self "inp_mon" AluInputMonitor "inp_mon" [("dut", VTop)] ;;
    create self "out_mon" AluOutputMonitor "out_mon" [("dut", VTop)] ;;
    create self "scoreboard" AluScoreboard "scoreboard" [];
  connect_phase self :=
    connect_attrs self ["alu_drv"; "seq_item_port"] ["alu_seqr"; "seq_item_export"] ;;
    connect_attrs self ["inp_mon"; "ap"] ["scoreboard"; "fifo_inp"; "analysis_export"] ;;
    connect_attrs self ["out_mon"; "ap"] ["scoreboard"; "fifo_out"; "analysis_export"] |}.

Definition BaseTest (env_class : class) : class := {|
  cname := "BaseTest"; base := uvm_test;
  init := no_keys;
  build_phase self :=
    create self "env" env_class "env" [];
  connect_phase _ := skip |}.

Definition start_clock (name : string) : E unit :=
  let* period := cdb_get None "TEST_CLK_PERIOD" in let* sig := cocotb_top name in skip.

Definition classes : list class := 
  [AluDriver; AluInputMonitor; AluOutputMonitor; AluScoreboard; BaseEnv].

Module TestArith.

Definition TestAdd : test := {|
  test_class := BaseTest BaseEnv;
  end_of_elaboration_phase self :=
    setattr self "seq" (VNew "BaseSequence") |}.

Definition TestSub : test := {|
  test_class := BaseTest BaseEnv;
  end_of_elaboration_phase self :=
    setattr self "seq" (VNew "BaseSequence") |}.

Definition TestAll : test := {|
  test_class := BaseTest BaseEnv;
  end_of_elaboration_phase self :=
    setattr self "seq" (VNew "BaseSequence") |}.

End TestArith.

Module TestLogic.

Definition TestAnd : test := {|
  test_class := BaseTest BaseEnv;
  end_of_elaboration_phase self :=
    setattr self "seq" (VNew "BaseSequence") |}.

Definition TestOr : test := {|
  test_class := BaseTest BaseEnv;
  end_of_elaboration_phase self :=
    setattr self "seq" (VNew "BaseSequence") |}.

Definition TestXor : test := {|
  test_class := BaseTest BaseEnv;
  end_of_elaboration_phase self :=
    setattr self "seq" (VNew "BaseSequence") |}.

Definition TestAll : test := {|
  test_class := BaseTest BaseEnv;
  end_of_elaboration_phase self :=
    setattr self "seq" (VNew "BaseSequence") |}.

End TestLogic.

Module TestZba.

Definition TestSh1add : test := {|
  test_class := BaseTest BaseEnv;
  end_of_elaboration_phase self :=
    setattr self "seq" (VNew "BaseSequence") |}.

Definition TestSh2add : test := {|
  test_class := BaseTest BaseEnv;
  end_of_elaboration_phase self :=
    setattr self "seq" (VNew "BaseSequence") |}.

Definition TestSh3add : test := {|
  test_class := BaseTest BaseEnv;
  end_of_elaboration_phase self :=
    setattr self "seq" (VNew "BaseSequence") |}.

Definition TestAll : test := {|
  test_class := BaseTest BaseEnv;
  end_of_elaboration_phase self :=
    setattr self "seq" (VNew "BaseSequence") |}.

End TestZba.

Module TestZbb.

Definition TestClz : test := {|
  test_class := BaseTest BaseEnv;
  end_of_elaboration_phase self :=
    setattr self "seq" (VNew "BaseSequence") |}.

Definition TestCtz : test := {|
  test_class := BaseTest BaseEnv;
  end_of_elaboration_phase self :=
    setattr self "seq" (VNew "BaseSequence") |}.

Definition TestCpop : test := {|
  test_class := BaseTest BaseEnv;
  end_of_elaboration_phase self :=
    setattr self "seq" (VNew "BaseSequence") |}.

Definition TestSextb : test := {|
  test_class := BaseTest BaseEnv;
  end_of_elaboration_phase self :=
    setattr self "seq" (VNew "BaseSequence") |}.

Definition TestSexth : test := {|
  test_class := BaseTest BaseEnv;
  end_of_elaboration_phase self :=
    setattr self "seq" (VNew "BaseSequence") |}.

Definition TestRol : test := {|
  test_class := BaseTest BaseEnv;
  end_of_elaboration_phase self :=
    setattr self "seq" (VNew "BaseSequence") |}.

Definition TestRor : test := {|
  test_class := BaseTest BaseEnv;
  end_of_elaboration_phase self :=
    setattr self "seq" (VNew "BaseSequence") |}.

Definition TestAll : test := {|
  test_class := BaseTest BaseEnv;
  end_of_elaboration_phase self :=
    setattr self "seq" (VNew "BaseSequence") |}.

End TestZbb.

Module TestZbp.

Definition TestPack : test := {|
  test_class := BaseTest BaseEnv;
  end_of_elaboration_phase self :=
    setattr self "seq" (VNew "BaseSequence") |}.

Definition TestPackh : test := {|
  test_class := BaseTest BaseEnv;
  end_of_elaboration_phase self :=
    setattr self "seq" (VNew "BaseSequence") |}.

Definition TestAll : test := {|
  test_class := BaseTest BaseEnv;
  end_of_elaboration_phase self :=
    setattr self "seq" (VNew "BaseSequence") |}.

End TestZbp.

Module TestZbs.

Definition TestBset : test := {|
  test_class := BaseTest BaseEnv;
  end_of_elaboration_phase self :=
    setattr self "seq" (VNew "BaseSequence") |}.

Definition TestBclr : test := {|
  test_class := BaseTest BaseEnv;
  end_of_elaboration_phase self :=
    setattr self "seq" (VNew "BaseSequence") |}.

Definition TestBinv : test := {|
  test_class := BaseTest BaseEnv;
  end_of_elaboration_phase self :=
    setattr self "seq" (VNew "BaseSequence") |}.

Definition TestBext : test := {|
  test_class := BaseTest BaseEnv;
  end_of_elaboration_phase self :=
    setattr self "seq" (VNew "BaseSequence") |}.

Definition TestAll : test := {|
  test_class := BaseTest BaseEnv;
  end_of_elaboration_phase self :=
    setattr self "seq" (VNew "BaseSequence") |}.

End TestZbs.

End ExuAluBench.

(** The settings read while the test runs, and the class of the component for
    which the caller reads them. *)
Definition exu_alu_reads : list (option string * string) :=
  [(None, "TEST_ITERATIONS"); (None, "TEST_CLK_PERIOD")].

Definition exu_alu : bench := {|
  dut_ports := exu_alu_ports; run_reads := exu_alu_reads;
  runs := [(ExuAluBench.classes, ExuAluBench.TestArith.TestAdd);
   (ExuAluBench.classes, ExuAluBench.TestArith.TestSub);
   (ExuAluBench.classes, ExuAluBench.TestArith.TestAll);
   (ExuAluBench.classes, ExuAluBench.TestLogic.TestAnd);
   (ExuAluBench.classes, ExuAluBench.TestLogic.TestOr);
   (ExuAluBench.classes, ExuAluBench.TestLogic.TestXor);
   (ExuAluBench.classes, ExuAluBench.TestLogic.TestAll);
   (ExuAluBench.classes, ExuAluBench.TestZba.TestSh1add);
   (ExuAluBench.classes, ExuAluBench.TestZba.TestSh2add);
   (ExuAluBench.classes, ExuAluBench.TestZba.TestSh3add);
   (ExuAluBench.classes, ExuAluBench.TestZba.TestAll);
   (ExuAluBench.classes, ExuAluBench.TestZbb.TestClz);
   (ExuAluBench.classes, ExuAluBench.TestZbb.TestCtz);
   (ExuAluBench.classes, ExuAluBench.TestZbb.TestCpop);
   (ExuAluBench.classes, ExuAluBench.TestZbb.TestSextb);
   (ExuAluBench.classes, ExuAluBench.TestZbb.TestSexth);
   (ExuAluBench.classes, ExuAluBench.TestZbb.TestRol);
   (ExuAluBench.classes, ExuAluBench.TestZbb.TestRor);
   (ExuAluBench.classes, ExuAluBench.TestZbb.TestAll);
   (ExuAluBench.classes, ExuAluBench.TestZbp.TestPack);
   (ExuAluBench.classes, ExuAluBench.TestZbp.TestPackh);
   (ExuAluBench.classes, ExuAluBench.TestZbp.TestAll);
   (ExuAluBench.classes, ExuAluBench.TestZbs.TestBset);
   (ExuAluBench.classes, ExuAluBench.TestZbs.TestBclr);
   (ExuAluBench.classes, ExuAluBench.TestZbs.TestBinv);
   (ExuAluBench.classes, ExuAluBench.TestZbs.TestBext);
   (ExuAluBench.classes, ExuAluBench.TestZbs.TestAll)] |}.

(** ** exu_mul *)

Module ExuMulBench.

Definition MulDriver : class := {|
  cname := "MulDriver"; base := uvm_driver;
  init := keep_key "dut";
  build_phase _ := skip;
  connect_phase _ := skip |}.

Definition MulInputMonitor : class := {|
  cname := "MulInputMonitor"; base := uvm_component;
  init := keep_key "dut";
  build_phase self :=
    create self "ap" analysis_port "ap" [];
  connect_phase _ := skip |}.

Definition MulOutputMonitor : class := {|
  cname := "MulOutputMonitor"; base := uvm_component;
  init := keep_key "dut";
  build_phase self :=
    create self "ap" analysis_port "ap" [];
  connect_phase _ := skip |}.

Definition MulScoreboard : class := {|
  cname := "MulScoreboard"; base := uvm_component;
  init self kwargs :=
    setattr self "passed" VNone ;;
    mret kwargs;
  build_phase self :=
    create self "fifo_inp" analysis_fifo "fifo_inp" [] ;;
    create self "fifo_out" analysis_fifo "fifo_out" [] ;;
    create self "port_inp" get_port "port_inp" [] ;;
    create self "port_out" get_port "port_out" [];
  connect_phase self :=
    connect_attrs self ["port_inp"] ["fifo_inp"; "get_export"] ;;
    connect_attrs self ["port_out"] ["fifo_out"; "get_export"] |}.

Definition BaseEnv : class := {|
  cname := "BaseEnv"; base := uvm_env;
  init := no_keys;
  build_phase self :=
    cdb_set None "TEST_CLK_PERIOD" (VInt 1) ;;
    cdb_set None "TEST_ITERATIONS" (VInt 50) ;;
    create self "mul_seqr" sequencer "mul_seqr" [] ;;
    create self "mul_drv" MulDriver "mul_drv" [("dut", VTop)] ;;
    create self "inp_mon" MulInputMonitor "inp_mon" [("dut", VTop)] ;;
    create self "out_mon" MulOutputMonitor "out_mon" [("dut", VTop)] ;;
    create self "scoreboard" MulScoreboard "scoreboard" [];
  connect_phase self :=
    connect_attrs self ["mul_drv"; "seq_item_port"] ["mul_seqr"; "seq_item_export"] ;;
    connect_attrs self ["inp_mon"; "ap"] ["scoreboard"; "fifo_inp"; "analysis_export"] ;;
    connect_attrs self ["out_mon"; "ap"] ["scoreboard"; "fifo_out"; "analysis_export"] |}.

Definition BaseTest (env_class : class) : class := {|
  cname := "BaseTest"; base := uvm_test;
  init := no_keys;
  build_phase self :=
    create self "env" env_class "env" [];
  connect_phase _ := skip |}.

Definition start_clock (name : string) : E unit :=
  let* period := cdb_get None "TEST_CLK_PERIOD" in let* sig := cocotb_top name in skip.

Definition classes : list class := 
  [MulDriver; MulInputMonitor; MulOutputMonitor; MulScoreboard; BaseEnv].

Module TestMul.

Definition TestMul : test := {|
  test_class := BaseTest BaseEnv;
  end_of_elaboration_phase self :=
    setattr self "seq" (VNew "BaseSequence") |}.

End TestMul.

End ExuMulBench.

(** The settings read while the test runs, and the class of the component for
    which the caller reads them. *)
Definition exu_mul_reads : list (option string * string) :=
  [(None, "TEST_ITERATIONS"); (None, "TEST_CLK_PERIOD")].

Definition exu_mul : bench := {|
  dut_ports := exu_mul_ports; run_reads := exu_mul_reads;
  runs := [(ExuMulBench.classes, ExuMulBench.TestMul.TestMul)] |}.

(** ** exu_div *)

Module ExuDivBench.

Definition DivDriver : class := {|
  cname := "DivDriver"; base := uvm_driver;
  init := keep_key "dut";
  build_phase _ := skip;
  connect_phase _ := skip |}.

Definition DivInputMonitor : class := {|
  cname := "DivInputMonitor"; base := uvm_component;
  init := keep_key "dut";
  build_phase self :=
    create self "ap" analysis_port "ap" [];
  connect_phase _ := skip |}.

Definition DivOutputMonitor : class := {|
  cname := "DivOutputMonitor"; base := uvm_component;
  init := keep_key "dut";
  build_phase self :=
    create self "ap" analysis_port "ap" [];
  connect_phase _ := skip |}.

Definition DivScoreboard : class := {|
  cname := "DivScoreboard"; base := uvm_component;
  init self kwargs :=
    setattr self "passed" VNone ;;
    mret kwargs;
  build_phase self :=
    create self "fifo_inp" analysis_fifo "fifo_inp" [] ;;
    create self "fifo_out" analysis_fifo "fifo_out" [] ;;
    create self "port_inp" get_port "port_inp" [] ;;
    create self "port_out" get_port "port_out" [];
  connect_phase self :=
    connect_attrs self ["port_inp"] ["fifo_inp"; "get_export"] ;;
    connect_attrs self ["port_out"] ["fifo_out"; "get_export"] |}.

Definition BaseEnv : class := {|
  cname := "BaseEnv"; base := uvm_env;
  init := no_keys;
  build_phase self :=
    cdb_set None "TEST_CLK_PERIOD" (VInt 1) ;;
    cdb_set None "TEST_ITERATIONS" (VInt 50) ;;
    create self "div_seqr" sequencer "div_seqr" [] ;;
    create self "div_drv" DivDriver "div_drv" [("dut", VTop)] ;;
    create self "inp_mon" DivInputMonitor "inp_mon" [("dut", VTop)] ;;
    create self "out_mon" DivOutputMonitor "out_mon" [("dut", VTop)] ;;
    create self "scoreboard" DivScoreboard "scoreboard" [];
  connect_phase self :=
    connect_attrs self ["div_drv"; "seq_item_port"] ["div_seqr"; "seq_item_export"] ;;
    connect_attrs self ["inp_mon"; "ap"] ["scoreboard"; "fifo_inp"; "analysis_export"] ;;
    connect_attrs self ["out_mon"; "ap"] ["scoreboard"; "fifo_out"; "analysis_export"] |}.

Definition BaseTest (env_class : class) : class := {|
  cname := "BaseTest"; base := uvm_test;
  init := no_keys;
  build_phase self :=
    create self "env" env_class "env" [];
  connect_phase _ := skip |}.

Definition start_clock (name : string) : E unit :=
  let* period := cdb_get None "TEST_CLK_PERIOD" in let* sig := cocotb_top name in skip.

Definition classes : list class := 
  [DivDriver; DivInputMonitor; DivOutputMonitor; DivScoreboard; BaseEnv].

Module TestDiv.

Definition TestDiv : test := {|
  test_class := BaseTest BaseEnv;
  end_of_elaboration_phase self :=
    setattr self "seq" (VNew "BaseSequence") |}.

Definition TestRem : test := {|
  test_class := BaseTest BaseEnv;
  end_of_elaboration_phase self :=
    setattr self "seq" (VNew "BaseSequence") |}.

Definition TestAll : test := {|
  test_class := BaseTest BaseEnv;
  end_of_elaboration_phase self :=
    setattr self "seq" (VNew "BaseSequence") |}.

End TestDiv.

End ExuDivBench.

(** The settings read while the test runs, and the class of the component for
    which the caller reads them. *)
Definition exu_div_reads : list (option string * string) :=
  [(None, "TEST_ITERATIONS"); (None, "TEST_CLK_PERIOD")].

Definition exu_div : bench := {|
  dut_ports := exu_div_ports; run_reads := exu_div_reads;
  runs := [(ExuDivBench.classes, ExuDivBench.TestDiv.TestDiv);
   (ExuDivBench.classes, ExuDivBench.TestDiv.TestRem);
   (ExuDivBench.classes, ExuDivBench.TestDiv.TestAll)] |}.

(** ** ifu_compress *)

Module IfuCompressBench.

Definition DecompressorDriver_SIGNALS : list string :=
  ["din"; "dout"].

Definition DecompressorDriver : class := {|
  cname := "DecompressorDriver"; base := uvm_driver;
  init self kwargs :=
    let* (uut, kwargs) := pop_key "uut" kwargs in
    collect self DecompressorDriver_SIGNALS "" "" None ;;
    mret kwargs;
  build_phase _ := skip;
  connect_phase _ := skip |}.

Definition DecompressorMonitor_SIGNALS : list string :=
  ["din"; "dout"].

Definition DecompressorMonitor : class := {|
  cname := "DecompressorMonitor"; base := uvm_component;
  init self kwargs :=
    let* (uut, kwargs) := pop_key "uut" kwargs in
    collect self DecompressorMonitor_SIGNALS "" "" None ;;
    mret kwargs;
  build_phase self :=
    create self "ap" analysis_port "ap" [];
  connect_phase _ := skip |}.

Definition Scoreboard : class := {|
  cname := "Scoreboard"; base := uvm_component;
  init self kwargs :=
    setattr self "passed" VNone ;;
    mret kwargs;
  build_phase self :=
    create self "fifo" analysis_fifo "fifo" [] ;;
    create self "port" get_port "port" [];
  connect_phase self :=
    connect_attrs self ["port"] ["fifo"; "get_export"] |}.

Definition BaseEnv : class := {|
  cname := "BaseEnv"; base := uvm_env;
  init := no_keys;
  build_phase self :=
    cdb_set None "TEST_ITERATIONS" (VInt 500) ;;
    create self "dcm_seqr" sequencer "dcm_seqr" [] ;;
    create self "dcm_drv" DecompressorDriver "dcm_drv" [("uut", VTop)] ;;
    create self "dcm_mon" DecompressorMonitor "dcm_mon" [("uut", VTop)] ;;
    create self "scoreboard" Scoreboard "scoreboard" [];
  connect_phase self :=
    connect_attrs self ["dcm_drv"; "seq_item_port"] ["dcm_seqr"; "seq_item_export"] ;;
    connect_attrs self ["dcm_mon"; "ap"] ["scoreboard"; "fifo"; "analysis_export"] |}.

Definition BaseTest (env_class : class) : class := {|
  cname := "BaseTest"; base := uvm_test;
  init := no_keys;
  build_phase self :=
    create self "env" env_class "env" [];
  connect_phase _ := skip |}.

(** The unit is combinational: no clock is started and nothing is reset. *)
Definition run_phase (run : proc value unit) : proc value unit :=
  run.

Definition classes : list class := [DecompressorDriver; DecompressorMonitor; Scoreboard; BaseEnv].

Module TestCompress.

Definition TestDecompressor : test := {|
  test_class := BaseTest BaseEnv;
  end_of_elaboration_phase self :=
    setattr self "seq" (VNew "CompressedSequence") |}.

End TestCompress.

End IfuCompressBench.

(** The settings read while the test runs, and the class of the component for
    which the caller reads them. *)
Definition ifu_compress_reads : list (option string * string) :=
  [(None, "TEST_ITERATIONS")].

Definition ifu_compress : bench := {|
  dut_ports := ifu_compress_ports; run_reads := ifu_compress_reads;
  runs := [(IfuCompressBench.classes, IfuCompressBench.TestCompress.TestDecompressor)] |}.

(** ** dec_ib *)

Module DecIbBench.

Definition IbCtlDriver : class := {|
  cname := "IbCtlDriver"; base := uvm_driver;
  init := keep_key "dut";
  build_phase _ := skip;
  connect_phase _ := skip |}.

Definition IbCtlInputMonitor : class := {|
  cname := "IbCtlInputMonitor"; base := uvm_component;
  init := keep_key "dut";
  build_phase self :=
    create self "ap" analysis_port "ap" [];
  connect_phase _ := skip |}.

Definition IbCtlOutputMonitor : class := {|
  cname := "IbCtlOutputMonitor"; base := uvm_component;
  init := keep_key "dut";
  build_phase self :=
    create self "ap" analysis_port "ap" [];
  connect_phase _ := skip |}.

Definition IbCtlScoreboard : class := {|
  cname := "IbCtlScoreboard"; base := uvm_component;
  init self kwargs :=
    setattr self "passed" VNone ;;
    mret kwargs;
  build_phase self :=
    create self "fifo_inp" analysis_fifo "fifo_inp" [] ;;
    create self "fifo_out" analysis_fifo "fifo_out" [] ;;
    create self "port_inp" get_port "port_inp" [] ;;
    create self "port_out" get_port "port_out" [];
  connect_phase self :=
    connect_attrs self ["port_inp"] ["fifo_inp"; "get_export"] ;;
    connect_attrs self ["port_out"] ["fifo_out"; "get_export"] |}.

Definition BaseEnv : class := {|
  cname := "BaseEnv"; base := uvm_env;
  init := no_keys;
  build_phase self :=
    cdb_set None "TEST_CLK_PERIOD" (VInt 1) ;;
    cdb_set None "TEST_ITERATIONS" (VInt 1000) ;;
    create self "seqr" sequencer "seqr" [] ;;
    create self "drv" IbCtlDriver "drv" [("dut", VTop)] ;;
    create self "inp_mon" IbCtlInputMonitor "inp_mon" [("dut", VTop)] ;;
    create self "out_mon" IbCtlOutputMonitor "out_mon" [("dut", VTop)] ;;
    create self "scoreboard" IbCtlScoreboard "scoreboard" [];
  connect_phase self :=
    connect_attrs self ["drv"; "seq_item_port"] ["seqr"; "seq_item_export"] ;;
    connect_attrs self ["inp_mon"; "ap"] ["scoreboard"; "fifo_inp"; "analysis_export"] ;;
    connect_attrs self ["out_mon"; "ap"] ["scoreboard"; "fifo_out"; "analysis_export"] |}.

Definition BaseTest (env_class : class) : class := {|
  cname := "BaseTest"; base := uvm_test;
  init := no_keys;
  build_phase self :=
    create self "env" env_class "env" [];
  connect_phase _ := skip |}.

Definition start_clock (name : string) : E unit :=
  let* period := cdb_get None "TEST_CLK_PERIOD" in let* sig := cocotb_top name in skip.

Definition do_reset : proc value unit :=
  drive "rst_l" 0 ;;;
  clock_cycles "clk" 2 ;;;
  (_ <- await (FallingEdge "clk") ;; Ret tt) ;;;
  drive "rst_l" 1.

Definition clocks : list string := ["clk"].

Definition run_phase (run : proc value unit) : proc value unit :=
  do_reset ;;;
  clock_cycles "clk" 2 ;;;
  run ;;;
  clock_cycles "clk" 10.

Definition classes : list class := 
  [IbCtlDriver; IbCtlInputMonitor; IbCtlOutputMonitor; IbCtlScoreboard; BaseEnv].

Module TestDecIb.

Definition TestIbCtlLogic : test := {|
  test_class := BaseTest BaseEnv;
  end_of_elaboration_phase self :=
    setattr self "seq" (VNew "IbCtlSequence") |}.

End TestDecIb.

End DecIbBench.

(** The settings read while the test runs, and the class of the component for
    which the caller reads them. *)
Definition dec_ib_reads : list (option string * string) :=
  [(None, "TEST_CLK_PERIOD"); (None, "TEST_ITERATIONS")].

Definition dec_ib : bench := {|
  dut_ports := dec_ib_ports; run_reads := dec_ib_reads;
  runs := [(DecIbBench.classes, DecIbBench.TestDecIb.TestIbCtlLogic)] |}.

(** ** dec_tl *)

Module DecTlBench.

Definition TlDriver : class := {|
  cname := "TlDriver"; base := uvm_driver;
  init := keep_key "dut";
  build_phase _ := skip;
  connect_phase _ := skip |}.

Definition TlInputMonitor : class := {|
  cname := "TlInputMonitor"; base := uvm_component;
  init := keep_key "dut";
  build_phase self :=
    create self "ap" analysis_port "ap" [];
  connect_phase _ := skip |}.

Definition TlOutputMonitor : class := {|
  cname := "TlOutputMonitor"; base := uvm_component;
  init := keep_key "dut";
  build_phase self :=
    create self "ap" analysis_port "ap" [];
  connect_phase _ := skip |}.

Definition TlScoreboard : class := {|
  cname := "TlScoreboard"; base := uvm_component;
  init self kwargs :=
    setattr self "passed" VNone ;;
    mret kwargs;
  build_phase self :=
    create self "fifo_inp" analysis_fifo "fifo_inp" [] ;;
    create self "fifo_out" analysis_fifo "fifo_out" [] ;;
    create self "port_inp" get_port "port_inp" [] ;;
    create self "port_out" get_port "port_out" [];
  connect_phase self :=
    connect_attrs self ["port_inp"] ["fifo_inp"; "get_export"] ;;
    connect_attrs self ["port_out"] ["fifo_out"; "get_export"] |}.

Definition BaseEnv : class := {|
  cname := "BaseEnv"; base := uvm_env;
  init := no_keys;
  build_phase self :=
    cdb_set None "TEST_CLK_PERIOD" (VInt 1) ;;
    cdb_set None "TEST_ITERATIONS" (VInt 5000) ;;
    create self "tl_seqr" sequencer "tl_seqr" [] ;;
    create self "tl_drv" TlDriver "tl_drv" [("dut", VTop)] ;;
    create self "inp_mon" TlInputMonitor "inp_mon" [("dut", VTop)] ;;
    create self "out_mon" TlOutputMonitor "out_mon" [("dut", VTop)] ;;
    create self "scoreboard" TlScoreboard "scoreboard" [];
  connect_phase self :=
    connect_attrs self ["tl_drv"; "seq_item_port"] ["tl_seqr"; "seq_item_export"] ;;
    connect_attrs self ["inp_mon"; "ap"] ["scoreboard"; "fifo_inp"; "analysis_export"] ;;
    connect_attrs self ["out_mon"; "ap"] ["scoreboard"; "fifo_out"; "analysis_export"] |}.

Definition BaseTest (env_class : class) : class := {|
  cname := "BaseTest"; base := uvm_test;
  init := no_keys;
  build_phase self :=
    create self "env" env_class "env" [];
  connect_phase _ := skip |}.

Definition start_clock (name : string) : E unit :=
  let* period := cdb_get None "TEST_CLK_PERIOD" in let* sig := cocotb_top name in skip.

Definition do_reset : proc value unit :=
  drive "rst_l" 0 ;;;
  clock_cycles "clk" 2 ;;;
  (_ <- await (FallingEdge "clk") ;; Ret tt) ;;;
  drive "rst_l" 1.

Definition clocks : list string := ["clk"].

Definition run_phase (run : proc value unit) : proc value unit :=
  do_reset ;;;
  clock_cycles "clk" 2 ;;;
  run ;;;
  clock_cycles "clk" 10.

Definition classes : list class := 
  [TlDriver; TlInputMonitor; TlOutputMonitor; TlScoreboard; BaseEnv].

Module TestDecTl.

Definition TestTriggerLogic : test := {|
  test_class := BaseTest BaseEnv;
  end_of_elaboration_phase self :=
    setattr self "seq" (VNew "TlSequence") |}.

End TestDecTl.

End DecTlBench.

(** The settings read while the test runs, and the class of the component for
    which the caller reads them. *)
Definition dec_tl_reads : list (option string * string) :=
  [(None, "TEST_CLK_PERIOD"); (None, "TEST_ITERATIONS")].

Definition dec_tl : bench := {|
  dut_ports := dec_tl_ports; run_reads := dec_tl_reads;
  runs := [(DecTlBench.classes, DecTlBench.TestDecTl.TestTriggerLogic)] |}.

(** ** lsu_tl *)

Module LsuTlBench.

Definition TlDriver : class := {|
  cname := "TlDriver"; base := uvm_driver;
  init := keep_key "dut";
  build_phase _ := skip;
  connect_phase _ := skip |}.

Definition TlInputMonitor : class := {|
  cname := "TlInputMonitor"; base := uvm_component;
  init := keep_key "dut";
  build_phase self :=
    create self "ap" analysis_port "ap" [];
  connect_phase _ := skip |}.

Definition TlOutputMonitor : class := {|
  cname := "TlOutputMonitor"; base := uvm_component;
  init := keep_key "dut";
  build_phase self :=
    create self "ap" analysis_port "ap" [];
  connect_phase _ := skip |}.

Definition TlScoreboard : class := {|
  cname := "TlScoreboard"; base := uvm_component;
  init self kwargs :=
    setattr self "passed" VNone ;;
    mret kwargs;
  build_phase self :=
    create self "fifo_inp" analysis_fifo "fifo_inp" [] ;;
    create self "fifo_out" analysis_fifo "fifo_out" [] ;;
    create self "port_inp" get_port "port_inp" [] ;;
    create self "port_out" get_port "port_out" [];
  connect_phase self :=
    connect_attrs self ["port_inp"] ["fifo_inp"; "get_export"] ;;
    connect_attrs self ["port_out"] ["fifo_out"; "get_export"] |}.

Definition BaseEnv : class := {|
  cname := "BaseEnv"; base := uvm_env;
  init := no_keys;
  build_phase self :=
    cdb_set None "TEST_CLK_PERIOD" (VInt 1) ;;
    cdb_set None "TEST_ITERATIONS" (VInt 5000) ;;
    create self "tl_seqr" sequencer "tl_seqr" [] ;;
    create self "tl_drv" TlDriver "tl_drv" [("dut", VTop)] ;;
    create self "inp_mon" TlInputMonitor "inp_mon" [("dut", VTop)] ;;
    create self "out_mon" TlOutputMonitor "out_mon" [("dut", VTop)] ;;
    create self "scoreboard" TlScoreboard "scoreboard" [];
  connect_phase self :=
    connect_attrs self ["tl_drv"; "seq_item_port"] ["tl_seqr"; "seq_item_export"] ;;
    connect_attrs self ["inp_mon"; "ap"] ["scoreboard"; "fifo_inp"; "analysis_export"] ;;
    connect_attrs self ["out_mon"; "ap"] ["scoreboard"; "fifo_out"; "analysis_export"] |}.

Definition BaseTest (env_class : class) : class := {|
  cname := "BaseTest"; base := uvm_test;
  init := no_keys;
  build_phase self :=
    create self "env" env_class "env" [];
  connect_phase _ := skip |}.

Definition start_clock (name : string) : E unit :=
  let* period := cdb_get None "TEST_CLK_PERIOD" in let* sig := cocotb_top name in skip.

Definition do_reset : proc value unit :=
  drive "rst_l" 0 ;;;
  clock_cycles "clk" 2 ;;;
  (_ <- await (FallingEdge "clk") ;; Ret tt) ;;;
  drive "rst_l" 1.

Definition clocks : list string := ["clk"].

Definition run_phase (run : proc value unit) : proc value unit :=
  do_reset ;;;
  clock_cycles "clk" 2 ;;;
  run ;;;
  clock_cycles "clk" 10.

Definition classes : list class := 
  [TlDriver; TlInputMonitor; TlOutputMonitor; TlScoreboard; BaseEnv].

Module TestLsuTl.

Definition TestTriggerLogic : test := {|
  test_class := BaseTest BaseEnv;
  end_of_elaboration_phase self :=
    setattr self "seq" (VNew "TlSequence") |}.

End TestLsuTl.

End LsuTlBench.

(** The settings read while the test runs, and the class of the component for
    which the caller reads them. *)
Definition lsu_tl_reads : list (option string * string) :=
  [(None, "TEST_CLK_PERIOD"); (None, "TEST_ITERATIONS")].

Definition lsu_tl : bench := {|
  dut_ports := lsu_tl_ports; run_reads := lsu_tl_reads;
  runs := [(LsuTlBench.classes, LsuTlBench.TestLsuTl.TestTriggerLogic)] |}.

(** ** dec *)

Module DecBench.

Definition DecDriver : class := {|
  cname := "DecDriver"; base := uvm_driver;
  init := keep_key "dut";
  build_phase _ := skip;
  connect_phase _ := skip |}.

Definition DecInputMonitor : class := {|
  cname := "DecInputMonitor"; base := uvm_component;
  init := keep_key "dut";
  build_phase self :=
    create self "ap" analysis_port "ap" [];
  connect_phase _ := skip |}.

Definition DecOutputMonitor : class := {|
  cname := "DecOutputMonitor"; base := uvm_component;
  init := keep_key "dut";
  build_phase self :=
    create self "ap" analysis_port "ap" [];
  connect_phase _ := skip |}.

Definition DecScoreboard : class := {|
  cname := "DecScoreboard"; base := uvm_component;
  init self kwargs :=
    setattr self "passed" VNone ;;
    mret kwargs;
  build_phase self :=
    create self "fifo_inp" analysis_fifo "fifo_inp" [] ;;
    create self "fifo_out" analysis_fifo "fifo_out" [] ;;
    create self "port_inp" get_port "port_inp" [] ;;
    create self "port_out" get_port "port_out" [];
  connect_phase self :=
    connect_attrs self ["port_inp"] ["fifo_inp"; "get_export"] ;;
    connect_attrs self ["port_out"] ["fifo_out"; "get_export"] |}.

Definition BaseEnv : class := {|
  cname := "BaseEnv"; base := uvm_env;
  init := no_keys;
  build_phase self :=
    cdb_set None "TEST_CLK_PERIOD" (VInt 1) ;;
    cdb_set None "TEST_ITERATIONS" (VInt 5000) ;;
    create self "dec_seqr" sequencer "dec_seqr" [] ;;
    create self "dec_drv" DecDriver "dec_drv" [("dut", VTop)] ;;
    create self "inp_mon" DecInputMonitor "inp_mon" [("dut", VTop)] ;;
    create self "out_mon" DecOutputMonitor "out_mon" [("dut", VTop)] ;;
    create self "scoreboard" DecScoreboard "scoreboard" [];
  connect_phase self :=
    connect_attrs self ["dec_drv"; "seq_item_port"] ["dec_seqr"; "seq_item_export"] ;;
    connect_attrs self ["inp_mon"; "ap"] ["scoreboard"; "fifo_inp"; "analysis_export"] ;;
    connect_attrs self ["out_mon"; "ap"] ["scoreboard"; "fifo_out"; "analysis_export"] |}.

Definition BaseTest (env_class : class) : class := {|
  cname := "BaseTest"; base := uvm_test;
  init := no_keys;
  build_phase self :=
    create self "env" env_class "env" [];
  connect_phase _ := skip |}.

Definition start_clock (name : string) : E unit :=
  let* period := cdb_get None "TEST_CLK_PERIOD" in let* sig := cocotb_top name in skip.

Definition do_reset : proc value unit :=
  drive "rst_l" 0 ;;;
  clock_cycles "clk" 2 ;;;
  (_ <- await (FallingEdge "clk") ;; Ret tt) ;;;
  drive "rst_l" 1.

Definition classes : list class := 
  [DecDriver; DecInputMonitor; DecOutputMonitor; DecScoreboard; BaseEnv].

Module TestDec.

Definition DecTluCtlTest (test_name : value) : test := {|
  test_class := BaseTest BaseEnv;
  end_of_elaboration_phase self :=
    cdb_set None "TEST" test_name ;;
    setattr self "seq" (VNew "DecSequence") |}.

Definition TestMeihap : test := DecTluCtlTest (VStr "meihap").

Definition TestMtdata : test := DecTluCtlTest (VStr "mtdata").

Definition TestCsrAccess : test := DecTluCtlTest (VStr "csr_access").

Definition TestDebugICCache : test := DecTluCtlTest (VStr "debug_ic_cache").

Definition TestDebugCSRs : test := DecTluCtlTest (VStr "debug_csrs_access").

Definition TestMeicidpl : test := DecTluCtlTest (VStr "meicidpl").

End TestDec.

End DecBench.

(** The settings read while the test runs, and the class of the component for
    which the caller reads them. *)
Definition dec_reads : list (option string * string) :=
  [(Some "DecDriver", "TEST"); (Some "DecInputMonitor", "TEST");
   (Some "DecOutputMonitor", "TEST"); (Some "DecScoreboard", "TEST"); (None, "TEST_ITERATIONS");
   (None, "TEST"); (None, "TEST_CLK_PERIOD"); (Some "BaseTest", "TEST")].

Definition dec : bench := {|
  dut_ports := dec_ports; run_reads := dec_reads;
  runs := [(DecBench.classes, DecBench.TestDec.TestMeihap);
   (DecBench.classes, DecBench.TestDec.TestMtdata);
   (DecBench.classes, DecBench.TestDec.TestCsrAccess);
   (DecBench.classes, DecBench.TestDec.TestDebugICCache);
   (DecBench.classes, DecBench.TestDec.TestDebugCSRs);
   (DecBench.classes, DecBench.TestDec.TestMeicidpl)] |}.

(** ** dec_tlu_ctl *)

Module DecTluCtlBench.

Definition TlDriver : class := {|
  cname := "TlDriver"; base := uvm_driver;
  init := keep_key "dut";
  build_phase _ := skip;
  connect_phase _ := skip |}.

Definition TlInputMonitor : class := {|
  cname := "TlInputMonitor"; base := uvm_component;
  init := keep_key "dut";
  build_phase self :=
    create self "ap" analysis_port "ap" [];
  connect_phase _ := skip |}.

Definition TlOutputMonitor : class := {|
  cname := "TlOutputMonitor"; base := uvm_component;
  init := keep_key "dut";
  build_phase self :=
    create self "ap" analysis_port "ap" [];
  connect_phase _ := skip |}.

Definition TlScoreboard : class := {|
  cname := "TlScoreboard"; base := uvm_component;
  init self kwargs :=
    setattr self "passed" VNone ;;
    mret kwargs;
  build_phase self :=
    create self "fifo_inp" analysis_fifo "fifo_inp" [] ;;
    create self "fifo_out" analysis_fifo "fifo_out" [] ;;
    create self "port_inp" get_port "port_inp" [] ;;
    create self "port_out" get_port "port_out" [];
  connect_phase self :=
    connect_attrs self ["port_inp"] ["fifo_inp"; "get_export"] ;;
    connect_attrs self ["port_out"] ["fifo_out"; "get_export"] |}.

Definition BaseEnv : class := {|
  cname := "BaseEnv"; base := uvm_env;
  init := no_keys;
  build_phase self :=
    cdb_set None "TEST_CLK_PERIOD" (VInt 1) ;;
    cdb_set None "TEST_ITERATIONS" (VInt 5000) ;;
    create self "tl_seqr" sequencer "tl_seqr" [] ;;
    create self "tl_drv" TlDriver "tl_drv" [("dut", VTop)] ;;
    create self "inp_mon" TlInputMonitor "inp_mon" [("dut", VTop)] ;;
    create self "out_mon" TlOutputMonitor "out_mon" [("dut", VTop)] ;;
    create self "scoreboard" TlScoreboard "scoreboard" [];
  connect_phase self :=
    connect_attrs self ["tl_drv"; "seq_item_port"] ["tl_seqr"; "seq_item_export"] ;;
    connect_attrs self ["inp_mon"; "ap"] ["scoreboard"; "fifo_inp"; "analysis_export"] ;;
    connect_attrs self ["out_mon"; "ap"] ["scoreboard"; "fifo_out"; "analysis_export"] |}.

Definition BaseTest (env_class : class) : class := {|
  cname := "BaseTest"; base := uvm_test;
  init := no_keys;
  build_phase self :=
    create self "env" env_class "env" [];
  connect_phase _ := skip |}.

Definition start_clock (name : string) : E unit :=
  let* period := cdb_get None "TEST_CLK_PERIOD" in let* sig := cocotb_top name in skip.

Definition do_reset : proc value unit :=
  drive "rst_l" 0 ;;;
  clock_cycles "clk" 2 ;;;
  (_ <- await (FallingEdge "clk") ;; Ret tt) ;;;
  drive "rst_l" 1.

Definition classes : list class := 
  [TlDriver; TlInputMonitor; TlOutputMonitor; TlScoreboard; BaseEnv].

Module TestDecTl.

Definition TestMeihap : test := {|
  test_class := BaseTest BaseEnv;
  end_of_elaboration_phase self :=
    cdb_set None "TEST" (VStr "meihap") ;;
    setattr self "seq" (VNew "TlSequence") |}.

Definition TestMtdata : test := {|
  test_class := BaseTest BaseEnv;
  end_of_elaboration_phase self :=
    cdb_set None "TEST" (VStr "mtdata") ;;
    setattr self "seq" (VNew "TlSequence") |}.

Definition TestMhpme : test := {|
  test_class := BaseTest BaseEnv;
  end_of_elaboration_phase self :=
    cdb_set None "TEST" (VStr "mhpme") ;;
    setattr self "seq" (VNew "TlSequence") |}.

Definition TestMdseac : test := {|
  test_class := BaseTest BaseEnv;
  end_of_elaboration_phase self :=
    cdb_set None "TEST" (VStr "mdseac") ;;
    setattr self "seq" (VNew "TlSequence") |}.

Definition TestCsrAccess : test := {|
  test_class := BaseTest BaseEnv;
  end_of_elaboration_phase self :=
    cdb_set None "TEST" (VStr "csrs_access") ;;
    setattr self "seq" (VNew "TlSequence") |}.

Definition TestDebugCSRs : test := {|
  test_class := BaseTest BaseEnv;
  end_of_elaboration_phase self :=
    cdb_set None "TEST" (VStr "debug_csrs_access") ;;
    setattr self "seq" (VNew "TlSequence") |}.

Definition TestDebugICCache : test := {|
  test_class := BaseTest BaseEnv;
  end_of_elaboration_phase self :=
    cdb_set None "TEST" (VStr "debug_ic_cache") ;;
    setattr self "seq" (VNew "TlSequence") |}.

End TestDecTl.

End DecTluCtlBench.

(** The settings read while the test runs, and the class of the component for
    which the caller reads them. *)
Definition dec_tlu_ctl_reads : list (option string * string) :=
  [(Some "TlDriver", "TEST"); (Some "TlInputMonitor", "TEST"); (Some "TlOutputMonitor", "TEST");
   (Some "TlScoreboard", "TEST"); (None, "TEST_ITERATIONS"); (None, "TEST");
   (None, "TEST_CLK_PERIOD")].

Definition dec_tlu_ctl : bench := {|
  dut_ports := dec_tlu_ctl_ports; run_reads := dec_tlu_ctl_reads;
  runs := [(DecTluCtlBench.classes, DecTluCtlBench.TestDecTl.TestMeihap);
   (DecTluCtlBench.classes, DecTluCtlBench.TestDecTl.TestMtdata);
   (DecTluCtlBench.classes, DecTluCtlBench.TestDecTl.TestMhpme);
   (DecTluCtlBench.classes, DecTluCtlBench.TestDecTl.TestMdseac);
   (DecTluCtlBench.classes, DecTluCtlBench.TestDecTl.TestCsrAccess);
   (DecTluCtlBench.classes, DecTluCtlBench.TestDecTl.TestDebugCSRs);
   (DecTluCtlBench.classes, DecTluCtlBench.TestDecTl.TestDebugICCache)] |}.

(** ** dec_pmp_ctl *)

Module DecPmpCtlBench.

Definition CsrWriteDriver : class := {|
  cname := "CsrWriteDriver"; base := uvm_driver;
  init := keep_key "dut";
  build_phase _ := skip;
  connect_phase _ := skip |}.

Definition CsrReadDriver : class := {|
  cname := "CsrReadDriver"; base := uvm_driver;
  init := keep_key "dut";
  build_phase _ := skip;
  connect_phase _ := skip |}.

Definition WriteMonitor : class := {|
  cname := "WriteMonitor"; base := uvm_component;
  init := keep_key "dut";
  build_phase self :=
    create self "ap" analysis_port "ap" [];
  connect_phase _ := skip |}.

Definition ReadMonitor : class := {|
  cname := "ReadMonitor"; base := uvm_component;
  init := keep_key "dut";
  build_phase self :=
    create self "ap" analysis_port "ap" [];
  connect_phase _ := skip |}.

Definition Scoreboard : class := {|
  cname := "Scoreboard"; base := uvm_component;
  init self kwargs :=
    setattr self "passed" VNone ;;
    mret kwargs;
  build_phase self :=
    create self "fifo_inp" analysis_fifo "fifo_inp" [] ;;
    create self "fifo_out" analysis_fifo "fifo_out" [] ;;
    create self "port_inp" get_port "port_inp" [] ;;
    create self "port_out" get_port "port_out" [];
  connect_phase self :=
    connect_attrs self ["port_inp"] ["fifo_inp"; "get_export"] ;;
    connect_attrs self ["port_out"] ["fifo_out"; "get_export"] |}.

Definition BaseEnv : class := {|
  cname := "BaseEnv"; base := uvm_env;
  init := no_keys;
  build_phase self :=
    cdb_set None "TEST_CLK_PERIOD" (VInt 1) ;;
    cdb_set None "TEST_ITERATIONS" (VInt 5000) ;;
    create self "pmp_wr_seqr" sequencer "pmp_wr_seqr" [] ;;
    create self "pmp_rd_seqr" sequencer "pmp_rd_seqr" [] ;;
    create self "pmp_wr_drv" CsrWriteDriver "pmp_wr_drv" [("dut", VTop)] ;;
    create self "pmp_rd_drv" CsrReadDriver "pmp_rd_drv" [("dut", VTop)] ;;
    create self "wr_mon" WriteMonitor "wr_mon" [("dut", VTop)] ;;
    create self "rd_mon" ReadMonitor "rd_mon" [("dut", VTop)] ;;
    create self "scoreboard" Scoreboard "scoreboard" [];
  connect_phase self :=
    connect_attrs self ["pmp_wr_drv"; "seq_item_port"] ["pmp_wr_seqr"; "seq_item_export"] ;;
    connect_attrs self ["pmp_rd_drv"; "seq_item_port"] ["pmp_rd_seqr"; "seq_item_export"] ;;
    connect_attrs self ["wr_mon"; "ap"] ["scoreboard"; "fifo_inp"; "analysis_export"] ;;
    connect_attrs self ["rd_mon"; "ap"] ["scoreboard"; "fifo_out"; "analysis_export"] |}.

Definition BaseTest (env_class : class) : class := {|
  cname := "BaseTest"; base := uvm_test;
  init := no_keys;
  build_phase self :=
    create self "env" env_class "env" [];
  connect_phase _ := skip |}.

Definition start_clock (name : string) : E unit :=
  let* period := cdb_get None "TEST_CLK_PERIOD" in let* sig := cocotb_top name in skip.

Definition classes : list class := 
  [CsrWriteDriver; CsrReadDriver; WriteMonitor; ReadMonitor; Scoreboard; BaseEnv].

Module TestDecPmpCtl.

Definition TestCsrAccess : test := {|
  test_class := BaseTest BaseEnv;
  end_of_elaboration_phase self :=
    let* count := cdb_get None "TEST_ITERATIONS" in
    setattr self "seq" (VNew "list") |}.

Definition TestPmpCfgLock : test := {|
  test_class := BaseTest BaseEnv;
  end_of_elaboration_phase self :=
    let* count := cdb_get None "TEST_ITERATIONS" in
    setattr self "seq" (VNew "list") |}.

End TestDecPmpCtl.

End DecPmpCtlBench.

(** The settings read while the test runs, and the class of the component for
    which the caller reads them. *)
Definition dec_pmp_ctl_reads : list (option string * string) :=
  [(None, "TEST_CLK_PERIOD")].

Definition dec_pmp_ctl : bench := {|
  dut_ports := dec_pmp_ctl_ports; run_reads := dec_pmp_ctl_reads;
  runs := [(DecPmpCtlBench.classes, DecPmpCtlBench.TestDecPmpCtl.TestCsrAccess);
   (DecPmpCtlBench.classes, DecPmpCtlBench.TestDecPmpCtl.TestPmpCfgLock)] |}.

(** ** pmp *)

Module PmpBench.

Definition PMPDriver_SIGNALS : list string :=
  ["clk"; "pmp_pmpcfg"; "pmp_pmpaddr"; "pmp_chan_addr"; "pmp_chan_type"].

Definition PMPDriver : class := {|
  cname := "PMPDriver"; base := uvm_driver;
  init self kwargs :=
    let* (uut, kwargs) := pop_key "uut" kwargs in
    load self "regs" None "PMP_CSRS" ;;
    collect self PMPDriver_SIGNALS "" "" None ;;
    mret kwargs;
  build_phase _ := skip;
  connect_phase _ := skip |}.

Definition PMPMonitor_SIGNALS : list string :=
  ["clk"; "pmp_pmpcfg"; "pmp_pmpaddr"; "pmp_chan_addr"; "pmp_chan_type"; "pmp_chan_err"].

Definition PMPMonitor : class := {|
  cname := "PMPMonitor"; base := uvm_component;
  init self kwargs :=
    let* (uut, kwargs) := pop_key "uut" kwargs in
    collect self PMPMonitor_SIGNALS "" "" None ;;
    load self "pmp_channels" None "PMP_CHANNELS" ;;
    load self "pmp_entries" None "PMP_ENTRIES" ;;
    mret kwargs;
  build_phase self :=
    create self "ap" analysis_port "ap" [];
  connect_phase _ := skip |}.

Definition Scoreboard : class := {|
  cname := "Scoreboard"; base := uvm_component;
  init := no_keys;
  build_phase self :=
    setattr self "passed" (VBool true) ;;
    create self "fifo" analysis_fifo "fifo" [] ;;
    create self "port" get_port "port" [] ;;
    load self "regs" None "PMP_CSRS";
  connect_phase self :=
    connect_attrs self ["port"] ["fifo"; "get_export"] |}.

Definition BaseEnv : class := {|
  cname := "BaseEnv"; base := uvm_env;
  init := no_keys;
  build_phase self :=
    let pmp_entries := VInt 16 in
    cdb_set None "PMP_ENTRIES" pmp_entries ;;
    cdb_set None "PMP_CHANNELS" (VInt 3) ;;
    cdb_set None "PMP_GRANULARITY" (VInt 0) ;;
    cdb_set None "TEST_CLK_PERIOD" (VInt 1) ;;
    cdb_set None "TEST_ITERATIONS" (VInt 100) ;;
    setattr self "regs" (VNew "RegisterMap") ;;
    let* v := dot (VObject self) ["regs"] in
    cdb_set None "PMP_CSRS" v ;;
    create self "pmp_seqr" sequencer "pmp_seqr" [] ;;
    create self "pmp_drv" PMPDriver "pmp_drv" [("uut", VTop)] ;;
    create self "pmp_mon" PMPMonitor "pmp_mon" [("uut", VTop)] ;;
    create self "scoreboard" Scoreboard "scoreboard" [] ;;
    let* v2 := dot (VObject self) ["pmp_seqr"] in
    cdb_set None "PMP_SEQR" v2;
  connect_phase self :=
    connect_attrs self ["pmp_drv"; "seq_item_port"] ["pmp_seqr"; "seq_item_export"] ;;
    connect_attrs self ["pmp_mon"; "ap"] ["scoreboard"; "fifo"; "analysis_export"] |}.

Definition BaseTest (env_class : class) : class := {|
  cname := "BaseTest"; base := uvm_test;
  init := no_keys;
  build_phase self :=
    create self "env" env_class "env" [];
  connect_phase _ := skip |}.

Definition start_clock (name : string) : E unit :=
  let* period := cdb_get None "TEST_CLK_PERIOD" in let* sig := cocotb_top name in skip.

Definition clocks : list string := ["clk"].

Definition run_phase (run : proc value unit) : proc value unit :=
  for_each ["scan_mode"; "pmp_chan_addr[0]"; "pmp_chan_addr[1]"; "pmp_chan_addr[2]";
     "pmp_chan_type[0]"; "pmp_chan_type[1]"; "pmp_chan_type[2]"; "rst_l"] (fun s => drive s 0) ;;;
  clock_cycles "clk" 2 ;;;
  (_ <- await (FallingEdge "clk") ;; Ret tt) ;;;
  drive "rst_l" 1 ;;;
  run ;;;
  clock_cycles "clk" 2.

Definition classes : list class := [PMPDriver; PMPMonitor; Scoreboard; BaseEnv].

Module TestAddressMatching.

Definition TestAddressMatching : test := {|
  test_class := BaseTest BaseEnv;
  end_of_elaboration_phase self :=
    setattr self "seq" (VNew "TestSequence") |}.

End TestAddressMatching.

Module TestMultipleConfigs.

Definition TestMultipleConfigs : test := {|
  test_class := BaseTest BaseEnv;
  end_of_elaboration_phase self :=
    setattr self "seq" (VNew "TestSequence") |}.

End TestMultipleConfigs.

Module TestXwrAccess.

(** The settings that the constructor of [TestSequence] reads. *)
Definition TestSequence_init : E unit :=
  each (fun k => let* _ := cdb_get None k in skip) ["PMP_SEQR"].

Definition TestXWRAccess : test := {|
  test_class := BaseTest BaseEnv;
  end_of_elaboration_phase self :=
    TestSequence_init ;;
    setattr self "seq" (VNew "TestSequence") |}.

End TestXwrAccess.

End PmpBench.

(** The settings read while the test runs, and the class of the component for
    which the caller reads them. *)
Definition pmp_reads : list (option string * string) :=
  [(None, "TEST_ITERATIONS"); (None, "PMP_ENTRIES"); (None, "PMP_CHANNELS");
   (None, "TEST_CLK_PERIOD")].

Definition pmp : bench := {|
  dut_ports := pmp_ports; run_reads := pmp_reads;
  runs := [(PmpBench.classes, PmpBench.TestAddressMatching.TestAddressMatching);
   (PmpBench.classes, PmpBench.TestMultipleConfigs.TestMultipleConfigs);
   (PmpBench.classes, PmpBench.TestXwrAccess.TestXWRAccess)] |}.

(** ** pmp_random *)

Module PmpRandomBench.

Definition PMPWriteDriver : class := {|
  cname := "PMPWriteDriver"; base := uvm_driver;
  init := keep_key "dut";
  build_phase _ := skip;
  connect_phase _ := skip |}.

Definition WriteMonitor : class := {|
  cname := "WriteMonitor"; base := uvm_component;
  init := keep_key "dut";
  build_phase self :=
    create self "ap" analysis_port "ap" [];
  connect_phase _ := skip |}.

Definition ReadMonitor : class := {|
  cname := "ReadMonitor"; base := uvm_component;
  init := keep_key "dut";
  build_phase self :=
    create self "ap" analysis_port "ap" [];
  connect_phase _ := skip |}.

Definition Scoreboard : class := {|
  cname := "Scoreboard"; base := uvm_component;
  init self kwargs :=
    setattr self "passed" VNone ;;
    mret kwargs;
  build_phase self :=
    create self "fifo_inp" analysis_fifo "fifo_inp" [] ;;
    create self "fifo_out" analysis_fifo "fifo_out" [] ;;
    create self "port_inp" get_port "port_inp" [] ;;
    create self "port_out" get_port "port_out" [];
  connect_phase self :=
    connect_attrs self ["port_inp"] ["fifo_inp"; "get_export"] ;;
    connect_attrs self ["port_out"] ["fifo_out"; "get_export"] |}.

Definition BaseEnv : class := {|
  cname := "BaseEnv"; base := uvm_env;
  init := no_keys;
  build_phase self :=
    cdb_set None "TEST_CLK_PERIOD" (VInt 1) ;;
    cdb_set None "TEST_ITERATIONS" (VInt 200) ;;
    create self "pmp_wr_seqr" sequencer "pmp_wr_seqr" [] ;;
    create self "pmp_wr_drv" PMPWriteDriver "pmp_wr_drv" [("dut", VTop)] ;;
    create self "wr_mon" WriteMonitor "wr_mon" [("dut", VTop)] ;;
    create self "rd_mon" ReadMonitor "rd_mon" [("dut", VTop)] ;;
    create self "scoreboard" Scoreboard "scoreboard" [];
  connect_phase self :=
    connect_attrs self ["pmp_wr_drv"; "seq_item_port"] ["pmp_wr_seqr"; "seq_item_export"] ;;
    connect_attrs self ["wr_mon"; "ap"] ["scoreboard"; "fifo_inp"; "analysis_export"] ;;
    connect_attrs self ["rd_mon"; "ap"] ["scoreboard"; "fifo_out"; "analysis_export"] |}.

Definition BaseTest (env_class : class) : class := {|
  cname := "BaseTest"; base := uvm_test;
  init := no_keys;
  build_phase self :=
    create self "env" env_class "env" [];
  connect_phase _ := skip |}.

Definition start_clock (name : string) : E unit :=
  let* period := cdb_get None "TEST_CLK_PERIOD" in let* sig := cocotb_top name in skip.

Definition classes : list class := [PMPWriteDriver; WriteMonitor; ReadMonitor; Scoreboard; BaseEnv].

Module TestPmpRandom.

Definition TestRandomPMP : test := {|
  test_class := BaseTest BaseEnv;
  end_of_elaboration_phase self :=
    let* count := cdb_get None "TEST_ITERATIONS" in
    setattr self "seq" (VNew "list") |}.

End TestPmpRandom.

End PmpRandomBench.

(** The settings read while the test runs, and the class of the component for
    which the caller reads them. *)
Definition pmp_random_reads : list (option string * string) :=
  [(None, "TEST_ITERATIONS"); (None, "TEST_CLK_PERIOD")].

Definition pmp_random : bench := {|
  dut_ports := pmp_random_ports; run_reads := pmp_random_reads;
  runs := [(PmpRandomBench.classes, PmpRandomBench.TestPmpRandom.TestRandomPMP)] |}.

(** ** dccm *)

Module DccmBench.

Definition MemDriver : class := {|
  cname := "MemDriver"; base := uvm_driver;
  init := keep_key "dut";
  build_phase _ := skip;
  connect_phase _ := skip |}.

Definition MemMonitor : class := {|
  cname := "MemMonitor"; base := uvm_component;
  init := keep_key "dut";
  build_phase self :=
    create self "ap" analysis_port "ap" [];
  connect_phase _ := skip |}.

Definition Scoreboard : class := {|
  cname := "Scoreboard"; base := uvm_component;
  init self kwargs :=
    setattr self "passed" VNone ;;
    mret kwargs;
  build_phase self :=
    create self "fifo" analysis_fifo "fifo" [] ;;
    create self "port" get_port "port" [];
  connect_phase self :=
    connect_attrs self ["port"] ["fifo"; "get_export"] |}.

Definition BaseEnv : class := {|
  cname := "BaseEnv"; base := uvm_env;
  init := no_keys;
  build_phase self :=
    cdb_set None "TEST_CLK_PERIOD" (VInt 1) ;;
    cdb_set None "TEST_ITERATIONS" (VInt 50) ;;
    cdb_set None "TEST_BURST_LEN" (VInt 10) ;;
    cdb_set None "DCCM_BITS" (VInt 16) ;;
    cdb_set None "DCCM_FDATA_WIDTH" (VInt 32) ;;
    create self "mem_seqr" sequencer "mem_seqr" [] ;;
    create self "mem_drv" MemDriver "mem_drv" [("dut", VTop)] ;;
    create self "mem_mon" MemMonitor "mem_mon" [("dut", VTop)] ;;
    create self "scoreboard" Scoreboard "scoreboard" [];
  connect_phase self :=
    connect_attrs self ["mem_drv"; "seq_item_port"] ["mem_seqr"; "seq_item_export"] ;;
    connect_attrs self ["mem_mon"; "ap"] ["scoreboard"; "fifo"; "analysis_export"] |}.

Definition BaseTest (env_class : class) : class := {|
  cname := "BaseTest"; base := uvm_test;
  init := no_keys;
  build_phase self :=
    create self "env" env_class "env" [];
  connect_phase _ := skip |}.

Definition start_clock (name : string) : E unit :=
  let* period := cdb_get None "TEST_CLK_PERIOD" in let* sig := cocotb_top name in skip.

Definition do_reset : proc value unit :=
  drive "rst_l" 0 ;;;
  clock_cycles "clk" 2 ;;;
  (_ <- await (FallingEdge "clk") ;; Ret tt) ;;;
  drive "rst_l" 1.

Definition classes : list class := [MemDriver; MemMonitor; Scoreboard; BaseEnv].

Module TestReadwrite.

Definition TestReadWrite : test := {|
  test_class := BaseTest BaseEnv;
  end_of_elaboration_phase self :=
    setattr self "seq" (VNew "ReadWriteSequence") |}.

End TestReadwrite.

End DccmBench.

(** The settings read while the test runs, and the class of the component for
    which the caller reads them. *)
Definition dccm_reads : list (option string * string) :=
  [(None, "TEST_ITERATIONS"); (None, "TEST_BURST_LEN"); (None, "DCCM_BITS");
   (None, "DCCM_FDATA_WIDTH"); (None, "TEST_CLK_PERIOD")].

Definition dccm : bench := {|
  dut_ports := dccm_ports; run_reads := dccm_reads;
  runs := [(DccmBench.classes, DccmBench.TestReadwrite.TestReadWrite)] |}.

(** ** iccm *)

Module IccmBench.

Definition MemDriver : class := {|
  cname := "MemDriver"; base := uvm_driver;
  init := keep_key "dut";
  build_phase _ := skip;
  connect_phase _ := skip |}.

Definition MemMonitor : class := {|
  cname := "MemMonitor"; base := uvm_component;
  init := keep_key "dut";
  build_phase self :=
    create self "ap" analysis_port "ap" [];
  connect_phase _ := skip |}.

Definition Scoreboard : class := {|
  cname := "Scoreboard"; base := uvm_component;
  init self kwargs :=
    setattr self "passed" VNone ;;
    mret kwargs;
  build_phase self :=
    create self "fifo" analysis_fifo "fifo" [] ;;
    create self "port" get_port "port" [];
  connect_phase self :=
    connect_attrs self ["port"] ["fifo"; "get_export"] |}.

Definition BaseEnv : class := {|
  cname := "BaseEnv"; base := uvm_env;
  init := no_keys;
  build_phase self :=
    cdb_set None "TEST_CLK_PERIOD" (VInt 1) ;;
    cdb_set None "TEST_ITERATIONS" (VInt 50) ;;
    cdb_set None "TEST_BURST_LEN" (VInt 10) ;;
    cdb_set None "ICCM_BITS" (VInt 16) ;;
    create self "mem_seqr" sequencer "mem_seqr" [] ;;
    create self "mem_drv" MemDriver "mem_drv" [("dut", VTop)] ;;
    create self "mem_mon" MemMonitor "mem_mon" [("dut", VTop)] ;;
    create self "scoreboard" Scoreboard "scoreboard" [];
  connect_phase self :=
    connect_attrs self ["mem_drv"; "seq_item_port"] ["mem_seqr"; "seq_item_export"] ;;
    connect_attrs self ["mem_mon"; "ap"] ["scoreboard"; "fifo"; "analysis_export"] |}.

Definition BaseTest (env_class : class) : class := {|
  cname := "BaseTest"; base := uvm_test;
  init := no_keys;
  build_phase self :=
    create self "env" env_class "env" [];
  connect_phase _ := skip |}.

Definition start_clock (name : string) : E unit :=
  let* period := cdb_get None "TEST_CLK_PERIOD" in let* sig := cocotb_top name in skip.

Definition classes : list class := [MemDriver; MemMonitor; Scoreboard; BaseEnv].

Module TestReadwrite.

Definition TestReadWrite : test := {|
  test_class := BaseTest BaseEnv;
  end_of_elaboration_phase self :=
    setattr self "seq" (VNew "ReadWriteSequence") |}.

End TestReadwrite.

End IccmBench.

(** The settings read while the test runs, and the class of the component for
    which the caller reads them. *)
Definition iccm_reads : list (option string * string) :=
  [(None, "TEST_ITERATIONS"); (None, "TEST_BURST_LEN"); (None, "ICCM_BITS");
   (None, "TEST_CLK_PERIOD")].

Definition iccm : bench := {|
  dut_ports := iccm_ports; run_reads := iccm_reads;
  runs := [(IccmBench.classes, IccmBench.TestReadwrite.TestReadWrite)] |}.

