(* ===== verification/EnvBuses.v ===== *)
(** * The environments of the testbenches with several interfaces

    verification/block: dma, lib_ahb_to_axi4, pic, dmi, lib_axi4_to_ahb and dcls,
    and the AXI4-Lite monitor of verification/block/common that two of them share. *)

From S2P Require Import Prelude Utils Cocotb Uvm Duts.
From stdpp Require Import base list strings.
From Stdlib Require Import ZArith.

#[local] Open Scope string_scope.
#[local] Open Scope list_scope.
#[local] Open Scope Z_scope.

(** ** common/axi.py *)

Module CommonAxi.

Definition Axi4LiteMonitor : class := {|
  cname := "Axi4LiteMonitor"; base := uvm_component;
  init := keep_key "bfm";
  build_phase self :=
    create self "ap" analysis_port "ap" [];
  connect_phase _ := skip |}.

End CommonAxi.

(** ** dma *)

Module DmaBench.

Definition ReadScoreboard : class := {|
  cname := "ReadScoreboard"; base := uvm_component;
  init self kwargs :=
    setattr self "passed" VNone ;;
    load self "iccm_base" None "ICCM_BASE" ;;
    load self "iccm_size" None "ICCM_SIZE" ;;
    load self "dccm_base" None "DCCM_BASE" ;;
    load self "dccm_size" None "DCCM_SIZE" ;;
    mret kwargs;
  build_phase self :=
    create self "fifo" analysis_fifo "fifo" [] ;;
    create self "port" get_port "port" [];
  connect_phase self :=
    connect_attrs self ["port"] ["fifo"; "get_export"] |}.

Definition WriteScoreboard : class := {|
  cname := "WriteScoreboard"; base := uvm_component;
  init self kwargs :=
    setattr self "passed" VNone ;;
    load self "iccm_base" None "ICCM_BASE" ;;
    load self "iccm_size" None "ICCM_SIZE" ;;
    load self "dccm_base" None "DCCM_BASE" ;;
    load self "dccm_size" None "DCCM_SIZE" ;;
    mret kwargs;
  build_phase self :=
    create self "fifo" analysis_fifo "fifo" [] ;;
    create self "port" get_port "port" [];
  connect_phase self :=
    connect_attrs self ["port"] ["fifo"; "get_export"] |}.

Definition AccessScoreboard : class := {|
  cname := "AccessScoreboard"; base := uvm_component;
  init self kwargs :=
    setattr self "passed" VNone ;;
    mret kwargs;
  build_phase self :=
    create self "fifo" analysis_fifo "fifo" [] ;;
    create self "port" get_port "port" [];
  connect_phase self :=
    connect_attrs self ["port"] ["fifo"; "get_export"] |}.

Definition CoreMemoryBFM_SIGNALS : list string :=
  ["clk"; "dma_dccm_req"; "dma_iccm_req"; "dma_mem_tag"; "dma_mem_addr"; "dma_mem_sz";
   "dma_mem_write"; "dma_mem_wdata"; "dccm_dma_rvalid"; "dccm_dma_ecc_error"; "dccm_dma_rtag";
   "dccm_dma_rdata"; "iccm_dma_rvalid"; "iccm_dma_ecc_error"; "iccm_dma_rtag"; "iccm_dma_rdata";
   "dccm_ready"; "iccm_ready"].

Definition CoreMemoryBFM : class := {|
  cname := "CoreMemoryBFM"; base := uvm_component;
  init self kwargs :=
    let* (uut, kwargs) := pop_key "uut" kwargs in
    collect self CoreMemoryBFM_SIGNALS "" "" None ;;
    setattr self "iccm_data" (VNew "dict") ;;
    setattr self "dccm_data" (VNew "dict") ;;
    mret kwargs;
  build_phase self :=
    load self "iccm_base" None "ICCM_BASE" ;;
    load self "dccm_base" None "DCCM_BASE" ;;
    load self "iccm_size" None "ICCM_SIZE" ;;
    load self "dccm_size" None "DCCM_SIZE" ;;
    load self "iccm_busy" (Some self) "ICCM_BUSY_PROB" ;;
    load self "dccm_busy" (Some self) "DCCM_BUSY_PROB" ;;
    let* v := cdb_get (Some self) "MEM_BUSY_MIN" in
    let* v2 := cdb_get (Some self) "MEM_BUSY_MAX" in
    setattr self "busy_range" (VPair v v2) ;;
    load self "ecc_err_rate" (Some self) "ECC_ERROR_RATE";
  connect_phase _ := skip |}.

Definition CoreMemoryMonitor : class := {|
  cname := "CoreMemoryMonitor"; base := uvm_component;
  init self kwargs :=
    let* (v_bfm, kwargs) := pop_key "bfm" kwargs in
    setattr self "bfm" v_bfm ;;
    load self "iccm_base" None "ICCM_BASE" ;;
    load self "dccm_base" None "DCCM_BASE" ;;
    mret kwargs;
  build_phase self :=
    create self "ap" analysis_port "ap" [];
  connect_phase _ := skip |}.

Definition Axi4LiteBFM_SIGNALS : list string :=
  ["clk"; "rst"; "awvalid"; "awready"; "awid"; "awaddr"; "awsize"; "wvalid"; "wready"; "wdata";
   "wstrb"; "bvalid"; "bready"; "bresp"; "bid"; "arvalid"; "arready"; "arid"; "araddr"; "arsize";
   "rvalid"; "rready"; "rid"; "rdata"; "rresp"; "rlast"].

Definition Axi4LiteBFM : class := {|
  cname := "Axi4LiteBFM"; base := uvm_component;
  init self kwargs :=
    let* (uut, kwargs) := pop_key "uut" kwargs in
    let* (signal_map, kwargs) := pop_key "signal_map" kwargs in
    collect self Axi4LiteBFM_SIGNALS "dma_axi_" "axi_" (dict_of signal_map) ;;
    setattr self "xfer_lock" (VNew "Lock") ;;
    setattr self "wr_xfers" (VNew "dict") ;;
    mret kwargs;
  build_phase self :=
    load self "busy_timeout" (Some self) "MEM_BUSY_TIMEOUT";
  connect_phase _ := skip |}.

Definition Axi4LiteSubordinateDriver : class := {|
  cname := "Axi4LiteSubordinateDriver"; base := uvm_driver;
  init := keep_key "bfm";
  build_phase _ := skip;
  connect_phase _ := skip |}.

Definition DebugInterfaceBFM_SIGNALS : list string :=
  ["clk"; "dbg_cmd_addr"; "dbg_cmd_wrdata"; "dbg_cmd_valid"; "dbg_cmd_write"; "dbg_cmd_type";
   "dbg_cmd_size"; "dbg_dma_bubble"; "dma_dbg_ready"; "dma_dbg_cmd_done"; "dma_dbg_cmd_fail";
   "dma_dbg_rddata"].

Definition DebugInterfaceBFM : class := {|
  cname := "DebugInterfaceBFM"; base := uvm_component;
  init self kwargs :=
    let* (uut, kwargs) := pop_key "uut" kwargs in
    collect self DebugInterfaceBFM_SIGNALS "" "" None ;;
    mret kwargs;
  build_phase self :=
    load self "busy_prob" (Some self) "DBG_BUSY_PROB" ;;
    let* v := cdb_get (Some self) "DBG_BUSY_MIN" in
    let* v2 := cdb_get (Some self) "DBG_BUSY_MAX" in
    setattr self "busy_range" (VPair v v2) ;;
    load self "busy_timeout" (Some self) "DBG_BUSY_TIMEOUT";
  connect_phase _ := skip |}.

Definition DebugInterfaceDriver : class := {|
  cname := "DebugInterfaceDriver"; base := uvm_driver;
  init := keep_key "bfm";
  build_phase _ := skip;
  connect_phase _ := skip |}.

Definition DebugInterfaceMonitor : class := {|
  cname := "DebugInterfaceMonitor"; base := uvm_component;
  init := keep_key "bfm";
  build_phase self :=
    create self "ap" analysis_port "ap" [];
  connect_phase _ := skip |}.

Definition BaseEnv : class := {|
  cname := "BaseEnv"; base := uvm_env;
  init := no_keys;
  build_phase self :=
    cdb_set None "TEST_CLK_PERIOD" (VInt 1) ;;
    cdb_set None "TEST_ITERATIONS" (VInt 10) ;;
    cdb_set None "TEST_BURST_LEN" (VInt 10) ;;
    cdb_set None "TEST_BURST_GAP" (VInt 10) ;;
    cdb_set None "ICCM_BASE" (VInt 0xee000000) ;;
    cdb_set None "DCCM_BASE" (VInt 0xf0040000) ;;
    cdb_set None "PIC_BASE" (VInt 0xf00c0000) ;;
    cdb_set None "ICCM_SIZE" (VInt 0x10000) ;;
    cdb_set None "DCCM_SIZE" (VInt 0x10000) ;;
    cdb_set None "PIC_SIZE" (VInt 0x8000) ;;
    let* v := cocotb_top "dma_axi_wdata" in
    cdb_set None "ADDR_ALIGN" (VLen "dma_axi_wdata" 8) ;;
    create self "axi_seqr" sequencer "axi_seqr" [] ;;
    create self "dbg_seqr" sequencer "dbg_seqr" [] ;;
    create self "axi_bfm" Axi4LiteBFM "axi_bfm"
      [("uut", VTop); ("signal_map", VDict [("clk", "clk"); ("rst", "rst_l")])] ;;
    let* v2 := dot (VObject self) ["axi_bfm"] in
    create self "axi_drv" Axi4LiteSubordinateDriver "axi_drv" [("bfm", v2)] ;;
    let* v3 := dot (VObject self) ["axi_bfm"] in
    create self "axi_mon" CommonAxi.Axi4LiteMonitor "axi_mon" [("bfm", v3)] ;;
    create self "dbg_bfm" DebugInterfaceBFM "dbg_bfm" [("uut", VTop)] ;;
    let* v4 := dot (VObject self) ["dbg_bfm"] in
    create self "dbg_drv" DebugInterfaceDriver "dbg_drv" [("bfm", v4)] ;;
    let* v5 := dot (VObject self) ["dbg_bfm"] in
    create self "dbg_mon" DebugInterfaceMonitor "dbg_mon" [("bfm", v5)] ;;
    create self "mem_bfm" CoreMemoryBFM "mem_bfm" [("uut", VTop)] ;;
    let* v6 := dot (VObject self) ["mem_bfm"] in
    create self "mem_mon" CoreMemoryMonitor "mem_mon" [("bfm", v6)] ;;
    cdb_set_at self ["mem_bfm"] "ICCM_BUSY_PROB" (VFloat (Decimal 5 2)) ;;
    cdb_set_at self ["mem_bfm"] "DCCM_BUSY_PROB" (VFloat (Decimal 5 2)) ;;
    cdb_set_at self ["mem_bfm"] "MEM_BUSY_MIN" (VInt 10) ;;
    cdb_set_at self ["mem_bfm"] "MEM_BUSY_MAX" (VInt 25) ;;
    cdb_set_at self ["mem_bfm"] "ECC_ERROR_RATE" (VFloat (Decimal 0 0)) ;;
    cdb_set_at self ["dbg_bfm"] "DBG_BUSY_PROB" (VFloat (Decimal 5 2)) ;;
    cdb_set_at self ["dbg_bfm"] "DBG_BUSY_MIN" (VInt 10) ;;
    cdb_set_at self ["dbg_bfm"] "DBG_BUSY_MAX" (VInt 25) ;;
    let* dbg_busy_prob := cdb_get_at self ["dbg_bfm"] "DBG_BUSY_PROB" in
    let* dbg_busy_max := cdb_get_at self ["dbg_bfm"] "DBG_BUSY_MAX" in
    let* v7 := cdb_get_at self ["mem_bfm"] "DCCM_BUSY_PROB" in
    let* v8 := cdb_get_at self ["mem_bfm"] "ICCM_BUSY_PROB" in
    let mem_busy_prob := vmax v7 v8 in
    let* mem_busy_max := cdb_get_at self ["mem_bfm"] "MEM_BUSY_MAX" in
    let busy_max := vmax mem_busy_max dbg_busy_max in
    let dbg_prob := vmul (vsub (VInt 1) dbg_busy_prob) mem_busy_prob in
    let dbg_trials := vmul (vtrials dbg_prob (VInt 10) (VFloat (Decimal 9999 2))) busy_max in
    cdb_set_at self ["dbg_bfm"] "DBG_BUSY_TIMEOUT" dbg_trials ;;
    let mem_prob := vmul (vsub (VInt 1) mem_busy_prob) dbg_busy_prob in
    let mem_trials := vmul (vtrials mem_prob (VInt 10) (VFloat (Decimal 9999 2))) mem_busy_max in
    cdb_set_at self ["axi_bfm"] "MEM_BUSY_TIMEOUT" mem_trials;
  connect_phase self :=
    connect_attrs self ["axi_drv"; "seq_item_port"] ["axi_seqr"; "seq_item_export"] ;;
    connect_attrs self ["dbg_drv"; "seq_item_port"] ["dbg_seqr"; "seq_item_export"] |}.

Definition BaseTest (env_class : class) : class := {|
  cname := "BaseTest"; base := uvm_test;
  init := no_keys;
  build_phase self :=
    create self "env" env_class "env" [];
  connect_phase _ := skip |}.

Definition start_clock (name : string) : E unit :=
  let* period := cdb_get None "TEST_CLK_PERIOD" in let* sig := cocotb_top name in skip.

Definition do_reset : proc value unit :=
  drive "free_clk" 0 ;;;
  drive "dma_bus_clk_en" 1 ;;;
  for_each ["clk_override"; "scan_mode"; "dbg_cmd_addr"; "dbg_cmd_wrdata"; "dbg_cmd_valid";
     "dbg_cmd_write"; "dbg_cmd_size"; "dbg_dma_bubble"; "dccm_dma_rvalid"; "dccm_dma_ecc_error";
     "dccm_dma_rtag"; "dccm_dma_rdata"; "iccm_dma_rvalid"; "iccm_dma_ecc_error"; "iccm_dma_rtag";
     "iccm_dma_rdata"; "dccm_ready"; "iccm_ready"; "dec_tlu_dma_qos_prty"; "dma_axi_awvalid";
     "dma_axi_awid"; "dma_axi_awaddr"; "dma_axi_awsize"; "dma_axi_wvalid"; "dma_axi_wdata";
     "dma_axi_wstrb"; "dma_axi_bready"; "dma_axi_arvalid"; "dma_axi_arid"; "dma_axi_araddr";
     "dma_axi_arsize"; "dma_axi_rready"; "rst_l"] (fun s => drive s 0) ;;;
  clock_cycles "clk" 2 ;;;
  (_ <- await (FallingEdge "clk") ;; Ret tt) ;;;
  drive "rst_l" 1.

Definition clocks : list string := ["clk"; "free_clk"].

Definition run_phase (run : proc value unit) : proc value unit :=
  drive "dma_bus_clk_en" 1 ;;;
  do_reset ;;;
  clock_cycles "clk" 2 ;;;
  run ;;;
  clock_cycles "clk" 50.

Definition classes : list class := 
  [CommonAxi.Axi4LiteMonitor; ReadScoreboard; WriteScoreboard; AccessScoreboard; CoreMemoryBFM;
   CoreMemoryMonitor; Axi4LiteBFM; Axi4LiteSubordinateDriver; DebugInterfaceBFM;
   DebugInterfaceDriver; DebugInterfaceMonitor; BaseEnv].

Module TestAddress.

Definition TestEnv : class := {|
  cname := "TestEnv"; base := uvm_env;
  init := init BaseEnv;
  build_phase self :=
    build_phase BaseEnv self ;;
    create self "scoreboard" AccessScoreboard "scoreboard" [];
  connect_phase self :=
    connect_phase BaseEnv self ;;
    connect_attrs self ["axi_mon"; "ap"] ["scoreboard"; "fifo"; "analysis_export"] ;;
    connect_attrs self ["mem_mon"; "ap"] ["scoreboard"; "fifo"; "analysis_export"] |}.

Definition TestAddressOutOfRange : test := {|
  test_class := BaseTest TestEnv;
  end_of_elaboration_phase self :=
    setattr self "seq" (VNew "InvalidAddressSequence") |}.

Definition classes : list class := [TestEnv] ++ classes.

End TestAddress.

Module TestDebugAddress.

Definition TestEnv : class := {|
  cname := "TestEnv"; base := uvm_env;
  init := init BaseEnv;
  build_phase self :=
    build_phase BaseEnv self ;;
    create self "scoreboard" AccessScoreboard "scoreboard" [];
  connect_phase self :=
    connect_phase BaseEnv self ;;
    connect_attrs self ["dbg_mon"; "ap"] ["scoreboard"; "fifo"; "analysis_export"] ;;
    connect_attrs self ["mem_mon"; "ap"] ["scoreboard"; "fifo"; "analysis_export"] |}.

Definition TestAddressOutOfRange : test := {|
  test_class := BaseTest TestEnv;
  end_of_elaboration_phase self :=
    setattr self "seq" (VNew "InvalidAddressSequence") |}.

Definition classes : list class := [TestEnv] ++ classes.

End TestDebugAddress.

Module TestDebugRead.

Definition TestEnv : class := {|
  cname := "TestEnv"; base := uvm_env;
  init := init BaseEnv;
  build_phase self :=
    build_phase BaseEnv self ;;
    create self "scoreboard" ReadScoreboard "scoreboard" [];
  connect_phase self :=
    connect_phase BaseEnv self ;;
    connect_attrs self ["dbg_mon"; "ap"] ["scoreboard"; "fifo"; "analysis_export"] ;;
    connect_attrs self ["mem_mon"; "ap"] ["scoreboard"; "fifo"; "analysis_export"] |}.

Definition TestDCCMRead : test := {|
  test_class := BaseTest TestEnv;
  end_of_elaboration_phase self :=
    setattr self "seq" (VNew "MemReadSequence") |}.

Definition TestICCMRead : test := {|
  test_class := BaseTest TestEnv;
  end_of_elaboration_phase self :=
    setattr self "seq" (VNew "MemReadSequence") |}.

Definition TestBothRead : test := {|
  test_class := BaseTest TestEnv;
  end_of_elaboration_phase self :=
    setattr self "seq" (VNew "AnyMemReadSequence") |}.

Definition classes : list class := [TestEnv] ++ classes.

End TestDebugRead.

Module TestDebugWrite.

Definition TestEnv : class := {|
  cname := "TestEnv"; base := uvm_env;
  init := init BaseEnv;
  build_phase self :=
    build_phase BaseEnv self ;;
    create self "scoreboard" WriteScoreboard "scoreboard" [];
  connect_phase self :=
    connect_phase BaseEnv self ;;
    connect_attrs self ["dbg_mon"; "ap"] ["scoreboard"; "fifo"; "analysis_export"] ;;
    connect_attrs self ["mem_mon"; "ap"] ["scoreboard"; "fifo"; "analysis_export"] |}.

Definition TestDCCMWrite : test := {|
  test_class := BaseTest TestEnv;
  end_of_elaboration_phase self :=
    setattr self "seq" (VNew "MemWriteSequence") |}.

Definition TestICCMWrite : test := {|
  test_class := BaseTest TestEnv;
  end_of_elaboration_phase self :=
    setattr self "seq" (VNew "MemWriteSequence") |}.

Definition TestBothWrite : test := {|
  test_class := BaseTest TestEnv;
  end_of_elaboration_phase self :=
    setattr self "seq" (VNew "AnyMemWriteSequence") |}.

Definition classes : list class := [TestEnv] ++ classes.

End TestDebugWrite.

Module TestEcc.

Definition Scoreboard : class := {|
  cname := "Scoreboard"; base := uvm_component;
  init self kwargs :=
    setattr self "passed" VNone ;;
    load self "iccm_base" None "ICCM_BASE" ;;
    load self "iccm_size" None "ICCM_SIZE" ;;
    load self "dccm_base" None "DCCM_BASE" ;;
    load self "dccm_size" None "DCCM_SIZE" ;;
    mret kwargs;
  build_phase self :=
    create self "fifo" analysis_fifo "fifo" [] ;;
    create self "port" get_port "port" [];
  connect_phase self :=
    connect_attrs self ["port"] ["fifo"; "get_export"] |}.

Definition TestEnv : class := {|
  cname := "TestEnv"; base := uvm_env;
  init := init BaseEnv;
  build_phase self :=
    build_phase BaseEnv self ;;
    cdb_set_at self ["mem_bfm"] "ECC_ERROR_RATE" (VFloat (Decimal 5 1)) ;;
    create self "scoreboard" Scoreboard "scoreboard" [];
  connect_phase self :=
    connect_phase BaseEnv self ;;
    connect_attrs self ["axi_mon"; "ap"] ["scoreboard"; "fifo"; "analysis_export"] ;;
    connect_attrs self ["mem_mon"; "ap"] ["scoreboard"; "fifo"; "analysis_export"] |}.

Definition TestEccError : test := {|
  test_class := BaseTest TestEnv;
  end_of_elaboration_phase self :=
    setattr self "seq" (VNew "AnyMemReadSequence") |}.

Definition classes : list class := [Scoreboard; TestEnv] ++ classes.

End TestEcc.

Module TestRead.

Definition TestEnv : class := {|
  cname := "TestEnv"; base := uvm_env;
  init := init BaseEnv;
  build_phase self :=
    build_phase BaseEnv self ;;
    create self "scoreboard" ReadScoreboard "scoreboard" [];
  connect_phase self :=
    connect_phase BaseEnv self ;;
    connect_attrs self ["axi_mon"; "ap"] ["scoreboard"; "fifo"; "analysis_export"] ;;
    connect_attrs self ["mem_mon"; "ap"] ["scoreboard"; "fifo"; "analysis_export"] |}.

Definition TestDCCMRead : test := {|
  test_class := BaseTest TestEnv;
  end_of_elaboration_phase self :=
    setattr self "seq" (VNew "MemReadSequence") |}.

Definition TestICCMRead : test := {|
  test_class := BaseTest TestEnv;
  end_of_elaboration_phase self :=
    setattr self "seq" (VNew "MemReadSequence") |}.

Definition TestBothRead : test := {|
  test_class := BaseTest TestEnv;
  end_of_elaboration_phase self :=
    setattr self "seq" (VNew "AnyMemReadSequence") |}.

Definition classes : list class := [TestEnv] ++ classes.

End TestRead.

Module TestReset.

Definition TestReset : test := {|
  test_class := BaseTest BaseEnv;
  end_of_elaboration_phase _ := skip |}.

End TestReset.

Module TestWrite.

Definition TestEnv : class := {|
  cname := "TestEnv"; base := uvm_env;
  init := init BaseEnv;
  build_phase self :=
    build_phase BaseEnv self ;;
    create self "scoreboard" WriteScoreboard "scoreboard" [];
  connect_phase self :=
    connect_phase BaseEnv self ;;
    connect_attrs self ["axi_mon"; "ap"] ["scoreboard"; "fifo"; "analysis_export"] ;;
    connect_attrs self ["mem_mon"; "ap"] ["scoreboard"; "fifo"; "analysis_export"] |}.

Definition TestDCCMWrite : test := {|
  test_class := BaseTest TestEnv;
  end_of_elaboration_phase self :=
    setattr self "seq" (VNew "MemWriteSequence") |}.

Definition TestICCMWrite : test := {|
  test_class := BaseTest TestEnv;
  end_of_elaboration_phase self :=
    setattr self "seq" (VNew "MemWriteSequence") |}.

Definition TestBothWrite : test := {|
  test_class := BaseTest TestEnv;
  end_of_elaboration_phase self :=
    setattr self "seq" (VNew "AnyMemWriteSequence") |}.

Definition classes : list class := [TestEnv] ++ classes.

End TestWrite.

End DmaBench.

(** The settings read while the test runs, and the class of the component for
    which the caller reads them. *)
Definition dma_reads : list (option string * string) :=
  [(None, "ADDR_ALIGN"); (None, "TEST_ITERATIONS"); (None, "TEST_BURST_LEN");
   (None, "TEST_BURST_GAP"); (None, "ICCM_BASE"); (None, "ICCM_SIZE"); (None, "DCCM_BASE");
   (None, "DCCM_SIZE"); (None, "PIC_BASE"); (None, "PIC_SIZE"); (None, "TEST_CLK_PERIOD")].

Definition dma : bench := {|
  dut_ports := dma_ports; run_reads := dma_reads;
  runs := [(DmaBench.TestAddress.classes, DmaBench.TestAddress.TestAddressOutOfRange);
   (DmaBench.TestDebugAddress.classes, DmaBench.TestDebugAddress.TestAddressOutOfRange);
   (DmaBench.TestDebugRead.classes, DmaBench.TestDebugRead.TestDCCMRead);
   (DmaBench.TestDebugRead.classes, DmaBench.TestDebugRead.TestICCMRead);
   (DmaBench.TestDebugRead.classes, DmaBench.TestDebugRead.TestBothRead);
   (DmaBench.TestDebugWrite.classes, DmaBench.TestDebugWrite.TestDCCMWrite);
   (DmaBench.TestDebugWrite.classes, DmaBench.TestDebugWrite.TestICCMWrite);
   (DmaBench.TestDebugWrite.classes, DmaBench.TestDebugWrite.TestBothWrite);
   (DmaBench.TestEcc.classes, DmaBench.TestEcc.TestEccError);
   (DmaBench.TestRead.classes, DmaBench.TestRead.TestDCCMRead);
   (DmaBench.TestRead.classes, DmaBench.TestRead.TestICCMRead);
   (DmaBench.TestRead.classes, DmaBench.TestRead.TestBothRead);
   (DmaBench.classes, DmaBench.TestReset.TestReset);
   (DmaBench.TestWrite.classes, DmaBench.TestWrite.TestDCCMWrite);
   (DmaBench.TestWrite.classes, DmaBench.TestWrite.TestICCMWrite);
   (DmaBench.TestWrite.classes, DmaBench.TestWrite.TestBothWrite)] |}.

(** ** lib_ahb_to_axi4 *)

Module LibAhbToAxi4Bench.

Definition AHBLiteManagerBFM_SIGNALS : list string :=
  ["hclk"; "hreset"; "haddr"; "hburst"; "hmastlock"; "hprot"; "hsize"; "htrans"; "hwrite";
   "hwdata"; "hsel"; "hrdata"; "hreadyout"; "hresp"].

Definition AHBLiteManagerBFM : class := {|
  cname := "AHBLiteManagerBFM"; base := uvm_component;
  init self kwargs :=
    let* (uut, kwargs) := pop_key "uut" kwargs in
    let* (signal_prefix, kwargs) := pop_key "signal_prefix" kwargs in
    let* (signal_map, kwargs) := pop_key "signal_map" kwargs in
    collect self AHBLiteManagerBFM_SIGNALS (str_of signal_prefix) "ahb_" (dict_of signal_map) ;;
    mret kwargs;
  build_phase _ := skip;
  connect_phase _ := skip |}.

Definition AHBLiteManagerDriver : class := {|
  cname := "AHBLiteManagerDriver"; base := uvm_driver;
  init := keep_key "bfm";
  build_phase _ := skip;
  connect_phase _ := skip |}.

Definition AHBLiteMonitor : class := {|
  cname := "AHBLiteMonitor"; base := uvm_component;
  init := keep_key "bfm";
  build_phase self :=
    create self "ap" analysis_port "ap" [];
  connect_phase _ := skip |}.

Definition AXI4LiteSubordinateBFM_SIGNALS : list string :=
  ["clk"; "rst"; "awvalid"; "awready"; "awid"; "awaddr"; "awsize"; "wvalid"; "wready"; "wdata";
   "wstrb"; "bvalid"; "bready"; "bresp"; "bid"; "arvalid"; "arready"; "arid"; "araddr"; "arsize";
   "rvalid"; "rready"; "rid"; "rdata"; "rresp"].

Definition AXI4LiteSubordinateBFM : class := {|
  cname := "AXI4LiteSubordinateBFM"; base := uvm_component;
  init self kwargs :=
    let* (uut, kwargs) := pop_key "uut" kwargs in
    let* (signal_prefix, kwargs) := pop_key "signal_prefix" kwargs in
    let* (signal_map, kwargs) := pop_key "signal_map" kwargs in
    collect self AXI4LiteSubordinateBFM_SIGNALS (str_of signal_prefix) "axi_" (dict_of signal_map) ;;
    set_signal self "axi_awready" (VInt 0) ;;
    set_signal self "axi_wready" (VInt 0) ;;
    set_signal self "axi_arready" (VInt 0) ;;
    set_signal self "axi_rvalid" (VInt 0) ;;
    mret kwargs;
  build_phase _ := skip;
  connect_phase _ := skip |}.

Definition AXI4LiteSubordinateDriver : class := {|
  cname := "AXI4LiteSubordinateDriver"; base := uvm_driver;
  init := keep_key "bfm";
  build_phase _ := skip;
  connect_phase _ := skip |}.

Definition Scoreboard : class := {|
  cname := "Scoreboard"; base := uvm_component;
  init self kwargs :=
    setattr self "passed" VNone ;;
    mret kwargs;
  build_phase self :=
    create self "ahb_fifo" analysis_fifo "ahb_fifo" [] ;;
    create self "ahb_port" get_port "ahb_port" [] ;;
    create self "axi_fifo" analysis_fifo "axi_fifo" [] ;;
    create self "axi_port" get_port "axi_port" [];
  connect_phase self :=
    connect_attrs self ["ahb_port"] ["ahb_fifo"; "get_export"] ;;
    connect_attrs self ["axi_port"] ["axi_fifo"; "get_export"] |}.

Definition BaseEnv : class := {|
  cname := "BaseEnv"; base := uvm_env;
  init := no_keys;
  build_phase self :=
    cdb_set None "TEST_CLK_PERIOD" (VInt 1) ;;
    cdb_set None "TEST_ITERATIONS" (VInt 50) ;;
    cdb_set None "TEST_BURST_LEN" (VInt 10) ;;
    cdb_set None "TEST_BURST_GAP" (VInt 10) ;;
    create self "ahb_seqr" sequencer "ahb_seqr" [] ;;
    create self "axi_seqr" sequencer "axi_seqr" [] ;;
    let* v := dot (VObject self) ["ahb_seqr"] in
    cdb_set None "AHB_SEQR" v ;;
    let* v2 := dot (VObject self) ["axi_seqr"] in
    cdb_set None "AXI_SEQR" v2 ;;
    create self "ahb_bfm" AHBLiteManagerBFM "ahb_bfm"
      [("uut", VTop); ("signal_prefix", VStr "ahb_"); ("signal_map", VDict [("hclk", "clk"); ("hreset", "rst_l")])] ;;
    create self "axi_bfm" AXI4LiteSubordinateBFM "axi_bfm"
      [("uut", VTop); ("signal_prefix", VStr "axi_"); ("signal_map", VDict [("clk", "clk"); ("rst", "rst_l")])] ;;
    let* v3 := dot (VObject self) ["ahb_bfm"] in
    create self "ahb_drv" AHBLiteManagerDriver "ahb_drv" [("bfm", v3)] ;;
    let* v4 := dot (VObject self) ["axi_bfm"] in
    create self "axi_drv" AXI4LiteSubordinateDriver "axi_drv" [("bfm", v4)] ;;
    let* v5 := dot (VObject self) ["ahb_bfm"] in
    create self "ahb_mon" AHBLiteMonitor "ahb_mon" [("bfm", v5)] ;;
    let* v6 := dot (VObject self) ["axi_bfm"] in
    create self "axi_mon" CommonAxi.Axi4LiteMonitor "axi_mon" [("bfm", v6)] ;;
    create self "scoreboard" Scoreboard "scoreboard" [];
  connect_phase self :=
    connect_attrs self ["ahb_drv"; "seq_item_port"] ["ahb_seqr"; "seq_item_export"] ;;
    connect_attrs self ["axi_drv"; "seq_item_port"] ["axi_seqr"; "seq_item_export"] ;;
    connect_attrs self ["ahb_mon"; "ap"] ["scoreboard"; "ahb_fifo"; "analysis_export"] ;;
    connect_attrs self ["axi_mon"; "ap"] ["scoreboard"; "axi_fifo"; "analysis_export"] |}.

Definition BaseTest (env_class : class) : class := {|
  cname := "BaseTest"; base := uvm_test;
  init := no_keys;
  build_phase self :=
    create self "env" env_class "env" [];
  connect_phase _ := skip |}.

Definition start_clock (name : string) : E unit :=
  let* period := cdb_get None "TEST_CLK_PERIOD" in let* sig := cocotb_top name in skip.

Definition do_reset : proc value unit :=
  for_each ["scan_mode"; "clk_override"; "axi_awready"; "axi_wready"; "axi_bvalid"; "axi_bresp";
     "axi_bid"; "axi_arready"; "axi_rvalid"; "axi_rid"; "axi_rdata"; "axi_rresp"; "ahb_haddr";
     "ahb_hburst"; "ahb_hmastlock"; "ahb_hprot"; "ahb_hsize"; "ahb_htrans"; "ahb_hwrite";
     "ahb_hwdata"; "ahb_hsel"; "rst_l"] (fun s => drive s 0) ;;;
  clock_cycles "clk" 2 ;;;
  (_ <- await (FallingEdge "clk") ;; Ret tt) ;;;
  drive "rst_l" 1.

Definition clocks : list string := ["clk"].

Definition run_phase (run : proc value unit) : proc value unit :=
  do_reset ;;;
  drive "bus_clk_en" 1 ;;;
  drive "ahb_hreadyin" 1 ;;;
  clock_cycles "clk" 2 ;;;
  run ;;;
  clock_cycles "clk" 10.

Definition classes : list class := 
  [CommonAxi.Axi4LiteMonitor; AHBLiteManagerBFM; AHBLiteManagerDriver; AHBLiteMonitor;
   AXI4LiteSubordinateBFM; AXI4LiteSubordinateDriver; Scoreboard; BaseEnv].

Module TestRead.

Definition TestReadNoBackpressure : test := {|
  test_class := BaseTest BaseEnv;
  end_of_elaboration_phase self :=
    setattr self "seq" (VNew "NoBackpressureReadSequence") |}.

Definition TestReadBackpressure : test := {|
  test_class := BaseTest BaseEnv;
  end_of_elaboration_phase self :=
    setattr self "seq" (VNew "BackpressureReadSequence") |}.

Definition TestReadNoDataResponse : test := {|
  test_class := BaseTest BaseEnv;
  end_of_elaboration_phase self :=
    setattr self "seq" (VNew "NoReadDataResponseSequence") |}.

End TestRead.

Module TestWrite.

Definition TestWriteNoBackpressure : test := {|
  test_class := BaseTest BaseEnv;
  end_of_elaboration_phase self :=
    setattr self "seq" (VNew "NoBackpressureWriteSequence") |}.

Definition TestWriteBackpressure : test := {|
  test_class := BaseTest BaseEnv;
  end_of_elaboration_phase self :=
    setattr self "seq" (VNew "BackpressureWriteSequence") |}.

Definition TestWriteNoResponse : test := {|
  test_class := BaseTest BaseEnv;
  end_of_elaboration_phase self :=
    setattr self "seq" (VNew "NoWriteResponseSequence") |}.

Definition TestWriteNoAddrResponse : test := {|
  test_class := BaseTest BaseEnv;
  end_of_elaboration_phase self :=
    setattr self "seq" (VNew "NoWriteAddrResponseSequence") |}.

Definition TestWriteNoDataResponse : test := {|
  test_class := BaseTest BaseEnv;
  end_of_elaboration_phase self :=
    setattr self "seq" (VNew "NoWriteDataResponseSequence") |}.

End TestWrite.

End LibAhbToAxi4Bench.

(** The settings read while the test runs, and the class of the component for
    which the caller reads them. *)
Definition lib_ahb_to_axi4_reads : list (option string * string) :=
  [(None, "AHB_SEQR"); (None, "AXI_SEQR"); (None, "TEST_ITERATIONS"); (None, "TEST_BURST_GAP");
   (None, "TEST_CLK_PERIOD")].

Definition lib_ahb_to_axi4 : bench := {|
  dut_ports := lib_ahb_to_axi4_ports; run_reads := lib_ahb_to_axi4_reads;
  runs := [(LibAhbToAxi4Bench.classes, LibAhbToAxi4Bench.TestRead.TestReadNoBackpressure);
   (LibAhbToAxi4Bench.classes, LibAhbToAxi4Bench.TestRead.TestReadBackpressure);
   (LibAhbToAxi4Bench.classes, LibAhbToAxi4Bench.TestRead.TestReadNoDataResponse);
   (LibAhbToAxi4Bench.classes, LibAhbToAxi4Bench.TestWrite.TestWriteNoBackpressure);
   (LibAhbToAxi4Bench.classes, LibAhbToAxi4Bench.TestWrite.TestWriteBackpressure);
   (LibAhbToAxi4Bench.classes, LibAhbToAxi4Bench.TestWrite.TestWriteNoResponse);
   (LibAhbToAxi4Bench.classes, LibAhbToAxi4Bench.TestWrite.TestWriteNoAddrResponse);
   (LibAhbToAxi4Bench.classes, LibAhbToAxi4Bench.TestWrite.TestWriteNoDataResponse)] |}.

(** ** pic *)

Module PicBench.

Definition RegisterBfm_SIGNALS : list string :=
  ["picm_rden"; "picm_rdaddr"; "picm_rd_data"; "picm_wren"; "picm_wraddr"; "picm_wr_data";
   "picm_mken"].

Definition RegisterBfm_init (self : path) (uut clk : value) : E unit :=
  collect self RegisterBfm_SIGNALS "" "" None ;;
  let* obj := cocotb_top (str_of clk) in
  setattr self "picm_clk" obj.

Definition RegisterDriver : class := {|
  cname := "RegisterDriver"; base := uvm_driver;
  init := keep_key "bfm";
  build_phase _ := skip;
  connect_phase _ := skip |}.

Definition RegisterMonitor : class := {|
  cname := "RegisterMonitor"; base := uvm_component;
  init := keep_key "bfm";
  build_phase self :=
    create self "ap" analysis_port "ap" [];
  connect_phase _ := skip |}.

Definition PrioDriver_SIGNALS : list string :=
  ["meicurpl"; "meipt"].

Definition PrioDriver : class := {|
  cname := "PrioDriver"; base := uvm_driver;
  init self kwargs :=
    let* (uut, kwargs) := pop_key "uut" kwargs in
    collect self PrioDriver_SIGNALS "" "" None ;;
    mret kwargs;
  build_phase _ := skip;
  connect_phase _ := skip |}.

Definition PrioMonitor_SIGNALS : list string :=
  ["clk"; "meicurpl"; "meipt"].

Definition PrioMonitor : class := {|
  cname := "PrioMonitor"; base := uvm_component;
  init self kwargs :=
    let* (uut, kwargs) := pop_key "uut" kwargs in
    collect self PrioMonitor_SIGNALS "" "" None ;;
    setattr self "prev_meicurpl" VNone ;;
    setattr self "prev_meipt" VNone ;;
    mret kwargs;
  build_phase self :=
    create self "ap" analysis_port "ap" [];
  connect_phase _ := skip |}.

Definition IrqDriver_SIGNALS : list string :=
  ["extintsrc_req"].

Definition IrqDriver : class := {|
  cname := "IrqDriver"; base := uvm_driver;
  init self kwargs :=
    let* (uut, kwargs) := pop_key "uut" kwargs in
    collect self IrqDriver_SIGNALS "" "" None ;;
    mret kwargs;
  build_phase _ := skip;
  connect_phase _ := skip |}.

Definition IrqMonitor_SIGNALS : list string :=
  ["clk"; "extintsrc_req"].

Definition IrqMonitor : class := {|
  cname := "IrqMonitor"; base := uvm_component;
  init self kwargs :=
    let* (uut, kwargs) := pop_key "uut" kwargs in
    collect self IrqMonitor_SIGNALS "" "" None ;;
    setattr self "prev_irqs" VNone ;;
    mret kwargs;
  build_phase self :=
    create self "ap" analysis_port "ap" [];
  connect_phase _ := skip |}.

Definition ClaimMonitor_SIGNALS : list string :=
  ["clk"; "extintsrc_req"; "picm_wren"; "claimid"; "pl"; "mexintpend"; "mhwakeup"].

Definition ClaimMonitor : class := {|
  cname := "ClaimMonitor"; base := uvm_component;
  init self kwargs :=
    let* (uut, kwargs) := pop_key "uut" kwargs in
    collect self ClaimMonitor_SIGNALS "" "" None ;;
    setattr self "prev_irqs" (VInt 0) ;;
    setattr self "prev_wren" (VInt 0) ;;
    mret kwargs;
  build_phase self :=
    create self "ap" analysis_port "ap" [];
  connect_phase _ := skip |}.

Definition BaseEnv : class := {|
  cname := "BaseEnv"; base := uvm_env;
  init := no_keys;
  build_phase self :=
    cdb_set None "PIC_NUM_INTERRUPTS" (VInt 32) ;;
    cdb_set None "PIC_NUM_PRIORITIES" (VInt 15) ;;
    cdb_set None "TEST_CLK_PERIOD" (VInt 1) ;;
    cdb_set None "TEST_ITERATIONS" (VInt 50) ;;
    cdb_set None "TEST_IRQ_ENA_PROB" (VFloat (Decimal 75 2)) ;;
    cdb_set None "TEST_IRQ_REQ_PROB" (VFloat (Decimal 9 1)) ;;
    create self "reg_seqr" sequencer "reg_seqr" [] ;;
    create self "pri_seqr" sequencer "pri_seqr" [] ;;
    create self "irq_seqr" sequencer "irq_seqr" [] ;;
    let bfm := VObject ["RegisterBfm"] in
    RegisterBfm_init ["RegisterBfm"] VTop (VStr "clk") ;;
    create self "reg_drv" RegisterDriver "reg_drv" [("bfm", bfm)] ;;
    create self "reg_mon" RegisterMonitor "reg_mon" [("bfm", bfm)] ;;
    create self "pri_drv" PrioDriver "pri_drv" [("uut", VTop)] ;;
    create self "pri_mon" PrioMonitor "pri_mon" [("uut", VTop)] ;;
    create self "irq_drv" IrqDriver "irq_drv" [("uut", VTop)] ;;
    create self "irq_mon" IrqMonitor "irq_mon" [("uut", VTop)] ;;
    create self "claim_mon" ClaimMonitor "claim_mon" [("uut", VTop)] ;;
    let* v := dot (VObject self) ["reg_seqr"] in
    cdb_set None "REG_SEQR" v ;;
    let* v2 := dot (VObject self) ["pri_seqr"] in
    cdb_set None "PRI_SEQR" v2 ;;
    let* v3 := dot (VObject self) ["irq_seqr"] in
    cdb_set None "IRQ_SEQR" v3;
  connect_phase self :=
    connect_attrs self ["reg_drv"; "seq_item_port"] ["reg_seqr"; "seq_item_export"] ;;
    connect_attrs self ["pri_drv"; "seq_item_port"] ["pri_seqr"; "seq_item_export"] ;;
    connect_attrs self ["irq_drv"; "seq_item_port"] ["irq_seqr"; "seq_item_export"] |}.

Definition BaseTest (env_class : class) : class := {|
  cname := "BaseTest"; base := uvm_test;
  init := no_keys;
  build_phase self :=
    create self "env" env_class "env" [];
  connect_phase _ := skip |}.

Definition start_clock (name : string) : E unit :=
  let* period := cdb_get None "TEST_CLK_PERIOD" in let* sig := cocotb_top name in skip.

Definition classes : list class := 
  [RegisterDriver; RegisterMonitor; PrioDriver; PrioMonitor; IrqDriver; IrqMonitor;
   ClaimMonitor; BaseEnv].

Module TestClken.

Definition ClkenDriver_SIGNALS : list string :=
  ["clk_override"; "io_clk_override"].

Definition ClkenDriver : class := {|
  cname := "ClkenDriver"; base := uvm_driver;
  init self kwargs :=
    let* (uut, kwargs) := pop_key "uut" kwargs in
    collect self ClkenDriver_SIGNALS "" "" None ;;
    mret kwargs;
  build_phase _ := skip;
  connect_phase _ := skip |}.

Definition ClkenMonitor_SIGNALS : list string :=
  ["clk"; "clk_override"; "io_clk_override"].

Definition ClkenMonitor : class := {|
  cname := "ClkenMonitor"; base := uvm_component;
  init self kwargs :=
    let* (uut, kwargs) := pop_key "uut" kwargs in
    collect self ClkenMonitor_SIGNALS "" "" None ;;
    setattr self "prev_clk_override" (VInt 0) ;;
    setattr self "prev_io_clk_override" (VInt 0) ;;
    mret kwargs;
  build_phase self :=
    create self "ap" analysis_port "ap" [];
  connect_phase _ := skip |}.

Definition ClockMonitor_SIGNALS : list string :=
  ["pic_raddr_c1_clk"; "pic_data_c1_clk"; "pic_pri_c1_clk"; "pic_int_c1_clk"; "gw_config_c1_clk"].

Definition ClockMonitor : class := {|
  cname := "ClockMonitor"; base := uvm_component;
  init self kwargs :=
    let* (uut, kwargs) := pop_key "uut" kwargs in
    collect self ClockMonitor_SIGNALS "" "" None ;;
    setattr self "lock" (VNew "Lock") ;;
    setattr self "state" (VNew "dict") ;;
    mret kwargs;
  build_phase self :=
    create self "ap" analysis_port "ap" [];
  connect_phase _ := skip |}.

Definition Scoreboard : class := {|
  cname := "Scoreboard"; base := uvm_component;
  init self kwargs :=
    setattr self "passed" VNone ;;
    mret kwargs;
  build_phase self :=
    create self "fifo" analysis_fifo "fifo" [] ;;
    create self "port" get_port "port" [];
  connect_phase self :=
    connect_attrs self ["port"] ["fifo"; "get_export"] |}.

Definition TestEnv : class := {|
  cname := "TestEnv"; base := uvm_env;
  init := init BaseEnv;
  build_phase self :=
    build_phase BaseEnv self ;;
    create self "clken_seqr" sequencer "clken_seqr" [] ;;
    create self "clken_drv" ClkenDriver "clken_drv" [("uut", VTop)] ;;
    create self "clken_mon" ClkenMonitor "clken_mon" [("uut", VTop)] ;;
    create self "clk_mon" ClockMonitor "clk_mon" [("uut", VTop)] ;;
    create self "scoreboard" Scoreboard "scoreboard" [];
  connect_phase self :=
    connect_phase BaseEnv self ;;
    connect_attrs self ["clken_drv"; "seq_item_port"] ["clken_seqr"; "seq_item_export"] ;;
    connect_attrs self ["clken_mon"; "ap"] ["scoreboard"; "fifo"; "analysis_export"] ;;
    connect_attrs self ["clk_mon"; "ap"] ["scoreboard"; "fifo"; "analysis_export"] |}.

Definition TestClockEnable : test := {|
  test_class := BaseTest TestEnv;
  end_of_elaboration_phase self :=
    setattr self "seq" (VNew "TestSequence") |}.

Definition classes : list class := [ClkenDriver; ClkenMonitor; ClockMonitor; Scoreboard; TestEnv] ++ classes.

End TestClken.

Module TestConfig.

Definition Scoreboard : class := {|
  cname := "Scoreboard"; base := uvm_component;
  init self kwargs :=
    setattr self "passed" VNone ;;
    setattr self "reg_map" (VNew "RegisterMap") ;;
    setattr self "reg_content" (VNew "dict") ;;
    mret kwargs;
  build_phase self :=
    create self "fifo" analysis_fifo "fifo" [] ;;
    create self "port" get_port "port" [];
  connect_phase self :=
    connect_attrs self ["port"] ["fifo"; "get_export"] |}.

Definition TestEnv : class := {|
  cname := "TestEnv"; base := uvm_env;
  init := init BaseEnv;
  build_phase self :=
    build_phase BaseEnv self ;;
    create self "scoreboard" Scoreboard "scoreboard" [];
  connect_phase self :=
    connect_phase BaseEnv self ;;
    connect_attrs self ["reg_mon"; "ap"] ["scoreboard"; "fifo"; "analysis_export"] |}.

Definition TestConfig : test := {|
  test_class := BaseTest TestEnv;
  end_of_elaboration_phase self :=
    setattr self "seq" (VNew "TestSequence") |}.

Definition classes : list class := [Scoreboard; TestEnv] ++ classes.

End TestConfig.

Module TestPending.

(** The settings that the constructor of [TestSequence] reads. *)
Definition TestSequence_init : E unit :=
  each (fun k => let* _ := cdb_get None k in skip) ["REG_SEQR"; "IRQ_SEQR"].

Definition Scoreboard : class := {|
  cname := "Scoreboard"; base := uvm_component;
  init self kwargs :=
    setattr self "passed" VNone ;;
    setattr self "regs" (VNew "RegisterMap") ;;
    mret kwargs;
  build_phase self :=
    create self "fifo" analysis_fifo "fifo" [] ;;
    create self "port" get_port "port" [];
  connect_phase self :=
    connect_attrs self ["port"] ["fifo"; "get_export"] |}.

Definition TestEnv : class := {|
  cname := "TestEnv"; base := uvm_env;
  init := init BaseEnv;
  build_phase self :=
    build_phase BaseEnv self ;;
    let* count := cdb_get None "TEST_ITERATIONS" in
    cdb_set None "TEST_ITERATIONS" (vmul count (VInt 2)) ;;
    create self "scoreboard" Scoreboard "scoreboard" [];
  connect_phase self :=
    connect_phase BaseEnv self ;;
    connect_attrs self ["reg_mon"; "ap"] ["scoreboard"; "fifo"; "analysis_export"] ;;
    connect_attrs self ["irq_mon"; "ap"] ["scoreboard"; "fifo"; "analysis_export"] |}.

Definition TestPending : test := {|
  test_class := BaseTest TestEnv;
  end_of_elaboration_phase self :=
    TestSequence_init ;;
    setattr self "seq" (VNew "TestSequence") |}.

Definition classes : list class := [Scoreboard; TestEnv] ++ classes.

End TestPending.

Module TestPrioritization.

(** The settings that the constructor of [TestSequence] reads. *)
Definition TestSequence_init : E unit :=
  each (fun k => let* _ := cdb_get None k in skip) ["REG_SEQR"; "PRI_SEQR"; "IRQ_SEQR"].

Definition Scoreboard : class := {|
  cname := "Scoreboard"; base := uvm_component;
  init self kwargs :=
    setattr self "passed" VNone ;;
    setattr self "predictor" (VNew "PriorityPredictor") ;;
    setattr self "regs" (VNew "RegisterMap") ;;
    mret kwargs;
  build_phase self :=
    create self "fifo" analysis_fifo "fifo" [] ;;
    create self "port" get_port "port" [];
  connect_phase self :=
    connect_attrs self ["port"] ["fifo"; "get_export"] |}.

Definition TestEnv : class := {|
  cname := "TestEnv"; base := uvm_env;
  init := init BaseEnv;
  build_phase self :=
    build_phase BaseEnv self ;;
    create self "scoreboard" Scoreboard "scoreboard" [];
  connect_phase self :=
    connect_phase BaseEnv self ;;
    connect_attrs self ["reg_mon"; "ap"] ["scoreboard"; "fifo"; "analysis_export"] ;;
    connect_attrs self ["pri_mon"; "ap"] ["scoreboard"; "fifo"; "analysis_export"] ;;
    connect_attrs self ["irq_mon"; "ap"] ["scoreboard"; "fifo"; "analysis_export"] ;;
    connect_attrs self ["claim_mon"; "ap"] ["scoreboard"; "fifo"; "analysis_export"] |}.

Definition TestPrioritization : test := {|
  test_class := BaseTest TestEnv;
  end_of_elaboration_phase self :=
    TestSequence_init ;;
    setattr self "seq" (VNew "TestSequence") |}.

Definition classes : list class := [Scoreboard; TestEnv] ++ classes.

End TestPrioritization.

Module TestReset.

Definition TestReset : test := {|
  test_class := BaseTest BaseEnv;
  end_of_elaboration_phase _ := skip |}.

End TestReset.

Module TestServicing.

(** The settings that the constructor of [TestSequence] reads. *)
Definition TestSequence_init : E unit :=
  each (fun k => let* _ := cdb_get None k in skip) ["REG_SEQR"; "PRI_SEQR"; "IRQ_SEQR"].

Definition Scoreboard : class := {|
  cname := "Scoreboard"; base := uvm_component;
  init self kwargs :=
    setattr self "passed" VNone ;;
    setattr self "predictor" (VNew "PriorityPredictor") ;;
    setattr self "regs" (VNew "RegisterMap") ;;
    mret kwargs;
  build_phase self :=
    create self "fifo" analysis_fifo "fifo" [] ;;
    create self "port" get_port "port" [];
  connect_phase self :=
    connect_attrs self ["port"] ["fifo"; "get_export"] |}.

Definition TestEnv : class := {|
  cname := "TestEnv"; base := uvm_env;
  init := init BaseEnv;
  build_phase self :=
    build_phase BaseEnv self ;;
    create self "scoreboard" Scoreboard "scoreboard" [];
  connect_phase self :=
    connect_phase BaseEnv self ;;
    connect_attrs self ["reg_mon"; "ap"] ["scoreboard"; "fifo"; "analysis_export"] ;;
    connect_attrs self ["pri_mon"; "ap"] ["scoreboard"; "fifo"; "analysis_export"] ;;
    connect_attrs self ["irq_mon"; "ap"] ["scoreboard"; "fifo"; "analysis_export"] ;;
    connect_attrs self ["claim_mon"; "ap"] ["scoreboard"; "fifo"; "analysis_export"] |}.

Definition TestServicing : test := {|
  test_class := BaseTest TestEnv;
  end_of_elaboration_phase self :=
    TestSequence_init ;;
    setattr self "seq" (VNew "TestSequence") |}.

Definition classes : list class := [Scoreboard; TestEnv] ++ classes.

End TestServicing.

End PicBench.

(** The settings read while the test runs, and the class of the component for
    which the caller reads them. *)
Definition pic_reads : list (option string * string) :=
  [(None, "TEST_CLK_PERIOD"); (None, "TEST_ITERATIONS"); (None, "PIC_NUM_PRIORITIES");
   (None, "PIC_NUM_INTERRUPTS"); (None, "TEST_IRQ_ENA_PROB"); (None, "TEST_IRQ_REQ_PROB")].

Definition pic : bench := {|
  dut_ports := pic_ports; run_reads := pic_reads;
  runs := [(PicBench.TestClken.classes, PicBench.TestClken.TestClockEnable);
   (PicBench.TestConfig.classes, PicBench.TestConfig.TestConfig);
   (PicBench.TestPending.classes, PicBench.TestPending.TestPending);
   (PicBench.TestPrioritization.classes, PicBench.TestPrioritization.TestPrioritization);
   (PicBench.classes, PicBench.TestReset.TestReset);
   (PicBench.TestServicing.classes, PicBench.TestServicing.TestServicing)] |}.

(** ** dmi *)

Module DmiBench.

Definition DMIMonitor : class := {|
  cname := "DMIMonitor"; base := uvm_component;
  init := keep_key "method_name";
  build_phase self :=
    create self "ap" analysis_port "ap_mon" [] ;;
    setattr self "bfm" (VNew "BFM") ;;
    setattr self "get_method" (VNew "getattr");
  connect_phase _ := skip |}.

Definition DMIDriver : class := {|
  cname := "DMIDriver"; base := uvm_driver;
  init := no_keys;
  build_phase self :=
    create self "ap" analysis_port "ap_drv" [];
  connect_phase _ := skip |}.

Definition DMIAgent : class := {|
  cname := "DMIAgent"; base := uvm_agent;
  init := no_keys;
  build_phase self :=
    create self "seqr" sequencer "seqr" [] ;;
    let* v := dot (VObject self) ["seqr"] in
    cdb_set None "DMI_SEQR" v ;;
    create self "monitor" DMIMonitor "dmi_monitor" [("method_name", VStr "rsp_monitor_q_get")] ;;
    create self "driver" DMIDriver "dmi_driver" [];
  connect_phase self :=
    connect_attrs self ["driver"; "seq_item_port"] ["seqr"; "seq_item_export"] |}.

Definition JTAGMonitor : class := {|
  cname := "JTAGMonitor"; base := uvm_component;
  init := keep_key "method_name";
  build_phase self :=
    create self "ap" analysis_port "ap_mon" [] ;;
    setattr self "bfm" (VNew "BFM") ;;
    setattr self "get_method" (VNew "getattr");
  connect_phase _ := skip |}.

Definition JTAGDriver : class := {|
  cname := "JTAGDriver"; base := uvm_driver;
  init := no_keys;
  build_phase self :=
    create self "ap" analysis_port "ap_drv" [];
  connect_phase _ := skip |}.

Definition JTAGAgent : class := {|
  cname := "JTAGAgent"; base := uvm_agent;
  init := no_keys;
  build_phase self :=
    create self "seqr" sequencer "seqr" [] ;;
    let* v := dot (VObject self) ["seqr"] in
    cdb_set None "JTAG_SEQR" v ;;
    create self "monitor" JTAGMonitor "jtag_monitor"
      [("method_name", VStr "rsp_monitor_q_get")] ;;
    create self "driver" JTAGDriver "jtag_driver" [];
  connect_phase self :=
    connect_attrs self ["driver"; "seq_item_port"] ["seqr"; "seq_item_export"] |}.

Definition Scoreboard : class := {|
  cname := "Scoreboard"; base := uvm_component;
  init := no_keys;
  build_phase self :=
    create self "jtag_rsp_fifo" analysis_fifo "jtag_rsp_fifo" [] ;;
    create self "jtag_rsp_get_port" get_port "jtag_rsp_get_port" [] ;;
    let* v := dot (VObject self) ["jtag_rsp_fifo"; "analysis_export"] in
    setattr self "jtag_rsp_export" v ;;
    create self "dmi_rsp_fifo" analysis_fifo "dmi_rsp_fifo" [] ;;
    create self "dmi_rsp_get_port" get_port "dmi_rsp_get_port" [] ;;
    let* v2 := dot (VObject self) ["dmi_rsp_fifo"; "analysis_export"] in
    setattr self "dmi_rsp_export" v2;
  connect_phase self :=
    connect_attrs self ["jtag_rsp_get_port"] ["jtag_rsp_fifo"; "get_export"] ;;
    connect_attrs self ["dmi_rsp_get_port"] ["dmi_rsp_fifo"; "get_export"] |}.

Definition BaseEnvironment : class := {|
  cname := "BaseEnvironment"; base := uvm_env;
  init := no_keys;
  build_phase self :=
    cdb_set None "TEST_JTAG_CLK_PERIOD" (VInt 3) ;;
    cdb_set None "TEST_CORE_CLK_PERIOD" (VInt 1) ;;
    cdb_set None "AWIDTH" (VInt 7) ;;
    create self "jtag_agent" JTAGAgent "jtag_agent" [] ;;
    create self "dmi_agent" DMIAgent "dmi_agent" [] ;;
    setattr self "predictor" (VNew "JTAGPredictor") ;;
    create self "scoreboard" Scoreboard "scoreboard" [] ;;
    let* v := dot (VObject self) ["predictor"] in
    cdb_set None "JTAG_PREDICTOR" v;
  connect_phase self :=
    connect_attrs self ["jtag_agent"; "monitor"; "ap"] ["scoreboard"; "jtag_rsp_export"] ;;
    connect_attrs self ["dmi_agent"; "monitor"; "ap"] ["scoreboard"; "dmi_rsp_export"] |}.

Definition BaseTest : class := {|
  cname := "BaseTest"; base := uvm_test;
  init := no_keys;
  build_phase self :=
    create self "env" BaseEnvironment "env" [];
  connect_phase _ := skip |}.

Definition start_clock (name : string) (period : value) : E unit :=
  let* sig := cocotb_top name in skip.

Definition classes : list class := 
  [DMIMonitor; DMIDriver; DMIAgent; JTAGMonitor; JTAGDriver; JTAGAgent; Scoreboard;
   BaseEnvironment; BaseTest].

Module TestDmiReadWrite.

Definition TestDMIReadRegs : test := {|
  test_class := BaseTest;
  end_of_elaboration_phase self :=
    load self "seqr" None "JTAG_SEQR" ;;
    setattr self "set_ir_dren0_seq" (VNew "SetIRSequence") ;;
    setattr self "set_ir_dren1_seq" (VNew "SetIRSequence") ;;
    setattr self "read_dmcontrol_seq" (VNew "AccessDMIRegSequence") ;;
    setattr self "read_dmstatus_seq" (VNew "AccessDMIRegSequence") |}.

Definition TestDMIWriteRegs : test := {|
  test_class := BaseTest;
  end_of_elaboration_phase self :=
    load self "seqr" None "JTAG_SEQR" ;;
    setattr self "set_ir_dren1_seq" (VNew "SetIRSequence") ;;
    setattr self "write_dmcontrol_seq" (VNew "AccessDMIRegSequence") ;;
    setattr self "write_dmstatus_seq" (VNew "AccessDMIRegSequence") |}.

Definition TestDMIReadWriteRegs : test := {|
  test_class := BaseTest;
  end_of_elaboration_phase self :=
    load self "seqr" None "JTAG_SEQR" ;;
    setattr self "set_ir_dren1_seq" (VNew "SetIRSequence") ;;
    setattr self "write_dmcontrol_seq" (VNew "AccessDMIRegSequence") ;;
    setattr self "write_dmstatus_seq" (VNew "AccessDMIRegSequence") ;;
    setattr self "read_dmcontrol_seq" (VNew "AccessDMIRegSequence") ;;
    setattr self "read_dmstatus_seq" (VNew "AccessDMIRegSequence") |}.

Definition TestUncoreDMIReadWriteRegs : test := {|
  test_class := BaseTest;
  end_of_elaboration_phase self :=
    load self "jtag_seqr" None "JTAG_SEQR" ;;
    load self "dmi_seqr" None "DMI_SEQR" ;;
    setattr self "uncore_enable_seq" (VNew "SetUncoreEnableSequence") ;;
    setattr self "set_ir_dren1_seq" (VNew "SetIRSequence") ;;
    setattr self "write_core_seq1" (VNew "AccessDMIRegSequence") ;;
    setattr self "write_uncore_seq1" (VNew "AccessDMIRegSequence") ;;
    setattr self "read_core_seq1" (VNew "AccessDMIRegSequence") ;;
    setattr self "read_uncore_seq1" (VNew "AccessDMIRegSequence") ;;
    setattr self "write_core_seq2" (VNew "AccessDMIRegSequence") ;;
    setattr self "write_uncore_seq2" (VNew "AccessDMIRegSequence") ;;
    setattr self "read_core_seq2" (VNew "AccessDMIRegSequence") ;;
    setattr self "read_uncore_seq2" (VNew "AccessDMIRegSequence") |}.

End TestDmiReadWrite.

Module TestJtagIr.

Definition TestJTAGSetIR : test := {|
  test_class := BaseTest;
  end_of_elaboration_phase self :=
    load self "seqr" None "JTAG_SEQR" ;;
    setattr self "set_ir_seq" (VNew "SetIRSequence") |}.

Definition TestJTAGReadIDCODE : test := {|
  test_class := BaseTest;
  end_of_elaboration_phase self :=
    load self "seqr" None "JTAG_SEQR" ;;
    setattr self "read_idcode_seq" (VNew "CaptureDRSequence") |}.

Definition TestJTAGSetIRReadDR : test := {|
  test_class := BaseTest;
  end_of_elaboration_phase self :=
    load self "seqr" None "JTAG_SEQR" ;;
    setattr self "set_ir_seq" (VNew "SetIRSequence") ;;
    setattr self "read_idcode_seq" (VNew "CaptureDRSequence") |}.

End TestJtagIr.

End DmiBench.

(** The settings read while the test runs, and the class of the component for
    which the caller reads them. *)
Definition dmi_reads : list (option string * string) :=
  [(None, "TEST_CORE_CLK_PERIOD"); (None, "TEST_JTAG_CLK_PERIOD")].

Definition dmi : bench := {|
  dut_ports := dmi_ports; run_reads := dmi_reads;
  runs := [(DmiBench.classes, DmiBench.TestDmiReadWrite.TestDMIReadRegs);
   (DmiBench.classes, DmiBench.TestDmiReadWrite.TestDMIWriteRegs);
   (DmiBench.classes, DmiBench.TestDmiReadWrite.TestDMIReadWriteRegs);
   (DmiBench.classes, DmiBench.TestDmiReadWrite.TestUncoreDMIReadWriteRegs);
   (DmiBench.classes, DmiBench.TestJtagIr.TestJTAGSetIR);
   (DmiBench.classes, DmiBench.TestJtagIr.TestJTAGReadIDCODE);
   (DmiBench.classes, DmiBench.TestJtagIr.TestJTAGSetIRReadDR)] |}.

(** ** lib_axi4_to_ahb *)

Module LibAxi4ToAhbBench.

Definition BaseMonitor : class := {|
  cname := "BaseMonitor"; base := uvm_component;
  init := no_keys;
  build_phase self :=
    create self "ap_req" analysis_port "ap_req" [] ;;
    create self "ap_rsp" analysis_port "ap_rsp" [] ;;
    setattr self "bfm" VNone;
  connect_phase _ := skip |}.

Definition AHBLiteMonitor : class := {|
  cname := "AHBLiteMonitor"; base := uvm_component;
  init := no_keys;
  build_phase self :=
    build_phase BaseMonitor self ;;
    setattr self "bfm" (VNew "AHBLiteBFM");
  connect_phase := connect_phase BaseMonitor |}.

Definition AHBLiteDriver : class := {|
  cname := "AHBLiteDriver"; base := uvm_driver;
  init := no_keys;
  build_phase self :=
    create self "ap" analysis_port "ap" [] ;;
    let* v := cocotb_top "rst_l" in
    setattr self "rst_n" v ;;
    let* v2 := cocotb_top "clk" in
    setattr self "clk" v2;
  connect_phase _ := skip |}.

Definition AHBLiteAgent : class := {|
  cname := "AHBLiteAgent"; base := uvm_agent;
  init := no_keys;
  build_phase self :=
    create self "seqr" sequencer "seqr" [] ;;
    let* v := dot (VObject self) ["seqr"] in
    cdb_set None "ahb_seqr" v ;;
    create self "monitor" AHBLiteMonitor "axi_w_agent" [] ;;
    create self "driver" AHBLiteDriver "axi_w_driver" [];
  connect_phase self :=
    connect_attrs self ["driver"; "seq_item_port"] ["seqr"; "seq_item_export"] |}.

Definition AXIReadChannelMonitor : class := {|
  cname := "AXIReadChannelMonitor"; base := uvm_component;
  init := no_keys;
  build_phase self :=
    build_phase BaseMonitor self ;;
    setattr self "bfm" (VNew "AXIReadChannelBFM");
  connect_phase := connect_phase BaseMonitor |}.

Definition AXIReadChannelDriver : class := {|
  cname := "AXIReadChannelDriver"; base := uvm_driver;
  init := no_keys;
  build_phase self :=
    create self "ap" analysis_port "ap" [] ;;
    let* v := cocotb_top "rst_l" in
    setattr self "rst_n" v ;;
    let* v2 := cocotb_top "clk" in
    setattr self "clk" v2;
  connect_phase _ := skip |}.

Definition AXIReadChannelAgent : class := {|
  cname := "AXIReadChannelAgent"; base := uvm_agent;
  init := no_keys;
  build_phase self :=
    create self "seqr" sequencer "seqr" [] ;;
    let* v := dot (VObject self) ["seqr"] in
    cdb_set None "axi_r_seqr" v ;;
    create self "monitor" AXIReadChannelMonitor "axi_r_agent" [] ;;
    create self "driver" AXIReadChannelDriver "axi_r_driver" [];
  connect_phase self :=
    connect_attrs self ["driver"; "seq_item_port"] ["seqr"; "seq_item_export"] |}.

Definition AXIWriteChannelMonitor : class := {|
  cname := "AXIWriteChannelMonitor"; base := uvm_component;
  init := no_keys;
  build_phase self :=
    build_phase BaseMonitor self ;;
    setattr self "bfm" (VNew "AXIWriteChannelBFM");
  connect_phase := connect_phase BaseMonitor |}.

Definition AXIWriteChannelDriver : class := {|
  cname := "AXIWriteChannelDriver"; base := uvm_driver;
  init := no_keys;
  build_phase self :=
    let* v := cocotb_top "rst_l" in
    setattr self "rst_n" v;
  connect_phase _ := skip |}.

Definition AXIWriteChannelAgent : class := {|
  cname := "AXIWriteChannelAgent"; base := uvm_agent;
  init := no_keys;
  build_phase self :=
    create self "seqr" sequencer "seqr" [] ;;
    let* v := dot (VObject self) ["seqr"] in
    cdb_set None "axi_w_seqr" v ;;
    create self "monitor" AXIWriteChannelMonitor "axi_w_agent" [] ;;
    create self "driver" AXIWriteChannelDriver "axi_w_driver" [];
  connect_phase self :=
    connect_attrs self ["driver"; "seq_item_port"] ["seqr"; "seq_item_export"] |}.

Definition Scoreboard : class := {|
  cname := "Scoreboard"; base := uvm_component;
  init := no_keys;
  build_phase self :=
    create self "axi_w_req_fifo" analysis_fifo "axi_w_req_fifo" [] ;;
    create self "axi_w_rsp_fifo" analysis_fifo "axi_w_rsp_fifo" [] ;;
    create self "axi_w_req_get_port" get_port "axi_w_req_get_port" [] ;;
    create self "axi_w_rsp_get_port" get_port "axi_w_rsp_get_port" [] ;;
    let* v := dot (VObject self) ["axi_w_req_fifo"; "analysis_export"] in
    setattr self "axi_w_req_export" v ;;
    let* v2 := dot (VObject self) ["axi_w_rsp_fifo"; "analysis_export"] in
    setattr self "axi_w_rsp_export" v2 ;;
    create self "axi_r_req_fifo" analysis_fifo "axi_r_req_fifo" [] ;;
    create self "axi_r_rsp_fifo" analysis_fifo "axi_r_rsp_fifo" [] ;;
    create self "axi_r_req_get_port" get_port "axi_r_req_get_port" [] ;;
    create self "axi_r_rsp_get_port" get_port "axi_r_rsp_get_port" [] ;;
    let* v3 := dot (VObject self) ["axi_r_req_fifo"; "analysis_export"] in
    setattr self "axi_r_req_export" v3 ;;
    let* v4 := dot (VObject self) ["axi_r_rsp_fifo"; "analysis_export"] in
    setattr self "axi_r_rsp_export" v4 ;;
    create self "ahb_req_fifo" analysis_fifo "ahb_req_fifo" [] ;;
    create self "ahb_rsp_fifo" analysis_fifo "ahb_rsp_fifo" [] ;;
    create self "ahb_req_get_port" get_port "ahb_req_get_port" [] ;;
    create self "ahb_rsp_get_port" get_port "ahb_rsp_get_port" [] ;;
    let* v5 := dot (VObject self) ["ahb_req_fifo"; "analysis_export"] in
    setattr self "ahb_req_export" v5 ;;
    let* v6 := dot (VObject self) ["ahb_rsp_fifo"; "analysis_export"] in
    setattr self "ahb_rsp_export" v6;
  connect_phase self :=
    connect_attrs self ["axi_w_req_get_port"] ["axi_w_req_fifo"; "get_export"] ;;
    connect_attrs self ["axi_w_rsp_get_port"] ["axi_w_rsp_fifo"; "get_export"] ;;
    connect_attrs self ["axi_r_req_get_port"] ["axi_r_req_fifo"; "get_export"] ;;
    connect_attrs self ["axi_r_rsp_get_port"] ["axi_r_rsp_fifo"; "get_export"] ;;
    connect_attrs self ["ahb_req_get_port"] ["ahb_req_fifo"; "get_export"] ;;
    connect_attrs self ["ahb_rsp_get_port"] ["ahb_rsp_fifo"; "get_export"] |}.

Definition BaseEnvironment : class := {|
  cname := "BaseEnvironment"; base := uvm_env;
  init := no_keys;
  build_phase self :=
    cdb_set None "TEST_CLK_PERIOD" (VInt 1) ;;
    cdb_set None "AXI_DATA_WIDTH" (VInt 64) ;;
    let* v := cocotb_top "PRTY" in
    cdb_set None "DUT_PRTY" (VRead "PRTY") ;;
    let* v2 := cocotb_top "TAG" in
    cdb_set None "DUT_TAG" (VRead "TAG") ;;
    let* v3 := cocotb_top "ID" in
    cdb_set None "DUT_ID" (VRead "ID") ;;
    cdb_set None "NUM_TRANSACTIONS_PER_TEST" (VInt 32) ;;
    create self "agent_axi_w" AXIWriteChannelAgent "axi_w_agent" [] ;;
    create self "agent_axi_r" AXIReadChannelAgent "axi_r_agent" [] ;;
    create self "agent_ahb" AHBLiteAgent "ahb_lite_agent" [] ;;
    create self "scoreboard" Scoreboard "scoreboard" [];
  connect_phase self :=
    connect_attrs self ["agent_axi_w"; "monitor"; "ap_req"] ["scoreboard"; "axi_w_req_export"] ;;
    connect_attrs self ["agent_axi_w"; "monitor"; "ap_rsp"] ["scoreboard"; "axi_w_rsp_export"] ;;
    connect_attrs self ["agent_axi_r"; "monitor"; "ap_req"] ["scoreboard"; "axi_r_req_export"] ;;
    connect_attrs self ["agent_axi_r"; "monitor"; "ap_rsp"] ["scoreboard"; "axi_r_rsp_export"] ;;
    connect_attrs self ["agent_ahb"; "monitor"; "ap_req"] ["scoreboard"; "ahb_req_export"] ;;
    connect_attrs self ["agent_ahb"; "monitor"; "ap_rsp"] ["scoreboard"; "ahb_rsp_export"] |}.

Definition BaseTest : class := {|
  cname := "BaseTest"; base := uvm_test;
  init := no_keys;
  build_phase self :=
    create self "env" BaseEnvironment "env" [] ;;
    set_top "rst_l" (VInt 0);
  connect_phase _ := skip |}.

Definition start_clock (name : string) : E unit :=
  let* period := cdb_get None "TEST_CLK_PERIOD" in let* sig := cocotb_top name in skip.

Definition classes : list class := 
  [BaseMonitor; AHBLiteMonitor; AHBLiteDriver; AHBLiteAgent; AXIReadChannelMonitor;
   AXIReadChannelDriver; AXIReadChannelAgent; AXIWriteChannelMonitor; AXIWriteChannelDriver;
   AXIWriteChannelAgent; Scoreboard; BaseEnvironment; BaseTest].

Module TestAxi.

Definition TestAXI : test := {|
  test_class := BaseTest;
  end_of_elaboration_phase self :=
    setattr self "seq" (VNew "TestBothChannelsSeq") |}.

End TestAxi.

Module TestAxiReadChannel.

Definition TestAXIReadChannel : test := {|
  test_class := BaseTest;
  end_of_elaboration_phase self :=
    setattr self "seq" (VNew "TestReadChannelSeq") |}.

End TestAxiReadChannel.

Module TestAxiWriteChannel.

Definition TestAXIWriteChannel : test := {|
  test_class := BaseTest;
  end_of_elaboration_phase self :=
    setattr self "seq" (VNew "TestWriteChannelSeq") |}.

End TestAxiWriteChannel.

End LibAxi4ToAhbBench.

(** The settings read while the test runs, and the class of the component for
    which the caller reads them. *)
Definition lib_axi4_to_ahb_reads : list (option string * string) :=
  [(None, "ahb_seqr"); (None, "axi_w_seqr"); (None, "NUM_TRANSACTIONS_PER_TEST");
   (None, "axi_r_seqr"); (None, "TEST_CLK_PERIOD")].

Definition lib_axi4_to_ahb : bench := {|
  dut_ports := lib_axi4_to_ahb_ports; run_reads := lib_axi4_to_ahb_reads;
  runs := [(LibAxi4ToAhbBench.classes, LibAxi4ToAhbBench.TestAxi.TestAXI);
   (LibAxi4ToAhbBench.classes, LibAxi4ToAhbBench.TestAxiReadChannel.TestAXIReadChannel);
   (LibAxi4ToAhbBench.classes, LibAxi4ToAhbBench.TestAxiWriteChannel.TestAXIWriteChannel)] |}.

(** ** dcls *)

Module DclsBench.

Definition BaseEnv : class := {|
  cname := "BaseEnv"; base := uvm_env;
  init := no_keys;
  build_phase self :=
    cdb_set None "TEST_CLK_PERIOD" (VInt 1) ;;
    cdb_set None "LOCKSTEP_DELAY" (VInt 3) ;;
    cdb_set None "MUBI_WIDTH" (VInt 4) ;;
    cdb_set None "MUBI_TRUE" (VInt 6) ;;
    cdb_set None "MUBI_FALSE" (VInt 9);
  connect_phase _ := skip |}.

Definition BaseTest (env_class : class) : class := {|
  cname := "BaseTest"; base := uvm_test;
  init self kwargs :=
    setattr self "dut" VTop ;;
    let* v := dot (VObject self) ["dut"; "clk"] in
    setattr self "clk" v ;;
    mret kwargs;
  build_phase self :=
    create self "env" env_class "env" [];
  connect_phase _ := skip |}.

Definition start_clock (name : string) : E unit :=
  let* period := cdb_get None "TEST_CLK_PERIOD" in let* sig := cocotb_top name in skip.

Definition classes : list class := [BaseEnv].

Module TestLockstep.

Definition TestReset : test := {|
  test_class := BaseTest BaseEnv;
  end_of_elaboration_phase _ := skip |}.

Definition TestErrorInjection : test := TestReset.

Definition TestInvalidErrorInjection : test := TestReset.

Definition TestInvalidDisableCorruptionDetection : test := TestReset.

End TestLockstep.

End DclsBench.

(** The settings read while the test runs, and the class of the component for
    which the caller reads them. *)
Definition dcls_reads : list (option string * string) :=
  [(None, "LOCKSTEP_DELAY"); (None, "TEST_CLK_PERIOD"); (None, "MUBI_FALSE");
   (None, "MUBI_TRUE"); (None, "MUBI_WIDTH")].

Definition dcls : bench := {|
  dut_ports := dcls_ports; run_reads := dcls_reads;
  runs := [(DclsBench.classes, DclsBench.TestLockstep.TestReset);
   (DclsBench.classes, DclsBench.TestLockstep.TestErrorInjection);
   (DclsBench.classes, DclsBench.TestLockstep.TestInvalidErrorInjection);
   (DclsBench.classes, DclsBench.TestLockstep.TestInvalidDisableCorruptionDetection)] |}.

(** ** top/test_pyuvm/test_irq *)

Module IrqBench.

Definition IrqMonitor : class := {|
  cname := "IrqMonitor"; base := uvm_component;
  init := keep_key "method_name";
  build_phase self :=
    create self "ap" analysis_port "ap" [] ;;
    setattr self "bfm" (VNew "IrqBfm") ;;
    setattr self "get_method" (VNew "getattr");
  connect_phase _ := skip |}.

Definition Scoreboard : class := {|
  cname := "Scoreboard"; base := uvm_component;
  init := no_keys;
  build_phase self :=
    create self "interrupt_source_fifo" analysis_fifo "interrupt_source_fifo" [] ;;
    create self "interrupt_source_get_port" get_port "interrupt_source_get_port" [] ;;
    let* v := dot (VObject self) ["interrupt_source_fifo"; "analysis_export"] in
    setattr self "interrupt_source_export" v ;;
    create self "trace_interrupt_fifo" analysis_fifo "trace_interrupt_fifo" [] ;;
    create self "trace_interrupt_get_port" get_port "trace_interrupt_get_port" [] ;;
    let* v2 := dot (VObject self) ["trace_interrupt_fifo"; "analysis_export"] in
    setattr self "trace_interrupt_export" v2;
  connect_phase self :=
    connect_attrs self ["interrupt_source_get_port"] ["interrupt_source_fifo"; "get_export"] ;;
    connect_attrs self ["trace_interrupt_get_port"] ["trace_interrupt_fifo"; "get_export"] |}.

Definition IrqDriver : class := {|
  cname := "IrqDriver"; base := uvm_driver;
  init := no_keys;
  build_phase self :=
    create self "ap" analysis_port "ap" [];
  connect_phase _ := skip |}.

Definition IrqAgent : class := {|
  cname := "IrqAgent"; base := uvm_agent;
  init := no_keys;
  build_phase self :=
    create self "seqr" sequencer "seqr" [] ;;
    let* v := dot (VObject self) ["seqr"] in
    cdb_set None "SEQR" v ;;
    create self "monitor" IrqMonitor "int_monitor"
      [("method_name", VStr "get_interrupt_source")] ;;
    create self "driver" IrqDriver "int_driver" [];
  connect_phase self :=
    connect_attrs self ["driver"; "seq_item_port"] ["seqr"; "seq_item_export"] |}.

Definition VeerEl2Env : class := {|
  cname := "VeerEl2Env"; base := uvm_env;
  init := no_keys;
  build_phase self :=
    create self "scoreboard" Scoreboard "scoreboard" [] ;;
    create self "agent" IrqAgent "agent" [];
  connect_phase self :=
    connect_attrs self ["agent"; "monitor"; "ap"] ["scoreboard"; "interrupt_source_export"] ;;
    connect_attrs self ["agent"; "driver"; "ap"] ["scoreboard"; "trace_interrupt_export"] |}.

Definition BaseTest : class := {|
  cname := "BaseTest"; base := uvm_test;
  init := no_keys;
  build_phase self :=
    create self "env" VeerEl2Env "env" [];
  connect_phase _ := skip |}.

(** [IrqBfm.reset] and the writes with which [interrupt_driver_bfm] begins: what
    the test does before its first item, once the clock is started. *)
Definition interrupts : list string := ["soft_int"; "timer_int"; "nmi_int"; "extintsrc_req"].

Definition bring_up : proc value unit :=
  _ <- await (FallingEdge "clk") ;;
  for_each interrupts (fun s => drive s 0) ;;;
  (_ <- await (FallingEdge "clk") ;;
  for_each interrupts (fun s => drive s 0)).

Definition classes : list class := [IrqMonitor; Scoreboard; IrqDriver; IrqAgent; VeerEl2Env].

End IrqBench.

(** The environment does not touch [cocotb.top] before it runs. *)
Definition irq_reads : list (option string * string) := [(None, "SEQR")].

Definition irq : bench := {|
  dut_ports := []; run_reads := irq_reads;
  runs := [(IrqBench.classes, {| test_class := IrqBench.BaseTest; end_of_elaboration_phase _ := skip |})] |}.

