(* ===== verification/Environments.v ===== *)
(** * The testbenches put together

    What the elaboration of every test of verification/block and of
    top/test_pyuvm yields: the settings, the drivers with their sequencers, and
    the monitors that each port of a scoreboard reads. *)

From S2P Require Import Prelude Utils Cocotb Uvm Duts EnvUnits EnvBuses.
From S2P Require Alu Mul Div Pic PmpCsr MemBench DecTlu Dec Dmi SmallBenches Axi4ToAhb.
From stdpp Require Import base list strings.
From Stdlib Require Import ZArith Lia.

#[local] Open Scope string_scope.
#[local] Open Scope list_scope.


(** ** A well-formed elaboration *)







(** The same, decided. *)
Definition all {X} (f : X -> bool) (l : list X) : bool := forallb f l.
Fixpoint nodupb (l : list path) : bool :=
  match l with [] => true | p :: l => negb (path_in p l) && nodupb l end.


Lemma all_spec {X} (f : X -> bool) (P : X -> Prop) l : (forall x, f x = true -> P x) -> all f l = true -> Forall P l.
Proof. intros H Hl. apply List.Forall_forall. intros x Hx. apply H. by apply (proj1 (forallb_forall f l) Hl). Qed.

Lemma nodupb_spec l : nodupb l = true -> NoDup l.
Proof.
  induction l as [|p l IH]; [constructor|]. cbn. rewrite andb_true_iff, negb_true_iff. intros [Hp Hl].
  constructor; [|by apply IH]. by rewrite <- path_in_spec, Hp.
Qed.




Definition elaborates (b : bench) (r : list class * test) (P : uvm -> Prop) : Prop :=
  match elaborate r.1 (dut_ports b) r.2 with Ok st => P st | Raise _ => False end.
Definition elaborates_bool (b : bench) (r : list class * test) (P : uvm -> bool) : bool :=
  match elaborate r.1 (dut_ports b) r.2 with Ok st => P st | Raise _ => false end.

Lemma elaborates_bool_spec b r (f : uvm -> bool) (P : uvm -> Prop) :
  (forall st, f st = true -> P st) -> elaborates_bool b r f = true -> elaborates b r P.
Proof. unfold elaborates, elaborates_bool. destruct (elaborate _ _ _); auto. discriminate. Qed.


(** ** What the scoreboards get *)

Definition env : path := ["uvm_test_top"; "env"].

(** A port of the scoreboard, and the analysis ports whose items it gets. *)
Definition streams := list (string * list path).

Definition feeds (st : uvm) (s : streams) : Prop :=
  Forall (fun e => exists fifo, fifos_of st (env ++ ["scoreboard"; e.1]) = [fifo]
            /\ NoDup (feeders st fifo) /\ feeders st fifo = e.2) s.

Definition feeds_bool (st : uvm) (s : streams) : bool :=
  forallb (fun e => match fifos_of st (env ++ ["scoreboard"; e.1]) with
                    | [fifo] => let l := feeders st fifo in nodupb l && Nat.eqb (length l) (length e.2) && all (fun p => path_eqb p.1 p.2) (zip l e.2)
                    | _ => false end) s.

Lemma feeds_bool_spec st s : feeds_bool st s = true -> feeds st s.
Proof.
  unfold feeds_bool, feeds. rewrite forallb_forall, List.Forall_forall. intros H e He. specialize (H e He).
  destruct (fifos_of st _) as [|fifo [|]]; [done| |done]. exists fifo. split; [done|].
  cbv zeta in H. rewrite !andb_true_iff in H. destruct H as [[Hn Hl] Ha]. apply nodupb_spec in Hn. split; [done|].
  apply Nat.eqb_eq in Hl. revert Hl Ha. generalize (feeders st fifo) as l. generalize e.2 as l'. clear.
  intros l' l. revert l'. induction l as [|p l IH]; intros [|q l'] Hl; try done. cbn. rewrite andb_true_iff.
  intros [Hp Ha]. f_equal; [by destruct (path_eqb_spec p q)|]. apply IH; [by injection Hl|done].
Qed.

(** The monitor [m] of the environment. *)
Definition ap (m : string) : path := env ++ [m; "ap"].
Definition agent_ap (l : list string) : path := env ++ l.

(** Benches that compare inputs with outputs, and benches with one stream. *)
Definition input_output : streams := [("port_inp", [ap "inp_mon"]); ("port_out", [ap "out_mon"])].
Definition write_read : streams := [("port_inp", [ap "wr_mon"]); ("port_out", [ap "rd_mon"])].
Definition merged (monitors : list string) : streams := [("port", ap <$> monitors)].

Definition scoreboards : list (bench * list (list class * test) * streams) :=
  [(exu_alu, runs exu_alu, input_output); (exu_mul, runs exu_mul, input_output);
   (exu_div, runs exu_div, input_output); (dec_ib, runs dec_ib, input_output);
   (dec_tl, runs dec_tl, input_output); (lsu_tl, runs lsu_tl, input_output);
   (dec, runs dec, input_output); (dec_tlu_ctl, runs dec_tlu_ctl, input_output);
   (dec_pmp_ctl, runs dec_pmp_ctl, write_read); (pmp_random, runs pmp_random, write_read);
   (ifu_compress, runs ifu_compress, merged ["dcm_mon"]); (pmp, runs pmp, merged ["pmp_mon"]);
   (dccm, runs dccm, merged ["mem_mon"]); (iccm, runs iccm, merged ["mem_mon"]);
   (dma, [(DmaBench.TestAddress.classes, DmaBench.TestAddress.TestAddressOutOfRange);
          (DmaBench.TestEcc.classes, DmaBench.TestEcc.TestEccError);
          (DmaBench.TestRead.classes, DmaBench.TestRead.TestBothRead);
          (DmaBench.TestWrite.classes, DmaBench.TestWrite.TestBothWrite)], merged ["axi_mon"; "mem_mon"]);
   (dma, [(DmaBench.TestDebugAddress.classes, DmaBench.TestDebugAddress.TestAddressOutOfRange);
          (DmaBench.TestDebugRead.classes, DmaBench.TestDebugRead.TestBothRead);
          (DmaBench.TestDebugWrite.classes, DmaBench.TestDebugWrite.TestBothWrite)],
    merged ["dbg_mon"; "mem_mon"]);
   (lib_ahb_to_axi4, runs lib_ahb_to_axi4, [("ahb_port", [ap "ahb_mon"]); ("axi_port", [ap "axi_mon"])]);
   (pic, [(PicBench.TestPrioritization.classes, PicBench.TestPrioritization.TestPrioritization);
          (PicBench.TestServicing.classes, PicBench.TestServicing.TestServicing)],
    merged ["reg_mon"; "pri_mon"; "irq_mon"; "claim_mon"]);
   (pic, [(PicBench.TestConfig.classes, PicBench.TestConfig.TestConfig)], merged ["reg_mon"]);
   (pic, [(PicBench.TestPending.classes, PicBench.TestPending.TestPending)], merged ["reg_mon"; "irq_mon"]);
   (pic, [(PicBench.TestClken.classes, PicBench.TestClken.TestClockEnable)], merged ["clken_mon"; "clk_mon"]);
   (dmi, runs dmi,
    [("jtag_rsp_get_port", [agent_ap ["jtag_agent"; "jtag_monitor"; "ap_mon"]]);
     ("dmi_rsp_get_port", [agent_ap ["dmi_agent"; "dmi_monitor"; "ap_mon"]])]);
   (lib_axi4_to_ahb, runs lib_axi4_to_ahb,
    [("axi_w_req_get_port", [agent_ap ["axi_w_agent"; "axi_w_agent"; "ap_req"]]);
     ("axi_w_rsp_get_port", [agent_ap ["axi_w_agent"; "axi_w_agent"; "ap_rsp"]]);
     ("axi_r_req_get_port", [agent_ap ["axi_r_agent"; "axi_r_agent"; "ap_req"]]);
     ("axi_r_rsp_get_port", [agent_ap ["axi_r_agent"; "axi_r_agent"; "ap_rsp"]]);
     ("ahb_req_get_port", [agent_ap ["ahb_lite_agent"; "axi_w_agent"; "ap_req"]]);
     ("ahb_rsp_get_port", [agent_ap ["ahb_lite_agent"; "axi_w_agent"; "ap_rsp"]])]);
   (irq, runs irq,
    [("interrupt_source_get_port", [agent_ap ["agent"; "int_monitor"; "ap"]]);
     ("trace_interrupt_get_port", [agent_ap ["agent"; "int_driver"; "ap"]])])].

(** A scoreboard's port gets the items of the listed analysis ports, and no others,
    in the order in which they are written. *)
Definition gets_streams (s : streams) (st : uvm) : Prop :=
  forall (I : Type) (writes : list (path * I)),
    Forall (fun e => received st (env ++ ["scoreboard"; e.1]) writes
                     = snd <$> List.filter (fun w => path_in w.1 e.2) writes) s.

Lemma feeds_streams st s : feeds st s -> gets_streams s st.
Proof.
  intros H I writes. eapply Forall_impl; [exact H|]. intros e (fifo & Hf & Hnd & <-).
  by apply received_spec.
Qed.

Lemma scoreboards_fed :
  all (fun e => all (fun r => elaborates_bool e.1.1 r (fun st => feeds_bool st e.2)) e.1.2) scoreboards = true.
Proof. vm_compute. reflexivity. Qed.

(** The ports from which the scoreboards of the testbenches take their items get
    exactly the items that the monitors of the environment publish on the listed
    analysis ports, each once and in the order of publication, whatever is written
    in the course of the test: the input and the output monitor each on a port of
    its own in the benches of the units, the writes and the reads of the PMP
    benches, the bus and memory monitors merged in the benches of the DMA, the four
    monitors of the interrupt controller merged, and so on. *)
Theorem scoreboards_get_streams :
  Forall (fun e => Forall (fun r => elaborates e.1.1 r (gets_streams e.2)) e.1.2) scoreboards.
Proof.
  pose proof scoreboards_fed as H. revert H. apply all_spec. intros e. apply all_spec. intros r.
  apply elaborates_bool_spec. intros st H. exact (feeds_streams st e.2 (feeds_bool_spec st e.2 H)).
Qed.

(** ** Bringing the units up

    The coroutines that reset a unit, over every sequence of edges and values
    that the simulator may show them. *)

Section Touched.
Context {I A : Type} (ports : list string) (reset : string).

Definition trigger_signal (t : trigger) : list string :=
  match t with RisingEdge s | FallingEdge s => [s] | _ => [] end.

(** An element of an unpacked array is driven through the array. *)
Definition port_of (s : string) : string :=
  match String.index 0 "[" s with Some n => String.substring 0 n s | None => s end.

(** Whatever it samples, the coroutine waits for and drives signals among the
    ports only, drives the values [vs] on the reset and does not raise. *)
Fixpoint brings (vs : list Z) (p : proc I A) : Prop :=
  match p with
  | Ret _ => vs = []
  | Throw _ => False
  | Await t k =>
      if forallb (fun s => str_in s ports) (trigger_signal t) then forall e, brings vs (k e) else False
  | Now k => forall e, brings vs (k e)
  | Drive s v k =>
      if str_in (port_of s) ports then
        if String.eqb reset s then
          match vs with v' :: vs => if (v =? v')%Z then brings vs k else False | [] => False end
        else brings vs k
      else False
  | Publish _ k | LogError k => brings vs k
  end.

Fixpoint waits_on (p : proc I A) : Prop :=
  match p with
  | Ret _ | Throw _ => True
  | Await t k => (forall s, In s (trigger_signal t) -> In s ports) /\ forall e, waits_on (k e)
  | Now k => forall e, waits_on (k e)
  | Drive _ _ k | Publish _ k | LogError k => waits_on k
  end.

(** The same of a run: signals driven, reset, exceptions. *)
Definition run_brings (vs : list Z) (acts : list (action I)) (o : outcome A) : Prop :=
  (forall s v, In (ADrive s v) acts -> In (port_of s) ports) /\
  match o with
  | Done _ _ _ => Dmi.driven_on reset acts = vs
  | Suspended => Dmi.driven_on reset acts `prefix_of` vs
  | Crashed _ => False
  end.

Lemma str_in_In s l : str_in s l = true -> In s l.
Proof. unfold str_in. rewrite existsb_exists. by intros (s' & H & ->%String.eqb_eq). Qed.

Lemma brings_waits vs p : brings vs p -> waits_on p.
Proof.
  revert vs. induction p as [a|t k IH|k IH|s v k IH|i k IH|k IH|e]; intros vs H; simpl in *; try done.
  - destruct (forallb _ _) eqn:E; [|done]. split; [|intros e; by eapply IH].
    rewrite forallb_forall in E. intros s Hs. by apply str_in_In, E.
  - intros e. by eapply IH.
  - destruct (str_in (port_of s) ports); [|done]. destruct (String.eqb reset s); [|by eapply IH].
    destruct vs as [|v' vs]; [done|]. destruct (v =? v')%Z; [by eapply IH|done].
  - by eapply IH.
  - by eapply IH.
Qed.

Lemma brings_run vs p cur tr acts o :
  brings vs p -> run p cur tr = (acts, o) -> run_brings vs acts o.
Proof.
  revert vs cur tr acts o.
  induction p as [a|t k IH|k IH|s v k IH|i k IH|k IH|e]; intros vs cur tr acts o H E; simpl in *.
  - injection E as <- <-. by subst.
  - destruct (forallb _ _); [|done]. destruct (next_firing t tr) as [[e tr']|]; [by eapply IH|].
    injection E as <- <-. split; [done|]. apply prefix_nil.
  - by eapply IH.
  - destruct (str_in (port_of s) ports) eqn:Hs; [|done].
    destruct (run k cur tr) as [acts' o'] eqn:E'. injection E as <- <-.
    destruct (String.eqb reset s) eqn:Er.
    + destruct vs as [|v' vs]; [done|]. destruct (Z.eqb_spec v v') as [<-|]; [|done].
      destruct (IH _ _ _ _ _ H E') as [H1 H2]. split.
      * intros s' v'' [[= <- <-]|Hin]; [by apply str_in_In|by eapply H1].
      * simpl. rewrite String.eqb_sym, Er. destruct o'; [by f_equal|by apply prefix_cons|done].
    + destruct (IH _ _ _ _ _ H E') as [H1 H2]. split.
      * intros s' v'' [[= <- <-]|Hin]; [by apply str_in_In|by eapply H1].
      * simpl. by rewrite String.eqb_sym, Er.
  - destruct (run k cur tr) as [acts' o'] eqn:E'. injection E as <- <-.
    destruct (IH _ _ _ _ _ H E') as [H1 H2]. split; [|exact H2].
    intros s v [|Hin]; [done|by eapply H1].
  - destruct (run k cur tr) as [acts' o'] eqn:E'. injection E as <- <-.
    destruct (IH _ _ _ _ _ H E') as [H1 H2]. split; [|exact H2].
    intros s v [|Hin]; [done|by eapply H1].
  - done.
Qed.
End Touched.

(** The ports of a unit, the clocks that its test starts, its reset, and what the
    test does before its own [run] (and after it). *)
Record bring_up := {
  bu_ports : list string; bu_clocks : list string; bu_reset : string;
  bu_item : Type; bu_proc : proc bu_item unit }.

Definition bring_up_of {I} (ports clocks : list string) (reset : string) (p : proc I unit) : bring_up :=
  {| bu_ports := ports; bu_clocks := clocks; bu_reset := reset; bu_item := I; bu_proc := p |}.

(** The clocks are inputs of the unit; over any run the coroutine waits for and
    drives inputs and outputs of the unit only, never raises, and drives the
    values [vs] on the reset (a prefix of them when the simulation ends early). *)
Definition brought_up (vs : list Z) (b : bring_up) : Prop :=
  (forall c, In c (bu_clocks b) -> In c (bu_ports b)) /\
  waits_on (bu_ports b) (bu_proc b) /\
  forall cur tr acts o, run (bu_proc b) cur tr = (acts, o) ->
    run_brings (bu_ports b) (bu_reset b) vs acts o.

Lemma brings_up vs b :
  forallb (fun c => str_in c (bu_ports b)) (bu_clocks b) = true ->
  brings (bu_ports b) (bu_reset b) vs (bu_proc b) -> brought_up vs b.
Proof.
  intros Hc Hp. split; [|split; [by eapply brings_waits|intros cur tr acts o; by apply brings_run]].
  rewrite forallb_forall in Hc. intros c H. by apply str_in_In, Hc.
Qed.

(** The computation that [brings] asks for, over any values sampled. *)
Ltac bring_up_steps :=
  vm_compute; intros; try reflexivity;
  match goal with
  | |- context [match ?e ?s with _ => _ end] => destruct (e s); bring_up_steps
  end.

Ltac bring_up_tac := apply brings_up; [vm_compute; reflexivity|bring_up_steps].

Definition bring_ups : list bring_up :=
  [bring_up_of exu_alu_ports ["clk"] "rst_l" (Alu.run_phase (I := unit) (Ret tt));
   bring_up_of exu_div_ports ["clk"] "rst_l" (Div.run_phase (I := unit) (Ret tt));
   bring_up_of dec_ports ["clk"; "active_clk"; "free_clk"; "free_l2clk"] "rst_l" (Dec.BaseTest_reset (I := unit) "debug_csrs_access");
   bring_up_of dec_ports ["clk"; "active_clk"; "free_clk"; "free_l2clk"] "rst_l" (Dec.BaseTest_reset (I := unit) "csrs_access");
   bring_up_of dec_tlu_ctl_ports ["free_l2clk"; "clk"] "rst_l" (DecTlu.BaseTest_reset (I := unit));
   bring_up_of dec_pmp_ctl_ports ["clk"; "free_clk"; "csr_wr_clk"; "free_l2clk"] "rst_l" (PmpCsr.DecPmpCtl.run_phase (Ret tt));
   bring_up_of pmp_random_ports ["clk"] "rst_l" (PmpCsr.PmpRandom.run_phase (Ret tt));
   bring_up_of pmp_ports PmpBench.clocks "rst_l" (PmpBench.run_phase (Ret tt));
   bring_up_of dccm_ports ["clk"; "active_clk"] "rst_l" (MemBench.dccm_run_phase (I := unit) (Ret tt));
   bring_up_of iccm_ports ["clk"; "active_clk"] "rst_l" (MemBench.iccm_run_phase (I := unit) (Ret tt));
   bring_up_of dma_ports DmaBench.clocks "rst_l" (DmaBench.run_phase (Ret tt));
   bring_up_of lib_ahb_to_axi4_ports LibAhbToAxi4Bench.clocks "rst_l" (LibAhbToAxi4Bench.run_phase (Ret tt));
   bring_up_of pic_ports ["clk"; "free_clk"] "rst_l" (Pic.run_phase (Ret tt));
   bring_up_of dmi_ports ["core_clk"; "tck"] "core_rst_n" (Dmi.run_phase (I := unit) (Ret tt));
   bring_up_of dmi_ports ["core_clk"; "tck"] "trst_n" (Dmi.run_phase (I := unit) (Ret tt));
   bring_up_of dcls_ports ["clk"] "rst_l" (SmallBenches.Dcls.run_phase (I := unit) (Ret tt));
   bring_up_of dcls_ports ["clk"] "dbg_rst_l" (SmallBenches.Dcls.run_phase (I := unit) (Ret tt))].

(** The remaining benches with a bring-up of their own. *)
Definition exu_mul_bring_up : bring_up :=
  bring_up_of exu_mul_ports ["clk"] "rst_l" (Mul.run_phase (I := unit) (Ret tt)).
Definition lib_axi4_to_ahb_bring_up : bring_up :=
  bring_up_of lib_axi4_to_ahb_ports ["clk"; "free_clk"] "rst_l" (Axi4ToAhb.run_phase (I := unit) (Ret tt)).
Definition ifu_compress_bring_up : bring_up :=
  bring_up_of ifu_compress_ports [] "rst_l" (IfuCompressBench.run_phase (Ret tt)).
Definition irq_bring_up : bring_up :=
  bring_up_of veer_wrapper_pins ["clk"] "rst_l" IrqBench.bring_up.

(** The clocks of a bench can be started when its environment is elaborated, or
    starting any of them raises [e]. *)
Definition clocks_start (e : option exn) (b : bench) (start_clock : string -> E unit) (clocks : list string) : Prop :=
  forall r, In r (runs b) -> elaborates b r (fun st => forall c, In c clocks ->
    match start_clock c st, e with Ok _, None => True | Raise e, Some e' => e = e' | _, _ => False end).

Lemma clocks_start_bool e b start_clock clocks :
  forallb (fun r => elaborates_bool b r (fun st => forallb (fun c =>
    match start_clock c st, e with Ok _, None => true | Raise e, Some e' => bool_decide (e = e') | _, _ => false end)
    clocks)) (runs b) = true -> clocks_start e b start_clock clocks.
Proof.
  rewrite forallb_forall. intros H r Hr. specialize (H r Hr). revert H. apply elaborates_bool_spec.
  intros st. rewrite forallb_forall. intros H c Hc. specialize (H c Hc).
  destruct (start_clock c st), e; try done. by apply bool_decide_eq_true in H.
Qed.

(** C16: bringing the units of [benches] up.  Over every sequence of edges, what
    the base test does before its test runs waits for and drives only signals that
    the unit has, never raises, and drives each reset low and then high
    ([lib_axi4_to_ahb] low twice); the clocks that it starts exist.  The exceptions:
    the bench of the multiplier never drives the reset low; the decompressor has
    neither a clock nor a reset, and nothing is driven; the interrupt test of the
    core never drives the core's reset, though the core has one; the wrappers of
    dec_ib, dec_tl and lsu_tl have neither a clock nor a reset, so that the
    [run_phase] that their tests inherit (and override) would raise an
    AttributeError when it starts the clock. *)
Theorem bring_ups_correct :
  Forall (brought_up [0; 1]%Z) bring_ups /\
  brought_up [0; 0; 1]%Z lib_axi4_to_ahb_bring_up /\
  brought_up [1]%Z exu_mul_bring_up /\
  (brought_up [] ifu_compress_bring_up /\ ~ In "clk" ifu_compress_ports /\ ~ In "rst_l" ifu_compress_ports) /\
  (brought_up [] irq_bring_up /\ In "rst_l" veer_wrapper_pins) /\
  clocks_start None exu_alu ExuAluBench.start_clock ["clk"] /\
  clocks_start None exu_mul ExuMulBench.start_clock ["clk"] /\
  clocks_start None exu_div ExuDivBench.start_clock ["clk"] /\
  clocks_start None dec DecBench.start_clock ["clk"; "active_clk"; "free_clk"; "free_l2clk"] /\
  clocks_start None dec_tlu_ctl DecTluCtlBench.start_clock ["free_l2clk"; "clk"] /\
  clocks_start None dec_pmp_ctl DecPmpCtlBench.start_clock ["clk"; "free_clk"; "csr_wr_clk"; "free_l2clk"] /\
  clocks_start None pmp PmpBench.start_clock PmpBench.clocks /\
  clocks_start None pmp_random PmpRandomBench.start_clock ["clk"] /\
  clocks_start None dccm DccmBench.start_clock ["clk"; "active_clk"] /\
  clocks_start None iccm IccmBench.start_clock ["clk"; "active_clk"] /\
  clocks_start None dma DmaBench.start_clock DmaBench.clocks /\
  clocks_start None lib_ahb_to_axi4 LibAhbToAxi4Bench.start_clock LibAhbToAxi4Bench.clocks /\
  clocks_start None pic PicBench.start_clock ["clk"; "free_clk"] /\
  clocks_start None lib_axi4_to_ahb LibAxi4ToAhbBench.start_clock ["clk"; "free_clk"] /\
  clocks_start None dcls DclsBench.start_clock ["clk"] /\
  clocks_start (Some AttributeError) dec_ib DecIbBench.start_clock DecIbBench.clocks /\
  clocks_start (Some AttributeError) dec_tl DecTlBench.start_clock DecTlBench.clocks /\
  clocks_start (Some AttributeError) lsu_tl LsuTlBench.start_clock LsuTlBench.clocks.
Proof.
  split; [unfold bring_ups; repeat (apply Forall_cons; split; [bring_up_tac|]); by apply Forall_nil|].
  split; [bring_up_tac|]. split; [bring_up_tac|].
  split; [split; [bring_up_tac|]; split; intros H; repeat (destruct H as [H|H]; [done|]); done|].
  split; [split; [bring_up_tac|]; simpl; auto|].
  split_and!; apply clocks_start_bool; vm_compute; reflexivity.
Qed.
