(* ===== verification/FileSystem.v ===== *)
(** * Files and directories, as the scripts use them through [os] and [shutil]

    A path that the operating system resolved is the list of its components
    from the root.  The tree is a finite map from resolved paths to nodes; there
    are no links.  A call that may change the tree is a function in [IO], which
    gives the tree after it also when it raises.  What the scripts leave to the
    machine (the working directory, the order in which a directory is listed)
    is the class [OS]. *)

From S2P Require Import Prelude PyString.
From stdpp Require Import base gmap list sorting strings.
From Stdlib Require Import ZArith Ascii Lia.

#[local] Open Scope string_scope.
#[local] Open Scope list_scope.

(** ** Paths *)

Abbreviation path := (list string).

Class OS := {
  cwd : path;
  (** the order in which [os.listdir] gives the names of a directory *)
  scan_order : path -> list string -> list string;
  scan_order_perm d l : scan_order d l ≡ₚ l;
}.

Definition slash : ascii := "/"%char.

(** [os.path.isabs] *)
Definition isabs (p : string) : bool := starts_with "/" p.

Fixpoint ends_with_slash (p : string) : bool :=
  match p with
  | EmptyString => false
  | String a EmptyString => Ascii.eqb a slash
  | String _ p => ends_with_slash p
  end.

(** [os.path.join(a, b)] *)
Definition join2 (a b : string) : string :=
  if isabs b then b
  else if String.eqb a "" || ends_with_slash a then a +:+ b
  else a +:+ String slash b.

Definition path_join (a : string) (bs : list string) : string := fold_left join2 bs a.

(** One component of a path: the empty one and ["."] stay, [".."] goes up. *)
Definition enter (d : path) (c : string) : path :=
  if String.eqb c "" || String.eqb c "." then d
  else if String.eqb c ".." then removelast d
  else d ++ [c].

Definition enter_all (d : path) (p : string) : path := fold_left enter (split_char slash p) d.

(** A name that a directory entry can have. *)
Definition good_name (n : string) : bool :=
  negb (String.eqb n "" || String.eqb n "." || String.eqb n "..") &&
  forallb (fun c => negb (Ascii.eqb c slash)) (String.list_ascii_of_string n).

Section Resolve.
Context `{OS}.

(** The node that a path names. *)
Definition resolve (p : string) : path := enter_all (if isabs p then [] else cwd) p.

(** [os.path.abspath]: exactly two leading slashes are kept. *)
Definition abspath (p : string) : string :=
  (if starts_with "//" p && negb (starts_with "///" p) then "//" else "/")
    +:+ PyString.join "/" (resolve p).
End Resolve.

(** ** The tree *)

Inductive node := Dir | File (content : string).

#[export] Instance node_eq_dec : EqDecision node.
Proof. solve_decision. Defined.

Abbreviation fs := (gmap path node).

(** The node at [pre ++ k], where [pre] is a directory. *)
Fixpoint walk (f : fs) (pre k : path) : result node :=
  match k with
  | [] => Ok Dir
  | n :: k' =>
      match f !! (pre ++ [n]), k' with
      | Some x, [] => Ok x
      | Some Dir, _ => walk f (pre ++ [n]) k'
      | Some (File _), _ => Raise NotADirectoryError
      | None, _ => Raise FileNotFoundError
      end
  end.

Definition stat (f : fs) (k : path) : result node := walk f [] k.

(** [os.path.isdir] *)
Definition isdir (f : fs) (k : path) : bool :=
  match stat f k with Ok Dir => true | _ => false end.

(** The name under which [k] is an entry of the directory [d]. *)
Fixpoint child (d k : path) : option string :=
  match d, k with
  | [], [n] => Some n
  | a :: d, b :: k => if String.eqb a b then child d k else None
  | _, _ => None
  end.

(** The names of a directory, in alphabetical order. *)
Definition names (f : fs) (d : path) : list string :=
  merge_sort str_le (omap (child d) (map_to_list f).*1).

(** [os.listdir] of a directory *)
Definition listdir `{OS} (f : fs) (d : path) : list string := scan_order d (names f d).

(** [sorted] of a list of strings *)
Definition sorted (l : list string) : list string := merge_sort str_le l.

(** ** Calls that change the tree *)

Definition IO (A : Type) := fs -> fs * result A.

Definition ioret {A} (a : A) : IO A := fun f => (f, Ok a).
Definition ioraise {A} (e : exn) : IO A := fun f => (f, Raise e).
Definition iobind {A B} (m : IO A) (k : A -> IO B) : IO B := fun f =>
  match m f with
  | (f', Ok a) => k a f'
  | (f', Raise e) => (f', Raise e)
  end.
(** A computation that reads the tree. *)
Definition ioread {A} (m : fs -> result A) : IO A := fun f => (f, m f).

Declare Scope io_scope.
Delimit Scope io_scope with io.
Notation "'do!' x ':=' m 'in' k" := (iobind m (fun x => k))
  (at level 10, x pattern, m at level 100, k at level 200) : io_scope.
#[local] Open Scope io_scope.

Fixpoint iofor {A} (body : A -> IO unit) (l : list A) : IO unit :=
  match l with
  | [] => ioret tt
  | x :: l => do! _ := body x in iofor body l
  end.

(** [os.makedirs(k, exist_ok=True)] for [pre ++ k], where [pre] is a directory:
    the missing directories are made from the root down. *)
Fixpoint makedirs_from (pre k : path) : IO unit :=
  match k with
  | [] => ioret tt
  | n :: k' => fun f =>
      match f !! (pre ++ [n]), k' with
      | Some Dir, _ => makedirs_from (pre ++ [n]) k' f
      | Some (File _), [] => (f, Raise FileExistsError)
      | Some (File _), _ => (f, Raise NotADirectoryError)
      | None, _ => makedirs_from (pre ++ [n]) k' (<[pre ++ [n] := Dir]> f)
      end
  end.

Definition makedirs (k : path) : IO unit := makedirs_from [] k.

(** The ends of lines that reading in text mode translates. *)
Definition LF : ascii := "010"%char.
Definition CR : ascii := "013"%char.

Fixpoint universal_newlines (s : string) : string :=
  match s with
  | EmptyString => EmptyString
  | String c t =>
      if Ascii.eqb c CR then
        match t with
        | String c' t' => if Ascii.eqb c' LF then String LF (universal_newlines t')
                          else String LF (universal_newlines t)
        | EmptyString => String LF EmptyString
        end
      else String c (universal_newlines t)
  end.

(** [open(k, "rb").read()] *)
Definition read_bytes (k : path) : IO string := ioread (fun f =>
  let! x := stat f k in
  match x with Dir => Raise IsADirectoryError | File s => Ok s end).

(** [open(k, "r").read()] *)
Definition read_text (k : path) : IO string :=
  iobind (read_bytes k) (fun s => ioret (universal_newlines s)).

(** [fp.readlines()], from what is read. *)
Fixpoint lines_of (s : string) : list string :=
  match s with
  | EmptyString => []
  | String c s =>
      if Ascii.eqb c LF then String c EmptyString :: lines_of s
      else match lines_of s with
           | [] => [String c EmptyString]
           | l :: ls => String c l :: ls
           end
  end.

Definition readlines (k : path) : IO (list string) :=
  iobind (read_text k) (fun s => ioret (lines_of s)).

Example lines_example :
  lines_of (universal_newlines ("a" +:+ String CR (String LF (String CR (String LF "b")))))
  = [String "a" (String LF ""); String LF ""; "b"].
Proof. reflexivity. Qed.

(** [open(k, "w")], and what is written to it: a file that is opened is emptied. *)
Definition write_text (k : path) (s : string) : IO unit := fun f =>
  match k with
  | [] => (f, Raise IsADirectoryError)
  | _ =>
      match stat f (removelast k) with
      | Raise e => (f, Raise e)
      | Ok (File _) => (f, Raise NotADirectoryError)
      | Ok Dir =>
          match f !! k with
          | Some Dir => (f, Raise IsADirectoryError)
          | _ => (<[k := File s]> f, Ok tt)
          end
      end
  end.

(** [shutil.copy(src, dst)]; [name] is [os.path.basename(src)]. *)
Definition copy (src : path) (name : string) (dst : path) : IO unit := fun f =>
  let dst := if isdir f dst then dst ++ [name] else dst in
  if bool_decide (src = dst) && is_ok (stat f src) then (f, Raise SameFileError)
  else (do! s := read_bytes src in write_text dst s) f.

(** * Theorems *)

(** ** Paths *)

Lemma split_char_app c a b : split_char c (a +:+ String c b) = split_char c a ++ split_char c b.
Proof.
  induction a as [|x a IH].
  - rewrite append_nil_l. cbn [split_char]. by rewrite Ascii.eqb_refl.
  - rewrite append_cons. cbn [split_char]. destruct (Ascii.eqb x c); [by rewrite IH|].
    rewrite IH. destruct (split_char c a) eqn:E; [|done].
    destruct a as [|y a]; [done|]. cbn [split_char] in E. destruct (Ascii.eqb y c); [done|].
    by destruct (split_char c a).
Qed.

Lemma split_char_free c b :
  forallb (fun x => negb (Ascii.eqb x c)) (String.list_ascii_of_string b) = true ->
  split_char c b = [b].
Proof.
  induction b as [|x b IH]; [done|]. cbn [String.list_ascii_of_string forallb split_char].
  intros [Hx Hb]%andb_true_iff. apply negb_true_iff in Hx. by rewrite Hx, IH.
Qed.

Lemma good_name_split n : good_name n = true -> split_char slash n = [n].
Proof. intros [_ H]%andb_true_iff. by apply split_char_free. Qed.

Lemma good_name_enter d n : good_name n = true -> enter d n = d ++ [n].
Proof.
  intros [H _]%andb_true_iff. apply negb_true_iff in H.
  apply orb_false_iff in H as [[H1 H2]%orb_false_iff H3]. unfold enter. by rewrite H1, H2, H3.
Qed.

Lemma good_name_relative n : good_name n = true -> isabs n = false.
Proof.
  intros [_ H]%andb_true_iff. destruct n as [|c n]; [done|].
  cbn [String.list_ascii_of_string forallb] in H. apply andb_true_iff in H as [H _].
  unfold isabs. cbn [starts_with]. rewrite Ascii.eqb_sym. apply negb_true_iff in H.
  unfold slash in H. by rewrite H.
Qed.

Lemma enter_all_app d a b : enter_all d (a +:+ String slash b) = enter_all (enter_all d a) b.
Proof. unfold enter_all. by rewrite split_char_app, fold_left_app. Qed.

Lemma enter_all_good d n : good_name n = true -> enter_all d n = d ++ [n].
Proof. intros H. unfold enter_all. rewrite good_name_split by done. by apply good_name_enter. Qed.

Lemma ends_with_slash_inv a : ends_with_slash a = true -> exists a', a = a' +:+ String slash "".
Proof.
  induction a as [|x a IH]; [done|]. cbn [ends_with_slash]. destruct a as [|y a].
  - intros ->%Ascii.eqb_eq. by exists "".
  - intros (a' & Ha)%IH. exists (String x a'). by rewrite Ha.
Qed.

(** Joining the name of an entry goes to the entry. *)
Lemma resolve_join2 `{OS} a n : good_name n = true -> resolve (join2 a n) = resolve a ++ [n].
Proof.
  intros Hn. unfold join2. rewrite good_name_relative by done.
  destruct (String.eqb a "") eqn:Ea; simpl.
  { apply String.eqb_eq in Ea as ->. rewrite append_nil_l. unfold resolve.
    rewrite good_name_relative, enter_all_good by done. done. }
  assert (forall b, isabs (a +:+ b) = isabs a) as Habs by (by destruct a).
  unfold resolve. destruct (ends_with_slash a) eqn:Es.
  - apply ends_with_slash_inv in Es as (a' & ->).
    rewrite Habs, append_assoc, append_cons, append_nil_l, !enter_all_app.
    rewrite enter_all_good by done. done.
  - rewrite Habs, enter_all_app. by apply enter_all_good.
Qed.

Lemma resolve_join `{OS} a ns :
  Forall (fun n => good_name n = true) ns -> resolve (path_join a ns) = resolve a ++ ns.
Proof.
  intros Hns. revert a. induction Hns as [|n ns Hn _ IH]; intros a; [by rewrite app_nil_r|].
  change (path_join a (n :: ns)) with (path_join (join2 a n) ns).
  rewrite IH, resolve_join2 by done. by rewrite <- app_assoc.
Qed.

(** ** Directories *)

Lemma child_spec d k n : child d k = Some n <-> k = d ++ [n].
Proof.
  revert k. induction d as [|a d IH]; intros k; cbn [child app].
  - destruct k as [|x [|y k]]; (split; [intros [=]|intros [=]]); congruence.
  - destruct k as [|b k]; [done|]. destruct (String.eqb a b) eqn:E.
    + apply String.eqb_eq in E as ->. rewrite IH. split; congruence.
    + split; [done|]. intros [= <- _]. by rewrite String.eqb_refl in E.
Qed.

Lemma nodup_omap_inj {A B} (g : A -> option B) (l : list A) :
  (forall x y b, g x = Some b -> g y = Some b -> x = y) -> NoDup l -> NoDup (omap g l).
Proof.
  intros Hg. induction 1 as [|x l Hx _ IH]; [constructor|].
  csimpl. destruct (g x) as [b|] eqn:E; [|done]. constructor; [|done].
  intros (y & Hy & Hyb)%list_elem_of_omap. rewrite (Hg x y b E Hyb) in Hx. done.
Qed.

Lemma elem_of_names f d n : n ∈ names f d <-> is_Some (f !! (d ++ [n])).
Proof.
  unfold names. rewrite merge_sort_Permutation, list_elem_of_omap. split.
  - intros (k & Hk & ->%child_spec). apply list_elem_of_fmap in Hk as ([k' x] & -> & Hk).
    apply elem_of_map_to_list in Hk. by exists x.
  - intros [x Hx]. exists (d ++ [n]). split; [|by apply child_spec].
    apply list_elem_of_fmap. exists (d ++ [n], x). split; [done|]. by apply elem_of_map_to_list.
Qed.

Lemma names_nodup f d : NoDup (names f d).
Proof.
  unfold names. rewrite merge_sort_Permutation.
  apply nodup_omap_inj; [|apply NoDup_fst_map_to_list].
  intros k k' n Hk Hk'. apply child_spec in Hk, Hk'. congruence.
Qed.

Lemma names_sorted f d : Sorted str_le (names f d).
Proof. apply Sorted_merge_sort, _. Qed.

(** The names of a directory depend on its entries only. *)
Lemma names_agree f f' d :
  (forall n, f !! (d ++ [n]) = f' !! (d ++ [n])) -> names f d = names f' d.
Proof.
  intros H. apply (Sorted_unique str_le); [apply names_sorted..|].
  apply NoDup_Permutation; [apply names_nodup..|].
  intros n. by rewrite !elem_of_names, H.
Qed.

Lemma sorted_listdir `{OS} f d : sorted (listdir f d) = names f d.
Proof.
  apply (Sorted_unique str_le); [apply Sorted_merge_sort, _|apply names_sorted|].
  unfold sorted, listdir. by rewrite merge_sort_Permutation, scan_order_perm.
Qed.

(** ** Well-formed trees *)

(** Every entry has a directory above it and a proper name. *)
Record wf (f : fs) : Prop := {
  wf_parent k n : is_Some (f !! (k ++ [n])) -> k = [] \/ f !! k = Some Dir;
  wf_name k n : is_Some (f !! (k ++ [n])) -> good_name n = true;
}.

(** The check that a listed tree is well-formed. *)
Definition wf_check (f : fs) : bool :=
  forallb (fun e =>
    match rev e.1 with
    | [] => true
    | n :: d => good_name n &&
        match d with [] => true | _ => bool_decide (f !! rev d = Some Dir) end
    end) (map_to_list f).

Lemma wf_check_ok f : wf_check f = true -> wf f.
Proof.
  intros Hf. unfold wf_check in Hf. rewrite forallb_forall in Hf.
  assert (forall k n, is_Some (f !! (k ++ [n])) -> good_name n = true /\ (k = [] \/ f !! k = Some Dir))
    as Hall; [|by split; intros k n Hk; destruct (Hall k n Hk)].
  intros k n [x Hx]. specialize (Hf (k ++ [n], x)). simpl in Hf. rewrite rev_unit in Hf.
  apply andb_true_iff in Hf as [Hn Hd]; [|by apply list_elem_of_In, elem_of_map_to_list].
  split; [done|]. destruct (rev k) as [|m d] eqn:Ek.
  - left. by rewrite <- (rev_involutive k), Ek.
  - right. by rewrite <- Ek, rev_involutive, bool_decide_eq_true in Hd.
Qed.

Definition is_dir_at (f : fs) (k : path) : Prop := k = [] \/ f !! k = Some Dir.

(** Everything above an entry is a directory. *)
Lemma wf_above f a b : wf f -> is_Some (f !! (a ++ b)) -> b <> [] -> is_dir_at f a.
Proof.
  intros Hwf. induction b as [|y b IH] using rev_ind; intros Hs Hb; [done|].
  rewrite app_assoc in Hs. apply wf_parent in Hs; [|done].
  destruct (decide (b = [])) as [->|Hne]; [by rewrite app_nil_r in Hs|].
  destruct Hs as [[_ ?]%app_nil|Hs]; [done|]. apply IH; [by rewrite Hs|done].
Qed.

Lemma walk_wf f pre k x :
  wf f -> k <> [] -> walk f pre k = Ok x <-> f !! (pre ++ k) = Some x.
Proof.
  intros Hwf. revert pre. induction k as [|n k IH]; intros pre Hk; [done|].
  cbn [walk]. destruct k as [|m k].
  { destruct (f !! (pre ++ [n])) as [[|s]|]; (split; [intros [=]|intros [=]]); congruence. }
  specialize (IH (pre ++ [n])). rewrite <- app_assoc in IH. simpl in IH.
  destruct (f !! (pre ++ [n])) as [[|s]|] eqn:E; [by apply IH|..].
  all: split; [done|]; intros Hx; exfalso.
  all: destruct (wf_above f (pre ++ [n]) (m :: k)) as [[_ ?]%app_nil|Hd];
    [done|rewrite <- app_assoc; by exists x|done|done|congruence].
Qed.

Lemma isdir_wf f k : wf f -> isdir f k = true <-> is_dir_at f k.
Proof.
  intros Hwf. unfold isdir, stat, is_dir_at. destruct k as [|n k]; [simpl; tauto|].
  pose proof (walk_wf f [] (n :: k) Dir Hwf ltac:(done)) as H. simpl app in H.
  rewrite <- H. clear H. split; [|by intros [Hn| ->]].
  by destruct (walk f [] (n :: k)) as [[|s]|e]; [right|..].
Qed.

(** [isdir] of the entries decides what a directory's listing shows. *)
Lemma isdir_agree f f' k : wf f -> wf f' -> f !! k = f' !! k -> isdir f k = isdir f' k.
Proof.
  intros Hf Hf' H. apply eq_bool_prop_intro. rewrite !Is_true_true, !isdir_wf by done.
  unfold is_dir_at. by rewrite H.
Qed.

Lemma read_bytes_wf f k s : wf f -> f !! k = Some (File s) -> k <> [] -> read_bytes k f = (f, Ok s).
Proof.
  intros Hwf Hk Hne. unfold read_bytes, ioread, stat.
  apply (walk_wf f [] k) in Hk; [|done..]. by rewrite Hk.
Qed.

Lemma read_text_wf f k s :
  wf f -> f !! k = Some (File s) -> k <> [] -> read_text k f = (f, Ok (universal_newlines s)).
Proof. intros Hwf Hk Hne. unfold read_text, iobind. by rewrite (read_bytes_wf f k s). Qed.

Lemma wf_insert f d n x :
  wf f -> is_dir_at f d -> good_name n = true -> (x = Dir \/ f !! (d ++ [n]) <> Some Dir) ->
  wf (<[d ++ [n] := x]> f).
Proof.
  intros Hwf Hd Hn Hx. split.
  - intros k m Hs. destruct (decide (k ++ [m] = d ++ [n])) as [[-> _]%app_inj_tail|Hne].
    + destruct Hd as [->|Hd]; [by left|]. right. rewrite lookup_insert_ne; [done|].
      intros He%(f_equal length). rewrite length_app in He. simpl in He. lia.
    + rewrite lookup_insert_ne in Hs by done.
      destruct (wf_parent f Hwf _ _ Hs) as [->|Hk]; [by left|]. right.
      destruct (decide (d ++ [n] = k)) as [<-|Hne']; [|by rewrite lookup_insert_ne].
      rewrite lookup_insert. destruct Hx as [->|Hx]; [by rewrite decide_True|done].
  - intros k m Hs. destruct (decide (d ++ [n] = k ++ [m])) as [[_ <-]%app_inj_tail|Hne]; [done|].
    rewrite lookup_insert_ne in Hs by done. by apply (wf_name f Hwf k).
Qed.

Lemma write_text_wf f d n s :
  wf f -> is_dir_at f d -> f !! (d ++ [n]) <> Some Dir ->
  write_text (d ++ [n]) s f = (<[d ++ [n] := File s]> f, Ok tt).
Proof.
  intros Hwf Hd Hn. unfold write_text. rewrite removelast_last.
  apply isdir_wf in Hd; [|done]. unfold isdir in Hd.
  destruct (stat f d) as [[|]|]; try done.
  destruct (f !! (d ++ [n])) as [[|]|]; destruct d; done.
Qed.

(** [makedirs] succeeds when no file is in the way, and then the path and all
    above it are directories; nothing else changes. *)
Lemma makedirs_from_wf f pre k :
  wf f -> is_dir_at f pre -> Forall (fun n => good_name n = true) k ->
  (forall l s, l `prefix_of` k -> f !! (pre ++ l) <> Some (File s)) ->
  exists f', makedirs_from pre k f = (f', Ok tt) /\ wf f' /\
    (forall l, l `prefix_of` k -> l <> [] -> f' !! (pre ++ l) = Some Dir) /\
    (forall j, (forall l, l `prefix_of` k -> l <> [] -> j <> pre ++ l) -> f' !! j = f !! j).
Proof.
  revert f pre. induction k as [|n k IH]; intros f pre Hwf Hpre Hk Hfile.
  { exists f. split; [done|]. split; [done|]. split; [|done]. by intros l ->%prefix_nil_inv. }
  apply Forall_cons in Hk as [Hn Hk].
  assert (forall g, wf g -> g !! (pre ++ [n]) = Some Dir ->
    (forall j, j <> pre ++ [n] -> g !! j = f !! j) ->
    exists f', makedirs_from (pre ++ [n]) k g = (f', Ok tt) /\ wf f' /\
    (forall l, l `prefix_of` (n :: k) -> l <> [] -> f' !! (pre ++ l) = Some Dir) /\
    (forall j, (forall l, l `prefix_of` (n :: k) -> l <> [] -> j <> pre ++ l) -> f' !! j = f !! j))
    as Hgo.
  { intros g Hg Hgn Hgo.
    destruct (IH g (pre ++ [n])) as (f' & Hrun & Hf' & Hin & Hout); [done|by right|done|..].
    { intros l s Hl. destruct l as [|m l]; [rewrite app_nil_r; congruence|].
      rewrite Hgo; rewrite <- app_assoc; [by apply Hfile, prefix_cons|].
      intros He%app_inv_head. done. }
    exists f'. split; [done|]. split; [done|]. split.
    - intros l Hl Hne. destruct l as [|m l]; [done|].
      assert (m = n) as -> by (by apply prefix_cons_inv_1 in Hl).
      apply prefix_cons_inv_2 in Hl. destruct l as [|m l].
      + rewrite Hout; [done|]. intros l' _ Hl' He. rewrite <- (app_nil_r (pre ++ [n])) in He at 1.
        by apply app_inv_head in He.
      + specialize (Hin _ Hl ltac:(done)). by rewrite <- app_assoc in Hin.
    - intros j Hj. rewrite Hout.
      + apply Hgo, (Hj [n]); [|done]. by apply prefix_cons, prefix_nil.
      + intros l Hl _. rewrite <- app_assoc. apply Hj; [by apply prefix_cons|done]. }
  cbn [makedirs_from]. pose proof (Hfile [n]) as Hfn.
  destruct (f !! (pre ++ [n])) as [[|s]|] eqn:E.
  - apply Hgo; done.
  - exfalso. eapply Hfn; [by apply prefix_cons, prefix_nil|done].
  - apply Hgo.
    + apply wf_insert; auto.
    + by rewrite lookup_insert, decide_True.
    + intros j Hj. by rewrite lookup_insert_ne.
Qed.

Lemma makedirs_wf f k :
  wf f -> Forall (fun n => good_name n = true) k ->
  (forall l s, l `prefix_of` k -> f !! l <> Some (File s)) ->
  exists f', makedirs k f = (f', Ok tt) /\ wf f' /\
    (forall l, l `prefix_of` k -> l <> [] -> f' !! l = Some Dir) /\
    (forall j, (j `prefix_of` k -> j = []) -> f' !! j = f !! j).
Proof.
  intros Hwf Hk Hfile. destruct (makedirs_from_wf f [] k) as (f' & ? & ? & ? & Hout); [done|by left|done..|].
  exists f'. split; [done|]. split; [done|]. split; [done|].
  intros j Hj. apply Hout. intros l Hl Hne ->. by apply Hne, Hj.
Qed.
