(* ===== verification/SimResults.v ===== *)
(** * Test sessions: verification/block/noxfile.py

    The verdict of a results file ([isSimFailure]), one run of a block's test
    ([verify_block]) as a program over the tree of files of FileSystem.v, and the
    table of the sessions.  A results file is the tree of its elements.  The
    runner [nox] and the processes that it starts are third-party: what installing
    the requirements and [make] do to the files, and whether they raise, are
    arguments, and so are the reader of XML and what [os.rename] does when a
    directory has the name of a file.  The messages that are logged are left out. *)

From S2P Require Import Prelude PyString FileSystem.
From stdpp Require Import base gmap list strings.
From Stdlib Require Import Ascii ZArith Lia.

#[local] Open Scope string_scope.
#[local] Open Scope list_scope.

(** ** The results file *)

#[warnings="-register-all"]
Inductive element := Elem (tag : string) (attrs : list (string * string)) (children : list element).

Definition tag (e : element) : string := let 'Elem t _ _ := e in t.
Definition children (e : element) : list element := let 'Elem _ _ cs := e in cs.

(** [e.get(name)] *)
Definition get (name : string) (e : element) : option string :=
  let 'Elem _ attrs _ := e in snd <$> List.find (fun a => String.eqb a.1 name) attrs.

(** [e.extend(more)] *)
Definition extend (more : list element) (e : element) : element :=
  let 'Elem t attrs cs := e in Elem t attrs (cs ++ more).

(** [e.iter(t)]: the elements of the tag, in document order. *)
Fixpoint iter (t : string) (e : element) : list element :=
  let 'Elem t' _ cs := e in
  (if String.eqb t t' then [e] else []) ++ mjoin (map (iter t) cs).

Definition same_suite (a b : element) : bool :=
  bool_decide (get "name" a = get "name" b) && bool_decide (get "package" a = get "package" b).

(** The suite is added to the first one of the same name and package. *)
Fixpoint add_suite (ts : element) (result : list element) : list element :=
  match result with
  | [] => [ts]
  | existing :: result =>
      if same_suite existing ts then extend (children ts) existing :: result
      else existing :: add_suite ts result
  end.

(** [suites] are the elements "testsuite" of the file; a suite that contains
    another one would be changed while it is iterated. *)
Definition merge (suites : list element) : list element :=
  foldl (fun result ts => add_suite ts result) [] suites.

(** The return code, from the suites of the file. *)
Definition failure_rc (suites : list element) (suppress_rc : bool) : Z :=
  let rc :=
    foldl (fun rc testsuite =>
      foldl (fun rc testcase =>
        foldl (fun _ _ => 1%Z) rc (iter "failure" testcase))
        rc (iter "testcase" testsuite))
      0%Z (mjoin (map (iter "testsuite") (merge suites))) in
  if suppress_rc then 0%Z else rc.

(** ** The run of a test *)

#[local] Open Scope io_scope.

Definition blockPath : string := ".".
Definition pipRequirementsPath : string := "requirements.txt".

Section Run.
Context `{OS}.
(** [session.install("-r", ...)]; [session.run] with the output to a file; a
    rename of a directory; the root of an XML file. *)
Variable install : string -> IO unit.
Variable make : list string -> path -> IO unit.
Variable rename_dir : path -> path -> IO unit.
Variable parse : string -> result element.

(** [os.rename]: the file goes over one of the new name. *)
Definition rename (src dst : path) : IO unit := fun f =>
  match stat f src with
  | Raise e => (f, Raise e)
  | Ok Dir => rename_dir src dst f
  | Ok (File s) =>
      match write_text dst s f with
      | (_, Raise e) => (f, Raise e)
      | (_, Ok _) => (<[dst := File s]> (delete src f), Ok tt)
      end
  end.

(** The file of the logger is made first; [ET.parse] raises when the results file
    is missing or is not XML. *)
Definition isSimFailure (resultsFile : path) (suppress_rc : bool) : IO Z :=
  do! _ := write_text (resolve "parseResultsXML.log") "" in
  do! text := read_bytes resultsFile in
  do! tree := ioread (fun _ => parse text) in
  ioret (failure_rc (iter "testsuite" tree) suppress_rc).

(** The part up to the end of [make]. *)
Definition run_test (blockName testName coverage : string) : IO unit :=
  let testPath := join2 blockPath blockName in
  let testNameLogPath := join2 testPath (testName +:+ ".log") in
  do! _ := install pipRequirementsPath in
  do! _ := write_text (resolve testNameLogPath) "" in
  make ["make"; "-C"; testPath; "all"; "COVERAGE_TYPE=" +:+ coverage; "MODULE=" +:+ testName;
        "COCOTB_RESULTS_FILE=" +:+ (testName +:+ ".xml")] (resolve testNameLogPath).

(** Coverage and log keep their content under a name of the test. *)
Definition keep_results (blockName testName coverage : string) : IO unit :=
  let testPath := join2 blockPath blockName in
  if String.eqb coverage EmptyString then ioret tt
  else
    do! _ := rename (resolve (join2 testPath "coverage.dat"))
               (resolve (join2 testPath ("coverage_" +:+ testName +:+ "_" +:+ coverage +:+ ".dat"))) in
    rename (resolve (join2 testPath (testName +:+ ".log")))
      (resolve (join2 testPath (testName +:+ "_" +:+ coverage +:+ ".log"))).

Definition verify_block (blockName testName coverage : string) : IO unit :=
  let testPath := join2 blockPath blockName in
  do! _ := run_test blockName testName coverage in
  do! _ := keep_results blockName testName coverage in
  do! isTBFailure := isSimFailure (resolve (join2 testPath (testName +:+ ".xml"))) false in
  if truthy isTBFailure then ioraise PlainException else ioret tt.
End Run.

(** ** The lint sessions *)

Inductive command :=
  | SessionInstall (packages : list string)
  | SessionRun (args : list string).

Definition lintTools : list string := ["isort"; "black"; "flake8"].

Definition lint : list command :=
  [SessionInstall lintTools; SessionRun ["isort"; "."]; SessionRun ["black"; "."]; SessionRun ["flake8"; "."]].
Definition test_lint : list command :=
  [SessionInstall lintTools; SessionRun ["isort"; "--check"; "."]; SessionRun ["black"; "--check"; "."]; SessionRun ["flake8"; "."]].

(** A command that fails ends the session; [succeeds] says which commands do not. *)
Fixpoint run_session (succeeds : command -> bool) (cs : list command) : result unit :=
  match cs with
  | [] => Ok tt
  | c :: cs => if succeeds c then run_session succeeds cs else Raise PlainException
  end.

(** ** The sessions: blocks and tests *)

Record session := Session { blocks : list string; tests : list string }.

Definition coverageTypes : list string := ["all"].

Definition pic_verify : session := Session ["pic"]
  ["test_reset"; "test_clken"; "test_config"; "test_pending"; "test_prioritization"; "test_servicing"].
Definition pic_gw_verify : session := Session ["pic_gw"]
  ["test_gateway"].
Definition dec_tl_verify : session := Session ["dec_tl"]
  ["test_dec_tl"].
Definition dec_ib_verify : session := Session ["dec_ib"]
  ["test_dec_ib"].
Definition dma_verify : session := Session ["dma"]
  ["test_reset"; "test_read"; "test_write"; "test_address"; "test_ecc"; "test_debug_read"; "test_debug_write"; "test_debug_address"].
Definition ifu_compress_verify : session := Session ["ifu_compress"]
  ["test_compress"].
Definition ifu_mem_ctl_verify : session := Session ["ifu_mem_ctl"]
  ["test_miss"; "test_err"; "test_err_stop"].
Definition exu_alu_verify : session := Session ["exu_alu"]
  ["test_arith"; "test_logic"; "test_zbb"; "test_zbs"; "test_zbp"; "test_zba"].
Definition exu_mul_verify : session := Session ["exu_mul"]
  ["test_mul"].
Definition exu_div_verify : session := Session ["exu_div"]
  ["test_div"].
Definition iccm_verify : session := Session ["iccm"]
  ["test_readwrite"].
Definition dccm_verify : session := Session ["dccm"]
  ["test_readwrite"].
Definition dcls_verify : session := Session ["dcls"]
  ["test_lockstep"].
Definition lib_axi4_to_ahb_verify : session := Session ["lib_axi4_to_ahb"]
  ["test_axi"; "test_axi_read_channel"; "test_axi_write_channel"].
Definition lib_ahb_to_axi4_verify : session := Session ["lib_ahb_to_axi4"]
  ["test_write"; "test_read"].
Definition pmp_verify : session := Session ["pmp"]
  ["test_xwr_access"; "test_address_matching"; "test_multiple_configs"].
Definition pmp_random_verify : session := Session ["pmp_random"]
  ["test_pmp_random"].
Definition dec_verify : session := Session ["dec"]
  ["test_dec"].
Definition dec_tlu_ctl_verify : session := Session ["dec_tlu_ctl"]
  ["test_dec_tl"].
Definition dmi_verify : session := Session ["dmi"]
  ["test_jtag_ir"; "test_dmi_read_write"; "test_dmi_tap_fsm"].
Definition lsu_tl_verify : session := Session ["lsu_tl"]
  ["test_lsu_tl"].
Definition dec_pmp_ctl_verify : session := Session ["dec_pmp_ctl"]
  ["test_dec_pmp_ctl"].

Definition sessions : list session :=
  [pic_verify; pic_gw_verify; dec_tl_verify; dec_ib_verify;
   dma_verify; ifu_compress_verify; ifu_mem_ctl_verify; exu_alu_verify;
   exu_mul_verify; exu_div_verify; iccm_verify; dccm_verify;
   dcls_verify; lib_axi4_to_ahb_verify; lib_ahb_to_axi4_verify; pmp_verify;
   pmp_random_verify; dec_verify; dec_tlu_ctl_verify; dmi_verify;
   lsu_tl_verify; dec_pmp_ctl_verify].

(** The runs of the sessions: every block with every test and coverage type. *)
Definition runs : list (string * string * string) :=
  s ← sessions; b ← blocks s; t ← tests s; c ← coverageTypes; [(b, t, c)].

(** ** Facts *)

(** A test case somewhere in [e] has a failure somewhere in it. *)
Definition fails (e : element) : bool :=
  existsb (fun testcase => match iter "failure" testcase with [] => false | _ => true end)
    (iter "testcase" e).

(** A suite without a suite in it. *)
Definition flat (e : element) : Prop :=
  tag e = "testsuite" /\ Forall (fun c => iter "testsuite" c = []) (children e).

Lemma iter_elem t t' attrs cs :
  iter t (Elem t' attrs cs)
  = (if String.eqb t t' then [Elem t' attrs cs] else []) ++ mjoin (map (iter t) cs).
Proof. reflexivity. Qed.

Lemma join_nil {A B} (f : A -> list B) l : Forall (fun c => f c = []) l -> mjoin (map f l) = [].
Proof. induction 1 as [|c l H _ IH]; [done|]. cbn. by rewrite H. Qed.

Lemma existsb_join {A B} (f : B -> bool) (g : A -> list B) l :
  existsb f (mjoin (map g l)) = existsb (fun x => existsb f (g x)) l.
Proof. induction l as [|x l IH]; [done|]. cbn. by rewrite existsb_app, <- IH. Qed.

Lemma flat_iter e : flat e -> iter "testsuite" e = [e].
Proof.
  destruct e as [t attrs cs]. intros [Ht Hc]. cbn in Ht, Hc. subst t.
  rewrite iter_elem, join_nil by done. done.
Qed.

(** A suite fails when one of its parts does. *)
Lemma suite_fails e : flat e -> fails e = existsb fails (children e).
Proof.
  destruct e as [t attrs cs]. intros [Ht _]. cbn in Ht. subst t. unfold fails at 1.
  rewrite iter_elem.
  change (String.eqb "testcase" "testsuite") with false. apply existsb_join.
Qed.

Lemma extend_flat e more :
  flat e -> Forall (fun c => iter "testsuite" c = []) more -> flat (extend more e).
Proof. destruct e as [t attrs cs]. intros [Ht Hc] Hm. split; [done|]. cbn. by apply Forall_app. Qed.

Lemma extend_fails e ts :
  flat e -> flat ts -> fails (extend (children ts) e) = fails e || fails ts.
Proof.
  intros He Hts. pose proof (extend_flat e (children ts) He (proj2 Hts)) as H.
  rewrite (suite_fails _ H), (suite_fails _ He), (suite_fails _ Hts).
  destruct e as [t attrs cs]. cbn. apply existsb_app.
Qed.

Lemma add_suite_fails ts result :
  flat ts -> Forall flat result ->
  Forall flat (add_suite ts result)
  /\ existsb fails (add_suite ts result) = existsb fails result || fails ts.
Proof.
  intros Hts. induction 1 as [|e result He Hr [IH1 IH2]]; cbn.
  - split; [by constructor|]. by rewrite orb_false_r.
  - destruct (same_suite e ts).
    + split; [constructor; [by apply extend_flat, Hts|done]|]. cbn.
      rewrite extend_fails by done. by rewrite <- !orb_assoc, (orb_comm (fails ts)).
    + split; [by constructor|]. cbn. by rewrite IH2, orb_assoc.
Qed.

Lemma merge_fails suites :
  Forall flat suites ->
  Forall flat (merge suites) /\ existsb fails (merge suites) = existsb fails suites.
Proof.
  intros Hs. unfold merge.
  assert (forall result, Forall flat result ->
    let r := foldl (fun result ts => add_suite ts result) result suites in
    Forall flat r /\ existsb fails r = existsb fails result || existsb fails suites) as H.
  { induction Hs as [|ts suites Hts Hs IH]; intros result Hr; cbn.
    - by rewrite orb_false_r.
    - destruct (add_suite_fails ts result Hts Hr) as [H1 H2].
      destruct (IH _ H1) as [H3 H4]. split; [done|]. rewrite H4, H2. by rewrite orb_assoc. }
  apply (H []). constructor.
Qed.

(** The counter of the loops is 1 as soon as something was found. *)
Lemma foldl_found {A} (f : Z -> A -> Z) (found : A -> bool) l rc :
  (forall rc x, f rc x = if found x then 1%Z else rc) ->
  foldl f rc l = if existsb found l then 1%Z else rc.
Proof.
  intros H. revert rc. induction l as [|x l IH]; intros rc; [done|].
  cbn. rewrite IH, H. by destruct (found x), (existsb found l).
Qed.

Lemma failure_rc_value suites :
  Forall flat suites -> failure_rc suites false = if existsb fails suites then 1%Z else 0%Z.
Proof.
  intros Hs. destruct (merge_fails suites Hs) as [Hf Hm]. unfold failure_rc.
  rewrite (foldl_found _ fails).
  - assert (mjoin (map (iter "testsuite") (merge suites)) = merge suites) as ->; [|by rewrite Hm].
    clear Hm. induction Hf as [|e l He _ IH]; [done|]. cbn. rewrite (flat_iter e He). cbn. by rewrite <- IH at 2.
  - intros rc e. apply foldl_found. intros rc' tc.
    destruct (iter "failure" tc) as [|x l]; [done|]. cbn. clear.
    induction l as [|y l IH]; [done|exact IH].
Qed.

(** ** Names and files *)

Definition no_slash (s : string) : bool :=
  forallb (fun c => negb (Ascii.eqb c slash)) (String.list_ascii_of_string s).

Lemma no_slash_app a b : no_slash (a +:+ b) = no_slash a && no_slash b.
Proof.
  unfold no_slash. induction a as [|c a IH]; [done|].
  rewrite append_cons. cbn. by rewrite IH, andb_assoc.
Qed.

Lemma str_length_app a b : String.length (a +:+ b) = String.length a + String.length b.
Proof. induction a as [|c a IH]; [done|]. rewrite append_cons. cbn. by rewrite IH. Qed.

(** Names with a suffix of four characters. *)
Lemma suffixed_good a b : no_slash a = true -> no_slash b = true -> 3 <= String.length b ->
  good_name (a +:+ b) = true.
Proof.
  intros Ha Hb Hl. unfold good_name. fold (no_slash (a +:+ b)). rewrite no_slash_app, Ha, Hb.
  rewrite andb_true_r. pose proof (str_length_app a b) as Hlen.
  destruct (String.eqb_spec (a +:+ b) "") as [E|_]; [rewrite E in Hlen; cbn in Hlen; lia|].
  destruct (String.eqb_spec (a +:+ b) ".") as [E|_]; [rewrite E in Hlen; cbn in Hlen; lia|].
  destruct (String.eqb_spec (a +:+ b) "..") as [E|_]; [rewrite E in Hlen; cbn in Hlen; lia|]. done.
Qed.

Lemma suffix_inj a b s t : a +:+ s = b +:+ t -> String.length s = String.length t -> s = t.
Proof.
  revert b. induction a as [|c a IH]; intros [|c' b] E Hl; try done.
  - rewrite append_nil_l in E. apply (f_equal String.length) in E. rewrite str_length_app in E.
    cbn in E. lia.
  - rewrite append_nil_l in E. apply (f_equal String.length) in E.
    rewrite append_cons in E. cbn in E. rewrite str_length_app in E. lia.
  - rewrite !append_cons in E. injection E as _ E. by apply (IH b).
Qed.

Lemma walk_entry f pre d n :
  wf f -> is_dir_at f (pre ++ d) ->
  walk f pre (d ++ [n]) = match f !! (pre ++ d ++ [n]) with Some x => Ok x | None => Raise FileNotFoundError end.
Proof.
  intros Hwf. revert pre. induction d as [|m d IH]; intros pre Hd.
  - rewrite app_nil_l. cbn [walk]. by destruct (f !! (pre ++ [n])) as [[|s]|].
  - assert (f !! (pre ++ [m]) = Some Dir) as Hm.
    { assert (is_dir_at f (pre ++ [m])) as [[_ ?]%app_nil|?]; [|done..].
      destruct d as [|m' d]; [done|]. apply (wf_above f _ (m' :: d)); [done| |done].
      rewrite <- app_assoc. destruct Hd as [[_ ?]%app_nil|Hd]; [done|by exists Dir]. }
    specialize (IH (pre ++ [m])). rewrite <- !app_assoc in IH. specialize (IH Hd).
    cbn [app walk] in *. rewrite Hm. rewrite <- IH. by destruct d.
Qed.

Lemma stat_entry f d n :
  wf f -> is_dir_at f d ->
  stat f (d ++ [n]) = match f !! (d ++ [n]) with Some x => Ok x | None => Raise FileNotFoundError end.
Proof. intros Hwf Hd. by apply (walk_entry f [] d n). Qed.

Lemma wf_delete f k s : wf f -> f !! k = Some (File s) -> wf (delete k f).
Proof.
  intros Hwf Hk. split.
  - intros k' n [x Hs]. apply lookup_delete_Some in Hs as [Hne Hs].
    destruct (wf_parent f Hwf k' n ltac:(by exists x)) as [->|Hd]; [by left|]. right.
    rewrite lookup_delete_ne; [done|]. intros ->. congruence.
  - intros k' n [x Hs]. apply lookup_delete_Some in Hs as [_ Hs].
    apply (wf_name f Hwf k'). by exists x.
Qed.

Lemma is_dir_at_insert f d k s : is_dir_at f d -> f !! k <> Some Dir -> is_dir_at (<[k := File s]> f) d.
Proof.
  intros [->|Hd] Hk; [by left|]. right. rewrite lookup_insert_ne; [done|]. intros ->. congruence.
Qed.

Lemma is_dir_at_delete f d k s : is_dir_at f d -> f !! k = Some (File s) -> is_dir_at (delete k f) d.
Proof.
  intros [->|Hd] Hk; [by left|]. right. rewrite lookup_delete_ne; [done|]. intros ->. congruence.
Qed.

Lemma rename_entry rename_dir f d a b :
  wf f -> is_dir_at f d -> f !! (d ++ [a]) <> Some Dir -> f !! (d ++ [b]) <> Some Dir ->
  rename rename_dir (d ++ [a]) (d ++ [b]) f
  = match f !! (d ++ [a]) with
    | Some (File s) => (<[d ++ [b] := File s]> (delete (d ++ [a]) f), Ok tt)
    | _ => (f, Raise FileNotFoundError)
    end.
Proof.
  intros Hwf Hd Ha Hb. unfold rename. rewrite stat_entry by done.
  destruct (f !! (d ++ [a])) as [[|s]|]; [done| |done]. by rewrite write_text_wf.
Qed.
(** ** The verdict of a run *)

Section Verdict.
Context `{OS}.
Context (install : string -> IO unit) (make : list string -> path -> IO unit)
  (rename_dir : path -> path -> IO unit) (parse : string -> result element).
Context (b t c : string).

Definition entry (n : string) : path := cwd ++ [b; n].
Definition logger_file : path := cwd ++ ["parseResultsXML.log"].
Definition new_coverage : string := "coverage_" +:+ t +:+ "_" +:+ c +:+ ".dat".
Definition new_log : string := t +:+ "_" +:+ c +:+ ".log".

Definition has_file (f : fs) (k : path) : bool :=
  match f !! k with Some (File _) => true | _ => false end.

(** Coverage and log of the run are there to be kept. *)
Definition keeps (f : fs) : bool :=
  String.eqb c "" || has_file f (entry "coverage.dat") && has_file f (entry (t +:+ ".log")).

(** How a run ends, from the files that [make] has left. *)
Definition verdict (f : fs) : result unit :=
  if negb (keeps f) then Raise FileNotFoundError
  else match f !! entry (t +:+ ".xml") with
       | None => Raise FileNotFoundError
       | Some Dir => Raise IsADirectoryError
       | Some (File text) =>
           let! root := parse text in
           if existsb fails (iter "testsuite" root) then Raise PlainException else Ok tt
       end.

(** The files that [make] leaves: a tree with the directory of the block, no
    directory under the names that are opened or renamed, and no suite inside a
    suite in the results file. *)
Record left_by_make (f : fs) : Prop := {
  left_wf : wf f;
  left_dir : f !! (cwd ++ [b]) = Some Dir;
  left_files : Forall (fun k => f !! k <> Some Dir)
    [entry "coverage.dat"; entry new_coverage; entry (t +:+ ".log"); entry new_log; logger_file];
  left_flat : forall text root, f !! entry (t +:+ ".xml") = Some (File text) ->
    parse text = Ok root -> Forall flat (iter "testsuite" root) }.

Context (Hb : good_name b = true) (Ht : no_slash t = true) (Hc : no_slash c = true).

Lemma resolve_entry n : good_name n = true -> resolve (join2 (join2 blockPath b) n) = entry n.
Proof using Hb.
  intros Hn. rewrite !resolve_join2 by done. unfold entry. rewrite <- app_assoc. done.
Qed.

Lemma entry_inj m n : entry m = entry n -> m = n.
Proof. unfold entry. by intros [= ?]%(inj (app cwd)). Qed.

Lemma entry_logger n : entry n <> logger_file.
Proof. unfold entry, logger_file. by intros ?%(inj (app cwd)). Qed.

Lemma entry_last n : entry n = (cwd ++ [b]) ++ [n].
Proof. unfold entry. by rewrite <- app_assoc. Qed.

(** Names with different endings are different. *)
Lemma entry_suffix a a' x y : x <> y -> String.length x = String.length y ->
  entry (a +:+ x) <> entry (a' +:+ y).
Proof. intros Hne Hl E%entry_inj%suffix_inj; done. Qed.

Lemma new_coverage_suffix : new_coverage = ("coverage_" +:+ t +:+ "_" +:+ c) +:+ ".dat".
Proof. unfold new_coverage. by rewrite !append_assoc. Qed.

Lemma new_log_suffix : new_log = (t +:+ "_" +:+ c) +:+ ".log".
Proof. unfold new_log. by rewrite !append_assoc. Qed.

Lemma result_names_good :
  good_name "coverage.dat" = true /\ good_name new_coverage = true /\
  good_name (t +:+ ".log") = true /\ good_name new_log = true /\ good_name (t +:+ ".xml") = true.
Proof using Ht Hc.
  rewrite new_coverage_suffix, new_log_suffix.
  split; [done|]. split_and!; apply suffixed_good; rewrite ?no_slash_app, ?Ht, ?Hc; cbn; done || lia.
Qed.

(** Which of the files a rename leaves alone. *)
Lemma entries_differ :
  entry "coverage.dat" <> entry (t +:+ ".log") /\ entry new_coverage <> entry (t +:+ ".log") /\
  entry new_coverage <> entry new_log /\ entry "coverage.dat" <> entry (t +:+ ".xml") /\
  entry new_coverage <> entry (t +:+ ".xml") /\ entry (t +:+ ".log") <> entry (t +:+ ".xml") /\
  entry new_log <> entry (t +:+ ".xml").
Proof.
  rewrite new_coverage_suffix, new_log_suffix.
  change "coverage.dat" with ("coverage" +:+ ".dat"). split_and!; by apply entry_suffix.
Qed.

(** Renaming one file of the directory. *)
Lemma rename_step f m n :
  wf f -> f !! (cwd ++ [b]) = Some Dir -> good_name n = true ->
  f !! entry m <> Some Dir -> f !! entry n <> Some Dir ->
  match f !! entry m with
  | Some (File s) =>
      rename rename_dir (entry m) (entry n) f = (<[entry n := File s]> (delete (entry m) f), Ok tt)
      /\ wf (<[entry n := File s]> (delete (entry m) f))
      /\ <[entry n := File s]> (delete (entry m) f) !! (cwd ++ [b]) = Some Dir
  | _ => rename rename_dir (entry m) (entry n) f = (f, Raise FileNotFoundError)
  end.
Proof.
  intros Hwf Hd Hn Hm Hnd. rewrite !entry_last in *.
  rewrite rename_entry by (done || by right).
  destruct (f !! ((cwd ++ [b]) ++ [m])) as [[|s]|] eqn:E; [done| |done]. split; [done|].
  assert (delete ((cwd ++ [b]) ++ [m]) f !! ((cwd ++ [b]) ++ [n]) <> Some Dir) as Hnew.
  { by intros [_ ?]%lookup_delete_Some. }
  assert (is_dir_at (delete ((cwd ++ [b]) ++ [m]) f) (cwd ++ [b])) as Hdir
    by (eapply is_dir_at_delete; [by right|exact E]).
  split; [apply wf_insert; [by eapply wf_delete|done|done|by right]|].
  destruct (is_dir_at_insert _ _ ((cwd ++ [b]) ++ [n]) s Hdir Hnew) as [[_ ?]%app_nil|?]; done.
Qed.

Lemma keep_results_spec f :
  left_by_make f ->
  if keeps f then
    exists f', keep_results rename_dir b t c f = (f', Ok tt)
      /\ wf f' /\ f' !! (cwd ++ [b]) = Some Dir
      /\ f' !! entry (t +:+ ".xml") = f !! entry (t +:+ ".xml") /\ f' !! logger_file = f !! logger_file
      /\ (c <> "" -> f' !! entry new_coverage = f !! entry "coverage.dat"
                     /\ f' !! entry new_log = f !! entry (t +:+ ".log"))
  else (keep_results rename_dir b t c f).2 = Raise FileNotFoundError.
Proof using Hb Ht Hc.
  intros [Hwf Hd Hf _]. apply Forall_cons in Hf as [H1 Hf]. apply Forall_cons in Hf as [H2 Hf].
  apply Forall_cons in Hf as [H3 Hf]. apply Forall_cons in Hf as [H4 _].
  destruct result_names_good as (N1 & N2 & N3 & N4 & N5).
  destruct entries_differ as (D1 & D2 & D3 & D4 & D5 & D6 & D7).
  unfold keeps, keep_results. destruct (String.eqb_spec c "") as [->|Hne].
  { exists f. split; [done|]. split_and!; done. }
  cbn [orb]. fold new_coverage new_log. rewrite !resolve_entry by done. unfold iobind, has_file.
  pose proof (rename_step f "coverage.dat" new_coverage Hwf Hd N2 H1 H2) as R1.
  destruct (f !! entry "coverage.dat") as [[|s1]|] eqn:E1; [done| |by rewrite R1].
  destruct R1 as (-> & Hwf1 & Hd1). set (g := <[_ := _]> _) in *.
  assert (g !! entry (t +:+ ".log") = f !! entry (t +:+ ".log")) as Glog.
  { unfold g. by rewrite lookup_insert_ne, lookup_delete_ne. }
  assert (g !! entry new_log <> Some Dir) as Gnew.
  { unfold g. rewrite lookup_insert_ne by done. by intros [_ ?]%lookup_delete_Some. }
  rewrite <- Glog in H3 |- *.
  pose proof (rename_step g (t +:+ ".log") new_log Hwf1 Hd1 N4 H3 Gnew) as R2.
  destruct (g !! entry (t +:+ ".log")) as [[|s2]|] eqn:E2; [done| |by rewrite R2].
  destruct R2 as (-> & Hwf2 & Hd2). eexists. split; [done|].
  pose proof (entry_logger) as Hl. split_and!; try done.
  - rewrite lookup_insert_ne, lookup_delete_ne by done. unfold g.
    by rewrite lookup_insert_ne, lookup_delete_ne.
  - unfold g. by rewrite lookup_insert_ne, lookup_delete_ne, lookup_insert_ne, lookup_delete_ne by apply Hl.
  - intros _. split.
    + rewrite lookup_insert_ne, lookup_delete_ne by done. unfold g. by rewrite lookup_insert, decide_True.
    + by rewrite lookup_insert, decide_True.
Qed.

(** Reading the results: the file of the logger is new, and nothing else. *)
Lemma isSimFailure_spec f f' :
  left_by_make f -> wf f' -> f' !! (cwd ++ [b]) = Some Dir ->
  f' !! entry (t +:+ ".xml") = f !! entry (t +:+ ".xml") -> f' !! logger_file = f !! logger_file ->
  keeps f = true ->
  (do! rc := isSimFailure parse (entry (t +:+ ".xml")) false in
   if truthy rc then ioraise PlainException else ioret tt) f'
  = (<[logger_file := File ""]> f', verdict f).
Proof using Hb.
  intros [Hwf Hd Hf Hflat] Hwf' Hd' Hx Hl Hk. unfold verdict. rewrite Hk. cbn [negb].
  do 4 apply Forall_cons in Hf as [_ Hf]. apply Forall_cons in Hf as [Hlog _].
  assert (is_dir_at f' cwd) as Hcwd by (eapply (wf_above f' cwd [b]); [done|by exists Dir|done]).
  unfold isSimFailure, iobind.
  change (resolve "parseResultsXML.log") with (enter_all cwd "parseResultsXML.log").
  rewrite enter_all_good by done. rewrite write_text_wf by (done || by fold logger_file; rewrite Hl).
  fold logger_file. unfold read_bytes, ioread. rewrite entry_last, stat_entry.
  - rewrite <- entry_last, lookup_insert_ne by (intros E; by apply (entry_logger (t +:+ ".xml"))).
    rewrite Hx. specialize (Hflat). destruct (f !! entry (t +:+ ".xml")) as [[|text]|] eqn:E; [done| |done].
    cbn [rbind]. destruct (parse text) as [root|e] eqn:Ep; [|done]. cbn [rbind ioret].
    rewrite failure_rc_value by (by eapply Hflat). by destruct (existsb fails _).
  - apply wf_insert; [done|done|done|]. right. by rewrite <- Hl in Hlog.
  - apply is_dir_at_insert; [by right|]. by rewrite <- Hl in Hlog.
Qed.

(** C33: the verdict of a test run, errors included.  When installing the
    requirements, opening the log or [make] raises, the run ends with that
    exception and nothing more happens.  When [make] ends well, and its results
    file has no suite inside a suite, the run succeeds exactly when
    - with a coverage type, [make] has left coverage.dat and the log of the test,
      which then have their contents under the names of the test,
    - it has left the results file, this is XML, and
    - no test case of it has a failure in it, whatever the names of its suites:
      merging them loses none.
    Otherwise it raises: FileNotFoundError for a missing file, what the reader
    raises for a file that it cannot read, and the exception of a failure.  A
    results file without a test case is a success. *)
Theorem verify_block_fails_iff f f1 r1 :
  run_test install make b t c f = (f1, r1) ->
  (forall e, r1 = Raise e -> verify_block install make rename_dir parse b t c f = (f1, Raise e))
  /\ (r1 = Ok tt -> left_by_make f1 ->
       let r := verify_block install make rename_dir parse b t c f in
       r.2 = verdict f1
       /\ (r.2 = Ok tt <->
             keeps f1 = true /\ exists text root, f1 !! entry (t +:+ ".xml") = Some (File text)
               /\ parse text = Ok root /\ existsb fails (iter "testsuite" root) = false)
       /\ (c <> "" -> keeps f1 = true ->
             r.1 !! entry new_coverage = f1 !! entry "coverage.dat"
             /\ r.1 !! entry new_log = f1 !! entry (t +:+ ".log"))).
Proof using Hb Ht Hc.
  intros Hrun. split; [intros e ->; unfold verify_block, iobind at 1; by rewrite Hrun|].
  intros -> Hleft r.
  assert (r.2 = verdict f1 /\ (c <> "" -> keeps f1 = true ->
    r.1 !! entry new_coverage = f1 !! entry "coverage.dat"
    /\ r.1 !! entry new_log = f1 !! entry (t +:+ ".log"))) as [Hv Hkeep].
  { assert (r = (do! _ := keep_results rename_dir b t c in
                 do! rc := isSimFailure parse (resolve (join2 (join2 blockPath b) (t +:+ ".xml"))) false in
                 if truthy rc then ioraise PlainException else ioret tt) f1) as ->.
    { unfold r, verify_block. unfold iobind at 1. by rewrite Hrun. }
    unfold iobind at 1 3 5. pose proof (keep_results_spec f1 Hleft) as Hk. destruct (keeps f1) eqn:Ek.
    - destruct Hk as (f2 & -> & Hwf & Hd & Hx & Hl & Hnames).
      destruct result_names_good as (_ & _ & _ & _ & N5). rewrite resolve_entry by done.
      rewrite (isSimFailure_spec f1 f2) by done. split; [done|]. intros Hne _.
      cbn [fst]. rewrite !lookup_insert_ne by (intros E; symmetry in E; by eapply entry_logger).
      by apply Hnames.
    - unfold verdict. rewrite Ek. destruct (keep_results _ _ _ _ _) as [f2 [u|e]]; [done|].
      cbn in Hk |- *. injection Hk as ->. done. }
  split; [done|]. split; [|done]. rewrite Hv. unfold verdict. destruct (keeps f1); cbn [negb].
  - destruct (f1 !! entry (t +:+ ".xml")) as [[|text]|].
    + split; [done|]. by intros (_ & ? & ? & ? & _).
    + destruct (parse text) as [root|e] eqn:Ep; cbn [rbind].
      * destruct (existsb fails (iter "testsuite" root)) eqn:Ef.
        -- split; [done|]. intros (_ & ? & ? & [= <-] & E & ?). congruence.
        -- split; [|done]. intros _. split; [done|]. by exists text, root.
      * split; [done|]. intros (_ & ? & ? & [= <-] & E & ?). congruence.
    + split; [done|]. by intros (_ & ? & ? & ? & _).
  - split; [done|]. by intros [? _].
Qed.
End Verdict.

#[local] Instance demo_os : OS := {
  cwd := ["work"]; scan_order _ l := l; scan_order_perm _ l := reflexivity l }.

Definition demo_tree : fs := list_to_map [(["work"], Dir); (["work"; "pic"], Dir)].

(** A run of make that leaves a results file with the given text. *)
Definition demo_make (text : string) (args : list string) (log : path) : IO unit :=
  do! _ := write_text log "PASS" in
  do! _ := write_text ["work"; "pic"; "coverage.dat"] "data" in
  write_text ["work"; "pic"; "test_reset.xml"] text.

(** A reader that knows two files: two suites of one name, the second with a
    failure or without. *)
Definition demo_parse (text : string) : result element :=
  let case name cs := Elem "testcase" [("name", name)] cs in
  let suite cs := Elem "testsuite" [("name", "all"); ("package", "all")] cs in
  let root cs := Elem "testsuites" [] [suite [case "a" []]; suite [case "b" cs]] in
  if String.eqb text "bad" then Ok (root [Elem "failure" [] []])
  else if String.eqb text "good" then Ok (root []) else Raise ValueError.

Definition demo_run (text : string) : fs * result unit :=
  verify_block (fun _ => ioret tt) (demo_make text) (fun _ _ => ioret tt) demo_parse
    "pic" "test_reset" "all" demo_tree.

Lemma demo_left text :
  text = "bad" \/ text = "good" ->
  left_by_make demo_parse "pic" "test_reset" "all"
    (run_test (fun _ => ioret tt) (demo_make text) "pic" "test_reset" "all" demo_tree).1.
Proof.
  intros [-> | ->]; (split; [apply wf_check_ok; vm_compute; reflexivity|vm_compute; reflexivity
    |apply (bool_decide_unpack _); vm_compute; exact I|]).
  all: intros x root Hx Hr; assert (x = "bad" \/ x = "good") as Hcase
    by (vm_compute in Hx; injection Hx as <-; tauto); destruct Hcase as [-> | ->];
    cbv in Hr; injection Hr as <-; cbv [iter]; repeat constructor.
Qed.

Lemma verify_block_fails_iff_witness :
  (demo_run "bad").2 = Raise PlainException /\ (demo_run "good").2 = Ok tt
  /\ (demo_run "good").1 !! ["work"; "pic"; "coverage_test_reset_all.dat"] = Some (File "data").
Proof.
  assert (forall text, text = "bad" \/ text = "good" ->
    run_test (fun _ => ioret tt) (demo_make text) "pic" "test_reset" "all" demo_tree
    = ((run_test (fun _ => ioret tt) (demo_make text) "pic" "test_reset" "all" demo_tree).1, Ok tt)) as Hrun.
  { intros text [-> | ->]; vm_compute; reflexivity. }
  destruct (proj2 (verify_block_fails_iff (fun _ => ioret tt) (demo_make "bad") (fun _ _ => ioret tt)
    demo_parse "pic" "test_reset" "all" eq_refl eq_refl eq_refl demo_tree _ _ (Hrun "bad" ltac:(tauto)))
    eq_refl (demo_left "bad" ltac:(tauto))) as (Hbad & _).
  destruct (proj2 (verify_block_fails_iff (fun _ => ioret tt) (demo_make "good") (fun _ _ => ioret tt)
    demo_parse "pic" "test_reset" "all" eq_refl eq_refl eq_refl demo_tree _ _ (Hrun "good" ltac:(tauto)))
    eq_refl (demo_left "good" ltac:(tauto))) as (Hgood & _ & Hkeep).
  split; [|split].
  - etransitivity; [exact Hbad|]. vm_compute. reflexivity.
  - etransitivity; [exact Hgood|]. vm_compute. reflexivity.
  - etransitivity; [exact (proj1 (Hkeep ltac:(done) ltac:(vm_compute; reflexivity)))|].
    vm_compute. reflexivity.
Defined.

(** The table: 22 sessions; no run is listed twice. *)
Lemma runs_nodup : length sessions = 22 /\ NoDup runs.
Proof. split; [reflexivity|]. apply (bool_decide_unpack _). vm_compute. exact I. Qed.
