(* ===== verification/IndexGen.v ===== *)
(** * The index pages of the dashboards:
    .github/scripts/indexgen/generate.py

    [main] reads the tree of published reports (root), the templates and writes
    the sources of the index pages (output).  jinja2 is the class [Jinja]: a
    template is made from a text and rendered with a context, and both can
    raise.  A context is what the script passes as keyword arguments.
    [site] says which pages there are and what each shows, from the tree
    before the run; [index_pages_written] proves that [main] writes these pages
    and nothing else. *)

From S2P Require Import Prelude PyString PyDict FileSystem.
From stdpp Require Import base gmap list sorting strings.
From Stdlib Require Import ZArith Ascii Lia.

#[local] Open Scope string_scope.
#[local] Open Scope list_scope.
#[local] Open Scope io_scope.

(** The parameters of the three kinds of pages. *)
Inductive context :=
  | CoverageCtx (ref : string) (summary : list (string * option string))
      (individual : list (string * list (string * string)))
  | VerificationCtx (ref : string) (tests : gset string)
  | DevCtx (branches : list string).

Class Jinja := {
  template : Type;
  parse : string -> result template;
  render : template -> context -> result string;
}.

Section Generate.
Context `{OS, Jinja}.

(** The file [dst] is opened, and thereby emptied, before the page is rendered. *)
Definition render_template (src dst : string) (kwargs : context) : IO unit :=
  do! text := read_text (resolve src) in
  do! tpl := ioread (fun _ => parse text) in
  do! _ := write_text (resolve dst) "" in
  do! page := ioread (fun _ => render tpl kwargs) in
  write_text (resolve dst) page.

Definition keys : list string := ["all"; "branch"; "toggle"; "functional"].

Definition collect_summary (f : fs) (path : string) : list (string * option string) :=
  map (fun key =>
    let fname := join2 path key in
    (key, if isdir f (resolve fname) then Some key else None)) keys.

Definition collect_individual (f : fs) (path key : string) : list (string * string) :=
  let pfx := key +:+ "_" in
  if negb (isdir f (resolve path)) then []
  else fold_left (fun d file =>
    let fname := join2 path file in
    if negb (isdir f (resolve fname)) then d
    else if negb (starts_with pfx file) then d
    else dict_set (drop_str (String.length pfx) file) file d)
    (sorted (listdir f (resolve path))) [].

Definition coverage_params (f : fs) (branch root : string) : context :=
  let path := join2 root "coverage_dashboard" in
  CoverageCtx (branch +:+ "_coverage_dashboard") (collect_summary f path)
    (map (fun key => (key, collect_individual f path key)) keys).

Definition make_coverage_report_index (branch root output templates : string) : IO unit :=
  do! params := ioread (fun f => Ok (coverage_params f branch root)) in
  do! _ := makedirs (resolve output) in
  render_template (join2 templates "coverage_dashboard.md")
    (join2 output "coverage_dashboard.md") params.

Definition collect_tests (f : fs) (path : string) : gset string :=
  if isdir f (resolve path) then
    fold_left (fun tests file =>
      if negb (starts_with "webpage_" file) then tests
      else tests ∪ {[replace "webpage_" "" file]})
      (sorted (listdir f (resolve path))) ∅
  else ∅.

Definition verification_params (f : fs) (branch root : string) : context :=
  VerificationCtx (branch +:+ "_verification_dashboard")
    (collect_tests f (join2 root "verification_dashboard")).

Definition make_verification_report_index (branch root output templates : string) : IO unit :=
  do! params := ioread (fun f => Ok (verification_params f branch root)) in
  do! _ := makedirs (resolve output) in
  render_template (join2 templates "verification_dashboard.md")
    (join2 output "verification_dashboard.md") params.

Definition make_dev_index (branches : list string) (output templates : string) : IO unit :=
  render_template (join2 templates "dev.md") (join2 output "dev.md") (DevCtx branches).

(** The two pages of a branch; [sub] leads to it from the root and from the
    output. *)
Definition make_branch (branch : string) (sub : list string) (root output templates : string) :
    IO unit :=
  do! _ := make_coverage_report_index branch
             (path_join root sub) (path_join output sub) templates in
  make_verification_report_index branch
    (path_join root sub) (path_join output sub) templates.

(** The loop over the listing of [dev], which was taken before its first round. *)
Fixpoint make_dev_branches (files branches : list string) (root output templates : string) :
    IO (list string) :=
  match files with
  | [] => ioret branches
  | file :: files =>
      do! d := ioread (fun f => Ok (isdir f (resolve (join2 (join2 root "dev") file)))) in
      if negb d then make_dev_branches files branches root output templates
      else
        do! _ := make_branch file ["dev"; file] root output templates in
        make_dev_branches files (branches ++ [file]) root output templates
  end.

Definition other_files : list string := ["conf.py"; "main.md"; "index.md"].

Definition copy_other (output templates file : string) : IO unit :=
  copy (resolve (join2 templates file)) file (resolve (join2 output file)).

(** [main] on the values of [--root], which defaults to [None], [--output]
    and [--template]. *)
Definition main (root : option string) (output templates : string) : IO unit :=
  match root with
  | None => ioraise TypeError
  | Some root =>
      if String.eqb (abspath root) (abspath output) then ioraise (SystemExit (-1))
      else
        do! _ := make_branch "main" ["main"] root output templates in
        do! files := ioread (fun f =>
          let path := resolve (join2 root "dev") in
          Ok (if isdir f path then listdir f path else [])) in
        do! branches := make_dev_branches files [] root output templates in
        do! _ := make_dev_index branches output templates in
        iofor (copy_other output templates) other_files
  end.
End Generate.

(** ** What the pages are *)

Section Site.
Context `{OS, Jinja}.

(** A template of the directory [t], rendered. *)
Definition page (f : fs) (t : path) (name : string) (ctx : context) : option string :=
  match f !! (t ++ [name]) with
  | Some (File text) =>
      match parse (universal_newlines text) with
      | Ok tpl => match render tpl ctx with Ok s => Some s | Raise _ => None end
      | Raise _ => None
      end
  | _ => None
  end.

Definition plain (f : fs) (t : path) (name : string) : option string :=
  match f !! (t ++ [name]) with Some (File text) => Some text | _ => None end.

Definition branches (f : fs) (root : string) : list string :=
  filter (fun b => isdir f (resolve root ++ ["dev"; b]) = true)
    (if isdir f (resolve root ++ ["dev"]) then listdir f (resolve root ++ ["dev"]) else []).

Definition branch_pages (f : fs) (root : string) (t : path) (branch : string)
    (sub : list string) : list (path * option string) :=
  [(sub ++ ["coverage_dashboard.md"],
    page f t "coverage_dashboard.md" (coverage_params f branch (path_join root sub)));
   (sub ++ ["verification_dashboard.md"],
    page f t "verification_dashboard.md" (verification_params f branch (path_join root sub)))].

(** The pages of the site, by their paths below the output; [None] for a page
    whose template is missing or does not render. *)
Definition site (f : fs) (root : string) (t : path) : list (path * option string) :=
  branch_pages f root t "main" ["main"]
    ++ concat (map (fun b => branch_pages f root t b ["dev"; b]) (branches f root))
    ++ [(["dev.md"], page f t "dev.md" (DevCtx (branches f root)))]
    ++ map (fun file => ([file], plain f t file)) other_files.

(** Neither of two directories is inside the other. *)
Definition apart (a b : path) : Prop := ~ a `prefix_of` b /\ ~ b `prefix_of` a.

(** The situation in which the script is run: the output is an empty
    directory, or a new one, away from the reports and the templates. *)
Record ready (f : fs) (root output templates : string) : Prop := {
  ready_wf : wf f;
  ready_root : apart (resolve root) (resolve output);
  ready_templates : apart (resolve templates) (resolve output);
  ready_names : Forall (fun n => good_name n = true) (resolve output);
  ready_above l s : l `prefix_of` resolve output -> f !! l <> Some (File s);
  ready_empty k : k <> [] -> f !! (resolve output ++ k) = None;
  ready_distinct : abspath root <> abspath output;
}.
End Site.

(** * Theorems *)

(** ** Collecting the reports *)

Lemma starts_with_drop p s : starts_with p s = true -> s = p +:+ drop_str (String.length p) s.
Proof.
  revert s. induction p as [|a p IH]; intros s H; [done|].
  destruct s as [|b s]; [done|]. cbn [starts_with] in H.
  destruct (Ascii.eqb a b) eqn:E; [|done]. apply Ascii.eqb_eq in E as ->.
  cbn [String.length drop_str]. rewrite append_cons. by rewrite <- IH.
Qed.

Lemma starts_with_app p s : starts_with p (p +:+ s) = true.
Proof. induction p as [|a p IH]; [done|]. rewrite append_cons. cbn [starts_with]. by rewrite Ascii.eqb_refl. Qed.

Lemma drop_str_app p s : drop_str (String.length p) (p +:+ s) = s.
Proof. induction p as [|a p IH]; [by destruct s|]. exact IH. Qed.

Lemma fold_dict {A} (g : string -> option (string * A)) l d :
  NoDup (d ++ omap g l).*1 ->
  fold_left (fun d x => match g x with Some (k, v) => dict_set k v d | None => d end) l d
  = d ++ omap g l.
Proof.
  revert d. induction l as [|x l IH]; intros d Hnd; [by rewrite app_nil_r|].
  csimpl in *. destruct (g x) as [[k v]|]; [|by apply IH].
  rewrite cons_middle, app_assoc in Hnd |- *. rewrite dict_set_fresh; [by apply IH|].
  rewrite fmap_app, fmap_app, <- app_assoc in Hnd. apply NoDup_app in Hnd as (_ & Hk & _).
  intros Hin. apply (Hk k Hin). left.
Qed.

Lemma fold_left_ext {A B} (g h : A -> B -> A) l a :
  (forall a x, x ∈ l -> g a x = h a x) -> fold_left g l a = fold_left h l a.
Proof.
  revert a. induction l as [|x l IH]; intros a Hgh; [done|]. simpl.
  rewrite Hgh by left. apply IH. intros a' y Hy. apply Hgh. by right.
Qed.

(** The entry of a dashboard that a directory makes. *)
Definition report (f : fs) (d : path) (key file : string) : option (string * string) :=
  if isdir f (d ++ [file]) && starts_with (key +:+ "_") file
  then Some (drop_str (String.length (key +:+ "_")) file, file) else None.

Lemma report_spec f d key file t r :
  report f d key file = Some (t, r) <->
  r = file /\ file = key +:+ "_" +:+ t /\ isdir f (d ++ [file]) = true.
Proof.
  unfold report. destruct (isdir f (d ++ [file])); simpl; [|split; [done|by intros (_ & _ & [=])]].
  destruct (starts_with (key +:+ "_") file) eqn:E.
  - apply starts_with_drop in E. split.
    + intros [= <- <-]. by rewrite <- append_assoc.
    + intros (-> & Hf & _). rewrite <- append_assoc in Hf. rewrite Hf at 1. by rewrite drop_str_app.
  - split; [done|]. intros (_ & -> & _). rewrite <- append_assoc in E. by rewrite starts_with_app in E.
Qed.

Section Collect.
Context `{OS}.

Lemma names_good f d n : wf f -> n ∈ names f d -> good_name n = true.
Proof. intros Hwf Hn%elem_of_names. by eapply wf_name. Qed.

Lemma names_dir f d : wf f -> isdir f d = false -> names f d = [].
Proof.
intros Hwf Hd. destruct (names f d) as [|n l] eqn:E; [done|]. exfalso.
assert (n ∈ names f d) as Hn by (rewrite E; left).
apply elem_of_names, wf_parent in Hn; [|done].
apply (isdir_wf f d) in Hn; [|done]. congruence.
Qed.

Lemma report_keys_nodup f d key l : NoDup l -> NoDup (omap (report f d key) l).*1.
Proof.
intros Hl. rewrite list_fmap_omap. apply nodup_omap_inj; [|done].
intros x y b Hx Hy.
apply fmap_Some in Hx as ([t r] & [_ [-> _]]%report_spec & ->).
by apply fmap_Some in Hy as ([t' r'] & [_ [-> _]]%report_spec & Ht); simpl in *; subst.
Qed.

Lemma report_files_sorted f d key l : Sorted str_le l -> Sorted str_le (omap (report f d key) l).*2.
Proof.
intros Hl. apply StronglySorted_Sorted. apply Sorted_StronglySorted in Hl; [|apply _].
induction Hl as [|n l _ IH Hn]; [constructor|]. csimpl.
destruct (report f d key n) as [[t r]|] eqn:E; [|done]. apply report_spec in E as (-> & _ & _).
constructor; [done|]. apply Forall_forall. intros r Hr.
apply list_elem_of_fmap in Hr as ([t' r'] & -> & (m & Hm & (-> & _)%report_spec)%list_elem_of_omap).
by apply (proj1 (Forall_forall _ _) Hn).
Qed.

(** The dict of a key holds the reports in the order of the names. *)
Lemma collect_individual_eq f path key :
wf f -> collect_individual f path key =
        omap (report f (resolve path) key) (names f (resolve path)).
Proof.
intros Hwf. unfold collect_individual. rewrite sorted_listdir.
destruct (isdir f (resolve path)) eqn:Hd; simpl; [|by rewrite names_dir].
rewrite <- (app_nil_l (omap _ _)), <- fold_dict by (by apply report_keys_nodup, names_nodup).
apply fold_left_ext. intros d n Hn. unfold report.
rewrite resolve_join2 by (by eapply names_good).
destruct (isdir f (resolve path ++ [n])), (starts_with (key +:+ "_") n); done.
Qed.

Definition test_of (file : string) : option string :=
if starts_with "webpage_" file then Some (replace "webpage_" "" file) else None.

Lemma collect_tests_eq f path :
wf f -> collect_tests f path = list_to_set (omap test_of (names f (resolve path))).
Proof.
intros Hwf. unfold collect_tests. rewrite sorted_listdir.
destruct (isdir f (resolve path)) eqn:Hd; [|by rewrite names_dir].
enough (forall l T, fold_left (fun tests file =>
  if negb (starts_with "webpage_" file) then tests
  else tests ∪ {[replace "webpage_" "" file]}) l T
  = T ∪ list_to_set (omap test_of l) :> gset string) as ->; [by rewrite (left_id_L ∅ (∪))|].
induction l as [|x l IH]; intros T; [simpl; by rewrite (right_id_L ∅ (∪))|]. 
change (omap test_of (x :: l))
  with (match test_of x with Some t => t :: omap test_of l | None => omap test_of l end).
cbn [fold_left]. rewrite IH. replace (test_of x) with
  (if starts_with "webpage_" x then Some (replace "webpage_" "" x) else None) by done.
destruct (starts_with "webpage_" x); cbn [negb]; [|done].
simpl list_to_set. by rewrite (assoc_L (∪)).
Qed.
End Collect.

(** What the pages of a branch show depends on what is below the root only. *)
Section Agree.
Context `{OS}.
Context (f f' : fs) (root : string) (Hf : wf f) (Hf' : wf f').
Hypothesis agree : forall k, f !! (resolve root ++ k) = f' !! (resolve root ++ k).

Lemma names_below k : names f (resolve root ++ k) = names f' (resolve root ++ k).
Proof. apply names_agree. intros n. rewrite <- app_assoc. apply agree. Qed.

Lemma isdir_below k : isdir f (resolve root ++ k) = isdir f' (resolve root ++ k).
Proof. by apply isdir_agree. Qed.

Lemma coverage_params_agree branch sub :
Forall (fun n => good_name n = true) sub ->
coverage_params f branch (path_join root sub) = coverage_params f' branch (path_join root sub).
Proof.
intros Hsub. unfold coverage_params.
assert (resolve (join2 (path_join root sub) "coverage_dashboard")
        = resolve root ++ (sub ++ ["coverage_dashboard"])) as Hp.
{ rewrite resolve_join2, resolve_join by done. by rewrite <- app_assoc. }
f_equal.
- unfold collect_summary. apply map_ext_in. intros key Hkey.
  rewrite resolve_join2 by (by repeat destruct Hkey as [<-|Hkey]).
  rewrite Hp, <- app_assoc. by rewrite isdir_below.
- apply map_ext. intros key. f_equal. rewrite !collect_individual_eq, Hp, names_below by done.
  apply list_omap_ext, Forall_Forall2_diag, Forall_true. intros n. unfold report.
  rewrite <- app_assoc. by rewrite isdir_below.
Qed.

Lemma verification_params_agree branch sub :
Forall (fun n => good_name n = true) sub ->
verification_params f branch (path_join root sub)
= verification_params f' branch (path_join root sub).
Proof.
intros Hsub. unfold verification_params. rewrite !collect_tests_eq by done.
rewrite resolve_join2, resolve_join, <- app_assoc by done. by rewrite names_below.
Qed.
End Agree.

(** ** Building the site *)

(** The directories of the site, below the output. *)
Definition site_dir (k : path) : Prop :=
  match k with
  | [] => True
  | [n] => n = "main" \/ n = "dev"
  | [n; _] => n = "dev"
  | _ => False
  end.

Lemma site_dir_prefix l k : l `prefix_of` k -> site_dir k -> site_dir l.
Proof.
  intros [k' ->]. destruct l as [|a [|b [|c l]]]; simpl; try done.
  all: destruct k' as [|x [|y k']]; simpl; tauto.
Qed.

Lemma apart_below a b k : apart a b -> ~ b `prefix_of` (a ++ k) /\ ~ (a ++ k) `prefix_of` b.
Proof.
  intros [Hab Hba]. split.
  - intros [l Hl]. apply app_eq_inv in Hl as [(k' & -> & _)|(k' & -> & _)].
    + apply Hba. by exists k'.
    + apply Hab. by exists k'.
  - intros [l ->]. apply Hab. exists (k ++ l). by rewrite app_assoc.
Qed.

Lemma prefix_app_or {A} (l a b : list A) :
  l `prefix_of` a ++ b -> l `prefix_of` a \/ exists l', l = a ++ l' /\ l' `prefix_of` b.
Proof.
  intros [k Hk]. symmetry in Hk. apply app_eq_inv in Hk as [(l' & -> & ->)|(l' & -> & ->)].
  - right. exists l'. split; [done|]. by exists k.
  - left. by exists l'.
Qed.

Section Build.
Context `{OS, Jinja}.
Context (f0 : fs) (root output templates : string).
Hypothesis (Hready : ready f0 root output templates).

#[local] Abbreviation R := (resolve root).
#[local] Abbreviation O := (resolve output).
#[local] Abbreviation T := (resolve templates).

(** The tree while [main] runs: the pages [ps] are there, and what is neither
    above nor below the output is as it was. *)
Record built (ps : list (path * option string)) (f : fs) : Prop := {
  built_wf : wf f;
  built_apart k : ~ O `prefix_of` k -> ~ k `prefix_of` O -> f !! k = f0 !! k;
  built_above l s : l `prefix_of` O -> f !! l <> Some (File s);
  built_pages k s : k <> [] -> f !! (O ++ k) = Some (File s) <-> (k, Some s) ∈ ps;
  built_dirs k : f !! (O ++ k) = Some Dir -> site_dir k;
  built_files k s : f !! (O ++ k) = Some (File s) -> ~ site_dir k;
}.

Lemma built_nil : built [] f0.
Proof.
  destruct Hready. split; try done.
  - intros k s Hk. rewrite ready_empty0 by done. split; [done|]. by intros ?%not_elem_of_nil.
  - intros [|n k]; [done|]. by rewrite ready_empty0.
  - intros [|n k] s Hk; [|by rewrite ready_empty0 in Hk].
    rewrite app_nil_r in Hk. by apply ready_above0 in Hk.
Qed.

Lemma built_outside ps f a k : apart a O -> built ps f -> f !! (a ++ k) = f0 !! (a ++ k).
Proof.
  intros Ha Hb. apply (built_apart ps); [done|..]; by apply (apart_below a O k).
Qed.

Lemma output_nonempty : O <> [].
Proof. intros HO. destruct Hready. destruct ready_root0 as [_ Hp]. rewrite HO in Hp. apply Hp, prefix_nil. Qed.

(** When the pages [base] are there, [m] returns [a] and adds the pages [ps']. *)
Definition adds {A} (base : list (path * option string)) (m : IO A) (a : A)
    (ps' : list (path * option string)) : Prop :=
  forall ps f, base ⊆ ps -> NoDup (ps ++ ps').*1 -> built ps f ->
  exists f', m f = (f', Ok a) /\ built (ps ++ ps') f'.

Lemma adds_bind {A B} (base : list (path * option string)) (m : IO A) (k : A -> IO B) a b ps qs :
  adds base m a ps -> adds (base ++ ps) (k a) b qs ->
  adds base (do! x := m in k x) b (ps ++ qs).
Proof.
  intros Hm Hk rs f Hbase Hnd Hb. rewrite app_assoc in Hnd |- *.
  destruct (Hm rs f) as (f1 & Hf1 & Hb1); [done| |done|].
  { rewrite fmap_app in Hnd. by apply NoDup_app in Hnd as [? _]. }
  destruct (Hk (rs ++ ps) f1) as (f2 & Hf2 & Hb2); [|done..|].
  { intros x. rewrite !elem_of_app. intros [Hx|Hx]; [left; by apply Hbase|by right]. }
  exists f2. unfold iobind. by rewrite Hf1.
Qed.

Lemma adds_ret {A} (base : list (path * option string)) (a : A) : adds base (ioret a) a [].
Proof. intros ps f _ _ Hb. exists f. by rewrite app_nil_r. Qed.

Lemma adds_read {A B : Type} (base : list (path * option string)) (m : fs -> result A) (k : A -> IO B) a b qs :
  (forall ps f, built ps f -> m f = Ok a) -> adds base (k a) b qs ->
  adds base (do! x := ioread m in k x) b qs.
Proof.
  intros Hm Hk ps f Hbase Hnd Hb. destruct (Hk ps f Hbase Hnd Hb) as (f' & Hf' & Hb').
  exists f'. unfold iobind, ioread. by rewrite (Hm ps f Hb).
Qed.

(** Making a directory of the site. *)
Lemma adds_makedirs d :
  site_dir d -> Forall (fun n => good_name n = true) d ->
  forall ps f, built ps f ->
  exists f', makedirs (O ++ d) f = (f', Ok tt) /\ built ps f' /\ is_dir_at f' (O ++ d).
Proof.
  intros Hd Hgood ps f Hb. destruct Hready.
  assert (forall l s, l `prefix_of` O ++ d -> f !! l <> Some (File s)) as Hfree.
  { intros l s Hl Hs. destruct (prefix_app_or l O d Hl) as [Hl'|(l' & -> & Hl')].
    - by apply (built_above ps f Hb l s) in Hl'.
    - apply (built_files ps f Hb) in Hs. apply Hs. by eapply site_dir_prefix. }
  destruct (makedirs_wf f (O ++ d)) as (f' & Hrun & Hwf & Hin & Hout).
  { by apply (built_wf ps). } { by apply Forall_app. } { done. }
  exists f'. split; [done|]. split; [split|].
  - done.
  - intros k HO Hk. rewrite Hout; [by apply (built_apart ps f Hb)|].
    intros Hpre. destruct (prefix_app_or k O d Hpre) as [Hl'|(l' & -> & Hl')]; [done|].
    destruct HO. by exists l'.
  - intros l s Hl Hs. destruct l as [|x l].
    + rewrite Hout in Hs by done. by apply (built_above ps f Hb [] s) in Hs.
    + rewrite Hin in Hs; [done| |done]. by apply prefix_app_r.
  - intros k s Hk. rewrite <- (built_pages ps f Hb) by done.
    destruct (decide ((O ++ k) `prefix_of` (O ++ d))) as [Hp|Hp].
    + rewrite Hin; [|done|by intros [_ ->]%app_nil].
      split; [done|]. intros Hs. by apply Hfree in Hs.
    + rewrite Hout; done.
  - intros k Hk. destruct (decide ((O ++ k) `prefix_of` (O ++ d))) as [Hp|Hp].
    + apply prefix_app_inv in Hp. by eapply site_dir_prefix.
    + rewrite Hout in Hk by done. by apply (built_dirs ps f Hb).
  - intros k s Hk. destruct (decide ((O ++ k) `prefix_of` (O ++ d))) as [Hp|Hp].
    + apply prefix_app_inv in Hp. exfalso. destruct (decide (O ++ k = [])) as [He|He].
      { apply app_nil in He as [He _]. by apply output_nonempty. }
      rewrite Hin in Hk; [done|by apply prefix_app|done].
    + rewrite Hout in Hk by done. by apply (built_files ps f Hb k s).
  - right. apply Hin; [done|]. intros [He _]%app_nil. by apply output_nonempty.
Qed.

(** Writing a page of the site. *)
Lemma built_insert ps f d n s :
  built ps f -> is_dir_at f (O ++ d) -> good_name n = true -> ~ site_dir (d ++ [n]) ->
  (d ++ [n]) ∉ ps.*1 ->
  built (ps ++ [(d ++ [n], Some s)]) (<[(O ++ d) ++ [n] := File s]> f).
Proof.
  intros Hb Hd Hn Hsite Hnew. rewrite <- app_assoc.
  assert (f !! (O ++ d ++ [n]) <> Some Dir) as Hnodir by (by intros ?%(built_dirs ps f Hb)).
  split.
  - rewrite app_assoc. apply wf_insert; [by apply (built_wf ps)|done..|].
    right. by rewrite <- app_assoc.
  - intros k HO Hk. rewrite lookup_insert_ne; [by apply (built_apart ps f Hb)|].
    intros <-. apply HO. by exists (d ++ [n]).
  - intros l t Hl. rewrite lookup_insert_ne; [by apply (built_above ps f Hb)|].
    intros <-. apply prefix_length in Hl. rewrite !length_app in Hl. simpl in Hl. lia.
  - intros k t Hk. rewrite elem_of_app, list_elem_of_singleton.
    destruct (decide (k = d ++ [n])) as [->|Hne].
    + rewrite lookup_insert, decide_True by done. split.
      * intros [= ->]. by right.
      * intros [Hin|[= ->]]; [|done]. destruct Hnew. by apply (list_elem_of_fmap_2 fst) in Hin.
    + rewrite lookup_insert_ne by (intros He%app_inv_head; congruence).
      rewrite (built_pages ps f Hb) by done. split; [by left|]. intros [Hin|[= -> _]]; done.
  - intros k. destruct (decide (k = d ++ [n])) as [->|Hne].
    + by rewrite lookup_insert, decide_True.
    + rewrite lookup_insert_ne by (intros He%app_inv_head; congruence). apply (built_dirs ps f Hb).
  - intros k t. destruct (decide (k = d ++ [n])) as [->|Hne]; [done|].
    rewrite lookup_insert_ne by (intros He%app_inv_head; congruence). apply (built_files ps f Hb).
Qed.

(** Writing to a new file of the site. *)
Lemma built_write ps f d n s :
  built ps f -> is_dir_at f (O ++ d) -> ~ site_dir (d ++ [n]) ->
  write_text ((O ++ d) ++ [n]) s f = (<[(O ++ d) ++ [n] := File s]> f, Ok tt).
Proof.
  intros Hb Hd Hsite. apply write_text_wf; [by apply (built_wf ps)|done|].
  rewrite <- app_assoc. by intros ?%(built_dirs ps f Hb).
Qed.

Lemma dir_of_site ps f d : built ps f -> is_dir_at f (O ++ d) -> site_dir d.
Proof.
  intros Hb [He|Hd]; [|by apply (built_dirs ps f Hb)].
  apply app_nil in He as [_ ->]. done.
Qed.

(** A template is rendered from the text it had before the run. *)
Lemma render_page ps f src dst d n name ctx s :
  built ps f -> is_dir_at f (O ++ d) -> good_name n = true -> ~ site_dir (d ++ [n]) ->
  (d ++ [n]) ∉ ps.*1 -> resolve src = T ++ [name] -> resolve dst = (O ++ d) ++ [n] ->
  page f0 T name ctx = Some s ->
  exists f', render_template src dst ctx f = (f', Ok tt) /\
    built (ps ++ [(d ++ [n], Some s)]) f'.
Proof.
  intros Hb Hd Hn Hsite Hnew Hsrc Hdst Hpage. pose proof (built_wf ps f Hb) as Hwf.
  exists (<[(O ++ d) ++ [n] := File s]> f). split; [|by apply built_insert].
  unfold page in Hpage. rewrite <- (built_outside ps f T [name]) in Hpage by (done || apply Hready).
  destruct (f !! (T ++ [name])) as [[|text]|] eqn:Etext; try done.
  destruct (parse (universal_newlines text)) as [tpl|] eqn:Etpl; [|done].
  destruct (render tpl ctx) as [s'|] eqn:Es; [|done]. injection Hpage as ->.
  unfold render_template, iobind, ioread. rewrite Hsrc, Hdst.
  rewrite (read_text_wf f _ text) by (done || by destruct T). rewrite Etpl.
  rewrite (built_write ps f) by done. rewrite Es.
  rewrite write_text_wf; [by rewrite insert_insert, decide_True|..].
  - apply wf_insert; [done..|]. right. rewrite <- app_assoc. by intros ?%(built_dirs ps f Hb).
  - destruct Hd as [Hd|Hd]; [by left|right]. rewrite lookup_insert_ne; [done|].
    intros He%(f_equal length). rewrite length_app in He. simpl in He. lia.
  - by rewrite lookup_insert, decide_True.
Qed.

(** A page made with its directory. *)
Lemma adds_page (base : list (path * option string)) src out sub n name ctx s :
  site_dir sub -> Forall (fun n => good_name n = true) sub -> good_name n = true ->
  ~ site_dir (sub ++ [n]) -> resolve out = O ++ sub -> resolve src = T ++ [name] ->
  page f0 T name ctx = Some s ->
  adds base (do! _ := makedirs (resolve out) in render_template src (join2 out n) ctx) tt
    [(sub ++ [n], Some s)].
Proof.
  intros Hsub Hgood Hn Hsite Hout Hsrc Hpage ps f _ Hnd Hb.
  destruct (adds_makedirs sub Hsub Hgood ps f Hb) as (f1 & Hmk & Hb1 & Hd).
  destruct (render_page ps f1 src (join2 out n) sub n name ctx s) as (f2 & Hr & Hb2); try done.
  - rewrite fmap_app in Hnd. apply NoDup_app in Hnd as (_ & Hnew & _).
    intros Hin. apply (Hnew _ Hin). left.
  - by rewrite resolve_join2, Hout.
  - exists f2. split; [|done]. unfold iobind. by rewrite Hout, Hmk.
Qed.

Lemma root_agrees ps f k : built ps f -> f !! (R ++ k) = f0 !! (R ++ k).
Proof. apply built_outside, Hready. Qed.

(** The two pages of a branch. *)
Lemma adds_branch (base : list (path * option string)) branch sub :
  site_dir sub -> (forall n, ~ site_dir (sub ++ [n])) ->
  Forall (fun n => good_name n = true) sub ->
  Forall (fun p => is_Some p.2) (branch_pages f0 root T branch sub) ->
  adds base (make_branch branch sub root output templates) tt (branch_pages f0 root T branch sub).
Proof.
  intros Hsub Hleaf Hgood Hpages. apply Forall_cons in Hpages as [[s1 Hs1] Hpages].
  apply Forall_cons in Hpages as [[s2 Hs2] _]. simpl in Hs1, Hs2.
  assert (resolve (path_join output sub) = O ++ sub) as Hout by (by apply resolve_join).
  unfold branch_pages, make_branch. rewrite Hs1, Hs2.
  apply (adds_bind _ _ _ tt tt [_] [_]);
    (eapply adds_read; [|eapply adds_page; [..|eassumption]; eauto using resolve_join2]).
  all: intros ps f Hb; simpl; f_equal.
  - apply coverage_params_agree; [by apply (built_wf ps)|apply Hready| |done].
    intros k. by apply (root_agrees ps).
  - apply verification_params_agree; [by apply (built_wf ps)|apply Hready| |done].
    intros k. by apply (root_agrees ps).
Qed.

Definition dev_branch (b : string) : Prop := isdir f0 (R ++ ["dev"; b]) = true.

(** The loop over the branches under development. *)
Lemma adds_dev (base : list (path * option string)) files bs :
  Forall (fun n => good_name n = true) files ->
  Forall (fun p => is_Some p.2)
    (concat (map (fun b => branch_pages f0 root T b ["dev"; b]) (filter dev_branch files))) ->
  adds base (make_dev_branches files bs root output templates)
    (bs ++ filter dev_branch files)
    (concat (map (fun b => branch_pages f0 root T b ["dev"; b]) (filter dev_branch files))).
Proof.
  intros Hgood. revert base bs. induction Hgood as [|n files Hn _ IH]; intros base bs Hpages.
  { rewrite app_nil_r. apply adds_ret. }
  cbn [make_dev_branches]. apply adds_read with (a := bool_decide (dev_branch n)).
  { intros ps f Hb. rewrite !resolve_join2, <- app_assoc by done. f_equal.
    rewrite (isdir_agree f f0); [|by apply (built_wf ps)|apply Hready|by apply (root_agrees ps)].
    unfold dev_branch. simpl. by destruct (isdir f0 _). }
  rewrite filter_cons in Hpages |- *. case_decide as Hd.
  - rewrite bool_decide_eq_true_2 by done. cbn [negb].
    cbn [map concat] in Hpages |- *. apply Forall_app in Hpages as [Hp1 Hp2].
    eapply adds_bind; [apply adds_branch; [done|by intros ? ?|by repeat constructor|done]|].
    replace (bs ++ n :: filter dev_branch files) with ((bs ++ [n]) ++ filter dev_branch files)
      by (by rewrite <- app_assoc).
    by apply IH.
  - rewrite bool_decide_eq_false_2 by done. by apply IH.
Qed.

(** A page below the output shows that the output is a directory. *)
Lemma output_is_dir (base ps : list (path * option string)) f k s :
  k <> [] -> (k, Some s) ∈ base -> base ⊆ ps -> built ps f -> is_dir_at f (O ++ []).
Proof.
  intros Hk Hin Hsub Hb. rewrite app_nil_r. apply (wf_above f O k); [by apply (built_wf ps)|..|done].
  exists (File s). by apply (built_pages ps f Hb), Hsub.
Qed.

(** The page of the branches, when another one was made before. *)
Lemma adds_dev_index (base : list (path * option string)) bs k s0 s :
  k <> [] -> (k, Some s0) ∈ base -> page f0 T "dev.md" (DevCtx bs) = Some s ->
  adds base (make_dev_index bs output templates) tt [(["dev.md"], Some s)].
Proof.
  intros Hk Hin Hpage ps f Hsub Hnd Hb.
  apply (render_page ps f _ _ [] "dev.md" "dev.md"); try done.
  - by apply (output_is_dir base ps f k s0).
  - simpl. by intros [?|?].
  - rewrite fmap_app in Hnd. apply NoDup_app in Hnd as (_ & Hnew & _).
    intros Hd. apply (Hnew _ Hd). left.
  - by apply resolve_join2.
  - rewrite app_nil_r. by apply resolve_join2.
Qed.

Lemma adds_copy (base : list (path * option string)) file k s0 s :
  k <> [] -> (k, Some s0) ∈ base -> good_name file = true -> ~ site_dir [file] ->
  plain f0 T file = Some s ->
  adds base (copy_other output templates file) tt [([file], Some s)].
Proof.
  intros Hk Hin Hn Hsite Hpage ps f Hsub Hnd Hb.
  assert (is_dir_at f (O ++ [])) as Hd by (by apply (output_is_dir base ps f k s0)).
  pose proof (built_wf ps f Hb) as Hwf.
  exists (<[(O ++ []) ++ [file] := File s]> f). split.
  - unfold copy_other, copy. rewrite !resolve_join2 by done.
    destruct (isdir f (O ++ [file])) eqn:Hdir.
    { apply isdir_wf in Hdir as [He|He]; [|by apply (built_dirs ps f Hb) in He|done].
      by apply app_nil in He as [_ ?]. }
    rewrite bool_decide_eq_false_2; simpl.
    + unfold plain in Hpage. rewrite <- (built_outside ps f T [file]) in Hpage by (done || apply Hready).
      destruct (f !! (T ++ [file])) as [[|text]|] eqn:Etext; try done. injection Hpage as ->.
      unfold iobind. rewrite (read_bytes_wf f _ s) by (done || by destruct T).
      rewrite <- (app_nil_r O) at 1. by rewrite (built_write ps f) by done.
    + intros [He _]%app_inj_tail. destruct Hready. destruct ready_templates0 as [Ht _].
      apply Ht. by rewrite He.
  - apply (built_insert ps f []); try done.
    rewrite fmap_app in Hnd. apply NoDup_app in Hnd as (_ & Hnew & _).
    intros Hd'. apply (Hnew _ Hd'). left.
Qed.
End Build.

(** ** The keys of the pages are distinct *)

(** A key is not in a list of other keys. *)
Ltac not_listed :=
  try intros ?; simpl in *;
  repeat match goal with
  | H : _ ∈ _ :: _ |- _ => apply elem_of_cons in H as [[=]|H]
  end;
  match goal with H : _ ∈ [] |- _ => by apply not_elem_of_nil in H end.

Lemma branch_keys `{OS, Jinja} f root t l :
  NoDup l -> NoDup (concat (map (fun b => branch_pages f root t b ["dev"; b]) l)).*1 /\
  forall k, k ∈ (concat (map (fun b => branch_pages f root t b ["dev"; b]) l)).*1 ->
    exists b n, b ∈ l /\ k = ["dev"; b; n].
Proof.
  induction 1 as [|b l Hb _ [IH1 IH2]]; [split; [constructor|by intros k ?%not_elem_of_nil]|].
  simpl. split.
  - apply NoDup_cons. split; [|apply NoDup_cons; split; [|done]].
    + intros [Hk|Hk]%elem_of_cons; [done|].
      apply IH2 in Hk as (b' & n & Hb' & [= <- <-]). done.
    + intros Hk. apply IH2 in Hk as (b' & n & Hb' & [= <- <-]). done.
  - intros k [->|[->|Hk]%elem_of_cons]%elem_of_cons; [by eexists b, _; split; [left|]..|].
    apply IH2 in Hk as (b' & n & Hb' & ->). exists b', n. split; [by right|done].
Qed.

Lemma branches_nodup `{OS} f root : NoDup (branches f root).
Proof.
  apply NoDup_filter. destruct (isdir f _); [|constructor].
  unfold listdir. rewrite scan_order_perm. apply names_nodup.
Qed.

Lemma site_keys_nodup `{OS, Jinja} f root t : NoDup (site f root t).*1.
Proof.
  unfold site. destruct (branch_keys f root t _ (branches_nodup f root)) as [Hnd Hin].
  rewrite !fmap_app. apply NoDup_app. split; [|split].
  - simpl. repeat (constructor; [by not_listed|]). constructor.
  - intros k Hk. rewrite !elem_of_app. intros [(b & n & _ & ->)%Hin|[Hk'|Hk']].
    1: by not_listed.
    all: repeat (apply elem_of_cons in Hk as [->|Hk]); [..|by apply not_elem_of_nil in Hk].
    all: by not_listed.
  - apply NoDup_app. split; [done|]. split.
    + intros k (b & n & _ & ->)%Hin. by not_listed.
    + simpl. repeat (constructor; [by not_listed|]). constructor.
Qed.

(** ** [main] *)

Section Main.
Context `{OS, Jinja}.
Context (f0 : fs) (root output templates : string).
Hypothesis (Hready : ready f0 root output templates).

Lemma adds_iofor_copy base l k s0 :
  k <> [] -> (k, Some s0) ∈ base ->
  Forall (fun file => good_name file = true /\ ~ site_dir [file]) l ->
  Forall (fun p => is_Some p.2) (map (fun file => ([file] : path, plain f0 (resolve templates) file)) l) ->
  adds f0 output base (iofor (copy_other output templates) l) tt
    (map (fun file => ([file], plain f0 (resolve templates) file)) l).
Proof.
  intros Hk. revert base. induction l as [|file l IH]; intros base Hin Hl Hp; [by apply adds_ret|].
  apply Forall_cons in Hl as [[Hn Hs] Hl]. apply Forall_cons in Hp as [[s Hps] Hp]. simpl in Hps.
  cbn [iofor map]. rewrite Hps. apply (adds_bind f0 output base _ _ tt tt [_]).
  - by eapply adds_copy.
  - apply IH; [|done..]. rewrite elem_of_app. by left.
Qed.

Lemma dev_listing ps f :
  built f0 output ps f ->
  (if isdir f (resolve (join2 root "dev")) then listdir f (resolve (join2 root "dev")) else [])
  = (if isdir f0 (resolve root ++ ["dev"]) then listdir f0 (resolve root ++ ["dev"]) else []).
Proof.
  intros Hb. rewrite !resolve_join2 by done. unfold listdir.
  rewrite (isdir_below f f0 root), (names_below f f0 root); try done.
  - intros k. by apply (root_agrees f0 root output templates Hready ps).
  - by apply (built_wf f0 output ps).
  - apply Hready.
  - intros k. by apply (root_agrees f0 root output templates Hready ps).
Qed.

Lemma adds_main :
  Forall (fun p => is_Some p.2) (site f0 root (resolve templates)) ->
  adds f0 output [] (main (Some root) output templates) tt (site f0 root (resolve templates)).
Proof.
  intros Hsome. unfold site in *. rewrite !Forall_app in Hsome.
  destruct Hsome as (Hmain & Hdev & Hindex & Hother).
  unfold main. rewrite (proj2 (String.eqb_neq _ _)) by apply Hready.
  assert (exists s, (["main"; "coverage_dashboard.md"], Some s)
    ∈ branch_pages f0 root (resolve templates) "main" ["main"]) as [s0 Hs0].
  { apply Forall_cons in Hmain as [[s Hs] _]. exists s. rewrite <- Hs. left. }
  eapply adds_bind.
  { eapply adds_branch; [done|by left| |by repeat constructor|done].
    intros n. simpl. by intros [=]. }
  eapply adds_read; [intros ps f Hb; by rewrite (dev_listing ps f Hb)|].
  eapply adds_bind; [eapply (adds_dev f0 root output templates Hready _ _ []); [|done]|].
  { apply Forall_forall. intros n Hn. destruct (isdir f0 _); [|by apply not_elem_of_nil in Hn].
    unfold listdir in Hn. rewrite scan_order_perm in Hn. by eapply names_good, Hn; apply Hready. }
  rewrite Forall_singleton in Hindex. destruct Hindex as [s Hs]. simpl in Hs. rewrite Hs.
  eapply adds_bind.
  - apply (adds_dev_index f0 root output templates Hready _ _ ["main"; "coverage_dashboard.md"] s0);
      [done| |exact Hs]. rewrite !elem_of_app. by left; right.
  - apply (adds_iofor_copy _ _ ["main"; "coverage_dashboard.md"] s0); [done| | |done].
    2: { repeat constructor; try done; by intros [|]. }
    rewrite !elem_of_app. by left; left; right.
Qed.
End Main.

(** C22: the script that makes the index of the dashboards writes exactly its
    site: run on a new or empty output away from the reports and the templates,
    when every template renders, it returns; the files below the output are then
    the two pages of the main branch, two pages for each directory of
    [root/dev], the list of these branches and the three copied files, each with
    the content rendered from the tree before the run; and nothing changes
    outside the output and the directories above it. *)
Theorem index_pages_written `{OS, Jinja} f root output templates :
  ready f root output templates ->
  Forall (fun p => is_Some p.2) (site f root (resolve templates)) ->
  exists f', main (Some root) output templates f = (f', Ok tt) /\
    (forall k s, k <> [] -> f' !! (resolve output ++ k) = Some (File s) <->
      (k, Some s) ∈ site f root (resolve templates)) /\
    (forall k, ~ resolve output `prefix_of` k -> ~ k `prefix_of` resolve output ->
      f' !! k = f !! k).
Proof.
  intros Hready Hsome.
  destruct (adds_main f root output templates Hready Hsome [] f) as (f' & Hrun & Hb); [done|..].
  - apply site_keys_nodup.
  - by eapply built_nil.
  - exists f'. split; [done|]. split; [apply Hb|apply Hb].
Qed.

(** ** A run *)

(** Directories are listed backwards; a page is its template with the
    parameters written after it. *)
#[local] Instance demo_os : OS := {
  cwd := [];
  scan_order _ l := rev l;
  scan_order_perm _ l := symmetry (Permutation_rev l);
}.

Definition demo_context (ctx : context) : string :=
  match ctx with
  | CoverageCtx ref _ ind => ref +:+ PyString.join "," (map fst (concat (map snd ind)))
  | VerificationCtx ref tests => ref +:+ PyString.join "," (sorted (elements tests))
  | DevCtx bs => PyString.join "," bs
  end.

#[local] Instance demo_jinja : Jinja := {
  template := string;
  parse s := Ok s;
  render t ctx := Ok (t +:+ demo_context ctx);
}.

Definition demo_tree : fs := list_to_map (
  map (fun n => (["tpl"; n], File (n +:+ ":")))
    ["coverage_dashboard.md"; "verification_dashboard.md"; "dev.md"; "conf.py"; "main.md"; "index.md"]
  ++ map (fun k => (k, Dir))
    [["tpl"]; ["html"]; ["html"; "dev"]; ["html"; "dev"; "pr1"]; ["html"; "dev"; "pr2"];
     ["html"; "dev"; "pr1"; "coverage_dashboard"];
     ["html"; "dev"; "pr1"; "coverage_dashboard"; "all_uart"];
     ["html"; "dev"; "pr1"; "coverage_dashboard"; "branch_alu"]]).

Lemma demo_ready : ready demo_tree "html" "source" "tpl".
Proof.
  assert (wf demo_tree) as Hwf by (apply wf_check_ok; vm_compute; reflexivity).
  assert (demo_tree !! ["source"] = None) as Hnew by (vm_compute; reflexivity).
  assert (resolve "source" = ["source"]) as Hout by (vm_compute; reflexivity).
  assert (resolve "html" = ["html"]) as Hroot by (vm_compute; reflexivity).
  assert (resolve "tpl" = ["tpl"]) as Htpl by (vm_compute; reflexivity).
  split; unfold apart; rewrite ?Hout, ?Hroot, ?Htpl.
  - done.
  - by split; intros [? [=]].
  - by split; intros [? [=]].
  - by repeat constructor.
  - intros l s [k Hk]. destruct l as [|a l]; [by vm_compute|].
    injection Hk as <- Hk. symmetry in Hk. apply app_nil in Hk as [-> _]. by rewrite Hnew.
  - intros k Hk. destruct (demo_tree !! (["source"] ++ k)) eqn:E; [exfalso|done].
    destruct (wf_above demo_tree ["source"] k) as [?|?]; [done|by rewrite E|done|done|congruence].
  - vm_compute. discriminate.
Qed.

Example demo_site : site demo_tree "html" (resolve "tpl") =
  [(["main"; "coverage_dashboard.md"], Some "coverage_dashboard.md:main_coverage_dashboard");
   (["main"; "verification_dashboard.md"], Some "verification_dashboard.md:main_verification_dashboard");
   (["dev"; "pr2"; "coverage_dashboard.md"], Some "coverage_dashboard.md:pr2_coverage_dashboard");
   (["dev"; "pr2"; "verification_dashboard.md"], Some "verification_dashboard.md:pr2_verification_dashboard");
   (["dev"; "pr1"; "coverage_dashboard.md"], Some "coverage_dashboard.md:pr1_coverage_dashboarduart,alu");
   (["dev"; "pr1"; "verification_dashboard.md"], Some "verification_dashboard.md:pr1_verification_dashboard");
   (["dev.md"], Some "dev.md:pr2,pr1"); (["conf.py"], Some "conf.py:");
   (["main.md"], Some "main.md:"); (["index.md"], Some "index.md:")].
Proof. vm_compute. reflexivity. Qed.

Lemma index_pages_written_witness :
  exists f', main (Some "html") "source" "tpl" demo_tree = (f', Ok tt) /\
    f' !! ["source"; "dev.md"] = Some (File "dev.md:pr2,pr1") /\
    f' !! ["source"; "dev"; "pr1"; "coverage_dashboard.md"]
      = Some (File "coverage_dashboard.md:pr1_coverage_dashboarduart,alu").
Proof.
  destruct (index_pages_written demo_tree "html" "source" "tpl" demo_ready) as (f' & Hrun & Hsite & _).
  - rewrite demo_site. by repeat constructor.
  - exists f'. split; [exact Hrun|]. rewrite demo_site in Hsite.
    assert (resolve "source" = ["source"]) as Hout by (vm_compute; reflexivity).
    rewrite Hout in Hsite.
    split.
    + refine (proj2 (Hsite ["dev.md"] _ _) _); [discriminate|do 6 right; left].
    + refine (proj2 (Hsite ["dev"; "pr1"; "coverage_dashboard.md"] _ _) _);
        [discriminate|do 4 right; left].
Defined.

(** The report lists of the coverage dashboard are exact: under a key stand
    the directories whose names are the key, an underscore and the name of the
    test, each once, in alphabetical order, and no directory stands under two
    keys. *)
Theorem coverage_reports_exact `{OS} f path key :
  wf f -> key ∈ keys ->
  (forall t file, (t, file) ∈ collect_individual f path key <->
     file = key +:+ "_" +:+ t /\ good_name file = true /\ isdir f (resolve path ++ [file]) = true) /\
  NoDup (collect_individual f path key).*1 /\
  Sorted str_le (collect_individual f path key).*2 /\
  (forall key' t t' file, key' ∈ keys -> (t, file) ∈ collect_individual f path key ->
     (t', file) ∈ collect_individual f path key' -> key' = key).
Proof.
  intros Hwf Hkey.
  assert (forall key t file, (t, file) ∈ collect_individual f path key <->
     file = key +:+ "_" +:+ t /\ good_name file = true /\ isdir f (resolve path ++ [file]) = true)
    as Hin.
  { intros k t file. rewrite collect_individual_eq by done. rewrite list_elem_of_omap. split.
    - intros (n & Hn & (-> & Hf & Hd)%report_spec). by eauto using names_good.
    - intros (Hf & Hg & Hd). exists file. split; [|by apply report_spec].
      apply elem_of_names. apply isdir_wf in Hd as [[_ ?]%app_nil|Hd]; [done|by rewrite Hd|done]. }
  split; [done|]. split; [|split].
  - rewrite collect_individual_eq by done. apply report_keys_nodup, names_nodup.
  - rewrite collect_individual_eq by done. apply report_files_sorted, names_sorted.
  - intros key' t t' file Hkey' (-> & _)%Hin (He & _)%Hin. unfold keys in *.
    by repeat (apply elem_of_cons in Hkey as [->|Hkey] || apply elem_of_cons in Hkey' as [->|Hkey']);
      try (by apply not_elem_of_nil in Hkey); try (by apply not_elem_of_nil in Hkey').
Qed.

Lemma coverage_reports_exact_witness :
  NoDup (collect_individual demo_tree "html/dev/pr1/coverage_dashboard" "branch").*1 /\
  collect_individual demo_tree "html/dev/pr1/coverage_dashboard" "branch" = [("alu", "branch_alu")].
Proof.
  destruct (coverage_reports_exact demo_tree "html/dev/pr1/coverage_dashboard" "branch") as (_ & H & _).
  - apply demo_ready.
  - by right; left.
  - split; [exact H|]. vm_compute. reflexivity.
Defined.
