(* ===== verification/Riscof.v ===== *)
(** * The plugins of the RISCOF framework:
    tools/riscof/veer/riscof_veer.py and tools/riscof/spike/riscof_spike.py

    RISCOF runs the architectural tests on the core (veer) and on the reference
    simulator (spike) and compares their signatures.  A plugin is an object whose
    attributes are set by [__init__], [initialise] and [build]; [runTests] turns
    them and the list of tests into the targets of a makefile.  An attribute that
    was not set yet raises, as in Python.

    Of the framework, the makefile utility is the record of the calls made to it,
    and reading a YAML file is an argument.  [riscof_targets] gives the text of
    every target: both plugins call the same compiler with the same options on a
    test, each with the linker script and the headers of its own directory. *)

From S2P Require Import Prelude PyString FileSystem.
From stdpp Require Import base gmap list strings.
From Stdlib Require Import ZArith Ascii Lia.

#[local] Open Scope string_scope.
#[local] Open Scope list_scope.

(** ** [str.format] *)

(** How the fields met so far were numbered. *)
Inductive numbering := Unset | Auto (next : nat) | Manual.

(** Where in the format string the scan is: in literal text, behind a closing
    brace, or in a field, behind the given characters of its name. *)
Inductive fstate := Text | Closing | Field (name : string).

Definition is_digit (c : ascii) : bool :=
  ((48 <=? N_of_ascii c) && (N_of_ascii c <=? 57))%N.

Fixpoint number (acc : nat) (s : string) : nat :=
  match s with
  | EmptyString => acc
  | String c s => number (10 * acc + (N.to_nat (N_of_ascii c) - 48)) s
  end.

Definition get_arg (args : list string) (n : nat) : result string :=
  match args !! n with Some v => Ok v | None => Raise IndexError end.

(** The value of a field, with the numbering after it.  Positions are the only
    names that positional arguments have. *)
Definition field (args : list string) (num : numbering) (name : string) :
    result (string * numbering) :=
  match name with
  | EmptyString =>
      match num with
      | Manual => Raise ValueError
      | Unset => let! v := get_arg args 0 in Ok (v, Auto 1)
      | Auto n => let! v := get_arg args n in Ok (v, Auto (S n))
      end
  | _ =>
      if forallb is_digit (String.list_ascii_of_string name) then
        match num with
        | Auto _ => Raise ValueError
        | _ => let! v := get_arg args (number 0 name) in Ok (v, Manual)
        end
      else Raise KeyError
  end.

Fixpoint format_from (args : list string) (st : fstate) (num : numbering) (s : string) :
    result string :=
  match s with
  | EmptyString => match st with Text => Ok EmptyString | _ => Raise ValueError end
  | String c s =>
      match st with
      | Text =>
          if Ascii.eqb c "{" then format_from args (Field EmptyString) num s
          else if Ascii.eqb c "}" then format_from args Closing num s
          else let! r := format_from args Text num s in Ok (String c r)
      | Closing =>
          if Ascii.eqb c "}"
          then let! r := format_from args Text num s in Ok (String c r)
          else Raise ValueError
      | Field name =>
          if Ascii.eqb c "{" then
            if String.eqb name EmptyString
            then let! r := format_from args Text num s in Ok (String c r)
            else Raise ValueError
          else if Ascii.eqb c "}" then
            let! (v, num) := field args num name in
            let! r := format_from args Text num s in Ok (v +:+ r)
          else format_from args (Field (name +:+ String c EmptyString)) num s
      end
  end.

(** [s.format(...)] *)
Definition format (s : string) (args : list string) : result string :=
  format_from args Text Unset s.

Example format_example : format "{1}-{0}{{x}}" ["a"; "b"] = Ok "b-a{x}".
Proof. reflexivity. Qed.

Example format_errors :
  format "{2}" ["a"] = Raise IndexError /\ format "{" [] = Raise ValueError /\
  format "{}{0}" ["a"] = Raise ValueError /\ format "{x}" ["a"] = Raise KeyError.
Proof. repeat split. Qed.

(** ** What the plugins are given *)

(** The section of the plugin in config.ini. *)
Abbreviation ini := (gmap string string).

(** The two sections of config.ini. *)
Definition veer_section : ini :=
  list_to_map [("pluginpath", "veer"); ("ispec", "veer/veer_isa.yaml");
               ("pspec", "veer/veer_platform.yaml"); ("sim_binary", "obj_dir/Vtb_top");
               ("target_run", "1"); ("jobs", "4")].

Definition spike_section : ini :=
  list_to_map [("pluginpath", "spike"); ("ispec", "spike/spike_isa.yaml");
               ("pspec", "spike/spike_platform.yaml"); ("target_run", "1"); ("jobs", "4")].

Definition get_item (config : ini) (key : string) : result string :=
  match config !! key with Some v => Ok v | None => Raise KeyError end.

(** An entry of the list of tests. *)
Record testentry := mkTest {
  test_path : string; test_dir : string; macros : list string; test_isa : string }.

(** The node [hart0] of the ISA file. *)
Record hart := mkHart { supported_xlen : list Z; ISA : string }.

(** The calls made to [utils.makeUtil], and what happened to an old makefile. *)
Record make := mkMake {
  makefile : string; removed : bool; make_command : string; targets : list string;
  executed : option (string * Z) }.

Definition attr {A} (a : option A) : result A :=
  match a with Some v => Ok v | None => Raise AttributeError end.

(** [for testname in testList]: one target for each test, in order. *)
Fixpoint map_tests (target : testentry -> result string) (tests : list testentry) :
    result (list string) :=
  match tests with
  | [] => Ok []
  | t :: ts => let! x := target t in let! xs := map_tests target ts in Ok (x :: xs)
  end.

(** [if "I" in ispec["ISA"]: self.isa += 'i'], for each of the extensions. *)
Definition add_ext (ispec : hart) (isa c ext : string) : string :=
  if contains c (ISA ispec) then isa +:+ ext else isa.

(** ** The plugin of the core *)

Record veer := mkVeer {
  v_num_jobs : string; v_pluginpath : string; v_isa_spec : string; v_platform_spec : string;
  v_target_run : bool; v_sim_binary : string;
  v_work_dir : option string; v_suite_dir : option string;
  v_compile_cmd : option string; v_convert_cmd : option string; v_symbols_cmd : option string;
  v_xlen : option string; v_isa : option string }.

Definition veer_init `{OS} (config : option ini) : result veer :=
  match config with
  | None => Raise (SystemExit 1)
  | Some config =>
      let num_jobs := default "1" (config !! "jobs") in
      let! pluginpath := get_item config "pluginpath" in
      let! ispec := get_item config "ispec" in
      let! pspec := get_item config "pspec" in
      let target_run := negb (bool_decide (config !! "target_run" = Some "0")) in
      let! sim_binary := get_item config "sim_binary" in
      Ok (mkVeer num_jobs (abspath pluginpath) (abspath ispec) (abspath pspec) target_run
            (abspath sim_binary) None None None None None None None)
  end.

Definition veer_initialise (self : veer) (suite work_dir archtest_env : string) : veer :=
  mkVeer (v_num_jobs self) (v_pluginpath self) (v_isa_spec self) (v_platform_spec self)
    (v_target_run self) (v_sim_binary self) (Some work_dir) (Some suite)
    (Some ("riscv64-unknown-elf-gcc -march={0}          -static -mcmodel=medany -fvisibility=hidden -nostdlib -nostartfiles -g         -T "
      +:+ v_pluginpath self +:+ "/env/link.ld         -I " +:+ v_pluginpath self
      +:+ "/env/         -I " +:+ archtest_env +:+ " {2} -o {3} {4}"))
    (Some "riscv64-unknown-elf-objcopy -O verilog {3} program.hex")
    (Some "riscv64-unknown-elf-nm -B -n {3} > program.sym")
    (v_xlen self) (v_isa self).

Definition veer_build (self : veer) (ispec : hart) : result veer :=
  let xlen := if bool_decide (64%Z ∈ supported_xlen ispec) then "64" else "32" in
  let isa := "rv" +:+ xlen in
  let isa := add_ext ispec isa "I" "i" in
  let isa := add_ext ispec isa "M" "m" in
  let isa := add_ext ispec isa "F" "f" in
  let isa := add_ext ispec isa "D" "d" in
  let isa := add_ext ispec isa "C" "c" in
  let! compile_cmd := attr (v_compile_cmd self) in
  let compile_cmd := compile_cmd +:+ " -mabi=" +:+
    (if bool_decide (64%Z ∈ supported_xlen ispec) then "lp64 " else "ilp32 ") in
  Ok (mkVeer (v_num_jobs self) (v_pluginpath self) (v_isa_spec self) (v_platform_spec self)
        (v_target_run self) (v_sim_binary self) (v_work_dir self) (v_suite_dir self)
        (Some compile_cmd) (v_convert_cmd self) (v_symbols_cmd self) (Some xlen) (Some isa)).

(** The body of the loop over the tests: the text of the target. *)
Definition veer_target (self : veer) (t : testentry) : result string :=
  let test := test_path t in
  let elf := "my.elf" in
  let compile_macros := " -D" +:+ PyString.join " -D" (macros t) in
  let isa := lower (test_isa t) in
  let isa := if negb (contains "zicsr" isa) then isa +:+ "_zicsr" else isa in
  let! compile_cmd := attr (v_compile_cmd self) in
  let! xlen := attr (v_xlen self) in
  let! c1 := format compile_cmd [isa; xlen; test; elf; compile_macros] in
  let! convert_cmd := attr (v_convert_cmd self) in
  let! c2 := format convert_cmd [isa; xlen; test; elf] in
  let! symbols_cmd := attr (v_symbols_cmd self) in
  let! c3 := format symbols_cmd [isa; xlen; test; elf] in
  let! simcmd :=
    if v_target_run self then
      let! mv := format "mv veer.signature DUT-{}.signature" ["VeeR"] in
      Ok [v_sim_binary self +:+ " --symbols program.sym"; mv]
    else Ok ["echo " +:+ String "034" ("NO RUN" +:+ String "034" "")] in
  Ok (("cd " +:+ test_dir t +:+ "&& ") +:+ PyString.join "&& " ([c1; c2; c3] ++ simcmd)).

(** The makefile and, when the tests are compiled only, the end of the program.
    [name] is [self.name] of the framework; [exists_] says whether there is a
    makefile from an earlier run. *)
Definition veer_runTests (self : veer) (name : string) (exists_ : string -> bool)
    (testList : list testentry) : result (make * result unit) :=
  let! work_dir := attr (v_work_dir self) in
  let makefile := work_dir +:+ "/Makefile." +:+ drop_last name in
  let removed := exists_ makefile in
  let make_command := "make -k -j" +:+ v_num_jobs self in
  let! targets := map_tests (veer_target self) testList in
  Ok (mkMake makefile removed make_command targets (Some (work_dir, 7200%Z)),
      if negb (v_target_run self) then Raise (SystemExit 0) else Ok tt).

(** ** The plugin of the reference simulator *)

Record spike := mkSpike {
  s_dut_exe : string; s_num_jobs : string; s_pluginpath : string; s_isa_spec : string;
  s_platform_spec : string; s_target_run : bool;
  s_work_dir : option string; s_suite_dir : option string; s_compile_cmd : option string;
  s_xlen : option string; s_isa : option string }.

Definition spike_init `{OS} (config : option ini) : result spike :=
  match config with
  | None => Raise (SystemExit 1)
  | Some config =>
      let dut_exe := join2 (default "" (config !! "PATH")) "spike" in
      let num_jobs := default "1" (config !! "jobs") in
      let! pluginpath := get_item config "pluginpath" in
      let! ispec := get_item config "ispec" in
      let! pspec := get_item config "pspec" in
      let target_run := negb (bool_decide (config !! "target_run" = Some "0")) in
      Ok (mkSpike dut_exe num_jobs (abspath pluginpath) (abspath ispec) (abspath pspec)
            target_run None None None None None)
  end.

Definition spike_initialise (self : spike) (suite work_dir archtest_env : string) : spike :=
  mkSpike (s_dut_exe self) (s_num_jobs self) (s_pluginpath self) (s_isa_spec self)
    (s_platform_spec self) (s_target_run self) (Some work_dir) (Some suite)
    (Some ("riscv64-unknown-elf-gcc -march={0}          -static -mcmodel=medany -fvisibility=hidden -nostdlib -nostartfiles -g         -T "
      +:+ s_pluginpath self +:+ "/env/link.ld         -I " +:+ s_pluginpath self
      +:+ "/env/         -I " +:+ archtest_env +:+ " {2} -o {3} {4}"))
    (s_xlen self) (s_isa self).

Definition spike_build (self : spike) (ispec : hart) : result spike :=
  let xlen := if bool_decide (64%Z ∈ supported_xlen ispec) then "64" else "32" in
  let isa := "rv" +:+ xlen in
  let isa := add_ext ispec isa "I" "i" in
  let isa := add_ext ispec isa "M" "m" in
  let isa := add_ext ispec isa "F" "f" in
  let isa := add_ext ispec isa "D" "d" in
  let isa := add_ext ispec isa "C" "c" in
  let! compile_cmd := attr (s_compile_cmd self) in
  let compile_cmd := compile_cmd +:+ " -mabi=" +:+
    (if bool_decide (64%Z ∈ supported_xlen ispec) then "lp64 " else "ilp32 ") in
  Ok (mkSpike (s_dut_exe self) (s_num_jobs self) (s_pluginpath self) (s_isa_spec self)
        (s_platform_spec self) (s_target_run self) (s_work_dir self) (s_suite_dir self)
        (Some compile_cmd) (Some xlen) (Some isa)).

Definition spike_target (self : spike) (name : string) (t : testentry) : result string :=
  let test := test_path t in
  let elf := "my.elf" in
  let sig_file := join2 (test_dir t) (drop_last name +:+ ".signature") in
  let exec_log_file := join2 (test_dir t) "exec.log" in
  let compile_macros := " -D" +:+ PyString.join " -D" (macros t) in
  let isa := lower (test_isa t) in
  let isa := if negb (contains "zicsr" isa) then isa +:+ "_zicsr" else isa in
  let! compile_cmd := attr (s_compile_cmd self) in
  let! xlen := attr (s_xlen self) in
  let! cmd := format compile_cmd [isa; xlen; test; elf; compile_macros] in
  let! simcmd :=
    if s_target_run self then
      let! self_isa := attr (s_isa self) in
      let! opts := format " -l --log={3} --misaligned --isa={0} +signature={1} +signature-granularity=4 {2}"
                     [self_isa; sig_file; elf; exec_log_file] in
      Ok (s_dut_exe self +:+ opts)
    else Ok ("echo " +:+ String "034" ("NO RUN" +:+ String "034" "")) in
  format "@cd {0}&& {1}&& {2}" [test_dir t; cmd; simcmd].

Definition spike_runTests (self : spike) (name : string) (exists_ : string -> bool)
    (testList : list testentry) : result (make * result unit) :=
  let! work_dir := attr (s_work_dir self) in
  let makefile := work_dir +:+ "/Makefile." +:+ drop_last name in
  let removed := exists_ makefile in
  let make_command := "make -k -j" +:+ s_num_jobs self in
  let! targets := map_tests (spike_target self name) testList in
  Ok (mkMake makefile removed make_command targets (Some (work_dir, 7200%Z)),
      if negb (s_target_run self) then Raise (SystemExit 0) else Ok tt).

(** ** What the targets say *)

(** The extensions that a test is compiled for. *)
Definition march (t : testentry) : string :=
  let isa := lower (test_isa t) in
  if contains "zicsr" isa then isa else isa +:+ "_zicsr".

(** The compiler call for a test, in the directory of the test. *)
Definition compile_line (pluginpath archtest_env : string) (h : hart) (t : testentry) : string :=
  "riscv64-unknown-elf-gcc -march=" +:+ march t +:+
  "          -static -mcmodel=medany -fvisibility=hidden -nostdlib -nostartfiles -g         -T " +:+
  pluginpath +:+ "/env/link.ld         -I " +:+ pluginpath +:+ "/env/         -I " +:+
  archtest_env +:+ " " +:+ test_path t +:+ " -o my.elf  -D" +:+ PyString.join " -D" (macros t) +:+
  " -mabi=" +:+ (if bool_decide (64%Z ∈ supported_xlen h) then "lp64 " else "ilp32 ").

Definition no_braces (s : string) : bool :=
  forallb (fun c => negb (Ascii.eqb c "{" || Ascii.eqb c "}")) (String.list_ascii_of_string s).

(** The name of the instruction set, as the simulator is told it. *)
Definition isa_name (h : hart) : string :=
  "rv" +:+ (if bool_decide (64%Z ∈ supported_xlen h) then "64" else "32") +:+
  (if contains "I" (ISA h) then "i" else "") +:+ (if contains "M" (ISA h) then "m" else "") +:+
  (if contains "F" (ISA h) then "f" else "") +:+ (if contains "D" (ISA h) then "d" else "") +:+
  (if contains "C" (ISA h) then "c" else "").

Definition no_run : string := "echo " +:+ String "034" ("NO RUN" +:+ String "034" "").

(** The targets, as texts. *)
Definition veer_line (v : veer) (env : string) (h : hart) (t : testentry) : string :=
  "cd " +:+ test_dir t +:+ "&& " +:+ compile_line (v_pluginpath v) env h t +:+
  "&& riscv64-unknown-elf-objcopy -O verilog my.elf program.hex" +:+
  "&& riscv64-unknown-elf-nm -B -n my.elf > program.sym&& " +:+
  (if v_target_run v
   then v_sim_binary v +:+ " --symbols program.sym&& mv veer.signature DUT-VeeR.signature"
   else no_run).

Definition spike_line (s : spike) (name env : string) (h : hart) (t : testentry) : string :=
  "@cd " +:+ test_dir t +:+ "&& " +:+ compile_line (s_pluginpath s) env h t +:+ "&& " +:+
  (if s_target_run s
   then s_dut_exe s +:+ " -l --log=" +:+ join2 (test_dir t) "exec.log" +:+ " --misaligned --isa=" +:+
     isa_name h +:+ " +signature=" +:+ join2 (test_dir t) (drop_last name +:+ ".signature") +:+
     " +signature-granularity=4 my.elf"
   else no_run).

(** * Theorems *)

Lemma format_free args num p s :
  no_braces p = true ->
  format_from args Text num (p +:+ s) = let! r := format_from args Text num s in Ok (p +:+ r).
Proof.
  induction p as [|c p IH]; intros Hp.
  { rewrite append_nil_l. by destruct (format_from args Text num s). }
  unfold no_braces in *. cbn [String.list_ascii_of_string forallb] in Hp.
  apply andb_true_iff in Hp as [Hc Hp]. apply negb_true_iff, orb_false_iff in Hc as [H1 H2].
  rewrite append_cons. cbn [format_from]. rewrite H1, H2, IH by done.
  by destruct (format_from args Text num s).
Qed.

(** A field [{n}] of one digit. *)
Lemma format_field args num n v c s :
  is_digit c = true -> number 0 (String c "") = n -> args !! n = Some v -> 
  match num with Auto _ => False | _ => True end ->
  format_from args Text num ("{" +:+ String c "}" +:+ s) =
  let! r := format_from args Text Manual s in Ok (v +:+ r).
Proof.
  intros Hc Hn Hv Hnum. rewrite !append_cons, !append_nil_l. cbn [format_from].
  change (Ascii.eqb "{" "{") with true. cbn [format_from].
  destruct (Ascii.eqb_spec c "{") as [->|_]; [by vm_compute in Hc|].
  destruct (Ascii.eqb_spec c "}") as [->|_]; [by vm_compute in Hc|].
  cbn [format_from]. change (Ascii.eqb "}" "{") with false. change (Ascii.eqb "}" "}") with true.
  rewrite append_nil_l. cbn [field String.list_ascii_of_string forallb]. rewrite Hc. simpl andb.
  unfold get_arg. destruct num; [|done|]; by rewrite Hn, Hv.
Qed.

Lemma format_end args num : format_from args Text num "" = Ok "".
Proof. done. Qed.

Lemma contains_suffix p s t : starts_with p t = true -> contains p (s +:+ t) = true.
Proof.
  intros Ht. induction s as [|c s IH].
  - rewrite append_nil_l. destruct t; cbn [contains]; by rewrite Ht.
  - rewrite append_cons. cbn [contains]. rewrite IH. by case_match.
Qed.

(** Formats piece by piece: the texts without braces and the fields. *)
Ltac format_step :=
  match goal with
  | |- context [format_from ?args Text ?num ("{" +:+ String ?c "}" +:+ ?s)] =>
      erewrite (format_field args num _ _ c s); [|reflexivity..|exact I]
  | |- context [format_from ?args Text ?num (?p +:+ ?s)] =>
      rewrite (format_free args num p s) by (assumption || reflexivity)
  end.

(** The compile command of both plugins. *)
Lemma format_compile pp env mabi isa xlen test elf defs :
  no_braces pp = true -> no_braces env = true -> no_braces mabi = true ->
  format (("riscv64-unknown-elf-gcc -march={0}          -static -mcmodel=medany -fvisibility=hidden -nostdlib -nostartfiles -g         -T "
    +:+ pp +:+ "/env/link.ld         -I " +:+ pp +:+ "/env/         -I " +:+ env +:+ " {2} -o {3} {4}")
    +:+ " -mabi=" +:+ mabi) [isa; xlen; test; elf; defs] =
  Ok ("riscv64-unknown-elf-gcc -march=" +:+ isa +:+
    "          -static -mcmodel=medany -fvisibility=hidden -nostdlib -nostartfiles -g         -T " +:+
    pp +:+ "/env/link.ld         -I " +:+ pp +:+ "/env/         -I " +:+ env +:+ " " +:+ test +:+
    " -o " +:+ elf +:+ " " +:+ defs +:+ " -mabi=" +:+ mabi).
Proof.
  intros Hpp Henv Hmabi. unfold format. rewrite !append_assoc.
  change (" {2} -o {3} {4}" +:+ " -mabi=" +:+ mabi) with
    (" " +:+ "{" +:+ String "2" "}" +:+ " -o " +:+ "{" +:+ String "3" "}" +:+ " " +:+
     "{" +:+ String "4" "}" +:+ " -mabi=" +:+ mabi).
  match goal with |- context [?p +:+ pp +:+ ?q] =>
    change (p +:+ pp +:+ q) with
      ("riscv64-unknown-elf-gcc -march=" +:+ "{" +:+ String "0" "}" +:+
       "          -static -mcmodel=medany -fvisibility=hidden -nostdlib -nostartfiles -g         -T "
       +:+ pp +:+ q) end.
  rewrite <- (append_empty_r mabi). repeat format_step. by rewrite format_end.
Qed.

(** The other commands. *)
Lemma format_convert isa xlen test elf :
  format "riscv64-unknown-elf-objcopy -O verilog {3} program.hex" [isa; xlen; test; elf] =
  Ok ("riscv64-unknown-elf-objcopy -O verilog " +:+ elf +:+ " program.hex").
Proof.
  unfold format. change "riscv64-unknown-elf-objcopy -O verilog {3} program.hex" with
    ("riscv64-unknown-elf-objcopy -O verilog " +:+ "{" +:+ String "3" "}" +:+ " program.hex" +:+ "").
  repeat format_step. by rewrite format_end.
Qed.

Lemma format_symbols isa xlen test elf :
  format "riscv64-unknown-elf-nm -B -n {3} > program.sym" [isa; xlen; test; elf] =
  Ok ("riscv64-unknown-elf-nm -B -n " +:+ elf +:+ " > program.sym").
Proof.
  unfold format. change "riscv64-unknown-elf-nm -B -n {3} > program.sym" with
    ("riscv64-unknown-elf-nm -B -n " +:+ "{" +:+ String "3" "}" +:+ " > program.sym" +:+ "").
  repeat format_step. by rewrite format_end.
Qed.

Lemma format_simulate isa sig_file elf log :
  format " -l --log={3} --misaligned --isa={0} +signature={1} +signature-granularity=4 {2}"
    [isa; sig_file; elf; log] =
  Ok (" -l --log=" +:+ log +:+ " --misaligned --isa=" +:+ isa +:+ " +signature=" +:+ sig_file +:+
      " +signature-granularity=4 " +:+ elf).
Proof.
  unfold format.
  change " -l --log={3} --misaligned --isa={0} +signature={1} +signature-granularity=4 {2}" with
    (" -l --log=" +:+ "{" +:+ String "3" "}" +:+ " --misaligned --isa=" +:+ "{" +:+ String "0" "}" +:+
     " +signature=" +:+ "{" +:+ String "1" "}" +:+ " +signature-granularity=4 " +:+
     "{" +:+ String "2" "}" +:+ "").
  repeat format_step. rewrite format_end. cbn [rbind]. by rewrite !append_empty_r.
Qed.

Lemma format_execute dir cmd sim :
  format "@cd {0}&& {1}&& {2}" [dir; cmd; sim] = Ok ("@cd " +:+ dir +:+ "&& " +:+ cmd +:+ "&& " +:+ sim).
Proof.
  unfold format. change "@cd {0}&& {1}&& {2}" with
    ("@cd " +:+ "{" +:+ String "0" "}" +:+ "&& " +:+ "{" +:+ String "1" "}" +:+ "&& " +:+
     "{" +:+ String "2" "}" +:+ "").
  repeat format_step. rewrite format_end. cbn [rbind]. by rewrite append_empty_r.
Qed.

(** Adding the letters one after the other. *)
Lemma isa_extensions h :
  add_ext h (add_ext h (add_ext h (add_ext h (add_ext h
    ("rv" +:+ if bool_decide (64%Z ∈ supported_xlen h) then "64" else "32")
    "I" "i") "M" "m") "F" "f") "D" "d") "C" "c" = isa_name h.
Proof.
  unfold isa_name, add_ext. generalize (if bool_decide (64%Z ∈ supported_xlen h) then "64" else "32").
  intros xlen. destruct (contains "I" _), (contains "M" _), (contains "F" _), (contains "D" _),
    (contains "C" _); by rewrite ?append_assoc, ?append_empty_r, ?append_nil_l.
Qed.

Lemma map_tests_ok g h tests :
  (forall t, g t = Ok (h t)) -> map_tests g tests = Ok (map h tests).
Proof. intros Hg. induction tests as [|t ts IH]; [done|]. simpl. by rewrite Hg, IH. Qed.

Section Run.
Context (env name : string) (h : hart) (Henv : no_braces env = true).

Lemma veer_target_eq v0 v suite work t :
  no_braces (v_pluginpath v0) = true ->
  veer_build (veer_initialise v0 suite work env) h = Ok v ->
  veer_target v t = Ok (veer_line v0 env h t).
Proof.
  intros Hpp [= <-]. unfold veer_target. cbn [attr v_compile_cmd v_convert_cmd v_symbols_cmd
    v_xlen v_target_run v_sim_binary veer_initialise rbind].
  rewrite format_compile, format_convert, format_symbols; [|done..|by case_bool_decide].
  change (format "mv veer.signature DUT-{}.signature" ["VeeR"]) with
    (Ok "mv veer.signature DUT-VeeR.signature"). cbn [rbind].
  unfold veer_line, compile_line, march. rewrite if_negb.
  destruct (v_target_run v0); cbn [rbind PyString.join app]; by rewrite !append_assoc.
Qed.

Lemma spike_target_eq s0 s suite work t :
  no_braces (s_pluginpath s0) = true ->
  spike_build (spike_initialise s0 suite work env) h = Ok s ->
  spike_target s name t = Ok (spike_line s0 name env h t).
Proof.
  intros Hpp [= <-]. unfold spike_target. cbn [attr s_compile_cmd s_xlen s_target_run s_dut_exe
    s_isa spike_initialise rbind].
  rewrite format_compile, format_simulate; [|done..|by case_bool_decide].
  unfold spike_line, compile_line, march. rewrite if_negb.
  destruct (s_target_run s0); cbn [rbind]; rewrite format_execute, ?isa_extensions.
  all: by rewrite !append_assoc.
Qed.
End Run.

(** Every test is compiled with the control and status registers. *)
Lemma march_zicsr t : contains "zicsr" (march t) = true.
Proof.
  unfold march. destruct (contains "zicsr" (lower (test_isa t))) eqn:E; [done|].
  change "_zicsr" with ("_" +:+ "zicsr"). rewrite <- append_assoc. by apply contains_suffix.
Qed.

(** C29: after initialise and build, and when no path holds a brace, each plugin
    makes one target for each test, in the order of the list, with the text of
    [veer_line] or [spike_line].  Both compile the source of the test with the
    same options and always with zicsr, but each with the linker script and the
    headers under its own pluginpath and for the ABI of its own ISA file: the two
    commands are [compile_line] of two plugin paths, which by config.ini are the
    directories veer and spike, with different scripts in them.  Then each runs
    its program from the directory of the test.  The program of riscof ends after
    the make when the tests are only compiled. *)
Theorem riscof_targets `{OS} v0 s0 env hv hs suite work vname sname exists_ tests :
  no_braces (v_pluginpath v0) = true -> no_braces (s_pluginpath s0) = true ->
  no_braces env = true ->
  (exists v,
    veer_build (veer_initialise v0 suite work env) hv = Ok v /\
    veer_runTests v vname exists_ tests =
      Ok (mkMake (work +:+ "/Makefile." +:+ drop_last vname)
            (exists_ (work +:+ "/Makefile." +:+ drop_last vname))
            ("make -k -j" +:+ v_num_jobs v0) (map (veer_line v0 env hv) tests)
            (Some (work, 7200%Z)), if v_target_run v0 then Ok tt else Raise (SystemExit 0))) /\
  (exists s,
    spike_build (spike_initialise s0 suite work env) hs = Ok s /\
    spike_runTests s sname exists_ tests =
      Ok (mkMake (work +:+ "/Makefile." +:+ drop_last sname)
            (exists_ (work +:+ "/Makefile." +:+ drop_last sname))
            ("make -k -j" +:+ s_num_jobs s0) (map (spike_line s0 sname env hs) tests)
            (Some (work, 7200%Z)), if s_target_run s0 then Ok tt else Raise (SystemExit 0))) /\
  (forall t, contains "zicsr" (march t) = true) /\
  veer_init (Some veer_section) =
    Ok (mkVeer "4" (abspath "veer") (abspath "veer/veer_isa.yaml") (abspath "veer/veer_platform.yaml")
          true (abspath "obj_dir/Vtb_top") None None None None None None None) /\
  spike_init (Some spike_section) =
    Ok (mkSpike "spike" "4" (abspath "spike") (abspath "spike/spike_isa.yaml")
          (abspath "spike/spike_platform.yaml") true None None None None None).
Proof.
  intros Hv Hs Henv. split; [|split; [|split; [exact march_zicsr|by split]]].
  - eexists. split; [reflexivity|]. unfold veer_runTests.
    rewrite (map_tests_ok _ (veer_line v0 env hv)) by (intros t; by eapply veer_target_eq).
    cbn. by destruct (v_target_run v0).
  - eexists. split; [reflexivity|]. unfold spike_runTests.
    rewrite (map_tests_ok _ (spike_line s0 sname env hs)) by (intros t; by eapply spike_target_eq).
    cbn. by destruct (s_target_run s0).
Qed.

(** ** A run *)

#[local] Instance demo_os : OS := {
  cwd := ["home"]; scan_order _ l := l; scan_order_perm _ l := reflexivity l }.

Definition demo_ini : ini :=
  list_to_map [("pluginpath", "riscof/veer"); ("ispec", "isa.yaml"); ("pspec", "platform.yaml");
               ("sim_binary", "obj_dir/Vtb"); ("jobs", "4")].

Example demo_init :
  spike_init (Some demo_ini) = Ok (mkSpike "spike" "4" "/home/riscof/veer" "/home/isa.yaml"
    "/home/platform.yaml" true None None None None None) /\
  veer_init None = Raise (SystemExit 1) /\ veer_init (Some (delete "ispec" demo_ini)) = Raise KeyError.
Proof. by vm_compute. Qed.

Definition demo_veer : veer :=
  mkVeer "4" "/home/riscof/veer" "/home/isa.yaml" "/home/platform.yaml" true "/home/obj_dir/Vtb"
    None None None None None None None.

Definition demo_spike : spike :=
  mkSpike "spike" "4" "/home/spike" "/home/spike/spike_isa.yaml" "/home/spike/spike_platform.yaml" true
    None None None None None.

Definition demo_test : testentry := mkTest "add-01.S" "/work/add" ["XLEN=32"] "RV32I".

Lemma riscof_targets_witness :
  veer_init (Some demo_ini) = Ok demo_veer /\
  (exists v, veer_build (veer_initialise demo_veer "suite" "/work" "/env") (mkHart [32%Z] "RV32IMC") = Ok v /\
   exists m, veer_runTests v "VeeR:" (fun _ => false) [demo_test] = Ok m /\
    map (contains " -I /home/riscof/veer/env/ ") (targets m.1) = [true]) /\
  spike_init (Some spike_section) = Ok demo_spike /\
  exists s, spike_build (spike_initialise demo_spike "suite" "/work" "/env") (mkHart [32%Z] "RV32IMC") = Ok s /\
   exists m, spike_runTests s "spike:" (fun _ => false) [demo_test] = Ok m /\
    map (contains " -I /home/spike/env/ ") (targets m.1) = [true].
Proof.
  destruct (riscof_targets demo_veer demo_spike "/env" (mkHart [32%Z] "RV32IMC")
    (mkHart [32%Z] "RV32IMC") "suite" "/work" "VeeR:" "spike:" (fun _ => false) [demo_test])
    as ((v & Hv & Hrunv) & (s & Hs & Hruns) & _ & _ & Hinit);
    [vm_compute; reflexivity..|].
  split; [vm_compute; reflexivity|]. split; [|split].
  - exists v. split; [exact Hv|]. eexists. split; [exact Hrunv|]. vm_compute. reflexivity.
  - rewrite Hinit. vm_compute. reflexivity.
  - exists s. split; [exact Hs|]. eexists. split; [exact Hruns|]. vm_compute. reflexivity.
Defined.

(** A plugin that was not initialised, or whose path holds a brace, makes no
    targets. *)
Example riscof_errors :
  veer_runTests demo_veer "DUT-VeeR:" (fun _ => false) [] = Raise AttributeError /\
  veer_build demo_veer (mkHart [32%Z] "RV32I") = Raise AttributeError /\
  (let! v := veer_build (veer_initialise demo_veer "suite" "/work" "/env{arch}") (mkHart [32%Z] "RV32I") in
   veer_runTests v "DUT-VeeR:" (fun _ => false) [demo_test]) = Raise KeyError.
Proof. by vm_compute. Qed.

(** Without macros the option -D stands alone before the option for the ABI and
    takes it as its argument. *)
Example riscof_no_macros :
  contains "-o my.elf  -D -mabi=ilp32 "
    (compile_line "/p" "/e" (mkHart [32%Z] "RV32I") (mkTest "t.S" "/w" [] "RV32I")) = true.
Proof. by vm_compute. Qed.
