(* ===== verification/CiScripts.v ===== *)
(** * The scripts of the continuous integration that choose the random tests:
    .github/scripts/riscv_dv_parse_testlist.py and riscv_dv_matrix_include.py

    Opening a file and reading it as YAML is an argument of the definitions.
    [listed] says which tests a list names through its imports;
    [parse_yaml_listed] shows that the recursive generator computes it and that
    it does not end for lists that import each other.  [matrix_combinations] shows
    that the matrix of jobs has every combination of the values of its keys. *)

From S2P Require Import Prelude PyString PyDict.
From stdpp Require Import base list relations strings.
From Stdlib Require Import Ascii ZArith Lia.

#[local] Open Scope string_scope.
#[local] Open Scope list_scope.

(** ** riscv_dv_parse_testlist.py *)

Definition RISCV_DV_HOME : string := "third_party/riscv-dv/".

(** The keys of an entry that the script looks at. *)
Record entry := mkEntry { import : option string; test : option string }.

(** The path that an import names below the home of the generator:
    [test['import'].split('/', 1)[1]]. *)
Definition import_path (p : string) : result string :=
  match cut "/"%char p with Some (_, q) => Ok (RISCV_DV_HOME +:+ q) | None => Raise IndexError end.

Section Testlist.
(** The entries of the YAML file at a path, or the error of reading it. *)
Context (load : string -> result (list entry)).

(** The tests that the generator yields for the entries of a file. *)
Fixpoint parse_entries (parse : string -> result (list string)) (tests : list entry) :
    result (list string) :=
  match tests with
  | [] => Ok []
  | e :: tests =>
      match import e, test e with
      | Some p, _ =>
          let! path := import_path p in
          let! xs := parse path in
          let! ys := parse_entries parse tests in Ok (xs ++ ys)
      | None, Some t => let! ys := parse_entries parse tests in Ok (t :: ys)
      | None, None => parse_entries parse tests
      end
  end.

(** [depth] is the number of frames that the interpreter has left. *)
Fixpoint parse_yaml (depth : nat) (path : string) : result (list string) :=
  match depth with
  | O => Raise RecursionError
  | S depth => let! tests := load path in parse_entries (parse_yaml depth) tests
  end.

(** [l.remove(x)] *)
Fixpoint list_remove (x : string) (l : list string) : result (list string) :=
  match l with
  | [] => Raise ValueError
  | y :: l => if String.eqb x y then Ok l else let! r := list_remove x l in Ok (y :: r)
  end.

(** The file that the arguments of the command line name; [isdir] is
    [os.path.isdir]. *)
Definition testlist_path (isdir : string -> bool) (args : list string) : string :=
  match args with
  | [a] =>
      let testlist := RISCV_DV_HOME +:+ "target/" +:+ a +:+ "/testlist.yaml" in
      if negb (isdir testlist) then a else testlist
  | _ => RISCV_DV_HOME +:+ "yaml/base_testlist.yaml"
  end.

Definition parse_testlist (depth : nat) (isdir : string -> bool) (args : list string) :
    result (list string) :=
  let! testlist := parse_yaml depth (testlist_path isdir args) in
  list_remove "riscv_csr_test" testlist.
End Testlist.

(** ** riscv_dv_matrix_include.py *)

Definition RISCV_DV_TESTS : list string := ["riscv_arithmetic_basic_test"].

Abbreviation dict := (list (string * string)).

Definition base_entries : list dict :=
  map (fun test => [("test", test); ("version", "pyflow")]) RISCV_DV_TESTS.

Definition skipped_keys : list string := ["test"; "version"; "include"; "exclude"].

(** The loop over the keys of the matrix of the job. *)
Fixpoint replicate (entries : list dict) (job_matrix : list (string * list string)) : list dict :=
  match job_matrix with
  | [] => entries
  | (key, values) :: rest =>
      if bool_decide (key ∈ skipped_keys) then replicate entries rest
      else replicate (flat_map (fun e => map (fun v => dict_set key v e) values) entries) rest
  end.

(** The matrix that is printed for the argument; [jobs] is the node [jobs] of the
    workflow file, as the matrix of each job. *)
Definition matrix_include (jobs : string -> result (list (string * list string))) (arg : string) :
    result (list dict) :=
  let arg1 := strip arg in
  if starts_with "run" arg1 then
    let! job_matrix := jobs arg1 in Ok (replicate base_entries job_matrix)
  else if String.eqb arg1 "generate" then Ok base_entries
  else Raise (SystemExit 1).

Example matrix_example :
  matrix_include (fun _ => Ok [("test", ["x"]); ("iss", ["spike"; "renode"]); ("coverage", ["all"])])
    " run-tests " =
  Ok [[("test", "riscv_arithmetic_basic_test"); ("version", "pyflow"); ("iss", "spike"); ("coverage", "all")];
      [("test", "riscv_arithmetic_basic_test"); ("version", "pyflow"); ("iss", "renode"); ("coverage", "all")]].
Proof. reflexivity. Qed.

(** ** What they compute *)

Section Listed.
Context (load : string -> result (list entry)).

(** The tests of a file, and of a list of entries, through the imports. *)
Inductive listed : string -> list string -> Prop :=
  | listed_file path es ts : load path = Ok es -> listed_entries es ts -> listed path ts
with listed_entries : list entry -> list string -> Prop :=
  | listed_nil : listed_entries [] []
  | listed_import e es p path xs ys :
      import e = Some p -> import_path p = Ok path -> listed path xs -> listed_entries es ys ->
      listed_entries (e :: es) (xs ++ ys)
  | listed_test e es t ys :
      import e = None -> test e = Some t -> listed_entries es ys -> listed_entries (e :: es) (t :: ys)
  | listed_other e es ys :
      import e = None -> test e = None -> listed_entries es ys -> listed_entries (e :: es) ys.

Scheme listed_ind2 := Induction for listed Sort Prop
  with listed_entries_ind2 := Induction for listed_entries Sort Prop.

(** A path that a file imports. *)
Definition imports (path path' : string) : Prop :=
  exists es e p, load path = Ok es /\ e ∈ es /\ import e = Some p /\ import_path p = Ok path'.
End Listed.

(** * Theorems *)

Section Parse.
Context (load : string -> result (list entry)).

Lemma parse_entries_mono f g es ts :
  (forall p xs, f p = Ok xs -> g p = Ok xs) ->
  parse_entries f es = Ok ts -> parse_entries g es = Ok ts.
Proof.
  intros Hfg. revert ts. induction es as [|e es IH]; intros ts; [done|]. cbn [parse_entries].
  destruct (import e) as [p|], (test e) as [t|]; try (by apply IH).
  1,2: intros (path & -> & (xs & Hx & (ys & Hy & [= <-])%rbind_ok)%rbind_ok)%rbind_ok;
    simpl; by rewrite (Hfg _ _ Hx), (IH _ Hy).
  intros (ys & Hy & [= <-])%rbind_ok. by rewrite (IH _ Hy).
Qed.

Lemma parse_yaml_mono d d' path ts :
  (d <= d')%nat -> parse_yaml load d path = Ok ts -> parse_yaml load d' path = Ok ts.
Proof.
  revert d' path ts. induction d as [|d IH]; intros [|d'] path ts Hd; try done; [lia|].
  cbn [parse_yaml]. destruct (load path) as [es|]; [|done]. simpl.
  apply parse_entries_mono. intros p xs. apply IH. lia.
Qed.

Lemma parse_yaml_sound d path ts : parse_yaml load d path = Ok ts -> listed load path ts.
Proof.
  revert path ts. induction d as [|d IH]; intros path ts; [done|]. cbn [parse_yaml].
  intros (es & Hes & Hts)%rbind_ok. apply (listed_file load path es); [done|]. clear Hes.
  revert ts Hts. induction es as [|e es IHes]; intros ts; cbn [parse_entries].
  { intros [= <-]. constructor. }
  destruct (import e) as [p|] eqn:Ei.
  - intros (path' & Hp & (xs & Hx & (ys & Hy & [= <-])%rbind_ok)%rbind_ok)%rbind_ok.
    by eapply listed_import; eauto.
  - destruct (test e) as [t|] eqn:Et.
    + intros (ys & Hy & [= <-])%rbind_ok. by apply listed_test; eauto.
    + intros Hy. by apply listed_other; eauto.
Qed.

Lemma parse_yaml_complete path ts :
  listed load path ts -> exists d, parse_yaml load d path = Ok ts.
Proof.
  induction 1 as [path es ts Hes _ [d IH]| |e es p path xs ys Hi Hp _ [d1 IH1] _ [d2 IH2]
    |e es t ys Hi Ht _ [d IH]|e es ys Hi Ht _ [d IH]] using listed_ind2
    with (P0 := fun es ts _ => exists d, parse_entries (parse_yaml load d) es = Ok ts).
  - exists (S d). cbn [parse_yaml]. by rewrite Hes.
  - by exists 0%nat.
  - exists (d1 `max` d2)%nat. cbn [parse_entries]. rewrite Hi, Hp. cbn [rbind].
    rewrite (parse_yaml_mono d1 _ path xs) by (done || lia). cbn [rbind].
    erewrite (parse_entries_mono (parse_yaml load d2)); [done| |done].
    intros q zs. apply parse_yaml_mono. lia.
  - exists d. cbn [parse_entries]. by rewrite Hi, Ht, IH.
  - exists d. cbn [parse_entries]. by rewrite Hi, Ht.
Qed.

(** What a file imports is parsed with fewer frames. *)
Lemma parse_yaml_imports d path path' ts :
  parse_yaml load d path = Ok ts -> imports load path path' ->
  exists d' ts', (d' < d)%nat /\ parse_yaml load d' path' = Ok ts'.
Proof.
  destruct d as [|d]; [done|]. cbn [parse_yaml].
  intros (es & Hes & Hts)%rbind_ok (es' & e & p & Hes' & He & Hi & Hp).
  rewrite Hes in Hes'. injection Hes' as <-. exists d.
  enough (exists xs, parse_yaml load d path' = Ok xs) as [xs Hx] by (exists xs; split; [lia|done]).
  clear Hes. revert ts Hts. induction es as [|e' es IH]; intros ts; cbn [parse_entries].
  { by apply not_elem_of_nil in He. }
  apply elem_of_cons in He as [<-|He].
  - rewrite Hi, Hp. intros (path'' & [= <-] & (xs & Hx & _)%rbind_ok)%rbind_ok. by exists xs.
  - destruct (import e'), (test e').
    1,2: intros (? & _ & (? & _ & (ys & Hy & _)%rbind_ok)%rbind_ok)%rbind_ok; by eapply IH.
    + intros (ys & Hy & _)%rbind_ok. by eapply IH.
    + by apply IH.
Qed.

Lemma parse_yaml_imports_tc path path' :
  tc (imports load) path path' -> forall d ts, parse_yaml load d path = Ok ts ->
  exists d' ts', (d' < d)%nat /\ parse_yaml load d' path' = Ok ts'.
Proof.
  induction 1 as [p q Hpq|p q r Hpq _ IH]; intros d ts Hd.
  - by eapply parse_yaml_imports.
  - destruct (parse_yaml_imports _ _ _ _ Hd Hpq) as (d1 & ts1 & Hd1 & H1).
    destruct (IH _ _ H1) as (d2 & ts2 & Hd2 & H2). exists d2, ts2. split; [lia|done].
Qed.

Lemma parse_yaml_cycle path :
  tc (imports load) path path -> forall d ts, parse_yaml load d path <> Ok ts.
Proof.
  intros Hc d. induction (lt_wf d) as [d _ IH]. intros ts Hd.
  destruct (parse_yaml_imports_tc _ _ Hc _ _ Hd) as (d' & ts' & Hlt & Hd'). by eapply IH.
Qed.
End Parse.

(** C34: the generator of the test list yields exactly the tests that the file
    lists directly and through its imports, in their order, when the imports end
    and the stack is deep enough; a file that imports itself, directly or
    through others, exhausts every stack or fails. *)
Theorem parse_yaml_listed load path :
  (forall ts, (exists depth, parse_yaml load depth path = Ok ts) <-> listed load path ts) /\
  (tc (imports load) path path -> forall depth, is_ok (parse_yaml load depth path) = false).
Proof.
  split.
  - intros ts. split; [|apply parse_yaml_complete]. intros [d Hd]. by eapply parse_yaml_sound.
  - intros Hc depth. destruct (parse_yaml load depth path) as [ts|] eqn:E; [exfalso|done].
    by apply (parse_yaml_cycle load path Hc depth ts).
Qed.

(** The keys of a matrix that make variants. *)
Definition variant_keys (m : list (string * list string)) : list (string * list string) :=
  List.filter (fun kv => negb (bool_decide (kv.1 ∈ skipped_keys))) m.

Lemma replicate_length m es :
  length (replicate es m) = (length es * fold_right (fun kv n => length kv.2 * n) 1 (variant_keys m))%nat.
Proof.
  revert es. induction m as [|[k vs] m IH]; intros es; [simpl; lia|].
  unfold variant_keys. cbn [replicate List.filter fst]. case_bool_decide; cbn [negb].
  - apply IH.
  - rewrite IH. cbn [fold_right snd]. fold (variant_keys m).
    enough (length (flat_map (fun e => map (fun v => dict_set k v e) vs) es)
            = length es * length vs)%nat as -> by lia.
    induction es as [|e es IHe]; [done|]. cbn [flat_map].
    rewrite List.length_app, List.length_map, IHe. simpl. lia.
Qed.

(** Choosing a value for each key. *)
Lemma replicate_elem m es e :
  e ∈ replicate es m <->
  exists e0 (c : list string), e0 ∈ es /\
    Forall2 (fun kv v => v ∈ kv.2) (variant_keys m) c /\
    e = fold_left (fun e kv => dict_set kv.1 kv.2 e) (zip (variant_keys m).*1 c) e0.
Proof.
  revert es. induction m as [|[k vs] m IH]; intros es.
  { split.
    - intros He. by exists e, [].
    - intros (e0 & c & He & Hc & ->). by apply Forall2_nil_inv_l in Hc as ->. }
  unfold variant_keys. cbn [replicate List.filter fst]. fold (variant_keys m).
  case_bool_decide; cbn [negb]; [apply IH|]. rewrite IH. split.
  - intros (e0 & c & He & Hc & ->). apply list_elem_of_In, in_flat_map in He as (e1 & He1 & Hv).
    apply in_map_iff in Hv as (v & <- & Hv). exists e1, (v :: c).
    split; [by apply list_elem_of_In|]. split; [|done]. constructor; [by apply list_elem_of_In|done].
  - intros (e0 & c & He & Hc & ->). apply Forall2_cons_inv_l in Hc as (v & c' & Hv & Hc & ->).
    exists (dict_set k v e0), c'. split; [|done]. apply list_elem_of_In, in_flat_map.
    exists e0. split; [by apply list_elem_of_In|]. apply in_map_iff. exists v.
    split; [done|by apply list_elem_of_In].
Qed.

(** The matrix printed for a job has one entry for each test of the list and
    each choice of values for the keys of the job's matrix, apart from the
    skipped ones: the entries are exactly these, and their number is the product
    of the numbers of values. *)
Theorem matrix_combinations jobs arg m :
  starts_with "run" (strip arg) = true -> jobs (strip arg) = Ok m ->
  exists es, matrix_include jobs arg = Ok es /\
    length es = (length RISCV_DV_TESTS * fold_right (fun kv n => length kv.2 * n) 1 (variant_keys m))%nat /\
    (forall e, e ∈ es <-> exists t (c : list string), t ∈ RISCV_DV_TESTS /\
       Forall2 (fun kv v => v ∈ kv.2) (variant_keys m) c /\
       e = fold_left (fun e kv => dict_set kv.1 kv.2 e) (zip (variant_keys m).*1 c)
             [("test", t); ("version", "pyflow")]).
Proof.
  intros Hrun Hm. unfold matrix_include. rewrite Hrun, Hm. eexists. split; [reflexivity|].
  split; [by rewrite replicate_length|]. intros e. rewrite replicate_elem. unfold base_entries. split.
  - intros (e0 & c & He & Hc & ->). apply list_elem_of_fmap in He as (t & -> & Ht). by exists t, c.
  - intros (t & c & Ht & Hc & ->). exists [("test", t); ("version", "pyflow")], c.
    split; [|done]. apply list_elem_of_fmap. by exists t.
Qed.

Lemma matrix_combinations_witness :
  exists es, matrix_include (fun _ => Ok [("iss", ["spike"; "renode"]); ("include", []); ("priv", ["m"; "mu"])]) "run" = Ok es
    /\ length es = 4%nat.
Proof.
  destruct (matrix_combinations
    (fun _ => Ok [("iss", ["spike"; "renode"]); ("include", []); ("priv", ["m"; "mu"])]) "run"
    [("iss", ["spike"; "renode"]); ("include", []); ("priv", ["m"; "mu"])]) as (es & Hes & Hlen & _);
    [reflexivity..|].
  exists es. split; [exact Hes|]. exact Hlen.
Defined.

(** A standard list is a file, so that the test for a directory fails, and the
    name of the target is taken for a path. *)
Example standard_lists_missed isdir :
  isdir (RISCV_DV_HOME +:+ "target/rv32imc/testlist.yaml") = false ->
  testlist_path isdir ["rv32imc"] = "rv32imc".
Proof.
  intros H. unfold testlist_path.
  change (RISCV_DV_HOME +:+ "target/" +:+ "rv32imc" +:+ "/testlist.yaml")
    with (RISCV_DV_HOME +:+ "target/rv32imc/testlist.yaml"). by rewrite H.
Qed.

Example list_with_import :
  parse_testlist (fun p =>
      if String.eqb p "my.yaml" then
        Ok [mkEntry None (Some "riscv_csr_test"); mkEntry (Some "<riscv_dv_root>/yaml/base.yaml") None]
      else if String.eqb p "third_party/riscv-dv/yaml/base.yaml" then
        Ok [mkEntry None (Some "riscv_jump_test"); mkEntry None None]
      else Raise FileNotFoundError) 3 (fun _ => false) ["my.yaml"] = Ok ["riscv_jump_test"].
Proof. reflexivity. Qed.
