(* ===== verification/Options.v ===== *)
(** * Options and configuration of the whole-core runs

    src/RISC-V-Veer-EL2/verification/top/test_pyuvm/conftest.py (the options of pytest)
    and test_pyuvm.py (the command that a run starts), and
    src/RISC-V-Veer-EL2/configs/veer_config_gen.py (the generator of the core's
    configuration for FuseSoC).  The processes are arguments: what they return. *)

From S2P Require Import Prelude PyString PyDict FileSystem.
From stdpp Require Import base list strings.
From Stdlib Require Import ZArith.

#[local] Open Scope string_scope.
#[local] Open Scope list_scope.

(** ** conftest.py *)

(** A checker that refuses a value raises [pytest.UsageError]. *)
Definition type_checker_cov (value : string) : result string :=
  if str_in value ["all"; "branch"; "toggle"; "functional"] then Ok value else Raise PlainException.

Definition type_checker_sim (value : string) : result string :=
  if str_in value ["verilator"; "vcs"] then Ok value else Raise PlainException.

Record option_decl := { opt_name : string; opt_default : string; opt_type : string -> result string }.

Definition pytest_addoption : list option_decl :=
  [{| opt_name := "--coverage"; opt_default := "toggle"; opt_type := type_checker_cov |};
   {| opt_name := "--sim"; opt_default := "verilator"; opt_type := type_checker_sim |};
   {| opt_name := "--conf_params"; opt_default := "-set build_axi4"; opt_type := Ok |}].

(** The values of all options, for a command line that gives some of them: the last
    one counts, and a default is checked as a value is (the rule of argparse for
    defaults that are strings). *)
Definition parse_options (given : list (string * string)) : result (list (string * string)) :=
  map_result (fun o =>
    let! v := opt_type o (default (opt_default o) (dict_get (opt_name o) (rev given))) in
    Ok (opt_name o, v)) pytest_addoption.

(** [request.config.getoption(name)] *)
Definition getoption (config : list (string * string)) (name : string) : result string :=
  match dict_get name config with Some v => Ok v | None => Raise ValueError end.

(** The fixtures. *)
Definition coverage_opt (config : list (string * string)) : result string := getoption config "--coverage".
Definition sim_opt (config : list (string * string)) : result string := getoption config "--sim".
Definition conf_params (config : list (string * string)) : result string := getoption config "--conf_params".

(** ** test_pyuvm.py *)

Definition UVM_TEST : list string := ["test_irq.test_irq"].

Definition py_command (coverage sim params : string) : string :=
  PyString.join " " ["COVERAGE_TYPE=" +:+ coverage; "SIM=" +:+ sim; "CONF_PARAMS='" +:+ params +:+ "'"; "make clean all"].

(** [shell env command] is the return code of the shell; [p.check_returncode()] raises
    unless it is 0. *)
Definition test_pyuvm (shell : list (string * string) -> string -> Z) (environ : list (string * string))
    (uvm_test : string) (config : list (string * string)) : result unit :=
  let! coverage := coverage_opt config in
  let! sim := sim_opt config in
  let! params := conf_params config in
  if (shell (dict_set "UVM_TEST" uvm_test environ) (py_command coverage sim params) =? 0)%Z then Ok tt else Raise PlainException.

(** A run: the options are parsed, then the test is called. *)
Definition pytest_run (shell : list (string * string) -> string -> Z) (environ given : list (string * string)) : result unit :=
  let! config := parse_options given in
  let! _ := map_result (fun t => test_pyuvm shell environ t config) UVM_TEST in Ok tt.

Lemma fixtures a b c : let config := [("--coverage", a); ("--sim", b); ("--conf_params", c)] in
  coverage_opt config = Ok a /\ sim_opt config = Ok b /\ conf_params config = Ok c.
Proof. by split_and!. Qed.

(** The run starts one command, made of the values given last; the two checked options
    can only have the values of the Makefile, and a refused value starts nothing. *)
Lemma pytest_run_spec shell environ given :
  let value o d := default d (dict_get o (rev given)) in
  let coverage := value "--coverage" "toggle" in
  let sim := value "--sim" "verilator" in
  pytest_run shell environ given =
    if str_in coverage ["all"; "branch"; "toggle"; "functional"] && str_in sim ["verilator"; "vcs"]
    then if (shell (dict_set "UVM_TEST" "test_irq.test_irq" environ) (py_command coverage sim (value "--conf_params" "-set build_axi4")) =? 0)%Z then Ok tt
         else Raise PlainException
    else Raise PlainException.
Proof.
  cbv zeta. unfold pytest_run, parse_options, pytest_addoption. cbn [map_result opt_name opt_default opt_type].
  unfold type_checker_cov. destruct (str_in _ ["all"; _; _; _]); [|done].
  unfold type_checker_sim. destruct (str_in _ ["verilator"; _]); [|done].
  unfold UVM_TEST, test_pyuvm. cbn [map_result rbind].
  destruct (fixtures (default "toggle" (dict_get "--coverage" (rev given)))
    (default "verilator" (dict_get "--sim" (rev given)))
    (default "-set build_axi4" (dict_get "--conf_params" (rev given)))) as (-> & -> & ->).
  cbn [rbind]. by destruct (shell _ _ =? 0)%Z.
Qed.

(** The parameters of the configuration reach the shell between quotes, as they are: a
    value with a quote ends them. *)
Example conf_params_quote :
  py_command "all" "vcs" "-set x=1' make evil '"
  = "COVERAGE_TYPE=all SIM=vcs CONF_PARAMS='-set x=1' make evil '' make clean all".
Proof. reflexivity. Qed.

(** ** veer_config_gen.py *)

(** [os.path.dirname] *)
Fixpoint rstrip_slash (s : string) : string :=
  match s with
  | EmptyString => ""
  | String c s =>
      let s := rstrip_slash s in
      if String.eqb s "" && Ascii.eqb c slash then "" else String c s
  end.

Definition dirname (p : string) : string :=
  match split_char slash p with
  | [] | [_] => ""
  | parts =>
      let head := PyString.join "/" (removelast parts) +:+ "/" in
      if String.eqb (rstrip_slash head) "" then head else rstrip_slash head
  end.

(** A file that the generator reports: its name and its attributes. *)
Definition generated := (string * list (string * string))%type.

Definition files : list generated :=
  [("common_defines.vh", [("copyto", "config/common_defines.vh"); ("file_type", "systemVerilogSource")]);
   ("el2_pdef.vh", [("copyto", "config/el2_pdef.vh"); ("file_type", "systemVerilogSource")]);
   ("el2_param.vh", [("is_include_file", "True"); ("file_type", "systemVerilogSource")]);
   ("pic_map_auto.h", [("is_include_file", "True"); ("file_type", "systemVerilogSource")])].

Section Generator.
Context `{OS}.

(** [VeerConfigGenerator.run]: [call args cwd env] is what [subprocess.call] returns,
    and the result is what is passed to [self.add_files]. *)
Definition VeerConfigGenerator_run (argv0 : string) (environ : list (string * string))
    (config_args : option (list string))
    (call : list string -> string -> list (string * string) -> Z) : result (list generated) :=
  let script_root := abspath (path_join (dirname argv0) [".."]) in
  let env := dict_set "BUILD_PATH" (abspath ".") (dict_set "RV_ROOT" script_root environ) in
  let args := "configs/veer.config" :: default [] config_args in
  let rc := call args script_root env in
  if (rc =? 0)%Z then Ok files else Raise (SystemExit 1).
End Generator.

(** The repository of the script is the root, also when it is called from elsewhere. *)
Definition build_dir : OS :=
  {| cwd := ["build"]; scan_order := fun _ l => l; scan_order_perm := fun _ l => reflexivity l |}.

Example generator_root :
  VeerConfigGenerator_run (H := build_dir) "/repo/configs/veer_config_gen.py" [] (Some ["-target=default"])
    (fun args cwd env => if bool_decide (args = ["configs/veer.config"; "-target=default"] /\ cwd = "/repo"
                                         /\ env = [("RV_ROOT", "/repo"); ("BUILD_PATH", "/build")]) then 0 else 1)%Z
  = Ok files.
Proof. vm_compute. reflexivity. Qed.
