(* ===== verification/ToolFiles.v ===== *)
(** * The programs around the conversions, with their files:
    tools/riscv-dv/code_fixup.py, tools/riscv-dv/veer_log_to_trace_csv.py and
    sw/bin2hex.py

    The conversions are in CodeFixup.v, LogText.v and Bin2Hex.v; here they read
    and write the tree of FileSystem.v.  The writer of the CSV file is a class of
    a submodule and enters as [TraceCsv]. *)

From S2P Require Import Prelude PyString FileSystem.
From S2P Require Utils CodeFixup Bin2Hex TraceLog LogText.
From stdpp Require Import base gmap list strings.
From Stdlib Require Import ZArith Ascii Lia.

#[local] Open Scope Z_scope.
#[local] Open Scope string_scope.
#[local] Open Scope list_scope.
#[local] Open Scope io_scope.

#[local] Abbreviation entry := TraceLog.entry.

(** The writer of a trace: the text it writes at the start, and for an entry. *)
Class TraceCsv := {
  start_new_trace : string;
  write_trace_entry : entry -> result string;
}.

(** The bytes of a file. *)
Definition bytes_of (s : string) : list Z :=
  map (fun c => Z.of_N (N_of_ascii c)) (String.list_ascii_of_string s).

Section Tools.
Context `{OS, TraceCsv}.

(** [main] of code_fixup.py, on the values of [-i] and [-o]. *)
Definition code_fixup (i o : string) : IO unit :=
  do! lines := readlines (resolve i) in
  do! text := ioread (fun _ => CodeFixup.main lines) in
  write_text (resolve o) text.

(** The text that [bin_to_hex] writes. *)
Definition hex_text (lines : list string) : string :=
  String.concat "" (map (fun l => l +:+ newline) lines).

Definition bin_to_hex_files (in_path out_path : string) : IO unit :=
  do! data := read_bytes (resolve in_path) in
  do! lines := ioread (fun _ => Bin2Hex.bin_to_hex (bytes_of data)) in
  write_text (resolve out_path) (hex_text lines).

(** bin2hex.py with the arguments of the command line. *)
Definition bin2hex (args : list string) : IO unit :=
  match args with
  | [in_path; out_path] => bin_to_hex_files in_path out_path
  | _ => ioraise (SystemExit 1)
  end.

(** The entries that follow; [done] is what is in the file already. *)
Fixpoint write_entries (file : path) (done : string) (data : list entry) : IO unit :=
  match data with
  | [] => ioret tt
  | e :: data =>
      do! t := ioread (fun _ => write_trace_entry e) in
      do! _ := write_text file (done +:+ t) in
      write_entries file (done +:+ t) data
  end.

Definition write_csv (file_name : string) (data : list entry) : IO unit :=
  do! _ := write_text (resolve file_name) start_new_trace in
  write_entries (resolve file_name) start_new_trace data.

(** [parse_log] of a file; [fresh] is a new trace entry. *)
Definition parse_log_file (fresh : entry) (file_name : string) : IO (list entry) :=
  do! lines := readlines (resolve file_name) in
  ioread (fun _ => LogText.parse_log_text fresh lines).

(** [main] of veer_log_to_trace_csv.py, on the values of [--log] and [--csv]. *)
Definition log_to_csv (fresh : entry) (log csv : string) : IO unit :=
  do! data := parse_log_file fresh log in
  write_csv csv data.
End Tools.

(** What [$readmemh] makes of the text of a file. *)
Definition readmemh_text (text : string) (mem : Z -> option Z) : option (Z -> option Z) :=
  Bin2Hex.readmemh (split_char LF text) 0 mem.

(** * Theorems *)

(** ** Texts and lines *)

Definition no_breaks (s : string) : bool :=
  forallb (fun c => negb (Ascii.eqb c LF || Ascii.eqb c CR)) (String.list_ascii_of_string s).

(** A line of a text file. *)
Definition is_line (s : string) : Prop := exists body, s = body +:+ newline /\ no_breaks body = true.

Definition line_check (s : string) : bool :=
  String.eqb s (drop_last s +:+ newline) && no_breaks (drop_last s).

Lemma line_check_ok s : line_check s = true -> is_line s.
Proof. intros [H%String.eqb_eq Hb]%andb_true_iff. by exists (drop_last s). Qed.

Definition text_of (lines : list string) : string := String.concat "" lines.

Lemma text_cons l ls : text_of (l :: ls) = l +:+ text_of ls.
Proof. unfold text_of. simpl. destruct ls; [by rewrite append_empty_r|done]. Qed.

Lemma no_breaks_cons c s :
  no_breaks (String c s) = true -> Ascii.eqb c LF = false /\ Ascii.eqb c CR = false /\ no_breaks s = true.
Proof.
  unfold no_breaks. cbn [String.list_ascii_of_string forallb].
  intros [[H1 H2]%negb_true_iff%orb_false_iff H3]%andb_true_iff. done.
Qed.

Lemma universal_newlines_line body s :
  no_breaks body = true ->
  universal_newlines (body +:+ newline +:+ s) = body +:+ newline +:+ universal_newlines s.
Proof.
  induction body as [|c body IH]; intros Hb; [done|].
  apply no_breaks_cons in Hb as (_ & Hc & Hb). rewrite !append_cons. cbn [universal_newlines].
  rewrite Hc, IH by done. done.
Qed.

Lemma universal_newlines_text ls : Forall is_line ls -> universal_newlines (text_of ls) = text_of ls.
Proof.
  induction 1 as [|l ls (body & -> & Hb) _ IH]; [done|].
  rewrite text_cons, append_assoc, universal_newlines_line by done. by rewrite IH.
Qed.

Lemma lines_of_line body s :
  no_breaks body = true -> lines_of (body +:+ newline +:+ s) = (body +:+ newline) :: lines_of s.
Proof.
  induction body as [|c body IH]; intros Hb; [done|].
  apply no_breaks_cons in Hb as (Hc & _ & Hb). rewrite !append_cons. cbn [lines_of].
  by rewrite Hc, IH.
Qed.

(** A text file gives its lines back. *)
Lemma lines_of_text ls : Forall is_line ls -> lines_of (text_of ls) = ls.
Proof.
  induction 1 as [|l ls (body & -> & Hb) _ IH]; [done|].
  rewrite text_cons, append_assoc, lines_of_line by done. by rewrite IH.
Qed.

Lemma split_lines ls :
  Forall (fun l => no_breaks l = true) ls -> split_char LF (hex_text ls) = ls ++ [""].
Proof.
  unfold hex_text. fold (text_of (map (fun l => l +:+ newline) ls)).
  induction 1 as [|l ls Hl _ IH]; [done|]. cbn [map]. rewrite text_cons, append_assoc.
  change (newline +:+ ?s) with (String LF s). rewrite split_char_app, IH.
  rewrite split_char_free; [done|]. unfold no_breaks in Hl.
  apply forallb_forall. intros c Hc. apply (proj1 (forallb_forall _ _) Hl) in Hc.
  apply negb_true_iff, orb_false_iff in Hc as [Hc _]. by rewrite Hc.
Qed.

(** ** A program that turns one file into another *)

(** [k] can be written: it is no directory, and its parent is one. *)
Definition writable (f : fs) (k : path) : Prop :=
  exists d n, k = d ++ [n] /\ good_name n = true /\ is_dir_at f d /\ f !! k <> Some Dir.

Lemma write_writable f k s : wf f -> writable f k -> write_text k s f = (<[k := File s]> f, Ok tt).
Proof. intros Hwf (d & n & -> & _ & Hd & Hk). by apply write_text_wf. Qed.

(** ** code_fixup.py *)

(** The program returns for every file; its output keeps the lines of the input
    in order, and nothing else in the tree changes.  The output may be the
    input file. *)
Theorem code_fixup_program `{OS} f i o text :
  wf f -> resolve i <> [] -> f !! resolve i = Some (File text) -> writable f (resolve o) ->
  exists out,
    CodeFixup.fixup (map CodeFixup.mkAssemblyLine (lines_of (universal_newlines text))) = Ok out /\
    CodeFixup.input_lines out = map CodeFixup.mkAssemblyLine (lines_of (universal_newlines text)) /\
    code_fixup i o f = (<[resolve o := File (text_of (map CodeFixup.out_str out))]> f, Ok tt).
Proof.
  intros Hwf Hne Hi Ho. set (ls := lines_of (universal_newlines text)).
  destruct (CodeFixup.fixup_app (map CodeFixup.mkAssemblyLine ls) []
    (CodeFixup.Forall_parsed ls) [] eq_refl) as (out & Hout & Hin & _).
  rewrite !app_nil_r in Hout. exists out. split; [done|]. split; [done|].
  unfold code_fixup, readlines, iobind, ioread, ioret.
  rewrite (read_text_wf f _ text) by done. unfold CodeFixup.main. fold ls. rewrite Hout. simpl.
  by apply write_writable.
Qed.

(** On its own output the program inserts NOPs again: the NOP, an instruction
    without operands, is none for the parser, while the comment that it writes
    in front of them is taken for one, because of its colon. *)
Example code_fixup_not_idempotent :
  let run text := default "" (match CodeFixup.main (lines_of text) with Ok s => Some s | _ => None end) in
  let once := run ("lw a0, 0(sp)" +:+ newline +:+ "add a0, a0, a1" +:+ newline) in
  length (lines_of once) = 14%nat /\ length (lines_of (run once)) = 25%nat.
Proof. by vm_compute. Qed.

(** ** bin2hex.py *)

Lemma hex_digit_no_break d : 0 <= d < 16 -> no_breaks (String (Bin2Hex.hex_digit d) "") = true.
Proof.
  intros Hd. assert (forallb (fun k => no_breaks (String (Bin2Hex.hex_digit (Z.of_nat k)) "")) (seq 0 16) = true)
    as Hall by (vm_compute; reflexivity).
  rewrite forallb_forall in Hall. specialize (Hall (Z.to_nat d)). rewrite Z2Nat.id in Hall by lia.
  apply Hall, in_seq. lia.
Qed.

Lemma hex_digits_no_breaks n w acc : no_breaks acc = true -> no_breaks (Bin2Hex.hex_digits n w acc) = true.
Proof.
  revert w acc. induction n as [|n IH]; intros w acc Hacc; [done|]. cbn [Bin2Hex.hex_digits]. apply IH.
  pose proof (hex_digit_no_break (w mod 16) ltac:(apply Z.mod_pos_bound; lia)) as Hd.
  unfold no_breaks in *. cbn [String.list_ascii_of_string forallb] in *.
  rewrite andb_true_r in Hd. by rewrite Hd, Hacc.
Qed.

Lemma bin_to_hex_no_breaks data lines :
  Bin2Hex.bin_to_hex data = Ok lines -> Forall (fun l => no_breaks l = true) lines.
Proof.
  unfold Bin2Hex.bin_to_hex. intros (words & _ & [= <-])%rbind_ok. constructor; [done|].
  apply Forall_map, Forall_forall. intros w _. by apply hex_digits_no_breaks.
Qed.

Lemma readmemh_blank lines addr mem :
  Bin2Hex.readmemh (lines ++ [""]) addr mem = Bin2Hex.readmemh lines addr mem.
Proof.
  revert addr mem. induction lines as [|l lines IH]; intros addr mem; [done|].
  destruct l as [|[[] [] [] [] [] [] [] []] l]; cbn [app Bin2Hex.readmemh]; try apply IH.
  all: by destruct (Bin2Hex.hex_value _ 0).
Qed.

Lemma bytes_of_bytes s : Forall Utils.is_byte (bytes_of s).
Proof.
  unfold bytes_of. apply Forall_map, Forall_forall. intros c _. simpl. unfold Utils.is_byte.
  pose proof (N_ascii_bounded c). lia.
Qed.

(** C19: bin2hex.py run with the name of a binary and of a file that can be
    written writes a text from which [$readmemh] loads the words of the binary,
    little-endian and filled up with zeros, at the addresses from 0, and leaves
    the other words of the memory and the other files as they are; with another
    number of arguments it ends with status 1. *)
Theorem bin2hex_program `{OS} f i o data :
  wf f -> resolve i <> [] -> f !! resolve i = Some (File data) -> writable f (resolve o) ->
  (exists text, bin2hex [i; o] f = (<[resolve o := File text]> f, Ok tt) /\
    forall mem, exists mem', readmemh_text text mem = Some mem' /\
      forall a, mem' a = if ((0 <=? a) && (a <? Z.of_nat ((length (bytes_of data) + 3) / 4)))%Z
                         then Some (Bin2Hex.word_of (bytes_of data) (Z.to_nat a)) else mem a) /\
  (forall args, length args <> 2%nat -> bin2hex args f = (f, Raise (SystemExit 1))).
Proof.
  intros Hwf Hne Hi Ho. split.
  - destruct (Bin2Hex.bin_to_hex_loads (bytes_of data) 0 (fun _ => None) (bytes_of_bytes data))
      as (lines & _ & Hlines & _).
    exists (hex_text lines). split.
    + unfold bin2hex, bin_to_hex_files, iobind, ioread. rewrite (read_bytes_wf f _ data) by done.
      rewrite Hlines. by apply write_writable.
    + intros mem. destruct (Bin2Hex.bin_to_hex_loads (bytes_of data) 0 mem (bytes_of_bytes data))
        as (lines' & mem' & Hlines' & Hload & Hmem).
      rewrite Hlines in Hlines'. injection Hlines' as <-. exists mem'. split; [|done].
      unfold readmemh_text. rewrite split_lines by (by eapply bin_to_hex_no_breaks).
      by rewrite readmemh_blank.
  - intros args Hargs. by destruct args as [|a [|b [|c args]]].
Qed.

(** ** veer_log_to_trace_csv.py *)

Lemma write_entries_ok `{TraceCsv} fmt f k done data :
  (forall e, write_trace_entry e = Ok (fmt e)) -> wf f -> writable f k ->
  write_entries k done data (<[k := File done]> f)
  = (<[k := File (done +:+ text_of (map fmt data))]> f, Ok tt).
Proof.
  intros Hfmt Hwf Hk. revert done. induction data as [|e data IH]; intros done.
  { unfold text_of. simpl. by rewrite append_empty_r. }
  cbn [write_entries map]. unfold iobind, ioread. rewrite Hfmt.
  destruct Hk as (d & n & -> & Hgood & Hd & Hn).
  rewrite write_text_wf.
  - rewrite insert_insert, decide_True by done. rewrite IH. by rewrite text_cons, append_assoc.
  - apply wf_insert; [done..|by right].
  - destruct Hd as [->|Hd]; [by left|]. right. rewrite lookup_insert_ne; [done|].
    intros He%(f_equal length). rewrite length_app in He. simpl in He. lia.
  - by rewrite lookup_insert, decide_True.
Qed.

(** C4: the converter, run on the file of a log as the bench prints it, writes
    the trace of the run in program order to the CSV file, after the head line,
    and changes nothing else; a log of a thousand items or more may also end in
    the assertion that bounds the queue, and then nothing is written. *)
Theorem log_to_csv_program `{OS, TraceCsv} fmt fresh f log csv items :
  (forall e, write_trace_entry e = Ok (fmt e)) ->
  TraceLog.e_gpr fresh = [] -> forallb LogText.item_ok items = true ->
  TraceLog.wf_log [] (LogText.item_line <$> items) ->
  forallb line_check (LogText.item_text <$> items) = true ->
  wf f -> resolve log <> [] -> f !! resolve log = Some (File (text_of (LogText.item_text <$> items))) ->
  writable f (resolve csv) ->
  log_to_csv fresh log csv f
    = (<[resolve csv := File (start_new_trace +:+
          text_of (map fmt (TraceLog.expected fresh (LogText.item_line <$> items))))]> f, Ok tt) \/
  (1000 <= length items)%nat /\ log_to_csv fresh log csv f = (f, Raise AssertionError).
Proof.
  intros Hfmt Hf Hok Hw Hlines Hwf Hne Hlog Hcsv.
  assert (Forall is_line (LogText.item_text <$> items)) as Hl.
  { apply Forall_forall. intros l Hin. apply line_check_ok.
    rewrite forallb_forall in Hlines. by apply Hlines, list_elem_of_In. }
  unfold log_to_csv, parse_log_file, readlines, iobind, ioread, ioret.
  rewrite (read_text_wf f _ (text_of (LogText.item_text <$> items))) by done.
  rewrite universal_newlines_text, lines_of_text by done.
  destruct (LogText.parse_items fresh items Hf Hok Hw) as [->|[Hlen ->]]; [left|by right].
  unfold write_csv, iobind. rewrite write_writable by done. by apply write_entries_ok.
Qed.

(** ** Runs *)

#[local] Instance demo_os : OS := {
  cwd := []; scan_order _ l := l; scan_order_perm _ l := reflexivity l }.

#[local] Instance demo_csv : TraceCsv := {
  start_new_trace := "pc" +:+ newline;
  write_trace_entry e := Ok (TraceLog.e_pc e +:+ newline) }.

Definition demo_files : fs :=
  {[ ["log"] := File (text_of (LogText.item_text <$> LogText.example_items));
     ["bin"] := File (String "001" (String "002" "")) ]}.

Lemma demo_wf : wf demo_files.
Proof. apply wf_check_ok. vm_compute. reflexivity. Qed.

Lemma demo_bin_path : resolve "bin" <> [].
Proof. vm_compute. discriminate. Qed.

Lemma demo_bin : demo_files !! resolve "bin" = Some (File (String "001" (String "002" ""))).
Proof. vm_compute. reflexivity. Qed.

Lemma demo_log :
  demo_files !! resolve "log" = Some (File (text_of (LogText.item_text <$> LogText.example_items))).
Proof. vm_compute. reflexivity. Qed.

Lemma demo_writable n :
  good_name n = true -> ["log"] <> [n] -> ["bin"] <> [n] -> writable demo_files [n].
Proof.
  intros Hn H1 H2. exists [], n. split; [done|]. split; [done|]. split; [by left|].
  unfold demo_files. by rewrite lookup_insert_ne, lookup_singleton_ne by congruence.
Qed.

Lemma bin2hex_program_witness :
  exists f' mem', bin2hex ["bin"; "hex"] demo_files = (f', Ok tt) /\
    (exists text, f' !! ["hex"] = Some (File text) /\ readmemh_text text (fun _ => None) = Some mem') /\
    mem' 0%Z = Some 0x0201%Z.
Proof.
  destruct (proj1 (bin2hex_program demo_files "bin" "hex" (String "001" (String "002" "")) 
    demo_wf demo_bin_path demo_bin (demo_writable "hex" eq_refl ltac:(discriminate) ltac:(discriminate)))) as (text & Hrun & Hload).
  destruct (Hload (fun _ => None)) as (mem' & Hm & Hmem).
  eexists _, mem'. split; [exact Hrun|]. split; [exists text; split; [|exact Hm]|].
  - apply lookup_insert_eq.
  - rewrite Hmem. vm_compute. reflexivity.
Defined.

Lemma log_to_csv_program_witness :
  exists f', log_to_csv TraceLog.example_fresh "log" "csv" demo_files = (f', Ok tt) /\
    f' !! ["csv"] = Some (File ("pc" +:+ newline +:+ text_of (map (fun e => TraceLog.e_pc e +:+ newline)
      (TraceLog.expected TraceLog.example_fresh (LogText.item_line <$> LogText.example_items))))).
Proof.
  destruct (log_to_csv_program (fun e => TraceLog.e_pc e +:+ newline) TraceLog.example_fresh demo_files
    "log" "csv" LogText.example_items) as [Hrun|[Hlen _]].
  - reflexivity.
  - reflexivity.
  - vm_compute. reflexivity.
  - apply LogText.example_wf.
  - vm_compute. reflexivity.
  - apply demo_wf.
  - vm_compute. discriminate.
  - apply demo_log.
  - apply demo_writable; [reflexivity|discriminate..].
  - eexists. split; [exact Hrun|]. apply lookup_insert_eq.
  - exfalso. simpl in Hlen. lia.
Defined.
